(* ===== verification/_CoqProject ===== *)
-Q . S2P
Prelude.v
GoStrings.v
GoPath.v
Stow.v
Api.v
StoreSpec.v
VfsStore.v
Samples.v
VfsProofs.v
FileStoreSpec.v
KeyStores.v
FakeStore.v
FakeProofs.v
Provider.v
Certs.v
Kube.v
KubeProofs.v
Cloud.v
CloudProofs.v
Apply.v
ApplyProofs.v
Use.v
UseProofs.v
Upgrade.v
UpgradeProofs.v
Plugins.v
ConfigFile.v
ConfigProofs.v
Sql.v
XormStore.v
XormProofs.v
XormRest.v
StoreFrame.v
ApiServer.v
ApiServerProofs.v
ApiServerSql.v
Options.v
Edit.v
EditProofs.v
Printing.v
Cmds.v
PrintingProofs.v
CmdsProofs.v
Startup.v
MachineUpgrade.v
Terminal.v
ProviderParts.v
ProviderFrame.v
DigitalOcean.v
DigitalOceanProofs.v
Linode.v
LinodeProofs.v
Packet.v
PacketProofs.v
ProviderCodecs.v
Managed.v
CloudApi.v
Gce.v
Dokube.v
Gke.v
AwsApi.v
AwsApiProofs.v
AwsCloud.v
Aws.v
AwsFrame.v
Aks.v
Eks.v
Azure.v
AwsProofs.v
GceProofs.v
AzureProofs.v
ManagedFrame.v
ManagedProofs.v
CloudSamples.v
XormSamples.v
ApiServerSamples.v
CmdsSamples.v
ProviderSamples.v
ManagedSamples.v
MachineSamples.v
