(* ===== verification/Prelude.v ===== *)
(** * Pharmer: a verified model of its core

    Pharmer creates, scales and deletes Kubernetes clusters.  It keeps clusters,
    machines, machine sets and credentials in a store (a directory tree, memory
    or a database), makes a cluster's certificates and ssh key, and drives a
    cloud provider and the new cluster's API server until they agree with what
    is stored.  This development models the Go code under src/ that carries this
    logic and proves what it does.

    ** The parts and their files

    - Prelude.v: Go outcomes (value, error, panic), the state monad [GoM] in
      which a state outlives an error, loops, [pres] (what a program may
      change), and the lemmas and tactics all files share.
    - GoStrings.v, GoPath.v: the functions of Go's strings and path/filepath the
      code uses, executable.
    - Api.v: apis/v1alpha1, the objects and their methods (cluster.go,
      config.go, machine.go, constants.go, operation.go, upgrade.go,
      node_labels.go, util.go), and their properties.
    - Stow.v: the file tree and gomodules.xyz/stow/local, the container the file
      store writes to.
    - StoreSpec.v: store/api.go.  [store_ops] is a resource store over any
      state; [spec_store] the abstract store, a map from names to objects;
      [Refines] says that a backend implements it, and [trace_sim] lifts that to
      sequences of calls.  [api_store] is the whole of the four object stores.
    - VfsStore.v: store/providers/vfs, one Module per file of it, operation by
      operation.  VfsProofs.v: the lemmas on one store; FileStoreSpec.v: the
      whole file store refines the abstract one; KeyStores.v: the certificate and
      ssh key stores.
    - FakeStore.v: store/providers/fake, in memory, with the heap of the objects
      the caller and the store share; FakeProofs.v: its refinement and where it
      differs from the file store.
    - Provider.v: store.ResourceInterface with certificates and ssh keys, and
      [spec_provider], the abstract store the rest is proved against.
    - Certs.v: cloud/utils/certificates.
    - Kube.v: apis/v1alpha1/kubeconfig.go and cloud/utils/kube (clients, waits,
      secrets, bootstrap tokens); KubeProofs.v.
    - Cloud.v: cloud/scope.go, plugins.go, create.go, and Delete of delete.go;
      CloudProofs.v.
    - Apply.v: cloud/apply.go, clusterapi.go, delete.go, util.go; ApplyProofs.v.
    - Use.v: cloud/use.go, over the file tree of Stow.v; UseProofs.v.
    - Upgrade.v: cloud/version.go and the choice of upgrades in cloud/upm.go;
      UpgradeProofs.v.  MachineUpgrade.v: the rest of upm.go, and cloud/ssh.go,
      the upgrade of a machine over ssh.  Terminal.v: the table of upgrades, a
      shell on a node (cmds/cloud/ssh_node.go), the backup of a cluster
      (backup_cluster.go) and the queues of cmds/server.go.
    - Plugins.v: store/plugins.go and the registration of the backends.
    - ConfigFile.v: config/config.go, config/cmds and what cmds/root.go runs before
      a command, over the file tree of Stow.v; ConfigProofs.v (with its samples).
    - Sql.v: tables, and the statements go-xorm makes of a bean.
      XormStore.v: store/providers/xorm, one Module per file of it; XormProofs.v
      (clusters) and XormRest.v (the other stores).
    - StoreFrame.v: what a run of the cloud package can do to a store, whatever
      the provider: it keeps to every relation the store's operations keep to.
    - ApiServer.v: apiserver, the handlers of the messages and the queue they
      come from; ApiServerProofs.v, and ApiServerSql.v with the SQL store under
      them.
    - Options.v: cmds/cloud/options and cmds/credential/options, the flags of
      every command and their checks; Edit.v: utils/editor (the file an editor is
      given is Module EditorFile) and the guards of an edit
      (cmds/cloud/edit_cluster.go); Printing.v: utils/printer and
      utils/describer; Cmds.v: what the commands of cmds/cloud and
      cmds/credential do; EditProofs.v, PrintingProofs.v, CmdsProofs.v.
    - Startup.v: cloud/startupscript.go.
    - ProviderParts.v, ProviderFrame.v: what the providers of machines share, and
      the lemmas on it.  DigitalOcean.v, Linode.v, Packet.v (and their Proofs):
      cloud/providers/digitalocean, linode, packet, each one record [Interface]
      of Cloud.v over a class of the calls of the cloud's SDK.  ProviderCodecs.v:
      the encodings of their objects these files do not use.
    - CloudApi.v, AwsApi.v: apis/v1alpha1/gce, azure and aws, the
      objects of the three clouds with their encodings, tags and ingress rules;
      AwsApiProofs.v.
    - Gce.v: cloud/providers/gce; GceProofs.v.
      AwsCloud.v: cloud/providers/aws/cloud.go, the connector; Aws.v: the rest of
      that directory; AwsFrame.v, AwsProofs.v.
    - Azure.v: cloud/providers/azure, the connector and the cluster manager over a
      class of the calls of Azure's clients; AzureProofs.v.
    - Managed.v: what the providers of managed clusters share.  Dokube.v, Gke.v,
      Aks.v, Eks.v: cloud/providers/dokube, gke, aks, eks, each a class of the
      calls of its SDK and the cluster manager over it; ManagedFrame.v (what all
      of these keep to), ManagedProofs.v.
    - Samples.v, CloudSamples.v, XormSamples.v, ApiServerSamples.v,
      CmdsSamples.v, ProviderSamples.v, ManagedSamples.v, MachineSamples.v: every
      parameter at a concrete value, and the witnesses: each theorem with
      hypotheses applied where they hold.

    ** How they interact

    The cloud package reaches the store through [ResourceInterface] only, so
    Certs.v, Cloud.v and Apply.v are parametric in it, and are proved correct
    over [spec_provider]; VfsStore.v and FakeStore.v are two implementations,
    related to the abstract store by refinement (the memory store's departures
    from it are theorems too).  A provider is the record [Interface] of its
    methods, any function of the environment; what a theorem needs of it is the
    class [ProviderLaws keyed], where [keyed] says which store holds the ssh key
    the provider asks for, and [ProviderRespects], that it does to a store no
    more than the store's own operations, which the API server's theorems ask of
    it.  DigitalOcean, Linode and Packet are shown to be such providers, so that
    the theorems on creating and applying hold of them; the other managers have
    the second.  The API server's handlers and the commands call the cloud
    package on the same scope and store.

    ** What the theorems show

    - Stores: on every sequence of calls with valid names, the file store and
      the memory store answer as the abstract store does, up to the order of
      listings and the text of errors, with two exceptions that are part of what
      is specified: deleting a machine of the file store fails and deletes
      nothing (Delete looks for the wrong path), and updating a machine or a
      machine set of the memory store files it, there or not; certificates and
      ssh keys have the life cycle create, read back, refuse to overwrite,
      delete; the memory store shares objects with its callers.
    - Certificates: what CreateCertsKeys makes, GetPharmerCerts loads; they are
      never made twice.
    - Creating: CreateCluster stores the cluster pending with exactly its
      control-plane machines; an attempt that failed after the certificates can
      never be repeated; CreateMachineSets stores what was asked for; Delete
      marks a cluster, and these two leave the rest of the store.
    - Applying: what each phase leads to, when a cluster becomes ready, that the
      machine sets of a dying cluster are retired before it is taken down, how
      nodes are counted in an
      int32; an upgrade can never find its machine, and the wait for deleted
      machines does not wait.
    - Kubernetes: the polling loop, tokens, kubeconfigs and REST configurations
      that agree, and the merge of a kubeconfig that loses nothing.

    - SQL store: the clusters of an owner are out of reach of other owners that
      have a number, but not of the store of no owner; its machines are in reach
      of all, its certificates have their life cycle; credentials can be neither
      listed nor updated.
    - API server: a create message is acted on once, and what becomes of the
      message in the queue.
    - Commands: which edits are accepted, that a session of the editor writes at
      most once, and what is printed.
    - Node groups and authorities of managed clusters: the steps in which the
      machine sets of a GKE cluster follow its pools, which failures the
      providers lose, and when the authority of a cluster is lost.
    - Networks: the firewall rules of a GCE cluster are made where they are
      missing and never replaced; the VPC of an AWS cluster is made once; its
      security groups stay in part when they were made in part; what taking a
      cluster down leaves; ingress rules and tags compare as sets.  Preparing Azure
      makes the eleven resources of a cluster, and none that was found; the name of
      the public address is at most nine bytes longer than the cluster's.
    - Configuration: the first run writes one that opens the store of files, and
      what set-context writes is what later commands open.
    - Machine upgrades: which machines an upgrade manager can upgrade, and what
      their commands answer; how the table of upgrades is aligned; when a shell
      on a node leaves the terminal raw.
    - Start-up scripts: the versions they can be made for, and the arguments of
      the kubelet that one machine leaves to the others.
    - Providers: the interface the cloud package relies on; the defaults,
      descriptions and account of a cluster at DigitalOcean, made where it is not
      found and removed with the cluster; a master's droplet is made at most
      once; when a cluster of GCE can be deleted; IDs are read back; the errors
      the providers lose.

    ** Bounds and fuel

    [list_pages] (the listing loop of the file store) runs on fuel, one more than
    the number of entries of the tree, and VfsProofs.v shows that this many pages
    always suffice.  [PollImmediate] makes [retries] + 1 attempts, whatever
    number of them fits the timeout.  The name of a temporary file is drawn 10000
    times at most, as the code does.  Two loops of the AWS provider have no bound
    (the pages of policies, and waiting for an instance): they run [patience]
    times, after which the process is taken to be killed, and AwsProofs.v shows
    that the answer is that of the unbounded loop whenever there is one.  Waits
    that the SDK does itself are calls of it.  Goroutines that are started and
    awaited together (the deletions of the GCE provider) run one after the other,
    in an order [go_order] chooses.  Everything else is structurally recursive.
    Go's int32 is a [Z] wrapped by [int32]; uint32 by [uint32].

    ** What is not modelled, and why

    The SDKs of the clouds and the Kubernetes API server are classes over the
    state of the cloud; encoding/json, YAML, PEM, crypto, templates, random
    numbers and the clock are classes with the laws their documentation gives.
    The wiring of the cobra commands around the functions of Cmds.v and
    ConfigFile.v, the texts of templates, manifests and policies (clusterapi.go,
    iam.go, userdata.go and startupscript_templates.go of the providers), the
    controller command and the generated code are left out, being
    constants, wiring or output; logging always is.  The file tree holds no modes.
    Symbolic links and concurrent changes to the
    file tree are outside the file tree's model. *)
From stdpp Require Export base option list gmap strings pretty fin_maps.
From Stdlib Require Export ZArith Lia.

(** ** Go outcomes

    A Go call ends in one of three ways: it returns a value with a nil error,
    it returns a non-nil error, or it panics (nil dereference, slice bounds).
    An [error] is represented by the text of its [Error()] method, because the
    program itself inspects errors by text ([api.ErrAlreadyExist],
    [api.ErrObjectModified]). *)
Abbreviation error := string (only parsing).

Inductive outcome (A : Type) : Type :=
  | Ok (a : A)
  | Err (e : error)
  | Panic (why : string).
Arguments Ok {_} _.
Arguments Err {_} _.
Arguments Panic {_} _.

Definition is_ok {A} (r : outcome A) : bool :=
  match r with Ok _ => true | _ => false end.

Definition is_err {A} (r : outcome A) : bool :=
  match r with Err _ => true | _ => false end.

#[export] Instance outcome_eq_dec `{EqDecision A} : EqDecision (outcome A).
Proof. solve_decision. Defined.

#[export] Instance outcome_ret : MRet outcome := @Ok.

#[export] Instance outcome_bind : MBind outcome := λ A B f r,
  match r with
  | Ok a => f a
  | Err e => Err e
  | Panic w => Panic w
  end.

#[export] Instance outcome_fmap : FMap outcome := λ A B f r,
  match r with
  | Ok a => Ok (f a)
  | Err e => Err e
  | Panic w => Panic w
  end.

(** ** Stateful Go code

    [GoM S A] is a Go function over the mutable state [S].  The state survives
    an error return and a panic: what was written before stays written. *)
Definition GoM (S A : Type) : Type := S → outcome A * S.

#[export] Instance gom_ret {S} : MRet (GoM S) := λ A a s, (Ok a, s).

#[export] Instance gom_bind {S} : MBind (GoM S) := λ A B f m s,
  match m s with
  | (Ok a, s') => f a s'
  | (Err e, s') => (Err e, s')
  | (Panic w, s') => (Panic w, s')
  end.

(** [return nil, err] and a run-time panic. *)
Definition throw {S A} (e : error) : GoM S A := λ s, (Err e, s).
Definition panic {S A} (w : string) : GoM S A := λ s, (Panic w, s).

(** [if b { return nil, err }]. *)
Definition err_if {S} (b : bool) (e : error) : GoM S () :=
  if b then throw e else mret ().

(** [v, err := m]: the error becomes a value the code can test. *)
Definition attempt {S A} (m : GoM S A) : GoM S (A + error) := λ s,
  match m s with
  | (Ok a, s') => (Ok (inl a), s')
  | (Err e, s') => (Ok (inr e), s')
  | (Panic w, s') => (Panic w, s')
  end.

(** [if err != nil { return nil, f(err) }]. *)
Definition on_err {S A} (f : error → error) (m : GoM S A) : GoM S A := λ s,
  match m s with
  | (Ok a, s') => (Ok a, s')
  | (Err e, s') => (Err (f e), s')
  | (Panic w, s') => (Panic w, s')
  end.

(** A pure fallible computation run inside stateful code. *)
Definition lift {S A} (r : outcome A) : GoM S A := λ s, (r, s).

Definition get_state {S} : GoM S S := λ s, (Ok s, s).
Definition gets {S A} (f : S → A) : GoM S A := λ s, (Ok (f s), s).
Definition modify {S} (f : S → S) : GoM S () := λ s, (Ok (), f s).

(** [for _, x := range xs { ... }] with an early [return err]. *)
Fixpoint for_each {S A} (f : A → GoM S ()) (xs : list A) : GoM S () :=
  match xs with
  | [] => mret ()
  | x :: xs' => _ ← f x; for_each f xs'
  end.

(** The same loop, collecting a result per element. *)
Fixpoint map_each {S A B} (f : A → GoM S B) (xs : list A) : GoM S (list B) :=
  match xs with
  | [] => mret []
  | x :: xs' => y ← f x; ys ← map_each f xs'; mret (y :: ys)
  end.

(** Running a component on its part of a larger state. *)
Definition zoom {S T A} (get : S → T) (put : T → S → S) (m : GoM T A) : GoM S A := λ s,
  let '(r, t) := m (get s) in (r, put t s).

(** ** Lemmas on the monad *)
Section gom.
Context {S : Type}.

Lemma bind_ok {A B} (m : GoM S A) (f : A → GoM S B) s s' a :
  m s = (Ok a, s') → (m ≫= f) s = f a s'.
Proof. unfold mbind, gom_bind. by intros ->. Qed.

Lemma bind_err {A B} (m : GoM S A) (f : A → GoM S B) s s' e :
  m s = (Err e, s') → (m ≫= f) s = (Err e, s').
Proof. unfold mbind, gom_bind. by intros ->. Qed.

Lemma bind_ok_inv {A B} (m : GoM S A) (f : A → GoM S B) s s' b :
  (m ≫= f) s = (Ok b, s') → ∃ a s1, m s = (Ok a, s1) ∧ f a s1 = (Ok b, s').
Proof.
  unfold mbind, gom_bind. destruct (m s) as [[a|e|w] s1]; intros H; simplify_eq.
  by exists a, s1.
Qed.

Lemma bind_assoc {A B C} (m : GoM S A) (f : A → GoM S B) (g : B → GoM S C) s :
  ((m ≫= f) ≫= g) s = (m ≫= λ a, f a ≫= g) s.
Proof. unfold mbind, gom_bind. by destruct (m s) as [[]]. Qed.

Lemma bind_mret {A B} (m : GoM S A) (g : A → B) s :
  (x ← m; mret (g x)) s = (g <$> (m s).1, (m s).2).
Proof. unfold mbind, gom_bind. by destruct (m s) as [[]]. Qed.

(** A loop whose body preserves an invariant preserves it, whatever way the
    loop is left. *)
Lemma for_each_inv {A} (f : A → GoM S ()) (I : S → Prop) (xs : list A) :
  (∀ x s, x ∈ xs → I s → I (f x s).2) →
  ∀ s, I s → I (for_each f xs s).2.
Proof.
  induction xs as [|x xs IH]; intros Hf s Hs; [done|]. simpl.
  unfold mbind, gom_bind. pose proof (Hf x s ltac:(left) Hs) as Hx.
  destruct (f x s) as [[[]|e|w] s1]; simpl in *; [|done..].
  apply IH; [|done]. intros; apply Hf; [by right|done].
Qed.

Lemma map_each_ext {A B} (f g : A → GoM S B) (xs : list A) s :
  (∀ x s, x ∈ xs → f x s = g x s) → map_each f xs s = map_each g xs s.
Proof.
  revert s. induction xs as [|x xs IH]; intros s Hfg; [done|]. simpl.
  unfold mbind, gom_bind. rewrite (Hfg x s) by left.
  destruct (g x s) as [[b|e|w] s1]; try done.
  rewrite IH; [done|]. intros; apply Hfg; by right.
Qed.

(** A loop whose body is a total read is a [map]. *)
Lemma map_each_pure {A B} (f : A → GoM S B) (h : A → B) (xs : list A) s :
  (∀ x, x ∈ xs → f x s = (Ok (h x), s)) → map_each f xs s = (Ok (h <$> xs), s).
Proof.
  induction xs as [|x xs IH]; intros Hf; [done|]. simpl.
  rewrite (bind_ok _ _ _ _ _ (Hf x ltac:(left))).
  rewrite (bind_ok _ _ _ _ _ (IH ltac:(intros; apply Hf; by right))). done.
Qed.

(** The same when the result is only known on the listed elements. *)
Lemma map_each_omap {A B C} (f : C → GoM S B) (g : A → C) (h : A → option B) (xs : list A) s :
  (∀ x, x ∈ xs → ∃ b, f (g x) s = (Ok b, s) ∧ h x = Some b) →
  map_each f (g <$> xs) s = (Ok (omap h xs), s).
Proof.
  induction xs as [|x xs IH]; intros Hf; [done|]. simpl.
  destruct (Hf x ltac:(left)) as (b & Hb & Hx). rewrite Hx.
  rewrite (bind_ok _ _ _ _ _ Hb).
  rewrite (bind_ok _ _ _ _ _ (IH ltac:(intros; apply Hf; by right))). done.
Qed.

End gom.

Lemma err_if_false {S A} (b : bool) e (k : GoM S A) :
  b = false → (_ ← err_if b e; k) = k.
Proof. by intros ->. Qed.

Lemma err_if_true {S A} (b : bool) e (k : GoM S A) s :
  b = true → (_ ← err_if b e; k) s = (Err e, s).
Proof. by intros ->. Qed.

Lemma on_err_ok_inv {S A} (f : error → error) (m : GoM S A) s s' a :
  on_err f m s = (Ok a, s') → m s = (Ok a, s').
Proof. unfold on_err. by destruct (m s) as [[?|?|?] ?]. Qed.

Lemma on_err_ok {S A} (f : error → error) (m : GoM S A) s s' a :
  m s = (Ok a, s') → on_err f m s = (Ok a, s').
Proof. unfold on_err. by intros ->. Qed.

Lemma on_err_err {S A} (f : error → error) (m : GoM S A) s s' e :
  m s = (Err e, s') → on_err f m s = (Err (f e), s').
Proof. unfold on_err. by intros ->. Qed.

Lemma attempt_ok {S A} (m : GoM S A) s s' a :
  m s = (Ok a, s') → attempt m s = (Ok (inl a), s').
Proof. unfold attempt. by intros ->. Qed.

Lemma attempt_err {S A} (m : GoM S A) s s' e :
  m s = (Err e, s') → attempt m s = (Ok (inr e), s').
Proof. unfold attempt. by intros ->. Qed.

Lemma omap_fmap_list {A B C} (f : A → B) (g : B → option C) (l : list A) :
  omap g (f <$> l) = omap (λ x, g (f x)) l.
Proof.
  induction l as [|x l IH]; [done|]. rewrite fmap_cons. unfold omap in *.
  cbn [list_omap]. by rewrite IH.
Qed.

(** Results paired with a key that is unique in the list are unique. *)
Lemma NoDup_omap_keyed {K A B} (f : A → option B) (l : list (K * A)) :
  NoDup l.*1 → NoDup (omap (λ ka, pair ka.1 <$> f ka.2) l).
Proof.
  intros Hnd. apply (NoDup_fmap_1 fst). induction l as [|[k a] l IH]; [constructor|].
  rewrite fmap_cons in Hnd. apply NoDup_cons in Hnd as [Hk Hnd]. specialize (IH Hnd).
  unfold omap in *. cbn [list_omap fst snd]. destruct (f a) as [b|]; [|done].
  simpl. constructor; [|done].
  intros ([k' b'] & -> & Hin)%list_elem_of_fmap. apply Hk.
  apply list_elem_of_omap in Hin as ([k2 a'] & Hin & Hs). simpl in Hs.
  apply fmap_Some in Hs as (b2 & _ & [= <- <-]).
  apply list_elem_of_fmap. by exists (k', a').
Qed.

Lemma omap_snd {K A B} (f : A → option B) (l : list (K * A)) :
  (omap (λ ka, pair ka.1 <$> f ka.2) l).*2 = omap (λ ka, f ka.2) l.
Proof.
  induction l as [|[k a] l IH]; [done|]. unfold omap in *. cbn [list_omap fst snd].
  rewrite <-IH. by destruct (f a).
Qed.

Lemma snoc_ne {A} (l : list A) x : l ++ [x] ≠ [].
Proof. by destruct l. Qed.

(** Symbolic execution: run the first statement of a block by a known result. *)
Create HintDb gom.
#[export] Hint Resolve on_err_ok on_err_err attempt_ok attempt_err : gom.

Ltac go_ok := erewrite bind_ok by (eauto with gom).
Ltac go_err := erewrite bind_err by (eauto with gom).

(** ** What a computation may change

    [pres R m]: whatever way [m] ends, the state it leaves is [R]-related to the
    one it started from. *)
Definition pres {S A} (R : relation S) (m : GoM S A) : Prop := ∀ s, R s (m s).2.

Section pres.
Context {S : Type} (R : relation S) `{!PreOrder R}.

Lemma pres_bind {A B} (m : GoM S A) (f : A → GoM S B) :
  pres R m → (∀ a, pres R (f a)) → pres R (m ≫= f).
Proof.
  intros Hm Hf s. unfold mbind, gom_bind. specialize (Hm s).
  destruct (m s) as [[a|e|w] s1]; [|done..]. cbn in Hm. etrans; [done|apply Hf].
Qed.

Lemma pres_ret {A} (a : A) : pres R (mret a : GoM S A).
Proof. intros s. reflexivity. Qed.

Lemma pres_lift {A} (r : outcome A) : pres R (lift r : GoM S A).
Proof. intros s. reflexivity. Qed.

Lemma pres_throw {A} e : pres R (throw e : GoM S A).
Proof. intros s. reflexivity. Qed.

Lemma pres_panic {A} w : pres R (panic w : GoM S A).
Proof. intros s. reflexivity. Qed.

Lemma pres_gets {A} (f : S → A) : pres R (gets f).
Proof. intros s. reflexivity. Qed.

Lemma pres_err_if b e : pres R (err_if b e : GoM S ()).
Proof. intros s. by destruct b. Qed.

Lemma pres_on_err {A} f (m : GoM S A) : pres R m → pres R (on_err f m).
Proof. intros Hm s. specialize (Hm s). unfold on_err. by destruct (m s) as [[]]. Qed.

Lemma pres_attempt {A} (m : GoM S A) : pres R m → pres R (attempt m).
Proof. intros Hm s. specialize (Hm s). unfold attempt. by destruct (m s) as [[]]. Qed.

Lemma pres_for_each {A} (f : A → GoM S ()) l : (∀ a, pres R (f a)) → pres R (for_each f l).
Proof. intros Hf. induction l as [|a l IH]; [apply pres_ret|]. by apply pres_bind. Qed.
End pres.

Create HintDb pres.
(** Splits a program into its statements and tries the known ones. *)
Ltac pres_step :=
  first
    [ progress intros
    | solve [auto with pres]
    | apply pres_ret; exact _ | apply pres_lift; exact _ | apply pres_throw; exact _
    | apply pres_panic; exact _ | apply pres_gets; exact _ | apply pres_err_if; exact _
    | apply pres_bind; [exact _| | ] | apply pres_on_err | apply pres_attempt
    | apply pres_for_each; [exact _| ]
    | match goal with
      | |- pres _ (if decide ?P then _ else _) => destruct (decide P)
      | |- pres _ (if ?b then _ else _) => destruct b
      | |- pres _ (match ?x with _ => _ end) => destruct x
      end ].
Ltac pres_tac := repeat pres_step.
