(* ===== verification/GoStrings.v ===== *)
(** * The parts of Go's [strings] and [fmt] packages the program uses.

    Strings are byte strings.  [ToLower] and [TrimSpace] are the ASCII
    restriction of Go's functions. *)
From stdpp Require Import base list strings pretty.
From Stdlib Require Import Ascii.
From S2P Require Import Prelude.

#[local] Arguments String.append !_ _ / : simpl nomatch.

(** ** strings.HasPrefix, strings.Contains *)
Fixpoint HasPrefix (s p : string) {struct p} : bool :=
  match p, s with
  | "", _ => true
  | String a p', String b s' => if decide (a = b) then HasPrefix s' p' else false
  | String _ _, "" => false
  end.

(** [strings.TrimPrefix] *)
Definition TrimPrefix (s p : string) : string :=
  if HasPrefix s p then String.substring (String.length p) (String.length s - String.length p) s else s.

Fixpoint Contains (s sub : string) : bool :=
  HasPrefix s sub ||
  match s with
  | "" => false
  | String _ s' => Contains s' sub
  end.

(** ** strings.Split on a one-byte separator, strings.Join *)
Fixpoint Split (sep : ascii) (s : string) : list string :=
  match s with
  | "" => [""]
  | String c s' =>
      if decide (c = sep) then "" :: Split sep s'
      else match Split sep s' with
           | [] => [String c ""]
           | w :: ws => String c w :: ws
           end
  end.

Fixpoint Join (sep : string) (l : list string) : string :=
  match l with
  | [] => ""
  | [x] => x
  | x :: l' => x +:+ sep +:+ Join sep l'
  end.

(** ** strings.Replace(s, old, new, -1) for one-byte [old] and [new] *)
Fixpoint ReplaceByte (s : string) (old new : ascii) : string :=
  match s with
  | "" => ""
  | String c s' => String (if decide (c = old) then new else c) (ReplaceByte s' old new)
  end.

(** ** strings.ToLower, strings.TrimSpace (ASCII) *)
Definition lower_byte (c : ascii) : ascii :=
  let n := nat_of_ascii c in
  if (65 <=? n)%nat && (n <=? 90)%nat then ascii_of_nat (n + 32)%nat else c.

Fixpoint ToLower (s : string) : string :=
  match s with
  | "" => ""
  | String c s' => String (lower_byte c) (ToLower s')
  end.

Definition is_space (c : ascii) : bool :=
  let n := nat_of_ascii c in
  (n =? 32)%nat || (9 <=? n)%nat && (n <=? 13)%nat.

Fixpoint trim_left (s : string) : string :=
  match s with
  | String c s' => if is_space c then trim_left s' else s
  | "" => ""
  end.

Fixpoint trim_right (s : string) : string :=
  match s with
  | "" => ""
  | String c s' =>
      match trim_right s' with
      | "" => if is_space c then "" else String c ""
      | t => String c t
      end
  end.

Definition TrimSpace (s : string) : string := trim_right (trim_left s).

(** ** A byte occurs in a string *)
Fixpoint has_byte (c : ascii) (s : string) : bool :=
  match s with
  | "" => false
  | String d s' => bool_decide (d = c) || has_byte c s'
  end.

(** ** Order on strings, as [sort.Strings] compares them (bytewise) *)
Definition string_leb (a b : string) : bool := String.leb a b.

(** ** Lemmas *)
Lemma append_assoc (a b c : string) : (a +:+ b) +:+ c = a +:+ (b +:+ c).
Proof. induction a as [|x a IH]; simpl; [done|]. by rewrite IH. Qed.

Lemma append_nil_r (a : string) : a +:+ "" = a.
Proof. induction a as [|x a IH]; simpl; [done|]. by rewrite IH. Qed.

Lemma append_length (a b : string) :
  String.length (a +:+ b) = (String.length a + String.length b)%nat.
Proof. induction a as [|x a IH]; simpl; [done|]. by rewrite IH. Qed.

Lemma append_inj_r (a b c : string) : a +:+ c = b +:+ c → a = b.
Proof.
  revert b. induction a as [|x a IH]; intros [|y b] H; simpl in *; [done|..].
  - apply (f_equal String.length) in H. simpl in H. rewrite append_length in H. lia.
  - apply (f_equal String.length) in H. simpl in H. rewrite append_length in H. lia.
  - injection H as -> H. f_equal. by apply IH.
Qed.

Lemma append_eq_nil (a b : string) : a +:+ b = "" → a = "" ∧ b = "".
Proof. by destruct a. Qed.

Lemma has_byte_app c a b : has_byte c (a +:+ b) = has_byte c a || has_byte c b.
Proof. induction a as [|x a IH]; simpl; [done|]. by rewrite IH, orb_assoc. Qed.

Lemma HasPrefix_refl_app p s : HasPrefix (p +:+ s) p = true.
Proof. induction p as [|a p IH]; simpl; [by destruct s|]. by rewrite decide_True. Qed.

Lemma HasPrefix_app s p : HasPrefix s p = true ↔ ∃ t, s = p +:+ t.
Proof.
  split.
  - revert s. induction p as [|a p IH]; intros s; simpl; [by exists s|].
    destruct s as [|b s]; [done|]. case_decide; [|done]. subst.
    intros (t & ->)%IH. by exists t.
  - intros (t & ->). apply HasPrefix_refl_app.
Qed.

Lemma Contains_prefix s sub : HasPrefix s sub = true → Contains s sub = true.
Proof. intros H. by destruct s; cbn [Contains]; rewrite H. Qed.

Lemma Contains_app_r a s sub : Contains s sub = true → Contains (a +:+ s) sub = true.
Proof.
  intros H. induction a as [|x a IH]; [done|]. simpl. rewrite IH. apply orb_true_r.
Qed.

Lemma HasPrefix_app_l s b p : HasPrefix s p = true → HasPrefix (s +:+ b) p = true.
Proof. rewrite !HasPrefix_app. intros (t & ->). exists (t +:+ b). apply append_assoc. Qed.

Lemma Contains_app_l s b sub : Contains s sub = true → Contains (s +:+ b) sub = true.
Proof.
  induction s as [|x s IH]; simpl; intros H.
  - rewrite orb_false_r in H. by apply Contains_prefix, (HasPrefix_app_l "" b sub).
  - apply orb_true_iff in H as [H|H].
    + apply orb_true_iff; left. by apply (HasPrefix_app_l (String x s) b sub).
    + apply orb_true_iff; right. by apply IH.
Qed.

(** ** strconv.Atoi, to an int of 64 bits *)
Definition digit_value (c : ascii) : option Z :=
  let n := nat_of_ascii c in
  if (48 <=? n)%nat && (n <=? 57)%nat then Some (Z.of_nat n - 48)%Z else None.

Fixpoint digits_value (s : string) (acc : Z) : option Z :=
  match s with
  | "" => Some acc
  | String c s => d ← digit_value c; digits_value s (10 * acc + d)%Z
  end.

Definition Atoi (s : string) : outcome Z :=
  let '(negative, digits) :=
    match s with
    | String c rest => if decide (c = "-"%char) then (true, rest)
                       else if decide (c = "+"%char) then (false, rest) else (false, s)
    | "" => (false, "")
    end in
  match digits with
  | "" => Err ("strconv.Atoi: parsing " +:+ s +:+ ": invalid syntax")
  | _ => match digits_value digits 0 with
         | None => Err ("strconv.Atoi: parsing " +:+ s +:+ ": invalid syntax")
         | Some n =>
             let v := (if negative : bool then - n else n)%Z in
             if bool_decide (-9223372036854775808 ≤ v < 9223372036854775808)%Z then Ok v
             else Err ("strconv.Atoi: parsing " +:+ s +:+ ": value out of range")
         end
  end.

(** ** Split and Join *)
Lemma Split_nonempty sep s : Split sep s ≠ [].
Proof. destruct s as [|c s]; simpl; [done|]. case_decide; [done|]. by destruct (Split sep s). Qed.

Lemma Split_app sep a b :
  Split sep (a +:+ String sep b) = Split sep a ++ Split sep b.
Proof.
  induction a as [|c a IH]; simpl; [by rewrite decide_True|].
  case_decide; [by rewrite IH|]. rewrite IH.
  pose proof (Split_nonempty sep a). by destruct (Split sep a).
Qed.

Lemma Split_no_sep sep s : has_byte sep s = false → Split sep s = [s].
Proof.
  induction s as [|c s IH]; simpl; [done|]. intros [H1 H2]%orb_false_iff.
  rewrite decide_False by (by apply bool_decide_eq_false in H1). by rewrite IH.
Qed.

Lemma Split_Join sep (l : list string) :
  l ≠ [] → Forall (λ s, has_byte sep s = false) l →
  Split sep (Join (String sep "") l) = l.
Proof.
  intros Hne Hl. induction Hl as [|x [|y l] Hx Hl IH]; [done|by apply Split_no_sep|].
  change (Join (String sep "") (x :: y :: l))
    with (x +:+ (String sep "") +:+ Join (String sep "") (y :: l)).
  change ((String sep "") +:+ Join (String sep "") (y :: l))
    with (String sep (Join (String sep "") (y :: l))).
  rewrite Split_app, Split_no_sep, IH by done. done.
Qed.

Lemma Join_app sep (l k : list string) :
  l ≠ [] → k ≠ [] → Join sep (l ++ k) = Join sep l +:+ sep +:+ Join sep k.
Proof.
  intros Hl Hk. induction l as [|x [|y l] IH]; [done|by destruct k|].
  change ((x :: y :: l) ++ k) with (x :: y :: (l ++ k)).
  change (Join sep (x :: y :: l)) with (x +:+ sep +:+ Join sep (y :: l)).
  change (Join sep (x :: y :: (l ++ k))) with (x +:+ sep +:+ Join sep ((y :: l) ++ k)).
  rewrite IH by done. by rewrite !append_assoc.
Qed.

Lemma Join_cons sep x (l : list string) :
  l ≠ [] → Join sep (x :: l) = x +:+ sep +:+ Join sep l.
Proof. by destruct l. Qed.

(** ** ReplaceByte *)
Lemma ReplaceByte_absent s old new : old ≠ new → has_byte old (ReplaceByte s old new) = false.
Proof.
  intros Hne. induction s as [|c s IH]; simpl; [done|]. rewrite IH, orb_false_r.
  apply bool_decide_eq_false. case_decide; congruence.
Qed.

Lemma ReplaceByte_id s old new : has_byte old s = false → ReplaceByte s old new = s.
Proof.
  induction s as [|c s IH]; simpl; [done|]. intros [H1%bool_decide_eq_false H2]%orb_false_iff.
  rewrite decide_False by done. by rewrite IH.
Qed.

Create Rewrite HintDb go_strings.
#[export] Hint Rewrite append_assoc append_nil_r has_byte_app : go_strings.
Create HintDb go_str.
#[export] Hint Resolve Contains_prefix Contains_app_r Contains_app_l HasPrefix_refl_app : go_str.
