(* ===== verification/GoPath.v ===== *)
(** * Go's [path/filepath] on Unix: [Clean], [Join], [Dir], [Base], [IsAbs]

    [Clean] is given by the rules its documentation states (drop empty and [.]
    elements, let [..] cancel the element before it, drop [..] at the root,
    turn an empty result into [.]); [Join] is [Clean] of the elements joined
    with [/], leading empty elements dropped.

    The lemmas reduce these functions on _plain_ elements (no slash, not
    empty, not [.] or [..]) to list append. *)
From stdpp Require Import base list strings.
From Stdlib Require Import Ascii.
From S2P Require Import Prelude GoStrings.

Definition slash : ascii := "/"%char.

(** ** Elements of a path *)
Definition comp_step (rooted : bool) (stack : list string) (c : string) : list string :=
  if decide (c = "" ∨ c = ".") then stack
  else if decide (c = "..") then
    match stack with
    | [] => if rooted then [] else [".."]
    | top :: rest => if decide (top = "..") then ".." :: stack else rest
    end
  else c :: stack.

Definition clean_comps (rooted : bool) (cs : list string) : list string :=
  rev (foldl (comp_step rooted) [] cs).

(** ** filepath.IsAbs, filepath.Clean, filepath.Join *)
Definition IsAbs (s : string) : bool := HasPrefix s "/".

Definition abs_path (cs : list string) : string := "/" +:+ Join "/" cs.

Definition Clean (s : string) : string :=
  let cs := clean_comps (IsAbs s) (Split slash s) in
  if IsAbs s then abs_path cs
  else match cs with [] => "." | _ => Join "/" cs end.

Fixpoint PathJoin (elems : list string) : string :=
  match elems with
  | [] => ""
  | "" :: rest => PathJoin rest
  | e :: rest => Clean (Join "/" (e :: rest))
  end.

(** filepath.Dir: all but the last element, cleaned. *)
Definition PathDir (s : string) : string :=
  Clean (Join "/" (removelast (Split slash s) ++ [""])).

(** The element list an OS call resolves a path string to, for a process whose
    working directory is [cwd] (no symbolic links). *)
Definition resolve (cwd : list string) (s : string) : list string :=
  if IsAbs s then clean_comps true (Split slash s)
  else clean_comps true (cwd ++ Split slash s).

(** ** Plain elements *)
Definition plain (c : string) : Prop :=
  c ≠ "" ∧ c ≠ "." ∧ c ≠ ".." ∧ has_byte slash c = false.

#[export] Instance plain_dec c : Decision (plain c).
Proof. unfold plain. apply _. Defined.

Lemma plain_no_slash c : plain c → has_byte slash c = false.
Proof. by intros (_&_&_&?). Qed.

Lemma plain_long (s : string) : has_byte slash s = false → 3 ≤ String.length s → plain s.
Proof. intros Hs Hl. split_and!; [intros ->; simpl in Hl; lia..|done]. Qed.

Lemma plain_ext (n ext : string) :
  has_byte slash n = false → has_byte slash ext = false → 3 ≤ String.length ext →
  plain (n +:+ ext).
Proof.
  intros Hn He Hlen. apply plain_long; [by rewrite has_byte_app, Hn, He|].
  rewrite append_length. lia.
Qed.

Lemma foldl_plain r st cs :
  Forall plain cs → foldl (comp_step r) st cs = rev cs ++ st.
Proof.
  intros H. revert st. induction H as [|c cs (H1&H2&H3&H4) Hcs IH]; intros st; [done|].
  simpl. rewrite IH. unfold comp_step. rewrite !decide_False by naive_solver.
  by rewrite <-app_assoc.
Qed.

Lemma clean_comps_plain r cs : Forall plain cs → clean_comps r cs = cs.
Proof.
  intros H. unfold clean_comps. rewrite foldl_plain, app_nil_r by done.
  apply rev_involutive.
Qed.

Lemma foldl_skip_empty r st cs : foldl (comp_step r) st ("" :: cs) = foldl (comp_step r) st cs.
Proof. simpl. unfold comp_step at 2. by rewrite decide_True by auto. Qed.

Lemma Split_plain_Join cs :
  cs ≠ [] → Forall plain cs → Split slash (Join "/" cs) = cs.
Proof.
  intros Hne H. apply (Split_Join slash); [done|].
  eapply Forall_impl; [done|]. apply plain_no_slash.
Qed.

(** A path of plain elements does not start with a slash. *)
Lemma IsAbs_Join_plain cs : cs ≠ [] → Forall plain cs → IsAbs (Join "/" cs) = false.
Proof.
  intros Hne H. destruct (IsAbs (Join "/" cs)) eqn:E; [|done].
  apply HasPrefix_app in E as (t & Et).
  pose proof (Split_plain_Join cs Hne H) as Hs. rewrite Et in Hs.
  change ("/" +:+ t) with (String slash t) in Hs. simpl in Hs. subst cs.
  inversion H as [|? ? [Hp _] _]; subst. done.
Qed.

Lemma abs_path_IsAbs cs : IsAbs (abs_path cs) = true.
Proof. apply HasPrefix_refl_app. Qed.

Lemma Split_abs_path cs :
  cs ≠ [] → Forall plain cs → Split slash (abs_path cs) = "" :: cs.
Proof.
  intros Hne H. change (abs_path cs) with (String slash (Join "/" cs)). simpl.
  by rewrite Split_plain_Join.
Qed.

Lemma abs_path_inj cs ds :
  cs ≠ [] → ds ≠ [] → Forall plain cs → Forall plain ds →
  abs_path cs = abs_path ds → cs = ds.
Proof.
  intros Hc Hd Pc Pd E. apply (f_equal (Split slash)) in E.
  rewrite !Split_abs_path in E by done. by injection E.
Qed.

Lemma Join_plain_inj cs ds :
  cs ≠ [] → ds ≠ [] → Forall plain cs → Forall plain ds →
  Join "/" cs = Join "/" ds → cs = ds.
Proof.
  intros Hc Hd Pc Pd E. apply (f_equal (Split slash)) in E.
  by rewrite !Split_plain_Join in E.
Qed.

(** ** Clean and Join on plain elements *)
Lemma Clean_plain cs : cs ≠ [] → Forall plain cs → Clean (Join "/" cs) = Join "/" cs.
Proof.
  intros Hne H. unfold Clean.
  rewrite IsAbs_Join_plain, Split_plain_Join, clean_comps_plain by done.
  by destruct cs.
Qed.

Lemma Clean_abs_plain cs : cs ≠ [] → Forall plain cs → Clean (abs_path cs) = abs_path cs.
Proof.
  intros Hne H. unfold Clean.
  rewrite abs_path_IsAbs, Split_abs_path by done. f_equal.
  unfold clean_comps. rewrite foldl_skip_empty. by apply clean_comps_plain.
Qed.

Lemma PathJoin_plain cs : cs ≠ [] → Forall plain cs → PathJoin cs = Join "/" cs.
Proof.
  intros Hne H. destruct H as [|c cs Hc H]; [done|].
  destruct c as [|a c]; [by destruct Hc|].
  apply (Clean_plain (String a c :: cs)); [done|]. by constructor.
Qed.

Lemma PathJoin_skip es : PathJoin ("" :: es) = PathJoin es.
Proof. done. Qed.

Lemma Join_plain_cons c cs :
  Forall plain (c :: cs) → ∃ a s, Join "/" (c :: cs) = String a s.
Proof.
  intros Pc. inversion Pc as [|? ? [Hne _] _]; subst. destruct cs as [|c' cs].
  - destruct c; [done|]. by do 2 eexists.
  - rewrite Join_cons by done. destruct c; [done|]. by do 2 eexists.
Qed.

(** Appending a relative path of plain elements to a path of plain elements. *)
Lemma PathJoin_two cs ds :
  cs ≠ [] → ds ≠ [] → Forall plain cs → Forall plain ds →
  PathJoin [Join "/" cs; Join "/" ds] = Join "/" (cs ++ ds).
Proof.
  intros Hc Hd Pc Pd. destruct cs as [|c cs]; [done|].
  destruct (Join_plain_cons c cs Pc) as (a & s & Hj).
  transitivity (Clean (Join "/" [Join "/" (c :: cs); Join "/" ds])).
  { rewrite Hj. done. }
  change (Join "/" [Join "/" (c :: cs); Join "/" ds])
    with (Join "/" (c :: cs) +:+ "/" +:+ Join "/" ds).
  rewrite <-Join_app by done. apply Clean_plain; [done|]. by apply Forall_app.
Qed.

(** The elements after a (possibly empty) prefix that is itself a relative path. *)
Lemma PathJoin_prefix pre cs :
  cs ≠ [] → Forall plain pre → Forall plain cs →
  PathJoin (Join "/" pre :: cs) = Join "/" (pre ++ cs).
Proof.
  intros Hc Pp Pc. destruct pre as [|p pre]; [exact (PathJoin_plain cs Hc Pc)|].
  destruct (Join_plain_cons p pre Pp) as (a & s & Hj).
  transitivity (Clean (Join "/" (Join "/" (p :: pre) :: cs))).
  { rewrite Hj. done. }
  rewrite Join_cons, <-Join_app by done. apply Clean_plain; [done|]. by apply Forall_app.
Qed.

Lemma PathJoin_abs cs ds :
  cs ≠ [] → ds ≠ [] → Forall plain cs → Forall plain ds →
  PathJoin [abs_path cs; Join "/" ds] = abs_path (cs ++ ds).
Proof.
  intros Hc Hd Pc Pd.
  change (PathJoin [abs_path cs; Join "/" ds])
    with (Clean (abs_path cs +:+ "/" +:+ Join "/" ds)).
  unfold abs_path at 1. rewrite append_assoc, <-Join_app by done.
  apply Clean_abs_plain; [by destruct cs|]. by apply Forall_app.
Qed.

Lemma Clean_abs_slash cs :
  cs ≠ [] → Forall plain cs → Clean (abs_path cs +:+ "/") = abs_path cs.
Proof.
  intros Hne Hp. unfold Clean.
  assert (Ea : IsAbs (abs_path cs +:+ "/") = true).
  { apply HasPrefix_app_l. apply (abs_path_IsAbs cs). }
  change "/" with (String slash "") in *.
  rewrite Ea, Split_app, Split_abs_path by done. f_equal. unfold clean_comps.
  change (("" :: cs) ++ Split slash "") with ("" :: (cs ++ [""])).
  rewrite foldl_skip_empty, foldl_app, foldl_skip_empty. simpl.
  by apply clean_comps_plain.
Qed.

(** The same with a trailing slash, as the program builds browse prefixes. *)
Lemma PathJoin_abs_slash cs ds :
  cs ≠ [] → ds ≠ [] → Forall plain cs → Forall plain ds →
  PathJoin [abs_path cs; Join "/" ds +:+ "/"] = abs_path (cs ++ ds).
Proof.
  intros Hc Hd Pc Pd.
  change (PathJoin [abs_path cs; Join "/" ds +:+ "/"])
    with (Clean (abs_path cs +:+ "/" +:+ (Join "/" ds +:+ "/"))).
  replace (abs_path cs +:+ "/" +:+ (Join "/" ds +:+ "/"))
    with (abs_path (cs ++ ds) +:+ "/").
  - apply Clean_abs_slash; [by destruct cs|by apply Forall_app].
  - unfold abs_path. rewrite (Join_app "/" cs ds) by done. by rewrite !append_assoc.
Qed.

(** The parent of a path with at least two elements. *)
Lemma PathDir_abs cs c :
  cs ≠ [] → Forall plain (cs ++ [c]) → PathDir (abs_path (cs ++ [c])) = abs_path cs.
Proof.
  intros Hc Hp. unfold PathDir.
  rewrite Split_abs_path by (done || by destruct cs).
  change ("" :: cs ++ [c]) with (("" :: cs) ++ [c]). rewrite removelast_last.
  replace (Join "/" (("" :: cs) ++ [""])) with (abs_path cs +:+ "/").
  - apply Forall_app in Hp as [Hp _]. by apply Clean_abs_slash.
  - rewrite Join_app by done. rewrite Join_cons by done. unfold abs_path.
    by rewrite !append_assoc.
Qed.

(** ** Resolution *)
Lemma resolve_abs cwd cs : cs ≠ [] → Forall plain cs → resolve cwd (abs_path cs) = cs.
Proof.
  intros Hne H. unfold resolve. rewrite abs_path_IsAbs, Split_abs_path by done.
  unfold clean_comps. rewrite foldl_skip_empty. by apply clean_comps_plain.
Qed.

Lemma resolve_rel cwd cs :
  cs ≠ [] → Forall plain cwd → Forall plain cs →
  resolve cwd (Join "/" cs) = cwd ++ cs.
Proof.
  intros Hne Hw H. unfold resolve. rewrite IsAbs_Join_plain, Split_plain_Join by done.
  apply clean_comps_plain. by apply Forall_app.
Qed.

Create HintDb gopath.
#[export] Hint Resolve plain_no_slash : gopath.

(** [Forall plain] of a concrete list, given the plainness of its variables. *)
Ltac plains :=
  repeat first [apply Forall_nil; exact I | apply Forall_nil_2 | apply Forall_cons_2];
  first [assumption | by apply (bool_decide_unpack _)].
