(* ===== verification/Stow.v ===== *)
(** * The file system and the stow local container

    The vfs store keeps its objects in a [stow.Container] of the local kind
    (src/vendor/gomodules.xyz/stow/local/container.go): a directory of the
    host's file system.  The first half of this file is the part of the [os]
    package the container calls, over a tree of nodes without symbolic links,
    permissions or I/O faults; the second half is the container.

    The order in which [Readdir] returns the entries of a directory is the
    operating system's: it is the parameter [os_order], of which only "a
    permutation of the entries" is known. *)
From stdpp Require Import base list gmap strings fin_maps.
From S2P Require Import Prelude GoStrings GoPath.

(** ** Nodes and the operating system *)
Inductive node (D : Type) : Type :=
  | File (d : D)
  | Dir.
Arguments File {_} _.
Arguments Dir {_}.

Definition is_file {D} (n : node D) : bool := match n with File _ => true | Dir => false end.

Abbreviation fs D := (gmap (list string) (node D)).
Abbreviation dirent D := (string * node D)%type.

Class OS (D : Type) := {
  os_cwd : list string;                          (* the process's working directory *)
  os_order : list (dirent D) → list (dirent D);  (* directory order of Readdir *)
  os_order_perm l : os_order l ≡ₚ l
}.

(** Byte content: what [bytes.NewBuffer] wraps and [ioutil.ReadAll] returns. *)
Class Blob (D : Type) := {
  blob_of : string → D;
  blob_str : D → string;
  blob_str_of s : blob_str (blob_of s) = s
}.

Inductive errno := ENOENT | ENOTDIR | EISDIR | ENOTEMPTY.

#[export] Instance errno_eq_dec : EqDecision errno.
Proof. solve_decision. Defined.

Definition errno_text (e : errno) : string :=
  match e with
  | ENOENT => "no such file or directory"
  | ENOTDIR => "not a directory"
  | EISDIR => "is a directory"
  | ENOTEMPTY => "directory not empty"
  end.

(** [&os.PathError{Op, Path, Err}.Error()] *)
Definition path_error (op path : string) (e : errno) : error :=
  op +:+ " " +:+ path +:+ ": " +:+ errno_text e.

Section os.
Context {D : Type} `{!OS D}.

(** All prefixes of a path, the root first and the path itself last. *)
Definition prefixes (q : list string) : list (list string) :=
  (λ k, take k q) <$> seq 0 (S (length q)).

Definition through_file (m : fs D) (q : list string) : bool :=
  existsb (λ p, match m !! p with Some (File _) => true | _ => false end) (prefixes q).

Definition lookup_errno (m : fs D) (q : list string) : errno :=
  if through_file m q then ENOTDIR else ENOENT.

Definition os_Stat (path : string) (m : fs D) : node D + errno :=
  let q := resolve os_cwd path in
  match m !! q with
  | Some n => inl n
  | None => inr (lookup_errno m q)
  end.

(** os.Remove: unlinks a file or removes an empty directory. *)
Definition os_Remove (path : string) : GoM (fs D) () := λ m,
  let q := resolve os_cwd path in
  match m !! q with
  | None => (Err (path_error "remove" path (lookup_errno m q)), m)
  | Some (File _) => (Ok (), delete q m)
  | Some Dir =>
      if decide (map_Forall (λ p _, p ≠ q → ¬ q `prefix_of` p) m)
      then (Ok (), delete q m)
      else (Err (path_error "remove" path ENOTEMPTY), m)
  end.

(** os.MkdirAll *)
Definition mkdirs (q : list string) (m : fs D) : fs D :=
  foldr (λ p, <[p := Dir]>) m (prefixes q).

Definition os_MkdirAll (path : string) : GoM (fs D) () := λ m,
  let q := resolve os_cwd path in
  if through_file m q then (Err (path_error "mkdir" path ENOTDIR), m)
  else (Ok (), mkdirs q m).

(** os.Create followed by the copy of the content: the file is truncated. *)
Definition os_Create (path : string) (d : D) : GoM (fs D) () := λ m,
  let q := resolve os_cwd path in
  match m !! q with
  | Some Dir => (Err (path_error "open" path EISDIR), m)
  | Some (File _) => (Ok (), <[q := File d]> m)
  | None =>
      match m !! removelast q with
      | Some Dir => (Ok (), <[q := File d]> m)
      | _ => (Err (path_error "open" path (lookup_errno m q)), m)
      end
  end.

(** os.Open followed by reading the whole file. *)
Definition os_ReadFile (path : string) : GoM (fs D) D := λ m,
  let q := resolve os_cwd path in
  match m !! q with
  | Some (File d) => (Ok d, m)
  | Some Dir => (Err (path_error "read" path EISDIR), m)
  | None => (Err (path_error "open" path (lookup_errno m q)), m)
  end.

(** The entries of the directory [q], in the OS's order. *)
Definition child_of (q : list string) (pn : list string * node D) : option (dirent D) :=
  match last pn.1 with
  | Some c => if decide (pn.1 = q ++ [c]) then Some (c, pn.2) else None
  | None => None
  end.

Definition children (m : fs D) (q : list string) : list (dirent D) :=
  omap (child_of q) (map_to_list m).

(** readDir of container.go: each entry with its full path as name. *)
Definition readDir (dirname : string) : GoM (fs D) (list (dirent D)) := λ m,
  let q := resolve os_cwd dirname in
  match m !! q with
  | Some Dir => (Ok ((λ e, (PathJoin [dirname; e.1], e.2)) <$> os_order (children m q)), m)
  | Some (File _) => (Err (path_error "fdopendir" dirname ENOTDIR), m)
  | None => (Err (path_error "open" dirname (lookup_errno m q)), m)
  end.
End os.

(** ** The container *)
Record container := Container { c_name : string; c_path : string }.
Record item := Item { i_path : string }.
Record item_page := ItemPage { pg_prefixes : list string; pg_items : list item; pg_cursor : string }.

Definition ErrNotFound : error := "not found".
Definition ErrBadCursor : error := "bad cursor".
Definition CursorStart : string := "".
Definition IsCursorEnd (cursor : string) : bool := bool_decide (cursor = "").

(** [s[n:]] *)
Fixpoint str_drop (n : nat) (s : string) : string :=
  match n, s with
  | 0, _ => s
  | S n', String _ s' => str_drop n' s'
  | S _, "" => ""
  end.

Fixpoint drop_to {D} (c : string) (files : list (dirent D)) : option (list (dirent D)) :=
  match files with
  | [] => None
  | f :: rest => if decide (f.1 = c) then Some files else drop_to c rest
  end.

Section container.
Context {D : Type} `{!OS D}.

Definition container_ID (c : container) : string := c_path c.
Definition item_ID (i : item) : string := i_path i.
Definition item_Open (i : item) : GoM (fs D) D := os_ReadFile (i_path i).

Definition RemoveItem (c : container) (id : string) : GoM (fs D) () := os_Remove id.

Definition Put (c : container) (name : string) (d : D) : GoM (fs D) item :=
  let path := PathJoin [c_path c; name] in
  _ ← os_MkdirAll (PathDir path);
  _ ← os_Create path d;
  mret (Item path).

(** [Item]: a stat error other than "not exist" leaves [info] nil, and
    [info.IsDir()] then panics. *)
Definition container_Item (c : container) (id : string) : GoM (fs D) item := λ m,
  let path := if IsAbs id then id else PathJoin [c_path c; id] in
  match os_Stat path m with
  | inr ENOENT => (Err ErrNotFound, m)
  | inr _ => (Panic "invalid memory address or nil pointer dereference", m)
  | inl Dir => (Err "unexpected directory", m)
  | inl (File _) => (Ok (Item path), m)
  end.

(** The page cut out of the directory's files, [cursor] included. *)
Definition browse_page (c : container) (prefix : string) (count : nat)
    (files : list (dirent D)) : item_page :=
  let conPrefixLen := S (String.length (c_path c)) in
  let '(files', cursor') :=
    if decide (count < length files)
    then (take count files,
          match files !! count with Some f => str_drop conPrefixLen f.1 | None => "" end)
    else (files, "") in
  let rel f := str_drop conPrefixLen f.1 in
  let matching := filter (λ f : dirent D, HasPrefix (rel f) prefix = true) files' in
  ItemPage
    (rel <$> filter (λ f, is_file f.2 = false) matching)
    (Item ∘ fst <$> filter (λ f, is_file f.2 = true) matching)
    cursor'.

(** [Browse] with the delimiter ["/"], the only one the program passes. *)
Definition Browse (c : container) (prefix cursor : string) (count : nat) :
    GoM (fs D) item_page :=
  files ← readDir (PathJoin [c_path c; prefix]);
  if decide (cursor = CursorStart) then mret (browse_page c prefix count files)
  else match drop_to (PathJoin [c_path c; cursor]) files with
       | None => throw ErrBadCursor
       | Some files' => mret (browse_page c prefix count files')
       end.
End container.

(** ** Well-formed trees

    Every name is plain and every node but the root lies in a directory. *)
Record wf_fs {D} (m : fs D) : Prop := {
  wf_root : m !! [] = Some Dir;
  wf_names q n : m !! q = Some n → Forall plain q;
  wf_parent q c n : m !! (q ++ [c]) = Some n → m !! q = Some Dir
}.

(** No file lies on the way to [q] (or at [q]): directories can be made there. *)
Definition no_file_on {D} (m : fs D) (q : list string) : Prop :=
  ∀ p d, p `prefix_of` q → m !! p ≠ Some (File d).

Section trees.
Context {D : Type}.
Implicit Types (m : fs D) (p q : list string).

Lemma prefix_snoc_inv {A} (p q : list A) (c : A) :
  p `prefix_of` q ++ [c] → p = q ++ [c] ∨ p `prefix_of` q.
Proof.
  intros [k Hk]. destruct k as [|x k] using rev_ind.
  - rewrite app_nil_r in Hk. by left.
  - rewrite app_assoc in Hk. apply app_inj_tail in Hk as [-> ->]. right. by exists k.
Qed.

Lemma elem_of_prefixes p q : p ∈ prefixes q ↔ p `prefix_of` q.
Proof.
  unfold prefixes. rewrite list_elem_of_fmap. split.
  - intros (k & -> & _). exists (drop k q). by rewrite take_drop.
  - intros [k ->]. exists (length p). rewrite take_app_length. split; [done|].
    apply elem_of_seq. rewrite length_app. lia.
Qed.

Lemma through_file_false m q : through_file m q = false ↔ no_file_on m q.
Proof.
  unfold through_file, no_file_on. split.
  - intros H p d Hp Hm. apply not_true_iff_false in H. apply H.
    apply existsb_exists. exists p. rewrite Hm. split; [|done].
    by apply list_elem_of_In, elem_of_prefixes.
  - intros H. apply not_true_iff_false. intros (p & Hp & Hm)%existsb_exists.
    apply list_elem_of_In, elem_of_prefixes in Hp.
    specialize (H p). destruct (m !! p) as [[d|]|] eqn:E; try done. by apply (H d).
Qed.

Lemma lookup_mkdirs p q m :
  mkdirs q m !! p = if decide (p `prefix_of` q) then Some Dir else m !! p.
Proof.
  unfold mkdirs. rewrite (decide_ext (p `prefix_of` q) (p ∈ prefixes q))
    by (symmetry; apply elem_of_prefixes).
  induction (prefixes q) as [|x l IH]; simpl; [done|].
  destruct (decide (p = x)) as [->|Hne].
  - rewrite lookup_insert_eq, decide_True by (by left). done.
  - rewrite lookup_insert_ne by done. rewrite IH.
    apply decide_ext. rewrite elem_of_cons. naive_solver.
Qed.

Lemma wf_prefix m p q n :
  wf_fs m → m !! q = Some n → p `prefix_of` q → p = q ∨ m !! p = Some Dir.
Proof.
  intros Hwf. revert n. induction q as [|c q IH] using rev_ind; intros n Hq Hp.
  - left. by apply prefix_nil_inv in Hp.
  - apply prefix_snoc_inv in Hp as [->|Hp]; [by left|]. right.
    pose proof (wf_parent m Hwf _ _ _ Hq) as Hd.
    by destruct (IH _ Hd Hp) as [->|].
Qed.

Lemma wf_dir_no_file_on m q : wf_fs m → m !! q = Some Dir → no_file_on m q.
Proof.
  intros Hwf Hq p d Hp Hm. destruct (wf_prefix m p q Dir Hwf Hq Hp) as [->|]; congruence.
Qed.

Lemma no_file_on_prefix m p q : no_file_on m q → p `prefix_of` q → no_file_on m p.
Proof. intros H Hp x d Hx. apply H. by etrans. Qed.

Lemma no_file_on_snoc m q c :
  no_file_on m q → (∀ d, m !! (q ++ [c]) ≠ Some (File d)) → no_file_on m (q ++ [c]).
Proof. intros H Hc p d [->|Hp]%prefix_snoc_inv; [apply Hc|by apply H]. Qed.

(** *** Making directories and a file in them *)
Definition write_file q (c : string) (d : D) m : fs D :=
  <[q ++ [c] := File d]> (mkdirs q m).

Lemma snoc_not_prefix {A} (q : list A) (c : A) : ¬ q ++ [c] `prefix_of` q.
Proof. intros [k H]. apply (f_equal length) in H. rewrite !length_app in H. simpl in H. lia. Qed.

Lemma lookup_write_file q c d m p :
  write_file q c d m !! p =
  if decide (p = q ++ [c]) then Some (File d)
  else if decide (p `prefix_of` q) then Some Dir else m !! p.
Proof.
  unfold write_file. destruct (decide (p = q ++ [c])) as [->|Hne].
  - by rewrite lookup_insert_eq.
  - rewrite lookup_insert_ne by done. apply lookup_mkdirs.
Qed.

(** What existed and is not overwritten is as before. *)
Lemma lookup_write_file_old q c d m p n :
  no_file_on m q → m !! p = Some n → p ≠ q ++ [c] → write_file q c d m !! p = Some n.
Proof.
  intros Hno Hp Hne. rewrite lookup_write_file, decide_False by done.
  case_decide as Hpre; [|done]. destruct n as [d'|]; [|done].
  by destruct (Hno p d' Hpre).
Qed.

(** Nothing appears but the file and directories leading to it. *)
Lemma lookup_write_file_other q c d m p :
  p ≠ q ++ [c] → ¬ p `prefix_of` q → write_file q c d m !! p = m !! p.
Proof. intros. by rewrite lookup_write_file, !decide_False. Qed.

Lemma wf_write_file q c d m :
  wf_fs m → no_file_on m q → m !! (q ++ [c]) ≠ Some Dir → Forall plain (q ++ [c]) →
  wf_fs (write_file q c d m).
Proof.
  intros Hwf Hno Hd Hp. apply Forall_app in Hp as [Hq Hc]. split.
  - rewrite lookup_write_file, decide_False by (by destruct q).
    rewrite decide_True; [done|apply prefix_nil].
  - intros p n. rewrite lookup_write_file. case_decide; [|case_decide as Hpre].
    + subst. intros _. by apply Forall_app.
    + intros _. destruct Hpre as [k ->]. by apply Forall_app in Hq as [? _].
    + apply (wf_names m Hwf).
  - intros p x n Hn. rewrite lookup_write_file in Hn. rewrite lookup_write_file.
    destruct (decide (p ++ [x] = q ++ [c])) as [E|Hne].
    { apply app_inj_tail in E as [-> ->].
      rewrite decide_False by (intros E; apply (f_equal length) in E;
        rewrite length_app in E; simpl in E; lia).
      by rewrite decide_True. }
    destruct (decide (p ++ [x] `prefix_of` q)) as [Hpre|Hnpre].
    { assert (Hpq : p `prefix_of` q) by (etrans; [by eexists|done]).
      rewrite decide_False by (intros ->; by apply (snoc_not_prefix q c)).
      by rewrite decide_True. }
    pose proof (wf_parent m Hwf _ _ _ Hn) as Hdir.
    rewrite decide_False by (intros ->; congruence). by case_decide.
Qed.

(** *** Removing a file *)
Lemma wf_file_no_child m q c d n :
  wf_fs m → m !! q = Some (File d) → m !! (q ++ [c]) ≠ Some n.
Proof. intros Hwf Hq Hc. pose proof (wf_parent m Hwf _ _ _ Hc). congruence. Qed.

Lemma wf_delete_file m q d : wf_fs m → m !! q = Some (File d) → wf_fs (delete q m).
Proof.
  intros Hwf Hq. split.
  - rewrite lookup_delete_ne; [apply (wf_root m Hwf)|].
    intros ->. pose proof (wf_root m Hwf). congruence.
  - intros p n [_ Hp]%lookup_delete_Some. by apply (wf_names m Hwf p n).
  - intros p c n [Hne Hp]%lookup_delete_Some.
    pose proof (wf_parent m Hwf _ _ _ Hp). rewrite lookup_delete_ne; [done|].
    intros ->. congruence.
Qed.

Lemma no_file_on_delete m p q : no_file_on m q → no_file_on (delete p m) q.
Proof. intros H x d Hx [_ ?]%lookup_delete_Some. by apply (H x d). Qed.

Lemma no_file_on_write q c d m :
  no_file_on m q → no_file_on (write_file q c d m) q.
Proof.
  intros Hno p d' Hp. rewrite lookup_write_file.
  rewrite decide_False by (intros ->; by apply (snoc_not_prefix q c)).
  by rewrite decide_True.
Qed.

(** *** Entries of a directory *)
Lemma elem_of_children m q c n : (c, n) ∈ children m q ↔ m !! (q ++ [c]) = Some n.
Proof.
  unfold children. rewrite list_elem_of_omap. split.
  - intros ([p n'] & Hin & Hc). apply elem_of_map_to_list in Hin.
    unfold child_of in Hc. simpl in Hc. destruct (last p); [|done].
    case_decide; [|done]. by simplify_eq.
  - intros H. exists (q ++ [c], n). split; [by apply elem_of_map_to_list|].
    unfold child_of. simpl. by rewrite last_snoc, decide_True.
Qed.

Lemma children_size m q : length (children m q) ≤ size m.
Proof.
  unfold children. rewrite <-length_map_to_list.
  induction (map_to_list m) as [|x l IH]; [done|].
  unfold omap in *. cbn [list_omap length]. destruct (child_of q x); cbn [length]; lia.
Qed.

Lemma NoDup_children m q : NoDup (children m q).*1.
Proof.
  unfold children. pose proof (NoDup_fst_map_to_list m) as Hnd.
  induction (map_to_list m) as [|[p n] l IH]; simpl; [constructor|].
  apply NoDup_cons in Hnd as [Hp Hnd]. unfold child_of at 1. simpl.
  destruct (last p) as [c|] eqn:El; [|by apply IH].
  case_decide as Ep; [|by apply IH]. simpl. constructor; [|by apply IH].
  intros ([c' n'] & -> & Hin)%list_elem_of_fmap. simpl in *.
  apply list_elem_of_omap in Hin as ([p' n''] & Hin & Hc).
  unfold child_of in Hc. simpl in Hc. destruct (last p'); [|done].
  case_decide as Ep'; [|done]. simplify_eq. apply Hp.
  apply list_elem_of_fmap. by eexists; split; [|exact Hin].
Qed.
End trees.

Create HintDb stow.
#[export] Hint Resolve wf_root wf_names wf_write_file wf_delete_file no_file_on_delete
  no_file_on_write wf_dir_no_file_on : stow.

(** ** What the container operations do on plain relative names *)
Class ContainerAt (c : container) (pcs : list string) : Prop := {
  ca_path : c_path c = abs_path pcs;
  ca_ne : pcs ≠ [];
  ca_plain : Forall plain pcs
}.

Lemma str_drop_app a b : str_drop (String.length a) (a +:+ b) = b.
Proof. induction a as [|x a IH]; [done|]. exact IH. Qed.

Section container_specs.
Context {D : Type} `{!OS D} (c : container) (pcs : list string) `{!ContainerAt c pcs}.
Implicit Types (m : fs D) (rs hs : list string).

Lemma item_path_resolve rs :
  rs ≠ [] → Forall plain rs →
  resolve os_cwd (PathJoin [c_path c; Join "/" rs]) = pcs ++ rs.
Proof.
  intros Hne Hp. pose proof ca_ne. pose proof ca_plain.
  rewrite ca_path, PathJoin_abs by done.
  apply resolve_abs; [by destruct pcs|]. by apply Forall_app.
Qed.

Lemma item_path rs :
  rs ≠ [] → Forall plain rs → PathJoin [c_path c; Join "/" rs] = abs_path (pcs ++ rs).
Proof.
  intros. pose proof ca_ne. pose proof ca_plain. rewrite ca_path. by apply PathJoin_abs.
Qed.

Lemma resolve_item q : pcs `prefix_of` q → Forall plain q → resolve os_cwd (abs_path q) = q.
Proof. intros [k ->] Hp. apply resolve_abs; [|done]. pose proof ca_ne. by destruct pcs. Qed.

Lemma Item_file m rs d :
  rs ≠ [] → Forall plain rs → m !! (pcs ++ rs) = Some (File d) →
  container_Item c (Join "/" rs) m = (Ok (Item (abs_path (pcs ++ rs))), m).
Proof.
  intros Hne Hp Hm. unfold container_Item, os_Stat.
  rewrite IsAbs_Join_plain, item_path_resolve, Hm, item_path by done. done.
Qed.

Lemma Item_missing m rs :
  rs ≠ [] → Forall plain rs → m !! (pcs ++ rs) = None → no_file_on m (pcs ++ rs) →
  container_Item c (Join "/" rs) m = (Err ErrNotFound, m).
Proof.
  intros Hne Hp Hm Hno. unfold container_Item, os_Stat, lookup_errno.
  rewrite IsAbs_Join_plain, item_path_resolve, Hm by done.
  by apply through_file_false in Hno as ->.
Qed.

Lemma Open_file m q d :
  pcs `prefix_of` q → Forall plain q → m !! q = Some (File d) →
  item_Open (Item (abs_path q)) m = (Ok d, m).
Proof.
  intros Hq Hp Hm. unfold item_Open, os_ReadFile. simpl.
  by rewrite resolve_item, Hm by done.
Qed.

Lemma RemoveItem_file m q d :
  pcs `prefix_of` q → Forall plain q → m !! q = Some (File d) →
  RemoveItem c (abs_path q) m = (Ok (), delete q m).
Proof.
  intros Hq Hp Hm. unfold RemoveItem, os_Remove. by rewrite resolve_item, Hm by done.
Qed.

(** A relative id is resolved against the working directory of the process,
    not against the container. *)
Lemma RemoveItem_relative m rs :
  rs ≠ [] → Forall plain rs → Forall plain os_cwd → m !! (os_cwd ++ rs) = None →
  ∃ e, RemoveItem c (Join "/" rs) m = (Err e, m).
Proof.
  intros Hne Hp Hw Hm. unfold RemoveItem, os_Remove.
  rewrite resolve_rel, Hm by done. by eexists.
Qed.

Lemma Put_file m hs k d :
  Forall plain (hs ++ [k]) → no_file_on m (pcs ++ hs) →
  m !! (pcs ++ hs ++ [k]) ≠ Some Dir →
  Put c (Join "/" (hs ++ [k])) d m =
  (Ok (Item (abs_path (pcs ++ hs ++ [k]))), write_file (pcs ++ hs) k d m).
Proof.
  intros Hp Hno Hd. pose proof ca_ne as Hc. pose proof ca_plain as Hcp.
  unfold Put. rewrite item_path by (done || by destruct hs).
  assert (Hpar : Forall plain (pcs ++ hs)).
  { apply Forall_app in Hp as [? _]. by apply Forall_app. }
  assert (Hall : Forall plain ((pcs ++ hs) ++ [k])).
  { rewrite <-app_assoc. by apply Forall_app. }
  rewrite !app_assoc in Hd |- *. rewrite PathDir_abs by (done || by destruct pcs).
  erewrite bind_ok; [|].
  2:{ unfold os_MkdirAll. rewrite resolve_abs by (done || by destruct pcs).
      by apply through_file_false in Hno as ->. }
  erewrite bind_ok; [done|].
  unfold os_Create. rewrite resolve_abs by (done || by destruct (pcs ++ hs)).
  rewrite removelast_last, !lookup_mkdirs.
  rewrite decide_False by apply snoc_not_prefix. rewrite decide_True by done.
  destruct (m !! ((pcs ++ hs) ++ [k])) as [[]|] eqn:E; [done|done|done].
Qed.

(** *** Pages *)
Definition dir_files m hs : list (dirent D) :=
  (λ e, (abs_path (pcs ++ hs ++ [e.1]), e.2)) <$> os_order (children m (pcs ++ hs)).

Definition cursor_at m hs (i : nat) : string :=
  match i with
  | 0 => ""
  | _ => match os_order (children m (pcs ++ hs)) !! i with
         | Some e => Join "/" (hs ++ [e.1])
         | None => ""
         end
  end.

Lemma elem_of_order m q x n : (x, n) ∈ os_order (children m q) ↔ m !! (q ++ [x]) = Some n.
Proof. rewrite os_order_perm. apply elem_of_children. Qed.

Lemma entry_plain m q x n :
  wf_fs m → (x, n) ∈ os_order (children m q) → plain x.
Proof.
  intros Hwf Hin%elem_of_order. apply (wf_names m Hwf), Forall_app in Hin as [_ Hx].
  by inversion Hx.
Qed.

Lemma readDir_home m hs :
  wf_fs m → hs ≠ [] → Forall plain hs → m !! (pcs ++ hs) = Some Dir →
  readDir (PathJoin [c_path c; Join "/" hs +:+ "/"]) m = (Ok (dir_files m hs), m).
Proof.
  intros Hwf Hne Hp Hm. pose proof ca_ne as Hc. pose proof ca_plain as Hcp.
  unfold readDir. rewrite ca_path, PathJoin_abs_slash by done.
  assert (Hq : Forall plain (pcs ++ hs)) by by apply Forall_app.
  assert (Hqn : pcs ++ hs ≠ []) by by destruct pcs.
  rewrite resolve_abs, Hm by done. f_equal. f_equal.
  apply list_fmap_ext. intros i [x n] Hi.
  assert (Hx : Forall plain [x]).
  { constructor; [|constructor]. eapply entry_plain; [done|].
    apply list_elem_of_lookup. eauto. }
  pose proof (PathJoin_abs (pcs ++ hs) [x] Hqn ltac:(done) Hq Hx) as E.
  simpl in E |- *. by rewrite E, app_assoc.
Qed.

Lemma readDir_missing m hs :
  hs ≠ [] → Forall plain hs → m !! (pcs ++ hs) ≠ Some Dir →
  ∃ e, readDir (PathJoin [c_path c; Join "/" hs +:+ "/"]) m = (Err e, m).
Proof.
  intros Hne Hp Hm. pose proof ca_ne as Hc. pose proof ca_plain as Hcp.
  unfold readDir. rewrite ca_path, PathJoin_abs_slash by done.
  rewrite resolve_abs; [|by destruct pcs|by apply Forall_app].
  destruct (m !! (pcs ++ hs)) as [[]|]; [by eexists|done|by eexists].
Qed.

Lemma cursor_at_ne m hs i :
  wf_fs m → Forall plain hs → 0 < i → i < length (dir_files m hs) → cursor_at m hs i ≠ "".
Proof.
  intros Hwf Hp Hi Hl. unfold cursor_at. destruct i as [|i]; [lia|].
  unfold dir_files in Hl. rewrite length_fmap in Hl.
  destruct (os_order (children m (pcs ++ hs)) !! S i) as [[x n]|] eqn:El.
  2:{ apply lookup_ge_None in El. lia. }
  assert (Hx : Forall plain (hs ++ [x])).
  { apply Forall_app. split; [done|]. constructor; [|constructor].
    eapply entry_plain; [done|]. apply list_elem_of_lookup. eauto. }
  intros E. apply (f_equal (Split slash)) in E.
  rewrite Split_plain_Join in E by (done || by destruct hs).
  simpl in E. rewrite E in Hx. inversion Hx as [|? ? [? _] _]; done.
Qed.

Lemma dir_files_NoDup m hs : wf_fs m → NoDup (dir_files m hs).*1.
Proof.
  intros Hwf. unfold dir_files. rewrite <-list_fmap_compose. simpl.
  assert (Hnd : NoDup (os_order (children m (pcs ++ hs))).*1).
  { rewrite os_order_perm. apply NoDup_children. }
  assert (Hpl : ∀ x, x ∈ (os_order (children m (pcs ++ hs))).*1 → Forall plain (pcs ++ hs ++ [x])).
  { intros x ([? n] & -> & Hin)%list_elem_of_fmap. apply elem_of_order in Hin.
    rewrite app_assoc. by apply (wf_names m Hwf _ n). }
  revert Hnd Hpl. induction (os_order _) as [|[x n] l IH]; intros Hnd Hpl; [constructor|].
  simpl in *. apply NoDup_cons in Hnd as [Hx Hnd]. constructor.
  - intros ([y n'] & E & Hin)%list_elem_of_fmap. apply Hx, list_elem_of_fmap.
    exists (y, n'). split; [|done]. simpl in *. pose proof ca_ne.
    apply abs_path_inj in E; [|by destruct pcs..| |].
    + apply app_inv_head, app_inj_tail in E. by destruct E as [_ ->].
    + apply Hpl. by left.
    + apply Hpl. right. apply list_elem_of_fmap. by exists (y, n').
  - apply IH; [done|]. intros y Hy. apply Hpl. by right.
Qed.

Lemma drop_to_lookup (files : list (dirent D)) i f :
  NoDup files.*1 → files !! i = Some f → drop_to f.1 files = Some (drop i files).
Proof.
  revert i. induction files as [|g files IH]; intros [|i] Hnd Hi; simplify_eq/=.
  - by rewrite decide_True.
  - apply NoDup_cons in Hnd as [Hg Hnd]. rewrite decide_False; [by apply IH|].
    intros E. apply Hg. rewrite E. apply list_elem_of_fmap. exists f. split; [done|].
    apply list_elem_of_lookup. eauto.
Qed.

Lemma rel_name hs x :
  str_drop (S (String.length (c_path c))) (abs_path (pcs ++ hs ++ [x])) =
  Join "/" (hs ++ [x]).
Proof.
  pose proof ca_ne as Hc. rewrite ca_path. unfold abs_path at 2.
  rewrite Join_app by (done || by destruct hs).
  replace ("/" +:+ Join "/" pcs +:+ "/" +:+ Join "/" (hs ++ [x]))
    with ((abs_path pcs +:+ "/") +:+ Join "/" (hs ++ [x]))
    by (unfold abs_path; by rewrite !append_assoc).
  replace (S (String.length (abs_path pcs))) with (String.length (abs_path pcs +:+ "/"))
    by (rewrite append_length; simpl; lia).
  apply str_drop_app.
Qed.

(** The page that starts at the [i]-th entry of the directory. *)
Lemma browse_page_at m hs i count :
  hs ≠ [] → 0 < count →
  let fl := dir_files m hs in
  let pg := browse_page c (Join "/" hs +:+ "/") count (drop i fl) in
  pg_items pg = Item ∘ fst <$> filter (λ f : dirent D, is_file f.2 = true) (take count (drop i fl)) ∧
  pg_cursor pg = (if decide (i + count < length fl) then cursor_at m hs (i + count) else "").
Proof.
  intros Hne Hcount fl pg. unfold pg, browse_page.
  assert (Hmatch : ∀ l : list (dirent D), (∀ f, f ∈ l → f ∈ fl) →
    filter (λ f : dirent D, HasPrefix (str_drop (S (String.length (c_path c))) f.1)
                              (Join "/" hs +:+ "/") = true) l = l).
  { intros l Hl. induction l as [|f l IH]; [done|].
    rewrite filter_cons_True.
    - f_equal. apply IH. intros g Hg. apply Hl. by right.
    - assert (f ∈ fl) as ([x n] & -> & _)%list_elem_of_fmap by (apply Hl; left).
      cbn [fst]. rewrite rel_name, Join_app by done. rewrite <-append_assoc.
      apply HasPrefix_refl_app. }
  assert (Hsub : ∀ f, f ∈ drop i fl → f ∈ fl).
  { intros f (k & Hk)%list_elem_of_lookup. rewrite lookup_drop in Hk.
    apply list_elem_of_lookup. eauto. }
  rewrite length_drop.
  destruct (decide (count < length fl - i)) as [Hlt|Hge].
  - rewrite Hmatch; [|intros f Hf; apply Hsub; by apply elem_of_take in Hf as (?&?&_);
      apply list_elem_of_lookup; eauto].
    split; [done|]. simpl. rewrite decide_True by lia.
    rewrite lookup_drop. unfold cursor_at, fl, dir_files. rewrite list_lookup_fmap.
    destruct (i + count) as [|k] eqn:Ek; [lia|].
    destruct (os_order (children m (pcs ++ hs)) !! S k) as [[x n]|] eqn:El; [|done].
    apply (rel_name hs x).
  - rewrite Hmatch by done. rewrite take_ge by (rewrite length_drop; lia).
    split; [done|]. by rewrite decide_False by lia.
Qed.

Lemma Browse_at m hs i count :
  wf_fs m → hs ≠ [] → Forall plain hs → m !! (pcs ++ hs) = Some Dir →
  i = 0 ∨ i < length (dir_files m hs) →
  Browse c (Join "/" hs +:+ "/") (cursor_at m hs i) count m =
  (Ok (browse_page c (Join "/" hs +:+ "/") count (drop i (dir_files m hs))), m).
Proof.
  intros Hwf Hne Hp Hm Hi. unfold Browse.
  erewrite bind_ok by by apply readDir_home.
  destruct i as [|i]; [by rewrite decide_True|].
  destruct Hi as [?|Hi]; [done|]. unfold dir_files in Hi. rewrite length_fmap in Hi.
  unfold cursor_at.
  destruct (os_order (children m (pcs ++ hs)) !! S i) as [[x n]|] eqn:El.
  2:{ apply lookup_ge_None in El. lia. }
  assert (Hx : Forall plain (hs ++ [x])).
  { apply Forall_app. split; [done|]. constructor; [|constructor].
    eapply entry_plain; [done|]. apply list_elem_of_lookup. eauto. }
  rewrite decide_False.
  2:{ pose proof (cursor_at_ne m hs (S i) Hwf Hp ltac:(lia)) as Hcur.
      unfold cursor_at, dir_files in Hcur. rewrite El, length_fmap in Hcur. by apply Hcur. }
  rewrite item_path by (done || by destruct hs).
  assert (Hl : dir_files m hs !! S i = Some (abs_path (pcs ++ hs ++ [x]), n)).
  { unfold dir_files. by rewrite list_lookup_fmap, El. }
  pose proof (drop_to_lookup _ _ _ (dir_files_NoDup m hs Hwf) Hl) as Hd.
  cbn [fst] in Hd |- *. by rewrite Hd.
Qed.
End container_specs.
