(* ===== verification/Api.v ===== *)
(** * The API objects (apis/v1alpha1)

    The objects pharmer stores and their methods: [Cluster]
    (apis/v1alpha1/cluster.go), [PharmerConfig] (config.go), [Operation]
    (operation.go), [Upgrade] (upgrade.go), [NodeLabels] (node_labels.go),
    [KubeConfig] (kubeconfig.go) and [AssignTypeKind] with the two error
    predicates (util.go).

    Objects of other repositories that pharmer's objects embed (ObjectMeta,
    the cluster-api [Cluster], [Machine] and [MachineSet], the cloud
    [Credential]) carry the fields pharmer reads or writes; a raw extension is
    its JSON text.  A Go [int], [int32] or [int64] is a [Z], with the wrap
    written out where the program adds.

    The properties of the methods follow the definitions. *)
From stdpp Require Import base list gmap strings pretty sorting fin_maps.
From S2P Require Import Prelude GoStrings.

(** ** Kubernetes metadata *)
Definition Time := Z.   (* nanoseconds since the epoch *)

Record TypeMeta := { Kind : string; APIVersion : string }.

Record ObjectMeta := {
  Name : string;
  Namespace : string;
  UID : string;
  Generation : Z;
  CreationTimestamp : Time;
  DeletionTimestamp : option Time;
  Labels : gmap string string;
  Annotations : gmap string string
}.

Definition zero_TypeMeta : TypeMeta := {| Kind := ""; APIVersion := "" |}.

Definition named (n : string) : ObjectMeta :=
  {| Name := n; Namespace := ""; UID := ""; Generation := 0%Z; CreationTimestamp := 0%Z;
     DeletionTimestamp := None; Labels := ∅; Annotations := ∅ |}.

Definition RawExtension := string.

(** ** cluster-api objects *)
Record APIEndpoint := { Host : string; Port : Z }.

Record ClusterNetworkingConfig := {
  ServicesCIDRBlocks : list string;
  PodsCIDRBlocks : list string;
  ServiceDomain : string
}.

Record CapiClusterSpec := {
  ClusterNetwork : ClusterNetworkingConfig;
  ClusterProviderSpec : option RawExtension
}.

Record CapiClusterStatus := {
  APIEndpoints : list APIEndpoint;
  ClusterErrorMessage : string;
  ClusterProviderStatus : option RawExtension
}.

Record CapiCluster := {
  capi_TypeMeta : TypeMeta;
  capi_ObjectMeta : ObjectMeta;
  capi_Spec : CapiClusterSpec;
  capi_Status : CapiClusterStatus
}.

Record MachineVersionInfo := { Kubelet : string; ControlPlane : string }.

Record MachineSpec := {
  SpecName : string;                        (* of its ObjectMeta *)
  MachineProviderSpec : option RawExtension;
  Versions : MachineVersionInfo;
  ProviderID : option string
}.

Record MachineStatus := {
  MachineProviderStatus : option RawExtension;
  MachinePhase : option string
}.

Record Machine := {
  machine_TypeMeta : TypeMeta;
  machine_ObjectMeta : ObjectMeta;
  machine_Spec : MachineSpec;
  machine_Status : MachineStatus
}.

Record MachineSetSpec := {
  Replicas : option Z;
  MatchLabels : gmap string string;
  TemplateLabels : gmap string string;
  TemplateCreationTimestamp : Time;
  TemplateSpec : MachineSpec
}.

Record MachineSetStatus := { StatusReplicas : Z; ReadyReplicas : Z }.

Record MachineSet := {
  machineset_TypeMeta : TypeMeta;
  machineset_ObjectMeta : ObjectMeta;
  machineset_Spec : MachineSetSpec;
  machineset_Status : MachineSetStatus
}.

(** ** Credentials (pharmer.dev/cloud) *)
Record CredentialSpec := { cred_Provider : string; cred_Data : gmap string string }.

Record Credential := {
  cred_TypeMeta : TypeMeta;
  cred_ObjectMeta : ObjectMeta;
  cred_Spec : CredentialSpec
}.

(** ** The pharmer cluster: cluster.go *)
Definition DefaultKubernetesBindPort : Z := 6443%Z.
Definition calicoPodSubnet : string := "192.168.0.0/16".
Definition flannelPodSubnet : string := "10.244.0.0/16".
Definition canalPodSubnet : string := "10.244.0.0/16".

(** constants.go *)
Definition RoleMaster : string := "master".
Definition RoleNode : string := "node".
Definition RoleKeyPrefix : string := "node-role.kubernetes.io/".
Definition RoleMasterKey : string := RoleKeyPrefix +:+ RoleMaster.
Definition RoleNodeKey : string := RoleKeyPrefix +:+ RoleNode.
Definition PharmerCluster : string := "cluster.pharmer.io/cluster".
Definition NodePoolKey : string := "cluster.pharmer.io/pool".
Definition KubeadmVersionKey : string := "cluster.pharmer.io/kubeadm-version".
Definition PodNetworkCalico : string := "calico".
Definition PodNetworkFlannel : string := "flannel".
Definition PodNetworkCanal : string := "canal".
Definition CACertName : string := "ca".
Definition CACertCommonName : string := "ca".
Definition FrontProxyCACertName : string := "front-proxy-ca".
Definition FrontProxyCACertCommonName : string := "front-proxy-ca".
Definition SAKeyName : string := "sa".
Definition SAKeyCommonName : string := "sa".
Definition ETCDCACertName : string := "etcd/ca".
Definition ETCDCACertCommonName : string := "kubernetes".

(** k8s.io/kubernetes/cmd/kubeadm/app/apis/kubeadm/v1beta1 and cluster-api *)
Definition DefaultServicesSubnet : string := "10.96.0.0/12".
Definition DefaultServiceDNSDomain : string := "cluster.local".
Definition MachineClusterLabelName : string := "cluster.k8s.io/cluster-name".
Definition MachineSlecetor : string := "cluster.pharmer.io/mg".

Record AWSSpec := {
  IAMProfileMaster : string; IAMProfileNode : string; MasterSGName : string;
  NodeSGName : string; BastionSGName : string; VpcCIDR : string; VpcCIDRBase : string;
  MasterIPSuffix : string; PrivateSubnetCIDR : string; PublicSubnetCIDR : string
}.

Record GoogleSpec := {
  gce_NetworkName : string; NodeTags : list string; NodeScopes : list string
}.

Record GKESpec := { UserName : string; Password : string; gke_NetworkName : string }.

Record AzureSpec := {
  InstanceImageVersion : string; azure_RootPassword : string; VPCCIDR : string;
  ControlPlaneSubnetCIDR : string; NodeSubnetCIDR : string; InternalLBIPAddress : string;
  AzureDNSZone : string; SubnetCIDR : string; ResourceGroup : string; SubnetName : string;
  SecurityGroupName : string; VnetName : string; RouteTableName : string;
  StorageAccountName : string; SubscriptionID : string
}.

Record LinodeSpec := { linode_RootPassword : string; KernelID : string }.
Record DokubeSpec := { ClusterID : string }.

Record CloudSpec := {
  CloudProviderName : string; Project : string; Region : string; Zone : string;
  InstanceImage : string; OSName : string; InstanceImageProject : string;
  NetworkProvider : string; SSHKeyName : string;
  spec_AWS : option AWSSpec; spec_GCE : option GoogleSpec; spec_Azure : option AzureSpec;
  spec_Linode : option LinodeSpec; spec_GKE : option GKESpec; spec_Dokube : option DokubeSpec
}.

Record ClusterConfig := {
  MasterCount : Z;
  Cloud : CloudSpec;
  KubernetesVersion : string;
  CredentialName : string;
  SSHUserName : string;
  KubeletExtraArgs : option (gmap string string);
  APIServerExtraArgs : gmap string string;
  ControllerManagerExtraArgs : gmap string string;
  SchedulerExtraArgs : gmap string string;
  AuthorizationModes : list string;
  APIServerCertSANs : list string
}.

Record PharmerClusterSpec := {
  ClusterAPI : CapiCluster;
  Config : ClusterConfig;
  AuditSink : bool
}.

(** [type ClusterPhase string]; the empty phase is the unset one. *)
Definition ClusterPhase := string.
Definition ClusterPending : ClusterPhase := "Pending".
Definition ClusterReady : ClusterPhase := "Ready".
Definition ClusterDeleting : ClusterPhase := "Deleting".
Definition ClusterDeleted : ClusterPhase := "Deleted".
Definition ClusterUpgrading : ClusterPhase := "Upgrading".

Record LoadBalancer := { lb_DNS : string; lb_IP : string; lb_Port : Z }.
Record AWSStatus := { MasterSGId : string; NodeSGId : string; BastionSGId : string }.
Record EKSStatus := { SecurityGroup : string; VpcID : string; SubnetID : string; RoleArn : string }.

Record CloudStatus := {
  SSHKeyExternalID : string;
  status_AWS : option AWSStatus;
  status_EKS : option EKSStatus;
  status_LoadBalancer : LoadBalancer
}.

Record PharmerClusterStatus := {
  Phase : ClusterPhase;
  Reason : string;
  status_Cloud : CloudStatus
}.

Record Cluster := {
  cluster_TypeMeta : TypeMeta;
  cluster_ObjectMeta : ObjectMeta;
  Spec : PharmerClusterSpec;
  Status : PharmerClusterStatus
}.

(** *** Zero values *)
Definition zero_LoadBalancer : LoadBalancer := {| lb_DNS := ""; lb_IP := ""; lb_Port := 0%Z |}.
Definition zero_CloudStatus : CloudStatus :=
  {| SSHKeyExternalID := ""; status_AWS := None; status_EKS := None;
     status_LoadBalancer := zero_LoadBalancer |}.
Definition zero_Status : PharmerClusterStatus :=
  {| Phase := ""; Reason := ""; status_Cloud := zero_CloudStatus |}.
Definition zero_CloudSpec : CloudSpec :=
  {| CloudProviderName := ""; Project := ""; Region := ""; Zone := ""; InstanceImage := "";
     OSName := ""; InstanceImageProject := ""; NetworkProvider := ""; SSHKeyName := "";
     spec_AWS := None; spec_GCE := None; spec_Azure := None; spec_Linode := None;
     spec_GKE := None; spec_Dokube := None |}.
Definition zero_Config : ClusterConfig :=
  {| MasterCount := 0%Z; Cloud := zero_CloudSpec; KubernetesVersion := ""; CredentialName := "";
     SSHUserName := ""; KubeletExtraArgs := None; APIServerExtraArgs := ∅;
     ControllerManagerExtraArgs := ∅; SchedulerExtraArgs := ∅; AuthorizationModes := [];
     APIServerCertSANs := [] |}.
Definition zero_CapiClusterSpec : CapiClusterSpec :=
  {| ClusterNetwork := {| ServicesCIDRBlocks := []; PodsCIDRBlocks := []; ServiceDomain := "" |};
     ClusterProviderSpec := None |}.
Definition zero_CapiClusterStatus : CapiClusterStatus :=
  {| APIEndpoints := []; ClusterErrorMessage := ""; ClusterProviderStatus := None |}.
Definition zero_CapiCluster : CapiCluster :=
  {| capi_TypeMeta := zero_TypeMeta; capi_ObjectMeta := named "";
     capi_Spec := zero_CapiClusterSpec; capi_Status := zero_CapiClusterStatus |}.
Definition zero_MachineSpec : MachineSpec :=
  {| SpecName := ""; MachineProviderSpec := None; Versions := {| Kubelet := ""; ControlPlane := "" |};
     ProviderID := None |}.
Definition zero_MachineStatus : MachineStatus :=
  {| MachineProviderStatus := None; MachinePhase := None |}.

(** *** Field updates (assignments through a pointer) *)
Definition with_TypeMeta (c : Cluster) (t : TypeMeta) : Cluster :=
  {| cluster_TypeMeta := t; cluster_ObjectMeta := cluster_ObjectMeta c;
     Spec := Spec c; Status := Status c |}.
Definition with_ObjectMeta (c : Cluster) (m : ObjectMeta) : Cluster :=
  {| cluster_TypeMeta := cluster_TypeMeta c; cluster_ObjectMeta := m;
     Spec := Spec c; Status := Status c |}.
Definition with_Spec (c : Cluster) (s : PharmerClusterSpec) : Cluster :=
  {| cluster_TypeMeta := cluster_TypeMeta c; cluster_ObjectMeta := cluster_ObjectMeta c;
     Spec := s; Status := Status c |}.
Definition with_Status (c : Cluster) (s : PharmerClusterStatus) : Cluster :=
  {| cluster_TypeMeta := cluster_TypeMeta c; cluster_ObjectMeta := cluster_ObjectMeta c;
     Spec := Spec c; Status := s |}.
Definition with_Phase (s : PharmerClusterStatus) (p : ClusterPhase) : PharmerClusterStatus :=
  {| Phase := p; Reason := Reason s; status_Cloud := status_Cloud s |}.
Definition with_ClusterAPI (s : PharmerClusterSpec) (a : CapiCluster) : PharmerClusterSpec :=
  {| ClusterAPI := a; Config := Config s; AuditSink := AuditSink s |}.
Definition with_Config (s : PharmerClusterSpec) (c : ClusterConfig) : PharmerClusterSpec :=
  {| ClusterAPI := ClusterAPI s; Config := c; AuditSink := AuditSink s |}.
Definition with_capi_Status (a : CapiCluster) (s : CapiClusterStatus) : CapiCluster :=
  {| capi_TypeMeta := capi_TypeMeta a; capi_ObjectMeta := capi_ObjectMeta a;
     capi_Spec := capi_Spec a; capi_Status := s |}.
Definition with_capi_Spec (a : CapiCluster) (s : CapiClusterSpec) : CapiCluster :=
  {| capi_TypeMeta := capi_TypeMeta a; capi_ObjectMeta := capi_ObjectMeta a;
     capi_Spec := s; capi_Status := capi_Status a |}.
Definition with_capi_TypeMeta (a : CapiCluster) (t : TypeMeta) : CapiCluster :=
  {| capi_TypeMeta := t; capi_ObjectMeta := capi_ObjectMeta a;
     capi_Spec := capi_Spec a; capi_Status := capi_Status a |}.
Definition with_APIEndpoints (s : CapiClusterStatus) (l : list APIEndpoint) : CapiClusterStatus :=
  {| APIEndpoints := l; ClusterErrorMessage := ClusterErrorMessage s;
     ClusterProviderStatus := ClusterProviderStatus s |}.
Definition with_DeletionTimestamp (m : ObjectMeta) (t : option Time) : ObjectMeta :=
  {| Name := Name m; Namespace := Namespace m; UID := UID m; Generation := Generation m;
     CreationTimestamp := CreationTimestamp m; DeletionTimestamp := t;
     Labels := Labels m; Annotations := Annotations m |}.

Definition cluster_Name (c : Cluster) : string := Name (cluster_ObjectMeta c).
Definition machine_Name (m : Machine) : string := Name (machine_ObjectMeta m).
Definition machineset_Name (m : MachineSet) : string := Name (machineset_ObjectMeta m).
Definition cred_Name (c : Credential) : string := Name (cred_ObjectMeta c).

(** ** Methods of Cluster *)
Definition ManagedProviders : list string := ["aks"; "gke"; "eks"; "dokube"].
Definition is_managed (p : string) : bool := bool_decide (p ∈ ManagedProviders).

Definition endpoints (c : Cluster) : list APIEndpoint :=
  APIEndpoints (capi_Status (ClusterAPI (Spec c))).

Fixpoint first_url (l : list APIEndpoint) : string :=
  match l with
  | [] => ""
  | addr :: rest =>
      if decide (Host addr = "") then first_url rest
      else if decide (Port addr = 0%Z) then "https://" +:+ Host addr
      else "https://" +:+ Host addr +:+ ":" +:+ pretty (Port addr)
  end.

Definition APIServerURL (c : Cluster) : string := first_url (endpoints c).

Definition APIServerAddress (c : Cluster) : string :=
  match endpoints c with
  | [] => ""
  | ep :: _ =>
      if decide (Port ep = 0%Z) then Host ep
      else Host ep +:+ ":" +:+ pretty (Port ep)
  end.

(** [core.NodeAddress]: the type is a string ("ExternalIP", "ExternalDNS", ...). *)
Record NodeAddress := { addr_Type : string; Address : string }.
Definition NodeExternalIP : string := "ExternalIP".
Definition NodeExternalDNS : string := "ExternalDNS".
Definition NodeInternalIP : string := "InternalIP".
Definition NodeInternalDNS : string := "InternalDNS".

Definition append_endpoint (c : Cluster) (u : string) : Cluster :=
  let a := ClusterAPI (Spec c) in
  with_Spec c (with_ClusterAPI (Spec c)
    (with_capi_Status a (with_APIEndpoints (capi_Status a)
      (APIEndpoints (capi_Status a) ++ [{| Host := u; Port := DefaultKubernetesBindPort |}])))).

Definition address_map (addresses : list NodeAddress) : gmap string string :=
  foldl (λ m addr, <[addr_Type addr := Address addr]> m) ∅ addresses.

Definition SetClusterAPIEndpoints (c : Cluster) (addresses : list NodeAddress) :
    outcome Cluster :=
  let m := address_map addresses in
  let try_dns :=
    match m !! NodeExternalDNS with
    | Some u => if decide (u ≠ "") then Ok (append_endpoint c u)
                else Err "no cluster api endpoint found"
    | None => Err "no cluster api endpoint found"
    end in
  match m !! NodeExternalIP with
  | Some u => if decide (u ≠ "") then Ok (append_endpoint c u) else try_dns
  | None => try_dns
  end.

Definition pod_subnet (provider : string) : string :=
  if decide (provider = PodNetworkCalico) then calicoPodSubnet
  else if decide (provider = PodNetworkFlannel) then flannelPodSubnet
  else if decide (provider = PodNetworkCanal) then canalPodSubnet
  else "".

Definition SetNetworkingDefaults (c : Cluster) (provider : string) : Cluster :=
  let a := ClusterAPI (Spec c) in
  let n := ClusterNetwork (capi_Spec a) in
  let n' := {|
    ServicesCIDRBlocks :=
      match ServicesCIDRBlocks n with [] => [DefaultServicesSubnet] | l => l end;
    PodsCIDRBlocks :=
      match PodsCIDRBlocks n with [] => [pod_subnet provider] | l => l end;
    ServiceDomain :=
      if decide (ServiceDomain n = "") then DefaultServiceDNSDomain else ServiceDomain n
  |} in
  with_Spec c (with_ClusterAPI (Spec c)
    (with_capi_Spec a {| ClusterNetwork := n';
                         ClusterProviderSpec := ClusterProviderSpec (capi_Spec a) |})).

Definition InitClusterAPI (c : Cluster) : Cluster :=
  with_Spec c (with_ClusterAPI (Spec c)
    {| capi_TypeMeta := zero_TypeMeta; capi_ObjectMeta := named (cluster_Name c);
       capi_Spec := zero_CapiClusterSpec; capi_Status := zero_CapiClusterStatus |}).

(** [IsLessThanVersion] over the version library (gomodules.xyz/version): its
    parser and its order are the parameters. *)
Section IsLessThanVersion.
Context {V : Type} (NewVersion : string → option V) (LessThan : V → V → bool).

Definition IsLessThanVersion (c : Cluster) (inp : string) : bool :=
  match NewVersion (KubernetesVersion (Config (Spec c))) with
  | None => false
  | Some v =>
      match NewVersion inp with
      | None => false
      | Some inVer => LessThan v inVer
      end
  end.
End IsLessThanVersion.

Definition GenSSHKeyExternalID (c : Cluster) : string := cluster_Name c +:+ "-sshkey".

Definition MasterMachineName (c : Cluster) (n : Z) : string :=
  cluster_Name c +:+ "-master-" +:+ pretty n.

Definition CloudProvider (c : Cluster) : string := CloudProviderName (Cloud (Config (Spec c))).

(** ** config.go *)
Record LocalSpec := { Path : string }.
Record S3Spec := { s3_Endpoint : string; s3_Bucket : string; s3_Prefix : string }.
Record GCSSpec := { gcs_Bucket : string; gcs_Prefix : string }.
Record AzureStorageSpec := { azure_Container : string; azure_Prefix : string }.
Record SwiftSpec := { swift_Container : string; swift_Prefix : string }.
Record PostgresSpec := {
  DbName : string; pg_Host : string; pg_Port : Z; pg_User : string; pg_Password : string;
  MasterKeyURL : string
}.

Record StorageBackend := {
  sb_CredentialName : string;
  sb_Local : option LocalSpec;
  sb_S3 : option S3Spec;
  sb_GCS : option GCSSpec;
  sb_Azure : option AzureStorageSpec;
  sb_Swift : option SwiftSpec;
  sb_Postgres : option PostgresSpec
}.

Record PharmerConfig := {
  config_TypeMeta : TypeMeta;
  config_Context : string;
  config_Credentials : list Credential;
  Store : StorageBackend
}.

Definition GetStoreType (pc : PharmerConfig) : string :=
  let s := Store pc in
  if sb_Local s is Some _ then "Local"
  else if sb_S3 s is Some _ then "S3"
  else if sb_GCS s is Some _ then "GCS"
  else if sb_Azure s is Some _ then "Azure"
  else if sb_Swift s is Some _ then "OpenStack Swift"
  else if sb_Postgres s is Some _ then "Postgres"
  else "<Unknown>".

(** ** operation.go *)
Inductive OperationState := OperationDone | OperationPending | OperationRunning.

#[export] Instance OperationState_eq_dec : EqDecision OperationState.
Proof. solve_decision. Defined.

Record Operation := {
  op_ID : Z; op_UserID : Z; op_ClusterID : Z; op_Code : string; op_State : OperationState
}.

#[export] Instance Operation_eq_dec : EqDecision Operation.
Proof. solve_decision. Defined.

Definition with_op_State (o : Operation) (s : OperationState) : Operation :=
  {| op_ID := op_ID o; op_UserID := op_UserID o; op_ClusterID := op_ClusterID o;
     op_Code := op_Code o; op_State := s |}.

(** ** util.go *)
Definition clusterAPIversion : string := "cluster.k8s.io/v1alpha1".
Definition pharmerAPIversion : string := "cluster.pharmer.io/v1beta1".

Definition set_kind (version kind : string) (t : TypeMeta) : TypeMeta :=
  {| Kind := kind;
     APIVersion := if decide (APIVersion t = "") then version else APIVersion t |}.

(** [interface{}], by dynamic type. *)
Inductive api_object :=
  | OPharmerConfig (c : PharmerConfig)
  | OCluster (c : Cluster)
  | OCredential (c : Credential)
  | OCapiCluster (c : CapiCluster)
  | OMachine (m : Machine)
  | OMachineSet (m : MachineSet)
  | OOther.

Definition AssignTypeKind (v : api_object) : outcome api_object :=
  match v with
  | OPharmerConfig u => Ok (OPharmerConfig
      {| config_TypeMeta := set_kind pharmerAPIversion "PharmerConfig" (config_TypeMeta u);
         config_Context := config_Context u; config_Credentials := config_Credentials u;
         Store := Store u |})
  | OCluster u => Ok (OCluster
      (with_TypeMeta u (set_kind pharmerAPIversion "Cluster" (cluster_TypeMeta u))))
  | OCredential u => Ok (OCredential
      {| cred_TypeMeta := set_kind "cloud.pharmer.io/v1" "Credential" (cred_TypeMeta u);
         cred_ObjectMeta := cred_ObjectMeta u; cred_Spec := cred_Spec u |})
  | OCapiCluster u => Ok (OCapiCluster
      (with_capi_TypeMeta u (set_kind clusterAPIversion "Cluster" (capi_TypeMeta u))))
  | OMachine u => Ok (OMachine
      {| machine_TypeMeta := set_kind clusterAPIversion "Machine" (machine_TypeMeta u);
         machine_ObjectMeta := machine_ObjectMeta u; machine_Spec := machine_Spec u;
         machine_Status := machine_Status u |})
  | OMachineSet u => Ok (OMachineSet
      {| machineset_TypeMeta := set_kind clusterAPIversion "MachineSet" (machineset_TypeMeta u);
         machineset_ObjectMeta := machineset_ObjectMeta u;
         machineset_Spec := machineset_Spec u; machineset_Status := machineset_Status u |})
  | OOther => Err "Unknown api object type"
  end.

Definition ErrAlreadyExist (e : error) : bool := Contains e "already exists".

Definition ErrObjectModified (e : option error) : bool :=
  match e with
  | None => false
  | Some e => Contains e "the object has been modified"
  end.

(** ** upgrade.go *)
Record ClusterState := {
  KubeVersion : string; DNSVersion : string; KubeadmVersion : string;
  KubeletVersions : gmap string Z
}.

Record Upgrade := { Description : string; Before : ClusterState; After : ClusterState }.

Definition CanUpgradeKubelets (u : Upgrade) : bool :=
  if decide (1 < size (KubeletVersions (Before u))) then true
  else if decide (size (KubeletVersions (Before u)) = 0) then false
  else negb (bool_decide (is_Some (KubeletVersions (Before u) !! KubeVersion (After u)))).

(** ** node_labels.go *)
Definition NodeLabelKey_Checksum : string := "meta.appscode.com/checksum".

Definition NodeLabels := gmap string string.

(** The keys in order; the counter [i] is the number of labels written. *)
Definition label_keys (n : NodeLabels) : list string := merge_sort String.le (map_to_list n).*1.

Definition skips (appscodeKeysOnly skipChecksum : bool) (k : string) : bool :=
  (appscodeKeysOnly && negb (Contains k ".appscode.com/")) ||
  (bool_decide (k = NodeLabelKey_Checksum) && skipChecksum).

Definition write_label (n : NodeLabels) (appscodeKeysOnly skipChecksum : bool)
    (st : nat * string) (k : string) : nat * string :=
  if skips appscodeKeysOnly skipChecksum k then st
  else (S (fst st),
        (if decide (0 < fst st) then snd st +:+ "," else snd st) +:+ k +:+ "=" +:+ default "" (n !! k)).

Definition values (n : NodeLabels) (appscodeKeysOnly skipChecksum : bool) : string :=
  snd (foldl (write_label n appscodeKeysOnly skipChecksum) (0, "") (label_keys n)).

Definition NodeLabels_String (n : NodeLabels) : string := values n false false.

(** ** API server endpoints *)

(** The address SetClusterAPIEndpoints picks: the last external IP, else the last
    external DNS name, if it is not empty. *)
Definition external_address (addresses : list NodeAddress) : option string :=
  let pick t := match address_map addresses !! t with
                | Some u => if decide (u ≠ "") then Some u else None
                | None => None
                end in
  match pick NodeExternalIP with Some u => Some u | None => pick NodeExternalDNS end.

Lemma SetClusterAPIEndpoints_external c addresses :
  SetClusterAPIEndpoints c addresses =
  match external_address addresses with
  | Some u => Ok (append_endpoint c u)
  | None => Err "no cluster api endpoint found"
  end.
Proof.
  unfold SetClusterAPIEndpoints, external_address. by repeat case_match; simplify_eq.
Qed.

Lemma first_url_app l u :
  u ≠ "" →
  first_url (l ++ [{| Host := u; Port := DefaultKubernetesBindPort |}]) =
  if decide (first_url l = "") then "https://" +:+ u +:+ ":" +:+ pretty DefaultKubernetesBindPort
  else first_url l.
Proof.
  intros Hu. induction l as [|ep l IH]; cbn [app first_url].
  - cbn [Host Port]. by rewrite !decide_False, decide_True by done.
  - destruct (decide (Host ep = "")); [exact IH|].
    destruct (decide (Port ep = 0%Z)); (rewrite decide_False; [done|]);
      by intros [? _]%append_eq_nil.
Qed.

(** After the addresses of the master are known, the cluster's URL is that of its
    external address, unless it had a usable endpoint before; without an external
    address the call fails. *)
Theorem endpoint_url c addresses :
  match external_address addresses with
  | Some u =>
      ∃ c', SetClusterAPIEndpoints c addresses = Ok c' ∧ cluster_Name c' = cluster_Name c ∧
        APIServerURL c' =
          if decide (APIServerURL c = "") then "https://" +:+ u +:+ ":6443" else APIServerURL c
  | None => ∃ err, SetClusterAPIEndpoints c addresses = Err err
  end.
Proof.
  rewrite SetClusterAPIEndpoints_external. destruct (external_address addresses) as [u|] eqn:E; [|by eexists].
  eexists. split; [done|]. split; [done|].
  change (APIServerURL (append_endpoint c u)) with
    (first_url (endpoints c ++ [{| Host := u; Port := DefaultKubernetesBindPort |}])).
  apply first_url_app. unfold external_address in E. by repeat case_match; simplify_eq.
Qed.

(** ** Networking defaults *)

(** Defaults fill only what is empty, for good: a second call, with whatever
    network provider, changes nothing. *)
Theorem networking_defaults_settle c p q :
  let c1 := SetNetworkingDefaults c p in
  let n0 := ClusterNetwork (capi_Spec (ClusterAPI (Spec c))) in
  let n1 := ClusterNetwork (capi_Spec (ClusterAPI (Spec c1))) in
  SetNetworkingDefaults c1 q = c1 ∧
  ServicesCIDRBlocks n1 ≠ [] ∧ PodsCIDRBlocks n1 ≠ [] ∧ ServiceDomain n1 ≠ "" ∧
  (ServicesCIDRBlocks n0 ≠ [] → ServicesCIDRBlocks n1 = ServicesCIDRBlocks n0) ∧
  (PodsCIDRBlocks n0 ≠ [] → PodsCIDRBlocks n1 = PodsCIDRBlocks n0) ∧
  (PodsCIDRBlocks n0 = [] → PodsCIDRBlocks n1 = [pod_subnet p]) ∧
  (ServiceDomain n0 ≠ "" → ServiceDomain n1 = ServiceDomain n0).
Proof.
  destruct c as [t m [a cfg sink] st]. destruct a as [at_ am [[sv pd dom] ps] ast].
  unfold SetNetworkingDefaults, with_Spec, with_ClusterAPI, with_capi_Spec. cbn.
  destruct sv, pd, (decide (dom = "")); cbn; rewrite ?decide_False by done; by split_and!.
Qed.

(** ** Kinds *)

(** Every object the stores keep gets the kind of its type; assigning it twice is
    assigning it once, and an API version that is set stays. *)
Theorem assign_kind_idempotent v v' :
  AssignTypeKind v = Ok v' → AssignTypeKind v' = Ok v'.
Proof.
  assert (Hk : ∀ ver k t, ver ≠ "" → set_kind ver k (set_kind ver k t) = set_kind ver k t).
  { intros ver k t Hv. unfold set_kind. cbn. destruct (decide (APIVersion t = "")).
    - by rewrite decide_False.
    - by rewrite decide_False. }
  destruct v; intros E; inversion E; subst; cbn; unfold with_TypeMeta, with_capi_TypeMeta; cbn;
    by rewrite Hk.
Qed.

(** ** Upgrades of kubelets *)

(** Kubelets can be upgraded exactly when some node runs another version than the
    one the upgrade brings. *)
Theorem can_upgrade_kubelets u :
  CanUpgradeKubelets u = true ↔
  ∃ v n, KubeletVersions (Before u) !! v = Some n ∧ v ≠ KubeVersion (After u).
Proof.
  unfold CanUpgradeKubelets. set (kv := KubeletVersions (Before u)). set (w := KubeVersion (After u)).
  assert (Hdel : (∃ v n, kv !! v = Some n ∧ v ≠ w) ↔ delete w kv ≠ ∅).
  { split.
    - intros (v & n & Hv & Hne) E. assert (delete w kv !! v = Some n) as H.
      { by rewrite lookup_delete_ne. } by rewrite E in H.
    - intros (v & n & Hv)%map_choose. exists v, n.
      apply lookup_delete_Some in Hv as [? ?]. done. }
  rewrite Hdel. destruct (decide (1 < size kv)) as [Hs|Hs].
  - split; [|done]. intros _ E. assert (size (delete w kv) = 0) as Hz by (by rewrite E).
    destruct (kv !! w) as [n|] eqn:Ew.
    + rewrite map_size_delete_Some in Hz by (by eexists). lia.
    + rewrite delete_id in Hz by done. lia.
  - destruct (decide (size kv = 0)) as [Hz|Hz].
    + split; [done|]. intros Hd. exfalso. apply Hd. apply map_size_empty_inv in Hz. rewrite Hz.
      apply delete_empty.
    + assert (size kv = 1) as H1 by lia. rewrite negb_true_iff, bool_decide_eq_false. split.
      * intros Hw E. rewrite delete_id in E by (by apply eq_None_not_Some). rewrite E in H1. done.
      * intros Hd Hw. apply Hd. apply map_size_empty_inv.
        rewrite map_size_delete_Some by done. lia.
Qed.

(** ** Node labels *)

(** The kept labels, one by one. *)
Definition label (n : NodeLabels) (k : string) : string := k +:+ "=" +:+ default "" (n !! k).
Definition kept (n : NodeLabels) (a s : bool) : list string :=
  filter (λ k, skips a s k = false) (label_keys n).

Lemma foldl_labels n a s ks : ∀ i buf,
  snd (foldl (write_label n a s) (i, buf) ks) =
  match label n <$> filter (λ k, skips a s k = false) ks with
  | [] => buf
  | l => (if decide (0 < i) then buf +:+ "," else buf) +:+ Join "," l
  end.
Proof.
  induction ks as [|k ks IH]; intros i buf; [done|].
  cbn [foldl]. unfold write_label at 2. cbn [fst snd]. rewrite filter_cons.
  destruct (skips a s k) eqn:Hk.
  - rewrite (decide_False (P := true = false)) by done. apply IH.
  - rewrite (decide_True (P := false = false)) by done.
    rewrite IH, (decide_True (P := 0 < S i)) by lia. rewrite fmap_cons. fold (label n k).
    destruct (label n <$> filter _ ks) as [|l ls] eqn:El; [done|].
    rewrite (Join_cons "," (label n k) (l :: ls)) by done. unfold label. by rewrite !append_assoc.
Qed.

(** The flag is the kept labels in the order of their keys, separated by commas:
    the same text for the same labels, whatever order the map is ranged in. *)
Theorem node_labels_values n a s :
  values n a s = Join "," (label n <$> kept n a s) ∧
  Sorted String.le (label_keys n) ∧ label_keys n ≡ₚ (map_to_list n).*1 ∧
  (∀ k, k ∈ kept n false false ↔ is_Some (n !! k)) ∧
  (∀ k, k ∈ kept n true true ↔
     is_Some (n !! k) ∧ Contains k ".appscode.com/" = true ∧ k ≠ NodeLabelKey_Checksum).
Proof.
  assert (Hkeys : ∀ k, k ∈ label_keys n ↔ is_Some (n !! k)).
  { intros k. unfold label_keys. rewrite merge_sort_Permutation, list_elem_of_fmap. split.
    - intros ([k' v] & -> & Hv%elem_of_map_to_list). by eexists.
    - intros [v Hv]. exists (k, v). split; [done|by apply elem_of_map_to_list]. }
  split_and!.
  - unfold values, kept. rewrite foldl_labels.
    destruct (label n <$> filter _ (label_keys n)) as [|l ls]; [done|].
    by rewrite decide_False by lia.
  - apply Sorted_merge_sort. apply _.
  - apply merge_sort_Permutation.
  - intros k. unfold kept. rewrite list_elem_of_filter, Hkeys. unfold skips. cbn.
    rewrite andb_false_r. naive_solver.
  - intros k. unfold kept. rewrite list_elem_of_filter, Hkeys. unfold skips. cbn.
    rewrite andb_true_r, orb_false_iff, negb_false_iff, bool_decide_eq_false. naive_solver.
Qed.
