(* ===== verification/StoreSpec.v ===== *)
(** * What a resource store promises (store/api.go)

    The four resource stores of [store.ResourceInterface] (credentials,
    clusters, machines, machine sets) have the same operations.  [store_ops]
    is that interface over an arbitrary backend state; [spec_store] is the
    abstract store, a finite map from names to objects; [Refines] says that a
    backend implements it.  A backend that refines the specification does so on
    every sequence of requests ([trace_sim]).

    [persist] is what a backend does to an object between writing and reading
    it: the identity for the in-memory store, encode-then-decode for the file
    store. *)
From stdpp Require Import base list gmap strings fin_maps.
From S2P Require Import Prelude GoStrings Api.

(** ** Objects a store holds *)
Class Resource (O : Type) := {
  res_name : O → string;
  res_assign : O → O;
  res_object : O → api_object;
  res_assign_spec o : AssignTypeKind (res_object o) = Ok (res_object (res_assign o));
  res_assign_name o : res_name (res_assign o) = res_name o
}.

Class HasStatus (O : Type) `{!Resource O} := {
  res_set_status : O → O → O;      (* [existing.Status = obj.Status] *)
  res_set_status_name ex o : res_name (res_set_status ex o) = res_name ex;
  res_set_status_assign ex o : res_set_status ex (res_assign o) = res_set_status ex o
}.

Lemma set_status_assign {O} `{!Resource O, !HasStatus O} (f : O → O → O) :
  Some res_set_status = Some f → ∀ ex o, f ex (res_assign o) = f ex o.
Proof. intros [= <-]. apply res_set_status_assign. Qed.

#[export] Program Instance cluster_resource : Resource Cluster := {|
  res_name := cluster_Name;
  res_assign c := with_TypeMeta c (set_kind pharmerAPIversion "Cluster" (cluster_TypeMeta c));
  res_object := OCluster
|}.
Solve All Obligations with done.

#[export] Program Instance credential_resource : Resource Credential := {|
  res_name := cred_Name;
  res_assign c :=
    {| cred_TypeMeta := set_kind "cloud.pharmer.io/v1" "Credential" (cred_TypeMeta c);
       cred_ObjectMeta := cred_ObjectMeta c; cred_Spec := cred_Spec c |};
  res_object := OCredential
|}.
Solve All Obligations with done.

#[export] Program Instance machine_resource : Resource Machine := {|
  res_name := machine_Name;
  res_assign m :=
    {| machine_TypeMeta := set_kind clusterAPIversion "Machine" (machine_TypeMeta m);
       machine_ObjectMeta := machine_ObjectMeta m; machine_Spec := machine_Spec m;
       machine_Status := machine_Status m |};
  res_object := OMachine
|}.
Solve All Obligations with done.

#[export] Program Instance machineset_resource : Resource MachineSet := {|
  res_name := machineset_Name;
  res_assign m :=
    {| machineset_TypeMeta := set_kind clusterAPIversion "MachineSet" (machineset_TypeMeta m);
       machineset_ObjectMeta := machineset_ObjectMeta m;
       machineset_Spec := machineset_Spec m; machineset_Status := machineset_Status m |};
  res_object := OMachineSet
|}.
Solve All Obligations with done.

#[export] Program Instance cluster_status : HasStatus Cluster := {|
  res_set_status ex o := with_Status ex (Status o)
|}.
Solve All Obligations with done.

#[export] Program Instance machine_status : HasStatus Machine := {|
  res_set_status ex o :=
    {| machine_TypeMeta := machine_TypeMeta ex; machine_ObjectMeta := machine_ObjectMeta ex;
       machine_Spec := machine_Spec ex; machine_Status := machine_Status o |}
|}.
Solve All Obligations with done.

#[export] Program Instance machineset_status : HasStatus MachineSet := {|
  res_set_status ex o :=
    {| machineset_TypeMeta := machineset_TypeMeta ex;
       machineset_ObjectMeta := machineset_ObjectMeta ex;
       machineset_Spec := machineset_Spec ex; machineset_Status := machineset_Status o |}
|}.
Solve All Obligations with done.

(** [err := api.AssignTypeKind(obj); if err != nil { return nil, err }], [obj]
    updated in place. *)
Definition assign_kind {S O} `{!Resource O} (obj : O) : GoM S O :=
  _ ← lift (AssignTypeKind (res_object obj)); mret (res_assign obj).

Lemma assign_kind_ok {S O} `{!Resource O} (obj : O) (s : S) :
  assign_kind obj s = (Ok (res_assign obj), s).
Proof. unfold assign_kind, lift, mbind, gom_bind. by rewrite res_assign_spec. Qed.

(** ** The interface *)
Record store_ops (S O : Type) := {
  op_List : GoM S (list O);
  op_Get : string → GoM S O;
  op_Create : option O → GoM S O;
  op_Update : option O → GoM S O;
  op_Delete : string → GoM S ();
  op_UpdateStatus : option (option O → GoM S O)   (* the CredentialStore has none *)
}.
Arguments op_List {_ _}. Arguments op_Get {_ _}. Arguments op_Create {_ _}.
Arguments op_Update {_ _}. Arguments op_Delete {_ _}. Arguments op_UpdateStatus {_ _}.

Inductive request (O : Type) :=
  | RList
  | RGet (name : string)
  | RCreate (obj : option O)
  | RUpdate (obj : option O)
  | RDelete (name : string)
  | RUpdateStatus (obj : option O).
Arguments RList {_}. Arguments RGet {_}. Arguments RCreate {_}. Arguments RUpdate {_}.
Arguments RDelete {_}. Arguments RUpdateStatus {_}.

Inductive response (O : Type) := Objs (l : list O) | Obj (o : O) | Done.
Arguments Objs {_}. Arguments Obj {_}. Arguments Done {_}.

Definition run {S O} (ops : store_ops S O) (r : request O) : GoM S (response O) :=
  match r with
  | RList => l ← op_List ops; mret (Objs l)
  | RGet n => o ← op_Get ops n; mret (Obj o)
  | RCreate o => o ← op_Create ops o; mret (Obj o)
  | RUpdate o => o ← op_Update ops o; mret (Obj o)
  | RDelete n => _ ← op_Delete ops n; mret Done
  | RUpdateStatus o =>
      match op_UpdateStatus ops with
      | Some update => o ← update o; mret (Obj o)
      | None => throw "no such method"
      end
  end.

(** A client's calls, one after the other; every reply is recorded. *)
Fixpoint trace {Q A S} (step : Q → S → A * S) (qs : list Q) (s : S) : list A * S :=
  match qs with
  | [] => ([], s)
  | q :: qs =>
      let '(a, s1) := step q s in
      let '(l, s2) := trace step qs s1 in
      (a :: l, s2)
  end.

(** A simulation of single calls is a simulation of sequences of calls. *)
Lemma trace_sim {Q A B S T} (f : Q → S → A * S) (g : Q → T → B * T)
    (sim : A → B → Prop) (R : S → T → Prop) (valid : Q → Prop) :
  (∀ q s t, R s t → valid q → sim (f q s).1 (g q t).1 ∧ R (f q s).2 (g q t).2) →
  ∀ qs s t, R s t → Forall valid qs →
  Forall2 sim (trace f qs s).1 (trace g qs t).1 ∧ R (trace f qs s).2 (trace g qs t).2.
Proof.
  intros Hstep qs s t HR Hv. revert s t HR.
  induction Hv as [|q qs Hq Hqs IH]; intros s t HR; [done|].
  simpl. destruct (Hstep q s t HR Hq) as [Hs HR1].
  destruct (f q s) as [a s1], (g q t) as [b t1]. simpl in *.
  destruct (IH _ _ HR1) as [Hos HR2].
  destruct (trace f qs s1), (trace g qs t1). simpl in *. by repeat constructor.
Qed.

(** ** The abstract store *)
Section spec.
Context {O : Type} `{!Resource O} (persist : O → outcome O).
Context (set_status : option (O → O → O)).

Definition spec_Get (name : string) : GoM (gmap string O) O := λ m,
  if decide (name = "") then (Err "missing name", m)
  else match m !! name with
       | None => (Err "does not exist", m)
       | Some o => (Ok o, m)
       end.

Definition spec_put (obj : O) (ret : O) : GoM (gmap string O) O := λ m,
  match persist obj with
  | Ok stored => (Ok ret, <[res_name obj := stored]> m)
  | Err e => (Err e, m)
  | Panic w => (Panic w, m)
  end.

Definition spec_Create (obj : option O) : GoM (gmap string O) O := λ m,
  match obj with
  | None => (Err "missing object", m)
  | Some o =>
      if decide (res_name o = "") then (Err "missing name", m)
      else match m !! res_name o with
           | Some _ => (Err "already exists", m)
           | None => spec_put (res_assign o) (res_assign o) m
           end
  end.

Definition spec_Update (obj : option O) : GoM (gmap string O) O := λ m,
  match obj with
  | None => (Err "missing object", m)
  | Some o =>
      if decide (res_name o = "") then (Err "missing name", m)
      else match m !! res_name o with
           | None => (Err "does not exist", m)
           | Some _ => spec_put (res_assign o) (res_assign o) m
           end
  end.

Definition spec_Delete (name : string) : GoM (gmap string O) () := λ m,
  if decide (name = "") then (Err "missing name", m)
  else match m !! name with
       | None => (Err "does not exist", m)
       | Some _ => (Ok (), delete name m)
       end.

Definition spec_UpdateStatus (set : O → O → O) (obj : option O) : GoM (gmap string O) O := λ m,
  match obj with
  | None => (Err "missing object", m)
  | Some o =>
      if decide (res_name o = "") then (Err "missing name", m)
      else match m !! res_name o with
           | None => (Err "does not exist", m)
           | Some ex =>
               let ex' := set ex o in
               match persist ex' with
               | Ok stored => (Ok ex', <[res_name o := stored]> m)
               | Err e => (Err e, m)
               | Panic w => (Panic w, m)
               end
           end
  end.

Definition spec_List : GoM (gmap string O) (list O) := λ m, (Ok (map_to_list m).*2, m).

Definition spec_store : store_ops (gmap string O) O := {|
  op_List := spec_List;
  op_Get := spec_Get;
  op_Create := spec_Create;
  op_Update := spec_Update;
  op_Delete := spec_Delete;
  op_UpdateStatus := spec_UpdateStatus <$> set_status
|}.
End spec.

(** ** Refinement

    Outcomes agree up to the text of errors; a list agrees up to order, and a
    backend may report an error instead of an empty list (the file store does,
    as long as its directory does not exist). *)
Definition resp_sim {O} (a b : response O) : Prop :=
  match a, b with
  | Objs l, Objs k => l ≡ₚ k
  | Obj x, Obj y => x = y
  | Done, Done => True
  | _, _ => False
  end.

Definition outcome_sim {O} (a b : outcome (response O)) : Prop :=
  match a, b with
  | Ok x, Ok y => resp_sim x y
  | Err _, Err _ => True
  | Err _, Ok (Objs []) => True
  | _, _ => False
  end.

Class Refines {S O} (impl : store_ops S O) (spec : store_ops (gmap string O) O)
    (R : S → gmap string O → Prop) (valid : request O → Prop) : Prop :=
  refines_step r s m : R s m → valid r →
    outcome_sim (run impl r s).1 (run spec r m).1 ∧ R (run impl r s).2 (run spec r m).2.

(** Two results agree, seen through the response [f] makes of a value. *)
Definition result_sim {S A O} (f : A → response O) (R : S → gmap string O → Prop)
    (r : outcome A * S) (r' : outcome A * gmap string O) : Prop :=
  outcome_sim (f <$> r.1) (f <$> r'.1) ∧ R r.2 r'.2.

Lemma result_sim_respond {S A O} (f : A → response O) R (m : GoM S A)
    (m' : GoM (gmap string O) A) s s' :
  result_sim f R (m s) (m' s') →
  outcome_sim ((m ≫= λ x, mret (f x)) s).1 ((m' ≫= λ x, mret (f x)) s').1 ∧
  R ((m ≫= λ x, mret (f x)) s).2 ((m' ≫= λ x, mret (f x)) s').2.
Proof.
  unfold result_sim, mbind, gom_bind.
  by destruct (m s) as [[] ?], (m' s') as [[] ?].
Qed.

Lemma result_respond {S A O} (f : A → response O) (m : GoM S A) s :
  ((m ≫= λ x, mret (f x)) s).1 = f <$> (m s).1.
Proof. unfold mbind, gom_bind. by destruct (m s) as [[] ?]. Qed.

(** A backend refines the specification when each of its methods does. *)
Lemma refines_by_methods {S O} (impl : store_ops S O) (spec : store_ops (gmap string O) O)
    (R : S → gmap string O → Prop) (valid : request O → Prop) :
  (∀ s m, R s m → result_sim Objs R (op_List impl s) (op_List spec m)) →
  (∀ n s m, R s m → valid (RGet n) → result_sim Obj R (op_Get impl n s) (op_Get spec n m)) →
  (∀ o s m, R s m → valid (RCreate o) →
    result_sim Obj R (op_Create impl o s) (op_Create spec o m)) →
  (∀ o s m, R s m → valid (RUpdate o) →
    result_sim Obj R (op_Update impl o s) (op_Update spec o m)) →
  (∀ n s m, R s m → valid (RDelete n) →
    result_sim (λ _, Done) R (op_Delete impl n s) (op_Delete spec n m)) →
  (match op_UpdateStatus impl, op_UpdateStatus spec with
   | Some f, Some g => ∀ o s m, R s m → valid (RUpdateStatus o) →
       result_sim Obj R (f o s) (g o m)
   | None, None => True
   | _, _ => False
   end) →
  Refines impl spec R valid.
Proof.
  intros HL HG HC HU HD HS [|n|o|o|n|o] s m HR Hv; cbn [run].
  1: by apply (result_sim_respond Objs), HL.
  1: by apply (result_sim_respond Obj), HG.
  1: by apply (result_sim_respond Obj), HC.
  1: by apply (result_sim_respond Obj), HU.
  1: by apply (result_sim_respond (λ _, Done)), HD.
  destruct (op_UpdateStatus impl), (op_UpdateStatus spec); try done.
  by apply (result_sim_respond Obj), HS.
Qed.

(** ** The whole store: store.ResourceInterface *)
Record api_store (S : Type) := {
  st_Credentials : store_ops S Credential;
  st_Clusters : store_ops S Cluster;
  st_MachineSets : string → store_ops S MachineSet;
  st_Machines : string → store_ops S Machine
}.
Arguments st_Credentials {_}. Arguments st_Clusters {_}.
Arguments st_MachineSets {_}. Arguments st_Machines {_}.

Inductive call :=
  | OnCredentials (r : request Credential)
  | OnClusters (r : request Cluster)
  | OnMachineSets (cluster : string) (r : request MachineSet)
  | OnMachines (cluster : string) (r : request Machine).

Inductive reply :=
  | FromCredentials (o : outcome (response Credential))
  | FromClusters (o : outcome (response Cluster))
  | FromMachineSets (o : outcome (response MachineSet))
  | FromMachines (o : outcome (response Machine)).

Definition run_call {S} (st : api_store S) (c : call) (s : S) : reply * S :=
  match c with
  | OnCredentials r => let '(o, s) := run (st_Credentials st) r s in (FromCredentials o, s)
  | OnClusters r => let '(o, s) := run (st_Clusters st) r s in (FromClusters o, s)
  | OnMachineSets cl r => let '(o, s) := run (st_MachineSets st cl) r s in (FromMachineSets o, s)
  | OnMachines cl r => let '(o, s) := run (st_Machines st cl) r s in (FromMachines o, s)
  end.

Definition reply_sim (a b : reply) : Prop :=
  match a, b with
  | FromCredentials o, FromCredentials p => outcome_sim o p
  | FromClusters o, FromClusters p => outcome_sim o p
  | FromMachineSets o, FromMachineSets p => outcome_sim o p
  | FromMachines o, FromMachines p => outcome_sim o p
  | _, _ => False
  end.

(** The abstract state: a map per kind, and per cluster for machines. *)
Record objects := {
  ob_credentials : gmap string Credential;
  ob_clusters : gmap string Cluster;
  ob_machinesets : string → gmap string MachineSet;
  ob_machines : string → gmap string Machine
}.

Definition no_objects : objects :=
  {| ob_credentials := ∅; ob_clusters := ∅; ob_machinesets _ := ∅; ob_machines _ := ∅ |}.

Section spec_api.
Context (pC : Cluster → outcome Cluster) (pCr : Credential → outcome Credential).
Context (pMS : MachineSet → outcome MachineSet) (pM : Machine → outcome Machine).

Definition put_credentials v (o : objects) : objects :=
  {| ob_credentials := v; ob_clusters := ob_clusters o;
     ob_machinesets := ob_machinesets o; ob_machines := ob_machines o |}.
Definition put_clusters v (o : objects) : objects :=
  {| ob_credentials := ob_credentials o; ob_clusters := v;
     ob_machinesets := ob_machinesets o; ob_machines := ob_machines o |}.
Definition put_machinesets cl v (o : objects) : objects :=
  {| ob_credentials := ob_credentials o; ob_clusters := ob_clusters o;
     ob_machinesets cl' := if decide (cl' = cl) then v else ob_machinesets o cl';
     ob_machines := ob_machines o |}.
Definition put_machines cl v (o : objects) : objects :=
  {| ob_credentials := ob_credentials o; ob_clusters := ob_clusters o;
     ob_machinesets := ob_machinesets o;
     ob_machines cl' := if decide (cl' = cl) then v else ob_machines o cl' |}.

(** One call on the abstract state. *)
Definition spec_call (c : call) (o : objects) : reply * objects :=
  match c with
  | OnCredentials r =>
      let '(x, v) := run (spec_store pCr None) r (ob_credentials o) in
      (FromCredentials x, put_credentials v o)
  | OnClusters r =>
      let '(x, v) := run (spec_store pC (Some res_set_status)) r (ob_clusters o) in
      (FromClusters x, put_clusters v o)
  | OnMachineSets cl r =>
      let '(x, v) := run (spec_store pMS (Some res_set_status)) r (ob_machinesets o cl) in
      (FromMachineSets x, put_machinesets cl v o)
  | OnMachines cl r =>
      let '(x, v) := run (spec_store pM (Some res_set_status)) r (ob_machines o cl) in
      (FromMachines x, put_machines cl v o)
  end.
End spec_api.
