(* ===== verification/VfsStore.v ===== *)
(** * The file store (store/providers/vfs)

    Every resource is a file of a stow container: [clusters/<name>.json],
    [credentials/<name>.json], [clusters/<cluster>/machine/<name>.json],
    [clusters/<cluster>/machineset/<name>.json], certificates and keys under
    [clusters/<cluster>/pki], ssh keys under [clusters/<cluster>/ssh].  There
    is a Module per Go type, with its methods under their Go names.

    encoding/json on the objects is the class [Json]: an encoder and a decoder
    between objects and file contents, with the law that what was encoded can
    be decoded ([JsonLaws]); nothing says the decoded object equals the encoded
    one (times lose their sub-second part, empty maps come back nil). *)
From stdpp Require Import base list gmap strings fin_maps.
From S2P Require Import Prelude GoStrings GoPath Stow Api StoreSpec.

Class Json (D O : Type) := {
  MarshalIndent : O → outcome D;
  Unmarshal : D → outcome O
}.

Class JsonLaws (D O : Type) `{!Json D O} : Prop := {
  json_decodes (o : O) (d : D) : MarshalIndent o = Ok d → ∃ o' : O, Unmarshal d = Ok o';
  json_no_panic (o : O) w : MarshalIndent (D := D) o ≠ Panic w
}.

(** What is read back after writing [o]. *)
Definition json_persist D {O} `{!Json D O} (o : O) : outcome O :=
  d ← MarshalIndent (D := D) o; Unmarshal d.

Definition pageSize : nat := 50.

(** [r, err := item.Open(); ...; json.NewDecoder(r).Decode(&obj)] *)
Definition open_decode {D O} `{!OS D, !Json D O} (i : item) : GoM (fs D) O :=
  d ← item_Open i; lift (Unmarshal d).

(** The paging loop of the [List] methods.  Each turn moves the cursor past at
    least one entry of the directory, so the number of nodes is fuel enough. *)
Fixpoint list_pages {D O} `{!OS D, !Json D O} (what : string) (c : container)
    (prefix : string) (fuel : nat) (cursor : string) (result : list O) : GoM (fs D) (list O) :=
  match fuel with
  | 0 => panic "list_pages: out of fuel"
  | S fuel =>
      let wrap e := "failed to list " +:+ what +:+ ". Reason: " +:+ e in
      page ← on_err wrap (Browse c prefix cursor pageSize);
      objs ← map_each (λ i, on_err wrap (open_decode i)) (pg_items page);
      if IsCursorEnd (pg_cursor page) then mret (result ++ objs)
      else list_pages what c prefix fuel (pg_cursor page) (result ++ objs)
  end.

Definition list_fuel {D} (m : fs D) : nat := S (size m).

(** ** cluster.go *)
Module ClusterFileStore.
Record t := Make { container_ : container; prefix : string }.

Section methods.
Context {D : Type} `{!OS D, !Json D Cluster}.

Definition resourceHome (s : t) : string := PathJoin [prefix s; "clusters"].

Definition resourceID (s : t) (name : string) : string :=
  PathJoin [resourceHome s; name +:+ ".json"].

Definition List (s : t) : GoM (fs D) (list Cluster) := λ m,
  list_pages "clusters" (container_ s) (resourceHome s +:+ "/") (list_fuel m) CursorStart [] m.

Definition Get (s : t) (name : string) : GoM (fs D) Cluster :=
  _ ← err_if (bool_decide (name = "")) "missing cluster name";
  item ← on_err (λ e, "cluster `" +:+ name +:+ "` does not exist. Reason: " +:+ e)
                (container_Item (container_ s) (resourceID s name));
  open_decode item.

Definition Create (s : t) (obj : option Cluster) : GoM (fs D) Cluster :=
  match obj with
  | None => throw "missing cluster"
  | Some obj =>
      _ ← err_if (bool_decide (cluster_Name obj = "")) "missing cluster name";
      obj ← assign_kind obj;
      let id := resourceID s (cluster_Name obj) in
      found ← attempt (container_Item (container_ s) id);
      match found with
      | inl _ => throw ("cluster `" +:+ cluster_Name obj +:+ "` already exists")
      | inr _ =>
          data ← lift (MarshalIndent obj);
          _ ← Put (container_ s) id data;
          mret obj
      end
  end.

Definition Update (s : t) (obj : option Cluster) : GoM (fs D) Cluster :=
  match obj with
  | None => throw "missing cluster"
  | Some obj =>
      _ ← err_if (bool_decide (cluster_Name obj = "")) "missing cluster name";
      obj ← assign_kind obj;
      let id := resourceID s (cluster_Name obj) in
      _ ← on_err (λ e, "cluster `" +:+ cluster_Name obj +:+ "` does not exist. Reason: " +:+ e)
                 (container_Item (container_ s) id);
      data ← lift (MarshalIndent obj);
      _ ← Put (container_ s) id data;
      mret obj
  end.

Definition Delete (s : t) (name : string) : GoM (fs D) () :=
  _ ← err_if (bool_decide (name = "")) "missing cluster name";
  item ← on_err (λ e, "failed to get item " +:+ name +:+ ". Reason: " +:+ e)
                (container_Item (container_ s) (resourceID s name));
  RemoveItem (container_ s) (item_ID item).

Definition UpdateStatus (s : t) (obj : option Cluster) : GoM (fs D) Cluster :=
  match obj with
  | None => throw "missing cluster"
  | Some obj =>
      _ ← err_if (bool_decide (cluster_Name obj = "")) "missing cluster name";
      obj ← assign_kind obj;
      let id := resourceID s (cluster_Name obj) in
      item ← on_err (λ e, "cluster `" +:+ cluster_Name obj +:+ "` does not exist. Reason: " +:+ e)
                    (container_Item (container_ s) id);
      existing ← open_decode item;
      let existing := res_set_status existing obj in
      data ← lift (MarshalIndent existing);
      _ ← Put (container_ s) id data;
      mret existing
  end.

Definition UpdateUUID (s : t) (obj : option Cluster) (uuid : string) : GoM (fs D) Cluster :=
  match obj with
  | None => throw "missing cluster"
  | Some obj =>
      _ ← err_if (bool_decide (cluster_Name obj = "")) "missing cluster name";
      obj ← assign_kind obj;
      let id := resourceID s (cluster_Name obj) in
      _ ← on_err (λ e, "cluster `" +:+ cluster_Name obj +:+ "` does not exist. Reason: " +:+ e)
                 (container_Item (container_ s) id);
      mret obj
  end.

Definition ops (s : t) : store_ops (fs D) Cluster := {|
  op_List := List s; op_Get := Get s; op_Create := Create s; op_Update := Update s;
  op_Delete := Delete s; op_UpdateStatus := Some (UpdateStatus s)
|}.
End methods.
End ClusterFileStore.

(** ** credential.go *)
Module CredentialFileStore.
Record t := Make { container_ : container; prefix : string }.

Section methods.
Context {D : Type} `{!OS D, !Json D Credential}.

Definition resourceHome (s : t) : string := PathJoin [prefix s; "credentials"].

Definition resourceID (s : t) (name : string) : string :=
  PathJoin [resourceHome s; name +:+ ".json"].

Definition List (s : t) : GoM (fs D) (list Credential) := λ m,
  list_pages "credentials" (container_ s) (resourceHome s +:+ "/") (list_fuel m) CursorStart [] m.

Definition Get (s : t) (name : string) : GoM (fs D) Credential :=
  _ ← err_if (bool_decide (name = "")) "missing credential name";
  item ← on_err (λ e, "credential `" +:+ name +:+ "` does not exist. Reason: " +:+ e)
                (container_Item (container_ s) (resourceID s name));
  open_decode item.

Definition Create (s : t) (obj : option Credential) : GoM (fs D) Credential :=
  match obj with
  | None => throw "missing credential"
  | Some obj =>
      _ ← err_if (bool_decide (cred_Name obj = "")) "missing credential name";
      obj ← assign_kind obj;
      let id := resourceID s (cred_Name obj) in
      found ← attempt (container_Item (container_ s) id);
      match found with
      | inl _ => throw ("credential `" +:+ cred_Name obj +:+ "` already exists")
      | inr _ =>
          data ← lift (MarshalIndent obj);
          _ ← Put (container_ s) id data;
          mret obj
      end
  end.

Definition Update (s : t) (obj : option Credential) : GoM (fs D) Credential :=
  match obj with
  | None => throw "missing credential"
  | Some obj =>
      _ ← err_if (bool_decide (cred_Name obj = "")) "missing credential name";
      obj ← assign_kind obj;
      let id := resourceID s (cred_Name obj) in
      _ ← on_err (λ e, "credential `" +:+ cred_Name obj +:+ "` does not exist. Reason: " +:+ e)
                 (container_Item (container_ s) id);
      data ← lift (MarshalIndent obj);
      _ ← Put (container_ s) id data;
      mret obj
  end.

Definition Delete (s : t) (name : string) : GoM (fs D) () :=
  _ ← err_if (bool_decide (name = "")) "missing credential name";
  item ← on_err (λ e, "failed to get item " +:+ name +:+ ". Reason: " +:+ e)
                (container_Item (container_ s) (resourceID s name));
  RemoveItem (container_ s) (item_ID item).

Definition ops (s : t) : store_ops (fs D) Credential := {|
  op_List := List s; op_Get := Get s; op_Create := Create s; op_Update := Update s;
  op_Delete := Delete s; op_UpdateStatus := None
|}.
End methods.
End CredentialFileStore.

(** ** machine.go *)
Module MachineFileStore.
Record t := Make { container_ : container; prefix : string; cluster : string; owner : string }.

Section methods.
Context {D : Type} `{!OS D, !Json D Machine}.

Definition resourceHome (s : t) : string :=
  PathJoin [owner s; prefix s; "clusters"; cluster s; "machine"].

Definition resourceID (s : t) (name : string) : string :=
  PathJoin [resourceHome s; name +:+ ".json"].

Definition List (s : t) : GoM (fs D) (list Machine) := λ m,
  list_pages "node groups" (container_ s) (resourceHome s +:+ "/") (list_fuel m) CursorStart [] m.

Definition Get (s : t) (name : string) : GoM (fs D) Machine :=
  _ ← err_if (bool_decide (cluster s = "")) "missing cluster name";
  _ ← err_if (bool_decide (name = "")) "missing node group name";
  item ← on_err (λ e, "NodeGroup `" +:+ name +:+ "` does not exist. Reason: " +:+ e)
                (container_Item (container_ s) (resourceID s name));
  open_decode item.

Definition Create (s : t) (obj : option Machine) : GoM (fs D) Machine :=
  _ ← err_if (bool_decide (cluster s = "")) "missing cluster name";
  match obj with
  | None => throw "missing node group"
  | Some obj =>
      _ ← err_if (bool_decide (machine_Name obj = "")) "missing node group name";
      obj ← assign_kind obj;
      let id := resourceID s (machine_Name obj) in
      found ← attempt (container_Item (container_ s) id);
      match found with
      | inl _ => throw ("NodeGroup `" +:+ machine_Name obj +:+ "` already exists")
      | inr _ =>
          data ← lift (MarshalIndent obj);
          _ ← Put (container_ s) id data;
          mret obj
      end
  end.

Definition Update (s : t) (obj : option Machine) : GoM (fs D) Machine :=
  _ ← err_if (bool_decide (cluster s = "")) "missing cluster name";
  match obj with
  | None => throw "missing node group"
  | Some obj =>
      _ ← err_if (bool_decide (machine_Name obj = "")) "missing node group name";
      obj ← assign_kind obj;
      let id := resourceID s (machine_Name obj) in
      _ ← on_err (λ e, "NodeGroup `" +:+ machine_Name obj +:+ "` does not exist. Reason: " +:+ e)
                 (container_Item (container_ s) id);
      data ← lift (MarshalIndent obj);
      _ ← Put (container_ s) id data;
      mret obj
  end.

Definition Delete (s : t) (name : string) : GoM (fs D) () :=
  _ ← err_if (bool_decide (cluster s = "")) "missing cluster name";
  _ ← err_if (bool_decide (name = "")) "missing node group name";
  RemoveItem (container_ s) (resourceID s name).

Definition UpdateStatus (s : t) (obj : option Machine) : GoM (fs D) Machine :=
  _ ← err_if (bool_decide (cluster s = "")) "missing cluster name";
  match obj with
  | None => throw "missing node group"
  | Some obj =>
      _ ← err_if (bool_decide (machine_Name obj = "")) "missing node group name";
      obj ← assign_kind obj;
      let id := resourceID s (machine_Name obj) in
      item ← on_err (λ e, "NodeGroup `" +:+ machine_Name obj +:+ "` does not exist. Reason: " +:+ e)
                    (container_Item (container_ s) id);
      existing ← open_decode item;
      let existing := res_set_status existing obj in
      data ← lift (MarshalIndent existing);
      _ ← Put (container_ s) id data;
      mret existing
  end.

Definition ops (s : t) : store_ops (fs D) Machine := {|
  op_List := List s; op_Get := Get s; op_Create := Create s; op_Update := Update s;
  op_Delete := Delete s; op_UpdateStatus := Some (UpdateStatus s)
|}.
End methods.
End MachineFileStore.

(** ** machineset.go *)
Module MachineSetFileStore.
Record t := Make { container_ : container; prefix : string; cluster : string }.

Section methods.
Context {D : Type} `{!OS D, !Json D MachineSet}.

Definition resourceHome (s : t) : string :=
  PathJoin [prefix s; "clusters"; cluster s; "machineset"].

Definition resourceID (s : t) (name : string) : string :=
  PathJoin [resourceHome s; name +:+ ".json"].

Definition List (s : t) : GoM (fs D) (list MachineSet) := λ m,
  list_pages "node groups" (container_ s) (resourceHome s +:+ "/") (list_fuel m) CursorStart [] m.

Definition Get (s : t) (name : string) : GoM (fs D) MachineSet :=
  _ ← err_if (bool_decide (cluster s = "")) "missing cluster name";
  _ ← err_if (bool_decide (name = "")) "missing node group name";
  item ← on_err (λ e, "NodeGroup `" +:+ name +:+ "` does not exist. Reason: " +:+ e)
                (container_Item (container_ s) (resourceID s name));
  open_decode item.

Definition Create (s : t) (obj : option MachineSet) : GoM (fs D) MachineSet :=
  _ ← err_if (bool_decide (cluster s = "")) "missing cluster name";
  match obj with
  | None => throw "missing node group"
  | Some obj =>
      _ ← err_if (bool_decide (machineset_Name obj = "")) "missing node group name";
      obj ← assign_kind obj;
      let id := resourceID s (machineset_Name obj) in
      found ← attempt (container_Item (container_ s) id);
      match found with
      | inl _ => throw ("NodeGroup `" +:+ machineset_Name obj +:+ "` already exists")
      | inr _ =>
          data ← lift (MarshalIndent obj);
          _ ← Put (container_ s) id data;
          mret obj
      end
  end.

Definition Update (s : t) (obj : option MachineSet) : GoM (fs D) MachineSet :=
  _ ← err_if (bool_decide (cluster s = "")) "missing cluster name";
  match obj with
  | None => throw "missing node group"
  | Some obj =>
      _ ← err_if (bool_decide (machineset_Name obj = "")) "missing node group name";
      obj ← assign_kind obj;
      let id := resourceID s (machineset_Name obj) in
      _ ← on_err (λ e, "NodeGroup `" +:+ machineset_Name obj +:+ "` does not exist. Reason: " +:+ e)
                 (container_Item (container_ s) id);
      data ← lift (MarshalIndent obj);
      _ ← Put (container_ s) id data;
      mret obj
  end.

Definition Delete (s : t) (name : string) : GoM (fs D) () :=
  _ ← err_if (bool_decide (cluster s = "")) "missing cluster name";
  _ ← err_if (bool_decide (name = "")) "missing node group name";
  RemoveItem (container_ s) (PathJoin [container_ID (container_ s); resourceID s name]).

Definition UpdateStatus (s : t) (obj : option MachineSet) : GoM (fs D) MachineSet :=
  _ ← err_if (bool_decide (cluster s = "")) "missing cluster name";
  match obj with
  | None => throw "missing node group"
  | Some obj =>
      _ ← err_if (bool_decide (machineset_Name obj = "")) "missing node group name";
      obj ← assign_kind obj;
      let id := resourceID s (machineset_Name obj) in
      item ← on_err (λ e, "NodeGroup `" +:+ machineset_Name obj +:+ "` does not exist. Reason: " +:+ e)
                    (container_Item (container_ s) id);
      existing ← open_decode item;
      let existing := res_set_status existing obj in
      data ← lift (MarshalIndent existing);
      _ ← Put (container_ s) id data;
      mret existing
  end.

Definition ops (s : t) : store_ops (fs D) MachineSet := {|
  op_List := List s; op_Get := Get s; op_Create := Create s; op_Update := Update s;
  op_Delete := Delete s; op_UpdateStatus := Some (UpdateStatus s)
|}.
End methods.
End MachineSetFileStore.

(** ** certificate.go

    x509 certificates and RSA keys are opaque; gomodules.xyz/cert encodes and
    parses their PEM form ([ParseCertsPEM] returns a chain of which the store
    takes the first element; the key it parses must be an RSA key). *)
Class PEM (D Crt Key AnyKey : Type) := {
  EncodeCertPEM : Crt → D;
  EncodePrivateKeyPEM : Key → D;
  ParseCertsPEM : D → outcome (list Crt);
  ParsePrivateKeyPEM : D → outcome AnyKey;
  as_rsa : AnyKey → option Key      (* the type assertion key.(\*rsa.PrivateKey) *)
}.

Module CertificateFileStore.
Record t := Make { container_ : container; prefix : string; cluster : string }.

Section methods.
Context {D Crt Key AnyKey : Type} `{!OS D, !PEM D Crt Key AnyKey}.

Definition resourceHome (s : t) : string := PathJoin [prefix s; "clusters"; cluster s; "pki"].
Definition certID (s : t) (name : string) : string :=
  PathJoin [resourceHome s; name +:+ ".crt"].
Definition keyID (s : t) (name : string) : string :=
  PathJoin [resourceHome s; name +:+ ".key"].

Definition Get (s : t) (name : string) : GoM (fs D) (Crt * Key) :=
  _ ← err_if (bool_decide (cluster s = "")) "missing cluster name";
  _ ← err_if (bool_decide (name = "")) "missing certificate name";
  itemCrt ← on_err (λ e, "certificate `" +:+ name +:+ ".crt` does not exist. Reason: " +:+ e)
                   (container_Item (container_ s) (certID s name));
  crtPEM ← item_Open itemCrt;
  crt ← lift (ParseCertsPEM crtPEM);
  itemKey ← on_err (λ e, "certificate key `" +:+ name +:+ ".key` does not exist. Reason: " +:+ e)
                   (container_Item (container_ s) (keyID s name));
  keyPEM ← item_Open itemKey;
  key ← lift (ParsePrivateKeyPEM keyPEM);
  match crt, as_rsa key with
  | crt0 :: _, Some k => mret (crt0, k)
  | [], _ => panic "index out of range [0] with length 0"
  | _, None => panic "interface conversion"
  end.

Definition Create (s : t) (name : string) (crt : option Crt) (key : option Key) :
    GoM (fs D) () :=
  _ ← err_if (bool_decide (cluster s = "")) "missing cluster name";
  match crt, key with
  | None, _ => throw "missing certificate"
  | _, None => throw "missing certificate key"
  | Some crt, Some key =>
      let id := certID s name in
      found ← attempt (container_Item (container_ s) id);
      match found with
      | inl _ => throw ("certificate `" +:+ name +:+ ".crt` already exists. Reason: <nil>")
      | inr _ =>
          _ ← on_err (λ e, "failed to store certificate `" +:+ name +:+ ".crt`. Reason: " +:+ e)
                     (Put (container_ s) id (EncodeCertPEM crt));
          let id := keyID s name in
          found ← attempt (container_Item (container_ s) id);
          match found with
          | inl _ => throw ("certificate `" +:+ name +:+ ".key` already exists. Reason: <nil>")
          | inr _ =>
              _ ← on_err (λ e, "failed to store certificate key `" +:+ name +:+ ".key`. Reason: " +:+ e)
                         (Put (container_ s) id (EncodePrivateKeyPEM key));
              mret ()
          end
      end
  end.

Definition Delete (s : t) (name : string) : GoM (fs D) () :=
  _ ← err_if (bool_decide (cluster s = "")) "missing cluster name";
  _ ← err_if (bool_decide (name = "")) "missing certificate name";
  certItem ← on_err (λ e, "failed to get item " +:+ name +:+ ". Reason: " +:+ e)
                    (container_Item (container_ s) (certID s name));
  _ ← on_err (λ e, "failed to delete certificate " +:+ name +:+ ".crt. Reason: " +:+ e)
             (RemoveItem (container_ s) (item_ID certItem));
  keyItem ← on_err (λ e, "failed to get item " +:+ name +:+ ". Reason: " +:+ e)
                   (container_Item (container_ s) (keyID s name));
  on_err (λ e, "failed to delete certificate key " +:+ name +:+ ".key. Reason: " +:+ e)
         (RemoveItem (container_ s) (item_ID keyItem)).
End methods.
End CertificateFileStore.

(** ** ssh.go *)
Module SSHKeyFileStore.
Record t := Make { container_ : container; prefix : string; cluster : string }.

Section methods.
Context {D : Type} `{!OS D, !Blob D}.

Definition resourceHome (s : t) : string := PathJoin [prefix s; "clusters"; cluster s; "ssh"].
Definition pubKeyID (s : t) (name : string) : string :=
  PathJoin [resourceHome s; "id_" +:+ name +:+ ".pub"].
Definition privKeyID (s : t) (name : string) : string :=
  PathJoin [resourceHome s; "id_" +:+ name].

Definition Get (s : t) (name : string) : GoM (fs D) (string * string) :=
  _ ← err_if (bool_decide (cluster s = "")) "missing cluster name";
  _ ← err_if (bool_decide (name = "")) "missing ssh key name";
  pub ← on_err (λ e, "SSH `id_" +:+ name +:+ ".pub` does not exist. Reason: " +:+ e)
               (container_Item (container_ s) (pubKeyID s name));
  pubKey ← item_Open pub;
  priv ← on_err (λ e, "SSH key `id_" +:+ name +:+ "` does not exist. Reason: " +:+ e)
                (container_Item (container_ s) (privKeyID s name));
  privKey ← item_Open priv;
  mret (blob_str pubKey, blob_str privKey).

Definition Create (s : t) (name pubKey privKey : string) : GoM (fs D) () :=
  _ ← err_if (bool_decide (cluster s = "")) "missing cluster name";
  _ ← err_if (bool_decide (pubKey = "")) "empty ssh public key";
  _ ← err_if (bool_decide (privKey = "")) "empty ssh private key";
  let id := pubKeyID s name in
  found ← attempt (container_Item (container_ s) id);
  match found with
  | inl _ => throw ("SSH `id_" +:+ name +:+ ".pub` already exists. Reason: <nil>")
  | inr _ =>
      _ ← on_err (λ e, "failed to store ssh public key `id_" +:+ name +:+ ".pub`. Reason: " +:+ e)
                 (Put (container_ s) id (blob_of pubKey));
      let id := privKeyID s name in
      found ← attempt (container_Item (container_ s) id);
      match found with
      | inl _ => throw ("SSH `id_" +:+ name +:+ "` already exists. Reason: <nil>")
      | inr _ =>
          _ ← on_err (λ e, "failed to store ssh private key `id_" +:+ name +:+ "`. Reason: " +:+ e)
                     (Put (container_ s) id (blob_of privKey));
          mret ()
      end
  end.

Definition Delete (s : t) (name : string) : GoM (fs D) () :=
  _ ← err_if (bool_decide (cluster s = "")) "missing cluster name";
  _ ← err_if (bool_decide (name = "")) "missing ssh key name";
  pubKeyItem ← on_err (λ e, "failed to get item " +:+ name +:+ ". Reason: " +:+ e)
                      (container_Item (container_ s) (pubKeyID s name));
  _ ← on_err (λ e, "failed to delete ssh public key id_" +:+ name +:+ ".pub. Reason: " +:+ e)
             (RemoveItem (container_ s) (item_ID pubKeyItem));
  privKeyItem ← on_err (λ e, "failed to get item " +:+ name +:+ ". Reason: " +:+ e)
                       (container_Item (container_ s) (privKeyID s name));
  on_err (λ e, "failed to delete ssh private key id_" +:+ name +:+ ". Reason: " +:+ e)
         (RemoveItem (container_ s) (item_ID privKeyItem)).
End methods.
End SSHKeyFileStore.

(** ** store.go *)
Module FileStore.
Record t := Make { container_ : container; prefix : string }.

Definition New (c : container) (prefix : string) : t := Make c prefix.
Definition Owner (s : t) (id : Z) : t := s.
Definition Credentials (s : t) : CredentialFileStore.t :=
  CredentialFileStore.Make (container_ s) (prefix s).
Definition Clusters (s : t) : ClusterFileStore.t :=
  ClusterFileStore.Make (container_ s) (prefix s).
Definition MachineSets (s : t) (cluster : string) : MachineSetFileStore.t :=
  MachineSetFileStore.Make (container_ s) (prefix s) cluster.
Definition Machines (s : t) (cluster : string) : MachineFileStore.t :=
  MachineFileStore.Make (container_ s) (prefix s) cluster "".
Definition Certificates (s : t) (cluster : string) : CertificateFileStore.t :=
  CertificateFileStore.Make (container_ s) (prefix s) cluster.
Definition SSHKeys (s : t) (cluster : string) : SSHKeyFileStore.t :=
  SSHKeyFileStore.Make (container_ s) (prefix s) cluster.
End FileStore.
