(* ===== verification/Samples.v ===== *)
(** * Concrete instances

    The parameters of the development at concrete values: an operating system
    whose directories are listed in name order, an encoder that keeps objects as
    they are, a container at [/store], and a few objects.  The witnesses of the
    theorems evaluate at these. *)
From stdpp Require Import base list gmap strings fin_maps.
From S2P Require Import Prelude GoStrings GoPath Stow Api StoreSpec VfsStore.

Inductive content :=
  | CCluster (c : Cluster)
  | CCredential (c : Credential)
  | CMachine (m : Machine)
  | CMachineSet (m : MachineSet)
  | CText (s : string)
  | CCrt (n : Z)
  | CKey (n : Z).

#[export] Instance content_os : OS content := {|
  os_cwd := ["home"]; os_order l := l; os_order_perm l := Permutation_refl l
|}.

#[export] Instance content_blob : Blob content := {|
  blob_of := CText;
  blob_str d := match d with CText s => s | _ => "" end;
  blob_str_of s := eq_refl
|}.

#[export] Instance cluster_json : Json content Cluster := {|
  MarshalIndent c := Ok (CCluster c);
  Unmarshal d := match d with CCluster c => Ok c | _ => Err "unexpected type" end
|}.
#[export] Instance credential_json : Json content Credential := {|
  MarshalIndent c := Ok (CCredential c);
  Unmarshal d := match d with CCredential c => Ok c | _ => Err "unexpected type" end
|}.
#[export] Instance machine_json : Json content Machine := {|
  MarshalIndent c := Ok (CMachine c);
  Unmarshal d := match d with CMachine c => Ok c | _ => Err "unexpected type" end
|}.
#[export] Instance machineset_json : Json content MachineSet := {|
  MarshalIndent c := Ok (CMachineSet c);
  Unmarshal d := match d with CMachineSet c => Ok c | _ => Err "unexpected type" end
|}.

#[export] Instance cluster_json_laws : JsonLaws content Cluster.
Proof. split; [intros o d [= <-]; by exists o|done]. Qed.
#[export] Instance credential_json_laws : JsonLaws content Credential.
Proof. split; [intros o d [= <-]; by exists o|done]. Qed.
#[export] Instance machine_json_laws : JsonLaws content Machine.
Proof. split; [intros o d [= <-]; by exists o|done]. Qed.
#[export] Instance machineset_json_laws : JsonLaws content MachineSet.
Proof. split; [intros o d [= <-]; by exists o|done]. Qed.

(** Certificates and keys are numbers. *)
#[export] Instance content_pem : PEM content Z Z Z := {|
  EncodeCertPEM := CCrt;
  EncodePrivateKeyPEM := CKey;
  ParseCertsPEM d := match d with CCrt n => Ok [n] | _ => Err "no certificate" end;
  ParsePrivateKeyPEM d := match d with CKey n => Ok n | _ => Err "no key" end;
  as_rsa := Some
|}.

Definition store_container : container := Container "store" "/store".

#[export] Instance store_container_at : ContainerAt store_container ["store"].
Proof. split; [done|done|plains]. Qed.

(** The tree of a host with an empty container. *)
Definition empty_tree : fs content := {[ [] := Dir; ["store"] := Dir ]}.

Lemma empty_tree_inv q n : empty_tree !! q = Some n → (q = [] ∨ q = ["store"]) ∧ n = Dir.
Proof.
  unfold empty_tree. rewrite lookup_insert_Some, lookup_singleton_Some.
  intros [[<- <-]|[_ [<- <-]]]; auto.
Qed.

Lemma empty_tree_wf : wf_fs empty_tree.
Proof.
  split; [done|..].
  - intros q n [Hq _]%empty_tree_inv. destruct Hq as [-> | ->]; plains.
  - intros q x n [Hq ->]%empty_tree_inv. destruct Hq as [E|E]; [by destruct q|].
    change ["store"] with ([] ++ ["store"]) in E. by apply app_inj_tail in E as [-> _].
Qed.

Lemma empty_tree_no_file q : no_file_on empty_tree q.
Proof. intros p d _ [_ ?]%empty_tree_inv. done. Qed.

(** ** Objects *)
Definition sample_cluster (name : string) : Cluster := {|
  cluster_TypeMeta := zero_TypeMeta;
  cluster_ObjectMeta := named name;
  Spec := {| ClusterAPI := zero_CapiCluster; Config := zero_Config; AuditSink := false |};
  Status := zero_Status
|}.

Definition sample_machine (name : string) : Machine := {|
  machine_TypeMeta := zero_TypeMeta; machine_ObjectMeta := named name;
  machine_Spec := zero_MachineSpec; machine_Status := zero_MachineStatus
|}.

Definition sample_machineset (name : string) : MachineSet := {|
  machineset_TypeMeta := zero_TypeMeta; machineset_ObjectMeta := named name;
  machineset_Spec := {| Replicas := Some 1%Z; MatchLabels := ∅; TemplateLabels := ∅;
                        TemplateCreationTimestamp := 0%Z; TemplateSpec := zero_MachineSpec |};
  machineset_Status := {| StatusReplicas := 0%Z; ReadyReplicas := 0%Z |}
|}.

Definition sample_credential (name provider : string) : Credential := {|
  cred_TypeMeta := zero_TypeMeta; cred_ObjectMeta := named name;
  cred_Spec := {| cred_Provider := provider; cred_Data := ∅ |}
|}.
