(* ===== verification/VfsProofs.v ===== *)
(** * The file store implements the abstract store

    The four JSON stores have one shape, [js_ops]; [dir_repr] relates a
    directory of the file system to the map of objects it holds.  The
    refinement is proved once for the shape and instantiated at each of the
    stores of VfsStore.v. *)
From stdpp Require Import base list gmap strings fin_maps.
From S2P Require Import Prelude GoStrings GoPath Stow Api StoreSpec VfsStore.

(** ** The common shape *)
Record js_cfg (D : Type) := {
  js_c : container;
  js_id : string → string;                 (* resourceID *)
  js_prefix : string;                      (* resourceHome() + "/" *)
  js_missing : string;
  js_label : string;
  js_what : string;
  js_delete : string → GoM (fs D) ()
}.
Arguments js_c {_}. Arguments js_id {_}. Arguments js_prefix {_}. Arguments js_missing {_}.
Arguments js_label {_}. Arguments js_what {_}. Arguments js_delete {_}.

Section shape.
Context {D O : Type} `{!OS D, !Json D O, !Resource O} (cfg : js_cfg D).
Context (set_status : option (O → O → O)).

Definition js_List : GoM (fs D) (list O) := λ m,
  list_pages (js_what cfg) (js_c cfg) (js_prefix cfg) (list_fuel m) CursorStart [] m.

Definition js_Get (name : string) : GoM (fs D) O :=
  _ ← err_if (bool_decide (name = "")) ("missing " +:+ js_missing cfg +:+ " name");
  item ← on_err (λ e, js_label cfg +:+ " `" +:+ name +:+ "` does not exist. Reason: " +:+ e)
                (container_Item (js_c cfg) (js_id cfg name));
  open_decode item.

Definition js_Create (obj : option O) : GoM (fs D) O :=
  match obj with
  | None => throw ("missing " +:+ js_missing cfg)
  | Some obj =>
      _ ← err_if (bool_decide (res_name obj = "")) ("missing " +:+ js_missing cfg +:+ " name");
      obj ← assign_kind obj;
      let id := js_id cfg (res_name obj) in
      found ← attempt (container_Item (js_c cfg) id);
      match found with
      | inl _ => throw (js_label cfg +:+ " `" +:+ res_name obj +:+ "` already exists")
      | inr _ =>
          data ← lift (MarshalIndent obj);
          _ ← Put (js_c cfg) id data;
          mret obj
      end
  end.

Definition js_Update (obj : option O) : GoM (fs D) O :=
  match obj with
  | None => throw ("missing " +:+ js_missing cfg)
  | Some obj =>
      _ ← err_if (bool_decide (res_name obj = "")) ("missing " +:+ js_missing cfg +:+ " name");
      obj ← assign_kind obj;
      let id := js_id cfg (res_name obj) in
      _ ← on_err (λ e, js_label cfg +:+ " `" +:+ res_name obj +:+ "` does not exist. Reason: " +:+ e)
                 (container_Item (js_c cfg) id);
      data ← lift (MarshalIndent obj);
      _ ← Put (js_c cfg) id data;
      mret obj
  end.

Definition js_Delete (name : string) : GoM (fs D) () :=
  _ ← err_if (bool_decide (name = "")) ("missing " +:+ js_missing cfg +:+ " name");
  js_delete cfg name.

Definition js_UpdateStatus (set : O → O → O) (obj : option O) : GoM (fs D) O :=
  match obj with
  | None => throw ("missing " +:+ js_missing cfg)
  | Some obj =>
      _ ← err_if (bool_decide (res_name obj = "")) ("missing " +:+ js_missing cfg +:+ " name");
      obj ← assign_kind obj;
      let id := js_id cfg (res_name obj) in
      item ← on_err (λ e, js_label cfg +:+ " `" +:+ res_name obj +:+ "` does not exist. Reason: " +:+ e)
                    (container_Item (js_c cfg) id);
      existing ← open_decode item;
      let existing := set existing obj in
      data ← lift (MarshalIndent existing);
      _ ← Put (js_c cfg) id data;
      mret existing
  end.

Definition js_ops : store_ops (fs D) O := {|
  op_List := js_List; op_Get := js_Get; op_Create := js_Create; op_Update := js_Update;
  op_Delete := js_Delete; op_UpdateStatus := js_UpdateStatus <$> set_status
|}.
End shape.

(** ** Directories that hold objects *)
Definition json_file (n : string) : string := n +:+ ".json".

Definition entry_repr {D O} `{!Json D O} (n : option (node D)) (o : option O) : Prop :=
  match n, o with
  | None, None => True
  | Some (File d), Some o => Unmarshal d = Ok o
  | _, _ => False
  end.

Record dir_repr {D O} `{!Json D O} (q : list string) (m : fs D) (v : gmap string O) : Prop := {
  dr_wf : wf_fs m;
  dr_path : no_file_on m q;
  dr_entry n : entry_repr (m !! (q ++ [json_file n])) (v !! n);
  dr_ext k d : m !! (q ++ [k]) = Some (File d) → ∃ n, k = json_file n
}.

(** Names that are one element of a path. *)
Definition path_name (n : string) : Prop := has_byte slash n = false.

Lemma json_file_plain n : path_name n → plain (json_file n).
Proof. intros H. apply plain_ext; [done|done|simpl; lia]. Qed.

Lemma json_file_inj n k : json_file n = json_file k → n = k.
Proof. apply append_inj_r. Qed.

Definition valid_req {O} `{!Resource O} (r : request O) : Prop :=
  match r with
  | RList => True
  | RGet n | RDelete n => path_name n
  | RCreate (Some o) | RUpdate (Some o) | RUpdateStatus (Some o) => path_name (res_name o)
  | RCreate None | RUpdate None | RUpdateStatus None => True
  end.

Section dir_repr.
Context {D O : Type} `{!Json D O} (q : list string).
Implicit Types (m : fs D) (v : gmap string O).

Lemma dir_repr_some m v n o :
  dir_repr q m v → v !! n = Some o →
  ∃ d, m !! (q ++ [json_file n]) = Some (File d) ∧ Unmarshal d = Ok o.
Proof.
  intros HR Hv. pose proof (dr_entry q m v HR n) as He. rewrite Hv in He.
  destruct (m !! _) as [[d|]|]; try done. by exists d.
Qed.

Lemma dir_repr_none m v n :
  dir_repr q m v → v !! n = None →
  m !! (q ++ [json_file n]) = None ∧ no_file_on m (q ++ [json_file n]).
Proof.
  intros HR Hv. pose proof (dr_entry q m v HR n) as He. rewrite Hv in He.
  destruct (m !! _) as [[d|]|] eqn:E; try done. split; [done|].
  apply no_file_on_snoc; [apply (dr_path q m v HR)|]. intros d. congruence.
Qed.

Lemma dir_repr_not_dir m v n : dir_repr q m v → m !! (q ++ [json_file n]) ≠ Some Dir.
Proof.
  intros HR E. pose proof (dr_entry q m v HR n) as He. rewrite E in He.
  by destruct (v !! n).
Qed.

(** Without the directory there are no objects. *)
Lemma dir_repr_no_dir m v : dir_repr q m v → m !! q ≠ Some Dir → v = ∅.
Proof.
  intros HR Hq. apply map_empty. intros n. destruct (v !! n) eqn:Hv; [|done].
  destruct (dir_repr_some m v n _ HR Hv) as (d & Hd & _).
  by pose proof (wf_parent m (dr_wf q m v HR) _ _ _ Hd).
Qed.

Lemma dir_repr_write m v n d o :
  dir_repr q m v → Forall plain (q ++ [json_file n]) → Unmarshal d = Ok o →
  dir_repr q (write_file q (json_file n) d m) (<[n := o]> v).
Proof.
  intros HR Hp Hd. pose proof (dr_wf q m v HR). pose proof (dr_path q m v HR). split.
  - apply wf_write_file; eauto using dir_repr_not_dir.
  - by apply no_file_on_write.
  - intros k. rewrite lookup_write_file. destruct (decide (k = n)) as [->|Hne].
    + by rewrite decide_True, lookup_insert_eq.
    + rewrite decide_False, decide_False, lookup_insert_ne; [apply HR|done|..].
      * apply snoc_not_prefix.
      * intros [_ E]%app_inj_tail. by apply json_file_inj in E.
  - intros k d'. rewrite lookup_write_file. case_decide as E.
    + apply app_inj_tail in E as [_ ->]. intros _. by exists n.
    + rewrite decide_False by apply snoc_not_prefix. apply (dr_ext q m v HR).
Qed.

Lemma dir_repr_delete m v n d :
  dir_repr q m v → m !! (q ++ [json_file n]) = Some (File d) →
  dir_repr q (delete (q ++ [json_file n]) m) (delete n v).
Proof.
  intros HR Hd. split.
  - eapply wf_delete_file; [apply HR|done].
  - apply no_file_on_delete, HR.
  - intros k. destruct (decide (k = n)) as [->|Hne].
    + by rewrite !lookup_delete_eq.
    + rewrite !lookup_delete_ne; [apply HR|done|].
      intros [_ E]%app_inj_tail. by apply json_file_inj in E.
  - intros k d' [_ Hk]%lookup_delete_Some. by apply (dr_ext q m v HR k d').
Qed.
End dir_repr.

(** ** The shape refines the abstract store *)
Class JsAt {D} `{!OS D} (pcs hs : list string) (cfg : js_cfg D) : Prop := {
  ja_c :: ContainerAt (js_c cfg) pcs;
  ja_ne : hs ≠ [];
  ja_plain : Forall plain hs;
  ja_id n : path_name n → js_id cfg n = Join "/" (hs ++ [json_file n]);
  ja_prefix : js_prefix cfg = Join "/" hs +:+ "/";
  ja_delete_hit (m : fs D) n d :
    path_name n → m !! (pcs ++ hs ++ [json_file n]) = Some (File d) →
    js_delete cfg n m = (Ok (), delete (pcs ++ hs ++ [json_file n]) m);
  ja_delete_miss (m : fs D) n :
    path_name n → m !! (pcs ++ hs ++ [json_file n]) = None →
    no_file_on m (pcs ++ hs ++ [json_file n]) → ∃ e, js_delete cfg n m = (Err e, m)
}.

(** A property of the rest of the tree that survives what a store does below
    its own directory [q]. *)
Class Frame {D} (q : list string) (F : fs D → Prop) : Prop := {
  frame_write m n d :
    wf_fs (write_file q (json_file n) d m) → F m → F (write_file q (json_file n) d m);
  frame_delete m n d :
    wf_fs (delete (q ++ [json_file n]) m) → m !! (q ++ [json_file n]) = Some (File d) →
    F m → F (delete (q ++ [json_file n]) m)
}.

(** Two directories neither of which is, or lies below, a file of the other. *)
Definition apart (q q' : list string) : Prop :=
  q ≠ q' ∧ ∀ n, ¬ (q ++ [json_file n]) `prefix_of` q' ∧ ¬ (q' ++ [json_file n]) `prefix_of` q.

#[export] Instance frame_forall {D A} (q : list string) (F : A → fs D → Prop) :
  (∀ x, Frame q (F x)) → Frame q (λ m, ∀ x, F x m).
Proof.
  intros HF. split; intros m n d Hwf.
  - intros Hm x. by apply frame_write.
  - intros Hd Hm x. by eapply frame_delete.
Qed.

#[export] Instance frame_and {D} (q : list string) (F G : fs D → Prop) :
  Frame q F → Frame q G → Frame q (λ m, F m ∧ G m).
Proof.
  intros HF HG. split; intros m n d Hwf.
  - intros [Hf Hg]. by split; apply frame_write.
  - intros Hd [Hf Hg]. by split; eapply frame_delete.
Qed.

#[export] Instance frame_true {D} (q : list string) : Frame (D := D) q (λ _, True).
Proof. by split. Qed.

#[export] Instance frame_impl {D} (q : list string) (P : Prop) (F : fs D → Prop) :
  (P → Frame q F) → Frame q (λ m, P → F m).
Proof.
  intros HF. split; intros m n d Hwf.
  - intros Hf HP. specialize (HF HP). by apply frame_write, Hf.
  - intros Hd Hf HP. specialize (HF HP). by eapply frame_delete, Hf.
Qed.

#[export] Instance frame_dir {D O} `{!Json D O} (q q' : list string) (v : gmap string O) :
  apart q q' → Frame (D := D) q (λ m, dir_repr q' m v).
Proof.
  intros [Hne Hap]. split.
  - intros m n d Hwf HR. split; [done|..].
    + intros p d' Hp. rewrite lookup_write_file.
      rewrite decide_False by (intros ->; by destruct (Hap n)).
      case_decide; [done|]. by apply (dr_path q' m v HR).
    + intros k. rewrite lookup_write_file_other.
      * apply (dr_entry q' m v HR).
      * intros [E _]%app_inj_tail. congruence.
      * apply Hap.
    + intros k d'. rewrite lookup_write_file. case_decide as E.
      * apply app_inj_tail in E as [-> _]. done.
      * case_decide; [done|]. apply (dr_ext q' m v HR).
  - intros m n d Hwf Hd HR. split; [done|..].
    + apply no_file_on_delete, (dr_path q' m v HR).
    + intros k. rewrite lookup_delete_ne; [apply (dr_entry q' m v HR)|].
      intros [E _]%app_inj_tail. congruence.
    + intros k d' [_ Hk]%lookup_delete_Some. by apply (dr_ext q' m v HR k d').
Qed.

Section refinement.
Context {D O : Type} `{!OS D, !Json D O, !Resource O, !JsonLaws D O}.
Context (pcs hs : list string) (cfg : js_cfg D) `{!JsAt pcs hs cfg}.
Context (F : fs D → Prop) `{!Frame (pcs ++ hs) F}.

Let R (m : fs D) (v : gmap string O) : Prop := dir_repr (pcs ++ hs) m v ∧ F m.

Lemma js_path_plain n : path_name n → Forall plain (pcs ++ hs ++ [json_file n]).
Proof.
  intros Hn. apply Forall_app. split; [apply ca_plain|].
  apply Forall_app. split; [apply ja_plain|]. constructor; [by apply json_file_plain|done].
Qed.

Lemma js_rel_plain n : path_name n → Forall plain (hs ++ [json_file n]).
Proof. intros Hn. pose proof (js_path_plain n Hn) as H. by apply Forall_app in H as [_ ?]. Qed.

Lemma js_item_hit m v n o :
  R m v → path_name n → v !! n = Some o →
  ∃ d, m !! (pcs ++ hs ++ [json_file n]) = Some (File d) ∧ Unmarshal d = Ok o ∧
       container_Item (js_c cfg) (js_id cfg n) m =
         (Ok (Item (abs_path (pcs ++ hs ++ [json_file n]))), m).
Proof.
  intros [HR HF] Hn Hv. destruct (dir_repr_some _ m v n o HR Hv) as (d & Hd & Ho).
  rewrite <-app_assoc in Hd. exists d. split_and!; [done|done|].
  rewrite ja_id by done. eapply (Item_file (js_c cfg) pcs); [apply snoc_ne|by apply js_rel_plain|done].
Qed.

Lemma js_item_miss m v n :
  R m v → path_name n → v !! n = None →
  m !! (pcs ++ hs ++ [json_file n]) = None ∧
  no_file_on m (pcs ++ hs ++ [json_file n]) ∧
  container_Item (js_c cfg) (js_id cfg n) m = (Err ErrNotFound, m).
Proof.
  intros [HR HF] Hn Hv. destruct (dir_repr_none _ m v n HR Hv) as [Hd Hno].
  rewrite <-app_assoc in Hd, Hno. split_and!; [done..|].
  rewrite ja_id by done. apply (Item_missing (js_c cfg) pcs); [apply snoc_ne|by apply js_rel_plain|done..].
Qed.

Lemma js_open_decode m n d o :
  path_name n → m !! (pcs ++ hs ++ [json_file n]) = Some (File d) → Unmarshal d = Ok o →
  open_decode (Item (abs_path (pcs ++ hs ++ [json_file n]))) m = (Ok o, m).
Proof.
  intros Hn Hm Hd. unfold open_decode.
  erewrite bind_ok by (eapply (Open_file (js_c cfg) pcs); [by eexists|by apply js_path_plain|done]).
  unfold lift. by rewrite Hd.
Qed.

Lemma js_put m v n o ret :
  R m v → path_name n →
  result_sim (O := O) Obj R
    ((data ← lift (MarshalIndent o);
      _ ← Put (js_c cfg) (js_id cfg n) data; mret ret) m)
    match json_persist D o with
    | Ok stored => (Ok ret, <[n := stored]> v)
    | Err e => (Err e, v)
    | Panic w => (Panic w, v)
    end.
Proof.
  intros [HR HF] Hn. unfold json_persist.
  destruct (MarshalIndent o) as [d|e|w] eqn:Em; [|done|by destruct (json_no_panic (D := D) o w)].
  destruct (json_decodes o d Em) as [o' Hd].
  pose proof (dr_path _ m v HR) as Hp.
  erewrite bind_ok by done. erewrite bind_ok.
  2:{ rewrite ja_id by done. eapply (Put_file (js_c cfg) pcs); [by apply js_rel_plain|done|].
      pose proof (dir_repr_not_dir _ m v n HR). by rewrite <-app_assoc in H. }
  simpl. rewrite Hd. split; [done|].
  assert (Hr : dir_repr (pcs ++ hs) (write_file (pcs ++ hs) (json_file n) d m) (<[n := o']> v)).
  { apply dir_repr_write; [done| |done]. rewrite <-app_assoc. by apply js_path_plain. }
  split; [done|]. apply frame_write; [apply Hr|done].
Qed.

Lemma js_Get_refines n m v :
  R m v → path_name n → result_sim Obj R (js_Get cfg n m) (spec_Get n v).
Proof.
  intros HR Hn. unfold js_Get, spec_Get.
  destruct (decide (n = "")) as [->|Hne]; [done|].
  rewrite bool_decide_false, err_if_false by done.
  destruct (v !! n) as [o|] eqn:Hv.
  - destruct (js_item_hit m v n o HR Hn Hv) as (d & Hd & Ho & Hi).
    go_ok. by erewrite js_open_decode.
  - destruct (js_item_miss m v n HR Hn Hv) as (Hd & Hno & Hi). by go_err.
Qed.

Lemma js_Delete_refines n m v :
  R m v → path_name n → result_sim (λ _, Done) R (js_Delete cfg n m) (spec_Delete n v).
Proof.
  intros HR Hn. unfold js_Delete, spec_Delete.
  destruct (decide (n = "")) as [->|Hne]; [done|].
  rewrite bool_decide_false, err_if_false by done.
  destruct (v !! n) as [o|] eqn:Hv.
  - destruct (js_item_hit m v n o HR Hn Hv) as (d & Hd & _).
    erewrite (ja_delete_hit m n d) by done. split; [done|].
    rewrite app_assoc in Hd |- *. destruct HR as [HR HF].
    pose proof (dir_repr_delete _ m v n d HR Hd) as Hr.
    split; [done|]. eapply frame_delete; [apply Hr|done..].
  - destruct (js_item_miss m v n HR Hn Hv) as (Hd & Hno & _).
    destruct (ja_delete_miss m n Hn Hd Hno) as [e ->]. done.
Qed.

Lemma js_Create_refines o m v :
  R m v → valid_req (RCreate o) →
  result_sim Obj R (js_Create cfg o m) (spec_Create (json_persist D) o v).
Proof.
  intros HR Hn. destruct o as [o|]; [|done]. simpl in Hn.
  unfold js_Create, spec_Create, spec_put.
  destruct (decide (res_name o = "")) as [Hne|Hne].
  { by rewrite bool_decide_true, err_if_true. }
  rewrite bool_decide_false, err_if_false by done.
  erewrite bind_ok by apply assign_kind_ok. rewrite res_assign_name.
  destruct (v !! res_name o) as [x|] eqn:Hv.
  - destruct (js_item_hit m v _ x HR Hn Hv) as (d & Hd & Ho & Hi). by go_ok.
  - destruct (js_item_miss m v _ HR Hn Hv) as (Hd & Hno & Hi). go_ok.
    apply js_put; done.
Qed.

Lemma js_Update_refines o m v :
  R m v → valid_req (RUpdate o) →
  result_sim Obj R (js_Update cfg o m) (spec_Update (json_persist D) o v).
Proof.
  intros HR Hn. destruct o as [o|]; [|done]. simpl in Hn.
  unfold js_Update, spec_Update, spec_put.
  destruct (decide (res_name o = "")) as [Hne|Hne].
  { by rewrite bool_decide_true, err_if_true. }
  rewrite bool_decide_false, err_if_false by done.
  erewrite bind_ok by apply assign_kind_ok. rewrite res_assign_name.
  destruct (v !! res_name o) as [x|] eqn:Hv.
  - destruct (js_item_hit m v _ x HR Hn Hv) as (d & Hd & Ho & Hi). go_ok.
    apply js_put; done.
  - destruct (js_item_miss m v _ HR Hn Hv) as (Hd & Hno & Hi). by go_err.
Qed.

Lemma js_UpdateStatus_refines set o m v :
  (∀ ex o, set ex (res_assign o) = set ex o) →
  R m v → valid_req (RUpdateStatus o) →
  result_sim Obj R (js_UpdateStatus cfg set o m) (spec_UpdateStatus (json_persist D) set o v).
Proof.
  intros Hset HR Hn. destruct o as [o|]; [|done]. simpl in Hn.
  unfold js_UpdateStatus, spec_UpdateStatus.
  destruct (decide (res_name o = "")) as [Hne|Hne].
  { by rewrite bool_decide_true, err_if_true. }
  rewrite bool_decide_false, err_if_false by done.
  erewrite bind_ok by apply assign_kind_ok. rewrite res_assign_name.
  destruct (v !! res_name o) as [x|] eqn:Hv.
  - destruct (js_item_hit m v _ x HR Hn Hv) as (d & Hd & Ho & Hi). go_ok.
    erewrite bind_ok by (by eapply js_open_decode). rewrite Hset.
    by apply js_put.
  - destruct (js_item_miss m v _ HR Hn Hv) as (Hd & Hno & Hi). by go_err.
Qed.

(** *** List: the pages together hold every object, once *)
Definition node_object (n : node D) : option O :=
  match n with
  | File d => match Unmarshal d with Ok o => Some o | _ => None end
  | Dir => None
  end.

Definition entry_object (e : dirent D) : option O := node_object e.2.
Definition keyed_object (e : dirent D) : option (string * O) := pair e.1 <$> node_object e.2.

Lemma node_object_some n o : node_object n = Some o ↔ ∃ d, n = File d ∧ Unmarshal d = Ok o.
Proof.
  destruct n as [d|]; simpl; [|by split; [|intros (d & ? & _)]].
  split.
  - destruct (Unmarshal d) eqn:E; intros ?; simplify_eq. by exists d.
  - intros (d' & [= <-] & ->). done.
Qed.

Lemma omap_files (l : list (dirent D)) :
  omap entry_object (filter (λ f : dirent D, is_file f.2 = true) l) = omap entry_object l.
Proof.
  induction l as [|[x [d|]] l IH]; [done|..].
  - rewrite filter_cons_True by done. unfold omap in *. cbn [list_omap]. by rewrite IH.
  - rewrite filter_cons_False by done. unfold omap in *. cbn [list_omap]. by rewrite IH.
Qed.

Lemma js_page_items m v i count :
  R m v → let fl := dir_files pcs m hs in
  map_each (λ it, on_err (λ e, "failed to list " +:+ js_what cfg +:+ ". Reason: " +:+ e)
                         (open_decode it))
    (Item ∘ fst <$> filter (λ f : dirent D, is_file f.2 = true) (take count (drop i fl))) m =
  (Ok (omap entry_object (take count (drop i fl))), m).
Proof.
  intros [HR HF] fl. rewrite <-(omap_files (take count _)). apply map_each_omap.
  intros f [Hf Hin]%list_elem_of_filter.
  assert (f ∈ fl) as ([x n] & -> & Hx)%list_elem_of_fmap.
  { apply elem_of_take in Hin as (j & Hj & _). rewrite lookup_drop in Hj.
    apply list_elem_of_lookup. eauto. }
  apply elem_of_order in Hx. simpl in *. destruct n as [d|]; [|done].
  destruct (dr_ext _ m v HR _ _ Hx) as [k ->].
  pose proof (dr_entry _ m v HR k) as He. rewrite Hx in He.
  destruct (v !! k) as [o|] eqn:Hv; [|done]. simpl in He. exists o.
  split; [|unfold entry_object; simpl; by rewrite He].
  apply on_err_ok. unfold open_decode. erewrite bind_ok.
  - unfold lift. by rewrite He.
  - rewrite app_assoc. eapply (Open_file (js_c cfg) pcs); [|by eapply wf_names, Hx; apply HR|done].
    rewrite <-app_assoc. by eexists.
Qed.

Lemma js_pages m v fuel i acc :
  R m v → m !! (pcs ++ hs) = Some Dir →
  let fl := dir_files pcs m hs in
  0 < fuel → length fl ≤ i + fuel → (i = 0 ∨ i < length fl) →
  list_pages (js_what cfg) (js_c cfg) (js_prefix cfg) fuel (cursor_at pcs m hs i) acc m =
  (Ok (acc ++ omap entry_object (drop i fl)), m).
Proof.
  intros HR Hd fl. revert i acc. induction fuel as [|fuel IH]; intros i acc Hf Hl Hi; [lia|].
  cbn [list_pages]. pose proof (ja_ne (cfg := cfg)) as Hne. pose proof (ja_plain (cfg := cfg)) as Hp.
  pose proof (dr_wf _ m v (proj1 HR)) as Hwf. rewrite (ja_prefix (cfg := cfg)).
  erewrite bind_ok by (apply on_err_ok, (Browse_at (js_c cfg) pcs); done).
  destruct (browse_page_at (js_c cfg) pcs m hs i pageSize Hne ltac:(unfold pageSize; lia)) as [-> Hc].
  erewrite bind_ok by (by eapply js_page_items). rewrite Hc. clear Hc.
  fold fl. assert (Hps : pageSize = 50) by done. case_decide as Hlt.
  - unfold IsCursorEnd.
    rewrite bool_decide_false by (apply (cursor_at_ne pcs m hs (i + pageSize)); done || lia).
    rewrite <-(ja_prefix (cfg := cfg)), IH by lia.
    rewrite <-app_assoc, <-omap_app, <-drop_drop, take_drop. done.
  - rewrite take_ge by (rewrite length_drop; lia). done.
Qed.

Lemma keyed_NoDup m : NoDup (omap keyed_object (children m (pcs ++ hs))).
Proof.
  apply (NoDup_omap_keyed node_object), NoDup_children.
Qed.

Lemma omap_keyed (l : list (dirent D)) : (omap keyed_object l).*2 = omap entry_object l.
Proof. apply (omap_snd node_object). Qed.

Lemma dir_objects m v :
  R m v → omap entry_object (children m (pcs ++ hs)) ≡ₚ (map_to_list v).*2.
Proof.
  intros [HR HF].
  assert (Hp : omap keyed_object (children m (pcs ++ hs)) ≡ₚ
               prod_map json_file id <$> map_to_list v).
  { apply NoDup_Permutation; [apply keyed_NoDup|..].
    - apply NoDup_fmap; [|apply NoDup_map_to_list].
      intros [n o] [k p] E. simpl in E. simplify_eq. f_equal. by apply json_file_inj.
    - intros [x o]. rewrite list_elem_of_omap, list_elem_of_fmap. split.
      + intros ([y n] & Hin & Hs). unfold keyed_object in Hs. simpl in Hs.
        apply fmap_Some in Hs as (o' & Ho & ?). simplify_eq/=.
        apply node_object_some in Ho as (d & -> & Ho). apply elem_of_children in Hin.
        destruct (dr_ext _ m v HR _ _ Hin) as [k ->].
        pose proof (dr_entry _ m v HR k) as He. rewrite Hin in He.
        destruct (v !! k) as [o2|] eqn:Hv; [|done]. simpl in He.
        assert (o2 = o') as -> by congruence.
        exists (k, o'). split; [done|]. by apply elem_of_map_to_list in Hv.
      + intros ([k o'] & E & Hv%elem_of_map_to_list). simpl in E. simplify_eq.
        destruct (dir_repr_some _ m v k o' HR Hv) as (d & Hd & Ho).
        exists (json_file k, File d). split; [by apply elem_of_children|].
        unfold keyed_object. simpl. by rewrite Ho. }
  rewrite <-omap_keyed, Hp, <-list_fmap_compose. done.
Qed.

Lemma js_List_refines m v :
  R m v → result_sim Objs R (js_List cfg m) (spec_List v).
Proof.
  intros HR. unfold js_List, spec_List, list_fuel.
  pose proof (dr_wf _ m v (proj1 HR)) as Hwf.
  assert (m !! (pcs ++ hs) = Some Dir ∨ m !! (pcs ++ hs) ≠ Some Dir) as [Hd|Hd].
  { destruct (m !! (pcs ++ hs)) as [[]|]; by (left + right). }
  - change CursorStart with (cursor_at pcs m hs 0).
    rewrite (js_pages m v (S (size m)) 0 [] HR Hd); [|lia| |by left].
    2:{ unfold dir_files. rewrite length_fmap, os_order_perm.
        pose proof (children_size m (pcs ++ hs)). lia. }
    split; [|done]. simpl. rewrite drop_0, <-dir_objects by done.
    unfold dir_files. rewrite omap_fmap_list. unfold entry_object. simpl.
    by rewrite os_order_perm.
  - rewrite (dir_repr_no_dir _ m v (proj1 HR) Hd). simpl.
    destruct (readDir_missing (js_c cfg) pcs m hs) as [e He];
      [apply (ja_ne (cfg := cfg))|apply (ja_plain (cfg := cfg))|done|].
    erewrite bind_err; [split; [done|]|].
    2:{ apply on_err_err. unfold Browse. rewrite (ja_prefix (cfg := cfg)). by apply bind_err. }
    rewrite (dir_repr_no_dir _ m v (proj1 HR) Hd) in HR. done.
Qed.
#[export] Instance js_refines (ss : option (O → O → O)) :
  (∀ f, ss = Some f → ∀ ex o, f ex (res_assign o) = f ex o) →
  Refines (js_ops cfg ss) (spec_store (json_persist D) ss) 
    (λ m v, dir_repr (pcs ++ hs) m v ∧ F m) valid_req.
Proof.
  intros Hss. apply refines_by_methods.
  - intros s v HR. by apply js_List_refines.
  - intros n s v HR Hv. by apply js_Get_refines.
  - intros o s v HR Hv. by apply js_Create_refines.
  - intros o s v HR Hv. by apply js_Update_refines.
  - intros n s v HR Hv. by apply js_Delete_refines.
  - destruct ss as [f|]; [|done]. simpl. intros o s v HR Hv.
    apply js_UpdateStatus_refines; [by apply Hss|done..].
Qed.
End refinement.

(** ** The four stores are instances of the shape *)
Section instances.
Context {D : Type} `{!OS D} (c : container) (pcs pre : list string).
Context `{!ContainerAt c pcs} (Hpre : Forall plain pre).

(** A resource's path under [home], and the two ways of deleting it. *)
Lemma home_id hs n :
  hs ≠ [] → Forall plain hs → path_name n →
  PathJoin [Join "/" hs; n +:+ ".json"] = Join "/" (hs ++ [json_file n]).
Proof.
  intros Hne Hp Hn. apply PathJoin_prefix; [done..|].
  constructor; [by apply json_file_plain|done].
Qed.

Definition delete_item (id name : string) : GoM (fs D) () :=
  item ← on_err (λ e, "failed to get item " +:+ name +:+ ". Reason: " +:+ e) (container_Item c id);
  RemoveItem c (item_ID item).

Lemma delete_item_hit m hs k n d :
  Forall plain (hs ++ [k]) → m !! (pcs ++ hs ++ [k]) = Some (File d) →
  delete_item (Join "/" (hs ++ [k])) n m = (Ok (), delete (pcs ++ hs ++ [k]) m).
Proof.
  intros Hp Hm. unfold delete_item. pose proof (ca_plain (c := c)) as Hcp.
  erewrite bind_ok by (eapply on_err_ok, (Item_file c pcs); [apply snoc_ne|done..]).
  eapply (RemoveItem_file c pcs); [by eexists|by apply Forall_app|done].
Qed.

Lemma delete_item_miss m hs k n :
  Forall plain (hs ++ [k]) → m !! (pcs ++ hs ++ [k]) = None →
  no_file_on m (pcs ++ hs ++ [k]) →
  ∃ e, delete_item (Join "/" (hs ++ [k])) n m = (Err e, m).
Proof.
  intros Hp Hm Hno. eexists. unfold delete_item.
  by erewrite bind_err by (eapply on_err_err, (Item_missing c pcs); [apply snoc_ne|done..]).
Qed.

Lemma RemoveItem_abs_miss m rs :
  rs ≠ [] → Forall plain rs → m !! (pcs ++ rs) = None →
  ∃ e, RemoveItem c (PathJoin [container_ID c; Join "/" rs]) m = (Err e, m).
Proof.
  intros Hne Hp Hm. unfold RemoveItem, os_Remove, container_ID.
  rewrite (item_path_resolve c pcs), Hm by done. by eexists.
Qed.

(** *** Clusters and credentials *)
Definition cluster_store : ClusterFileStore.t := ClusterFileStore.Make c (Join "/" pre).
Definition credential_store : CredentialFileStore.t := CredentialFileStore.Make c (Join "/" pre).

Definition cluster_cfg : js_cfg D := {|
  js_c := c; js_id := ClusterFileStore.resourceID cluster_store;
  js_prefix := ClusterFileStore.resourceHome cluster_store +:+ "/";
  js_missing := "cluster"; js_label := "cluster"; js_what := "clusters";
  js_delete name := delete_item (ClusterFileStore.resourceID cluster_store name) name
|}.

Definition credential_cfg : js_cfg D := {|
  js_c := c; js_id := CredentialFileStore.resourceID credential_store;
  js_prefix := CredentialFileStore.resourceHome credential_store +:+ "/";
  js_missing := "credential"; js_label := "credential"; js_what := "credentials";
  js_delete name := delete_item (CredentialFileStore.resourceID credential_store name) name
|}.

Lemma cluster_ops_eq `{!Json D Cluster} :
  ClusterFileStore.ops cluster_store = js_ops cluster_cfg (Some res_set_status).
Proof. done. Qed.

Lemma credential_ops_eq `{!Json D Credential} :
  CredentialFileStore.ops credential_store = js_ops credential_cfg None.
Proof. done. Qed.
Lemma js_at_item hs (cfg : js_cfg D) :
  js_c cfg = c → hs ≠ [] → Forall plain hs →
  (∀ n, js_id cfg n = PathJoin [Join "/" hs; n +:+ ".json"]) →
  js_prefix cfg = Join "/" hs +:+ "/" →
  (∀ n, js_delete cfg n = delete_item (js_id cfg n) n) → JsAt pcs hs cfg.
Proof.
  intros Hc Hne Hp Hid Hpre' Hdel.
  assert (Hpath : ∀ n, path_name n → Forall plain (hs ++ [json_file n])).
  { intros n Hn. apply Forall_app. split; [done|]. constructor; [by apply json_file_plain|done]. }
  split.
  - by rewrite Hc.
  - done.
  - done.
  - intros n Hn. by rewrite Hid, home_id.
  - done.
  - intros m n d Hn Hm. rewrite Hdel, Hid, home_id by done. apply (delete_item_hit _ _ _ _ d); auto.
  - intros m n Hn Hm Hno. rewrite Hdel, Hid, home_id by done. apply delete_item_miss; auto.
Qed.

Lemma js_at_path hs (cfg : js_cfg D) :
  js_c cfg = c → hs ≠ [] → Forall plain hs →
  (∀ n, js_id cfg n = PathJoin [Join "/" hs; n +:+ ".json"]) →
  js_prefix cfg = Join "/" hs +:+ "/" →
  (∀ n, js_delete cfg n = RemoveItem c (PathJoin [container_ID c; js_id cfg n])) → JsAt pcs hs cfg.
Proof.
  intros Hc Hne Hp Hid Hpre' Hdel. pose proof (ca_plain (c := c)) as Hcp.
  assert (Hpath : ∀ n, path_name n → Forall plain (hs ++ [json_file n])).
  { intros n Hn. apply Forall_app. split; [done|]. constructor; [by apply json_file_plain|done]. }
  split.
  - by rewrite Hc.
  - done.
  - done.
  - intros n Hn. by rewrite Hid, home_id.
  - done.
  - intros m n d Hn Hm. rewrite Hdel, Hid, home_id by done. unfold container_ID.
    rewrite (item_path c pcs) by (auto using snoc_ne).
    eapply (RemoveItem_file c pcs); [by eexists|apply Forall_app; auto|done].
  - intros m n Hn Hm Hno. rewrite Hdel, Hid, home_id by done.
    apply RemoveItem_abs_miss; auto using snoc_ne.
Qed.

Lemma home_ne (xs : list string) x : pre ++ x :: xs ≠ [].
Proof. by destruct pre. Qed.

Lemma home_plain xs : Forall plain xs → Forall plain (pre ++ xs).
Proof. intros. by apply Forall_app. Qed.

#[export] Instance cluster_at : JsAt pcs (pre ++ ["clusters"]) cluster_cfg.
Proof.
  assert (Hh : ClusterFileStore.resourceHome cluster_store = Join "/" (pre ++ ["clusters"])).
  { apply PathJoin_prefix; [done|done|plains]. }
  apply js_at_item; try done; [apply home_ne|apply home_plain; plains|..];
    simpl; unfold ClusterFileStore.resourceID; by rewrite Hh.
Qed.

#[export] Instance credential_at : JsAt pcs (pre ++ ["credentials"]) credential_cfg.
Proof.
  assert (Hh : CredentialFileStore.resourceHome credential_store = Join "/" (pre ++ ["credentials"])).
  { apply PathJoin_prefix; [done|done|plains]. }
  apply js_at_item; try done; [apply home_ne|apply home_plain; plains|..];
    simpl; unfold CredentialFileStore.resourceID; by rewrite Hh.
Qed.

(** *** Machine sets and machines of a cluster *)
Section of_cluster.
Context (cl : string) (Hcl : plain cl).

Definition machineset_store : MachineSetFileStore.t :=
  MachineSetFileStore.Make c (Join "/" pre) cl.
Definition machine_store : MachineFileStore.t := MachineFileStore.Make c (Join "/" pre) cl "".

Definition machineset_cfg : js_cfg D := {|
  js_c := c; js_id := MachineSetFileStore.resourceID machineset_store;
  js_prefix := MachineSetFileStore.resourceHome machineset_store +:+ "/";
  js_missing := "node group"; js_label := "NodeGroup"; js_what := "node groups";
  js_delete name :=
    RemoveItem c (PathJoin [container_ID c; MachineSetFileStore.resourceID machineset_store name])
|}.

(** [machineFileStore.Delete] forgets to join the container's path. *)
Definition machine_cfg : js_cfg D := {|
  js_c := c; js_id := MachineFileStore.resourceID machine_store;
  js_prefix := MachineFileStore.resourceHome machine_store +:+ "/";
  js_missing := "node group"; js_label := "NodeGroup"; js_what := "node groups";
  js_delete name := RemoveItem c (MachineFileStore.resourceID machine_store name)
|}.

Definition fixed_machine_cfg : js_cfg D := {|
  js_c := c; js_id := js_id machine_cfg; js_prefix := js_prefix machine_cfg;
  js_missing := "node group"; js_label := "NodeGroup"; js_what := "node groups";
  js_delete name := RemoveItem c (PathJoin [container_ID c; js_id machine_cfg name])
|}.

Lemma cluster_named : bool_decide (cl = "") = false.
Proof. apply bool_decide_eq_false. by destruct Hcl. Qed.

Lemma machineset_ops_eq `{!Json D MachineSet} :
  MachineSetFileStore.ops machineset_store = js_ops machineset_cfg (Some res_set_status).
Proof.
  unfold MachineSetFileStore.ops, MachineSetFileStore.Get, MachineSetFileStore.Create,
    MachineSetFileStore.Update, MachineSetFileStore.Delete, MachineSetFileStore.UpdateStatus.
  simpl. by rewrite !cluster_named.
Qed.

Lemma machine_ops_eq `{!Json D Machine} :
  MachineFileStore.ops machine_store = js_ops machine_cfg (Some res_set_status).
Proof.
  unfold MachineFileStore.ops, MachineFileStore.Get, MachineFileStore.Create,
    MachineFileStore.Update, MachineFileStore.Delete, MachineFileStore.UpdateStatus.
  simpl. by rewrite !cluster_named.
Qed.

Lemma machineset_home :
  MachineSetFileStore.resourceHome machineset_store =
  Join "/" (pre ++ ["clusters"; cl; "machineset"]).
Proof. apply PathJoin_prefix; [done|done|plains]. Qed.

Lemma machine_home :
  MachineFileStore.resourceHome machine_store = Join "/" (pre ++ ["clusters"; cl; "machine"]).
Proof.
  unfold MachineFileStore.resourceHome. rewrite PathJoin_skip.
  apply PathJoin_prefix; [done|done|plains].
Qed.

#[export] Instance machineset_at :
  JsAt pcs (pre ++ ["clusters"; cl; "machineset"]) machineset_cfg.
Proof.
  apply js_at_path; try done; [apply home_ne|apply home_plain; plains|..];
    simpl; unfold MachineSetFileStore.resourceID; by rewrite machineset_home.
Qed.

#[export] Instance fixed_machine_at :
  JsAt pcs (pre ++ ["clusters"; cl; "machine"]) fixed_machine_cfg.
Proof.
  apply js_at_path; try done; [apply home_ne|apply home_plain; plains|..];
    simpl; unfold MachineFileStore.resourceID; by rewrite machine_home.
Qed.
End of_cluster.
End instances.
