(* ===== verification/FileStoreSpec.v ===== *)
(** * The file store as a whole

    [files_repr] relates the container's tree to the abstract state of a pharmer
    store, all kinds of objects and all clusters at once; every call on the
    file store simulates the call on the abstract store, but for deleting a machine,
    which always fails ([file_call]), and leaves the other kinds and clusters alone. *)
From stdpp Require Import base list gmap strings fin_maps.
From S2P Require Import Prelude GoStrings GoPath Stow Api StoreSpec VfsStore VfsProofs Samples.

(** Cluster names whose directory is no object's file. *)
Definition cluster_dir_name (cl : string) : Prop := plain cl ∧ ∀ n, cl ≠ json_file n.

(** Names are names of files, and clusters' names those of directories. *)
Definition valid_call (c : call) : Prop :=
  match c with
  | OnCredentials r => valid_req r
  | OnClusters r => valid_req r
  | OnMachineSets cl r => cluster_dir_name cl ∧ valid_req r
  | OnMachines cl r => cluster_dir_name cl ∧ valid_req r
  end.

(** What the file store does to the abstract state: what the abstract store does, but
    that a machine cannot be deleted. *)
Definition file_call pC pCr pMS pM (c : call) (o : objects) : reply * objects :=
  match c with
  | OnMachines cl (RDelete n) => (FromMachines (Err "cannot remove"), o)
  | _ => spec_call pC pCr pMS pM c o
  end.

Section whole.
Context {D : Type} `{!OS D}.
Context `{!Json D Credential, !Json D Cluster, !Json D MachineSet, !Json D Machine}.
Context `{!JsonLaws D Credential, !JsonLaws D Cluster, !JsonLaws D MachineSet, !JsonLaws D Machine}.
Context (c : container) (pcs pre : list string) `{!ContainerAt c pcs} (Hpre : Forall plain pre).

(** The path [machineFileStore.Delete] hands to the container is relative: it leads to
    here, from the working directory of the process. *)
Definition stray (cl n : string) : list string := os_cwd ++ pre ++ ["clusters"; cl; "machine"; json_file n].
Context (Hcwd : Forall plain os_cwd).
Context (Haway : ∀ cl n, ¬ stray cl n `prefix_of` pcs ∧ ¬ pcs `prefix_of` stray cl n).

Definition file_store : FileStore.t := FileStore.New c (Join "/" pre).

Definition file_api : api_store (fs D) := {|
  st_Credentials := CredentialFileStore.ops (FileStore.Credentials file_store);
  st_Clusters := ClusterFileStore.ops (FileStore.Clusters file_store);
  st_MachineSets cl := MachineSetFileStore.ops (FileStore.MachineSets file_store cl);
  st_Machines cl := MachineFileStore.ops (FileStore.Machines file_store cl)
|}.

Definition credentials_dir : list string := pcs ++ pre ++ ["credentials"].
Definition clusters_dir : list string := pcs ++ pre ++ ["clusters"].
Definition machinesets_dir (cl : string) : list string := pcs ++ pre ++ ["clusters"; cl; "machineset"].
Definition machines_dir (cl : string) : list string := pcs ++ pre ++ ["clusters"; cl; "machine"].

Record files_repr (m : fs D) (o : objects) : Prop := {
  fr_credentials : dir_repr credentials_dir m (ob_credentials o);
  fr_clusters : dir_repr clusters_dir m (ob_clusters o);
  fr_machinesets cl : cluster_dir_name cl → dir_repr (machinesets_dir cl) m (ob_machinesets o cl);
  fr_machines cl : cluster_dir_name cl → dir_repr (machines_dir cl) m (ob_machines o cl);
  fr_stray : ∀ cl n, m !! stray cl n = None
}.

(** *** The directories are apart *)
Lemma apart_under base xs ys :
  xs ≠ ys → (∀ n, ¬ (xs ++ [json_file n]) `prefix_of` ys ∧ ¬ (ys ++ [json_file n]) `prefix_of` xs) →
  apart (base ++ xs) (base ++ ys).
Proof.
  intros Hne Hp. split; [by intros ?%app_inv_head|].
  intros n. rewrite <-!app_assoc. destruct (Hp n) as [H1 H2].
  split; by intros ?%prefix_app_inv.
Qed.

Ltac dirs_apart :=
  repeat match goal with H : cluster_dir_name _ |- _ => destruct H as [? ?] end;
  unfold credentials_dir, clusters_dir, machinesets_dir, machines_dir;
  rewrite !(app_assoc pcs pre); apply apart_under;
  [by intros [=]
  |intros n; split; intros [k Hk]; simpl in Hk; simplify_eq/=;
     match goal with H : ∀ k, _ ≠ json_file k |- _ => by eapply H end].

(** No call makes a file where a stray path leads. *)
Lemma frame_stray (q : list string) : Frame (D := D) (pcs ++ q) (λ m, ∀ cl n, m !! stray cl n = None).
Proof.
  apply frame_forall. intros cl. apply frame_forall. intros n. destruct (Haway cl n) as [H1 H2].
  assert (∀ k, stray cl n ≠ pcs ++ k) as Hne by (intros k E; apply H2; by exists k).
  split; intros m k d _; [intros Hm|intros _ Hm].
  - rewrite lookup_write_file, !decide_False; [done| |by rewrite <-app_assoc].
    intros Hp. destruct (prefix_weak_total (stray cl n) pcs (pcs ++ q)) as [?|?]; [done|by eexists|done..].
  - by rewrite lookup_delete_ne by (rewrite <-app_assoc; intros E; by destruct (Hne (q ++ [json_file k]))).
Qed.

(** What a call on one directory leaves alone. *)
Lemma frame_other_clusters (q : list string) (dir : string → list string) (skip : string → Prop)
    {O} `{!Json D O} (f : string → gmap string O) :
  (∀ cl, cluster_dir_name cl → ¬ skip cl → apart q (dir cl)) →
  Frame (D := D) q (λ m, ∀ cl, cluster_dir_name cl → ¬ skip cl → dir_repr (dir cl) m (f cl)).
Proof.
  intros Hap. apply frame_forall. intros cl. apply frame_impl. intros Hcl.
  apply frame_impl. intros Hs. apply frame_dir. by apply Hap.
Qed.

Lemma frame_all_clusters (q : list string) (dir : string → list string)
    {O} `{!Json D O} (f : string → gmap string O) :
  (∀ cl, cluster_dir_name cl → apart q (dir cl)) →
  Frame (D := D) q (λ m, ∀ cl, cluster_dir_name cl → dir_repr (dir cl) m (f cl)).
Proof.
  intros Hap. apply frame_forall. intros cl. apply frame_impl. intros Hcl.
  apply frame_dir. by apply Hap.
Qed.

Lemma step_credentials m o r :
  files_repr m o → valid_req r →
  let x := run (st_Credentials file_api) r m in
  let y := run (spec_store (json_persist D) None) r (ob_credentials o) in
  outcome_sim x.1 y.1 ∧ files_repr x.2 (put_credentials y.2 o).
Proof.
  intros [Hcr Hc Hs Hm Hst] Hv x y.
  pose (F := λ m : fs D, (∀ cl n, m !! stray cl n = None) ∧ dir_repr clusters_dir m (ob_clusters o) ∧
    (∀ cl, cluster_dir_name cl → dir_repr (machinesets_dir cl) m (ob_machinesets o cl)) ∧
    (∀ cl, cluster_dir_name cl → dir_repr (machines_dir cl) m (ob_machines o cl))).
  assert (Frame credentials_dir F).
  { apply frame_and; [apply frame_stray|].
    apply frame_and; [apply frame_dir; dirs_apart|].
    apply frame_and; apply frame_all_clusters; intros cl Hcl; dirs_apart. }
  pose proof (credential_at c pcs pre Hpre).
  destruct (js_refines (O := Credential) pcs (pre ++ ["credentials"]) (credential_cfg c pre) F
    None ltac:(done) r m (ob_credentials o)) as [Hsim [HR (HF0 & HF1 & HF2 & HF3)]]; done.
Qed.

Lemma step_clusters m o r :
  files_repr m o → valid_req r →
  let x := run (st_Clusters file_api) r m in
  let y := run (spec_store (json_persist D) (Some res_set_status)) r (ob_clusters o) in
  outcome_sim x.1 y.1 ∧ files_repr x.2 (put_clusters y.2 o).
Proof.
  intros [Hcr Hc Hs Hm Hst] Hv x y.
  pose (F := λ m : fs D, (∀ cl n, m !! stray cl n = None) ∧ dir_repr credentials_dir m (ob_credentials o) ∧
    (∀ cl, cluster_dir_name cl → dir_repr (machinesets_dir cl) m (ob_machinesets o cl)) ∧
    (∀ cl, cluster_dir_name cl → dir_repr (machines_dir cl) m (ob_machines o cl))).
  assert (Frame clusters_dir F).
  { apply frame_and; [apply frame_stray|].
    apply frame_and; [apply frame_dir; dirs_apart|].
    apply frame_and; apply frame_all_clusters; intros cl Hcl; dirs_apart. }
  pose proof (cluster_at c pcs pre Hpre).
  destruct (js_refines (O := Cluster) pcs (pre ++ ["clusters"]) (cluster_cfg c pre) F
    (Some res_set_status) set_status_assign r m (ob_clusters o))
    as [Hsim [HR (HF0 & HF1 & HF2 & HF3)]]; done.
Qed.

Lemma step_machinesets cl m o r :
  files_repr m o → cluster_dir_name cl → valid_req r →
  let x := run (st_MachineSets file_api cl) r m in
  let y := run (spec_store (json_persist D) (Some res_set_status)) r (ob_machinesets o cl) in
  outcome_sim x.1 y.1 ∧ files_repr x.2 (put_machinesets cl y.2 o).
Proof.
  intros [Hcr Hc Hs Hm Hst] Hcl Hv x y.
  pose (F := λ m : fs D, (∀ cl n, m !! stray cl n = None) ∧ dir_repr credentials_dir m (ob_credentials o) ∧
    dir_repr clusters_dir m (ob_clusters o) ∧
    (∀ cl', cluster_dir_name cl' → ¬ cl' = cl →
      dir_repr (machinesets_dir cl') m (ob_machinesets o cl')) ∧
    (∀ cl', cluster_dir_name cl' → dir_repr (machines_dir cl') m (ob_machines o cl'))).
  assert (Frame (machinesets_dir cl) F).
  { apply frame_and; [apply frame_stray|].
    apply frame_and; [apply frame_dir; dirs_apart|].
    apply frame_and; [apply frame_dir; dirs_apart|].
    apply frame_and; [apply (frame_other_clusters _ _ (λ cl', cl' = cl))|apply frame_all_clusters];
      intros cl'; intros; dirs_apart. }
  pose proof (machineset_at c pcs pre Hpre cl (proj1 Hcl)).
  destruct (js_refines (O := MachineSet) pcs (pre ++ ["clusters"; cl; "machineset"]) (machineset_cfg c pre cl) F
    (Some res_set_status) set_status_assign r m (ob_machinesets o cl))
    as [Hsim [HR (HF0 & HF1 & HF2 & HF3 & HF4)]];
    [split; [by apply Hs|unfold F; split_and!; auto]|done|].
  pose proof (machineset_ops_eq c pre cl (proj1 Hcl)) as E. unfold x, y.
  change (st_MachineSets file_api cl) with (MachineSetFileStore.ops (machineset_store c pre cl)).
  rewrite E. split; [done|].
  split; [done|done| |done|done]. intros cl' Hcl'. simpl. case_decide; [by subst|by apply HF3].
Qed.

Lemma machine_run_fixed (cl : string) (r : request Machine) (m : fs D) :
  (∀ n, r ≠ RDelete n) →
  run (js_ops (machine_cfg c pre cl) (Some res_set_status)) r m =
  run (js_ops (fixed_machine_cfg c pre cl) (Some res_set_status)) r m.
Proof. intros Hr. destruct r; try done. by destruct (Hr name). Qed.

Lemma step_machines cl m o r :
  files_repr m o → cluster_dir_name cl → valid_req r → (∀ n, r ≠ RDelete n) →
  let x := run (st_Machines file_api cl) r m in
  let y := run (spec_store (json_persist D) (Some res_set_status)) r (ob_machines o cl) in
  outcome_sim x.1 y.1 ∧ files_repr x.2 (put_machines cl y.2 o).
Proof.
  intros [Hcr Hc Hs Hm Hst] Hcl Hv Hr x y.
  pose (F := λ m : fs D, (∀ cl n, m !! stray cl n = None) ∧ dir_repr credentials_dir m (ob_credentials o) ∧
    dir_repr clusters_dir m (ob_clusters o) ∧
    (∀ cl', cluster_dir_name cl' → ¬ cl' = cl →
      dir_repr (machines_dir cl') m (ob_machines o cl')) ∧
    (∀ cl', cluster_dir_name cl' → dir_repr (machinesets_dir cl') m (ob_machinesets o cl'))).
  assert (Frame (machines_dir cl) F).
  { apply frame_and; [apply frame_stray|].
    apply frame_and; [apply frame_dir; dirs_apart|].
    apply frame_and; [apply frame_dir; dirs_apart|].
    apply frame_and; [apply (frame_other_clusters _ _ (λ cl', cl' = cl))|apply frame_all_clusters];
      intros cl'; intros; dirs_apart. }
  pose proof (fixed_machine_at c pcs pre Hpre cl (proj1 Hcl)).
  destruct (js_refines (O := Machine) pcs (pre ++ ["clusters"; cl; "machine"]) (fixed_machine_cfg c pre cl) F
    (Some res_set_status) set_status_assign r m (ob_machines o cl))
    as [Hsim [HR (HF0 & HF1 & HF2 & HF3 & HF4)]];
    [split; [by apply Hm|unfold F; split_and!; auto]|done|].
  pose proof (machine_ops_eq c pre cl (proj1 Hcl)) as E. unfold x, y.
  change (st_Machines file_api cl) with (MachineFileStore.ops (machine_store c pre cl)).
  rewrite E, machine_run_fixed by done. split; [done|].
  split; [done|done|done| |done]. intros cl' Hcl'. simpl. case_decide; [by subst|by apply HF3].
Qed.

(** [machineFileStore.Delete] hands stow a path relative to the container, which the
    local container resolves against the working directory of the process: the call
    fails and the machine stays stored. *)
Theorem machine_delete_leaks m o cl n :
  files_repr m o → cluster_dir_name cl → path_name n →
  ∃ e, MachineFileStore.Delete (FileStore.Machines file_store cl) n m = (Err e, m).
Proof.
  intros HR [Hcl _] Hn. unfold MachineFileStore.Delete.
  rewrite err_if_false by apply (cluster_named cl Hcl).
  destruct (decide (n = "")) as [->|Hne]; [by eexists|].
  rewrite err_if_false by by apply bool_decide_eq_false.
  unfold MachineFileStore.resourceID.
  change (MachineFileStore.resourceHome _) with
    (MachineFileStore.resourceHome (machine_store c pre cl)).
  rewrite machine_home by done.
  rewrite home_id by (first [done|by destruct pre|apply Forall_app; split; [done|plains]]).
  apply (RemoveItem_relative (c)); [apply snoc_ne| |done|].
  - apply Forall_app. split; [apply Forall_app; split; [done|plains]|].
    by apply Forall_singleton, json_file_plain.
  - rewrite <-app_assoc. apply (fr_stray m o HR).
Qed.

Lemma file_step m o q :
  files_repr m o → valid_call q →
  reply_sim (run_call file_api q m).1
    (file_call (json_persist D) (json_persist D) (json_persist D) (json_persist D) q o).1 ∧
  files_repr (run_call file_api q m).2
    (file_call (json_persist D) (json_persist D) (json_persist D) (json_persist D) q o).2.
Proof.
  intros HR Hv. destruct q as [r|r|cl r|cl r].
  - unfold run_call, file_call, spec_call. pose proof (step_credentials m o r HR Hv) as Hs. cbv zeta in Hs.
    by destruct (run (st_Credentials file_api) r m), (run (spec_store (json_persist D) None) r (ob_credentials o)).
  - unfold run_call, file_call, spec_call. pose proof (step_clusters m o r HR Hv) as Hs. cbv zeta in Hs.
    by destruct (run (st_Clusters file_api) r m), 
      (run (spec_store (json_persist D) (Some res_set_status)) r (ob_clusters o)).
  - unfold run_call, file_call, spec_call. destruct Hv as [Hcl Hv].
    pose proof (step_machinesets cl m o r HR Hcl Hv) as Hs. cbv zeta in Hs.
    by destruct (run (st_MachineSets file_api cl) r m), 
      (run (spec_store (json_persist D) (Some res_set_status)) r (ob_machinesets o cl)).
  - destruct Hv as (Hcl & Hv). assert ((∃ n, r = RDelete n) ∨ ∀ n, r ≠ RDelete n) as [[n ->]|Hd].
    { destruct r; try (right; congruence). left. by eexists. }
    + unfold run_call, file_call. cbn [run]. unfold mbind, gom_bind.
      destruct (machine_delete_leaks m o cl n HR Hcl Hv) as [e E].
      change (op_Delete (st_Machines file_api cl) n) with
        (MachineFileStore.Delete (FileStore.Machines file_store cl) n). by rewrite E.
    + assert (∀ pC pCr pMS pM, file_call pC pCr pMS pM (OnMachines cl r) o =
        spec_call pC pCr pMS pM (OnMachines cl r) o) as -> by (intros; destruct r; try done; by destruct (Hd name)).
      unfold run_call, spec_call. pose proof (step_machines cl m o r HR Hcl Hv Hd) as Hs. cbv zeta in Hs.
      by destruct (run (st_Machines file_api cl) r m), 
        (run (spec_store (json_persist D) (Some res_set_status)) r (ob_machines o cl)).
Qed.

(** An empty container represents the empty store. *)
Lemma fresh_container m :
  wf_fs m → no_file_on m pcs → (∀ q n, m !! (pcs ++ q) = Some n → q = []) →
  (∀ cl n, m !! stray cl n = None) → files_repr m no_objects.
Proof.
  intros Hwf Hno Hempty Hst.
  assert (Hd : ∀ {O} `{!Json D O} q, q ≠ [] → dir_repr (pcs ++ q) m (∅ : gmap string O)).
  { intros O HJ q Hq. split; [done|..].
    - intros p d Hp Hm. destruct (prefix_weak_total p pcs (pcs ++ q)) as [H|[x ->]];
        [done|by eexists|by apply (Hno p d)|].
      pose proof (Hempty _ _ Hm) as ->. rewrite app_nil_r in Hm. by apply (Hno pcs d).
    - intros n. rewrite lookup_empty. destruct (m !! _) as [x|] eqn:E; [|done].
      rewrite <-app_assoc in E. apply Hempty in E. by destruct (snoc_ne q (json_file n)).
    - intros k d E. rewrite <-app_assoc in E. apply Hempty in E. by destruct (snoc_ne q k). }
  split; intros; first [apply Hst|apply Hd; by destruct pre].
Qed.

(** [C1] Every sequence of calls on the file store, to all its kinds of objects and
    clusters, with names that are names of files, gives the replies of the abstract store
    (up to the text of errors, the order of lists, and an error for the list of a
    directory that does not exist yet), and ends in a tree that represents the abstract
    state; but deleting a machine always fails and deletes nothing.  The relative paths of
    machines lead from the working directory to places outside of the container, where
    there is nothing. *)
Theorem file_store_refines m o calls :
  files_repr m o → Forall valid_call calls →
  Forall2 reply_sim (trace (run_call file_api) calls m).1
    (trace (file_call (json_persist D) (json_persist D) (json_persist D) (json_persist D)) calls o).1 ∧
  files_repr (trace (run_call file_api) calls m).2
    (trace (file_call (json_persist D) (json_persist D) (json_persist D) (json_persist D)) calls o).2.
Proof. apply trace_sim. intros q s t. apply file_step. Qed.
End whole.

(** ** At concrete values *)
Definition sample_calls : list call := [
  OnClusters (RCreate (Some (sample_cluster "c1")));
  OnClusters (RCreate (Some (sample_cluster "c1")));
  OnClusters (RGet "c1");
  OnMachines "c1" (RCreate (Some (sample_machine "c1-master-0")));
  OnMachines "c1" (RDelete "c1-master-0");
  OnMachines "c1" (RGet "c1-master-0");
  OnMachineSets "c1" (RCreate (Some (sample_machineset "pool")));
  OnMachineSets "c1" RList;
  OnMachineSets "c1" (RDelete "pool");
  OnCredentials RList
].

(** The process works in home, the container is elsewhere. *)
Lemma sample_home_plain : Forall plain (os_cwd (D := content)).
Proof. apply Forall_singleton. plains. Qed.

Lemma sample_home_away cl n : ¬ stray (D := content) [] cl n `prefix_of` ["store"] ∧ ¬ ["store"] `prefix_of` stray (D := content) [] cl n.
Proof. split; intros [k [=]]. Qed.

Lemma empty_tree_repr : files_repr (D := content) ["store"] [] empty_tree no_objects.
Proof.
  apply fresh_container; [by apply List.Forall_nil|apply empty_tree_wf|apply empty_tree_no_file| |].
  - intros q n [[E|E] _]%empty_tree_inv; [done|]. by injection E.
  - intros cl n. destruct (empty_tree !! _) as [x|] eqn:E; [|done].
    apply empty_tree_inv in E as [[E|E] _]; [done|]. by injection E.
Qed.

Lemma sample_dir_name : cluster_dir_name "c1".
Proof.
  split; [plains|]. intros n E. apply (f_equal String.length) in E. unfold json_file in E.
  rewrite append_length in E. simpl in E. lia.
Qed.

Lemma sample_calls_valid : Forall valid_call sample_calls.
Proof. pose proof sample_dir_name. repeat (apply Forall_cons_2; [done|]). by apply Forall_nil. Qed.

Lemma file_store_refines_witness :
  Forall2 reply_sim
    (trace (run_call (file_api (D := content) store_container [])) sample_calls empty_tree).1
    (trace (file_call (json_persist content) (json_persist content) (json_persist content)
       (json_persist content)) sample_calls no_objects).1 ∧
  files_repr (D := content) ["store"] []
    (trace (run_call (file_api store_container [])) sample_calls empty_tree).2
    (trace (file_call (json_persist content) (json_persist content) (json_persist content)
       (json_persist content)) sample_calls no_objects).2.
Proof.
  apply (file_store_refines store_container ["store"] [] (List.Forall_nil plain) sample_home_plain sample_home_away).
  - apply empty_tree_repr.
  - apply sample_calls_valid.
Defined.

(** One machine stored, then deleted. *)
Definition leak_calls : list call := [OnMachines "c1" (RCreate (Some (sample_machine "m")))].

Lemma leak_calls_valid : Forall valid_call leak_calls.
Proof. pose proof sample_dir_name. repeat (apply Forall_cons_2; [done|]). by apply Forall_nil. Qed.

Definition leak_tree : fs content :=
  (trace (run_call (file_api store_container [])) leak_calls empty_tree).2.
Definition leak_objects : objects :=
  (trace (file_call (json_persist content) (json_persist content) (json_persist content)
     (json_persist content)) leak_calls no_objects).2.

Lemma leak_repr : files_repr (D := content) ["store"] [] leak_tree leak_objects.
Proof.
  apply (trace_sim _ _ reply_sim (files_repr (D := content) ["store"] []) valid_call
    (λ q s t, file_step store_container ["store"] [] (List.Forall_nil plain) sample_home_plain sample_home_away s t q)).
  - apply empty_tree_repr.
  - apply leak_calls_valid.
Qed.

Lemma machine_delete_leaks_witness :
  ∃ e, MachineFileStore.Delete
    (FileStore.Machines (file_store store_container []) "c1") "m" leak_tree = (Err e, leak_tree).
Proof.
  apply (machine_delete_leaks store_container ["store"] [] (List.Forall_nil plain) sample_home_plain
    leak_tree leak_objects "c1" "m").
  - apply leak_repr.
  - apply sample_dir_name.
  - reflexivity.
Defined.
