(* ===== verification/KeyStores.v ===== *)
(** * Certificates and ssh keys in the file store

    Both stores keep an entry as two files of one directory (certificate and
    private key; public and private ssh key).  The lemmas on such pairs are
    shared; the theorems state what [Create], [Get] and [Delete] do on an entry
    that is absent, present or half present. *)
From stdpp Require Import base list gmap strings fin_maps.
From S2P Require Import Prelude GoStrings GoPath Stow Api StoreSpec VfsStore Samples VfsProofs.

(** What gomodules.xyz/cert promises: parsing undoes encoding. *)
Class PEMLaws (D Crt Key AnyKey : Type) `{!PEM D Crt Key AnyKey} : Prop := {
  pem_crt (c : Crt) : ParseCertsPEM (EncodeCertPEM c) = Ok [c];
  pem_key (k : Key) : ∃ a, ParsePrivateKeyPEM (EncodePrivateKeyPEM k) = Ok a ∧ as_rsa a = Some k
}.

(** ** Two files of one directory *)
Section pair.
Context {D : Type} `{!OS D} (c : container) (pcs : list string) `{!ContainerAt c pcs}.
Context (hs : list string) (k1 k2 : string).
Context (Hhs : hs ≠ []) (Hp : Forall plain hs) (H1 : plain k1) (H2 : plain k2) (Hk : k1 ≠ k2).
Implicit Types (m : fs D) (d : D).

Let f1 : list string := pcs ++ hs ++ [k1].
Let f2 : list string := pcs ++ hs ++ [k2].
Let id1 : string := Join "/" (hs ++ [k1]).
Let id2 : string := Join "/" (hs ++ [k2]).

(** A tree the pair's directory can be made in. *)
Definition roomy m : Prop := wf_fs m ∧ no_file_on m (pcs ++ hs).

Definition with_pair d1 d2 m : fs D := write_file (pcs ++ hs) k2 d2 (write_file (pcs ++ hs) k1 d1 m).

Lemma pair_plain k : plain k → Forall plain (hs ++ [k]).
Proof. intros. apply Forall_app. split; [done|]. by apply Forall_singleton. Qed.

Lemma pair_full_plain k : plain k → Forall plain (pcs ++ hs ++ [k]).
Proof. intros. apply Forall_app. split; [apply (ca_plain (c := c))|by apply pair_plain]. Qed.

Lemma pair_missing m k :
  roomy m → plain k → m !! (pcs ++ hs ++ [k]) = None →
  container_Item c (Join "/" (hs ++ [k])) m = (Err ErrNotFound, m).
Proof.
  intros [Hwf Hno] Hkp Hm. apply (Item_missing c pcs); [apply snoc_ne|by apply pair_plain|done|].
  rewrite app_assoc in Hm |- *. apply no_file_on_snoc; [done|]. intros d. congruence.
Qed.

Lemma pair_hit m k d :
  plain k → m !! (pcs ++ hs ++ [k]) = Some (File d) →
  container_Item c (Join "/" (hs ++ [k])) m = (Ok (Item (abs_path (pcs ++ hs ++ [k]))), m).
Proof. intros Hkp Hm. eapply (Item_file c pcs); [apply snoc_ne|by apply pair_plain|done]. Qed.

Lemma pair_open m k d :
  plain k → m !! (pcs ++ hs ++ [k]) = Some (File d) →
  item_Open (Item (abs_path (pcs ++ hs ++ [k]))) m = (Ok d, m).
Proof. intros Hkp Hm. eapply (Open_file c pcs); [by eexists|by apply pair_full_plain|done]. Qed.

Lemma pair_remove m k d :
  plain k → m !! (pcs ++ hs ++ [k]) = Some (File d) →
  RemoveItem c (abs_path (pcs ++ hs ++ [k])) m = (Ok (), delete (pcs ++ hs ++ [k]) m).
Proof. intros Hkp Hm. eapply (RemoveItem_file c pcs); [by eexists|by apply pair_full_plain|done]. Qed.

Lemma pair_put m k d :
  roomy m → plain k → m !! (pcs ++ hs ++ [k]) ≠ Some Dir →
  Put c (Join "/" (hs ++ [k])) d m =
    (Ok (Item (abs_path (pcs ++ hs ++ [k]))), write_file (pcs ++ hs) k d m) ∧
  roomy (write_file (pcs ++ hs) k d m).
Proof.
  intros [Hwf Hno] Hkp Hd. split; [by apply (Put_file c pcs); [apply pair_plain|..]|].
  split; [|by apply no_file_on_write].
  apply wf_write_file; [done|done|by rewrite <-app_assoc|].
  rewrite <-app_assoc. by apply pair_full_plain.
Qed.

Lemma pair_write_same m k d :
  write_file (pcs ++ hs) k d m !! (pcs ++ hs ++ [k]) = Some (File d).
Proof. rewrite app_assoc, lookup_write_file. by rewrite decide_True. Qed.

Lemma pair_write_other m k k' d :
  k ≠ k' → write_file (pcs ++ hs) k d m !! (pcs ++ hs ++ [k']) = m !! (pcs ++ hs ++ [k']).
Proof.
  intros Hne. rewrite app_assoc, lookup_write_file_other; [done| |apply snoc_not_prefix].
  intros [_ E]%app_inj_tail. by apply Hne.
Qed.

(** The pair is there once written. *)
Lemma with_pair_lookup d1 d2 m :
  with_pair d1 d2 m !! f1 = Some (File d1) ∧ with_pair d1 d2 m !! f2 = Some (File d2).
Proof.
  unfold with_pair, f1, f2. split; [|apply pair_write_same].
  rewrite pair_write_other by done. apply pair_write_same.
Qed.

(** Nothing outside the pair and the directories leading to it is touched. *)
Lemma with_pair_other d1 d2 m p :
  p ≠ f1 → p ≠ f2 → ¬ p `prefix_of` pcs ++ hs → with_pair d1 d2 m !! p = m !! p.
Proof.
  unfold f1, f2, with_pair. intros E1 E2 E3.
  rewrite !lookup_write_file_other; [done|by rewrite <-app_assoc|done|by rewrite <-app_assoc|done].
Qed.

Lemma with_pair_roomy d1 d2 m :
  roomy m → m !! f1 ≠ Some Dir → m !! f2 ≠ Some Dir → roomy (with_pair d1 d2 m).
Proof.
  unfold f1, f2. intros Hr E1 E2. destruct (pair_put m k1 d1 Hr H1 E1) as [_ Hr1].
  apply (pair_put _ k2 d2 Hr1 H2). by rewrite pair_write_other.
Qed.

Lemma roomy_delete m p d : roomy m → m !! p = Some (File d) → roomy (delete p m).
Proof.
  intros [Hwf Hno] Hm. split; [by eapply wf_delete_file|by apply no_file_on_delete].
Qed.

Lemma pair_differ : f1 ≠ f2.
Proof. unfold f1, f2. rewrite !app_assoc. intros [_ E]%app_inj_tail. by apply Hk. Qed.

Lemma roomy_without_pair m d1 d2 :
  roomy m → m !! f1 = Some (File d1) → m !! f2 = Some (File d2) →
  roomy (delete f2 (delete f1 m)).
Proof.
  intros Hr E1 E2. eapply roomy_delete; [by eapply roomy_delete|].
  rewrite lookup_delete_ne by apply pair_differ. done.
Qed.

(** The four calls of [Create]. *)
Lemma pair_create m d1 d2 (e1 e2 : error) (w1 w2 : error → error) :
  roomy m → m !! f1 = None → m !! f2 = None →
  (found ← attempt (container_Item c id1);
   match found with
   | inl _ => throw e1
   | inr _ =>
       _ ← on_err w1 (Put c id1 d1);
       found ← attempt (container_Item c id2);
       match found with
       | inl _ => throw e2
       | inr _ => _ ← on_err w2 (Put c id2 d2); mret ()
       end
   end) m = (Ok (), with_pair d1 d2 m).
Proof.
  unfold f1, f2, id1, id2. intros Hr E1 E2.
  erewrite bind_ok by (by eapply attempt_err, pair_missing).
  destruct (pair_put m k1 d1 Hr H1) as [Hput Hr1]; [congruence|].
  erewrite bind_ok by (by eapply on_err_ok).
  erewrite bind_ok.
  2:{ eapply attempt_err, pair_missing; [done..|]. by rewrite pair_write_other. }
  destruct (pair_put _ k2 d2 Hr1 H2) as [Hput2 _]; [rewrite pair_write_other by done; congruence|].
  by erewrite bind_ok by (by eapply on_err_ok).
Qed.

(** The first half is written before the second is found to exist. *)
Lemma pair_create_half m d1 d2 d (e1 e2 : error) (w1 w2 : error → error) :
  roomy m → m !! f1 = None → m !! f2 = Some (File d) →
  (found ← attempt (container_Item c id1);
   match found with
   | inl _ => throw e1
   | inr _ =>
       _ ← on_err w1 (Put c id1 d1);
       found ← attempt (container_Item c id2);
       match found with
       | inl _ => throw e2
       | inr _ => _ ← on_err w2 (Put c id2 d2); mret ()
       end
   end) m = (Err e2, write_file (pcs ++ hs) k1 d1 m).
Proof.
  unfold f1, f2, id1, id2. intros Hr E1 E2.
  erewrite bind_ok by (by eapply attempt_err, pair_missing).
  destruct (pair_put m k1 d1 Hr H1) as [Hput Hr1]; [congruence|].
  erewrite bind_ok by (by eapply on_err_ok).
  erewrite bind_ok; [|eapply attempt_ok, pair_hit; [done|by rewrite pair_write_other]]. done.
Qed.

(** The four calls of [Delete]. *)
Lemma pair_delete m d1 d2 (w1 w2 w3 w4 : error → error) :
  m !! f1 = Some (File d1) → m !! f2 = Some (File d2) →
  (i1 ← on_err w1 (container_Item c id1);
   _ ← on_err w2 (RemoveItem c (item_ID i1));
   i2 ← on_err w3 (container_Item c id2);
   on_err w4 (RemoveItem c (item_ID i2))) m = (Ok (), delete f2 (delete f1 m)).
Proof.
  unfold f1, f2, id1, id2. intros E1 E2.
  erewrite bind_ok by (by eapply on_err_ok, pair_hit).
  erewrite bind_ok by (by eapply on_err_ok, pair_remove).
  assert (E2' : (delete (pcs ++ hs ++ [k1]) m : fs D) !! (pcs ++ hs ++ [k2]) = Some (File d2)).
  { rewrite lookup_delete_ne; [done|]. rewrite !app_assoc. intros [_ E]%app_inj_tail. by apply Hk. }
  erewrite bind_ok by (by eapply on_err_ok, pair_hit).
  by eapply on_err_ok, pair_remove.
Qed.
End pair.

(** ** Certificates: [clusters/<cluster>/pki/<name>.crt] and [.key] *)
Lemma Join_snoc_ext (ds : list string) k ext :
  Join "/" (ds ++ [k]) +:+ ext = Join "/" (ds ++ [k +:+ ext]).
Proof.
  destruct ds as [|x ds]; [done|]. rewrite !Join_app by done. simpl Join at 2 4.
  by rewrite !append_assoc.
Qed.

Lemma Join_plain_ne (ds : list string) : ds ≠ [] → Forall plain ds → Join "/" ds ≠ "".
Proof.
  intros Hne Hp. destruct ds as [|x ds]; [done|].
  destruct (Join_plain_cons x ds Hp) as (a & s & ->). done.
Qed.

Lemma ext_differ k a b : a ≠ b → String.length a = String.length b → k +:+ a ≠ k +:+ b.
Proof. intros Hne Hl E. by apply Hne, (inj (String.append k)). Qed.

Section certificates.
Context {D Crt Key AnyKey : Type} `{!OS D, !PEM D Crt Key AnyKey, !PEMLaws D Crt Key AnyKey}.
Context (c : container) (pcs pre : list string) `{!ContainerAt c pcs} (Hpre : Forall plain pre).
Context (cl : string) (Hcl : plain cl) (ds : list string) (k : string) (Hdk : Forall plain (ds ++ [k])).
Implicit Types (m : fs D) (crt : Crt) (key : Key).

Definition cert_store : CertificateFileStore.t := CertificateFileStore.Make c (Join "/" pre) cl.

(** The certificate's name, such as [ca] or [etcd/ca], and its directory. *)
Definition cert_name : string := Join "/" (ds ++ [k]).
Definition cert_dir : list string := (pre ++ ["clusters"; cl; "pki"]) ++ ds.
Definition crt_file : list string := pcs ++ cert_dir ++ [k +:+ ".crt"].
Definition key_file : list string := pcs ++ cert_dir ++ [k +:+ ".key"].

Lemma k_no_slash : has_byte slash k = false.
Proof. apply Forall_app in Hdk as [_ Hk]. inversion Hk. by apply plain_no_slash. Qed.

Lemma k_ext_plain ext : has_byte slash ext = false → 3 ≤ String.length ext → plain (k +:+ ext).
Proof. intros. apply plain_ext; [apply k_no_slash|done|done]. Qed.

Lemma cert_dir_plain : Forall plain cert_dir.
Proof.
  apply Forall_app in Hdk as [Hds _]. apply Forall_app. split; [|done].
  apply Forall_app. split; [done|plains].
Qed.

Lemma cert_dir_ne : cert_dir ≠ [].
Proof. unfold cert_dir. by destruct pre. Qed.

Lemma cert_home :
  CertificateFileStore.resourceHome cert_store = Join "/" (pre ++ ["clusters"; cl; "pki"]).
Proof. apply PathJoin_prefix; [done|done|plains]. Qed.

Lemma cert_id ext :
  has_byte slash ext = false → 3 ≤ String.length ext →
  PathJoin [CertificateFileStore.resourceHome cert_store; cert_name +:+ ext] =
  Join "/" (cert_dir ++ [k +:+ ext]).
Proof.
  intros He Hl. unfold cert_name. rewrite cert_home, Join_snoc_ext. unfold cert_dir.
  rewrite <-app_assoc.
  apply PathJoin_two; [by destruct pre|apply snoc_ne|apply Forall_app; split; [done|plains]|].
  apply Forall_app. split; [by apply Forall_app in Hdk as [? _]|].
  by apply Forall_singleton, k_ext_plain.
Qed.

Lemma cert_name_ne : cert_name ≠ "".
Proof. by apply Join_plain_ne; [apply snoc_ne|]. Qed.

Let p1 : plain (k +:+ ".crt").
Proof. by apply k_ext_plain; [|simpl; lia]. Qed.
Let p2 : plain (k +:+ ".key").
Proof. by apply k_ext_plain; [|simpl; lia]. Qed.
Let pk : k +:+ ".crt" ≠ k +:+ ".key".
Proof. by apply ext_differ. Qed.

Lemma cluster_given : bool_decide (CertificateFileStore.cluster cert_store = "") = false.
Proof. apply bool_decide_eq_false. by destruct Hcl. Qed.

Definition with_cert crt key m : fs D :=
  with_pair pcs cert_dir (k +:+ ".crt") (k +:+ ".key") (EncodeCertPEM crt) (EncodePrivateKeyPEM key) m.

Ltac cert_ids :=
  unfold CertificateFileStore.certID, CertificateFileStore.keyID;
  rewrite !cert_id by (done || (simpl; lia)).

Lemma cert_Create_new m crt key :
  roomy pcs cert_dir m → m !! crt_file = None → m !! key_file = None →
  CertificateFileStore.Create cert_store cert_name (Some crt) (Some key) m =
  (Ok (), with_cert crt key m).
Proof.
  intros Hr E1 E2. unfold CertificateFileStore.Create. cert_ids.
  rewrite (err_if_false (bool_decide (CertificateFileStore.cluster _ = ""))) by apply cluster_given.
  by apply (pair_create c pcs cert_dir (k +:+ ".crt") (k +:+ ".key")); auto using cert_dir_plain.
Qed.

Lemma cert_Get_present m crt key :
  m !! crt_file = Some (File (EncodeCertPEM crt)) →
  m !! key_file = Some (File (EncodePrivateKeyPEM key)) →
  CertificateFileStore.Get cert_store cert_name m = (Ok (crt, key), m).
Proof.
  intros E1 E2. unfold CertificateFileStore.Get. cert_ids.
  rewrite (err_if_false (bool_decide (CertificateFileStore.cluster _ = ""))) by apply cluster_given.
  rewrite err_if_false by apply bool_decide_eq_false, cert_name_ne.
  pose proof cert_dir_plain.
  erewrite bind_ok by (eapply on_err_ok, (pair_hit c pcs cert_dir); done).
  erewrite bind_ok by (eapply (pair_open c pcs cert_dir); done).
  erewrite bind_ok by (unfold lift; by rewrite pem_crt).
  erewrite bind_ok by (eapply on_err_ok, (pair_hit c pcs cert_dir); done).
  erewrite bind_ok by (eapply (pair_open c pcs cert_dir); done).
  destruct (pem_key (D := D) key) as (a & Ha & Hk).
  erewrite bind_ok by (unfold lift; by rewrite Ha).
  by rewrite Hk.
Qed.

Lemma cert_Get_missing m :
  roomy pcs cert_dir m → m !! crt_file = None →
  ∃ e, CertificateFileStore.Get cert_store cert_name m = (Err e, m).
Proof.
  intros Hr E1. unfold CertificateFileStore.Get. cert_ids.
  rewrite (err_if_false (bool_decide (CertificateFileStore.cluster _ = ""))) by apply cluster_given.
  rewrite err_if_false by apply bool_decide_eq_false, cert_name_ne. eexists.
  by erewrite bind_err
    by (eapply on_err_err, (pair_missing c pcs cert_dir); auto using cert_dir_plain).
Qed.

Lemma cert_Create_again m crt key d :
  m !! crt_file = Some (File d) →
  ∃ e, CertificateFileStore.Create cert_store cert_name (Some crt) (Some key) m = (Err e, m).
Proof.
  intros E1. unfold CertificateFileStore.Create. cert_ids.
  rewrite (err_if_false (bool_decide (CertificateFileStore.cluster _ = ""))) by apply cluster_given.
  pose proof cert_dir_plain. eexists.
  by erewrite bind_ok by (eapply attempt_ok, (pair_hit c pcs cert_dir); done).
Qed.

Lemma cert_Delete_present m d1 d2 :
  m !! crt_file = Some (File d1) → m !! key_file = Some (File d2) →
  CertificateFileStore.Delete cert_store cert_name m =
  (Ok (), delete key_file (delete crt_file m)).
Proof.
  intros E1 E2. unfold CertificateFileStore.Delete. cert_ids.
  rewrite (err_if_false (bool_decide (CertificateFileStore.cluster _ = ""))) by apply cluster_given.
  rewrite err_if_false by apply bool_decide_eq_false, cert_name_ne.
  eapply (pair_delete c pcs cert_dir (k +:+ ".crt") (k +:+ ".key"));
    eauto using cert_dir_plain.
Qed.

Lemma cert_Create_orphan m crt key d :
  roomy pcs cert_dir m → m !! crt_file = None → m !! key_file = Some (File d) →
  CertificateFileStore.Create cert_store cert_name (Some crt) (Some key) m =
  (Err ("certificate `" +:+ cert_name +:+ ".key` already exists. Reason: <nil>"),
   write_file (pcs ++ cert_dir) (k +:+ ".crt") (EncodeCertPEM crt) m).
Proof.
  intros Hr E1 E2. unfold CertificateFileStore.Create. cert_ids.
  rewrite (err_if_false (bool_decide (CertificateFileStore.cluster _ = ""))) by apply cluster_given.
  by eapply (pair_create_half c pcs cert_dir (k +:+ ".crt") (k +:+ ".key"));
    eauto using cert_dir_plain.
Qed.

(** [C9] An entry's life: it is created, read back as it was written, protected from
    being overwritten, and deleted; nothing else in the tree changes. *)
Theorem cert_lifecycle m crt key :
  roomy pcs cert_dir m → m !! crt_file = None → m !! key_file = None →
  let m1 := with_cert crt key m in
  let m2 := delete key_file (delete crt_file m1) in
  CertificateFileStore.Create cert_store cert_name (Some crt) (Some key) m = (Ok (), m1) ∧
  CertificateFileStore.Get cert_store cert_name m1 = (Ok (crt, key), m1) ∧
  (∀ crt' key', ∃ e,
    CertificateFileStore.Create cert_store cert_name (Some crt') (Some key') m1 = (Err e, m1)) ∧
  (∀ p, p ≠ crt_file → p ≠ key_file → ¬ p `prefix_of` pcs ++ cert_dir → m1 !! p = m !! p) ∧
  CertificateFileStore.Delete cert_store cert_name m1 = (Ok (), m2) ∧
  (∃ e, CertificateFileStore.Get cert_store cert_name m2 = (Err e, m2)).
Proof.
  intros Hr E1 E2 m1 m2. pose proof cert_dir_plain as Hd.
  destruct (with_pair_lookup pcs cert_dir (k +:+ ".crt") (k +:+ ".key") pk
    (EncodeCertPEM crt) (EncodePrivateKeyPEM key) m) as [L1 L2].
  split_and!.
  - by apply cert_Create_new.
  - by apply cert_Get_present.
  - intros crt' key'. by eapply cert_Create_again.
  - intros p. by apply with_pair_other.
  - by eapply cert_Delete_present.
  - apply cert_Get_missing.
    + eapply (roomy_without_pair pcs cert_dir (k +:+ ".crt") (k +:+ ".key")); [done| |done..].
      apply (with_pair_roomy c pcs cert_dir (k +:+ ".crt") (k +:+ ".key")); unfold crt_file, key_file in *; congruence || done.
    + unfold m2. rewrite lookup_delete_ne, lookup_delete_eq; [done|].
      symmetry. apply (pair_differ pcs cert_dir (k +:+ ".crt") (k +:+ ".key")), pk.
Qed.

End certificates.

(** ** ssh keys: [clusters/<cluster>/ssh/id_<name>.pub] and [id_<name>] *)
Section ssh.
Context {D : Type} `{!OS D, !Blob D}.
Context (c : container) (pcs pre : list string) `{!ContainerAt c pcs} (Hpre : Forall plain pre).
Context (cl : string) (Hcl : plain cl) (name : string) (Hname : path_name name) (Hne : name ≠ "").
Implicit Types (m : fs D) (pub priv : string).

Definition ssh_store : SSHKeyFileStore.t := SSHKeyFileStore.Make c (Join "/" pre) cl.
Definition ssh_dir : list string := pre ++ ["clusters"; cl; "ssh"].
Definition pub_name : string := "id_" +:+ name +:+ ".pub".
Definition priv_name : string := "id_" +:+ name.
Definition pub_file : list string := pcs ++ ssh_dir ++ [pub_name].
Definition priv_file : list string := pcs ++ ssh_dir ++ [priv_name].

Lemma ssh_dir_plain : Forall plain ssh_dir.
Proof. apply Forall_app. split; [done|plains]. Qed.

Lemma ssh_dir_ne : ssh_dir ≠ [].
Proof. unfold ssh_dir. by destruct pre. Qed.

Let p1 : plain pub_name.
Proof.
  unfold pub_name. apply plain_long; [by rewrite !has_byte_app, Hname|].
  rewrite !append_length. simpl. lia.
Qed.
Let p2 : plain priv_name.
Proof.
  unfold priv_name. apply plain_long; [by rewrite has_byte_app, Hname|].
  rewrite append_length. simpl. lia.
Qed.
Let pk : pub_name ≠ priv_name.
Proof.
  unfold pub_name, priv_name. intros E. apply (f_equal String.length) in E.
  rewrite !append_length in E. simpl in E. lia.
Qed.

Lemma ssh_home : SSHKeyFileStore.resourceHome ssh_store = Join "/" ssh_dir.
Proof. apply PathJoin_prefix; [done|done|plains]. Qed.

Lemma ssh_id x : plain x → PathJoin [Join "/" ssh_dir; x] = Join "/" (ssh_dir ++ [x]).
Proof.
  intros Hx. apply PathJoin_prefix; [done|apply ssh_dir_plain|by apply Forall_singleton].
Qed.

Lemma pub_id : SSHKeyFileStore.pubKeyID ssh_store name = Join "/" (ssh_dir ++ [pub_name]).
Proof. unfold SSHKeyFileStore.pubKeyID. rewrite ssh_home. by apply ssh_id. Qed.

Lemma priv_id : SSHKeyFileStore.privKeyID ssh_store name = Join "/" (ssh_dir ++ [priv_name]).
Proof. unfold SSHKeyFileStore.privKeyID. rewrite ssh_home. by apply ssh_id. Qed.

Lemma ssh_cluster_given : bool_decide (SSHKeyFileStore.cluster ssh_store = "") = false.
Proof. apply bool_decide_eq_false. by destruct Hcl. Qed.

Definition with_ssh_key pub priv m : fs D :=
  with_pair pcs ssh_dir pub_name priv_name (blob_of pub) (blob_of priv) m.

Ltac guards := first [by apply ssh_cluster_given | by apply bool_decide_eq_false].

(** The ssh key pair [name] is created, read back as written, protected from
    being overwritten, and deleted; nothing else in the tree changes. *)
Theorem ssh_key_lifecycle m pub priv :
  pub ≠ "" → priv ≠ "" →
  roomy pcs ssh_dir m → m !! pub_file = None → m !! priv_file = None →
  let m1 := with_ssh_key pub priv m in
  let m2 := delete priv_file (delete pub_file m1) in
  SSHKeyFileStore.Create ssh_store name pub priv m = (Ok (), m1) ∧
  SSHKeyFileStore.Get ssh_store name m1 = (Ok (pub, priv), m1) ∧
  (∀ pub' priv', ∃ e, SSHKeyFileStore.Create ssh_store name pub' priv' m1 = (Err e, m1)) ∧
  (∀ p, p ≠ pub_file → p ≠ priv_file → ¬ p `prefix_of` pcs ++ ssh_dir → m1 !! p = m !! p) ∧
  SSHKeyFileStore.Delete ssh_store name m1 = (Ok (), m2) ∧
  (∃ e, SSHKeyFileStore.Get ssh_store name m2 = (Err e, m2)).
Proof.
  intros Hpub Hpriv Hr E1 E2 m1 m2. pose proof ssh_dir_plain as Hd.
  destruct (with_pair_lookup pcs ssh_dir pub_name priv_name pk (blob_of pub) (blob_of priv) m)
    as [L1 L2].
  unfold SSHKeyFileStore.Create, SSHKeyFileStore.Get, SSHKeyFileStore.Delete.
  rewrite pub_id, priv_id.
  split_and!.
  - rewrite !err_if_false by guards.
    by apply (pair_create c pcs ssh_dir pub_name priv_name).
  - rewrite !err_if_false by guards.
    erewrite bind_ok by (eapply on_err_ok, (pair_hit c pcs ssh_dir); done).
    erewrite bind_ok by (eapply (pair_open c pcs ssh_dir); done).
    erewrite bind_ok by (eapply on_err_ok, (pair_hit c pcs ssh_dir); done).
    erewrite bind_ok by (eapply (pair_open c pcs ssh_dir); done).
    by rewrite !blob_str_of.
  - intros pub' priv'. rewrite err_if_false by guards.
    destruct (decide (pub' = "")) as [->|Hpub']; [by eexists|].
    rewrite err_if_false by guards.
    destruct (decide (priv' = "")) as [->|Hpriv']; [by eexists|].
    rewrite err_if_false by guards. eexists.
    by erewrite bind_ok by (eapply attempt_ok, (pair_hit c pcs ssh_dir); done).
  - intros p. by apply with_pair_other.
  - rewrite !err_if_false by guards.
    by eapply (pair_delete c pcs ssh_dir pub_name priv_name).
  - rewrite !err_if_false by guards.
    eexists. erewrite bind_err; [done|]. eapply on_err_err, (pair_missing c pcs ssh_dir); [done| |done|].
    + eapply (roomy_without_pair pcs ssh_dir pub_name priv_name); [done| |done..].
      apply (with_pair_roomy c pcs ssh_dir pub_name priv_name); unfold pub_file, priv_file in *; congruence || done.
    + unfold m2. rewrite lookup_delete_ne, lookup_delete_eq; [done|].
      symmetry. apply (pair_differ pcs ssh_dir pub_name priv_name), pk.
Qed.
End ssh.

(** ** At concrete values *)
#[export] Instance content_pem_laws : PEMLaws content Z Z Z.
Proof. split; [done|]. intros k. by exists k. Qed.

Lemma empty_tree_roomy hs : roomy ["store"] hs empty_tree.
Proof. split; [apply empty_tree_wf|apply empty_tree_no_file]. Qed.

(** The etcd CA of a new cluster. *)
Lemma cert_lifecycle_witness :
  let s := cert_store store_container [] "c1" in
  let n := cert_name ["etcd"] "ca" in
  let m1 := with_cert ["store"] [] "c1" ["etcd"] "ca" 7%Z 8%Z empty_tree in
  let m2 := delete (key_file ["store"] [] "c1" ["etcd"] "ca")
              (delete (crt_file ["store"] [] "c1" ["etcd"] "ca") m1) in
  CertificateFileStore.Create s n (Some 7%Z) (Some 8%Z) empty_tree = (Ok (), m1) ∧
  CertificateFileStore.Get s n m1 = (Ok (7%Z, 8%Z), m1) ∧
  (∀ crt' key', ∃ e, CertificateFileStore.Create s n (Some crt') (Some key') m1 = (Err e, m1)) ∧
  (∀ p, p ≠ crt_file ["store"] [] "c1" ["etcd"] "ca" →
        p ≠ key_file ["store"] [] "c1" ["etcd"] "ca" →
        ¬ p `prefix_of` ["store"] ++ cert_dir [] "c1" ["etcd"] → m1 !! p = empty_tree !! p) ∧
  CertificateFileStore.Delete s n m1 = (Ok (), m2) ∧
  (∃ e, CertificateFileStore.Get s n m2 = (Err e, m2)).
Proof.
  apply (cert_lifecycle store_container ["store"] [] (List.Forall_nil plain) "c1" ltac:(plains)
    ["etcd"] "ca" ltac:(plains) empty_tree 7%Z 8%Z).
  - apply empty_tree_roomy.
  - reflexivity.
  - reflexivity.
Defined.

Lemma ssh_key_lifecycle_witness :
  let s := ssh_store store_container [] "c1" in
  let m1 := with_ssh_key ["store"] [] "c1" "c1-sshkey" "pub" "priv" empty_tree in
  let m2 := delete (priv_file ["store"] [] "c1" "c1-sshkey")
              (delete (pub_file ["store"] [] "c1" "c1-sshkey") m1) in
  SSHKeyFileStore.Create s "c1-sshkey" "pub" "priv" empty_tree = (Ok (), m1) ∧
  SSHKeyFileStore.Get s "c1-sshkey" m1 = (Ok ("pub", "priv"), m1) ∧
  (∀ pub' priv', ∃ e, SSHKeyFileStore.Create s "c1-sshkey" pub' priv' m1 = (Err e, m1)) ∧
  (∀ p, p ≠ pub_file ["store"] [] "c1" "c1-sshkey" →
        p ≠ priv_file ["store"] [] "c1" "c1-sshkey" →
        ¬ p `prefix_of` ["store"] ++ ssh_dir [] "c1" → m1 !! p = empty_tree !! p) ∧
  SSHKeyFileStore.Delete s "c1-sshkey" m1 = (Ok (), m2) ∧
  (∃ e, SSHKeyFileStore.Get s "c1-sshkey" m2 = (Err e, m2)).
Proof.
  apply (ssh_key_lifecycle store_container ["store"] [] (List.Forall_nil plain) "c1" ltac:(plains)
    "c1-sshkey" eq_refl ltac:(discriminate) empty_tree "pub" "priv").
  - discriminate.
  - discriminate.
  - apply empty_tree_roomy.
  - reflexivity.
  - reflexivity.
Defined.
