(* ===== verification/FakeStore.v ===== *)
(** * The in-memory store (store/providers/fake)

    The fake store keeps the pointers its callers hand it: a [Create] or an
    [Update] files the caller's own object, a [Get] or a [List] hands the stored
    pointer out.  The model therefore has a heap: a [heap] is the objects of one
    store by address, and the store's [container] map from resource ids to
    addresses.  Methods take and return addresses ([None] is the nil pointer);
    [AssignTypeKind] and the status update write through them.

    The methods run under the store's mutex, so one call is one step; the order
    in which [range] visits a map is the parameter [range_keys]. *)
From stdpp Require Import base list gmap strings fin_maps.
From S2P Require Import Prelude GoStrings GoPath Api StoreSpec.

(** ** Memory *)
Definition addr := positive.

Record heap (O : Type) := Heap { objs : gmap addr O; table : gmap string addr }.
Arguments Heap {_}. Arguments objs {_}. Arguments table {_}.

Definition empty_heap {O} : heap O := Heap ∅ ∅.

Class RangeOrder := {
  range_keys : ∀ {A}, gmap string A → list string;
  range_keys_perm A (t : gmap string A) : range_keys t ≡ₚ (map_to_list t).*1
}.

Section memory.
Context {O : Type}.

(** [*p], [*p = o], [&o] for a fresh object. *)
Definition deref (p : addr) : GoM (heap O) O := λ h,
  match objs h !! p with
  | Some o => (Ok o, h)
  | None => (Panic "invalid memory address or nil pointer dereference", h)
  end.

Definition write (p : addr) (o : O) : GoM (heap O) () := λ h,
  (Ok (), Heap (<[p := o]> (objs h)) (table h)).

Definition alloc (o : O) : GoM (heap O) addr := λ h,
  let p := fresh (dom (objs h)) in (Ok p, Heap (<[p := o]> (objs h)) (table h)).

(** [s.container[id]], [s.container[id] = p], [delete(s.container, id)]. *)
Definition container_get (id : string) : GoM (heap O) (option addr) := λ h,
  (Ok (table h !! id), h).

Definition container_set (id : string) (p : addr) : GoM (heap O) () := λ h,
  (Ok (), Heap (objs h) (<[id := p]> (table h))).

Definition container_delete (id : string) : GoM (heap O) () := λ h,
  (Ok (), Heap (objs h) (delete id (table h))).

(** [err := api.AssignTypeKind(obj)]: the kind and version are written through
    the pointer. *)
Definition AssignTypeKind_at `{!Resource O} (p : addr) : GoM (heap O) () :=
  o ← deref p;
  _ ← lift (AssignTypeKind (res_object o));
  write p (res_assign o).

(** [for k := range s.container { result = append(result, s.container[k]) }] *)
Definition range_container `{!RangeOrder} : GoM (heap O) (list addr) := λ h,
  (Ok (omap (table h !!.) (range_keys (table h))), h).
End memory.

(** ** cluster.go *)
Module FakeClusterStore.
Record t := Make { }.

Section methods.
Context `{!RangeOrder}.
Implicit Types (s : t).

Definition resourceHome s : string := "clusters".

Definition resourceID s (name : string) : string :=
  PathJoin [resourceHome s; name +:+ ".json"].

Definition List s : GoM (heap Cluster) (list addr) := range_container.

Definition Get s (name : string) : GoM (heap Cluster) addr :=
  _ ← err_if (bool_decide (name = "")) "missing cluster name";
  found ← container_get (resourceID s name);
  match found with
  | None => throw ("cluster `" +:+ name +:+ "` does not exist")
  | Some p => mret p
  end.

Definition Create s (obj : option addr) : GoM (heap Cluster) addr :=
  match obj with
  | None => throw "missing cluster"
  | Some p =>
      o ← deref p;
      _ ← err_if (bool_decide (res_name o = "")) "missing cluster name";
      _ ← AssignTypeKind_at p;
      let id := resourceID s (res_name o) in
      found ← container_get id;
      match found with
      | Some _ => throw ("cluster `" +:+ res_name o +:+ "` already exists")
      | None => _ ← container_set id p; mret p
      end
  end.

Definition Update s (obj : option addr) : GoM (heap Cluster) addr :=
  match obj with
  | None => throw "missing cluster"
  | Some p =>
      o ← deref p;
      _ ← err_if (bool_decide (res_name o = "")) "missing cluster name";
      _ ← AssignTypeKind_at p;
      let id := resourceID s (res_name o) in
      found ← container_get id;
      match found with
      | None => throw ("cluster `" +:+ res_name o +:+ "` does not exist")
      | Some _ => _ ← container_set id p; mret p
      end
  end.

Definition Delete s (name : string) : GoM (heap Cluster) () :=
  _ ← err_if (bool_decide (name = "")) "missing cluster name";
  found ← container_get (resourceID s name);
  match found with
  | None => throw "cluster not found"
  | Some _ => container_delete (resourceID s name)
  end.

Definition UpdateStatus s (obj : option addr) : GoM (heap Cluster) addr :=
  match obj with
  | None => throw "missing cluster"
  | Some p =>
      o ← deref p;
      _ ← err_if (bool_decide (res_name o = "")) "missing cluster name";
      _ ← AssignTypeKind_at p;
      let id := resourceID s (res_name o) in
      found ← container_get id;
      match found with
      | None => throw ("cluster `" +:+ res_name o +:+ "` does not exist")
      | Some existing =>
          o ← deref p;
          ex ← deref existing;
          _ ← write existing (res_set_status ex o);
          _ ← container_set id existing;
          mret existing
      end
  end.

Definition UpdateUUID s (obj : option addr) (uuid : string) : GoM (heap Cluster) addr :=
  match obj with
  | None => throw "missing cluster"
  | Some p =>
      o ← deref p;
      _ ← err_if (bool_decide (res_name o = "")) "missing cluster name";
      _ ← AssignTypeKind_at p;
      let id := resourceID s (res_name o) in
      found ← container_get id;
      match found with
      | None => throw ("cluster `" +:+ res_name o +:+ "` does not exist")
      | Some _ => mret p
      end
  end.
End methods.
End FakeClusterStore.

(** ** credential.go *)
Module FakeCredentialStore.
Record t := Make { }.

Section methods.
Context `{!RangeOrder}.
Implicit Types (s : t).

Definition resourceHome s : string := "credentials".

Definition resourceID s (name : string) : string :=
  PathJoin [resourceHome s; name +:+ ".json"].

Definition List s : GoM (heap Credential) (list addr) := range_container.

Definition Get s (name : string) : GoM (heap Credential) addr :=
  _ ← err_if (bool_decide (name = "")) "missing credential name";
  found ← container_get (resourceID s name);
  match found with
  | None => throw ("credential `" +:+ name +:+ "` does not exist")
  | Some p => mret p
  end.

Definition Create s (obj : option addr) : GoM (heap Credential) addr :=
  match obj with
  | None => throw "missing credential"
  | Some p =>
      o ← deref p;
      _ ← err_if (bool_decide (res_name o = "")) "missing credential name";
      _ ← AssignTypeKind_at p;
      let id := resourceID s (res_name o) in
      found ← container_get id;
      match found with
      | Some _ => throw ("credential `" +:+ res_name o +:+ "` already exists")
      | None => _ ← container_set id p; mret p
      end
  end.

Definition Update s (obj : option addr) : GoM (heap Credential) addr :=
  match obj with
  | None => throw "missing credential"
  | Some p =>
      o ← deref p;
      _ ← err_if (bool_decide (res_name o = "")) "missing credential name";
      _ ← AssignTypeKind_at p;
      let id := resourceID s (res_name o) in
      found ← container_get id;
      match found with
      | None => throw ("credential `" +:+ res_name o +:+ "` does not exist")
      | Some _ => _ ← container_set id p; mret p
      end
  end.

Definition Delete s (name : string) : GoM (heap Credential) () :=
  _ ← err_if (bool_decide (name = "")) "missing credential name";
  found ← container_get (resourceID s name);
  match found with
  | None => throw "credential not found"
  | Some _ => container_delete (resourceID s name)
  end.
End methods.
End FakeCredentialStore.

(** ** machine.go *)
Module FakeMachineStore.
Record t := Make { cluster : string }.

Section methods.
Context `{!RangeOrder}.
Implicit Types (s : t).

Definition resourceHome s : string := PathJoin ["clusters"; cluster s; "nodeGroups"].

Definition resourceID s (name : string) : string :=
  PathJoin [resourceHome s; name +:+ ".json"].

Definition List s : GoM (heap Machine) (list addr) := range_container.

Definition Get s (name : string) : GoM (heap Machine) addr :=
  _ ← err_if (bool_decide (cluster s = "")) "missing cluster name";
  _ ← err_if (bool_decide (name = "")) "missing node group name";
  found ← container_get (resourceID s name);
  match found with
  | None => throw ("NodeGroup `" +:+ name +:+ "` does not exist")
  | Some p => mret p
  end.

Definition Create s (obj : option addr) : GoM (heap Machine) addr :=
  _ ← err_if (bool_decide (cluster s = "")) "missing cluster name";
  match obj with
  | None => throw "missing node group"
  | Some p =>
      o ← deref p;
      _ ← err_if (bool_decide (res_name o = "")) "missing node group name";
      _ ← AssignTypeKind_at p;
      let id := resourceID s (res_name o) in
      found ← container_get id;
      match found with
      | Some _ => throw ("NodeGroup `" +:+ res_name o +:+ "` already exists")
      | None => _ ← container_set id p; mret p
      end
  end.

Definition Update s (obj : option addr) : GoM (heap Machine) addr :=
  _ ← err_if (bool_decide (cluster s = "")) "missing cluster name";
  match obj with
  | None => throw "missing node group"
  | Some p =>
      o ← deref p;
      _ ← err_if (bool_decide (res_name o = "")) "missing node group name";
      _ ← AssignTypeKind_at p;
      let id := resourceID s (res_name o) in
      _ ← container_set id p; mret p
  end.

Definition Delete s (name : string) : GoM (heap Machine) () :=
  _ ← err_if (bool_decide (cluster s = "")) "missing cluster name";
  _ ← err_if (bool_decide (name = "")) "missing node group name";
  found ← container_get (resourceID s name);
  match found with
  | None => throw ("machine " +:+ name +:+ " not found")
  | Some _ => container_delete (resourceID s name)
  end.

Definition UpdateStatus s (obj : option addr) : GoM (heap Machine) addr :=
  _ ← err_if (bool_decide (cluster s = "")) "missing cluster name";
  match obj with
  | None => throw "missing node group"
  | Some p =>
      o ← deref p;
      _ ← err_if (bool_decide (res_name o = "")) "missing node group name";
      _ ← AssignTypeKind_at p;
      let id := resourceID s (res_name o) in
      found ← container_get id;
      match found with
      | None => throw ("NodeGroup `" +:+ res_name o +:+ "` does not exist")
      | Some existing =>
          o ← deref p;
          ex ← deref existing;
          _ ← write existing (res_set_status ex o);
          _ ← container_set id existing;
          mret existing
      end
  end.
End methods.
End FakeMachineStore.

(** ** machineset.go *)
Module FakeMachineSetStore.
Record t := Make { cluster : string }.

Section methods.
Context `{!RangeOrder}.
Implicit Types (s : t).

Definition resourceHome s : string := PathJoin ["clusters"; cluster s; "machineset"].

Definition resourceID s (name : string) : string :=
  PathJoin [resourceHome s; name +:+ ".json"].

Definition List s : GoM (heap MachineSet) (list addr) := range_container.

Definition Get s (name : string) : GoM (heap MachineSet) addr :=
  _ ← err_if (bool_decide (cluster s = "")) "missing cluster name";
  _ ← err_if (bool_decide (name = "")) "missing node group name";
  found ← container_get (resourceID s name);
  match found with
  | None => throw ("NodeGroup `" +:+ name +:+ "` does not exist")
  | Some p => mret p
  end.

Definition Create s (obj : option addr) : GoM (heap MachineSet) addr :=
  _ ← err_if (bool_decide (cluster s = "")) "missing cluster name";
  match obj with
  | None => throw "missing node group"
  | Some p =>
      o ← deref p;
      _ ← err_if (bool_decide (res_name o = "")) "missing node group name";
      _ ← AssignTypeKind_at p;
      let id := resourceID s (res_name o) in
      found ← container_get id;
      match found with
      | Some _ => throw ("NodeGroup `" +:+ res_name o +:+ "` already exists")
      | None => _ ← container_set id p; mret p
      end
  end.

Definition Update s (obj : option addr) : GoM (heap MachineSet) addr :=
  _ ← err_if (bool_decide (cluster s = "")) "missing cluster name";
  match obj with
  | None => throw "missing node group"
  | Some p =>
      o ← deref p;
      _ ← err_if (bool_decide (res_name o = "")) "missing node group name";
      _ ← AssignTypeKind_at p;
      let id := resourceID s (res_name o) in
      _ ← container_set id p; mret p
  end.

Definition Delete s (name : string) : GoM (heap MachineSet) () :=
  _ ← err_if (bool_decide (cluster s = "")) "missing cluster name";
  _ ← err_if (bool_decide (name = "")) "missing node group name";
  found ← container_get (resourceID s name);
  match found with
  | None => throw "machineset item not found"
  | Some _ => container_delete (resourceID s name)
  end.

Definition UpdateStatus s (obj : option addr) : GoM (heap MachineSet) addr :=
  _ ← err_if (bool_decide (cluster s = "")) "missing cluster name";
  match obj with
  | None => throw "missing node group"
  | Some p =>
      o ← deref p;
      _ ← err_if (bool_decide (res_name o = "")) "missing node group name";
      _ ← AssignTypeKind_at p;
      let id := resourceID s (res_name o) in
      found ← container_get id;
      match found with
      | None => throw ("NodeGroup `" +:+ res_name o +:+ "` does not exist")
      | Some existing =>
          o ← deref p;
          ex ← deref existing;
          _ ← write existing (res_set_status ex o);
          _ ← container_set id existing;
          mret existing
      end
  end.
End methods.
End FakeMachineSetStore.

(** ** certificate.go *)
Module FakeCertificateStore.
Record t (Crt Key : Type) := Make {
  certs : gmap string Crt; keys : gmap string Key; cluster : string
}.
Arguments Make {_ _}. Arguments certs {_ _}. Arguments keys {_ _}. Arguments cluster {_ _}.

Section methods.
Context {Crt Key : Type}.
Implicit Types (s : t Crt Key).

Definition resourceHome s : string := PathJoin ["clusters"; cluster s; "pki"].
Definition certID s (name : string) : string := PathJoin [resourceHome s; name +:+ ".crt"].
Definition keyID s (name : string) : string := PathJoin [resourceHome s; name +:+ ".key"].

Definition Get (name : string) : GoM (t Crt Key) (Crt * Key) := λ s,
  if decide (cluster s = "") then (Err "missing cluster name", s)
  else if decide (name = "") then (Err "missing certificate name", s)
  else match certs s !! certID s name with
       | None => (Err ("certificate `" +:+ name +:+ ".crt` does not exist"), s)
       | Some crt =>
           match keys s !! keyID s name with
           | None => (Err ("certificate key `" +:+ name +:+ ".key` does not exist"), s)
           | Some key => (Ok (crt, key), s)
           end
       end.

Definition Create (name : string) (crt : option Crt) (key : option Key) :
    GoM (t Crt Key) () := λ s,
  if decide (cluster s = "") then (Err "missing cluster name", s)
  else match crt, key with
       | None, _ => (Err "missing certificate", s)
       | _, None => (Err "missing certificate key", s)
       | Some crt, Some key =>
           (Ok (), Make (<[certID s name := crt]> (certs s)) (<[keyID s name := key]> (keys s))
                        (cluster s))
       end.

Definition Delete (name : string) : GoM (t Crt Key) () := λ s,
  if decide (cluster s = "") then (Err "missing cluster name", s)
  else if decide (name = "") then (Err "missing certificate name", s)
  else match certs s !! certID s name with
       | None => (Err "certificate not found", s)
       | Some _ =>
           (Ok (), Make (delete (certID s name) (certs s)) (delete (keyID s name) (keys s))
                        (cluster s))
       end.
End methods.
End FakeCertificateStore.

(** ** ssh.go *)
Module FakeSSHKeyStore.
Record t := Make { container_ : gmap string string; cluster : string }.

Definition resourceHome (s : t) : string := PathJoin ["clusters"; cluster s; "ssh"].
Definition pubKeyID (s : t) (name : string) : string :=
  PathJoin [resourceHome s; "id_" +:+ name +:+ ".pub"].
Definition privKeyID (s : t) (name : string) : string :=
  PathJoin [resourceHome s; "id_" +:+ name].

Definition Get (name : string) : GoM t (string * string) := λ s,
  if decide (cluster s = "") then (Err "missing cluster name", s)
  else if decide (name = "") then (Err "missing ssh key name", s)
  else match container_ s !! pubKeyID s name with
       | None => (Err ("SSH `id_" +:+ name +:+ ".pub` does not exist"), s)
       | Some pubKey =>
           match container_ s !! privKeyID s name with
           | None => (Err ("SSH key `id_" +:+ name +:+ "` does not exist"), s)
           | Some privKey => (Ok (pubKey, privKey), s)
           end
       end.

Definition Create (name pubKey privKey : string) : GoM t () := λ s,
  if decide (cluster s = "") then (Err "missing cluster name", s)
  else if decide (pubKey = "") then (Err "empty ssh public key", s)
  else if decide (privKey = "") then (Err "empty ssh private key", s)
  else (Ok (), Make (<[privKeyID s name := privKey]> (<[pubKeyID s name := pubKey]> (container_ s)))
                    (cluster s)).

Definition Delete (name : string) : GoM t () := λ s,
  if decide (cluster s = "") then (Err "missing cluster name", s)
  else if decide (name = "") then (Err "missing ssh key name", s)
  else match container_ s !! pubKeyID s name with
       | None => (Err "sshkey not found", s)
       | Some _ =>
           (Ok (), Make (delete (privKeyID s name) (delete (pubKeyID s name) (container_ s)))
                        (cluster s))
       end.
End FakeSSHKeyStore.

(** ** operation.go *)
Module FakeOperationStore.
Definition Get {S} (id : string) : GoM S Operation :=
  mret {| op_ID := 0%Z; op_UserID := 0%Z; op_ClusterID := 0%Z; op_Code := id;
          op_State := OperationDone |}.

Definition Update {S} (obj : Operation) : GoM S Operation := mret obj.
End FakeOperationStore.

(** ** store.go

    The stores of a cluster are made on first use and kept. *)
Module FakeStore.
Record t (Crt Key : Type) := Make {
  clusters : heap Cluster;
  credentials : option (heap Credential);
  machineSet : gmap string (heap MachineSet);
  machine : gmap string (heap Machine);
  certificates : gmap string (FakeCertificateStore.t Crt Key);
  sshKeys : gmap string FakeSSHKeyStore.t
}.
Arguments Make {_ _}. Arguments clusters {_ _}. Arguments credentials {_ _}.
Arguments machineSet {_ _}. Arguments machine {_ _}. Arguments certificates {_ _}.
Arguments sshKeys {_ _}.

Section store.
Context {Crt Key : Type}.
Implicit Types (s : t Crt Key).

Definition New : t Crt Key := Make empty_heap None ∅ ∅ ∅ ∅.
Definition Owner s (id : Z) : t Crt Key := s.

Definition Clusters s : t Crt Key := s.

Definition Credentials s : t Crt Key :=
  match credentials s with
  | None => Make (clusters s) (Some empty_heap) (machineSet s) (machine s) (certificates s) (sshKeys s)
  | Some _ => s
  end.

Definition MachineSet_ (cluster : string) s : t Crt Key :=
  match machineSet s !! cluster with
  | None => Make (clusters s) (credentials s) (<[cluster := empty_heap]> (machineSet s))
                 (machine s) (certificates s) (sshKeys s)
  | Some _ => s
  end.

Definition Machine_ (cluster : string) s : t Crt Key :=
  match machine s !! cluster with
  | None => Make (clusters s) (credentials s) (machineSet s)
                 (<[cluster := empty_heap]> (machine s)) (certificates s) (sshKeys s)
  | Some _ => s
  end.

Definition Certificates (cluster : string) s : t Crt Key :=
  match certificates s !! cluster with
  | None => Make (clusters s) (credentials s) (machineSet s) (machine s)
                 (<[cluster := FakeCertificateStore.Make ∅ ∅ cluster]> (certificates s)) (sshKeys s)
  | Some _ => s
  end.

Definition SSHKeys (cluster : string) s : t Crt Key :=
  match sshKeys s !! cluster with
  | None => Make (clusters s) (credentials s) (machineSet s) (machine s) (certificates s)
                 (<[cluster := FakeSSHKeyStore.Make ∅ cluster]> (sshKeys s))
  | Some _ => s
  end.

(** Writing a store's memory back. *)
Definition set_clusters v s : t Crt Key :=
  Make v (credentials s) (machineSet s) (machine s) (certificates s) (sshKeys s).
Definition set_credentials v s : t Crt Key :=
  Make (clusters s) (Some v) (machineSet s) (machine s) (certificates s) (sshKeys s).
Definition set_machineSet cluster v s : t Crt Key :=
  Make (clusters s) (credentials s) (<[cluster := v]> (machineSet s)) (machine s)
       (certificates s) (sshKeys s).
Definition set_machine cluster v s : t Crt Key :=
  Make (clusters s) (credentials s) (machineSet s) (<[cluster := v]> (machine s))
       (certificates s) (sshKeys s).

Definition credentials_heap s : heap Credential := default empty_heap (credentials s).
Definition machineSet_heap cluster s : heap MachineSet := default empty_heap (machineSet s !! cluster).
Definition machine_heap cluster s : heap Machine := default empty_heap (machine s !! cluster).
End store.
End FakeStore.
