(* ===== verification/FakeProofs.v ===== *)
(** * The in-memory store implements the abstract store, for callers that pass values

    [value_ops] is a caller that allocates an object per call and reads the
    object it gets back at once; such a caller sees the abstract store with
    [persist] the identity.  A caller that keeps its pointers can change what is
    stored without a call ([stored_object_is_shared]). *)
From stdpp Require Import base list gmap strings fin_maps.
From S2P Require Import Prelude GoStrings GoPath Stow Api StoreSpec VfsStore Samples VfsProofs FakeStore.

(** ** Methods over addresses, and the caller that passes values *)
Record pointer_ops (O : Type) := {
  po_List : GoM (heap O) (list addr);
  po_Get : string → GoM (heap O) addr;
  po_Create : option addr → GoM (heap O) addr;
  po_Update : option addr → GoM (heap O) addr;
  po_Delete : string → GoM (heap O) ();
  po_UpdateStatus : option (option addr → GoM (heap O) addr)
}.
Arguments po_List {_}. Arguments po_Get {_}. Arguments po_Create {_}. Arguments po_Update {_}.
Arguments po_Delete {_}. Arguments po_UpdateStatus {_}.

Definition new_object {O} (obj : option O) : GoM (heap O) (option addr) :=
  match obj with
  | None => mret None
  | Some o => p ← alloc o; mret (Some p)
  end.

Definition value_call {O} (f : option addr → GoM (heap O) addr) (obj : option O) : GoM (heap O) O :=
  p ← new_object obj; q ← f p; deref q.

Definition value_ops {O} (po : pointer_ops O) : store_ops (heap O) O := {|
  op_List := ps ← po_List po; map_each deref ps;
  op_Get n := p ← po_Get po n; deref p;
  op_Create := value_call (po_Create po);
  op_Update := value_call (po_Update po);
  op_Delete := po_Delete po;
  op_UpdateStatus := value_call <$> po_UpdateStatus po
|}.

(** ** The common shape of the four stores *)
Record fk_cfg := {
  fk_id : string → string;
  fk_missing : string;
  fk_label : string;
  fk_absent : string → error;
  fk_upsert : bool              (* Update does not look for an existing object *)
}.

Section shape.
Context {O : Type} `{!Resource O, !RangeOrder} (cfg : fk_cfg) (ss : option (O → O → O)).

Definition fk_Get (name : string) : GoM (heap O) addr :=
  _ ← err_if (bool_decide (name = "")) ("missing " +:+ fk_missing cfg +:+ " name");
  found ← container_get (fk_id cfg name);
  match found with
  | None => throw (fk_label cfg +:+ " `" +:+ name +:+ "` does not exist")
  | Some p => mret p
  end.

(** The guards the writing methods start with. *)
Definition fk_checked (obj : option addr) (k : addr → O → GoM (heap O) addr) : GoM (heap O) addr :=
  match obj with
  | None => throw ("missing " +:+ fk_missing cfg)
  | Some p =>
      o ← deref p;
      _ ← err_if (bool_decide (res_name o = "")) ("missing " +:+ fk_missing cfg +:+ " name");
      _ ← AssignTypeKind_at p;
      k p o
  end.

Definition fk_Create (obj : option addr) : GoM (heap O) addr :=
  fk_checked obj (λ p o,
    found ← container_get (fk_id cfg (res_name o));
    match found with
    | Some _ => throw (fk_label cfg +:+ " `" +:+ res_name o +:+ "` already exists")
    | None => _ ← container_set (fk_id cfg (res_name o)) p; mret p
    end).

Definition fk_Update (obj : option addr) : GoM (heap O) addr :=
  fk_checked obj (λ p o,
    if fk_upsert cfg then _ ← container_set (fk_id cfg (res_name o)) p; mret p
    else
      found ← container_get (fk_id cfg (res_name o));
      match found with
      | None => throw (fk_label cfg +:+ " `" +:+ res_name o +:+ "` does not exist")
      | Some _ => _ ← container_set (fk_id cfg (res_name o)) p; mret p
      end).

Definition fk_Delete (name : string) : GoM (heap O) () :=
  _ ← err_if (bool_decide (name = "")) ("missing " +:+ fk_missing cfg +:+ " name");
  found ← container_get (fk_id cfg name);
  match found with
  | None => throw (fk_absent cfg name)
  | Some _ => container_delete (fk_id cfg name)
  end.

Definition fk_UpdateStatus (set : O → O → O) (obj : option addr) : GoM (heap O) addr :=
  fk_checked obj (λ p o,
    found ← container_get (fk_id cfg (res_name o));
    match found with
    | None => throw (fk_label cfg +:+ " `" +:+ res_name o +:+ "` does not exist")
    | Some existing =>
        o' ← deref p;
        ex ← deref existing;
        _ ← write existing (set ex o');
        _ ← container_set (fk_id cfg (res_name o)) existing;
        mret existing
    end).

Definition fk_ops : pointer_ops O := {|
  po_List := range_container; po_Get := fk_Get; po_Create := fk_Create;
  po_Update := fk_Update; po_Delete := fk_Delete; po_UpdateStatus := fk_UpdateStatus <$> ss
|}.
End shape.

(** ** What the memory represents *)
Record heap_repr {O} (id : string → string) (h : heap O) (v : gmap string O) : Prop := {
  hr_entry n : path_name n → (table h !! id n ≫= λ p, objs h !! p) = v !! n;
  hr_key k p : table h !! k = Some p → (∃ n, path_name n ∧ k = id n) ∧ is_Some (objs h !! p);
  hr_inj k k' p : table h !! k = Some p → table h !! k' = Some p → k = k';
  hr_name n o : v !! n = Some o → path_name n
}.

Definition unfiled {O} (h : heap O) (p : addr) : Prop := ∀ k, table h !! k ≠ Some p.

Class PathIds (id : string → string) : Prop :=
  path_ids_inj n k : path_name n → path_name k → id n = id k → n = k.

Section repr.
Context {O : Type} (id : string → string) `{!PathIds id}.
Implicit Types (h : heap O) (v : gmap string O).

Lemma heap_repr_empty : heap_repr id (empty_heap (O := O)) ∅.
Proof. by split. Qed.

Lemma heap_repr_some h v n o :
  heap_repr id h v → path_name n → v !! n = Some o →
  ∃ p, table h !! id n = Some p ∧ objs h !! p = Some o.
Proof.
  intros HR Hn Hv. pose proof (hr_entry id h v HR n Hn) as He. rewrite Hv in He.
  apply bind_Some in He. done.
Qed.

Lemma heap_repr_none h v n :
  heap_repr id h v → path_name n → v !! n = None → table h !! id n = None.
Proof.
  intros HR Hn Hv. pose proof (hr_entry id h v HR n Hn) as He. rewrite Hv in He.
  destruct (table h !! id n) as [p|] eqn:E; [|done]. simpl in He.
  destruct (hr_key id h v HR _ _ E) as [_ [o Ho]]. congruence.
Qed.

(** Writing an object no entry points to. *)
Lemma heap_repr_write h v p o :
  heap_repr id h v → unfiled h p → heap_repr id (Heap (<[p := o]> (objs h)) (table h)) v.
Proof.
  intros HR Hp. split; simpl.
  - intros n Hn. rewrite <-(hr_entry id h v HR n Hn).
    destruct (table h !! id n) as [q|] eqn:E; [|done]. simpl.
    rewrite lookup_insert_ne; [done|]. intros ->. by apply (Hp (id n)).
  - intros k q E. destruct (hr_key id h v HR k q E) as [? ?]. split; [done|].
    rewrite lookup_insert_ne; [done|]. intros ->. by apply (Hp k).
  - apply (hr_inj id h v HR).
  - apply (hr_name id h v HR).
Qed.

Lemma fresh_unfiled h v : heap_repr id h v → unfiled h (fresh (dom (objs h))).
Proof.
  intros HR k E. destruct (hr_key id h v HR _ _ E) as [_ [o Ho]].
  apply (is_fresh (dom (objs h))). by eapply elem_of_dom_2.
Qed.

(** Filing an object under its name. *)
Lemma heap_repr_file h v n p o :
  heap_repr id h v → unfiled h p → path_name n → objs h !! p = Some o →
  heap_repr id (Heap (objs h) (<[id n := p]> (table h))) (<[n := o]> v).
Proof.
  intros HR Hp Hn Ho. split; simpl.
  - intros k Hk. destruct (decide (k = n)) as [->|Hne].
    + by rewrite !lookup_insert_eq.
    + rewrite !lookup_insert_ne; [by apply HR|done|].
      intros E. by apply path_ids_inj in E.
  - intros k q [[<- <-]|[_ E]]%lookup_insert_Some; [by eauto|].
    by apply (hr_key id h v HR).
  - intros k k' q [[<- <-]|[_ E]]%lookup_insert_Some [[<- E']|[_ E']]%lookup_insert_Some.
    + done.
    + by destruct (Hp k').
    + subst. by destruct (Hp k).
    + by apply (hr_inj id h v HR k k' q).
  - intros k o' [[<- <-]|[_ E]]%lookup_insert_Some; [done|]. by apply (hr_name id h v HR k o').
Qed.

(** Writing through the pointer an entry holds. *)
Lemma heap_repr_write_filed h v n p o :
  heap_repr id h v → path_name n → table h !! id n = Some p →
  heap_repr id (Heap (<[p := o]> (objs h)) (<[id n := p]> (table h))) (<[n := o]> v).
Proof.
  intros HR Hn Ep. rewrite (insert_id (table h)) by done. split; simpl.
  - intros k Hk. destruct (decide (k = n)) as [->|Hne].
    + rewrite Ep. simpl. by rewrite !lookup_insert_eq.
    + rewrite (lookup_insert_ne v) by done. rewrite <-(hr_entry id h v HR k Hk).
      destruct (table h !! id k) as [q|] eqn:E; [|done]. simpl.
      rewrite lookup_insert_ne; [done|]. intros <-.
      pose proof (hr_inj id h v HR _ _ _ E Ep) as Eid. by apply path_ids_inj in Eid.
  - intros k q E. destruct (hr_key id h v HR k q E) as [? ?]. split; [done|].
    destruct (decide (p = q)) as [->|]; [by rewrite lookup_insert_eq|by rewrite lookup_insert_ne].
  - apply (hr_inj id h v HR).
  - intros k o' [[<- <-]|[_ E]]%lookup_insert_Some; [done|]. by apply (hr_name id h v HR k o').
Qed.

Lemma heap_repr_delete h v n :
  heap_repr id h v → path_name n →
  heap_repr id (Heap (objs h) (delete (id n) (table h))) (delete n v).
Proof.
  intros HR Hn. split; simpl.
  - intros k Hk. destruct (decide (k = n)) as [->|Hne].
    + by rewrite !lookup_delete_eq.
    + rewrite !lookup_delete_ne; [by apply HR|done|]. intros E. by apply path_ids_inj in E.
  - intros k q [_ E]%lookup_delete_Some. by apply (hr_key id h v HR).
  - intros k k' q [_ E]%lookup_delete_Some [_ E']%lookup_delete_Some.
    by apply (hr_inj id h v HR k k' q).
  - intros k o [_ E]%lookup_delete_Some. by apply (hr_name id h v HR k o).
Qed.

(** The stored objects, each once. *)
Lemma heap_objects h v :
  heap_repr id h v →
  omap (λ kp, (objs h !! kp.2)) (map_to_list (table h)) ≡ₚ (map_to_list v).*2.
Proof.
  intros HR.
  assert (Hp : omap (λ kp : string * addr, pair kp.1 <$> objs h !! kp.2) (map_to_list (table h)) ≡ₚ
               prod_map id (λ o, o) <$> map_to_list v).
  { apply NoDup_Permutation.
    - apply (NoDup_omap_keyed (λ p, objs h !! p)), NoDup_fst_map_to_list.
    - apply NoDup_fmap_2_strong; [|apply NoDup_map_to_list].
      intros [n o] [k o'] Hn%elem_of_map_to_list Hk%elem_of_map_to_list E.
      simpl in E. injection E as E ->. f_equal.
      apply path_ids_inj; [by eapply (hr_name id h v HR)|by eapply (hr_name id h v HR)|done].
    - intros [k o]. rewrite list_elem_of_omap, list_elem_of_fmap. split.
      + intros ([k' p] & Hin%elem_of_map_to_list & Hs). simpl in Hs.
        apply fmap_Some in Hs as (o' & Ho & [= -> ->]).
        destruct (hr_key id h v HR _ _ Hin) as [(n & Hn & ->) _].
        exists (n, o'). split; [done|]. apply elem_of_map_to_list.
        rewrite <-(hr_entry id h v HR n Hn), Hin. done.
      + intros ([n o'] & [= -> ->] & Hv%elem_of_map_to_list).
        destruct (heap_repr_some h v n o' HR) as (p & Hp & Ho);
          [by eapply (hr_name id h v HR)|done|].
        exists (id n, p). split; [by apply elem_of_map_to_list|]. simpl. by rewrite Ho. }
  rewrite <-(omap_snd (λ p, objs h !! p)), Hp, <-list_fmap_compose. done.
Qed.
End repr.

(** ** The abstract store in memory

    It is the abstract store, but that [Update] of a machine or a machine set does not
    ask whether there is one: it files what it is given. *)
Section memory_spec.
Context {O : Type} `{!Resource O}.

Definition spec_Upsert (obj : option O) : GoM (gmap string O) O := λ m,
  match obj with
  | None => (Err "missing object", m)
  | Some o =>
      if decide (res_name o = "") then (Err "missing name", m)
      else spec_put Ok (res_assign o) (res_assign o) m
  end.

Definition memory_Update (upsert : bool) : option O → GoM (gmap string O) O :=
  if upsert then spec_Upsert else spec_Update Ok.

Definition memory_store (upsert : bool) (ss : option (O → O → O)) : store_ops (gmap string O) O :=
  let spec := spec_store Ok ss in {|
  op_List := op_List spec; op_Get := op_Get spec; op_Create := op_Create spec;
  op_Update := memory_Update upsert; op_Delete := op_Delete spec; op_UpdateStatus := op_UpdateStatus spec
|}.
End memory_spec.

Definition memory_call (c : call) (o : objects) : reply * objects :=
  match c with
  | OnMachineSets cl r =>
      let '(x, v) := run (memory_store true (Some res_set_status)) r (ob_machinesets o cl) in
      (FromMachineSets x, put_machinesets cl v o)
  | OnMachines cl r =>
      let '(x, v) := run (memory_store true (Some res_set_status)) r (ob_machines o cl) in
      (FromMachines x, put_machines cl v o)
  | _ => spec_call Ok Ok Ok Ok c o
  end.

(** ** The shape refines the abstract store *)
Section refinement.
Context {O : Type} `{!Resource O, !RangeOrder} (cfg : fk_cfg) `{!PathIds (fk_id cfg)}.
Implicit Types (h : heap O) (v : gmap string O).

Let R := heap_repr (O := O) (fk_id cfg).

(** The new object, kind assigned, before it is filed. *)
Definition with_new h (o : O) : heap O :=
  Heap (<[fresh (dom (objs h)) := res_assign o]> (objs h)) (table h).

Lemma value_checked_nil k h :
  value_call (λ p, fk_checked cfg p k) None h = (Err ("missing " +:+ fk_missing cfg), h).
Proof. done. Qed.

Lemma value_checked_unnamed k o h :
  res_name o = "" →
  value_call (λ p, fk_checked cfg p k) (Some o) h =
  (Err ("missing " +:+ fk_missing cfg +:+ " name"),
   Heap (<[fresh (dom (objs h)) := o]> (objs h)) (table h)).
Proof.
  intros Ho. unfold value_call, new_object, fk_checked, alloc, deref, mbind, gom_bind.
  simpl. rewrite lookup_insert_eq. by rewrite bool_decide_true.
Qed.

Lemma value_checked k o h :
  res_name o ≠ "" →
  value_call (λ p, fk_checked cfg p k) (Some o) h =
  (q ← k (fresh (dom (objs h))) o; deref q) (with_new h o).
Proof.
  intros Ho. unfold value_call, new_object, fk_checked, alloc, deref, AssignTypeKind_at.
  unfold mbind, gom_bind, mret, gom_ret, err_if, lift, write. simpl. rewrite lookup_insert_eq.
  rewrite bool_decide_false by done. unfold deref at 1. simpl. rewrite lookup_insert_eq, res_assign_spec.
  simpl. by rewrite insert_insert_eq.
Qed.

Lemma with_new_repr h v o : R h v → R (with_new h o) v.
Proof. intros HR. by eapply heap_repr_write, fresh_unfiled. Qed.

Lemma with_new_unfiled h v o : R h v → unfiled (with_new h o) (fresh (dom (objs h))).
Proof. intros HR k. apply (fresh_unfiled _ h v HR k). Qed.

Lemma with_new_lookup h o : objs (with_new h o) !! fresh (dom (objs h)) = Some (res_assign o).
Proof. apply lookup_insert_eq. Qed.

(** Filing the new object and reading it back. *)
Lemma file_new h v o :
  R h v → path_name (res_name o) →
  let r := (q ← (_ ← container_set (fk_id cfg (res_name o)) (fresh (dom (objs h)));
                 mret (fresh (dom (objs h)))); deref q) (with_new h o) in
  r.1 = Ok (res_assign o) ∧ R r.2 (<[res_name o := res_assign o]> v).
Proof.
  intros HR Hn. unfold container_set, deref, mbind, gom_bind. simpl.
  rewrite lookup_insert_eq. split; [done|].
  apply (heap_repr_file (fk_id cfg) (with_new h o));
    [by apply with_new_repr|by eapply with_new_unfiled|done|].
  apply with_new_lookup.
Qed.

Lemma fk_Get_refines n h v :
  R h v → path_name n →
  result_sim Obj R ((p ← fk_Get cfg n; deref p) h) (spec_Get n v).
Proof.
  intros HR Hn. unfold fk_Get, spec_Get. rewrite bind_assoc.
  destruct (decide (n = "")) as [->|Hne]; [done|].
  rewrite bool_decide_false by done. simpl.
  unfold container_get, deref, mbind, gom_bind. simpl.
  destruct (v !! n) as [o|] eqn:Hv.
  - destruct (heap_repr_some _ h v n o HR Hn Hv) as (p & -> & Ho). simpl. by rewrite Ho.
  - by rewrite (heap_repr_none _ h v n HR Hn Hv).
Qed.

Lemma fk_Delete_refines n h v :
  R h v → path_name n → result_sim (λ _, Done) R (fk_Delete cfg n h) (spec_Delete n v).
Proof.
  intros HR Hn. unfold fk_Delete, spec_Delete.
  destruct (decide (n = "")) as [->|Hne]; [done|].
  rewrite bool_decide_false by done. simpl.
  unfold container_get, container_delete, mbind, gom_bind. simpl.
  destruct (v !! n) as [o|] eqn:Hv.
  - destruct (heap_repr_some _ h v n o HR Hn Hv) as (p & -> & Ho). split; [done|].
    by apply heap_repr_delete.
  - by rewrite (heap_repr_none _ h v n HR Hn Hv).
Qed.

Lemma fk_Create_refines o h v :
  R h v → valid_req (RCreate o) →
  result_sim Obj R (value_call (fk_Create cfg) o h) (spec_Create Ok o v).
Proof.
  intros HR Hn. destruct o as [o|]; [|done]. simpl in Hn.
  unfold fk_Create, spec_Create, spec_put.
  destruct (decide (res_name o = "")) as [Hne|Hne].
  { rewrite value_checked_unnamed by done. split; [done|].
    by eapply heap_repr_write, fresh_unfiled. }
  rewrite value_checked by done. rewrite bind_assoc.
  erewrite bind_ok by reflexivity. rewrite res_assign_name.
  change (table (with_new h o)) with (table h).
  destruct (v !! res_name o) as [x|] eqn:Hv.
  - destruct (heap_repr_some _ h v _ x HR Hn Hv) as (p & -> & Ho). split; [done|].
    by apply with_new_repr.
  - rewrite (heap_repr_none _ h v _ HR Hn Hv).
    destruct (file_new h v o HR Hn) as [Hr HR']. by split; [rewrite Hr|].
Qed.

Lemma fk_Update_refines o h v :
  R h v → valid_req (RUpdate o) →
  result_sim Obj R (value_call (fk_Update cfg) o h) (memory_Update (fk_upsert cfg) o v).
Proof.
  intros HR Hn. destruct o as [o|]; [|by destruct (fk_upsert cfg)]. simpl in Hn.
  unfold fk_Update, memory_Update. destruct (fk_upsert cfg);
    unfold spec_Upsert, spec_Update, spec_put; destruct (decide (res_name o = "")) as [Hne|Hne];
    try (rewrite value_checked_unnamed by done; split; [done|]; by eapply heap_repr_write, fresh_unfiled);
    rewrite value_checked, res_assign_name by done; destruct (file_new h v o HR Hn) as [Hr HR'].
  - by split; [rewrite Hr|].
  - rewrite bind_assoc. erewrite bind_ok by reflexivity. change (table (with_new h o)) with (table h).
    destruct (v !! res_name o) as [x|] eqn:Hv.
    + destruct (heap_repr_some _ h v _ x HR Hn Hv) as (p & -> & Ho). by split; [rewrite Hr|].
    + rewrite (heap_repr_none _ h v _ HR Hn Hv). split; [done|]. by apply with_new_repr.
Qed.

Lemma fk_UpdateStatus_refines set o h v :
  (∀ ex o, set ex (res_assign o) = set ex o) →
  R h v → valid_req (RUpdateStatus o) →
  result_sim Obj R (value_call (fk_UpdateStatus cfg set) o h) (spec_UpdateStatus Ok set o v).
Proof.
  intros Hset HR Hn. destruct o as [o|]; [|done]. simpl in Hn.
  unfold fk_UpdateStatus, spec_UpdateStatus.
  destruct (decide (res_name o = "")) as [Hne|Hne].
  { rewrite value_checked_unnamed by done. split; [done|].
    by eapply heap_repr_write, fresh_unfiled. }
  rewrite value_checked by done. rewrite bind_assoc.
  erewrite bind_ok by reflexivity.
  change (table (with_new h o)) with (table h).
  pose proof (with_new_repr h v o HR) as HR1.
  destruct (v !! res_name o) as [x|] eqn:Hv.
  - destruct (heap_repr_some _ _ v _ x HR1 Hn Hv) as (p & Ep & Ho).
    change (table (with_new h o)) with (table h) in Ep. rewrite Ep.
    unfold deref, write, container_set, mbind, gom_bind.
    rewrite with_new_lookup. rewrite Ho. simpl. rewrite lookup_insert_eq, Hset.
    split; [done|]. by apply (heap_repr_write_filed _ (with_new h o)).
  - rewrite (heap_repr_none _ h v _ HR Hn Hv). split; [done|done].
Qed.

Lemma fk_List_refines h v :
  R h v → result_sim Objs R ((ps ← range_container; map_each deref ps) h) (spec_List v).
Proof.
  intros HR. erewrite bind_ok by reflexivity.
  set (ps := omap (table h !!.) (range_keys (table h))).
  assert (Hps : ps ≡ₚ (map_to_list (table h)).*2).
  { unfold ps. rewrite range_keys_perm. rewrite omap_fmap_list.
    assert (E : ∀ l : list (string * addr), (∀ kp, kp ∈ l → table h !! kp.1 = Some kp.2) →
      omap (λ kp : string * addr, table h !! kp.1) l = l.*2).
    { induction l as [|[k p] l IH]; intros Hl; [done|]. unfold omap in *. cbn [list_omap].
      rewrite (Hl (k, p)) by left. simpl. f_equal. apply IH. intros; apply Hl; by right. }
    rewrite E; [done|]. intros [k p] Hin. by apply elem_of_map_to_list in Hin. }
  assert (Hm : map_each deref ps h = (Ok (omap (objs h !!.) ps), h)).
  { rewrite <-(list_fmap_id ps) at 1. apply map_each_omap. intros p Hp.
    rewrite Hps in Hp. apply list_elem_of_fmap in Hp as ([k q] & -> & Hin%elem_of_map_to_list).
    destruct (hr_key _ h v HR _ _ Hin) as [_ [o Ho]]. exists o. unfold deref. simpl.
    by rewrite Ho. }
  rewrite Hm. split; [|done]. simpl. rewrite Hps, omap_fmap_list.
  by apply (heap_objects (fk_id cfg)).
Qed.

#[export] Instance fk_refines (ss : option (O → O → O)) :
  (∀ f, ss = Some f → ∀ ex o, f ex (res_assign o) = f ex o) →
  Refines (value_ops (fk_ops cfg ss)) (memory_store (fk_upsert cfg) ss) (heap_repr (fk_id cfg)) valid_req.
Proof.
  intros Hss. apply refines_by_methods.
  - intros s v HR. by apply fk_List_refines.
  - intros n s v HR Hv. by apply fk_Get_refines.
  - intros o s v HR Hv. by apply fk_Create_refines.
  - intros o s v HR Hv. by apply fk_Update_refines.
  - intros n s v HR Hv. by apply fk_Delete_refines.
  - destruct ss as [f|]; [|done]. simpl. intros o s v HR Hv.
    apply fk_UpdateStatus_refines; [by apply Hss|done..].
Qed.
End refinement.

(** ** The four stores are instances of the shape *)
Definition fake_cluster_cfg : fk_cfg := {|
  fk_id := FakeClusterStore.resourceID FakeClusterStore.Make;
  fk_missing := "cluster"; fk_label := "cluster"; fk_absent _ := "cluster not found";
  fk_upsert := false
|}.

Definition fake_credential_cfg : fk_cfg := {|
  fk_id := FakeCredentialStore.resourceID FakeCredentialStore.Make;
  fk_missing := "credential"; fk_label := "credential"; fk_absent _ := "credential not found";
  fk_upsert := false
|}.

Definition fake_machineset_cfg (cl : string) : fk_cfg := {|
  fk_id := FakeMachineSetStore.resourceID (FakeMachineSetStore.Make cl);
  fk_missing := "node group"; fk_label := "NodeGroup"; fk_absent _ := "machineset item not found";
  fk_upsert := true
|}.

Definition fake_machine_cfg (cl : string) : fk_cfg := {|
  fk_id := FakeMachineStore.resourceID (FakeMachineStore.Make cl);
  fk_missing := "node group"; fk_label := "NodeGroup";
  fk_absent name := "machine " +:+ name +:+ " not found";
  fk_upsert := true
|}.

Lemma path_ids_under (hs : list string) (id : string → string) :
  hs ≠ [] → Forall plain hs → (∀ n, id n = PathJoin [Join "/" hs; n +:+ ".json"]) → PathIds id.
Proof.
  intros Hne Hp Hid n k Hn Hk E. rewrite !Hid, !home_id in E by done.
  assert (Hf : ∀ x, path_name x → Forall plain (hs ++ [json_file x])).
  { intros x Hx. apply Forall_app. split; [done|]. by apply Forall_singleton, json_file_plain. }
  apply Join_plain_inj in E; [|apply snoc_ne|apply snoc_ne|by apply Hf|by apply Hf].
  apply app_inj_tail in E as [_ E]. by apply json_file_inj.
Qed.

#[export] Instance fake_cluster_ids : PathIds (fk_id fake_cluster_cfg).
Proof. by apply (path_ids_under ["clusters"]); [|plains|]. Qed.

#[export] Instance fake_credential_ids : PathIds (fk_id fake_credential_cfg).
Proof. by apply (path_ids_under ["credentials"]); [|plains|]. Qed.

Lemma fake_machineset_ids cl : plain cl → PathIds (fk_id (fake_machineset_cfg cl)).
Proof.
  intros Hcl. apply (path_ids_under ["clusters"; cl; "machineset"]); [done|plains|].
  intros n. simpl. unfold FakeMachineSetStore.resourceID, FakeMachineSetStore.resourceHome.
  simpl FakeMachineSetStore.cluster.
  rewrite (PathJoin_plain ["clusters"; cl; "machineset"]) by (done || plains). done.
Qed.

Lemma fake_machine_ids cl : plain cl → PathIds (fk_id (fake_machine_cfg cl)).
Proof.
  intros Hcl. apply (path_ids_under ["clusters"; cl; "nodeGroups"]); [done|plains|].
  intros n. simpl. unfold FakeMachineStore.resourceID, FakeMachineStore.resourceHome.
  simpl FakeMachineStore.cluster.
  rewrite (PathJoin_plain ["clusters"; cl; "nodeGroups"]) by (done || plains). done.
Qed.

Section instances.
Context `{!RangeOrder}.

Definition fake_clusters : pointer_ops Cluster :=
  let s := FakeClusterStore.Make in {|
  po_List := FakeClusterStore.List s; po_Get := FakeClusterStore.Get s;
  po_Create := FakeClusterStore.Create s; po_Update := FakeClusterStore.Update s;
  po_Delete := FakeClusterStore.Delete s; po_UpdateStatus := Some (FakeClusterStore.UpdateStatus s)
|}.

Definition fake_credentials : pointer_ops Credential :=
  let s := FakeCredentialStore.Make in {|
  po_List := FakeCredentialStore.List s; po_Get := FakeCredentialStore.Get s;
  po_Create := FakeCredentialStore.Create s; po_Update := FakeCredentialStore.Update s;
  po_Delete := FakeCredentialStore.Delete s; po_UpdateStatus := None
|}.

Definition fake_machinesets (cl : string) : pointer_ops MachineSet :=
  let s := FakeMachineSetStore.Make cl in {|
  po_List := FakeMachineSetStore.List s; po_Get := FakeMachineSetStore.Get s;
  po_Create := FakeMachineSetStore.Create s; po_Update := FakeMachineSetStore.Update s;
  po_Delete := FakeMachineSetStore.Delete s;
  po_UpdateStatus := Some (FakeMachineSetStore.UpdateStatus s)
|}.

Definition fake_machines (cl : string) : pointer_ops Machine :=
  let s := FakeMachineStore.Make cl in {|
  po_List := FakeMachineStore.List s; po_Get := FakeMachineStore.Get s;
  po_Create := FakeMachineStore.Create s; po_Update := FakeMachineStore.Update s;
  po_Delete := FakeMachineStore.Delete s;
  po_UpdateStatus := Some (FakeMachineStore.UpdateStatus s)
|}.

Lemma fake_clusters_eq : fake_clusters = fk_ops fake_cluster_cfg (Some res_set_status).
Proof. done. Qed.

Lemma fake_credentials_eq : fake_credentials = fk_ops fake_credential_cfg None.
Proof. done. Qed.

Lemma fake_machinesets_eq cl :
  plain cl → fake_machinesets cl = fk_ops (fake_machineset_cfg cl) (Some res_set_status).
Proof.
  intros [Hne _].
  assert (Hcl : bool_decide (cl = "") = false) by by apply bool_decide_eq_false.
  unfold fake_machinesets, FakeMachineSetStore.Get, FakeMachineSetStore.Create,
    FakeMachineSetStore.Update, FakeMachineSetStore.Delete, FakeMachineSetStore.UpdateStatus.
  simpl. by rewrite !Hcl.
Qed.

Lemma fake_machines_eq cl :
  plain cl → fake_machines cl = fk_ops (fake_machine_cfg cl) (Some res_set_status).
Proof.
  intros [Hne _].
  assert (Hcl : bool_decide (cl = "") = false) by by apply bool_decide_eq_false.
  unfold fake_machines, FakeMachineStore.Get, FakeMachineStore.Create,
    FakeMachineStore.Update, FakeMachineStore.Delete, FakeMachineStore.UpdateStatus.
  simpl. by rewrite !Hcl.
Qed.
End instances.

(** ** The whole in-memory store *)
Definition map_ops {S T O} (f : ∀ A, GoM S A → GoM T A) (ops : store_ops S O) : store_ops T O := {|
  op_List := f _ (op_List ops);
  op_Get n := f _ (op_Get ops n);
  op_Create o := f _ (op_Create ops o);
  op_Update o := f _ (op_Update ops o);
  op_Delete n := f _ (op_Delete ops n);
  op_UpdateStatus := (λ u o, f _ (u o)) <$> op_UpdateStatus ops
|}.

(** Reach a store (making it if need be), run a method on its memory. *)
Definition visit {S T A} (enter : S → S) (get : S → T) (put : T → S → S) (m : GoM T A) : GoM S A :=
  λ s, zoom get put m (enter s).

Lemma run_visit {S T O} (enter : S → S) (get : S → T) (put : T → S → S) (ops : store_ops T O) r s :
  let x := run (map_ops (λ A, visit enter get put) ops) r s in
  let y := run ops r (get (enter s)) in
  x.1 = y.1 ∧ (x.2 = put y.2 (enter s) ∨ x.2 = s ∧ y.2 = get (enter s)).
Proof.
  unfold visit, zoom. destruct r as [|n|o|o|n|o]; simpl; unfold mbind, gom_bind.
  - destruct (op_List ops (get (enter s))) as [[] ?]; auto.
  - destruct (op_Get ops n (get (enter s))) as [[] ?]; auto.
  - destruct (op_Create ops o (get (enter s))) as [[] ?]; auto.
  - destruct (op_Update ops o (get (enter s))) as [[] ?]; auto.
  - destruct (op_Delete ops n (get (enter s))) as [[] ?]; auto.
  - destruct (op_UpdateStatus ops) as [f|]; simpl; [|by auto].
    destruct (f o (get (enter s))) as [[] ?]; auto.
Qed.

Lemma visit_sim {S T O} (enter : S → S) (get : S → T) (put : T → S → S)
    (ops : store_ops T O) (spec : store_ops (gmap string O) O) R valid
    (Big : S → gmap string O → Prop) r s v :
  Refines ops spec R valid → R (get (enter s)) v → valid r →
  (∀ t w, R t w → Big (put t (enter s)) w) → (∀ w, R (get (enter s)) w → Big s w) →
  let x := run (map_ops (λ A, visit enter get put) ops) r s in
  outcome_sim x.1 (run spec r v).1 ∧ Big x.2 (run spec r v).2.
Proof.
  intros Href HR Hv Hput Hsame x.
  destruct (run_visit enter get put ops r s) as [E1 E2]. fold x in E1, E2.
  destruct (Href r _ v HR Hv) as [Hsim Hr]. rewrite E1. split; [done|].
  destruct E2 as [->|[-> E]]; [by apply Hput|]. apply Hsame. by rewrite <-E.
Qed.

Section whole.
Context `{!RangeOrder} {Crt Key : Type}.
Implicit Types (s : FakeStore.t Crt Key) (o : objects).

Definition fake_api : api_store (FakeStore.t Crt Key) := {|
  st_Credentials := map_ops
    (λ A, visit FakeStore.Credentials FakeStore.credentials_heap FakeStore.set_credentials)
    (value_ops fake_credentials);
  st_Clusters := map_ops
    (λ A, visit FakeStore.Clusters FakeStore.clusters FakeStore.set_clusters)
    (value_ops fake_clusters);
  st_MachineSets cl := map_ops
    (λ A, visit (FakeStore.MachineSet_ cl) (FakeStore.machineSet_heap cl) (FakeStore.set_machineSet cl))
    (value_ops (fake_machinesets cl));
  st_Machines cl := map_ops
    (λ A, visit (FakeStore.Machine_ cl) (FakeStore.machine_heap cl) (FakeStore.set_machine cl))
    (value_ops (fake_machines cl))
|}.

Record fake_repr s o : Prop := {
  kr_credentials : heap_repr (fk_id fake_credential_cfg) (FakeStore.credentials_heap s) (ob_credentials o);
  kr_clusters : heap_repr (fk_id fake_cluster_cfg) (FakeStore.clusters s) (ob_clusters o);
  kr_machinesets cl : plain cl →
    heap_repr (fk_id (fake_machineset_cfg cl)) (FakeStore.machineSet_heap cl s) (ob_machinesets o cl);
  kr_machines cl : plain cl →
    heap_repr (fk_id (fake_machine_cfg cl)) (FakeStore.machine_heap cl s) (ob_machines o cl)
}.

(** Names are names of files, and clusters' names those of directories. *)
Definition fake_valid_call (c : call) : Prop :=
  match c with
  | OnCredentials r => valid_req r
  | OnClusters r => valid_req r
  | OnMachineSets cl r => plain cl ∧ valid_req r
  | OnMachines cl r => plain cl ∧ valid_req r
  end.

(** Making a store on first use changes no memory. *)
Lemma enter_credentials s : FakeStore.credentials_heap (FakeStore.Credentials s) = FakeStore.credentials_heap s.
Proof.
  unfold FakeStore.Credentials, FakeStore.credentials_heap.
  by destruct (FakeStore.credentials s) eqn:E; [rewrite E|].
Qed.

Lemma enter_machineset cl cl' s :
  FakeStore.machineSet_heap cl' (FakeStore.MachineSet_ cl s) = FakeStore.machineSet_heap cl' s.
Proof.
  unfold FakeStore.MachineSet_, FakeStore.machineSet_heap.
  destruct (FakeStore.machineSet s !! cl) eqn:E; [done|]. simpl.
  destruct (decide (cl' = cl)) as [->|Hne]; [by rewrite lookup_insert_eq, E|].
  by rewrite lookup_insert_ne.
Qed.

Lemma enter_machine cl cl' s :
  FakeStore.machine_heap cl' (FakeStore.Machine_ cl s) = FakeStore.machine_heap cl' s.
Proof.
  unfold FakeStore.Machine_, FakeStore.machine_heap.
  destruct (FakeStore.machine s !! cl) eqn:E; [done|]. simpl.
  destruct (decide (cl' = cl)) as [->|Hne]; [by rewrite lookup_insert_eq, E|].
  by rewrite lookup_insert_ne.
Qed.

Lemma machineset_heap_set cl cl' v s :
  FakeStore.machineSet_heap cl' (FakeStore.set_machineSet cl v s) =
  if decide (cl' = cl) then v else FakeStore.machineSet_heap cl' s.
Proof.
  unfold FakeStore.machineSet_heap, FakeStore.set_machineSet. simpl.
  case_decide as E; [by rewrite E, lookup_insert_eq|by rewrite lookup_insert_ne].
Qed.

Lemma machine_heap_set cl cl' v s :
  FakeStore.machine_heap cl' (FakeStore.set_machine cl v s) =
  if decide (cl' = cl) then v else FakeStore.machine_heap cl' s.
Proof.
  unfold FakeStore.machine_heap, FakeStore.set_machine. simpl.
  case_decide as E; [by rewrite E, lookup_insert_eq|by rewrite lookup_insert_ne].
Qed.

(** Visiting one kind of objects leaves the memory of the others alone. *)
Lemma enter_credentials_others s :
  FakeStore.clusters (FakeStore.Credentials s) = FakeStore.clusters s ∧
  FakeStore.machineSet (FakeStore.Credentials s) = FakeStore.machineSet s ∧
  FakeStore.machine (FakeStore.Credentials s) = FakeStore.machine s.
Proof. unfold FakeStore.Credentials. by destruct (FakeStore.credentials s). Qed.

Lemma enter_machineset_others cl s :
  FakeStore.clusters (FakeStore.MachineSet_ cl s) = FakeStore.clusters s ∧
  FakeStore.credentials (FakeStore.MachineSet_ cl s) = FakeStore.credentials s ∧
  FakeStore.machine (FakeStore.MachineSet_ cl s) = FakeStore.machine s.
Proof. unfold FakeStore.MachineSet_. by destruct (FakeStore.machineSet s !! cl). Qed.

Lemma enter_machine_others cl s :
  FakeStore.clusters (FakeStore.Machine_ cl s) = FakeStore.clusters s ∧
  FakeStore.credentials (FakeStore.Machine_ cl s) = FakeStore.credentials s ∧
  FakeStore.machineSet (FakeStore.Machine_ cl s) = FakeStore.machineSet s.
Proof. unfold FakeStore.Machine_. by destruct (FakeStore.machine s !! cl). Qed.

Lemma fake_repr_credentials s o v w :
  fake_repr s o → heap_repr (fk_id fake_credential_cfg) v w →
  fake_repr (FakeStore.set_credentials v (FakeStore.Credentials s)) (put_credentials w o).
Proof.
  intros [Hcr Hc Hs Hm] Hv. destruct (enter_credentials_others s) as (E1 & E2 & E3).
  split; simpl; unfold FakeStore.machineSet_heap, FakeStore.machine_heap;
    simpl; by rewrite ?E1, ?E2, ?E3.
Qed.

Lemma fake_repr_clusters s o v w :
  fake_repr s o → heap_repr (fk_id fake_cluster_cfg) v w →
  fake_repr (FakeStore.set_clusters v (FakeStore.Clusters s)) (put_clusters w o).
Proof. intros [Hcr Hc Hs Hm] Hv. by split. Qed.

Lemma fake_repr_machinesets cl s o v w :
  fake_repr s o → (plain cl → heap_repr (fk_id (fake_machineset_cfg cl)) v w) →
  fake_repr (FakeStore.set_machineSet cl v (FakeStore.MachineSet_ cl s)) (put_machinesets cl w o).
Proof.
  intros [Hcr Hc Hs Hm] Hv. destruct (enter_machineset_others cl s) as (E1 & E2 & E3). split.
  - unfold FakeStore.credentials_heap, FakeStore.set_machineSet. simpl. by rewrite E2.
  - simpl. by rewrite E1.
  - intros cl' Hcl'. rewrite machineset_heap_set, enter_machineset. simpl.
    case_decide as E; [subst; by apply Hv|by apply Hs].
  - intros cl' Hcl'. unfold FakeStore.machine_heap, FakeStore.set_machineSet. simpl.
    rewrite E3. by apply Hm.
Qed.

Lemma fake_repr_machines cl s o v w :
  fake_repr s o → (plain cl → heap_repr (fk_id (fake_machine_cfg cl)) v w) →
  fake_repr (FakeStore.set_machine cl v (FakeStore.Machine_ cl s)) (put_machines cl w o).
Proof.
  intros [Hcr Hc Hs Hm] Hv. destruct (enter_machine_others cl s) as (E1 & E2 & E3). split.
  - unfold FakeStore.credentials_heap, FakeStore.set_machine. simpl. by rewrite E2.
  - simpl. by rewrite E1.
  - intros cl' Hcl'. unfold FakeStore.machineSet_heap, FakeStore.set_machine. simpl.
    rewrite E3. by apply Hs.
  - intros cl' Hcl'. rewrite machine_heap_set, enter_machine. simpl.
    case_decide as E; [subst; by apply Hv|by apply Hm].
Qed.

(** A visit that did not reach the memory. *)
Lemma fake_repr_same s o :
  fake_repr s o →
  (∀ w, heap_repr (fk_id fake_credential_cfg) (FakeStore.credentials_heap s) w →
        fake_repr s (put_credentials w o)) ∧
  (∀ w, heap_repr (fk_id fake_cluster_cfg) (FakeStore.clusters s) w →
        fake_repr s (put_clusters w o)) ∧
  (∀ cl w, (plain cl → heap_repr (fk_id (fake_machineset_cfg cl)) (FakeStore.machineSet_heap cl s) w) →
        fake_repr s (put_machinesets cl w o)) ∧
  (∀ cl w, (plain cl → heap_repr (fk_id (fake_machine_cfg cl)) (FakeStore.machine_heap cl s) w) →
        fake_repr s (put_machines cl w o)).
Proof.
  intros [Hcr Hc Hs Hm]. split_and!; intros; split; try done; intros cl' Hcl';
    cbn [ob_machinesets ob_machines put_machinesets put_machines];
    first [by auto|case_decide; [by subst; auto|by auto]].
Qed.

Lemma fake_step s o q :
  fake_repr s o → fake_valid_call q →
  reply_sim (run_call fake_api q s).1 (memory_call q o).1 ∧
  fake_repr (run_call fake_api q s).2 (memory_call q o).2.
Proof.
  intros HR Hv. destruct (fake_repr_same s o HR) as (S1 & S2 & S3 & S4).
  destruct q as [r|r|cl r|cl r]; unfold run_call, memory_call, spec_call; simpl in Hv.
  - destruct (visit_sim FakeStore.Credentials FakeStore.credentials_heap FakeStore.set_credentials
      (value_ops fake_credentials) (spec_store Ok None) (heap_repr (fk_id fake_credential_cfg))
      valid_req (λ s w, fake_repr s (put_credentials w o)) r s
      (ob_credentials o)) as [Hsim Hr].
    + rewrite fake_credentials_eq. apply (fk_refines fake_credential_cfg None). intros f [=].
    + rewrite enter_credentials. by apply kr_credentials.
    + done.
    + intros t w. by apply fake_repr_credentials.
    + rewrite enter_credentials. done.
    + unfold fake_api, st_Credentials. by destruct (run (map_ops _ _) r s), (run (spec_store Ok None) r (ob_credentials o)).
  - destruct (visit_sim FakeStore.Clusters FakeStore.clusters FakeStore.set_clusters
      (value_ops fake_clusters) (spec_store Ok (Some res_set_status))
      (heap_repr (fk_id fake_cluster_cfg)) valid_req
      (λ s w, fake_repr s (put_clusters w o)) r s (ob_clusters o)) as [Hsim Hr].
    + rewrite fake_clusters_eq.
      apply (fk_refines fake_cluster_cfg (Some res_set_status)), set_status_assign.
    + by apply kr_clusters.
    + done.
    + intros t w. by apply fake_repr_clusters.
    + done.
    + unfold fake_api, st_Clusters. by destruct (run (map_ops _ _) r s),
        (run (spec_store Ok (Some res_set_status)) r (ob_clusters o)).
  - destruct Hv as (Hcl & Hv). pose proof (fake_machineset_ids cl Hcl).
    destruct (visit_sim (FakeStore.MachineSet_ cl) (FakeStore.machineSet_heap cl)
      (FakeStore.set_machineSet cl) (value_ops (fake_machinesets cl))
      (memory_store true (Some res_set_status)) (heap_repr (fk_id (fake_machineset_cfg cl)))
      valid_req (λ s w, fake_repr s (put_machinesets cl w o)) r s
      (ob_machinesets o cl)) as [Hsim Hr].
    + rewrite fake_machinesets_eq by done.
      apply (fk_refines (fake_machineset_cfg cl) (Some res_set_status)), set_status_assign.
    + rewrite enter_machineset. by apply kr_machinesets.
    + done.
    + intros t w Hw. by apply fake_repr_machinesets.
    + rewrite enter_machineset. intros w Hw. by apply S3.
    + unfold fake_api, st_MachineSets. by destruct (run (map_ops _ _) r s),
        (run (memory_store true (Some res_set_status)) r (ob_machinesets o cl)).
  - destruct Hv as (Hcl & Hv). pose proof (fake_machine_ids cl Hcl).
    destruct (visit_sim (FakeStore.Machine_ cl) (FakeStore.machine_heap cl)
      (FakeStore.set_machine cl) (value_ops (fake_machines cl))
      (memory_store true (Some res_set_status)) (heap_repr (fk_id (fake_machine_cfg cl)))
      valid_req (λ s w, fake_repr s (put_machines cl w o)) r s
      (ob_machines o cl)) as [Hsim Hr].
    + rewrite fake_machines_eq by done.
      apply (fk_refines (fake_machine_cfg cl) (Some res_set_status)), set_status_assign.
    + rewrite enter_machine. by apply kr_machines.
    + done.
    + intros t w Hw. by apply fake_repr_machines.
    + rewrite enter_machine. intros w Hw. by apply S4.
    + unfold fake_api, st_Machines. by destruct (run (map_ops _ _) r s),
        (run (memory_store true (Some res_set_status)) r (ob_machines o cl)).
Qed.

Lemma new_store_repr : fake_repr FakeStore.New no_objects.
Proof.
  split; [apply heap_repr_empty..| |]; intros cl _; [unfold FakeStore.machineSet_heap|
    unfold FakeStore.machine_heap]; simpl; rewrite lookup_empty; apply heap_repr_empty.
Qed.

(** [C4] Every sequence of calls on the in-memory store, made by a caller that passes
    values and whose names are names of files, gives the replies of the abstract store,
    from a new store on: of the one in which an Update of a machine or a machine set
    files it whether there is one or not, as this store does. *)
Theorem fake_store_refines calls :
  Forall fake_valid_call calls →
  Forall2 reply_sim (trace (run_call fake_api) calls FakeStore.New).1
    (trace memory_call calls no_objects).1 ∧
  fake_repr (trace (run_call fake_api) calls FakeStore.New).2
    (trace memory_call calls no_objects).2.
Proof.
  apply (trace_sim _ _ _ fake_repr); [|apply new_store_repr].
  intros q s o. apply fake_step.
Qed.
End whole.

(** ** Where the in-memory store is not the abstract store *)

(** The object a caller created is the stored one: writing through the pointer
    the caller kept changes what [Get] returns, with no call on the store. *)
Theorem stored_object_is_shared (h : heap Cluster) p o o' :
  let s := FakeClusterStore.Make in
  objs h !! p = Some o → cluster_Name o ≠ "" →
  table h !! FakeClusterStore.resourceID s (cluster_Name o) = None →
  let h1 := (FakeClusterStore.Create s (Some p) h).2 in
  (FakeClusterStore.Create s (Some p) h).1 = Ok p ∧
  (q ← FakeClusterStore.Get s (cluster_Name o); deref q) (write p o' h1).2 =
    (Ok o', (write p o' h1).2).
Proof.
  intros s Ho Hn Ht.
  assert (E : FakeClusterStore.Create s (Some p) h =
    (Ok p, Heap (<[p := res_assign o]> (objs h)) (<[FakeClusterStore.resourceID s (cluster_Name o) := p]> (table h)))).
  { unfold FakeClusterStore.Create.
    erewrite bind_ok by (unfold deref; by rewrite Ho). rewrite err_if_false by by apply bool_decide_eq_false.
    erewrite bind_ok.
    2:{ unfold AssignTypeKind_at. erewrite bind_ok by (unfold deref; by rewrite Ho). done. }
    erewrite bind_ok by reflexivity. cbn [table]. change (res_name o) with (cluster_Name o).
    by rewrite Ht. }
  rewrite E. split; [done|]. unfold FakeClusterStore.Get.
  rewrite err_if_false by by apply bool_decide_eq_false. rewrite bind_assoc.
  erewrite bind_ok by reflexivity. cbn [table write snd]. rewrite lookup_insert_eq.
  erewrite bind_ok by reflexivity. unfold deref. cbn [objs]. by rewrite lookup_insert_eq.
Qed.

(** [Update] of a machine that was never created files it, where the interface's
    other stores report that it does not exist. *)
Theorem fake_update_creates `{!RangeOrder} {Crt Key : Type} cl (m : Machine) :
  plain cl → path_name (machine_Name m) → machine_Name m ≠ "" →
  let s : FakeStore.t Crt Key := FakeStore.New in
  (run_call fake_api (OnMachines cl (RUpdate (Some m))) s).1 =
    FromMachines (Ok (Obj (res_assign m))) ∧
  (spec_call Ok Ok Ok Ok (OnMachines cl (RUpdate (Some m))) no_objects).1 =
    FromMachines (Err "does not exist").
Proof.
  intros Hcl Hn Hne s. split.
  - unfold run_call, fake_api, st_Machines. pose proof (fake_machine_ids cl Hcl).
    pose proof (run_visit (FakeStore.Machine_ cl) (FakeStore.machine_heap cl)
      (FakeStore.set_machine cl) (value_ops (fake_machines cl)) (RUpdate (Some m)) s) as [E _].
    destruct (run (map_ops _ _) _ s) as [x s']. cbn [fst] in E |- *. rewrite E. clear E. f_equal.
    rewrite fake_machines_eq by done. rewrite enter_machine.
    cbn [run op_Update value_ops po_Update fk_ops]. unfold fk_Update.
    rewrite result_respond, value_checked by done. simpl fk_upsert. cbv iota.
    assert (HR : heap_repr (fk_id (fake_machine_cfg cl)) (FakeStore.machine_heap cl s) ∅).
    { unfold FakeStore.machine_heap. simpl. rewrite lookup_empty. apply heap_repr_empty. }
    destruct (file_new (Resource0 := machine_resource) (fake_machine_cfg cl) _ ∅ m HR Hn) as [Hr _]. by rewrite Hr.
  - unfold spec_call. simpl. unfold spec_Update, mbind, gom_bind. simpl.
    by rewrite decide_False.
Qed.

Section fake_certs.
Context {Crt Key : Type}.
Implicit Types (s : FakeCertificateStore.t Crt Key).

Definition fake_filed s name crt key : FakeCertificateStore.t Crt Key :=
  FakeCertificateStore.Make
    (<[FakeCertificateStore.certID s name := crt]> (FakeCertificateStore.certs s))
    (<[FakeCertificateStore.keyID s name := key]> (FakeCertificateStore.keys s))
    (FakeCertificateStore.cluster s).

Definition fake_unfiled s name : FakeCertificateStore.t Crt Key :=
  FakeCertificateStore.Make
    (delete (FakeCertificateStore.certID s name) (FakeCertificateStore.certs s))
    (delete (FakeCertificateStore.keyID s name) (FakeCertificateStore.keys s))
    (FakeCertificateStore.cluster s).

Lemma fake_cert_create s name crt key :
  FakeCertificateStore.cluster s ≠ "" →
  FakeCertificateStore.Create name (Some crt) (Some key) s = (Ok (), fake_filed s name crt key).
Proof. intros Hcl. unfold FakeCertificateStore.Create. by rewrite decide_False. Qed.

Lemma fake_cert_get s name crt key :
  FakeCertificateStore.cluster s ≠ "" → name ≠ "" →
  FakeCertificateStore.Get name (fake_filed s name crt key) =
  (Ok (crt, key), fake_filed s name crt key).
Proof.
  intros Hcl Hn. unfold FakeCertificateStore.Get, fake_filed. simpl.
  rewrite !decide_False by done.
  unfold FakeCertificateStore.certID, FakeCertificateStore.keyID, FakeCertificateStore.resourceHome.
  simpl. by rewrite !lookup_insert_eq.
Qed.
End fake_certs.

(** A certificate and its key are read back; a second [Create] replaces them,
    where the file store refuses; [Delete] removes both. *)
Theorem fake_cert_lifecycle {Crt Key : Type} (s : FakeCertificateStore.t Crt Key)
    name crt key crt' key' :
  FakeCertificateStore.cluster s ≠ "" → name ≠ "" →
  let s1 := (FakeCertificateStore.Create name (Some crt) (Some key) s).2 in
  let s2 := (FakeCertificateStore.Create name (Some crt') (Some key') s1).2 in
  FakeCertificateStore.Get name s1 = (Ok (crt, key), s1) ∧
  FakeCertificateStore.Create name (Some crt') (Some key') s1 = (Ok (), s2) ∧
  FakeCertificateStore.Get name s2 = (Ok (crt', key'), s2) ∧
  (FakeCertificateStore.Delete name s2).1 = Ok () ∧
  (∃ e, (FakeCertificateStore.Get name (FakeCertificateStore.Delete name s2).2).1 = Err e).
Proof.
  intros Hcl Hn s1 s2.
  assert (E1 : FakeCertificateStore.Create name (Some crt) (Some key) s =
    (Ok (), fake_filed s name crt key)) by by apply fake_cert_create.
  assert (Es1 : s1 = fake_filed s name crt key) by (unfold s1; by rewrite E1).
  assert (E2 : FakeCertificateStore.Create name (Some crt') (Some key') s1 =
    (Ok (), fake_filed s1 name crt' key')) by (apply fake_cert_create; by rewrite Es1).
  assert (Es2 : s2 = fake_filed s1 name crt' key') by (unfold s2; by rewrite E2).
  assert (Hcl1 : FakeCertificateStore.cluster s1 ≠ "") by by rewrite Es1.
  assert (D2 : FakeCertificateStore.Delete name s2 = (Ok (), fake_unfiled s2 name)).
  { unfold FakeCertificateStore.Delete. rewrite Es2. simpl.
    rewrite !decide_False by done. by rewrite lookup_insert_eq. }
  split_and!.
  - rewrite Es1. by apply fake_cert_get.
  - by rewrite Es2.
  - rewrite Es2. by apply fake_cert_get.
  - by rewrite D2.
  - rewrite D2. unfold FakeCertificateStore.Get, fake_unfiled. simpl.
    rewrite !decide_False by (done || by rewrite Es2). simpl.
    unfold FakeCertificateStore.certID, FakeCertificateStore.resourceHome. simpl.
    rewrite lookup_delete_eq. by eexists.
Qed.

(** ** At concrete values *)
#[export] Program Instance key_order : RangeOrder := {|
  range_keys A t := (map_to_list t).*1
|}.
Solve All Obligations with done.

Definition fake_calls : list call := [
  OnClusters (RCreate (Some (sample_cluster "c1")));
  OnClusters (RUpdateStatus (Some (sample_cluster "c1")));
  OnMachines "c1" (RCreate (Some (sample_machine "c1-master-0")));
  OnMachines "c1" (RDelete "c1-master-0");
  OnMachines "c1" (RUpdate (Some (sample_machine "c1-master-0")));
  OnMachineSets "c1" RList;
  OnCredentials (RGet "do")
].

Lemma fake_calls_valid : Forall fake_valid_call fake_calls.
Proof.
  assert (plain "c1") by plains.
  repeat (apply Forall_cons_2; [done|]). by apply List.Forall_nil.
Qed.

Lemma fake_store_refines_witness :
  Forall2 reply_sim (trace (run_call fake_api) fake_calls (FakeStore.New (Crt := Z) (Key := Z))).1
    (trace memory_call fake_calls no_objects).1 ∧
  fake_repr (trace (run_call fake_api) fake_calls (FakeStore.New (Crt := Z) (Key := Z))).2
    (trace memory_call fake_calls no_objects).2.
Proof. apply (fake_store_refines fake_calls), fake_calls_valid. Defined.

Lemma stored_object_is_shared_witness :
  let s := FakeClusterStore.Make in
  let h : heap Cluster := Heap {[ 1%positive := sample_cluster "c1" ]} ∅ in
  let h1 := (FakeClusterStore.Create s (Some 1%positive) h).2 in
  (FakeClusterStore.Create s (Some 1%positive) h).1 = Ok 1%positive ∧
  (q ← FakeClusterStore.Get s "c1"; deref q) (write 1%positive (sample_cluster "evil") h1).2 =
    (Ok (sample_cluster "evil"), (write 1%positive (sample_cluster "evil") h1).2).
Proof.
  apply (stored_object_is_shared _ 1%positive (sample_cluster "c1") (sample_cluster "evil"));
    [reflexivity|discriminate|reflexivity].
Defined.

Lemma fake_update_creates_witness :
  let s : FakeStore.t Z Z := FakeStore.New in
  (run_call fake_api (OnMachines "c1" (RUpdate (Some (sample_machine "m")))) s).1 =
    FromMachines (Ok (Obj (res_assign (sample_machine "m")))) ∧
  (spec_call Ok Ok Ok Ok (OnMachines "c1" (RUpdate (Some (sample_machine "m")))) no_objects).1 =
    FromMachines (Err "does not exist").
Proof. apply (fake_update_creates "c1" (sample_machine "m")); [plains|done|done]. Defined.

Lemma fake_cert_lifecycle_witness :
  let s : FakeCertificateStore.t Z Z := FakeCertificateStore.Make ∅ ∅ "c1" in
  let s1 := (FakeCertificateStore.Create "ca" (Some 1%Z) (Some 2%Z) s).2 in
  let s2 := (FakeCertificateStore.Create "ca" (Some 3%Z) (Some 4%Z) s1).2 in
  FakeCertificateStore.Get "ca" s1 = (Ok (1%Z, 2%Z), s1) ∧
  FakeCertificateStore.Create "ca" (Some 3%Z) (Some 4%Z) s1 = (Ok (), s2) ∧
  FakeCertificateStore.Get "ca" s2 = (Ok (3%Z, 4%Z), s2) ∧
  (FakeCertificateStore.Delete "ca" s2).1 = Ok () ∧
  (∃ e, (FakeCertificateStore.Get "ca" (FakeCertificateStore.Delete "ca" s2).2).1 = Err e).
Proof. apply (fake_cert_lifecycle _ "ca" 1%Z 2%Z 3%Z 4%Z); discriminate. Defined.
