(* ===== verification/Provider.v ===== *)
(** * store.ResourceInterface, and the abstract store behind it

    The cloud package reaches the store through the interface alone.
    [ResourceInterface] is that interface over an arbitrary backend state (the
    four object stores of StoreSpec.v, [UpdateUUID], the certificate and ssh key
    stores); [spec_provider] is the abstract store: maps for the objects, for the
    certificates and for the ssh keys, with the behaviour the file store was
    shown to have (FileStoreSpec.v, KeyStores.v): [Create] refuses what exists. *)
From stdpp Require Import base list gmap strings fin_maps.
From S2P Require Import Prelude GoStrings Api StoreSpec.

Record ResourceInterface (S Crt Key : Type) := {
  ri_objects :> api_store S;
  ri_UpdateUUID : option Cluster → string → GoM S Cluster;
  ri_cert_Get : string → string → GoM S (Crt * Key);
  ri_cert_Create : string → string → option Crt → option Key → GoM S ();
  ri_ssh_Get : string → string → GoM S (string * string);
  ri_ssh_Create : string → string → string → string → GoM S ()
}.
Arguments ri_objects {_ _ _}. Arguments ri_UpdateUUID {_ _ _}. Arguments ri_cert_Get {_ _ _}.
Arguments ri_cert_Create {_ _ _}. Arguments ri_ssh_Get {_ _ _}. Arguments ri_ssh_Create {_ _ _}.

(** ** The abstract state *)
Record pharmer (Crt Key : Type) := Pharmer {
  ph_objects : objects;
  ph_certs : gmap (string * string) (Crt * Key);        (* by cluster and name *)
  ph_ssh : gmap (string * string) (string * string)
}.
Arguments Pharmer {_ _}. Arguments ph_objects {_ _}. Arguments ph_certs {_ _}.
Arguments ph_ssh {_ _}.

Section spec_provider.
Context {Crt Key : Type}.
Context (pC : Cluster → outcome Cluster) (pCr : Credential → outcome Credential).
Context (pMS : MachineSet → outcome MachineSet) (pM : Machine → outcome Machine).
Implicit Types (s : pharmer Crt Key).

Definition set_objects o s : pharmer Crt Key := Pharmer o (ph_certs s) (ph_ssh s).

(** Running a store of one kind on its part of the state. *)
Definition on_clusters {A} (m : GoM (gmap string Cluster) A) : GoM (pharmer Crt Key) A :=
  zoom (λ s, ob_clusters (ph_objects s)) (λ v s, set_objects (put_clusters v (ph_objects s)) s) m.
Definition on_credentials {A} (m : GoM (gmap string Credential) A) : GoM (pharmer Crt Key) A :=
  zoom (λ s, ob_credentials (ph_objects s))
       (λ v s, set_objects (put_credentials v (ph_objects s)) s) m.
Definition on_machinesets cl {A} (m : GoM (gmap string MachineSet) A) : GoM (pharmer Crt Key) A :=
  zoom (λ s, ob_machinesets (ph_objects s) cl)
       (λ v s, set_objects (put_machinesets cl v (ph_objects s)) s) m.
Definition on_machines cl {A} (m : GoM (gmap string Machine) A) : GoM (pharmer Crt Key) A :=
  zoom (λ s, ob_machines (ph_objects s) cl)
       (λ v s, set_objects (put_machines cl v (ph_objects s)) s) m.

Definition over {T S O} (f : ∀ A, GoM T A → GoM S A) (ops : store_ops T O) : store_ops S O := {|
  op_List := f _ (op_List ops); op_Get n := f _ (op_Get ops n);
  op_Create o := f _ (op_Create ops o); op_Update o := f _ (op_Update ops o);
  op_Delete n := f _ (op_Delete ops n);
  op_UpdateStatus := (λ u o, f _ (u o)) <$> op_UpdateStatus ops
|}.

Definition spec_objects : api_store (pharmer Crt Key) := {|
  st_Credentials := over (@on_credentials) (spec_store pCr None);
  st_Clusters := over (@on_clusters) (spec_store pC (Some res_set_status));
  st_MachineSets cl := over (@on_machinesets cl) (spec_store pMS (Some res_set_status));
  st_Machines cl := over (@on_machines cl) (spec_store pM (Some res_set_status))
|}.

(** The stores check that the cluster exists and hand the object back. *)
Definition spec_UpdateUUID (obj : option Cluster) (uuid : string) : GoM (pharmer Crt Key) Cluster :=
  λ s,
  match obj with
  | None => (Err "missing object", s)
  | Some o =>
      if decide (cluster_Name o = "") then (Err "missing name", s)
      else match ob_clusters (ph_objects s) !! cluster_Name o with
           | None => (Err "does not exist", s)
           | Some _ => (Ok (res_assign o), s)
           end
  end.

Definition spec_pair_Get {A} (field : pharmer Crt Key → gmap (string * string) A)
    (cl name : string) : GoM (pharmer Crt Key) A := λ s,
  if decide (cl = "") then (Err "missing cluster name", s)
  else if decide (name = "") then (Err "missing name", s)
  else match field s !! (cl, name) with
       | None => (Err "does not exist", s)
       | Some x => (Ok x, s)
       end.

Definition spec_cert_Create (cl name : string) (crt : option Crt) (key : option Key) :
    GoM (pharmer Crt Key) () := λ s,
  if decide (cl = "") then (Err "missing cluster name", s)
  else match crt, key with
       | Some c, Some k =>
           match ph_certs s !! (cl, name) with
           | Some _ => (Err "already exists", s)
           | None => (Ok (), Pharmer (ph_objects s) (<[(cl, name) := (c, k)]> (ph_certs s)) (ph_ssh s))
           end
       | _, _ => (Err "missing certificate", s)
       end.

Definition spec_ssh_Create (cl name pub priv : string) : GoM (pharmer Crt Key) () := λ s,
  if decide (cl = "") then (Err "missing cluster name", s)
  else if decide (pub = "") then (Err "empty ssh public key", s)
  else if decide (priv = "") then (Err "empty ssh private key", s)
  else match ph_ssh s !! (cl, name) with
       | Some _ => (Err "already exists", s)
       | None => (Ok (), Pharmer (ph_objects s) (ph_certs s) (<[(cl, name) := (pub, priv)]> (ph_ssh s)))
       end.

Definition spec_provider : ResourceInterface (pharmer Crt Key) Crt Key := {|
  ri_objects := spec_objects;
  ri_UpdateUUID := spec_UpdateUUID;
  ri_cert_Get := spec_pair_Get ph_certs;
  ri_cert_Create := spec_cert_Create;
  ri_ssh_Get := spec_pair_Get ph_ssh;
  ri_ssh_Create := spec_ssh_Create
|}.
End spec_provider.
