(* ===== verification/Certs.v ===== *)
(** * Certificates and ssh keys of a cluster (cloud/utils/certificates)

    A new cluster gets four self-signed CA pairs and an ssh key pair, stored
    under fixed names; [GetPharmerCerts] loads them back.  Key generation and
    signing are libraries: the class [Crypto], indexed by a counter that stands
    for the randomness consumed. *)
From stdpp Require Import base list gmap strings fin_maps.
From S2P Require Import Prelude GoStrings Api StoreSpec Provider.

Class Crypto (Crt Key SSHKey : Type) := {
  NewPrivateKey : nat → outcome Key;
  NewSelfSignedCACert : string → Key → outcome Crt;
  NewSignedCert : string → list string → Key → Crt → Key → outcome Crt;
  NewSSHKeyPair : nat → outcome (string * string);
  ParseSSHKeyPair : string → string → outcome SSHKey
}.

(** certificates.go *)
Record CertKeyPair (Crt Key : Type) := { Cert : Crt; CKey : Key }.
Arguments Cert {_ _}. Arguments CKey {_ _}.

Record Certificates (Crt Key SSHKey : Type) := {
  CACert : CertKeyPair Crt Key;
  FrontProxyCACert : CertKeyPair Crt Key;
  ServiceAccountCert : CertKeyPair Crt Key;
  EtcdCACert : CertKeyPair Crt Key;
  SSHKey_ : SSHKey
}.
Arguments CACert {_ _ _}. Arguments FrontProxyCACert {_ _ _}.
Arguments ServiceAccountCert {_ _ _}. Arguments EtcdCACert {_ _ _}. Arguments SSHKey_ {_ _ _}.

Definition pair_of {Crt Key} (ck : Crt * Key) : CertKeyPair Crt Key :=
  {| Cert := ck.1; CKey := ck.2 |}.

Definition wrap (context : string) (e : error) : error := context +:+ ": " +:+ e.

Definition GenSSHKeyName (clusterName : string) : string := clusterName +:+ "-sshkey".

Definition SystemPrivilegedGroup : string := "system:masters".

Section certs.
Context {S Crt Key SSHKey : Type} `{!Crypto Crt Key SSHKey}.
Context (sp : ResourceInterface S Crt Key).

(** The store's state with the counter of the randomness used so far. *)
Definition on_store {A} (m : GoM S A) : GoM (S * nat) A := zoom fst (λ s st, (s, snd st)) m.
Definition draw {A} (f : nat → outcome A) : GoM (S * nat) A := λ st,
  (f (snd st), (fst st, Datatypes.S (snd st))).

Definition CreateCertificates (cl name commonName : string) : GoM (S * nat) (Crt * Key) :=
  caKey ← on_err (wrap "failed to generate private key") (draw NewPrivateKey);
  caCert ← on_err (λ e, "failed to generate self-signed certificate. Reason: " +:+ e)
                  (lift (NewSelfSignedCACert commonName caKey));
  _ ← on_err (wrap ("failed to create " +:+ name +:+ " certificate"))
             (on_store (ri_cert_Create sp cl name (Some caCert) (Some caKey)));
  mret (caCert, caKey).

Definition CreateCACertificates cl := CreateCertificates cl CACertName CACertCommonName.
Definition CreateFrontProxyCACertificates cl :=
  CreateCertificates cl FrontProxyCACertName FrontProxyCACertCommonName.
Definition CreateSACertificate cl := CreateCertificates cl SAKeyName SAKeyCommonName.
Definition CreateEtcdCACertificate cl := CreateCertificates cl ETCDCACertName ETCDCACertCommonName.

Definition LoadCACertificates (cl name : string) : GoM (S * nat) (Crt * Key) :=
  on_err (wrap "failed to get CA certificates") (on_store (ri_cert_Get sp cl name)).

Definition CreateAdminCertificate (caCert : Crt) (caKey : Key) : GoM (S * nat) (Crt * Key) :=
  adminKey ← on_err (λ e, "failed to generate private key. Reason: " +:+ e) (draw NewPrivateKey);
  adminCert ← on_err (λ e, "failed to generate server certificate. Reason: " +:+ e)
    (lift (NewSignedCert "cluster-admin" [SystemPrivilegedGroup] adminKey caCert caKey));
  mret (adminCert, adminKey).

Definition GetAdminCertificate (cl : string) : GoM (S * nat) (Crt * Key) :=
  on_err (λ e, "failed to get admin certificates. Reason: " +:+ e) (on_store (ri_cert_Get sp cl "admin")).

Definition CreateSSHKey (cl name : string) : GoM (S * nat) (string * string) :=
  sshKey ← on_err (wrap "failed to create new ssh key pair") (draw NewSSHKeyPair);
  _ ← on_err (wrap "failed to store ssh keys")
             (on_store (ri_ssh_Create sp cl name sshKey.1 sshKey.2));
  mret sshKey.

Definition LoadSSHKey (cl keyName : string) : GoM (S * nat) SSHKey :=
  kp ← on_err (λ e, "failed to get SSH key. Reason: " +:+ e) (on_store (ri_ssh_Get sp cl keyName));
  on_err (wrap "failed to parse SSH key") (lift (ParseSSHKeyPair kp.1 kp.2)).

Definition GetPharmerCerts (clusterName : string) : GoM (S * nat) (Certificates Crt Key SSHKey) :=
  ca ← on_err (wrap "failed to load ca Certs") (LoadCACertificates clusterName CACertName);
  fp ← on_err (wrap "failed to load fpca Certs") (LoadCACertificates clusterName FrontProxyCACertName);
  sa ← on_err (wrap "failed to load sa keys") (LoadCACertificates clusterName SAKeyName);
  etcd ← on_err (wrap "failed to load etcd-ca keys") (LoadCACertificates clusterName ETCDCACertName);
  ssh ← on_err (wrap "failed to load ssh keys") (LoadSSHKey clusterName (GenSSHKeyName clusterName));
  mret {| CACert := pair_of ca; FrontProxyCACert := pair_of fp; ServiceAccountCert := pair_of sa;
          EtcdCACert := pair_of etcd; SSHKey_ := ssh |}.

Definition CreateCertsKeys (clusterName : string) : GoM (S * nat) (Certificates Crt Key SSHKey) :=
  ca ← on_err (wrap "failed to create ca certificates") (CreateCACertificates clusterName);
  fp ← on_err (wrap "failed to create fpca certificates") (CreateFrontProxyCACertificates clusterName);
  sa ← on_err (wrap "failed to create sa certificates") (CreateSACertificate clusterName);
  etcd ← on_err (wrap "failed to create etcd-ca certificates") (CreateEtcdCACertificate clusterName);
  _ ← on_err (wrap "failed to create ssh keys") (CreateSSHKey clusterName (GenSSHKeyName clusterName));
  ssh ← on_err (wrap "failed to load ssh keys") (LoadSSHKey clusterName (GenSSHKeyName clusterName));
  mret {| CACert := pair_of ca; FrontProxyCACert := pair_of fp; ServiceAccountCert := pair_of sa;
          EtcdCACert := pair_of etcd; SSHKey_ := ssh |}.
End certs.

(** ** Creating and loading on the abstract store *)
Class CryptoLaws (Crt Key SSHKey : Type) `{!Crypto Crt Key SSHKey} : Prop := {
  crypto_key n : ∃ k : Key, NewPrivateKey n = Ok k;
  crypto_ca cn k : ∃ c : Crt, NewSelfSignedCACert cn k = Ok c;
  crypto_ssh n : ∃ pub priv, NewSSHKeyPair n = Ok (pub, priv) ∧ pub ≠ "" ∧ priv ≠ "" ∧
                             ∃ k : SSHKey, ParseSSHKeyPair pub priv = Ok k
}.

(** The names of a cluster's CA pairs. *)
Definition ca_names : list string := [CACertName; FrontProxyCACertName; SAKeyName; ETCDCACertName].

Section spec_certs.
Context {Crt Key SSHKey : Type} `{!Crypto Crt Key SSHKey, !CryptoLaws Crt Key SSHKey}.
Context (pC : Cluster → outcome Cluster) (pCr : Credential → outcome Credential).
Context (pMS : MachineSet → outcome MachineSet) (pM : Machine → outcome Machine).
Implicit Types (s : pharmer Crt Key) (t : nat).

Let sp := spec_provider (Crt := Crt) (Key := Key) pC pCr pMS pM.

Definition add_cert cl name (ck : Crt * Key) s : pharmer Crt Key :=
  Pharmer (ph_objects s) (<[(cl, name) := ck]> (ph_certs s)) (ph_ssh s).

Definition add_ssh cl name (kp : string * string) s : pharmer Crt Key :=
  Pharmer (ph_objects s) (ph_certs s) (<[(cl, name) := kp]> (ph_ssh s)).

Lemma create_certificates_new cl name cn s t :
  cl ≠ "" → ph_certs s !! (cl, name) = None →
  ∃ ck, CreateCertificates sp cl name cn (s, t) = (Ok ck, (add_cert cl name ck s, Datatypes.S t)).
Proof.
  intros Hcl Hs. destruct (crypto_key (Crt := Crt) (SSHKey := SSHKey) t) as [k Hk].
  destruct (crypto_ca (SSHKey := SSHKey) cn k) as [c Hc].
  exists (c, k). unfold CreateCertificates.
  erewrite bind_ok by (apply on_err_ok; unfold draw; simpl; by rewrite Hk).
  erewrite bind_ok by (apply on_err_ok; unfold lift; by rewrite Hc).
  erewrite bind_ok; [done|]. apply on_err_ok. unfold on_store, zoom. simpl.
  unfold spec_cert_Create. by rewrite decide_False, Hs.
Qed.

Lemma create_certificates_exists cl name cn s t ck :
  ph_certs s !! (cl, name) = Some ck →
  ∃ e t', CreateCertificates sp cl name cn (s, t) = (Err e, (s, t')).
Proof.
  intros Hs. destruct (crypto_key (Crt := Crt) (SSHKey := SSHKey) t) as [k Hk].
  destruct (crypto_ca (SSHKey := SSHKey) cn k) as [c Hc]. unfold CreateCertificates.
  erewrite bind_ok by (apply on_err_ok; unfold draw; simpl; by rewrite Hk).
  erewrite bind_ok by (apply on_err_ok; unfold lift; by rewrite Hc).
  assert (∃ e, ri_cert_Create sp cl name (Some c) (Some k) s = (Err e, s)) as [e E].
  { simpl. unfold spec_cert_Create. rewrite Hs. case_decide; by eexists. }
  do 2 eexists. erewrite bind_err; [done|]. eapply on_err_err. unfold on_store, zoom.
  cbn [fst snd]. by rewrite E.
Qed.

Lemma load_certificates cl name s t ck :
  cl ≠ "" → name ≠ "" → ph_certs s !! (cl, name) = Some ck →
  LoadCACertificates sp cl name (s, t) = (Ok ck, (s, t)).
Proof.
  intros Hcl Hn Hs. unfold LoadCACertificates. apply on_err_ok. unfold on_store, zoom. simpl.
  unfold spec_pair_Get. by rewrite !decide_False, Hs.
Qed.

Lemma create_ssh_new cl name s t :
  cl ≠ "" → ph_ssh s !! (cl, name) = None →
  ∃ kp k, CreateSSHKey sp cl name (s, t) = (Ok kp, (add_ssh cl name kp s, Datatypes.S t)) ∧
          ParseSSHKeyPair kp.1 kp.2 = Ok k.
Proof.
  intros Hcl Hs. destruct (crypto_ssh (Crt := Crt) (Key := Key) t) as (pub & priv & Hp & H1 & H2 & k & Hk).
  exists (pub, priv), k. split; [|done]. unfold CreateSSHKey.
  erewrite bind_ok by (apply on_err_ok; unfold draw; simpl; by rewrite Hp).
  erewrite bind_ok; [done|]. apply on_err_ok. unfold on_store, zoom. simpl.
  unfold spec_ssh_Create. by rewrite !decide_False, Hs.
Qed.

Lemma load_ssh cl name s t kp k :
  cl ≠ "" → name ≠ "" → ph_ssh s !! (cl, name) = Some kp → ParseSSHKeyPair kp.1 kp.2 = Ok k →
  LoadSSHKey sp cl name (s, t) = (Ok k, (s, t)).
Proof.
  intros Hcl Hn Hs Hk. unfold LoadSSHKey.
  erewrite bind_ok.
  2:{ apply on_err_ok. unfold on_store, zoom. simpl. unfold spec_pair_Get.
      by rewrite !decide_False, Hs. }
  apply on_err_ok. unfold lift. by rewrite Hk.
Qed.

Lemma ssh_name_ne cl : GenSSHKeyName cl ≠ "".
Proof. unfold GenSSHKeyName. intros E. by apply append_eq_nil in E as [_ ?]. Qed.

(** What [CreateCertsKeys] adds to the store. *)
Definition with_keys cl (ca fp sa etcd : Crt * Key) (kp : string * string) s : pharmer Crt Key :=
  add_ssh cl (GenSSHKeyName cl) kp
    (add_cert cl ETCDCACertName etcd (add_cert cl SAKeyName sa
      (add_cert cl FrontProxyCACertName fp (add_cert cl CACertName ca s)))).

Lemma create_certs_keys_fresh cl s t :
  cl ≠ "" → (∀ n, n ∈ ca_names → ph_certs s !! (cl, n) = None) →
  ph_ssh s !! (cl, GenSSHKeyName cl) = None →
  ∃ ca fp sa etcd kp k t',
    let certs := {| CACert := pair_of ca; FrontProxyCACert := pair_of fp;
                    ServiceAccountCert := pair_of sa; EtcdCACert := pair_of etcd; SSHKey_ := k |} in
    ParseSSHKeyPair kp.1 kp.2 = Ok k ∧
    CreateCertsKeys sp cl (s, t) = (Ok certs, (with_keys cl ca fp sa etcd kp s, t')).
Proof.
  intros Hcl Hc Hs. unfold CreateCertsKeys.
  destruct (create_certificates_new cl CACertName CACertCommonName s t Hcl) as [ca E1].
  { apply Hc. by left. }
  destruct (create_certificates_new cl FrontProxyCACertName FrontProxyCACertCommonName
    (add_cert cl CACertName ca s) (Datatypes.S t) Hcl) as [fp E2].
  { simpl. rewrite !lookup_insert_ne by done. apply Hc. by right; left. }
  destruct (create_certificates_new cl SAKeyName SAKeyCommonName
    (add_cert cl FrontProxyCACertName fp (add_cert cl CACertName ca s))
    (Datatypes.S (Datatypes.S t)) Hcl) as [sa E3].
  { simpl. rewrite !lookup_insert_ne by done. apply Hc. by do 2 right; left. }
  destruct (create_certificates_new cl ETCDCACertName ETCDCACertCommonName
    (add_cert cl SAKeyName sa (add_cert cl FrontProxyCACertName fp (add_cert cl CACertName ca s)))
    (Datatypes.S (Datatypes.S (Datatypes.S t))) Hcl) as [etcd E4].
  { simpl. rewrite !lookup_insert_ne by done. apply Hc. by do 3 right; left. }
  destruct (create_ssh_new cl (GenSSHKeyName cl)
    (add_cert cl ETCDCACertName etcd (add_cert cl SAKeyName sa
      (add_cert cl FrontProxyCACertName fp (add_cert cl CACertName ca s))))
    (Datatypes.S (Datatypes.S (Datatypes.S (Datatypes.S t)))) Hcl Hs) as (kp & k & E5 & Hk).
  exists ca, fp, sa, etcd, kp, k. eexists. split; [done|].
  erewrite bind_ok by (by apply on_err_ok). erewrite bind_ok by (by apply on_err_ok).
  erewrite bind_ok by (by apply on_err_ok). erewrite bind_ok by (by apply on_err_ok).
  erewrite bind_ok by (by apply on_err_ok).
  erewrite bind_ok; [done|]. apply on_err_ok.
  apply (load_ssh _ _ _ _ kp); [done|apply ssh_name_ne| |done]. simpl. apply lookup_insert_eq.
Qed.

(** Certificates are never made twice: once a cluster has its CA,
    [CreateCertsKeys] fails and stores nothing. *)
Lemma create_certs_keys_again cl s t ck :
  ph_certs s !! (cl, CACertName) = Some ck →
  ∃ e t', CreateCertsKeys sp cl (s, t) = (Err e, (s, t')).
Proof.
  intros Hs. destruct (create_certificates_exists cl CACertName CACertCommonName s t ck Hs)
    as (e & t' & E).
  do 2 eexists. unfold CreateCertsKeys. by erewrite bind_err by (by eapply on_err_err).
Qed.
(** Loading what the store holds for a cluster. *)
Lemma get_pharmer_certs_ok cl s ca fp sa etcd kp k t :
  cl ≠ "" → ph_certs s !! (cl, CACertName) = Some ca →
  ph_certs s !! (cl, FrontProxyCACertName) = Some fp → ph_certs s !! (cl, SAKeyName) = Some sa →
  ph_certs s !! (cl, ETCDCACertName) = Some etcd → ph_ssh s !! (cl, GenSSHKeyName cl) = Some kp →
  ParseSSHKeyPair kp.1 kp.2 = Ok k →
  GetPharmerCerts sp cl (s, t) =
    (Ok {| CACert := pair_of ca; FrontProxyCACert := pair_of fp; ServiceAccountCert := pair_of sa;
           EtcdCACert := pair_of etcd; SSHKey_ := k |}, (s, t)).
Proof.
  intros Hcl L1 L2 L3 L4 L5 Hk. unfold GetPharmerCerts.
  erewrite bind_ok by (by eapply on_err_ok, load_certificates).
  erewrite bind_ok by (by eapply on_err_ok, load_certificates).
  erewrite bind_ok by (by eapply on_err_ok, load_certificates).
  erewrite bind_ok by (by eapply on_err_ok, load_certificates).
  erewrite bind_ok; [done|]. eapply on_err_ok, load_ssh; [done|apply ssh_name_ne|done..].
Qed.

(** The certificates and keys a cluster has in the store, wherever the rest of
    the store goes from there. *)
Definition has_keys cl (certs : Certificates Crt Key SSHKey) s : Prop :=
  (∀ n, n ∈ ca_names → is_Some (ph_certs s !! (cl, n))) ∧
  ∀ t, GetPharmerCerts sp cl (s, t) = (Ok certs, (s, t)).

Lemma load_certificates_read cl name s t ck st :
  LoadCACertificates sp cl name (s, t) = (Ok ck, st) → st = (s, t).
Proof.
  intros E%on_err_ok_inv. unfold on_store, zoom in E. cbn in E. unfold spec_pair_Get in E.
  repeat case_decide; try done. destruct (ph_certs s !! _); [by injection E|done].
Qed.

Lemma has_keys_ssh cl certs s : has_keys cl certs s → is_Some (ph_ssh s !! (cl, GenSSHKeyName cl)).
Proof.
  intros [_ Hg]. specialize (Hg 0). unfold GetPharmerCerts in Hg.
  do 4 (apply bind_ok_inv in Hg as (? & ? & Hc%on_err_ok_inv & Hg);
        apply load_certificates_read in Hc as ->).
  apply bind_ok_inv in Hg as (? & ? & Hc%on_err_ok_inv & _).
  apply bind_ok_inv in Hc as (kp & ? & Hk%on_err_ok_inv & _).
  unfold on_store, zoom in Hk. cbn in Hk. unfold spec_pair_Get in Hk. repeat case_decide; try done.
  by destruct (ph_ssh s !! _).
Qed.

Lemma create_certs_keys_stored cl s t :
  cl ≠ "" → (∀ n, n ∈ ca_names → ph_certs s !! (cl, n) = None) →
  ph_ssh s !! (cl, GenSSHKeyName cl) = None →
  ∃ certs s' t',
    CreateCertsKeys sp cl (s, t) = (Ok certs, (s', t')) ∧
    ph_objects s' = ph_objects s ∧
    (∀ s2, ph_certs s2 = ph_certs s' → ph_ssh s2 = ph_ssh s' → has_keys cl certs s2).
Proof.
  intros Hcl Hc Hs.
  destruct (create_certs_keys_fresh cl s t Hcl Hc Hs)
    as (ca & fp & sa & etcd & kp & k & t' & Hk & E).
  do 3 eexists. split; [done|]. split; [done|]. intros s2 E1 E2.
  assert (L : ph_certs s2 !! (cl, CACertName) = Some ca ∧
    ph_certs s2 !! (cl, FrontProxyCACertName) = Some fp ∧
    ph_certs s2 !! (cl, SAKeyName) = Some sa ∧ ph_certs s2 !! (cl, ETCDCACertName) = Some etcd).
  { rewrite E1. unfold with_keys, add_cert, add_ssh. simpl.
    split_and!; by rewrite ?lookup_insert_ne, lookup_insert_eq by done. }
  destruct L as (L1 & L2 & L3 & L4). split.
  - intros n Hn. unfold ca_names in Hn. rewrite !elem_of_cons in Hn.
    destruct Hn as [-> | [-> | [-> | [-> | Hn]]]]; [by eexists..|by apply not_elem_of_nil in Hn].
  - intros t2. eapply get_pharmer_certs_ok; try done.
    rewrite E2. simpl. apply lookup_insert_eq.
Qed.

(** [C5] A new cluster's certificates and ssh key are stored under their names, and
    [GetPharmerCerts] loads exactly what [CreateCertsKeys] returned; asking for
    them a second time is refused and leaves the first ones in place. *)
Theorem certs_roundtrip cl s t :
  cl ≠ "" → (∀ n, n ∈ ca_names → ph_certs s !! (cl, n) = None) →
  ph_ssh s !! (cl, GenSSHKeyName cl) = None →
  ∃ certs s' t',
    CreateCertsKeys sp cl (s, t) = (Ok certs, (s', t')) ∧
    ph_objects s' = ph_objects s ∧
    (∀ n, n ∈ ca_names → is_Some (ph_certs s' !! (cl, n))) ∧
    (∀ t2, GetPharmerCerts sp cl (s', t2) = (Ok certs, (s', t2))) ∧
    (∀ t2, ∃ e t3, CreateCertsKeys sp cl (s', t2) = (Err e, (s', t3))).
Proof.
  intros Hcl Hc Hs.
  destruct (create_certs_keys_stored cl s t Hcl Hc Hs) as (certs & s' & t' & E & Eo & Hk).
  exists certs, s', t'. destruct (Hk s' eq_refl eq_refl) as [Hn Hg].
  split_and!; [done..|]. intros t2.
  destruct (Hn CACertName ltac:(left)) as [ck Hck]. by eapply create_certs_keys_again.
Qed.
End spec_certs.
