(* ===== verification/Kube.v ===== *)
(** * Talking to a Kubernetes cluster (apis/v1alpha1/kubeconfig.go, cloud/utils/kube)

    Kubeconfigs and REST configs built from the certificates in the store, the
    waiting loops, secrets and bootstrap tokens.  The API server is a service:
    the class [Kubernetes] lists the calls pharmer makes to it, over a state [X]
    of the cloud that the model leaves open.  [k8s] waits by polling; how often
    [wait.PollImmediate] gets to try in RetryTimeout is the class [Polling]. *)
From stdpp Require Import base list gmap strings pretty fin_maps.
From Stdlib Require Import Ascii.
From S2P Require Import Prelude GoStrings Api StoreSpec Provider Certs.

(** time.Now and uuid.NewUUID, by the number of calls so far. *)
Class Clock := {
  time_now : nat → Time;
  new_uuid : nat → outcome string
}.

(** ** apis/v1alpha1/kubeconfig.go *)
Record NamedCluster := {
  nc_Name : string; nc_Server : string; nc_CertificateAuthorityData : string
}.

Record NamedContext := { nx_Name : string; nx_Cluster : string; nx_AuthInfo : string }.

Record ExecConfig := {
  ex_Command : string; ex_Args : list string; ex_Env : list (string * string); ex_APIVersion : string
}.

Record NamedAuthInfo := {
  na_Name : string; na_ClientCertificateData : string; na_ClientKeyData : string;
  na_Token : string; na_Username : string; na_Password : string; na_Exec : option ExecConfig
}.

Record KubeConfig := {
  kc_TypeMeta : TypeMeta; kc_Colors : bool; kc_Cluster : NamedCluster;
  kc_AuthInfo : NamedAuthInfo; kc_Context : NamedContext
}.

(** k8s.io/client-go/tools/clientcmd/api, the fields pharmer sets *)
Record ClientCluster := { cc_Server : string; cc_CertificateAuthorityData : string }.

Record ClientAuthInfo := {
  ca_ClientCertificateData : string; ca_ClientKeyData : string; ca_Token : string;
  ca_Username : string; ca_Password : string; ca_Exec : option ExecConfig
}.

Record ClientContext := { cx_Cluster : string; cx_AuthInfo : string }.

Record ClientConfig := {
  cf_Kind : string; cf_APIVersion : string; cf_Colors : bool;
  Clusters : gmap string ClientCluster;
  AuthInfos : gmap string ClientAuthInfo;
  Contexts : gmap string ClientContext;
  CurrentContext : string
}.

Definition Convert_KubeConfig_To_Config (k : KubeConfig) : ClientConfig := {|
  cf_Kind := "Config";
  cf_APIVersion := "v1";
  cf_Colors := kc_Colors k;
  Clusters := {[ nc_Name (kc_Cluster k) :=
    {| cc_Server := nc_Server (kc_Cluster k);
       cc_CertificateAuthorityData := nc_CertificateAuthorityData (kc_Cluster k) |} ]};
  AuthInfos := {[ na_Name (kc_AuthInfo k) :=
    {| ca_ClientCertificateData := na_ClientCertificateData (kc_AuthInfo k);
       ca_ClientKeyData := na_ClientKeyData (kc_AuthInfo k);
       ca_Token := na_Token (kc_AuthInfo k);
       ca_Username := ""; ca_Password := ""; ca_Exec := None |} ]};
  Contexts := {[ nx_Name (kc_Context k) :=
    {| cx_Cluster := nx_Cluster (kc_Context k); cx_AuthInfo := nx_AuthInfo (kc_Context k) |} ]};
  CurrentContext := nx_Name (kc_Context k)
|}.

(** ** Parameters *)

(** k8s.io/client-go/rest.Config, the fields pharmer sets *)
Record RestConfig := {
  rc_Host : string; rc_CAData : string; rc_CertData : string; rc_KeyData : string;
  rc_BearerToken : string; rc_Username : string; rc_Password : string
}.

Record Secret := { sec_Name : string; sec_Type : string; sec_Data : gmap string string }.

(** gomodules.xyz/cert *)
Class CertText (Crt Key : Type) := {
  cert_text : Crt → string;
  key_text : Key → string
}.

(** The calls to the API server, and the clients that make them: [KC] for
    kubernetes.Interface, [CC] for the cluster-api clientset, [BC] for the
    bootstrap client. *)
Class Kubernetes (X KC CC BC : Type) := {
  kubernetes_NewForConfig : RestConfig → outcome KC;
  clientset_NewForConfig : RestConfig → outcome CC;
  client_from_kubeconfig : ClientConfig → outcome BC;
  Pods_List : KC → GoM X ();
  ComponentStatuses_List : KC → GoM X (list (list (string * string)));
  MasterNodes_List : KC → GoM X (list string);          (* the kubelet versions *)
  Namespaces_Get : KC → string → GoM X string;          (* the UID *)
  Namespaces_Create : KC → string → gmap string string → GoM X ();
  Secrets_Get : KC → string → string → GoM X Secret;
  Secrets_Create : KC → string → Secret → GoM X ();
  BootstrapTokens_List : KC → GoM X (list Secret);      (* kube-system, bootstrap-token type *)
  ConfigMaps_Create : KC → string → string → gmap string string → GoM X ();
  capi_Clusters_Get : CC → string → string → GoM X CapiCluster;
  capi_Clusters_UpdateStatus : CC → string → CapiCluster → GoM X CapiCluster;
  capi_Machines_List : CC → GoM X (list Machine);
  capi_Machines_Get : CC → string → string → GoM X Machine;
  capi_Machines_Create : CC → string → Machine → GoM X Machine;
  capi_Machines_UpdateStatus : CC → string → Machine → GoM X Machine;
  capi_Machines_Delete : CC → string → string → GoM X ();
  capi_MachineSets_List : CC → GoM X (list MachineSet);
  capi_MachineSets_Delete : CC → string → string → GoM X ();
  capi_MachineDeployments_List : CC → GoM X (list ObjectMeta);
  capi_MachineDeployments_Delete : CC → string → string → GoM X ();
  bc_Apply : BC → string → GoM X ();
  bc_GetContextNamespace : BC → string;
  bc_EnsureNamespace : BC → string → GoM X ();
  bc_CreateClusterObject : BC → CapiCluster → GoM X ()
}.

(** math/rand, time.Parse and time.Format (RFC3339, the zero time when it does
    not parse). *)
Class TimeText := { parse_time : string → Time; format_time : Time → string }.
Class Rand := { Intn : nat → nat → nat }.      (* the draw, the bound *)
Class Polling := { retries : nat }.

(** ** k8s.io/apimachinery/pkg/util/wait *)

(** wait.PollImmediate: once at once, then up to [n] times. *)
Fixpoint PollImmediate {S} (n : nat) (condition : GoM S bool) : GoM S () :=
  done ← condition;
  if done : bool then mret () else
  match n with
  | O => throw "timed out waiting for the condition"
  | Datatypes.S n => PollImmediate n condition
  end.

(** [v, err := m; if err != nil { return false, nil }]: an error is "not yet". *)
Definition unless_err {S A} (m : GoM S A) (k : A → GoM S bool) : GoM S bool :=
  r ← attempt m;
  match r with
  | inl a => k a
  | inr _ => mret false
  end.

(** ** client.go *)
Section client.
Context {S X KC CC BC Crt Key SSHKey : Type}.
Context `{!Crypto Crt Key SSHKey, !CertText Crt Key, !Kubernetes X KC CC BC}.
Context (sp : ResourceInterface S Crt Key).

Definition GetAdminCert (cl : string) : GoM (S * nat) (Crt * Crt * Key) :=
  ca ← on_err (wrap "failed to get ca-certs") (on_store (ri_cert_Get sp cl CACertName));
  stored ← attempt (on_store (ri_cert_Get sp cl "admin"));
  admin ← match stored with
          | inl a => mret a
          | inr _ => CreateAdminCertificate (SSHKey := SSHKey) ca.1 ca.2
          end;
  mret (ca.1, admin.1, admin.2).

Definition NewRestConfig (cl clusterEndpoint : string) : GoM (S * nat) RestConfig :=
  ca ← on_err (wrap "failed to get ca-certs") (on_store (ri_cert_Get sp cl CACertName));
  stored ← attempt (on_store (ri_cert_Get sp cl "admin"));
  admin ← match stored with
          | inl a => mret a
          | inr _ => CreateAdminCertificate (SSHKey := SSHKey) ca.1 ca.2
          end;
  mret {| rc_Host := clusterEndpoint; rc_CAData := cert_text ca.1; rc_CertData := cert_text admin.1;
          rc_KeyData := key_text admin.2; rc_BearerToken := ""; rc_Username := ""; rc_Password := "" |}.

Definition NewRestConfigFromKubeConfig (k : KubeConfig) : RestConfig :=
  if decide (na_Token (kc_AuthInfo k) = "") then
    {| rc_Host := nc_Server (kc_Cluster k);
       rc_CAData := nc_CertificateAuthorityData (kc_Cluster k);
       rc_CertData := na_ClientCertificateData (kc_AuthInfo k);
       rc_KeyData := na_ClientKeyData (kc_AuthInfo k); rc_BearerToken := ""; rc_Username := ""; rc_Password := "" |}
  else
    {| rc_Host := nc_Server (kc_Cluster k);
       rc_CAData := nc_CertificateAuthorityData (kc_Cluster k);
       rc_CertData := ""; rc_KeyData := ""; rc_BearerToken := na_Token (kc_AuthInfo k);
       rc_Username := ""; rc_Password := "" |}.

Definition NewAdminClient (cl clusterEndpoint : string) : GoM (S * nat) KC :=
  cfg ← NewRestConfig cl clusterEndpoint;
  lift (kubernetes_NewForConfig cfg).

Definition GetAdminConfig (cluster : Cluster) (caCert : CertKeyPair Crt Key) :
    GoM (S * nat) KubeConfig :=
  admin ← GetAdminCert (cluster_Name cluster);
  let clusterName := cluster_Name cluster +:+ ".pharmer" in
  let userName := "cluster-admin@" +:+ cluster_Name cluster +:+ ".pharmer" in
  let ctxName := "cluster-admin@" +:+ cluster_Name cluster +:+ ".pharmer" in
  mret {| kc_TypeMeta := {| Kind := "KubeConfig"; APIVersion := "v1" |};
          kc_Colors := true;
          kc_Cluster := {| nc_Name := clusterName; nc_Server := APIServerURL cluster;
                           nc_CertificateAuthorityData := cert_text (Cert caCert) |};
          kc_AuthInfo := {| na_Name := userName; na_ClientCertificateData := cert_text admin.1.2;
                            na_ClientKeyData := key_text admin.2; na_Token := "";
                            na_Username := ""; na_Password := ""; na_Exec := None |};
          kc_Context := {| nx_Name := ctxName; nx_Cluster := clusterName; nx_AuthInfo := userName |} |}.

Definition GetBooststrapClient (cluster : Cluster) (caCert : CertKeyPair Crt Key) :
    GoM (S * nat) BC :=
  kubeConfig ← GetAdminConfig cluster caCert;
  on_err (λ e, "unable to create bootstrap client: " +:+ e)
         (lift (client_from_kubeconfig (Convert_KubeConfig_To_Config kubeConfig))).

Definition GetClusterAPIClient (cl clusterEndpoint : string) : GoM (S * nat) CC :=
  conf ← on_err (wrap "failed to get rest config") (NewRestConfig cl clusterEndpoint);
  lift (clientset_NewForConfig conf).
End client.

(** ** Waiting for the control plane: client.go *)
Section waits.
Context {X KC CC BC : Type} `{!Kubernetes X KC CC BC, !Polling}.

Definition waitForReadyAPIServer (client : KC) : GoM X () :=
  PollImmediate retries (unless_err (Pods_List client) (λ _, mret true)).

(** One condition of one component: type and status. *)
Definition unhealthy (cond : string * string) : bool :=
  bool_decide (cond.1 = "Healthy") && negb (bool_decide (cond.2 = "True")).

Definition waitForReadyComponents (client : KC) : GoM X () :=
  PollImmediate retries (unless_err (ComponentStatuses_List client)
    (λ items, mret (negb (existsb (existsb unhealthy) items)))).

Definition WaitForReadyMaster (client : KC) : GoM X () :=
  _ ← waitForReadyAPIServer client;
  waitForReadyComponents client.

(** The version library is a parameter: parse ([None] on an error), print, compare. *)
Definition WaitForReadyMasterVersion {V} (NewVersion : string → option V) (Equal : V → V → bool)
    (client : KC) (desiredVersion : option V) : GoM X () :=
  match desiredVersion with
  | None => panic "invalid memory address or nil pointer dereference"
  | Some desired =>
      PollImmediate retries (unless_err (MasterNodes_List client) (λ items,
        match items with
        | [] => mret false
        | [v] =>
            match NewVersion v with
            | Some current => mret (Equal current desired)
            | None => panic "invalid memory address or nil pointer dereference"
            end
        | _ => throw "multiple master found"
        end))
  end.

(** ** secret.go *)
Definition CreateSecret (kc : KC) (name namespace : string) (data : gmap string string) : GoM X () :=
  let secret := {| sec_Name := name; sec_Type := "Opaque"; sec_Data := data |} in
  PollImmediate retries (
    existing ← attempt (Secrets_Get kc namespace name);
    match existing with
    | inl _ => mret true
    | inr _ => unless_err (Secrets_Create kc namespace secret) (λ _, mret true)
    end).

Definition CreateCredentialSecret (client : KC) (cloudProvider namespace : string)
    (data : gmap string string) : GoM X () :=
  CreateSecret client cloudProvider namespace data.

Definition CreateNamespace (kc : KC) (namespace : string) : GoM X () :=
  PollImmediate retries (
    existing ← attempt (Namespaces_Get kc namespace);
    match existing with
    | inl _ => mret true
    | inr _ => unless_err (Namespaces_Create kc namespace {[ "controller-tools.k8s.io" := "1.0" ]})
                          (λ _, mret true)
    end).

Definition CreateConfigMap (kc : KC) (name namespace : string) (data : gmap string string) :
    GoM X () :=
  PollImmediate retries (unless_err (ConfigMaps_Create kc namespace name data) (λ _, mret true)).
End waits.

(** ** kubeadm.go *)
Definition letterRunes : string := "0123456789abcdef".

Definition is_token_char (c : ascii) : bool :=
  let n := nat_of_ascii c in
  ((97 <=? n) && (n <=? 122) || (48 <=? n) && (n <=? 57))%nat.

Fixpoint all_bytes (p : ascii → bool) (s : string) : bool :=
  match s with
  | "" => true
  | String c s' => p c && all_bytes p s'
  end.

(** [^([a-z0-9]{6})\.([a-z0-9]{16})$] and its two groups. *)
Definition ParseToken (s : string) : outcome (string * string) :=
  let tokenID := String.substring 0 6 s in
  let tokenSecret := String.substring 7 16 s in
  if (bool_decide (String.length s = 23) && bool_decide (String.get 6 s = Some "."%char)
      && all_bytes is_token_char tokenID && all_bytes is_token_char tokenSecret)
  then Ok (tokenID, tokenSecret)
  else Err ("token [" +:+ s +:+ "] was not of form [^([a-z0-9]{6})\.([a-z0-9]{16})$]").

Section tokens.
Context {X KC CC BC : Type} `{!Kubernetes X KC CC BC, !Clock, !TimeText, !Rand}.

(** [n] characters, drawn from the random numbers that follow number [t]. *)
Fixpoint RandStringRunes (n t : nat) : string :=
  match n with
  | O => ""
  | Datatypes.S n =>
      match String.get (Intn t 16) letterRunes with
      | Some c => String c (RandStringRunes n (Datatypes.S t))
      | None => RandStringRunes n (Datatypes.S t)
      end
  end.

Definition GetKubeadmToken (t : nat) : string :=
  RandStringRunes 6 t +:+ "." +:+ RandStringRunes 16 (t + 6).

(** ** token.go *)
Definition BootstrapTokenSecretPrefix : string := "bootstrap-token-".
Definition SecretTypeBootstrapToken : string := "bootstrap.kubernetes.io/token".
Definition BootstrapTokenIDKey : string := "token-id".
Definition BootstrapTokenSecretKey : string := "token-secret".
Definition BootstrapTokenExpirationKey : string := "expiration".
Definition BootstrapTokenDescriptionKey : string := "description".
Definition BootstrapTokenExtraGroupsKey : string := "auth-extra-groups".
Definition BootstrapTokenUsagePrefix : string := "usage-bootstrap-".
Definition DefaultTokenUsages : list string := ["signing"; "authentication"].
Definition NodeBootstrapTokenAuthGroup : string :=
  "system:bootstrappers:kubeadm:default-node-token".
Definition NamespaceSystem : string := "kube-system".

Definition tokenCreateRetries : nat := 5.
Definition minutes (n : Z) : Z := (n * 60 * 1000000000)%Z.

Definition decodeToken (tokenID tokenSecret : string) : string := tokenID +:+ "." +:+ tokenSecret.

Definition encodeTokenSecretData (now : Time) (tokenID tokenSecret : string) (duration : Z)
    (usages extraGroups : list string) (description : string) : gmap string string :=
  let data : gmap string string :=
    <[BootstrapTokenIDKey := tokenID]> {[ BootstrapTokenSecretKey := tokenSecret ]} in
  let data := if decide (extraGroups = []) then data
              else <[BootstrapTokenExtraGroupsKey := Join "," extraGroups]> data in
  let data := if decide (0 < duration)%Z
              then <[BootstrapTokenExpirationKey := format_time (now + duration)%Z]> data else data in
  let data := if decide (description = "") then data
              else <[BootstrapTokenDescriptionKey := description]> data in
  foldl (λ d usage, <[BootstrapTokenUsagePrefix +:+ usage := "true"]> d) data usages.

(** The state of the cluster and the counter of time and randomness. *)
Definition on_api {A} (m : GoM X A) : GoM (X * nat) A := zoom fst (λ x st, (x, snd st)) m.
Definition tick (k : nat) : GoM (X * nat) nat := λ st, (Ok (snd st), (fst st, (snd st + k)%nat)).

Definition CreateValidKubeadmToken (kc : KC) (duration : Z) : GoM (X * nat) string :=
  t ← tick 22;
  let token := GetKubeadmToken t in
  parsed ← lift (ParseToken token);
  let secretName := BootstrapTokenSecretPrefix +:+ parsed.1 in
  n ← tick 1;
  let secret := {| sec_Name := secretName; sec_Type := SecretTypeBootstrapToken;
                   sec_Data := encodeTokenSecretData (time_now n) parsed.1 parsed.2 duration
                     DefaultTokenUsages [NodeBootstrapTokenAuthGroup]
                     "Bootstrap token generated for 24 hours" |} in
  _ ← on_api (Secrets_Create kc NamespaceSystem secret);
  mret token.

(** A token that is good for another hour, of those the cluster has. *)
Definition valid_token (now : Time) (s : Secret) : bool :=
  bool_decide (now < parse_time (default "" (sec_Data s !! BootstrapTokenExpirationKey))
                     - minutes 60)%Z.

Definition token_of (s : Secret) : string :=
  decodeToken (default "" (sec_Data s !! BootstrapTokenIDKey))
              (default "" (sec_Data s !! BootstrapTokenSecretKey)).

Fixpoint find_token (tries : nat) (kc : KC) : GoM (X * nat) (option string) :=
  match tries with
  | O => mret None
  | Datatypes.S tries =>
      secrets ← on_api (BootstrapTokens_List kc);
      n ← tick 1;
      match List.find (valid_token (time_now n)) secrets with
      | Some s => mret (Some (token_of s))
      | None => find_token tries kc
      end
  end.

Definition GetExistingKubeadmToken (kc : KC) (duration : Z) : GoM (X * nat) string :=
  found ← find_token tokenCreateRetries kc;
  match found with
  | Some token => mret token
  | None => CreateValidKubeadmToken kc duration
  end.
End tokens.
