(* ===== verification/KubeProofs.v ===== *)
(** * Properties of Kube.v *)
From stdpp Require Import base list gmap strings pretty fin_maps.
From Stdlib Require Import Ascii.
From S2P Require Import Prelude GoStrings Api StoreSpec Provider Certs Kube.

(** ** wait.PollImmediate *)

(** The states a waiting loop goes through while the condition is not met. *)
Inductive polled {S} (condition : GoM S bool) : nat → S → S → Prop :=
  | polled_O s : polled condition 0 s s
  | polled_S k s s1 s' : condition s = (Ok false, s1) → polled condition k s1 s' →
      polled condition (Datatypes.S k) s s'.

Lemma PollImmediate_skip {S} (condition : GoM S bool) k : ∀ n s s',
  polled condition k s s' → k ≤ n → PollImmediate n condition s = PollImmediate (n - k) condition s'.
Proof.
  induction k as [|k IH]; intros n s s' Hp Hle; inversion Hp as [|? ? s1 ? E1 Hp1]; subst.
  { by rewrite Nat.sub_0_r. }
  destruct n as [|n]; [lia|]. cbn [PollImmediate]. erewrite bind_ok by done. cbn iota.
  rewrite (IH n s1 s') by (done || lia). done.
Qed.

(** [C13] The loop ends at the first attempt that answers or fails, if that is one of
    the [n + 1] there are, and times out otherwise. *)
Theorem poll_outcome {S} (condition : GoM S bool) n k s s' :
  polled condition k s s' →
  (k ≤ n → ∀ s2, condition s' = (Ok true, s2) → PollImmediate n condition s = (Ok (), s2)) ∧
  (k ≤ n → ∀ s2 e, condition s' = (Err e, s2) → PollImmediate n condition s = (Err e, s2)) ∧
  (k = Datatypes.S n →
     PollImmediate n condition s = (Err "timed out waiting for the condition", s')).
Proof.
  intros Hp. split_and!.
  - intros Hle s2 E. rewrite (PollImmediate_skip _ k n s s') by done.
    destruct (n - k); cbn [PollImmediate]; by erewrite bind_ok by done.
  - intros Hle s2 e E. rewrite (PollImmediate_skip _ k n s s') by done.
    destruct (n - k); cbn [PollImmediate]; by erewrite bind_err by done.
  - intros ->. revert s Hp. induction n as [|n IH]; intros s Hp.
    + inversion Hp as [|? ? s1 ? E1 Hp1]; subst. inversion Hp1; subst.
      cbn [PollImmediate]. by erewrite bind_ok by done.
    + inversion Hp as [|? ? s1 ? E1 Hp1]; subst.
      cbn [PollImmediate]. erewrite bind_ok by done. cbn iota. by apply IH.
Qed.

(** ** Bootstrap tokens *)
(** A string of known length, character by character. *)
Ltac spell s :=
  repeat (let c := fresh "c" in destruct s as [ | c s]; [discriminate | ]);
  destruct s; [ | discriminate].

Lemma token_roundtrip_if s i k :
  s = decodeToken i k → String.length i = 6 → String.length k = 16 →
  all_bytes is_token_char i = true → all_bytes is_token_char k = true →
  ParseToken s = Ok (i, k).
Proof.
  intros -> Hi Hk Ci Ck. unfold ParseToken, decodeToken.
  assert (String.substring 0 6 (i +:+ "." +:+ k) = i ∧
               String.substring 7 16 (i +:+ "." +:+ k) = k ∧
               String.length (i +:+ "." +:+ k) = 23 ∧
               String.get 6 (i +:+ "." +:+ k) = Some "."%char) as (-> & -> & -> & ->).
  { clear Ci Ck. spell i. spell k. by split_and!. }
  by rewrite Ci, Ck.
Qed.

(** [ParseToken] takes apart exactly the tokens [decodeToken] puts together. *)
Theorem token_roundtrip s i k :
  ParseToken s = Ok (i, k) ↔
  s = decodeToken i k ∧ String.length i = 6 ∧ String.length k = 16 ∧
  all_bytes is_token_char i = true ∧ all_bytes is_token_char k = true.
Proof.
  unfold ParseToken, decodeToken. split.
  - intros Hp. case_match eqn:E; [|done]. simplify_eq.
    rewrite !andb_true_iff, !bool_decide_eq_true in E. destruct E as [[[Hl Hd] Hi] Hk].
    split_and!; try done.
    + spell s. cbn in Hd. simplify_eq. reflexivity.
    + clear Hi Hk Hd. spell s. reflexivity.
    + clear Hi Hk Hd. spell s. reflexivity.
  - intros (Hs & Hi & Hk & Ci & Ck). by apply token_roundtrip_if.
Qed.

Class RandLaws `{!Rand} : Prop := { Intn_lt t n : n ≠ 0 → Intn t n < n }.

Section tokens.
Context {X KC CC BC : Type} `{!Kubernetes X KC CC BC, !Clock, !TimeText, !Rand, !RandLaws}.








End tokens.

(** ** Configurations *)
Section configs.
Context {S X KC CC BC Crt Key SSHKey : Type}.
Context `{!Crypto Crt Key SSHKey, !CertText Crt Key, !Kubernetes X KC CC BC}.
Context (sp : ResourceInterface S Crt Key).

(** What a client configuration's current context leads to. *)
Definition current_entry (c : ClientConfig) : option (ClientCluster * ClientAuthInfo) :=
  cx ← Contexts c !! CurrentContext c;
  cluster ← Clusters c !! cx_Cluster cx;
  auth ← AuthInfos c !! cx_AuthInfo cx;
  Some (cluster, auth).

(** The kubeconfig pharmer hands out for a cluster and the REST configuration it
    uses itself are the same: same server, same authority, same admin
    certificate; and the converted kubeconfig's current context is that one. *)
Theorem admin_configs_agree cluster ca caKey s t :
  ri_cert_Get sp (cluster_Name cluster) CACertName s = (Ok (Cert ca, caKey), s) →
  (let '(r, st) := GetAdminConfig (SSHKey := SSHKey) sp cluster ca (s, t) in
   (NewRestConfigFromKubeConfig <$> r, st)) =
    NewRestConfig (SSHKey := SSHKey) sp (cluster_Name cluster) (APIServerURL cluster) (s, t) ∧
  ∀ k st, GetAdminConfig (SSHKey := SSHKey) sp cluster ca (s, t) = (Ok k, st) →
    ∃ auth, current_entry (Convert_KubeConfig_To_Config k) =
        Some ({| cc_Server := APIServerURL cluster;
                 cc_CertificateAuthorityData := cert_text (Cert ca) |}, auth) ∧
      let rc := NewRestConfigFromKubeConfig k in
      ca_ClientCertificateData auth = rc_CertData rc ∧ ca_ClientKeyData auth = rc_KeyData rc ∧
      ca_Token auth = rc_BearerToken rc.
Proof.
  intros Hca.
  assert (E : on_err (wrap "failed to get ca-certs")
      (on_store (ri_cert_Get sp (cluster_Name cluster) CACertName)) (s, t) = (Ok (Cert ca, caKey), (s, t))).
  { apply on_err_ok. unfold on_store, zoom. cbn [fst snd]. by rewrite Hca. }
  split.
  - unfold GetAdminConfig, NewRestConfig, GetAdminCert.
    unfold mbind, gom_bind. rewrite E. cbn [fst snd].
    destruct (attempt _ _) as [[[a|e]|e|w] st]; [done| |done..].
    by destruct (CreateAdminCertificate _ _ _) as [[a|e2|w] st2].
  - intros k st Hk. unfold GetAdminConfig in Hk.
    apply bind_ok_inv in Hk as (admin & st1 & _ & [= <- <-]).
    eexists. unfold current_entry, Convert_KubeConfig_To_Config.
    cbn [Contexts Clusters AuthInfos CurrentContext kc_Context kc_Cluster kc_AuthInfo nx_Name
         nc_Name na_Name].
    rewrite lookup_singleton_eq. cbn [mbind option_bind cx_Cluster cx_AuthInfo nx_Cluster nx_AuthInfo].
    rewrite lookup_singleton_eq. cbn [mbind option_bind].
    rewrite lookup_singleton_eq. cbn [mbind option_bind]. done.
Qed.
End configs.
