(* ===== verification/Cloud.v ===== *)
(** * Creating and deleting clusters (cloud/create.go, delete.go, scope.go, plugins.go)

    A [Scope] is what an operation on one cluster works with: the cluster, its
    certificates, the provider's manager, the store.  The functions run in
    [GoM env]: the store, a counter for time and randomness, the state of the
    cloud, and the scope.  A provider is the record [Interface] of its methods
    (cloud/api.go); [providers] are the registered ones.  The cluster manager of
    a scope is kept as the name it was registered under. *)
From stdpp Require Import base list gmap strings pretty fin_maps.
From Stdlib Require Import Ascii.
From S2P Require Import Prelude GoStrings Api StoreSpec Provider Certs Kube.

Inductive MachineRole := MasterMachineRole | NodeMachineRole.

(** ** setDefaultCluster *)
Definition with_Cloud (c : ClusterConfig) (cs : CloudSpec) : ClusterConfig :=
  {| MasterCount := MasterCount c; Cloud := cs; KubernetesVersion := KubernetesVersion c;
     CredentialName := CredentialName c; SSHUserName := SSHUserName c;
     KubeletExtraArgs := KubeletExtraArgs c; APIServerExtraArgs := APIServerExtraArgs c;
     ControllerManagerExtraArgs := ControllerManagerExtraArgs c;
     SchedulerExtraArgs := SchedulerExtraArgs c; AuthorizationModes := AuthorizationModes c;
     APIServerCertSANs := APIServerCertSANs c |}.

Definition with_ExtraArgs (c : ClusterConfig) (apiserver : gmap string string)
    (kubelet : option (gmap string string)) : ClusterConfig :=
  {| MasterCount := MasterCount c; Cloud := Cloud c; KubernetesVersion := KubernetesVersion c;
     CredentialName := CredentialName c; SSHUserName := SSHUserName c;
     KubeletExtraArgs := kubelet; APIServerExtraArgs := apiserver;
     ControllerManagerExtraArgs := ControllerManagerExtraArgs c;
     SchedulerExtraArgs := SchedulerExtraArgs c; AuthorizationModes := AuthorizationModes c;
     APIServerCertSANs := APIServerCertSANs c |}.

Definition with_Region_SSHKeyName (c : CloudSpec) (region key : string) : CloudSpec :=
  {| CloudProviderName := CloudProviderName c; Project := Project c; Region := region;
     Zone := Zone c; InstanceImage := InstanceImage c; OSName := OSName c;
     InstanceImageProject := InstanceImageProject c; NetworkProvider := NetworkProvider c;
     SSHKeyName := key; spec_AWS := spec_AWS c; spec_GCE := spec_GCE c;
     spec_Azure := spec_Azure c; spec_Linode := spec_Linode c; spec_GKE := spec_GKE c;
     spec_Dokube := spec_Dokube c |}.

Definition with_identity (m : ObjectMeta) (uid : string) (created : Time) (gen : Z) : ObjectMeta :=
  {| Name := Name m; Namespace := Namespace m; UID := uid; Generation := gen;
     CreationTimestamp := created; DeletionTimestamp := DeletionTimestamp m;
     Labels := Labels m; Annotations := Annotations m |}.

(** The API server's extra arguments. *)
Definition apiserver_args (audit : bool) : gmap string string :=
  let args : gmap string string :=
    {[ "kubelet-preferred-address-types" :=
         Join "," [NodeInternalIP; NodeInternalDNS; NodeExternalDNS; NodeExternalIP] ]} in
  if audit then
    <["runtime-config" := "auditregistration.k8s.io/v1alpha1=true"]>
      (<["feature-gates" := "DynamicAuditing=true"]>
        (<["audit-dynamic-configuration" := "true"]> args))
  else args.

(** [s[0:len(s)-1]]: slicing the empty string panics. *)
Fixpoint butlast (s : string) : string :=
  match s with
  | "" => ""
  | String _ "" => ""
  | String c s' => String c (butlast s')
  end.

Definition region_of_zone (zone : string) : outcome string :=
  if decide (zone = "") then Panic "slice bounds out of range [:-1]" else Ok (butlast zone).

(** The in-memory part of [setDefaultCluster], given the time and the uuid. *)
Definition default_cluster (uid : string) (created : Time) (gen : Z) (cluster : Cluster) :
    outcome Cluster :=
  let c := with_ObjectMeta cluster (with_identity (cluster_ObjectMeta cluster) uid created gen) in
  let c := InitClusterAPI c in
  let c := res_assign c in
  let api := ClusterAPI (Spec c) in
  let c := with_Spec c (with_ClusterAPI (Spec c)
             (with_capi_TypeMeta api (set_kind clusterAPIversion "Cluster" (capi_TypeMeta api)))) in
  let c := SetNetworkingDefaults c (NetworkProvider (Cloud (Config (Spec c)))) in
  let cfg := with_ExtraArgs (Config (Spec c)) (apiserver_args (AuditSink (Spec c))) (Some ∅) in
  region ← region_of_zone (Zone (Cloud cfg));
  let cfg := with_Cloud cfg (with_Region_SSHKeyName (Cloud cfg) region (GenSSHKeyExternalID c)) in
  Ok (with_Status (with_Spec c (with_Config (Spec c) cfg)) (with_Phase zero_Status ClusterPending)).

(** ** GenerateMachineSetName *)
Definition GenerateMachineSetName (sku : string) : string :=
  ReplaceByte (ToLower sku) "_"%char "-"%char +:+ "-pool".

(** [int32(n)] *)
Definition int32 (n : Z) : Z := ((n + 2147483648) `mod` 4294967296 - 2147483648)%Z.

Section cloud.
Context {S Crt Key SSHKey X KC : Type} `{!Crypto Crt Key SSHKey, !Clock}.
Context (sp : ResourceInterface S Crt Key).

(** scope.go *)
Record Scope := {
  sc_Cluster : option Cluster;
  sc_Certs : option (Certificates Crt Key SSHKey);
  sc_CloudManager : option string;
  sc_AdminClient : option KC
}.

Record env := Env { e_store : S; e_tick : nat; e_cloud : X; e_scope : Scope }.

(** api.go: the provider's methods the core calls. *)
Record Interface := {
  cm_SetDefaultCluster : GoM env ();
  cm_GetDefaultMachineProviderSpec : string → MachineRole → GoM env (option RawExtension);
  cm_SetCloudConnector : GoM env ();
  cm_PrepareCloud : GoM env ();
  cm_EnsureMaster : Machine → GoM env ();
  cm_GetMasterSKU : Z → string;
  cm_ApplyScale : GoM env ();
  cm_ApplyDelete : GoM env ();
  cm_GetAdminClient : GoM env KC;
  cm_CreateCredentials : KC → GoM env ();
  cm_GetClusterAPIComponents : GoM env string
}.

Context (providers : string → option Interface).

Definition store {A} (m : GoM S A) : GoM env A :=
  zoom e_store (λ s e, Env s (e_tick e) (e_cloud e) (e_scope e)) m.

Definition store_rand {A} (m : GoM (S * nat) A) : GoM env A :=
  zoom (λ e, (e_store e, e_tick e)) (λ st e, Env st.1 st.2 (e_cloud e) (e_scope e)) m.

Definition draw_env {A} (f : nat → outcome A) : GoM env A := λ e,
  (f (e_tick e), Env (e_store e) (Datatypes.S (e_tick e)) (e_cloud e) (e_scope e)).

Definition Now : GoM env Time := draw_env (λ n, Ok (time_now n)).

Definition set_Cluster (c : Cluster) : GoM env () := modify (λ e,
  Env (e_store e) (e_tick e) (e_cloud e)
      {| sc_Cluster := Some c; sc_Certs := sc_Certs (e_scope e);
         sc_CloudManager := sc_CloudManager (e_scope e);
         sc_AdminClient := sc_AdminClient (e_scope e) |}).

Definition set_Certs (c : Certificates Crt Key SSHKey) : GoM env () := modify (λ e,
  Env (e_store e) (e_tick e) (e_cloud e)
      {| sc_Cluster := sc_Cluster (e_scope e); sc_Certs := Some c;
         sc_CloudManager := sc_CloudManager (e_scope e);
         sc_AdminClient := sc_AdminClient (e_scope e) |}).

Definition set_CloudManager (n : option string) : GoM env () := modify (λ e,
  Env (e_store e) (e_tick e) (e_cloud e)
      {| sc_Cluster := sc_Cluster (e_scope e); sc_Certs := sc_Certs (e_scope e);
         sc_CloudManager := n; sc_AdminClient := sc_AdminClient (e_scope e) |}).

Definition set_AdminClient (c : KC) : GoM env () := modify (λ e,
  Env (e_store e) (e_tick e) (e_cloud e)
      {| sc_Cluster := sc_Cluster (e_scope e); sc_Certs := sc_Certs (e_scope e);
         sc_CloudManager := sc_CloudManager (e_scope e); sc_AdminClient := Some c |}).

(** [s.Cluster.…]: a nil cluster panics. *)
Definition the_cluster : GoM env Cluster := λ e,
  match sc_Cluster (e_scope e) with
  | Some c => (Ok c, e)
  | None => (Panic "invalid memory address or nil pointer dereference", e)
  end.

(** ** plugins.go: GetCloudManager *)
Definition make_CloudManager : GoM env string :=
  cluster ← the_cluster;
  certs ← gets (λ e, sc_Certs (e_scope e));
  _ ← match certs with
      | Some _ => mret ()
      | None =>
          certs ← store_rand (GetPharmerCerts sp (cluster_Name cluster));
          set_Certs certs
      end;
  let p := CloudProvider cluster in
  match providers p with
  | None => throw "cloud provider not registerd"
  | Some _ => mret p
  end.

(** scope.go: Scope.GetCloudManager *)
Definition GetCloudManager : GoM env Interface :=
  cached ← gets (λ e, sc_CloudManager (e_scope e));
  name ← match cached with
         | Some n => mret n
         | None => n ← make_CloudManager; _ ← set_CloudManager (Some n); mret n
         end;
  match providers name with
  | Some cm => mret cm
  | None => panic "invalid memory address or nil pointer dereference"
  end.

Definition NewScope (cluster : Cluster) : Scope :=
  {| sc_Cluster := Some cluster; sc_Certs := None; sc_CloudManager := None;
     sc_AdminClient := None |}.

(** ** create.go *)
Definition setDefaultCluster : GoM env () :=
  cluster ← the_cluster;
  uid ← on_err (wrap "failed to create Cluster uuid") (draw_env new_uuid);
  created ← Now;
  generation ← Now;
  c ← lift (default_cluster uid created generation cluster);
  set_Cluster c.

Definition createCluster : GoM env () :=
  cm ← GetCloudManager;
  _ ← cm_SetDefaultCluster cm;
  cluster ← the_cluster;
  cluster ← store (op_Update (st_Clusters sp) (Some cluster));
  set_Cluster cluster.

Definition getMasterMachine (name : string) : GoM env Machine :=
  cluster ← the_cluster;
  cm ← GetCloudManager;
  providerSpec ← cm_GetDefaultMachineProviderSpec cm "" MasterMachineRole;
  created ← Now;
  let version := KubernetesVersion (Config (Spec cluster)) in
  let meta := {| Name := name; Namespace := ""; UID := ""; Generation := 0%Z;
                 CreationTimestamp := created; DeletionTimestamp := None;
                 Labels := <["set" := "controlplane"]> (<[RoleMasterKey := ""]>
                   {[ MachineClusterLabelName := cluster_Name cluster ]});
                 Annotations := ∅ |} in
  let machine := {| machine_TypeMeta := zero_TypeMeta; machine_ObjectMeta := meta;
                    machine_Spec := {| SpecName := ""; MachineProviderSpec := providerSpec;
                                       Versions := {| Kubelet := version; ControlPlane := version |};
                                       ProviderID := None |};
                    machine_Status := zero_MachineStatus |} in
  assign_kind machine.

(** [for i := 0; i < n; i++]: no turn when [n] is not positive. *)
Definition count_up (n : Z) : list Z := Z.of_nat <$> seq 0 (Z.to_nat n).

Definition createMasterMachines : GoM env () :=
  cluster ← the_cluster;
  if is_managed (CloudProvider cluster) then mret () else
  for_each (λ i,
    master ← getMasterMachine (MasterMachineName cluster i);
    _ ← store (op_Create (st_Machines sp (cluster_Name cluster)) (Some master));
    mret ()) (count_up (MasterCount (Config (Spec cluster)))).

Definition CreateCluster : GoM env () :=
  cluster ← gets (λ e, sc_Cluster (e_scope e));
  match cluster with
  | None => throw "missing Cluster"
  | Some cluster =>
      _ ← err_if (bool_decide (cluster_Name cluster = "")) "missing Cluster name";
      _ ← err_if (bool_decide (KubernetesVersion (Config (Spec cluster)) = "")) "missing Cluster version";
      _ ← setDefaultCluster;
      cluster ← the_cluster;
      found ← attempt (store (op_Get (st_Clusters sp) (cluster_Name cluster)));
      _ ← match found with
          | inl _ => mret ()
          | inr _ =>
              cluster ← store (op_Create (st_Clusters sp) (Some cluster));
              set_Cluster cluster
          end;
      certs ← store_rand (CreateCertsKeys sp (cluster_Name cluster));
      _ ← set_Certs certs;
      _ ← createCluster;
      createMasterMachines
  end.

Definition getMachineSet (sku : string) (count : Z) : GoM env MachineSet :=
  cluster ← the_cluster;
  cm ← GetCloudManager;
  providerSpec ← on_err (wrap "failed to get default machine provider spec")
                        (cm_GetDefaultMachineProviderSpec cm sku NodeMachineRole);
  created ← Now;
  templateCreated ← Now;
  let cl := cluster_Name cluster in
  let meta := {| Name := GenerateMachineSetName sku; Namespace := ""; UID := ""; Generation := 0%Z;
                 CreationTimestamp := created; DeletionTimestamp := None; Labels := ∅;
                 Annotations := ∅ |} in
  mret {| machineset_TypeMeta := zero_TypeMeta; machineset_ObjectMeta := meta;
          machineset_Spec := {|
            Replicas := Some count;
            MatchLabels := <[MachineClusterLabelName := cl]> {[ MachineSlecetor := sku ]};
            TemplateLabels := <[PharmerCluster := cl]> (<[RoleNodeKey := ""]>
              (<[MachineSlecetor := sku]> (<["set" := "node"]> {[ MachineClusterLabelName := cl ]})));
            TemplateCreationTimestamp := templateCreated;
            TemplateSpec := {| SpecName := ""; MachineProviderSpec := providerSpec;
                               Versions := {| Kubelet := KubernetesVersion (Config (Spec cluster));
                                              ControlPlane := "" |};
                               ProviderID := None |} |};
          machineset_Status := {| StatusReplicas := 0%Z; ReadyReplicas := 0%Z |} |}.

(** [range opts.Nodes] visits the map in the order the list gives. *)
Definition CreateMachineSets (clusterName : string) (nodes : list (string * Z)) : GoM env () :=
  cluster ← store (op_Get (st_Clusters sp) clusterName);
  _ ← modify (λ e, Env (e_store e) (e_tick e) (e_cloud e) (NewScope cluster));
  for_each (λ sku_count,
    machineset ← on_err (wrap "failed to create machineset")
                        (getMachineSet sku_count.1 (int32 sku_count.2));
    _ ← on_err (wrap "failed to store machineset")
               (store (op_Create (st_MachineSets sp (cluster_Name cluster)) (Some machineset)));
    mret ()) nodes.

(** ** delete.go: Delete *)
Definition Delete (name : string) : GoM env Cluster :=
  _ ← err_if (bool_decide (name = "")) "missing Cluster name";
  cluster ← on_err (λ e, "Cluster `" +:+ name +:+ "` does not exist. Reason: " +:+ e)
                   (store (op_Get (st_Clusters sp) name));
  now ← Now;
  let cluster := with_ObjectMeta cluster (with_DeletionTimestamp (cluster_ObjectMeta cluster) (Some now)) in
  let cluster := with_Status cluster (with_Phase (Status cluster) ClusterDeleting) in
  store (op_Update (st_Clusters sp) (Some cluster)).
End cloud.
