(* ===== verification/CloudProofs.v ===== *)
(** * What CreateCluster achieves

    Proved against the abstract store [spec_provider], for every provider that
    keeps to [ProviderLaws]: a new cluster is stored pending, with its
    certificates and with exactly its control-plane machines; a second attempt
    after the certificates were made can never succeed. *)
From stdpp Require Import base list gmap strings pretty fin_maps.
From S2P Require Import Prelude GoStrings Api StoreSpec Provider Certs Kube Cloud.

(** What a provider's defaults may not change. *)
Record keeps (c c' : Cluster) : Prop := {
  keeps_name : cluster_Name c' = cluster_Name c;
  keeps_count : MasterCount (Config (Spec c')) = MasterCount (Config (Spec c));
  keeps_provider : CloudProvider c' = CloudProvider c;
  keeps_phase : Phase (Status c') = Phase (Status c)
}.

#[export] Instance keeps_preorder : PreOrder keeps.
Proof.
  split; [done|]. intros a b c [n1 k1 p1 f1] [n2 k2 p2 f2]. split; congruence.
Qed.

Section laws.
Context {S Crt Key SSHKey X KC : Type}.
Context (keyed : Cluster → S → Prop).
Implicit Types (e : env (S := S) (Crt := Crt) (Key := Key) (SSHKey := SSHKey) (X := X) (KC := KC)).

(** A provider answers from the cluster alone: it leaves the store, and of the
    scope it changes the cluster's own settings only.  It can describe a machine once
    the cluster has its ssh key ([keyed]). *)
Class ProviderLaws (cm : Interface (S := S) (Crt := Crt) (Key := Key) (SSHKey := SSHKey)
                              (X := X) (KC := KC)) : Prop := {
  pl_SetDefaultCluster e c :
    sc_Cluster (e_scope e) = Some c →
    ∃ c' t x, keeps c c' ∧
      cm_SetDefaultCluster cm e =
        (Ok (), Env (e_store e) t x {| sc_Cluster := Some c'; sc_Certs := sc_Certs (e_scope e);
                                       sc_CloudManager := sc_CloudManager (e_scope e);
         sc_AdminClient := sc_AdminClient (e_scope e) |});
  pl_GetDefaultMachineProviderSpec sku role e c :
    sc_Cluster (e_scope e) = Some c → keyed c (e_store e) →
    ∃ spec t x, cm_GetDefaultMachineProviderSpec cm sku role e =
                (Ok spec, Env (e_store e) t x (e_scope e))
}.
End laws.

(** The ssh key [CreateCertsKeys] makes is stored. *)
Definition has_ssh {Crt Key} (c : Cluster) (s : pharmer Crt Key) : Prop :=
  cluster_Name c ≠ "" ∧ is_Some (ph_ssh s !! (cluster_Name c, GenSSHKeyName (cluster_Name c))).

Lemma has_ssh_same {Crt Key} c c' (s s' : pharmer Crt Key) :
  cluster_Name c' = cluster_Name c → ph_ssh s' = ph_ssh s → has_ssh c s → has_ssh c' s'.
Proof. unfold has_ssh. by intros -> ->. Qed.

(** The settings of a new cluster. *)
Lemma default_cluster_ok uid created gen c z :
  region_of_zone (Zone (Cloud (Config (Spec c)))) = Ok z →
  ∃ c', default_cluster uid created gen c = Ok c' ∧ cluster_Name c' = cluster_Name c ∧
        MasterCount (Config (Spec c')) = MasterCount (Config (Spec c)) ∧
        CloudProvider c' = CloudProvider c ∧ Phase (Status c') = ClusterPending.
Proof.
  intros Hz. unfold default_cluster.
  assert (E : ∀ cfg, Zone (Cloud cfg) = Zone (Cloud (Config (Spec c))) →
    region_of_zone (Zone (Cloud cfg)) = Ok z) by (intros cfg ->; done).
  cbv zeta. rewrite E by done. eexists. split; [done|]. by split_and!.
Qed.

Lemma region_of_zone_ok z : z ≠ "" → ∃ r, region_of_zone z = Ok r.
Proof. intros Hz. unfold region_of_zone. rewrite decide_False by done. by eexists. Qed.

Lemma MasterMachineName_ne c i : MasterMachineName c i ≠ "".
Proof.
  unfold MasterMachineName. intros E.
  apply append_eq_nil in E as [_ E]. by apply append_eq_nil in E as [? _].
Qed.

#[export] Instance MasterMachineName_inj c : Inj (=) (=) (MasterMachineName c).
Proof.
  intros i j E. unfold MasterMachineName in E.
  do 2 apply (inj (String.append _)) in E. by apply (inj pretty).
Qed.

Lemma NoDup_count_up n : NoDup (count_up n).
Proof. apply NoDup_fmap_2; [apply _|apply NoDup_seq]. Qed.

(** ** Adding machines to a cluster *)
Record machines_added {Crt Key} (n : string) (names : list string) (s s' : pharmer Crt Key) : Prop := {
  ma_clusters : ob_clusters (ph_objects s') = ob_clusters (ph_objects s);
  ma_credentials : ob_credentials (ph_objects s') = ob_credentials (ph_objects s);
  ma_machinesets cl : ob_machinesets (ph_objects s') cl = ob_machinesets (ph_objects s) cl;
  ma_others cl : cl ≠ n → ob_machines (ph_objects s') cl = ob_machines (ph_objects s) cl;
  ma_machines : dom (ob_machines (ph_objects s') n) =
                dom (ob_machines (ph_objects s) n) ∪ list_to_set names;
  ma_certs : ph_certs s' = ph_certs s;
  ma_ssh : ph_ssh s' = ph_ssh s
}.

Lemma machines_added_nil {Crt Key} n (s : pharmer Crt Key) : machines_added n [] s s.
Proof. split; try done. simpl. set_solver. Qed.

Lemma machines_added_cons {Crt Key} n name names (s s1 s2 : pharmer Crt Key) :
  machines_added n [name] s s1 → machines_added n names s1 s2 → machines_added n (name :: names) s s2.
Proof.
  intros [] []. split; try congruence.
  - intros cl Hcl. rewrite ma_others1, ma_others0 by done. done.
  - rewrite ma_machines1, ma_machines0. simpl. set_solver.
Qed.

(** The machine sets that [nodes] asks for, on top of those there were. *)
Record sets_added {Crt Key} (jMS : MachineSet → MachineSet) (n : string) (nodes : list (string * Z))
    (s s' : pharmer Crt Key) : Prop := {
  sa_credentials : ob_credentials (ph_objects s') = ob_credentials (ph_objects s);
  sa_clusters : ob_clusters (ph_objects s') = ob_clusters (ph_objects s);
  sa_others cl : cl ≠ n → ob_machinesets (ph_objects s') cl = ob_machinesets (ph_objects s) cl;
  sa_machines cl : ob_machines (ph_objects s') cl = ob_machines (ph_objects s) cl;
  sa_certs : ph_certs s' = ph_certs s;
  sa_ssh : ph_ssh s' = ph_ssh s;
  sa_new sku count : (sku, count) ∈ nodes →
    ∃ ms, ob_machinesets (ph_objects s') n !! GenerateMachineSetName sku = Some (jMS ms) ∧
          machineset_Name ms = GenerateMachineSetName sku ∧
          Replicas (machineset_Spec ms) = Some (int32 count) ∧
          MatchLabels (machineset_Spec ms) !! MachineSlecetor = Some sku;
  sa_old name : name ∉ (GenerateMachineSetName ∘ fst <$> nodes) →
    ob_machinesets (ph_objects s') n !! name = ob_machinesets (ph_objects s) n !! name
}.

Lemma sets_added_nil {Crt Key} jMS n (s : pharmer Crt Key) : sets_added jMS n [] s s.
Proof. split; try done. by intros ?? ?%not_elem_of_nil. Qed.

Lemma sets_added_cons {Crt Key} jMS n sku count nodes (s s1 s2 : pharmer Crt Key) :
  GenerateMachineSetName sku ∉ (GenerateMachineSetName ∘ fst <$> nodes) →
  sets_added jMS n [(sku, count)] s s1 → sets_added jMS n nodes s1 s2 →
  sets_added jMS n ((sku, count) :: nodes) s s2.
Proof.
  intros Hnew A B. split.
  - by rewrite (sa_credentials _ _ _ _ _ B), (sa_credentials _ _ _ _ _ A).
  - by rewrite (sa_clusters _ _ _ _ _ B), (sa_clusters _ _ _ _ _ A).
  - intros cl Hcl. by rewrite (sa_others _ _ _ _ _ B cl Hcl), (sa_others _ _ _ _ _ A cl Hcl).
  - intros cl. by rewrite (sa_machines _ _ _ _ _ B), (sa_machines _ _ _ _ _ A).
  - by rewrite (sa_certs _ _ _ _ _ B), (sa_certs _ _ _ _ _ A).
  - by rewrite (sa_ssh _ _ _ _ _ B), (sa_ssh _ _ _ _ _ A).
  - intros sku' count' [[= -> ->]|Hin]%elem_of_cons.
    + rewrite (sa_old _ _ _ _ _ B) by done. apply (sa_new _ _ _ _ _ A). by left.
    + by apply (sa_new _ _ _ _ _ B).
  - intros name [H1 H2]%not_elem_of_cons. rewrite (sa_old _ _ _ _ _ B) by done.
    apply (sa_old _ _ _ _ _ A). intros [->|Hin]%elem_of_cons; [done|by apply not_elem_of_nil in Hin].
Qed.

Section create.
Context {Crt Key SSHKey X KC : Type} `{!Crypto Crt Key SSHKey, !CryptoLaws Crt Key SSHKey, !Clock}.
Context (jC : Cluster → Cluster) (pCr : Credential → outcome Credential).
Context (jMS : MachineSet → MachineSet) (jM : Machine → Machine).
Context (providers : string → option (Interface (S := pharmer Crt Key) (Crt := Crt) (Key := Key)
                                                (SSHKey := SSHKey) (X := X) (KC := KC))).
Notation cenv := (env (S := pharmer Crt Key) (Crt := Crt) (Key := Key) (SSHKey := SSHKey) (X := X)
                      (KC := KC)).
Notation scope := (Scope (Crt := Crt) (Key := Key) (SSHKey := SSHKey) (KC := KC)).
Implicit Types (s : pharmer Crt Key) (e : cenv).

Let sp := spec_provider (Crt := Crt) (Key := Key) (Ok ∘ jC) pCr (Ok ∘ jMS) (Ok ∘ jM).

Lemma cached_manager e p cm :
  sc_CloudManager (e_scope e) = Some p → providers p = Some cm →
  GetCloudManager sp providers e = (Ok cm, e).
Proof.
  intros Hp Hcm. unfold GetCloudManager.
  erewrite bind_ok by (unfold gets; by rewrite Hp). erewrite bind_ok by done.
  by rewrite Hcm.
Qed.

Lemma the_cluster_ok e c : sc_Cluster (e_scope e) = Some c → the_cluster e = (Ok c, e).
Proof. intros Hc. unfold the_cluster. by rewrite Hc. Qed.

Lemma get_master e c p cm name :
  sc_Cluster (e_scope e) = Some c → sc_CloudManager (e_scope e) = Some p →
  providers p = Some cm → ProviderLaws has_ssh cm → has_ssh c (e_store e) →
  ∃ m t x, getMasterMachine sp providers name e = (Ok m, Env (e_store e) t x (e_scope e)) ∧
           machine_Name m = name.
Proof.
  intros Hc Hp Hcm Hl Hk. unfold getMasterMachine.
  destruct (pl_GetDefaultMachineProviderSpec _ "" MasterMachineRole e c Hc Hk) as (spec & t & x & Hspec).
  erewrite bind_ok by (by apply the_cluster_ok). erewrite bind_ok by (by eapply cached_manager).
  erewrite bind_ok by done. erewrite bind_ok by done. rewrite assign_kind_ok. by do 3 eexists.
Qed.

Lemma create_machine n m s :
  machine_Name m ≠ "" → ob_machines (ph_objects s) n !! machine_Name m = None →
  ∃ m' s', op_Create (st_Machines sp n) (Some m) s = (Ok m', s') ∧
           machines_added n [machine_Name m] s s'.
Proof.
  intros Hn Hnone. do 2 eexists. split.
  - cbn. unfold on_machines, zoom, spec_Create. rewrite decide_False by done.
    change (res_name m) with (machine_Name m). rewrite Hnone. by unfold spec_put.
  - split; try done; cbn.
    + intros cl Hcl. by rewrite decide_False.
    + rewrite decide_True by done. rewrite dom_insert_L. change (res_name _) with (machine_Name m).
      set_solver.
Qed.

(** One turn of the loop of createMasterMachines. *)
Definition add_master (c : Cluster) (i : Z) : GoM cenv () :=
  master ← getMasterMachine sp providers (MasterMachineName c i);
  _ ← store (op_Create (st_Machines sp (cluster_Name c)) (Some master));
  mret ().

Lemma add_master_ok e c c0 p cm i :
  sc_Cluster (e_scope e) = Some c0 → sc_CloudManager (e_scope e) = Some p →
  providers p = Some cm → ProviderLaws has_ssh cm → has_ssh c0 (e_store e) →
  ob_machines (ph_objects (e_store e)) (cluster_Name c) !! MasterMachineName c i = None →
  ∃ s' t x, add_master c i e = (Ok (), Env s' t x (e_scope e)) ∧
            machines_added (cluster_Name c) [MasterMachineName c i] (e_store e) s'.
Proof.
  intros Hc Hp Hcm Hl Hk Hnone. unfold add_master.
  destruct (get_master e c0 p cm (MasterMachineName c i) Hc Hp Hcm Hl Hk) as (m & t & x & E & Hm).
  erewrite bind_ok by done.
  destruct (create_machine (cluster_Name c) m (e_store e)) as (m' & s' & Ec & Ha).
  { rewrite Hm. apply MasterMachineName_ne. }
  { by rewrite Hm. }
  exists s'. do 2 eexists. erewrite bind_ok; [split; [done|by rewrite <-Hm]|].
  unfold store, zoom. cbn [e_store]. by rewrite Ec.
Qed.

Lemma add_masters_ok c c0 p cm l : ∀ e,
  sc_Cluster (e_scope e) = Some c0 → sc_CloudManager (e_scope e) = Some p →
  providers p = Some cm → ProviderLaws has_ssh cm → has_ssh c0 (e_store e) → NoDup l →
  (∀ i, i ∈ l → ob_machines (ph_objects (e_store e)) (cluster_Name c) !! MasterMachineName c i = None) →
  ∃ s' t x, for_each (add_master c) l e = (Ok (), Env s' t x (e_scope e)) ∧
            machines_added (cluster_Name c) (MasterMachineName c <$> l) (e_store e) s'.
Proof.
  induction l as [|i l IH]; intros e Hc Hp Hcm Hl Hk Hnd Hnone.
  { destruct e as [s t x sc]. do 3 eexists. split; [done|apply machines_added_nil]. }
  apply NoDup_cons in Hnd as [Hi Hnd].
  destruct (add_master_ok e c c0 p cm i Hc Hp Hcm Hl Hk (Hnone i ltac:(left))) as (s1 & t1 & x1 & E1 & A1).
  destruct (IH (Env s1 t1 x1 (e_scope e)) Hc Hp Hcm Hl) as (s2 & t2 & x2 & E2 & A2); [|done|..].
  { by apply (has_ssh_same c0 c0 (e_store e)), Hk; [|apply (ma_ssh _ _ _ _ A1)]. }
  { intros j Hj. apply not_elem_of_dom. cbn [e_store]. rewrite (ma_machines _ _ _ _ A1).
    specialize (Hnone j ltac:(by right)). apply not_elem_of_dom in Hnone.
    apply not_elem_of_union. split; [done|]. rewrite list_to_set_singleton, elem_of_singleton.
    intros E. apply (inj _) in E. by subst. }
  do 3 eexists. split; [|by eapply machines_added_cons].
  cbn [for_each]. by erewrite bind_ok by done.
Qed.

(** ** The parts of CreateCluster *)
Lemma set_default_ok e c :
  sc_Cluster (e_scope e) = Some c → Zone (Cloud (Config (Spec c))) ≠ "" →
  (∀ n, ∃ u, new_uuid n = Ok u) →
  ∃ c' t, cluster_Name c' = cluster_Name c ∧
    MasterCount (Config (Spec c')) = MasterCount (Config (Spec c)) ∧
    CloudProvider c' = CloudProvider c ∧ Phase (Status c') = ClusterPending ∧
    setDefaultCluster e = (Ok (), Env (e_store e) t (e_cloud e)
      {| sc_Cluster := Some c'; sc_Certs := sc_Certs (e_scope e);
         sc_CloudManager := sc_CloudManager (e_scope e);
         sc_AdminClient := sc_AdminClient (e_scope e) |}).
Proof.
  intros Hc Hz Hu. destruct (region_of_zone_ok _ Hz) as [z Ez].
  destruct (Hu (e_tick e)) as [u Eu]. unfold setDefaultCluster.
  erewrite bind_ok by (by apply the_cluster_ok).
  erewrite bind_ok by (apply on_err_ok; unfold draw_env; by rewrite Eu).
  erewrite bind_ok by done. erewrite bind_ok by done.
  destruct (default_cluster_ok u (time_now (Datatypes.S (e_tick e)))
    (time_now (Datatypes.S (Datatypes.S (e_tick e)))) c z Ez) as (c' & E & H1 & H2 & H3 & H4).
  exists c'. eexists. split_and!; try done.
  cbn [e_tick Now draw_env]. unfold lift. unfold mbind, gom_bind. cbn. rewrite E. done.
Qed.

Lemma get_cluster_missing n s :
  n ≠ "" → ob_clusters (ph_objects s) !! n = None →
  ∃ err, op_Get (st_Clusters sp) n s = (Err err, s).
Proof.
  intros Hn Hnone. eexists. cbn. unfold on_clusters, zoom, spec_Get.
  rewrite decide_False, Hnone by done. by destruct s as [[]].
Qed.

Lemma get_cluster_there n s c :
  n ≠ "" → ob_clusters (ph_objects s) !! n = Some c →
  op_Get (st_Clusters sp) n s = (Ok c, s).
Proof.
  intros Hn Hsome. cbn. unfold on_clusters, zoom, spec_Get.
  rewrite decide_False, Hsome by done. by destruct s as [[]].
Qed.

Lemma create_new_cluster c s :
  cluster_Name c ≠ "" → ob_clusters (ph_objects s) !! cluster_Name c = None →
  op_Create (st_Clusters sp) (Some c) s =
    (Ok (res_assign c), set_objects (put_clusters (<[cluster_Name c := jC (res_assign c)]>
                          (ob_clusters (ph_objects s))) (ph_objects s)) s).
Proof.
  intros Hn Hnone. cbn. unfold on_clusters, zoom, spec_Create.
  rewrite decide_False by done. change (res_name c) with (cluster_Name c). by rewrite Hnone.
Qed.

Lemma update_cluster c s x :
  cluster_Name c ≠ "" → ob_clusters (ph_objects s) !! cluster_Name c = Some x →
  op_Update (st_Clusters sp) (Some c) s =
    (Ok (res_assign c), set_objects (put_clusters (<[cluster_Name c := jC (res_assign c)]>
                          (ob_clusters (ph_objects s))) (ph_objects s)) s).
Proof.
  intros Hn Hsome. cbn. unfold on_clusters, zoom, spec_Update.
  rewrite decide_False by done. change (res_name c) with (cluster_Name c). by rewrite Hsome.
Qed.

(** createCluster, once the certificates are in the scope. *)
Lemma createCluster_ok e c certs cm x0 :
  sc_Cluster (e_scope e) = Some c → sc_Certs (e_scope e) = Some certs →
  sc_CloudManager (e_scope e) = None → sc_AdminClient (e_scope e) = None →
  providers (CloudProvider c) = Some cm → ProviderLaws has_ssh cm →
  cluster_Name c ≠ "" → ob_clusters (ph_objects (e_store e)) !! cluster_Name c = Some x0 →
  ∃ c' t x, keeps c c' ∧
    createCluster sp providers e =
      (Ok (), Env (set_objects (put_clusters (<[cluster_Name c := jC c']>
                     (ob_clusters (ph_objects (e_store e)))) (ph_objects (e_store e))) (e_store e)) t x
        {| sc_Cluster := Some c'; sc_Certs := Some certs;
           sc_CloudManager := Some (CloudProvider c); sc_AdminClient := None |}).
Proof.
  intros Hc Hcerts Hm Ha Hcm Hl Hn Hx.
  set (e1 := Env (e_store e) (e_tick e) (e_cloud e)
    {| sc_Cluster := Some c; sc_Certs := Some certs;
       sc_CloudManager := Some (CloudProvider c); sc_AdminClient := None |} : cenv).
  assert (Eg : GetCloudManager sp providers e = (Ok cm, e1)).
  { unfold GetCloudManager. erewrite bind_ok by (unfold gets; by rewrite Hm).
    erewrite bind_ok; [by rewrite Hcm|].
    erewrite bind_ok.
    2:{ unfold make_CloudManager. erewrite bind_ok by (by apply the_cluster_ok).
        erewrite bind_ok by (unfold gets; by rewrite Hcerts). erewrite bind_ok by done.
        by rewrite Hcm. }
    unfold set_CloudManager, modify, mbind, gom_bind. by rewrite Hc, Hcerts, Ha. }
  destruct (pl_SetDefaultCluster _ e1 c eq_refl) as (c2 & t & x & Hk & Ed).
  unfold createCluster. erewrite bind_ok by done. erewrite bind_ok by done.
  erewrite bind_ok by done.
  erewrite bind_ok.
  2:{ unfold store, zoom. cbn [e_store e1]. erewrite update_cluster.
      - done.
      - by rewrite (keeps_name _ _ Hk).
      - by rewrite (keeps_name _ _ Hk). }
  exists (res_assign c2), t, x. split; [by destruct Hk|].
  by rewrite (keeps_name _ _ Hk).
Qed.

(** The control-plane machines a cluster starts with: none on a managed provider. *)
Definition master_names (c : Cluster) : list string :=
  if is_managed (CloudProvider c) then []
  else MasterMachineName c <$> count_up (MasterCount (Config (Spec c))).

Lemma master_names_eq c c' :
  cluster_Name c' = cluster_Name c → MasterCount (Config (Spec c')) = MasterCount (Config (Spec c)) →
  CloudProvider c' = CloudProvider c → master_names c' = master_names c.
Proof.
  intros Hn Hm Hp. unfold master_names. rewrite Hp, Hm. case_match; [done|].
  apply list_fmap_ext. intros i z _. unfold MasterMachineName. by rewrite Hn.
Qed.

Lemma createMasterMachines_ok e c p cm :
  sc_Cluster (e_scope e) = Some c → sc_CloudManager (e_scope e) = Some p →
  providers p = Some cm → ProviderLaws has_ssh cm → has_ssh c (e_store e) →
  ob_machines (ph_objects (e_store e)) (cluster_Name c) = ∅ →
  ∃ s' t x, createMasterMachines sp providers e = (Ok (), Env s' t x (e_scope e)) ∧
            machines_added (cluster_Name c) (master_names c) (e_store e) s'.
Proof.
  intros Hc Hp Hcm Hl Hk Hnone. unfold createMasterMachines, master_names.
  erewrite bind_ok by (by apply the_cluster_ok). destruct (is_managed _).
  { destruct e as [s t x sc]. do 3 eexists. split; [done|apply machines_added_nil]. }
  eapply (add_masters_ok c c p cm); try done; [apply NoDup_count_up|].
  intros i _. by rewrite Hnone.
Qed.

(** CreateCluster, run by the results of its parts. *)
Lemma CreateCluster_run s t x c c1 t1 s1 certs s2 t2 :
  cluster_Name c ≠ "" → KubernetesVersion (Config (Spec c)) ≠ "" →
  setDefaultCluster (Env s t x (NewScope c) : cenv) =
    (Ok (), Env s t1 x {| sc_Cluster := Some c1; sc_Certs := None; sc_CloudManager := None;
                          sc_AdminClient := None |}) →
  (∃ err, op_Get (st_Clusters sp) (cluster_Name c1) s = (Err err, s)) →
  op_Create (st_Clusters sp) (Some c1) s = (Ok (res_assign c1), s1) →
  CreateCertsKeys sp (cluster_Name c1) (s1, t1) = (Ok certs, (s2, t2)) →
  CreateCluster sp providers (Env s t x (NewScope c) : cenv) =
    (_ ← createCluster sp providers; createMasterMachines sp providers)
      (Env s2 t2 x {| sc_Cluster := Some (res_assign c1); sc_Certs := Some certs;
                      sc_CloudManager := None; sc_AdminClient := None |}).
Proof.
  intros Hn Hv E1 [err Eget] Ecreate E2.
  unfold CreateCluster. erewrite bind_ok by done. cbn [sc_Cluster NewScope e_scope].
  rewrite (err_if_false (bool_decide (cluster_Name c = ""))) by (by apply bool_decide_eq_false).
  rewrite err_if_false by (by apply bool_decide_eq_false).
  erewrite bind_ok by done. erewrite bind_ok by done.
  erewrite bind_ok.
  2:{ eapply attempt_err. unfold store, zoom. cbn [e_store]. by rewrite Eget. }
  cbn iota beta.
  erewrite bind_ok.
  2:{ erewrite bind_ok; [done|]. unfold store, zoom. cbn [e_store]. by rewrite Ecreate. }
  erewrite bind_ok.
  2:{ unfold store_rand, zoom. cbn [e_store e_tick].
      change (cluster_Name (res_assign c1)) with (cluster_Name c1). by rewrite E2. }
  by erewrite bind_ok by done.
Qed.

(** [C2] Creating a cluster that does not exist: it is stored pending under its name,
    its certificates and ssh key are the scope's and load back, and its machines
    are exactly the control plane's, one per [MasterCount] (none when the
    provider manages the control plane); other clusters' machines and all
    machine sets are as before. *)
Theorem create_cluster_fresh s t x c cm :
  cluster_Name c ≠ "" → KubernetesVersion (Config (Spec c)) ≠ "" →
  Zone (Cloud (Config (Spec c))) ≠ "" → (∀ n, ∃ u, new_uuid n = Ok u) →
  providers (CloudProvider c) = Some cm → ProviderLaws has_ssh cm →
  ob_clusters (ph_objects s) !! cluster_Name c = None →
  ob_machines (ph_objects s) (cluster_Name c) = ∅ →
  (∀ n, n ∈ ca_names → ph_certs s !! (cluster_Name c, n) = None) →
  ph_ssh s !! (cluster_Name c, GenSSHKeyName (cluster_Name c)) = None →
  ∃ c' certs s' t' x',
    CreateCluster sp providers (Env s t x (NewScope c) : cenv) =
      (Ok (), Env s' t' x' {| sc_Cluster := Some c'; sc_Certs := Some certs;
                              sc_CloudManager := Some (CloudProvider c); sc_AdminClient := None |}) ∧
    cluster_Name c' = cluster_Name c ∧ Phase (Status c') = ClusterPending ∧
    ob_clusters (ph_objects s') = <[cluster_Name c := jC c']> (ob_clusters (ph_objects s)) ∧
    has_keys (Ok ∘ jC) pCr (Ok ∘ jMS) (Ok ∘ jM) (cluster_Name c) certs s' ∧
    dom (ob_machines (ph_objects s') (cluster_Name c)) = list_to_set (master_names c) ∧
    (∀ cl, cl ≠ cluster_Name c → ob_machines (ph_objects s') cl = ob_machines (ph_objects s) cl) ∧
    (∀ cl, ob_machinesets (ph_objects s') cl = ob_machinesets (ph_objects s) cl).
Proof.
  intros Hn Hv Hz Hu Hcm Hl Hclu Hmach Hcert Hssh.
  destruct (set_default_ok (Env s t x (NewScope c)) c eq_refl Hz Hu)
    as (c1 & t1 & N1 & M1 & P1 & F1 & E1).
  assert (Hn1 : cluster_Name c1 ≠ "") by (by rewrite N1).
  assert (Hclu1 : ob_clusters (ph_objects s) !! cluster_Name c1 = None) by (by rewrite N1).
  destruct (get_cluster_missing _ s Hn1 Hclu1) as [err Eget].
  pose proof (create_new_cluster c1 s Hn1 Hclu1) as Ecreate.
  set (s1 := set_objects _ s) in Ecreate.
  destruct (create_certs_keys_stored (SSHKey := SSHKey) (Ok ∘ jC) pCr (Ok ∘ jMS) (Ok ∘ jM)
    (cluster_Name c1) s1 t1 Hn1) as (certs & s2 & t2 & E2 & Eo & Hkeys).
  { intros n. rewrite N1. apply Hcert. }
  { rewrite N1. apply Hssh. }
  set (sc := ({| sc_Cluster := Some (res_assign c1); sc_Certs := Some certs;
                sc_CloudManager := None; sc_AdminClient := None |} : scope)).
  destruct (createCluster_ok (Env s2 t2 x sc) (res_assign c1) certs cm (jC (res_assign c1)))
    as (c2 & t3 & x3 & K2 & E3); try done.
  { change (CloudProvider (res_assign c1)) with (CloudProvider c1). by rewrite P1. }
  { cbn [e_store]. rewrite Eo. apply lookup_insert_eq. }
  assert (N2 : cluster_Name c2 = cluster_Name c) by (rewrite (keeps_name _ _ K2); exact N1).
  cbn [e_store] in E3. set (s3 := set_objects _ s2) in E3.
  set (sc3 := ({| sc_Cluster := Some c2; sc_Certs := Some certs;
                 sc_CloudManager := Some (CloudProvider (res_assign c1));
                 sc_AdminClient := None |} : scope)) in E3.
  destruct (createMasterMachines_ok (Env s3 t3 x3 sc3) c2 (CloudProvider (res_assign c1)) cm)
    as (s4 & t4 & x4 & E4 & A4); try done.
  { change (CloudProvider (res_assign c1)) with (CloudProvider c1). by rewrite P1. }
  { split; [by rewrite N2|]. rewrite N2, <-N1. by apply (has_keys_ssh _ _ _ _ _ _ _ (Hkeys s2 eq_refl eq_refl)). }
  { cbn. rewrite Eo, N2. exact Hmach. }
  exists c2, certs, s4, t4, x4. split_and!.
  - erewrite CreateCluster_run by eauto. erewrite bind_ok by (exact E3). rewrite E4.
    unfold sc3. cbn. by rewrite <-P1.
  - done.
  - by rewrite (keeps_phase _ _ K2).
  - rewrite (ma_clusters _ _ _ _ A4). cbn. rewrite Eo. cbn.
    change (cluster_Name (res_assign c1)) with (cluster_Name c1). by rewrite insert_insert_eq, N1.
  - rewrite <-N1. apply Hkeys; [by rewrite (ma_certs _ _ _ _ A4)|by rewrite (ma_ssh _ _ _ _ A4)].
  - rewrite <-N2, (ma_machines _ _ _ _ A4), N2. cbn. rewrite Eo. cbn. rewrite Hmach, dom_empty_L.
    destruct K2 as [K1 K2 K3 _]. rewrite (master_names_eq c c2); [set_solver|done|..].
    + by rewrite K2.
    + by rewrite K3.
  - intros cl Hcl. rewrite (ma_others _ _ _ _ A4) by (by rewrite N2). cbn. by rewrite Eo.
  - intros cl. rewrite (ma_machinesets _ _ _ _ A4). cbn. by rewrite Eo.
Qed.

(** [C39] An attempt that got as far as the certificates cannot be repeated: when the
    authority of the cluster is stored, CreateCluster of a cluster with a name, a
    version and a zone fails, however it was left otherwise; it adds no machine and
    changes no certificate. *)
Theorem create_cluster_retry s t x c ck :
  cluster_Name c ≠ "" → KubernetesVersion (Config (Spec c)) ≠ "" →
  Zone (Cloud (Config (Spec c))) ≠ "" → (∀ n, ∃ u, new_uuid n = Ok u) →
  ph_certs s !! (cluster_Name c, CACertName) = Some ck →
  ∃ err e', CreateCluster sp providers (Env s t x (NewScope c) : cenv) = (Err err, e') ∧
    (∀ cl, ob_machines (ph_objects (e_store e')) cl = ob_machines (ph_objects s) cl) ∧
    ph_certs (e_store e') = ph_certs s.
Proof.
  intros Hn Hv Hz Hu Hck.
  destruct (set_default_ok (Env s t x (NewScope c)) c eq_refl Hz Hu)
    as (c1 & t1 & N1 & _ & _ & _ & E1).
  assert (Hn1 : cluster_Name c1 ≠ "") by (by rewrite N1).
  unfold CreateCluster. erewrite bind_ok by done. cbn [sc_Cluster NewScope e_scope].
  rewrite (err_if_false (bool_decide (cluster_Name c = ""))) by (by apply bool_decide_eq_false).
  rewrite err_if_false by (by apply bool_decide_eq_false).
  erewrite bind_ok by done. erewrite bind_ok by done.
  assert (Hfail : ∀ s1 sc, ph_certs s1 = ph_certs s →
    (∀ cl, ob_machines (ph_objects s1) cl = ob_machines (ph_objects s) cl) →
    ∃ err e', (certs ← store_rand (CreateCertsKeys sp (cluster_Name c1));
               _ ← set_Certs certs; _ ← createCluster sp providers;
               createMasterMachines sp providers) (Env s1 t1 x sc : cenv) = (Err err, e') ∧
      (∀ cl, ob_machines (ph_objects (e_store e')) cl = ob_machines (ph_objects s) cl) ∧
      ph_certs (e_store e') = ph_certs s).
  { intros s1 sc Ec Em.
    destruct (create_certs_keys_again (SSHKey := SSHKey) (Ok ∘ jC) pCr (Ok ∘ jMS) (Ok ∘ jM)
      (cluster_Name c1) s1 t1 ck) as (err & t2 & E2); [by rewrite Ec, N1|].
    exists err, (Env s1 t2 x sc). split; [|done].
    erewrite bind_err; [done|]. unfold store_rand, zoom, sp. cbn [e_store e_tick]. by rewrite E2. }
  destruct (ob_clusters (ph_objects s) !! cluster_Name c1) as [c0|] eqn:Hc0.
  - erewrite bind_ok; [|eapply attempt_ok; unfold store, zoom; cbn [e_store];
      by rewrite (get_cluster_there _ s c0 Hn1 Hc0)].
    erewrite bind_ok by done. by apply Hfail.
  - destruct (get_cluster_missing _ s Hn1 Hc0) as [err Eget].
    erewrite bind_ok.
    2:{ eapply attempt_err. unfold store, zoom. cbn [e_store]. by rewrite Eget. }
    cbn iota beta. erewrite bind_ok.
    2:{ erewrite bind_ok; [done|]. unfold store, zoom. cbn [e_store].
        by rewrite (create_new_cluster c1 s Hn1 Hc0). }
    by apply Hfail.
Qed.

(** ** Delete *)

(** [C8] Deleting marks the stored cluster and nothing else: it stays in the store, in
    phase Deleting, with the time as its deletion time, for Apply to take down; its
    specification, and the rest of its metadata and status, are as they were, and so is
    everything else in the store, the cloud and the scope. *)
Theorem delete_marks e name c :
  name ≠ "" → cluster_Name c = name → ob_clusters (ph_objects (e_store e)) !! name = Some c →
  ∃ c' t',
    let s := e_store e in
    Delete sp name e =
      (Ok c', Env (set_objects (put_clusters (<[name := jC c']> (ob_clusters (ph_objects s))) (ph_objects s)) s)
                  t' (e_cloud e) (e_scope e)) ∧
    Spec c' = Spec c ∧ Status c' = with_Phase (Status c) ClusterDeleting ∧
    cluster_ObjectMeta c' = with_DeletionTimestamp (cluster_ObjectMeta c) (Some (time_now (e_tick e))).
Proof.
  intros Hn Hc Hs. unfold Delete. rewrite err_if_false by (by apply bool_decide_eq_false).
  erewrite bind_ok.
  2:{ apply on_err_ok. unfold store, zoom. by rewrite (get_cluster_there _ _ c Hn Hs). }
  erewrite bind_ok by done. cbv zeta. unfold store, zoom.
  erewrite update_cluster.
  2:{ change (cluster_Name c ≠ ""). congruence. }
  2:{ rewrite <-Hc in Hs. exact Hs. }
  do 2 eexists. split; [cbn; by rewrite <-Hc|]. done.
Qed.

(** ** CreateMachineSets *)
Definition add_set (c : Cluster) (sku_count : string * Z) : GoM cenv () :=
  machineset ← on_err (wrap "failed to create machineset")
                      (getMachineSet sp providers sku_count.1 (int32 sku_count.2));
  _ ← on_err (wrap "failed to store machineset")
             (store (op_Create (st_MachineSets sp (cluster_Name c)) (Some machineset)));
  mret ().

Lemma create_machineset n ms s :
  machineset_Name ms ≠ "" → ob_machinesets (ph_objects s) n !! machineset_Name ms = None →
  op_Create (st_MachineSets sp n) (Some ms) s =
    (Ok (res_assign ms), set_objects (put_machinesets n (<[machineset_Name ms := jMS (res_assign ms)]>
                           (ob_machinesets (ph_objects s) n)) (ph_objects s)) s).
Proof.
  intros Hn Hnone. cbn. unfold on_machinesets, zoom, spec_Create. rewrite decide_False by done.
  change (res_name ms) with (machineset_Name ms). by rewrite Hnone.
Qed.

Lemma GenerateMachineSetName_ne sku : GenerateMachineSetName sku ≠ "".
Proof. unfold GenerateMachineSetName. intros E. by apply append_eq_nil in E as [_ ?]. Qed.

Lemma add_set_ok e e1 c cm sku count :
  sc_Cluster (e_scope e) = Some c → GetCloudManager sp providers e = (Ok cm, e1) →
  e_store e1 = e_store e → sc_Cluster (e_scope e1) = Some c → ProviderLaws has_ssh cm →
  has_ssh c (e_store e) →
  ob_machinesets (ph_objects (e_store e)) (cluster_Name c) !! GenerateMachineSetName sku = None →
  ∃ s' t x, add_set c (sku, count) e = (Ok (), Env s' t x (e_scope e1)) ∧
            sets_added jMS (cluster_Name c) [(sku, count)] (e_store e) s'.
Proof.
  intros Hc Hm Hs Hc1 Hl Hk Hnone. unfold add_set. rewrite <-Hs in Hk.
  destruct (pl_GetDefaultMachineProviderSpec _ sku NodeMachineRole e1 c Hc1 Hk) as (spec & t & x & Hspec).
  do 3 eexists. split.
  - erewrite bind_ok.
    2:{ apply on_err_ok. unfold getMachineSet. cbn [fst snd].
        erewrite bind_ok by (by apply the_cluster_ok). erewrite bind_ok by done.
        erewrite bind_ok by (by apply on_err_ok). erewrite bind_ok by done.
        by erewrite bind_ok by done. }
    erewrite bind_ok; [done|]. apply on_err_ok. unfold store, zoom. cbn [e_store e_tick e_cloud e_scope].
    rewrite create_machineset; [done|apply GenerateMachineSetName_ne|by rewrite Hs].
  - rewrite Hs. split; try done; cbn.
    + intros cl Hcl. by rewrite decide_False.
    + intros sku' count' [[= -> ->]|[]%not_elem_of_nil]%elem_of_cons.
      rewrite decide_True by done. eexists. rewrite lookup_insert_eq. by split_and!.
    + intros name Hname. rewrite decide_True by done. rewrite lookup_insert_ne; [done|].
      intros <-. apply Hname. by left.
Qed.
Lemma add_sets_ok c p cm nodes : ∀ e,
  sc_Cluster (e_scope e) = Some c → sc_CloudManager (e_scope e) = Some p →
  providers p = Some cm → ProviderLaws has_ssh cm → has_ssh c (e_store e) →
  NoDup (GenerateMachineSetName ∘ fst <$> nodes) →
  (∀ name, name ∈ (GenerateMachineSetName ∘ fst <$> nodes) →
     ob_machinesets (ph_objects (e_store e)) (cluster_Name c) !! name = None) →
  ∃ s' t x, for_each (add_set c) nodes e = (Ok (), Env s' t x (e_scope e)) ∧
            sets_added jMS (cluster_Name c) nodes (e_store e) s'.
Proof.
  induction nodes as [|[sku count] nodes IH]; intros e Hc Hp Hcm Hl Hk Hnd Hnone.
  { destruct e as [s t x sc]. do 3 eexists. split; [done|apply sets_added_nil]. }
  rewrite fmap_cons in Hnd, Hnone. apply NoDup_cons in Hnd as [Hnew Hnd].
  destruct (add_set_ok e e c cm sku count Hc (cached_manager e p cm Hp Hcm) eq_refl Hc Hl Hk
    (Hnone _ ltac:(left))) as (s1 & t1 & x1 & E1 & A1).
  destruct (IH (Env s1 t1 x1 (e_scope e)) Hc Hp Hcm Hl) as (s2 & t2 & x2 & E2 & A2); [|done|..].
  { by apply (has_ssh_same c c (e_store e)), Hk; [|apply (sa_ssh _ _ _ _ _ A1)]. }
  { intros name Hname. cbn [e_store]. rewrite (sa_old _ _ _ _ _ A1).
    - apply Hnone. by right.
    - intros [->|[]%not_elem_of_nil]%elem_of_cons. done. }
  do 3 eexists. split; [|by eapply sets_added_cons].
  cbn [for_each]. by erewrite bind_ok by done.
Qed.

(** The first use of a scope's provider loads the certificates. *)
Lemma first_manager s t x c cm certs :
  has_keys (Ok ∘ jC) pCr (Ok ∘ jMS) (Ok ∘ jM) (cluster_Name c) certs s →
  providers (CloudProvider c) = Some cm →
  GetCloudManager sp providers (Env s t x (NewScope c) : cenv) =
    (Ok cm, Env s t x {| sc_Cluster := Some c; sc_Certs := Some certs;
                         sc_CloudManager := Some (CloudProvider c); sc_AdminClient := None |}).
Proof.
  intros [_ Hload] Hcm.
  assert (E : make_CloudManager sp providers (Env s t x (NewScope c) : cenv) =
    (Ok (CloudProvider c), Env s t x {| sc_Cluster := Some c; sc_Certs := Some certs;
                                        sc_CloudManager := None; sc_AdminClient := None |})).
  { assert (El : store_rand (GetPharmerCerts sp (cluster_Name c)) (Env s t x (NewScope c) : cenv) =
      (Ok certs, Env s t x (NewScope c))).
    { unfold store_rand, zoom, sp. cbn [e_store e_tick]. by rewrite Hload. }
    unfold make_CloudManager. erewrite bind_ok by done. erewrite bind_ok by done.
    cbn [sc_Certs e_scope NewScope].
    rewrite bind_assoc. erewrite bind_ok by done. erewrite bind_ok by done. by rewrite Hcm. }
  unfold GetCloudManager. erewrite bind_ok by done. cbn [sc_CloudManager e_scope NewScope].
  rewrite bind_assoc. erewrite bind_ok by exact E.
  rewrite bind_assoc. erewrite bind_ok by done. erewrite bind_ok by done. by rewrite Hcm.
Qed.

(** [C6] Machine sets for a cluster that is stored and has its certificates: one per
    requested size, under names of their own, with the requested number of
    replicas; the cluster's other machine sets stay, and so does all else in the store. *)
Theorem create_machinesets_ok e n c cm certs nodes :
  let s := e_store e in
  n ≠ "" → cluster_Name c = n → ob_clusters (ph_objects s) !! n = Some c →
  has_keys (Ok ∘ jC) pCr (Ok ∘ jMS) (Ok ∘ jM) n certs s →
  providers (CloudProvider c) = Some cm → ProviderLaws has_ssh cm →
  NoDup (GenerateMachineSetName ∘ fst <$> nodes) →
  (∀ name, name ∈ (GenerateMachineSetName ∘ fst <$> nodes) →
     ob_machinesets (ph_objects s) n !! name = None) →
  ∃ s' t x sc, CreateMachineSets sp providers n nodes e = (Ok (), Env s' t x sc) ∧
               sets_added jMS n nodes s s'.
Proof.
  intros s Hn Hc Hs Hkeys Hcm Hl Hnd Hnone. subst n. unfold CreateMachineSets.
  assert (has_ssh c s) as Hk by (split; [done|by eapply has_keys_ssh]).
  erewrite bind_ok.
  2:{ unfold store, zoom. change (e_store e) with s. by rewrite (get_cluster_there _ _ c Hn Hs). }
  erewrite bind_ok by done. fold (add_set c).
  destruct nodes as [|[sku count] nodes].
  { do 4 eexists. split; [done|apply sets_added_nil]. }
  rewrite fmap_cons in Hnd, Hnone. apply NoDup_cons in Hnd as [Hnew Hnd].
  edestruct (add_set_ok (Env s (e_tick e) (e_cloud e) (NewScope c)))
    as (s1 & t1 & x1 & E1 & A1); [done|by eapply first_manager|done..|apply Hnone; by left|].
  edestruct (add_sets_ok c (CloudProvider c) cm nodes (Env s1 t1 x1
    {| sc_Cluster := Some c; sc_Certs := Some certs;
       sc_CloudManager := Some (CloudProvider c); sc_AdminClient := None |}))
    as (s2 & t2 & x2 & E2 & A2); try done.
  { by apply (has_ssh_same c c s), Hk; [|apply (sa_ssh _ _ _ _ _ A1)]. }
  { intros name Hname. cbn [e_store]. rewrite (sa_old _ _ _ _ _ A1).
    - apply Hnone. by right.
    - intros [->|[]%not_elem_of_nil]%elem_of_cons. done. }
  do 4 eexists. split; [|by eapply sets_added_cons].
  cbn [for_each e_store]. erewrite bind_ok; [exact E2|exact E1].
Qed.
End create.
