(* ===== verification/Apply.v ===== *)
(** * Applying a cluster (cloud/apply.go, delete.go, clusterapi.go)

    [Apply] brings the cloud to what the stored cluster says, by its phase and
    deletion time: it creates a pending cluster, scales its machine sets, and
    takes down a cluster marked for deletion.  The functions run in [GoM env] of
    Cloud.v; the Kubernetes API is the class of Kube.v. *)
From stdpp Require Import base list gmap strings pretty fin_maps.
From S2P Require Import Prelude GoStrings Api StoreSpec Provider Certs Kube Cloud.

(** encoding/json on the objects that are sent as text, text/template and the
    process's environment. *)
Class JsonText := {
  json_credential : Credential → outcome string;
  json_cluster : Cluster → outcome string;
  json_machine : Machine → outcome string;
  json_machineset : MachineSet → outcome string
}.

Record apiServerTemplate := {
  at_ClusterName : string; at_Provider : string; at_ControllerNamespace : string;
  at_ControllerImage : string
}.

Class Environment := {
  getenv : string → string;
  pharmer_version : string;
  render_template : string → apiServerTemplate → outcome string
}.

Definition MachineControllerImage `{!Environment} : string :=
  let img := getenv "MACHINE_CONTROLLER_IMAGE" in
  if decide (img ≠ "") then img else "pharmer/pharmer:" +:+ pharmer_version.

(** ** Updates in place *)
Definition with_Replicas_deleted (m : MachineSet) (replicas : Z) (now : Time) : MachineSet :=
  {| machineset_TypeMeta := machineset_TypeMeta m;
     machineset_ObjectMeta := with_DeletionTimestamp (machineset_ObjectMeta m) (Some now);
     machineset_Spec := {| Replicas := Some replicas;
                           MatchLabels := MatchLabels (machineset_Spec m);
                           TemplateLabels := TemplateLabels (machineset_Spec m);
                           TemplateCreationTimestamp := TemplateCreationTimestamp (machineset_Spec m);
                           TemplateSpec := TemplateSpec (machineset_Spec m) |};
     machineset_Status := machineset_Status m |}.

Definition with_template_Kubelet (m : MachineSet) (v : string) : MachineSet :=
  let s := machineset_Spec m in let t := TemplateSpec s in
  {| machineset_TypeMeta := machineset_TypeMeta m; machineset_ObjectMeta := machineset_ObjectMeta m;
     machineset_Spec := {| Replicas := Replicas s; MatchLabels := MatchLabels s;
                           TemplateLabels := TemplateLabels s;
                           TemplateCreationTimestamp := TemplateCreationTimestamp s;
                           TemplateSpec := {| SpecName := SpecName t; MachineProviderSpec := MachineProviderSpec t;
                             Versions := {| Kubelet := v; ControlPlane := ControlPlane (Versions t) |};
                             ProviderID := ProviderID t |} |};
     machineset_Status := machineset_Status m |}.

Definition with_machine_Spec (m : Machine) (s : MachineSpec) : Machine :=
  {| machine_TypeMeta := machine_TypeMeta m; machine_ObjectMeta := machine_ObjectMeta m;
     machine_Spec := s; machine_Status := machine_Status m |}.

Definition with_ProviderSpec (m : Machine) (p : option RawExtension) : Machine :=
  with_machine_Spec m {| SpecName := SpecName (machine_Spec m); MachineProviderSpec := p; Versions := Versions (machine_Spec m);
                         ProviderID := ProviderID (machine_Spec m) |}.

Definition with_Versions (m : Machine) (v : string) : Machine :=
  with_machine_Spec m {| SpecName := SpecName (machine_Spec m);
                         MachineProviderSpec := MachineProviderSpec (machine_Spec m);
                         Versions := {| Kubelet := v; ControlPlane := v |};
                         ProviderID := ProviderID (machine_Spec m) |}.

Definition with_machine_ProviderStatus (m : Machine) (p : option RawExtension) : Machine :=
  {| machine_TypeMeta := machine_TypeMeta m; machine_ObjectMeta := machine_ObjectMeta m;
     machine_Spec := machine_Spec m;
     machine_Status := {| MachineProviderStatus := p;
                          MachinePhase := MachinePhase (machine_Status m) |} |}.

Definition set_capi (c : Cluster) (a : CapiCluster) : Cluster :=
  with_Spec c (with_ClusterAPI (Spec c) a).

Definition with_ClusterProviderStatus (c : Cluster) (p : option RawExtension) : Cluster :=
  let a := ClusterAPI (Spec c) in
  set_capi c (with_capi_Status a {| APIEndpoints := APIEndpoints (capi_Status a);
                                    ClusterErrorMessage := ClusterErrorMessage (capi_Status a);
                                    ClusterProviderStatus := p |}).

(** phases.ApplyCluster fills in the namespace of the object it is given. *)
Definition with_namespace (a : CapiCluster) (ns : string) : CapiCluster :=
  let m := capi_ObjectMeta a in
  {| capi_TypeMeta := capi_TypeMeta a;
     capi_ObjectMeta := {| Name := Name m; Namespace := ns; UID := UID m; Generation := Generation m;
       CreationTimestamp := CreationTimestamp m; DeletionTimestamp := DeletionTimestamp m;
       Labels := Labels m; Annotations := Annotations m |};
     capi_Spec := capi_Spec a; capi_Status := capi_Status a |}.

Definition capi_Namespace (c : Cluster) : string := Namespace (capi_ObjectMeta (ClusterAPI (Spec c))).

(** [util.IsControlPlaneMachine] *)
Definition IsControlPlaneMachine (m : Machine) : bool :=
  bool_decide (ControlPlane (Versions (machine_Spec m)) ≠ "").

(** [count += *machineSet.Spec.Replicas] in an int32: it wraps, and a nil
    [Replicas] panics. *)
Fixpoint nodeCount_from (count : Z) (machineSets : list MachineSet) : outcome Z :=
  match machineSets with
  | [] => Ok count
  | m :: rest =>
      match Replicas (machineset_Spec m) with
      | Some r => nodeCount_from (int32 (count + r)) rest
      | None => Panic "invalid memory address or nil pointer dereference"
      end
  end.

Definition nodeCount (machineSets : list MachineSet) : outcome Z := nodeCount_from 0 machineSets.

Definition hours24 : Z := minutes 1440.

Section apply.
Context {S Crt Key SSHKey X KC CC BC : Type}.
Context `{!Crypto Crt Key SSHKey, !CertText Crt Key, !Clock, !TimeText, !Rand, !Polling}.
Context `{!Kubernetes X KC CC BC, !JsonText, !Environment}.
Context (sp : ResourceInterface S Crt Key).
Notation env := (env (S := S) (Crt := Crt) (Key := Key) (SSHKey := SSHKey) (X := X) (KC := KC)).
Notation Interface := (Interface (S := S) (Crt := Crt) (Key := Key) (SSHKey := SSHKey) (X := X)
                                 (KC := KC)).
Context (providers : string → option Interface).

Definition on_cloud {A} (m : GoM X A) : GoM env A :=
  zoom e_cloud (λ x e, Env (e_store e) (e_tick e) x (e_scope e)) m.

Definition cloud_rand {A} (m : GoM (X * nat) A) : GoM env A :=
  zoom (λ e, (e_cloud e, e_tick e)) (λ st e, Env (e_store e) st.2 st.1 (e_scope e)) m.

Definition nil_panic {A} : GoM env A := panic "invalid memory address or nil pointer dereference".

(** [s.CloudManager], called through. *)
Definition the_manager : GoM env Interface :=
  cached ← gets (λ e, sc_CloudManager (e_scope e));
  match cached ≫= providers with
  | Some cm => mret cm
  | None => nil_panic
  end.

(** [&s.Certs.CACert] *)
Definition GetCaCertPair : GoM env (CertKeyPair Crt Key) :=
  certs ← gets (λ e, sc_Certs (e_scope e));
  match certs with
  | Some c => mret (CACert c)
  | None => nil_panic
  end.

Definition no_endpoint (cluster : Cluster) : error :=
  "failed to detect api server url for Cluster " +:+ cluster_Name cluster.

(** scope.go: Scope.GetAdminClient *)
Definition GetAdminClient : GoM env KC :=
  cached ← gets (λ e, sc_AdminClient (e_scope e));
  match cached with
  | Some c => mret c
  | None =>
      cluster ← the_cluster;
      let clusterEndpoint := APIServerURL cluster in
      _ ← err_if (bool_decide (clusterEndpoint = "")) (no_endpoint cluster);
      client ← store_rand (NewAdminClient (SSHKey := SSHKey) (X := X) sp (cluster_Name cluster) clusterEndpoint);
      _ ← set_AdminClient client;
      mret client
  end.

(** util.go *)
Definition getLeaderMachine (clusterName : string) : GoM env Machine :=
  store (op_Get (st_Machines sp clusterName) (clusterName +:+ "-master-0")).

(** The cluster-api client every step opens anew. *)
Definition open_clusterapi : GoM env CC :=
  cluster ← the_cluster;
  let clusterEndpoint := APIServerURL cluster in
  _ ← err_if (bool_decide (clusterEndpoint = "")) (no_endpoint cluster);
  store_rand (GetClusterAPIClient (SSHKey := SSHKey) (X := X) sp (cluster_Name cluster) clusterEndpoint).

Definition open_bootstrap : GoM env BC :=
  cluster ← the_cluster;
  ca ← GetCaCertPair;
  store_rand (GetBooststrapClient (SSHKey := SSHKey) (X := X) sp cluster ca).

(** [Clusters().UpdateStatus(cluster)] on the scope's cluster, which the store
    gives its kind; a store of clusters has an UpdateStatus. *)
Definition UpdateStatus : GoM env () :=
  cluster ← the_cluster;
  match op_UpdateStatus (st_Clusters sp) with
  | Some update => _ ← store (update (Some cluster)); set_Cluster (res_assign cluster)
  | None => nil_panic
  end.

Definition set_Phase (p : ClusterPhase) : GoM env () :=
  cluster ← the_cluster;
  set_Cluster (with_Status cluster (with_Phase (Status cluster) p)).

(** ** clusterapi.go

    The field [externalController] of ClusterAPI is never set: the secret is
    always created. *)
Record ClusterAPIClient := {
  ca_namespace : string; ca_token : string; ca_clusterapiClient : CC; ca_bootstrapClient : BC
}.

Definition NewClusterAPI (namespace : string) : GoM env ClusterAPIClient :=
  admin ← gets (λ e, sc_AdminClient (e_scope e));
  kc ← match admin with Some kc => mret kc | None => nil_panic end;
  token ← cloud_rand (GetExistingKubeadmToken kc hours24);
  bc ← open_bootstrap;
  clusterClient ← open_clusterapi;
  mret {| ca_namespace := namespace; ca_token := token; ca_clusterapiClient := clusterClient;
          ca_bootstrapClient := bc |}.

Definition the_AdminClient : GoM env KC :=
  admin ← gets (λ e, sc_AdminClient (e_scope e));
  match admin with Some kc => mret kc | None => nil_panic end.

Definition CreatePharmerSecret (ca : ClusterAPIClient) : GoM env () :=
  cluster ← the_cluster;
  let config := Config (Spec cluster) in
  cred ← store (op_Get (st_Credentials sp) (CredentialName config));
  credData ← lift (json_credential cred);
  kc ← the_AdminClient;
  let ns := ca_namespace ca in
  _ ← on_cloud (CreateNamespace kc ns);
  _ ← on_cloud (CreateSecret kc "pharmer-cred" ns {[ CredentialName config +:+ ".json" := credData ]});
  clusterData ← lift (json_cluster cluster);
  _ ← on_cloud (CreateSecret kc "pharmer-cluster" ns {[ cluster_Name cluster +:+ ".json" := clusterData ]});
  let key := SSHKeyName (Cloud config) in
  keys ← store (ri_ssh_Get sp (cluster_Name cluster) key);
  _ ← on_cloud (CreateSecret kc "pharmer-ssh" ns
        (<["id_" +:+ key +:+ ".pub" := keys.1]> {[ "id_" +:+ key := keys.2 ]}));
  certs ← gets (λ e, sc_Certs (e_scope e));
  match certs with
  | None => nil_panic
  | Some certs =>
      _ ← on_cloud (CreateSecret kc "pharmer-certificate" ns (list_to_map [
            ("ca.crt", cert_text (Cert (CACert certs)));
            ("ca.key", key_text (CKey (CACert certs)));
            ("front-proxy-ca.crt", cert_text (Cert (FrontProxyCACert certs)));
            ("front-proxy-ca.key", key_text (CKey (FrontProxyCACert certs)));
            ("sa.crt", cert_text (Cert (ServiceAccountCert certs)));
            ("sa.key", key_text (CKey (ServiceAccountCert certs)))]));
      on_cloud (CreateSecret kc "pharmer-etcd" ns (list_to_map [
            ("ca.crt", cert_text (Cert (EtcdCACert certs)));
            ("ca.key", key_text (CKey (EtcdCACert certs)))]))
  end.

Definition CreateAPIServerAndController (ca : ClusterAPIClient) (controllerManager : string) :
    GoM env () :=
  cluster ← the_cluster;
  text ← lift (render_template controllerManager
           {| at_ClusterName := cluster_Name cluster; at_Provider := CloudProvider cluster;
              at_ControllerNamespace := ca_namespace ca; at_ControllerImage := MachineControllerImage |});
  on_cloud (bc_Apply (ca_bootstrapClient ca) text).

(** [if err := m; err != nil && !tolerated(err) { return f(err) }] *)
Definition tolerate {A} (tolerated : error → bool) (f : error → error) (m : GoM env A) : GoM env () :=
  r ← attempt m;
  match r with
  | inl _ => mret ()
  | inr e => if tolerated e then mret () else throw (f e)
  end.

Definition object_modified (e : error) : bool := ErrObjectModified (Some e).
Definition exists_or_modified (e : error) : bool := ErrAlreadyExist e || object_modified e.

Definition CreateMachineController (ca : ClusterAPIClient) (controllerManager : string) : GoM env () :=
  _ ← CreatePharmerSecret ca;
  tolerate object_modified id (CreateAPIServerAndController ca controllerManager).

Definition updateProviderStatus (ca : ClusterAPIClient) : GoM env () :=
  PollImmediate retries (
    pharmerCluster ← the_cluster;
    unless_err (on_cloud (capi_Clusters_Get (ca_clusterapiClient ca) (capi_Namespace pharmerCluster)
                                            (cluster_Name pharmerCluster)))
      (λ cluster,
         match ClusterProviderStatus (capi_Status cluster) with
         | None => mret false
         | Some st =>
             let updated := with_ClusterProviderStatus pharmerCluster (Some st) in
             _ ← set_Cluster updated;
             unless_err (store (op_Update (st_Clusters sp) (Some updated)))
               (λ stored, _ ← set_Cluster stored; mret true)
         end)).

Definition updateMachineStatus (ca : ClusterAPIClient) (namespace : string) (masterMachine : Machine) :
    GoM env () :=
  PollImmediate retries (
    unless_err (on_cloud (capi_Machines_Get (ca_clusterapiClient ca) namespace (machine_Name masterMachine)))
      (λ m, unless_err (on_cloud (capi_Machines_UpdateStatus (ca_clusterapiClient ca) namespace
               (with_machine_ProviderStatus m (MachineProviderStatus (machine_Status masterMachine)))))
            (λ _, mret true))).

(** phases.ApplyCluster *)
Definition ApplyCluster (bc : BC) : GoM env () :=
  cluster ← the_cluster;
  let a := ClusterAPI (Spec cluster) in
  let ns := if decide (capi_Namespace cluster = "") then bc_GetContextNamespace bc
            else capi_Namespace cluster in
  let a := with_namespace a ns in
  _ ← set_Cluster (set_capi cluster a);
  _ ← on_err (wrap ("unable to ensure namespace " +:+ ns)) (on_cloud (bc_EnsureNamespace bc ns));
  on_cloud (bc_CreateClusterObject bc a).

Definition ClusterAPI_Apply (ca : ClusterAPIClient) (controllerManager : string) : GoM env () :=
  _ ← tolerate (λ e, Contains e "Already Exists,  Ignoring") (wrap "can't create machine controller")
               (CreateMachineController ca controllerManager);
  _ ← tolerate ErrAlreadyExist id (ApplyCluster (ca_bootstrapClient ca));
  cluster ← the_cluster;
  let namespace := if decide (capi_Namespace cluster = "")
                   then bc_GetContextNamespace (ca_bootstrapClient ca) else capi_Namespace cluster in
  c ← on_cloud (capi_Clusters_Get (ca_clusterapiClient ca) namespace (cluster_Name cluster));
  _ ← tolerate object_modified id (on_cloud (capi_Clusters_UpdateStatus (ca_clusterapiClient ca) namespace
         (with_capi_Status c (capi_Status (ClusterAPI (Spec cluster))))));
  _ ← updateProviderStatus ca;
  masterMachine ← getLeaderMachine (cluster_Name cluster);
  _ ← tolerate exists_or_modified (wrap "failed to add master machine")
         (on_cloud (capi_Machines_Create (ca_clusterapiClient ca) namespace masterMachine));
  on_err (wrap "failed to update machine status") (updateMachineStatus ca namespace masterMachine).

(** ** apply.go *)
Definition applyClusterAPI : GoM env () :=
  ca ← NewClusterAPI "cloud-provider-system";
  cm ← the_manager;
  clusterAPIcomponents ← cm_GetClusterAPIComponents cm;
  _ ← ClusterAPI_Apply ca clusterAPIcomponents;
  capiClient ← open_clusterapi;
  cluster ← the_cluster;
  machines ← store (op_List (st_Machines sp (cluster_Name cluster)));
  for_each (λ m, tolerate exists_or_modified id
                   (on_cloud (capi_Machines_Create capiClient (capi_Namespace cluster) m))) machines.

Definition setMasterSKU : GoM env () :=
  cluster ← the_cluster;
  cm ← the_manager;
  let clusterName := cluster_Name cluster in
  machines ← store (op_List (st_Machines sp clusterName));
  machineSets ← store (op_List (st_MachineSets sp clusterName));
  totalNodes ← lift (nodeCount machineSets);
  let sku := cm_GetMasterSKU cm totalNodes in
  for_each (λ m,
    providerspec ← cm_GetDefaultMachineProviderSpec cm sku MasterMachineRole;
    _ ← store (op_Update (st_Machines sp clusterName) (Some (with_ProviderSpec m providerspec)));
    mret ()) machines.

Definition ApplyCreate : GoM env () :=
  cm ← GetCloudManager sp providers;
  _ ← cm_PrepareCloud cm;
  cluster ← the_cluster;
  _ ← if is_managed (CloudProvider cluster) then mret () else
        (_ ← setMasterSKU;
         machine ← getLeaderMachine (cluster_Name cluster);
         cm_EnsureMaster cm machine);
  kubeClient ← cm_GetAdminClient cm;
  _ ← on_cloud (WaitForReadyMaster kubeClient);
  _ ← cm_CreateCredentials cm kubeClient;
  cluster ← the_cluster;
  _ ← if is_managed (CloudProvider cluster) then mret () else applyClusterAPI;
  uid ← on_cloud (Namespaces_Get kubeClient NamespaceSystem);
  cluster ← the_cluster;
  cluster ← store (ri_UpdateUUID sp (Some cluster) uid);
  _ ← set_Cluster cluster;
  _ ← set_Phase ClusterReady;
  UpdateStatus.

Definition ApplyScale : GoM env () :=
  cluster ← the_cluster;
  if is_managed (CloudProvider cluster) then (cm ← the_manager; cm_ApplyScale cm) else
  let n := cluster_Name cluster in
  machineSets ← store (op_List (st_MachineSets sp n));
  bc ← open_bootstrap;
  clusterClient ← open_clusterapi;
  for_each (λ ms,
    match DeletionTimestamp (machineset_ObjectMeta ms) with
    | Some _ =>
        _ ← on_cloud (capi_MachineSets_Delete clusterClient (Namespace (machineset_ObjectMeta ms))
                                              (machineset_Name ms));
        store (op_Delete (st_MachineSets sp n) (machineset_Name ms))
    | None =>
        data ← lift (json_machineset ms);
        on_cloud (bc_Apply bc data)
    end) machineSets.

(** The version library (gomodules.xyz/version) is a parameter. *)
Definition ApplyUpgrade {V} (NewVersion : string → option V) (Equal : V → V → bool) : GoM env () :=
  kc ← GetAdminClient;
  cluster ← the_cluster;
  let n := cluster_Name cluster in
  let version := KubernetesVersion (Config (Spec cluster)) in
  masterMachine ← store (op_Get (st_Machines sp n) (n +:+ "-master"));
  bc ← open_bootstrap;
  data ← lift (json_machine (with_Versions masterMachine version));
  _ ← on_cloud (bc_Apply bc data);
  _ ← on_cloud (WaitForReadyMasterVersion NewVersion Equal kc (NewVersion version));
  machineSets ← store (op_List (st_MachineSets sp n));
  _ ← for_each (λ ms,
        data ← lift (json_machineset (with_template_Kubelet ms version));
        on_cloud (bc_Apply bc data)) machineSets;
  _ ← set_Phase ClusterReady;
  UpdateStatus.

(** ** delete.go *)

(** List, delete each, then wait until none is listed. *)
Definition deleteMachineDeployments (client : CC) : GoM env () :=
  items ← on_cloud (capi_MachineDeployments_List client);
  _ ← for_each (λ m, on_cloud (capi_MachineDeployments_Delete client (Namespace m) (Name m))) items;
  PollImmediate retries (unless_err (on_cloud (capi_MachineDeployments_List client))
    (λ l, mret (bool_decide (length l = 0)))).

Definition deleteMachineSets (client : CC) : GoM env () :=
  items ← on_cloud (capi_MachineSets_List client);
  _ ← for_each (λ m, on_cloud (capi_MachineSets_Delete client (Namespace (machineset_ObjectMeta m))
                                                       (machineset_Name m))) items;
  PollImmediate retries (unless_err (on_cloud (capi_MachineSets_List client))
    (λ l, mret (bool_decide (length l = 0)))).

(** The wait of this one only logs the machines it finds. *)
Definition deleteMachines (client : CC) : GoM env () :=
  items ← on_cloud (capi_Machines_List client);
  _ ← for_each (λ m, on_cloud (capi_Machines_Delete client (Namespace (machine_ObjectMeta m))
                                                    (machine_Name m))) items;
  PollImmediate retries (unless_err (on_cloud (capi_Machines_List client)) (λ _, mret true)).

(** [err := m; if err != nil { log }] *)
Definition log_err (m : GoM env ()) : GoM env () := _ ← attempt m; mret ().

Definition deleteAllWorkerMachines : GoM env () :=
  clusterClient ← open_clusterapi;
  _ ← log_err (deleteMachineDeployments clusterClient);
  _ ← log_err (deleteMachineSets clusterClient);
  log_err (deleteMachines clusterClient).

Definition ApplyDelete : GoM env () :=
  _ ← log_err deleteAllWorkerMachines;
  cluster ← the_cluster;
  _ ← if decide (Phase (Status cluster) = ClusterReady) then set_Phase ClusterDeleting else mret ();
  _ ← UpdateStatus;
  cm ← the_manager;
  cm_ApplyDelete cm.

(** ** Apply *)
Definition retire_machinesets : GoM env () :=
  cluster ← the_cluster;
  let n := cluster_Name cluster in
  machineSets ← store (op_List (st_MachineSets sp n));
  for_each (λ ng,
    now ← Now;
    _ ← store (op_Update (st_MachineSets sp n) (Some (with_Replicas_deleted ng 0 now)));
    mret ()) machineSets.

Definition Apply : GoM env () :=
  cluster ← the_cluster;
  let phase := Phase (Status cluster) in
  if decide (phase = "") then throw ("Cluster `" +:+ cluster_Name cluster +:+ "` is in unknown phase")
  else if decide (phase = ClusterDeleted) then mret ()
  else if decide (phase = ClusterUpgrading) then
    throw ("Cluster `" +:+ cluster_Name cluster +:+
           "` is upgrading. Retry after Cluster returns to Ready state")
  else
    cm ← GetCloudManager sp providers;
    _ ← cm_SetCloudConnector cm;
    cluster ← the_cluster;
    _ ← if decide (Phase (Status cluster) = ClusterPending)
        then (_ ← ApplyCreate; ApplyScale) else mret ();
    cluster ← the_cluster;
    match DeletionTimestamp (cluster_ObjectMeta cluster) with
    | Some _ =>
        if decide (Phase (Status cluster) = ClusterDeleted) then mret () else
        (_ ← retire_machinesets; ApplyDelete)
    | None => mret ()
    end.
End apply.
