(* ===== verification/ApplyProofs.v ===== *)
(** * What Apply does, phase by phase *)
From stdpp Require Import base list gmap strings pretty fin_maps.
From S2P Require Import Prelude GoStrings Api StoreSpec Provider Certs Kube Cloud CloudProofs Apply.

(** ** Counting nodes: int32 *)
Lemma int32_range n : (-2147483648 ≤ int32 n < 2147483648)%Z.
Proof. unfold int32. pose proof (Z.mod_pos_bound (n + 2147483648) 4294967296). lia. Qed.

Lemma int32_id n : (-2147483648 ≤ n < 2147483648)%Z → int32 n = n.
Proof. intros Hn. unfold int32. rewrite Z.mod_small by lia. lia. Qed.

Lemma int32_add a b : int32 (int32 a + b) = int32 (a + b).
Proof.
  unfold int32.
  replace (((a + 2147483648) `mod` 4294967296 - 2147483648 + b + 2147483648))%Z
    with ((a + 2147483648) `mod` 4294967296 + b)%Z by lia.
  rewrite Zplus_mod_idemp_l. do 2 f_equal. lia.
Qed.

Definition sum_Z (l : list Z) : Z := foldr Z.add 0%Z l.

Lemma nodeCount_from_ok machineSets : ∀ count rs,
  mapM (λ m, Replicas (machineset_Spec m)) machineSets = Some rs →
  nodeCount_from (int32 count) machineSets = Ok (int32 (count + sum_Z rs)).
Proof.
  induction machineSets as [|m l IH]; intros count rs Hrs; cbn [nodeCount_from].
  - injection Hrs as <-. cbn. by rewrite Z.add_0_r.
  - apply mapM_Some in Hrs. inversion Hrs as [|? r ? rs' Hr Hrest]; subst.
    apply mapM_Some in Hrest. rewrite Hr, int32_add, (IH _ rs') by done.
    cbn [sum_Z foldr]. by rewrite Z.add_assoc.
Qed.

(** [C14] The number of nodes is the sum of the replicas modulo 2^32, as a signed
    number: exact while the sum fits; a machine set with no [replicas] is a
    nil dereference. *)
Theorem nodeCount_ok machineSets :
  (∀ rs, mapM (λ m, Replicas (machineset_Spec m)) machineSets = Some rs →
     nodeCount machineSets = Ok (int32 (sum_Z rs)) ∧
     ((-2147483648 ≤ sum_Z rs < 2147483648)%Z → nodeCount machineSets = Ok (sum_Z rs))) ∧
  (mapM (λ m, Replicas (machineset_Spec m)) machineSets = None →
     ∃ w, nodeCount machineSets = Panic w).
Proof.
  split.
  - intros rs Hrs. unfold nodeCount. change 0%Z with (int32 0).
    rewrite (nodeCount_from_ok _ 0 rs) by done. split; [done|]. intros Hb. by rewrite int32_id.
  - unfold nodeCount. generalize 0%Z. induction machineSets as [|m l IH]; [done|].
    intros count Hn. cbn [nodeCount_from]. cbn in Hn.
    destruct (Replicas (machineset_Spec m)) as [r|]; [|by eexists].
    apply IH. cbn in Hn. by destruct (mapM _ l).
Qed.

Section apply.
Context {Crt Key SSHKey X KC CC BC : Type}.
Context `{!Crypto Crt Key SSHKey, !CertText Crt Key, !Clock, !TimeText, !Rand, !Polling}.
Context `{!Kubernetes X KC CC BC, !JsonText, !Environment}.
Context (jC : Cluster → Cluster) (pCr : Credential → outcome Credential).
Context (jMS : MachineSet → MachineSet) (jM : Machine → Machine).
Notation env := (env (S := pharmer Crt Key) (Crt := Crt) (Key := Key) (SSHKey := SSHKey) (X := X)
                     (KC := KC)).
Notation Interface := (Interface (S := pharmer Crt Key) (Crt := Crt) (Key := Key) (SSHKey := SSHKey)
                                 (X := X) (KC := KC)).
Context (providers : string → option Interface).
Implicit Types (e : env) (s : pharmer Crt Key).

Let sp := spec_provider (Crt := Crt) (Key := Key) (Ok ∘ jC) pCr (Ok ∘ jMS) (Ok ∘ jM).

(** ** Which phases Apply acts on *)

(** No phase and an upgrade in progress are refused, and a deleted cluster is
    left alone, before the provider, the cloud or the store are touched. *)
Theorem apply_gate e c :
  sc_Cluster (e_scope e) = Some c →
  (Phase (Status c) = "" ∨ Phase (Status c) = ClusterUpgrading →
     ∃ err, Apply sp providers e = (Err err, e)) ∧
  (Phase (Status c) = ClusterDeleted → Apply sp providers e = (Ok (), e)).
Proof.
  intros Hc. split.
  - intros [Hp|Hp]; eexists; unfold Apply; erewrite bind_ok by (by apply the_cluster_ok);
      by rewrite Hp.
  - intros Hp. unfold Apply. erewrite bind_ok by (by apply the_cluster_ok). by rewrite Hp.
Qed.

(** On a cluster that is up, Apply only connects to the cloud: its machine sets
    are never scaled, those marked for deletion included. *)
Theorem apply_ready_only_connects e e' c p cm :
  sc_Cluster (e_scope e) = Some c → Phase (Status c) = ClusterReady →
  sc_CloudManager (e_scope e) = Some p → providers p = Some cm →
  cm_SetCloudConnector cm e = (Ok (), e') → sc_Cluster (e_scope e') = Some c →
  DeletionTimestamp (cluster_ObjectMeta c) = None →
  Apply sp providers e = (Ok (), e').
Proof.
  intros Hc Hr Hp Hcm Hconn Hc' Hd. unfold Apply.
  erewrite bind_ok by (by apply the_cluster_ok). cbv zeta. rewrite Hr, !decide_False by done.
  erewrite bind_ok by (by eapply cached_manager). erewrite bind_ok by done.
  erewrite bind_ok by (by apply the_cluster_ok). rewrite Hr, decide_False by done.
  erewrite bind_ok by done. erewrite bind_ok by (by apply the_cluster_ok). by rewrite Hd.
Qed.

(** ** Creating *)

Lemma UpdateStatus_inv e e' :
  UpdateStatus sp e = (Ok (), e') →
  ∃ c c0, sc_Cluster (e_scope e) = Some c ∧ sc_Cluster (e_scope e') = Some (res_assign c) ∧
    ob_clusters (ph_objects (e_store e')) !! cluster_Name c = Some (jC c0) ∧ Status c0 = Status c.
Proof.
  unfold UpdateStatus. intros (c & e1 & Hc & Hrun)%bind_ok_inv.
  unfold the_cluster in Hc. destruct (sc_Cluster (e_scope e)) as [c1|] eqn:E; [|done].
  injection Hc as -> <-. cbn [sp spec_provider st_Clusters op_UpdateStatus] in Hrun.
  apply bind_ok_inv in Hrun as (c2 & e2 & Hu & Hs). injection Hs as <-.
  unfold store, zoom in Hu. cbn in Hu. unfold on_clusters, zoom, spec_UpdateStatus in Hu.
  change (res_name c) with (cluster_Name c) in Hu.
  destruct (decide (cluster_Name c = "")); [done|].
  destruct (ob_clusters (ph_objects (e_store e)) !! cluster_Name c) as [ex|] eqn:Eex; [|done].
  cbn in Hu. injection Hu as <- <-. exists c. eexists. split_and!; [done..| |].
  - cbn. apply lookup_insert_eq.
  - done.
Qed.

(** When ApplyCreate succeeds, the cluster is ready, in memory and in the store. *)
Lemma apply_create_inv e e' :
  ApplyCreate sp providers e = (Ok (), e') →
  ∃ c c0, sc_Cluster (e_scope e') = Some c ∧ Phase (Status c) = ClusterReady ∧
    ob_clusters (ph_objects (e_store e')) !! cluster_Name c = Some (jC c0) ∧ Status c0 = Status c.
Proof.
  unfold ApplyCreate. intros Hrun.
  do 12 (let a := fresh "a" in let s := fresh "s" in let E := fresh "E" in
         apply bind_ok_inv in Hrun as (a & s & E & Hrun)).
  assert (Hup : UpdateStatus sp (Env (e_store s10) (e_tick s10) (e_cloud s10)
    {| sc_Cluster := Some (with_Status a10 (with_Phase (Status a10) ClusterReady));
       sc_Certs := sc_Certs (e_scope s10); sc_CloudManager := sc_CloudManager (e_scope s10);
       sc_AdminClient := sc_AdminClient (e_scope s10) |}) = (Ok (), e')) by exact Hrun.
  apply UpdateStatus_inv in Hup as (c & c0 & Hc & Hc' & Hs & Hst). cbn in Hc. injection Hc as <-.
  do 2 eexists. split; [exact Hc'|]. split; [done|]. split; [exact Hs|exact Hst].
Qed.

(** ** Scaling leaves the cluster as it is *)
Definition same_cluster e e' : Prop :=
  sc_Cluster (e_scope e') = sc_Cluster (e_scope e) ∧
  ob_clusters (ph_objects (e_store e')) = ob_clusters (ph_objects (e_store e)) ∧
  ∀ cl, ob_machines (ph_objects (e_store e')) cl = ob_machines (ph_objects (e_store e)) cl.

#[local] Instance same_cluster_preorder : PreOrder same_cluster.
Proof. split; [done|]. intros a b c (Ha & Hb & Hm) (Hc & Hd & Hn). split_and!; congruence. Qed.

Lemma the_cluster_same : pres same_cluster (the_cluster : GoM env Cluster).
Proof. intros e. unfold the_cluster. by destruct (sc_Cluster _). Qed.

Lemma on_cloud_same {A} (m : GoM X A) : pres same_cluster (on_cloud m : GoM env A).
Proof. intros e. unfold on_cloud, zoom. by destruct (m _). Qed.

Lemma machinesets_same {A} n (m : GoM (gmap string MachineSet) A) :
  pres same_cluster (store (on_machinesets n m) : GoM env A).
Proof. intros e. unfold store, on_machinesets, zoom. by destruct (m _). Qed.

Lemma list_machinesets_same n :
  pres same_cluster (store (op_List (st_MachineSets sp n)) : GoM env (list MachineSet)).
Proof. apply machinesets_same. Qed.

Lemma delete_machineset_same n name :
  pres same_cluster (store (op_Delete (st_MachineSets sp n) name) : GoM env ()).
Proof. apply machinesets_same. Qed.

Lemma update_machineset_same n ms :
  pres same_cluster (store (op_Update (st_MachineSets sp n) ms) : GoM env MachineSet).
Proof. apply machinesets_same. Qed.

(** Reading certificates only uses up randomness. *)
Definition same_store {T} (st st' : T * nat) : Prop := fst st' = fst st.

#[local] Instance same_store_preorder {T} : PreOrder (@same_store T).
Proof. split; [done|]. intros a b c. unfold same_store. congruence. Qed.

Lemma store_rand_same {A} (m : GoM (pharmer Crt Key * nat) A) :
  pres same_store m → pres same_cluster (store_rand m : GoM env A).
Proof.
  intros Hm e. unfold store_rand, zoom. specialize (Hm (e_store e, e_tick e)).
  destruct (m _) as [r [s' t']]. cbn in *. unfold same_store in Hm. cbn in Hm. by subst.
Qed.

Lemma cert_Get_same cl name :
  pres same_store (on_store (ri_cert_Get sp cl name) : GoM (pharmer Crt Key * nat) (Crt * Key)).
Proof.
  intros [s t]. unfold on_store, zoom. cbn. unfold spec_pair_Get.
  by repeat case_match; simplify_eq.
Qed.

Lemma draw_same {A} (f : nat → outcome A) :
  pres same_store (draw f : GoM (pharmer Crt Key * nat) A).
Proof. done. Qed.

Hint Resolve the_cluster_same on_cloud_same list_machinesets_same delete_machineset_same
  update_machineset_same cert_Get_same draw_same : pres.

Lemma NewRestConfig_same cl u :
  pres same_store (NewRestConfig (SSHKey := SSHKey) sp cl u).
Proof. unfold NewRestConfig, CreateAdminCertificate. pres_tac. Qed.

Lemma GetAdminConfig_same c ca :
  pres same_store (GetAdminConfig (SSHKey := SSHKey) sp c ca).
Proof. unfold GetAdminConfig, GetAdminCert, CreateAdminCertificate. pres_tac. Qed.
Hint Resolve NewRestConfig_same GetAdminConfig_same : pres.

Lemma open_clusterapi_same : pres same_cluster (open_clusterapi (SSHKey := SSHKey) sp : GoM env CC).
Proof.
  unfold open_clusterapi, GetClusterAPIClient. pres_tac. apply store_rand_same. pres_tac.
Qed.

Lemma open_bootstrap_same : pres same_cluster (open_bootstrap (SSHKey := SSHKey) sp : GoM env BC).
Proof.
  unfold open_bootstrap, GetBooststrapClient, GetCaCertPair, nil_panic. pres_tac.
  apply store_rand_same. pres_tac.
Qed.
Hint Resolve open_clusterapi_same open_bootstrap_same : pres.

Lemma ApplyScale_same e c :
  sc_Cluster (e_scope e) = Some c → is_managed (CloudProvider c) = false →
  same_cluster e (ApplyScale sp providers e).2.
Proof.
  intros Hc Hm. unfold ApplyScale. erewrite bind_ok by (by apply the_cluster_ok). rewrite Hm.
  clear Hc. revert e. match goal with |- ∀ e, same_cluster e (?m e).2 => change (pres same_cluster m) end.
  pres_tac.
Qed.

(** [C3] Applying a pending cluster whose control plane pharmer runs, and which is not
    marked for deletion once it is created, either fails or leaves it ready, in memory
    and in the store.  (A cluster with a deletion time is taken down in the same run.) *)
Theorem apply_pending_ready e e' c cm e1 c1 e2 :
  sc_Cluster (e_scope e) = Some c → Phase (Status c) = ClusterPending →
  GetCloudManager sp providers e = (Ok cm, e1) → cm_SetCloudConnector cm e1 = (Ok (), e2) →
  sc_Cluster (e_scope e2) = Some c1 → Phase (Status c1) = ClusterPending →
  (∀ c2 e3, ApplyCreate sp providers e2 = (Ok (), e3) → sc_Cluster (e_scope e3) = Some c2 →
     is_managed (CloudProvider c2) = false ∧ DeletionTimestamp (cluster_ObjectMeta c2) = None) →
  Apply sp providers e = (Ok (), e') →
  ∃ c' c0, sc_Cluster (e_scope e') = Some c' ∧ Phase (Status c') = ClusterReady ∧
    ob_clusters (ph_objects (e_store e')) !! cluster_Name c' = Some (jC c0) ∧ Status c0 = Status c'.
Proof.
  intros Hc Hp Hm Hconn Hc1 Hp1 Hkeep. unfold Apply.
  erewrite bind_ok by (by apply the_cluster_ok). cbv zeta. rewrite Hp, !decide_False by done.
  erewrite bind_ok by done. erewrite bind_ok by done.
  erewrite bind_ok by (by apply the_cluster_ok). rewrite Hp1, decide_True by done.
  intros ([] & e4 & Hrun & Hend)%bind_ok_inv.
  apply bind_ok_inv in Hrun as ([] & e3 & Hcreate & Hscale).
  destruct (apply_create_inv e2 e3 Hcreate) as (c2 & c0 & Hc2 & Hr & Hs & Hst).
  destruct (Hkeep c2 e3 Hcreate Hc2) as [Hun Hdel].
  destruct (ApplyScale_same e3 c2 Hc2 Hun) as (Hsc & Hcl & _). rewrite Hscale in Hsc, Hcl. cbn in Hsc, Hcl.
  erewrite bind_ok in Hend by (apply the_cluster_ok; by rewrite Hsc, Hc2).
  rewrite Hdel in Hend. injection Hend as <-.
  exists c2, c0. by rewrite Hsc, Hcl.
Qed.

(** ** Deleting *)
Definition retired (ms ms0 : MachineSet) : Prop :=
  ∃ now, ms = jMS (res_assign (with_Replicas_deleted ms0 0 now)).

(** One turn of the loop over the machine sets. *)
Definition retire (n : string) (ng : MachineSet) : GoM env () :=
  now ← Now;
  _ ← store (op_Update (st_MachineSets sp n) (Some (with_Replicas_deleted ng 0 now)));
  mret ().

Definition sets e n : gmap string MachineSet := ob_machinesets (ph_objects (e_store e)) n.

(** All but the machine sets of one cluster *)
Record same_but_sets (n : string) s s' : Prop := {
  sb_credentials : ob_credentials (ph_objects s') = ob_credentials (ph_objects s);
  sb_clusters : ob_clusters (ph_objects s') = ob_clusters (ph_objects s);
  sb_machines cl : ob_machines (ph_objects s') cl = ob_machines (ph_objects s) cl;
  sb_others cl : cl ≠ n → ob_machinesets (ph_objects s') cl = ob_machinesets (ph_objects s) cl;
  sb_certs : ph_certs s' = ph_certs s;
  sb_ssh : ph_ssh s' = ph_ssh s
}.

#[local] Instance same_but_sets_preorder n : PreOrder (same_but_sets n).
Proof.
  split; [by split|]. intros a b c [] [].
  split; intros; repeat match goal with H : _ = _ |- _ => rewrite H | H : ∀ _, _ |- _ => rewrite H by done end; reflexivity.
Qed.

Lemma retire_ok e n ng :
  machineset_Name ng ≠ "" → is_Some (sets e n !! machineset_Name ng) →
  ∃ ms s', retire n ng e = (Ok (), Env s' (Datatypes.S (e_tick e)) (e_cloud e) (e_scope e)) ∧
    retired ms ng ∧
    ob_machinesets (ph_objects s') n = <[machineset_Name ng := ms]> (sets e n) ∧
    same_but_sets n (e_store e) s'.
Proof.
  intros Hn [old Hold]. do 2 eexists. unfold retire. split.
  - erewrite bind_ok by done. erewrite bind_ok; [done|]. unfold store, zoom. cbn [e_store].
    cbn [sp spec_provider st_MachineSets op_Update]. cbn. unfold on_machinesets, zoom, spec_Update.
    rewrite decide_False by done. unfold sets in Hold.
    change (res_name (with_Replicas_deleted ng 0 _)) with (machineset_Name ng). rewrite Hold. done.
  - split; [by eexists|]. split; [cbn; by rewrite decide_True|].
    split; try done. intros cl Hcl. cbn. by rewrite decide_False.
Qed.

Lemma retire_all n l : ∀ e,
  NoDup (machineset_Name <$> l) →
  (∀ ng, ng ∈ l → machineset_Name ng ≠ "" ∧ is_Some (sets e n !! machineset_Name ng)) →
  ∃ s' t', for_each (retire n) l e = (Ok (), Env s' t' (e_cloud e) (e_scope e)) ∧
    same_but_sets n (e_store e) s' ∧
    (∀ k, k ∉ (machineset_Name <$> l) → ob_machinesets (ph_objects s') n !! k = sets e n !! k) ∧
    (∀ ng, ng ∈ l → ∃ ms, ob_machinesets (ph_objects s') n !! machineset_Name ng = Some ms ∧ retired ms ng).
Proof.
  induction l as [|ng l IH]; intros e Hnd Hl.
  { destruct e as [s t x sc]. do 2 eexists. split_and!; try done. by intros ? ?%not_elem_of_nil. }
  rewrite fmap_cons in Hnd. apply NoDup_cons in Hnd as [Hnew Hnd].
  destruct (Hl ng ltac:(left)) as [Hn Hs].
  destruct (retire_ok e n ng Hn Hs) as (ms & s1 & E1 & Hr & Hset & Hsame).
  destruct (IH (Env s1 (Datatypes.S (e_tick e)) (e_cloud e) (e_scope e)) Hnd)
    as (s2 & t2 & E2 & Hsame2 & Hold2 & Hnew2).
  { intros ng' Hin. destruct (Hl ng' ltac:(by right)) as [Hn' Hs']. split; [done|].
    unfold sets. cbn [e_store]. rewrite Hset. destruct (decide (machineset_Name ng' = machineset_Name ng)) as [->|].
    - rewrite lookup_insert_eq. by eexists.
    - by rewrite lookup_insert_ne. }
  exists s2, t2. split_and!.
  - cbn [for_each]. by erewrite bind_ok by done.
  - by etrans.
  - intros k. rewrite fmap_cons. intros [H1' H2']%not_elem_of_cons. rewrite Hold2 by done.
    unfold sets. cbn [e_store]. rewrite Hset. by rewrite lookup_insert_ne.
  - intros ng' [->|Hin]%elem_of_cons; [|by apply Hnew2].
    exists ms. split; [|done]. rewrite Hold2 by done. unfold sets. cbn [e_store]. rewrite Hset.
    apply lookup_insert_eq.
Qed.

(** A store whose machine sets are filed under their own names. *)
Definition sets_named (m : gmap string MachineSet) : Prop :=
  ∀ k ms, m !! k = Some ms → machineset_Name ms = k ∧ k ≠ "".

Lemma list_sets e n :
  ∃ s1, store (op_List (st_MachineSets sp n)) e =
      (Ok (map_to_list (sets e n)).*2, Env s1 (e_tick e) (e_cloud e) (e_scope e)) ∧
    ob_machinesets (ph_objects s1) n = sets e n ∧ same_but_sets n (e_store e) s1.
Proof.
  eexists. split; [done|]. split; [cbn; by rewrite decide_True|].
  split; try done. intros cl Hcl. cbn. by rewrite decide_False.
Qed.

Lemma sets_list m ng : ng ∈ (map_to_list (m : gmap string MachineSet)).*2 ↔ ∃ k, m !! k = Some ng.
Proof.
  rewrite list_elem_of_fmap. split.
  - intros ([k v] & -> & Hkv). exists k. by apply elem_of_map_to_list.
  - intros [k Hk]. exists (k, ng). split; [done|by apply elem_of_map_to_list].
Qed.

Lemma sets_named_keys m :
  sets_named m → machineset_Name <$> (map_to_list m).*2 = (map_to_list m).*1.
Proof.
  intros Hnamed. rewrite <-list_fmap_compose. apply list_fmap_ext. intros i [k v] Hkv.
  apply list_elem_of_lookup_2, elem_of_map_to_list in Hkv. apply (Hnamed _ _ Hkv).
Qed.

(** Each machine set of a cluster with no replicas and a deletion time, and no others *)
Definition sets_retired (n : string) s s' : Prop :=
  same_but_sets n s s' ∧
  (∀ k, is_Some (ob_machinesets (ph_objects s) n !! k) ↔ is_Some (ob_machinesets (ph_objects s') n !! k)) ∧
  ∀ k ms0, ob_machinesets (ph_objects s) n !! k = Some ms0 →
    ∃ ms1 now, ob_machinesets (ph_objects s') n !! k = Some (jMS ms1) ∧
      Replicas (machineset_Spec ms1) = Some 0%Z ∧ DeletionTimestamp (machineset_ObjectMeta ms1) = Some now ∧
      machineset_Name ms1 = k ∧ TemplateSpec (machineset_Spec ms1) = TemplateSpec (machineset_Spec ms0).

Lemma retire_machinesets_ok e c :
  sc_Cluster (e_scope e) = Some c → sets_named (sets e (cluster_Name c)) →
  ∃ s' t', retire_machinesets sp e = (Ok (), Env s' t' (e_cloud e) (e_scope e)) ∧
    sets_retired (cluster_Name c) (e_store e) s'.
Proof.
  intros Hc Hnamed. unfold retire_machinesets. set (n := cluster_Name c) in *.
  destruct (list_sets e n) as (s1 & El & Hs1 & Hsame1).
  destruct (retire_all n (map_to_list (sets e n)).*2 (Env s1 (e_tick e) (e_cloud e) (e_scope e)))
    as (s' & t' & E & Hsame & Hold & Hnew).
  { rewrite sets_named_keys by done. apply NoDup_fst_map_to_list. }
  { intros ng [k Hk]%sets_list. destruct (Hnamed _ _ Hk) as [-> Hne]. split; [done|].
    unfold sets at 1. cbn [e_store]. rewrite Hs1. by eexists. }
  rewrite sets_named_keys in Hold by done. cbn [e_store] in *.
  assert (Hret : ∀ k ms0, sets e n !! k = Some ms0 →
    ∃ ms, ob_machinesets (ph_objects s') n !! k = Some ms ∧ retired ms ms0).
  { intros k ms0 Hk. destruct (Hnamed _ _ Hk) as [<- _]. apply Hnew, sets_list. by exists (machineset_Name ms0). }
  exists s', t'. split; [|split_and!].
  - erewrite bind_ok by (by apply the_cluster_ok). erewrite bind_ok by done. exact E.
  - by etrans.
  - intros k. fold (sets e n). split.
    + intros [ms0 Hk]. destruct (Hret k ms0 Hk) as (ms & Hms & _). by exists ms.
    + intros [ms Hms]. destruct (sets e n !! k) as [ms0|] eqn:Hk; [by exists ms0|].
      rewrite Hold in Hms.
      * unfold sets in Hms. cbn [e_store] in Hms. rewrite Hs1 in Hms. congruence.
      * intros ([k' v] & -> & Hkv)%list_elem_of_fmap. apply elem_of_map_to_list in Hkv. cbn in Hk. congruence.
  - intros k ms0 Hk. destruct (Hret k ms0 Hk) as (ms & Hms & now & ->).
    eexists _, now. split; [exact Hms|]. split_and!; try done. apply (Hnamed _ _ Hk).
Qed.

(** [C7] Applying a cluster that is marked for deletion, and is neither pending, deleted
    nor upgrading, once its provider is found and connected, first retires its machine
    sets (which are filed under their own names): each is stored with no replicas and a
    deletion time, no other is, and all else of the store is as before.  From there, and
    only then, it is taken down by ApplyDelete, whose outcome is that of the run. *)
Theorem apply_retires_first e c cm e1 e2 c1 at_ :
  sc_Cluster (e_scope e) = Some c →
  Phase (Status c) ∉ [""; ClusterDeleted; ClusterUpgrading] →
  GetCloudManager sp providers e = (Ok cm, e1) → cm_SetCloudConnector cm e1 = (Ok (), e2) →
  sc_Cluster (e_scope e2) = Some c1 → Phase (Status c1) ∉ [ClusterPending; ClusterDeleted] →
  DeletionTimestamp (cluster_ObjectMeta c1) = Some at_ → sets_named (sets e2 (cluster_Name c1)) →
  ∃ s' t', sets_retired (cluster_Name c1) (e_store e2) s' ∧
    Apply sp providers e = ApplyDelete sp providers (Env s' t' (e_cloud e2) (e_scope e2)).
Proof.
  intros Hc Hp Hm Hconn Hc1 Hp1 Hd Hnamed.
  apply not_elem_of_cons in Hp as [? [? [? _]%not_elem_of_cons]%not_elem_of_cons].
  apply not_elem_of_cons in Hp1 as [? [? _]%not_elem_of_cons].
  destruct (retire_machinesets_ok e2 c1 Hc1 Hnamed) as (s' & t' & E & Hr). exists s', t'. split; [done|].
  unfold Apply. erewrite bind_ok by (by apply the_cluster_ok). cbv zeta. rewrite !decide_False by done.
  erewrite bind_ok by done. erewrite bind_ok by done.
  erewrite bind_ok by (by apply the_cluster_ok). rewrite decide_False by done.
  erewrite bind_ok by done. erewrite bind_ok by (by apply the_cluster_ok). rewrite Hd, decide_False by done.
  by erewrite bind_ok by exact E.
Qed.

(** ** Upgrading *)
Lemma GetAdminClient_same : pres same_cluster (GetAdminClient (SSHKey := SSHKey) sp : GoM env KC).
Proof.
  unfold GetAdminClient. pres_tac.
  - apply store_rand_same. unfold NewAdminClient. pres_tac.
  - intros e. by split_and!.
Qed.

Lemma leader_name_ne c i : MasterMachineName c i ≠ cluster_Name c +:+ "-master".
Proof.
  unfold MasterMachineName. intros E. apply (inj (String.append _)) in E.
  change ("-master-" +:+ pretty i) with ("-master" +:+ ("-" +:+ pretty i)) in E.
  change "-master" with ("-master" +:+ "") in E at 2. by apply (inj (String.append _)) in E.
Qed.

(** [C17] An upgrade never succeeds on the machines CreateCluster makes: it looks for
    [<cluster>-master], and they are called [<cluster>-master-<i>]. *)
Theorem apply_upgrade_fails {V} (NewVersion : string → option V) (Equal : V → V → bool) e c :
  sc_Cluster (e_scope e) = Some c →
  (∀ name, is_Some (ob_machines (ph_objects (e_store e)) (cluster_Name c) !! name) →
           ∃ i, name = MasterMachineName c i) →
  ∀ e', ApplyUpgrade (SSHKey := SSHKey) sp NewVersion Equal e ≠ (Ok (), e').
Proof.
  intros Hc Hnames e'. unfold ApplyUpgrade.
  intros (kc & e1 & E1 & Hrun)%bind_ok_inv. pose proof (GetAdminClient_same e) as (Hsc & _ & Hma).
  rewrite E1 in Hsc, Hma. cbn in Hsc, Hma.
  erewrite bind_ok in Hrun by (apply the_cluster_ok; by rewrite Hsc, Hc).
  apply bind_ok_inv in Hrun as (m & e2 & E2 & _). unfold store, zoom in E2. cbn in E2.
  unfold on_machines, zoom, spec_Get in E2.
  destruct (decide _); [done|]. rewrite Hma in E2.
  destruct (ob_machines (ph_objects (e_store e)) (cluster_Name c) !! (cluster_Name c +:+ "-master"))
    as [m0|] eqn:Em; [|done].
  destruct (Hnames (cluster_Name c +:+ "-master") (ex_intro _ m0 Em)) as [i Hi].
  by destruct (leader_name_ne c i).
Qed.

(** ** Waiting for deletion *)
Lemma delete_all_ok {A} (del : A → GoM env ()) l e :
  (∀ a, a ∈ l → del a e = (Ok (), e)) → for_each del l e = (Ok (), e).
Proof.
  induction l as [|a l IH]; intros Hdel; [done|]. cbn [for_each].
  erewrite bind_ok by (apply Hdel; by left). apply IH. intros b Hb. apply Hdel. by right.
Qed.

Lemma PollImmediate_never {T} (condition : GoM T bool) (st : T) : ∀ n,
  condition st = (Ok false, st) →
  PollImmediate n condition st = (Err "timed out waiting for the condition", st).
Proof.
  intros n Hs. induction n as [|n IH]; cbn [PollImmediate]; erewrite bind_ok by done; [done|exact IH].
Qed.

(** Deletion in Kubernetes is accepted at once and done later.  While objects
    are still listed after the accepted deletions, the wait for machine sets
    runs until it times out; the wait for machines returns at once, machines
    or not. *)
Theorem deleteMachines_does_not_wait client e ms mss :
  capi_Machines_List client (e_cloud e) = (Ok ms, e_cloud e) →
  (∀ ns n, capi_Machines_Delete client ns n (e_cloud e) = (Ok (), e_cloud e)) →
  capi_MachineSets_List client (e_cloud e) = (Ok mss, e_cloud e) →
  (∀ ns n, capi_MachineSets_Delete client ns n (e_cloud e) = (Ok (), e_cloud e)) →
  mss ≠ [] →
  deleteMachines client e = (Ok (), e) ∧
  deleteMachineSets client e = (Err "timed out waiting for the condition", e).
Proof.
  intros Hl Hd Hls Hds Hne.
  assert (Hcloud : ∀ A (m : GoM X A) r, m (e_cloud e) = (r, e_cloud e) → on_cloud m e = (r, e)).
  { intros A m r E. unfold on_cloud, zoom. rewrite E. by destruct e. }
  split.
  - unfold deleteMachines. erewrite bind_ok by (by apply Hcloud).
    erewrite bind_ok by (apply delete_all_ok; intros; apply Hcloud, Hd).
    assert (Ed : unless_err (on_cloud (capi_Machines_List client)) (λ _, mret true) e = (Ok true, e)).
    { unfold unless_err. by erewrite bind_ok by (by apply attempt_ok, Hcloud). }
    by destruct retries; cbn [PollImmediate]; erewrite bind_ok by exact Ed.
  - unfold deleteMachineSets. erewrite bind_ok by (by apply Hcloud).
    erewrite bind_ok by (apply delete_all_ok; intros; apply Hcloud, Hds).
    apply PollImmediate_never. unfold unless_err.
    erewrite bind_ok by (by apply attempt_ok, Hcloud). cbn. rewrite bool_decide_eq_false_2; [done|].
    by destruct mss.
Qed.
End apply.
