(* ===== verification/Use.v ===== *)
(** * Switching kubectl to a cluster (cloud/use.go)

    [UseCluster] merges a cluster's kubeconfig into [$HOME/.kube/config], after
    copying the old file.  The state is the file tree of Stow.v; reading and
    writing a kubeconfig is client-go's clientcmd, the class [ConfigCodec]. *)
From stdpp Require Import base list gmap strings fin_maps.
From S2P Require Import Prelude GoStrings GoPath Stow Api StoreSpec Provider Certs Kube.

Class ConfigCodec (D : Type) := {
  config_load : D → outcome ClientConfig;
  config_write : ClientConfig → outcome D
}.

Class ConfigCodecLaws (D : Type) `{!ConfigCodec D} : Prop := {
  config_roundtrip c d : config_write c = Ok d → config_load d = Ok c
}.

(** How the call ends: it returns, or the process exits. *)
Inductive finish := Returned | Exited (code : Z).

(** cmds/cloud/options: ClusterUseConfig *)
Record ClusterUseConfig := { use_ClusterName : string; use_Overwrite : bool }.

Definition toCluster (desired : NamedCluster) : ClientCluster :=
  {| cc_Server := nc_Server desired;
     cc_CertificateAuthorityData := nc_CertificateAuthorityData desired |}.

Definition no_auth : ClientAuthInfo :=
  {| ca_ClientCertificateData := ""; ca_ClientKeyData := ""; ca_Token := ""; ca_Username := "";
     ca_Password := ""; ca_Exec := None |}.

Definition toUser (desired : NamedAuthInfo) : ClientAuthInfo :=
  if bool_decide (na_Username desired ≠ "") && bool_decide (na_Password desired ≠ "") then
    {| ca_ClientCertificateData := ""; ca_ClientKeyData := ""; ca_Token := "";
       ca_Username := na_Username desired; ca_Password := na_Password desired; ca_Exec := None |}
  else match na_Exec desired with
  | Some x =>
      {| ca_ClientCertificateData := ""; ca_ClientKeyData := ""; ca_Token := ""; ca_Username := "";
         ca_Password := "";
         ca_Exec := Some {| ex_Command := ex_Command x; ex_Args := ex_Args x; ex_Env := [];
                            ex_APIVersion := ex_APIVersion x |} |}
  | None =>
      if decide (na_Token desired = "") then
        {| ca_ClientCertificateData := na_ClientCertificateData desired;
           ca_ClientKeyData := na_ClientKeyData desired; ca_Token := ""; ca_Username := "";
           ca_Password := ""; ca_Exec := None |}
      else
        {| ca_ClientCertificateData := ""; ca_ClientKeyData := ""; ca_Token := na_Token desired;
           ca_Username := ""; ca_Password := ""; ca_Exec := None |}
  end.

Definition toContext (desired : NamedContext) : ClientContext :=
  {| cx_Cluster := nx_Cluster desired; cx_AuthInfo := nx_AuthInfo desired |}.

Definition empty_config : ClientConfig :=
  {| cf_Kind := "Config"; cf_APIVersion := "v1"; cf_Colors := true; Clusters := ∅; AuthInfos := ∅;
     Contexts := ∅; CurrentContext := "" |}.

Definition with_CurrentContext (c : ClientConfig) (ctx : string) : ClientConfig :=
  {| cf_Kind := cf_Kind c; cf_APIVersion := cf_APIVersion c; cf_Colors := cf_Colors c;
     Clusters := Clusters c; AuthInfos := AuthInfos c; Contexts := Contexts c;
     CurrentContext := ctx |}.

(** The three upserts. *)
Definition upsert (c : ClientConfig) (konf : KubeConfig) : ClientConfig :=
  {| cf_Kind := cf_Kind c; cf_APIVersion := cf_APIVersion c; cf_Colors := cf_Colors c;
     Clusters := <[nc_Name (kc_Cluster konf) := toCluster (kc_Cluster konf)]> (Clusters c);
     AuthInfos := <[na_Name (kc_AuthInfo konf) := toUser (kc_AuthInfo konf)]> (AuthInfos c);
     Contexts := <[nx_Name (kc_Context konf) := toContext (kc_Context konf)]> (Contexts c);
     CurrentContext := CurrentContext c |}.

Definition context_name (clusterName : string) : string :=
  "cluster-admin@" +:+ clusterName +:+ ".pharmer".

(** What UseCluster makes of the configuration it found. *)
Definition merged (opts : ClusterUseConfig) (konf : KubeConfig) (konfig : ClientConfig) :
    ClientConfig :=
  let ctxName := context_name (use_ClusterName opts) in
  let found := bool_decide (is_Some (Contexts konfig !! ctxName)) in
  with_CurrentContext (if negb found || use_Overwrite opts then upsert konfig konf else konfig) ctxName.

Section use.
Context {D : Type} `{!OS D, !ConfigCodec D}.
Context (homeDir : string) (stamp : string).   (* homedir.HomeDir, the formatted time *)

Definition KubeConfigPath : string := homeDir +:+ "/.kube/config".

(** ioutil.CopyFile *)
Definition CopyFile (dst src : string) : GoM (fs D) () :=
  d ← os_ReadFile src;
  os_Create dst d.

(** clientcmd.WriteToFile *)
Definition WriteToFile (config : ClientConfig) (filename : string) : GoM (fs D) () :=
  content ← lift (config_write config);
  _ ← os_MkdirAll (PathDir filename);
  os_Create filename content.

Definition UseCluster (opts : ClusterUseConfig) (konf : KubeConfig) : GoM (fs D) finish :=
  exists_ ← gets (os_Stat KubeConfigPath);
  konfig ← match exists_ with
           | inl _ =>
               konfig ← on_err (wrap "failed to load kubeconfig from disk")
                          (d ← os_ReadFile KubeConfigPath; lift (config_load d));
               _ ← on_err (wrap "failed to create backup of current config")
                          (CopyFile (KubeConfigPath +:+ ".bak." +:+ stamp) KubeConfigPath);
               mret konfig
           | inr _ => mret empty_config
           end;
  let ctxName := context_name (use_ClusterName opts) in
  if negb (use_Overwrite opts) && bool_decide (CurrentContext konfig = ctxName)
  then mret (Exited 0)
  else
    let konfig := merged opts konf konfig in
    _ ← on_err (wrap "failed to create kubeconfig file") (os_MkdirAll (PathDir KubeConfigPath));
    _ ← on_err (wrap "failed to write kubeconfig") (WriteToFile konfig KubeConfigPath);
    mret Returned.
End use.
