(* ===== verification/UseProofs.v ===== *)
(** * Properties of Use.v: the kubeconfig is merged, backed up, and switched *)
From stdpp Require Import base list gmap strings fin_maps.
From S2P Require Import Prelude GoStrings GoPath Stow Api StoreSpec Provider Certs Kube KubeProofs Use.

(** Kubeconfigs whose context names their own cluster and user, for cluster [n]. *)
Definition config_of (n : string) (konf : KubeConfig) : Prop :=
  nx_Name (kc_Context konf) = context_name n ∧
  nx_Cluster (kc_Context konf) = nc_Name (kc_Cluster konf) ∧
  nx_AuthInfo (kc_Context konf) = na_Name (kc_AuthInfo konf).

(** [C11] After a merge the current context is the cluster's; where the entries are
    written (a new context, or [--overwrite]) it leads to the given cluster and
    user; entries under other names are as before, and nothing is ever removed. *)
Theorem merged_ok opts konf c :
  config_of (use_ClusterName opts) konf →
  let c' := merged opts konf c in
  let ctx := context_name (use_ClusterName opts) in
  CurrentContext c' = ctx ∧
  (Contexts c !! ctx = None ∨ use_Overwrite opts = true →
     current_entry c' = Some (toCluster (kc_Cluster konf), toUser (kc_AuthInfo konf))) ∧
  (is_Some (Contexts c !! ctx) → use_Overwrite opts = false → current_entry c' = current_entry (with_CurrentContext c ctx)) ∧
  (∀ n, n ≠ nc_Name (kc_Cluster konf) → Clusters c' !! n = Clusters c !! n) ∧
  (∀ n, n ≠ na_Name (kc_AuthInfo konf) → AuthInfos c' !! n = AuthInfos c !! n) ∧
  (∀ n, n ≠ ctx → Contexts c' !! n = Contexts c !! n).
Proof.
  intros (Hx & Hc & Ha) c' ctx. unfold c', merged. fold ctx. split_and!.
  - done.
  - intros Hor. assert (negb (bool_decide (is_Some (Contexts c !! ctx))) || use_Overwrite opts = true)
      as -> by (destruct Hor as [-> | ->]; [done|apply orb_true_r]).
    unfold current_entry, with_CurrentContext, upsert. cbn [Contexts Clusters AuthInfos CurrentContext].
    rewrite Hx. fold ctx. rewrite lookup_insert_eq. cbn [mbind option_bind toContext cx_Cluster cx_AuthInfo].
    rewrite Hc, Ha, lookup_insert_eq. cbn [mbind option_bind].
    rewrite lookup_insert_eq. done.
  - intros Hs Ho. by rewrite bool_decide_eq_true_2, Ho by done.
  - intros n Hn. case_match; cbn [Clusters with_CurrentContext upsert]; [by rewrite lookup_insert_ne|done].
  - intros n Hn. case_match; cbn [AuthInfos with_CurrentContext upsert]; [by rewrite lookup_insert_ne|done].
  - intros n Hn. case_match; cbn [Contexts with_CurrentContext upsert]; [|done].
    rewrite lookup_insert_ne; [done|]. rewrite Hx. done.
Qed.

Section use.
Context {D : Type} `{!OS D, !ConfigCodec D, !ConfigCodecLaws D}.
Context (home : list string) (Hhome : home ≠ []) (Hplain : Forall plain home).
Context (stamp : string) (Hstamp : has_byte slash stamp = false).
Implicit Types (m : fs D).

Definition kube_dir : list string := home ++ [".kube"].
Definition kube_file : list string := kube_dir ++ ["config"].
Definition backup_name : string := "config.bak." +:+ stamp.
Definition backup_file : list string := kube_dir ++ [backup_name].

Lemma kube_dir_plain : Forall plain kube_dir.
Proof. apply Forall_app. split; [done|]. plains. Qed.

Lemma backup_name_plain : plain backup_name.
Proof.
  apply plain_long.
  - unfold backup_name. by rewrite has_byte_app, Hstamp.
  - unfold backup_name. rewrite append_length. cbn [String.length]. lia.
Qed.

Lemma KubeConfigPath_path : KubeConfigPath (abs_path home) = abs_path kube_file.
Proof.
  unfold KubeConfigPath, abs_path, kube_file, kube_dir.
  rewrite <-app_assoc. cbn [app]. rewrite Join_app by done.
  by rewrite !append_assoc.
Qed.

Lemma backup_path : abs_path kube_file +:+ ".bak." +:+ stamp = abs_path backup_file.
Proof.
  unfold abs_path, kube_file, backup_file. rewrite !Join_app by (done || apply snoc_ne).
  by rewrite !append_assoc.
Qed.

Lemma resolve_kube_file : resolve os_cwd (abs_path kube_file) = kube_file.
Proof.
  apply resolve_abs; [apply snoc_ne|]. apply Forall_app. split; [apply kube_dir_plain|plains].
Qed.

Lemma resolve_backup : resolve os_cwd (abs_path backup_file) = backup_file.
Proof.
  apply resolve_abs; [apply snoc_ne|]. apply Forall_app. split; [apply kube_dir_plain|].
  apply Forall_singleton, backup_name_plain.
Qed.

Lemma PathDir_kube_file : PathDir (abs_path kube_file) = abs_path kube_dir.
Proof.
  apply PathDir_abs; [apply snoc_ne|]. apply Forall_app. split; [apply kube_dir_plain|plains].
Qed.

Lemma resolve_kube_dir : resolve os_cwd (abs_path kube_dir) = kube_dir.
Proof. apply resolve_abs; [apply snoc_ne|apply kube_dir_plain]. Qed.

Lemma removelast_kube_file : removelast kube_file = kube_dir.
Proof. apply removelast_last. Qed.

Lemma removelast_backup : removelast backup_file = kube_dir.
Proof. apply removelast_last. Qed.

Lemma mkdirs_twice q m : mkdirs q (mkdirs q m) = mkdirs q m.
Proof. apply map_eq. intros p. rewrite !lookup_mkdirs. by case_decide. Qed.

Lemma MkdirAll_kube m :
  no_file_on m kube_dir → os_MkdirAll (abs_path kube_dir) m = (Ok (), mkdirs kube_dir m).
Proof.
  intros Hno. unfold os_MkdirAll. rewrite resolve_kube_dir.
  by apply through_file_false in Hno as ->.
Qed.

Lemma no_file_on_mkdirs q m : no_file_on m q → no_file_on (mkdirs q m) q.
Proof. intros Hno p d Hp. rewrite lookup_mkdirs, decide_True by done. done. Qed.

(** Writing the configuration when nothing is in the way. *)
Lemma write_config m c d :
  no_file_on m kube_dir → m !! kube_file ≠ Some Dir → config_write c = Ok d →
  (_ ← on_err (wrap "failed to create kubeconfig file") (os_MkdirAll (PathDir (abs_path kube_file)));
   _ ← on_err (wrap "failed to write kubeconfig") (WriteToFile c (abs_path kube_file));
   mret Returned) m = (Ok Returned, write_file kube_dir "config" d m).
Proof.
  intros Hno Hdir Hw. rewrite PathDir_kube_file.
  erewrite bind_ok by (apply on_err_ok, MkdirAll_kube, Hno).
  erewrite bind_ok; [done|]. apply on_err_ok. unfold WriteToFile.
  erewrite bind_ok by (unfold lift; by rewrite Hw). rewrite PathDir_kube_file.
  erewrite bind_ok by (apply MkdirAll_kube, no_file_on_mkdirs, Hno).
  rewrite mkdirs_twice. unfold os_Create. rewrite resolve_kube_file.
  rewrite lookup_mkdirs, decide_False by apply snoc_not_prefix.
  rewrite removelast_kube_file, lookup_mkdirs, decide_True by done.
  by destruct (m !! kube_file) as [[]|].
Qed.

(** The tree after UseCluster wrote [d'], given the tree before. *)
Definition used m (d' : D) : fs D :=
  match m !! kube_file with
  | Some (File d) => write_file kube_dir "config" d' (<[backup_file := File d]> m)
  | _ => write_file kube_dir "config" d' m
  end.

(** The configuration UseCluster starts from. *)
Definition found_config m : outcome ClientConfig :=
  match m !! kube_file with
  | Some (File d) => config_load d
  | _ => Ok empty_config
  end.

Lemma backup_ne : backup_file ≠ kube_file.
Proof.
  unfold backup_file, kube_file. intros E. apply app_inj_tail in E as [_ E].
  by destruct stamp.
Qed.

Lemma no_file_on_backup m d : no_file_on m kube_dir → no_file_on (<[backup_file := File d]> m) kube_dir.
Proof.
  intros Hno p d' Hp. rewrite lookup_insert_ne; [by apply Hno|].
  intros <-. by apply (snoc_not_prefix kube_dir backup_name).
Qed.

Lemma used_lookup m d' :
  no_file_on m kube_dir →
  used m d' !! kube_file = Some (File d') ∧
  (∀ d, m !! kube_file = Some (File d) → used m d' !! backup_file = Some (File d)) ∧
  (∀ p, p ≠ kube_file → p ≠ backup_file → ¬ p `prefix_of` kube_dir → used m d' !! p = m !! p).
Proof.
  intros Hno. unfold used. split_and!.
  - destruct (m !! kube_file) as [[]|]; rewrite lookup_write_file, decide_True by done; done.
  - intros d ->. rewrite lookup_write_file, decide_False by apply backup_ne.
    rewrite decide_False by apply snoc_not_prefix. apply lookup_insert_eq.
  - intros p H1 H2 H3. destruct (m !! kube_file) as [[]|];
      rewrite lookup_write_file_other by done; try done. by rewrite lookup_insert_ne.
Qed.

(** [C10] Where the tree allows it, UseCluster writes the merged configuration, keeps
    the configuration it found as the backup, and touches nothing else. *)
Theorem use_cluster_ok m opts konf c d' :
  wf_fs m → no_file_on m kube_dir → m !! kube_file ≠ Some Dir → m !! backup_file ≠ Some Dir →
  found_config m = Ok c →
  (use_Overwrite opts = true ∨ CurrentContext c ≠ context_name (use_ClusterName opts)) →
  config_write (merged opts konf c) = Ok d' →
  UseCluster (abs_path home) stamp opts konf m = (Ok Returned, used m d') ∧
  config_load d' = Ok (merged opts konf c) ∧
  used m d' !! kube_file = Some (File d') ∧
  (∀ d, m !! kube_file = Some (File d) → used m d' !! backup_file = Some (File d)) ∧
  (∀ p, p ≠ kube_file → p ≠ backup_file → ¬ p `prefix_of` kube_dir → used m d' !! p = m !! p).
Proof.
  intros Hwf Hno Hk Hb Hc Hgo Hw. split; [|split; [by apply config_roundtrip|by apply used_lookup]].
  assert (Hgo' : negb (use_Overwrite opts) &&
    bool_decide (CurrentContext c = context_name (use_ClusterName opts)) = false).
  { destruct Hgo as [-> | H]; [done|]. rewrite bool_decide_eq_false_2 by done. apply andb_false_r. }
  unfold UseCluster, used, found_config in *. rewrite KubeConfigPath_path, backup_path.
  erewrite bind_ok by done. unfold os_Stat. rewrite resolve_kube_file.
  destruct (m !! kube_file) as [[d|]|] eqn:Em; [|done|].
  - erewrite bind_ok.
    2:{ assert (Er : os_ReadFile (abs_path kube_file) m = (Ok d, m)).
        { unfold os_ReadFile. by rewrite resolve_kube_file, Em. }
        erewrite bind_ok.
        2:{ apply on_err_ok. erewrite bind_ok by done. unfold lift. by rewrite Hc. }
        erewrite bind_ok; [done|]. apply on_err_ok. unfold CopyFile. erewrite bind_ok by done.
        unfold os_Create. rewrite resolve_backup, removelast_backup.
        rewrite (wf_parent m Hwf _ _ _ Em). by destruct (m !! backup_file) as [[]|]. }
    cbv zeta. rewrite Hgo'. apply write_config; [by apply no_file_on_backup| |done].
    rewrite lookup_insert_ne by apply backup_ne. by rewrite Em.
  - injection Hc as <-. erewrite bind_ok by done. cbv zeta. rewrite Hgo'. apply write_config; [done|by rewrite Em|done].
Qed.
End use.
