(* ===== verification/Upgrade.v ===== *)
(** * Versions and available upgrades (cloud/version.go, cloud/upm.go)

    Version labels are resolved against the release servers, and the versions of
    the running cluster are compared with them.  The version library
    (k8s.io/apimachinery/pkg/util/version), HTTP and the calls to the cluster are
    parameters; the regular expressions of version.go are written out.  Texts that
    Go puts in quotes (%q) are quoted nowhere, and the type of an [Upgrade], which the
    code leaves empty, is left out. *)
From stdpp Require Import base list gmap strings pretty sorting fin_maps.
From Stdlib Require Import Ascii.
From S2P Require Import Prelude GoStrings Api StoreSpec Provider Certs Kube.

(** k8s.io/apimachinery/pkg/util/version *)
Class VersionUtil (V : Type) := {
  ParseSemantic : string → outcome V;
  ParseGeneric : string → outcome V;
  LessThan : V → V → bool;
  Compare : V → string → outcome Z;
  Major : V → Z;
  Minor : V → Z
}.

(** [v.AtLeast(min)]: not less. *)
Definition AtLeast `{VersionUtil V} (v min : V) : bool := negb (LessThan v min).

(** net/http: the status code, the status and the body of an answer. *)
Class Http := { http_get : string → outcome (Z * string * outcome string) }.

(** What the version getter asks the cluster. *)
Class VersionAPI (X KC : Type) := {
  ServerVersion : KC → GoM X string;
  Masters_List : KC → GoM X (list ObjectMeta);
  Kubelets_List : KC → GoM X (list string);
  DNSDeployments_List : KC → GoM X (list (string * list string))   (* name, images *)
}.

(** ** The regular expressions *)
Definition in_range (lo hi c : ascii) : bool :=
  ((nat_of_ascii lo <=? nat_of_ascii c) && (nat_of_ascii c <=? nat_of_ascii hi))%nat.

Definition is_digit : ascii → bool := in_range "0"%char "9"%char.
Definition is_lower : ascii → bool := in_range "a"%char "z"%char.
Definition is_upper : ascii → bool := in_range "A"%char "Z"%char.
Definition is_word (c : ascii) : bool :=
  is_digit c || is_lower c || is_upper c || bool_decide (c = "_"%char).
Definition one_of (s : string) (c : ascii) : bool := has_byte c s.

(** A number of a version: 0, or digits the first of which is not 0. *)
Definition is_number (s : string) : bool :=
  match s with
  | "" => false
  | String c rest => if decide (c = "0"%char) then bool_decide (rest = "")
                     else is_digit c && all_bytes is_digit rest
  end.

(** The text before and after the first [c]. *)
Fixpoint cut (c : ascii) (s : string) : option (string * string) :=
  match s with
  | "" => None
  | String d rest =>
      if decide (d = c) then Some ("", rest)
      else match cut c rest with
           | Some (a, b) => Some (String d a, b)
           | None => None
           end
  end.

Definition strip_v (s : string) : string :=
  match s with
  | String "v" rest => rest
  | _ => s
  end.

(** The regular expression of a release: an optional v, three numbers separated by
    dots, and any of the characters [-0-9a-zA-Z_.+].  The third number and what
    follows it are a digit and then any of the class. *)
Definition kubeReleaseRegex (s : string) : bool :=
  match cut "."%char (strip_v s) with
  | Some (major, rest) =>
      match cut "."%char rest with
      | Some (minor, String c rest) =>
          is_number major && is_number minor && is_digit c &&
          all_bytes (λ c, is_word c || one_of "-.+" c) rest
      | _ => false
      end
  | None => false
  end.

(** The longest prefix of characters in [p], and the rest. *)
Fixpoint span (p : ascii → bool) (s : string) : string * string :=
  match s with
  | "" => ("", "")
  | String c rest => if p c then let '(a, b) := span p rest in (String c a, b) else ("", s)
  end.

(** A label: lower-case letters, then possibly a dash and characters of [-\w.]. *)
Definition kubeReleaseLabelRegex (s : string) : bool :=
  match span is_lower s with
  | ("", _) => false
  | (_, "") => true
  | (_, String c rest) =>
      bool_decide (c = "-"%char) && negb (bool_decide (rest = "")) &&
      all_bytes (λ c, is_word c || one_of "-." c) rest
  end.

(** A bucket (release, ci or ci-cross) with a slash, which may be missing, and a
    name of characters [-\w.+]. *)
Definition kubeBucketPrefixes (s : string) : option (string * string) :=
  let name_ok n := negb (bool_decide (n = "")) && all_bytes (λ c, is_word c || one_of "-.+" c) n in
  match cut "/"%char s with
  | Some (prefix, name) =>
      if bool_decide (prefix ∈ ["release"; "ci"; "ci-cross"]) && name_ok name
      then Some (prefix, name) else None
  | None => if name_ok s then Some ("", s) else None
  end.

(** ** version.go *)
Definition kubeReleaseBucketURL : string := "https://dl.k8s.io".

Definition splitVersion (version : string) : outcome (string * string) :=
  match kubeBucketPrefixes version with
  | None => Err ("invalid version " +:+ version)
  | Some (prefix, label) =>
      let urlSuffix := if HasPrefix prefix "ci" then "ci-cross" else "release" in
      Ok (kubeReleaseBucketURL +:+ "/" +:+ urlSuffix, label)
  end.

Definition FetchFromURL `{!Http} (url : string) : outcome string :=
  match http_get url with
  | Err e => Err ("unable to get URL " +:+ url +:+ ": " +:+ e)
  | Panic w => Panic w
  | Ok (code, status, body) =>
      if decide (code ≠ 200%Z) then Err ("unable to fetch file. URL: " +:+ url +:+ " Status: " +:+ status)
      else match body with
           | Ok b => Ok (TrimSpace b)
           | Err e => Err ("unable to read content of URL " +:+ url +:+ ": " +:+ e)
           | Panic w => Panic w
           end
  end.

(** Labels are fetched until a version comes back: the fuel bounds how many are
    followed, [None] when it runs out. *)
Fixpoint KubernetesReleaseVersion `{!Http} (fuel : nat) (version : string) : option (outcome string) :=
  match fuel with
  | O => None
  | S fuel =>
      if kubeReleaseRegex version then
        Some (Ok (if HasPrefix version "v" then version else "v" +:+ version))
      else
        match splitVersion version with
        | Ok (bucketURL, versionLabel) =>
            if kubeReleaseLabelRegex versionLabel then
              match FetchFromURL (bucketURL +:+ "/" +:+ versionLabel +:+ ".txt") with
              | Ok body => KubernetesReleaseVersion fuel body
              | Err e => Some (Err e)
              | Panic w => Some (Panic w)
              end
            else Some (Err ("version " +:+ version +:+ " doesn't match patterns for neither " +:+
                            "semantic version nor labels (stable, latest, ...)"))
        | Err e => Some (Err e)
        | Panic w => Some (Panic w)
        end
  end.

(** [kubeletVersions[kver]++] on a uint32. *)
Definition uint32 (n : Z) : Z := (n `mod` 4294967296)%Z.

Definition count_version (m : gmap string Z) (kver : string) : gmap string Z :=
  match m !! kver with
  | None => <[kver := 1%Z]> m
  | Some n => <[kver := uint32 (n + 1)]> m
  end.

Definition computeKubeletVersions (nodes : list string) : gmap string Z :=
  foldl count_version ∅ nodes.

Section getter.
Context {X KC V : Type} `{!VersionUtil V, !Http, !VersionAPI X KC}.

(** How many labels are followed before a fetch counts as never ending. *)
Context (fuel : nat).

Definition getBranchFromVersion (version : string) : outcome string :=
  match ParseGeneric version with
  | Ok v => Ok (pretty (Major v) +:+ "." +:+ pretty (Minor v))
  | Err e => Panic e
  | Panic w => Panic w
  end.

Definition patchVersionBranchExists (clusterVersion stableVersion : V) : bool :=
  AtLeast stableVersion clusterVersion.
Definition patchUpgradePossible (clusterVersion patchVersion : V) : bool :=
  LessThan clusterVersion patchVersion.
Definition minorUpgradePossibleWithPatchRelease (stableVersion patchVersion : V) : bool :=
  LessThan patchVersion stableVersion.

Definition ClusterVersion (kc : KC) : GoM X (string * V) :=
  info ← on_err (λ e, "Couldn't fetch Cluster version from the API Server: " +:+ e) (ServerVersion kc);
  v ← on_err (λ e, "Couldn't parse Cluster version: " +:+ e) (lift (ParseSemantic info));
  mret (info, v).

Definition KubeadmVersion_ (kc : KC) : GoM X (string * V) :=
  nodes ← on_err (λ e, "couldn't list master instances in Cluster, Reason: " +:+ e) (Masters_List kc);
  match nodes with
  | [] => throw "couldn't list master instances in Cluster"
  | node :: _ =>
      match Annotations node !! KubeadmVersionKey with
      | None => throw ("master instance " +:+ Name node +:+ " is missing annotation " +:+ KubeadmVersionKey)
      | Some verStr =>
          v ← on_err (λ e, "couldn't parse kubeadm version: " +:+ e) (lift (ParseSemantic verStr));
          mret (verStr, v)
      end
  end.

Definition DeployedDNSAddon (kc : KC) : GoM X (string * string) :=
  deployments ← on_err (λ e, "couldn't retrieve DNS addon deployments: " +:+ e) (DNSDeployments_List kc);
  match deployments with
  | [] => mret ("", "")
  | [(addonName, images)] =>
      match images with
      | [] => panic "index out of range [0] with length 0"
      | image :: _ => mret (addonName, default "" (last (Split ":"%char image)))
      end
  | _ => throw "multiple DNS addon deployments found"
  end.

(** A label that is never resolved keeps the call from returning; [fuel] is
    chosen by the theorems so that this does not happen. *)
Definition VersionFromCILabel (ciVersionLabel description : string) : outcome (string * V) :=
  match KubernetesReleaseVersion fuel ciVersionLabel with
  | None => Panic "stack overflow"
  | Some (Ok versionStr) =>
      match ParseSemantic versionStr with
      | Ok ver => Ok (versionStr, ver)
      | Err e => Err ("Couldn't parse latest " +:+ description +:+ " version: " +:+ e)
      | Panic w => Panic w
      end
  | Some (Err e) => Err ("Couldn't fetch latest " +:+ description +:+ " version from the internet: " +:+ e)
  | Some (Panic w) => Panic w
  end.

Definition GetKubeletVersions (kc : KC) : GoM X (gmap string Z) :=
  nodes ← on_err (λ _, "couldn't list all nodes in Cluster") (Kubelets_List kc);
  mret (computeKubeletVersions nodes).

Definition IsUpgradeRequested (kc : KC) (cluster : Cluster) : GoM X bool :=
  if decide (Phase (Status cluster) = ClusterReady) then
    cur ← ClusterVersion kc;
    requested ← lift (ParseSemantic (KubernetesVersion (Config (Spec cluster))));
    check ← lift (Compare requested cur.1);
    mret (bool_decide (0 < check)%Z)
  else mret false.

(** ** upm.go: GetAvailableUpgrades *)
Definition upgrade_to (description : string) (before : ClusterState) (kube kubeadm : string) : Upgrade :=
  {| Description := description; Before := before;
     After := {| KubeVersion := kube; DNSVersion := ""; KubeadmVersion := kubeadm;
                 KubeletVersions := ∅ |} |}.

(** The patch part: the upgrades it adds, and whether a minor upgrade stands. *)
Definition patch_upgrades (before : ClusterState) (cluster : string * V) (kubeadm stable : string * V) :
    outcome (list Upgrade * bool) :=
  if patchVersionBranchExists cluster.2 stable.2 then
    currentBranch ← getBranchFromVersion cluster.1;
    let description := "version in the v" +:+ currentBranch +:+ " series" in
    patch ← VersionFromCILabel ("stable-" +:+ currentBranch) description;
    let newKubeadmVer := if AtLeast kubeadm.2 patch.2 then kubeadm.1 else patch.1 in
    Ok (if patchUpgradePossible cluster.2 patch.2
        then [upgrade_to description before patch.1 newKubeadmVer] else [],
        minorUpgradePossibleWithPatchRelease stable.2 patch.2)
  else Ok ([], LessThan cluster.2 stable.2).

Definition GetAvailableUpgrades (kc : KC) : GoM X (list Upgrade) :=
  cluster ← ClusterVersion kc;
  kubeadm ← KubeadmVersion_ kc;
  stable ← match VersionFromCILabel "stable" "stable version" with
           | Ok s => mret s
           | Err _ => mret kubeadm
           | Panic w => panic w
           end;
  kubeletVersions ← GetKubeletVersions kc;
  let beforeState := {| KubeVersion := cluster.1; DNSVersion := ""; KubeadmVersion := kubeadm.1;
                        KubeletVersions := kubeletVersions |} in
  r ← lift (patch_upgrades beforeState cluster kubeadm stable);
  mret (r.1 ++ if r.2 : bool then [upgrade_to "stable version" beforeState stable.1 stable.1] else []).
End getter.

(** sortedSliceFromStringIntMap *)
Definition sortedSliceFromStringIntMap (strMap : gmap string Z) : list string :=
  merge_sort String.le (map_to_list strMap).*1.
