(* ===== verification/UpgradeProofs.v ===== *)
(** * Properties of Upgrade.v *)
From stdpp Require Import base list gmap strings pretty sorting fin_maps.
From Stdlib Require Import Ascii.
From S2P Require Import Prelude GoStrings Api StoreSpec Provider Certs Kube Upgrade.




(** A server that answers labels with releases is asked once. *)
Lemma release_version_returns `{!Http} version :
  (∀ url b, FetchFromURL url = Ok b → kubeReleaseRegex b = true) →
  is_Some (KubernetesReleaseVersion 2 version).
Proof.
  intros Hserve. cbn [KubernetesReleaseVersion].
  destruct (kubeReleaseRegex version); [by eexists|].
  destruct (splitVersion version) as [[url l]|e|w]; [|by eexists..].
  destruct (kubeReleaseLabelRegex l); [|by eexists].
  destruct (FetchFromURL _) as [body|e|w] eqn:E; [|by eexists..].
  rewrite (Hserve _ _ E). by eexists.
Qed.

(** ** Counting kubelets *)
Definition occurrences (v : string) (nodes : list string) : nat :=
  length (filter (λ x, x = v) nodes).

Lemma uint32_succ n : uint32 (uint32 n + 1) = uint32 (n + 1).
Proof. unfold uint32. by rewrite Zplus_mod_idemp_l. Qed.

Lemma count_from nodes v : ∀ m k,
  m !! v = (if decide (k = 0) then None else Some (uint32 (Z.of_nat k))) →
  foldl count_version m nodes !! v =
    if decide (k + occurrences v nodes = 0) then None
    else Some (uint32 (Z.of_nat (k + occurrences v nodes))).
Proof.
  unfold occurrences. induction nodes as [|x nodes IH]; intros m k Hm; cbn [foldl].
  { by rewrite Nat.add_0_r. }
  rewrite filter_cons. destruct (decide (x = v)) as [->|Hne].
  - cbn [length]. rewrite <-Nat.add_succ_comm. apply IH.
    rewrite (decide_False (P := S k = 0)) by done. unfold count_version. rewrite Hm.
    destruct (decide (k = 0)) as [->|Hk]; [apply lookup_insert_eq|].
    rewrite lookup_insert_eq, uint32_succ. do 2 f_equal. lia.
  - apply IH. rewrite <-Hm. unfold count_version.
    by destruct (m !! x); rewrite lookup_insert_ne by done.
Qed.

(** The table has the versions that run, with the number of nodes that run them,
    as a uint32. *)
Theorem kubelet_versions_count nodes v :
  computeKubeletVersions nodes !! v =
    if decide (v ∈ nodes) then Some (uint32 (Z.of_nat (occurrences v nodes))) else None.
Proof.
  unfold computeKubeletVersions. rewrite (count_from nodes v ∅ 0) by done. cbn [Nat.add].
  assert (Hin : v ∈ nodes ↔ occurrences v nodes ≠ 0).
  { unfold occurrences. split.
    - intros Hv E. apply length_zero_iff_nil in E.
      assert (v ∈ filter (λ x, x = v) nodes) as Hf by (by apply list_elem_of_filter).
      rewrite E in Hf. by apply not_elem_of_nil in Hf.
    - intros Hl. destruct (filter (λ x, x = v) nodes) as [|y l] eqn:E; [done|].
      assert (y ∈ filter (λ x, x = v) nodes) as Hf by (rewrite E; by left).
      apply list_elem_of_filter in Hf as [-> Hf]. done. }
  destruct (decide (v ∈ nodes)) as [Hv|Hv].
  - by rewrite decide_False by (by apply Hin).
  - rewrite decide_True; [done|]. destruct (decide (occurrences v nodes = 0)); [done|].
    by destruct Hv; apply Hin.
Qed.

(** ** Available upgrades *)

(** [<] of versions is a strict weak order: AtLeast is total and transitive. *)
Class VersionLaws (V : Type) `{!VersionUtil V} : Prop := {
  lt_asym (v w : V) : LessThan v w = true → LessThan w v = false;
  lt_trans_weak (u v w : V) : LessThan v u = false → LessThan v w = true → LessThan u w = true
}.

Section upgrades.
Context {X KC V : Type} `{!VersionUtil V, !VersionLaws V, !Http, !VersionAPI X KC}.
Context (fuel : nat).

Lemma VersionFromCILabel_parses label description r (v : V) :
  VersionFromCILabel fuel label description = Ok (r, v) → ParseSemantic r = Ok v.
Proof. unfold VersionFromCILabel. intros E. by repeat case_match; simplify_eq. Qed.

Lemma ClusterVersion_parses (kc : KC) (x x' : X) info (v : V) :
  ClusterVersion kc x = (Ok (info, v), x') → ParseSemantic info = Ok v.
Proof.
  unfold ClusterVersion. intros (i & x1 & _ & Hrun)%bind_ok_inv.
  apply bind_ok_inv in Hrun as (w & x2 & Hp & Hend). injection Hend as <- <- _.
  unfold on_err, lift in Hp. by repeat case_match; simplify_eq.
Qed.

Lemma KubeadmVersion_parses (kc : KC) (x x' : X) info (v : V) :
  KubeadmVersion_ kc x = (Ok (info, v), x') → ParseSemantic info = Ok v.
Proof.
  unfold KubeadmVersion_. intros (nodes & x1 & _ & Hrun)%bind_ok_inv.
  destruct nodes as [|node nodes]; [done|].
  destruct (Annotations node !! KubeadmVersionKey) as [s|]; [|done].
  apply bind_ok_inv in Hrun as (w & x2 & Hp & Hend). injection Hend as <- <- _.
  unfold on_err, lift in Hp. by repeat case_match; simplify_eq.
Qed.

(** An upgrade of a cluster that reports [info], from version [v]. *)
Definition newer (info : string) (v : V) (u : Upgrade) : Prop :=
  KubeVersion (Before u) = info ∧
  ∃ w, ParseSemantic (KubeVersion (After u)) = Ok w ∧ LessThan v w = true.

(** The patch release of a cluster's own series is not older than the cluster. *)
Definition series_up_to_date (info : string) (v : V) : Prop :=
  ∀ branch description p, getBranchFromVersion info = Ok branch →
    VersionFromCILabel fuel ("stable-" +:+ branch) description = Ok p → LessThan p.2 v = false.

Lemma patch_upgrades_newer before info v kubeadm stable l minor :
  KubeVersion before = info → series_up_to_date info v →
  patch_upgrades fuel before (info, v) kubeadm stable = Ok (l, minor) →
  length l ≤ 1 ∧ (∀ u, u ∈ l → newer info v u) ∧ (minor = true → LessThan v stable.2 = true).
Proof.
  intros Hb Hup. unfold patch_upgrades, patchVersionBranchExists, AtLeast. cbn [fst snd].
  destruct (LessThan stable.2 v) eqn:Es; cbn [negb].
  - intros [= <- <-]. split_and!; [cbn; lia|by intros ? ?%not_elem_of_nil|].
    rewrite (lt_asym _ _ Es). done.
  - destruct (getBranchFromVersion info) as [branch|e|w] eqn:Eb; try done. cbn.
    destruct (VersionFromCILabel fuel _ _) as [[ps pv]|e|w] eqn:Ep; try done. cbn.
    intros [= <- <-]. unfold patchUpgradePossible, minorUpgradePossibleWithPatchRelease.
    split_and!.
    + destruct (LessThan v pv); cbn; lia.
    + destruct (LessThan v pv) eqn:El; [|by intros ? ?%not_elem_of_nil].
      intros u [->|[]%not_elem_of_nil]%elem_of_cons. split; [done|].
      exists pv. split; [|done]. by eapply VersionFromCILabel_parses.
    + intros Hm. eapply lt_trans_weak; [|exact Hm]. by apply (Hup branch _ (ps, pv) Eb Ep).
Qed.

(** [C15] At most two upgrades are offered, each from the version the cluster reports
    to a strictly newer one, as long as the release servers are not behind the
    cluster in its own series. *)
Theorem available_upgrades_newer (kc : KC) (x x1 x' : X) info (v : V) l :
  ClusterVersion kc x = (Ok (info, v), x1) → series_up_to_date info v →
  GetAvailableUpgrades fuel kc x = (Ok l, x') →
  length l ≤ 2 ∧ ∀ u, u ∈ l → newer info v u.
Proof.
  intros Hc Hup Hrun. unfold GetAvailableUpgrades in Hrun.
  erewrite bind_ok in Hrun by done.
  apply bind_ok_inv in Hrun as ([ka kv] & x2 & Hk & Hrun).
  apply bind_ok_inv in Hrun as ([ss sv] & x3 & Hs & Hrun).
  assert (Hstable : ParseSemantic ss = Ok sv).
  { destruct (VersionFromCILabel fuel "stable" "stable version") as [[s1 v1]|e|w] eqn:Es.
    - injection Hs as <- <- _. by eapply VersionFromCILabel_parses.
    - injection Hs as <- <- _. by eapply KubeadmVersion_parses.
    - done. }
  apply bind_ok_inv in Hrun as (kubelets & x4 & _ & Hrun).
  apply bind_ok_inv in Hrun as ([lp minor] & x5 & Hp & Hend). injection Hend as <- _.
  unfold lift in Hp. injection Hp as Hp _.
  edestruct patch_upgrades_newer as (Hlen & Hl & Hm); [|exact Hup|exact Hp|]; [done|].
  cbn [fst snd]. split.
  - rewrite length_app. destruct minor; cbn; lia.
  - intros u [Hu|Hu]%elem_of_app; [by apply Hl|]. destruct minor; [|by apply not_elem_of_nil in Hu].
    apply elem_of_cons in Hu as [->|[]%not_elem_of_nil]. split; [done|].
    exists sv. split; [exact Hstable|by apply Hm].
Qed.
End upgrades.
