(* ===== verification/Plugins.v ===== *)
(** * Choosing the store (store/plugins.go)

    Backends register a factory under a name; the configuration decides which
    one is opened.  [I] is what a factory makes (store.Interface); how a backend
    connects (stow's Dial, the database engine) is a parameter. *)
From stdpp Require Import base list gmap strings fin_maps.
From S2P Require Import Prelude GoStrings Api.

Section plugins.
Context {I : Type}.

(** [type Factory func(cfg *api.PharmerConfig) (Interface, error)] *)
Definition Factory : Type := option PharmerConfig → outcome I.

Definition fakeUID : string := "fake".
Definition xormUID : string := "xorm".
Definition vfsUID : string := "vfs".

(** Registering a name twice ends the process (klog.Fatalf). *)
Definition RegisterProvider (name : string) (cloud : Factory) : GoM (gmap string Factory) () :=
  λ providers,
  match providers !! name with
  | Some _ => (Panic ("Cloud provider " +:+ name +:+ " was registered twice"), providers)
  | None => (Ok (), <[name := cloud]> providers)
  end.

Definition getProvider (name : string) (cfg : option PharmerConfig) : GoM (gmap string Factory) I :=
  λ providers,
  match providers !! name with
  | None => (Err ("provider " +:+ name +:+ " not registered"), providers)
  | Some f => (f cfg, providers)
  end.

Definition NewStoreInterface (cfg : option PharmerConfig) : GoM (gmap string Factory) I :=
  let storeType :=
    match cfg with
    | None => fakeUID
    | Some c => match sb_Postgres (Store c) with Some _ => xormUID | None => vfsUID end
    end in
  getProvider storeType cfg.

Definition NewStoreProvider (cfg : option PharmerConfig) : GoM (gmap string Factory) I :=
  NewStoreInterface cfg.

(** ** The factories: vfs/store.go, fake/store.go, xorm/store.go *)
Context (open_local : LocalSpec → outcome I) (new_fake : I) (open_postgres : PostgresSpec → outcome I).

Definition nil_config : outcome I := Panic "invalid memory address or nil pointer dereference".

Definition vfs_factory : Factory := λ cfg,
  match cfg with
  | None => nil_config
  | Some c => match sb_Local (Store c) with
              | Some l => open_local l
              | None => Err "missing store configuration"
              end
  end.

Definition fake_factory : Factory := λ _, Ok new_fake.

Definition xorm_factory : Factory := λ cfg,
  match cfg with
  | None => nil_config
  | Some c => match sb_Postgres (Store c) with
              | Some p => open_postgres p
              | None => Err "missing store configuration"
              end
  end.

(** The [init] functions, in the order the packages are imported. *)
Definition register_backends : GoM (gmap string Factory) () :=
  _ ← RegisterProvider fakeUID fake_factory;
  _ ← RegisterProvider vfsUID vfs_factory;
  RegisterProvider xormUID xorm_factory.

(** The store a configuration gets. *)
Definition chosen (cfg : option PharmerConfig) : outcome I :=
  match cfg with
  | None => Ok new_fake
  | Some c =>
      match sb_Postgres (Store c), sb_Local (Store c) with
      | Some p, _ => open_postgres p
      | None, Some l => open_local l
      | None, None => Err "missing store configuration"
      end
  end.

(** With the backends registered, a database in the configuration wins over a
    local path, and every other kind of storage is refused; registering a
    backend again ends the process, and an unregistered one is an error. *)
Theorem store_choice cfg :
  ∃ providers,
    register_backends ∅ = (Ok (), providers) ∧
    NewStoreProvider cfg providers = (chosen cfg, providers) ∧
    (∃ w, register_backends providers = (Panic w, providers)) ∧
    (∃ e, NewStoreProvider cfg ∅ = (Err e, ∅)).
Proof.
  eexists. split; [done|]. split_and!.
  - destruct cfg as [c|]; [|done]. unfold NewStoreProvider, NewStoreInterface, chosen, getProvider.
    destruct (sb_Postgres (Store c)) as [p|] eqn:Ep.
    + rewrite lookup_insert_eq. unfold xorm_factory. by rewrite Ep.
    + rewrite lookup_insert_ne, lookup_insert_eq by done. unfold vfs_factory.
      by destruct (sb_Local (Store c)).
  - by eexists.
  - destruct cfg as [c|]; [|by eexists]. unfold NewStoreProvider, NewStoreInterface, getProvider.
    destruct (sb_Postgres (Store c)); by eexists.
Qed.

(** What the configuration calls itself is not always what is opened: with both a
    local path and a database it says "Local" and the database is used; other
    storage is named and never opened. *)
Lemma store_type_differs c :
  (∀ l p, sb_Local (Store c) = Some l → sb_Postgres (Store c) = Some p →
     GetStoreType c = "Local" ∧ chosen (Some c) = open_postgres p) ∧
  (sb_Local (Store c) = None → sb_Postgres (Store c) = None →
     chosen (Some c) = Err "missing store configuration" ∧
     (is_Some (sb_S3 (Store c)) → GetStoreType c = "S3") ∧
     (sb_S3 (Store c) = None → is_Some (sb_GCS (Store c)) → GetStoreType c = "GCS")).
Proof.
  unfold GetStoreType, chosen. split.
  - intros l p -> ->. done.
  - intros -> ->. split; [done|]. split.
    + by intros [s ->].
    + by intros -> [s ->].
Qed.
End plugins.
