(* ===== verification/ConfigFile.v ===== *)
(** * The configuration of pharmer (config/config.go, config/cmds, cmds/root.go)

    The file of the configuration, the commands that write, print and list such files,
    and what runs before every command.  The state is the file tree of Stow.v; modes of
    files are not part of it, so that os.Chmod of a file that is there is nothing.  YAML
    and JSON are the class [ConfigText]; a process that exits is a panic. *)
From stdpp Require Import base list gmap strings sorting fin_maps.
From S2P Require Import Prelude GoStrings GoPath Stow Api Plugins.

Class ConfigText (D : Type) := {
  yaml_Marshal : PharmerConfig → outcome D;
  yc_ToJSON : D → outcome D;
  json_Unmarshal : D → outcome PharmerConfig
}.

(** Times are written in whole seconds. *)
Definition whole_seconds (t : Time) : Time := (t / 1000000000 * 1000000000)%Z.
Definition truncated_meta (m : ObjectMeta) : ObjectMeta :=
  {| Name := Name m; Namespace := Namespace m; UID := UID m; Generation := Generation m;
     CreationTimestamp := whole_seconds (CreationTimestamp m); DeletionTimestamp := whole_seconds <$> DeletionTimestamp m;
     Labels := Labels m; Annotations := Annotations m |}.
Definition truncated_credential (c : Credential) : Credential :=
  {| cred_TypeMeta := cred_TypeMeta c; cred_ObjectMeta := truncated_meta (cred_ObjectMeta c); cred_Spec := cred_Spec c |}.
Definition truncated (pc : PharmerConfig) : PharmerConfig :=
  {| config_TypeMeta := config_TypeMeta pc; config_Context := config_Context pc;
     config_Credentials := truncated_credential <$> config_Credentials pc; Store := Store pc |}.

(** What is written reads back. *)
Class ConfigTextLaws (D : Type) `{!ConfigText D} : Prop := {
  yaml_roundtrip pc d : yaml_Marshal pc = Ok d → ∃ j, yc_ToJSON d = Ok j ∧ json_Unmarshal j = Ok (truncated pc)
}.

(** ** config.go *)
Section config.
Context {D : Type} `{!OS D, !Blob D, !ConfigText D}.
Context (HomeDir : string).

Definition LoadConfig (configPath : string) : GoM (fs D) PharmerConfig := λ m,
  match os_Stat configPath m with
  | inr e => (Err (path_error "stat" configPath e), m)
  | inl _ => (bytes ← os_ReadFile configPath; jsonData ← lift (yc_ToJSON bytes); lift (json_Unmarshal jsonData)) m
  end.

Definition Save (pc : PharmerConfig) (configPath : string) : GoM (fs D) () :=
  data ← lift (yaml_Marshal pc);
  _ ← os_MkdirAll (PathDir configPath);
  os_Create configPath data.

(** The flag --config-file, and whether the user has set it *)
Definition GetConfigFile (config_file : string) : string * bool :=
  if decide (config_file = "") then (PathJoin [HomeDir; ".pharmer"; "config.d"; "default"], false) else (config_file, true).

Definition ConfigDir (config_file : string) : string := PathDir (GetConfigFile config_file).1.

Definition with_Local (l : LocalSpec) : StorageBackend :=
  {| sb_CredentialName := ""; sb_Local := Some l; sb_S3 := None; sb_GCS := None; sb_Azure := None; sb_Swift := None; sb_Postgres := None |}.
Definition config_kind : TypeMeta := {| Kind := "PharmerConfig"; APIVersion := "" |}.

Definition NewDefaultConfig : PharmerConfig :=
  {| config_TypeMeta := config_kind; config_Context := "default"; config_Credentials := [];
     Store := with_Local {| Path := PathJoin [HomeDir; ".pharmer"; "store.d"] |} |}.

(** ** cmds/root.go: PersistentPreRunE, of what sending an event of the command answers *)
Definition PersistentPreRun (sent : outcome ()) (config_file : string) : GoM (fs D) () :=
  _ ← lift sent;
  let '(cfgFile, setByUser) := GetConfigFile config_file in
  if setByUser then mret () else
  found ← gets (os_Stat cfgFile);
  match found with
  | inr ENOENT => Save NewDefaultConfig cfgFile
  | _ => mret ()
  end.

(** ** store/plugins.go *)
Definition GetStoreProvider {I} (providers : gmap string (Factory (I := I))) (config_file : string) : GoM (fs D) I :=
  cfg ← LoadConfig (GetConfigFile config_file).1;
  lift (NewStoreProvider (Some cfg) providers).1.

(** ** config/cmds/create.go *)
Record setContextRequest := {
  req_Name : string; Provider : string; Prefix : string;
  s3ConfigAccessKeyID : string; s3ConfigSecretKey : string; s3StoreEndpoint : string; s3StoreBucket : string;
  gcsConfigJSONKeyPath : string; gcsConfigProjectId : string; gcsStoreBucket : string;
  azureConfigAccount : string; azureConfigKey : string; azureStoreContainer : string;
  localConfigKeyPath : string;
  swiftConfigKey : string; swiftConfigTenantAuthURL : string; swiftConfigTenantName : string; swiftConfigUsername : string;
  swiftConfigDomain : string; swiftConfigRegion : string; swiftConfigTenantId : string; swiftConfigTenantDomain : string;
  swiftConfigStorageURL : string; swiftConfigAuthToken : string; swiftStoreContainer : string;
  pgDatabaseName : string; pgHost : string; pgPort : Z; pgUser : string; pgPassword : string; pgMasterKeyURL : string
}.

(** [if v != "" { m[k] = v }] *)
Definition set_if (k v : string) (m : gmap string string) : gmap string string := if decide (v = "") then m else <[k := v]> m.

(** The fields of a credential for Swift, in the order of the code *)
Definition swift_data (req : setContextRequest) : gmap string string :=
  set_if "authToken" (swiftConfigAuthToken req) $ set_if "storageURL" (swiftConfigStorageURL req) $
  set_if "tenantID" (swiftConfigTenantId req) $ set_if "tenantDomain" (swiftConfigTenantDomain req) $
  set_if "tenantName" (swiftConfigTenantName req) $ set_if "domain" (swiftConfigDomain req) $
  set_if "tenantAuthURL" (swiftConfigTenantAuthURL req) $ set_if "region" (swiftConfigRegion req) $
  set_if "key" (swiftConfigKey req) $ set_if "username" (swiftConfigUsername req) ∅.

(** The switch on the provider: the data of the credential, and the storage *)
Definition request_backend (req : setContextRequest) : GoM (fs D) (gmap string string * StorageBackend) :=
  if decide (Provider req = "s3") then
    mret (set_if "secretAccessKey" (s3ConfigSecretKey req) (set_if "accessKeyID" (s3ConfigAccessKeyID req) ∅),
          {| sb_CredentialName := ""; sb_Local := None; sb_GCS := None; sb_Azure := None; sb_Swift := None; sb_Postgres := None;
             sb_S3 := Some {| s3_Endpoint := s3StoreEndpoint req; s3_Bucket := s3StoreBucket req; s3_Prefix := Prefix req |} |})
  else if decide (Provider req = "google") then
    data ← (if decide (gcsConfigJSONKeyPath req = "") then mret ∅
            else r ← attempt (os_ReadFile (gcsConfigJSONKeyPath req));
                 match r with
                 | inl jsonKey => mret {[ "serviceAccount" := blob_str jsonKey ]}
                 | inr err => panic "exit status 1"
                 end);
    mret (set_if "projectID" (gcsConfigProjectId req) data,
          {| sb_CredentialName := ""; sb_Local := None; sb_S3 := None; sb_Azure := None; sb_Swift := None; sb_Postgres := None;
             sb_GCS := Some {| gcs_Bucket := gcsStoreBucket req; gcs_Prefix := Prefix req |} |})
  else if decide (Provider req = "azure") then
    mret (set_if "key" (azureConfigKey req) (set_if "account" (azureConfigAccount req) ∅),
          {| sb_CredentialName := ""; sb_Local := None; sb_S3 := None; sb_GCS := None; sb_Swift := None; sb_Postgres := None;
             sb_Azure := Some {| azure_Container := azureStoreContainer req; azure_Prefix := Prefix req |} |})
  else if decide (Provider req = "local") then mret (∅, with_Local {| Path := localConfigKeyPath req |})
  else if decide (Provider req = "swift") then
    mret (swift_data req,
          {| sb_CredentialName := ""; sb_Local := None; sb_S3 := None; sb_GCS := None; sb_Azure := None; sb_Postgres := None;
             sb_Swift := Some {| swift_Container := swiftStoreContainer req; swift_Prefix := Prefix req |} |})
  else if decide (Provider req = "postgres") then
    mret (∅, {| sb_CredentialName := ""; sb_Local := None; sb_S3 := None; sb_GCS := None; sb_Azure := None; sb_Swift := None;
                sb_Postgres := Some {| DbName := pgDatabaseName req; pg_Host := pgHost req; pg_Port := pgPort req;
                                       pg_User := pgUser req; pg_Password := pgPassword req; MasterKeyURL := pgMasterKeyURL req |} |})
  else panic "exit status 1".

Definition with_CredentialName (sb : StorageBackend) (n : string) : StorageBackend :=
  {| sb_CredentialName := n; sb_Local := sb_Local sb; sb_S3 := sb_S3 sb; sb_GCS := sb_GCS sb; sb_Azure := sb_Azure sb;
     sb_Swift := sb_Swift sb; sb_Postgres := sb_Postgres sb |}.

Definition context_credential (req : setContextRequest) (now : Time) (data : gmap string string) : Credential :=
  {| cred_TypeMeta := zero_TypeMeta;
     cred_ObjectMeta := {| Name := Provider req +:+ "-cred"; Namespace := ""; UID := ""; Generation := 0; CreationTimestamp := now;
                           DeletionTimestamp := None; Labels := ∅; Annotations := ∅ |};
     cred_Spec := {| cred_Provider := Provider req; cred_Data := data |} |}.

(** What is saved, of the answer of the switch *)
Definition context_config (req : setContextRequest) (now : Time) (answer : gmap string string * StorageBackend) : PharmerConfig :=
  let '(credData, sb) := answer in
  {| config_TypeMeta := config_kind; config_Context := "default";
     config_Credentials := if decide (credData = ∅) then [] else [context_credential req now credData];
     Store := if decide (credData = ∅) then sb else with_CredentialName sb (Provider req +:+ "-cred") |}.

Definition setContext (now : Time) (req : setContextRequest) (configPath : string) : GoM (fs D) () :=
  answer ← request_backend req;
  r ← attempt (Save (context_config req now answer) configPath);
  match r with inl _ => mret () | inr _ => panic "exit status 1" end.

(** ** config/cmds/get.go, view.go: with arguments, the help is printed and the process exits *)
(** ioutil.ReadDir: the names, sorted *)
Definition ReadDir (dirname : string) : GoM (fs D) (list string) := λ m,
  let q := resolve os_cwd dirname in
  match m !! q with
  | Some Dir => (Ok (merge_sort String.le (children m q).*1), m)
  | Some (File _) => (Err (path_error "fdopendir" dirname ENOTDIR), m)
  | None => (Err (path_error "open" dirname (lookup_errno m q)), m)
  end.

(** The rows under the header; the writer prints nothing before it is flushed. *)
Definition get_contexts (config_file : string) (args : list string) : GoM (fs D) (list (string * string)) :=
  if decide (args = []) then
    files ← ReadDir (ConfigDir config_file);
    map_each (λ f, cfg ← LoadConfig (PathJoin [ConfigDir config_file; f]); mret (config_Context cfg, GetStoreType cfg)) files
  else panic "exit status 1".

Definition view (config_file : string) (args : list string) : GoM (fs D) D :=
  if decide (args = []) then
    cfg ← LoadConfig (GetConfigFile config_file).1;
    lift (yaml_Marshal cfg)
  else panic "exit status 1".
End config.
