(* ===== verification/ConfigProofs.v ===== *)
(** * Properties of ConfigFile.v: the first run, and a context that is set

    Before the first command a configuration is written that opens the store of files
    ([first_run]); what set-context writes is what later commands load, and which store
    they open ([context_set]).

    Then files as texts and configurations, in a tree with one home, and the witnesses of
    the two theorems there. *)
From stdpp Require Import base list gmap strings sorting fin_maps.
From S2P Require Import Prelude GoStrings GoPath Stow Api Plugins ConfigFile.

(** ** A file in a directory that can be made *)
Section files.
Context {D : Type} `{!OS D, !Blob D, !ConfigText D, !ConfigTextLaws D}.
Context (dir : list string) (c : string) (Hdir : dir ≠ []) (Hplain : Forall plain (dir ++ [c])).
Implicit Types (m : fs D).
Notation path := (abs_path (dir ++ [c])).

Lemma resolve_config : resolve os_cwd path = dir ++ [c].
Proof. apply resolve_abs; [apply snoc_ne|done]. Qed.
Lemma resolve_config_dir : resolve os_cwd (abs_path dir) = dir.
Proof. apply resolve_abs; [done|]. by apply Forall_app in Hplain as [? _]. Qed.

Lemma save_ok pc m d :
  no_file_on m dir → m !! (dir ++ [c]) ≠ Some Dir → yaml_Marshal pc = Ok d → Save pc path m = (Ok (), write_file dir c d m).
Proof.
  intros Hno Hd Hm. unfold Save. erewrite bind_ok by (unfold lift; by rewrite Hm).
  rewrite (PathDir_abs dir c Hdir Hplain).
  erewrite bind_ok by (unfold os_MkdirAll; rewrite resolve_config_dir, (proj2 (through_file_false _ _) Hno); done).
  unfold os_Create. rewrite resolve_config, lookup_mkdirs, decide_False by apply snoc_not_prefix.
  rewrite removelast_last, lookup_mkdirs, decide_True by done.
  by destruct (m !! (dir ++ [c])) as [[]|].
Qed.

Lemma stat_written m d : os_Stat path (write_file dir c d m) = inl (File d).
Proof. unfold os_Stat. by rewrite resolve_config, lookup_write_file, decide_True. Qed.

Lemma load_written pc m d :
  yaml_Marshal pc = Ok d → LoadConfig path (write_file dir c d m) = (Ok (truncated pc), write_file dir c d m).
Proof.
  intros Hm. destruct (yaml_roundtrip pc d Hm) as (j & Hj & Hu). unfold LoadConfig. rewrite stat_written.
  erewrite bind_ok by (unfold os_ReadFile; by rewrite resolve_config, lookup_write_file, decide_True).
  erewrite bind_ok by (unfold lift; by rewrite Hj). unfold lift. by rewrite Hu.
Qed.

(** The only file of a directory that was not there *)
Lemma names_written m d :
  (∀ n, m !! (dir ++ [n]) = None) → ReadDir (abs_path dir) (write_file dir c d m) = (Ok [c], write_file dir c d m).
Proof.
  intros Hm. unfold ReadDir. rewrite resolve_config_dir, lookup_write_file.
  rewrite decide_False by (intros E; apply (f_equal length) in E; rewrite length_app in E; cbn in E; lia).
  rewrite decide_True by done. f_equal. f_equal. apply Permutation_singleton_r.
  rewrite (merge_sort_Permutation String.le). apply NoDup_Permutation; [apply NoDup_children|apply NoDup_singleton|].
  intros n. rewrite list_elem_of_singleton, list_elem_of_fmap. split.
  - intros ([n' nd] & -> & Hin%elem_of_children). rewrite lookup_write_file in Hin.
    case_decide as Hn; [by apply app_inj_tail in Hn as [_ ->]|].
    case_decide as Hp; [by apply snoc_not_prefix in Hp|]. by rewrite Hm in Hin.
  - intros ->. exists (c, File d). split; [done|]. apply elem_of_children. by rewrite lookup_write_file, decide_True.
Qed.
End files.

Section config.
Context {D I : Type} `{!OS D, !Blob D, !ConfigText D, !ConfigTextLaws D}.
Context (home : list string) (Hhome : home ≠ []) (Hplain : Forall plain home).
Context (open_local : LocalSpec → outcome I) (new_fake : I) (open_postgres : PostgresSpec → outcome I).
Context (providers : gmap string (Factory (I := I))).
Context (Hproviders : (register_backends open_local new_fake open_postgres ∅).2 = providers).
Implicit Types (m : fs D).
Notation HomeDir := (abs_path home).

Definition config_dir : list string := home ++ [".pharmer"; "config.d"].
Definition config_path : string := abs_path (config_dir ++ ["default"]).

Definition store_path : string := abs_path (home ++ [".pharmer"; "store.d"]).

Lemma config_dir_plain : Forall plain (config_dir ++ ["default"]).
Proof. unfold config_dir. rewrite <- app_assoc. apply Forall_app. split; [done|]. plains. Qed.
Lemma config_dir_ne : config_dir ≠ [].
Proof. unfold config_dir. by destruct home. Qed.

Lemma config_file_default : GetConfigFile HomeDir "" = (config_path, false).
Proof.
  unfold GetConfigFile, config_path, config_dir. rewrite decide_True by done. rewrite <- app_assoc. cbn [app].
  change (PathJoin [HomeDir; ".pharmer"; "config.d"; "default"])
    with (PathJoin [HomeDir; Join "/" [".pharmer"; "config.d"; "default"]]).
  rewrite PathJoin_abs; [done..|plains].
Qed.

Lemma config_dir_default : ConfigDir HomeDir "" = abs_path config_dir.
Proof. unfold ConfigDir. rewrite config_file_default. apply PathDir_abs; [apply config_dir_ne|apply config_dir_plain]. Qed.

Lemma default_store : NewDefaultConfig HomeDir = {| config_TypeMeta := config_kind; config_Context := "default";
  config_Credentials := []; Store := with_Local {| Path := store_path |} |}.
Proof.
  unfold NewDefaultConfig, store_path. do 3 f_equal.
  change (PathJoin [HomeDir; ".pharmer"; "store.d"]) with (PathJoin [HomeDir; Join "/" [".pharmer"; "store.d"]]).
  rewrite PathJoin_abs; [done..|plains].
Qed.

(** The store that the loaded configuration opens *)
Lemma provider_of_loaded config_file m pc :
  LoadConfig (GetConfigFile HomeDir config_file).1 m = (Ok pc, m) →
  GetStoreProvider HomeDir providers config_file m = (chosen open_local new_fake open_postgres (Some pc), m).
Proof.
  intros E. unfold GetStoreProvider. rewrite (bind_ok _ _ _ _ _ E). unfold lift. f_equal.
  destruct (store_choice open_local new_fake open_postgres (Some pc)) as (ps & Hr & Hc & _).
  rewrite Hr in Hproviders. cbn in Hproviders. by rewrite <- Hproviders, Hc.
Qed.

(** [C34] On a machine without a configuration, what runs before the first command writes
    the default one and nothing else, unless a file has been asked for or the run is
    stopped; every later command then opens the store of files under the home directory,
    the next runs write nothing, and the one context there is is listed as such. *)
Theorem first_run m d :
  no_file_on m config_dir → (∀ n, m !! (config_dir ++ [n]) = None) → yaml_Marshal (NewDefaultConfig HomeDir) = Ok d →
  let m' := write_file config_dir "default" d m in
  PersistentPreRun HomeDir (Ok ()) "" m = (Ok (), m') ∧
  GetStoreProvider HomeDir providers "" m' = (open_local {| Path := store_path |}, m') ∧
  PersistentPreRun HomeDir (Ok ()) "" m' = (Ok (), m') ∧
  get_contexts HomeDir "" [] m' = (Ok [("default", "Local")], m') ∧
  (∀ f, f ≠ "" → PersistentPreRun HomeDir (Ok ()) f m = (Ok (), m)) ∧
  (∀ e f, PersistentPreRun HomeDir (Err e) f m = (Err e, m)).
Proof.
  intros Hno Hnone Hd m'. pose proof config_dir_plain as Hp. pose proof config_dir_ne as Hne.
  assert (LoadConfig config_path m' = (Ok (NewDefaultConfig HomeDir), m')) as Hl.
  { unfold config_path, m'. rewrite (load_written config_dir "default" Hp _ _ _ Hd). by rewrite default_store. }
  split_and!.
  - unfold PersistentPreRun, mbind, gom_bind, lift. rewrite config_file_default. unfold gets, os_Stat, config_path.
    rewrite (resolve_config config_dir "default" Hp), Hnone. unfold lookup_errno.
    rewrite (proj2 (through_file_false m _)); [|apply no_file_on_snoc; [done|by rewrite Hnone]].
    apply save_ok; [done..|by rewrite Hnone|done].
  - rewrite (provider_of_loaded "" m' (NewDefaultConfig HomeDir)) by (by rewrite config_file_default). by rewrite default_store.
  - unfold PersistentPreRun, mbind, gom_bind, lift. rewrite config_file_default. unfold gets, config_path, m'.
    by rewrite (stat_written config_dir "default" Hp).
  - unfold get_contexts. rewrite decide_True, config_dir_default by done.
    rewrite (bind_ok _ _ _ _ _ (names_written config_dir "default" Hne Hp m d Hnone)). fold m'. cbn [map_each].
    assert (PathJoin [abs_path config_dir; "default"] = config_path) as ->.
    { change "default" with (Join "/" ["default"]) at 1. rewrite PathJoin_abs; [done|done|done| |plains].
      by apply Forall_app in Hp as [? _]. }
    unfold mbind, gom_bind. by rewrite Hl.
  - intros f Hf. unfold PersistentPreRun, GetConfigFile. by rewrite decide_False.
  - done.
Qed.

(** The store that a request asks for, and the configurations of other kinds of storage,
    which no store is made of *)
Definition opened_by (req : setContextRequest) : outcome I :=
  if decide (Provider req = "local") then open_local {| Path := localConfigKeyPath req |}
  else if decide (Provider req = "postgres") then
    open_postgres {| DbName := pgDatabaseName req; pg_Host := pgHost req; pg_Port := pgPort req; pg_User := pgUser req;
                     pg_Password := pgPassword req; MasterKeyURL := pgMasterKeyURL req |}
  else Err "missing store configuration".

Definition kinds : list string := ["s3"; "google"; "azure"; "local"; "swift"; "postgres"].

Lemma request_backend_cases req m :
  (request_backend req m).2 = m ∧
  match (request_backend req m).1 with
  | Ok answer => Provider req ∈ kinds ∧ ∀ pc, Store pc = answer.2 ∨ Store pc = with_CredentialName answer.2 (Provider req +:+ "-cred") →
                   chosen open_local new_fake open_postgres (Some pc) = opened_by req
  | _ => (request_backend req m).1 = Panic "exit status 1"
  end.
Proof.
  assert (∀ k (answer : gmap string string * StorageBackend), Provider req = k → k ∈ kinds →
    (∀ pc, Store pc = answer.2 ∨ Store pc = with_CredentialName answer.2 (k +:+ "-cred") →
       chosen open_local new_fake open_postgres (Some pc) = opened_by req) →
    ((mret answer : GoM (fs D) _) m).2 = m ∧ Provider req ∈ kinds ∧ ∀ pc,
      Store pc = answer.2 ∨ Store pc = with_CredentialName answer.2 (Provider req +:+ "-cred") →
      chosen open_local new_fake open_postgres (Some pc) = opened_by req) as Hret.
  { intros k answer -> Hk Ho. by split_and!. }
  assert (∀ data sb, sb_Local sb = None → sb_Postgres sb = None → Provider req ≠ "local" → Provider req ≠ "postgres" → ∀ k pc,
    Store pc = (data : gmap string string, sb).2 ∨ Store pc = with_CredentialName (data, sb).2 k →
    chosen open_local new_fake open_postgres (Some pc) = opened_by req) as Hmissing.
  { intros data sb Hl Hp Hn1 Hn2 k pc Hs. unfold opened_by. rewrite !decide_False by done. unfold chosen.
    destruct Hs as [-> | ->]; cbn; by rewrite Hl, Hp. }
  unfold request_backend.
  case_decide as Hk; [apply (Hret "s3"); [done|unfold kinds; set_solver|apply Hmissing; congruence || done]|].
  case_decide as Hg.
  { case_decide as Hf.
    - apply (Hret "google"); [done|unfold kinds; set_solver|apply Hmissing; congruence || done].
    - unfold mbind, gom_bind, attempt, os_ReadFile.
      destruct (m !! resolve os_cwd (gcsConfigJSONKeyPath req)) as [[d|]|]; [|done..].
      apply (Hret "google"); [done|unfold kinds; set_solver|apply Hmissing; congruence || done]. }
  case_decide as Hz; [apply (Hret "azure"); [done|unfold kinds; set_solver|apply Hmissing; congruence || done]|].
  case_decide as Hl.
  { apply (Hret "local"); [done|unfold kinds; set_solver|]. intros pc Hs. unfold opened_by. rewrite decide_True by done.
    unfold chosen. by destruct Hs as [-> | ->]. }
  case_decide as Hw; [apply (Hret "swift"); [done|unfold kinds; set_solver|apply Hmissing; congruence || done]|].
  case_decide as Hpg; [|done].
  apply (Hret "postgres"); [done|unfold kinds; set_solver|]. intros pc Hs. unfold opened_by.
  rewrite decide_False, decide_True by done. unfold chosen. by destruct Hs as [-> | ->].
Qed.

(** [C35] When the kind of storage is known and the key file of Google's can be read,
    set-context writes a configuration of the context "default" whose credential, if it
    has one, is the one that its storage names; loading the file gives it back, and
    commands open a local path or a database, while every other kind of storage can be
    configured and never opened.  Otherwise nothing is written. *)
Theorem context_set m req now dir c :
  dir ≠ [] → Forall plain (dir ++ [c]) → no_file_on m dir → m !! (dir ++ [c]) ≠ Some Dir →
  let path := abs_path (dir ++ [c]) in
  match request_backend req m with
  | (Ok answer, m1) =>
      let pc := context_config req now answer in
      Provider req ∈ kinds ∧
      (∀ cred, cred ∈ config_Credentials pc →
         Name (cred_ObjectMeta cred) = sb_CredentialName (Store pc) ∧ cred_Provider (cred_Spec cred) = Provider req ∧
         cred_Data (cred_Spec cred) = answer.1 ∧ answer.1 ≠ ∅) ∧
      (∀ d, yaml_Marshal pc = Ok d →
         let m' := write_file dir c d m in
         setContext now req path m = (Ok (), m') ∧ LoadConfig path m' = (Ok (truncated pc), m') ∧
         GetStoreProvider HomeDir providers path m' = (opened_by req, m')) ∧
      (∀ e, yaml_Marshal pc = Err e → setContext now req path m = (Panic "exit status 1", m))
  | (r, m1) => r = Panic "exit status 1" ∧ setContext now req path m = (Panic "exit status 1", m)
  end.
Proof.
  intros Hdir Hp Hno Hfile path. destruct (request_backend_cases req m) as [Hm Hc].
  unfold setContext, mbind, gom_bind. destruct (request_backend req m) as [[answer|e|w] m1]; cbn in Hm, Hc; subst m1; [|done|by injection Hc as ->].
  destruct Hc as [Hk Ho]. split; [done|]. set (pc := context_config req now answer).
  assert (Store pc = answer.2 ∨ Store pc = with_CredentialName answer.2 (Provider req +:+ "-cred")) as Hs.
  { unfold pc, context_config. destruct answer as [data sb]. cbn. case_decide; auto. }
  split_and!.
  - intros cred. unfold pc, context_config. destruct answer as [data sb]. cbn. case_decide as Hd; [by intros ?%elem_of_nil|].
    intros ->%list_elem_of_singleton. done.
  - intros d Hd. rewrite (attempt_ok _ _ _ _ (save_ok dir c Hdir Hp pc m d Hno Hfile Hd)). split; [done|].
    pose proof (load_written dir c Hp pc m d Hd) as Hl. split; [exact Hl|].
    assert ((GetConfigFile HomeDir path).1 = path) as Hf by (unfold GetConfigFile; by rewrite decide_False).
    rewrite (provider_of_loaded path _ (truncated pc)) by (by rewrite Hf). f_equal. apply Ho. exact Hs.
  - intros e He. unfold attempt, Save, mbind, gom_bind, lift. by rewrite He.
Qed.
End config.

Inductive cfile := FText (s : string) | FConfig (c : PharmerConfig).

#[export] Instance cfile_os : OS cfile := {|
  os_cwd := ["home"]; os_order l := l; os_order_perm l := Permutation_refl l |}.
#[export] Instance cfile_blob : Blob cfile := {|
  blob_of := FText; blob_str d := match d with FText s => s | _ => "" end; blob_str_of s := eq_refl |}.
#[export] Instance cfile_text : ConfigText cfile := {|
  yaml_Marshal c := Ok (FConfig c); yc_ToJSON := Ok;
  json_Unmarshal d := match d with FConfig c => Ok (truncated c) | FText _ => Err "error converting YAML to JSON" end |}.
#[export] Instance cfile_text_laws : ConfigTextLaws cfile.
Proof. split. intros pc d [= <-]. by exists (FConfig pc). Qed.

(** A store is what opened it. *)
Definition c_local (l : LocalSpec) : outcome string := Ok ("files in " +:+ Path l).
Definition c_postgres (p : PostgresSpec) : outcome string := Ok ("tables of " +:+ DbName p).
Definition c_providers : gmap string (Factory (I := string)) := (register_backends c_local "memory" c_postgres ∅).2.
Definition c_home : list string := ["home"].
Definition c_tree : fs cfile := {[ [] := Dir; c_home := Dir ]}.

Lemma c_tree_no_file q : no_file_on c_tree q.
Proof. intros p d _. unfold c_tree. rewrite lookup_insert_Some, lookup_singleton_Some. intros [[_ ?]|[_ [_ ?]]]; discriminate. Qed.

Lemma first_run_witness :
  let m' := write_file (config_dir c_home) "default" (FConfig (NewDefaultConfig "/home")) c_tree in
  PersistentPreRun "/home" (Ok ()) "" c_tree = (Ok (), m') ∧
  GetStoreProvider "/home" c_providers "" m' = (Ok "files in /home/.pharmer/store.d", m').
Proof.
  destruct (first_run c_home ltac:(done) ltac:(plains) c_local "memory" c_postgres c_providers eq_refl c_tree
              (FConfig (NewDefaultConfig "/home")) (c_tree_no_file _)) as (Hrun & Hstore & _); [|reflexivity|].
  - intros n. unfold c_tree. rewrite lookup_insert_ne by done. by rewrite lookup_singleton_ne by done.
  - split; [exact Hrun|exact Hstore].
Defined.

(** A bucket with a key: it can be configured, and not opened. *)
Definition s3_request : setContextRequest :=
  {| req_Name := ""; Provider := "s3"; Prefix := ""; s3ConfigAccessKeyID := "key"; s3ConfigSecretKey := ""; s3StoreEndpoint := "";
     s3StoreBucket := "bucket"; gcsConfigJSONKeyPath := ""; gcsConfigProjectId := ""; gcsStoreBucket := "";
     azureConfigAccount := ""; azureConfigKey := ""; azureStoreContainer := ""; localConfigKeyPath := "";
     swiftConfigKey := ""; swiftConfigTenantAuthURL := ""; swiftConfigTenantName := ""; swiftConfigUsername := "";
     swiftConfigDomain := ""; swiftConfigRegion := ""; swiftConfigTenantId := ""; swiftConfigTenantDomain := "";
     swiftConfigStorageURL := ""; swiftConfigAuthToken := ""; swiftStoreContainer := ""; pgDatabaseName := ""; pgHost := "";
     pgPort := 5432; pgUser := ""; pgPassword := ""; pgMasterKeyURL := "" |}.

Lemma context_set_witness :
  let answer : gmap string string * StorageBackend := ({[ "accessKeyID" := "key" ]}, {| sb_CredentialName := ""; sb_Local := None; sb_GCS := None; sb_Azure := None;
    sb_Swift := None; sb_Postgres := None; sb_S3 := Some {| s3_Endpoint := ""; s3_Bucket := "bucket"; s3_Prefix := "" |} |}) in
  let pc := context_config s3_request 0%Z answer in
  let m' := write_file c_home "mine" (FConfig pc) c_tree in
  setContext 0%Z s3_request "/home/mine" c_tree = (Ok (), m') ∧
  GetStoreProvider "/home" c_providers "/home/mine" m' = (Err "missing store configuration", m').
Proof.
  intros answer pc m'.
  assert (request_backend s3_request c_tree = (Ok answer, c_tree)) as E by (by unfold request_backend).
  pose proof (context_set c_home ltac:(done) ltac:(plains) c_local "memory" c_postgres c_providers eq_refl c_tree s3_request 0%Z c_home "mine"
                ltac:(done) ltac:(plains) (c_tree_no_file _)) as Hw.
  rewrite E in Hw. destruct Hw as (_ & _ & Hw & _); [by vm_compute|].
  destruct (Hw (FConfig pc) eq_refl) as (Hset & _ & Hopen). split; [exact Hset|exact Hopen].
Defined.
