(* ===== verification/Sql.v ===== *)
(** * The database behind the SQL store

    store/providers/xorm reads and writes tables through go-xorm.  A struct is
    mapped to a table by its columns ([Entity]); a struct passed to xorm (a
    "bean") stands for conditions or for new values, by the columns that are not
    zero ([buildConds], [buildUpdates]).  PostgreSQL is modelled by what the
    statements xorm makes of them do to a list of rows: an insert gets the next
    number of the table's sequence (used up even when the insert fails), a
    statement that breaks a UNIQUE index fails as a whole, and a query that asks
    for no order gets one of PostgreSQL's choosing ([Planner]).

    The columns created, updated and deleted of every table hold times that no
    query reads; they are left out.  A SecureString is encrypted on its way to the
    table and decrypted on its way back; the model keeps the text.  Failures of the
    connection are not modelled.

    What the statements do to a table: a UNIQUE index and the numbers of the rows stay
    unique ([table_ok]) whatever is inserted, updated or deleted; lookups find rows of
    the table and only those. *)
From stdpp Require Import base list gmap strings fin_maps.
From Stdlib Require Import Ascii.
From S2P Require Import Prelude GoStrings.

(** A Go value in a column, by its kind; [CSecure] is a type with ToDB and FromDB. *)
Inductive cell := CInt (z : Z) | CStr (s : string) | CBool (b : bool) | CSecure (s : string).

#[export] Instance cell_eq_dec : EqDecision cell.
Proof. solve_decision. Defined.

#[export] Instance CInt_inj : Inj (=) (=) CInt.
Proof. by intros x y [=]. Qed.
#[export] Instance CStr_inj : Inj (=) (=) CStr.
Proof. by intros x y [=]. Qed.

(** ** Names of columns (xorm.io/core, GonicMapper) *)
Definition isASCIIUpper (c : ascii) : bool :=
  (65 <=? nat_of_ascii c) && (nat_of_ascii c <=? 90).

(** One turn of the loop, on the name so far in reverse. *)
Definition gonic_step (idx : nat) (newstr : list ascii) (chr : ascii) : list ascii :=
  let newstr :=
    match newstr with
    | a :: _ => if isASCIIUpper chr && (0 <? idx) && negb (isASCIIUpper a)
                then "_"%char :: newstr else newstr
    | [] => []
    end in
  let newstr :=
    match newstr with
    | a :: b :: rest =>
        if negb (isASCIIUpper chr) && (1 <? idx) && isASCIIUpper a && isASCIIUpper b
        then a :: "_"%char :: b :: rest else newstr
    | _ => newstr
    end in
  chr :: newstr.

Fixpoint gonic_loop (idx : nat) (newstr : list ascii) (name : string) : list ascii :=
  match name with
  | "" => newstr
  | String chr rest => gonic_loop (S idx) (gonic_step idx newstr chr) rest
  end.

Definition gonicCasedName (name : string) : string :=
  ToLower (String.string_of_list_ascii (rev (gonic_loop 0 [] name))).

(** ** Mapped structs *)
Record column (R : Type) := Column {
  col_field : string;                (* the field, or the name its tag gives *)
  col_get : R → cell;
  col_set : cell → R → R;
  col_auto : bool                    (* pk autoincr *)
}.
Arguments Column {_}. Arguments col_field {_}. Arguments col_get {_}.
Arguments col_set {_}. Arguments col_auto {_}.

Definition col_name {R} (c : column R) : string := gonicCasedName (col_field c).

Class Entity (R : Type) := {
  TableName : string;
  columns : list (column R);
  uniques : list (list string);      (* the UNIQUE indexes, by their columns *)
  has_updated : bool;                (* a column tagged updated, set by every update *)
  row_id : R → Z
}.

Section entity.
Context {R : Type} `{!Entity R}.

Definition find_column (name : string) : option (column R) :=
  List.find (λ c, bool_decide (col_name c = name)) columns.

(** A zero value is no condition; neither are a boolean and a struct with ToDB. *)
Definition is_condition (v : cell) : bool :=
  match v with
  | CInt z => negb (bool_decide (z = 0%Z))
  | CStr s => negb (bool_decide (s = ""))
  | CBool _ | CSecure _ => false
  end.

Definition buildConds (bean row : R) : bool :=
  forallb (λ c, negb (is_condition (col_get c bean)) || bool_decide (col_get c row = col_get c bean))
    columns.

Definition has_conds (bean : R) : bool := existsb (λ c, is_condition (col_get c bean)) columns.

(** A zero value is not written, and neither is a boolean; a struct with ToDB is. *)
Definition is_update (c : column R) (v : cell) : bool :=
  negb (col_auto c) &&
  match v with
  | CInt z => negb (bool_decide (z = 0%Z))
  | CStr s => negb (bool_decide (s = ""))
  | CBool _ => false
  | CSecure _ => true
  end.

Definition buildUpdates (bean row : R) : R :=
  foldl (λ r c, if is_update c (col_get c bean) then col_set c (col_get c bean) r else r)
    row columns.

Definition has_updates (bean : R) : bool :=
  has_updated || existsb (λ c, is_update c (col_get c bean)) columns.

(** The conditions of [Where], a column and a value each.  A column the table has
    not is an error whatever the rows are: PostgreSQL finds it when it parses the
    statement. *)
Definition where_error (conds : list (string * cell)) : option error :=
  match List.find (λ nv, negb (bool_decide (is_Some (find_column nv.1)))) conds with
  | Some (name, _) => Some ("pq: column " +:+ name +:+ " does not exist")
  | None => None
  end.

Definition where_ok (conds : list (string * cell)) (row : R) : bool :=
  forallb (λ nv, match find_column nv.1 with
                 | Some c => bool_decide (col_get c row = nv.2)
                 | None => false
                 end) conds.

(** ** Tables *)
Definition unique_key (index : list string) (row : R) : list cell :=
  omap (λ n, (λ c, col_get c row) <$> find_column n) index.

Definition conflict (r1 r2 : R) : bool :=
  bool_decide (row_id r1 = row_id r2) ||
  existsb (λ u, bool_decide (unique_key u r1 = unique_key u r2)) uniques.

Fixpoint distinct (l : list R) : bool :=
  match l with
  | [] => true
  | r :: l => negb (existsb (conflict r) l) && distinct l
  end.

(** The number of a new row, where the bean has none. *)
Definition with_serial (id : Z) (bean : R) : R :=
  foldl (λ r c, if col_auto c && bool_decide (col_get c r = CInt 0) then col_set c (CInt id) r else r)
    bean columns.
End entity.

Record table (R : Type) := Table { rows : list R; serial : Z }.
Arguments Table {_}. Arguments rows {_}. Arguments serial {_}.

Definition empty_table {R} : table R := Table [] 0.

(** The order in which a query meets the rows. *)
Class Planner := { scan {R : Type} : list R → list R }.
Class PlannerLaws `{!Planner} : Prop := { scan_perm {R : Type} (l : list R) : scan l ≡ₚ l }.

Definition duplicate_key : error := "pq: duplicate key value violates unique constraint".

Section engine.
Context {R : Type} `{!Entity R, !Planner}.

(** [engine.Get(bean)]: the first row that satisfies the conditions. *)
Definition engine_Get (bean : R) : GoM (table R) (option R) := λ t,
  (Ok (List.find (buildConds bean) (scan (rows t))), t).

(** [engine.Where(...).Find(&beans)] *)
Definition engine_Find (conds : list (string * cell)) : GoM (table R) (list R) := λ t,
  match where_error (R := R) conds with
  | Some e => (Err e, t)
  | None => (Ok (List.filter (where_ok conds) (scan (rows t))), t)
  end.

Definition engine_Insert (bean : R) : GoM (table R) () := λ t,
  let id := (serial t + 1)%Z in
  let row := with_serial id bean in
  if existsb (conflict row) (rows t) then (Err duplicate_key, Table (rows t) id)
  else (Ok (), Table (rows t ++ [row]) id).

(** [engine.Where(...).Update(bean)] *)
Definition engine_Update (conds : list (string * cell)) (bean : R) : GoM (table R) () := λ t,
  if negb (has_updates bean) then (Err "No content found to be updated", t)
  else match where_error (R := R) conds with
       | Some e => (Err e, t)
       | None =>
           let l := (λ r, if where_ok conds r then buildUpdates bean r else r) <$> rows t in
           if distinct l then (Ok (), Table l (serial t)) else (Err duplicate_key, t)
       end.

(** [engine.Delete(bean)] *)
Definition engine_Delete (bean : R) : GoM (table R) () := λ t,
  if negb (has_conds bean) then (Err "Delete action needs at least one condition", t)
  else (Ok (), Table (List.filter (λ r, negb (buildConds bean r)) (rows t)) (serial t)).
End engine.

(** What the mapping of a struct has to satisfy: the number of a new row is the
    next of the sequence, and updates leave it alone. *)
Class EntityLaws (R : Type) `{!Entity R} : Prop := {
  row_id_serial (bean : R) id : row_id bean = 0%Z → row_id (with_serial id bean) = id;
  row_id_updates (bean row : R) : row_id (buildUpdates bean row) = row_id row
}.

Section rules.
Context {R : Type} `{!Entity R}.
Implicit Types (l : list R) (r : R).

Lemma conflict_sym r1 r2 : conflict r1 r2 = conflict r2 r1.
Proof.
  unfold conflict. f_equal.
  - by apply bool_decide_ext.
  - induction uniques as [|u us IH]; [done|]. cbn [existsb]. rewrite IH. f_equal.
    by apply bool_decide_ext.
Qed.

Lemma conflict_refl r : conflict r r = true.
Proof. unfold conflict. by rewrite bool_decide_eq_true_2. Qed.

Lemma existsb_false {A} (f : A → bool) (k : list A) :
  existsb f k = false ↔ ∀ x, x ∈ k → f x = false.
Proof.
  induction k as [|x k IH]; cbn [existsb]; [split; [by intros _ ? []%not_elem_of_nil|done]|].
  rewrite orb_false_iff, IH. setoid_rewrite elem_of_cons. naive_solver.
Qed.

Lemma distinct_cons r l :
  distinct (r :: l) = true ↔ (∀ r', r' ∈ l → conflict r r' = false) ∧ distinct l = true.
Proof. cbn [distinct]. by rewrite andb_true_iff, negb_true_iff, existsb_false. Qed.

Lemma distinct_lookup l :
  distinct l = true ↔
  ∀ i j r1 r2, l !! i = Some r1 → l !! j = Some r2 → i ≠ j → conflict r1 r2 = false.
Proof.
  induction l as [|r l IH]; [split; [by intros _ i j r1 r2 ?|done]|].
  rewrite distinct_cons, IH. split.
  - intros [Hr Hl] [|i] [|j] r1 r2 H1 H2 Hij; simpl in *; simplify_eq.
    + apply Hr. by eapply list_elem_of_lookup_2.
    + rewrite conflict_sym. apply Hr. by eapply list_elem_of_lookup_2.
    + apply (Hl i j); [done..|]. congruence.
  - intros H. split.
    + intros r' [j Hj]%list_elem_of_lookup. by apply (H 0 (S j)).
    + intros i j r1 r2 H1 H2 Hij. apply (H (S i) (S j)); [done..|]. congruence.
Qed.

(** Rows that agree on a UNIQUE index or a number are the same row. *)
Lemma distinct_inj l r1 r2 :
  distinct l = true → r1 ∈ l → r2 ∈ l → conflict r1 r2 = true → r1 = r2.
Proof.
  rewrite distinct_lookup. intros Hl [i Hi]%list_elem_of_lookup [j Hj]%list_elem_of_lookup Hc.
  destruct (decide (i = j)) as [->|Hij]; [congruence|]. by rewrite (Hl i j r1 r2) in Hc.
Qed.

Lemma distinct_filter (f : R → bool) l : distinct l = true → distinct (List.filter f l) = true.
Proof.
  induction l as [|r l IH]; [done|]. rewrite distinct_cons. intros [Hr Hl]. cbn [List.filter].
  destruct (f r); [|by apply IH]. apply distinct_cons. split; [|by apply IH].
  intros r' Hin. apply Hr, list_elem_of_In. apply list_elem_of_In, filter_In in Hin. tauto.
Qed.

Lemma distinct_snoc l r :
  distinct l = true → existsb (conflict r) l = false → distinct (l ++ [r]) = true.
Proof.
  intros Hl Hr. rewrite existsb_false in Hr.
  induction l as [|r' l IH]; [done|]. apply distinct_cons in Hl as [Hr' Hl].
  rewrite <-app_comm_cons. apply distinct_cons. split.
  - intros x [Hx| ->%list_elem_of_singleton]%elem_of_app; [by apply Hr'|].
    rewrite conflict_sym. apply Hr. by left.
  - apply IH; [done|]. intros x Hx. apply Hr. by right.
Qed.

Definition numbered (t : table R) : Prop := ∀ r, r ∈ rows t → (row_id r ≤ serial t)%Z.

Definition table_ok (t : table R) : Prop := distinct (rows t) = true ∧ numbered t.

Lemma empty_table_ok : table_ok empty_table.
Proof. split; [done|]. by intros r []%not_elem_of_nil. Qed.

Context `{!EntityLaws R, !Planner, !PlannerLaws}.

Lemma Get_found (bean r : R) (t : table R) :
  (engine_Get bean t).1 = Ok (Some r) → r ∈ rows t ∧ buildConds bean r = true.
Proof.
  cbn. intros [= [Hin Hc]%find_some]. split; [|done].
  by rewrite <-(scan_perm (rows t)), list_elem_of_In.
Qed.

Lemma Get_missing (bean : R) (t : table R) :
  (engine_Get bean t).1 = Ok None ↔ ∀ r, r ∈ rows t → buildConds bean r = false.
Proof.
  cbn. split.
  - intros [= Hf] r Hin. apply (find_none _ _ Hf). by rewrite <-list_elem_of_In, scan_perm.
  - intros Hm. f_equal. destruct (List.find _ _) as [r|] eqn:Hf; [|done].
    apply find_some in Hf as [Hin Hc]. rewrite <-list_elem_of_In, scan_perm in Hin.
    by rewrite Hm in Hc.
Qed.

(** The only row that satisfies the conditions is the one found. *)
Lemma Get_only (bean r : R) (t : table R) :
  r ∈ rows t → buildConds bean r = true →
  (∀ r', r' ∈ rows t → buildConds bean r' = true → r' = r) →
  engine_Get bean t = (Ok (Some r), t).
Proof.
  intros Hin Hc Hu. destruct ((engine_Get bean t).1) as [[r'|]|e|w] eqn:Hg; [| |done|done].
  - pose proof (Get_found _ _ _ Hg) as [Hin' Hc']. rewrite <-(Hu r' Hin' Hc').
    unfold engine_Get in *. cbn in Hg. by simplify_eq/=; rewrite Hg.
  - rewrite Get_missing in Hg. by rewrite Hg in Hc.
Qed.

Lemma Get_same (bean : R) t : (engine_Get bean t).2 = t.
Proof. done. Qed.

Lemma Insert_ok (bean : R) t :
  table_ok t → row_id bean = 0%Z → table_ok (engine_Insert bean t).2.
Proof.
  intros [Hd Hn] Hid. unfold engine_Insert.
  destruct (existsb _ _) eqn:Hc; split; cbn [rows serial snd]; try done.
  - intros r Hr. cbn. specialize (Hn r Hr). lia.
  - by apply distinct_snoc.
  - intros r [Hr| ->%list_elem_of_singleton]%elem_of_app; cbn.
    + specialize (Hn r Hr). lia.
    + rewrite row_id_serial by done. lia.
Qed.

Lemma Update_ok conds (bean : R) t : table_ok t → table_ok (engine_Update conds bean t).2.
Proof.
  intros [Hd Hn]. unfold engine_Update. destruct (negb _); [done|].
  destruct (where_error conds); [done|]. destruct (distinct (_ <$> _)) eqn:Hd'; [|done].
  split; [exact Hd'|]. intros r' (r & -> & Hr)%list_elem_of_fmap.
  specialize (Hn r Hr). destruct (where_ok conds r); [by rewrite row_id_updates|done].
Qed.

Lemma Delete_ok (bean : R) t : table_ok t → table_ok (engine_Delete bean t).2.
Proof.
  intros [Hd Hn]. unfold engine_Delete. destruct (negb _); [done|].
  split; [by apply distinct_filter|]. intros r Hr. apply Hn.
  apply list_elem_of_In, filter_In in Hr as [Hr _]. by apply list_elem_of_In.
Qed.
End rules.
