(* ===== verification/XormStore.v ===== *)
(** * The SQL store (store/providers/xorm)

    Clusters, credentials, machines, certificates, ssh keys and operations as rows
    of tables of Sql.v, with a Module per Go type.  A cluster or credential belongs
    to an owner; the rows of a machine, certificate or ssh key carry the number of
    their cluster, which every call looks up first.

    Objects are stored as JSON text: [Json string O], whose encoder stands for
    json.Marshal here.  The state is the database and the number of calls to the
    clock and to uuid.NewUUID so far. *)
From stdpp Require Import base list gmap strings pretty fin_maps.
From Stdlib Require Import Ascii.
From S2P Require Import Prelude GoStrings Api StoreSpec VfsStore Sql Kube.

(** ** The tables *)
(** cluster_types.go *)
Record ClusterRow := {
  cl_ID : Z; cl_UUID : string; cl_OwnerID : Z; cl_Name : string; cl_Data : string; cl_IsPrivate : bool
}.

#[export] Instance cluster_entity : Entity ClusterRow := {|
  TableName := "ac_cluster";
  columns := [
    Column "ID" (λ r, CInt (cl_ID r))
      (λ c r, match c with CInt v => {| cl_ID := v; cl_UUID := cl_UUID r; cl_OwnerID := cl_OwnerID r; cl_Name := cl_Name r; cl_Data := cl_Data r; cl_IsPrivate := cl_IsPrivate r |} | _ => r end) true;
    Column "UUID" (λ r, CStr (cl_UUID r))
      (λ c r, match c with CStr v => {| cl_ID := cl_ID r; cl_UUID := v; cl_OwnerID := cl_OwnerID r; cl_Name := cl_Name r; cl_Data := cl_Data r; cl_IsPrivate := cl_IsPrivate r |} | _ => r end) false;
    Column "OwnerID" (λ r, CInt (cl_OwnerID r))
      (λ c r, match c with CInt v => {| cl_ID := cl_ID r; cl_UUID := cl_UUID r; cl_OwnerID := v; cl_Name := cl_Name r; cl_Data := cl_Data r; cl_IsPrivate := cl_IsPrivate r |} | _ => r end) false;
    Column "Name" (λ r, CStr (cl_Name r))
      (λ c r, match c with CStr v => {| cl_ID := cl_ID r; cl_UUID := cl_UUID r; cl_OwnerID := cl_OwnerID r; cl_Name := v; cl_Data := cl_Data r; cl_IsPrivate := cl_IsPrivate r |} | _ => r end) false;
    Column "Data" (λ r, CSecure (cl_Data r))
      (λ c r, match c with CSecure v => {| cl_ID := cl_ID r; cl_UUID := cl_UUID r; cl_OwnerID := cl_OwnerID r; cl_Name := cl_Name r; cl_Data := v; cl_IsPrivate := cl_IsPrivate r |} | _ => r end) false;
    Column "IsPrivate" (λ r, CBool (cl_IsPrivate r))
      (λ c r, match c with CBool v => {| cl_ID := cl_ID r; cl_UUID := cl_UUID r; cl_OwnerID := cl_OwnerID r; cl_Name := cl_Name r; cl_Data := cl_Data r; cl_IsPrivate := v |} | _ => r end) false];
  uniques := [["uuid"]; ["owner_id"; "name"]];
  has_updated := true;
  row_id := cl_ID
|}.

(** credential_types.go *)
Record CredentialRow := {
  cr_ID : Z; cr_OwnerID : Z; cr_Name : string; cr_UID : string; cr_Data : string
}.

#[export] Instance credential_entity : Entity CredentialRow := {|
  TableName := "ac_cluster_credential";
  columns := [
    Column "ID" (λ r, CInt (cr_ID r))
      (λ c r, match c with CInt v => {| cr_ID := v; cr_OwnerID := cr_OwnerID r; cr_Name := cr_Name r; cr_UID := cr_UID r; cr_Data := cr_Data r |} | _ => r end) true;
    Column "OwnerID" (λ r, CInt (cr_OwnerID r))
      (λ c r, match c with CInt v => {| cr_ID := cr_ID r; cr_OwnerID := v; cr_Name := cr_Name r; cr_UID := cr_UID r; cr_Data := cr_Data r |} | _ => r end) false;
    Column "Name" (λ r, CStr (cr_Name r))
      (λ c r, match c with CStr v => {| cr_ID := cr_ID r; cr_OwnerID := cr_OwnerID r; cr_Name := v; cr_UID := cr_UID r; cr_Data := cr_Data r |} | _ => r end) false;
    Column "UID" (λ r, CStr (cr_UID r))
      (λ c r, match c with CStr v => {| cr_ID := cr_ID r; cr_OwnerID := cr_OwnerID r; cr_Name := cr_Name r; cr_UID := v; cr_Data := cr_Data r |} | _ => r end) false;
    Column "Data" (λ r, CSecure (cr_Data r))
      (λ c r, match c with CSecure v => {| cr_ID := cr_ID r; cr_OwnerID := cr_OwnerID r; cr_Name := cr_Name r; cr_UID := cr_UID r; cr_Data := v |} | _ => r end) false];
  uniques := [["owner_id"; "name"]; ["uid"]];
  has_updated := true;
  row_id := cr_ID
|}.

(** machine_types.go *)
Record MachineRow := {
  mc_ID : Z; mc_Name : string; mc_Data : string; mc_ClusterID : Z
}.

#[export] Instance machine_entity : Entity MachineRow := {|
  TableName := "ac_cluster_machine";
  columns := [
    Column "ID" (λ r, CInt (mc_ID r))
      (λ c r, match c with CInt v => {| mc_ID := v; mc_Name := mc_Name r; mc_Data := mc_Data r; mc_ClusterID := mc_ClusterID r |} | _ => r end) true;
    Column "Name" (λ r, CStr (mc_Name r))
      (λ c r, match c with CStr v => {| mc_ID := mc_ID r; mc_Name := v; mc_Data := mc_Data r; mc_ClusterID := mc_ClusterID r |} | _ => r end) false;
    Column "Data" (λ r, CStr (mc_Data r))
      (λ c r, match c with CStr v => {| mc_ID := mc_ID r; mc_Name := mc_Name r; mc_Data := v; mc_ClusterID := mc_ClusterID r |} | _ => r end) false;
    Column "ClusterID" (λ r, CInt (mc_ClusterID r))
      (λ c r, match c with CInt v => {| mc_ID := mc_ID r; mc_Name := mc_Name r; mc_Data := mc_Data r; mc_ClusterID := v |} | _ => r end) false];
  uniques := [];
  has_updated := true;
  row_id := mc_ID
|}.

(** certificate_types.go *)
Record CertificateRow := {
  ce_ID : Z; ce_Name : string; ce_ClusterID : Z; ce_ClusterName : string; ce_UID : string; ce_Cert : string; ce_Key : string
}.

#[export] Instance certificate_entity : Entity CertificateRow := {|
  TableName := "ac_cluster_certificate";
  columns := [
    Column "ID" (λ r, CInt (ce_ID r))
      (λ c r, match c with CInt v => {| ce_ID := v; ce_Name := ce_Name r; ce_ClusterID := ce_ClusterID r; ce_ClusterName := ce_ClusterName r; ce_UID := ce_UID r; ce_Cert := ce_Cert r; ce_Key := ce_Key r |} | _ => r end) true;
    Column "Name" (λ r, CStr (ce_Name r))
      (λ c r, match c with CStr v => {| ce_ID := ce_ID r; ce_Name := v; ce_ClusterID := ce_ClusterID r; ce_ClusterName := ce_ClusterName r; ce_UID := ce_UID r; ce_Cert := ce_Cert r; ce_Key := ce_Key r |} | _ => r end) false;
    Column "ClusterID" (λ r, CInt (ce_ClusterID r))
      (λ c r, match c with CInt v => {| ce_ID := ce_ID r; ce_Name := ce_Name r; ce_ClusterID := v; ce_ClusterName := ce_ClusterName r; ce_UID := ce_UID r; ce_Cert := ce_Cert r; ce_Key := ce_Key r |} | _ => r end) false;
    Column "ClusterName" (λ r, CStr (ce_ClusterName r))
      (λ c r, match c with CStr v => {| ce_ID := ce_ID r; ce_Name := ce_Name r; ce_ClusterID := ce_ClusterID r; ce_ClusterName := v; ce_UID := ce_UID r; ce_Cert := ce_Cert r; ce_Key := ce_Key r |} | _ => r end) false;
    Column "UID" (λ r, CStr (ce_UID r))
      (λ c r, match c with CStr v => {| ce_ID := ce_ID r; ce_Name := ce_Name r; ce_ClusterID := ce_ClusterID r; ce_ClusterName := ce_ClusterName r; ce_UID := v; ce_Cert := ce_Cert r; ce_Key := ce_Key r |} | _ => r end) false;
    Column "Cert" (λ r, CStr (ce_Cert r))
      (λ c r, match c with CStr v => {| ce_ID := ce_ID r; ce_Name := ce_Name r; ce_ClusterID := ce_ClusterID r; ce_ClusterName := ce_ClusterName r; ce_UID := ce_UID r; ce_Cert := v; ce_Key := ce_Key r |} | _ => r end) false;
    Column "Key" (λ r, CSecure (ce_Key r))
      (λ c r, match c with CSecure v => {| ce_ID := ce_ID r; ce_Name := ce_Name r; ce_ClusterID := ce_ClusterID r; ce_ClusterName := ce_ClusterName r; ce_UID := ce_UID r; ce_Cert := ce_Cert r; ce_Key := v |} | _ => r end) false];
  uniques := [["uid"]];
  has_updated := true;
  row_id := ce_ID
|}.

(** ssh_types.go *)
Record SSHKeyRow := {
  sk_ID : Z; sk_Name : string; sk_ClusterID : Z; sk_ClusterName : string; sk_UID : string; sk_PublicKey : string; sk_PrivateKey : string
}.

#[export] Instance sshkey_entity : Entity SSHKeyRow := {|
  TableName := "ac_cluster_ssh";
  columns := [
    Column "ID" (λ r, CInt (sk_ID r))
      (λ c r, match c with CInt v => {| sk_ID := v; sk_Name := sk_Name r; sk_ClusterID := sk_ClusterID r; sk_ClusterName := sk_ClusterName r; sk_UID := sk_UID r; sk_PublicKey := sk_PublicKey r; sk_PrivateKey := sk_PrivateKey r |} | _ => r end) true;
    Column "Name" (λ r, CStr (sk_Name r))
      (λ c r, match c with CStr v => {| sk_ID := sk_ID r; sk_Name := v; sk_ClusterID := sk_ClusterID r; sk_ClusterName := sk_ClusterName r; sk_UID := sk_UID r; sk_PublicKey := sk_PublicKey r; sk_PrivateKey := sk_PrivateKey r |} | _ => r end) false;
    Column "ClusterID" (λ r, CInt (sk_ClusterID r))
      (λ c r, match c with CInt v => {| sk_ID := sk_ID r; sk_Name := sk_Name r; sk_ClusterID := v; sk_ClusterName := sk_ClusterName r; sk_UID := sk_UID r; sk_PublicKey := sk_PublicKey r; sk_PrivateKey := sk_PrivateKey r |} | _ => r end) false;
    Column "ClusterName" (λ r, CStr (sk_ClusterName r))
      (λ c r, match c with CStr v => {| sk_ID := sk_ID r; sk_Name := sk_Name r; sk_ClusterID := sk_ClusterID r; sk_ClusterName := v; sk_UID := sk_UID r; sk_PublicKey := sk_PublicKey r; sk_PrivateKey := sk_PrivateKey r |} | _ => r end) false;
    Column "UID" (λ r, CStr (sk_UID r))
      (λ c r, match c with CStr v => {| sk_ID := sk_ID r; sk_Name := sk_Name r; sk_ClusterID := sk_ClusterID r; sk_ClusterName := sk_ClusterName r; sk_UID := v; sk_PublicKey := sk_PublicKey r; sk_PrivateKey := sk_PrivateKey r |} | _ => r end) false;
    Column "PublicKey" (λ r, CStr (sk_PublicKey r))
      (λ c r, match c with CStr v => {| sk_ID := sk_ID r; sk_Name := sk_Name r; sk_ClusterID := sk_ClusterID r; sk_ClusterName := sk_ClusterName r; sk_UID := sk_UID r; sk_PublicKey := v; sk_PrivateKey := sk_PrivateKey r |} | _ => r end) false;
    Column "PrivateKey" (λ r, CSecure (sk_PrivateKey r))
      (λ c r, match c with CSecure v => {| sk_ID := sk_ID r; sk_Name := sk_Name r; sk_ClusterID := sk_ClusterID r; sk_ClusterName := sk_ClusterName r; sk_UID := sk_UID r; sk_PublicKey := sk_PublicKey r; sk_PrivateKey := v |} | _ => r end) false];
  uniques := [];
  has_updated := true;
  row_id := sk_ID
|}.

(** apis/v1alpha1/operation.go: the states are numbered from 0 (iota). *)
Definition state_number (s : OperationState) : Z :=
  match s with OperationDone => 0 | OperationPending => 1 | OperationRunning => 2 end.
Definition number_state (z : Z) : OperationState :=
  if bool_decide (z = 1%Z) then OperationPending
  else if bool_decide (z = 2%Z) then OperationRunning else OperationDone.

#[export] Instance operation_entity : Entity Operation := {|
  TableName := "ac_operation";
  columns := [
    Column "ID" (λ r, CInt (op_ID r))
      (λ c r, match c with CInt v => {| op_ID := v; op_UserID := op_UserID r; op_ClusterID := op_ClusterID r; op_Code := op_Code r; op_State := op_State r |} | _ => r end) true;
    Column "UserID" (λ r, CInt (op_UserID r))
      (λ c r, match c with CInt v => {| op_ID := op_ID r; op_UserID := v; op_ClusterID := op_ClusterID r; op_Code := op_Code r; op_State := op_State r |} | _ => r end) false;
    Column "ClusterID" (λ r, CInt (op_ClusterID r))
      (λ c r, match c with CInt v => {| op_ID := op_ID r; op_UserID := op_UserID r; op_ClusterID := v; op_Code := op_Code r; op_State := op_State r |} | _ => r end) false;
    Column "Code" (λ r, CStr (op_Code r))
      (λ c r, match c with CStr v => {| op_ID := op_ID r; op_UserID := op_UserID r; op_ClusterID := op_ClusterID r; op_Code := v; op_State := op_State r |} | _ => r end) false;
    Column "State" (λ r, CInt (state_number (op_State r)))
      (λ c r, match c with CInt v => with_op_State r (number_state v) | _ => r end) false];
  uniques := [["user_id"; "cluster_id"; "code"]];
  has_updated := false;
  row_id := op_ID
|}.

(** ** The database *)
Record db := Db {
  db_clusters : table ClusterRow;
  db_credentials : table CredentialRow;
  db_machines : table MachineRow;
  db_certificates : table CertificateRow;
  db_sshkeys : table SSHKeyRow;
  db_operations : table Operation;
  db_tick : nat
}.

Definition empty_db : db :=
  Db empty_table empty_table empty_table empty_table empty_table empty_table 0.

Definition in_clusters {A} : GoM (table ClusterRow) A → GoM db A :=
  zoom db_clusters (λ t d, Db t (db_credentials d) (db_machines d) (db_certificates d) (db_sshkeys d)
                             (db_operations d) (db_tick d)).
Definition in_credentials {A} : GoM (table CredentialRow) A → GoM db A :=
  zoom db_credentials (λ t d, Db (db_clusters d) t (db_machines d) (db_certificates d) (db_sshkeys d)
                                (db_operations d) (db_tick d)).
Definition in_machines {A} : GoM (table MachineRow) A → GoM db A :=
  zoom db_machines (λ t d, Db (db_clusters d) (db_credentials d) t (db_certificates d) (db_sshkeys d)
                             (db_operations d) (db_tick d)).
Definition in_certificates {A} : GoM (table CertificateRow) A → GoM db A :=
  zoom db_certificates (λ t d, Db (db_clusters d) (db_credentials d) (db_machines d) t (db_sshkeys d)
                                 (db_operations d) (db_tick d)).
Definition in_sshkeys {A} : GoM (table SSHKeyRow) A → GoM db A :=
  zoom db_sshkeys (λ t d, Db (db_clusters d) (db_credentials d) (db_machines d) (db_certificates d) t
                            (db_operations d) (db_tick d)).
Definition in_operations {A} : GoM (table Operation) A → GoM db A :=
  zoom db_operations (λ t d, Db (db_clusters d) (db_credentials d) (db_machines d) (db_certificates d)
                               (db_sshkeys d) t (db_tick d)).

Definition draw_db {A} (f : nat → outcome A) : GoM db A := λ d,
  (f (db_tick d), Db (db_clusters d) (db_credentials d) (db_machines d) (db_certificates d)
                    (db_sshkeys d) (db_operations d) (S (db_tick d))).

Definition db_now `{!Clock} : GoM db Time := draw_db (λ n, Ok (time_now n)).
(** util/uuid's NewUUID panics where there is no randomness. *)
Definition db_uuid `{!Clock} : GoM db string :=
  draw_db (λ n, match new_uuid n with Err e => Panic e | r => r end).

Definition with_CreationTimestamp (m : ObjectMeta) (now : Time) : ObjectMeta :=
  {| Name := Name m; Namespace := Namespace m; UID := UID m; Generation := Generation m;
     CreationTimestamp := now; DeletionTimestamp := DeletionTimestamp m;
     Labels := Labels m; Annotations := Annotations m |}.

(** [&Cluster{Name: name, OwnerID: owner}] and the like: every other field is zero. *)
Definition cluster_bean (name : string) (owner : Z) : ClusterRow :=
  {| cl_ID := 0; cl_UUID := ""; cl_OwnerID := owner; cl_Name := name; cl_Data := "";
     cl_IsPrivate := false |}.
Definition cluster_id_bean (id : Z) : ClusterRow :=
  {| cl_ID := id; cl_UUID := ""; cl_OwnerID := 0; cl_Name := ""; cl_Data := "";
     cl_IsPrivate := false |}.
Definition with_cl_Data (r : ClusterRow) (data : string) : ClusterRow :=
  {| cl_ID := cl_ID r; cl_UUID := cl_UUID r; cl_OwnerID := cl_OwnerID r; cl_Name := cl_Name r;
     cl_Data := data; cl_IsPrivate := cl_IsPrivate r |}.
Definition with_cl_UUID (r : ClusterRow) (uuid : string) : ClusterRow :=
  {| cl_ID := cl_ID r; cl_UUID := uuid; cl_OwnerID := cl_OwnerID r; cl_Name := cl_Name r;
     cl_Data := cl_Data r; cl_IsPrivate := cl_IsPrivate r |}.
Definition credential_bean (name : string) (owner : Z) : CredentialRow :=
  {| cr_ID := 0; cr_OwnerID := owner; cr_Name := name; cr_UID := ""; cr_Data := "" |}.
Definition credential_id_bean (id : Z) : CredentialRow :=
  {| cr_ID := id; cr_OwnerID := 0; cr_Name := ""; cr_UID := ""; cr_Data := "" |}.
Definition with_cr_Data (r : CredentialRow) (data : string) : CredentialRow :=
  {| cr_ID := cr_ID r; cr_OwnerID := cr_OwnerID r; cr_Name := cr_Name r; cr_UID := cr_UID r;
     cr_Data := data |}.
Definition machine_bean (name : string) (cluster : Z) : MachineRow :=
  {| mc_ID := 0; mc_Name := name; mc_Data := ""; mc_ClusterID := cluster |}.
Definition with_mc_Data (r : MachineRow) (data : string) : MachineRow :=
  {| mc_ID := mc_ID r; mc_Name := mc_Name r; mc_Data := data; mc_ClusterID := mc_ClusterID r |}.
Definition certificate_bean (name cluster : string) (id : Z) : CertificateRow :=
  {| ce_ID := 0; ce_Name := name; ce_ClusterID := id; ce_ClusterName := cluster; ce_UID := "";
     ce_Cert := ""; ce_Key := "" |}.
Definition sshkey_bean (name cluster : string) (id : Z) : SSHKeyRow :=
  {| sk_ID := 0; sk_Name := name; sk_ClusterID := id; sk_ClusterName := cluster; sk_UID := "";
     sk_PublicKey := ""; sk_PrivateKey := "" |}.

(** The owner that stands for "look it up by number". *)
Definition by_number : Z := -1.

(** ** cluster.go *)
Module ClusterXormStore.
Record t := Make { owner : Z }.

Section methods.
Context `{!Planner, !Clock, !Json string Cluster}.
Implicit Types (s : t).

Definition List s : GoM db (list Cluster) :=
  clusters ← in_clusters (engine_Find [("owner_id", CInt (owner s))]);
  map_each (λ r, lift (Unmarshal (cl_Data r))) clusters.

Definition Get s (name : string) : GoM db Cluster :=
  _ ← err_if (bool_decide (name = "")) "missing cluster name";
  bean ← if bool_decide (owner s = by_number)
         then id ← lift (Atoi name); mret (cluster_id_bean id)
         else mret (cluster_bean name (owner s));
  found ← on_err (λ e, "reason: " +:+ e) (in_clusters (engine_Get bean));
  match found with
  | None => throw ("cluster `" +:+ name +:+ "` does not exists")
  | Some r => lift (Unmarshal (cl_Data r))
  end.

Definition Create s (obj : option Cluster) : GoM db Cluster :=
  match obj with
  | None => throw "missing cluster"
  | Some obj =>
      _ ← err_if (bool_decide (cluster_Name obj = "")) "missing cluster name";
      obj ← assign_kind obj;
      found ← on_err (λ e, "reason: " +:+ e)
                     (in_clusters (engine_Get (cluster_bean (cluster_Name obj) (owner s))));
      match found with
      | Some _ => throw ("cluster `" +:+ cluster_Name obj +:+ "` already exists")
      | None =>
          now ← db_now;
          let obj := with_ObjectMeta obj (with_CreationTimestamp (cluster_ObjectMeta obj) now) in
          data ← lift (MarshalIndent obj);
          _ ← in_clusters (engine_Insert (with_cl_Data (cluster_bean (cluster_Name obj) (owner s)) data));
          mret obj
      end
  end.

Definition Update s (obj : option Cluster) : GoM db Cluster :=
  match obj with
  | None => throw "missing cluster"
  | Some obj =>
      _ ← err_if (bool_decide (cluster_Name obj = "")) "missing cluster name";
      obj ← assign_kind obj;
      found ← on_err (λ e, "reason: " +:+ e)
                     (in_clusters (engine_Get (cluster_bean (cluster_Name obj) (owner s))));
      match found with
      | None => throw ("cluster `" +:+ cluster_Name obj +:+ "` does not exists")
      | Some cluster =>
          data ← lift (MarshalIndent obj);
          _ ← in_clusters (engine_Update [("name", CStr (cluster_Name obj))] (with_cl_Data cluster data));
          mret obj
      end
  end.

Definition Delete s (name : string) : GoM db () :=
  _ ← err_if (bool_decide (name = "")) "missing cluster name";
  in_clusters (engine_Delete (cluster_bean name (owner s))).

Definition UpdateStatus s (obj : option Cluster) : GoM db Cluster :=
  match obj with
  | None => throw "missing cluster"
  | Some obj =>
      _ ← err_if (bool_decide (cluster_Name obj = "")) "missing cluster name";
      obj ← assign_kind obj;
      found ← on_err (λ e, "cluster `" +:+ cluster_Name obj +:+ "` does not exist. Reason: " +:+ e)
                     (in_clusters (engine_Get (cluster_bean (cluster_Name obj) (owner s))));
      match found with
      | None => throw ("cluster `" +:+ cluster_Name obj +:+ "` does not exist")
      | Some cluster =>
          existing ← lift (Unmarshal (cl_Data cluster));
          let existing := res_set_status existing obj in
          data ← lift (MarshalIndent existing);
          _ ← in_clusters (engine_Update [("name", CStr (cluster_Name obj)); ("owner_id", CInt (owner s))]
                                         (with_cl_Data cluster data));
          mret existing
      end
  end.

Definition UpdateUUID s (obj : option Cluster) (uuid : string) : GoM db Cluster :=
  match obj with
  | None => throw "missing cluster"
  | Some obj =>
      _ ← err_if (bool_decide (cluster_Name obj = "")) "missing cluster name";
      obj ← assign_kind obj;
      found ← on_err (λ e, "reason: " +:+ e)
                     (in_clusters (engine_Get (cluster_bean (cluster_Name obj) (owner s))));
      match found with
      | None => throw ("cluster `" +:+ cluster_Name obj +:+ "` does not exists")
      | Some cluster =>
          _ ← in_clusters (engine_Update [("name", CStr (cluster_Name obj))] (with_cl_UUID cluster uuid));
          mret obj
      end
  end.

Definition ops s : store_ops db Cluster := {|
  op_List := List s; op_Get := Get s; op_Create := Create s; op_Update := Update s;
  op_Delete := Delete s; op_UpdateStatus := Some (UpdateStatus s)
|}.
End methods.
End ClusterXormStore.

(** ** credential.go *)
Module CredentialXormStore.
Record t := Make { owner : Z }.

Section methods.
Context `{!Planner, !Clock, !Json string Credential}.
Implicit Types (s : t).

Definition List s : GoM db (list Credential) :=
  credentials ← in_credentials (engine_Find [("ownerId", CInt (owner s))]);
  map_each (λ r, lift (Unmarshal (cr_Data r))) credentials.

Definition Get s (name : string) : GoM db Credential :=
  _ ← err_if (bool_decide (name = "")) "missing credential name";
  bean ← if bool_decide (owner s = by_number)
         then id ← lift (Atoi name); mret (credential_id_bean id)
         else mret (credential_bean name (owner s));
  found ← on_err (λ e, "reason: " +:+ e) (in_credentials (engine_Get bean));
  match found with
  | None => throw ("credential " +:+ name +:+ " does not exists")
  | Some r => lift (Unmarshal (cr_Data r))
  end.

Definition Create s (obj : option Credential) : GoM db Credential :=
  match obj with
  | None => throw "missing credential"
  | Some obj =>
      _ ← err_if (bool_decide (cred_Name obj = "")) "missing credential name";
      obj ← assign_kind obj;
      found ← on_err (λ e, "reason: " +:+ e)
                     (in_credentials (engine_Get (credential_bean (cred_Name obj) (owner s))));
      match found with
      | Some _ => throw ("credential `" +:+ cred_Name obj +:+ "` already exists")
      | None =>
          now ← db_now;
          let obj := {| cred_TypeMeta := cred_TypeMeta obj;
                        cred_ObjectMeta := with_CreationTimestamp (cred_ObjectMeta obj) now;
                        cred_Spec := cred_Spec obj |} in
          data ← lift (MarshalIndent obj);
          uid ← db_uuid;
          _ ← in_credentials (engine_Insert
                {| cr_ID := 0; cr_OwnerID := owner s; cr_Name := cred_Name obj; cr_UID := uid;
                   cr_Data := data |});
          mret obj
      end
  end.

Definition Update s (obj : option Credential) : GoM db Credential :=
  match obj with
  | None => throw "missing credential"
  | Some obj =>
      _ ← err_if (bool_decide (cred_Name obj = "")) "missing credential name";
      obj ← assign_kind obj;
      found ← in_credentials (engine_Get (credential_bean (cred_Name obj) (owner s)));
      match found with
      | None => throw ("credential `" +:+ cred_Name obj +:+ "` does not exist. Reason: <nil>")
      | Some cred =>
          data ← lift (MarshalIndent obj);
          _ ← in_credentials (engine_Update [("name", CStr (cr_Name cred)); ("ownerId", CInt (owner s))]
                                            (with_cr_Data cred data));
          mret obj
      end
  end.

Definition Delete s (name : string) : GoM db () :=
  _ ← err_if (bool_decide (name = "")) "missing credential name";
  in_credentials (engine_Delete (credential_bean name (owner s))).

Definition ops s : store_ops db Credential := {|
  op_List := List s; op_Get := Get s; op_Create := Create s; op_Update := Update s;
  op_Delete := Delete s; op_UpdateStatus := None
|}.
End methods.
End CredentialXormStore.

(** [getCluster] of machine.go, certificate.go and ssh.go *)
Definition getCluster `{!Planner} (cluster : string) (owner : Z) : GoM db ClusterRow :=
  found ← in_clusters (engine_Get (cluster_bean cluster owner));
  match found with
  | None => throw "cluster not exists"
  | Some r => mret r
  end.

(** ** machine.go *)
Module MachineXormStore.
Record t := Make { cluster : string; owner : Z }.

Section methods.
Context `{!Planner, !Clock, !Json string Machine}.
Implicit Types (s : t).

Definition List s : GoM db (list Machine) :=
  row ← getCluster (cluster s) (owner s);
  machines ← in_machines (engine_Find [("cluster_id", CInt (cl_ID row))]);
  map_each (λ r, lift (Unmarshal (mc_Data r))) machines.

Definition Get s (name : string) : GoM db Machine :=
  _ ← err_if (bool_decide (cluster s = "")) "missing cluster name";
  _ ← err_if (bool_decide (name = "")) "missing machine name";
  row ← getCluster (cluster s) (owner s);
  found ← in_machines (engine_Get (machine_bean name (cl_ID row)));
  match found with
  | None => throw ("credential `" +:+ name +:+ "` already exists")
  | Some r => lift (Unmarshal (mc_Data r))
  end.

Definition Create s (obj : option Machine) : GoM db Machine :=
  _ ← err_if (bool_decide (cluster s = "")) "missing cluster name";
  match obj with
  | None => throw "missing machine"
  | Some obj =>
      _ ← err_if (bool_decide (machine_Name obj = "")) "missing machine name";
      obj ← assign_kind obj;
      row ← getCluster (cluster s) (owner s);
      found ← on_err (λ e, "reason: " +:+ e)
                     (in_machines (engine_Get (machine_bean (machine_Name obj) (cl_ID row))));
      match found with
      | Some _ => throw ("machine `" +:+ machine_Name obj +:+ "` already exists")
      | None =>
          now ← db_now;
          let obj := {| machine_TypeMeta := machine_TypeMeta obj;
                        machine_ObjectMeta := with_CreationTimestamp (machine_ObjectMeta obj) now;
                        machine_Spec := machine_Spec obj; machine_Status := machine_Status obj |} in
          data ← lift (MarshalIndent obj);
          _ ← in_machines (engine_Insert
                {| mc_ID := 0; mc_Name := machine_Name obj; mc_Data := data; mc_ClusterID := cl_ID row |});
          mret obj
      end
  end.

(** [Update] and [UpdateStatus] write the row back under its name and cluster. *)
Definition put s (name : string) (row : ClusterRow) (r : MachineRow) : GoM db () :=
  in_machines (engine_Update [("name", CStr name); ("cluster_id", CInt (cl_ID row))] r).

Definition Update s (obj : option Machine) : GoM db Machine :=
  _ ← err_if (bool_decide (cluster s = "")) "missing cluster name";
  match obj with
  | None => throw "missing machine"
  | Some obj =>
      _ ← err_if (bool_decide (machine_Name obj = "")) "missing machine name";
      row ← getCluster (cluster s) (owner s);
      obj ← assign_kind obj;
      found ← on_err (λ e, "reason: " +:+ e)
                     (in_machines (engine_Get (machine_bean (machine_Name obj) (cl_ID row))));
      match found with
      | None => throw ("machine `" +:+ machine_Name obj +:+ "` not found")
      | Some machine =>
          data ← lift (MarshalIndent obj);
          _ ← put s (machine_Name obj) row (with_mc_Data machine data);
          mret obj
      end
  end.

Definition Delete s (name : string) : GoM db () :=
  _ ← err_if (bool_decide (cluster s = "")) "missing cluster name";
  _ ← err_if (bool_decide (name = "")) "missing machine name";
  row ← getCluster (cluster s) (owner s);
  in_machines (engine_Delete (machine_bean name (cl_ID row))).

Definition UpdateStatus s (obj : option Machine) : GoM db Machine :=
  _ ← err_if (bool_decide (cluster s = "")) "missing cluster name";
  match obj with
  | None => throw "missing machine"
  | Some obj =>
      _ ← err_if (bool_decide (machine_Name obj = "")) "missing machine name";
      row ← getCluster (cluster s) (owner s);
      obj ← assign_kind obj;
      found ← on_err (λ e, "Machine `" +:+ machine_Name obj +:+ "` does not exist. Reason: " +:+ e)
                     (in_machines (engine_Get (machine_bean (machine_Name obj) (cl_ID row))));
      match found with
      | None => throw ("Machine `" +:+ machine_Name obj +:+ "` does not exist")
      | Some machine =>
          existing ← lift (Unmarshal (mc_Data machine));
          let existing := res_set_status existing obj in
          data ← lift (MarshalIndent existing);
          _ ← put s (machine_Name obj) row (with_mc_Data machine data);
          mret existing
      end
  end.

Definition ops s : store_ops db Machine := {|
  op_List := List s; op_Get := Get s; op_Create := Create s; op_Update := Update s;
  op_Delete := Delete s; op_UpdateStatus := Some (UpdateStatus s)
|}.
End methods.
End MachineXormStore.

(** ** machineset.go

    Every method but [Delete] returns nil and no error: [None] is the nil pointer.
    [Delete] hands xorm the store itself, whose fields it may not look at. *)
Module MachineSetXormStore.
Record t := Make { cluster : string }.

Definition List (s : t) : GoM db (list MachineSet) := mret [].
Definition Get (s : t) (name : string) : GoM db (option MachineSet) := mret None.
Definition Create (s : t) (obj : option MachineSet) : GoM db (option MachineSet) := mret None.
Definition Update (s : t) (obj : option MachineSet) : GoM db (option MachineSet) := mret None.
Definition UpdateStatus (s : t) (obj : option MachineSet) : GoM db (option MachineSet) := mret None.

Definition Delete (s : t) (name : string) : GoM db () :=
  _ ← err_if (bool_decide (cluster s = "")) "missing cluster name";
  _ ← err_if (bool_decide (name = "")) "missing node group name";
  panic "reflect.Value.Interface: cannot return value obtained from unexported field or method".
End MachineSetXormStore.

(** ** certificate.go *)
Module CertificateXormStore.
Record t := Make { cluster : string; owner : Z }.

Section methods.
Context `{!Planner, !Clock} {Crt Key AnyKey : Type} `{!PEM string Crt Key AnyKey}.
Implicit Types (s : t).

Definition Get s (name : string) : GoM db (Crt * Key) :=
  _ ← err_if (bool_decide (cluster s = "")) "missing cluster name";
  _ ← err_if (bool_decide (name = "")) "missing certificate name";
  row ← getCluster (cluster s) (owner s);
  found ← on_err (λ e, "reason: " +:+ e)
                 (in_certificates (engine_Get (certificate_bean name (cl_Name row) (cl_ID row))));
  match found with
  | None => throw ("certificate `" +:+ name +:+ "` does not exist")
  | Some certificate =>
      crt ← lift (ParseCertsPEM (ce_Cert certificate));
      key ← lift (ParsePrivateKeyPEM (ce_Key certificate));
      match crt, as_rsa key with
      | crt0 :: _, Some k => mret (crt0, k)
      | [], _ => panic "index out of range [0] with length 0"
      | _, None => panic "interface conversion"
      end
  end.

Definition Create s (name : string) (crt : option Crt) (key : option Key) : GoM db () :=
  _ ← err_if (bool_decide (cluster s = "")) "missing cluster name";
  match crt, key with
  | None, _ => throw "missing certificate"
  | _, None => throw "missing certificate key"
  | Some crt, Some key =>
      row ← getCluster (cluster s) (owner s);
      found ← in_certificates (engine_Get (certificate_bean name (cl_Name row) (cl_ID row)));
      match found with
      | Some _ => throw ("certificate `" +:+ name +:+ "` already exists")
      | None =>
          uid ← db_uuid;
          _ ← db_now;
          in_certificates (engine_Insert
            {| ce_ID := 0; ce_Name := name; ce_ClusterID := cl_ID row; ce_ClusterName := cl_Name row;
               ce_UID := uid; ce_Cert := EncodeCertPEM crt; ce_Key := EncodePrivateKeyPEM key |})
      end
  end.

Definition Delete s (name : string) : GoM db () :=
  _ ← err_if (bool_decide (cluster s = "")) "missing cluster name";
  _ ← err_if (bool_decide (name = "")) "missing certificate name";
  row ← getCluster (cluster s) (owner s);
  in_certificates (engine_Delete (certificate_bean name (cl_Name row) (cl_ID row))).
End methods.
End CertificateXormStore.

(** ** ssh.go *)
Module SSHKeyXormStore.
Record t := Make { cluster : string; owner : Z }.

Section methods.
Context `{!Planner, !Clock}.
Implicit Types (s : t).

Definition Get s (name : string) : GoM db (string * string) :=
  _ ← err_if (bool_decide (cluster s = "")) "missing cluster name";
  _ ← err_if (bool_decide (name = "")) "missing ssh key name";
  row ← getCluster (cluster s) (owner s);
  found ← in_sshkeys (engine_Get (sshkey_bean name (cl_Name row) (cl_ID row)));
  match found with
  | None => throw ("ssh key `" +:+ name +:+ "` for cluster `" +:+ cluster s +:+ "` not found")
  | Some k => mret (sk_PublicKey k, sk_PrivateKey k)
  end.

Definition Create s (name pubKey privKey : string) : GoM db () :=
  _ ← err_if (bool_decide (cluster s = "")) "missing cluster name";
  _ ← err_if (bool_decide (pubKey = "")) "empty ssh public key";
  _ ← err_if (bool_decide (privKey = "")) "empty ssh private key";
  row ← getCluster (cluster s) (owner s);
  found ← in_sshkeys (engine_Get (sshkey_bean name (cl_Name row) (cl_ID row)));
  match found with
  | Some _ => throw ("ssh key `" +:+ name +:+ "` for cluster `" +:+ cluster s +:+ "` already exists")
  | None =>
      uid ← db_uuid;
      _ ← db_now;
      in_sshkeys (engine_Insert
        {| sk_ID := 0; sk_Name := name; sk_ClusterID := cl_ID row; sk_ClusterName := cl_Name row;
           sk_UID := uid; sk_PublicKey := pubKey; sk_PrivateKey := privKey |})
  end.

Definition Delete s (name : string) : GoM db () :=
  _ ← err_if (bool_decide (cluster s = "")) "missing cluster name";
  _ ← err_if (bool_decide (name = "")) "missing ssh key name";
  row ← getCluster (cluster s) (owner s);
  in_sshkeys (engine_Delete (sshkey_bean name (cl_Name row) (cl_ID row))).
End methods.
End SSHKeyXormStore.

(** ** operation.go *)
Module OperationXormStore.
Section methods.
Context `{!Planner}.

Definition Get (id : string) : GoM db Operation :=
  found ← in_operations (engine_Get
            {| op_ID := 0; op_UserID := 0; op_ClusterID := 0; op_Code := id; op_State := OperationDone |});
  match found with
  | None => throw "not found"
  | Some op => mret op
  end.

Definition Update (obj : option Operation) : GoM db Operation :=
  match obj with
  | None => throw "missing operation"
  | Some obj =>
      found ← on_err (λ e, "reason " +:+ e) (in_operations (engine_Get
                {| op_ID := 0; op_UserID := op_UserID obj; op_ClusterID := op_ClusterID obj;
                   op_Code := op_Code obj; op_State := OperationDone |}));
      match found with
      | None => throw ("operation " +:+ op_Code obj +:+ " not found")
      | Some op =>
          let op := with_op_State op (op_State obj) in
          _ ← in_operations (engine_Update [("id", CInt (op_ID op))] op);
          mret obj
      end
  end.
End methods.
End OperationXormStore.

(** ** store.go

    [Machine] makes its store without the owner. *)
Module XormStore.
Record t := Make { owner : Z }.

Definition New : t := Make 0.
Definition Owner (s : t) (id : Z) : t := Make id.
Definition Credentials (s : t) : CredentialXormStore.t := CredentialXormStore.Make (owner s).
Definition Clusters (s : t) : ClusterXormStore.t := ClusterXormStore.Make (owner s).
Definition MachineSet (s : t) (cluster : string) : MachineSetXormStore.t :=
  MachineSetXormStore.Make cluster.
Definition Machine (s : t) (cluster : string) : MachineXormStore.t := MachineXormStore.Make cluster 0.
Definition Certificates (s : t) (cluster : string) : CertificateXormStore.t :=
  CertificateXormStore.Make cluster (owner s).
Definition SSHKeys (s : t) (cluster : string) : SSHKeyXormStore.t :=
  SSHKeyXormStore.Make cluster (owner s).
End XormStore.
