(* ===== verification/XormProofs.v ===== *)
(** * The SQL store keeps its owners apart, mostly

    Whatever one owner asks of the cluster store, the clusters of the others stay
    as they were: where a statement forgets to filter by owner, the UNIQUE index
    on owner and name makes it fail.  The store of no owner, number 0, is not held
    back: it deletes by name alone ([sql_clusters_isolated]). *)
From stdpp Require Import base list gmap strings pretty fin_maps.
From S2P Require Import Prelude GoStrings Api StoreSpec VfsStore Sql Kube XormStore.

#[local] Arguments bool_decide : simpl never.
#[local] Arguments where_ok : simpl never.
#[local] Arguments where_error : simpl never.
#[local] Arguments buildUpdates : simpl never.
#[local] Arguments buildConds : simpl never.
#[local] Arguments find_column : simpl never.

(** Evaluates the conditions of a bean whose fields are known to be zero or not. *)
Ltac sql_conds :=
  cbn;
  repeat match goal with
         | |- context [bool_decide (?a = ?a)] => rewrite (bool_decide_eq_true_2 (a = a) eq_refl)
         | Hne : ?a ≠ ?b |- context [bool_decide (?a = ?b)] => rewrite (bool_decide_eq_false_2 _ Hne)
         end; cbn.

#[export] Instance cluster_entity_laws : EntityLaws ClusterRow.
Proof.
  split; [by intros [] id; cbn; intros ->|].
  intros [] []. unfold buildUpdates. cbn. by repeat case_bool_decide.
Qed.

#[export] Instance credential_entity_laws : EntityLaws CredentialRow.
Proof.
  split; [by intros [] id; cbn; intros ->|].
  intros [] []. unfold buildUpdates. cbn. by repeat case_bool_decide.
Qed.

#[export] Instance machine_entity_laws : EntityLaws MachineRow.
Proof.
  split; [by intros [] id; cbn; intros ->|].
  intros [] []. unfold buildUpdates. cbn. by repeat case_bool_decide.
Qed.

#[export] Instance certificate_entity_laws : EntityLaws CertificateRow.
Proof.
  split; [by intros [] id; cbn; intros ->|].
  intros [] []. unfold buildUpdates. cbn. by repeat case_bool_decide.
Qed.

(** ** The conditions on clusters *)
Lemma cluster_conds n o r :
  o ≠ 0%Z → n ≠ "" →
  buildConds (cluster_bean n o) r = true ↔ cl_OwnerID r = o ∧ cl_Name r = n.
Proof.
  intros Ho Hn. unfold buildConds. sql_conds.
  rewrite ?andb_true_r, andb_true_iff, !bool_decide_eq_true. naive_solver.
Qed.

(** The store of no owner looks for the name alone. *)
Lemma cluster_conds_any n r :
  n ≠ "" → buildConds (cluster_bean n 0) r = true ↔ cl_Name r = n.
Proof.
  intros Hn. unfold buildConds. sql_conds.
  by rewrite ?andb_true_r, !bool_decide_eq_true, (inj_iff CStr).
Qed.

Lemma cluster_has_conds n o : n ≠ "" → has_conds (cluster_bean n o) = true.
Proof.
  intros Hn. unfold has_conds. sql_conds. by destruct (negb _).
Qed.

Lemma cluster_where_name n (r : ClusterRow) :
  where_ok [("name", CStr n)] r = bool_decide (cl_Name r = n).
Proof.
  unfold where_ok. cbn [forallb fst snd].
  replace (find_column (R := ClusterRow) "name") with (nth_error (columns (R := ClusterRow)) 3)
    by (vm_compute; reflexivity).
  cbn. rewrite andb_true_r. apply bool_decide_ext. naive_solver.
Qed.

Lemma cluster_where_name_owner n o (r : ClusterRow) :
  where_ok [("name", CStr n); ("owner_id", CInt o)] r =
    bool_decide (cl_Name r = n) && bool_decide (cl_OwnerID r = o).
Proof.
  unfold where_ok. cbn [forallb fst snd].
  replace (find_column (R := ClusterRow) "name") with (nth_error (columns (R := ClusterRow)) 3)
    by (vm_compute; reflexivity).
  replace (find_column (R := ClusterRow) "owner_id") with (nth_error (columns (R := ClusterRow)) 2)
    by (vm_compute; reflexivity).
  cbn. rewrite andb_true_r. f_equal; apply bool_decide_ext; naive_solver.
Qed.

Lemma cluster_where_owner o (r : ClusterRow) :
  where_ok [("owner_id", CInt o)] r = bool_decide (cl_OwnerID r = o).
Proof.
  unfold where_ok. cbn [forallb fst snd].
  replace (find_column (R := ClusterRow) "owner_id") with (nth_error (columns (R := ClusterRow)) 2)
    by (vm_compute; reflexivity).
  cbn. rewrite andb_true_r. apply bool_decide_ext. naive_solver.
Qed.

Lemma cluster_conflict (r1 r2 : ClusterRow) :
  conflict r1 r2 = true ↔
  cl_ID r1 = cl_ID r2 ∨ cl_UUID r1 = cl_UUID r2 ∨
  (cl_OwnerID r1 = cl_OwnerID r2 ∧ cl_Name r1 = cl_Name r2).
Proof.
  unfold conflict. cbn [existsb uniques cluster_entity].
  assert (Hu : ∀ r : ClusterRow, unique_key ["uuid"] r = [CStr (cl_UUID r)]) by (intros []; vm_compute; reflexivity).
  assert (Ho : ∀ r : ClusterRow,
    unique_key ["owner_id"; "name"] r = [CInt (cl_OwnerID r); CStr (cl_Name r)])
    by (intros []; vm_compute; reflexivity).
  rewrite !Hu, !Ho, orb_false_r, !orb_true_iff, !bool_decide_eq_true.
  change (row_id r1) with (cl_ID r1). change (row_id r2) with (cl_ID r2). split.
  - intros [?|[[= ?]|[= ??]]]; auto.
  - intros [?|[->|[-> ->]]]; auto.
Qed.

(** What an update makes of a row: the number, the private flag and what is empty
    in the bean stay. *)
Lemma cluster_updates b r :
  cl_OwnerID b ≠ 0%Z → cl_Name b ≠ "" →
  buildUpdates b r =
    {| cl_ID := cl_ID r; cl_UUID := if decide (cl_UUID b = "") then cl_UUID r else cl_UUID b;
       cl_OwnerID := cl_OwnerID b; cl_Name := cl_Name b; cl_Data := cl_Data b;
       cl_IsPrivate := cl_IsPrivate r |}.
Proof.
  destruct b, r. cbn. intros Ho Hn. unfold buildUpdates. sql_conds.
  case_bool_decide; case_decide; done.
Qed.

(** ** Running a program up to a statement *)
Section steps.
Context {S A : Type} (R : relation S).

Lemma after_lift {B} (r : outcome B) (k : B → GoM S A) s :
  (∀ b, r = Ok b → R s (k b s).2) → R s s → R s ((x ← lift r; k x) s).2.
Proof. unfold mbind, gom_bind, lift. destruct r; auto. Qed.

Lemma after_err_if b e (k : GoM S A) s :
  (b = false → R s (k s).2) → R s s → R s ((_ ← err_if b e; k) s).2.
Proof. destruct b; auto. Qed.

Lemma after_mret (m : GoM S ()) (a : A) s : R s (m s).2 → R s ((_ ← m; mret a) s).2.
Proof. unfold mbind, gom_bind. by destruct (m s) as [[]]. Qed.
End steps.

Section clusters.
Context `{!Planner, !PlannerLaws, !Clock, !Json string Cluster}.
Implicit Types (d : db) (o p : Z).

Lemma after_Get {A} (R : relation db) f bean (k : option ClusterRow → GoM db A) d :
  (∀ r, r ∈ rows (db_clusters d) → buildConds bean r = true → R d (k (Some r) d).2) →
  R d (k None d).2 →
  R d ((found ← on_err f (in_clusters (engine_Get bean)); k found) d).2.
Proof.
  intros Hs Hn. assert (Hd : in_clusters (engine_Get bean) d = ((engine_Get bean (db_clusters d)).1, d))
    by (unfold in_clusters, zoom; cbn; by destruct d).
  unfold mbind, gom_bind, on_err. rewrite Hd.
  destruct (engine_Get bean (db_clusters d)).1 as [[r|]|e|w] eqn:Hg; [|done..].
  by destruct (Get_found _ _ _ Hg); auto.
Qed.

Lemma in_clusters_table {A} (m : GoM (table ClusterRow) A) d :
  db_clusters (in_clusters m d).2 = (m (db_clusters d)).2.
Proof. unfold in_clusters, zoom. by destruct (m _). Qed.

(** What an owner has. *)
Definition owned p d : list ClusterRow :=
  List.filter (λ r, bool_decide (cl_OwnerID r = p)) (rows (db_clusters d)).

Definition kept p d d' : Prop :=
  owned p d' = owned p d ∧ (table_ok (db_clusters d) → table_ok (db_clusters d')).

#[export] Instance kept_preorder p : PreOrder (kept p).
Proof. split; [done|]. intros d1 d2 d3 [E1 ?] [E2 ?]. split; [by rewrite E2|auto]. Qed.

Lemma filter_map_same {A} (f : A → bool) (g : A → A) (l : list A) :
  (∀ x, x ∈ l → g x = x ∨ (f x = false ∧ f (g x) = false)) →
  List.filter f (g <$> l) = List.filter f l.
Proof.
  induction l as [|x l IH]; [done|]. intros Hg. cbn [fmap list_fmap List.filter].
  rewrite IH by (intros; apply Hg; by right).
  destruct (Hg x ltac:(left)) as [-> | [-> ->]]; done.
Qed.

(** An update without the owner in its conditions: it changes the owner's row, or it
    would give two owners' rows the same owner and name and fails. *)
Lemma update_by_name o p n (r b : ClusterRow) d :
  o ≠ 0%Z → o ≠ p → n ≠ "" → r ∈ rows (db_clusters d) → cl_OwnerID r = o → cl_Name r = n →
  cl_OwnerID b = o → cl_Name b = n →
  kept p d (in_clusters (engine_Update [("name", CStr n)] b) d).2.
Proof.
  intros Ho Hp Hn Hr Hro Hrn Hbo Hbn. unfold kept, owned.
  rewrite in_clusters_table. split; [|by apply Update_ok].
  destruct (engine_Update _ b (db_clusters d)) as [out t] eqn:Hu. unfold engine_Update in Hu.
  destruct (negb _); [by simplify_eq|]. destruct (where_error _); [by simplify_eq|].
  destruct (distinct (_ <$> _)) eqn:Hd; [|by simplify_eq]. injection Hu as <- <-. cbn [rows snd].
  apply filter_map_same. intros x Hx. rewrite cluster_where_name.
  case_bool_decide as Hxn; [right|by left].
  rewrite cluster_updates by congruence. cbn. rewrite (bool_decide_eq_false_2 (cl_OwnerID b = p)) by congruence.
  split; [|done]. apply bool_decide_eq_false. intros Hxp. subst p.
  apply list_elem_of_lookup in Hr as [i Hi], Hx as [j Hj].
  rewrite distinct_lookup in Hd.
  assert (i ≠ j) as Hij by (intros ->; congruence).
  assert (Hg : ∀ k y, rows (db_clusters d) !! k = Some y → cl_Name y = n →
    ((λ r, if where_ok [("name", CStr n)] r then buildUpdates b r else r) <$> rows (db_clusters d)) !! k =
      Some (buildUpdates b y)).
  { intros k y Hk Hy. rewrite list_lookup_fmap, Hk. cbn.
    by rewrite cluster_where_name, bool_decide_eq_true_2. }
  specialize (Hd i j _ _ (Hg i r Hi Hrn) (Hg j x Hj Hxn) Hij).
  apply not_true_iff_false in Hd. apply Hd.
  rewrite cluster_conflict, !cluster_updates by congruence. cbn. auto.
Qed.

Lemma update_by_name_owner o p n b d :
  o ≠ p → cl_OwnerID b = o → o ≠ 0%Z → n ≠ "" → cl_Name b = n →
  kept p d (in_clusters (engine_Update [("name", CStr n); ("owner_id", CInt o)] b) d).2.
Proof.
  intros Hp Hbo Ho Hn Hbn. unfold kept, owned. rewrite in_clusters_table. split; [|by apply Update_ok].
  unfold engine_Update. destruct (negb _); [done|]. destruct (where_error _); [done|].
  destruct (distinct (_ <$> _)); [|done]. cbn [rows snd].
  apply filter_map_same. intros x Hx. rewrite cluster_where_name_owner.
  destruct (_ && _) eqn:Hc; [right|by left].
  apply andb_true_iff in Hc as [_ Hc%bool_decide_eq_true].
  rewrite cluster_updates by congruence. cbn.
  split; apply bool_decide_eq_false; congruence.
Qed.

Lemma insert_kept p d b :
  cl_OwnerID b ≠ p → cl_ID b = 0%Z → kept p d (in_clusters (engine_Insert b) d).2.
Proof.
  intros Hp Hb. unfold kept, owned. rewrite in_clusters_table. split; [|by intros; apply Insert_ok].
  unfold engine_Insert. destruct (existsb _ _); [done|]. cbn [rows snd].
  rewrite List.filter_app. cbn [List.filter]. rewrite bool_decide_eq_false_2, app_nil_r; [done|].
  destruct b. cbn in *. by subst.
Qed.

Lemma delete_kept o p n d :
  o ≠ 0%Z → o ≠ p → n ≠ "" → kept p d (in_clusters (engine_Delete (cluster_bean n o)) d).2.
Proof.
  intros Ho Hp Hn. unfold kept, owned. rewrite in_clusters_table. split; [|by apply Delete_ok].
  unfold engine_Delete. rewrite cluster_has_conds by done. cbn [negb rows snd].
  induction (rows (db_clusters d)) as [|r l IH]; [done|]. cbn [List.filter].
  destruct (buildConds (cluster_bean n o) r) eqn:Hc; cbn [negb List.filter]; rewrite IH; [|done].
  apply cluster_conds in Hc as [Hc _]; [|done..]. by rewrite bool_decide_eq_false_2 by congruence.
Qed.

Lemma draw_kept {A} p (f : nat → outcome A) d : kept p d (draw_db f d).2.
Proof. by split. Qed.

(** ** Reading *)
Lemma Get_pres bean : pres eq (in_clusters (engine_Get bean)).
Proof. intros d. unfold in_clusters, zoom. cbn. by destruct d. Qed.

Lemma Find_pres conds : pres eq (in_clusters (engine_Find (R := ClusterRow) conds)).
Proof. intros d. unfold in_clusters, zoom, engine_Find. destruct (where_error conds); by destruct d. Qed.

Lemma map_each_pres {S A B} (f : A → GoM S B) l : (∀ a, pres eq (f a)) → pres eq (map_each f l).
Proof.
  intros Hf. induction l as [|a l IH]; [apply pres_ret; exact _|]. cbn [map_each].
  apply pres_bind; [exact _|done|]. intros b. apply pres_bind; [exact _|done|].
  intros bs. apply pres_ret; exact _.
Qed.

Hint Resolve Get_pres Find_pres : pres.

Lemma Get_reads s n d : (ClusterXormStore.Get s n d).2 = d.
Proof.
  symmetry. revert d. change (pres eq (ClusterXormStore.Get s n)).
  unfold ClusterXormStore.Get. pres_tac.
Qed.

Lemma List_reads s d : (ClusterXormStore.List s d).2 = d.
Proof.
  symmetry. revert d. change (pres eq (ClusterXormStore.List s)).
  unfold ClusterXormStore.List. pres_tac. apply map_each_pres. intros. pres_tac.
Qed.

(** ** One call *)
Inductive cluster_call :=
  | CallRequest (r : request Cluster)
  | CallUpdateUUID (obj : option Cluster) (uuid : string).

Definition run_cluster_call (c : Z * cluster_call) : GoM db (option (response Cluster)) :=
  let s := XormStore.Clusters (XormStore.Owner XormStore.New c.1) in
  match c.2 with
  | CallRequest r => x ← run (ClusterXormStore.ops s) r; mret (Some x)
  | CallUpdateUUID obj uuid => x ← ClusterXormStore.UpdateUUID s obj uuid; mret (Some (Obj x))
  end.

Lemma after_result {A B} (R : relation db) (m : GoM db A) (f : A → B) d :
  R d (m d).2 → R d ((x ← m; mret (f x)) d).2.
Proof. unfold mbind, gom_bind. by destruct (m d) as [[]]. Qed.

Section call.
Context (o p : Z) (Ho : o ≠ 0%Z) (Hp : o ≠ p).
Let s := ClusterXormStore.Make o.

Lemma res_name_assign (c : Cluster) : cluster_Name (res_assign c) = cluster_Name c.
Proof. done. Qed.

(** A method that finds the owner's row first. *)
Lemma found_kept f (obj : Cluster) (k : option ClusterRow → GoM db Cluster) d :
  cluster_Name obj ≠ "" →
  (∀ r, r ∈ rows (db_clusters d) → cl_OwnerID r = o → cl_Name r = cluster_Name obj →
     kept p d (k (Some r) d).2) →
  kept p d (k None d).2 →
  kept p d ((found ← on_err f (in_clusters (engine_Get (cluster_bean (cluster_Name obj) o))); k found) d).2.
Proof.
  intros Hn Hs Hnone. apply after_Get; [|done].
  intros r Hr [Hro Hrn]%cluster_conds; auto.
Qed.

Lemma named_kept (obj : option Cluster) (k : Cluster → GoM db Cluster) d :
  (∀ c, cluster_Name c ≠ "" → kept p d (k c d).2) →
  kept p d (match obj with
            | None => throw "missing cluster"
            | Some obj => _ ← err_if (bool_decide (cluster_Name obj = "")) "missing cluster name";
                          obj ← assign_kind obj; k obj
            end d).2.
Proof.
  intros Hk. destruct obj as [c|]; [|done].
  apply after_err_if; [|done]. intros Hn%bool_decide_eq_false.
  rewrite (bind_ok _ _ _ _ _ (assign_kind_ok c d)). apply Hk. by rewrite res_name_assign.
Qed.

Lemma Create_kept obj d : kept p d (ClusterXormStore.Create s obj d).2.
Proof.
  apply named_kept. intros c Hn. apply found_kept; [done|done|].
  unfold mbind at 1, gom_bind at 1. cbn [db_now draw_db].
  etrans; [apply (draw_kept p (λ n, Ok (time_now n)))|].
  apply after_lift; [|done]. intros data _. apply after_mret, insert_kept; [|done]. by cbn.
Qed.

Lemma Update_kept obj d : kept p d (ClusterXormStore.Update s obj d).2.
Proof.
  apply named_kept. intros c Hn. apply found_kept; [done| |done].
  intros r Hr Hro Hrn. apply after_lift; [|done]. intros data _. apply after_mret.
  by apply (update_by_name o p _ r).
Qed.

Lemma UpdateStatus_kept obj d : kept p d (ClusterXormStore.UpdateStatus s obj d).2.
Proof.
  apply named_kept. intros c Hn. apply found_kept; [done| |done].
  intros r Hr Hro Hrn. apply after_lift; [|done]. intros ex _.
  apply after_lift; [|done]. intros data _. apply after_mret.
  by apply update_by_name_owner.
Qed.

Lemma UpdateUUID_kept obj uuid d : kept p d (ClusterXormStore.UpdateUUID s obj uuid d).2.
Proof.
  apply named_kept. intros c Hn. apply found_kept; [done| |done].
  intros r Hr Hro Hrn. apply after_mret. by apply (update_by_name o p _ r).
Qed.

Lemma call_kept c d : kept p d (run_cluster_call (o, c) d).2.
Proof.
  unfold run_cluster_call. destruct c as [[|n|obj|obj|n|obj]|obj uuid]; cbn [fst snd run];
    apply after_result; try apply after_result.
  - change (kept p d (ClusterXormStore.List s d).2). by rewrite List_reads.
  - change (kept p d (ClusterXormStore.Get s n d).2). by rewrite Get_reads.
  - apply Create_kept.
  - apply Update_kept.
  - change (kept p d (ClusterXormStore.Delete s n d).2).
    unfold ClusterXormStore.Delete.
    apply after_err_if; [|done]. intros Hn%bool_decide_eq_false. by apply delete_kept.
  - apply (after_result (kept p) _ Obj), UpdateStatus_kept.
  - apply UpdateUUID_kept.
Qed.
End call.

Lemma Get_owned p n d :
  p ≠ 0%Z → p ≠ by_number → n ≠ "" → table_ok (db_clusters d) →
  (ClusterXormStore.Get (ClusterXormStore.Make p) n d).1 =
    match List.find (λ r, bool_decide (cl_Name r = n)) (owned p d) with
    | Some r => Unmarshal (cl_Data r)
    | None => Err ("cluster `" +:+ n +:+ "` does not exists")
    end.
Proof.
  intros Hp Hp1 Hn [Hd _]. unfold ClusterXormStore.Get.
  rewrite err_if_false by by apply bool_decide_eq_false.
  cbn [ClusterXormStore.owner]. rewrite (bool_decide_eq_false_2 _ Hp1).
  unfold mbind at 1 2, gom_bind at 1 2. cbn [mret gom_ret].
  assert (Hs : in_clusters (engine_Get (cluster_bean n p)) d =
               (Ok (List.find (λ r, bool_decide (cl_Name r = n)) (owned p d)), d)).
  { unfold in_clusters, zoom. destruct (List.find _ (owned p d)) as [r|] eqn:Hf.
    - apply find_some in Hf as [Hin Hrn%bool_decide_eq_true].
      unfold owned in Hin. apply filter_In in Hin as [Hin%list_elem_of_In Hro%bool_decide_eq_true].
      rewrite (Get_only _ r); [by destruct d|done|by apply cluster_conds|].
      intros r' Hin' [Hro' Hrn']%cluster_conds; [|done..].
      apply (distinct_inj (rows (db_clusters d))); [done..|].
      apply cluster_conflict. right; right. split; congruence.
    - assert (Hm : (engine_Get (cluster_bean n p) (db_clusters d)).1 = Ok None).
      { apply Get_missing. intros r Hin. apply not_true_iff_false.
        intros [Hro Hrn]%cluster_conds; [|done..].
        assert (bool_decide (cl_Name r = n) = false) as Hb.
        { apply (find_none _ _ Hf). unfold owned. apply filter_In. split; [by apply list_elem_of_In|].
          by apply bool_decide_eq_true. }
        by apply bool_decide_eq_false in Hb. }
      unfold engine_Get in *. cbn in Hm. simplify_eq. rewrite Hm. by destruct d. }
  unfold on_err. rewrite Hs. by destruct (List.find _ _).
Qed.

(** The store of no owner deletes by name, whoever owns the cluster. *)
Lemma delete_any p n d :
  n ≠ "" →
  let '(r, d') := ClusterXormStore.Delete (ClusterXormStore.Make 0) n d in
  r = Ok () ∧ owned p d' = List.filter (λ r, bool_decide (cl_Name r ≠ n)) (owned p d).
Proof.
  intros Hn. unfold ClusterXormStore.Delete. rewrite err_if_false by by apply bool_decide_eq_false.
  cbn [ClusterXormStore.owner].
  unfold in_clusters, zoom, engine_Delete. rewrite cluster_has_conds by done. cbn [negb]. split; [done|].
  unfold owned. cbn [db_clusters rows].
  induction (rows (db_clusters d)) as [|r l IH]; [done|]. cbn [List.filter].
  pose proof (cluster_conds_any n r Hn) as Hc.
  destruct (buildConds (cluster_bean n 0) r); cbn [negb List.filter]; destruct (bool_decide (cl_OwnerID r = p));
    cbn [List.filter]; rewrite IH; try done.
  - by rewrite bool_decide_eq_false_2 by (intros Hne; by apply Hne, Hc).
  - by rewrite bool_decide_eq_true_2 by (intros He; by apply Hc in He).
Qed.

(** [C18] Whatever other owners with a number of their own ask for, in whatever order, the
    clusters of an owner stay as they are, row by row, and looking one up gives the
    answer it gave before.  The store of no owner, number 0, which the command line
    opens, is none of those: the clusters it is told to delete it deletes for every
    owner, and the others of that owner stay. *)
Theorem sql_clusters_isolated p calls d :
  p ≠ 0%Z → p ≠ by_number → table_ok (db_clusters d) →
  Forall (λ c, c.1 ≠ 0%Z ∧ c.1 ≠ p) calls →
  let d' := (trace run_cluster_call calls d).2 in
  owned p d' = owned p d ∧
  ∀ n, n ≠ "" →
    (ClusterXormStore.Get (ClusterXormStore.Make p) n d').1 =
    (ClusterXormStore.Get (ClusterXormStore.Make p) n d).1 ∧
    let '(r, d0) := ClusterXormStore.Delete (ClusterXormStore.Make 0) n d in
    r = Ok () ∧ owned p d0 = List.filter (λ r, bool_decide (cl_Name r ≠ n)) (owned p d).
Proof.
  intros Hp Hp1 Hd Hc d'. assert (Hk : kept p d d').
  { subst d'. clear Hd. revert d. induction Hc as [|[o c] calls [Ho Hop] Hc IH]; intros d; [done|].
    cbn [trace]. pose proof (call_kept o p Ho Hop c d) as H1'.
    destruct (run_cluster_call (o, c) d) as [a d1]. specialize (IH d1).
    destruct (trace _ calls d1). cbn in *. by etrans. }
  destruct Hk as [Hk Ht]. split; [done|]. intros n Hn. split; [|by apply delete_any].
  rewrite !Get_owned by auto. by rewrite Hk.
Qed.






Context (encodes : ∀ c : Cluster, ∃ data, MarshalIndent (D := string) c = Ok data).

End clusters.
