(* ===== verification/XormRest.v ===== *)
(** * The rest of the SQL store: operations, credentials, machines, certificates

    Finishing an operation is never recorded, credentials cannot be listed or
    updated, machines are looked up without their owner; certificates have the
    life cycle they have in the file store, per owner. *)
From stdpp Require Import base list gmap strings pretty fin_maps.
From S2P Require Import Prelude GoStrings Api StoreSpec VfsStore KeyStores Sql Kube XormStore.
From S2P Require Import XormProofs.

#[local] Arguments bool_decide : simpl never.
#[local] Arguments where_ok : simpl never.
#[local] Arguments where_error : simpl never.
#[local] Arguments buildUpdates : simpl never.
#[local] Arguments buildConds : simpl never.
#[local] Arguments find_column : simpl never.

#[export] Instance operation_entity_laws : EntityLaws Operation.
Proof.
  split; [by intros [] id; cbn; intros ->|].
  intros [] []. unfold buildUpdates. cbn. by repeat case_bool_decide.
Qed.

Section rest.
Context `{!Planner, !PlannerLaws, !Clock}.
Implicit Types (d : db) (o p : Z).

(** ** Operations *)
Definition op_bean (op : Operation) : Operation :=
  {| op_ID := 0; op_UserID := op_UserID op; op_ClusterID := op_ClusterID op;
     op_Code := op_Code op; op_State := OperationDone |}.

(** An operation belongs to a user and a cluster and has a code. *)
Definition proper (op : Operation) : Prop :=
  op_ID op ≠ 0%Z ∧ op_UserID op ≠ 0%Z ∧ op_ClusterID op ≠ 0%Z ∧ op_Code op ≠ "".

Lemma operation_conds op r :
  proper op →
  buildConds (op_bean op) r = true ↔
  op_UserID r = op_UserID op ∧ op_ClusterID r = op_ClusterID op ∧ op_Code r = op_Code op.
Proof.
  intros (_ & Hu & Hc & Hk). unfold buildConds. sql_conds.
  by rewrite ?andb_true_r, !andb_true_iff, !bool_decide_eq_true, !(inj_iff CInt), (inj_iff CStr).
Qed.

Lemma operation_conflict (r1 r2 : Operation) :
  op_UserID r1 = op_UserID r2 → op_ClusterID r1 = op_ClusterID r2 → op_Code r1 = op_Code r2 →
  conflict r1 r2 = true.
Proof.
  intros Hu Hc Hk. unfold conflict. cbn [existsb uniques operation_entity].
  assert (Ho : ∀ r : Operation, unique_key ["user_id"; "cluster_id"; "code"] r =
    [CInt (op_UserID r); CInt (op_ClusterID r); CStr (op_Code r)]) by (intros []; vm_compute; reflexivity).
  by rewrite !Ho, Hu, Hc, Hk, (bool_decide_eq_true_2 (_ :: _ = _)), orb_true_r by done.
Qed.

Lemma operation_where id (r : Operation) :
  where_ok [("id", CInt id)] r = bool_decide (op_ID r = id).
Proof.
  unfold where_ok. cbn [forallb fst snd].
  replace (find_column (R := Operation) "id") with (nth_error (columns (R := Operation)) 0)
    by (vm_compute; reflexivity).
  cbn. rewrite andb_true_r. apply bool_decide_ext. naive_solver.
Qed.

(** What is written of a state: all but [OperationDone], which is 0. *)
Definition written (st old : OperationState) : OperationState :=
  if decide (st = OperationDone) then old else st.

Lemma operation_updates op st :
  proper op → buildUpdates (with_op_State op st) op = with_op_State op (written st (op_State op)).
Proof.
  destruct op as [id u c k s]. intros (Hid & Hu & Hc & Hk). cbn in *.
  unfold buildUpdates, written. sql_conds. by destruct st.
Qed.

(** The row [op] with the state that is written. *)
Definition record_state (op : Operation) (st : OperationState) (r : Operation) : Operation :=
  if decide (r = op) then with_op_State op (written st (op_State op)) else r.

Lemma record_state_key op st r :
  unique_key ["user_id"; "cluster_id"; "code"] (record_state op st r) =
    unique_key ["user_id"; "cluster_id"; "code"] r ∧ row_id (record_state op st r) = row_id r.
Proof. unfold record_state. case_decide; [|done]. by subst r; destruct op. Qed.

Lemma distinct_record_state op st l : distinct l = true → distinct (record_state op st <$> l) = true.
Proof.
  rewrite !distinct_lookup. intros Hd i j r1 r2. rewrite !list_lookup_fmap.
  intros (x1 & Hx1 & ->)%fmap_Some (x2 & Hx2 & ->)%fmap_Some Hij.
  specialize (Hd i j x1 x2 Hx1 Hx2 Hij). unfold conflict in *. cbn [existsb uniques operation_entity] in *.
  destruct (record_state_key op st x1) as [-> ->]. by destruct (record_state_key op st x2) as [-> ->].
Qed.

Lemma operation_Get t op :
  distinct (rows t) = true → op ∈ rows t → proper op → engine_Get (op_bean op) t = (Ok (Some op), t).
Proof.
  intros Hd Hin Hp. apply Get_only; [done|by apply operation_conds|].
  intros r Hr (?&?&?)%operation_conds; [|done].
  apply (distinct_inj (rows t)); [done..|]. by apply operation_conflict.
Qed.

Lemma operation_Update t op st :
  distinct (rows t) = true → op ∈ rows t → proper op →
  engine_Update [("id", CInt (op_ID op))] (with_op_State op st) t =
    (Ok (), Table (record_state op st <$> rows t) (serial t)).
Proof.
  intros Hd Hin Hp. unfold engine_Update.
  assert (Hu : has_updates (with_op_State op st) = true).
  { destruct Hp as (_ & Hu & _). unfold has_updates. destruct op. cbn in *. sql_conds. by rewrite ?orb_true_r. }
  rewrite Hu. cbn [negb].
  replace (where_error (R := Operation) [("id", CInt (op_ID op))]) with (@None string) by (vm_compute; reflexivity).
  assert (Hmap : (λ r, if where_ok [("id", CInt (op_ID op))] r
                       then buildUpdates (with_op_State op st) r else r) <$> rows t =
                 record_state op st <$> rows t).
  { apply list_fmap_ext. intros i r Hi%list_elem_of_lookup_2. unfold record_state. rewrite operation_where.
    case_bool_decide as Hid; case_decide as Hop; try done.
    - subst r. by apply operation_updates.
    - destruct Hop. apply (distinct_inj (rows t)); [done..|].
      unfold conflict. apply orb_true_iff. left. by apply bool_decide_eq_true.
    - by subst r. }
  by rewrite Hmap, distinct_record_state.
Qed.

Lemma in_operations_ok {A} (m : GoM (table Operation) A) d r t :
  m (db_operations d) = (r, t) →
  in_operations m d = (r, Db (db_clusters d) (db_credentials d) (db_machines d) (db_certificates d)
                            (db_sshkeys d) t (db_tick d)).
Proof. unfold in_operations, zoom. by intros ->. Qed.

Lemma db_same d :
  Db (db_clusters d) (db_credentials d) (db_machines d) (db_certificates d) (db_sshkeys d)
     (db_operations d) (db_tick d) = d.
Proof. by destruct d. Qed.

(** Recording the state of an operation: Pending and Running are written, Done is
    not, although the call reports success: the row keeps the state it had. *)
Theorem operation_update_states d op st :
  table_ok (db_operations d) → op ∈ rows (db_operations d) → proper op →
  ∃ d', OperationXormStore.Update (Some (with_op_State op st)) d = (Ok (with_op_State op st), d') ∧
    rows (db_operations d') = record_state op st <$> rows (db_operations d) ∧
    (st = OperationDone → d' = d).
Proof.
  intros [Hd _] Hin Hp. eexists. split; [|split].
  - unfold OperationXormStore.Update.
    erewrite bind_ok by (apply on_err_ok, in_operations_ok, (operation_Get _ op Hd Hin Hp)).
    rewrite db_same. change (with_op_State op (op_State (with_op_State op st))) with (with_op_State op st).
    erewrite bind_ok by (apply in_operations_ok, (operation_Update _ op st Hd Hin Hp)). reflexivity.
  - done.
  - intros ->. cbn. rewrite (list_fmap_ext (record_state op OperationDone) id).
    + rewrite list_fmap_id. by destruct d as [cl cr mc ce sk [ops n] tick].
    + intros i r _. unfold record_state. case_decide; [|done]. subst r. by destruct op.
Qed.

(** ** Credentials *)
(** The tables have a column [owner_id]; credential.go asks for [ownerId]. *)
Theorem credentials_stuck `{!Json string Credential} o obj d :
  let s := XormStore.Credentials (XormStore.Owner XormStore.New o) in
  (∃ e, CredentialXormStore.List s d = (Err e, d)) ∧
  (CredentialXormStore.Update s obj d).2 = d ∧ is_ok (CredentialXormStore.Update s obj d).1 = false.
Proof.
  intros s.
  assert (He : ∀ n q, ∃ e, where_error (R := CredentialRow) [("name", CStr n); ("ownerId", CInt q)] = Some e)
    by (intros; vm_compute; by eexists).
  split.
  { unfold CredentialXormStore.List. eexists. apply bind_err.
    unfold in_credentials, zoom, engine_Find.
    replace (where_error [("ownerId", CInt _)]) with (Some ("pq: column ownerId does not exist"))
      by (vm_compute; reflexivity). by destruct d. }
  unfold CredentialXormStore.Update. destruct obj as [c|]; [|done].
  destruct (bool_decide (cred_Name c = "")) eqn:Hn; [by rewrite err_if_true|rewrite err_if_false by done].
  rewrite (bind_ok _ _ _ _ _ (assign_kind_ok c d)).
  unfold mbind, gom_bind, in_credentials, zoom, engine_Get.
  destruct (List.find _ _) as [r|]; [|by destruct d].
  unfold lift. destruct (MarshalIndent _) as [data|e|w]; [|by destruct d..].
  unfold engine_Update. destruct (negb _); [by destruct d|].
  change (cr_Name (with_cr_Data r data)) with (cr_Name r).
  destruct (He (cr_Name r) (CredentialXormStore.owner s)) as [e He'].
  rewrite He'. by destruct d.
Qed.

(** ** The cluster of a machine, certificate or key *)
Lemma in_clusters_Get bean d r :
  engine_Get bean (db_clusters d) = (Ok r, db_clusters d) →
  in_clusters (engine_Get bean) d = (Ok r, d).
Proof. unfold in_clusters, zoom. intros ->. by destruct d. Qed.

Lemma getCluster_one cl o r d :
  r ∈ rows (db_clusters d) → buildConds (cluster_bean cl o) r = true →
  (∀ r', r' ∈ rows (db_clusters d) → buildConds (cluster_bean cl o) r' = true → r' = r) →
  getCluster cl o d = (Ok r, d).
Proof.
  intros Hin Hc Hu. unfold getCluster.
  by erewrite bind_ok by by apply in_clusters_Get, (Get_only _ r).
Qed.

Lemma getCluster_owned cl o r d :
  o ≠ 0%Z → cl ≠ "" → table_ok (db_clusters d) → r ∈ rows (db_clusters d) →
  cl_OwnerID r = o → cl_Name r = cl → getCluster cl o d = (Ok r, d).
Proof.
  intros Ho Hn [Hd _] Hin Hro Hrn. apply getCluster_one; [done|by apply cluster_conds|].
  intros r' Hr' [??]%cluster_conds; [|done..].
  apply (distinct_inj (rows (db_clusters d))); [done..|].
  apply cluster_conflict. right; right. split; congruence.
Qed.

Lemma getCluster_none cl o d :
  o ≠ 0%Z → cl ≠ "" → (∀ r, r ∈ rows (db_clusters d) → ¬ (cl_OwnerID r = o ∧ cl_Name r = cl)) →
  getCluster cl o d = (Err "cluster not exists", d).
Proof.
  intros Ho Hn Hno. unfold getCluster. assert (Hg : (engine_Get (cluster_bean cl o) (db_clusters d)).1 = Ok None).
  { apply Get_missing. intros r Hr. apply not_true_iff_false. intros Hc%cluster_conds; [|done..].
    by apply (Hno r). }
  erewrite bind_ok; [|apply in_clusters_Get; unfold engine_Get in *; cbn in Hg; by rewrite Hg]. done.
Qed.

(** ** Machines *)
Lemma machine_conds n id r :
  n ≠ "" → id ≠ 0%Z →
  buildConds (machine_bean n id) r = true ↔ mc_Name r = n ∧ mc_ClusterID r = id.
Proof.
  intros Hn Hid. unfold buildConds. sql_conds.
  by rewrite ?andb_true_r, andb_true_iff, !bool_decide_eq_true, (inj_iff CInt), (inj_iff CStr).
Qed.

Lemma in_machines_Get bean d r :
  engine_Get bean (db_machines d) = (Ok r, db_machines d) →
  in_machines (engine_Get bean) d = (Ok r, d).
Proof. unfold in_machines, zoom. intros ->. by destruct d. Qed.

(** [C20] The store of machines forgets its owner: with a cluster [n] that belongs to [p]
    and is the only one of its name, whoever owns the others, another owner [o] with a
    number reads and deletes the machines of [p], while reading and deleting the
    certificates of [p] both fail and change nothing. *)
Theorem machines_cross_owners `{!Json string Machine}
    {Crt Key AnyKey} `{!PEM string Crt Key AnyKey} o p n r m name obj d :
  let other := XormStore.Owner XormStore.New o in
  o ≠ 0%Z → o ≠ p → n ≠ "" → name ≠ "" → cl_ID r ≠ 0%Z →
  r ∈ rows (db_clusters d) → cl_OwnerID r = p → cl_Name r = n →
  (∀ r', r' ∈ rows (db_clusters d) → cl_Name r' = n → r' = r) →
  m ∈ rows (db_machines d) → mc_Name m = name → mc_ClusterID m = cl_ID r →
  (∀ m', m' ∈ rows (db_machines d) → mc_Name m' = name → mc_ClusterID m' = cl_ID r → m' = m) →
  Unmarshal (mc_Data m) = Ok obj →
  MachineXormStore.Get (XormStore.Machine other n) name d = (Ok obj, d) ∧
  (∃ d', MachineXormStore.Delete (XormStore.Machine other n) name d = (Ok (), d') ∧
         m ∉ rows (db_machines d')) ∧
  (∀ k, k ≠ "" →
     CertificateXormStore.Get (XormStore.Certificates other n) k d =
       (Err "cluster not exists" : outcome (Crt * Key), d) ∧
     CertificateXormStore.Delete (XormStore.Certificates other n) k d = (Err "cluster not exists", d)).
Proof.
  intros other Ho Hop Hn Hname Hid Hr Hro Hrn Hone Hm Hmn Hmc Hmone Hobj.
  assert (Hcl : getCluster n 0 d = (Ok r, d)).
  { apply getCluster_one; [done|by apply cluster_conds_any|].
    intros r' Hr' Hc%cluster_conds_any; [|done]. by apply Hone. }
  assert (Hmc' : buildConds (machine_bean name (cl_ID r)) m = true) by by apply machine_conds.
  split; [|split].
  - unfold MachineXormStore.Get. cbn [XormStore.Machine MachineXormStore.cluster MachineXormStore.owner].
    rewrite !err_if_false by by apply bool_decide_eq_false. rewrite (bind_ok _ _ _ _ _ Hcl).
    erewrite bind_ok; [|apply in_machines_Get, (Get_only _ m); [done..|]].
    + unfold lift. by rewrite Hobj.
    + intros m' Hm' [??]%machine_conds; [|done..]. by apply Hmone.
  - eexists. split.
    + unfold MachineXormStore.Delete. cbn [XormStore.Machine MachineXormStore.cluster MachineXormStore.owner].
      rewrite !err_if_false by by apply bool_decide_eq_false. rewrite (bind_ok _ _ _ _ _ Hcl).
      unfold in_machines, zoom, engine_Delete.
      assert (has_conds (machine_bean name (cl_ID r)) = true) as -> by
        (unfold has_conds; sql_conds; by rewrite ?orb_true_r). reflexivity.
    + cbn. rewrite list_elem_of_In, filter_In. rewrite Hmc'. by intros [_ ?].
  - intros k Hk.
    assert (Hno : getCluster n o d = (Err "cluster not exists", d)).
    { apply getCluster_none; [done..|].
      intros r' Hr' [Hro' Hrn']. apply Hop. rewrite <-Hro', <-Hro. f_equal. by apply Hone. }
    unfold CertificateXormStore.Get, CertificateXormStore.Delete.
    cbn [XormStore.Certificates CertificateXormStore.cluster CertificateXormStore.owner XormStore.owner other XormStore.Owner].
    rewrite !err_if_false by by apply bool_decide_eq_false. split; by apply bind_err.
Qed.

(** ** Certificates *)
Lemma certificate_conds k n id r :
  k ≠ "" → n ≠ "" → id ≠ 0%Z →
  buildConds (certificate_bean k n id) r = true ↔
  ce_Name r = k ∧ ce_ClusterID r = id ∧ ce_ClusterName r = n.
Proof.
  intros Hk Hn Hid. unfold buildConds. sql_conds.
  by rewrite ?andb_true_r, !andb_true_iff, !bool_decide_eq_true, (inj_iff CInt), !(inj_iff CStr).
Qed.

Lemma certificate_has_conds k n id : k ≠ "" → has_conds (certificate_bean k n id) = true.
Proof. intros Hk. unfold has_conds. sql_conds. by rewrite ?orb_true_r. Qed.

Lemma certificate_conflict (r1 r2 : CertificateRow) :
  conflict r1 r2 = true ↔ ce_ID r1 = ce_ID r2 ∨ ce_UID r1 = ce_UID r2.
Proof.
  unfold conflict. cbn [existsb uniques certificate_entity].
  assert (Hu : ∀ r : CertificateRow, unique_key ["uid"] r = [CStr (ce_UID r)])
    by (intros []; vm_compute; reflexivity).
  rewrite !Hu, orb_false_r, !orb_true_iff, !bool_decide_eq_true.
  change (row_id r1) with (ce_ID r1). change (row_id r2) with (ce_ID r2).
  split; [intros [?|[= ?]]; auto|intros [?| ->]; auto].
Qed.

Definition set_certificates (t : table CertificateRow) (tick : nat) d : db :=
  Db (db_clusters d) (db_credentials d) (db_machines d) t (db_sshkeys d) (db_operations d) tick.

Lemma set_certificates_same d : set_certificates (db_certificates d) (db_tick d) d = d.
Proof. by destruct d. Qed.

Lemma in_certificates_at {A} (m : GoM (table CertificateRow) A) r t t' tick d :
  m t = (r, t') →
  in_certificates m (set_certificates t tick d) = (r, set_certificates t' tick d).
Proof. unfold in_certificates, zoom. cbn. by intros ->. Qed.

Section certificates.
Context {Crt Key AnyKey : Type} `{!PEM string Crt Key AnyKey, !PEMLaws string Crt Key AnyKey}.
Context (o : Z) (n k : string) (r : ClusterRow).
Context (Ho : o ≠ 0%Z) (Hn : n ≠ "") (Hk : k ≠ "") (Hid : cl_ID r ≠ 0%Z).
Context (Hro : cl_OwnerID r = o) (Hrn : cl_Name r = n).
Let s := XormStore.Certificates (XormStore.Owner XormStore.New o) n.

(** The certificates of this name and cluster. *)
Definition entry (x : CertificateRow) : bool := buildConds (certificate_bean k n (cl_ID r)) x.

Definition certificate_row (crt : Crt) (key : Key) (uid : string) (id : Z) : CertificateRow :=
  {| ce_ID := id; ce_Name := k; ce_ClusterID := cl_ID r; ce_ClusterName := n;
     ce_UID := uid; ce_Cert := EncodeCertPEM crt; ce_Key := EncodePrivateKeyPEM key |}.

Context (d : db) (Hcl : getCluster n o d = (Ok r, d)).

Lemma getCluster_any t tick :
  getCluster n o (set_certificates t tick d) = (Ok r, set_certificates t tick d).
Proof.
  revert Hcl. unfold getCluster, mbind, gom_bind, in_clusters, zoom. cbn.
  destruct (List.find _ _); [|done]. by intros [= -> _].
Qed.

Lemma sql_cert_Get crt key uid id t tick :
  certificate_row crt key uid id ∈ rows t →
  (∀ x, x ∈ rows t → entry x = true → x = certificate_row crt key uid id) →
  CertificateXormStore.Get s k (set_certificates t tick d) = (Ok (crt, key), set_certificates t tick d).
Proof.
  intros Hin Hu. unfold CertificateXormStore.Get.
  cbn [s XormStore.Certificates CertificateXormStore.cluster CertificateXormStore.owner XormStore.owner XormStore.Owner].
  rewrite !err_if_false by by apply bool_decide_eq_false.
  rewrite (bind_ok _ _ _ _ _ (getCluster_any t tick)), Hrn.
  erewrite bind_ok.
  2:{ apply on_err_ok, in_certificates_at, (Get_only _ (certificate_row crt key uid id)); [done| |done].
      by apply certificate_conds. }
  cbn. unfold mbind, gom_bind, lift. rewrite pem_crt. destruct (pem_key key) as (a & -> & Ha). by rewrite Ha.
Qed.

Lemma no_entry_Get t : (∀ x, x ∈ rows t → entry x = false) →
  engine_Get (certificate_bean k n (cl_ID r)) t = (Ok None, t).
Proof. intros Hno. apply Get_missing in Hno. unfold engine_Get in *. cbn in Hno. by rewrite Hno. Qed.

Lemma sql_cert_Get_missing t tick :
  (∀ x, x ∈ rows t → entry x = false) →
  ∃ e, CertificateXormStore.Get s k (set_certificates t tick d) =
         (Err e : outcome (Crt * Key), set_certificates t tick d).
Proof.
  intros Hno. eexists. unfold CertificateXormStore.Get.
  cbn [s XormStore.Certificates CertificateXormStore.cluster CertificateXormStore.owner XormStore.owner XormStore.Owner].
  rewrite !err_if_false by by apply bool_decide_eq_false.
  rewrite (bind_ok _ _ _ _ _ (getCluster_any t tick)), Hrn.
  by erewrite bind_ok by (apply on_err_ok, in_certificates_at, no_entry_Get, Hno).
Qed.

Lemma sql_cert_Delete t tick :
  CertificateXormStore.Delete s k (set_certificates t tick d) =
    (Ok (), set_certificates (Table (List.filter (λ x, negb (entry x)) (rows t)) (serial t)) tick d).
Proof.
  unfold CertificateXormStore.Delete.
  cbn [s XormStore.Certificates CertificateXormStore.cluster CertificateXormStore.owner XormStore.owner XormStore.Owner].
  rewrite !err_if_false by by apply bool_decide_eq_false.
  rewrite (bind_ok _ _ _ _ _ (getCluster_any t tick)), Hrn.
  apply in_certificates_at. unfold engine_Delete. by rewrite certificate_has_conds.
Qed.

Lemma sql_cert_Create_exists crt key x t tick :
  x ∈ rows t → entry x = true →
  ∃ e, CertificateXormStore.Create s k (Some crt) (Some key) (set_certificates t tick d) =
         (Err e, set_certificates t tick d).
Proof.
  intros Hx He. eexists. unfold CertificateXormStore.Create.
  cbn [s XormStore.Certificates CertificateXormStore.cluster CertificateXormStore.owner XormStore.owner XormStore.Owner].
  rewrite !err_if_false by by apply bool_decide_eq_false.
  rewrite (bind_ok _ _ _ _ _ (getCluster_any t tick)), Hrn.
  destruct ((engine_Get (certificate_bean k n (cl_ID r)) t).1) as [[y|]| |] eqn:Hg; [| |done|done].
  - erewrite bind_ok.
    2:{ apply in_certificates_at. unfold engine_Get in *. cbn in Hg. by rewrite Hg. }
    reflexivity.
  - rewrite Get_missing in Hg. unfold entry in He. by rewrite Hg in He.
Qed.

(** [C21] A certificate of the SQL store that a stored cluster of an owner with a number
    does not have is created, under a fresh identifier, read back, not overwritten and
    deleted; then it is gone, and the table has the rows it had. *)
Theorem sql_cert_lifecycle crt key crt' key' uid :
  table_ok (db_certificates d) → (∀ x, x ∈ rows (db_certificates d) → entry x = false) →
  new_uuid (db_tick d) = Ok uid → (∀ x, x ∈ rows (db_certificates d) → ce_UID x ≠ uid) →
  ∃ d1 d2,
    CertificateXormStore.Create s k (Some crt) (Some key) d = (Ok (), d1) ∧
    CertificateXormStore.Get s k d1 = (Ok (crt, key), d1) ∧
    (∃ e, CertificateXormStore.Create s k (Some crt') (Some key') d1 = (Err e, d1)) ∧
    CertificateXormStore.Delete s k d1 = (Ok (), d2) ∧
    (∃ e, CertificateXormStore.Get s k d2 = (Err e : outcome (Crt * Key), d2)) ∧
    rows (db_certificates d2) = rows (db_certificates d).
Proof.
  intros [Hd Hnum] Hno Huid Hfresh. set (t := db_certificates d). set (id := (serial t + 1)%Z).
  set (row := certificate_row crt key uid id).
  assert (Hc : existsb (conflict row) (rows t) = false).
  { apply existsb_false. intros x Hx. apply not_true_iff_false.
    intros [Hi|Hu]%certificate_conflict; [|by apply (Hfresh x)].
    specialize (Hnum x Hx). change (ce_ID x ≤ serial t)%Z in Hnum.
    change (serial t + 1 = ce_ID x)%Z in Hi. lia. }
  set (t1 := Table (rows t ++ [row]) id).
  assert (He : entry row = true) by by apply certificate_conds.
  assert (Hin : row ∈ rows t1) by by apply elem_of_app; right; left.
  exists (set_certificates t1 (S (S (db_tick d))) d), (set_certificates (Table (rows t) id) (S (S (db_tick d))) d).
  split_and!.
  - unfold CertificateXormStore.Create.
    cbn [s XormStore.Certificates CertificateXormStore.cluster CertificateXormStore.owner XormStore.owner XormStore.Owner].
    rewrite !err_if_false by by apply bool_decide_eq_false.
    rewrite (bind_ok _ _ _ _ _ Hcl), Hrn. rewrite <-(set_certificates_same d) at 1.
    erewrite bind_ok by (apply in_certificates_at, no_entry_Get, Hno).
    cbn iota beta. erewrite bind_ok by (unfold db_uuid, draw_db; cbn; by rewrite Huid).
    erewrite bind_ok by (unfold db_now, draw_db; reflexivity). cbn.
    change (Db _ _ _ _ _ _ _) with (set_certificates t (S (S (db_tick d))) d).
    apply in_certificates_at. unfold engine_Insert.
    change (with_serial _ _) with row. fold id. by rewrite Hc.
  - apply (sql_cert_Get crt key uid id); [done|].
    intros x [Hx|Hx%list_elem_of_singleton]%elem_of_app Hex; [|done]. by rewrite Hno in Hex.
  - by apply (sql_cert_Create_exists _ _ row).
  - rewrite sql_cert_Delete. do 3 f_equal. cbn.
    rewrite List.filter_app. cbn [List.filter]. rewrite He, app_nil_r. cbn.
    clear -Hno. fold t in Hno. induction (rows t) as [|x l IH]; [done|]. cbn [List.filter].
    rewrite Hno by left. cbn. f_equal. apply IH. intros; apply Hno; by right.
  - by apply sql_cert_Get_missing.
  - done.
Qed.
End certificates.
End rest.
