(* ===== verification/StoreFrame.v ===== *)
(** * The cloud package reaches the store through its interface alone

    Whatever relation between two states of a store every one of its operations
    keeps to, and so does the provider, [CreateCluster], [CreateMachineSets],
    [Delete] and [Apply] keep to as well.  What a store promises of its single
    operations (rows of others are not touched, operations keep their state) thus
    holds of whole runs of the cloud package. *)
From stdpp Require Import base list gmap strings pretty fin_maps.
From S2P Require Import Prelude GoStrings Api StoreSpec Provider Certs Kube Cloud Apply.

(** Every operation of a store of objects keeps to [R]. *)
Class OpsRespect {S O} (R : relation S) (ops : store_ops S O) : Prop := {
  respects_List : pres R (op_List ops);
  respects_Get n : pres R (op_Get ops n);
  respects_Create o : pres R (op_Create ops o);
  respects_Update o : pres R (op_Update ops o);
  respects_Delete n : pres R (op_Delete ops n);
  respects_UpdateStatus u o : op_UpdateStatus ops = Some u → pres R (u o)
}.

Class StoreRespects {S Crt Key} (R : relation S) (sp : ResourceInterface S Crt Key) : Prop := {
  respects_Clusters :: OpsRespect R (st_Clusters sp);
  respects_Credentials :: OpsRespect R (st_Credentials sp);
  respects_Machines cl :: OpsRespect R (st_Machines sp cl);
  respects_MachineSets cl :: OpsRespect R (st_MachineSets sp cl);
  respects_UpdateUUID c u : pres R (ri_UpdateUUID sp c u);
  respects_cert_Get cl n : pres R (ri_cert_Get sp cl n);
  respects_cert_Create cl n c k : pres R (ri_cert_Create sp cl n c k);
  respects_ssh_Get cl n : pres R (ri_ssh_Get sp cl n);
  respects_ssh_Create cl n p q : pres R (ri_ssh_Create sp cl n p q)
}.

#[export] Hint Resolve respects_List respects_Get respects_Create respects_Update respects_Delete
  respects_UpdateUUID respects_cert_Get respects_cert_Create respects_ssh_Get respects_ssh_Create
  respects_Clusters respects_Credentials respects_Machines respects_MachineSets : pres.

Lemma pres_PollImmediate {S} (R : relation S) `{!PreOrder R} n (m : GoM S bool) :
  pres R m → pres R (PollImmediate n m).
Proof. intros Hm. induction n; cbn [PollImmediate]; pres_tac. Qed.

Lemma pres_unless_err {S A} (R : relation S) `{!PreOrder R} (m : GoM S A) (k : A → GoM S bool) :
  pres R m → (∀ a, pres R (k a)) → pres R (unless_err m k).
Proof. intros Hm Hk. unfold unless_err. pres_tac. Qed.

Section frame.
Context {S Crt Key SSHKey X KC CC BC : Type}.
Context `{!Crypto Crt Key SSHKey, !CertText Crt Key, !Clock, !TimeText, !Rand, !Polling}.
Context `{!Kubernetes X KC CC BC, !JsonText, !Environment}.
Context (R : relation S) `{!PreOrder R}.
Context (sp : ResourceInterface S Crt Key) `{!StoreRespects R sp}.
Notation env := (env (S := S) (Crt := Crt) (Key := Key) (SSHKey := SSHKey) (X := X) (KC := KC)).
Notation Interface := (Interface (S := S) (Crt := Crt) (Key := Key) (SSHKey := SSHKey) (X := X)
                                 (KC := KC)).

(** [R] on the store of the environment, or of the store with its randomness. *)
Definition on_e (e e' : env) : Prop := R (e_store e) (e_store e').
Definition on_s (s s' : S * nat) : Prop := R s.1 s'.1.

#[export] Instance on_e_preorder : PreOrder on_e.
Proof. split; [intros e; unfold on_e; reflexivity|intros a b c; unfold on_e; apply transitivity]. Qed.
#[export] Instance on_s_preorder : PreOrder on_s.
Proof. split; [intros e; unfold on_s; reflexivity|intros a b c; unfold on_s; apply transitivity]. Qed.

(** Every method of a provider keeps to [R]. *)
Class ProviderRespects (cm : Interface) : Prop := {
  respects_SetDefaultCluster : pres on_e (cm_SetDefaultCluster cm);
  respects_ProviderSpec sku role : pres on_e (cm_GetDefaultMachineProviderSpec cm sku role);
  respects_SetCloudConnector : pres on_e (cm_SetCloudConnector cm);
  respects_PrepareCloud : pres on_e (cm_PrepareCloud cm);
  respects_EnsureMaster m : pres on_e (cm_EnsureMaster cm m);
  respects_ApplyScale : pres on_e (cm_ApplyScale cm);
  respects_ApplyDelete : pres on_e (cm_ApplyDelete cm);
  respects_GetAdminClient : pres on_e (cm_GetAdminClient cm);
  respects_CreateCredentials kc : pres on_e (cm_CreateCredentials cm kc);
  respects_Components : pres on_e (cm_GetClusterAPIComponents cm)
}.

Hint Resolve respects_SetDefaultCluster respects_ProviderSpec respects_SetCloudConnector
  respects_PrepareCloud respects_EnsureMaster respects_ApplyScale respects_ApplyDelete
  respects_GetAdminClient respects_CreateCredentials respects_Components : pres.

Context (providers : string → option Interface).
Context (Hproviders : ∀ p cm, providers p = Some cm → ProviderRespects cm).

(** ** The ways into the environment *)
Lemma store_frame {A} (m : GoM S A) : pres R m → pres on_e (store m : GoM env A).
Proof. intros Hm e. unfold store, zoom, on_e. specialize (Hm (e_store e)). by destruct (m _). Qed.

Lemma store_rand_frame {A} (m : GoM (S * nat) A) : pres on_s m → pres on_e (store_rand m : GoM env A).
Proof.
  intros Hm e. unfold store_rand, zoom, on_e. specialize (Hm (e_store e, e_tick e)).
  destruct (m _) as [? []]. exact Hm.
Qed.

Lemma on_store_frame {A} (m : GoM S A) : pres R m → pres on_s (on_store m).
Proof. intros Hm [s t]. unfold on_store, zoom, on_s. specialize (Hm s). by destruct (m _). Qed.

Lemma draw_frame {A} (f : nat → outcome A) : pres on_s (draw f : GoM (S * nat) A).
Proof. intros s. unfold on_s. reflexivity. Qed.

Lemma on_cloud_frame {A} (m : GoM X A) : pres on_e (on_cloud m : GoM env A).
Proof. intros e. unfold on_cloud, zoom, on_e. destruct (m _). cbn. reflexivity. Qed.

Lemma cloud_rand_frame {A} (m : GoM (X * nat) A) : pres on_e (cloud_rand m : GoM env A).
Proof. intros e. unfold cloud_rand, zoom, on_e. destruct (m _) as [? []]. cbn. reflexivity. Qed.

Lemma draw_env_frame {A} (f : nat → outcome A) : pres on_e (draw_env f : GoM env A).
Proof. intros e. unfold on_e. reflexivity. Qed.

Lemma Now_frame : pres on_e (Now : GoM env Time).
Proof. apply draw_env_frame. Qed.

Lemma modify_frame (f : env → env) : (∀ e, e_store (f e) = e_store e) → pres on_e (modify f).
Proof. intros Hf e. unfold on_e. cbn. rewrite Hf. reflexivity. Qed.

Lemma set_Cluster_frame c : pres on_e (set_Cluster c : GoM env ()).
Proof. by apply modify_frame. Qed.
Lemma set_Certs_frame c : pres on_e (set_Certs c : GoM env ()).
Proof. by apply modify_frame. Qed.
Lemma set_CloudManager_frame n : pres on_e (set_CloudManager n : GoM env ()).
Proof. by apply modify_frame. Qed.
Lemma set_AdminClient_frame kc : pres on_e (set_AdminClient kc : GoM env ()).
Proof. by apply modify_frame. Qed.

Lemma the_cluster_frame : pres on_e (the_cluster : GoM env Cluster).
Proof. intros e. unfold the_cluster, on_e. destruct (sc_Cluster _); cbn; reflexivity. Qed.

Hint Resolve store_frame store_rand_frame on_store_frame draw_frame on_cloud_frame cloud_rand_frame
  draw_env_frame Now_frame set_Cluster_frame set_Certs_frame set_CloudManager_frame
  set_AdminClient_frame the_cluster_frame pres_PollImmediate pres_unless_err : pres.

(** Splits a program of the cloud package into its statements. *)
Ltac frame_step :=
  first
    [ pres_step
    | apply store_frame | apply store_rand_frame | apply on_store_frame
    | apply pres_PollImmediate; [exact _|] | apply pres_unless_err; [exact _| |]
    | by apply modify_frame ].
Ltac frame_tac := repeat frame_step.

(** ** Certificates and clients *)
Lemma CreateCertificates_frame cl n cn : pres on_s (CreateCertificates sp cl n cn).
Proof. unfold CreateCertificates. frame_tac. Qed.
Lemma LoadCACertificates_frame cl n : pres on_s (LoadCACertificates sp cl n).
Proof. unfold LoadCACertificates. frame_tac. Qed.
Lemma LoadSSHKey_frame cl n : pres on_s (LoadSSHKey (SSHKey := SSHKey) sp cl n).
Proof. unfold LoadSSHKey. frame_tac. Qed.
Hint Resolve CreateCertificates_frame LoadCACertificates_frame LoadSSHKey_frame : pres.

Lemma CreateCertsKeys_frame cl : pres on_s (CreateCertsKeys (SSHKey := SSHKey) sp cl).
Proof.
  unfold CreateCertsKeys, CreateCACertificates, CreateFrontProxyCACertificates, CreateSACertificate,
    CreateEtcdCACertificate, CreateSSHKey. frame_tac.
Qed.
Lemma GetPharmerCerts_frame cl : pres on_s (GetPharmerCerts (SSHKey := SSHKey) sp cl).
Proof. unfold GetPharmerCerts. frame_tac. Qed.

Lemma NewRestConfig_frame cl u : pres on_s (NewRestConfig (SSHKey := SSHKey) sp cl u).
Proof. unfold NewRestConfig, CreateAdminCertificate. frame_tac. Qed.
Lemma GetAdminConfig_frame c ca : pres on_s (GetAdminConfig (SSHKey := SSHKey) sp c ca).
Proof. unfold GetAdminConfig, GetAdminCert, CreateAdminCertificate. frame_tac. Qed.
Hint Resolve CreateCertsKeys_frame GetPharmerCerts_frame NewRestConfig_frame GetAdminConfig_frame : pres.

Lemma open_clusterapi_frame : pres on_e (open_clusterapi (SSHKey := SSHKey) sp : GoM env CC).
Proof. unfold open_clusterapi, GetClusterAPIClient. frame_tac. Qed.
Lemma open_bootstrap_frame : pres on_e (open_bootstrap (SSHKey := SSHKey) sp : GoM env BC).
Proof. unfold open_bootstrap, GetBooststrapClient, GetCaCertPair, nil_panic. frame_tac. Qed.
Lemma UpdateStatus_frame : pres on_e (UpdateStatus sp : GoM env ()).
Proof.
  unfold UpdateStatus, nil_panic. apply pres_bind; [exact _|auto with pres|intros c].
  destruct (op_UpdateStatus (st_Clusters sp)) eqn:E; frame_tac.
  by apply (respects_UpdateStatus (ops := st_Clusters sp)).
Qed.
Hint Resolve open_clusterapi_frame open_bootstrap_frame UpdateStatus_frame : pres.

(** ** The manager *)
Lemma GetCloudManager_frame : pres on_e (GetCloudManager sp providers).
Proof. unfold GetCloudManager, make_CloudManager. frame_tac. Qed.
Hint Resolve GetCloudManager_frame : pres.

(** What runs on the manager of the scope may use that it respects [R]. *)
Lemma with_manager {A} (k : Interface → GoM env A) :
  (∀ cm, ProviderRespects cm → pres on_e (k cm)) → pres on_e (GetCloudManager sp providers ≫= k).
Proof.
  intros Hk e. pose proof (GetCloudManager_frame e) as Hg. unfold mbind, gom_bind in *.
  destruct (GetCloudManager _ _ _) as [[cm|x|w] e1] eqn:E; [|exact Hg..].
  cbn in Hg. etrans; [exact Hg|]. apply Hk. unfold GetCloudManager in E.
  apply bind_ok_inv in E as (? & ? & _ & E). apply bind_ok_inv in E as (n & ? & _ & E).
  destruct (providers n) eqn:Hn; [|done]. injection E as <- <-. by apply (Hproviders n).
Qed.

Lemma with_the_manager {A} (k : Interface → GoM env A) :
  (∀ cm, ProviderRespects cm → pres on_e (k cm)) → pres on_e (the_manager providers ≫= k).
Proof.
  intros Hk e. unfold the_manager. rewrite bind_assoc. unfold gets. erewrite bind_ok by reflexivity.
  destruct (sc_CloudManager (e_scope e) ≫= providers) as [cm|] eqn:E; [|unfold on_e; reflexivity].
  apply bind_Some in E as (n & _ & Hn). by apply Hk, (Hproviders n).
Qed.

Ltac manager_tac :=
  repeat first
    [ apply with_manager; intros ?cm ?Hcm
    | apply with_the_manager; intros ?cm ?Hcm
    | frame_step ].

(** ** Creating and deleting *)
Lemma getMasterMachine_frame n : pres on_e (getMasterMachine sp providers n).
Proof. unfold getMasterMachine, assign_kind. manager_tac. Qed.
Lemma getMachineSet_frame sku n : pres on_e (getMachineSet sp providers sku n).
Proof. unfold getMachineSet. manager_tac. Qed.
Hint Resolve getMasterMachine_frame getMachineSet_frame : pres.

Lemma createCluster_frame : pres on_e (createCluster sp providers).
Proof. unfold createCluster. manager_tac. Qed.
Lemma createMasterMachines_frame : pres on_e (createMasterMachines sp providers).
Proof. unfold createMasterMachines. manager_tac. Qed.
Hint Resolve createCluster_frame createMasterMachines_frame : pres.

Lemma CreateCluster_frame : pres on_e (CreateCluster sp providers).
Proof. unfold CreateCluster, setDefaultCluster. manager_tac. Qed.

Lemma CreateMachineSets_frame n l : pres on_e (CreateMachineSets sp providers n l).
Proof. unfold CreateMachineSets. manager_tac. Qed.

Lemma Delete_frame n : pres on_e (Delete sp n : GoM env Cluster).
Proof. unfold Delete. frame_tac. Qed.

(** ** Applying *)
Lemma set_Phase_frame p : pres on_e (set_Phase p : GoM env ()).
Proof. unfold set_Phase. frame_tac. Qed.
Lemma tolerate_frame {A} t f (m : GoM env A) : pres on_e m → pres on_e (tolerate t f m).
Proof. intros Hm. unfold tolerate. frame_tac. Qed.
Lemma log_err_frame (m : GoM env ()) : pres on_e m → pres on_e (log_err m).
Proof. intros Hm. unfold log_err. frame_tac. Qed.
Lemma getLeaderMachine_frame n : pres on_e (getLeaderMachine sp n : GoM env Machine).
Proof. unfold getLeaderMachine. frame_tac. Qed.
Hint Resolve set_Phase_frame tolerate_frame log_err_frame getLeaderMachine_frame : pres.

Lemma NewClusterAPI_frame ns : pres on_e (NewClusterAPI (SSHKey := SSHKey) sp ns : GoM env _).
Proof. unfold NewClusterAPI, nil_panic. frame_tac. Qed.
Lemma CreatePharmerSecret_frame ca : pres on_e (CreatePharmerSecret sp ca : GoM env ()).
Proof. unfold CreatePharmerSecret, the_AdminClient, nil_panic. frame_tac. Qed.
Lemma CreateAPIServerAndController_frame ca t : pres on_e (CreateAPIServerAndController ca t : GoM env ()).
Proof. unfold CreateAPIServerAndController. frame_tac. Qed.
Hint Resolve NewClusterAPI_frame CreatePharmerSecret_frame CreateAPIServerAndController_frame : pres.

Lemma updateProviderStatus_frame ca : pres on_e (updateProviderStatus sp ca : GoM env ()).
Proof. unfold updateProviderStatus. frame_tac. Qed.
Lemma updateMachineStatus_frame ca ns m : pres on_e (updateMachineStatus ca ns m : GoM env ()).
Proof. unfold updateMachineStatus. frame_tac. Qed.
Lemma ApplyCluster_frame bc : pres on_e (ApplyCluster bc : GoM env ()).
Proof. unfold ApplyCluster. frame_tac. Qed.
Hint Resolve updateProviderStatus_frame updateMachineStatus_frame ApplyCluster_frame : pres.

Lemma ClusterAPI_Apply_frame ca t : pres on_e (ClusterAPI_Apply sp ca t : GoM env ()).
Proof.
  unfold ClusterAPI_Apply, CreateMachineController.
  repeat first [apply tolerate_frame | frame_step].
Qed.
Hint Resolve ClusterAPI_Apply_frame : pres.

Lemma applyClusterAPI_frame : pres on_e (applyClusterAPI sp providers).
Proof. unfold applyClusterAPI. manager_tac. Qed.
Lemma setMasterSKU_frame : pres on_e (setMasterSKU sp providers).
Proof. unfold setMasterSKU. manager_tac. Qed.
Hint Resolve applyClusterAPI_frame setMasterSKU_frame : pres.

Lemma ApplyCreate_frame : pres on_e (ApplyCreate sp providers).
Proof. unfold ApplyCreate. manager_tac. Qed.
Lemma ApplyScale_frame : pres on_e (ApplyScale sp providers).
Proof. unfold ApplyScale. manager_tac. Qed.
Lemma retire_machinesets_frame : pres on_e (retire_machinesets sp : GoM env ()).
Proof. unfold retire_machinesets. frame_tac. Qed.
Lemma deleteAllWorkerMachines_frame : pres on_e (deleteAllWorkerMachines (SSHKey := SSHKey) sp : GoM env ()).
Proof.
  unfold deleteAllWorkerMachines, deleteMachineDeployments, deleteMachineSets, deleteMachines.
  repeat first [apply log_err_frame | frame_step].
Qed.
Hint Resolve ApplyCreate_frame ApplyScale_frame retire_machinesets_frame
  deleteAllWorkerMachines_frame : pres.

Lemma ApplyDelete_frame : pres on_e (ApplyDelete sp providers).
Proof. unfold ApplyDelete. manager_tac. Qed.
Hint Resolve ApplyDelete_frame : pres.

Lemma Apply_frame : pres on_e (Apply sp providers).
Proof. unfold Apply. manager_tac. Qed.
End frame.
