(* ===== verification/ApiServer.v ===== *)
(** * The API server of pharmer (apiserver/)

    Three durable NATS subscriptions with manual acknowledgement: [create-cluster],
    [delete-cluster] and [retry-cluster].  A message names an operation; the handler
    looks the operation and its cluster up, runs the cloud package on a new scope
    with the store of the operation's user, and acknowledges the message somewhere
    on the way.  A message that is not acknowledged stays in the queue and is
    delivered again ([deliver]).

    A handler returns nothing: an error is logged and dropped, a panic ends the
    process.  Logging itself is left out, but for the nil pointer [newLogger] may
    follow.  The broker is a service: what [msg.Ack] answers is part of the message
    as it is delivered, and json.Unmarshal of its data is the class [MessageCodec]. *)
From stdpp Require Import base list gmap strings pretty fin_maps.
From S2P Require Import Prelude GoStrings Api StoreSpec Provider Certs Kube Cloud Apply.

(** store/api.go: Interface, whose [Owner] gives the store of one owner. *)
Record StoreInterface (S Crt Key : Type) := {
  si_Owner : Z → ResourceInterface S Crt Key;
  si_Operations_Get : string → GoM S Operation;
  si_Operations_Update : option Operation → GoM S Operation
}.
Arguments si_Owner {_ _ _}. Arguments si_Operations_Get {_ _ _}.
Arguments si_Operations_Update {_ _ _}.

(** options/cluster_options.go; the JSON text [null] makes the pointer nil. *)
Record ClusterOperation := { OperationId : string }.
Class MessageCodec := { unmarshal_operation : string → outcome (option ClusterOperation) }.

(** A message at one delivery. *)
Record Msg := { Data : string; Ack : outcome () }.

Module Apiserver.
Section handlers.
Context {S Crt Key SSHKey X KC CC BC : Type}.
Context `{!Crypto Crt Key SSHKey, !CertText Crt Key, !Clock, !TimeText, !Rand, !Polling}.
Context `{!Kubernetes X KC CC BC, !JsonText, !Environment, !MessageCodec}.
Context (storeProvider : StoreInterface S Crt Key).
Notation env := (env (S := S) (Crt := Crt) (Key := Key) (SSHKey := SSHKey) (X := X) (KC := KC)).
Notation Interface := (Interface (S := S) (Crt := Crt) (Key := Key) (SSHKey := SSHKey) (X := X)
                                 (KC := KC)).
(** The registered providers, on the store of an owner. *)
Context (providers : Z → string → option Interface).

(** What a handler works on: the environment, and whether the message was acknowledged. *)
Record world := World { w_env : env; w_acked : bool }.

Definition in_env {A} (m : GoM env A) : GoM world A := zoom w_env (λ e w, World e (w_acked w)) m.

Definition ack (msg : Msg) : GoM world () :=
  _ ← lift (Ack msg);
  modify (λ w, World (w_env w) true).

(** [if err != nil { log; return }] *)
Definition logged {A} (m : GoM world A) (k : A → GoM world ()) : GoM world () :=
  r ← attempt m;
  match r with
  | inl a => k a
  | inr _ => mret ()
  end.

(** ** util.go *)
Definition Init (msg : Msg) : GoM world Operation :=
  operation ← lift (unmarshal_operation (Data msg));
  match operation with
  | None => panic "invalid memory address or nil pointer dereference"
  | Some operation =>
      _ ← err_if (bool_decide (OperationId operation = "")) "operation ID can't be nil";
      obj ← in_env (store (si_Operations_Get storeProvider (OperationId operation)));
      cluster ← in_env (store (op_Get (st_Clusters (si_Owner storeProvider (-1)))
                                      (pretty (op_ClusterID obj))));
      _ ← in_env (modify (λ e, Env (e_store e) (e_tick e) (e_cloud e) (NewScope cluster)));
      mret obj
  end.

(** With logToNats the logger is named after the operation, which is nil when
    [Init] failed. *)
Definition newLogger (operation : option Operation) (logToNats : bool) : GoM world () :=
  if logToNats then
    match operation with
    | Some _ => mret ()
    | None => panic "invalid memory address or nil pointer dereference"
    end
  else mret ().

(** The head of the three handlers: an error of [Init] is looked at after the
    logger is made. *)
Definition initialised (logToNats : bool) (msg : Msg) (k : Operation → GoM world ()) : GoM world () :=
  r ← attempt (Init msg);
  match r with
  | inl operation => _ ← newLogger (Some operation) logToNats; k operation
  | inr _ => newLogger None logToNats
  end.

(** ** apply.go

    [owner] is the one whose store the scope has. *)
Definition ApplyCluster (owner : Z) (obj : Operation) : GoM env () :=
  _ ← Apply (SSHKey := SSHKey) (si_Owner storeProvider owner) (providers owner);
  _ ← on_err (wrap "failed to update operations in store")
             (store (si_Operations_Update storeProvider (Some (with_op_State obj OperationDone))));
  mret ().

(** ** create.go

    The failure of [cloud.CreateCluster] is logged, and the cluster applied. *)
Definition CreateCluster (logToNats : bool) (msg : Msg) : GoM world () :=
  initialised logToNats msg (λ operation,
    let owner := op_UserID operation in
    if decide (op_State operation = OperationPending) then
      let operation := with_op_State operation OperationRunning in
      logged (in_env (store (si_Operations_Update storeProvider (Some operation)))) (λ operation,
      logged (ack msg) (λ _,
        _ ← attempt (in_env (Cloud.CreateCluster (si_Owner storeProvider owner) (providers owner)));
        _ ← attempt (in_env (ApplyCluster owner operation));
        mret ()))
    else mret ()).

(** ** delete.go *)
Definition DeleteCluster (logToNats : bool) (msg : Msg) : GoM world () :=
  initialised logToNats msg (λ operation,
    let owner := op_UserID operation in
    logged (in_env (scope_cluster ← the_cluster;
                    Cloud.Delete (si_Owner storeProvider owner)
                                 (cluster_Name scope_cluster))) (λ cluster,
    logged (ack msg) (λ _,
    _ ← in_env (set_Cluster cluster);
    logged (in_env (ApplyCluster owner operation)) (λ _, mret ())))).

(** ** retry.go *)
Definition RetryCluster (logToNats : bool) (msg : Msg) : GoM world () :=
  initialised logToNats msg (λ operation,
    let owner := op_UserID operation in
    logged (ack msg) (λ _,
    logged (in_env (ApplyCluster owner operation)) (λ _, mret ()))).

(** ** The queues *)
Inductive subject := Create_cluster | Delete_cluster | Retry_cluster.

Definition handler (s : subject) : bool → Msg → GoM world () :=
  match s with
  | Create_cluster => CreateCluster
  | Delete_cluster => DeleteCluster
  | Retry_cluster => RetryCluster
  end.

Record broker := Broker { b_queue : list (subject * string); b_env : env }.

(** One delivery, of any queued message: it leaves the queue when it was acknowledged.
    (A panic ends the process and is no step.) *)
Inductive deliver (logToNats : bool) : broker → broker → Prop :=
  | Deliver pre s data post answer e e' acked :
      handler s logToNats {| Data := data; Ack := answer |} (World e false) =
        (Ok (), World e' acked) →
      deliver logToNats (Broker (pre ++ (s, data) :: post) e)
              (Broker (if acked then pre ++ post else pre ++ (s, data) :: post) e').
End handlers.
End Apiserver.
