(* ===== verification/ApiServerProofs.v ===== *)
(** * What becomes of a message to the API server

    An operation is created pending; the handlers only ever record it as running
    or done.  So a create message is acted on at its first delivery alone: from then
    on it changes nothing ([create_message_once]), and when the acknowledgement of
    that delivery was lost it stays in the queue for good. *)
From stdpp Require Import base list gmap strings pretty fin_maps.
From S2P Require Import Prelude GoStrings Api StoreSpec Provider Certs Kube Cloud Apply StoreFrame ApiServer.
Import Apiserver.

(** What the handlers rely on: [settled id] says that no operation of code [id] is
    pending, which no other part of the store can change back. *)
Class OperationsLaws {S Crt Key} (st : StoreInterface S Crt Key) (settled : string → S → Prop) : Prop := {
  ops_Get_reads id s : (si_Operations_Get st id s).2 = s;
  ops_settled id s op : settled id s → (si_Operations_Get st id s).1 = Ok op → op_State op ≠ OperationPending;
  ops_Update id s op : op_State op ≠ OperationPending → settled id s →
    settled id (si_Operations_Update st (Some op) s).2;
  clusters_Get_reads o n s : (op_Get (st_Clusters (si_Owner st o)) n s).2 = s;
  owners_respect id o :: StoreRespects (λ s s', settled id s → settled id s') (si_Owner st o)
}.

Section proofs.
Context {S Crt Key SSHKey X KC CC BC : Type}.
Context `{!Crypto Crt Key SSHKey, !CertText Crt Key, !Clock, !TimeText, !Rand, !Polling}.
Context `{!Kubernetes X KC CC BC, !JsonText, !Environment, !MessageCodec}.
Context (st : StoreInterface S Crt Key) (settled : string → S → Prop) `{!OperationsLaws st settled}.
Notation env := (env (S := S) (Crt := Crt) (Key := Key) (SSHKey := SSHKey) (X := X) (KC := KC)).
Notation Interface := (Interface (S := S) (Crt := Crt) (Key := Key) (SSHKey := SSHKey) (X := X)
                                 (KC := KC)).
Notation world := (world (S := S) (Crt := Crt) (Key := Key) (SSHKey := SSHKey) (X := X) (KC := KC)).
Notation broker := (broker (S := S) (Crt := Crt) (Key := Key) (SSHKey := SSHKey) (X := X) (KC := KC)).
Context (providers : Z → string → option Interface).
Implicit Types (e : env) (w : world) (b : broker) (id data : string) (msg : Msg).

Definition keeps_settled id : relation S := λ s s', settled id s → settled id s'.
#[export] Instance keeps_settled_preorder id : PreOrder (keeps_settled id).
Proof. split; [intros s Hs; exact Hs|]. intros s1 s2 s3 R1 R2 Hs. by apply R2, R1. Qed.

Context (Hproviders : ∀ id o p cm, providers o p = Some cm → ProviderRespects (keeps_settled id) cm).

(** The relation on the environment and on the world. *)
Definition settled_w id : relation world := λ w w', on_e (keeps_settled id) (w_env w) (w_env w').
#[local] Instance settled_w_preorder id : PreOrder (settled_w id).
Proof. split; [intros w Hs; exact Hs|]. intros w1 w2 w3 R1 R2 Hs. by apply R2, R1. Qed.

Lemma in_env_settled {A} id (m : GoM env A) :
  pres (on_e (keeps_settled id)) m → pres (settled_w id) (in_env m).
Proof. intros Hm w. unfold in_env, zoom, settled_w. specialize (Hm (w_env w)). by destruct (m _). Qed.

Lemma same_env_settled {A} id (m : GoM world A) :
  (∀ w, e_store (w_env (m w).2) = e_store (w_env w)) → pres (settled_w id) m.
Proof. intros Hm w. unfold settled_w, on_e, keeps_settled. by rewrite Hm. Qed.

Lemma logged_settled {A} id (m : GoM world A) k :
  pres (settled_w id) m → (∀ a, pres (settled_w id) (k a)) → pres (settled_w id) (logged m k).
Proof. intros Hm Hk. unfold logged. pres_tac. Qed.

Lemma ack_settled id msg : pres (settled_w id) (ack msg).
Proof. apply same_env_settled. intros w. unfold ack, mbind, gom_bind, lift. by destruct (Ack msg). Qed.

Lemma newLogger_settled id op l : pres (settled_w id) (newLogger op l).
Proof. unfold newLogger. pres_tac. Qed.

(** ** Reading

    [quiet]: neither the store nor the cloud changes, and nothing is acknowledged. *)
Definition quiet : relation world := λ w w',
  e_store (w_env w') = e_store (w_env w) ∧ e_cloud (w_env w') = e_cloud (w_env w) ∧
  w_acked w' = w_acked w.
#[local] Instance quiet_preorder : PreOrder quiet.
Proof. split; [done|]. intros w1 w2 w3 (?&?&?) (?&?&?). split_and!; congruence. Qed.

Lemma read_quiet {A} (m : GoM S A) : (∀ s, (m s).2 = s) → pres quiet (in_env (store m)).
Proof.
  intros Hm [[s t x sc] a]. unfold in_env, store, zoom. cbn. specialize (Hm s).
  by destruct (m s); cbn in *; subst.
Qed.

Lemma scope_quiet (f : env → Scope) :
  pres quiet (in_env (modify (λ e, Env (e_store e) (e_tick e) (e_cloud e) (f e)))).
Proof. by intros [[]]. Qed.

Lemma Init_quiet msg : pres quiet (Init st msg).
Proof.
  unfold Init. pres_tac.
  - apply read_quiet, ops_Get_reads.
  - apply read_quiet. intros s. apply clusters_Get_reads.
  - apply scope_quiet.
Qed.

Lemma newLogger_quiet op l : pres quiet (newLogger op l).
Proof. unfold newLogger. pres_tac. Qed.

Lemma quiet_settled {A} id (m : GoM world A) : pres quiet m → pres (settled_w id) m.
Proof. intros Hm. apply same_env_settled. intros w. by destruct (Hm w). Qed.

Lemma initialised_pres (R : relation world) `{!PreOrder R} l msg k :
  pres R (Init st msg) → (∀ op, pres R (newLogger op l)) → (∀ op, pres R (k op)) →
  pres R (initialised st l msg k).
Proof. intros Hi Hl Hk. unfold initialised. pres_tac. Qed.

(** ** What the handlers do to the operations *)
Lemma done_settled id op :
  pres (on_e (keeps_settled id))
    (store (si_Operations_Update st (Some (with_op_State op OperationDone))) : GoM env Operation).
Proof. apply store_frame. intros s Hs. by apply ops_Update. Qed.

Lemma ApplyCluster_settled id o op : pres (on_e (keeps_settled id)) (ApplyCluster st providers o op).
Proof.
  unfold ApplyCluster. apply pres_bind; [exact _| |intros _].
  - apply Apply_frame; [exact _..|]. intros p cm Hp. by apply (Hproviders id o p).
  - pres_tac. apply done_settled.
Qed.

Lemma handler_settled id s l msg : pres (settled_w id) (handler st providers s l msg).
Proof.
  assert (Hi : pres (settled_w id) (Init st msg)) by apply quiet_settled, Init_quiet.
  assert (Hl : ∀ op, pres (settled_w id) (newLogger op l)) by (intros; apply quiet_settled, newLogger_quiet).
  assert (Ha : ∀ o op, pres (settled_w id) (in_env (ApplyCluster st providers o op)))
    by (intros; apply in_env_settled, ApplyCluster_settled).
  destruct s; cbn [handler]; unfold CreateCluster, DeleteCluster, RetryCluster;
    apply initialised_pres; [exact _|done|done|intros op| exact _|done|done|intros op|exact _|done|done|intros op].
  - destruct (decide _); [|pres_tac]. apply logged_settled; [|intros op'].
    { apply in_env_settled, store_frame. intros x Hx. by apply ops_Update. }
    apply logged_settled; [apply ack_settled|intros _]. pres_tac.
    apply in_env_settled, CreateCluster_frame; [exact _..|]. intros p cm Hp.
    by apply (Hproviders id (op_UserID op) p).
  - apply logged_settled; [|intros c].
    { apply in_env_settled. apply pres_bind; [exact _|apply the_cluster_frame; exact _|intros c].
      apply Delete_frame; exact _. }
    apply logged_settled; [apply ack_settled|intros _]. apply pres_bind; [exact _| |intros _].
    { apply in_env_settled, set_Cluster_frame; exact _. }
    apply logged_settled; [done|pres_tac].
  - apply logged_settled; [apply ack_settled|intros _]. apply logged_settled; [done|pres_tac].
Qed.

(** ** One message *)
Definition names data id : Prop := unmarshal_operation data = Ok (Some {| OperationId := id |}).

Lemma Init_result msg w op w' id :
  names (Data msg) id → Init st msg w = (Ok op, w') →
  (si_Operations_Get st id (e_store (w_env w))).1 = Ok op.
Proof.
  intros Hn. unfold Init, lift. rewrite Hn. erewrite bind_ok by reflexivity. cbn [OperationId].
  intros ([] & w1 & E1 & E)%bind_ok_inv. unfold err_if in E1. case_bool_decide; [done|].
  injection E1 as <-. apply bind_ok_inv in E as (op' & w2 & E2 & E).
  apply bind_ok_inv in E as (c & w3 & E3 & E). apply bind_ok_inv in E as (u & w4 & E4 & E).
  injection E as -> ->. unfold in_env, store, zoom in E2.
  destruct (si_Operations_Get st id (e_store (w_env w))) as [r s1]. by injection E2 as -> _.
Qed.

(** A create message whose operation is not pending changes nothing. *)
Lemma create_settled_quiet l msg w id :
  names (Data msg) id → settled id (e_store (w_env w)) →
  quiet w (CreateCluster st providers l msg w).2.
Proof.
  intros Hn Hs. unfold CreateCluster, initialised. unfold mbind, gom_bind, attempt.
  pose proof (Init_quiet msg w) as Hq. destruct (Init st msg w) as [[op|x|y] w1] eqn:E; cbn in Hq |- *; [| |done].
  - apply (Init_result _ _ _ _ id) in E; [|done]. apply (ops_settled id) in E; [|done].
    rewrite decide_False by done. etrans; [exact Hq|]. pose proof (newLogger_quiet (Some op) l w1) as Hl.
    by destruct (newLogger _ _ w1) as [[]].
  - etrans; [exact Hq|]. apply newLogger_quiet.
Qed.

(** A delivery takes no create message of a settled operation from the queue. *)
Lemma deliver_settled l b b' id data :
  names data id → settled id (e_store (b_env b)) → deliver st providers l b b' →
  settled id (e_store (b_env b')) ∧
  ((Create_cluster, data) ∈ b_queue b → (Create_cluster, data) ∈ b_queue b').
Proof.
  intros Hn Hs Hd. destruct Hd as [pre s d post answer e e' acked Hh]. cbn in *.
  pose proof (handler_settled id s l {| Data := d; Ack := answer |} (World e false)) as Hk.
  rewrite Hh in Hk. split; [by apply Hk|]. destruct acked; [|done].
  rewrite !elem_of_app, elem_of_cons. intros [?|[[= <- <-]|?]]; [by left| |by right].
  cbn in Hh. pose proof (create_settled_quiet l {| Data := data; Ack := answer |} (World e false) id Hn Hs) as Hq.
  rewrite Hh in Hq. by destruct Hq as (_ & _ & ?).
Qed.

(** [C22] A create message is acted on once: when its operation is no longer pending, then,
    whatever messages of whatever subject are delivered, it never is again, the message
    is never taken from the queue, and delivering it changes nothing. *)
Theorem create_message_once l b b' id data :
  names data id → settled id (e_store (b_env b)) → rtc (deliver st providers l) b b' →
  settled id (e_store (b_env b')) ∧
  ((Create_cluster, data) ∈ b_queue b → (Create_cluster, data) ∈ b_queue b') ∧
  ∀ answer, quiet (World (b_env b') false)
    (CreateCluster st providers l {| Data := data; Ack := answer |} (World (b_env b') false)).2.
Proof.
  intros Hn Hs Hr. assert (Hi : settled id (e_store (b_env b')) ∧
    ((Create_cluster, data) ∈ b_queue b → (Create_cluster, data) ∈ b_queue b')).
  { induction Hr as [b|b b1 b' Hd Hr IH]; [done|].
    destruct (deliver_settled l b b1 id data Hn Hs Hd) as [Hs1 Hq].
    destruct (IH Hs1) as [??]. auto. }
  destruct Hi as [Hs' Hq]. split; [done|]. split; [done|]. intros answer.
  by apply (create_settled_quiet _ _ _ id).
Qed.

(** ** The first delivery *)
Lemma in_env_acked {A} (m : GoM env A) w : w_acked (in_env m w).2 = w_acked w.
Proof. unfold in_env, zoom. by destruct (m _). Qed.

Definition acked_same : relation world := λ w w', w_acked w' = w_acked w.
#[local] Instance acked_same_preorder : PreOrder acked_same.
Proof. split; [done|]. intros ???. unfold acked_same. congruence. Qed.

Lemma Init_pending msg w id op c :
  names (Data msg) id → id ≠ "" →
  (si_Operations_Get st id (e_store (w_env w))).1 = Ok op →
  (op_Get (st_Clusters (si_Owner st (-1))) (pretty (op_ClusterID op)) (e_store (w_env w))).1 = Ok c →
  Init st msg w =
    (Ok op, World (Env (e_store (w_env w)) (e_tick (w_env w)) (e_cloud (w_env w)) (NewScope c)) (w_acked w)).
Proof.
  intros Hn Hid Hg Hc. destruct w as [[s t x sc] a]. cbn in *. unfold Init, lift. rewrite Hn.
  erewrite bind_ok by reflexivity. cbn [OperationId]. rewrite err_if_false by by apply bool_decide_eq_false.
  pose proof (ops_Get_reads id s) as Hgs. pose proof (clusters_Get_reads (-1) (pretty (op_ClusterID op)) s) as Hcs.
  erewrite bind_ok; [|unfold in_env, store, zoom; cbn; destruct (si_Operations_Get st id s); cbn in *; by subst].
  erewrite bind_ok; [|unfold in_env, store, zoom; cbn; destruct (op_Get _ _ s); cbn in *; by subst].
  done.
Qed.

(** What is left of the handler of create messages once the message is acknowledged. *)
Definition rest (o : Z) (op : Operation) : GoM world () :=
  _ ← attempt (in_env (Cloud.CreateCluster (si_Owner st o) (providers o)));
  _ ← attempt (in_env (ApplyCluster st providers o op));
  mret ().

Lemma rest_pres (R : relation world) `{!PreOrder R} o op :
  pres R (in_env (Cloud.CreateCluster (si_Owner st o) (providers o))) →
  pres R (in_env (ApplyCluster st providers o op)) → pres R (rest o op).
Proof. intros. unfold rest. pres_tac. Qed.

Lemma rest_ends o op w id :
  (∀ x, (rest o op w).1 ≠ Err x) ∧ w_acked (rest o op w).2 = w_acked w ∧
  settled_w id w (rest o op w).2.
Proof.
  split_and!.
  - unfold rest, mbind, gom_bind, attempt.
    destruct (in_env _ w) as [[] w2]; try done; by destruct (in_env _ w2) as [[] w3].
  - revert w. change (pres acked_same (rest o op)).
    apply rest_pres; [exact _|intros w; apply in_env_acked..].
  - revert w. change (pres (settled_w id) (rest o op)).
    apply rest_pres; [exact _| |by apply in_env_settled, ApplyCluster_settled].
    apply in_env_settled, CreateCluster_frame; [exact _..|]. intros p cm Hcm. by apply (Hproviders id o p).
Qed.

(** [C23] The first delivery of a pending create operation records it running.  With the
    message acknowledged it leaves the queue, whatever becomes of the cluster; with
    the acknowledgement lost nothing else was done, and by [create_message_once]
    nothing ever will be. *)
Theorem create_delivered l data id op op' c e s1 :
  names data id → id ≠ "" →
  (si_Operations_Get st id (e_store e)).1 = Ok op → op_State op = OperationPending →
  (op_Get (st_Clusters (si_Owner st (-1))) (pretty (op_ClusterID op)) (e_store e)).1 = Ok c →
  si_Operations_Update st (Some (with_op_State op OperationRunning)) (e_store e) = (Ok op', s1) →
  settled id s1 →
  (let r := CreateCluster st providers l {| Data := data; Ack := Ok () |} (World e false) in
   (∀ x, r.1 ≠ Err x) ∧ w_acked r.2 = true ∧ settled id (e_store (w_env r.2))) ∧
  (∀ x, let r := CreateCluster st providers l {| Data := data; Ack := Err x |} (World e false) in
   r.1 = Ok () ∧ w_acked r.2 = false ∧ e_store (w_env r.2) = s1 ∧ e_cloud (w_env r.2) = e_cloud e ∧
   settled id (e_store (w_env r.2))).
Proof.
  intros Hn Hid Hg Hp Hc Hu Hs.
  assert (Hrun : ∀ ans, CreateCluster st providers l {| Data := data; Ack := ans |} (World e false) =
    logged (ack {| Data := data; Ack := ans |}) (λ _, rest (op_UserID op) op')
           (World (Env s1 (e_tick e) (e_cloud e) (NewScope c)) false)).
  { intros ans. unfold CreateCluster, initialised.
    erewrite bind_ok by (apply attempt_ok, (Init_pending _ (World e false) id op c); done). cbn iota beta.
    erewrite bind_ok by (unfold newLogger; by destruct l). rewrite decide_True by done.
    unfold logged at 1.
    rewrite (bind_ok _ _ _ (World (Env s1 (e_tick e) (e_cloud e) (NewScope c)) false) (inl op')); [done|].
    apply attempt_ok. unfold in_env, store, zoom. cbn. by rewrite Hu. }
  split; [|by intros x; cbn zeta; rewrite Hrun; split_and!].
  cbn zeta. rewrite Hrun. set (w1 := (World (Env s1 (e_tick e) (e_cloud e) (NewScope c)) true : world)).
  change (logged _ _ _) with (rest (op_UserID op) op' w1).
  destruct (rest_ends (op_UserID op) op' w1 id) as (?&?&?). split_and!; auto.
Qed.

(** ** Messages [Init] refuses *)

(** A message that [Init] refuses (not JSON, no operation, an operation or a cluster
    that is not stored) is logged and stays in the queue; with the log going to NATS
    it ends the process instead, on every delivery. *)
Theorem refused_message s l msg w x :
  (Init st msg w).1 = Err x →
  let r := handler st providers s l msg w in
  quiet w r.2 ∧ (l = false → r.1 = Ok ()) ∧ (l = true → ∃ why, r.1 = Panic why).
Proof.
  intros Hi. assert (Hr : handler st providers s l msg w = newLogger None l (Init st msg w).2).
  { destruct s; cbn [handler]; unfold CreateCluster, DeleteCluster, RetryCluster, initialised;
      unfold mbind, gom_bind, attempt; destruct (Init st msg w) as [[] w1]; by simplify_eq/=. }
  cbn zeta. rewrite Hr. split.
  - etrans; [apply Init_quiet|apply newLogger_quiet].
  - unfold newLogger. split; [by intros ->|intros ->; by eexists].
Qed.
End proofs.
