(* ===== verification/ApiServerSql.v ===== *)
(** * The operations of the SQL store keep what the API server relies on

    [sql_interface] puts the operations table of the SQL store beside any store of
    objects; it satisfies [OperationsLaws], with "settled" as: no row of that code
    is pending. *)
From stdpp Require Import base list gmap strings pretty fin_maps.
From S2P Require Import Prelude GoStrings Api StoreSpec Provider Certs Kube Cloud StoreFrame ApiServer.
From S2P Require Import ApiServerProofs Sql XormStore XormProofs XormRest.

#[local] Arguments bool_decide : simpl never.

(** ** A store beside another state *)
Section beside.
Context {T D Crt Key : Type}.

Definition on_fst {A} (m : GoM T A) : GoM (T * D) A := zoom fst (λ t s, (t, snd s)) m.

Definition beside_ops {O} (ops : store_ops T O) : store_ops (T * D) O := {|
  op_List := on_fst (op_List ops); op_Get n := on_fst (op_Get ops n);
  op_Create o := on_fst (op_Create ops o); op_Update o := on_fst (op_Update ops o);
  op_Delete n := on_fst (op_Delete ops n);
  op_UpdateStatus := (λ u o, on_fst (u o)) <$> op_UpdateStatus ops
|}.

Definition beside (ri : ResourceInterface T Crt Key) : ResourceInterface (T * D) Crt Key := {|
  ri_objects := {|
    st_Credentials := beside_ops (st_Credentials ri); st_Clusters := beside_ops (st_Clusters ri);
    st_MachineSets cl := beside_ops (st_MachineSets ri cl);
    st_Machines cl := beside_ops (st_Machines ri cl) |};
  ri_UpdateUUID c u := on_fst (ri_UpdateUUID ri c u);
  ri_cert_Get cl n := on_fst (ri_cert_Get ri cl n);
  ri_cert_Create cl n c k := on_fst (ri_cert_Create ri cl n c k);
  ri_ssh_Get cl n := on_fst (ri_ssh_Get ri cl n);
  ri_ssh_Create cl n p q := on_fst (ri_ssh_Create ri cl n p q)
|}.

(** A relation on what is beside. *)
Context (R : relation D) `{!Reflexive R}.

Lemma on_fst_respects {A} (m : GoM T A) : pres (λ s s', R s.2 s'.2) (on_fst m).
Proof. intros [t d]. unfold on_fst, zoom. cbn. destruct (m t). cbn. reflexivity. Qed.

#[export] Instance beside_ops_respects {O} (ops : store_ops T O) :
  OpsRespect (λ s s', R s.2 s'.2) (beside_ops ops).
Proof.
  split; intros; cbn; try apply on_fst_respects. unfold beside_ops in *. cbn in *.
  destruct (op_UpdateStatus ops); simplify_eq/=. apply on_fst_respects.
Qed.

#[export] Instance beside_respects (ri : ResourceInterface T Crt Key) :
  StoreRespects (λ s s', R s.2 s'.2) (beside ri).
Proof. split; intros; try exact _; apply on_fst_respects. Qed.
End beside.

(** ** Operations *)
Section operations.
Context `{!Planner, !PlannerLaws}.
Implicit Types (d : db) (id : string).

Definition sql_settled id d : Prop :=
  table_ok (db_operations d) ∧
  ∀ r, r ∈ rows (db_operations d) → op_Code r = id → op_State r ≠ OperationPending.

Lemma operation_rewrite op st :
  buildUpdates (with_op_State op st) op = with_op_State op (written st (op_State op)).
Proof.
  destruct op as [i u c k s]. unfold buildUpdates, written. cbn.
  repeat case_bool_decide; cbn; by destruct st.
Qed.

Lemma operation_code_conds op r :
  op_Code op ≠ "" → buildConds op r = true → op_Code r = op_Code op.
Proof.
  intros Hk. unfold buildConds. destruct op as [i u c k s]. cbn in *.
  rewrite !andb_true_iff. intros (_ & _ & _ & Hc & _).
  rewrite (bool_decide_eq_false_2 _ Hk) in Hc. cbn in Hc. by apply bool_decide_eq_true, CStr_inj in Hc.
Qed.

Lemma sql_Get_reads id d : (OperationXormStore.Get id d).2 = d.
Proof. unfold OperationXormStore.Get, in_operations, mbind, gom_bind, zoom. cbn. by destruct d, (List.find _ _). Qed.

Lemma sql_Get_found id d op :
  id ≠ "" → (OperationXormStore.Get id d).1 = Ok op → op ∈ rows (db_operations d) ∧ op_Code op = id.
Proof.
  intros Hid. unfold OperationXormStore.Get, in_operations, mbind, gom_bind, zoom.
  set (bean := {| op_ID := 0; op_UserID := 0; op_ClusterID := 0; op_Code := id; op_State := OperationDone |}).
  pose proof (Get_found bean) as Hf. unfold engine_Get in *. cbn in *.
  destruct (List.find _ _) as [r|] eqn:E; [|done]. intros [= ->].
  destruct (Hf op (db_operations d)) as [Hin Hc]; [by rewrite E|]. split; [done|].
  by apply (operation_code_conds bean).
Qed.

(** One row with the state written, or none. *)
Lemma sql_Update_settled id d obj :
  op_State obj ≠ OperationPending → sql_settled id d →
  sql_settled id (OperationXormStore.Update (Some obj) d).2.
Proof.
  intros Hst [Hd Hs]. unfold OperationXormStore.Update, on_err, in_operations, mbind, gom_bind, zoom.
  match goal with |- context [engine_Get ?b] => set (bean := b) end.
  pose proof (Get_found bean) as Hf. unfold engine_Get in *. cbn in *.
  destruct (List.find _ _) as [op|] eqn:E; [|by destruct d].
  destruct (Hf op (db_operations d)) as [Hin _]; [by rewrite E|].
  pose proof (Update_ok [("id", CInt (op_ID op))] (with_op_State op (op_State obj)) (db_operations d) Hd) as Hok.
  assert (Hrows : ∀ r, r ∈ rows (engine_Update [("id", CInt (op_ID op))] (with_op_State op (op_State obj)) (db_operations d)).2 →
    op_Code r = id → op_State r ≠ OperationPending).
  { unfold engine_Update. destruct (has_updates _); cbn [negb]; [|exact Hs].
    destruct (where_error _); [exact Hs|]. destruct (distinct _); [|exact Hs]. cbn [snd rows]. intros r (x & -> & Hx)%list_elem_of_fmap.
    rewrite operation_where.
    destruct (bool_decide (op_ID x = op_ID op)) eqn:Hid; [apply bool_decide_eq_true in Hid|by apply Hs].
    assert (x = op) as ->.
    { destruct Hd as [Hd _]. apply (distinct_inj (rows (db_operations d))); [done..|].
      unfold conflict. apply orb_true_iff. left. apply bool_decide_eq_true. exact Hid. }
    rewrite operation_rewrite. unfold written. intros Hk. cbn in Hk |- *.
    destruct (decide (op_State obj = OperationDone)); [|done]. by apply (Hs _ Hin). }
  destruct (engine_Update _ _ _) as [[] t]; cbn; by split.
Qed.

Context {T Crt Key : Type} (owners : Z → ResourceInterface T Crt Key).

Definition sql_interface : StoreInterface (T * db) Crt Key := {|
  si_Owner o := beside (owners o);
  si_Operations_Get id := zoom snd (λ d s, (s.1, d)) (OperationXormStore.Get id);
  si_Operations_Update obj := zoom snd (λ d s, (s.1, d)) (OperationXormStore.Update obj)
|}.

Lemma sql_operations_laws :
  (∀ o n t, (op_Get (st_Clusters (owners o)) n t).2 = t) →
  OperationsLaws sql_interface (λ id s, id ≠ "" ∧ sql_settled id s.2).
Proof.
  intros Hreads. split.
  - intros id [t d]. cbn. unfold zoom. cbn. pose proof (sql_Get_reads id d) as H1.
    destruct (OperationXormStore.Get id d). cbn in *. by subst.
  - intros id [t d] op [Hid [_ Hs]]. cbn. unfold zoom. cbn.
    destruct (OperationXormStore.Get id d) as [r d'] eqn:E. cbn. intros ->.
    destruct (sql_Get_found id d op) as [??]; [done|by rewrite E|]. by apply Hs.
  - intros id [t d] op Hst [Hid Hs]. split; [done|].
    unfold sql_interface, zoom. cbn [si_Operations_Update fst snd].
    pose proof (sql_Update_settled id d op Hst Hs) as Hu.
    by destruct (OperationXormStore.Update (Some op) d).
  - intros o n [t d]. cbn. unfold on_fst, zoom. cbn. specialize (Hreads o n t).
    destruct (op_Get _ n t). cbn in *. by subst.
  - intros id o. set (R := λ d d', id ≠ "" ∧ sql_settled id d → id ≠ "" ∧ sql_settled id d').
    assert (Reflexive R) by (intros d Hd; exact Hd). exact (beside_respects R (owners o)).
Qed.
End operations.
