(* ===== verification/Options.v ===== *)
(** * The options of the commands (cmds/cloud/options, cmds/credential/options)

    A command has a configuration with default values; [AddFlags] binds its fields to
    flags, [ValidateFlags] fills in the arguments.  The flags given on the command
    line are a map from their names to the values as text, which pflag has checked and
    reads (the class [Pflag]).  Ending the process is [Panic]. *)
From stdpp Require Import base list gmap strings fin_maps.
From Stdlib Require Import Ascii.
From S2P Require Import Prelude GoStrings Api Use.

Definition flagset : Type := gmap string string.

Definition Changed (fs : flagset) (name : string) : bool := bool_decide (is_Some (fs !! name)).

Class Pflag := {
  parse_bool : string → bool;
  parse_int : string → Z;
  string_to_int : string → list (string * Z)
}.

(** fs.StringVar(&v, name, v, usage) and the like: the value given, else the default. *)
Definition flag_value {A} (parse : string → A) (fs : flagset) (name : string) (value : A) : A :=
  match fs !! name with Some v => parse v | None => value end.
Definition StringVar : flagset → string → string → string := flag_value id.
Definition BoolVar `{!Pflag} : flagset → string → bool → bool := flag_value parse_bool.
Definition IntVar `{!Pflag} : flagset → string → Z → Z := flag_value parse_int.
Definition StringToIntVar `{!Pflag} : flagset → string → list (string * Z) → list (string * Z) :=
  flag_value string_to_int.

(** flags.EnsureRequiredFlags: a flag the command defines and the user left out ends
    the process. *)
Fixpoint EnsureRequiredFlags (fs : flagset) (names : list string) : outcome () :=
  match names with
  | [] => Ok ()
  | n :: names => if Changed fs n then EnsureRequiredFlags fs names
                  else Panic ("flag [" +:+ n +:+ "] is required but not provided.")
  end.

(** Exactly one argument, the name of a [what]. *)
Definition one_name (what : string) (args : list string) : outcome string :=
  match args with
  | [] => Err ("missing " +:+ what +:+ " name")
  | [a] => Ok a
  | _ => Err ("multiple " +:+ what +:+ " name provided")
  end.

(** ** apply_options.go *)
Module ApplyConfig.
Record t := Make { ClusterName : string; DryRun : bool }.
Definition NewApplyConfig : t := Make "" false.
Definition AddFlags `{!Pflag} (c : t) (fs : flagset) : t :=
  Make (ClusterName c) (BoolVar fs "dry-run" (DryRun c)).
Definition ValidateFlags (c : t) (fs : flagset) (args : list string) : outcome t :=
  name ← one_name "cluster" args;
  Ok (Make (ToLower name) (DryRun c)).
End ApplyConfig.

(** ** cluster_backup_options.go *)
Module ClusterBackupConfig.
Record t := Make { ClusterName : string; BackupDir : string; Sanitize : bool }.
Definition NewClusterBackupConfig : t := Make "" "" false.
Definition AddFlags `{!Pflag} (c : t) (fs : flagset) : t :=
  Make (ClusterName c) (StringVar fs "backup-dir" (BackupDir c)) (BoolVar fs "sanitize" (Sanitize c)).
Definition ValidateFlags (c : t) (fs : flagset) (args : list string) : outcome t :=
  _ ← EnsureRequiredFlags fs ["backup-dir"];
  name ← one_name "cluster" args;
  Ok (Make (ToLower name) (BackupDir c) (Sanitize c)).
End ClusterBackupConfig.

(** ** cluster_delete_options.go *)
Module ClusterDeleteConfig.
Record t := Make {
  Force : bool; ReleaseReservedIP : bool; KeepLBs : bool; DeleteDynamicVolumes : bool;
  Clusters : list string
}.
Definition NewClusterDeleteConfig : t := Make false false false false [].
Definition AddFlags `{!Pflag} (c : t) (fs : flagset) : t :=
  Make (BoolVar fs "force" (Force c)) (BoolVar fs "release-reserved-ip" (ReleaseReservedIP c))
       (BoolVar fs "keep-loadbalancers" (KeepLBs c))
       (BoolVar fs "delete-dynamic-volumes" (DeleteDynamicVolumes c)) (Clusters c).
Definition ValidateFlags (c : t) (fs : flagset) (args : list string) : outcome t :=
  match args with
  | [] => Err "missing cluster name"
  | _ => Ok (Make (Force c) (ReleaseReservedIP c) (KeepLBs c) (DeleteDynamicVolumes c) (ToLower <$> args))
  end.
End ClusterDeleteConfig.

(** ** cluster_describe_options.go *)
Module ClusterDescribeConfig.
Record t := Make { Clusters : list string }.
Definition NewClusterDescribeConfig : t := Make [].
Definition ValidateFlags (c : t) (fs : flagset) (args : list string) : outcome t :=
  Ok (Make (ToLower <$> args)).
End ClusterDescribeConfig.

(** ** cluster_edit_options.go *)
Module ClusterEditConfig.
Record t := Make {
  ClusterName : string; File : string; KubernetesVersion : string; Locked : bool; Output : string
}.
Definition NewClusterEditConfig : t := Make "" "" "" false "yaml".
Definition AddFlags `{!Pflag} (c : t) (fs : flagset) : t :=
  Make (ClusterName c) (StringVar fs "file" (File c))
       (StringVar fs "kubernetes-version" (KubernetesVersion c)) (BoolVar fs "locked" (Locked c))
       (StringVar fs "output" (Output c)).
Definition ValidateFlags (c : t) (fs : flagset) (args : list string) : outcome t :=
  _ ← (if Changed fs "file" then
         match args with
         | [] => Ok ()
         | _ => Err "no argument can be provided when --file flag is used"
         end
       else Ok ());
  name ← one_name "cluster" args;
  Ok (Make (ToLower name) (File c) (KubernetesVersion c) (Locked c) (Output c)).
Definition CheckForUpdateFlags (c : t) : bool :=
  Locked c || negb (bool_decide (KubernetesVersion c = "")).
End ClusterEditConfig.

(** ** cluster_get_options.go *)
Module ClusterGetConfig.
Record t := Make { Clusters : list string; Output : string }.
Definition NewClusterGetConfig : t := Make [] "".
Definition AddFlags (c : t) (fs : flagset) : t :=
  Make (Clusters c) (StringVar fs "output" (Output c)).
Definition ValidateFlags (c : t) (fs : flagset) (args : list string) : outcome t :=
  Ok (Make (ToLower <$> args) (Output c)).
End ClusterGetConfig.

(** ** cluster_use_options.go *)
Module ClusterUseOptions.
Definition NewClusterUseConfig : ClusterUseConfig := {| use_ClusterName := ""; use_Overwrite := true |}.
Definition AddFlags `{!Pflag} (c : ClusterUseConfig) (fs : flagset) : ClusterUseConfig :=
  {| use_ClusterName := use_ClusterName c; use_Overwrite := BoolVar fs "overwrite" (use_Overwrite c) |}.
Definition ValidateFlags (c : ClusterUseConfig) (fs : flagset) (args : list string) :
    outcome ClusterUseConfig :=
  name ← one_name "cluster" args;
  Ok {| use_ClusterName := ToLower name; use_Overwrite := use_Overwrite c |}.
End ClusterUseOptions.

(** ** ng_create_options.go *)
Module NodeGroupCreateConfig.
Record t := Make { ClusterName : string; Nodes : list (string * Z) }.
Definition NewNodeGroupCreateConfig : t := Make "" [].
Definition AddFlags `{!Pflag} (c : t) (fs : flagset) : t :=
  Make (StringVar fs "cluster" (ClusterName c)) (StringToIntVar fs "nodes" (Nodes c)).
Definition ValidateFlags (c : t) (fs : flagset) (args : list string) : outcome t :=
  _ ← EnsureRequiredFlags fs ["cluster"; "nodes"];
  Ok (Make (ToLower (ClusterName c)) (Nodes c)).
End NodeGroupCreateConfig.

(** ** ng_delete_options.go *)
Module NodeGroupDeleteConfig.
Record t := Make { ClusterName : string }.
Definition NewNodeGroupDeleteConfig : t := Make "".
Definition AddFlags (c : t) (fs : flagset) : t := Make (StringVar fs "cluster" (ClusterName c)).
Definition ValidateFlags (c : t) (fs : flagset) (args : list string) : outcome t :=
  _ ← EnsureRequiredFlags fs ["cluster"];
  Ok (Make (ToLower (ClusterName c))).
End NodeGroupDeleteConfig.

(** ** ng_edit_options.go *)
Module NodeGroupEditConfig.
Record t := Make {
  ClusterName : string; NgName : string; File : string; DoNotDelete : bool; Output : string
}.
Definition NewNodeGroupEditConfig : t := Make "" "" "" false "yaml".
Definition AddFlags `{!Pflag} (c : t) (fs : flagset) : t :=
  Make (StringVar fs "cluster" (ClusterName c)) (NgName c) (StringVar fs "file" (File c))
       (BoolVar fs "do-not-delete" (DoNotDelete c)) (StringVar fs "output" (Output c)).
Definition ValidateFlags (c : t) (fs : flagset) (args : list string) : outcome t :=
  _ ← EnsureRequiredFlags fs ["cluster"];
  name ← one_name "nodegroup" args;
  Ok (Make (ToLower (ClusterName c)) name (File c) (DoNotDelete c) (Output c)).
End NodeGroupEditConfig.

(** ** ng_get_options.go *)
Module NodeGroupGetConfig.
Record t := Make { ClusterName : string; Output : string; NodeGroups : list string }.
Definition NewNodeGroupGetConfig : t := Make "" "" [].
Definition AddFlags (c : t) (fs : flagset) : t :=
  Make (StringVar fs "cluster" (ClusterName c)) (StringVar fs "output" (Output c)) (NodeGroups c).
Definition ValidateFlags (c : t) (fs : flagset) (args : list string) : outcome t :=
  Ok (Make (ToLower (ClusterName c)) (Output c) args).
End NodeGroupGetConfig.

(** ** node_ssh_options.go *)
Module NodeSSHConfig.
Record t := Make { ClusterName : string; NodeName : string }.
Definition NewNodeSSHConfig : t := Make "" "".
Definition AddFlags (c : t) (fs : flagset) : t :=
  Make (StringVar fs "cluster" (ClusterName c)) (NodeName c).
Definition ValidateFlags (c : t) (fs : flagset) (args : list string) : outcome t :=
  _ ← EnsureRequiredFlags fs ["cluster"];
  name ← one_name "node" args;
  Ok (Make (ToLower (ClusterName c)) name).
End NodeSSHConfig.

(** ** credential/options *)
Module CredentialCreateConfig.
Record t := Make {
  CredName : string; Provider : string; FromEnv : bool; FromFile : string; Issue : bool
}.
Definition NewCredentialCreateConfig : t := Make "" "" false "" false.
Definition AddFlags `{!Pflag} (c : t) (fs : flagset) : t :=
  Make (CredName c) (StringVar fs "provider" (Provider c)) (BoolVar fs "from-env" (FromEnv c))
       (StringVar fs "from-file" (FromFile c)) (BoolVar fs "issue" (Issue c)).
Definition ValidateFlags (c : t) (fs : flagset) (args : list string) : outcome t :=
  name ← one_name "credential" args;
  Ok (Make name (Provider c) (FromEnv c) (FromFile c) (Issue c)).
End CredentialCreateConfig.

Module CredentialDeleteConfig.
Record t := Make { Credentials : list string; Owner : string }.
Definition NewCredentialDeleteConfig : t := Make [] "".
Definition AddFlags (c : t) (fs : flagset) : t := Make (Credentials c) (StringVar fs "owner" (Owner c)).
Definition ValidateFlags (c : t) (fs : flagset) (args : list string) : outcome t :=
  match args with
  | [] => Err "missing Credential name"
  | _ => Ok (Make args (Owner c))
  end.
End CredentialDeleteConfig.

(** [fs.StringP] and [fs.BoolP] define the flags file, do-not-delete and output and
    drop the pointers to their values. *)
Module CredentialEditConfig.
Record t := Make { CredName : string; File : string; DoNotDelete : bool; Output : string; Owner : string }.
Definition NewCredentialEditConfig : t := Make "" "" false "yaml" "".
Definition AddFlags (c : t) (fs : flagset) : t :=
  Make (CredName c) (File c) (DoNotDelete c) (Output c) (StringVar fs "owner" (Owner c)).
Definition ValidateFlags (c : t) (fs : flagset) (args : list string) : outcome t :=
  name ← one_name "credential" args;
  Ok (Make name (File c) (DoNotDelete c) (Output c) (Owner c)).
End CredentialEditConfig.

Module CredentialGetConfig.
Record t := Make { Credentials : list string; Output : string; Owner : string }.
Definition NewCredentialGetConfig : t := Make [] "" "".
Definition AddFlags (c : t) (fs : flagset) : t :=
  Make (Credentials c) (StringVar fs "output" (Output c)) (StringVar fs "owner" (Owner c)).
Definition ValidateFlags (c : t) (fs : flagset) (args : list string) : outcome t :=
  Ok (Make args (Output c) (Owner c)).
End CredentialGetConfig.
