(* ===== verification/Edit.v ===== *)
(** * Checking an edited object (utils/util.go, utils/editor/editor.go)

    `pharmer edit` compares the object before and after as a strategic merge patch
    and refuses the edit when the patch touches a field that may not change.  JSON is
    an inductive type, an object a list of keys with their values.  YAML and JSON
    texts and the diff that makes the patch are libraries: the classes [EditCodec]
    and [Texts].

    Module EditorFile is the file an editor is given: a temporary file of a random name,
    the editor that is run on it, and what it leaves, over the file tree of Stow.v with a
    tick for random numbers; the environment and running a process are parameters. *)
From stdpp Require Import base list gmap strings fin_maps.
From Stdlib Require Import Ascii.
From S2P Require Import Prelude GoStrings GoPath Stow Api StoreSpec Provider Certs Kube KubeProofs.

#[warnings="-register-all"]
Inductive json :=
  | JNull | JBool (b : bool) | JNum (n : string) | JStr (s : string)
  | JArr (l : list json) | JObj (o : list (string * json)).

Definition json_map : Type := list (string * json).

Fixpoint at_key (key : string) (o : json_map) : option json :=
  match o with
  | [] => None
  | (k, v) :: o => if decide (k = key) then Some v else at_key key o
  end.

(** ** k8s.io/apimachinery/pkg/util/mergepatch *)
Definition PreconditionFunc : Type := json_map → bool.

Definition RequireKeyUnchanged (key : string) : PreconditionFunc := λ patchMap,
  match at_key key patchMap with Some _ => false | None => true end.

Definition RequireMetadataKeyUnchanged (key : string) : PreconditionFunc := λ patchMap,
  match at_key "metadata" patchMap with
  | Some (JObj patchMap2) => match at_key key patchMap2 with Some _ => false | None => true end
  | _ => true
  end.

(** ** utils/util.go *)
Definition GetPreconditionFunc : list PreconditionFunc :=
  [RequireKeyUnchanged "apiVersion"; RequireKeyUnchanged "kind"; RequireMetadataKeyUnchanged "name";
   RequireMetadataKeyUnchanged "namespace"; RequireKeyUnchanged "status"].

Definition ResourceKindCluster : string := "Cluster".
Definition ResourceKindNodeGroup : string := "NodeGroup".
Definition ResourceKindCredential : string := "Credential".

Definition PreconditionSpecField (kind : string) : list string :=
  if decide (kind = ResourceKindCluster) then
    ["metadata"; "spec.cloud"; "spec.api"; "spec.masterInternalIp"; "spec.masterDiskID";
     "spec.networking.dnsDomain"]
  else if decide (kind = ResourceKindNodeGroup) then ["metadata"; "template.spec.externalIPType"]
  else if decide (kind = ResourceKindCredential) then ["metadata"]
  else [].

(** The recursion of [checkChainKeyUnchanged], on the parts of the key. *)
Fixpoint chain_unchanged (keys : list string) (mapData : json_map) : outcome bool :=
  match keys with
  | [] => Ok true
  | key :: newKey =>
      match at_key key mapData with
      | None => Ok true
      | Some val =>
          match newKey with
          | [] => Ok false
          | _ => match val with
                 | JObj val => chain_unchanged newKey val
                 | _ => Panic "interface conversion: interface {} is not map[string]interface {}"
                 end
          end
      end
  end.

Definition checkChainKeyUnchanged (key : string) (mapData : json_map) : outcome bool :=
  chain_unchanged (Split "."%char key) mapData.

Definition RequireChainKeyUnchanged (key : string) : json_map → outcome bool :=
  checkChainKeyUnchanged key.

Definition GetConditionalPreconditionFunc (kind : string) : list (json_map → outcome bool) :=
  RequireChainKeyUnchanged <$> PreconditionSpecField kind.

(** An error of the text is [Err]; [Ok false] is the error [IsPreconditionFailed] tells. *)
Fixpoint all_hold (fns : list (json_map → outcome bool)) (patch : json_map) : outcome bool :=
  match fns with
  | [] => Ok true
  | fn :: fns => ok ← fn patch; if ok : bool then all_hold fns patch else Ok false
  end.

(** ** Texts *)
Class Texts := {
  ToJSON : string → outcome string;          (* k8s.io/apimachinery/pkg/util/yaml *)
  json_Marshal : json_map → outcome string;
  json_Unmarshal : string → outcome json_map
}.

(** The objects of one kind; [None] is the nil pointer, written "null". *)
Class EditCodec (O : Type) := {
  yaml_Marshal : option O → outcome string;
  yaml_Unmarshal : string → outcome (option O);
  two_way_diff : string → string → outcome json_map    (* strategicpatch, before its preconditions *)
}.

Definition CheckConditionalPrecondition `{!Texts} (patchData : string)
    (fns : list (json_map → outcome bool)) : outcome bool :=
  patch ← json_Unmarshal patchData;
  all_hold fns patch.

(** ** utils/editor/editor.go *)
Definition nl : ascii := ascii_of_nat 10.

Definition is_comment (line : string) : bool := HasPrefix (TrimSpace line) "#".

Fixpoint strip_lines (lines : list string) : string :=
  match lines with
  | [] => ""
  | [line] => if is_comment line then "" else line
  | line :: lines => (if is_comment line then "" else line +:+ String nl "") +:+ strip_lines lines
  end.

Definition ManualStrip (file : string) : string := strip_lines (Split nl file).

Definition StripComments `{!Texts} (file : string) : string :=
  match ToJSON file with
  | Ok stripped => stripped
  | _ => ManualStrip file
  end.

Definition tab : string := String (ascii_of_nat 9) "".
Definition newline : string := String nl "".

Definition PreconditionFailedError : error :=
  Join (newline +:+ tab) ["At least one of the following was changed:"; "apiVersion"; "kind"; "name";
                          "namespace"; "status"].

Definition ConditionalPreconditionFailedError (kind : string) : error :=
  "At least one of the following was changed:" +:+ newline +:+ tab +:+
  Join (newline +:+ tab) (PreconditionSpecField kind).

(** The text above the object; [reasons] are the heads of the errors so far. *)
Definition header (reasons : list string) : string :=
  "# Please edit the object below. Lines beginning with a '#' will be ignored," +:+ newline +:+
  "# and an empty file will abort the edit. If an error occurs while saving this file will be" +:+ newline +:+
  "# reopened with the relevant failures." +:+ newline +:+
  "#" +:+ newline +:+
  String.concat "" ((λ r, "# " +:+ r +:+ newline +:+ "#" +:+ newline) <$> reasons).

(** ** The part of the update functions before the store is asked: cmds/cloud/edit_cluster.go
    UpdateCluster, edit_nodegroup.go UpdateNodeGroup, cmds/credential/edit.go updateCredential *)
Section check_edit.
Context `{!Texts} {O : Type} `{!EditCodec O}.

Definition check_edit (kind : string) (original updated : option O) : outcome () :=
  originalByte ← yaml_Marshal original;
  originalJS ← ToJSON originalByte;
  updatedByte ← yaml_Marshal updated;
  updatedJS ← ToJSON updatedByte;
  if decide (StripComments originalByte = StripComments updatedByte) then Err "no changes made" else
  patchMap ← two_way_diff originalJS updatedJS;
  if negb (forallb (λ fn : PreconditionFunc, fn patchMap) GetPreconditionFunc)
  then Err PreconditionFailedError else
  patch ← json_Marshal patchMap;
  ok ← CheckConditionalPrecondition patch (GetConditionalPreconditionFunc kind);
  if ok : bool then Ok () else Err (ConditionalPreconditionFailedError kind).

(** ** The loop of the editor: [editFn] of the three files

    [sessions] is what the user does with each text the editor is opened on: the text
    saved, or the error of launching it; with no session left the editor cannot be
    launched.  The file that keeps the edit is left out. *)
Context {S : Type} (printed : outcome string) (update : option O → GoM S ()).

Fixpoint edit_loop (sessions : list (string → outcome string)) (containsError : bool)
    (originalByte edited : string) (reasons : list string) : GoM S () :=
  start ← (if containsError then mret (header reasons +:+ ManualStrip edited, originalByte)
           else lift ((λ p, (header reasons +:+ p, header reasons +:+ p)) <$> printed));
  let buf : string := start.1 in
  let originalByte := start.2 in
  match sessions with
  | [] => throw "there was a problem with the editor"
  | session :: sessions =>
      let editedDiff := edited in
      edited ← lift (session buf);
      if containsError && bool_decide (StripComments editedDiff = StripComments edited)
      then throw "Edit cancelled, no valid changes were saved." else
      if decide (StripComments originalByte = StripComments edited) then mret () else
      updated ← attempt (lift (yaml_Unmarshal (StripComments edited)));
      match updated with
      | inl updated => update updated
      | inr err => edit_loop sessions true originalByte edited
                     (reasons ++ ["The edited file had a syntax error: " +:+ err])
      end
  end.

Definition editFn (sessions : list (string → outcome string)) : GoM S () :=
  edit_loop sessions false "" "" [].
End check_edit.

Module EditorFile.
Record Editor := { Args : list string; Shell : bool }.

(** How a process that was started ends *)
Inductive finished := Finished | NotFound | Failed.

(** os.OpenFile with O_CREATE and O_EXCL *)
Inductive opened := Opened | Exists | CannotOpen (e : error).

Definition defaultEditor : string := "nano".

Definition NewDefaultEditor (Getenv ExpandEnv : string → string) : Editor :=
  if decide (Getenv "EDITOR" ≠ "") then {| Args := [ExpandEnv (Getenv "EDITOR")]; Shell := false |}
  else if decide (Getenv "KUBEDB_EDITOR" ≠ "") then {| Args := [ExpandEnv (Getenv "KUBEDB_EDITOR")]; Shell := false |}
  else {| Args := [defaultEditor]; Shell := false |}.

(** The argument is the last word of a line of the shell (%q), or one of its own. *)
Definition args (quote : string → string) (e : Editor) (path : string) : list string :=
  if Shell e then
    match last (Args e) with
    | None => []
    | Some l => removelast (Args e) ++ [l +:+ " " +:+ quote path]
    end
  else Args e ++ [path].

Definition letters : list string :=
  ["a"; "b"; "c"; "d"; "e"; "f"; "g"; "h"; "i"; "j"; "k"; "l"; "m"; "n"; "o"; "p"; "q"; "r"; "s"; "t"; "u"; "v"; "w"; "x"; "y"; "z";
   "0"; "1"; "2"; "3"; "4"; "5"; "6"; "7"; "8"; "9"].

Section editor.
Context {D : Type} `{!OS D, !Rand}.
Notation state := (fs D * nat)%type.
Context (quote : string → string) (TempDir : string) (run : list string → GoM (fs D) finished).

Fixpoint randSeq (n : nat) : GoM state string :=
  match n with
  | O => mret ""
  | Datatypes.S n =>
      i ← draw (λ t, Ok (Intn t (length letters)));
      b ← lift (match letters !! i with Some b => Ok b | None => Panic "index out of range" end);
      rest ← randSeq n;
      mret (b +:+ rest)
  end.

Definition open_new (empty : D) (path : string) : GoM (fs D) opened := λ m,
  let q := resolve os_cwd path in
  match m !! q with
  | Some _ => (Ok Exists, m)
  | None => match os_Create path empty m with
            | (Ok _, m') => (Ok Opened, m')
            | (Err e, m') => (Ok (CannotOpen e), m')
            | (Panic w, m') => (Panic w, m')
            end
  end.

(** At most 10000 names are tried; a name that exists is passed over, and the last error
    is the answer. *)
Fixpoint try_names (fuel : nat) (empty : D) (prefix suffix : string) (err : error) : GoM state string :=
  match fuel with
  | O => throw err
  | Datatypes.S fuel =>
      seq ← randSeq 5;
      let name := PathJoin [TempDir; prefix +:+ seq +:+ suffix] in
      r ← on_store (open_new empty name);
      match r with
      | Opened => mret name
      | Exists => try_names fuel empty prefix suffix ("open " +:+ name +:+ ": file exists")
      | CannotOpen e => throw e
      end
  end.

(** Without an error there would be no file: the first round answers one or the other. *)
Definition tempFile (empty : D) (prefix suffix : string) : GoM state string := try_names 10000 empty prefix suffix "".

(** filepath.Abs *)
Definition Abs (path : string) : string := abs_path (resolve os_cwd path).

Definition Launch (e : Editor) (path : string) : GoM (fs D) () :=
  if decide (Args e = []) then throw ("no editor defined, can't open " +:+ path)
  else
    ended ← run (args quote e (Abs path));
    match ended with
    | Finished => mret ()
    | NotFound => throw ("unable to launch the editor " +:+ quote (Join " " (Args e)))
    | Failed => throw ("there was a problem with the editor " +:+ quote (Join " " (Args e)))
    end.

(** The content, if it could be read, the path, if there is a file, and the error *)
Definition LaunchTempFile (empty : D) (e : Editor) (prefix suffix : string) (r : D) : GoM state (option D * string * option error) :=
  f ← attempt (tempFile empty prefix suffix);
  match f with
  | inr err => mret (None, "", Some err)
  | inl path =>
      c ← attempt (on_store (os_Create path r));
      match c with
      | inr err => _ ← attempt (on_store (os_Remove path)); mret (None, path, Some err)
      | inl _ =>
          l ← attempt (on_store (Launch e path));
          match l with
          | inr err => mret (None, path, Some err)
          | inl _ =>
              bytes ← attempt (on_store (os_ReadFile path));
              mret (match bytes with inl d => (Some d, path, None) | inr err => (None, path, Some err) end)
          end
      end
  end.

(** What is written of a file that is kept; the error goes on. *)
Definition PreservedFile (err : error) (path : string) (m : fs D) : string * error :=
  (match path with
   | "" => ""
   | _ => match os_Stat path m with
          | inr ENOENT => ""
          | _ => "A copy of your changes has been stored to " +:+ quote path
          end
   end, err).

(** ** What is left *)
Implicit Types (m : fs D).

Lemma randSeq_spec `{!RandLaws} n m t : ∃ s t', randSeq n (m, t) = (Ok s, (m, t')) ∧ t' = t + n ∧ String.length s = n.
Proof.
  revert t. induction n as [|n IH]; intros t; [exists "", t; split_and!; [done|lia|done]|].
  cbn [randSeq]. unfold mbind, gom_bind, draw, lift. cbn [fst snd].
  assert (is_Some (letters !! Intn t (length letters))) as [b Hb] by (apply lookup_lt_is_Some, Intn_lt; done).
  rewrite Hb. destruct (IH (Datatypes.S t)) as (s & t' & E & Ht & Hs). rewrite E. exists (b +:+ s), t'.
  split_and!; [done|lia|]. rewrite append_length, Hs.
  assert (String.length b = 1) as ->; [|done].
  apply list_elem_of_lookup_2 in Hb. revert b Hb. apply Forall_forall. repeat constructor.
Qed.

Lemma open_new_spec empty path m :
  open_new empty path m = (Ok Exists, m) ∧ is_Some (m !! resolve os_cwd path) ∨
  open_new empty path m = (Ok Opened, <[resolve os_cwd path := File empty]> m) ∧ m !! resolve os_cwd path = None ∨
  (∃ e, open_new empty path m = (Ok (CannotOpen e), m)).
Proof.
  unfold open_new, os_Create. destruct (m !! resolve os_cwd path) as [nd|]; [by left|].
  destruct (m !! removelast _) as [[d|]|]; [right; right; by eexists|right; left; done|right; right; by eexists].
Qed.

(** A temporary file is one that was not there, and the only change; when there is none,
    nothing has changed.  No more than 10000 names are drawn. *)
Lemma temp_file_fresh `{!RandLaws} fuel empty prefix suffix err m t :
  ∃ t', t ≤ t' ≤ t + 5 * fuel ∧
  ((∃ path, try_names fuel empty prefix suffix err (m, t) = (Ok path, (<[resolve os_cwd path := File empty]> m, t')) ∧
            m !! resolve os_cwd path = None) ∨
   (∃ e, try_names fuel empty prefix suffix err (m, t) = (Err e, (m, t')))).
Proof.
  revert err t. induction fuel as [|fuel IH]; intros err t; [exists t; split; [lia|]; right; by eexists|].
  cbn [try_names]. destruct (randSeq_spec 5 m t) as (s & t1 & E & Ht & _). rewrite (bind_ok _ _ _ _ _ E). cbv zeta.
  set (name := PathJoin _). unfold mbind, gom_bind, on_store, zoom. cbn [fst snd].
  destruct (open_new_spec empty name m) as [[-> _]|[[-> Hn]|[e ->]]].
  - destruct (IH ("open " +:+ name +:+ ": file exists") t1) as (t' & Hb & Hc). exists t'. split; [lia|done].
  - exists t1. split; [lia|]. left. by exists name.
  - exists t1. split; [lia|]. right. by eexists.
Qed.

(** When the editor ends well and leaves a file, what is read is what it has left there; and
    the editor is given the content on its last argument. *)
Lemma launched_content `{!RandLaws} empty e prefix suffix r m t path t1 m1 m2 d :
  Args e ≠ [] → tempFile empty prefix suffix (m, t) = (Ok path, (m1, t1)) →
  run (args quote e (Abs path)) (<[resolve os_cwd path := File r]> m) = (Ok Finished, m2) →
  m2 !! resolve os_cwd path = Some (File d) →
  LaunchTempFile empty e prefix suffix r (m, t) = (Ok (Some d, path, None), (m2, t1)).
Proof.
  intros Ha Ht Hr Hd. unfold LaunchTempFile. rewrite (bind_ok _ _ _ _ _ (attempt_ok _ _ _ _ Ht)).
  destruct (temp_file_fresh 10000 empty prefix suffix "" m t) as (t' & _ & [(p & E & Hn)|(e' & E)]);
    unfold tempFile in Ht; rewrite Ht in E; [|done]. injection E as <- -> <-.
  unfold mbind, gom_bind, attempt, on_store, zoom. cbn [fst snd].
  assert (os_Create path r (<[resolve os_cwd path := File empty]> m) = (Ok (), <[resolve os_cwd path := File r]> m)) as ->.
  { unfold os_Create. rewrite lookup_insert_eq. by rewrite insert_insert_eq. }
  unfold Launch. rewrite decide_False by done. unfold mbind, gom_bind. cbn [fst snd]. rewrite Hr. cbn [fst snd mret gom_ret].
  unfold os_ReadFile. by rewrite Hd.
Qed.
End editor.
End EditorFile.
