(* ===== verification/EditProofs.v ===== *)
(** * What `pharmer edit` lets through

    Comment lines are stripped exactly ([manual_strip_lines]); the check of a field
    by its path finds the field wherever the patch reaches it, and panics on the way
    to it through anything but an object ([chain_unchanged_spec]); an accepted edit
    touches none of the guarded fields ([check_edit_guards]), but the cloud of a
    cluster is not among them ([cloud_unguarded]); the editor writes at most once
    ([edit_writes_once]). *)
From stdpp Require Import base list gmap strings fin_maps.
From Stdlib Require Import Ascii.
From S2P Require Import Prelude GoStrings Api Edit.

(** ** Paths *)
Fixpoint json_at (keys : list string) (o : json_map) : option json :=
  match keys with
  | [] => Some (JObj o)
  | [key] => at_key key o
  | key :: keys => match at_key key o with Some (JObj o') => json_at keys o' | _ => None end
  end.

(** A strict prefix of the path leads to something that is no object. *)
Fixpoint blocked (keys : list string) (o : json_map) : Prop :=
  match keys with
  | [] | [_] => False
  | key :: keys => match at_key key o with
                   | Some (JObj o') => blocked keys o'
                   | Some _ => True
                   | None => False
                   end
  end.

Lemma chain_unchanged_cases keys o :
  keys ≠ [] →
  (chain_unchanged keys o = Ok true ∧ json_at keys o = None ∧ ¬ blocked keys o) ∨
  (chain_unchanged keys o = Ok false ∧ is_Some (json_at keys o) ∧ ¬ blocked keys o) ∨
  ((∃ w, chain_unchanged keys o = Panic w) ∧ json_at keys o = None ∧ blocked keys o).
Proof.
  revert o. induction keys as [|k [|k' keys] IH]; intros o Hne; [done|..].
  - cbn. destruct (at_key k o) as [v|]; [right; left|left]; split_and!; try done; try by eexists. all: tauto.
  - cbn -[json_at chain_unchanged blocked]. cbn [chain_unchanged json_at blocked].
    destruct (at_key k o) as [[]|]; try (right; right; split; [by eexists|by split]); [|left; split_and!; [done..|tauto]].
    by apply IH.
Qed.

(** Checking a path: the check fails exactly when the patch has a value at the path,
    and panics exactly when it has something other than an object above it. *)
Theorem chain_unchanged_spec key patch :
  let keys := Split "."%char key in
  (checkChainKeyUnchanged key patch = Ok false ↔ is_Some (json_at keys patch)) ∧
  ((∃ w, checkChainKeyUnchanged key patch = Panic w) ↔ blocked keys patch) ∧
  (∀ e, checkChainKeyUnchanged key patch ≠ Err e).
Proof.
  intros keys. unfold checkChainKeyUnchanged. fold keys.
  assert (keys ≠ []) as Hne by apply Split_nonempty.
  destruct (chain_unchanged_cases keys patch Hne) as [(-> & -> & Hb)|[(-> & Hs & Hb)|((w & ->) & -> & Hb)]];
    unfold is_Some in *; naive_solver.
Qed.

(** ** Comments *)
Definition kept (line : string) : bool := negb (is_comment line).

Lemma is_comment_nil : is_comment "" = false.
Proof. done. Qed.

Lemma Split_line (line rest : string) :
  has_byte nl line = false → Split nl (line +:+ String nl rest) = line :: Split nl rest.
Proof.
  intros H. change (String nl rest) with (String nl "" +:+ rest).
  induction line as [|c line IH]; [done|]. simpl in *.
  apply orb_false_iff in H as [Hc H]. rewrite bool_decide_eq_false in Hc.
  rewrite decide_False by done. by rewrite IH.
Qed.

Lemma Split_lines (s : string) : Forall (λ l, has_byte nl l = false) (Split nl s).
Proof.
  induction s as [|c s IH]; [by repeat constructor|]. simpl. case_decide as Hc; [by constructor|].
  pose proof (Split_nonempty nl s) as Hne. destruct (Split nl s) as [|w ws]; [done|].
  inversion IH as [|?? Hw Hws]; subst. constructor; [|done].
  simpl. rewrite Hw, orb_false_r. by apply bool_decide_eq_false.
Qed.

Lemma strip_lines_split lines :
  lines ≠ [] → Forall (λ l, has_byte nl l = false) lines →
  Split nl (strip_lines lines) =
    List.filter kept lines ++ (if is_comment (List.last lines "") then [""] else []).
Proof.
  intros Hne H. induction H as [|l lines Hl H IH]; [done|]. destruct lines as [|l' lines].
  - simpl. unfold kept. destruct (is_comment l) eqn:E; simpl; [done|]. by rewrite Split_no_sep.
  - specialize (IH ltac:(done)). change (List.last (l :: l' :: lines) "") with (List.last (l' :: lines) "").
    cbn [strip_lines List.filter]. unfold kept at 1. destruct (is_comment l) eqn:E; cbn [negb].
    + exact IH.
    + rewrite append_assoc. etrans; [exact (Split_line l (strip_lines (l' :: lines)) Hl)|]. by rewrite IH.
Qed.

Lemma strip_lines_kept lines :
  lines ≠ [] → Forall (λ l, kept l = true) lines → strip_lines lines = Join newline lines.
Proof.
  intros Hne H. induction H as [|l lines Hl H IH]; [done|]. unfold kept in Hl.
  destruct (is_comment l) eqn:E; [done|]. destruct lines as [|l' lines].
  - simpl. by rewrite E.
  - specialize (IH ltac:(done)).
    change (strip_lines (l :: l' :: lines)) with
      ((if is_comment l then "" else l +:+ newline) +:+ strip_lines (l' :: lines)).
    by rewrite E, append_assoc, IH.
Qed.

Lemma Join_Split_nl (s : string) : Join newline (Split nl s) = s.
Proof.
  induction s as [|c s IH]; [done|]. simpl. pose proof (Split_nonempty nl s) as Hne.
  case_decide as Hc.
  - subst c. destruct (Split nl s) as [|w ws]; [done|].
    change (Join newline ("" :: w :: ws)) with (String nl (Join newline (w :: ws))). by rewrite IH.
  - destruct (Split nl s) as [|w ws]; [done|]. destruct ws; cbn [Join] in *; by rewrite <-IH.
Qed.

(** [ManualStrip] keeps the lines that are no comments, in their order (a comment on
    the last line leaves an empty one), and so doing it twice is doing it once. *)
Theorem manual_strip_lines file :
  Split nl (ManualStrip file) =
    List.filter kept (Split nl file) ++ (if is_comment (List.last (Split nl file) "") then [""] else []) ∧
  ManualStrip (ManualStrip file) = ManualStrip file.
Proof.
  assert (Hs : Split nl (ManualStrip file) =
    List.filter kept (Split nl file) ++ (if is_comment (List.last (Split nl file) "") then [""] else [])).
  { apply strip_lines_split; [apply Split_nonempty|apply Split_lines]. }
  split; [done|]. unfold ManualStrip at 1. rewrite strip_lines_kept.
  - apply Join_Split_nl.
  - apply Split_nonempty.
  - rewrite Hs. apply Forall_app. split.
    + apply Forall_forall. intros l Hl%list_elem_of_In. by apply filter_In in Hl as [_ ?].
    + destruct (is_comment _); repeat constructor.
Qed.

(** ** The guarded fields *)
Definition edited_kinds : list string := [ResourceKindCluster; ResourceKindNodeGroup; ResourceKindCredential].

Definition absent (patch : json_map) (field : string) : bool :=
  match json_at (Split "."%char field) patch with Some _ => false | None => true end.

Lemma all_hold_spec fields patch :
  (∀ f, f ∈ fields → ¬ blocked (Split "."%char f) patch) →
  all_hold (RequireChainKeyUnchanged <$> fields) patch = Ok (forallb (absent patch) fields).
Proof.
  induction fields as [|f fields IH]; intros Hb; [done|].
  cbn [all_hold fmap list_fmap forallb]. unfold absent at 1.
  change (RequireChainKeyUnchanged f patch) with (chain_unchanged (Split "."%char f) patch).
  destruct (chain_unchanged_cases (Split "."%char f) patch (Split_nonempty _ _))
    as [(-> & -> & _)|[(-> & [v ->] & _)|(_ & _ & H)]]; [|done|by destruct (Hb f ltac:(left))].
  apply IH. intros g Hg. apply Hb. by right.
Qed.

Lemma all_absent fields patch :
  forallb (absent patch) fields = true ↔
  ∀ f, f ∈ fields → json_at (Split "."%char f) patch = None.
Proof.
  rewrite forallb_forall. unfold absent. split; intros H f Hf.
  - apply list_elem_of_In, H in Hf. by destruct (json_at _ _).
  - apply list_elem_of_In, H in Hf. by rewrite Hf.
Qed.

Lemma preconditions_hold kind patch :
  kind ∈ edited_kinds →
  (∀ f, f ∈ PreconditionSpecField kind → json_at (Split "."%char f) patch = None) →
  forallb (λ fn : PreconditionFunc, fn patch) GetPreconditionFunc = true ↔
  ∀ k, k ∈ ["apiVersion"; "kind"; "status"] → at_key k patch = None.
Proof.
  intros Hk Hf. assert (Hm : at_key "metadata" patch = None).
  { apply (Hf "metadata"). unfold edited_kinds in Hk. rewrite !elem_of_cons in Hk.
    destruct Hk as [->|[->|[->|[]%not_elem_of_nil]]]; left. }
  unfold GetPreconditionFunc, RequireKeyUnchanged, RequireMetadataKeyUnchanged. cbn [forallb]. rewrite Hm.
  rewrite !andb_true_iff. split.
  - intros (H1 & H2 & _ & _ & H3 & _) k Hin. rewrite !elem_of_cons in Hin.
    destruct Hin as [->|[->|[->|[]%not_elem_of_nil]]];
      by match goal with |- at_key ?k patch = None => destruct (at_key k patch) end.
  - intros H. rewrite !H by (rewrite !elem_of_cons; tauto). done.
Qed.

(** The fields listed for a cluster under "spec." are none of its fields: a patch of its
    whole configuration, the cloud with it, reaches none of them. *)
Lemma cloud_unguarded config :
  let patch := [("spec", JObj [("config", config)])] in
  forallb (λ fn : PreconditionFunc, fn patch) GetPreconditionFunc = true ∧
  all_hold (GetConditionalPreconditionFunc ResourceKindCluster) patch = Ok true.
Proof. done. Qed.

#[local] Arguments GetPreconditionFunc : simpl never.

Section accepted.
Context `{!Texts} {O : Type} `{!EditCodec O}.

(** [C26] An edit that the libraries can express as a patch is accepted exactly when it
    changes something and the patch has no value at a guarded path: the versions, the
    status, and the fields listed for the kind. *)
Theorem check_edit_guards kind (original updated : option O) ob oj ub uj patch text :
  yaml_Marshal original = Ok ob → ToJSON ob = Ok oj →
  yaml_Marshal updated = Ok ub → ToJSON ub = Ok uj →
  two_way_diff (O := O) oj uj = Ok patch → json_Marshal patch = Ok text → json_Unmarshal text = Ok patch →
  kind ∈ edited_kinds →
  (∀ f, f ∈ PreconditionSpecField kind → ¬ blocked (Split "."%char f) patch) →
  check_edit kind original updated = Ok () ↔
  StripComments ob ≠ StripComments ub ∧
  (∀ k, k ∈ ["apiVersion"; "kind"; "status"] → at_key k patch = None) ∧
  (∀ f, f ∈ PreconditionSpecField kind → json_at (Split "."%char f) patch = None).
Proof.
  intros Ho Hoj Hu Huj Hd Hm Hum Hk Hb. unfold check_edit. rewrite Ho. cbn. rewrite Hoj. cbn. rewrite Hu. cbn.
  rewrite Huj. cbn. case_decide as Hs; [split; [done|tauto]|]. rewrite Hd. cbn.
  unfold CheckConditionalPrecondition, GetConditionalPreconditionFunc.
  destruct (forallb (λ fn : PreconditionFunc, fn patch) GetPreconditionFunc) eqn:Hp; cbn [negb].
  - rewrite Hm. cbn. rewrite Hum. cbn. rewrite all_hold_spec by done. cbn.
    destruct (forallb (absent patch) _) eqn:Ha; cbn.
    + rewrite all_absent in Ha. split; [|done]. intros _. split; [done|]. split; [|done].
      by apply (preconditions_hold kind).
    + split; [done|]. intros (_ & _ & Hf). apply all_absent in Hf. congruence.
  - split; [done|]. intros (_ & H1 & H2). apply (preconditions_hold kind) in H1; [|done..]. congruence.
Qed.

(** ** The editor *)
Context {S : Type} (printed : outcome string) (update : option O → GoM S ()).
Implicit Types (s : S) (sessions : list (string → outcome string)).

(** What an edit the loop passes on has to be: parsed, and other than the original. *)
Definition saved (originalByte : string) (u : option O) : Prop :=
  ∃ text, yaml_Unmarshal (StripComments text) = Ok u ∧ StripComments originalByte ≠ StripComments text.

Lemma edit_loop_writes sessions originalByte edited reasons s :
  (edit_loop printed update sessions true originalByte edited reasons s).2 = s ∨
  ∃ u, saved originalByte u ∧
       edit_loop printed update sessions true originalByte edited reasons s = update u s.
Proof.
  revert edited reasons. induction sessions as [|f sessions IH]; intros edited reasons; [by left|].
  cbn [edit_loop]. unfold mbind, gom_bind, lift, mret, gom_ret, attempt. cbn [fst snd].
  destruct (f _) as [text|e|w]; [|by left..].
  destruct (true && _); [by left|]. case_decide as Hne; [by left|].
  destruct (yaml_Unmarshal _) as [u|e|w] eqn:Eu; [| |by left].
  - right. exists u. split; [by exists text|done].
  - destruct (IH text (reasons ++ ["The edited file had a syntax error: " +:+ e])) as [Hi|Hi]; [by left|by right].
Qed.

(** [C27] An editing session writes at most once, and then what the user saved last: a text
    that parses and differs from the original.  Saving a text that does not parse a
    second time ends it, with nothing written. *)
Theorem edit_writes_once sessions p s :
  printed = Ok p →
  let original := header [] +:+ p in
  ((editFn printed update sessions s).2 = s ∨
   ∃ u, saved original u ∧ editFn printed update sessions s = update u s) ∧
  ∀ f1 f2 t1 t2 e,
    f1 original = Ok t1 → StripComments original ≠ StripComments t1 →
    yaml_Unmarshal (O := O) (StripComments t1) = Err e →
    f2 (header ["The edited file had a syntax error: " +:+ e] +:+ ManualStrip t1) = Ok t2 →
    StripComments t2 = StripComments t1 →
    editFn printed update (f1 :: f2 :: sessions) s =
      (Err "Edit cancelled, no valid changes were saved.", s).
Proof.
  intros Hp original. split.
  - unfold editFn. destruct sessions as [|f sessions]; [left; by rewrite Hp|].
    cbn [edit_loop]. rewrite Hp. unfold mbind, gom_bind, lift, mret, gom_ret, attempt.
    cbn -[header]. fold original. destruct (f original) as [text|e|w]; [|by left..].
    case_decide as Hne; [by left|]. destruct (yaml_Unmarshal _) as [u|e|w] eqn:Eu; [| |by left].
    + right. exists u. split; [by exists text|done].
    + destruct (edit_loop_writes sessions original text ["The edited file had a syntax error: " +:+ e] s)
        as [Hi|Hi]; rewrite Hp in Hi; [left; exact Hi|right; exact Hi].
  - intros f1 f2 t1 t2 e H1 Hne He H2 Heq. unfold editFn. cbn [edit_loop]. rewrite Hp.
    unfold mbind, gom_bind, lift, mret, gom_ret, attempt. cbn -[header ManualStrip]. fold original.
    rewrite H1, decide_False by done. cbn -[header ManualStrip]. rewrite He. cbn -[header ManualStrip].
    rewrite H2. by rewrite Heq, bool_decide_eq_true_2.
Qed.
End accepted.
