(* ===== verification/Printing.v ===== *)
(** * Printing and describing (utils/printer, utils/describer)

    What `pharmer get` and `pharmer describe` write.  The printers keep a state: the
    human-readable one remembers the type it printed last, the YAML one how many
    objects it has printed.  Handlers are registered by their signature, which is
    checked by reflection; a text is what goes to the [text/tabwriter], before it
    aligns the cells.  Durations are in float64, as [SpecFloat] computes them. *)
From stdpp Require Import base list gmap strings pretty.
From Stdlib Require Import Ascii SpecFloat.
From S2P Require Import Prelude GoStrings Api StoreSpec Edit.

(** ** Types of Go values, as [reflect] tells them *)
Inductive gotype :=
  | TCluster | TMachineSet | TCredential | TMachineSetStore | TWriter | TPrintOptions
  | TDescriberSettings | TString | TError.

#[export] Instance gotype_eq_dec : EqDecision gotype.
Proof. solve_decision. Defined.

Record funcType := { In : list gotype; Out : list gotype }.

Inductive object := OCluster (c : Cluster) | OMachineSet (ms : MachineSet) | OCredential (c : Credential).

Definition TypeOf (o : object) : gotype :=
  match o with OCluster _ => TCluster | OMachineSet _ => TMachineSet | OCredential _ => TCredential end.

(** [Type.String] qualifies a type by the name of its package. *)
Definition type_String (t : gotype) : string :=
  match t with
  | TCluster => "*v1alpha1.Cluster"          (* pharmer.dev/pharmer/apis/v1alpha1 *)
  | TMachineSet => "*v1alpha1.MachineSet"    (* sigs.k8s.io/cluster-api/pkg/apis/cluster/v1alpha1 *)
  | TCredential => "*v1.Credential"          (* pharmer.dev/cloud/apis/cloud/v1 *)
  | TMachineSetStore => "store.MachineSetStore"
  | TWriter => "io.Writer"
  | TPrintOptions => "printer.PrintOptions"
  | TDescriberSettings => "describe.DescriberSettings"
  | TString => "string"
  | TError => "error"
  end.

(** ** Durations: package time *)
Definition Nanosecond : Z := 1.
Definition Second : Z := 1000000000.
Definition Minute : Z := 60 * Second.
Definition Hour : Z := 60 * Minute.

Definition float64 (n : Z) : spec_float := binary_normalize 53 1024 n 0 false.
Definition fadd : spec_float → spec_float → spec_float := SFadd 53 1024.
Definition fdiv : spec_float → spec_float → spec_float := SFdiv 53 1024.

(** [int(f)], towards zero. *)
Definition int (f : spec_float) : Z :=
  match f with
  | S754_finite s m e =>
      let v := if decide (0 ≤ e)%Z then Z.shiftl (Zpos m) e else Z.shiftr (Zpos m) (- e) in
      if s then (- v)%Z else v
  | _ => 0%Z
  end.

Definition in_units (unit d : Z) : spec_float :=
  fadd (float64 (Z.quot d unit)) (fdiv (float64 (Z.rem d unit)) (float64 unit)).

Definition Seconds : Z → spec_float := in_units Second.
Definition Minutes : Z → spec_float := in_units Minute.
Definition Hours : Z → spec_float := in_units Hour.

(** [Time.Sub], saturated to the range of an int64. *)
Definition Sub (t u : Time) : Z := Z.max (- 2 ^ 63) (Z.min (2 ^ 63 - 1) (t - u)).

Definition ShortHumanDuration (d : Z) : string :=
  let seconds := int (Seconds d) in
  let minutes := int (Minutes d) in
  let hours := int (Hours d) in
  if decide (seconds ≤ 0)%Z then "0s"
  else if decide (seconds < 60)%Z then pretty seconds +:+ "s"
  else if decide (minutes < 60)%Z then pretty minutes +:+ "m"
  else if decide (hours < 24)%Z then pretty hours +:+ "h"
  else if decide (hours < 24 * 364)%Z then pretty (Z.quot hours 24) +:+ "d"
  else pretty (int (fdiv (fdiv (Hours d) (float64 24)) (float64 365))) +:+ "y".

(** The zero time is printed as unknown. *)
Definition TranslateTimestamp (now timestamp : Time) : string :=
  if decide (timestamp = 0%Z) then "<unknown>" else ShortHumanDuration (Sub now timestamp).

(** ** The human-readable printer *)
Definition PrintOptions : Type := bool.   (* Wide *)

(** Fields the objects of the model leave out, and the text of a credential. *)
Class PrintedFields := {
  meta_ClusterName : ObjectMeta → string;
  template_Name : MachineSetSpec → string;
  template_Namespace : MachineSetSpec → string;
  CommonSpec_String : CredentialSpec → string
}.

Definition getColumns (t : gotype) : list string :=
  let s := type_String t in
  "NAME" ::
  if decide (s = "*v1alpha1.Cluster") then ["PROVIDER"; "ZONE"; "VERSION"; "RUNNING SINCE"; "STATUS"]
  else if decide (s = "*v1alpha1.NodeGroup") then ["Cluster"; "Node"; "SKU"]
  else if decide (s = "*v1alpha1.Credential") then ["Provider"; "Data"]
  else if decide (s = "*cluster.k8s.io/v1alpha1") then ["Cluster"; "Node"; "SKU"]
  else [].

(** What [fmt.Fprintf] writes with "%s\t" for each. *)
Definition cells (l : list string) : string := String.concat "" ((λ c, c +:+ tab) <$> l).

Section human.
Context `{!PrintedFields}.

Definition printCluster (item : Cluster) (now : Time) : string :=
  let cl := Cloud (Config (Spec item)) in
  cells [cluster_Name item; CloudProviderName cl; Zone cl; KubernetesVersion (Config (Spec item));
         TranslateTimestamp now (CreationTimestamp (cluster_ObjectMeta item));
         Phase (Status item)] +:+ newline.

Definition printMachineSet (item : MachineSet) : string :=
  cells [machineset_Name item; meta_ClusterName (machineset_ObjectMeta item);
         template_Name (machineset_Spec item); template_Namespace (machineset_Spec item)] +:+ newline.

Definition printCredential (item : Credential) : string :=
  cells [cred_Name item; cred_Provider (cred_Spec item); CommonSpec_String (cred_Spec item)] +:+ newline.

(** A print function called by reflection. *)
Definition print_func : Type := object → Time → outcome string.
Definition bad_call : outcome string := Panic "reflect: Call using value of another type".

Record HumanReadablePrinter := {
  handlerMap : list (gotype * print_func);
  options : PrintOptions;
  lastType : option gotype;
  enablePrintHeader : bool
}.

Definition validatePrintHandlerFunc (f : funcType) : outcome () :=
  if negb (bool_decide (length (In f) = 3)) || negb (bool_decide (length (Out f) = 1))
  then Err "invalid print handler.Must accept 3 parameters and return 1 value."
  else if negb (bool_decide (In f !! 1 = Some TWriter)) || negb (bool_decide (In f !! 2 = Some TPrintOptions)) ||
          negb (bool_decide (Out f !! 0 = Some TError))
  then Err "invalid print handler. The expected signature is: func handler(obj, w io.Writer, options PrintOptions) error"
  else Ok ().

Definition PrintHandler (f : funcType) (print : print_func) (h : list (gotype * print_func)) :
    outcome (list (gotype * print_func)) :=
  _ ← validatePrintHandlerFunc f;
  match In f with
  | objType :: _ => Ok ((objType, print) :: h)
  | [] => Panic "reflect: Func index out of bounds"
  end.

(** A handler that is refused is left out: the error of [Handler] is dropped. *)
Definition add_handler (f : funcType) (print : print_func) (h : list (gotype * print_func)) :
    list (gotype * print_func) :=
  match PrintHandler f print h with Ok h' => h' | _ => h end.

Definition print_type (t : gotype) : funcType := {| In := [t; TWriter; TPrintOptions]; Out := [TError] |}.

Definition addDefaultHandlers : list (gotype * print_func) :=
  add_handler (print_type TMachineSet) (λ o _, match o with OMachineSet m => Ok (printMachineSet m) | _ => bad_call end)
  (add_handler (print_type TCredential) (λ o _, match o with OCredential c => Ok (printCredential c) | _ => bad_call end)
  (add_handler (print_type TCluster) (λ o now, match o with OCluster c => Ok (printCluster c now) | _ => bad_call end) [])).

Definition NewHumanReadablePrinter (o : PrintOptions) : HumanReadablePrinter :=
  {| handlerMap := addDefaultHandlers; options := o; lastType := None; enablePrintHeader := true |}.

Definition printHeader (columnNames : list string) : string := Join tab columnNames +:+ newline.

Definition find_handler {A} (t : gotype) (h : list (gotype * A)) : option A :=
  snd <$> List.find (λ e, bool_decide (e.1 = t)) h.

(** [HumanReadablePrinter.PrintObj] *)
Definition human_PrintObj (h : HumanReadablePrinter) (obj : object) (now : Time) :
    outcome (string * HumanReadablePrinter) :=
  let t := TypeOf obj in
  match find_handler t (handlerMap h) with
  | None => Err ("pharmer doesn't support: " +:+ type_String t)
  | Some printFunc =>
      let '(head, h') :=
        if bool_decide (Some t ≠ lastType h) || enablePrintHeader h
        then (match lastType h with Some _ => newline | None => "" end +:+ printHeader (getColumns t),
              {| handlerMap := handlerMap h; options := options h; lastType := Some t; enablePrintHeader := false |})
        else ("", h) in
      row ← printFunc obj now;
      Ok (head +:+ row, h')
  end.

(** ** utils/printer/printer.go *)

(** The printers of k8s.io/cli-runtime; the YAML printer separates the documents it
    prints, and so counts them. *)
Class Marshalling := {
  JSON_PrintObj : object → outcome string;
  YAML_PrintObj : nat → object → outcome string
}.
Context `{!Marshalling}.

Inductive ResourcePrinter :=
  | JSONPrinter | YAMLPrinter (printCount : nat) | HumanReadable (h : HumanReadablePrinter).

Definition NewPrinter (format : string) : outcome ResourcePrinter :=
  let humanReadablePrinter := NewHumanReadablePrinter (bool_decide (format = "wide")) in
  if decide (format = "json") then Ok JSONPrinter
  else if decide (format = "yaml") then Ok (YAMLPrinter 0)
  else if decide (format = "wide" ∨ format = "") then Ok (HumanReadable humanReadablePrinter)
  else Err ("output format " +:+ format +:+ " not recognized").

Definition PrintObj (p : ResourcePrinter) (obj : object) (now : Time) : outcome (string * ResourcePrinter) :=
  match p with
  | JSONPrinter => text ← JSON_PrintObj obj; Ok (text, JSONPrinter)
  | YAMLPrinter n => text ← YAML_PrintObj (S n) obj; Ok (text, YAMLPrinter (S n))
  | HumanReadable h => r ← human_PrintObj h obj now; Ok (r.1, HumanReadable r.2)
  end.

(** The printer of an object to edit and the extension of its file. *)
Definition NewEditPrinter (format : string) : outcome (ResourcePrinter * string) :=
  if decide (format = "json") then Ok (JSONPrinter, ".json")
  else if decide (format = "yaml" ∨ format = "") then Ok (YAMLPrinter 0, ".yaml")
  else Err "The flag 'output' must be one of yaml|json".
End human.

(** ** utils/describer/describer.go *)
Definition validateDescribeHandlerFunc (f : funcType) : outcome () :=
  if negb (bool_decide (length (In f) = 2)) || negb (bool_decide (length (Out f) = 2))
  then Err "invalid describe handler.Must accept 2 parameters and return 2 value."
  else if negb (bool_decide (In f !! 1 = Some TDescriberSettings)) ||
          negb (bool_decide (Out f !! 0 = Some TString)) || negb (bool_decide (Out f !! 1 = Some TError))
  then Err "invalid describe handler. The expected signature is: func handler(item, describerSettings)"
  else Ok ().

Definition describe_handler : Type := gotype * (Cluster → outcome string).

Definition Handler (f : funcType) (describe : Cluster → outcome string) (h : list describe_handler) :
    outcome (list describe_handler) :=
  _ ← validateDescribeHandlerFunc f;
  match In f with
  | objType :: _ => Ok ((objType, describe) :: h)
  | [] => Panic "reflect: Func index out of bounds"
  end.

(** The signature of [describeCluster] (pharmer_describer.go) as a method value. *)
Definition describeCluster_type : funcType :=
  {| In := [TMachineSetStore; TCluster; TDescriberSettings]; Out := [TString; TError] |}.

(** The error of [Handler] is dropped. *)
Definition newHumanReadableDescriber (describe : Cluster → outcome string) : list describe_handler :=
  match Handler describeCluster_type describe [] with
  | Ok h => h
  | _ => []
  end.

Definition Describe (h : list describe_handler) (t : gotype) (obj : Cluster) : outcome string :=
  match find_handler t h with
  | Some describe => describe obj
  | None => Err "pharmer doesn't support this type"
  end.

(** utils/describer/pharmer_describer.go; [tabbedString] aligns the text. *)
Fixpoint describe_rows (nodeGroups : list MachineSet) : outcome string :=
  match nodeGroups with
  | [] => Ok ""
  | ng :: nodeGroups =>
      match Replicas (machineset_Spec ng) with
      | None => Panic "invalid memory address or nil pointer dereference"
      | Some n =>
          rest ← describe_rows nodeGroups;
          Ok ("  " +:+ machineset_Name ng +:+ tab +:+ pretty n +:+ newline +:+ rest)
      end
  end.

Definition describeMachineSets (nodeGroups : list MachineSet) : outcome string :=
  match nodeGroups with
  | [] => Ok ("No NodeGroup." +:+ newline)
  | _ =>
      rows ← describe_rows nodeGroups;
      Ok ("NodeGroup:" +:+ newline +:+ "  Name" +:+ tab +:+ "Node" +:+ newline +:+
          "  ----" +:+ tab +:+ "------" +:+ newline +:+ rows)
  end.

Definition describeCluster {S} (machinesetStore : store_ops S MachineSet) (item : Cluster) : GoM S string :=
  nodeGroups ← op_List machinesetStore;
  sets ← lift (describeMachineSets nodeGroups);
  mret ("Name:" +:+ tab +:+ cluster_Name item +:+ newline +:+
        "Version:" +:+ tab +:+ KubernetesVersion (Config (Spec item)) +:+ newline +:+ sets).
