(* ===== verification/Cmds.v ===== *)
(** * The commands (cmds/cloud, cmds/credential, cloud/ssh.go, utils/describer)

    What the commands do once their options are read: over the store alone in
    [GoM (S * nat)] (the store and the clock), over the cloud package in [GoM env].
    A command's output is the text it prints; an error or the end of the process is
    the outcome.  [term.Fatalln] and [term.ExitOnError] end the process: [Panic]. *)
From stdpp Require Import base list gmap strings pretty fin_maps.
From Stdlib Require Import Ascii.
From S2P Require Import Prelude GoStrings Api StoreSpec Provider Certs Kube Cloud Apply Options Edit Printing.

(** ** options/cluster_create_options.go *)
Module ClusterCreateConfig.
Record t := Make {
  Cluster_ : Cluster; Nodes : list (string * Z); Namespace_ : string; MasterCount_ : Z
}.

Definition NewClusterCreateConfig (uid : string) (created : Time) (generation : Z) : t :=
  let cloud := {| CloudProviderName := ""; Project := ""; Region := ""; Zone := ""; InstanceImage := "";
                  OSName := ""; InstanceImageProject := ""; NetworkProvider := PodNetworkCalico;
                  SSHKeyName := ""; spec_AWS := None; spec_GCE := None; spec_Azure := None;
                  spec_Linode := None; spec_GKE := None; spec_Dokube := None |} in
  let cluster := {| cluster_TypeMeta := zero_TypeMeta;
                    cluster_ObjectMeta := with_identity (named "") uid created generation;
                    Spec := {| ClusterAPI := zero_CapiCluster; Config := with_Cloud zero_Config cloud;
                               AuditSink := false |};
                    Status := zero_Status |} in
  Make cluster [] "default" 1.

Definition AddFlags `{!Pflag} (c : t) (fs : flagset) : t :=
  let s := Spec (Cluster_ c) in let cfg := Config s in let cl := Cloud cfg in
  let cloud := {| CloudProviderName := StringVar fs "provider" (CloudProviderName cl);
                  Project := Project cl; Region := Region cl; Zone := StringVar fs "zone" (Zone cl);
                  InstanceImage := InstanceImage cl; OSName := OSName cl;
                  InstanceImageProject := InstanceImageProject cl;
                  NetworkProvider := StringVar fs "network-provider" (NetworkProvider cl);
                  SSHKeyName := SSHKeyName cl; spec_AWS := spec_AWS cl; spec_GCE := spec_GCE cl;
                  spec_Azure := spec_Azure cl; spec_Linode := spec_Linode cl; spec_GKE := spec_GKE cl;
                  spec_Dokube := spec_Dokube cl |} in
  let config := {| MasterCount := MasterCount cfg; Cloud := cloud;
                   KubernetesVersion := StringVar fs "kubernetes-version" (KubernetesVersion cfg);
                   CredentialName := StringVar fs "credential-uid" (CredentialName cfg);
                   SSHUserName := SSHUserName cfg; KubeletExtraArgs := KubeletExtraArgs cfg;
                   APIServerExtraArgs := APIServerExtraArgs cfg;
                   ControllerManagerExtraArgs := ControllerManagerExtraArgs cfg;
                   SchedulerExtraArgs := SchedulerExtraArgs cfg;
                   AuthorizationModes := AuthorizationModes cfg;
                   APIServerCertSANs := APIServerCertSANs cfg |} in
  Make (with_Spec (Cluster_ c) {| ClusterAPI := ClusterAPI s; Config := config;
                                  AuditSink := BoolVar fs "audit-sink" (AuditSink s) |})
       (StringToIntVar fs "nodes" (Nodes c)) (StringVar fs "namespace" (Namespace_ c))
       (IntVar fs "masters" (MasterCount_ c)).

Definition rename (m : ObjectMeta) (name ns : string) : ObjectMeta :=
  {| Name := name; Namespace := ns; UID := UID m; Generation := Generation m;
     CreationTimestamp := CreationTimestamp m; DeletionTimestamp := DeletionTimestamp m;
     Labels := Labels m; Annotations := Annotations m |}.

Definition with_MasterCount (c : ClusterConfig) (n : Z) : ClusterConfig :=
  {| MasterCount := n; Cloud := Cloud c; KubernetesVersion := KubernetesVersion c;
     CredentialName := CredentialName c; SSHUserName := SSHUserName c;
     KubeletExtraArgs := KubeletExtraArgs c; APIServerExtraArgs := APIServerExtraArgs c;
     ControllerManagerExtraArgs := ControllerManagerExtraArgs c;
     SchedulerExtraArgs := SchedulerExtraArgs c; AuthorizationModes := AuthorizationModes c;
     APIServerCertSANs := APIServerCertSANs c |}.

Definition ValidateFlags (c : t) (fs : flagset) (args : list string) : outcome t :=
  _ ← EnsureRequiredFlags fs ["provider"; "zone"; "kubernetes-version"];
  arg ← one_name "cluster" args;
  let name := ToLower arg in
  let cl := with_ObjectMeta (Cluster_ c)
              (rename (cluster_ObjectMeta (Cluster_ c)) name (Namespace (cluster_ObjectMeta (Cluster_ c)))) in
  let a := ClusterAPI (Spec cl) in
  let a := {| capi_TypeMeta := capi_TypeMeta a;
              capi_ObjectMeta := rename (capi_ObjectMeta a) name (Namespace_ c);
              capi_Spec := capi_Spec a; capi_Status := capi_Status a |} in
  let s := with_Config (with_ClusterAPI (Spec cl) a) (with_MasterCount (Config (Spec cl)) (MasterCount_ c)) in
  Ok (Make (with_Spec cl s) (Nodes c) (Namespace_ c) (MasterCount_ c)).
End ClusterCreateConfig.

(** ** Reading *)
Section reading.
Context {S Crt Key : Type} (sp : ResourceInterface S Crt Key).

(** [getClusterList], [getMachineSetList] and [getCredentialList]: the named objects
    in the order of the arguments, or all of them. *)
Definition get_list {O} (ops : store_ops S O) (args : list string) : GoM S (list O) :=
  match args with
  | [] => op_List ops
  | _ => map_each (op_Get ops) args
  end.

Definition getClusterList : list string → GoM S (list Cluster) := get_list (st_Clusters sp).
Definition getCredentialList : list string → GoM S (list Credential) := get_list (st_Credentials sp).
Definition getMachineSetList (cluster : string) : list string → GoM S (list MachineSet) :=
  get_list (st_MachineSets sp cluster).

Context `{!Clock, !PrintedFields, !Marshalling}.

(** The loops that print, with the printer they go on with; a [Since] reads the clock.
    What a failing command has written by then is left out. *)
Fixpoint print_all (rPrinter : ResourcePrinter) (objs : list object) : GoM (S * nat) (string * ResourcePrinter) :=
  match objs with
  | [] => mret ("", rPrinter)
  | obj :: objs =>
      now ← draw (λ n, Ok (time_now n));
      r ← lift (PrintObj rPrinter obj now);
      rest ← print_all r.2 objs;
      mret (r.1 +:+ newline +:+ rest.1, rest.2)
  end.

Definition runGetCluster (opts : ClusterGetConfig.t) : GoM (S * nat) string :=
  rPrinter ← lift (NewPrinter (ClusterGetConfig.Output opts));
  clusters ← on_store (getClusterList (ClusterGetConfig.Clusters opts));
  r ← print_all rPrinter (OCluster <$> clusters);
  mret r.1.

Definition RunGetCredential (opts : CredentialGetConfig.t) : GoM (S * nat) string :=
  rPrinter ← lift (NewPrinter (CredentialGetConfig.Output opts));
  credentials ← on_store (getCredentialList (CredentialGetConfig.Credentials opts));
  r ← print_all rPrinter (OCredential <$> credentials);
  mret r.1.

(** The loop over the clusters: one printer for all of them. *)
Fixpoint print_nodegroups (rPrinter : ResourcePrinter) (names clusterList : list string) : GoM (S * nat) string :=
  match clusterList with
  | [] => mret ""
  | cluster :: clusterList =>
      nodegroups ← on_store (getMachineSetList cluster names);
      r ← print_all rPrinter (OMachineSet <$> nodegroups);
      rest ← print_nodegroups r.2 names clusterList;
      mret (r.1 +:+ rest)
  end.

Definition runGetNodeGroup (opts : NodeGroupGetConfig.t) : GoM (S * nat) string :=
  rPrinter ← lift (NewPrinter (NodeGroupGetConfig.Output opts));
  clusterList ← (if decide (NodeGroupGetConfig.ClusterName opts = "")
                 then clusters ← on_store (op_List (st_Clusters sp)); mret (cluster_Name <$> clusters)
                 else mret [NodeGroupGetConfig.ClusterName opts]);
  print_nodegroups rPrinter (NodeGroupGetConfig.NodeGroups opts) clusterList.

(** cmds/cloud/describe_cluster.go *)
Fixpoint describe_all (rDescriber : list describe_handler) (first : bool) (clusters : list Cluster) : outcome string :=
  match clusters with
  | [] => Ok ""
  | cluster :: clusters =>
      match Describe rDescriber TCluster cluster with
      | Err _ => describe_all rDescriber first clusters
      | Panic w => Panic w
      | Ok s =>
          rest ← describe_all rDescriber false clusters;
          Ok ((if first then s else newline +:+ newline +:+ s) +:+ rest)
      end
  end.

Definition RunDescribeCluster (describe : Cluster → outcome string) (opts : ClusterDescribeConfig.t) : GoM S string :=
  clusters ← getClusterList (ClusterDescribeConfig.Clusters opts);
  lift (describe_all (newHumanReadableDescriber describe) true clusters).
End reading.

(** ** Editing and deleting objects *)
Section editing.
Context {S Crt Key : Type} `{!Clock, !Texts} (sp : ResourceInterface S Crt Key).
Context `{!EditCodec Cluster, !EditCodec MachineSet, !EditCodec Credential}.
Context `{!PrintedFields, !Marshalling}.

(** cloud/util.go: ReadFileAs, with the file's text from the file system. *)
Context (read_file : string → outcome string).
Definition ReadFileAs {O} `{!EditCodec O} (path : string) : outcome (option O) :=
  d ← read_file path;
  yaml_Unmarshal d.

(** *** Clusters: cmds/cloud/edit_cluster.go *)
Definition with_CreationTimestamp (m : ObjectMeta) (now : Time) : ObjectMeta :=
  {| Name := Name m; Namespace := Namespace m; UID := UID m; Generation := Generation m;
     CreationTimestamp := now; DeletionTimestamp := DeletionTimestamp m;
     Labels := Labels m; Annotations := Annotations m |}.

Definition with_Generation (m : ObjectMeta) (generation : Z) : ObjectMeta :=
  {| Name := Name m; Namespace := Namespace m; UID := UID m; Generation := generation;
     CreationTimestamp := CreationTimestamp m; DeletionTimestamp := DeletionTimestamp m;
     Labels := Labels m; Annotations := Annotations m |}.

Definition with_KubernetesVersion (cfg : ClusterConfig) (v : string) : ClusterConfig :=
  {| MasterCount := MasterCount cfg; Cloud := Cloud cfg; KubernetesVersion := v;
     CredentialName := CredentialName cfg; SSHUserName := SSHUserName cfg;
     KubeletExtraArgs := KubeletExtraArgs cfg; APIServerExtraArgs := APIServerExtraArgs cfg;
     ControllerManagerExtraArgs := ControllerManagerExtraArgs cfg;
     SchedulerExtraArgs := SchedulerExtraArgs cfg; AuthorizationModes := AuthorizationModes cfg;
     APIServerCertSANs := APIServerCertSANs cfg |}.

Definition updateGeneration (cluster : option Cluster) : GoM (S * nat) Cluster :=
  match cluster with
  | None => throw "missing Cluster"
  | Some cluster =>
      _ ← err_if (bool_decide (cluster_Name cluster = "")) "missing Cluster name";
      _ ← err_if (bool_decide (KubernetesVersion (Config (Spec cluster)) = "")) "missing Cluster version";
      existing ← on_err (λ e, "Cluster `" +:+ cluster_Name cluster +:+ "` does not exist. Reason: " +:+ e)
                        (on_store (op_Get (st_Clusters sp) (cluster_Name cluster)));
      generation ← draw (λ n, Ok (time_now n));
      let cluster := with_Status cluster (Status existing) in
      let cluster := with_ObjectMeta cluster (with_Generation (cluster_ObjectMeta cluster) generation) in
      on_store (op_Update (st_Clusters sp) (Some cluster))
  end.

Definition UpdateCluster (original updated : option Cluster) : GoM (S * nat) () :=
  _ ← lift (check_edit ResourceKindCluster original updated);
  _ ← updateGeneration updated;
  mret ().

Definition nil_local {T A} : GoM T A := panic "invalid memory address or nil pointer dereference".

Definition editCluster (opts : ClusterEditConfig.t) (sessions : list (string → outcome string))
    (original : Cluster) : GoM (S * nat) () :=
  o ← lift (NewEditPrinter (ClusterEditConfig.Output opts));
  editFn (fst <$> PrintObj o.1 (OCluster original) 0%Z) (UpdateCluster (Some original)) sessions.

Definition runUpdateCluster (opts : ClusterEditConfig.t) (sessions : list (string → outcome string)) :
    GoM (S * nat) () :=
  if decide (ClusterEditConfig.File opts ≠ "") then
    local ← lift (ReadFileAs (O := Cluster) (ClusterEditConfig.File opts));
    match local with
    | None => nil_local
    | Some local =>
        updated ← on_store (op_Get (st_Clusters sp) (cluster_Name local));
        let updated := with_Spec (with_ObjectMeta updated (cluster_ObjectMeta local)) (Spec local) in
        original ← on_store (op_Get (st_Clusters sp) (cluster_Name updated));
        UpdateCluster (Some original) (Some updated)
    end
  else
    original ← on_store (op_Get (st_Clusters sp) (ClusterEditConfig.ClusterName opts));
    if ClusterEditConfig.CheckForUpdateFlags opts then
      updated ← on_store (op_Get (st_Clusters sp) (ClusterEditConfig.ClusterName opts));
      let v := ClusterEditConfig.KubernetesVersion opts in
      let updated := if decide (v = "") then updated else
        with_Spec updated (with_Config (Spec updated) (with_KubernetesVersion (Config (Spec updated)) v)) in
      UpdateCluster (Some original) (Some updated)
    else editCluster opts sessions original.

(** *** Node groups: cmds/cloud/edit_nodegroup.go, delete_nodegroup.go *)
Definition UpdateNodeGroup (cluster : string) (original updated : option MachineSet) : GoM (S * nat) () :=
  _ ← lift (check_edit ResourceKindNodeGroup original updated);
  _ ← on_store (op_Update (st_MachineSets sp cluster) updated);
  mret ().

Definition editNodeGroup (opts : NodeGroupEditConfig.t) (sessions : list (string → outcome string))
    (original : MachineSet) : GoM (S * nat) () :=
  o ← lift (NewEditPrinter (NodeGroupEditConfig.Output opts));
  editFn (fst <$> PrintObj o.1 (OMachineSet original) 0%Z)
         (UpdateNodeGroup (NodeGroupEditConfig.ClusterName opts) (Some original)) sessions.

Definition RunUpdateNodeGroup (opts : NodeGroupEditConfig.t) (sessions : list (string → outcome string)) :
    GoM (S * nat) () :=
  let cluster := NodeGroupEditConfig.ClusterName opts in
  let machinesetStore := st_MachineSets sp cluster in
  if decide (NodeGroupEditConfig.File opts ≠ "") then
    local ← lift (ReadFileAs (O := MachineSet) (NodeGroupEditConfig.File opts));
    match local with
    | None => nil_local
    | Some local =>
        updated ← on_store (op_Get machinesetStore (machineset_Name local));
        let updated := {| machineset_TypeMeta := machineset_TypeMeta updated;
                          machineset_ObjectMeta := machineset_ObjectMeta local;
                          machineset_Spec := machineset_Spec local;
                          machineset_Status := machineset_Status updated |} in
        original ← on_store (op_Get machinesetStore (machineset_Name updated));
        UpdateNodeGroup cluster (Some original) (Some updated)
    end
  else
    original ← on_store (op_Get machinesetStore (NodeGroupEditConfig.NgName opts));
    if NodeGroupEditConfig.DoNotDelete opts then
      updated ← on_store (op_Get machinesetStore (NodeGroupEditConfig.NgName opts));
      UpdateNodeGroup cluster (Some original) (Some updated)
    else editNodeGroup opts sessions original.

Definition DeleteMachineSet (cluster setName : string) : GoM (S * nat) () :=
  _ ← err_if (bool_decide (setName = "")) "missing machineset name";
  mSet ← on_err (λ _, "machinset not found in pharmer db, try using kubectl")
                (on_store (op_Get (st_MachineSets sp cluster) setName));
  tm ← draw (λ n, Ok (time_now n));
  let mSet := {| machineset_TypeMeta := machineset_TypeMeta mSet;
                 machineset_ObjectMeta := with_DeletionTimestamp (machineset_ObjectMeta mSet) (Some tm);
                 machineset_Spec := machineset_Spec mSet; machineset_Status := machineset_Status mSet |} in
  _ ← on_store (op_Update (st_MachineSets sp cluster) (Some mSet));
  mret ().

(** [term.ExitOnError] *)
Definition ExitOnError {T A} (m : GoM T A) : GoM T A := λ s,
  match m s with
  | (Err e, s') => (Panic e, s')
  | r => r
  end.

(** The body of `pharmer delete nodegroup`. *)
Definition runDeleteNodeGroup (opts : NodeGroupDeleteConfig.t) (args : list string) : GoM (S * nat) () :=
  let cluster := NodeGroupDeleteConfig.ClusterName opts in
  nodeGroups ← ExitOnError (on_store (getMachineSetList sp cluster args));
  for_each (λ ng, ExitOnError (DeleteMachineSet cluster (machineset_Name ng))) nodeGroups.

(** *** Credentials: cmds/credential *)
Definition updateCredential (original updated : option Credential) : GoM (S * nat) () :=
  _ ← lift (check_edit ResourceKindCredential original updated);
  _ ← on_store (op_Update (st_Credentials sp) updated);
  mret ().

Definition editCredential (opts : CredentialEditConfig.t) (sessions : list (string → outcome string))
    (original : Credential) : GoM (S * nat) () :=
  o ← lift (NewEditPrinter (CredentialEditConfig.Output opts));
  editFn (fst <$> PrintObj o.1 (OCredential original) 0%Z) (updateCredential (Some original)) sessions.

Definition RunUpdateCredential (opts : CredentialEditConfig.t) (sessions : list (string → outcome string)) :
    GoM (S * nat) () :=
  if decide (CredentialEditConfig.File opts ≠ "") then
    local ← lift (ReadFileAs (O := Credential) (CredentialEditConfig.File opts));
    match local with
    | None => nil_local
    | Some local =>
        updated ← on_store (op_Get (st_Credentials sp) (cred_Name local));
        let updated := {| cred_TypeMeta := cred_TypeMeta updated; cred_ObjectMeta := cred_ObjectMeta local;
                          cred_Spec := cred_Spec local |} in
        original ← on_store (op_Get (st_Credentials sp) (cred_Name updated));
        updateCredential (Some original) (Some updated)
    end
  else
    original ← on_store (op_Get (st_Credentials sp) (CredentialEditConfig.CredName opts));
    if CredentialEditConfig.DoNotDelete opts then
      updated ← on_store (op_Get (st_Credentials sp) (CredentialEditConfig.CredName opts));
      updateCredential (Some original) (Some updated)
    else editCredential opts sessions original.

Definition runDeleteCredentialCmd (opts : CredentialDeleteConfig.t) : GoM (S * nat) () :=
  for_each (λ cred, on_store (op_Delete (st_Credentials sp) cred)) (CredentialDeleteConfig.Credentials opts).
End editing.

(** ** Creating a credential: cmds/credential/create.go

    The list of providers, the prompts, the environment and the issuing of
    credentials are other libraries. *)
Class CredentialInput := {
  providers_List : list string;
  ask_provider : list string → outcome string;
  IssueGCECredential : string → outcome ();
  IssueAzureCredential : string → outcome Credential;
  LoadFromEnv : string → gmap string string;
  LoadCredentialDataFromJson : string → string → outcome (gmap string string);
  read_fields : string → gmap string string
}.

Section create_credential.
Context {S Crt Key : Type} `{!Clock, !CredentialInput} (sp : ResourceInterface S Crt Key).

Definition runCreateCredential (opts : CredentialCreateConfig.t) : GoM (S * nat) () :=
  let name := CredentialCreateConfig.CredName opts in
  provider ← (if decide (CredentialCreateConfig.Provider opts = "") then lift (ask_provider providers_List)
              else if decide (CredentialCreateConfig.Provider opts ∈ providers_List)
                   then mret (CredentialCreateConfig.Provider opts)
                   else throw "Unknown Cloud provider");
  if CredentialCreateConfig.Issue opts then
    if decide (provider = "gce") then lift (IssueGCECredential name)
    else if decide (ToLower provider = "azure") then
      cred ← ExitOnError (lift (IssueAzureCredential name));
      _ ← ExitOnError (on_store (op_Create (st_Credentials sp) (Some cred)));
      mret ()
    else throw ("can't issue credential for provider " +:+ provider)
  else
    created ← draw (λ n, Ok (time_now n));
    data ← (if CredentialCreateConfig.FromEnv opts then mret (LoadFromEnv provider)
            else if decide (CredentialCreateConfig.FromFile opts ≠ "")
                 then lift (LoadCredentialDataFromJson provider (CredentialCreateConfig.FromFile opts))
                 else mret (read_fields provider));
    _ ← on_store (op_Create (st_Credentials sp) (Some
          {| cred_TypeMeta := zero_TypeMeta; cred_ObjectMeta := with_CreationTimestamp (named name) created;
             cred_Spec := {| cred_Provider := provider; cred_Data := data |} |}));
    mret ().
End create_credential.

(** ** Over the cloud package *)
(** apis/v1alpha1: SSHConfig *)
Record SSHConfig := { PrivateKey : string; HostIP : string; HostPort : Z; ssh_User : string }.

Section over_cloud.
Context {S Crt Key SSHKey X KC CC BC : Type}.
Context `{!Crypto Crt Key SSHKey, !CertText Crt Key, !Clock, !TimeText, !Rand, !Polling}.
Context `{!Kubernetes X KC CC BC, !JsonText, !Environment}.
Context (sp : ResourceInterface S Crt Key).
Notation env := (env (S := S) (Crt := Crt) (Key := Key) (SSHKey := SSHKey) (X := X) (KC := KC)).
Notation Interface := (Interface (S := S) (Crt := Crt) (Key := Key) (SSHKey := SSHKey) (X := X)
                                 (KC := KC)).
Context (providers : string → option Interface).

Definition set_scope (sc : Scope) : GoM env () :=
  modify (λ e, Env (e_store e) (e_tick e) (e_cloud e) sc).

(** cmds/cloud/create_cluster.go *)
Definition runCreateClusterCmd (opts : ClusterCreateConfig.t) : GoM env () :=
  _ ← set_scope (NewScope (ClusterCreateConfig.Cluster_ opts));
  _ ← CreateCluster sp providers;
  match ClusterCreateConfig.Nodes opts with
  | [] => mret ()
  | nodes => CreateMachineSets sp providers (cluster_Name (ClusterCreateConfig.Cluster_ opts)) nodes
  end.

(** cmds/cloud/create_nodegroup.go *)
Definition runCreateNodegroup (opts : NodeGroupCreateConfig.t) : GoM env () :=
  CreateMachineSets sp providers (NodeGroupCreateConfig.ClusterName opts) (NodeGroupCreateConfig.Nodes opts).

(** cmds/cloud/delete_cluster.go *)
Definition runDeleteCluster (opts : ClusterDeleteConfig.t) : GoM env () :=
  for_each (λ clusterName, _ ← ExitOnError (Delete (SSHKey := SSHKey) sp clusterName); mret ())
           (ClusterDeleteConfig.Clusters opts).

(** cmds/cloud/apply.go *)
Definition runApplyCmd (opts : ApplyConfig.t) : GoM env () :=
  let name := ApplyConfig.ClusterName opts in
  _ ← err_if (bool_decide (name = "")) "missing Cluster name";
  cluster ← on_err (wrap ("Cluster `" +:+ name +:+ "` does not exist"))
                   (store (op_Get (st_Clusters sp) name));
  certs ← on_err (wrap "failed to get certs") (store_rand (GetPharmerCerts sp (cluster_Name cluster)));
  _ ← set_scope {| sc_Cluster := Some cluster; sc_Certs := Some certs; sc_CloudManager := None;
                   sc_AdminClient := None |};
  Apply sp providers.

(** cloud/ssh.go: GetSSHConfig.  The node's addresses, the check of an address and
    the text of a private key are other libraries. *)
Context (Nodes_Get : KC → string → GoM X (string * list NodeAddress)).
Context (ParseIP : string → bool) (private_key : SSHKey → string).

(** The last external address wins. *)
Definition external_ip (addrs : list NodeAddress) : string :=
  foldl (λ ip a, if decide (addr_Type a = NodeExternalIP) then Address a else ip) "" addrs.

Definition GetSSHConfig (clusterName nodeName : string) : GoM env SSHConfig :=
  cluster ← store (op_Get (st_Clusters sp) clusterName);
  _ ← set_scope (NewScope cluster);
  cm ← GetCloudManager sp providers;
  client ← cm_GetAdminClient cm;
  node ← ExitOnError (on_cloud (Nodes_Get client nodeName));
  certs ← gets (λ e, sc_Certs (e_scope e));
  match certs with
  | None => panic "invalid memory address or nil pointer dereference"
  | Some certs =>
      let ip := external_ip node.2 in
      _ ← err_if (negb (ParseIP ip)) ("failed to detect external Ip for node " +:+ node.1 +:+
                                      " of cluster " +:+ cluster_Name cluster);
      mret {| PrivateKey := private_key (SSHKey_ certs); HostIP := ip; HostPort := 22%Z;
              ssh_User := SSHUserName (Config (Spec cluster)) |}
  end.
End over_cloud.
