(* ===== verification/PrintingProofs.v ===== *)
(** * What the printers write

    Durations at whole units ([short_duration_units]); the human-readable printer heads
    a list of objects of one type once, whatever it prints between them
    ([print_all_table]). *)
From stdpp Require Import base list gmap strings pretty.
From Stdlib Require Import Ascii.
From S2P Require Import Prelude GoStrings Api StoreSpec Provider Certs Kube Edit Printing Cmds.

(** ** Durations *)

(** How a duration of a whole number of hours is shown. *)
Definition shown_hours (n : Z) : string :=
  if decide (n < 24)%Z then pretty n +:+ "h"
  else if decide (n < 24 * 364)%Z then pretty (n / 24)%Z +:+ "d"
  else pretty (n / 24 / 365)%Z +:+ "y".

(** A text checked at a number of units, and the numbers it is checked at. *)
Definition shown_as (unit : Z) (text : Z → string) (n : Z) : bool :=
  bool_decide (ShortHumanDuration (n * unit) = text n).

Definition range (a : Z) (k : nat) : list Z := (λ i, a + Z.of_nat i)%Z <$> seq 0 k.

Lemma forallb_range (f : Z → bool) a k n :
  forallb f (range a k) = true → (a ≤ n < a + Z.of_nat k)%Z → f n = true.
Proof.
  rewrite forallb_forall. intros Hf Hn. apply Hf. apply in_map_iff. exists (Z.to_nat (n - a)).
  split; [lia|]. apply in_seq. lia.
Qed.

Lemma shown_range unit text a k n :
  forallb (shown_as unit text) (range a k) = true → (a ≤ n < a + Z.of_nat k)%Z →
  ShortHumanDuration (n * unit) = text n.
Proof. intros Hf Hn. pose proof (forallb_range _ _ _ n Hf Hn) as H. by apply bool_decide_eq_true in H. Qed.

Lemma seconds_all : forallb (shown_as Second (λ n, pretty n +:+ "s")) (range 1 59) = true.
Proof. by vm_compute. Qed.
Lemma minutes_all : forallb (shown_as Minute (λ n, pretty n +:+ "m")) (range 1 59) = true.
Proof. by vm_compute. Qed.
Definition a_year : nat := Eval vm_compute in Z.to_nat 8800.
Lemma hours_all : forallb (shown_as Hour shown_hours) (range 1 a_year) = true.
Proof. by vm_compute. Qed.
Lemma a_year_hours : Z.of_nat a_year = 8800%Z.
Proof. by vm_compute. Qed.

#[local] Opaque a_year.

(** A whole number of seconds, minutes or hours (up to a year and a day) is shown exactly, in
    the largest unit that it fills; but from 364 days to a year as "0y". *)
Theorem short_duration_units (n : Z) :
  ((1 ≤ n < 60)%Z → ShortHumanDuration (n * Second) = pretty n +:+ "s") ∧
  ((1 ≤ n < 60)%Z → ShortHumanDuration (n * Minute) = pretty n +:+ "m") ∧
  ((1 ≤ n ≤ 8800)%Z → ShortHumanDuration (n * Hour) = shown_hours n) ∧
  ((24 * 364 ≤ n < 24 * 365)%Z → ShortHumanDuration (n * Hour) = "0y").
Proof.
  pose proof a_year_hours as H2.
  assert ((1 ≤ n ≤ 8800)%Z → ShortHumanDuration (n * Hour) = shown_hours n) as Hh.
  { intros Hn. apply (shown_range _ _ _ _ _ hours_all). lia. }
  split_and!; [| |exact Hh|].
  - intros Hn. apply (shown_range _ _ _ _ _ seconds_all). lia.
  - intros Hn. apply (shown_range _ _ _ _ _ minutes_all). lia.
  - intros Hn. rewrite Hh by lia. unfold shown_hours. rewrite !decide_False by lia.
    rewrite Z.div_div by lia. by rewrite Z.div_small by lia.
Qed.

(** ** Tables *)
Section tables.
Context {S Crt Key : Type} (sp : ResourceInterface S Crt Key).
Context `{!Clock, !PrintedFields, !Marshalling}.
Implicit Types (h : HumanReadablePrinter) (objs : list object).

Definition row (o : object) (now : Time) : string :=
  match o with
  | OCluster c => printCluster c now
  | OMachineSet ms => printMachineSet ms
  | OCredential c => printCredential c
  end.

Fixpoint rows objs (n : nat) : string :=
  match objs with
  | [] => ""
  | o :: objs => row o (time_now n) +:+ newline +:+ rows objs (Datatypes.S n)
  end.

Definition table (t : gotype) objs (n : nat) : string :=
  match objs with [] => "" | _ => printHeader (getColumns t) +:+ rows objs n end.

Lemma rows_app objs objs' n : rows (objs ++ objs') n = rows objs n +:+ rows objs' (n + length objs).
Proof.
  revert n. induction objs as [|o objs IH]; intros n; [by rewrite Nat.add_0_r|].
  simpl. by rewrite IH, <-!append_assoc, Nat.add_succ_comm.
Qed.

(** What the printer is between two objects of the type. *)
Definition fresh h : Prop := handlerMap h = addDefaultHandlers ∧ lastType h = None ∧ enablePrintHeader h = true.
Definition headed (t : gotype) h : Prop :=
  handlerMap h = addDefaultHandlers ∧ lastType h = Some t ∧ enablePrintHeader h = false.

Lemma default_handler o now :
  ∃ f, find_handler (TypeOf o) addDefaultHandlers = Some f ∧ f o now = Ok (row o now).
Proof. destruct o; eexists; split; reflexivity. Qed.

Lemma print_fresh h o now : fresh h →
  ∃ h', headed (TypeOf o) h' ∧
        human_PrintObj h o now = Ok (printHeader (getColumns (TypeOf o)) +:+ row o now, h').
Proof.
  intros (Hm & Hl & He). unfold human_PrintObj. rewrite Hm, Hl, He, orb_true_r.
  destruct (default_handler o now) as (f & -> & Hf). rewrite Hf.
  eexists. split; [|reflexivity]. by split_and!.
Qed.

Lemma print_headed h o now : headed (TypeOf o) h → human_PrintObj h o now = Ok (row o now, h).
Proof.
  intros (Hm & Hl & He). unfold human_PrintObj.
  rewrite Hm, Hl, He, orb_false_r, bool_decide_eq_false_2 by congruence.
  destruct (default_handler o now) as (f & -> & Hf). cbn. by rewrite Hf.
Qed.

Definition of_type (t : gotype) objs : Prop := Forall (λ o, TypeOf o = t) objs.

Lemma print_all_headed t h objs s n : headed t h → of_type t objs →
  print_all (S := S) (HumanReadable h) objs (s, n) = (Ok (rows objs n, HumanReadable h), (s, n + length objs)).
Proof.
  intros Hh Ht. revert n. induction Ht as [|o objs Ho Ht IH]; intros n; [by rewrite Nat.add_0_r|].
  subst t. cbn. unfold mbind, gom_bind, draw, lift, mret, gom_ret. cbn. rewrite print_headed by done. cbn.
  by rewrite IH, Nat.add_succ_r.
Qed.

(** Objects of one type: the header once, then a row for each in order. *)
Lemma print_all_table t h objs s n : fresh h → of_type t objs →
  ∃ h', print_all (S := S) (HumanReadable h) objs (s, n) =
          (Ok (table t objs n, HumanReadable h'), (s, n + length objs)) ∧
        match objs with [] => h' = h | _ => headed t h' end.
Proof.
  intros Hh Ht. destruct Ht as [|o objs Ho Ht]; [exists h; by rewrite Nat.add_0_r|]. subst t.
  destruct (print_fresh h o (time_now n) Hh) as (h' & Hh' & E). exists h'. split; [|done].
  cbn. unfold mbind, gom_bind, draw, lift, mret, gom_ret. cbn. rewrite E. cbn.
  rewrite (print_all_headed _ _ _ _ _ Hh' Ht). cbn. by rewrite Nat.add_succ_r, <-!append_assoc.
Qed.

Lemma new_printer_fresh wide : fresh (NewHumanReadablePrinter wide).
Proof. done. Qed.

Lemma table_app t objs objs' n : objs ≠ [] →
  table t (objs ++ objs') n = table t objs n +:+ rows objs' (n + length objs).
Proof. intros Hne. unfold table. destruct objs as [|o objs]; [done|]. cbn [app]. change (o :: objs ++ objs') with ((o :: objs) ++ objs'). by rewrite rows_app, append_assoc. Qed.
End tables.
