(* ===== verification/CmdsProofs.v ===== *)
(** * What the commands come to

    `pharmer get` prints one table ([get_prints_table]), `pharmer describe` nothing
    ([describe_prints_nothing]); some flags of `pharmer edit` do nothing
    ([edit_flags_useless]); setting the Kubernetes version of a cluster stores it with
    a new generation and the status it had ([edit_version_ok]). *)
From stdpp Require Import base list gmap strings pretty fin_maps.
From S2P Require Import Prelude GoStrings Api StoreSpec Provider Certs Kube Cloud Apply Options Edit Printing.
From S2P Require Import Cmds PrintingProofs.

(** ** Describing *)
Section describing.
Context {S Crt Key : Type} (sp : ResourceInterface S Crt Key).

Lemma describe_all_nothing first clusters : describe_all [] first clusters = Ok "".
Proof. induction clusters as [|c clusters IH]; [done|]. exact IH. Qed.

(** `pharmer describe cluster` prints nothing, whatever is stored and asked for: the
    function that describes a cluster has three parameters and is never registered. *)
Theorem describe_prints_nothing describe opts s :
  RunDescribeCluster sp describe opts s =
    ((λ _, "") <$> (getClusterList sp (ClusterDescribeConfig.Clusters opts) s).1,
     (getClusterList sp (ClusterDescribeConfig.Clusters opts) s).2).
Proof.
  unfold RunDescribeCluster, mbind, gom_bind. destruct (getClusterList _ _ s) as [[l|e|w] s']; try done.
  change (newHumanReadableDescriber describe) with (@nil describe_handler).
  unfold lift. by rewrite describe_all_nothing.
Qed.
End describing.

(** ** Getting *)
Section getting.
Context {S Crt Key : Type} (sp : ResourceInterface S Crt Key) `{!Clock, !PrintedFields, !Marshalling}.

Definition human (format : string) : Prop := format = "" ∨ format = "wide".

Lemma NewPrinter_human format : human format → ∃ h, NewPrinter format = Ok (HumanReadable h) ∧ fresh h.
Proof. intros [->| ->]; eexists; (split; [reflexivity|apply new_printer_fresh]). Qed.

Lemma of_type_sets (l : list MachineSet) : of_type TMachineSet (OMachineSet <$> l).
Proof. apply Forall_forall. by intros ? (? & -> & _)%list_elem_of_fmap. Qed.
Lemma of_type_clusters (l : list Cluster) : of_type TCluster (OCluster <$> l).
Proof. apply Forall_forall. by intros ? (? & -> & _)%list_elem_of_fmap. Qed.

Lemma print_nodegroups_headed h names clusterList lists s s' n : headed TMachineSet h →
  map_each (λ cl, getMachineSetList sp cl names) clusterList s = (Ok lists, s') →
  print_nodegroups sp (HumanReadable h) names clusterList (s, n) =
    (Ok (rows (OMachineSet <$> concat lists) n), (s', n + length (concat lists))).
Proof.
  intros Hh. revert lists s n. induction clusterList as [|cl clusterList IH]; intros lists s n Hm.
  { cbn in Hm. injection Hm as <- <-. cbn. by rewrite Nat.add_0_r. }
  cbn in Hm. unfold mbind, gom_bind in Hm. destruct (getMachineSetList sp cl names s) as [[l|?|?] s1] eqn:E; try done.
  destruct (map_each _ _ s1) as [[ls|?|?] s2] eqn:E2; try done. injection Hm as <- <-.
  cbn [print_nodegroups]. unfold mbind, gom_bind, on_store, zoom. cbn [fst snd]. rewrite E. cbn [fst snd].
  rewrite (print_all_headed _ _ _ _ _ Hh (of_type_sets l)). cbn [fst snd]. rewrite (IH _ _ _ E2).
  cbn [concat]. by rewrite fmap_app, rows_app, length_fmap, length_app, Nat.add_assoc.
Qed.

Lemma print_nodegroups_fresh h names clusterList lists s s' n : fresh h →
  map_each (λ cl, getMachineSetList sp cl names) clusterList s = (Ok lists, s') →
  print_nodegroups sp (HumanReadable h) names clusterList (s, n) =
    (Ok (table TMachineSet (OMachineSet <$> concat lists) n), (s', n + length (concat lists))).
Proof.
  intros Hh. revert lists s n. induction clusterList as [|cl clusterList IH]; intros lists s n Hm.
  { cbn in Hm. injection Hm as <- <-. cbn. by rewrite Nat.add_0_r. }
  cbn in Hm. unfold mbind, gom_bind in Hm. destruct (getMachineSetList sp cl names s) as [[l|?|?] s1] eqn:E; try done.
  destruct (map_each _ _ s1) as [[ls|?|?] s2] eqn:E2; try done. injection Hm as <- <-.
  cbn [print_nodegroups]. unfold mbind, gom_bind, on_store, zoom. cbn [fst snd]. rewrite E. cbn [fst snd].
  destruct (print_all_table (S := S) TMachineSet h (OMachineSet <$> l) s1 n Hh (of_type_sets l)) as (h' & -> & Hh').
  cbn [fst snd]. destruct l as [|m l].
  - cbn in Hh'. subst h'. rewrite (IH _ _ _ E2). by rewrite Nat.add_0_r.
  - rewrite (print_nodegroups_headed _ _ _ _ _ _ _ Hh' E2). cbn [concat].
    rewrite fmap_app, table_app by done. by rewrite length_fmap, length_app, Nat.add_assoc.
Qed.

(** `pharmer get nodegroup` and `pharmer get cluster` print one table: the columns
    once, then a row for each object in order of the store's answers, the node groups
    of all clusters under one header; with nothing found they print nothing. *)
Theorem get_prints_table s s' n :
  (∀ opts names lists,
     human (NodeGroupGetConfig.Output opts) → NodeGroupGetConfig.ClusterName opts = "" →
     op_List (st_Clusters sp) s = (Ok names, s) →
     map_each (λ cl, getMachineSetList sp cl (NodeGroupGetConfig.NodeGroups opts)) (cluster_Name <$> names) s =
       (Ok lists, s') →
     runGetNodeGroup sp opts (s, n) =
       (Ok (table TMachineSet (OMachineSet <$> concat lists) n), (s', n + length (concat lists)))) ∧
  (∀ opts clusters,
     human (ClusterGetConfig.Output opts) →
     getClusterList sp (ClusterGetConfig.Clusters opts) s = (Ok clusters, s') →
     runGetCluster sp opts (s, n) = (Ok (table TCluster (OCluster <$> clusters) n), (s', n + length clusters))).
Proof.
  split.
  - intros opts names lists (h & Hp & Hh)%NewPrinter_human Hc Hl Hm. unfold runGetNodeGroup.
    rewrite Hp, Hc, decide_True by done. unfold mbind, gom_bind, on_store, zoom, lift, mret, gom_ret. cbn [fst snd].
    rewrite Hl. cbn [fst snd]. by apply print_nodegroups_fresh.
  - intros opts clusters (h & Hp & Hh)%NewPrinter_human Hl. unfold runGetCluster.
    rewrite Hp. unfold mbind, gom_bind, on_store, zoom, lift, mret, gom_ret. cbn [fst snd]. rewrite Hl. cbn [fst snd].
    destruct (print_all_table (S := S) TCluster h (OCluster <$> clusters) s' n Hh (of_type_clusters clusters))
      as (h' & -> & _). cbn [fst snd]. by rewrite length_fmap.
Qed.

(** The columns of node groups and credentials are the name alone: the cases are for
    types of other names.  A row has four cells and three. *)
Lemma headers_short : getColumns TMachineSet = ["NAME"] ∧ getColumns TCredential = ["NAME"].
Proof. done. Qed.
End getting.

(** ** Flags *)
Lemma edit_file_refused c fs args c' :
  Changed fs "file" = true → ClusterEditConfig.ValidateFlags c fs args ≠ Ok c'.
Proof. intros Hf. unfold ClusterEditConfig.ValidateFlags. rewrite Hf. by destruct args. Qed.

Section flags.
Context {S Crt Key : Type} `{!Clock, !Texts} (sp : ResourceInterface S Crt Key).
Context `{!EditCodec Cluster, !EditCodec MachineSet, !EditCodec Credential, !Marshalling}.
Context (read_file : string → outcome string).
Context (clusters_read : ∀ n s, (op_Get (st_Clusters sp) n s).2 = s).
Context (machinesets_read : ∀ cl n s, (op_Get (st_MachineSets sp cl) n s).2 = s).

(** An object compared with itself is no edit. *)
Lemma check_edit_same {O} `{!EditCodec O} kind (o : option O) : is_ok (check_edit kind o o) = false.
Proof.
  unfold check_edit. destruct (yaml_Marshal o) as [b|?|?]; [|done..]. cbn.
  destruct (ToJSON b) as [j|?|?]; [|done..]. cbn. by rewrite decide_True.
Qed.

Lemma refused_edit {T A} (r : outcome ()) (k : () → GoM T A) s :
  is_ok r = false → is_ok ((lift r ≫= k) s).1 = false ∧ ((lift r ≫= k) s).2 = s.
Proof. by destruct r. Qed.

(** What runs on an object got twice from the store. *)
Lemma twice {O A} (get : GoM S O) (k : O → O → GoM (S * nat) A) (st : S * nat) :
  (∀ s, (get s).2 = s) →
  (∀ o, is_ok (k o o st).1 = false ∧ (k o o st).2 = st) →
  let r := (o ← on_store get; o' ← on_store get; k o o') st in is_ok r.1 = false ∧ r.2 = st.
Proof.
  destruct st as [s t]. intros Hg Hk. unfold mbind, gom_bind, on_store, zoom. cbn.
  specialize (Hg s). destruct (get s) as [[o|?|?] s1] eqn:E; cbn in *; subst; [|done..].
  rewrite E. apply Hk.
Qed.

(** Three flags of `pharmer edit` never change anything: with --file no command line of
    `edit cluster` is accepted, and --locked (without a version) and --do-not-delete
    compare the object with itself and fail. *)
Theorem edit_flags_useless sessions :
  (∀ c fs args c', Changed fs "file" = true → ClusterEditConfig.ValidateFlags c fs args ≠ Ok c') ∧
  (∀ opts st,
     ClusterEditConfig.File opts = "" → ClusterEditConfig.Locked opts = true →
     ClusterEditConfig.KubernetesVersion opts = "" →
     let r := runUpdateCluster sp read_file opts sessions st in is_ok r.1 = false ∧ r.2 = st) ∧
  (∀ opts st,
     NodeGroupEditConfig.File opts = "" → NodeGroupEditConfig.DoNotDelete opts = true →
     let r := RunUpdateNodeGroup sp read_file opts sessions st in is_ok r.1 = false ∧ r.2 = st).
Proof.
  split; [intros; by apply edit_file_refused|]. split.
  - intros opts st Hf Hl Hv. unfold runUpdateCluster, ClusterEditConfig.CheckForUpdateFlags.
    rewrite decide_False by (rewrite Hf; tauto). rewrite Hl, Hv. cbn [orb].
    apply (twice (op_Get (st_Clusters sp) (ClusterEditConfig.ClusterName opts))
             (λ o o', UpdateCluster sp (Some o) (Some o')) st); [apply clusters_read|].
    intros o. apply refused_edit, check_edit_same.
  - intros opts st Hf Hd. unfold RunUpdateNodeGroup.
    rewrite decide_False by (rewrite Hf; tauto). rewrite Hd.
    apply (twice (op_Get (st_MachineSets sp (NodeGroupEditConfig.ClusterName opts)) (NodeGroupEditConfig.NgName opts))
             (λ o o', UpdateNodeGroup sp (NodeGroupEditConfig.ClusterName opts) (Some o) (Some o')) st);
      [apply machinesets_read|].
    intros o. apply refused_edit, check_edit_same.
Qed.
End flags.

(** ** Setting the version of a cluster *)
Section version.
Context {Crt Key : Type} `{!Clock, !Texts, !EditCodec Cluster, !Marshalling} (read_file : string → outcome string).
Context (pC : Cluster → outcome Cluster) (pCr : Credential → outcome Credential).
Context (pMS : MachineSet → outcome MachineSet) (pM : Machine → outcome Machine).
Implicit Types (s : pharmer Crt Key) (t : nat) (c : Cluster).

Let sp := spec_provider (Crt := Crt) (Key := Key) pC pCr pMS pM.

Definition versioned c (v : string) : Cluster :=
  with_Spec c (with_Config (Spec c) (with_KubernetesVersion (Config (Spec c)) v)).

(** What is handed to the store. *)
Definition next_generation c (generation : Time) : Cluster :=
  with_ObjectMeta c (with_Generation (cluster_ObjectMeta c) generation).

Definition store_cluster c s : pharmer Crt Key :=
  set_objects (put_clusters (<[cluster_Name c := c]> (ob_clusters (ph_objects s))) (ph_objects s)) s.

Lemma clusters_Get_at n c s t :
  n ≠ "" → ob_clusters (ph_objects s) !! n = Some c →
  on_store (op_Get (st_Clusters sp) n) (s, t) = (Ok c, (s, t)).
Proof.
  intros Hn Hc. unfold on_store, zoom. cbn. unfold on_clusters, zoom, spec_Get.
  rewrite decide_False, Hc by done. by destruct s as [[]].
Qed.

Lemma updateGeneration_ok u c c' s t :
  cluster_Name u ≠ "" → KubernetesVersion (Config (Spec u)) ≠ "" →
  ob_clusters (ph_objects s) !! cluster_Name u = Some c →
  pC (res_assign (next_generation (with_Status u (Status c)) (time_now t))) = Ok c' →
  cluster_Name c' = cluster_Name u →
  ∃ r, updateGeneration sp (Some u) (s, t) = (Ok r, (store_cluster c' s, Datatypes.S t)).
Proof.
  intros Hn Hv Hc Hp Hcn. unfold updateGeneration.
  rewrite !err_if_false by by apply bool_decide_eq_false.
  erewrite bind_ok by (apply on_err_ok, (clusters_Get_at _ c s t Hn Hc)).
  erewrite bind_ok by reflexivity. cbn [fst snd]. unfold on_store, zoom. cbn [fst snd].
  change (op_Update (st_Clusters sp)) with (λ o, on_clusters (Crt := Crt) (Key := Key) (spec_Update pC o)).
  set (u' := with_ObjectMeta _ _).
  assert (Hu' : cluster_Name u' = cluster_Name u) by done.
  unfold on_clusters, zoom, spec_Update, spec_put.
  change (res_name u') with (cluster_Name u'). rewrite Hu', decide_False, Hc by done.
  change (res_assign u') with (res_assign (next_generation (with_Status u (Status c)) (time_now t))).
  rewrite Hp. eexists. cbn. unfold store_cluster. rewrite Hcn.
  by change (res_name (res_assign ?x)) with (cluster_Name x).
Qed.

(** `pharmer edit cluster --kubernetes-version` on a stored cluster: an edit the check
    refuses changes nothing and is reported; an accepted one stores the cluster with
    the version, the time as its generation and its status as it was. *)
Theorem edit_version_ok opts sessions n v c c' s t :
  ClusterEditConfig.File opts = "" → ClusterEditConfig.ClusterName opts = n →
  ClusterEditConfig.KubernetesVersion opts = v → n ≠ "" → v ≠ "" →
  ob_clusters (ph_objects s) !! n = Some c → cluster_Name c = n →
  pC (res_assign (next_generation (versioned c v) (time_now t))) = Ok c' → cluster_Name c' = n →
  let r := runUpdateCluster sp read_file opts sessions (s, t) in
  (check_edit ResourceKindCluster (Some c) (Some (versioned c v)) = Ok () →
     r = (Ok (), (store_cluster c' s, Datatypes.S t))) ∧
  (∀ e, check_edit ResourceKindCluster (Some c) (Some (versioned c v)) = Err e → r = (Err e, (s, t))).
Proof.
  intros Hf <- <- Hn Hv Hc Hcn Hp Hcn'. unfold runUpdateCluster, ClusterEditConfig.CheckForUpdateFlags.
  rewrite decide_False by (rewrite Hf; tauto). rewrite (bind_ok _ _ _ _ _ (clusters_Get_at _ c s t Hn Hc)).
  rewrite (bool_decide_eq_false_2 _ Hv), orb_true_r. cbn [negb].
  rewrite (bind_ok _ _ _ _ _ (clusters_Get_at _ c s t Hn Hc)), decide_False by done.
  fold (versioned c (ClusterEditConfig.KubernetesVersion opts)). set (u := versioned c _) in *.
  unfold UpdateCluster. split; [|by intros e ->]. intros ->.
  destruct (updateGeneration_ok u c c' s t) as [x Hx]; [by change (cluster_Name u) with (cluster_Name c); rewrite Hcn|done
    |by change (cluster_Name u) with (cluster_Name c); rewrite Hcn|done
    |by change (cluster_Name u) with (cluster_Name c); rewrite Hcn', Hcn|].
  erewrite bind_ok by reflexivity. erewrite bind_ok by exact Hx. done.
Qed.
End version.
