(* ===== verification/Startup.v ===== *)
(** * Start-up scripts (cloud/startupscript.go)

    The data a machine's start-up script is rendered from.  [TemplateData] starts with
    the kubelet arguments of the cluster itself: when that map is not nil the writes
    go to the cluster of the scope too ([td_shared]).  The texts of YAML, the
    templates, the version library and the hash of a key are other libraries.

    Which versions a machine can be started with ([startup_versions]); the kubelet
    arguments written for a machine are those of the cluster ([kubelet_args_shared]);
    a control-plane machine that joins gets no token ([control_plane_join_no_token]). *)
From stdpp Require Import base list gmap strings pretty fin_maps.
From S2P Require Import Prelude GoStrings Api StoreSpec Provider Certs Kube Cloud Apply.

(** ** Versions a node can be started with *)
Definition kubernetesCNIVersions : gmap string string := list_to_map [
  ("1.8.0", "0.5.1"); ("1.9.0", "0.6.0"); ("1.10.0", "0.6.0"); ("1.11.0", "0.6.0");
  ("1.12.0", "0.6.0"); ("1.13.0", "0.6.0"); ("1.13.5", "0.7.5"); ("1.13.6", "0.7.5");
  ("1.13.7", "0.7.5"); ("1.13.8", "0.7.5"); ("1.13.9", "0.7.5"); ("1.13.10", "0.7.5");
  ("1.13.11", "0.7.5"); ("1.13.12", "0.7.5"); ("1.13.13", "0.7.5"); ("1.13.14", "0.7.5");
  ("1.14.0", "0.7.5")].

Definition prekVersions : gmap string string := list_to_map [
  ("1.12.0", "https://cdn.appscode.com/binaries/pre-k/1.12.0-alpha.3/pre-k-linux-amd64");
  ("1.13.0", "https://cdn.appscode.com/binaries/pre-k/1.13.0/pre-k-linux-amd64");
  ("1.14.0", "https://github.com/pharmer/pre-k/releases/download/v1.14.0/pre-k_linux_amd64")].

(** ** kubeadm's configurations (k8s.io/kubernetes/cmd/kubeadm), the fields that are set *)
Record InitConfiguration := { init_KubeletExtraArgs : gmap string string; init_BindPort : Z }.

Record ClusterConfiguration := {
  kc_ServiceSubnet : string; kc_PodSubnet : string; kc_DNSDomain : string;
  kc_KubernetesVersion : string;
  kc_APIServer_ExtraArgs : gmap string string; kc_CertSANs : list string;
  kc_ControllerManager_ExtraArgs : gmap string string; kc_Scheduler_ExtraArgs : gmap string string;
  kc_ClusterName : string; kc_ControlPlaneEndpoint : string;
  kc_ExtraVolumes : list (string * string * string)   (* of the API server and the controllers *)
}.

Record JoinConfiguration := {
  join_KubeletExtraArgs : gmap string string;
  join_Token : string; join_APIServerEndpoint : string; join_CACertHashes : list string;
  join_ControlPlane : option (string * Z)             (* the advertised address, the port *)
}.

Record TemplateData := {
  td_ClusterName : string; td_KubernetesVersion : string; td_KubeadmToken : string;
  td_CAHash : string; td_CAKey : string; td_FrontProxyKey : string; td_SAKey : string;
  td_ETCDCAKey : string; td_APIServerAddress : string; td_NetworkProvider : string;
  td_CloudConfig : string; td_Provider : string; td_NodeName : string; td_ExternalProvider : bool;
  td_InitConfiguration : option InitConfiguration;
  td_ClusterConfiguration : option ClusterConfiguration;
  td_JoinConfiguration : string;
  td_KubeletExtraArgs : gmap string string;
  td_ControlPlaneJoin : bool;
  td_shared : bool    (* [KubeletExtraArgs] is the map of the cluster *)
}.

(** What the templates call on the data: [PackageList], [PrekVersion],
    [InitConfigurationYAML] and [ClusterConfigurationYAML]. *)
Record template_methods := {
  tm_PackageList : outcome string; tm_PrekVersion : outcome string;
  tm_InitConfigurationYAML : outcome string; tm_ClusterConfigurationYAML : outcome string
}.

Class StartupLib (Crt V : Type) := {
  pubkeypin_Hash : Crt → string;
  yaml_init : InitConfiguration → outcome string;
  yaml_cluster : ClusterConfiguration → outcome string;
  yaml_join : JoinConfiguration → outcome string;
  parse_version : string → outcome V;          (* gomodules.xyz/version *)
  Prerelease : V → string;
  patch_version : V → string;                  (* without metadata and pre-release *)
  minor_version : V → string;                  (* and without patch *)
  LessThan : V → V → bool;
  template_Parse : string → outcome ();
  ExecuteTemplate : string → string → TemplateData → template_methods → outcome string
}.

(** ** Updates of the data *)
Definition td_with_args (td : TemplateData) (args : gmap string string) : TemplateData :=
  {| td_ClusterName := td_ClusterName td; td_KubernetesVersion := td_KubernetesVersion td;
     td_KubeadmToken := td_KubeadmToken td; td_CAHash := td_CAHash td; td_CAKey := td_CAKey td;
     td_FrontProxyKey := td_FrontProxyKey td; td_SAKey := td_SAKey td; td_ETCDCAKey := td_ETCDCAKey td;
     td_APIServerAddress := td_APIServerAddress td; td_NetworkProvider := td_NetworkProvider td;
     td_CloudConfig := td_CloudConfig td; td_Provider := td_Provider td; td_NodeName := td_NodeName td;
     td_ExternalProvider := td_ExternalProvider td; td_InitConfiguration := td_InitConfiguration td;
     td_ClusterConfiguration := td_ClusterConfiguration td; td_JoinConfiguration := td_JoinConfiguration td;
     td_KubeletExtraArgs := args; td_ControlPlaneJoin := td_ControlPlaneJoin td; td_shared := td_shared td |}.

Definition td_with_external (td : TemplateData) (external : bool) : TemplateData :=
  {| td_ClusterName := td_ClusterName td; td_KubernetesVersion := td_KubernetesVersion td;
     td_KubeadmToken := td_KubeadmToken td; td_CAHash := td_CAHash td; td_CAKey := td_CAKey td;
     td_FrontProxyKey := td_FrontProxyKey td; td_SAKey := td_SAKey td; td_ETCDCAKey := td_ETCDCAKey td;
     td_APIServerAddress := td_APIServerAddress td; td_NetworkProvider := td_NetworkProvider td;
     td_CloudConfig := td_CloudConfig td; td_Provider := td_Provider td; td_NodeName := td_NodeName td;
     td_ExternalProvider := external; td_InitConfiguration := td_InitConfiguration td;
     td_ClusterConfiguration := td_ClusterConfiguration td; td_JoinConfiguration := td_JoinConfiguration td;
     td_KubeletExtraArgs := td_KubeletExtraArgs td; td_ControlPlaneJoin := td_ControlPlaneJoin td;
     td_shared := td_shared td |}.

Definition td_with_configs (td : TemplateData) (i : option InitConfiguration)
    (c : option ClusterConfiguration) : TemplateData :=
  {| td_ClusterName := td_ClusterName td; td_KubernetesVersion := td_KubernetesVersion td;
     td_KubeadmToken := td_KubeadmToken td; td_CAHash := td_CAHash td; td_CAKey := td_CAKey td;
     td_FrontProxyKey := td_FrontProxyKey td; td_SAKey := td_SAKey td; td_ETCDCAKey := td_ETCDCAKey td;
     td_APIServerAddress := td_APIServerAddress td; td_NetworkProvider := td_NetworkProvider td;
     td_CloudConfig := td_CloudConfig td; td_Provider := td_Provider td; td_NodeName := td_NodeName td;
     td_ExternalProvider := td_ExternalProvider td; td_InitConfiguration := i;
     td_ClusterConfiguration := c; td_JoinConfiguration := td_JoinConfiguration td;
     td_KubeletExtraArgs := td_KubeletExtraArgs td; td_ControlPlaneJoin := td_ControlPlaneJoin td;
     td_shared := td_shared td |}.

Definition td_with_join (td : TemplateData) (joinConf : string) (controlPlane : bool) : TemplateData :=
  {| td_ClusterName := td_ClusterName td; td_KubernetesVersion := td_KubernetesVersion td;
     td_KubeadmToken := td_KubeadmToken td; td_CAHash := td_CAHash td; td_CAKey := td_CAKey td;
     td_FrontProxyKey := td_FrontProxyKey td; td_SAKey := td_SAKey td; td_ETCDCAKey := td_ETCDCAKey td;
     td_APIServerAddress := td_APIServerAddress td; td_NetworkProvider := td_NetworkProvider td;
     td_CloudConfig := td_CloudConfig td; td_Provider := td_Provider td; td_NodeName := td_NodeName td;
     td_ExternalProvider := td_ExternalProvider td; td_InitConfiguration := td_InitConfiguration td;
     td_ClusterConfiguration := td_ClusterConfiguration td; td_JoinConfiguration := joinConf;
     td_KubeletExtraArgs := td_KubeletExtraArgs td; td_ControlPlaneJoin := controlPlane;
     td_shared := td_shared td |}.

Definition with_KubeletExtraArgs (c : Cluster) (args : gmap string string) : Cluster :=
  with_Spec c (with_Config (Spec c)
    (with_ExtraArgs (Config (Spec c)) (APIServerExtraArgs (Config (Spec c))) (Some args))).

(** ** The cluster configuration of kubeadm *)
Definition controlPlaneEndpointsFromLB (cfg : ClusterConfiguration) (cluster : Cluster) : ClusterConfiguration :=
  let lb := status_LoadBalancer (status_Cloud (Status cluster)) in
  let at_host host :=
    {| kc_ServiceSubnet := kc_ServiceSubnet cfg; kc_PodSubnet := kc_PodSubnet cfg;
       kc_DNSDomain := kc_DNSDomain cfg; kc_KubernetesVersion := kc_KubernetesVersion cfg;
       kc_APIServer_ExtraArgs := kc_APIServer_ExtraArgs cfg; kc_CertSANs := kc_CertSANs cfg ++ [host];
       kc_ControllerManager_ExtraArgs := kc_ControllerManager_ExtraArgs cfg;
       kc_Scheduler_ExtraArgs := kc_Scheduler_ExtraArgs cfg; kc_ClusterName := kc_ClusterName cfg;
       kc_ControlPlaneEndpoint := host +:+ ":" +:+ pretty (lb_Port lb);
       kc_ExtraVolumes := kc_ExtraVolumes cfg |} in
  if decide (lb_DNS lb ≠ "") then at_host (lb_DNS lb)
  else if decide (lb_IP lb ≠ "") then at_host (lb_IP lb)
  else cfg.

(** [CIDRBlocks[0]] *)
Definition first_block (l : list string) : outcome string :=
  match l with b :: _ => Ok b | [] => Panic "index out of range [0] with length 0" end.

Definition GetDefaultKubeadmClusterConfig (cluster : Cluster) (hostPath : option (string * string * string)) :
    outcome ClusterConfiguration :=
  let network := ClusterNetwork (capi_Spec (ClusterAPI (Spec cluster))) in
  let config := Config (Spec cluster) in
  service ← first_block (ServicesCIDRBlocks network);
  pod ← first_block (PodsCIDRBlocks network);
  Ok (controlPlaneEndpointsFromLB
    {| kc_ServiceSubnet := service; kc_PodSubnet := pod; kc_DNSDomain := ServiceDomain network;
       kc_KubernetesVersion := KubernetesVersion config;
       kc_APIServer_ExtraArgs := APIServerExtraArgs config; kc_CertSANs := APIServerCertSANs config;
       kc_ControllerManager_ExtraArgs := ControllerManagerExtraArgs config;
       kc_Scheduler_ExtraArgs := SchedulerExtraArgs config; kc_ClusterName := cluster_Name cluster;
       kc_ControlPlaneEndpoint := ""; kc_ExtraVolumes := match hostPath with Some h => [h] | None => [] end |}
    cluster).

(** ** Methods of TemplateData *)
Section methods.
Context {Crt V : Type} `{!StartupLib Crt V}.

Definition InitConfigurationYAML (td : TemplateData) : outcome string :=
  match td_InitConfiguration td with
  | None => Ok ""
  | Some c => yaml_init (V := V) c
  end.

Definition ClusterConfigurationYAML (td : TemplateData) : outcome string :=
  match td_ClusterConfiguration td with
  | None => Ok ""
  | Some c => yaml_cluster (V := V) c
  end.

Definition join_configuration (td : TemplateData) : JoinConfiguration :=
  {| join_KubeletExtraArgs := td_KubeletExtraArgs td; join_Token := td_KubeadmToken td;
     join_APIServerEndpoint := td_APIServerAddress td; join_CACertHashes := [td_CAHash td];
     join_ControlPlane := if td_ControlPlaneJoin td then Some ("CONTROLPLANEIP", DefaultKubernetesBindPort) else None |}.

Definition JoinConfigurationYAML (td : TemplateData) : outcome string :=
  yaml_join (V := V) (join_configuration td).

(** The errors of both parses are dropped: a version that does not parse is nil. *)
Definition IsVersionLessThan (td : TemplateData) (currentVersion : string) : outcome bool :=
  match parse_version (V := V) (td_KubernetesVersion td), parse_version (V := V) currentVersion with
  | Ok cv, Ok v11 => Ok (LessThan cv v11)
  | _, _ => Panic "invalid memory address or nil pointer dereference"
  end.

Definition PackageList (td : TemplateData) : outcome string :=
  v ← parse_version (td_KubernetesVersion td);
  if decide (Prerelease v ≠ "") then Err "pre-release versions are not supported" else
  let patch := patch_version v in
  let minor := minor_version v in
  old ← IsVersionLessThan td "1.12.0";
  let kubeadmVersion := if old : bool then "1.12.0" else patch in
  let pkgs := ["cron"; "ebtables"; "git"; "glusterfs-client"; "haveged"; "jq"; "nfs-common"; "socat";
               "kubelet=" +:+ patch +:+ "*"; "kubectl=" +:+ patch +:+ "*";
               "kubeadm=" +:+ kubeadmVersion +:+ "*"] in
  cni ← match kubernetesCNIVersions !! patch with
        | Some cni => Ok cni
        | None =>
            match kubernetesCNIVersions !! minor with
            | Some cni => Ok cni
            | None => Err ("kubernetes-cni version is unknown for Kubernetes version " +:+ td_KubernetesVersion td)
            end
        end;
  let pkgs := pkgs ++ ["kubernetes-cni=" +:+ cni +:+ "*"] in
  let pkgs := if decide (td_Provider td ≠ "gce" ∧ td_Provider td ≠ "gke") then pkgs ++ ["ntp"] else pkgs in
  Ok (Join " " pkgs).

Definition PrekVersion (td : TemplateData) : outcome string :=
  v ← parse_version (td_KubernetesVersion td);
  if decide (Prerelease v ≠ "") then Err "pre-release versions are not supported" else
  match prekVersions !! minor_version v with
  | Some prekVer => Ok prekVer
  | None => Err ("pre-k version is unknown for Kubernetes version " +:+ td_KubernetesVersion td)
  end.

Definition methods_of (td : TemplateData) : template_methods :=
  {| tm_PackageList := PackageList td; tm_PrekVersion := PrekVersion td;
     tm_InitConfigurationYAML := InitConfigurationYAML td;
     tm_ClusterConfigurationYAML := ClusterConfigurationYAML td |}.
End methods.
Arguments InitConfigurationYAML Crt V {_} td.
Arguments ClusterConfigurationYAML Crt V {_} td.
Arguments JoinConfigurationYAML Crt V {_} td.
Arguments IsVersionLessThan Crt V {_} td currentVersion.
Arguments PackageList Crt V {_} td.
Arguments PrekVersion Crt V {_} td.
Arguments methods_of Crt V {_} td.

(** ** The data of a machine *)
Section render.
Context {S Crt Key SSHKey X KC V : Type} `{!CertText Crt Key, !StartupLib Crt V}.
Notation env := (env (S := S) (Crt := Crt) (Key := Key) (SSHKey := SSHKey) (X := X) (KC := KC)).

(** The methods of [cloud.Interface] that fill in a provider's part. *)
Record TemplateHooks := {
  hook_NewNodeTemplateData : Machine → string → TemplateData → GoM env TemplateData;
  hook_NewMasterTemplateData : Machine → string → TemplateData → GoM env TemplateData;
  hook_customTemplate : string
}.
Context (cm : TemplateHooks).

(** [td.KubeletExtraArgs[k] = v] *)
Definition set_kubelet_arg (td : TemplateData) (k v : string) : GoM env TemplateData :=
  let args := <[k := v]> (td_KubeletExtraArgs td) in
  _ ← (if td_shared td then c ← the_cluster; set_Cluster (with_KubeletExtraArgs c args) else mret ());
  mret (td_with_args td args).

Definition NewNodeTemplateData (machine : Machine) (token : string) : GoM env TemplateData :=
  certs ← gets (λ e, sc_Certs (e_scope e));
  cluster ← the_cluster;
  match certs with
  | None => nil_panic
  | Some certs =>
      let config := Config (Spec cluster) in
      let td := {|
        td_ClusterName := cluster_Name cluster; td_KubernetesVersion := KubernetesVersion config;
        td_KubeadmToken := token; td_CAHash := pubkeypin_Hash (V := V) (Cert (CACert certs));
        td_CAKey := key_text (CKey (CACert certs)); td_FrontProxyKey := key_text (CKey (FrontProxyCACert certs));
        td_SAKey := key_text (CKey (ServiceAccountCert certs)); td_ETCDCAKey := key_text (CKey (EtcdCACert certs));
        td_APIServerAddress := APIServerAddress cluster; td_NetworkProvider := NetworkProvider (Cloud config);
        td_CloudConfig := ""; td_Provider := CloudProvider cluster; td_NodeName := "";
        td_ExternalProvider := false; td_InitConfiguration := None; td_ClusterConfiguration := None;
        td_JoinConfiguration := ""; td_KubeletExtraArgs := default ∅ (KubeletExtraArgs config);
        td_ControlPlaneJoin := false; td_shared := bool_decide (is_Some (KubeletExtraArgs config)) |} in
      td ← set_kubelet_arg td "node-labels"
             (NodeLabels_String (<[NodePoolKey := machine_Name machine]> {[ RoleNodeKey := "" ]}));
      hook_NewNodeTemplateData cm machine token td
  end.

Definition NewMasterTemplateData (machine : Machine) (token : string) : GoM env TemplateData :=
  td ← NewNodeTemplateData machine "";
  td ← set_kubelet_arg td "node-labels" (NodeLabels_String {[ NodePoolKey := machine_Name machine ]});
  let td := td_with_configs td (Some {| init_KubeletExtraArgs := td_KubeletExtraArgs td; init_BindPort := 6443 |})
                               (td_ClusterConfiguration td) in
  td ← (if decide (token ≠ "") then
          let td := td_with_join td (td_JoinConfiguration td) true in
          match JoinConfigurationYAML Crt V td with
          | Ok joinConf => mret (td_with_join td joinConf true)
          | Err e => panic e
          | Panic w => panic w
          end
        else mret td);
  hook_NewMasterTemplateData cm machine token td.

Definition RenderStartupScript (machine : Machine) (token : string) : GoM env string :=
  _ ← lift (template_Parse (V := V) (hook_customTemplate cm));
  if IsControlPlaneMachine machine then
    td ← NewMasterTemplateData machine token;
    lift (ExecuteTemplate (V := V) (hook_customTemplate cm) RoleMaster td (methods_of Crt V td))
  else
    td ← NewNodeTemplateData machine token;
    lift (ExecuteTemplate (V := V) (hook_customTemplate cm) RoleNode td (methods_of Crt V td)).
End render.

(** ** Versions *)
Definition prek_minors : list string := ["1.12.0"; "1.13.0"; "1.14.0"].

Lemma prek_known minor : is_Some (prekVersions !! minor) ↔ minor ∈ prek_minors.
Proof.
  unfold prek_minors. split.
  - intros Hm. rewrite !elem_of_cons.
    destruct (decide (minor = "1.12.0")), (decide (minor = "1.13.0")), (decide (minor = "1.14.0")); try tauto.
    exfalso. unfold prekVersions in Hm. cbn [list_to_map foldr fst snd] in Hm.
    rewrite !lookup_insert_ne, lookup_empty in Hm by done. by destruct Hm.
  - rewrite !elem_of_cons. intros [->|[->|[->|[]%not_elem_of_nil]]]; vm_compute; by eexists.
Qed.

Lemma prek_has_cni minor : minor ∈ prek_minors → is_Some (kubernetesCNIVersions !! minor).
Proof.
  unfold prek_minors. rewrite !elem_of_cons.
  intros [->|[->|[->|[]%not_elem_of_nil]]]; vm_compute; by eexists.
Qed.

Section versions.
Context {Crt V : Type} `{!StartupLib Crt V}.

(** A release can be rendered into a script (which asks for the packages and the pre-k
    binary) exactly when its minor version is one of three, although the CNI plugin is
    known for older ones too; pre-releases never. *)
Theorem startup_versions td v v12 :
  parse_version (V := V) "1.12.0" = Ok v12 → parse_version (V := V) (td_KubernetesVersion td) = Ok v →
  (is_ok (PrekVersion Crt V td) && is_ok (PackageList Crt V td) = true ↔
     Prerelease v = "" ∧ minor_version v ∈ prek_minors) ∧
  (is_ok (PackageList Crt V td) = true ↔
     Prerelease v = "" ∧ (is_Some (kubernetesCNIVersions !! patch_version v) ∨
                          is_Some (kubernetesCNIVersions !! minor_version v))).
Proof.
  intros H12 Hv.
  assert (is_ok (PackageList Crt V td) = true ↔ Prerelease v = "" ∧
    (is_Some (kubernetesCNIVersions !! patch_version v) ∨ is_Some (kubernetesCNIVersions !! minor_version v))) as Hpk.
  { unfold PackageList, IsVersionLessThan. rewrite Hv. cbn [mbind outcome_bind]. case_decide as Hp.
    { split; [done|]. by intros [? _]. }
    rewrite H12. cbn [mbind outcome_bind].
    destruct (kubernetesCNIVersions !! patch_version v) as [cni|].
    { split; [|done]. intros _. split; [done|left; by eexists]. }
    destruct (kubernetesCNIVersions !! minor_version v) as [cni|].
    { split; [|done]. intros _. split; [done|right; by eexists]. }
    split; [done|]. intros (_ & [[]%is_Some_None|[]%is_Some_None]). }
  split; [|exact Hpk]. rewrite andb_true_iff, Hpk, <-prek_known. unfold PrekVersion. rewrite Hv.
  cbn [mbind outcome_bind]. case_decide as Hp.
  { split; [by intros []|]. by intros [? _]. }
  destruct (prekVersions !! minor_version v) as [u|] eqn:E.
  - split; [by intros (_ & ? & _)|]. intros _. split; [done|]. split; [done|]. right.
    apply prek_has_cni, prek_known. by rewrite E.
  - split; [by intros []|]. by intros (_ & []%is_Some_None).
Qed.
End versions.

(** ** The data of a machine *)
Section render.
Context {S Crt Key SSHKey X KC V : Type} `{!CertText Crt Key, !StartupLib Crt V}.
Notation env := (env (S := S) (Crt := Crt) (Key := Key) (SSHKey := SSHKey) (X := X) (KC := KC)).
Context (cm : TemplateHooks (S := S) (Crt := Crt) (Key := Key) (SSHKey := SSHKey) (X := X) (KC := KC)).
Implicit Types (e : env) (td : TemplateData).

Lemma the_cluster_at e c : sc_Cluster (e_scope e) = Some c → the_cluster e = (Ok c, e).
Proof. intros Hc. unfold the_cluster. by rewrite Hc. Qed.

(** The arguments of the data are those of the scope's cluster, if that has any. *)
Definition args_of_cluster td e : Prop :=
  ∃ c, sc_Cluster (e_scope e) = Some c ∧
       KubeletExtraArgs (Config (Spec c)) = if td_shared td then Some (td_KubeletExtraArgs td) else None.

(** What a provider's hooks keep to. *)
Class HookLaws : Prop := {
  hl_node m token td e td' e' :
    hook_NewNodeTemplateData cm m token td e = (Ok td', e') → args_of_cluster td e →
    args_of_cluster td' e' ∧ td_shared td' = td_shared td ∧ td_KubeadmToken td' = td_KubeadmToken td ∧
    td_KubeletExtraArgs td' !! "node-labels" = td_KubeletExtraArgs td !! "node-labels";
  hl_master m token td e td' e' :
    hook_NewMasterTemplateData cm m token td e = (Ok td', e') → args_of_cluster td e →
    args_of_cluster td' e' ∧ td_shared td' = td_shared td ∧ td_JoinConfiguration td' = td_JoinConfiguration td ∧
    td_KubeletExtraArgs td' !! "node-labels" = td_KubeletExtraArgs td !! "node-labels"
}.
Context `{!HookLaws}.

Lemma set_kubelet_arg_ok td e k v :
  args_of_cluster td e →
  ∃ e', set_kubelet_arg td k v e = (Ok (td_with_args td (<[k := v]> (td_KubeletExtraArgs td))), e') ∧
        args_of_cluster (td_with_args td (<[k := v]> (td_KubeletExtraArgs td))) e'.
Proof.
  intros (c & Hc & Ha). unfold set_kubelet_arg. destruct (td_shared td) eqn:Hs.
  - rewrite bind_assoc. erewrite bind_ok by (by apply the_cluster_at).
    erewrite bind_ok by reflexivity. eexists. split; [done|]. eexists. split; [done|]. cbn. by rewrite Hs.
  - erewrite bind_ok by reflexivity. eexists. split; [done|]. exists c. split; [done|]. cbn. by rewrite Hs.
Qed.

Definition node_labels (m : Machine) : string :=
  NodeLabels_String (<[NodePoolKey := machine_Name m]> {[ RoleNodeKey := "" ]}).
Definition master_labels (m : Machine) : string := NodeLabels_String {[ NodePoolKey := machine_Name m ]}.

Lemma node_data m token e td e' c :
  sc_Cluster (e_scope e) = Some c → NewNodeTemplateData (V := V) cm m token e = (Ok td, e') →
  args_of_cluster td e' ∧ td_shared td = bool_decide (is_Some (KubeletExtraArgs (Config (Spec c)))) ∧
  td_KubeadmToken td = token ∧ td_KubeletExtraArgs td !! "node-labels" = Some (node_labels m).
Proof.
  intros Hc E. unfold NewNodeTemplateData in E.
  apply bind_ok_inv in E as (certs & e1 & Hg & E). unfold gets in Hg. injection Hg as <- <-.
  apply bind_ok_inv in E as (c' & e1 & Hg & E). rewrite (the_cluster_at _ c Hc) in Hg. injection Hg as <- <-.
  destruct (sc_Certs (e_scope e)) as [certs|]; [|done].
  match type of E with context [set_kubelet_arg ?t ?k ?v] =>
    destruct (set_kubelet_arg_ok t e k v) as (e1 & E1 & Ha) end.
  { exists c. split; [done|]. cbn. by destruct (KubeletExtraArgs (Config (Spec c))). }
  rewrite (bind_ok _ _ _ _ _ E1) in E.
  apply hl_node in E as (Ha' & Hs & Ht & Hl); [|done]. cbn in Hs, Ht, Hl.
  split_and!; try done. by rewrite Hl, lookup_insert_eq.
Qed.

(** What a machine's data says of the kubelet is what the scope's cluster says from
    then on, when that has arguments of its own: its node labels are the machine's,
    until the next script is rendered. *)
Theorem kubelet_args_shared m token e td e' c :
  sc_Cluster (e_scope e) = Some c →
  (NewNodeTemplateData (V := V) cm m token e = (Ok td, e') →
     args_of_cluster td e' ∧ td_KubeletExtraArgs td !! "node-labels" = Some (node_labels m)) ∧
  (NewMasterTemplateData (V := V) cm m token e = (Ok td, e') →
     args_of_cluster td e' ∧ td_KubeletExtraArgs td !! "node-labels" = Some (master_labels m)) ∧
  (is_Some (KubeletExtraArgs (Config (Spec c))) →
   NewMasterTemplateData (V := V) cm m token e = (Ok td, e') →
     ∃ c' args, sc_Cluster (e_scope e') = Some c' ∧ KubeletExtraArgs (Config (Spec c')) = Some args ∧
                args !! "node-labels" = Some (master_labels m)).
Proof.
  intros Hc.
  assert (NewMasterTemplateData (V := V) cm m token e = (Ok td, e') →
    args_of_cluster td e' ∧ td_KubeletExtraArgs td !! "node-labels" = Some (master_labels m) ∧
    td_shared td = bool_decide (is_Some (KubeletExtraArgs (Config (Spec c))))) as Hm.
  { intros E. unfold NewMasterTemplateData in E.
    apply bind_ok_inv in E as (td1 & e1 & E1 & E).
    destruct (node_data _ _ _ _ _ _ Hc E1) as (Ha1 & Hs1 & Ht1 & _).
    match type of E with context [set_kubelet_arg ?t ?k ?v] =>
      destruct (set_kubelet_arg_ok t e1 k v Ha1) as (e2 & E2 & Ha2) end.
    rewrite (bind_ok _ _ _ _ _ E2) in E.
    apply bind_ok_inv in E as (td3 & e3 & E3 & E).
    assert (e3 = e2 ∧ td_shared td3 = td_shared td1 ∧
      td_KubeletExtraArgs td3 = <["node-labels" := master_labels m]> (td_KubeletExtraArgs td1)) as (-> & Hs3 & Hk3).
    { case_decide; [|by injection E3 as <- <-]. destruct (JoinConfigurationYAML Crt V _); try done.
      by injection E3 as <- <-. }
    apply hl_master in E as (Ha & Hs & _ & Hl).
    - split_and!; [done| |congruence]. by rewrite Hl, Hk3, lookup_insert_eq.
    - destruct Ha2 as (c2 & Hc2 & Hk2). exists c2. split; [done|]. rewrite Hk2. cbn. by rewrite Hs3, Hk3. }
  split_and!.
  - intros E. destruct (node_data _ _ _ _ _ _ Hc E) as (? & ? & ? & ?). done.
  - intros E. by destruct (Hm E) as (? & ? & ?).
  - intros Hs E. destruct (Hm E) as ((c' & Hc' & Ha) & Hl & Hsh).
    rewrite Hsh, bool_decide_eq_true_2 in Ha by done. by exists c', (td_KubeletExtraArgs td).
Qed.

(** A machine that joins the control plane gets no bootstrap token: its join
    configuration has the empty one, whatever token was made for it. *)
Theorem control_plane_join_no_token m token e td e' c :
  sc_Cluster (e_scope e) = Some c → token ≠ "" →
  NewMasterTemplateData (V := V) cm m token e = (Ok td, e') →
  ∃ j, yaml_join (V := V) j = Ok (td_JoinConfiguration td) ∧ join_Token j = "" ∧ is_Some (join_ControlPlane j).
Proof.
  intros Hc Ht E. unfold NewMasterTemplateData in E.
  apply bind_ok_inv in E as (td1 & e1 & E1 & E).
  destruct (node_data _ _ _ _ _ _ Hc E1) as (Ha1 & Hs1 & Ht1 & _).
  match type of E with context [set_kubelet_arg ?t ?k ?v] =>
    destruct (set_kubelet_arg_ok t e1 k v Ha1) as (e2 & E2 & Ha2) end.
  rewrite (bind_ok _ _ _ _ _ E2) in E. apply bind_ok_inv in E as (td3 & e3 & E3 & E).
  rewrite decide_True in E3 by done.
  destruct (JoinConfigurationYAML Crt V _) as [j|?|?] eqn:Ej; try done. injection E3 as <- <-.
  apply hl_master in E as (_ & _ & Hj & _).
  - rewrite Hj. eexists. split; [exact Ej|]. cbn. split; [exact Ht1|by eexists].
  - destruct Ha2 as (c2 & Hc2 & Hk2). by exists c2.
Qed.
End render.
