(* ===== verification/MachineUpgrade.v ===== *)
(** * Upgrading a machine over ssh (cloud/upm.go, cloud/ssh.go)

    The upgrade manager of the cloud package: the script that a master or a node is given,
    and the command that writes and starts it.  golang.org/x/crypto/ssh is the class
    [SSHLib]; the writer that collects what commands print is one for the whole process,
    in the state.

    The manager that the constructor makes has no store, so that no master is ever
    upgraded with it ([machine_upgrades]); what commands answer grows from one to the
    next ([command_output]). *)
From stdpp Require Import base list gmap strings pretty fin_maps.
From Stdlib Require Import Ascii.
From S2P Require Import Prelude GoStrings Api StoreSpec Provider Certs Kube Cloud Apply Cmds Startup.

(** gomodules.xyz/version: of a pointer that is nil, a panic *)
Class VersionText (V : Type) := { ver_String : V → string; ver_Compare : V → V → Z }.

(** The signer of a key, a connection and a session are their texts.  The error of a
    command is dropped by the code; the answer is what it has written. *)
Class SSHLib (X : Type) := {
  ssh_ParsePrivateKey : string → outcome string;
  ssh_Dial : string → string → string → GoM X string;        (* address, user, signer *)
  NewSession : string → GoM X string;
  session_Run : string → string → GoM X string;
  DefaultWriter : X → string;
  set_DefaultWriter : string → X → X
}.

(** ** ssh.go *)
Section ssh.
Context {X : Type} `{!SSHLib X}.

Definition ExecuteTCPCommand (command addr user signer : string) : GoM X string :=
  conn ← ssh_Dial addr user signer;
  session ← NewSession conn;
  let command := if decide (user = "root") then command else "sudo " +:+ command in
  written ← session_Run session command;
  _ ← modify (λ x, set_DefaultWriter (DefaultWriter x +:+ written) x);
  gets DefaultWriter.
End ssh.

(** ** The scripts *)
Definition dq : string := String (ascii_of_nat 34) "".

(** A line appended to the script *)
Definition script_line (s : string) : string := "echo " +:+ dq +:+ s +:+ dq +:+ " >> /usr/bin/pharmer.sh".

Definition script_head : list string :=
  ["echo " +:+ dq +:+ "#!/bin/bash" +:+ dq +:+ " > /usr/bin/pharmer.sh"; script_line "set -xeou pipefail";
   script_line "export DEBIAN_FRONTEND=noninteractive"; script_line "export DEBCONF_NONINTERACTIVE_SEEN=true";
   script_line ""; script_line "apt-get update"].

Definition script_tail : list string :=
  ["chmod +x /usr/bin/pharmer.sh"; "nohup /usr/bin/pharmer.sh >> /var/log/pharmer.log 2>&1 &"].

Definition packages_line (minor patch cni : string) : string :=
  script_line ("apt-get upgrade -y kubelet=" +:+ patch +:+ "* kubectl=" +:+ patch +:+
    (if decide (minor = "1.8.0") then "*" else "* kubeadm=" +:+ patch +:+ "*") +:+ " kubernetes-cni=" +:+ cni +:+ "*").

(** The version of pre-k stands where the table has a whole URL. *)
Definition prek_line (prekVer : string) : string :=
  script_line ("curl -fsSL --retry 5 -o pre-k https://cdn.appscode.com/binaries/pre-k/" +:+ prekVer +:+
    "/pre-k-linux-amd64 && chmod +x pre-k && mv pre-k /usr/bin/").

Definition node_config_line : string :=
  let quote := "'" +:+ dq +:+ "'" +:+ dq +:+ "'" in
  script_line ("kubeadm upgrade node config --kubelet-version \$(kubelet --version | cut -d " +:+ quote +:+ " " +:+ quote +:+ " -f 2)").

Definition sh_command (steps : list string) : string := "sh -c '" +:+ Join "; " steps +:+ "'".

(** ** upm.go *)
Section upgrade.
Context {S Crt Key SSHKey X KC CC BC V : Type}.
Context `{!Crypto Crt Key SSHKey, !CertText Crt Key, !Clock, !TimeText, !Rand, !Polling}.
Context `{!Kubernetes X KC CC BC, !JsonText, !Environment, !StartupLib Crt V, !VersionText V, !SSHLib X}.
Notation env := (env (S := S) (Crt := Crt) (Key := Key) (SSHKey := SSHKey) (X := X) (KC := KC)).
Notation Interface := (Interface (S := S) (Crt := Crt) (Key := Key) (SSHKey := SSHKey) (X := X) (KC := KC)).
Context (providers : string → option Interface).
Context (Nodes_Get : KC → string → GoM X (string * list NodeAddress)).
Context (ParseIP : string → bool) (private_key : SSHKey → string).

(** Without its client; a store that is not there is nil. *)
Record GenericUpgradeManager := { upm_storeProvider : option (ResourceInterface S Crt Key); upm_cluster : Cluster }.

(** The constructor leaves the store out. *)
Definition NewUpgradeManager (cluster : Cluster) : GenericUpgradeManager :=
  {| upm_storeProvider := None; upm_cluster := cluster |}.

Definition nil_deref {A} : GoM env A := panic "invalid memory address or nil pointer dereference".

Definition ExecuteSSHCommand (upm : GenericUpgradeManager) (command : string) (machine : Machine) : GoM env string :=
  match upm_storeProvider upm with
  | None => nil_deref
  | Some sp =>
      cfg ← GetSSHConfig sp providers Nodes_Get ParseIP private_key (cluster_Name (upm_cluster upm)) (machine_Name machine);
      keySigner ← lift (ssh_ParsePrivateKey (X := X) (PrivateKey cfg));
      on_cloud (ExecuteTCPCommand command (HostIP cfg +:+ ":" +:+ pretty (HostPort cfg)) (ssh_User cfg) keySigner)
  end.

(** [v, _ := semver.NewVersion(s)]: the error is dropped, and the pointer is nil. *)
Definition version_of (s : string) : option V := match parse_version s with Ok v => Some v | _ => None end.

(** [desiredVersion.Equal(currentVersion)] *)
Definition same_version (desired current : option V) : GoM env bool :=
  match desired, current with
  | Some d, Some c => mret (bool_decide (ver_Compare d c = 0%Z))
  | _, _ => nil_deref
  end.

(** What the tables have for a version *)
Definition cni_and_prek (d : V) : outcome (string * string) :=
  match kubernetesCNIVersions !! minor_version d with
  | None => Err ("kubernetes-cni version is unknown for Kubernetes version " +:+ ver_String d)
  | Some cni =>
      match prekVersions !! minor_version d with
      | None => Err ("pre-k version is unknown for Kubernetes version " +:+ ver_String d)
      | Some prekVer => Ok (cni, prekVer)
      end
  end.

(** The packages and pre-k of a version that is not the current one *)
Definition version_steps (desired current : option V) (between : V → GoM env (list string)) : GoM env (option (list string)) :=
  same ← same_version desired current;
  match same, desired with
  | false, Some d =>
      found ← lift (cni_and_prek d);
      mid ← between d;
      mret (Some ([packages_line (minor_version d) (patch_version d) found.1] ++ mid ++ [prek_line found.2]))
  | _, _ => mret None
  end.

(** A version of which nothing changes still runs the head of the script. *)
Definition MasterUpgrade (upm : GenericUpgradeManager) (oldMachine newMachine : Machine) : GoM env () :=
  let old := ControlPlane (Versions (machine_Spec oldMachine)) in
  let new := ControlPlane (Versions (machine_Spec newMachine)) in
  more ← (if decide (old = new) then mret [] else
    steps ← version_steps (version_of new) (version_of old) (λ _, mret []);
    mret (default [] steps ++
          [script_line "pre-k check master-status --timeout=-1s --kubeconfig=/etc/kubernetes/admin.conf";
           script_line ("kubeadm upgrade apply " +:+ new +:+ " -y")] ++ script_tail));
  _ ← ExecuteSSHCommand upm (sh_command (script_head ++ more)) oldMachine;
  mret ().

Definition NodeUpgrade (upm : GenericUpgradeManager) (oldMachine newMachine : Machine) : GoM env () :=
  let old := Kubelet (Versions (machine_Spec oldMachine)) in
  let new := Kubelet (Versions (machine_Spec newMachine)) in
  if decide (old = new) then mret () else
  v11 ← lift (parse_version "1.11.0");
  steps ← version_steps (version_of new) (version_of old)
            (λ d, mret (if decide (0 ≤ ver_Compare d v11)%Z then [node_config_line] else []));
  match steps with
  | None => mret ()
  | Some steps =>
      _ ← ExecuteSSHCommand upm (sh_command (script_head ++ steps ++ [script_line "systemctl restart kubelet"] ++ script_tail)) oldMachine;
      mret ()
  end.
End upgrade.
Arguments GenericUpgradeManager : clear implicits.

Section ssh.
Context {X : Type} `{!SSHLib X}.

(** Only ExecuteTCPCommand writes to the writer, and it reads back. *)
Class SSHLaws : Prop := {
  sl_set s x : DefaultWriter (set_DefaultWriter s x) = s;
  sl_dial a u k x : DefaultWriter (ssh_Dial a u k x).2 = DefaultWriter x;
  sl_session c x : DefaultWriter (NewSession c x).2 = DefaultWriter x;
  sl_run s c x : DefaultWriter (session_Run s c x).2 = DefaultWriter x
}.

(** What a command answers begins with all that the commands before it have written. *)
Lemma command_output `{!SSHLaws} command addr user signer x out x' :
  ExecuteTCPCommand command addr user signer x = (Ok out, x') →
  (∃ written, out = DefaultWriter x +:+ written) ∧ DefaultWriter x' = out.
Proof.
  intros E. unfold ExecuteTCPCommand in E.
  apply bind_ok_inv in E as (conn & x1 & E1 & E). apply bind_ok_inv in E as (session & x2 & E2 & E).
  cbn zeta in E. apply bind_ok_inv in E as (written & x3 & E3 & E).
  apply bind_ok_inv in E as ([] & x4 & [= <-] & E). injection E as <- <-. rewrite sl_set.
  pose proof (sl_dial addr user signer x) as H1. rewrite E1 in H1. cbn in H1.
  pose proof (sl_session conn x1) as H2. rewrite E2 in H2. cbn in H2.
  set (cmd := if decide (user = "root") then command else "sudo " +:+ command) in E3.
  pose proof (sl_run session cmd x2) as H3. rewrite E3 in H3. cbn in H3.
  split; [|done]. exists written. by rewrite H3, H2, H1.
Qed.
End ssh.

Section upgrade.
Context {S Crt Key SSHKey X KC CC BC V : Type}.
Context `{!Crypto Crt Key SSHKey, !CertText Crt Key, !Clock, !TimeText, !Rand, !Polling}.
Context `{!Kubernetes X KC CC BC, !JsonText, !Environment, !StartupLib Crt V, !VersionText V, !SSHLib X}.
Notation env := (env (S := S) (Crt := Crt) (Key := Key) (SSHKey := SSHKey) (X := X) (KC := KC)).
Notation Interface := (Interface (S := S) (Crt := Crt) (Key := Key) (SSHKey := SSHKey) (X := X) (KC := KC)).
Context (providers : string → option Interface).
Context (Nodes_Get : KC → string → GoM X (string * list NodeAddress)).
Context (ParseIP : string → bool) (private_key : SSHKey → string).
Implicit Types (e : env) (upm : GenericUpgradeManager S Crt Key).
Notation MasterUpgrade := (MasterUpgrade (X := X) (V := V) providers Nodes_Get ParseIP private_key).
Notation NodeUpgrade := (NodeUpgrade (X := X) (V := V) providers Nodes_Get ParseIP private_key).

(** The two machines have versions that the library says are equal. *)
Definition equal_versions (new old : string) : Prop :=
  ∃ v w : V, parse_version new = Ok v ∧ parse_version old = Ok w ∧ ver_Compare v w = 0%Z.

Definition supported_minors : list string := ["1.12.0"; "1.13.0"; "1.14.0"].

Lemma prek_supported (minor : string) : is_Some (prekVersions !! minor) → minor ∈ supported_minors.
Proof.
  intros [u Hu]. apply elem_of_list_to_map_2 in Hu. unfold supported_minors.
  rewrite !elem_of_cons in *. destruct Hu as [[= ->]|[[= ->]|[[= ->]|Hu%elem_of_nil]]]; auto. done.
Qed.

(** The steps of a version: the state stays, and they are there for a version of the tables
    that is not the current one. *)
Lemma version_steps_cases (new old : string) (between : V → GoM env (list string)) e :
  (∀ d, ∃ mid, between d e = (Ok mid, e)) →
  (version_steps (version_of new) (version_of old) between e).2 = e ∧
  match (version_steps (version_of new) (version_of old) between e).1 with
  | Ok None => equal_versions new old
  | Ok (Some steps) => ¬ equal_versions new old ∧
      ∃ v w : V, parse_version new = Ok v ∧ parse_version old = Ok w ∧ minor_version v ∈ supported_minors
  | _ => ¬ equal_versions new old
  end.
Proof.
  intros Hb. unfold version_steps, version_of, equal_versions.
  destruct (parse_version new) as [v|?|?] eqn:Ev; [|split; [done|cbn; naive_solver]..].
  destruct (parse_version old) as [w|?|?] eqn:Ew; [|split; [done|cbn; naive_solver]..].
  unfold same_version, mbind, gom_bind. cbn. case_bool_decide as Hc; [split; [done|by exists v, w]|].
  assert (¬ ∃ v0 w0, Ok v = Ok v0 ∧ Ok w = Ok w0 ∧ ver_Compare v0 w0 = 0%Z) as Hne by (intros (? & ? & [= <-] & [= <-] & ?); done).
  unfold lift, cni_and_prek. destruct (kubernetesCNIVersions !! minor_version v) as [cni|]; [|done].
  destruct (prekVersions !! minor_version v) as [prek|] eqn:Ep; [|done].
  destruct (Hb v) as [mid Hmid]. rewrite Hmid. cbn. split; [done|]. split; [done|].
  exists v, w. split_and!; [done..|]. apply prek_supported. by rewrite Ep.
Qed.

Lemma master_new e c old new :
  (MasterUpgrade (NewUpgradeManager c) old new e).2 = e ∧ is_ok (MasterUpgrade (NewUpgradeManager c) old new e).1 = false.
Proof.
  unfold MachineUpgrade.MasterUpgrade. case_decide as Hd; [done|].
  destruct (version_steps_cases (ControlPlane (Versions (machine_Spec new))) (ControlPlane (Versions (machine_Spec old)))
              (λ _, mret []) e) as [Hm _]; [by eexists|].
  unfold mbind, gom_bind. destruct (version_steps _ _ _ e) as [[steps|err|w] e1]; cbn in Hm; subst e1; split; reflexivity.
Qed.

(** Where a node ends: where it is, or at the command *)
Lemma node_cases e upm old new :
  let new_kubelet := Kubelet (Versions (machine_Spec new)) in
  let old_kubelet := Kubelet (Versions (machine_Spec old)) in
  (NodeUpgrade upm old new e = (Ok (), e) ∧
   (old_kubelet = new_kubelet ∨ (∃ v : V, parse_version "1.11.0" = Ok v) ∧ equal_versions new_kubelet old_kubelet)) ∨
  (old_kubelet ≠ new_kubelet ∧ ¬ ((∃ v : V, parse_version "1.11.0" = Ok v) ∧ equal_versions new_kubelet old_kubelet)) ∧
  ((NodeUpgrade upm old new e).2 = e ∧ is_ok (NodeUpgrade upm old new e).1 = false ∨
   (∃ v : V, parse_version new_kubelet = Ok v ∧ minor_version v ∈ supported_minors) ∧
   ∃ command, NodeUpgrade upm old new e =
     (_ ← ExecuteSSHCommand providers Nodes_Get ParseIP private_key upm command old; mret ()) e).
Proof.
  cbv zeta. unfold MachineUpgrade.NodeUpgrade.
  set (ko := Kubelet (Versions (machine_Spec old))). set (kn := Kubelet (Versions (machine_Spec new))).
  case_decide as Hk; [by left; auto|].
  destruct (parse_version "1.11.0") as [v11|err|w] eqn:E11; [|right..].
  2-3: split; [split; [done|by intros [[? ?] _]]|left; by split].
  rewrite (bind_ok (lift (Ok v11)) _ e e v11 eq_refl).
  set (between := λ d : V, mret (if decide (0 ≤ ver_Compare d v11)%Z then [node_config_line] else []) : GoM env (list string)).
  destruct (version_steps_cases kn ko between e) as [Hm Hc]; [by eexists|].
  unfold mbind, gom_bind. destruct (version_steps _ _ between e) as [[[steps|]|err|w] e1]; cbn in Hm, Hc; subst e1.
  - right. destruct Hc as (Hne & v & w & Hv & Hw & Hin). split; [split; [done|by intros [_ ?]]|].
    right. split; [by exists v|]. by eexists.
  - left. split; [done|]. right. split; [by exists v11|done].
  - right. split; [split; [done|by intros [_ ?]]|by left].
  - right. split; [split; [done|by intros [_ ?]]|by left].
Qed.

(** [C36] A manager made by NewUpgradeManager never upgrades a master: it fails, with a
    panic if not before, whatever the versions are, and changes nothing.  It leaves a
    node as it is, and succeeds exactly when the versions of its kubelet are equal.  And
    no manager upgrades a node to a version of which the tables of pre-k know nothing,
    so that the case of 1.8 is never run. *)
Theorem machine_upgrades e upm c old new :
  let new_kubelet := Kubelet (Versions (machine_Spec new)) in
  let old_kubelet := Kubelet (Versions (machine_Spec old)) in
  (MasterUpgrade (NewUpgradeManager c) old new e).2 = e ∧ is_ok (MasterUpgrade (NewUpgradeManager c) old new e).1 = false ∧
  (NodeUpgrade (NewUpgradeManager c) old new e).2 = e ∧
  (is_ok (NodeUpgrade (NewUpgradeManager c) old new e).1 = true ↔
     old_kubelet = new_kubelet ∨ (∃ v : V, parse_version "1.11.0" = Ok v) ∧ equal_versions new_kubelet old_kubelet) ∧
  (is_ok (NodeUpgrade upm old new e).1 = true → old_kubelet = new_kubelet ∨ equal_versions new_kubelet old_kubelet ∨
     ∃ v : V, parse_version new_kubelet = Ok v ∧ minor_version v ∈ supported_minors).
Proof.
  intros kn ko. destruct (master_new e c old new) as [Hm1 Hm2]. split; [done|]. split; [done|].
  pose proof (node_cases e upm old new) as Hn. pose proof (node_cases e (NewUpgradeManager c) old new) as Hc.
  cbv zeta in Hn, Hc. fold kn ko in Hn, Hc. split_and!.
  - destruct Hc as [[-> _]|(_ & [[? _]|(_ & command & ->)])]; done.
  - destruct Hc as [[-> ?]|(Hne & Hc)]; [done|]. split; [|tauto].
    destruct Hc as [[_ ->]|(_ & command & ->)]; done.
  - destruct Hn as [[_ Hn]|(_ & [[_ ->]|(Hn & _)])]; [tauto|done|auto].
Qed.
End upgrade.
