(* ===== verification/Terminal.v ===== *)
(** * Commands at the terminal (cloud/upm.go, cmds/cloud/ssh_node.go, backup_cluster.go)

    The table of upgrades with the [text/tabwriter] it is aligned by, the shell on a node
    ([ssh_node.go]), the backup of a cluster ([backup_cluster.go]) and the queues a server
    listens to (cmds/server.go).  The later rows of
    the kubelets have a cell too many ([kubelet_rows]); a shell that ends with an error
    leaves the terminal raw ([shell_leaves_raw]). *)
From stdpp Require Import base list gmap strings pretty fin_maps.
From Stdlib Require Import Ascii.
From S2P Require Import Prelude GoStrings Api StoreSpec Provider Certs Kube Cloud Apply Upgrade.
From S2P Require Import Options Edit Printing Cmds MachineUpgrade.

(** ** text/tabwriter, with the widths pharmer asks for

    A text is lines of cells that end in a tab, but for the last cell of a line.  The
    cells of a column in adjacent lines are one block, as wide as its widest cell with
    its padding, and no less than 10.  A character is a byte. *)
Module TabWriter.
Definition minwidth : nat := 10.
Definition padding : nat := 3.
Definition HT : ascii := ascii_of_nat 9.
Definition LF : ascii := ascii_of_nat 10.

(** The width cell [j] of a line asks for, if a tab ends it *)
Definition cell_width (j : nat) (line : list string) : option nat :=
  if decide (S j < length line) then Some (minwidth `max` (String.length (default "" (line !! j)) + padding)) else None.

(** The widest of what is left of a block *)
Fixpoint run_max (l : list (option nat)) : nat :=
  match l with
  | Some w :: l => w `max` run_max l
  | _ => 0
  end.

(** The width of the column at every line; [block] is that of the block a line continues. *)
Fixpoint spread (block : option nat) (l : list (option nat)) : list nat :=
  match l with
  | [] => []
  | None :: l => 0 :: spread None l
  | Some w :: l => let b := default (w `max` run_max l) block in b :: spread (Some b) l
  end.

Definition column (lines : list (list string)) (j : nat) : list nat := spread None (cell_width j <$> lines).

Fixpoint spaces (n : nat) : string := match n with 0 => "" | S n => String " " (spaces n) end.
Definition pad (w : nat) (c : string) : string := c +:+ spaces (w - String.length c).

Definition render (lines : list (list string)) (i : nat) (line : list string) : string :=
  String.concat "" (imap (λ j c, if decide (S j < length line) then pad (default 0 (column lines j !! i)) c else c) line).

Definition tabbed (text : string) : string :=
  let lines := Split HT <$> Split LF text in
  Join newline (imap (render lines) lines).
End TabWriter.

(** ** upm.go: PrintAvailableUpgrades *)

(** What is shown, and what the tab writer holds back until it is flushed *)
Record terminal := Terminal { shown : string; held : string }.

Definition Fprintln_w (s : string) : GoM terminal () := modify (λ t, Terminal (shown t +:+ s +:+ newline) (held t)).
Definition Fprintln_tab (s : string) : GoM terminal () := modify (λ t, Terminal (shown t) (held t +:+ s +:+ newline)).
Definition Flush : GoM terminal () := modify (λ t, Terminal (shown t +:+ TabWriter.tabbed (held t)) "").

(** The line of a kubelet version: the first starts with its name. *)
Definition kubelet_row (u : Upgrade) (firstPrinted : bool) (oldVersion : string) : string :=
  let nodeCount := default 0%Z (KubeletVersions (Before u) !! oldVersion) in
  (if firstPrinted then tab +:+ tab else "Kubelet" +:+ tab) +:+
  pretty nodeCount +:+ " x " +:+ oldVersion +:+ tab +:+ KubeVersion (After u).

Fixpoint print_kubelets (u : Upgrade) (firstPrinted : bool) (versions : list string) : GoM terminal () :=
  match versions with
  | [] => mret ()
  | v :: versions => _ ← Fprintln_tab (kubelet_row u firstPrinted v); print_kubelets u true versions
  end.

Definition columns_header : string := "COMPONENT" +:+ tab +:+ "CURRENT" +:+ tab +:+ "AVAILABLE".
Definition component_row (name before after : string) : string := name +:+ tab +:+ before +:+ tab +:+ after.

Definition print_upgrade (cluster : Cluster) (u : Upgrade) : GoM terminal () :=
  _ ← (if CanUpgradeKubelets u then
         _ ← Fprintln_w "Components that will be upgraded after you've upgraded the control plane:";
         _ ← Fprintln_tab columns_header;
         _ ← print_kubelets u false (sortedSliceFromStringIntMap (KubeletVersions (Before u)));
         _ ← Flush;
         Fprintln_w ""
       else mret ());
  let before := KubeVersion (Before u) in
  let after := KubeVersion (After u) in
  _ ← Fprintln_w ("Upgrade to the latest " +:+ Description u +:+ ":");
  _ ← Fprintln_w "";
  _ ← Fprintln_tab columns_header;
  _ ← Fprintln_tab (component_row "API Server" before after);
  _ ← Fprintln_tab (component_row "Controller Manager" before after);
  _ ← Fprintln_tab (component_row "Scheduler" before after);
  _ ← Fprintln_tab (component_row "Cluster Proxy" before after);
  _ ← Fprintln_tab (component_row "Core DNS" (DNSVersion (Before u)) (DNSVersion (After u)));
  _ ← Flush;
  _ ← Fprintln_w "";
  _ ← Fprintln_w "You can now apply the upgrade by executing the following command:";
  _ ← Fprintln_w "";
  _ ← Fprintln_w (tab +:+ "pharmer edit Cluster " +:+ cluster_Name cluster +:+ " --kubernetes-version=" +:+ after);
  _ ← Fprintln_w "";
  _ ← (if decide (KubeadmVersion (Before u) ≠ KubeadmVersion (After u)) then
         _ ← Fprintln_w ("Note: Before you do can perform this upgrade, you have to update kubeadm to " +:+ KubeadmVersion (After u));
         Fprintln_w ""
       else mret ());
  _ ← Fprintln_w "_____________________________________________________________________";
  Fprintln_w "".

(** The tab writer is made for the call: nothing is held before it. *)
Definition PrintAvailableUpgrades (cluster : Cluster) (upgrades : list Upgrade) : GoM terminal () :=
  match upgrades with
  | [] => Fprintln_w "Awesome, you're up-to-date! Enjoy!"
  | _ => for_each (print_upgrade cluster) upgrades
  end.

(** ** ssh_node.go *)

(** golang.org/x/crypto/ssh/terminal and the rest of a session; the state of a terminal
    is a text.  The streams of the session are those of the process. *)
Class ShellLib (X : Type) := {
  MakeRaw : GoM X string;
  GetSize : GoM X (Z * Z);                                     (* width, height *)
  Restore : string → GoM X ();
  RequestPty : string → string → Z → Z → GoM X ();             (* session, terminal, height, width *)
  session_Shell : string → GoM X ();
  session_Wait : string → GoM X ();
  conn_Close : string → GoM X ()
}.

Section shell.
Context {X : Type} `{!SSHLib X, !ShellLib X}.

(** What runs after a connection is made; the deferred Close runs at every return, but
    not when the process exits. *)
Definition deferred {A} (m : GoM X A) (close : GoM X ()) : GoM X A := λ s,
  match m s with
  | (Panic w, s') => (Panic w, s')
  | (r, s') => (r, (close s').2)
  end.

Definition run_shell (conn : string) : GoM X () :=
  session ← ExitOnError (NewSession conn);
  oldState ← ExitOnError MakeRaw;
  size ← ExitOnError GetSize;
  _ ← ExitOnError (RequestPty session "xterm-256color" size.2 size.1);
  _ ← session_Shell session;
  _ ← session_Wait session;
  Restore oldState.

Definition OpenShell (privateKey addr : string) (port : Z) (user : string) : GoM X () :=
  keySigner ← ExitOnError (lift (ssh_ParsePrivateKey (X := X) privateKey));
  conn ← ExitOnError (ssh_Dial (addr +:+ ":" +:+ pretty port) user keySigner);
  deferred (run_shell conn) (conn_Close conn).
End shell.

Section commands.
Context {S Crt Key SSHKey X KC CC BC : Type}.
Context `{!Crypto Crt Key SSHKey, !CertText Crt Key, !Clock, !TimeText, !Rand, !Polling}.
Context `{!Kubernetes X KC CC BC, !JsonText, !Environment, !SSHLib X, !ShellLib X}.
Context (sp : ResourceInterface S Crt Key).
Notation env := (env (S := S) (Crt := Crt) (Key := Key) (SSHKey := SSHKey) (X := X) (KC := KC)).
Notation Interface := (Interface (S := S) (Crt := Crt) (Key := Key) (SSHKey := SSHKey) (X := X)
                                 (KC := KC)).
Context (providers : string → option Interface).
Context (Nodes_Get : KC → string → GoM X (string * list NodeAddress)).
Context (ParseIP : string → bool) (private_key : SSHKey → string).

(** `pharmer ssh node` *)
Definition runSSH (opts : NodeSSHConfig.t) : GoM env () :=
  cfg ← ExitOnError (GetSSHConfig sp providers Nodes_Get ParseIP private_key
                       (NodeSSHConfig.ClusterName opts) (NodeSSHConfig.NodeName opts));
  ExitOnError (on_cloud (OpenShell (PrivateKey cfg) (HostIP cfg) (HostPort cfg) (ssh_User cfg))).

(** ** backup_cluster.go

    k8s.io/client-go/tools/clientcmd reads the files of kubectl; kmodules.xyz/client-go
    asks a cluster for its objects. *)
Context (GetStartingConfig : outcome ClientConfig).
Context (ClientConfig_of : ClientConfig → string → outcome (option RestConfig)).  (* the context to use *)
Context (BackupToTar : string → RestConfig → bool → string → GoM X string).

Definition SearchLocalKubeConfig (clusterName : string) : outcome (option RestConfig) :=
  apiConfig ← GetStartingConfig;
  ClientConfig_of apiConfig ("cluster-admin@" +:+ clusterName +:+ ".pharmer").

(** The configuration of the administrator, when there is none of kubectl. *)
Definition admin_RestConfig (clusterName : string) : GoM env RestConfig :=
  cluster ← ExitOnError (store (op_Get (st_Clusters sp) clusterName));
  ca ← ExitOnError (store (ri_cert_Get sp (cluster_Name cluster) "ca"));
  c2 ← ExitOnError (store_rand (GetAdminConfig (SSHKey := SSHKey) sp cluster {| Cert := ca.1; CKey := ca.2 |}));
  mret (NewRestConfigFromKubeConfig c2).

(** `pharmer backup cluster`: the name of the archive *)
Definition runBackup (opts : ClusterBackupConfig.t) : GoM env string :=
  let name := ClusterBackupConfig.ClusterName opts in
  restConfig ← match SearchLocalKubeConfig name with
               | Ok (Some c) => mret c
               | Panic w => panic w
               | _ => admin_RestConfig name
               end;
  ExitOnError (on_cloud (BackupToTar name restConfig (ClusterBackupConfig.Sanitize opts) (ClusterBackupConfig.BackupDir opts))).
End commands.

(** ** server.go: the three queues of the API server, with their groups of workers

    [QueueSubscribe] is the connection's; the handlers are those of ApiServer.v. *)
Definition runServer {X : Type} (QueueSubscribe : string → string → GoM X ()) : GoM X () :=
  _ ← QueueSubscribe "create-cluster" "cluster-api-create-workers";
  _ ← QueueSubscribe "delete-cluster" "cluster-api-delete-workers";
  QueueSubscribe "retry-cluster" "cluster-api-retry-workers".

(** ** Alignment *)
Section columns.
Import TabWriter.
Implicit Types (l : list (option nat)) (b : option nat) (w v : nat).

(** A block that is continued is at least as wide as its lines ask for. *)
Definition wide_enough b l : Prop := match b with Some w => run_max l ≤ w | None => True end.

Lemma spread_fits b l i w v : wide_enough b l →
  l !! i = Some (Some w) → spread b l !! i = Some v → w ≤ v.
Proof.
  revert b i. induction l as [|[u|] l IH]; intros b i Hb Hl Hs; [done| |].
  - cbn [spread] in Hs. destruct i as [|i]; cbn in Hl, Hs.
    + injection Hl as ->. injection Hs as <-. destruct b as [b|]; cbn in Hb |- *; lia.
    + eapply (IH _ i); [|done..]. destruct b as [b|]; cbn in Hb |- *; lia.
  - destruct i as [|i]; [done|]. cbn in Hl, Hs. eapply (IH None i); done.
Qed.

Lemma spread_joined b l i w w' : wide_enough b l →
  l !! i = Some (Some w) → l !! S i = Some (Some w') → spread b l !! S i = spread b l !! i.
Proof.
  revert b i. induction l as [|[u|] l IH]; intros b i Hb H1 H2; [done| |].
  - destruct i as [|i]; cbn in H1, H2.
    + destruct l as [|[u'|] l]; cbn in H2; [done| |done]. done.
    + cbn [spread]. cbn. apply (IH _ i); [|done..]. destruct b as [b|]; cbn in Hb |- *; lia.
  - destruct i as [|i]; [done|]. cbn in *. by apply (IH None i).
Qed.

Lemma spread_length b l : length (spread b l) = length l.
Proof. revert b. induction l as [|[u|] l IH]; intros b; cbn; [done|by rewrite IH..]. Qed.

(** In a column, a cell and the spaces after it leave at least three, the column is no
    narrower than ten, and adjacent lines agree on it. *)
Lemma columns_aligned lines j i line : lines !! i = Some line → S j < length line →
  ∃ w, column lines j !! i = Some w ∧ 10 ≤ w ∧ String.length (default "" (line !! j)) + 3 ≤ w ∧
    (∀ line', lines !! S i = Some line' → S j < length line' → column lines j !! S i = Some w).
Proof.
  intros Hi Hj. unfold column.
  assert ((cell_width j <$> lines) !! i = Some (Some (minwidth `max` (String.length (default "" (line !! j)) + padding)))) as Hc.
  { by rewrite list_lookup_fmap, Hi; cbn; unfold cell_width; rewrite decide_True. }
  destruct (lookup_lt_is_Some_2 (spread None (cell_width j <$> lines)) i) as [w Hw].
  { rewrite spread_length, length_fmap. by eapply lookup_lt_Some. }
  exists w. pose proof (spread_fits None _ i _ w I Hc Hw) as Hle. unfold minwidth, padding in Hle.
  split_and!; [done|lia|lia|]. intros line' Hi' Hj'. rewrite <-Hw.
  eapply (spread_joined None); [done|exact Hc|].
  rewrite list_lookup_fmap, Hi'; cbn; unfold cell_width; by rewrite decide_True.
Qed.
End columns.

(** ** The table of upgrades *)

(** The rows of all kubelet versions but the first have one empty cell more: their
    version and count stand in the column of the version that is available. *)
Lemma kubelet_rows u v : ∃ cells, cells ≠ [] ∧
  Split TabWriter.HT (kubelet_row u false v) = "Kubelet" :: cells ∧
  Split TabWriter.HT (kubelet_row u true v) = "" :: "" :: cells.
Proof.
  exists (Split TabWriter.HT (pretty (default 0%Z (KubeletVersions (Before u) !! v)) +:+ " x " +:+ v +:+ tab +:+ KubeVersion (After u))).
  split; [apply Split_nonempty|]. unfold kubelet_row. split.
  - change ("Kubelet" +:+ tab) with ("Kubelet" +:+ String TabWriter.HT ""). rewrite append_assoc. exact (Split_app TabWriter.HT "Kubelet" _).
  - exact (eq_trans (Split_app TabWriter.HT "" _) (f_equal (cons "") (Split_app TabWriter.HT "" _))).
Qed.

Lemma print_kubelets_held u b vs : ∃ rows, ∀ t,
  print_kubelets u b vs t = (Ok (), Terminal (shown t) (held t +:+ rows)).
Proof.
  revert b. induction vs as [|v vs IH]; intros b.
  - exists "". intros [s h]. cbn. by rewrite append_nil_r.
  - destruct (IH true) as [rows IH']. exists ((kubelet_row u b v +:+ newline) +:+ rows). intros [s h].
    cbn [print_kubelets]. unfold Fprintln_tab, modify, mbind, gom_bind. cbn [fst snd shown held].
    rewrite IH'. cbn. by rewrite !append_assoc.
Qed.

(** What is printed of an upgrade is printed as a whole, and nothing is held back. *)
Lemma print_upgrade_shown c u : ∃ block, ∀ s, print_upgrade c u (Terminal s "") = (Ok (), Terminal (s +:+ block) "").
Proof.
  destruct (print_kubelets_held u false (sortedSliceFromStringIntMap (KubeletVersions (Before u)))) as [rows Hk].
  unfold print_upgrade. destruct (CanUpgradeKubelets u), (decide (KubeadmVersion (Before u) ≠ KubeadmVersion (After u)));
    eexists; intros s; cbv [Fprintln_w Fprintln_tab Flush modify mbind gom_bind mret gom_ret shown held];
    rewrite ?Hk; cbv [shown held]; rewrite !append_assoc; reflexivity.
Qed.

Lemma concat_empty_cons x l : String.concat "" (x :: l) = x +:+ String.concat "" l.
Proof. destruct l; cbn; [by rewrite append_nil_r|done]. Qed.

(** The tables are printed one after the other, each as if it were the only one. *)
Lemma print_upgrades_shown c us : us ≠ [] → ∃ block : Upgrade → string,
  (∀ u s, print_upgrade c u (Terminal s "") = (Ok (), Terminal (s +:+ block u) "")) ∧
  ∀ s, PrintAvailableUpgrades c us (Terminal s "") = (Ok (), Terminal (s +:+ String.concat "" (block <$> us)) "").
Proof.
  intros Hne. exists (λ u, shown (print_upgrade c u (Terminal "" "")).2).
  assert (∀ u s, print_upgrade c u (Terminal s "") = (Ok (), Terminal (s +:+ shown (print_upgrade c u (Terminal "" "")).2) "")) as Hb.
  { intros u s. destruct (print_upgrade_shown c u) as [b Hb]. by rewrite !Hb. }
  split; [done|]. intros s. unfold PrintAvailableUpgrades. destruct us as [|u us]; [done|]. clear Hne.
  revert s. generalize (u :: us). intros l. induction l as [|v l IH]; intros s.
  - cbn. by rewrite append_nil_r.
  - cbn [for_each fmap list_fmap]. unfold mbind, gom_bind. rewrite Hb, IH, append_assoc. f_equal. f_equal.
    change (list_fmap Upgrade string (λ u0, shown (print_upgrade c u0 (Terminal "" "")).2) l)
      with ((λ u0, shown (print_upgrade c u0 (Terminal "" "")).2) <$> l).
    by rewrite concat_empty_cons.
Qed.

(** ** The terminal of a shell on a node *)
Section shell_laws.
Context {X : Type} `{!SSHLib X, !ShellLib X}.

(** The mode of the terminal: MakeRaw answers with what it was, Restore sets it. *)
Class TerminalLaws (mode : X → string) (raw : string) : Prop := {
  tl_session c x : mode (NewSession c x).2 = mode x;
  tl_raw o x x' : MakeRaw x = (Ok o, x') → o = mode x ∧ mode x' = raw;
  tl_raw_fails x : is_ok (MakeRaw x).1 = false → mode (MakeRaw x).2 = mode x;
  tl_size x : mode (GetSize x).2 = mode x;
  tl_pty s t h w x : mode (RequestPty s t h w x).2 = mode x;
  tl_shell s x : mode (session_Shell s x).2 = mode x;
  tl_wait s x : mode (session_Wait s x).2 = mode x;
  tl_restore o x x' : Restore o x = (Ok (), x') → mode x' = o;
  tl_restore_fails o x : is_ok (Restore o x).1 = false → mode (Restore o x).2 = mode x;
  tl_close c x : mode (conn_Close c x).2 = mode x
}.

(** Once the terminal was made raw, it is what it was exactly when the shell ends without
    an error: whatever fails after that, the exit status of the remote shell included,
    leaves it raw. *)
Lemma shell_leaves_raw mode raw conn x session x1 o x2 : TerminalLaws mode raw →
  NewSession conn x = (Ok session, x1) → MakeRaw x1 = (Ok o, x2) →
  ∃ r x', deferred (run_shell conn) (conn_Close conn) x = (r, x') ∧
    ((r = Ok () ∧ mode x' = mode x) ∨ (r ≠ Ok () ∧ mode x' = raw)).
Proof.
  intros L Hs Hr. destruct (tl_raw o x1 x2 Hr) as [Ho Hraw].
  assert (mode x1 = mode x) as Hx1 by (pose proof (tl_session conn x) as E; by rewrite Hs in E).
  unfold deferred, run_shell, mbind, gom_bind, ExitOnError. rewrite Hs, Hr.
  destruct (GetSize x2) as [[size|e|w] x3] eqn:E3; pose proof (tl_size x2) as T3; rewrite E3 in T3; cbn [snd] in T3.
  2,3: do 2 eexists; (split; [reflexivity|]); right; split; [done|]; cbn; rewrite ?tl_close; congruence.
  destruct (RequestPty session "xterm-256color" size.2 size.1 x3) as [[[]|e|w] x4] eqn:E4;
    pose proof (tl_pty session "xterm-256color" size.2 size.1 x3) as T4; rewrite E4 in T4; cbn [snd] in T4.
  2,3: do 2 eexists; (split; [reflexivity|]); right; split; [done|]; cbn; rewrite ?tl_close; congruence.
  destruct (session_Shell session x4) as [[[]|e|w] x5] eqn:E5;
    pose proof (tl_shell session x4) as T5; rewrite E5 in T5; cbn [snd] in T5.
  2,3: do 2 eexists; (split; [reflexivity|]); right; split; [done|]; cbn; rewrite ?tl_close; congruence.
  destruct (session_Wait session x5) as [[[]|e|w] x6] eqn:E6;
    pose proof (tl_wait session x5) as T6; rewrite E6 in T6; cbn [snd] in T6.
  2,3: do 2 eexists; (split; [reflexivity|]); right; split; [done|]; cbn; rewrite ?tl_close; congruence.
  pose proof (tl_restore_fails o x6) as Tf.
  destruct (Restore o x6) as [[[]|e|w] x7] eqn:E7; do 2 eexists; (split; [reflexivity|]).
  1: { left. split; [done|]. cbn. rewrite tl_close, (tl_restore _ _ _ E7). congruence. }
  all: right; (split; [done|]); cbn in Tf |- *; rewrite ?tl_close, Tf by done; congruence.
Qed.
End shell_laws.

(** ** The configuration a backup is made with *)
Section backup.
Context {S Crt Key SSHKey X KC CC BC : Type}.
Context `{!Crypto Crt Key SSHKey, !CertText Crt Key, !Clock, !TimeText, !Rand, !Polling}.
Context `{!Kubernetes X KC CC BC, !JsonText, !Environment}.
Context (sp : ResourceInterface S Crt Key).
Context (start : outcome ClientConfig) (ctx_of : ClientConfig → string → outcome (option RestConfig)).
Context (tar : string → RestConfig → bool → string → GoM X string).
Notation env := (env (S := S) (Crt := Crt) (Key := Key) (SSHKey := SSHKey) (X := X) (KC := KC)).

(** A configuration of kubectl that has the context of the cluster is used as it is, and
    the store is not asked for anything; else the cluster must be stored. *)
Lemma backup_config opts (e : env) : let name := ClusterBackupConfig.ClusterName opts in
  (∀ c, SearchLocalKubeConfig start ctx_of name = Ok (Some c) →
     let r := runBackup sp start ctx_of tar opts e in
     e_store r.2 = e_store e ∧ e_tick r.2 = e_tick e ∧
     e_cloud r.2 = (tar name c (ClusterBackupConfig.Sanitize opts) (ClusterBackupConfig.BackupDir opts) (e_cloud e)).2) ∧
  (∀ msg, SearchLocalKubeConfig start ctx_of name = Err msg → is_ok (op_Get (st_Clusters sp) name (e_store e)).1 = false →
     let r := runBackup sp start ctx_of tar opts e in is_ok r.1 = false ∧ e_cloud r.2 = e_cloud e).
Proof.
  intros name. unfold runBackup. fold name. split.
  - intros c ->. unfold ExitOnError, on_cloud, zoom, mbind, gom_bind, mret, gom_ret.
    destruct (tar name c _ _ (e_cloud e)) as [[?|?|?] ?]; done.
  - intros msg -> Hget. unfold admin_RestConfig, ExitOnError, store, zoom, mbind, gom_bind.
    destruct (op_Get (st_Clusters sp) name (e_store e)) as [[?|?|?] ?]; done.
Qed.
End backup.
