(* ===== verification/ProviderParts.v ===== *)
(** * What the providers with machines of their own share

    DigitalOcean, Linode and Packet are written after one pattern: a connector with a
    token, the provider IDs of their instances, nodes of the cluster listed by role, a
    part of the start-up script, updates of the cluster in the scope.  The calls of
    each provider's API are functions of the token the connector was opened with. *)
From stdpp Require Import base list gmap strings pretty fin_maps.
From Stdlib Require Import Ascii.
From S2P Require Import Prelude GoStrings Api StoreSpec Provider Certs Kube Cloud Apply Startup.

(** ** Provider IDs *)

(** [strings.TrimSuffix(s, ":")] *)
Fixpoint drop_colon (s : string) : string :=
  match s with
  | "" => ""
  | String c "" => if decide (c = ":"%char) then "" else s
  | String c s' => String c (drop_colon s')
  end.

(** What follows the provider's name in an ID such as digitalocean://12345. *)
Definition id_of_provider (uid providerID : string) : outcome string :=
  if decide (providerID = "") then Err "providerID cannot be empty string" else
  match Split "/"%char providerID with
  | [p; _; id] =>
      if decide (drop_colon p ≠ uid)
      then Err ("provider name from providerID should be " +:+ uid +:+ ": " +:+ providerID)
      else Ok id
  | _ => Err ("unexpected providerID format: " +:+ providerID +:+ ", format should be: " +:+ uid +:+ "://12345")
  end.

(** ** Objects of the provider inside those of the cluster API

    [json.Marshal] of an object, nothing for nil; [json.Unmarshal] of what is there,
    the zero value for nothing. *)
Definition encode {A} (json : A → outcome RawExtension) (spec : option A) : outcome RawExtension :=
  match spec with None => Ok "" | Some s => json s end.

Definition decode {A} (zero : A) (unjson : RawExtension → outcome A) (raw : option RawExtension) : outcome A :=
  match raw with None => Ok zero | Some r => unjson r end.

(** ** The connector: its token, nil until [SetCloudConnector] *)
Class Connector (X : Type) := {
  conn_token : X → option string;
  with_conn : option string → X → X
}.

(** A call that answers with the status code of the response, where there is one. *)
Definition reply (A : Type) : Type := option Z * (A + error).
Definition StatusNotFound : Z := 404.

(** kubeadm, and the client of the controllers, as calls on the cloud. *)
Class Controllers (X : Type) := {
  Machine_Status_Update : Machine → GoM X ();
  CapiCluster_Status_Update : CapiCluster → GoM X ();
  TokenCreate : GoM X string
}.

(** Nodes of a role, by the label: their names and provider IDs. *)
Class Nodes (X KC : Type) := {
  Nodes_List : KC → string → GoM X (list (string * string));
  Nodes_Delete : KC → string → GoM X ()
}.

(** ** apis/v1alpha1/machine.go *)
Record NodeInfo := { ni_Name : string; ExternalID : string; PublicIP : string; PrivateIP : string }.

Definition role_text (r : MachineRole) : string :=
  match r with MasterMachineRole => "Master" | NodeMachineRole => "Node" end.

(** ** Updates of a cluster *)
Definition with_region_image (c : CloudSpec) (region image : string) (linode : option LinodeSpec) : CloudSpec :=
  {| CloudProviderName := CloudProviderName c; Project := Project c; Region := region; Zone := Zone c;
     InstanceImage := image; OSName := OSName c; InstanceImageProject := InstanceImageProject c;
     NetworkProvider := NetworkProvider c; SSHKeyName := SSHKeyName c; spec_AWS := spec_AWS c;
     spec_GCE := spec_GCE c; spec_Azure := spec_Azure c; spec_Linode := linode;
     spec_GKE := spec_GKE c; spec_Dokube := spec_Dokube c |}.

Definition with_image (c : CloudSpec) (image : string) : CloudSpec :=
  with_region_image c (Region c) image (spec_Linode c).

Definition with_Project (c : CloudSpec) (project : string) : CloudSpec :=
  {| CloudProviderName := CloudProviderName c; Project := project; Region := Region c; Zone := Zone c;
     InstanceImage := InstanceImage c; OSName := OSName c; InstanceImageProject := InstanceImageProject c;
     NetworkProvider := NetworkProvider c; SSHKeyName := SSHKeyName c; spec_AWS := spec_AWS c;
     spec_GCE := spec_GCE c; spec_Azure := spec_Azure c; spec_Linode := spec_Linode c;
     spec_GKE := spec_GKE c; spec_Dokube := spec_Dokube c |}.

Definition with_SSHUserName (c : ClusterConfig) (u : string) : ClusterConfig :=
  {| MasterCount := MasterCount c; Cloud := Cloud c; KubernetesVersion := KubernetesVersion c;
     CredentialName := CredentialName c; SSHUserName := u; KubeletExtraArgs := KubeletExtraArgs c;
     APIServerExtraArgs := APIServerExtraArgs c;
     ControllerManagerExtraArgs := ControllerManagerExtraArgs c;
     SchedulerExtraArgs := SchedulerExtraArgs c; AuthorizationModes := AuthorizationModes c;
     APIServerCertSANs := APIServerCertSANs c |}.

Definition with_cluster_config (c : Cluster) (f : ClusterConfig → ClusterConfig) : Cluster :=
  with_Spec c (with_Config (Spec c) (f (Config (Spec c)))).

Definition with_cloud_status (c : Cluster) (f : CloudStatus → CloudStatus) : Cluster :=
  let s := Status c in
  with_Status c {| Phase := Phase s; Reason := Reason s; status_Cloud := f (status_Cloud s) |}.

Definition with_LoadBalancer (c : Cluster) (lb : LoadBalancer) : Cluster :=
  with_cloud_status c (λ cs,
    {| SSHKeyExternalID := SSHKeyExternalID cs; status_AWS := status_AWS cs;
       status_EKS := status_EKS cs; status_LoadBalancer := lb |}).

Definition with_SSHKeyExternalID (c : Cluster) (id : string) : Cluster :=
  with_cloud_status c (λ cs,
    {| SSHKeyExternalID := id; status_AWS := status_AWS cs; status_EKS := status_EKS cs;
       status_LoadBalancer := status_LoadBalancer cs |}).

Definition with_provider_spec (cluster : CapiCluster) (raw : RawExtension) : CapiCluster :=
  with_capi_Spec cluster {| ClusterNetwork := ClusterNetwork (capi_Spec cluster);
                            ClusterProviderSpec := Some raw |}.

Definition with_provider_status (cluster : CapiCluster) (raw : RawExtension) : CapiCluster :=
  with_capi_Status cluster
    {| APIEndpoints := APIEndpoints (capi_Status cluster);
       ClusterErrorMessage := ClusterErrorMessage (capi_Status cluster); ClusterProviderStatus := Some raw |}.

Definition with_endpoint (cluster : CapiCluster) (host : string) : CapiCluster :=
  with_capi_Status cluster
    {| APIEndpoints := [{| Host := host; Port := DefaultKubernetesBindPort |}];
       ClusterErrorMessage := ClusterErrorMessage (capi_Status cluster);
       ClusterProviderStatus := ClusterProviderStatus (capi_Status cluster) |}.

(** The address of a cluster's load balancer, as EnsureMaster takes it. *)
Definition balancer_addresses (cluster : Cluster) : list NodeAddress :=
  let lb := status_LoadBalancer (status_Cloud (Status cluster)) in
  if decide (lb_DNS lb ≠ "") then [{| addr_Type := NodeExternalDNS; Address := lb_DNS lb |}]
  else if decide (lb_IP lb ≠ "") then [{| addr_Type := NodeExternalIP; Address := lb_IP lb |}]
  else [].

Section parts.
Context {S Crt Key SSHKey X KC V : Type}.
Context `{!CertText Crt Key, !StartupLib Crt V, !Connector X, !Controllers X, !Nodes X KC}.
Notation env := (env (S := S) (Crt := Crt) (Key := Key) (SSHKey := SSHKey) (X := X) (KC := KC)).

Definition call {A} (f : string → GoM X A) : GoM env A :=
  conn ← gets (λ e, conn_token (e_cloud e));
  match conn with
  | None => nil_panic
  | Some token => on_cloud (f token)
  end.

Definition set_conn (conn : option string) : GoM env () := on_cloud (modify (with_conn conn)).

(** [if cm.conn, err = newconnector(cm); err != nil]: a failure leaves it nil. *)
Definition connect (newconnector : GoM env string) : GoM env () :=
  conn ← attempt newconnector;
  match conn with
  | inl token => set_conn (Some token)
  | inr e => _ ← set_conn None; throw e
  end.

Definition conn_SSHKey : GoM env SSHKey :=
  certs ← gets (λ e, sc_Certs (e_scope e));
  match certs with
  | None => nil_panic
  | Some certs => mret (SSHKey_ certs)
  end.

(** [resp.StatusCode == http.StatusNotFound] comes before the error. *)
Definition unless_NotFound {A} (m : GoM env (reply A)) : GoM env (option A) :=
  r ← m;
  if decide (r.1 = Some StatusNotFound) then mret None
  else match r.2 with
       | inl a => mret (Some a)
       | inr e => throw e
       end.

(** A list of nodes that cannot be had is skipped, with a line in the log. *)
Definition for_nodes (kc : KC) (role : string) (f : string * string → GoM env ()) : GoM env () :=
  nodes ← attempt (on_cloud (Nodes_List kc role));
  match nodes with
  | inl l => for_each f l
  | inr _ => mret ()
  end.

Definition ignore_err {A} (m : GoM env A) : GoM env () := _ ← attempt m; mret ().

Definition clear_Cluster : GoM env () := modify (λ e,
  Env (e_store e) (e_tick e) (e_cloud e)
      {| sc_Cluster := None; sc_Certs := sc_Certs (e_scope e);
         sc_CloudManager := sc_CloudManager (e_scope e); sc_AdminClient := sc_AdminClient (e_scope e) |}).

(** ** The start-up script of a cluster with an external cloud controller *)
Fixpoint set_kubelet_args (td : TemplateData) (args : list (string * string)) : GoM env TemplateData :=
  match args with
  | [] => mret td
  | (k, v) :: args => td ← set_kubelet_arg td k v; set_kubelet_args td args
  end.

Definition external_hooks (args : list (string * string)) (customTemplate : string) :
    TemplateHooks (S := S) (Crt := Crt) (Key := Key) (SSHKey := SSHKey) (X := X) (KC := KC) := {|
  hook_NewNodeTemplateData machine token td :=
    let td := td_with_external td true in
    td ← set_kubelet_args td args;
    joinConf ← lift (match JoinConfigurationYAML Crt V td with Err _ => Ok "" | r => r end);
    mret (td_with_join td joinConf (td_ControlPlaneJoin td));
  hook_NewMasterTemplateData machine token td :=
    cluster ← the_cluster;
    cfg ← lift (GetDefaultKubeadmClusterConfig cluster None);
    mret (td_with_configs td (td_InitConfiguration td) (Some cfg));
  hook_customTemplate := customTemplate
|}.
End parts.
