(* ===== verification/ProviderFrame.v ===== *)
(** * What the parts the providers share keep to

    Provider IDs read back ([provider_id_roundtrip]); the calls, hooks and start-up
    scripts of a provider change the store only as the relation [R] allows; the hooks
    keep to [HookLaws]. *)
From stdpp Require Import base list gmap strings pretty fin_maps.
From Stdlib Require Import Ascii.
From S2P Require Import Prelude GoStrings Api StoreSpec Provider Certs Kube Cloud CloudProofs Apply.
From S2P Require Import StoreFrame Startup ProviderParts.

(** ** Provider IDs *)
Lemma digit_value_char (d : N) : (d < 10)%N → digit_value (pretty_N_char d) = Some (Z.of_N d).
Proof.
  intros Hd. assert (d ∈ [0; 1; 2; 3; 4; 5; 6; 7; 8; 9]%N) as H.
  { rewrite !elem_of_cons. lia. }
  rewrite !elem_of_cons in H.
  by repeat (destruct H as [->|H]; [done|]); apply not_elem_of_nil in H.
Qed.

Lemma digits_value_go (x : N) s :
  digits_value (pretty_N_go x s) 0 = digits_value s (Z.of_N x).
Proof.
  revert s. induction (N.lt_wf_0 x) as [x _ IH]. intros s.
  destruct (decide (x = 0)%N) as [->|Hx]; [done|].
  rewrite pretty_N_go_step by lia. rewrite IH by (apply N.div_lt; lia). cbn [digits_value].
  rewrite digit_value_char by (apply N.mod_lt; lia). cbn. f_equal.
  pose proof (N.div_mod x 10 ltac:(lia)) as E. rewrite <-(N2Z.inj_mul 10), <-N2Z.inj_add. by rewrite <-E.
Qed.

Lemma digits_value_pretty (n : Z) : (0 ≤ n)%Z → digits_value (pretty n) 0 = Some n.
Proof.
  destruct n as [|p|p]; intros Hn; [done| |lia].
  change (pretty (Zpos p)) with (pretty (Npos p)). unfold pretty, pretty_N.
  rewrite decide_False by done. by rewrite digits_value_go.
Qed.

Lemma digits_no_byte c s acc v : digits_value s acc = Some v → digit_value c = None → has_byte c s = false.
Proof.
  revert acc. induction s as [|a s IH]; intros acc Hs Hc; [done|]. cbn in *.
  destruct (digit_value a) eqn:Ha; [|done]. cbn in Hs. rewrite (IH _ Hs Hc), orb_false_r.
  apply bool_decide_eq_false. intros ->. congruence.
Qed.

Lemma Atoi_pretty (n : Z) : (0 ≤ n < 2 ^ 63)%Z → Atoi (pretty n) = Ok n.
Proof.
  intros Hn. pose proof (digits_value_pretty n ltac:(lia)) as Hd. unfold Atoi.
  destruct (pretty n) as [|c s] eqn:E.
  { cbn in Hd. injection Hd as <-. vm_compute in E. done. }
  assert (digit_value c ≠ None) as Hc.
  { cbn in Hd. by destruct (digit_value c). }
  rewrite decide_False by (by intros ->). rewrite decide_False by (by intros ->). rewrite Hd.
  rewrite bool_decide_eq_true_2 by lia. done.
Qed.

(** An ID as the controllers write it, and the only IDs that are read. *)
Lemma provider_id_made uid part :
  uid ≠ "" → has_byte "/"%char uid = false → has_byte ":"%char uid = false → has_byte "/"%char part = false →
  id_of_provider uid (uid +:+ "://" +:+ part) = Ok part.
Proof.
  intros Hne Hu Hc Hp. unfold id_of_provider. rewrite decide_False by (by destruct uid).
  change (uid +:+ "://" +:+ part) with (uid +:+ String ":"%char (String "/"%char ("" +:+ String "/"%char part))).
  replace (uid +:+ String ":"%char (String "/"%char ("" +:+ String "/"%char part))) with
    ((uid +:+ ":") +:+ String "/"%char ("" +:+ String "/"%char part)) by (by rewrite append_assoc).
  rewrite !Split_app, (Split_no_sep _ part) by done. rewrite Split_no_sep.
  - change (Split "/"%char "") with [""]. cbn [app]. rewrite decide_False; [done|]. intros H. apply H. clear -Hne Hc.
    induction uid as [|a [|b uid] IH]; [done|done|].
    change (String a (drop_colon (String b uid +:+ ":")) = String a (String b uid)). f_equal. apply IH; [done|].
    cbn in *. apply orb_false_iff in Hc. tauto.
  - by rewrite has_byte_app, Hu.
Qed.

Lemma provider_id_read uid providerID part :
  id_of_provider uid providerID = Ok part →
  ∃ p m, Split "/"%char providerID = [p; m; part] ∧ drop_colon p = uid.
Proof.
  unfold id_of_provider. case_decide; [done|].
  destruct (Split _ _) as [|p [|m [|d [|? ?]]]]; try done. case_decide as Hp; [done|]. intros [= <-].
  exists p, m. split; [done|]. destruct (decide (drop_colon p = uid)); tauto.
Qed.

(** ** The hooks of the start-up script *)
Section hooks.
Context {S Crt Key SSHKey X KC V : Type} `{!CertText Crt Key, !StartupLib Crt V}.
Notation env := (env (S := S) (Crt := Crt) (Key := Key) (SSHKey := SSHKey) (X := X) (KC := KC)).
Implicit Types (e : env) (td : TemplateData).

Lemma set_kubelet_args_ok args td e :
  args_of_cluster td e → "node-labels" ∉ args.*1 →
  ∃ td' e', set_kubelet_args td args e = (Ok td', e') ∧ args_of_cluster td' e' ∧
    td_shared td' = td_shared td ∧ td_KubeadmToken td' = td_KubeadmToken td ∧
    td_JoinConfiguration td' = td_JoinConfiguration td ∧
    td_KubeletExtraArgs td' !! "node-labels" = td_KubeletExtraArgs td !! "node-labels".
Proof.
  revert td e. induction args as [|[k v] args IH]; intros td e Ha Hn; [by exists td, e|].
  cbn [fmap list_fmap fst] in Hn. apply not_elem_of_cons in Hn as [Hk Hn].
  destruct (set_kubelet_arg_ok td e k v Ha) as (e1 & E1 & Ha1).
  destruct (IH _ e1 Ha1 Hn) as (td' & e' & E & Ha' & Hs & Ht & Hj & Hl). exists td', e'.
  split; [cbn [set_kubelet_args]; by rewrite (bind_ok _ _ _ _ _ E1)|]. split_and!; [done..|].
  rewrite Hl. cbn. by rewrite lookup_insert_ne.
Qed.

Lemma external_hooks_laws args customTemplate :
  "node-labels" ∉ args.*1 →
  HookLaws (external_hooks (S := S) (Crt := Crt) (Key := Key) (SSHKey := SSHKey) (X := X) (KC := KC) (V := V)
                           args customTemplate).
Proof.
  intros Hargs. split; cbn [external_hooks hook_NewNodeTemplateData hook_NewMasterTemplateData].
  - intros m token td e td' e' E Ha.
    destruct (set_kubelet_args_ok args (td_with_external td true) e Ha Hargs)
      as (td1 & e1 & E1 & Ha1 & Hs & Ht & _ & Hl).
    rewrite (bind_ok _ _ _ _ _ E1) in E. apply bind_ok_inv in E as (j & e2 & Ej & E). injection E as <- <-.
    assert (e2 = e1) as -> by (by injection Ej). by split_and!.
  - intros m token td e td' e' E Ha. apply bind_ok_inv in E as (c & e1 & Ec & E).
    apply bind_ok_inv in E as (cfg & e2 & Ef & E). injection E as <- <-.
    assert (e1 = e) as -> by (unfold the_cluster in Ec; destruct (sc_Cluster _); by injection Ec).
    assert (e2 = e) as -> by (by injection Ef). done.
Qed.
End hooks.

(** ** The store *)
Section frame.
Context {S Crt Key SSHKey X KC CC BC V : Type}.
Context `{!CertText Crt Key, !StartupLib Crt V, !Connector X, !Controllers X, !Nodes X KC}.
Context (R : relation S) `{!PreOrder R}.
Notation env := (env (S := S) (Crt := Crt) (Key := Key) (SSHKey := SSHKey) (X := X) (KC := KC)).
Notation on_e := (on_e (Crt := Crt) (Key := Key) (SSHKey := SSHKey) (X := X) (KC := KC) R).

Hint Resolve on_cloud_frame set_Cluster_frame the_cluster_frame : pres.

Lemma call_frame {A} (f : string → GoM X A) : pres on_e (call f).
Proof. unfold call, nil_panic. pres_tac. Qed.
Lemma conn_SSHKey_frame : pres on_e (conn_SSHKey : GoM env SSHKey).
Proof. unfold conn_SSHKey, nil_panic. pres_tac. Qed.
Lemma ignore_err_frame {A} (m : GoM env A) : pres on_e m → pres on_e (ignore_err m).
Proof. intros Hm. unfold ignore_err. pres_tac. Qed.
Lemma for_nodes_frame kc role (f : string * string → GoM env ()) :
  (∀ n, pres on_e (f n)) → pres on_e (for_nodes kc role f).
Proof. intros Hf. unfold for_nodes. pres_tac. Qed.
Lemma unless_NotFound_frame {A} (m : GoM env (reply A)) : pres on_e m → pres on_e (unless_NotFound m).
Proof. intros Hm. unfold unless_NotFound. pres_tac. Qed.
Lemma connect_frame (m : GoM env string) : pres on_e m → pres on_e (connect m).
Proof. intros Hm. unfold connect, set_conn. pres_tac. Qed.
Lemma clear_Cluster_frame : pres on_e (clear_Cluster : GoM env ()).
Proof. by apply modify_frame. Qed.
Lemma set_kubelet_arg_frame td k v : pres on_e (set_kubelet_arg td k v : GoM env _).
Proof. unfold set_kubelet_arg. pres_tac. Qed.
Hint Resolve set_kubelet_arg_frame : pres.
Lemma set_kubelet_args_frame args td : pres on_e (set_kubelet_args td args : GoM env _).
Proof. revert td. induction args as [|[k v] args IH]; intros td; cbn [set_kubelet_args]; pres_tac. Qed.
Hint Resolve set_kubelet_args_frame : pres.

Lemma render_frame (cm : TemplateHooks (S := S) (Crt := Crt) (Key := Key) (SSHKey := SSHKey) (X := X) (KC := KC)) m t :
  (∀ m t td, pres on_e (hook_NewNodeTemplateData cm m t td)) →
  (∀ m t td, pres on_e (hook_NewMasterTemplateData cm m t td)) →
  pres on_e (RenderStartupScript (V := V) cm m t).
Proof.
  intros Hn Hm. unfold RenderStartupScript, NewMasterTemplateData, NewNodeTemplateData, nil_panic. pres_tac.
Qed.

Lemma RenderStartupScript_frame args customTemplate m t :
  pres on_e (RenderStartupScript (V := V)
    (external_hooks (S := S) (Key := Key) (SSHKey := SSHKey) (X := X) (KC := KC) (V := V) args customTemplate) m t).
Proof.
  apply render_frame; cbn [external_hooks hook_NewNodeTemplateData hook_NewMasterTemplateData]; pres_tac.
Qed.
End frame.

#[export] Hint Resolve call_frame conn_SSHKey_frame ignore_err_frame for_nodes_frame connect_frame clear_Cluster_frame
  RenderStartupScript_frame : pres.

(** Splits a method of a provider into its statements. *)
Ltac provider_step := first
  [ apply call_frame | apply unless_NotFound_frame | apply conn_SSHKey_frame | apply ignore_err_frame | apply for_nodes_frame; [exact _|intros] | apply connect_frame
  | apply clear_Cluster_frame | apply RenderStartupScript_frame
  | pres_step | apply store_frame | apply store_rand_frame | eapply NewRestConfig_frame
  | apply pres_PollImmediate; [exact _|] | apply pres_unless_err; [exact _| |] | by apply modify_frame ].
Ltac provider_tac := repeat provider_step.

(** ** Loops *)

(** A loop that ends well ends with an attempt that did. *)
Lemma poll_inv {T} (R P : relation T) (m : GoM T bool) :
  (∀ s s', m s = (Ok false, s') → R s s') → (∀ s s', m s = (Ok true, s') → P s s') →
  (∀ a b c, R a b → P b c → P a c) →
  ∀ n s s', PollImmediate n m s = (Ok (), s') → P s s'.
Proof.
  intros HR HP Htr. induction n as [|n IH]; intros s s' (b & s1 & E1 & E)%bind_ok_inv; destruct b.
  1,3: injection E as <-; by apply HP.
  - discriminate E.
  - eapply Htr; [by apply HR|by apply IH].
Qed.

(** ** Calls *)
Section calls.
Context {S Crt Key SSHKey X KC : Type} `{!Connector X}.
Notation env := (env (S := S) (Crt := Crt) (Key := Key) (SSHKey := SSHKey) (X := X) (KC := KC)).
Implicit Types (e : env).

(** A call of the connector, of what it is a function of *)
Lemma call_at {A} (f : string → GoM X A) e t :
  conn_token (e_cloud e) = Some t →
  call f e = ((f t (e_cloud e)).1, Env (e_store e) (e_tick e) (f t (e_cloud e)).2 (e_scope e)).
Proof. intros Ht. unfold call, mbind, gom_bind, gets. rewrite Ht. unfold on_cloud, zoom. by destruct (f t _). Qed.

Lemma call_ok_inv {A} (f : string → GoM X A) e a e' :
  call f e = (Ok a, e') →
  ∃ t, conn_token (e_cloud e) = Some t ∧ f t (e_cloud e) = (Ok a, e_cloud e') ∧
       e' = Env (e_store e) (e_tick e) (e_cloud e') (e_scope e).
Proof.
  destruct (conn_token (e_cloud e)) as [t|] eqn:Ht.
  - rewrite (call_at f e t Ht). intros E. exists t. split; [done|].
    destruct (f t (e_cloud e)) as [r x]. by injection E as -> <-.
  - unfold call, mbind, gom_bind, gets. by rewrite Ht.
Qed.
End calls.

(** ** The cloud

    [Q] on the state of the cloud: what only reads or writes the store and the scope
    keeps to it, and calls that do. *)
Section cloud.
Context {S Crt Key SSHKey X KC CC BC V : Type}.
Context `{!Crypto Crt Key SSHKey, !CertText Crt Key, !Clock, !Polling, !Kubernetes X KC CC BC}.
Context `{!StartupLib Crt V, !Connector X, !Controllers X, !Nodes X KC}.
Context (Q : relation X) `{!PreOrder Q}.
Notation env := (env (S := S) (Crt := Crt) (Key := Key) (SSHKey := SSHKey) (X := X) (KC := KC)).

Definition on_c (e e' : env) : Prop := Q (e_cloud e) (e_cloud e').

#[export] Instance on_c_preorder : PreOrder on_c.
Proof. split; [intros e; unfold on_c; reflexivity|intros a b c; unfold on_c; apply transitivity]. Qed.

Lemma local_c {A} (f : GoM env A) : (∀ e, e_cloud (f e).2 = e_cloud e) → pres on_c f.
Proof. intros Hf e. unfold on_c. rewrite Hf. reflexivity. Qed.

Lemma store_c {A} (f : GoM S A) : pres on_c (store f : GoM env A).
Proof. apply local_c. intros e. unfold store, zoom. by destruct (f _). Qed.
Lemma store_rand_c {A} (f : GoM (S * nat) A) : pres on_c (store_rand f : GoM env A).
Proof. apply local_c. intros e. unfold store_rand, zoom. by destruct (f _). Qed.
Lemma the_cluster_c : pres on_c (the_cluster : GoM env _).
Proof. apply local_c. intros e. unfold the_cluster. by destruct (sc_Cluster _). Qed.
Lemma set_Cluster_c c : pres on_c (set_Cluster c : GoM env _).
Proof. by apply local_c. Qed.
Lemma set_AdminClient_c kc : pres on_c (set_AdminClient kc : GoM env _).
Proof. by apply local_c. Qed.
Lemma clear_Cluster_c : pres on_c (clear_Cluster : GoM env _).
Proof. by apply local_c. Qed.
Lemma on_cloud_c {A} (f : GoM X A) : pres Q f → pres on_c (on_cloud f : GoM env A).
Proof. intros Hf e. unfold on_cloud, zoom, on_c. specialize (Hf (e_cloud e)). by destruct (f _). Qed.
Lemma call_c {A} (f : string → GoM X A) : (∀ t, pres Q (f t)) → pres on_c (call f : GoM env A).
Proof.
  intros Hf. unfold call. apply pres_bind; [exact _|apply local_c; done|intros [t|]].
  - by apply on_cloud_c.
  - unfold nil_panic. apply pres_panic; exact _.
Qed.
Hint Resolve store_c store_rand_c the_cluster_c set_Cluster_c set_AdminClient_c clear_Cluster_c : pres.

Lemma conn_SSHKey_c : pres on_c (conn_SSHKey : GoM env SSHKey).
Proof. unfold conn_SSHKey, nil_panic. pres_tac. Qed.
Lemma ignore_err_c {A} (m : GoM env A) : pres on_c m → pres on_c (ignore_err m).
Proof. intros Hm. unfold ignore_err. pres_tac. Qed.
Lemma for_nodes_c kc role (f : string * string → GoM env ()) :
  pres Q (Nodes_List kc role) → (∀ n, pres on_c (f n)) → pres on_c (for_nodes kc role f).
Proof. intros Hl Hf. unfold for_nodes. pose proof (on_cloud_c _ Hl). pres_tac. Qed.
Lemma set_kubelet_arg_c td k v : pres on_c (set_kubelet_arg td k v : GoM env _).
Proof. unfold set_kubelet_arg. pres_tac. Qed.
Hint Resolve set_kubelet_arg_c : pres.
Lemma set_kubelet_args_c args td : pres on_c (set_kubelet_args td args : GoM env _).
Proof. revert td. induction args as [|[k v] args IH]; intros td; cbn [set_kubelet_args]; pres_tac. Qed.
Hint Resolve set_kubelet_args_c : pres.

Lemma RenderStartupScript_c args customTemplate m t :
  pres on_c (RenderStartupScript (V := V)
    (external_hooks (S := S) (Key := Key) (SSHKey := SSHKey) (X := X) (KC := KC) (V := V) args customTemplate) m t).
Proof.
  unfold RenderStartupScript, NewMasterTemplateData, NewNodeTemplateData, nil_panic.
  cbn [external_hooks hook_NewNodeTemplateData hook_NewMasterTemplateData]. pres_tac.
Qed.

Lemma GetAdminClient_c sp : pres on_c (GetAdminClient (CC := CC) (BC := BC) sp : GoM env KC).
Proof. unfold GetAdminClient. pres_tac. Qed.
Lemma UpdateStatus_c (sp : ResourceInterface S Crt Key) : pres on_c (UpdateStatus sp : GoM env ()).
Proof. unfold UpdateStatus. pres_tac. Qed.
End cloud.

#[export] Hint Resolve store_c store_rand_c the_cluster_c set_Cluster_c set_AdminClient_c clear_Cluster_c conn_SSHKey_c
  RenderStartupScript_c GetAdminClient_c UpdateStatus_c : pres.

(** Splits a program into its statements, down to the calls on the cloud. *)
Ltac cloud_step := first
  [ apply call_c; [exact _|intros] | apply on_cloud_c | apply store_c; exact _ | apply store_rand_c; exact _
  | apply the_cluster_c; exact _ | apply set_Cluster_c; exact _ | apply clear_Cluster_c; exact _
  | apply conn_SSHKey_c; exact _ | apply RenderStartupScript_c; exact _ | apply GetAdminClient_c; exact _
  | apply UpdateStatus_c; exact _ | apply ignore_err_c; [exact _|] | apply for_nodes_c; [exact _| |intros]
  | pres_step | apply pres_PollImmediate; [exact _|] | apply pres_unless_err; [exact _| |] ].
Ltac cloud_tac := repeat cloud_step.

(** ** The ssh key of a cluster *)
Section ssh.
Context {Crt Key SSHKey X KC : Type}.
Context (pC : Cluster → outcome Cluster) (pCr : Credential → outcome Credential).
Context (pMS : MachineSet → outcome MachineSet) (pM : Machine → outcome Machine).
Notation cenv := (env (S := pharmer Crt Key) (Crt := Crt) (Key := Key) (SSHKey := SSHKey) (X := X) (KC := KC)).

Lemma ssh_key_read (e : cenv) c :
  has_ssh c (e_store e) →
  ∃ key, store (ri_ssh_Get (spec_provider (Crt := Crt) (Key := Key) pC pCr pMS pM) (cluster_Name c)
                           (GenSSHKeyExternalID c)) e = (Ok key, e).
Proof.
  intros [Hn [key Hk]]. exists key. unfold store, zoom. cbn. unfold spec_pair_Get.
  rewrite decide_False by done. rewrite decide_False by apply ssh_name_ne.
  change (GenSSHKeyExternalID c) with (GenSSHKeyName (cluster_Name c)). rewrite Hk. by destruct e as [[] ? ? ?].
Qed.
End ssh.
