(* ===== verification/DigitalOcean.v ===== *)
(** * The DigitalOcean provider (cloud/providers/digitalocean, apis/v1alpha1/digitalocean)

    The cluster manager of DigitalOcean as a record [Interface] of Cloud.v, and the
    actuators its controller runs.  The API of DigitalOcean is the class
    [DigitalOceanAPI] of calls on the state of the cloud.  [errLBNotFound] is the answer
    [None]. *)
From stdpp Require Import base list gmap strings pretty fin_maps.
From Stdlib Require Import Ascii.
From S2P Require Import Prelude GoStrings Api StoreSpec Provider Certs Kube Cloud Apply Startup ProviderParts.

Module DigitalOcean.

Definition UID_digitalocean : string := "digitalocean".

(** ** github.com/digitalocean/godo, the fields that are used *)
Record Droplet := { drop_ID : Z; drop_Name : string; drop_Status : string }.

Record ForwardingRule := {
  EntryProtocol : string; EntryPort : Z; TargetProtocol : string; TargetPort : Z;
  CertificateID : string; TlsPassthrough : bool
}.
Record HealthCheck := {
  hc_Protocol : string; hc_Port : Z; hc_Path : string; CheckIntervalSeconds : Z;
  ResponseTimeoutSeconds : Z; HealthyThreshold : Z; UnhealthyThreshold : Z
}.
Record StickySessions := { ss_Type : string; CookieName : string; CookieTtlSeconds : Z }.

#[export] Instance ForwardingRule_eq_dec : EqDecision ForwardingRule.
Proof. solve_decision. Defined.
#[export] Instance HealthCheck_eq_dec : EqDecision HealthCheck.
Proof. solve_decision. Defined.
#[export] Instance StickySessions_eq_dec : EqDecision StickySessions.
Proof. solve_decision. Defined.

Record doLoadBalancer := {
  do_lb_ID : string; do_lb_Name : string; do_lb_IP : string; do_lb_Algorithm : string;
  do_lb_Status : string; do_lb_Created : string; ForwardingRules : list ForwardingRule;
  do_lb_HealthCheck : option HealthCheck; do_lb_StickySessions : option StickySessions;
  do_lb_Region : option string;             (* [Region.Slug] *)
  RedirectHttpToHttps : bool
}.

Record LoadBalancerRequest := {
  lbr_Name : string; lbr_Algorithm : string; lbr_Region : string;
  lbr_ForwardingRules : list ForwardingRule; lbr_HealthCheck : option HealthCheck;
  lbr_StickySessions : option StickySessions; lbr_DropletIDs : list Z; lbr_Tag : string;
  lbr_Tags : list string; lbr_RedirectHttpToHttps : bool
}.

Record DropletCreateRequest := {
  dcr_Name : string; dcr_Region : string; dcr_Size : string; dcr_Image : string;
  dcr_SSHKeys : list string; dcr_PrivateNetworking : bool; dcr_IPv6 : bool;
  dcr_UserData : string; dcr_Tags : list string
}.

(** ** apis/v1alpha1/digitalocean/types.go *)
Record DigitalOceanMachineProviderSpec := {
  do_TypeMeta : TypeMeta; do_Region : string; do_Size : string; do_Image : string;
  do_Tags : list string; do_SSHPublicKeys : list string;
  do_PrivateNetworking : bool; do_Backups : bool; do_IPv6 : bool; do_Monitoring : bool
}.
Definition zero_MachineProviderSpec : DigitalOceanMachineProviderSpec :=
  {| do_TypeMeta := zero_TypeMeta; do_Region := ""; do_Size := ""; do_Image := ""; do_Tags := [];
     do_SSHPublicKeys := []; do_PrivateNetworking := false; do_Backups := false; do_IPv6 := false;
     do_Monitoring := false |}.

(** The type and object metadata of a status are kept as they are: [dms_Meta]. *)
Record DigitalOceanMachineProviderStatus := { dms_Meta : TypeMeta * ObjectMeta; InstanceID : Z; InstanceStatus : string }.
Record DigitalOceanClusterProviderSpec := { dcs_TypeMeta : TypeMeta }.
Record DigitalOceanLoadBalancer := {
  dlb_ID : string; dlb_Name : string; dlb_IP : string; dlb_Algorithm : string; dlb_Status : string;
  dlb_Created : string; dlb_ForwardingRules : list ForwardingRule; dlb_HealthCheck : option HealthCheck;
  dlb_StickySessions : option StickySessions; dlb_Region : string; dlb_RedirectHTTPToHTTPS : bool
}.
Record DigitalOceanClusterProviderStatus := {
  dcst_Meta : TypeMeta * ObjectMeta; APIServerLB : option DigitalOceanLoadBalancer
}.

Definition DigitalOceanProviderGroupName : string := "digitaloceanproviderconfig".
Definition DigitalOceanProviderKind : string := "DigitalOceanProviderConfig".
Definition DigitalOceanProviderAPIVersion : string := "v1alpha1".

Definition DescribeLoadBalancer (lb : doLoadBalancer) : outcome DigitalOceanLoadBalancer :=
  match do_lb_Region lb with
  | None => Panic "invalid memory address or nil pointer dereference"
  | Some slug =>
      Ok {| dlb_ID := do_lb_ID lb; dlb_Name := do_lb_Name lb; dlb_IP := do_lb_IP lb;
            dlb_Algorithm := do_lb_Algorithm lb; dlb_Status := do_lb_Status lb;
            dlb_Created := do_lb_Created lb; dlb_ForwardingRules := ForwardingRules lb;
            dlb_HealthCheck := do_lb_HealthCheck lb; dlb_StickySessions := do_lb_StickySessions lb;
            dlb_Region := slug; dlb_RedirectHTTPToHTTPS := RedirectHttpToHttps lb |}
  end.

(** encoding/json on these types. *)
Class DigitalOceanJson := {
  json_MachineSpec : DigitalOceanMachineProviderSpec → outcome RawExtension;
  unjson_MachineSpec : RawExtension → outcome DigitalOceanMachineProviderSpec;
  json_MachineStatus : DigitalOceanMachineProviderStatus → outcome RawExtension;
  unjson_MachineStatus : RawExtension → outcome DigitalOceanMachineProviderStatus;
  json_ClusterSpec : DigitalOceanClusterProviderSpec → outcome RawExtension;
  json_ClusterStatus : DigitalOceanClusterProviderStatus → outcome RawExtension;
  unjson_ClusterStatus : RawExtension → outcome DigitalOceanClusterProviderStatus
}.

(** ** util.go *)
Section json.
Context `{!DigitalOceanJson}.

Definition MachineConfigFromProviderSpec (providerConfig : option RawExtension) :
    outcome DigitalOceanMachineProviderSpec :=
  match providerConfig with None => Ok zero_MachineProviderSpec | Some raw => unjson_MachineSpec raw end.

Definition MachineStatusFromProviderStatus (extension : option RawExtension) :
    outcome DigitalOceanMachineProviderStatus :=
  match extension with
  | None => Ok {| dms_Meta := (zero_TypeMeta, named ""); InstanceID := 0; InstanceStatus := "" |}
  | Some raw => unjson_MachineStatus raw
  end.

Definition ClusterStatusFromProviderStatus (extension : option RawExtension) :
    outcome DigitalOceanClusterProviderStatus :=
  match extension with
  | None => Ok {| dcst_Meta := (zero_TypeMeta, named ""); APIServerLB := None |}
  | Some raw => unjson_ClusterStatus raw
  end.

Definition SetDigitalOceanClusterProviderConfig (cluster : CapiCluster) : outcome CapiCluster :=
  let conf := {| dcs_TypeMeta := {| APIVersion := DigitalOceanProviderGroupName +:+ "/" +:+ DigitalOceanProviderAPIVersion;
                                    Kind := DigitalOceanProviderKind |} |} in
  bytes ← json_ClusterSpec conf;
  Ok (with_provider_spec cluster bytes).
End json.

(** ** namer.go *)
Definition LoadBalancerName (cluster : Cluster) : string := cluster_Name cluster +:+ "-lb".

(** ** cloud.go *)
Definition dropletIDFromProviderID (providerID : string) : outcome Z :=
  id ← id_of_provider UID_digitalocean providerID;
  Atoi id.

(** The connector's calls, by the token it was opened with. *)
Class DigitalOceanAPI (X SSHKey : Type) := {
  credential_Token : CredentialSpec → outcome string;     (* typed.IsValid(), typed.Token() *)
  OpensshFingerprint : SSHKey → string;
  SSHKey_PublicKey : SSHKey → string;
  Tags_Create : string → string → GoM X ();
  Tags_Delete : string → string → GoM X ();
  Tags_Get : string → string → GoM X (reply ());
  Keys_GetByFingerprint : string → string → GoM X (reply Z);
  Keys_Create : string → string → GoM X Z;
  Keys_DeleteByFingerprint : string → string → GoM X ();
  Droplets_List : string → GoM X (list Droplet);
  Droplets_Get : string → Z → GoM X Droplet;
  Droplets_Create : string → DropletCreateRequest → GoM X Droplet;
  Droplets_Delete : string → Z → GoM X ();
  Droplets_DeleteByTag : string → string → GoM X ();
  LoadBalancers_List : string → GoM X (list doLoadBalancer);
  LoadBalancers_Get : string → string → GoM X doLoadBalancer;
  LoadBalancers_Create : string → LoadBalancerRequest → GoM X doLoadBalancer;
  LoadBalancers_Update : string → string → LoadBalancerRequest → GoM X doLoadBalancer;
  LoadBalancers_Delete : string → string → GoM X ()
}.

Section provider.
Context {S Crt Key SSHKey X KC CC BC V : Type}.
Context `{!Crypto Crt Key SSHKey, !CertText Crt Key, !Clock, !Polling, !Kubernetes X KC CC BC}.
Context `{!StartupLib Crt V, !DigitalOceanJson, !DigitalOceanAPI X SSHKey}.
Context `{!Connector X, !Controllers X, !Nodes X KC}.
Context (sp : ResourceInterface S Crt Key).
Notation env := (env (S := S) (Crt := Crt) (Key := Key) (SSHKey := SSHKey) (X := X) (KC := KC)).
Notation Interface := (Interface (S := S) (Crt := Crt) (Key := Key) (SSHKey := SSHKey) (X := X)
                                 (KC := KC)).

(** The manifest of the controllers (clusterapi.go) and the provider's part of the
    start-up script (startupscript.go) are constants. *)
Context (ControllerManager customTemplate : string).

Definition cluster_tag (c : Cluster) : string := "KubernetesCluster:" +:+ cluster_Name c.

Definition IsUnauthorized (token : string) : GoM env (option error) :=
  now ← Now;
  let name := "check-write-access:" +:+ pretty (now / 1000000000)%Z in
  created ← attempt (on_cloud (Tags_Create token name));
  match created with
  | inr _ => mret (Some "Credential missing WRITE scope")
  | inl _ =>
      deleted ← attempt (on_cloud (Tags_Delete token name));
      match deleted with
      | inr e => mret (Some e)
      | inl _ => mret None
      end
  end.

Definition newconnector : GoM env string :=
  cluster ← the_cluster;
  let name := CredentialName (Config (Spec cluster)) in
  cred ← store (op_Get (st_Credentials sp) name);
  token ← lift (credential_Token (cred_Spec cred));
  msg ← IsUnauthorized token;
  match msg with
  | Some msg => throw ("credential `" +:+ name +:+ "` does not have necessary autheorization. Reason: " +:+ msg)
  | None => mret token
  end.

Definition SetCloudConnector : GoM env () := connect newconnector.

Definition WaitForInstance (id : Z) (status : string) : GoM env () :=
  PollImmediate retries (unless_err (call (λ t, Droplets_Get t id))
    (λ droplet, mret (bool_decide (ToLower (drop_Status droplet) = status)))).

Definition getPublicKey : GoM env (option Z) :=
  unless_NotFound (key ← conn_SSHKey; call (λ t, Keys_GetByFingerprint t (OpensshFingerprint key))).

Definition importPublicKey : GoM env Z :=
  key ← conn_SSHKey;
  call (λ t, Keys_Create t (SSHKey_PublicKey key)).

Definition deleteSSHKey : GoM env () :=
  PollImmediate retries (
    key ← conn_SSHKey;
    r ← attempt (call (λ t, Keys_DeleteByFingerprint t (OpensshFingerprint key)));
    mret (match r with inl _ => true | inr _ => false end)).

Definition getTags : GoM env bool :=
  r ← unless_NotFound (cluster ← the_cluster; call (λ t, Tags_Get t (cluster_tag cluster)));
  mret (match r with Some _ => true | None => false end).

Definition createTags : GoM env () :=
  cluster ← the_cluster;
  call (λ t, Tags_Create t (cluster_tag cluster)).

Definition CreateInstance (cluster : Cluster) (machine : Machine) (script : string) : GoM env () :=
  machineConfig ← lift (MachineConfigFromProviderSpec (MachineProviderSpec (machine_Spec machine)));
  key ← conn_SSHKey;
  let req := {|
    dcr_Name := machine_Name machine; dcr_Region := do_Region machineConfig; dcr_Size := do_Size machineConfig;
    dcr_Image := do_Image machineConfig; dcr_SSHKeys := [OpensshFingerprint key];
    dcr_PrivateNetworking := true; dcr_IPv6 := false; dcr_UserData := script;
    dcr_Tags := cluster_tag cluster ::
                (if IsControlPlaneMachine machine then [cluster_Name cluster +:+ "-master"] else []) |} in
  host ← call (λ t, Droplets_Create t req);
  WaitForInstance (drop_ID host) "active".

(** The first droplet of the name on the page the API answers with. *)
Definition instanceIfExists (machine : Machine) : GoM env Droplet :=
  droplets ← call Droplets_List;
  match List.find (λ d, bool_decide (drop_Name d = machine_Name machine)) droplets with
  | Some droplet => call (λ t, Droplets_Get t (drop_ID droplet))
  | None => throw ("no droplet found with " +:+ machine_Name machine +:+ " name")
  end.

Definition DeleteInstanceByProviderID (providerID : string) : GoM env () :=
  dropletID ← lift (dropletIDFromProviderID providerID);
  call (λ t, Droplets_Delete t dropletID).

Definition lbByName (name : string) : GoM env (option doLoadBalancer) :=
  lbs ← call LoadBalancers_List;
  mret (List.find (λ lb, bool_decide (do_lb_Name lb = name)) lbs).

Definition buildLoadBalancerRequest (lbName : string) : GoM env LoadBalancerRequest :=
  cluster ← the_cluster;
  mret {| lbr_Name := lbName; lbr_Algorithm := "least_connections";
          lbr_Region := Region (Cloud (Config (Spec cluster)));
          lbr_ForwardingRules := [{| EntryProtocol := "tcp"; EntryPort := DefaultKubernetesBindPort;
                                     TargetProtocol := "tcp"; TargetPort := DefaultKubernetesBindPort;
                                     CertificateID := ""; TlsPassthrough := false |}];
          lbr_HealthCheck := Some {| hc_Protocol := "tcp"; hc_Port := DefaultKubernetesBindPort; hc_Path := "";
                                     CheckIntervalSeconds := 3; ResponseTimeoutSeconds := 5;
                                     HealthyThreshold := 5; UnhealthyThreshold := 3 |};
          lbr_StickySessions := Some {| ss_Type := "none"; CookieName := ""; CookieTtlSeconds := 0 |};
          lbr_DropletIDs := []; lbr_Tag := cluster_Name cluster +:+ "-master";
          lbr_Tags := [cluster_Name cluster +:+ "-master"]; lbr_RedirectHttpToHttps := false |}.

Definition waitActive (lbID : string) : GoM env doLoadBalancer :=
  _ ← PollImmediate retries (unless_err (call (λ t, LoadBalancers_Get t lbID))
        (λ lb, mret (bool_decide (ToLower (do_lb_Status lb) = "active"))));
  call (λ t, LoadBalancers_Get t lbID).

(** An error of [lbByName] other than [errLBNotFound] leaves [lb] nil, and is dropped:
    [lb.Status] panics. *)
Definition createLoadBalancer (name : string) : GoM env doLoadBalancer :=
  found ← attempt (lbByName name);
  match found with
  | inr _ => nil_panic
  | inl None =>
      lbRequest ← buildLoadBalancerRequest name;
      lb ← call (λ t, LoadBalancers_Create t lbRequest);
      waitActive (do_lb_ID lb)
  | inl (Some lb) => if decide (do_lb_Status lb ≠ "active") then waitActive (do_lb_ID lb) else mret lb
  end.

Definition errLBNotFound : error := "loadbalancer not found".

Definition deleteLoadBalancer (name : string) : GoM env () :=
  lb ← lbByName name;
  match lb with
  | None => throw errLBNotFound
  | Some lb => call (λ t, LoadBalancers_Delete t (do_lb_ID lb))
  end.

Definition loadBalancerUpdated (lb : doLoadBalancer) : GoM env bool :=
  cluster ← the_cluster;
  defaultSpecs ← buildLoadBalancerRequest (LoadBalancerName cluster);
  if decide (do_lb_Algorithm lb ≠ lbr_Algorithm defaultSpecs) then mret true else
  match do_lb_Region lb with
  | None => nil_panic
  | Some slug => mret (
      negb (bool_decide (slug = lbr_Region defaultSpecs)) ||
      negb (bool_decide (ForwardingRules lb = lbr_ForwardingRules defaultSpecs)) ||
      negb (bool_decide (do_lb_HealthCheck lb = lbr_HealthCheck defaultSpecs)) ||
      negb (bool_decide (do_lb_StickySessions lb = lbr_StickySessions defaultSpecs)) ||
      negb (bool_decide (RedirectHttpToHttps lb = lbr_RedirectHttpToHttps defaultSpecs)))
  end.

(** ** create.go *)
Definition GetDefaultMachineProviderSpec (sku : string) (role : MachineRole) : GoM env (option RawExtension) :=
  cluster ← the_cluster;
  let sku := if decide (sku = "") then "2gb" else sku in
  let config := Config (Spec cluster) in
  pubkey ← store (ri_ssh_Get sp (cluster_Name cluster) (GenSSHKeyExternalID cluster));
  raw ← lift (json_MachineSpec
    {| do_TypeMeta := {| APIVersion := DigitalOceanProviderGroupName +:+ "/" +:+ DigitalOceanProviderAPIVersion;
                         Kind := DigitalOceanProviderKind |};
       do_Region := Region (Cloud config); do_Size := sku; do_Image := InstanceImage (Cloud config);
       do_Tags := [cluster_tag cluster]; do_SSHPublicKeys := [pubkey.1]; do_PrivateNetworking := true;
       do_Backups := false; do_IPv6 := false; do_Monitoring := true |});
  mret (Some raw).

(** The settings are written before the provider's configuration can fail. *)
Definition SetDefaultCluster : GoM env () :=
  cluster ← the_cluster;
  let cloud := Cloud (Config (Spec cluster)) in
  let cluster := with_cluster_config cluster (λ config,
    with_SSHUserName (with_Cloud config
      (with_region_image cloud (Zone cloud) "ubuntu-18-04-x64" (spec_Linode cloud))) "root") in
  _ ← set_Cluster cluster;
  a ← lift (SetDigitalOceanClusterProviderConfig (ClusterAPI (Spec cluster)));
  set_Cluster (set_capi cluster a).

(** ** startupscript.go *)
Definition do_hooks : TemplateHooks (S := S) (Crt := Crt) (Key := Key) (SSHKey := SSHKey) (X := X) (KC := KC) :=
  external_hooks (V := V) [("cloud-provider", "external")] customTemplate.

(** ** apply.go *)
(** [cm.Cluster, err = Clusters().Update(cm.Cluster)]: a failure leaves it nil. *)
Definition update_cluster_of_scope : GoM env () :=
  cluster ← gets (λ e, sc_Cluster (e_scope e));
  updated ← attempt (store (op_Update (st_Clusters sp) cluster));
  match updated with
  | inl c => set_Cluster c
  | inr e => _ ← clear_Cluster; throw e
  end.

(** Whatever [instanceIfExists] fails with, the instance is created. *)
Definition EnsureMaster (leaderMachine : Machine) : GoM env () :=
  d ← attempt (instanceIfExists leaderMachine);
  _ ← match d with
      | inl _ => mret ()
      | inr _ =>
          cluster ← the_cluster;
          let nodeAddresses := balancer_addresses cluster in
          script ← RenderStartupScript (V := V) do_hooks leaderMachine "";
          cluster ← the_cluster;
          _ ← CreateInstance cluster leaderMachine script;
          cluster ← the_cluster;
          cluster ← lift (SetClusterAPIEndpoints cluster nodeAddresses);
          set_Cluster cluster
      end;
  update_cluster_of_scope.

(** An error of [lbByName] other than [errLBNotFound] is dropped: [lb.IP] panics. *)
Definition PrepareCloud : GoM env () :=
  key ← getPublicKey;
  _ ← match key with Some _ => mret () | None => _ ← importPublicKey; mret () end;
  found ← getTags;
  _ ← (if found : bool then mret () else createTags);
  cluster ← the_cluster;
  found ← attempt (lbByName (LoadBalancerName cluster));
  lb ← match found with
       | inl (Some lb) => mret lb
       | inl None => createLoadBalancer (LoadBalancerName cluster)
       | inr _ => nil_panic
       end;
  match ForwardingRules lb with
  | [] => panic "index out of range [0] with length 0"
  | rule :: _ =>
      cluster ← the_cluster;
      let cluster := with_LoadBalancer cluster
            {| lb_DNS := ""; lb_IP := do_lb_IP lb; lb_Port := EntryPort rule |} in
      _ ← set_Cluster cluster;
      cluster ← lift (SetClusterAPIEndpoints cluster
                  [{| addr_Type := NodeExternalIP; Address := do_lb_IP lb |}]);
      set_Cluster cluster
  end.

(** Errors of deleting the droplets are only logged. *)
Definition ApplyDelete : GoM env () :=
  kc ← GetAdminClient (CC := CC) (BC := BC) sp;
  _ ← for_nodes kc RoleMasterKey (λ n, ignore_err (DeleteInstanceByProviderID n.2));
  cluster ← the_cluster;
  _ ← ignore_err (call (λ t, Droplets_DeleteByTag t (cluster_tag cluster)));
  key ← getPublicKey;
  _ ← match key with Some _ => deleteSSHKey | None => mret () end;
  cluster ← the_cluster;
  found ← attempt (lbByName (LoadBalancerName cluster));
  _ ← match found with
      | inl None => mret ()
      | _ => deleteLoadBalancer (LoadBalancerName cluster)
      end;
  _ ← set_Phase ClusterDeleted;
  UpdateStatus sp.

Definition GetMasterSKU (totalNodes : Z) : string := "2gb".

(** ** context.go *)
Definition DigitalOceanToken : string := "token".

Definition CreateCredentials (kc : KC) : GoM env () :=
  cluster ← the_cluster;
  cred ← store (op_Get (st_Credentials sp) (CredentialName (Config (Spec cluster))));
  let token := default "" (cred_Data (cred_Spec cred) !! DigitalOceanToken) in
  on_cloud (CreateSecret kc "digitalocean" NamespaceSystem
              (<["access-token" := token]> {[ "token" := token ]})).

Definition ClusterManager : Interface := {|
  cm_SetDefaultCluster := SetDefaultCluster;
  cm_GetDefaultMachineProviderSpec := GetDefaultMachineProviderSpec;
  cm_SetCloudConnector := SetCloudConnector;
  cm_PrepareCloud := PrepareCloud;
  cm_EnsureMaster := EnsureMaster;
  cm_GetMasterSKU := GetMasterSKU;
  cm_ApplyScale := panic "implement me";
  cm_ApplyDelete := ApplyDelete;
  cm_GetAdminClient := GetAdminClient (CC := CC) (BC := BC) sp;
  cm_CreateCredentials := CreateCredentials;
  cm_GetClusterAPIComponents := mret ControllerManager
|}.

(** ** machine_actuator.go

    A machine that is written to is returned. *)
Definition validateMachine (providerConfig : DigitalOceanMachineProviderSpec) : outcome () :=
  if decide (do_Image providerConfig = "") then Err "image slug must be provided"
  else if decide (do_Region providerConfig = "") then Err "region must be provided"
  else if decide (do_Size providerConfig = "") then Err "size must be provided"
  else Ok ().

(** An error is taken for "it does not exist". *)
Definition Exists (machine : Machine) : GoM env bool :=
  i ← attempt (instanceIfExists machine);
  mret (match i with inl _ => true | inr _ => false end).

Definition machine_updateMachineStatus (machine : Machine) : GoM env Machine :=
  droplet ← instanceIfExists machine;
  status ← lift (MachineStatusFromProviderStatus (MachineProviderStatus (machine_Status machine)));
  raw ← attempt (lift (json_MachineStatus
          {| dms_Meta := dms_Meta status; InstanceID := drop_ID droplet; InstanceStatus := drop_Status droplet |}));
  let machine := with_machine_ProviderStatus machine (match raw with inl raw => Some raw | inr _ => None end) in
  _ ← on_cloud (Machine_Status_Update machine);
  mret machine.

Definition getKubeadmToken : GoM env string :=
  token ← on_cloud TokenCreate;
  mret (TrimSpace token).

Definition machine_Create (machine : Machine) : GoM env Machine :=
  machineConfig ← lift (MachineConfigFromProviderSpec (MachineProviderSpec (machine_Spec machine)));
  _ ← lift (validateMachine machineConfig);
  exists_ ← Exists machine;
  _ ← (if exists_ : bool then mret () else
         token ← getKubeadmToken;
         script ← RenderStartupScript (V := V) do_hooks machine token;
         cluster ← the_cluster;
         CreateInstance cluster machine script);
  machine_updateMachineStatus machine.

(** Errors are only logged; an instance that cannot be found counts as deleted. *)
Definition machine_Delete (machine : Machine) : GoM env () :=
  instance ← attempt (instanceIfExists machine);
  match instance with
  | inr _ => mret ()
  | inl instance =>
      ignore_err (DeleteInstanceByProviderID ("digitalocean://" +:+ pretty (drop_ID instance)))
  end.

Definition machine_Update (goalMachine : Machine) : GoM env Machine :=
  goalConfig ← lift (MachineConfigFromProviderSpec (MachineProviderSpec (machine_Spec goalMachine)));
  _ ← lift (validateMachine goalConfig);
  exists_ ← Exists goalMachine;
  if exists_ : bool then machine_updateMachineStatus goalMachine else machine_Create goalMachine.

(** ** cluster_actuator.go *)
Definition updateClusterStatus (cluster : CapiCluster) (status : DigitalOceanClusterProviderStatus) :
    GoM env CapiCluster :=
  raw ← lift (json_ClusterStatus status);
  let cluster := with_provider_status cluster raw in
  _ ← on_cloud (CapiCluster_Status_Update cluster);
  mret cluster.

Definition cluster_Reconcile (cluster : CapiCluster) : GoM env CapiCluster :=
  c ← the_cluster;
  found ← lbByName (LoadBalancerName c);
  lb_cluster ← match found with
    | Some lb => mret (lb, cluster)
    | None =>
        lb ← createLoadBalancer (LoadBalancerName c);
        mret (lb, with_endpoint cluster (do_lb_IP lb))
    end;
  let lb := lb_cluster.1 in
  let cluster := lb_cluster.2 in
  updated ← loadBalancerUpdated lb;
  lb ← (if updated : bool then
          defaultSpecs ← buildLoadBalancerRequest (LoadBalancerName c);
          call (λ t, LoadBalancers_Update t (do_lb_ID lb) defaultSpecs)
        else mret lb);
  status ← lift (ClusterStatusFromProviderStatus (ClusterProviderStatus (capi_Status cluster)));
  described ← lift (DescribeLoadBalancer lb);
  updateClusterStatus cluster {| dcst_Meta := dcst_Meta status; APIServerLB := Some described |}.
End provider.

End DigitalOcean.
