(* ===== verification/DigitalOceanProofs.v ===== *)
(** * The DigitalOcean provider keeps to the interface

    A droplet's provider ID reads back ([droplet_id_roundtrip]); the cluster manager is
    a provider as the cloud package wants one, makes what a cluster needs of an account
    where it is not found, and removes it ([digitalocean_provider]); ensuring the
    master creates at most one droplet, and none when it is found
    ([ensure_master_droplets]).  [AccountLaws] and [DropletLaws] say what is relied on
    of the API. *)
From stdpp Require Import base list gmap strings pretty fin_maps.
From Stdlib Require Import Ascii.
From S2P Require Import Prelude GoStrings Api StoreSpec Provider Certs Kube Cloud CloudProofs Apply ApplyProofs.
From S2P Require Import StoreFrame Startup ProviderParts ProviderFrame DigitalOcean.
Import DigitalOcean.

(** The provider ID the controller writes for a droplet is read back as that droplet;
    an ID of another provider, or of another shape, is refused. *)
Theorem droplet_id_roundtrip id :
  ((0 ≤ id < 2 ^ 63)%Z → dropletIDFromProviderID ("digitalocean://" +:+ pretty id) = Ok id) ∧
  ∀ providerID v, dropletIDFromProviderID providerID = Ok v →
    ∃ p m d, Split "/"%char providerID = [p; m; d] ∧ drop_colon p = UID_digitalocean ∧ Atoi d = Ok v.
Proof.
  split.
  - intros Hid. unfold dropletIDFromProviderID.
    assert (id_of_provider UID_digitalocean ("digitalocean://" +:+ pretty id) = Ok (pretty id)) as ->.
    { apply (provider_id_made UID_digitalocean); try done. eapply digits_no_byte; [apply (digits_value_pretty id); lia|done]. }
    by apply Atoi_pretty.
  - intros providerID v E. unfold dropletIDFromProviderID in E.
    destruct (id_of_provider _ _) as [d|?|?] eqn:Hd; try done.
    apply provider_id_read in Hd as (p & m & Hs & Hp). by exists p, m, d.
Qed.

(** ** The manager *)
Section manager.
Context {S Crt Key SSHKey X KC CC BC V : Type}.
Context `{!Crypto Crt Key SSHKey, !CertText Crt Key, !Clock, !Polling, !Kubernetes X KC CC BC}.
Context `{!StartupLib Crt V, !Connector X, !Controllers X, !Nodes X KC, !DigitalOceanJson, !DigitalOceanAPI X SSHKey}.
Context (sp : ResourceInterface S Crt Key) (ControllerManager customTemplate : string).
Notation env := (env (S := S) (Crt := Crt) (Key := Key) (SSHKey := SSHKey) (X := X) (KC := KC)).

Definition hooks := do_hooks (S := S) (Crt := Crt) (Key := Key) (SSHKey := SSHKey) (X := X) (KC := KC) (V := V)
                             customTemplate.

#[export] Instance digitalocean_hooks : HookLaws hooks.
Proof. apply external_hooks_laws. by apply not_elem_of_cons; split; [|apply not_elem_of_nil]. Qed.

(** ** The store *)
Section respects.
Context (R : relation S) `{!PreOrder R} `{!StoreRespects R sp}.
Notation on_e := (on_e (Crt := Crt) (Key := Key) (SSHKey := SSHKey) (X := X) (KC := KC) R).

Hint Resolve store_frame store_rand_frame NewRestConfig_frame on_cloud_frame draw_env_frame Now_frame set_Cluster_frame
  the_cluster_frame pres_PollImmediate pres_unless_err UpdateStatus_frame : pres.

Lemma do_lbByName_frame n : pres on_e (lbByName (SSHKey := SSHKey) n : GoM env _).
Proof. unfold lbByName. provider_tac. Qed.
Lemma do_instanceIfExists_frame m : pres on_e (instanceIfExists (SSHKey := SSHKey) m : GoM env _).
Proof. unfold instanceIfExists. provider_tac. Qed.
Lemma do_getPublicKey_frame : pres on_e (getPublicKey : GoM env _).
Proof. unfold getPublicKey. provider_tac. Qed.
Lemma do_createLoadBalancer_frame n : pres on_e (createLoadBalancer (SSHKey := SSHKey) n : GoM env _).
Proof. unfold createLoadBalancer, buildLoadBalancerRequest, waitActive, nil_panic. pose proof do_lbByName_frame. provider_tac. Qed.
Lemma deleteLoadBalancer_frame n : pres on_e (deleteLoadBalancer (SSHKey := SSHKey) n : GoM env _).
Proof. unfold deleteLoadBalancer. pose proof do_lbByName_frame. provider_tac. Qed.
Lemma do_CreateInstance_frame c m t : pres on_e (CreateInstance c m t : GoM env _).
Proof. unfold CreateInstance, WaitForInstance. provider_tac. Qed.

Hint Resolve do_lbByName_frame do_instanceIfExists_frame do_getPublicKey_frame do_createLoadBalancer_frame
  deleteLoadBalancer_frame do_CreateInstance_frame : pres.

Lemma digitalocean_respects :
  ProviderRespects R (DigitalOcean.ClusterManager (CC := CC) (BC := BC) (V := V) sp ControllerManager customTemplate).
Proof.
  split; cbn [DigitalOcean.ClusterManager cm_SetDefaultCluster cm_GetDefaultMachineProviderSpec
    cm_SetCloudConnector cm_PrepareCloud cm_EnsureMaster cm_ApplyScale cm_ApplyDelete cm_GetAdminClient
    cm_CreateCredentials cm_GetClusterAPIComponents].
  - unfold SetDefaultCluster. provider_tac.
  - intros sku role. unfold GetDefaultMachineProviderSpec. provider_tac.
  - unfold SetCloudConnector, newconnector, IsUnauthorized. provider_tac.
  - unfold PrepareCloud, importPublicKey, getTags, createTags, nil_panic. provider_tac.
  - intros m. unfold EnsureMaster, update_cluster_of_scope, do_hooks. provider_tac.
  - provider_tac.
  - unfold ApplyDelete, DeleteInstanceByProviderID, deleteSSHKey, GetAdminClient, NewAdminClient, set_Phase. provider_tac.
  - unfold GetAdminClient, NewAdminClient. provider_tac.
  - intros kc. unfold CreateCredentials. provider_tac.
  - provider_tac.
Qed.
End respects.
End manager.

(** ** The account

    The ssh keys of an account by their fingerprints, its tags, and its balancers by ID
    and name.  What the API promises of them: reading changes none, and its answers are
    true, of balancers for the first page; a creation or deletion that succeeds does
    what it says. *)
Record account := Account { acc_keys : list string; acc_tags : list string; acc_balancers : list (string * string) }.

Lemma account_eta a : Account (acc_keys a) (acc_tags a) (acc_balancers a) = a.
Proof. by destruct a. Qed.

Definition lb_key (lb : doLoadBalancer) : string * string := (do_lb_ID lb, do_lb_Name lb).

(** The answer [r] on what is there, or is not *)
Definition truthful {A} (r : reply A) (there : Prop) : Prop :=
  (r.1 = Some StatusNotFound → ¬ there) ∧ (∀ a, r.1 ≠ Some StatusNotFound → r.2 = inl a → there).

Class AccountLaws {X KC SSHKey} `{!DigitalOceanAPI X SSHKey, !Nodes X KC} (acc : X → account) (page : nat) : Prop := {
  al_key_get t fp x : acc (Keys_GetByFingerprint t fp x).2 = acc x;
  al_key_found t fp x r : (Keys_GetByFingerprint t fp x).1 = Ok r → truthful r (fp ∈ acc_keys (acc x));
  al_key_create t k x id : (Keys_Create t (SSHKey_PublicKey k) x).1 = Ok id →
    acc (Keys_Create t (SSHKey_PublicKey k) x).2 =
      Account (acc_keys (acc x) ++ [OpensshFingerprint k]) (acc_tags (acc x)) (acc_balancers (acc x));
  al_key_delete t fp x : acc (Keys_DeleteByFingerprint t fp x).2 =
    match (Keys_DeleteByFingerprint t fp x).1 with
    | Ok _ => Account (filter (.≠ fp) (acc_keys (acc x))) (acc_tags (acc x)) (acc_balancers (acc x))
    | _ => acc x
    end;
  al_tag_get t n x : acc (Tags_Get t n x).2 = acc x;
  al_tag_found t n x r : (Tags_Get t n x).1 = Ok r → truthful r (n ∈ acc_tags (acc x));
  al_tag_create t n x : (Tags_Create t n x).1 = Ok () →
    acc (Tags_Create t n x).2 = Account (acc_keys (acc x)) (acc_tags (acc x) ++ [n]) (acc_balancers (acc x));
  al_lb_list t x : acc (LoadBalancers_List t x).2 = acc x;
  al_lb_listed t x l : (LoadBalancers_List t x).1 = Ok l → lb_key <$> l = take page (acc_balancers (acc x));
  al_lb_get t id x : acc (LoadBalancers_Get t id x).2 = acc x;
  al_lb_got t id x lb : (LoadBalancers_Get t id x).1 = Ok lb → do_lb_ID lb = id;
  al_lb_create t req x lb : (LoadBalancers_Create t req x).1 = Ok lb →
    acc (LoadBalancers_Create t req x).2 =
      Account (acc_keys (acc x)) (acc_tags (acc x)) (acc_balancers (acc x) ++ [(do_lb_ID lb, lbr_Name req)]);
  al_lb_delete t id x : acc (LoadBalancers_Delete t id x).2 =
    match (LoadBalancers_Delete t id x).1 with
    | Ok _ => Account (acc_keys (acc x)) (acc_tags (acc x)) (filter (λ b, b.1 ≠ id) (acc_balancers (acc x)))
    | _ => acc x
    end;
  al_droplet_delete t id x : acc (Droplets_Delete t id x).2 = acc x;
  al_droplets_delete t n x : acc (Droplets_DeleteByTag t n x).2 = acc x;
  al_nodes kc r x : acc (Nodes_List (KC := KC) kc r x).2 = acc x
}.

(** Something that is made unless it is there *)
Definition with_it (n : string) (l : list string) : list string := if decide (n ∈ l) then l else l ++ [n].

(** The balancer of a name a listing shows *)
Definition shown_lb (page : nat) (name : string) (a : account) : option (string * string) :=
  List.find (λ b, bool_decide (b.2 = name)) (take page (acc_balancers a)).

Section account.
Context {S Crt Key SSHKey X KC CC BC V : Type}.
Context `{!Crypto Crt Key SSHKey, !CertText Crt Key, !Clock, !Polling, !Kubernetes X KC CC BC}.
Context `{!StartupLib Crt V, !Connector X, !Controllers X, !Nodes X KC, !DigitalOceanJson, !DigitalOceanAPI X SSHKey}.
Context (acc : X → account) (page : nat) `{!AccountLaws (KC := KC) acc page}.
Notation env := (env (S := S) (Crt := Crt) (Key := Key) (SSHKey := SSHKey) (X := X) (KC := KC)).
Implicit Types (e : env).

(** Nothing but the cloud moves, and the account there to [a]. *)
Definition account_is (a : account) e e' : Prop :=
  e_store e' = e_store e ∧ e_tick e' = e_tick e ∧ e_scope e' = e_scope e ∧ acc (e_cloud e') = a.
Definition quietly e e' : Prop := account_is (acc (e_cloud e)) e e'.
(** Neither the account moves, nor the cluster and the certificates in memory. *)
Definition calmly e e' : Prop :=
  sc_Cluster (e_scope e') = sc_Cluster (e_scope e) ∧ sc_Certs (e_scope e') = sc_Certs (e_scope e) ∧
  acc (e_cloud e') = acc (e_cloud e).

#[export] Instance quietly_preorder : PreOrder quietly.
Proof. split; [by intros e|]. intros a b c (?&?&?&?) (?&?&?&?). unfold quietly, account_is in *. split_and!; congruence. Qed.
#[export] Instance calmly_preorder : PreOrder calmly.
Proof. split; [by intros e|]. intros a b c (?&?&?) (?&?&?). split_and!; congruence. Qed.

Lemma quietly_calmly {A} (m : GoM env A) : pres quietly m → pres calmly m.
Proof. intros Hm e. destruct (Hm e) as (_ & _ & Hs & Ha). unfold calmly. by rewrite Hs. Qed.

Lemma call_quietly {A} (f : string → GoM X A) : (∀ t x, acc (f t x).2 = acc x) → pres quietly (call f : GoM env A).
Proof.
  intros Hf e. unfold call, mbind, gom_bind, gets. destruct (conn_token (e_cloud e)) as [t|]; [|by split].
  unfold on_cloud, zoom. specialize (Hf t (e_cloud e)). by destruct (f t _).
Qed.
Lemma the_cluster_quietly : pres quietly (the_cluster : GoM env Cluster).
Proof. intros e. unfold the_cluster. by destruct (sc_Cluster _). Qed.
Lemma conn_SSHKey_quietly : pres quietly (conn_SSHKey : GoM env SSHKey).
Proof. intros e. unfold conn_SSHKey, mbind, gom_bind, gets. by destruct (sc_Certs _). Qed.
Lemma lb_list_quietly : pres quietly (call LoadBalancers_List : GoM env _).
Proof. apply call_quietly, al_lb_list. Qed.
Lemma lb_get_quietly id : pres quietly (call (λ t, LoadBalancers_Get t id) : GoM env _).
Proof. apply call_quietly. intros. apply al_lb_get. Qed.
Lemma key_get_quietly fp : pres quietly (call (λ t, Keys_GetByFingerprint t fp) : GoM env _).
Proof. apply call_quietly. intros. apply al_key_get. Qed.
Lemma tag_get_quietly n : pres quietly (call (λ t, Tags_Get t n) : GoM env _).
Proof. apply call_quietly. intros. apply al_tag_get. Qed.
Hint Resolve the_cluster_quietly conn_SSHKey_quietly lb_list_quietly lb_get_quietly key_get_quietly tag_get_quietly : pres.

Lemma getPublicKey_quietly : pres quietly (getPublicKey : GoM env _).
Proof. unfold getPublicKey, unless_NotFound. pres_tac. Qed.
Lemma getTags_quietly : pres quietly (getTags (SSHKey := SSHKey) : GoM env _).
Proof. unfold getTags, unless_NotFound. pres_tac. Qed.
Lemma lbByName_quietly n : pres quietly (lbByName (SSHKey := SSHKey) n : GoM env _).
Proof. unfold lbByName. pres_tac. Qed.

(** What an answer that was not refused says *)
Lemma unless_NotFound_inv {A} (f : string → GoM X (reply A)) (there : X → Prop) e r e' :
  (∀ t x r, (f t x).1 = Ok r → truthful r (there x)) →
  unless_NotFound (call f) e = (Ok r, e') →
  match r with Some _ => there (e_cloud e) | None => ¬ there (e_cloud e) end.
Proof.
  intros Hf E. unfold unless_NotFound in E. apply bind_ok_inv in E as ([s a] & e1 & Ec & E).
  apply call_ok_inv in Ec as (t & _ & Ec & _). destruct (Hf t (e_cloud e) (s, a)) as [Hno Hyes]; [by rewrite Ec|].
  cbn [fst snd] in *. case_decide as Hs; [injection E as <- _; auto|].
  destruct a as [a|err]; [|done]. injection E as <- _. by apply (Hyes a).
Qed.

Lemma getPublicKey_inv e certs r e' :
  sc_Certs (e_scope e) = Some certs → getPublicKey e = (Ok r, e') →
  match r with
  | Some _ => OpensshFingerprint (SSHKey_ certs) ∈ acc_keys (acc (e_cloud e))
  | None => OpensshFingerprint (SSHKey_ certs) ∉ acc_keys (acc (e_cloud e))
  end.
Proof.
  intros Hk E. set (fp := OpensshFingerprint _).
  assert (unless_NotFound (call (λ t, Keys_GetByFingerprint t fp)) e = (Ok r, e')) as E1.
  { rewrite <-E. unfold getPublicKey, unless_NotFound. rewrite bind_assoc.
    assert (conn_SSHKey e = (Ok (SSHKey_ certs), e)) as Ek.
    { unfold conn_SSHKey, mbind, gom_bind, gets. by rewrite Hk. }
    by rewrite (bind_ok _ _ _ _ _ Ek). }
  apply (unless_NotFound_inv _ (λ x, fp ∈ acc_keys (acc x))) in E1; [done|]. intros. by eapply al_key_found.
Qed.

Lemma getTags_inv e c r e' :
  sc_Cluster (e_scope e) = Some c → getTags (SSHKey := SSHKey) e = (Ok r, e') →
  if r : bool then cluster_tag c ∈ acc_tags (acc (e_cloud e)) else cluster_tag c ∉ acc_tags (acc (e_cloud e)).
Proof.
  intros Hc E. unfold getTags in E. apply bind_ok_inv in E as (o & e1 & E & Er). injection Er as <- _.
  assert (unless_NotFound (call (λ t, Tags_Get t (cluster_tag c))) e = (Ok o, e1)) as E1.
  { rewrite <-E. unfold unless_NotFound. rewrite bind_assoc. by rewrite (bind_ok _ _ _ _ _ (the_cluster_at e c Hc)). }
  apply (unless_NotFound_inv _ (λ x, cluster_tag c ∈ acc_tags (acc x))) in E1; [by destruct o|].
  intros. by eapply al_tag_found.
Qed.

Lemma find_shown name l a :
  lb_key <$> l = take page (acc_balancers a) →
  lb_key <$> List.find (λ lb, bool_decide (do_lb_Name lb = name)) l = shown_lb page name a.
Proof.
  unfold shown_lb. intros <-. induction l as [|lb l IH]; [done|]. cbn. by case_bool_decide.
Qed.

Lemma lbByName_inv name e r e' :
  lbByName (SSHKey := SSHKey) name e = (Ok r, e') → lb_key <$> r = shown_lb page name (acc (e_cloud e)).
Proof.
  intros E. unfold lbByName in E. apply bind_ok_inv in E as (l & e1 & Ec & Er). injection Er as <- _.
  apply call_ok_inv in Ec as (t & _ & Ec & _). apply find_shown, (al_lb_listed t). by rewrite Ec.
Qed.

Lemma shown_lb_named name a b : shown_lb page name a = Some b → b.2 = name ∧ b ∈ acc_balancers a.
Proof.
  unfold shown_lb. intros [Hin Hn%bool_decide_eq_true]%List.find_some. split; [done|].
  apply list_elem_of_In in Hin. apply elem_of_take in Hin as (i & Hi & _). by apply list_elem_of_lookup_2 in Hi.
Qed.

Lemma account_is_trans a a' e e1 e2 : account_is a e e1 → account_is a' e1 e2 → account_is a' e e2.
Proof. intros (?&?&?&?) (?&?&?&?). split_and!; congruence. Qed.

(** A call that is known to succeed *)
Lemma call_account {A} (f : string → GoM X A) (a : account) e r e' :
  (∀ t, (f t (e_cloud e)).1 = Ok r → acc (f t (e_cloud e)).2 = a) → call f e = (Ok r, e') → account_is a e e'.
Proof.
  intros Hf (t & _ & Ec & ->)%call_ok_inv. split_and!; try done. cbn. specialize (Hf t). rewrite Ec in Hf. by apply Hf.
Qed.

Lemma ensured_key e certs key e1 e2 :
  sc_Certs (e_scope e) = Some certs → getPublicKey e = (Ok key, e1) →
  (match key with Some _ => mret () | None => _ ← importPublicKey; mret () end) e1 = (Ok (), e2) →
  let a := acc (e_cloud e) in
  account_is (Account (with_it (OpensshFingerprint (SSHKey_ certs)) (acc_keys a)) (acc_tags a) (acc_balancers a)) e e2.
Proof.
  intros Hk E1 E2 a. pose proof (getPublicKey_inv _ _ _ _ Hk E1) as Hin.
  pose proof (getPublicKey_quietly e) as Hq. rewrite E1 in Hq. cbn [snd] in Hq. unfold with_it.
  destruct key as [id|].
  - injection E2 as <-. rewrite decide_True by done. by rewrite account_eta.
  - rewrite decide_False by done. eapply account_is_trans; [exact Hq|].
    destruct Hq as (_ & _ & Hs & Ha). apply bind_ok_inv in E2 as (id & e3 & E2 & E3). injection E3 as <-.
    unfold importPublicKey in E2. apply bind_ok_inv in E2 as (k & e4 & Ek & E2).
    unfold conn_SSHKey, mbind, gom_bind, gets in Ek. rewrite Hs, Hk in Ek. injection Ek as <- <-.
    apply call_account with (a := Account (acc_keys a ++ [OpensshFingerprint (SSHKey_ certs)]) (acc_tags a) (acc_balancers a)) in E2;
      [done|]. intros t Ht. rewrite (al_key_create _ _ _ _ Ht), Ha. done.
Qed.

Lemma ensured_tag e c found e1 e2 :
  sc_Cluster (e_scope e) = Some c → getTags (SSHKey := SSHKey) e = (Ok found, e1) →
  (if found : bool then mret () else createTags (SSHKey := SSHKey)) e1 = (Ok (), e2) →
  let a := acc (e_cloud e) in
  account_is (Account (acc_keys a) (with_it (cluster_tag c) (acc_tags a)) (acc_balancers a)) e e2.
Proof.
  intros Hc E1 E2 a. pose proof (getTags_inv _ _ _ _ Hc E1) as Hin.
  pose proof (getTags_quietly e) as Hq. rewrite E1 in Hq. cbn [snd] in Hq. unfold with_it.
  destruct found.
  - injection E2 as <-. rewrite decide_True by done. by rewrite account_eta.
  - rewrite decide_False by done. eapply account_is_trans; [exact Hq|].
    destruct Hq as (_ & _ & Hs & Ha). unfold createTags in E2.
    rewrite (bind_ok _ _ _ _ _ (the_cluster_at e1 c ltac:(by rewrite Hs))) in E2.
    apply call_account with (a := Account (acc_keys a) (acc_tags a ++ [cluster_tag c]) (acc_balancers a)) in E2;
      [done|]. intros t Ht. rewrite (al_tag_create _ _ _ Ht), Ha. done.
Qed.

Lemma waitActive_inv id e lb e' :
  waitActive (SSHKey := SSHKey) id e = (Ok lb, e') → quietly e e' ∧ do_lb_ID lb = id.
Proof.
  intros E. unfold waitActive in E. apply bind_ok_inv in E as ([] & e1 & E1 & E).
  assert (pres quietly (PollImmediate retries (unless_err (call (λ t, LoadBalancers_Get t id))
            (λ lb, mret (bool_decide (ToLower (do_lb_Status lb) = "active")))) : GoM env ())) as Hp.
  { apply pres_PollImmediate; [exact _|]. apply pres_unless_err; [exact _|pres_tac|]. intros lb0. apply pres_ret; exact _. }
  specialize (Hp e). rewrite E1 in Hp. split.
  - etrans; [exact Hp|]. pose proof (lb_get_quietly id e1) as Hg. by rewrite E in Hg.
  - apply call_ok_inv in E as (t & _ & Ec & _). apply (al_lb_got t id (e_cloud e1)). by rewrite Ec.
Qed.

Lemma createLoadBalancer_inv e c name lb e' :
  sc_Cluster (e_scope e) = Some c → shown_lb page name (acc (e_cloud e)) = None →
  createLoadBalancer (SSHKey := SSHKey) name e = (Ok lb, e') →
  let a := acc (e_cloud e) in
  account_is (Account (acc_keys a) (acc_tags a) (acc_balancers a ++ [(do_lb_ID lb, name)])) e e'.
Proof.
  intros Hc Hnone E a. unfold createLoadBalancer in E. apply bind_ok_inv in E as (found & e1 & E1 & E).
  unfold attempt in E1. destruct (lbByName name e) as [[o|err|w] e0] eqn:El; [|injection E1 as <- <-; discriminate E|done].
  injection E1 as <- <-. pose proof (lbByName_quietly name e) as Hq. rewrite El in Hq. cbn [snd] in Hq.
  apply lbByName_inv in El. rewrite Hnone in El. destruct o as [o|]; [done|]. clear El.
  eapply account_is_trans; [exact Hq|]. destruct Hq as (_ & _ & Hs & Ha).
  unfold buildLoadBalancerRequest in E. rewrite bind_assoc in E.
  rewrite (bind_ok _ _ _ _ _ (the_cluster_at e0 c ltac:(by rewrite Hs))) in E.
  apply bind_ok_inv in E as (req & e2 & Er & E). injection Er as Er <-.
  apply bind_ok_inv in E as (lb0 & e3 & Ec & E). apply waitActive_inv in E as [Hw Hid].
  apply call_account with (a := Account (acc_keys a) (acc_tags a) (acc_balancers a ++ [(do_lb_ID lb0, name)])) in Ec.
  - rewrite Hid. eapply account_is_trans; [exact Ec|]. destruct Ec as (_&_&_&<-). exact Hw.
  - intros t Ht. rewrite (al_lb_create _ _ _ _ Ht), Ha. by rewrite <-Er.
Qed.

(** What preparing makes of an account: the cluster's key, tag and balancer, each made
    unless it is found *)
Definition prepared (fp : string) (c : Cluster) (lb : doLoadBalancer) (a : account) : account :=
  Account (with_it fp (acc_keys a)) (with_it (cluster_tag c) (acc_tags a))
    (match shown_lb page (LoadBalancerName c) a with
     | Some _ => acc_balancers a
     | None => acc_balancers a ++ [(do_lb_ID lb, LoadBalancerName c)]
     end).

(** The address of the balancer as the cluster keeps it *)
Definition with_balancer (c : Cluster) (ip : string) (port : Z) : Cluster :=
  append_endpoint (with_LoadBalancer c {| lb_DNS := ""; lb_IP := ip; lb_Port := port |}) ip.

Definition with_cluster (c : Cluster) e : env :=
  Env (e_store e) (e_tick e) (e_cloud e)
      {| sc_Cluster := Some c; sc_Certs := sc_Certs (e_scope e);
         sc_CloudManager := sc_CloudManager (e_scope e); sc_AdminClient := sc_AdminClient (e_scope e) |}.

(** The end of PrepareCloud *)
Lemma record_balancer (lb : doLoadBalancer) rule rules c e :
  sc_Cluster (e_scope e) = Some c → ForwardingRules lb = rule :: rules →
  (cluster ← the_cluster;
   let cluster := with_LoadBalancer cluster {| lb_DNS := ""; lb_IP := do_lb_IP lb; lb_Port := EntryPort rule |} in
   _ ← set_Cluster cluster;
   cluster ← lift (SetClusterAPIEndpoints cluster [{| addr_Type := NodeExternalIP; Address := do_lb_IP lb |}]);
   set_Cluster cluster) e =
  if decide (do_lb_IP lb = "")
  then (Err "no cluster api endpoint found", with_cluster (with_LoadBalancer c {| lb_DNS := ""; lb_IP := do_lb_IP lb; lb_Port := EntryPort rule |}) e)
  else (Ok (), with_cluster (with_balancer c (do_lb_IP lb) (EntryPort rule)) e).
Proof.
  intros Hc Hr. rewrite (bind_ok _ _ _ _ _ (the_cluster_at e c Hc)). cbv zeta.
  erewrite bind_ok by reflexivity. rewrite SetClusterAPIEndpoints_external.
  unfold external_address, address_map. cbn [foldl addr_Type Address]. cbv zeta.
  rewrite lookup_insert_eq, lookup_insert_ne, lookup_empty by done.
  destruct (decide (do_lb_IP lb = "")) as [Hi|Hi].
  - rewrite (decide_False (P := do_lb_IP lb ≠ "")) by tauto. done.
  - by rewrite decide_True.
Qed.

Lemma PrepareCloud_inv e c certs e' :
  sc_Cluster (e_scope e) = Some c → sc_Certs (e_scope e) = Some certs → PrepareCloud (SSHKey := SSHKey) e = (Ok (), e') →
  ∃ lb rule rules, ForwardingRules lb = rule :: rules ∧ do_lb_IP lb ≠ "" ∧
    (do_lb_ID lb, LoadBalancerName c) ∈ acc_balancers (acc (e_cloud e')) ∧
    acc (e_cloud e') = prepared (OpensshFingerprint (SSHKey_ certs)) c lb (acc (e_cloud e)) ∧
    e_store e' = e_store e ∧ sc_Cluster (e_scope e') = Some (with_balancer c (do_lb_IP lb) (EntryPort rule)).
Proof.
  intros Hc Hk E. unfold PrepareCloud in E.
  apply bind_ok_inv in E as (key & e1 & E1 & E). apply bind_ok_inv in E as ([] & e2 & E2 & E).
  pose proof (ensured_key _ _ _ _ _ Hk E1 E2) as (Hst2 & Ht2 & Hs2 & Ha2). clear E1 E2.
  apply bind_ok_inv in E as (found & e3 & E3 & E). apply bind_ok_inv in E as ([] & e4 & E4 & E).
  rewrite <-Hs2 in Hc. pose proof (ensured_tag _ _ _ _ _ Hc E3 E4) as (Hst4 & Ht4 & Hs4 & Ha4). clear E3 E4.
  rewrite <-Hs4 in Hc. rewrite (bind_ok _ _ _ _ _ (the_cluster_at e4 c Hc)) in E.
  apply bind_ok_inv in E as (r & e5 & E5 & E). apply bind_ok_inv in E as (lb & e6 & E6 & E).
  rewrite Ha2 in Ha4. cbn [acc_keys acc_tags acc_balancers] in Ha4.
  remember (acc (e_cloud e)) as a eqn:Ha. remember (acc (e_cloud e4)) as a4 eqn:Hd4.
  unfold attempt in E5. destruct (lbByName _ e4) as [[o|err|w] e0] eqn:El; [|injection E5 as <- <-; discriminate E6|done].
  injection E5 as <- <-. pose proof (lbByName_quietly (LoadBalancerName c) e4) as Hq. rewrite El in Hq. cbn [snd] in Hq.
  apply lbByName_inv in El. unfold quietly, account_is in Hq. rewrite <-Hd4 in El, Hq. destruct Hq as (Hst0 & Ht0 & Hs0 & Ha0). rewrite <-Hs0 in Hc.
  assert (shown_lb page (LoadBalancerName c) a4 = shown_lb page (LoadBalancerName c) a) as Hsh by (by rewrite Ha4).
  assert (acc (e_cloud e6) = prepared (OpensshFingerprint (SSHKey_ certs)) c lb a ∧
          (do_lb_ID lb, LoadBalancerName c) ∈ acc_balancers (acc (e_cloud e6)) ∧
          e_store e6 = e_store e0 ∧ e_scope e6 = e_scope e0) as (Ha6 & Hin & Hst6 & Hs6).
  { unfold prepared. destruct o as [lb0|].
    - injection E6 as <- <-. rewrite Hsh in El. cbn in El. rewrite <-El. symmetry in El.
      apply shown_lb_named in El as [Hn Hin]. rewrite Ha0, Ha4. cbn in Hn, Hin |- *.
      split_and!; try done. by rewrite <-Hn.
    - apply (createLoadBalancer_inv _ c) in E6 as (Hst6 & _ & Hs6 & Ha6); [|done|].
      2:{ rewrite Ha0. by rewrite <-El. }
      rewrite Hsh in El. cbn in El. rewrite <-El, Ha6, Ha0, Ha4. cbn.
      split_and!; try done. apply elem_of_app. right. by left. }
  rewrite <-Hs6 in Hc. destruct (ForwardingRules lb) as [|rule rules] eqn:Er; [done|].
  pose proof (eq_trans (eq_sym (record_balancer lb rule rules c e6 Hc Er)) E) as E7. clear E. case_decide as Hip; [done|]. injection E7 as <-.
  exists lb, rule, rules. split_and!; try done. cbn. congruence.
Qed.

(** Everything found, nothing is made. *)
Lemma PrepareCloud_found e c certs t id s1 s2 l lb rule rules :
  let x := e_cloud e in
  sc_Cluster (e_scope e) = Some c → sc_Certs (e_scope e) = Some certs → conn_token x = Some t →
  Keys_GetByFingerprint t (OpensshFingerprint (SSHKey_ certs)) x = (Ok (s1, inl id), x) → s1 ≠ Some StatusNotFound →
  Tags_Get t (cluster_tag c) x = (Ok (s2, inl ()), x) → s2 ≠ Some StatusNotFound →
  LoadBalancers_List t x = (Ok l, x) →
  List.find (λ lb, bool_decide (do_lb_Name lb = LoadBalancerName c)) l = Some lb →
  ForwardingRules lb = rule :: rules → do_lb_IP lb ≠ "" →
  PrepareCloud (SSHKey := SSHKey) e = (Ok (), with_cluster (with_balancer c (do_lb_IP lb) (EntryPort rule)) e).
Proof.
  intros x Hc Hk Ht Ekey Hs1 Etag Hs2 El Hlb Hr Hip.
  assert (∀ {A} (f : string → GoM X A) r, f t x = (Ok r, x) → call f e = (Ok r, e)) as Hcall.
  { intros A f r Hf. rewrite (call_at f e t Ht). fold x. rewrite Hf. by destruct e. }
  assert (getPublicKey e = (Ok (Some id), e)) as E1.
  { unfold getPublicKey, unless_NotFound. rewrite bind_assoc.
    assert (conn_SSHKey e = (Ok (SSHKey_ certs), e)) as Ek by (unfold conn_SSHKey, mbind, gom_bind, gets; by rewrite Hk).
    rewrite (bind_ok _ _ _ _ _ Ek), (bind_ok _ _ _ _ _ (Hcall _ _ _ Ekey)). cbn [fst snd]. by rewrite decide_False. }
  assert (getTags (SSHKey := SSHKey) e = (Ok true, e)) as E2.
  { unfold getTags, unless_NotFound. rewrite bind_assoc, bind_assoc, (bind_ok _ _ _ _ _ (the_cluster_at e c Hc)).
    rewrite (bind_ok _ _ _ _ _ (Hcall _ _ _ Etag)). cbn [fst snd]. by rewrite decide_False. }
  assert (lbByName (SSHKey := SSHKey) (LoadBalancerName c) e = (Ok (Some lb), e)) as E3.
  { unfold lbByName. rewrite (bind_ok _ _ _ _ _ (Hcall _ _ _ El)). by rewrite Hlb. }
  unfold PrepareCloud. rewrite (bind_ok _ _ _ _ _ E1). erewrite bind_ok by reflexivity.
  rewrite (bind_ok _ _ _ _ _ E2). erewrite bind_ok by reflexivity.
  rewrite (bind_ok _ _ _ _ _ (the_cluster_at e c Hc)), (bind_ok _ _ _ _ _ (attempt_ok _ _ _ _ E3)).
  erewrite bind_ok by reflexivity. rewrite Hr. etrans; [exact (record_balancer lb rule rules c e Hc Hr)|]. by rewrite decide_False.
Qed.

(** ** Deleting *)
Lemma filter_absent (fp : string) (l : list string) : fp ∉ l → filter (.≠ fp) l = l.
Proof.
  induction l as [|a l IH]; [done|]. intros [Hne Hl]%not_elem_of_cons.
  rewrite filter_cons_True by (by intros ->). by rewrite IH.
Qed.

(** The account without a key *)
Definition without_key (fp : string) (a : account) : account :=
  Account (filter (.≠ fp) (acc_keys a)) (acc_tags a) (acc_balancers a).
Definition key_removed e e' : Prop :=
  ∀ certs, sc_Certs (e_scope e) = Some certs →
    account_is (without_key (OpensshFingerprint (SSHKey_ certs)) (acc (e_cloud e))) e e'.

Lemma deleteSSHKey_inv e e' : deleteSSHKey e = (Ok (), e') → key_removed e e'.
Proof.
  unfold deleteSSHKey. apply (poll_inv quietly key_removed).
  - intros s s' (key & s1 & E1 & E)%bind_ok_inv. pose proof (conn_SSHKey_quietly s) as Hq. rewrite E1 in Hq.
    etrans; [exact Hq|]. clear s E1 Hq. apply bind_ok_inv in E as (r & s2 & E2 & E).
    destruct r as [[]|err]; [discriminate E|injection E as <-]. unfold attempt, call, mbind, gom_bind, gets in E2.
    destruct (conn_token (e_cloud s1)) as [t|]; [|discriminate E2]. unfold on_cloud, zoom in E2.
    pose proof (al_key_delete t (OpensshFingerprint key) (e_cloud s1)) as Hd.
    destruct (Keys_DeleteByFingerprint t _ _) as [[?|?|?] x]; try discriminate E2. by injection E2 as _ <-.
  - intros s s' (key & s1 & E1 & E)%bind_ok_inv certs Hk. unfold conn_SSHKey, mbind, gom_bind, gets in E1.
    rewrite Hk in E1. injection E1 as <- <-. apply bind_ok_inv in E as (r & s2 & E2 & E).
    destruct r as [[]|err]; [injection E as <-|discriminate E]. unfold attempt in E2.
    destruct (call _ s) as [[[]|?|?] s3] eqn:Ec; try discriminate E2. injection E2 as <-.
    revert Ec. apply call_account. intros t Ht. by rewrite al_key_delete, Ht.
  - intros a b c (Hst & Ht & Hs & Ha) Hb certs Hk. destruct (Hb certs) as (?&?&?&?); [congruence|].
    rewrite Ha in *. split_and!; congruence.
Qed.

Lemma deleted_key e certs key e1 e2 :
  sc_Certs (e_scope e) = Some certs → getPublicKey e = (Ok key, e1) →
  (match key with Some _ => deleteSSHKey | None => mret () end) e1 = (Ok (), e2) →
  account_is (without_key (OpensshFingerprint (SSHKey_ certs)) (acc (e_cloud e))) e e2.
Proof.
  intros Hk E1 E2. pose proof (getPublicKey_inv _ _ _ _ Hk E1) as Hin.
  pose proof (getPublicKey_quietly e) as Hq. rewrite E1 in Hq. cbn [snd] in Hq. destruct key as [id|].
  - apply deleteSSHKey_inv in E2. destruct Hq as (Hst & Ht & Hs & Ha).
    destruct (E2 certs) as (?&?&?&Ha2); [congruence|]. rewrite Ha in Ha2. split_and!; congruence.
  - injection E2 as <-. unfold without_key. rewrite filter_absent, account_eta by done. exact Hq.
Qed.

(** The account without the balancer a listing shows under a name *)
Definition without_lb (name : string) (a : account) : account :=
  Account (acc_keys a) (acc_tags a)
    (match shown_lb page name a with
     | Some b => filter (λ b', b'.1 ≠ b.1) (acc_balancers a)
     | None => acc_balancers a
     end).

Lemma deleted_lb name e found e1 e2 :
  attempt (lbByName (SSHKey := SSHKey) name) e = (Ok found, e1) →
  (match found with inl None => mret () | _ => deleteLoadBalancer (SSHKey := SSHKey) name end) e1 = (Ok (), e2) →
  account_is (without_lb name (acc (e_cloud e))) e e2.
Proof.
  intros E1 E2. pose proof (pres_attempt _ _ (lbByName_quietly name) e) as Hq. rewrite E1 in Hq. cbn [snd] in Hq.
  assert (found = inl None ∨ deleteLoadBalancer (SSHKey := SSHKey) name e1 = (Ok (), e2)) as [->|E3].
  { destruct found as [[lb|]|err]; auto. }
  - injection E2 as <-. unfold attempt in E1. destruct (lbByName name e) as [[o|?|?] e0] eqn:El; try discriminate E1.
    injection E1 as -> ->. apply lbByName_inv in El. unfold without_lb. rewrite <-El. cbn. by rewrite account_eta.
  - eapply account_is_trans; [exact Hq|]. destruct Hq as (_ & _ & _ & Ha). rewrite <-Ha. clear E1 E2 Ha e.
    unfold deleteLoadBalancer in E3. apply bind_ok_inv in E3 as (o & e3 & El & E).
    pose proof (lbByName_quietly name e1) as Hq. rewrite El in Hq. cbn [snd] in Hq. apply lbByName_inv in El.
    destruct o as [lb|]; [|discriminate E]. eapply account_is_trans; [exact Hq|]. destruct Hq as (_ & _ & _ & Ha).
    revert E. apply call_account. intros t Ht. rewrite al_lb_delete, Ht, Ha. unfold without_lb. by rewrite <-El.
Qed.

(** ** Calm parts of ApplyDelete *)
Lemma calm_cloud {A} (f : GoM X A) : (∀ x, acc (f x).2 = acc x) → pres calmly (on_cloud f : GoM env A).
Proof. intros Hf e. unfold on_cloud, zoom. specialize (Hf (e_cloud e)). by destruct (f _). Qed.
Lemma call_calmly {A} (f : string → GoM X A) : (∀ t x, acc (f t x).2 = acc x) → pres calmly (call f : GoM env A).
Proof. intros Hf. by apply quietly_calmly, call_quietly. Qed.
Lemma the_cluster_calmly : pres calmly (the_cluster : GoM env Cluster).
Proof. apply quietly_calmly, the_cluster_quietly. Qed.
Lemma store_rand_calmly {A} (f : GoM (S * nat) A) : pres calmly (store_rand f : GoM env A).
Proof. intros e. unfold store_rand, zoom. by destruct (f _). Qed.
Lemma set_AdminClient_calmly kc : pres calmly (set_AdminClient kc : GoM env ()).
Proof. by intros e. Qed.
Lemma delete_droplet_calmly id : pres calmly (DeleteInstanceByProviderID (SSHKey := SSHKey) id : GoM env ()).
Proof.
  unfold DeleteInstanceByProviderID. apply pres_bind; [exact _|apply pres_lift; exact _|intros n].
  apply call_calmly. intros. apply al_droplet_delete.
Qed.
Lemma delete_by_tag_calmly n : pres calmly (call (λ t, Droplets_DeleteByTag t n) : GoM env ()).
Proof. apply call_calmly. intros. apply al_droplets_delete. Qed.
Lemma nodes_calmly kc r : pres calmly (on_cloud (Nodes_List kc r) : GoM env _).
Proof. apply calm_cloud. intros. apply al_nodes. Qed.
Hint Resolve the_cluster_calmly store_rand_calmly set_AdminClient_calmly delete_droplet_calmly delete_by_tag_calmly
  nodes_calmly : pres.

Lemma GetAdminClient_calmly (sp : ResourceInterface S Crt Key) : pres calmly (GetAdminClient (CC := CC) (BC := BC) sp : GoM env KC).
Proof. unfold GetAdminClient. pres_tac. Qed.
Lemma delete_masters_calmly kc :
  pres calmly (for_nodes kc RoleMasterKey (λ n, ignore_err (DeleteInstanceByProviderID (SSHKey := SSHKey) n.2)) : GoM env ()).
Proof. unfold for_nodes, ignore_err. pres_tac. Qed.

(** Once it succeeded, all that an account had of the cluster -- its key, and the balancer
    that is shown -- is gone, its tag stays, and what is left to do is to set the phase. *)
Lemma ApplyDelete_inv sp e c certs e' :
  sc_Cluster (e_scope e) = Some c → sc_Certs (e_scope e) = Some certs →
  ApplyDelete (CC := CC) (BC := BC) sp e = (Ok (), e') →
  ∃ e1, sc_Cluster (e_scope e1) = Some (with_Status c (with_Phase (Status c) ClusterDeleted)) ∧
    UpdateStatus sp e1 = (Ok (), e') ∧
    acc (e_cloud e1) = without_lb (LoadBalancerName c) (without_key (OpensshFingerprint (SSHKey_ certs)) (acc (e_cloud e))).
Proof.
  intros Hc Hk E. unfold ApplyDelete in E.
  apply bind_ok_inv in E as (kc & e1 & E1 & E). pose proof (GetAdminClient_calmly sp e) as Hp1.
  rewrite E1 in Hp1. cbn [snd] in Hp1. apply bind_ok_inv in E as ([] & e2 & E2 & E).
  pose proof (delete_masters_calmly kc e1) as Hp2. rewrite E2 in Hp2. cbn [snd] in Hp2.
  assert (calmly e e2) as (Hc2 & Hk2 & Ha2) by (by etrans). rewrite <-Hc2 in Hc. rewrite <-Hk2 in Hk.
  clear E1 E2 Hp1 Hp2 Hc2 Hk2. rewrite (bind_ok _ _ _ _ _ (the_cluster_at e2 c Hc)) in E.
  apply bind_ok_inv in E as ([] & e3 & E3 & E).
  assert (calmly e2 e3) as (Hc3 & Hk3 & Ha3).
  { assert (pres calmly (ignore_err (call (λ t, Droplets_DeleteByTag t (cluster_tag c))) : GoM env ())) as Hp
      by (unfold ignore_err; pres_tac). specialize (Hp e2). by rewrite E3 in Hp. }
  rewrite <-Hc3 in Hc. rewrite <-Hk3 in Hk. clear E3.
  apply bind_ok_inv in E as (key & e4 & E4 & E). apply bind_ok_inv in E as ([] & e5 & E5 & E).
  pose proof (deleted_key _ _ _ _ _ Hk E4 E5) as (_ & _ & Hs5 & Ha5). rewrite <-Hs5 in Hc.
  rewrite (bind_ok _ _ _ _ _ (the_cluster_at e5 c Hc)) in E.
  apply bind_ok_inv in E as (found & e6 & E6 & E). apply bind_ok_inv in E as ([] & e7 & E7 & E).
  pose proof (deleted_lb _ _ _ _ _ E6 E7) as (_ & _ & Hs7 & Ha7). rewrite <-Hs7 in Hc.
  unfold set_Phase in E. rewrite bind_assoc, (bind_ok _ _ _ _ _ (the_cluster_at e7 c Hc)) in E.
  apply bind_ok_inv in E as ([] & e8 & E8 & E). injection E8 as <-.
  eexists. split; [|split; [exact E|]]; [done|]. cbn. by rewrite Ha7, Ha5, Ha3, Ha2.
Qed.
End account.

(** ** What the cloud package relies on *)
Class DigitalOceanJsonLaws `{!DigitalOceanJson} : Prop := {
  json_MachineSpec_ok spec : ∃ raw, json_MachineSpec spec = Ok raw;
  json_MachineSpec_read spec raw : json_MachineSpec spec = Ok raw → unjson_MachineSpec raw = Ok spec;
  json_ClusterSpec_ok spec : ∃ raw, json_ClusterSpec spec = Ok raw
}.

Section provider_laws.
Context {Crt Key SSHKey X KC CC BC V : Type}.
Context `{!Crypto Crt Key SSHKey, !CertText Crt Key, !Clock, !Polling, !Kubernetes X KC CC BC}.
Context `{!StartupLib Crt V, !Connector X, !Controllers X, !Nodes X KC, !DigitalOceanJson, !DigitalOceanAPI X SSHKey, !DigitalOceanJsonLaws}.
Context (acc : X → account) (page : nat) `{!AccountLaws (KC := KC) acc page}.
Context (jC : Cluster → Cluster) (pCr : Credential → outcome Credential).
Context (jMS : MachineSet → MachineSet) (jM : Machine → Machine).
Context (ControllerManager customTemplate : string).
Notation cenv := (env (S := pharmer Crt Key) (Crt := Crt) (Key := Key) (SSHKey := SSHKey) (X := X) (KC := KC)).
Implicit Types (e : cenv).

Let sp := spec_provider (Crt := Crt) (Key := Key) (Ok ∘ jC) pCr (Ok ∘ jMS) (Ok ∘ jM).

(** What SetDefaultCluster makes of the configuration *)
Definition defaulted (config : ClusterConfig) : ClusterConfig :=
  with_SSHUserName (with_Cloud config
    (with_region_image (Cloud config) (Zone (Cloud config)) "ubuntu-18-04-x64" (spec_Linode (Cloud config)))) "root".

Lemma do_set_default_cluster_ok e c :
  sc_Cluster (e_scope e) = Some c →
  ∃ c', keeps c c' ∧ Config (Spec c') = defaulted (Config (Spec c)) ∧ Status c' = Status c ∧
    cluster_ObjectMeta c' = cluster_ObjectMeta c ∧ SetDefaultCluster e = (Ok (), with_cluster c' e).
Proof.
  intros Hc. unfold SetDefaultCluster. erewrite bind_ok by (by apply the_cluster_at).
  cbv zeta. erewrite bind_ok by reflexivity. unfold SetDigitalOceanClusterProviderConfig.
  match goal with |- context [json_ClusterSpec ?s] => destruct (json_ClusterSpec_ok s) as [raw ->] end.
  eexists. split_and!; [..|reflexivity]; done.
Qed.

(** The description of a machine: the size is asked for, the rest is the cluster's. *)
Definition described (c : Cluster) (sku pub : string) : DigitalOceanMachineProviderSpec :=
  {| do_TypeMeta := {| APIVersion := "digitaloceanproviderconfig/v1alpha1"; Kind := "DigitalOceanProviderConfig" |};
     do_Region := Region (Cloud (Config (Spec c))); do_Size := if decide (sku = "") then "2gb" else sku;
     do_Image := InstanceImage (Cloud (Config (Spec c))); do_Tags := [cluster_tag c]; do_SSHPublicKeys := [pub];
     do_PrivateNetworking := true; do_Backups := false; do_IPv6 := false; do_Monitoring := true |}.

Lemma do_machine_spec_ok sku role e c key :
  sc_Cluster (e_scope e) = Some c → cluster_Name c ≠ "" →
  ph_ssh (e_store e) !! (cluster_Name c, GenSSHKeyName (cluster_Name c)) = Some key →
  ∃ raw, GetDefaultMachineProviderSpec sp sku role e = (Ok (Some raw), e) ∧
         MachineConfigFromProviderSpec (Some raw) = Ok (described c sku key.1).
Proof.
  intros Hc Hn Hk. unfold GetDefaultMachineProviderSpec. erewrite bind_ok by (by apply the_cluster_at). cbv zeta.
  destruct (ssh_key_read (Ok ∘ jC) pCr (Ok ∘ jMS) (Ok ∘ jM) e c) as (key' & E); [split; [done|by eexists]|].
  assert (key' = key) as ->.
  { unfold store, zoom in E. cbn in E. unfold spec_pair_Get in E. rewrite !decide_False in E by (done || apply ssh_name_ne).
    change (GenSSHKeyExternalID c) with (GenSSHKeyName (cluster_Name c)) in E. rewrite Hk in E. by injection E. }
  rewrite (bind_ok _ _ _ _ _ E).
  match goal with |- context [json_MachineSpec ?s] => destruct (json_MachineSpec_ok s) as [raw Hr]; rewrite Hr end.
  exists raw. split; [done|]. by apply json_MachineSpec_read in Hr.
Qed.

Lemma do_provider_laws : ProviderLaws has_ssh
  (DigitalOcean.ClusterManager (X := X) (CC := CC) (BC := BC) (V := V) sp ControllerManager customTemplate).
Proof.
  split.
  - intros e c Hc. destruct (do_set_default_cluster_ok e c Hc) as (c' & Hk & _ & _ & _ & E).
    by exists c', (e_tick e), (e_cloud e).
  - intros sku role e c Hc [Hn [key Hk]]. destruct (do_machine_spec_ok sku role e c key Hc Hn Hk) as (raw & E & _).
    exists (Some raw), (e_tick e), (e_cloud e).
    change (cm_GetDefaultMachineProviderSpec _ sku role e) with (GetDefaultMachineProviderSpec sp sku role e).
    rewrite E. by destruct e.
Qed.

Lemma UpdateStatus_account e : acc (e_cloud (UpdateStatus sp e).2) = acc (e_cloud e).
Proof.
  assert (PreOrder (λ x x', acc x' = acc x)) as Hpre by (split; [done|]; intros a b c; congruence).
  exact (UpdateStatus_c (λ x x', acc x' = acc x) sp e).
Qed.

(** [C24] The cluster manager of DigitalOcean is a provider as the cloud package wants one,
    and a cluster has at DigitalOcean what is its own.  The defaults take the zone for
    the region, an image and the user root, and keep the rest of the configuration and
    the status.  The description of a machine is read back as the size that is asked
    for, or 2gb, with the region, image, tag and stored public key of the cluster.
    Preparing the cloud, when it succeeds, has made the cluster's ssh key, tag and
    balancer, each only where it was not found -- a balancer is found on the first page
    -- and records the balancer's address in memory, nothing in the store; with all
    found, and a balancer that has an address, it succeeds and calls nothing else.
    Taking the cluster down, when it succeeds, has removed key and balancer, left the
    tag, and marked the cluster deleted in memory and in the store. *)
Theorem digitalocean_provider :
  ProviderLaws has_ssh
    (DigitalOcean.ClusterManager (X := X) (CC := CC) (BC := BC) (V := V) sp ControllerManager customTemplate) ∧
  ∀ e c, sc_Cluster (e_scope e) = Some c →
    (∃ c', SetDefaultCluster e = (Ok (), with_cluster c' e) ∧ Config (Spec c') = defaulted (Config (Spec c)) ∧
       Status c' = Status c ∧ cluster_ObjectMeta c' = cluster_ObjectMeta c) ∧
    (∀ sku role pub priv, cluster_Name c ≠ "" →
       ph_ssh (e_store e) !! (cluster_Name c, GenSSHKeyName (cluster_Name c)) = Some (pub, priv) →
       ∃ raw, GetDefaultMachineProviderSpec sp sku role e = (Ok (Some raw), e) ∧
              MachineConfigFromProviderSpec (Some raw) = Ok (described c sku pub)) ∧
    ∀ certs, sc_Certs (e_scope e) = Some certs →
      let fp := OpensshFingerprint (SSHKey_ certs) in
      (∀ e', PrepareCloud (SSHKey := SSHKey) e = (Ok (), e') →
         ∃ lb rule rules, ForwardingRules lb = rule :: rules ∧ do_lb_IP lb ≠ "" ∧
           (do_lb_ID lb, LoadBalancerName c) ∈ acc_balancers (acc (e_cloud e')) ∧
           acc (e_cloud e') = prepared page fp c lb (acc (e_cloud e)) ∧ e_store e' = e_store e ∧
           sc_Cluster (e_scope e') = Some (with_balancer c (do_lb_IP lb) (EntryPort rule))) ∧
      (∀ t id s1 s2 l lb rule rules, let x := e_cloud e in conn_token x = Some t →
         Keys_GetByFingerprint t fp x = (Ok (s1, inl id), x) → s1 ≠ Some StatusNotFound →
         Tags_Get t (cluster_tag c) x = (Ok (s2, inl ()), x) → s2 ≠ Some StatusNotFound →
         LoadBalancers_List t x = (Ok l, x) →
         List.find (λ lb, bool_decide (do_lb_Name lb = LoadBalancerName c)) l = Some lb →
         ForwardingRules lb = rule :: rules → do_lb_IP lb ≠ "" →
         PrepareCloud (SSHKey := SSHKey) e = (Ok (), with_cluster (with_balancer c (do_lb_IP lb) (EntryPort rule)) e)) ∧
      (∀ e', ApplyDelete (CC := CC) (BC := BC) sp e = (Ok (), e') →
         acc (e_cloud e') = without_lb page (LoadBalancerName c) (without_key fp (acc (e_cloud e))) ∧
         ∃ c' c0, sc_Cluster (e_scope e') = Some c' ∧ Phase (Status c') = ClusterDeleted ∧
           ob_clusters (ph_objects (e_store e')) !! cluster_Name c = Some (jC c0) ∧ Status c0 = Status c').
Proof.
  split; [exact do_provider_laws|]. intros e c Hc. split; [|split].
  - destruct (do_set_default_cluster_ok e c Hc) as (c' & _ & Hcfg & Hs & Hm & E). by exists c'.
  - intros sku role pub priv Hn Hk. exact (do_machine_spec_ok sku role e c (pub, priv) Hc Hn Hk).
  - intros certs Hk fp. split; [|split].
    + intros e' E. by apply (PrepareCloud_inv acc page e c certs e').
    + intros t id s1 s2 l lb rule rules. by apply (PrepareCloud_found e c certs t id s1 s2 l lb rule rules).
    + intros e' E. destruct (ApplyDelete_inv acc page sp e c certs e' Hc Hk E) as (e1 & Hc1 & E1 & Ha).
      pose proof (UpdateStatus_account e1) as Hu. rewrite E1 in Hu. split; [by etrans|].
      apply UpdateStatus_inv in E1 as (c1 & c0 & Hc1' & Hc' & Hst & Hs). rewrite Hc1 in Hc1'. injection Hc1' as <-.
      eexists _, c0. split; [exact Hc'|]. by split_and!.
Qed.
End provider_laws.

(** ** Droplets

    What the API promises of droplets, of which a listing answers with the first
    page: reading changes none, and a creation adds one of the name, or none. *)
Class DropletLaws {X SSHKey} `{!DigitalOceanAPI X SSHKey} (droplets : X → list Droplet) (page : nat) : Prop := {
  dl_List t x : droplets (Droplets_List t x).2 = droplets x;
  dl_List_page t x l : (Droplets_List t x).1 = Ok l → l = take page (droplets x);
  dl_Get t id x : droplets (Droplets_Get t id x).2 = droplets x;
  dl_Create t req x :
    droplets (Droplets_Create t req x).2 = droplets x ∨
    ∃ d, drop_Name d = dcr_Name req ∧ droplets (Droplets_Create t req x).2 = droplets x ++ [d]
}.

Section droplets.
Context {S Crt Key SSHKey X KC CC BC V : Type}.
Context `{!Crypto Crt Key SSHKey, !CertText Crt Key, !Clock, !Polling, !Kubernetes X KC CC BC}.
Context `{!StartupLib Crt V, !Connector X, !Controllers X, !Nodes X KC, !DigitalOceanJson, !DigitalOceanAPI X SSHKey}.
Context (droplets : X → list Droplet) (page : nat) `{!DropletLaws droplets page}.
Context (sp : ResourceInterface S Crt Key) (customTemplate : string).
Notation env := (env (S := S) (Crt := Crt) (Key := Key) (SSHKey := SSHKey) (X := X) (KC := KC)).
Implicit Types (e : env) (m : Machine).

Definition there e : list Droplet := droplets (e_cloud e).
Definition as_before (x x' : X) : Prop := droplets x' = droplets x.
Notation same := (on_c (S := S) (Crt := Crt) (Key := Key) (SSHKey := SSHKey) (KC := KC) as_before).
(** At most one more, of the name. *)
Definition one_more (name : string) e e' : Prop :=
  there e' = there e ∨ ∃ d, drop_Name d = name ∧ there e' = there e ++ [d].

#[export] Instance as_before_preorder : PreOrder as_before.
Proof. split; [done|]. intros a b c. unfold as_before. congruence. Qed.

Lemma List_as_before t : pres as_before (Droplets_List t).
Proof. intros x. apply dl_List. Qed.
Lemma Get_as_before t id : pres as_before (Droplets_Get t id).
Proof. intros x. apply dl_Get. Qed.
Hint Resolve List_as_before Get_as_before : pres.

Lemma instanceIfExists_same m : pres same (instanceIfExists m : GoM env _).
Proof. unfold instanceIfExists. cloud_tac. Qed.
Hint Resolve instanceIfExists_same : pres.

Lemma update_same : pres same (update_cluster_of_scope sp : GoM env _).
Proof. unfold update_cluster_of_scope. cloud_tac. Qed.

(** One creation between parts that create nothing. *)
Definition creates (name : string) {A} (f : GoM env A) : Prop := ∀ e, one_more name e (f e).2.

Lemma creates_after {A B} name (f : GoM env A) (k : A → GoM env B) :
  pres same f → (∀ a, creates name (k a)) → creates name (f ≫= k).
Proof.
  intros Hf Hk e. specialize (Hf e). unfold mbind, gom_bind. destruct (f e) as [[a|?|?] e1]; cbn in *; [|by left..].
  unfold one_more, there. rewrite <-Hf. apply Hk.
Qed.

Lemma creates_before {A B} name (f : GoM env A) (k : A → GoM env B) :
  creates name f → (∀ a, pres same (k a)) → creates name (f ≫= k).
Proof.
  intros Hf Hk e. specialize (Hf e). unfold mbind, gom_bind. destruct (f e) as [[a|?|?] e1]; cbn in *; [|done..].
  specialize (Hk a e1). unfold one_more, there in *. rewrite Hk. exact Hf.
Qed.

Lemma creates_none {A} name (f : GoM env A) : pres same f → creates name f.
Proof. intros Hf e. left. apply Hf. Qed.

Lemma CreateInstance_creates c m script : creates (machine_Name m) (CreateInstance c m script : GoM env _).
Proof.
  unfold CreateInstance. apply creates_after; [cloud_tac|intros cfg].
  apply creates_after; [cloud_tac|intros key].
  apply creates_before; [|intros host; unfold WaitForInstance; cloud_tac].
  intros e. unfold call, mbind, gom_bind, gets. cbn. destruct (conn_token _) as [t|]; [|by left].
  unfold on_cloud, zoom, one_more, there.
  match goal with |- context [Droplets_Create t ?req _] => pose proof (dl_Create t req (e_cloud e)) as Hc end.
  by destruct (Droplets_Create _ _ _).
Qed.

Lemma EnsureMaster_creates m : creates (machine_Name m) (EnsureMaster (V := V) sp customTemplate m : GoM env _).
Proof.
  unfold EnsureMaster. apply creates_after; [cloud_tac|intros d].
  apply creates_before; [|intros _; apply update_same].
  destruct d; [by apply creates_none; cloud_tac|].
  apply creates_after; [cloud_tac|intros c]. cbv zeta. unfold do_hooks.
  apply creates_after; [cloud_tac|intros script].
  apply creates_after; [cloud_tac|intros c']. apply creates_before; [apply CreateInstance_creates|intros _; cloud_tac].
Qed.

Lemma find_named name (l : list Droplet) :
  name ∈ (drop_Name <$> l) → ∃ d, List.find (λ d, bool_decide (drop_Name d = name)) l = Some d ∧ d ∈ l.
Proof.
  intros (d & -> & Hd)%list_elem_of_fmap. destruct (List.find _ l) as [d'|] eqn:E.
  - exists d'. split; [done|]. apply list_elem_of_In. by apply List.find_some in E as [? _].
  - apply list_elem_of_In in Hd. apply (List.find_none _ _ E) in Hd. by apply bool_decide_eq_false in Hd.
Qed.

(** [C25] When the API answers, the master's droplet is looked for on the first page: found
    there, ensuring the master creates nothing; and it never creates more than one, so
    as long as all droplets are on one page their names stay different.  A master
    beyond the page, or a listing that fails, is created again. *)
Theorem ensure_master_droplets m e t :
  conn_token (e_cloud e) = Some t →
  let e' := (EnsureMaster (V := V) sp customTemplate m e).2 in
  one_more (machine_Name m) e e' ∧
  ((∀ d, d ∈ take page (there e) → is_ok (Droplets_Get t (drop_ID d) (Droplets_List t (e_cloud e)).2).1 = true) →
   conn_token (Droplets_List t (e_cloud e)).2 = Some t → is_ok (Droplets_List t (e_cloud e)).1 = true →
   (machine_Name m ∈ (drop_Name <$> take page (there e)) → there e' = there e) ∧
   (length (there e) ≤ page → NoDup (drop_Name <$> there e) → NoDup (drop_Name <$> there e'))).
Proof.
  intros Ht e'. pose proof (EnsureMaster_creates m e) as Hone. fold e' in Hone. split; [done|].
  intros Hget Ht2 Hlist.
  assert (machine_Name m ∈ (drop_Name <$> take page (there e)) → there e' = there e) as Hsame.
  { intros Hin. destruct (Droplets_List t (e_cloud e)) as [[l|?|?] x1] eqn:El; try done. cbn [fst snd] in *.
    assert (l = take page (droplets (e_cloud e))) as Hl by (apply (dl_List_page t); by rewrite El).
    destruct (find_named (machine_Name m) l) as (d & Hd & Hdl); [by rewrite Hl|]. rewrite Hl in Hdl.
    destruct (Droplets_Get t (drop_ID d) x1) as [[d'|?|?] x2] eqn:Eg; [|by specialize (Hget d Hdl); rewrite Eg in Hget..].
    assert (attempt (instanceIfExists m) e = (Ok (inl d'), Env (e_store e) (e_tick e) x2 (e_scope e))) as Ei.
    { apply attempt_ok. unfold instanceIfExists, call, mbind, gom_bind, gets. cbn. rewrite Ht.
      unfold on_cloud, zoom. rewrite El. cbn. rewrite Hd. cbn. rewrite Ht2. cbn. by rewrite Eg. }
    unfold e', EnsureMaster. erewrite bind_ok by exact Ei.
    assert (droplets x2 = droplets (e_cloud e)) as Hx.
    { transitivity (droplets x1); [pose proof (dl_Get t (drop_ID d) x1) as Hg; by rewrite Eg in Hg|].
      pose proof (dl_List t (e_cloud e)) as Hl'. by rewrite El in Hl'. }
    unfold there at 2. rewrite <-Hx. cbv iota beta.
    apply (update_same (Env (e_store e) (e_tick e) x2 (e_scope e))). }
  split; [done|]. intros Hlen Hnd. destruct Hone as [->|(d & Hd & E)]; [done|].
  destruct (decide (machine_Name m ∈ (drop_Name <$> there e))) as [Hin|Hnot].
  - rewrite Hsame; [done|]. by rewrite take_ge.
  - rewrite E, fmap_app. apply NoDup_app. split_and!; [done| |cbn; apply NoDup_singleton].
    intros n Hn ->%list_elem_of_singleton. by rewrite <-Hd in Hnot.
Qed.
End droplets.
