(* ===== verification/Linode.v ===== *)
(** * The Linode provider (cloud/providers/linode, apis/v1alpha1/linode)

    The cluster manager of Linode as a record [Interface] of Cloud.v, and the actuators
    its controller runs, over the class [LinodeAPI] of calls on the state of the cloud.
    A machine's start-up script is kept by Linode as a stack script, found by its label.
    [errLBNotFound] is the answer [None] of [lbByName]; [createLoadBalancer] answers
    [None] where the code returns a nil balancer and a nil error. *)
From stdpp Require Import base list gmap strings pretty fin_maps.
From S2P Require Import Prelude GoStrings Api StoreSpec Provider Certs Kube Cloud Apply Startup ProviderParts.

Module Linode.

Definition UID : string := "linode".

(** ** github.com/linode/linodego, the fields that are used *)
Record Instance := { inst_ID : Z; inst_Label : string; inst_Status : string; inst_IPv4 : list string }.
Record Stackscript := {
  ss_ID : Z; ss_Label : string; ss_Description : string; ss_Images : list string; ss_Script : string
}.
Record NodeBalancer := {
  nb_ID : Z; nb_Label : option string; nb_Region : string; nb_Hostname : option string;
  nb_IPv4 : option string; nb_IPv6 : option string; nb_ClientConnThrottle : Z; nb_Tags : list string
}.
Record InstanceCreateOptions := {
  ico_Label : string; ico_Region : string; ico_Type : string; ico_RootPass : string;
  ico_AuthorizedKeys : list string; ico_StackScriptData : gmap string string; ico_StackScriptID : Z;
  ico_Image : string; ico_BackupsEnabled : bool; ico_PrivateIP : bool; ico_SwapSize : option Z
}.
Record NodeBalancerConfigCreateOptions := {
  nbc_Port : Z; nbc_Protocol : string; nbc_Algorithm : string; nbc_Stickiness : string; nbc_Check : string;
  nbc_CheckInterval : Z; nbc_CheckTimeout : Z; nbc_CheckAttempts : Z; nbc_CheckPassive : option bool
}.
Record NodeBalancerNodeCreateOptions := {
  nbn_Address : string; nbn_Label : string; nbn_Weight : Z; nbn_Mode : string
}.
Definition InstanceRunning : string := "running".

(** ** apis/v1alpha1/linode/types.go *)
Record LinodeMachineProviderSpec := {
  li_TypeMeta : TypeMeta; li_Roles : list string; li_Region : string; li_Type : string;
  li_Image : string; li_Pubkey : string
}.
Definition zero_MachineProviderSpec : LinodeMachineProviderSpec :=
  {| li_TypeMeta := zero_TypeMeta; li_Roles := []; li_Region := ""; li_Type := ""; li_Image := ""; li_Pubkey := "" |}.
Record LinodeMachineProviderStatus := { lms_Meta : TypeMeta * ObjectMeta; InstanceID : Z; InstanceStatus : string }.
Record LinodeNodeBalancer := {
  lnb_ID : Z; lnb_Label : option string; lnb_Region : string; lnb_Hostname : option string;
  lnb_IPv4 : option string; lnb_IPv6 : option string; lnb_ClientConnThrottle : Z; lnb_Tags : list string
}.
Record LinodeClusterProviderStatus := {
  lcs_Meta : TypeMeta * ObjectMeta; APIServerLB : option LinodeNodeBalancer    (* of [Network] *)
}.
Definition LinodeProviderGroupName : string := "linodeproviderconfig".
Definition LinodeProviderKind : string := "LinodeClusterProviderConfig".
Definition LinodeProviderAPIVersion : string := "v1alpha1".

Definition DescribeLoadBalancer (lb : NodeBalancer) : LinodeNodeBalancer :=
  {| lnb_ID := nb_ID lb; lnb_Label := nb_Label lb; lnb_Region := nb_Region lb; lnb_Hostname := nb_Hostname lb;
     lnb_IPv4 := nb_IPv4 lb; lnb_IPv6 := nb_IPv6 lb; lnb_ClientConnThrottle := nb_ClientConnThrottle lb;
     lnb_Tags := nb_Tags lb |}.

Class LinodeJson := {
  json_MachineSpec : LinodeMachineProviderSpec → outcome RawExtension;
  unjson_MachineSpec : RawExtension → outcome LinodeMachineProviderSpec;
  json_MachineStatus : LinodeMachineProviderStatus → outcome RawExtension;
  unjson_MachineStatus : RawExtension → outcome LinodeMachineProviderStatus;
  json_ClusterStatus : LinodeClusterProviderStatus → outcome RawExtension;
  unjson_ClusterStatus : RawExtension → outcome LinodeClusterProviderStatus
}.

(** ** util.go *)
Section json.
Context `{!LinodeJson}.

Definition provider_TypeMeta : TypeMeta :=
  {| APIVersion := LinodeProviderGroupName +:+ "/" +:+ LinodeProviderAPIVersion; Kind := LinodeProviderKind |}.

Definition MachineConfigFromProviderSpec (providerConfig : option RawExtension) : outcome LinodeMachineProviderSpec :=
  match providerConfig with None => Ok zero_MachineProviderSpec | Some raw => unjson_MachineSpec raw end.

Definition MachineStatusFromProviderStatus (extension : option RawExtension) : outcome LinodeMachineProviderStatus :=
  match extension with
  | None => Ok {| lms_Meta := (zero_TypeMeta, named ""); InstanceID := 0; InstanceStatus := "" |}
  | Some raw => unjson_MachineStatus raw
  end.

Definition ClusterStatusFromProviderStatus (extension : option RawExtension) : outcome LinodeClusterProviderStatus :=
  match extension with
  | None => Ok {| lcs_Meta := (zero_TypeMeta, named ""); APIServerLB := None |}
  | Some raw => unjson_ClusterStatus raw
  end.

(** The configuration of the cluster is that of a machine with its type alone. *)
Definition SetLinodeClusterProviderConfig (cluster : CapiCluster) : outcome CapiCluster :=
  bytes ← json_MachineSpec {| li_TypeMeta := provider_TypeMeta; li_Roles := []; li_Region := ""; li_Type := "";
                              li_Image := ""; li_Pubkey := "" |};
  Ok (with_provider_spec cluster bytes).
End json.

(** ** namer.go *)
Definition StartupScriptName (cluster : Cluster) (machine role : string) : string :=
  cluster_Name cluster +:+ "-" +:+ machine +:+ "-" +:+ role.

Definition LoadBalancerName (cluster : Cluster) : string := cluster_Name cluster +:+ "-lb".

(** The API, by the token of the connector; stack scripts are listed by their label. *)
Class LinodeAPI (X SSHKey : Type) := {
  credential_APIToken : CredentialSpec → outcome string;     (* typed.IsValid(), typed.APIToken() *)
  GeneratePassword : nat → string;
  SSHKey_PublicKey : SSHKey → string;
  GetInstance : string → Z → GoM X Instance;
  ListInstances : string → GoM X (list Instance);
  api_CreateInstance : string → InstanceCreateOptions → GoM X Instance;
  DeleteInstance : string → Z → GoM X ();
  ListStackscripts : string → string → GoM X (list Stackscript);
  CreateStackscript : string → Stackscript → GoM X Stackscript;
  UpdateStackscript : string → Z → Stackscript → GoM X Stackscript;
  DeleteStackscript : string → Z → GoM X ();
  ListNodeBalancers : string → GoM X (list NodeBalancer);
  GetNodeBalancer : string → Z → GoM X (option NodeBalancer);
  CreateNodeBalancer : string → string → string → Z → GoM X Z;   (* label, region, throttle: the ID *)
  CreateNodeBalancerConfig : string → Z → NodeBalancerConfigCreateOptions → GoM X Z;
  ListNodeBalancerConfigs : string → Z → GoM X (list Z);
  CreateNodeBalancerNode : string → Z → Z → NodeBalancerNodeCreateOptions → GoM X ();
  DeleteNodeBalancer : string → Z → GoM X ()
}.

Definition instanceIDFromProviderID (providerID : string) : outcome Z :=
  id ← id_of_provider UID providerID;
  Atoi id.

(** [*lb.Label == name]: a balancer without a label panics. *)
Fixpoint find_balancer (name : string) (lbs : list NodeBalancer) : outcome (option NodeBalancer) :=
  match lbs with
  | [] => Ok None
  | lb :: lbs =>
      match nb_Label lb with
      | None => Panic "invalid memory address or nil pointer dereference"
      | Some label => if decide (label = name) then Ok (Some lb) else find_balancer name lbs
      end
  end.

(** [lb.IPv4]: nil for either panics. *)
Definition balancer_ip (lb : option NodeBalancer) : outcome string :=
  match lb ≫= nb_IPv4 with
  | None => Panic "invalid memory address or nil pointer dereference"
  | Some ip => Ok ip
  end.

Section provider.
Context {S Crt Key SSHKey X KC CC BC V : Type}.
Context `{!Crypto Crt Key SSHKey, !CertText Crt Key, !Clock, !Polling, !Kubernetes X KC CC BC}.
Context `{!StartupLib Crt V, !LinodeJson, !LinodeAPI X SSHKey}.
Context `{!Connector X, !Controllers X, !Nodes X KC}.
Context (sp : ResourceInterface S Crt Key).
Notation env := (env (S := S) (Crt := Crt) (Key := Key) (SSHKey := SSHKey) (X := X) (KC := KC)).
Notation Interface := (Interface (S := S) (Crt := Crt) (Key := Key) (SSHKey := SSHKey) (X := X)
                                 (KC := KC)).
Context (ControllerManager customTemplate : string).

(** ** cloud.go *)
Definition newconnector : GoM env string :=
  cluster ← the_cluster;
  let name := CredentialName (Config (Spec cluster)) in
  cred ← store (op_Get (st_Credentials sp) name);
  on_err (λ err, "credential " +:+ name +:+ " is invalid. Reason: " +:+ err)
         (lift (credential_APIToken (cred_Spec cred))).

Definition waitForStatus (id : Z) (status : string) : GoM env () :=
  PollImmediate retries (unless_err (call (λ t, GetInstance t id))
    (λ i, mret (bool_decide (inst_Status i = status)))).

(** [string(machineConfig.Roles[0])] *)
Definition first_role (cfg : LinodeMachineProviderSpec) : outcome string :=
  match li_Roles cfg with [] => Panic "index out of range [0] with length 0" | r :: _ => Ok r end.

(** The stack scripts of a machine's label. *)
Definition scripts_of (machine : Machine) : GoM env (string * list Stackscript) :=
  cfg ← lift (MachineConfigFromProviderSpec (MachineProviderSpec (machine_Spec machine)));
  role ← lift (first_role cfg);
  cluster ← the_cluster;
  let scriptName := StartupScriptName cluster (machine_Name machine) role in
  scripts ← call (λ t, ListStackscripts t scriptName);
  mret (scriptName, scripts).

Definition getStartupScriptID (machine : Machine) : GoM env Z :=
  found ← scripts_of machine;
  match found.2 with
  | [s] => mret (ss_ID s)
  | [] => throw ("no stackscript found with label " +:+ found.1)
  | _ => throw ("multiple stackscript found with label " +:+ found.1)
  end.

Definition createOrUpdateStackScript (machine : Machine) (script : string) : GoM env Z :=
  found ← scripts_of machine;
  match found.2 with
  | [] =>
      cluster ← the_cluster;
      s ← call (λ t, CreateStackscript t
            {| ss_ID := 0; ss_Label := found.1;
               ss_Description := "Startup script for NodeGroup " +:+ machine_Name machine +:+ " of Cluster " +:+
                                 cluster_Name cluster;
               ss_Images := [InstanceImage (Cloud (Config (Spec cluster)))]; ss_Script := script |});
      mret (ss_ID s)
  | [s] =>
      u ← call (λ t, UpdateStackscript t (ss_ID s)
            {| ss_ID := ss_ID s; ss_Label := ss_Label s; ss_Description := ss_Description s;
               ss_Images := ss_Images s; ss_Script := script |});
      mret (ss_ID u)
  | _ => throw ("multiple stackscript found with label " +:+ found.1)
  end.

Definition DeleteStackScript (machineName role : string) : GoM env () :=
  cluster ← the_cluster;
  scripts ← call (λ t, ListStackscripts t (StartupScriptName cluster machineName role));
  for_each (λ s, call (λ t, DeleteStackscript t (ss_ID s))) scripts.

Definition CreateInstance (machine : Machine) (script : string) : GoM env NodeInfo :=
  _ ← createOrUpdateStackScript machine script;
  scriptID ← getStartupScriptID machine;
  machineConfig ← lift (MachineConfigFromProviderSpec (MachineProviderSpec (machine_Spec machine)));
  cluster ← the_cluster;
  let cloud := Cloud (Config (Spec cluster)) in
  match spec_Linode cloud with
  | None => nil_panic
  | Some linode =>
      key ← conn_SSHKey;
      i ← call (λ t, api_CreateInstance t
            {| ico_Label := machine_Name machine; ico_Region := Zone cloud; ico_Type := li_Type machineConfig;
               ico_RootPass := linode_RootPassword linode; ico_AuthorizedKeys := [SSHKey_PublicKey key];
               ico_StackScriptData := {[ "hostname" := machine_Name machine ]}; ico_StackScriptID := scriptID;
               ico_Image := InstanceImage cloud; ico_BackupsEnabled := false; ico_PrivateIP := true;
               ico_SwapSize := Some 0%Z |});
      _ ← waitForStatus (inst_ID i) InstanceRunning;
      match inst_IPv4 i with
      | public :: private :: _ =>
          mret {| ni_Name := inst_Label i; ExternalID := pretty (inst_ID i);
                  PublicIP := public; PrivateIP := private |}
      | _ => panic "index out of range"
      end
  end.

Definition DeleteInstanceByProviderID (providerID : string) : GoM env () :=
  id ← lift (instanceIDFromProviderID providerID);
  call (λ t, DeleteInstance t id).

Definition instanceIfExists (machine : Machine) : GoM env Instance :=
  lds ← call ListInstances;
  match List.find (λ ld, bool_decide (inst_Label ld = machine_Name machine)) lds with
  | Some ld => mret ld
  | None => throw ("no vm found with " +:+ machine_Name machine +:+ " name")
  end.

Definition lbByName (name : string) : GoM env (option NodeBalancer) :=
  lbs ← call ListNodeBalancers;
  lift (find_balancer name lbs).

Definition createNodeBalancer (name : string) : GoM env Z :=
  cluster ← the_cluster;
  call (λ t, CreateNodeBalancer t name (Zone (Cloud (Config (Spec cluster)))) 20).

Definition createNodeBalancerConfig (nbID : Z) : GoM env Z :=
  call (λ t, CreateNodeBalancerConfig t nbID
    {| nbc_Port := DefaultKubernetesBindPort; nbc_Protocol := "tcp"; nbc_Algorithm := "leastconn";
       nbc_Stickiness := "table"; nbc_Check := "connection"; nbc_CheckInterval := 5; nbc_CheckTimeout := 3;
       nbc_CheckAttempts := 10; nbc_CheckPassive := Some true |}).

Definition buildLoadBalancerRequest (lbName : string) : GoM env NodeBalancer :=
  lb ← createNodeBalancer lbName;
  nb ← call (λ t, GetNodeBalancer t lb);
  match nb with
  | None => throw ("nodebalancer with id " +:+ pretty lb +:+ " not found")
  | Some nb => _ ← createNodeBalancerConfig lb; mret nb
  end.

(** An error other than [errLBNotFound] is dropped. *)
Definition createLoadBalancer (name : string) : GoM env (option NodeBalancer) :=
  found ← attempt (lbByName name);
  match found with
  | inl (Some lb) => mret (Some lb)
  | inl None => lb ← buildLoadBalancerRequest name; mret (Some lb)
  | inr _ => mret None
  end.

Definition errLBNotFound : error := "loadbalancer not found".

Definition addNodeToBalancer (lbName nodeName ip : string) : GoM env () :=
  lb ← lbByName lbName;
  match lb with
  | None => throw errLBNotFound
  | Some lb =>
      lbcs ← call (λ t, ListNodeBalancerConfigs t (nb_ID lb));
      match lbcs with
      | [] => panic "index out of range [0] with length 0"
      | lbc :: _ =>
          call (λ t, CreateNodeBalancerNode t (nb_ID lb) lbc
            {| nbn_Address := ip +:+ ":" +:+ pretty DefaultKubernetesBindPort; nbn_Label := nodeName;
               nbn_Weight := 100; nbn_Mode := "accept" |})
      end
  end.

Definition deleteLoadBalancer (lbName : string) : GoM env () :=
  lb ← lbByName lbName;
  match lb with
  | None => throw errLBNotFound
  | Some lb => call (λ t, DeleteNodeBalancer t (nb_ID lb))
  end.

(** ** create.go *)

(** Masters are told by the empty SKU; the role asked for is not looked at. *)
Definition GetDefaultMachineProviderSpec (sku : string) (role : MachineRole) : GoM env (option RawExtension) :=
  cluster ← the_cluster;
  let '(sku, roles) := if decide (sku = "") then ("g6-standard-2", [role_text MasterMachineRole])
                       else (sku, [role_text NodeMachineRole]) in
  let config := Config (Spec cluster) in
  pubkey ← store (ri_ssh_Get sp (cluster_Name cluster) (GenSSHKeyExternalID cluster));
  raw ← lift (json_MachineSpec
    {| li_TypeMeta := provider_TypeMeta; li_Roles := roles; li_Region := Region (Cloud config); li_Type := sku;
       li_Image := InstanceImage (Cloud config); li_Pubkey := pubkey.1 |});
  mret (Some raw).

Definition SetDefaultCluster : GoM env () :=
  cluster ← the_cluster;
  password ← draw_env (λ n, Ok (GeneratePassword n));
  let cloud := Cloud (Config (Spec cluster)) in
  let cluster := with_cluster_config cluster (λ config,
    with_SSHUserName (with_Cloud config
      (with_region_image cloud (Region cloud) "linode/ubuntu16.04lts"
        (Some {| linode_RootPassword := password; KernelID := "" |}))) "root") in
  _ ← set_Cluster cluster;
  a ← lift (SetLinodeClusterProviderConfig (ClusterAPI (Spec cluster)));
  set_Cluster (set_capi cluster a).

(** ** startupscript.go *)
Definition kubelet_args : list (string * string) :=
  [("cloud-provider", "external"); ("enable-controller-attach-detach", "false");
   ("keep-terminated-pod-volumes", "true")].

Definition li_hooks : TemplateHooks (S := S) (Crt := Crt) (Key := Key) (SSHKey := SSHKey) (X := X) (KC := KC) :=
  external_hooks (V := V) kubelet_args customTemplate.

(** ** apply.go *)
Definition EnsureMaster (leaderMachine : Machine) : GoM env () :=
  d ← attempt (instanceIfExists leaderMachine);
  match d with
  | inl _ => mret ()
  | inr _ =>
      cluster ← the_cluster;
      let nodeAddresses := balancer_addresses cluster in
      script ← RenderStartupScript (V := V) li_hooks leaderMachine "";
      _ ← createOrUpdateStackScript leaderMachine script;
      masterServer ← CreateInstance leaderMachine script;
      cluster ← the_cluster;
      _ ← addNodeToBalancer (LoadBalancerName cluster) (machine_Name leaderMachine) (PrivateIP masterServer);
      cluster ← lift (SetClusterAPIEndpoints cluster nodeAddresses);
      _ ← set_Cluster cluster;
      _ ← store (op_Update (st_Clusters sp) (Some cluster));
      mret ()
  end.

Definition PrepareCloud : GoM env () :=
  cluster ← the_cluster;
  found ← attempt (lbByName (LoadBalancerName cluster));
  lb ← match found with
       | inl (Some lb) => mret (Some lb)
       | _ => createLoadBalancer (LoadBalancerName cluster)
       end;
  ip ← lift (balancer_ip lb);
  cluster ← the_cluster;
  let cluster := with_LoadBalancer cluster {| lb_DNS := ""; lb_IP := ip; lb_Port := DefaultKubernetesBindPort |} in
  _ ← set_Cluster cluster;
  cluster ← lift (SetClusterAPIEndpoints cluster [{| addr_Type := NodeExternalIP; Address := ip |}]);
  set_Cluster cluster.

(** Nodes are deleted from the cluster, masters from the cloud; failures are only logged. *)
Definition ApplyDelete : GoM env () :=
  kc ← GetAdminClient (CC := CC) (BC := BC) sp;
  _ ← for_nodes kc RoleNodeKey (λ n,
        _ ← ignore_err (DeleteStackScript n.1 RoleNode);
        ignore_err (on_cloud (Nodes_Delete kc n.1)));
  _ ← for_nodes kc RoleMasterKey (λ n,
        _ ← ignore_err (DeleteStackScript n.1 RoleMaster);
        ignore_err (DeleteInstanceByProviderID n.2));
  cluster ← the_cluster;
  found ← attempt (lbByName (LoadBalancerName cluster));
  _ ← match found with
      | inl None => mret ()
      | _ => deleteLoadBalancer (LoadBalancerName cluster)
      end;
  _ ← set_Phase ClusterDeleted;
  UpdateStatus sp.

Definition GetMasterSKU (totalNodes : Z) : string := "g6-standard-2".

(** ** context.go *)
Definition CreateCredentials (kc : KC) : GoM env () :=
  cluster ← the_cluster;
  cred ← store (op_Get (st_Credentials sp) (CredentialName (Config (Spec cluster))));
  let data := cred_Data (cred_Spec cred) in
  _ ← on_cloud (CreateCredentialSecret kc (CloudProvider cluster) NamespaceSystem data);
  on_cloud (CreateSecret kc "ccm-linode" NamespaceSystem
              (<["region" := Region (Cloud (Config (Spec cluster)))]>
                {[ "apiToken" := default "" (data !! "token") ]})).

Definition ClusterManager : Interface := {|
  cm_SetDefaultCluster := SetDefaultCluster;
  cm_GetDefaultMachineProviderSpec := GetDefaultMachineProviderSpec;
  cm_SetCloudConnector := connect newconnector;
  cm_PrepareCloud := PrepareCloud;
  cm_EnsureMaster := EnsureMaster;
  cm_GetMasterSKU := GetMasterSKU;
  cm_ApplyScale := panic "implement me";
  cm_ApplyDelete := ApplyDelete;
  cm_GetAdminClient := GetAdminClient (CC := CC) (BC := BC) sp;
  cm_CreateCredentials := CreateCredentials;
  cm_GetClusterAPIComponents := mret ControllerManager
|}.

(** ** machine_actuator.go

    A machine that is written to is returned. *)
Definition validateMachine (providerConfig : LinodeMachineProviderSpec) : outcome () :=
  if decide (li_Image providerConfig = "") then Err "image slug must be provided"
  else if decide (li_Region providerConfig = "") then Err "region must be provided"
  else if decide (li_Type providerConfig = "") then Err "type must be provided"
  else Ok ().

Definition Exists (machine : Machine) : GoM env bool :=
  i ← attempt (instanceIfExists machine);
  mret (match i with inl _ => true | inr _ => false end).

Definition machine_updateMachineStatus (machine : Machine) : GoM env Machine :=
  vm ← instanceIfExists machine;
  status ← lift (MachineStatusFromProviderStatus (MachineProviderStatus (machine_Status machine)));
  raw ← lift (json_MachineStatus
          {| lms_Meta := lms_Meta status; InstanceID := inst_ID vm; InstanceStatus := inst_Status vm |});
  let machine := with_machine_ProviderStatus machine (Some raw) in
  _ ← on_cloud (Machine_Status_Update machine);
  mret machine.

Definition getKubeadmToken : GoM env string :=
  token ← on_cloud TokenCreate;
  mret (TrimSpace token).

Definition machine_Create (machine : Machine) : GoM env Machine :=
  machineConfig ← lift (MachineConfigFromProviderSpec (MachineProviderSpec (machine_Spec machine)));
  _ ← on_err (wrap ("failed to valide machine config for machien " +:+ machine_Name machine))
             (lift (validateMachine machineConfig));
  exists_ ← Exists machine;
  _ ← (if exists_ : bool then mret () else
         token ← getKubeadmToken;
         script ← RenderStartupScript (V := V) li_hooks machine token;
         server ← CreateInstance machine script;
         if IsControlPlaneMachine machine then
           cluster ← the_cluster;
           addNodeToBalancer (LoadBalancerName cluster) (machine_Name machine) (PrivateIP server)
         else mret ());
  machine_updateMachineStatus machine.

Definition machine_Delete (machine : Machine) : GoM env () :=
  instance ← attempt (instanceIfExists machine);
  match instance with
  | inr _ => mret ()
  | inl instance => ignore_err (DeleteInstanceByProviderID ("linode://" +:+ pretty (inst_ID instance)))
  end.

Definition machine_Update (goalMachine : Machine) : GoM env Machine :=
  goalConfig ← lift (MachineConfigFromProviderSpec (MachineProviderSpec (machine_Spec goalMachine)));
  _ ← lift (validateMachine goalConfig);
  exists_ ← Exists goalMachine;
  if exists_ : bool then machine_updateMachineStatus goalMachine else machine_Create goalMachine.

(** ** cluster_actuator.go *)
Definition updateClusterStatus (cluster : CapiCluster) (status : LinodeClusterProviderStatus) : GoM env CapiCluster :=
  raw ← lift (json_ClusterStatus status);
  let cluster := with_provider_status cluster raw in
  _ ← on_cloud (CapiCluster_Status_Update cluster);
  mret cluster.

Definition cluster_Reconcile (cluster : CapiCluster) : GoM env CapiCluster :=
  c ← the_cluster;
  found ← lbByName (LoadBalancerName c);
  lb_cluster ← match found with
    | Some lb => mret (Some lb, cluster)
    | None =>
        lb ← createLoadBalancer (LoadBalancerName c);
        ip ← lift (balancer_ip lb);
        mret (lb, with_endpoint cluster ip)
    end;
  match lb_cluster.1 with
  | None => nil_panic
  | Some lb =>
      status ← lift (ClusterStatusFromProviderStatus (ClusterProviderStatus (capi_Status lb_cluster.2)));
      updateClusterStatus lb_cluster.2 {| lcs_Meta := lcs_Meta status; APIServerLB := Some (DescribeLoadBalancer lb) |}
  end.
End provider.
End Linode.
