(* ===== verification/LinodeProofs.v ===== *)
(** * The Linode provider keeps to the interface, and its stack scripts are never deleted

    [linode_provider]: what the cloud package relies on.  [stack_scripts_left]: taking a
    cluster down looks for stack scripts under labels none of them has. *)
From stdpp Require Import base list gmap strings pretty fin_maps.
From Stdlib Require Import Ascii.
From S2P Require Import Prelude GoStrings Api StoreSpec Provider Certs Kube Cloud CloudProofs Apply.
From S2P Require Import StoreFrame Startup ProviderParts ProviderFrame Linode.
Import Linode.

(** ** The store *)
Section respects.
Context {S Crt Key SSHKey X KC CC BC V : Type}.
Context `{!Crypto Crt Key SSHKey, !CertText Crt Key, !Clock, !Polling, !Kubernetes X KC CC BC}.
Context `{!StartupLib Crt V, !Connector X, !Controllers X, !Nodes X KC, !LinodeJson, !LinodeAPI X SSHKey}.
Context (sp : ResourceInterface S Crt Key) (ControllerManager customTemplate : string).
Context (R : relation S) `{!PreOrder R} `{!StoreRespects R sp}.
Notation env := (env (S := S) (Crt := Crt) (Key := Key) (SSHKey := SSHKey) (X := X) (KC := KC)).
Notation on_e := (on_e (Crt := Crt) (Key := Key) (SSHKey := SSHKey) (X := X) (KC := KC) R).

Hint Resolve store_frame store_rand_frame NewRestConfig_frame on_cloud_frame draw_env_frame Now_frame set_Cluster_frame
  the_cluster_frame pres_PollImmediate pres_unless_err UpdateStatus_frame : pres.

Lemma linode_lbByName_frame n : pres on_e (lbByName (SSHKey := SSHKey) n : GoM env _).
Proof. unfold lbByName. provider_tac. Qed.
Lemma linode_instanceIfExists_frame m : pres on_e (instanceIfExists (SSHKey := SSHKey) m : GoM env _).
Proof. unfold instanceIfExists. provider_tac. Qed.
Lemma scripts_of_frame m : pres on_e (scripts_of (SSHKey := SSHKey) m : GoM env _).
Proof. unfold scripts_of. provider_tac. Qed.
Hint Resolve linode_lbByName_frame linode_instanceIfExists_frame scripts_of_frame : pres.
Lemma createOrUpdate_frame m s : pres on_e (createOrUpdateStackScript (SSHKey := SSHKey) m s : GoM env _).
Proof. unfold createOrUpdateStackScript. provider_tac. Qed.
Lemma linode_createLoadBalancer_frame n : pres on_e (createLoadBalancer (SSHKey := SSHKey) n : GoM env _).
Proof.
  unfold createLoadBalancer, buildLoadBalancerRequest, createNodeBalancer, createNodeBalancerConfig. provider_tac.
Qed.
Hint Resolve createOrUpdate_frame linode_createLoadBalancer_frame : pres.
Lemma linode_CreateInstance_frame m s : pres on_e (CreateInstance m s : GoM env _).
Proof. unfold CreateInstance, getStartupScriptID, waitForStatus, nil_panic. provider_tac. Qed.
Lemma addNodeToBalancer_frame lb n ip : pres on_e (addNodeToBalancer (SSHKey := SSHKey) lb n ip : GoM env _).
Proof. unfold addNodeToBalancer. provider_tac. Qed.
Hint Resolve linode_CreateInstance_frame addNodeToBalancer_frame : pres.

Lemma linode_respects :
  ProviderRespects R (Linode.ClusterManager (CC := CC) (BC := BC) (V := V) sp ControllerManager customTemplate).
Proof.
  split; cbn [Linode.ClusterManager cm_SetDefaultCluster cm_GetDefaultMachineProviderSpec
    cm_SetCloudConnector cm_PrepareCloud cm_EnsureMaster cm_ApplyScale cm_ApplyDelete cm_GetAdminClient
    cm_CreateCredentials cm_GetClusterAPIComponents].
  - unfold SetDefaultCluster. provider_tac.
  - intros sku role. unfold GetDefaultMachineProviderSpec. provider_tac.
  - unfold newconnector. provider_tac.
  - unfold PrepareCloud. provider_tac.
  - intros m. unfold EnsureMaster, li_hooks. provider_tac.
  - provider_tac.
  - unfold ApplyDelete, DeleteStackScript, DeleteInstanceByProviderID, deleteLoadBalancer, GetAdminClient,
      NewAdminClient, set_Phase. provider_tac.
  - unfold GetAdminClient, NewAdminClient. provider_tac.
  - intros kc. unfold CreateCredentials. provider_tac.
  - provider_tac.
Qed.
End respects.

(** ** What the cloud package relies on *)
Class LinodeJsonLaws `{!LinodeJson} : Prop := {
  json_MachineSpec_ok spec : ∃ raw, json_MachineSpec spec = Ok raw
}.

Section provider_laws.
Context {Crt Key SSHKey X KC CC BC V : Type}.
Context `{!Crypto Crt Key SSHKey, !CertText Crt Key, !Clock, !Polling, !Kubernetes X KC CC BC}.
Context `{!StartupLib Crt V, !Connector X, !Controllers X, !Nodes X KC, !LinodeJson, !LinodeAPI X SSHKey}.
Context `{!LinodeJsonLaws}.
Context (pC : Cluster → outcome Cluster) (pCr : Credential → outcome Credential).
Context (pMS : MachineSet → outcome MachineSet) (pM : Machine → outcome Machine).
Context (ControllerManager customTemplate : string).
Notation cenv := (env (S := pharmer Crt Key) (Crt := Crt) (Key := Key) (SSHKey := SSHKey) (X := X) (KC := KC)).

Let sp := spec_provider (Crt := Crt) (Key := Key) pC pCr pMS pM.

Lemma linode_set_default_cluster_ok (e : cenv) c :
  sc_Cluster (e_scope e) = Some c →
  ∃ c', keeps c c' ∧
    SetDefaultCluster e = (Ok (), Env (e_store e) (Datatypes.S (e_tick e)) (e_cloud e)
      {| sc_Cluster := Some c'; sc_Certs := sc_Certs (e_scope e);
         sc_CloudManager := sc_CloudManager (e_scope e); sc_AdminClient := sc_AdminClient (e_scope e) |}).
Proof.
  intros Hc. unfold SetDefaultCluster. erewrite bind_ok by (by apply the_cluster_at).
  erewrite bind_ok by reflexivity. cbv zeta. erewrite bind_ok by reflexivity. unfold SetLinodeClusterProviderConfig.
  match goal with |- context [json_MachineSpec ?s] => destruct (json_MachineSpec_ok s) as [raw ->] end.
  eexists. split; [|reflexivity]. by split.
Qed.

Lemma linode_machine_spec_ok sku role (e : cenv) c :
  sc_Cluster (e_scope e) = Some c → has_ssh c (e_store e) →
  ∃ spec, GetDefaultMachineProviderSpec sp sku role e = (Ok spec, e).
Proof.
  intros Hc Hk. unfold GetDefaultMachineProviderSpec. erewrite bind_ok by (by apply the_cluster_at).
  destruct (if decide _ then _ else _) as [sku' roles]. cbv zeta.
  destruct (ssh_key_read pC pCr pMS pM e c Hk) as (key & E). rewrite (bind_ok _ _ _ _ _ E).
  match goal with |- context [json_MachineSpec ?s] => destruct (json_MachineSpec_ok s) as [raw ->] end.
  by eexists.
Qed.

(** Linode's cluster manager is a provider as the cloud package wants one: it sets the
    defaults of a cluster without touching its name, masters, provider or phase; it
    describes a machine of any cluster that has its ssh key, and changes nothing to do
    so; and whatever the operations of a store keep to, all its methods do. *)
Theorem linode_provider :
  let cm {S} (sp : ResourceInterface S Crt Key) :=
    Linode.ClusterManager (X := X) (CC := CC) (BC := BC) (V := V) sp ControllerManager customTemplate in
  ProviderLaws has_ssh (cm sp) ∧
  (∀ S (R : relation S) (sp : ResourceInterface S Crt Key), PreOrder R → StoreRespects R sp → ProviderRespects R (cm sp)).
Proof.
  intros cm. split; [|intros; by apply linode_respects]. split.
  - intros e c Hc. destruct (linode_set_default_cluster_ok e c Hc) as (c' & Hk & E). by eexists c', _, (e_cloud e).
  - intros sku role e c Hc Hk. destruct (linode_machine_spec_ok sku role e c Hc Hk) as [spec E].
    exists spec, (e_tick e), (e_cloud e). change (cm_GetDefaultMachineProviderSpec (cm _ sp) sku role e) with
      (GetDefaultMachineProviderSpec sp sku role e). rewrite E. by destruct e.
Qed.
End provider_laws.

(** ** Stack scripts *)
Lemma append_same_tail (a b x y : string) :
  String.length x = String.length y → a +:+ x = b +:+ y → x = y.
Proof.
  intros Hl. revert b. induction a as [|c a IH]; intros [|d b] E; [done| | |].
  1,2: apply (f_equal String.length) in E; rewrite !append_length in E; cbn [String.length] in E; lia.
  injection E as -> E. by apply IH in E.
Qed.

(** A label of a machine's script, and one that is looked for to delete it. *)
Definition made_label (l : string) : Prop := ∃ c m role, l = StartupScriptName c m (role_text role).
Definition sought_label (l : string) : Prop :=
  ∃ c m role, (role = RoleMaster ∨ role = RoleNode) ∧ l = StartupScriptName c m role.

Lemma labels_differ l : made_label l → sought_label l → False.
Proof.
  assert (∀ a b x y, a +:+ "-" +:+ x = b +:+ "-" +:+ y → String.length x = String.length y → x = y) as Hsame.
  { intros a b x y E Hl. rewrite <-!append_assoc in E. by apply append_same_tail in E. }
  assert (∀ a b x y, a +:+ "-" +:+ (x +:+ "r") = b +:+ "-" +:+ (y +:+ "e") → False) as Hlast.
  { intros a b x y E. rewrite <-!append_assoc in E. by apply append_same_tail in E. }
  assert (∀ c m role, StartupScriptName c m role = (cluster_Name c +:+ "-" +:+ m) +:+ "-" +:+ role) as Hn.
  { intros. unfold StartupScriptName. by rewrite !append_assoc. }
  intros (c & m & role & ->) (c' & m' & role' & Hr & E). rewrite !Hn in E.
  destruct role, Hr as [-> | ->]; cbn [role_text] in E.
  - by apply Hsame in E.
  - exact (Hlast _ _ "Maste" "nod" E).
  - exact (Hlast _ _ "maste" "Nod" (eq_sym E)).
  - by apply Hsame in E.
Qed.

(** What the API promises of stack scripts: a listing answers with scripts of the label
    and changes none, a deletion removes the script of the ID and no other, and the
    calls that take a cluster down are not about scripts. *)
Class ScriptLaws {X KC SSHKey} `{!LinodeAPI X SSHKey, !Nodes X KC} (scripts : X → list Stackscript) : Prop := {
  sl_ids x s s' : s ∈ scripts x → s' ∈ scripts x → ss_ID s = ss_ID s' → s = s';
  sl_List t l x : scripts (ListStackscripts t l x).2 = scripts x;
  sl_List_ok t l x ss s : (ListStackscripts t l x).1 = Ok ss → s ∈ ss → s ∈ scripts x ∧ ss_Label s = l;
  sl_Delete t id x s : s ∈ scripts x → ss_ID s ≠ id → s ∈ scripts (DeleteStackscript t id x).2;
  sl_Delete_only t id x s : s ∈ scripts (DeleteStackscript t id x).2 → s ∈ scripts x;
  sl_DeleteInstance t id x : scripts (DeleteInstance t id x).2 = scripts x;
  sl_ListNodeBalancers t x : scripts (ListNodeBalancers t x).2 = scripts x;
  sl_DeleteNodeBalancer t id x : scripts (DeleteNodeBalancer t id x).2 = scripts x;
  sl_Nodes_List kc r x : scripts (Nodes_List kc r x).2 = scripts x;
  sl_Nodes_Delete kc n x : scripts (Nodes_Delete kc n x).2 = scripts x
}.

Section scripts.
Context {S Crt Key SSHKey X KC CC BC V : Type}.
Context `{!Crypto Crt Key SSHKey, !CertText Crt Key, !Clock, !Polling, !Kubernetes X KC CC BC}.
Context `{!StartupLib Crt V, !Connector X, !Controllers X, !Nodes X KC, !LinodeJson, !LinodeAPI X SSHKey}.
Context (scripts : X → list Stackscript) `{!ScriptLaws scripts}.
Context (sp : ResourceInterface S Crt Key).
Notation env := (env (S := S) (Crt := Crt) (Key := Key) (SSHKey := SSHKey) (X := X) (KC := KC)).

(** The scripts of machines stay, and no script is new. *)
Definition scripts_stay (x x' : X) : Prop :=
  (∀ s, s ∈ scripts x → made_label (ss_Label s) → s ∈ scripts x') ∧ (∀ s, s ∈ scripts x' → s ∈ scripts x).
Notation stay := (on_c (S := S) (Crt := Crt) (Key := Key) (SSHKey := SSHKey) (KC := KC) scripts_stay).

#[export] Instance scripts_stay_preorder : PreOrder scripts_stay.
Proof. split; [by split|]. intros a b c [Hab Hab'] [Hbc Hbc']. split; eauto. Qed.

Lemma kept_stay {A} (f : GoM X A) : (∀ x, scripts (f x).2 = scripts x) → pres scripts_stay f.
Proof. intros Hf x. unfold scripts_stay. rewrite Hf. by split. Qed.

Lemma DeleteInstance_stay t id : pres scripts_stay (DeleteInstance t id).
Proof. apply kept_stay, sl_DeleteInstance. Qed.
Lemma ListNodeBalancers_stay t : pres scripts_stay (ListNodeBalancers t).
Proof. apply kept_stay, sl_ListNodeBalancers. Qed.
Lemma DeleteNodeBalancer_stay t id : pres scripts_stay (DeleteNodeBalancer t id).
Proof. apply kept_stay, sl_DeleteNodeBalancer. Qed.
Lemma Nodes_List_stay kc r : pres scripts_stay (Nodes_List kc r).
Proof. apply kept_stay, sl_Nodes_List. Qed.
Lemma Nodes_Delete_stay kc n : pres scripts_stay (Nodes_Delete kc n).
Proof. apply kept_stay, sl_Nodes_Delete. Qed.
Hint Resolve DeleteInstance_stay ListNodeBalancers_stay DeleteNodeBalancer_stay Nodes_List_stay Nodes_Delete_stay : pres.

(** Scripts that were listed under a label that is sought are no machine's. *)
Definition not_made (s : Stackscript) (x : X) : Prop := ∀ s', s' ∈ scripts x → ss_ID s' = ss_ID s → ¬ made_label (ss_Label s').

Lemma delete_stay t s x : not_made s x → scripts_stay x (DeleteStackscript t (ss_ID s) x).2.
Proof.
  intros Hs. split; [|apply sl_Delete_only]. intros s' Hin Hmade. apply sl_Delete; [done|].
  intros Hid. by apply (Hs s').
Qed.

Lemma delete_each_stay ss (e : env) :
  Forall (λ s, not_made s (e_cloud e)) ss →
  stay e (for_each (λ s, call (λ t, DeleteStackscript t (ss_ID s))) ss e).2.
Proof.
  revert e. induction ss as [|s ss IH]; intros e Hss; [by split|]. apply Forall_cons in Hss as [Hs Hss].
  cbn [for_each]. unfold mbind at 1, gom_bind at 1.
  assert (stay e (call (λ t, DeleteStackscript t (ss_ID s)) e).2) as Hone.
  { unfold call, mbind, gom_bind, gets. cbn. destruct (conn_token _) as [t|]; [|by split].
    unfold on_cloud, zoom. pose proof (delete_stay t s (e_cloud e) Hs) as Hd. by destruct (DeleteStackscript _ _ _). }
  destruct (call _ e) as [[] e1]; try done. etransitivity; [exact Hone|]. apply IH.
  eapply Forall_impl; [exact Hss|]. intros s1 Hs1 s' Hin. apply Hs1. by apply (proj2 Hone).
Qed.

Lemma DeleteStackScript_stay m role : role = RoleMaster ∨ role = RoleNode → pres stay (DeleteStackScript m role : GoM env _).
Proof.
  intros Hr e. unfold DeleteStackScript, mbind at 1, gom_bind at 1, the_cluster.
  destruct (sc_Cluster (e_scope e)) as [c|]; [|by split]. cbn [fst snd].
  unfold mbind, gom_bind, call, mbind, gom_bind, gets. cbn [fst snd].
  destruct (conn_token (e_cloud e)) as [t|]; [|by split]. unfold on_cloud, zoom.
  set (l := StartupScriptName c m role).
  pose proof (sl_List t l (e_cloud e)) as Hk. pose proof (sl_List_ok t l (e_cloud e)) as Hl.
  destruct (ListStackscripts t l (e_cloud e)) as [[ss|?|?] x1]; cbn [fst snd] in *.
  2,3: split; cbn; rewrite Hk; by auto.
  set (e1 := Env (e_store e) (e_tick e) x1 (e_scope e)).
  transitivity e1; [split; cbn; rewrite Hk; by auto|]. apply delete_each_stay. apply Forall_forall.
  intros s Hs s' Hin Hid Hmade. cbn in Hin. rewrite Hk in Hin. destruct (Hl ss s eq_refl Hs) as [Hin' Hlab].
  pose proof (sl_ids _ _ _ Hin Hin' Hid) as ->. apply (labels_differ _ Hmade). rewrite Hlab. by exists c, m, role.
Qed.

(** Taking a cluster down deletes no stack script of a machine, of this cluster or of
    another: their labels end in Master or Node, and it looks for master and node. *)
Theorem stack_scripts_left (e : env) s :
  s ∈ scripts (e_cloud e) → made_label (ss_Label s) →
  s ∈ scripts (e_cloud (ApplyDelete (CC := CC) (BC := BC) sp e).2).
Proof.
  intros Hs Hm. assert (pres stay (ApplyDelete (CC := CC) (BC := BC) sp : GoM env ())) as Hp.
  { unfold ApplyDelete, DeleteInstanceByProviderID, deleteLoadBalancer, lbByName, set_Phase.
    repeat first [apply DeleteStackScript_stay; tauto | cloud_step]. }
  by apply (proj1 (Hp e)).
Qed.
End scripts.
