(* ===== verification/Packet.v ===== *)
(** * The Packet provider (cloud/providers/packet, apis/v1alpha1/packet)

    The cluster manager of Packet as a record [Interface] of Cloud.v, and the actuators
    its controller runs, over the class [PacketAPI] of calls on the state of the cloud. *)
From stdpp Require Import base list gmap strings pretty fin_maps.
From S2P Require Import Prelude GoStrings Api StoreSpec Provider Certs Kube Cloud Apply Startup ProviderParts.

Module Packet.

Definition UID : string := "packet".

(** ** github.com/packethost/packngo, the fields that are used *)
Record IPAddress := { AddressFamily : Z; Public : bool; ip_Address : string }.
Record Device := { dev_ID : string; Hostname : string; dev_State : string; Network : list IPAddress }.
Record DeviceCreateRequest := {
  dcr_Hostname : string; dcr_Plan : string; dcr_Facility : list string; dcr_OS : string;
  dcr_BillingCycle : string; dcr_ProjectID : string; dcr_UserData : string; dcr_Tags : list string;
  dcr_SpotInstance : bool
}.
(** An ssh key of a project: its ID and label. *)
Record PacketKey := { pk_ID : string; pk_Label : string }.

(** ** apis/v1alpha1 *)
Record PacketCloudConfig := { pcc_Project : string; pcc_APIKey : string; pcc_Zone : string }.
Definition NodeTypeSpot : string := "spot".

Record PacketMachineProviderSpec := { pa_TypeMeta : TypeMeta; Plan : string; SpotInstance : string }.
Record PacketMachineProviderStatus := { pms_Meta : TypeMeta * ObjectMeta; InstanceID : string }.
Record PacketClusterProviderStatus := { pcs_TypeMeta : TypeMeta }.
Definition PacketProviderGroupName : string := "Packetproviderconfig".
Definition PacketProviderKind : string := "PacketClusterProviderConfig".
Definition PacketProviderAPIVersion : string := "v1alpha1".

Class PacketJson := {
  json_MachineSpec : PacketMachineProviderSpec → outcome RawExtension;
  unjson_MachineSpec : RawExtension → outcome PacketMachineProviderSpec;
  unyaml_MachineSpec : RawExtension → outcome PacketMachineProviderSpec;
  json_MachineStatus : PacketMachineProviderStatus → outcome RawExtension;
  unjson_MachineStatus : RawExtension → outcome PacketMachineProviderStatus;
  json_ClusterStatus : PacketClusterProviderStatus → outcome RawExtension;
  json_CloudConfig : PacketCloudConfig → outcome string
}.

(** ** util.go *)
Section json.
Context `{!PacketJson}.

Definition provider_TypeMeta : TypeMeta :=
  {| APIVersion := PacketProviderGroupName +:+ "/" +:+ PacketProviderAPIVersion; Kind := PacketProviderKind |}.

Definition MachineConfigFromProviderSpec (providerConfig : option RawExtension) : outcome PacketMachineProviderSpec :=
  match providerConfig with
  | None => Ok {| pa_TypeMeta := zero_TypeMeta; Plan := ""; SpotInstance := "" |}
  | Some raw => unjson_MachineSpec raw
  end.

Definition MachineStatusFromProviderStatus (extension : option RawExtension) : outcome PacketMachineProviderStatus :=
  match extension with
  | None => Ok {| pms_Meta := (zero_TypeMeta, named ""); InstanceID := "" |}
  | Some raw => unjson_MachineStatus raw
  end.

(** The configuration of the cluster is that of a machine with its type alone. *)
Definition SetPacketClusterProviderConfig (cluster : CapiCluster) : outcome CapiCluster :=
  bytes ← json_MachineSpec {| pa_TypeMeta := provider_TypeMeta; Plan := ""; SpotInstance := "" |};
  Ok (with_provider_spec cluster bytes).

Definition SetPacketClusterProviderStatus (cluster : CapiCluster) : outcome CapiCluster :=
  bytes ← json_ClusterStatus {| pcs_TypeMeta := provider_TypeMeta |};
  Ok (with_provider_status cluster bytes).

(** machine_actuator.go: no configuration is a nil dereference here. *)
Definition machineProviderFromProviderSpec (providerSpec : option RawExtension) : outcome PacketMachineProviderSpec :=
  match providerSpec with
  | None => Panic "invalid memory address or nil pointer dereference"
  | Some raw => unyaml_MachineSpec raw
  end.
End json.

Class PacketAPI (X SSHKey : Type) := {
  credential_Packet : CredentialSpec → outcome (string * string);   (* typed.IsValid(): the project, the key *)
  SSHKey_PublicKey : SSHKey → string;
  Devices_List : string → string → GoM X (list Device);             (* of a project *)
  Devices_Get : string → string → GoM X Device;
  Devices_Create : string → DeviceCreateRequest → GoM X Device;
  Devices_Delete : string → string → GoM X ();
  SSHKeys_Get : string → string → GoM X (reply string);
  SSHKeys_ProjectList : string → string → GoM X (list PacketKey);
  SSHKeys_Create : string → string → string → string → GoM X string (* key, label, project *)
}.

Definition serverIDFromProviderID (providerID : string) : outcome string := id_of_provider UID providerID.

(** The last IPv4 addresses of a device, public and private. *)
Fixpoint node_addresses (node : NodeInfo) (l : list IPAddress) : NodeInfo :=
  match l with
  | [] => node
  | addr :: l =>
      node_addresses
        (if decide (AddressFamily addr = 4%Z) then
           if Public addr
           then {| ni_Name := ni_Name node; ExternalID := ExternalID node; PublicIP := ip_Address addr; PrivateIP := PrivateIP node |}
           else {| ni_Name := ni_Name node; ExternalID := ExternalID node; PublicIP := PublicIP node; PrivateIP := ip_Address addr |}
         else node) l
  end.

Section provider.
Context {S Crt Key SSHKey X KC CC BC V : Type}.
Context `{!Crypto Crt Key SSHKey, !CertText Crt Key, !Clock, !Polling, !Kubernetes X KC CC BC}.
Context `{!StartupLib Crt V, !PacketJson, !PacketAPI X SSHKey}.
Context `{!Connector X, !Controllers X, !Nodes X KC}.
Context (sp : ResourceInterface S Crt Key).
Notation env := (env (S := S) (Crt := Crt) (Key := Key) (SSHKey := SSHKey) (X := X) (KC := KC)).
Notation Interface := (Interface (S := S) (Crt := Crt) (Key := Key) (SSHKey := SSHKey) (X := X)
                                 (KC := KC)).
Context (ControllerManager customTemplate : string).

(** ** cloud.go *)
Definition newconnector : GoM env string :=
  cluster ← the_cluster;
  let name := CredentialName (Config (Spec cluster)) in
  cred ← store (op_Get (st_Credentials sp) name);
  typed ← on_err (wrap ("credential " +:+ name +:+ " is invalid")) (lift (credential_Packet (cred_Spec cred)));
  _ ← set_Cluster (with_cluster_config cluster (λ c, with_Cloud c (with_Project (Cloud c) typed.1)));
  mret typed.2.

Definition waitForInstance (deviceID status : string) : GoM env () :=
  PollImmediate retries (unless_err (call (λ t, Devices_Get t deviceID))
    (λ server, mret (bool_decide (ToLower (dev_State server) = status)))).

Definition the_cloud : GoM env CloudSpec :=
  cluster ← the_cluster;
  mret (Cloud (Config (Spec cluster))).

(** The ID of the cluster's ssh key, by the ID in its status or by its label. *)
Definition getPublicKey : GoM env (option string) :=
  cluster ← the_cluster;
  let id := SSHKeyExternalID (status_Cloud (Status cluster)) in
  if decide (id ≠ "") then unless_NotFound (call (λ t, SSHKeys_Get t id))
  else
    cloud ← the_cloud;
    keys ← call (λ t, SSHKeys_ProjectList t (Project cloud));
    mret (pk_ID <$> List.find (λ k, bool_decide (pk_Label k = SSHKeyName cloud)) keys).

(** When the key cannot be created and is not found either, the ID is empty and the
    error nil: the inner [err] hides that of the creation. *)
Definition importPublicKey : GoM env string :=
  key ← conn_SSHKey;
  cloud ← the_cloud;
  created ← attempt (call (λ t, SSHKeys_Create t (SSHKey_PublicKey key) (SSHKeyName cloud) (Project cloud)));
  match created with
  | inl id => mret id
  | inr _ => found ← getPublicKey; mret (default "" found)
  end.

Definition CreateInstance (machine : Machine) (script : string) : GoM env NodeInfo :=
  machineConfig ← lift (machineProviderFromProviderSpec (MachineProviderSpec (machine_Spec machine)));
  cluster ← the_cluster;
  let cloud := Cloud (Config (Spec cluster)) in
  server ← call (λ t, Devices_Create t
    {| dcr_Hostname := machine_Name machine; dcr_Plan := Plan machineConfig; dcr_Facility := [Zone cloud];
       dcr_OS := InstanceImage cloud; dcr_BillingCycle := "hourly"; dcr_ProjectID := Project cloud;
       dcr_UserData := script; dcr_Tags := [cluster_Name cluster];
       dcr_SpotInstance := bool_decide (SpotInstance machineConfig = NodeTypeSpot) |});
  _ ← waitForInstance (dev_ID server) "active";
  host ← call (λ t, Devices_Get t (dev_ID server));
  mret (node_addresses {| ni_Name := Hostname host; ExternalID := dev_ID host; PublicIP := ""; PrivateIP := "" |}
                       (Network host)).

Definition DeleteInstanceByProviderID (providerID : string) : GoM env () :=
  serverID ← lift (serverIDFromProviderID providerID);
  call (λ t, Devices_Delete t serverID).

Definition instanceIfExists (machine : Machine) : GoM env Device :=
  cloud ← the_cloud;
  devices ← call (λ t, Devices_List t (Project cloud));
  match List.find (λ d, bool_decide (Hostname d = machine_Name machine)) devices with
  | Some d => mret d
  | None => throw ("no server found with " +:+ machine_Name machine +:+ " name")
  end.

(** ** create.go *)
Definition GetDefaultMachineProviderSpec (sku : string) (role : MachineRole) : GoM env (option RawExtension) :=
  let sku := if decide (sku = "") then "baremetal_0" else sku in
  raw ← lift (json_MachineSpec {| pa_TypeMeta := provider_TypeMeta; Plan := sku; SpotInstance := "Regular" |});
  mret (Some raw).

Definition SetDefaultCluster : GoM env () :=
  cluster ← the_cluster;
  let cluster := with_cluster_config cluster (λ config,
    with_SSHUserName (with_Cloud config (with_image (Cloud config) "ubuntu_16_04")) "root") in
  _ ← set_Cluster cluster;
  a ← lift (SetPacketClusterProviderConfig (ClusterAPI (Spec cluster)));
  set_Cluster (set_capi cluster a).

(** ** startupscript.go *)
Definition kubelet_args : list (string * string) :=
  [("cloud-provider", "external"); ("enable-controller-attach-detach", "false");
   ("keep-terminated-pod-volumes", "true")].

Definition pa_hooks : TemplateHooks (S := S) (Crt := Crt) (Key := Key) (SSHKey := SSHKey) (X := X) (KC := KC) :=
  external_hooks (V := V) kubelet_args customTemplate.

(** ** apply.go *)
Definition server_addresses (server : NodeInfo) : list NodeAddress :=
  (if decide (PrivateIP server ≠ "") then [{| addr_Type := NodeInternalIP; Address := PrivateIP server |}] else []) ++
  (if decide (PublicIP server ≠ "") then [{| addr_Type := NodeExternalIP; Address := PublicIP server |}] else []).

Definition EnsureMaster (masterMachine : Machine) : GoM env () :=
  d ← attempt (instanceIfExists masterMachine);
  match d with
  | inl _ => mret ()
  | inr _ =>
      script ← RenderStartupScript (V := V) pa_hooks masterMachine "";
      masterServer ← CreateInstance masterMachine script;
      cluster ← the_cluster;
      cluster ← lift (SetClusterAPIEndpoints cluster (server_addresses masterServer));
      _ ← set_Cluster cluster;
      _ ← store (op_Update (st_Clusters sp) (Some cluster));
      mret ()
  end.

(** The ID is assigned before the error is looked at. *)
Definition PrepareCloud : GoM env () :=
  found ← getPublicKey;
  match found with
  | Some _ => mret ()
  | None =>
      id ← attempt importPublicKey;
      cluster ← the_cluster;
      _ ← set_Cluster (with_SSHKeyExternalID cluster (match id with inl id => id | inr _ => "" end));
      match id with inl _ => mret () | inr e => throw e end
  end.

Definition GetMasterSKU (totalNodes : Z) : string := "baremetal_0".

(** Failures to delete a master are only logged. *)
Definition ApplyDelete : GoM env () :=
  kc ← GetAdminClient (CC := CC) (BC := BC) sp;
  _ ← for_nodes kc RoleMasterKey (λ n, ignore_err (DeleteInstanceByProviderID n.2));
  _ ← set_Phase ClusterDeleted;
  UpdateStatus sp.

(** ** context.go *)
Definition CreateCredentials (kc : KC) : GoM env () :=
  cluster ← the_cluster;
  cred ← store (op_Get (st_Credentials sp) (CredentialName (Config (Spec cluster))));
  _ ← on_cloud (CreateCredentialSecret kc (CloudProvider cluster) NamespaceSystem (cred_Data (cred_Spec cred)));
  typed ← on_err (λ _, "credential not valid") (lift (credential_Packet (cred_Spec cred)));
  data ← lift (json_CloudConfig {| pcc_Project := typed.1; pcc_APIKey := typed.2;
                                   pcc_Zone := Zone (Cloud (Config (Spec cluster))) |});
  on_err (wrap "failed to create cloud-config")
    (on_cloud (CreateSecret kc "cloud-config" NamespaceSystem {[ "cloud-config" := data ]})).

Definition ClusterManager : Interface := {|
  cm_SetDefaultCluster := SetDefaultCluster;
  cm_GetDefaultMachineProviderSpec := GetDefaultMachineProviderSpec;
  cm_SetCloudConnector := connect newconnector;
  cm_PrepareCloud := PrepareCloud;
  cm_EnsureMaster := EnsureMaster;
  cm_GetMasterSKU := GetMasterSKU;
  cm_ApplyScale := panic "implement me";
  cm_ApplyDelete := ApplyDelete;
  cm_GetAdminClient := GetAdminClient (CC := CC) (BC := BC) sp;
  cm_CreateCredentials := CreateCredentials;
  cm_GetClusterAPIComponents := mret ControllerManager
|}.

(** ** machine_actuator.go

    A machine that is written to is returned. *)
Definition validateMachine (providerConfig : PacketMachineProviderSpec) : outcome () :=
  if decide (Plan providerConfig = "") then Err "plan must be provided" else Ok ().

Definition Exists (machine : Machine) : GoM env bool :=
  i ← attempt (instanceIfExists machine);
  mret (match i with inl _ => true | inr _ => false end).

Definition machine_updateMachineStatus (machine : Machine) : GoM env Machine :=
  vm ← instanceIfExists machine;
  status ← lift (MachineStatusFromProviderStatus (MachineProviderStatus (machine_Status machine)));
  raw ← lift (json_MachineStatus {| pms_Meta := pms_Meta status; InstanceID := dev_ID vm |});
  let machine := with_machine_ProviderStatus machine (Some raw) in
  _ ← on_cloud (Machine_Status_Update machine);
  mret machine.

Definition getKubeadmToken : GoM env string :=
  token ← on_cloud TokenCreate;
  mret (TrimSpace token).

Definition machine_Create (machine : Machine) : GoM env Machine :=
  machineConfig ← lift (MachineConfigFromProviderSpec (MachineProviderSpec (machine_Spec machine)));
  _ ← lift (validateMachine machineConfig);
  exists_ ← Exists machine;
  _ ← (if exists_ : bool then mret () else
         token ← getKubeadmToken;
         script ← RenderStartupScript (V := V) pa_hooks machine token;
         _ ← CreateInstance machine script;
         mret ());
  on_err (wrap "failed to update machine status") (machine_updateMachineStatus machine).

Definition machine_Delete (machine : Machine) : GoM env () :=
  instance ← attempt (instanceIfExists machine);
  match instance with
  | inr _ => mret ()
  | inl instance => ignore_err (DeleteInstanceByProviderID ("packet://" +:+ dev_ID instance))
  end.

Definition machine_Update (machine : Machine) : GoM env Machine :=
  goalConfig ← lift (machineProviderFromProviderSpec (MachineProviderSpec (machine_Spec machine)));
  _ ← lift (validateMachine goalConfig);
  exists_ ← Exists machine;
  if exists_ : bool then machine_updateMachineStatus machine else machine_Create machine.

(** ** cluster_actuator.go *)
Definition cluster_Reconcile (cluster : CapiCluster) : GoM env CapiCluster :=
  cluster ← lift (SetPacketClusterProviderStatus cluster);
  _ ← on_cloud (CapiCluster_Status_Update cluster);
  mret cluster.
End provider.
End Packet.
