(* ===== verification/PacketProofs.v ===== *)
(** * The Packet provider keeps to the interface, and loses an error

    [packet_provider]: what the cloud package relies on.  [packet_key_error_lost]: a
    cluster whose ssh key cannot be made is prepared all the same. *)
From stdpp Require Import base list gmap strings pretty fin_maps.
From S2P Require Import Prelude GoStrings Api StoreSpec Provider Certs Kube Cloud CloudProofs Apply.
From S2P Require Import StoreFrame Startup ProviderParts ProviderFrame Packet.
Import Packet.

(** ** The store *)
Section respects.
Context {S Crt Key SSHKey X KC CC BC V : Type}.
Context `{!Crypto Crt Key SSHKey, !CertText Crt Key, !Clock, !Polling, !Kubernetes X KC CC BC}.
Context `{!StartupLib Crt V, !Connector X, !Controllers X, !Nodes X KC, !PacketJson, !PacketAPI X SSHKey}.
Context (sp : ResourceInterface S Crt Key) (ControllerManager customTemplate : string).
Context (R : relation S) `{!PreOrder R} `{!StoreRespects R sp}.
Notation env := (env (S := S) (Crt := Crt) (Key := Key) (SSHKey := SSHKey) (X := X) (KC := KC)).
Notation on_e := (on_e (Crt := Crt) (Key := Key) (SSHKey := SSHKey) (X := X) (KC := KC) R).

Hint Resolve store_frame store_rand_frame NewRestConfig_frame on_cloud_frame draw_env_frame Now_frame set_Cluster_frame
  the_cluster_frame pres_PollImmediate pres_unless_err UpdateStatus_frame : pres.

Lemma packet_instanceIfExists_frame m : pres on_e (instanceIfExists (SSHKey := SSHKey) m : GoM env _).
Proof. unfold instanceIfExists, the_cloud. provider_tac. Qed.
Lemma packet_getPublicKey_frame : pres on_e (getPublicKey : GoM env _).
Proof. unfold getPublicKey, the_cloud. provider_tac. Qed.
Hint Resolve packet_instanceIfExists_frame packet_getPublicKey_frame : pres.

Lemma packet_respects :
  ProviderRespects R (Packet.ClusterManager (CC := CC) (BC := BC) (V := V) sp ControllerManager customTemplate).
Proof.
  split; cbn [Packet.ClusterManager cm_SetDefaultCluster cm_GetDefaultMachineProviderSpec
    cm_SetCloudConnector cm_PrepareCloud cm_EnsureMaster cm_ApplyScale cm_ApplyDelete cm_GetAdminClient
    cm_CreateCredentials cm_GetClusterAPIComponents].
  - unfold SetDefaultCluster. provider_tac.
  - intros sku role. unfold GetDefaultMachineProviderSpec. provider_tac.
  - unfold newconnector. provider_tac.
  - unfold PrepareCloud, importPublicKey, the_cloud. provider_tac.
  - intros m. unfold EnsureMaster, pa_hooks, CreateInstance, waitForInstance. provider_tac.
  - provider_tac.
  - unfold ApplyDelete, DeleteInstanceByProviderID, GetAdminClient, NewAdminClient, set_Phase. provider_tac.
  - unfold GetAdminClient, NewAdminClient. provider_tac.
  - intros kc. unfold CreateCredentials. provider_tac.
  - provider_tac.
Qed.
End respects.

(** ** What the cloud package relies on *)
Class PacketJsonLaws `{!PacketJson} : Prop := {
  json_MachineSpec_ok spec : ∃ raw, json_MachineSpec spec = Ok raw
}.

Section provider_laws.
Context {Crt Key SSHKey X KC CC BC V : Type}.
Context `{!Crypto Crt Key SSHKey, !CertText Crt Key, !Clock, !Polling, !Kubernetes X KC CC BC}.
Context `{!StartupLib Crt V, !Connector X, !Controllers X, !Nodes X KC, !PacketJson, !PacketAPI X SSHKey}.
Context `{!PacketJsonLaws}.
Context (ControllerManager customTemplate : string).

Lemma packet_set_default_cluster_ok {S} (e : env (S := S) (Crt := Crt) (Key := Key) (SSHKey := SSHKey) (X := X) (KC := KC)) c :
  sc_Cluster (e_scope e) = Some c →
  ∃ c', keeps c c' ∧
    SetDefaultCluster e = (Ok (), Env (e_store e) (e_tick e) (e_cloud e)
      {| sc_Cluster := Some c'; sc_Certs := sc_Certs (e_scope e);
         sc_CloudManager := sc_CloudManager (e_scope e); sc_AdminClient := sc_AdminClient (e_scope e) |}).
Proof.
  intros Hc. unfold SetDefaultCluster. erewrite bind_ok by (by apply the_cluster_at).
  cbv zeta. erewrite bind_ok by reflexivity. unfold SetPacketClusterProviderConfig.
  match goal with |- context [json_MachineSpec ?s] => destruct (json_MachineSpec_ok s) as [raw ->] end.
  eexists. split; [|reflexivity]. by split.
Qed.

(** Packet's cluster manager is a provider as the cloud package wants one, over any
    store: it sets the defaults of a cluster without touching its name, masters,
    provider or phase; it describes machines of any cluster, with or without its ssh
    key, and changes nothing to do so; and whatever the operations of a store keep to,
    all its methods do. *)
Theorem packet_provider :
  let cm {S} (sp : ResourceInterface S Crt Key) :=
    Packet.ClusterManager (X := X) (CC := CC) (BC := BC) (V := V) sp ControllerManager customTemplate in
  ∀ S (sp : ResourceInterface S Crt Key),
    ProviderLaws (λ _ _, True) (cm sp) ∧
    (∀ R : relation S, PreOrder R → StoreRespects R sp → ProviderRespects R (cm sp)).
Proof.
  intros cm S sp. split; [|intros; by apply packet_respects]. split.
  - intros e c Hc. destruct (packet_set_default_cluster_ok e c Hc) as (c' & Hk & E). by eexists c', _, (e_cloud e).
  - intros sku role e c Hc _. change (cm_GetDefaultMachineProviderSpec (cm S sp) sku role e) with
      (GetDefaultMachineProviderSpec (SSHKey := SSHKey) sku role e). unfold GetDefaultMachineProviderSpec.
    match goal with |- context [json_MachineSpec ?s] => destruct (json_MachineSpec_ok s) as [raw ->] end.
    exists (Some raw), (e_tick e), (e_cloud e). by destruct e.
Qed.
End provider_laws.

(** ** The ssh key *)
Section key.
Context {S Crt Key SSHKey X KC CC BC V : Type}.
Context `{!PacketAPI X SSHKey, !Connector X}.
Notation env := (env (S := S) (Crt := Crt) (Key := Key) (SSHKey := SSHKey) (X := X) (KC := KC)).

(** A key of the label is found, or none is. *)
Definition labelled (name : string) (k : PacketKey) : bool := bool_decide (pk_Label k = name).

Lemma getPublicKey_listed (e : env) c t keys x1 :
  sc_Cluster (e_scope e) = Some c → SSHKeyExternalID (status_Cloud (Status c)) = "" →
  conn_token (e_cloud e) = Some t →
  SSHKeys_ProjectList t (Project (Cloud (Config (Spec c)))) (e_cloud e) = (Ok keys, x1) →
  getPublicKey e = (Ok (pk_ID <$> List.find (labelled (SSHKeyName (Cloud (Config (Spec c))))) keys),
                    Env (e_store e) (e_tick e) x1 (e_scope e)).
Proof.
  intros Hc Hid Ht Hl. unfold getPublicKey. erewrite bind_ok by (by apply the_cluster_at).
  rewrite Hid. rewrite decide_False by tauto.
  unfold the_cloud, call, mbind, gom_bind, the_cluster, gets. rewrite Hc. cbn. rewrite Ht.
  unfold on_cloud, zoom. by rewrite Hl.
Qed.

(** When the ssh key of a new cluster can neither be created nor found, preparing the
    cloud succeeds: the error is lost, and the cluster has no key ID. *)
Theorem packet_key_error_lost (e : env) c certs t keys x1 err x2 keys' x3 :
  let cloud := Cloud (Config (Spec c)) in
  sc_Cluster (e_scope e) = Some c → sc_Certs (e_scope e) = Some certs →
  SSHKeyExternalID (status_Cloud (Status c)) = "" →
  conn_token (e_cloud e) = Some t → conn_token x1 = Some t → conn_token x2 = Some t →
  SSHKeys_ProjectList t (Project cloud) (e_cloud e) = (Ok keys, x1) →
  SSHKeys_Create t (SSHKey_PublicKey (SSHKey_ certs)) (SSHKeyName cloud) (Project cloud) x1 = (Err err, x2) →
  SSHKeys_ProjectList t (Project cloud) x2 = (Ok keys', x3) →
  List.find (labelled (SSHKeyName cloud)) keys = None → List.find (labelled (SSHKeyName cloud)) keys' = None →
  ∃ e', PrepareCloud e = (Ok (), e') ∧ e_cloud e' = x3 ∧
    sc_Cluster (e_scope e') = Some (with_SSHKeyExternalID c "").
Proof.
  intros cloud Hc Hcerts Hid Ht Ht1 Ht2 Hl Hcr Hl2 Hf Hf2. unfold PrepareCloud.
  rewrite (bind_ok _ _ _ _ _ (getPublicKey_listed e c t keys x1 Hc Hid Ht Hl)). fold cloud. rewrite Hf. cbn [fmap option_fmap option_map].
  set (e1 := Env (e_store e) (e_tick e) x1 (e_scope e)).
  set (e2 := Env (e_store e) (e_tick e) x2 (e_scope e)).
  pose proof (getPublicKey_listed e2 c t keys' x3 Hc Hid Ht2 Hl2) as E2. fold cloud in E2. rewrite Hf2 in E2.
  assert (importPublicKey e1 = (Ok "", Env (e_store e) (e_tick e) x3 (e_scope e))) as Ei.
  { unfold importPublicKey. erewrite bind_ok by (unfold conn_SSHKey, mbind, gom_bind, gets; cbn; by rewrite Hcerts).
    erewrite bind_ok by (unfold the_cloud; erewrite bind_ok by (by apply the_cluster_at); reflexivity). fold cloud.
    erewrite bind_ok.
    2:{ apply attempt_err. unfold call, mbind, gom_bind, gets. cbn. rewrite Ht1. unfold on_cloud, zoom.
        cbn. by rewrite Hcr. }
    cbn [e_store e_tick e_scope]. fold e2. by rewrite (bind_ok _ _ _ _ _ E2). }
  rewrite (bind_ok _ _ _ _ _ (attempt_ok _ _ _ _ Ei)).
  erewrite bind_ok by (by apply the_cluster_at). erewrite bind_ok by reflexivity. by eexists.
Qed.
End key.
