(* ===== verification/ProviderCodecs.v ===== *)
(** * The encodings of provider objects (apis/v1alpha1/{digitalocean,linode,packet}/util.go)

    The functions of the three files that DigitalOcean.v, Linode.v and Packet.v do not
    use: an object is marshalled into a raw extension, nil into an empty one.  JSON of
    the objects is the class of each provider, and of the specification of a cluster
    [ClusterSpecJson]. *)
From stdpp Require Import base list gmap strings.
From S2P Require Import Prelude GoStrings Api StoreSpec ProviderParts DigitalOcean Linode Packet.

(** The specification of a cluster: the type and the metadata of an object, in all three *)
Record ClusterProviderSpec := { cps_TypeMeta : TypeMeta; cps_ObjectMeta : ObjectMeta }.
Definition zero_ClusterProviderSpec : ClusterProviderSpec := {| cps_TypeMeta := zero_TypeMeta; cps_ObjectMeta := named "" |}.

Class ClusterSpecJson := {
  json_Spec : ClusterProviderSpec → outcome RawExtension;
  unjson_Spec : RawExtension → outcome ClusterProviderSpec
}.

(** What is written reads back, and no text is no object. *)
Class Reads {A} (json : A → outcome RawExtension) (unjson : RawExtension → outcome A) : Prop := {
  reads_back a raw : json a = Ok raw → unjson raw = Ok a;
  reads_nothing : ∃ e, unjson "" = Err e
}.

(** An object reads back, and an extension that is nil is the zero value; an object that is
    nil is encoded to what cannot be decoded, since that is there and empty. *)
Lemma encodings {A} (zero : A) json unjson `{!Reads json unjson} :
  (∀ a raw, encode json (Some a) = Ok raw → decode zero unjson (Some raw) = Ok a) ∧
  decode zero unjson None = Ok zero ∧
  (∃ e, (raw ← encode json (None : option A); decode zero unjson (Some raw)) = Err e).
Proof. split; [exact reads_back|]. split; [done|]. exact reads_nothing. Qed.

Module DigitalOceanUtil.
Section json.
Context `{!DigitalOcean.DigitalOceanJson, !ClusterSpecJson}.

Definition ClusterConfigFromProviderSpec : option RawExtension → outcome ClusterProviderSpec :=
  decode zero_ClusterProviderSpec unjson_Spec.
Definition EncodeMachineStatus : option DigitalOcean.DigitalOceanMachineProviderStatus → outcome RawExtension := encode DigitalOcean.json_MachineStatus.
Definition EncodeMachineSpec : option DigitalOcean.DigitalOceanMachineProviderSpec → outcome RawExtension := encode DigitalOcean.json_MachineSpec.
Definition EncodeClusterStatus : option DigitalOcean.DigitalOceanClusterProviderStatus → outcome RawExtension := encode DigitalOcean.json_ClusterStatus.
Definition EncodeClusterSpec : option ClusterProviderSpec → outcome RawExtension := encode json_Spec.

(** Machines and clusters read back. *)
Lemma digitalocean_reads `{!Reads DigitalOcean.json_MachineSpec DigitalOcean.unjson_MachineSpec, !Reads DigitalOcean.json_MachineStatus DigitalOcean.unjson_MachineStatus,
  !Reads json_Spec unjson_Spec} :
  (∀ s raw, EncodeMachineSpec (Some s) = Ok raw → DigitalOcean.MachineConfigFromProviderSpec (Some raw) = Ok s) ∧
  (∀ s raw, EncodeMachineStatus (Some s) = Ok raw → DigitalOcean.MachineStatusFromProviderStatus (Some raw) = Ok s) ∧
  (∀ s raw, EncodeClusterSpec (Some s) = Ok raw → ClusterConfigFromProviderSpec (Some raw) = Ok s) ∧
  ∃ e, (raw ← EncodeMachineSpec None; DigitalOcean.MachineConfigFromProviderSpec (Some raw)) = Err e.
Proof. split_and!; [exact reads_back..|exact reads_nothing]. Qed.
End json.
End DigitalOceanUtil.

Module LinodeUtil.
Section json.
Context `{!Linode.LinodeJson, !ClusterSpecJson}.

Definition ClusterConfigFromProviderSpec : option RawExtension → outcome ClusterProviderSpec :=
  decode zero_ClusterProviderSpec unjson_Spec.
Definition EncodeMachineStatus : option Linode.LinodeMachineProviderStatus → outcome RawExtension := encode Linode.json_MachineStatus.
Definition EncodeMachineSpec : option Linode.LinodeMachineProviderSpec → outcome RawExtension := encode Linode.json_MachineSpec.
Definition EncodeClusterStatus : option Linode.LinodeClusterProviderStatus → outcome RawExtension := encode Linode.json_ClusterStatus.
Definition EncodeClusterSpec : option ClusterProviderSpec → outcome RawExtension := encode json_Spec.

(** Machines and clusters read back. *)
Lemma linode_reads `{!Reads Linode.json_MachineSpec Linode.unjson_MachineSpec, !Reads Linode.json_MachineStatus Linode.unjson_MachineStatus,
  !Reads json_Spec unjson_Spec} :
  (∀ s raw, EncodeMachineSpec (Some s) = Ok raw → Linode.MachineConfigFromProviderSpec (Some raw) = Ok s) ∧
  (∀ s raw, EncodeMachineStatus (Some s) = Ok raw → Linode.MachineStatusFromProviderStatus (Some raw) = Ok s) ∧
  (∀ s raw, EncodeClusterSpec (Some s) = Ok raw → ClusterConfigFromProviderSpec (Some raw) = Ok s) ∧
  ∃ e, (raw ← EncodeMachineSpec None; Linode.MachineConfigFromProviderSpec (Some raw)) = Err e.
Proof. split_and!; [exact reads_back..|exact reads_nothing]. Qed.
End json.
End LinodeUtil.

Module PacketUtil.
Section json.
Context `{!Packet.PacketJson, !ClusterSpecJson}.

Definition ClusterConfigFromProviderSpec : option RawExtension → outcome ClusterProviderSpec :=
  decode zero_ClusterProviderSpec unjson_Spec.
Definition ClusterStatusFromProviderStatus (unjson : RawExtension → outcome Packet.PacketClusterProviderStatus) :
    option RawExtension → outcome Packet.PacketClusterProviderStatus :=
  decode {| Packet.pcs_TypeMeta := zero_TypeMeta |} unjson.
Definition EncodeMachineStatus : option Packet.PacketMachineProviderStatus → outcome RawExtension := encode Packet.json_MachineStatus.
Definition EncodeMachineSpec : option Packet.PacketMachineProviderSpec → outcome RawExtension := encode Packet.json_MachineSpec.
Definition EncodeClusterStatus : option Packet.PacketClusterProviderStatus → outcome RawExtension := encode Packet.json_ClusterStatus.
Definition EncodeClusterSpec : option ClusterProviderSpec → outcome RawExtension := encode json_Spec.

(** Machines and clusters read back. *)
Lemma packet_reads `{!Reads Packet.json_MachineSpec Packet.unjson_MachineSpec, !Reads Packet.json_MachineStatus Packet.unjson_MachineStatus,
  !Reads json_Spec unjson_Spec} :
  (∀ s raw, EncodeMachineSpec (Some s) = Ok raw → Packet.MachineConfigFromProviderSpec (Some raw) = Ok s) ∧
  (∀ s raw, EncodeMachineStatus (Some s) = Ok raw → Packet.MachineStatusFromProviderStatus (Some raw) = Ok s) ∧
  (∀ s raw, EncodeClusterSpec (Some s) = Ok raw → ClusterConfigFromProviderSpec (Some raw) = Ok s) ∧
  ∃ e, (raw ← EncodeMachineSpec None; Packet.MachineConfigFromProviderSpec (Some raw)) = Err e.
Proof. split_and!; [exact reads_back..|exact reads_nothing]. Qed.
End json.
End PacketUtil.
