(* ===== verification/Managed.v ===== *)
(** * What the providers of managed clusters share

    DigitalOcean's, Google's, Azure's and Amazon's Kubernetes services run the masters
    themselves: the provider makes the cluster, keeps its certificates and scales its
    node pools. *)
From stdpp Require Import base list gmap strings pretty fin_maps.
From S2P Require Import Prelude GoStrings Api StoreSpec Provider Certs Kube Cloud Apply Startup ProviderParts.

(** The certificate store's Delete, and gomodules.xyz/cert: a private key that is not
    RSA is [None]. *)
Class CertDelete (S : Type) := ri_cert_Delete : string → string → GoM S ().

Class PemText (Crt Key : Type) := {
  ParseCertsPEM : string → outcome (list Crt);
  ParsePrivateKeyPEM : string → outcome (option Key);
  base64_decode : string → outcome string
}.

(** ** Machine sets *)
Definition the_replicas (ng : MachineSet) : outcome Z :=
  match Replicas (machineset_Spec ng) with
  | None => Panic "invalid memory address or nil pointer dereference"
  | Some n => Ok n
  end.

Definition node_spec (ng : MachineSet) : option RawExtension :=
  MachineProviderSpec (TemplateSpec (machineset_Spec ng)).

Definition with_StatusReplicas (ng : MachineSet) (n : Z) : MachineSet :=
  {| machineset_TypeMeta := machineset_TypeMeta ng; machineset_ObjectMeta := machineset_ObjectMeta ng;
     machineset_Spec := machineset_Spec ng;
     machineset_Status := {| StatusReplicas := n; ReadyReplicas := ReadyReplicas (machineset_Status ng) |} |}.

(** [*ng.Spec.Replicas == 0 || ng.DeletionTimestamp != nil] *)
Definition to_delete (ng : MachineSet) : outcome bool :=
  n ← the_replicas ng;
  Ok (bool_decide (n = 0%Z) || bool_decide (is_Some (DeletionTimestamp (machineset_ObjectMeta ng)))).

(** ** Clusters *)
Definition add_endpoint (c : Cluster) (host : string) (port : Z) : Cluster :=
  let a := ClusterAPI (Spec c) in
  set_capi c (with_capi_Status a
    {| APIEndpoints := APIEndpoints (capi_Status a) ++ [{| Host := host; Port := port |}];
       ClusterErrorMessage := ClusterErrorMessage (capi_Status a);
       ClusterProviderStatus := ClusterProviderStatus (capi_Status a) |}).

Definition with_managed (c : CloudSpec) (image : string) (gke : option GKESpec) (dokube : option DokubeSpec) : CloudSpec :=
  {| CloudProviderName := CloudProviderName c; Project := Project c; Region := Region c; Zone := Zone c;
     InstanceImage := image; OSName := OSName c; InstanceImageProject := InstanceImageProject c;
     NetworkProvider := NetworkProvider c; SSHKeyName := SSHKeyName c; spec_AWS := spec_AWS c;
     spec_GCE := spec_GCE c; spec_Azure := spec_Azure c; spec_Linode := spec_Linode c;
     spec_GKE := gke; spec_Dokube := dokube |}.

Definition with_Reason (c : Cluster) (reason : string) : Cluster :=
  let s := Status c in
  with_Status c {| Phase := Phase s; Reason := reason; status_Cloud := status_Cloud s |}.

Definition with_PodsCIDRBlocks (c : Cluster) (blocks : list string) : Cluster :=
  let a := ClusterAPI (Spec c) in
  let n := ClusterNetwork (capi_Spec a) in
  set_capi c (with_capi_Spec a
    {| ClusterNetwork := {| ServicesCIDRBlocks := ServicesCIDRBlocks n; PodsCIDRBlocks := blocks;
                            ServiceDomain := ServiceDomain n |};
       ClusterProviderSpec := ClusterProviderSpec (capi_Spec a) |}).

(** The kubeconfig of a cluster, up to the user. *)
Definition pharmer_kubeconfig (cluster : Cluster) (server ca : string) (user : string → NamedAuthInfo) : KubeConfig :=
  let clusterName := cluster_Name cluster +:+ ".pharmer" in
  let userName := "cluster-admin@" +:+ cluster_Name cluster +:+ ".pharmer" in
  {| kc_TypeMeta := {| Kind := "KubeConfig"; APIVersion := "v1" |}; kc_Colors := true;
     kc_Cluster := {| nc_Name := clusterName; nc_Server := server; nc_CertificateAuthorityData := ca |};
     kc_AuthInfo := user userName;
     kc_Context := {| nx_Name := userName; nx_Cluster := clusterName; nx_AuthInfo := userName |} |}.

(** A user of a kubeconfig known by its certificate. *)
Definition cert_user (crt key userName : string) : NamedAuthInfo :=
  {| na_Name := userName; na_ClientCertificateData := crt; na_ClientKeyData := key; na_Token := "";
     na_Username := ""; na_Password := ""; na_Exec := None |}.

Section managed.
Context {S Crt Key SSHKey X KC : Type} `{!PemText Crt Key, !CertDelete S}.
Context (sp : ResourceInterface S Crt Key).
Notation env := (env (S := S) (Crt := Crt) (Key := Key) (SSHKey := SSHKey) (X := X) (KC := KC)).

(** The authority of the cloud, the first of the certificates of a text, replaces
    pharmer's, with the key there was; the deletion comes first. *)
Definition replace_ca (caCrts : GoM env (list Crt)) : GoM env Crt :=
  cluster ← the_cluster;
  let n := cluster_Name cluster in
  old ← attempt (store (ri_cert_Get sp n CACertName));
  _ ← match old with inl _ => store (ri_cert_Delete n CACertName) | inr _ => mret () end;
  crts ← caCrts;
  match crts with
  | [] => panic "index out of range [0] with length 0"
  | crt :: _ =>
      _ ← store (ri_cert_Create sp n CACertName (Some crt) (match old with inl p => Some p.2 | inr _ => None end));
      mret crt
  end.

(** [cm.Certs.CACert.Cert = crt] *)
Definition set_scope_ca (crt : Crt) : GoM env () :=
  certs ← gets (λ e, sc_Certs (e_scope e));
  match certs with
  | None => nil_panic
  | Some c => set_Certs {| CACert := {| Cert := crt; CKey := CKey (CACert c) |}; FrontProxyCACert := FrontProxyCACert c;
                           ServiceAccountCert := ServiceAccountCert c; EtcdCACert := EtcdCACert c;
                           SSHKey_ := SSHKey_ c |}
  end.

Definition create_admin (crt : Crt) (key : Key) : GoM env () :=
  cluster ← the_cluster;
  store (ri_cert_Create sp (cluster_Name cluster) "admin" (Some crt) (Some key)).

(** [Create("admin", crts[0], key.( *rsa.PrivateKey))] *)
Definition store_admin (crts : list Crt) (key : option Key) : GoM env () :=
  match crts, key with
  | [], _ => panic "index out of range [0] with length 0"
  | _, None => panic "interface conversion: interface {} is not *rsa.PrivateKey"
  | crt :: _, Some key => create_admin crt key
  end.

(** [for _, ng := range nodeGroups], and the cluster is stored *)
Definition scale_all (apply : MachineSet → GoM env ()) : GoM env () :=
  cluster ← the_cluster;
  nodeGroups ← store (op_List (st_MachineSets sp (cluster_Name cluster)));
  _ ← for_each apply nodeGroups;
  cluster ← the_cluster;
  _ ← store (op_Update (st_Clusters sp) (Some cluster));
  mret ().

(** The number of machines is recorded in the status of the stored machine set. *)
Definition record_replicas (ng : MachineSet) : GoM env () :=
  n ← lift (the_replicas ng);
  cluster ← the_cluster;
  match op_UpdateStatus (st_MachineSets sp (cluster_Name cluster)) with
  | Some update => _ ← store (update (Some (with_StatusReplicas ng n))); mret ()
  | None => nil_panic
  end.

Definition delete_machineset (ng : MachineSet) : GoM env () :=
  cluster ← the_cluster;
  store (op_Delete (st_MachineSets sp (cluster_Name cluster)) (machineset_Name ng)).
End managed.
