(* ===== verification/CloudApi.v ===== *)
(** * The objects of Google's and Azure's clouds (apis/v1alpha1/gce, azure)

    The provider's part of clusters and machines, with their encodings; encoding/json
    is the classes [GceJson] and [AzureJson].  Fields that the code only declares in
    comments are left out. *)
From stdpp Require Import base list gmap strings pretty fin_maps.
From S2P Require Import Prelude GoStrings Api StoreSpec Provider Certs Kube Cloud Apply Startup ProviderParts.

Module gce.

Definition GCEProviderGroupName : string := "gceproviderconfig".
Definition GCEClusterProviderKind : string := "GCEClusterProviderSpec".
Definition GCEMachineProviderKind : string := "GCEMachineProviderSpec".
Definition GCEProviderAPIVersion : string := "v1alpha1".

Record DiskInitializeParams := { DiskSizeGb : Z; DiskType : string }.
Record Disk := { InitializeParams : DiskInitializeParams }.

Record GCEMachineProviderSpec := {
  gm_Meta : TypeMeta * ObjectMeta; gm_Roles : list MachineRole; gm_Zone : string; gm_MachineType : string;
  gm_OS : string; gm_Disks : list Disk
}.
Definition zero_GCEMachineProviderSpec : GCEMachineProviderSpec :=
  {| gm_Meta := (zero_TypeMeta, named ""); gm_Roles := []; gm_Zone := ""; gm_MachineType := ""; gm_OS := "";
     gm_Disks := [] |}.

(** base64 of the texts, by the encoding *)
Record KeyPair := { kp_Cert : string; kp_Key : string }.
Definition zero_KeyPair : KeyPair := {| kp_Cert := ""; kp_Key := "" |}.

Record GCEClusterProviderSpec := {
  gc_Meta : TypeMeta * ObjectMeta; gc_Project : string; CAKeyPair : KeyPair; EtcdCAKeyPair : KeyPair;
  FrontProxyCAKeyPair : KeyPair; SAKeyPair : KeyPair; AdminKubeconfig : string;
  DiscoveryHashes : list string; gc_ClusterConfiguration : option ClusterConfiguration   (* [None] is the zero value *)
}.
Definition zero_GCEClusterProviderSpec : GCEClusterProviderSpec :=
  {| gc_Meta := (zero_TypeMeta, named ""); gc_Project := ""; CAKeyPair := zero_KeyPair; EtcdCAKeyPair := zero_KeyPair;
     FrontProxyCAKeyPair := zero_KeyPair; SAKeyPair := zero_KeyPair; AdminKubeconfig := ""; DiscoveryHashes := [];
     gc_ClusterConfiguration := None |}.

Record GCEClusterProviderStatus := { gs_Meta : TypeMeta * ObjectMeta }.
Definition zero_GCEClusterProviderStatus : GCEClusterProviderStatus := {| gs_Meta := (zero_TypeMeta, named "") |}.

Class GceJson := {
  json_MachineSpec : GCEMachineProviderSpec → outcome RawExtension;
  unjson_MachineSpec : RawExtension → outcome GCEMachineProviderSpec;
  json_ClusterSpec : GCEClusterProviderSpec → outcome RawExtension;
  unjson_ClusterSpec : RawExtension → outcome GCEClusterProviderSpec;
  json_ClusterStatus : GCEClusterProviderStatus → outcome RawExtension;
  unjson_ClusterStatus : RawExtension → outcome GCEClusterProviderStatus
}.

(** ** util.go *)
Section util.
Context {Crt Key SSHKey : Type} `{!GceJson, !CertText Crt Key}.

Definition ClusterConfigFromProviderSpec := decode zero_GCEClusterProviderSpec unjson_ClusterSpec.
Definition ClusterStatusFromProviderStatus := decode zero_GCEClusterProviderStatus unjson_ClusterStatus.
Definition MachineConfigFromProviderSpec := decode zero_GCEMachineProviderSpec unjson_MachineSpec.

Definition EncodeMachineSpec := encode json_MachineSpec.
Definition EncodeClusterStatus := encode json_ClusterStatus.
Definition EncodeClusterSpec := encode json_ClusterSpec.

Definition key_pair (c : CertKeyPair Crt Key) : KeyPair :=
  {| kp_Cert := cert_text (Cert c); kp_Key := key_text (CKey c) |}.

Definition SetGCEclusterProviderConfig (cluster : CapiCluster) (project : string)
    (certs : Certificates Crt Key SSHKey) : outcome CapiCluster :=
  let conf := {| gc_Meta := ({| APIVersion := GCEProviderGroupName +:+ "/" +:+ GCEProviderAPIVersion;
                                Kind := GCEClusterProviderKind |}, named "");
                 gc_Project := project; CAKeyPair := key_pair (CACert certs);
                 EtcdCAKeyPair := key_pair (EtcdCACert certs);
                 FrontProxyCAKeyPair := key_pair (FrontProxyCACert certs);
                 SAKeyPair := key_pair (ServiceAccountCert certs); AdminKubeconfig := ""; DiscoveryHashes := [];
                 gc_ClusterConfiguration := None |} in
  match EncodeClusterSpec (Some conf) with
  | Err e => Err (wrap "failed to encode cluster provider spec" e)
  | Panic w => Panic w
  | Ok rawConf => Ok (with_provider_spec cluster rawConf)
  end.
End util.
End gce.

Module azure.

(** ** types.go *)
Abbreviation Tags := (gmap string (option string)) (only parsing).
Record Vnet := { vnet_ID : string; vnet_Name : string; vnet_CidrBlock : string; vnet_Tags : option Tags }.
Record IngressRule := {
  ir_Description : string; ir_Protocol : string; ir_SourcePorts : option string; ir_DestinationPorts : option string;
  ir_Source : option string; ir_Destination : option string
}.
Record SecurityGroup := {
  sg_ID : string; sg_Name : string; sg_IngressRules : list IngressRule; sg_Tags : option Tags
}.
Record Subnet := {
  sn_ID : string; sn_Name : string; sn_VnetID : string; sn_CidrBlock : string; sn_SecurityGroup : SecurityGroup
}.

(** Later subnets of the same ID win. *)
Definition ToMap (s : list Subnet) : gmap string Subnet :=
  foldl (λ res x, <[sn_ID x := x]> res) ∅ s.

Record PublicIP := { pip_ID : string; pip_Name : string; pip_IPAddress : string; pip_DNSName : string }.
Record BackendPool := { bp_Name : string; bp_ID : string }.
Record LoadBalancer := {
  lb_ID : string; lb_Name : string; lb_SKU : string; lb_BackendPool : BackendPool; lb_Tags : Tags
}.
Record Network := {
  net_Vnet : Vnet; net_SecurityGroups : gmap string (option SecurityGroup); net_Subnets : list Subnet;
  net_APIServerLB : LoadBalancer; net_APIServerIP : PublicIP
}.
Record Image := { Publisher : string; Offer : string; SKU : string; img_Version : string }.
Record ManagedDisk := { StorageAccountType : string }.
Record OSDisk := { OSType : string; disk_ManagedDisk : ManagedDisk; DiskSizeGB : Z }.
Record VM := {
  vm_ID : string; vm_Name : string; vm_VMSize : string; vm_Image : Image; vm_OSDisk : OSDisk;
  vm_StartupScript : string; vm_State : string; vm_Identity : string; vm_Tags : Tags
}.
Record AzureMachineProviderCondition := {
  mc_Type : string; mc_Status : string; mc_LastProbeTime : Time; mc_LastTransitionTime : Time;
  mc_Reason : string; mc_Message : string
}.

(** ** azuremachineproviderconfig.go, azuremachineproviderstatus.go *)
Record AzureMachineProviderSpec := {
  am_Meta : TypeMeta * ObjectMeta; am_Roles : list string; am_Location : string; am_VMSize : string;
  am_Image : Image; am_OSDisk : OSDisk; am_SSHPublicKey : string; am_SSHPrivateKey : string
}.
Record AzureMachineProviderStatus := {
  ams_Meta : TypeMeta * ObjectMeta; ams_VMID : option string; ams_VMState : option string;
  ams_Conditions : list AzureMachineProviderCondition
}.

(** ** azureclusterproviderconfig.go, azureclusterproviderstatus.go *)
Record KeyPair := { kp_Cert : string; kp_Key : string }.
Definition HasCertAndKey (kp : KeyPair) : bool := negb (bool_decide (kp_Cert kp = "")) && negb (bool_decide (kp_Key kp = "")).
Record VnetSpec := { vs_ID : string; vs_Name : string; vs_CidrBlock : string }.
Record NetworkSpec := { ns_Vnet : VnetSpec; ns_Subnets : list Subnet }.
Record AzureClusterProviderSpec := {
  ac_Meta : TypeMeta * ObjectMeta; ac_NetworkSpec : NetworkSpec; ac_ResourceGroup : string; ac_Location : string;
  ac_SSHPublicKey : string; ac_SSHPrivateKey : string; ac_CAKeyPair : KeyPair; ac_EtcdCAKeyPair : KeyPair;
  ac_FrontProxyCAKeyPair : KeyPair; ac_SAKeyPair : KeyPair; ac_AdminKubeconfig : string;
  ac_DiscoveryHashes : list string; ac_ClusterConfiguration : option ClusterConfiguration   (* [None] is the zero value *)
}.
Record AzureClusterProviderStatus := { acs_Meta : TypeMeta * ObjectMeta; acs_Network : Network; acs_Bastion : VM }.

(** ** Zero values *)
Definition zero_Meta : TypeMeta * ObjectMeta := (zero_TypeMeta, named "").
Definition zero_Image : Image := {| Publisher := ""; Offer := ""; SKU := ""; img_Version := "" |}.
Definition zero_OSDisk : OSDisk := {| OSType := ""; disk_ManagedDisk := {| StorageAccountType := "" |}; DiskSizeGB := 0 |}.
Definition zero_MachineSpec : AzureMachineProviderSpec :=
  {| am_Meta := zero_Meta; am_Roles := []; am_Location := ""; am_VMSize := ""; am_Image := zero_Image;
     am_OSDisk := zero_OSDisk; am_SSHPublicKey := ""; am_SSHPrivateKey := "" |}.
Definition zero_MachineStatus : AzureMachineProviderStatus :=
  {| ams_Meta := zero_Meta; ams_VMID := None; ams_VMState := None; ams_Conditions := [] |}.
Definition zero_KeyPair : KeyPair := {| kp_Cert := ""; kp_Key := "" |}.
Definition zero_ClusterSpec : AzureClusterProviderSpec :=
  {| ac_Meta := zero_Meta; ac_NetworkSpec := {| ns_Vnet := {| vs_ID := ""; vs_Name := ""; vs_CidrBlock := "" |}; ns_Subnets := [] |};
     ac_ResourceGroup := ""; ac_Location := ""; ac_SSHPublicKey := ""; ac_SSHPrivateKey := "";
     ac_CAKeyPair := zero_KeyPair; ac_EtcdCAKeyPair := zero_KeyPair; ac_FrontProxyCAKeyPair := zero_KeyPair;
     ac_SAKeyPair := zero_KeyPair; ac_AdminKubeconfig := ""; ac_DiscoveryHashes := []; ac_ClusterConfiguration := None |}.
Definition zero_ClusterStatus : AzureClusterProviderStatus :=
  {| acs_Meta := zero_Meta;
     acs_Network := {| net_Vnet := {| vnet_ID := ""; vnet_Name := ""; vnet_CidrBlock := ""; vnet_Tags := None |};
                       net_SecurityGroups := ∅; net_Subnets := [];
                       net_APIServerLB := {| lb_ID := ""; lb_Name := ""; lb_SKU := "";
                                             lb_BackendPool := {| bp_Name := ""; bp_ID := "" |}; lb_Tags := ∅ |};
                       net_APIServerIP := {| pip_ID := ""; pip_Name := ""; pip_IPAddress := ""; pip_DNSName := "" |} |};
     acs_Bastion := {| vm_ID := ""; vm_Name := ""; vm_VMSize := ""; vm_Image := zero_Image; vm_OSDisk := zero_OSDisk;
                       vm_StartupScript := ""; vm_State := ""; vm_Identity := ""; vm_Tags := ∅ |} |}.

Class AzureJson := {
  json_MachineSpec : AzureMachineProviderSpec → outcome RawExtension;
  unjson_MachineSpec : RawExtension → outcome AzureMachineProviderSpec;
  json_MachineStatus : AzureMachineProviderStatus → outcome RawExtension;
  unjson_MachineStatus : RawExtension → outcome AzureMachineProviderStatus;
  json_ClusterSpec : AzureClusterProviderSpec → outcome RawExtension;
  unjson_ClusterSpec : RawExtension → outcome AzureClusterProviderSpec;
  json_ClusterStatus : AzureClusterProviderStatus → outcome RawExtension;
  unjson_ClusterStatus : RawExtension → outcome AzureClusterProviderStatus
}.

(** ** util.go *)
Section util.
Context `{!AzureJson}.

Definition ClusterConfigFromProviderSpec := decode zero_ClusterSpec unjson_ClusterSpec.
Definition ClusterStatusFromProviderStatus := decode zero_ClusterStatus unjson_ClusterStatus.
Definition MachineSpecFromProviderSpec := decode zero_MachineSpec unjson_MachineSpec.
Definition MachineStatusFromProviderStatus := decode zero_MachineStatus unjson_MachineStatus.

Definition EncodeMachineStatus := encode json_MachineStatus.
Definition EncodeMachineSpec := encode json_MachineSpec.
Definition EncodeClusterStatus := encode json_ClusterStatus.
Definition EncodeClusterSpec := encode json_ClusterSpec.
End util.
End azure.
