(* ===== verification/Gce.v ===== *)
(** * The provider of Google Compute Engine (cloud/providers/gce)

    The cluster manager as a record [Interface] of Cloud.v, over the class [GceAPI] of
    calls on the state of the cloud.  The connector keeps the service account; the
    calls of google.golang.org/api/compute/v1 are functions of it.  An operation is known
    by its name. *)
From stdpp Require Import base list gmap strings pretty fin_maps.
From S2P Require Import Prelude GoStrings Api StoreSpec Provider Certs Kube Cloud Apply Startup ProviderParts.
From S2P Require Import CloudApi.

Module Gce.

(** ** Constants of cloud.go and context.go *)
Definition UID : string := "gce".
Definition defaultNetwork : string := "default".
Definition firewallRuleAnnotationPrefix : string := "gce.clusterapi.k8s.io/firewall".
Definition firewallRuleInternalSuffix : string := "-allow-cluster-internal".
Definition firewallRuleAPISuffix : string := "-allow-api-public".
Definition statusDone : string := "DONE".

(** ** google.golang.org/api/compute/v1, the fields that are used *)
Record TargetPool := { tp_Name : string; tp_HealthChecks : list string; tp_Instances : list string }.

Record FwdRule := {
  fr_LoadBalancingScheme : string; fr_IPAddress : string; fr_Name : string; fr_IPProtocol : string;
  fr_PortRange : string; fr_Target : string
}.

(** Allowed protocols, each with its ports *)
Record Firewall := {
  fw_Name : string; fw_Network : string; fw_SourceRanges : list string; fw_Allowed : list (string * list string);
  fw_TargetTags : list string; fw_SourceTags : list string
}.

Record NewDisk := { dk_Name : string; dk_Zone : string; dk_Type : string; dk_SizeGb : Z }.

Record AttachedDisk := {
  ad_DeviceName : string; ad_SourceImage : option string; ad_Mode : string; ad_Boot : bool;
  ad_AutoDelete : bool; ad_Source : string
}.

(** A service account is its scopes and email; an access configuration a name and type. *)
Record Instance := {
  in_Name : string; in_Zone : string; in_MachineType : string; in_Tags : list string; in_Network : string;
  in_AccessConfigs : list (string * string); in_ServiceAccounts : list (list string * string);
  in_CanIpForward : bool; in_Metadata : list (string * string); in_Disks : list AttachedDisk
}.

(** ** What is passed to the templates of clusterapi.go *)
Record controllerManagerConfig := {
  MachineConfig : string; ServiceAccount : string; SSHPrivateKey : string; SSHPublicKey : string;
  SSHUser : string; ControllerImage : string
}.
Record setupConfig := {
  setup_OS : string; OSFamily : string; setup_KubernetesVersion : string;
  ControlPlaneStartupScript : string; NodeStartupScript : string
}.

(** apis/v1alpha1/cluster.go *)
Record GCECloudConfig := {
  TokenURL : string; TokenBody : string; cfg_ProjectID : string; cfg_NetworkName : string; cfg_NodeTags : list string; cfg_NodeInstancePrefix : string;
  cfg_Multizone : bool
}.

(** text/template on the two texts of clusterapi.go, gopkg.in/yaml.v2 on a string, and
    gopkg.in/ini.v1: the section "global" of an empty file, reflected from the
    configuration and written. *)
Class GceText := {
  ControllerManager_text : controllerManagerConfig → outcome string;
  machineSetupConfig_text : setupConfig → outcome string;
  yaml_string : string → outcome string;
  base64_encode : string → string;
  ini_global : GCECloudConfig → outcome string
}.

(** The calls, of a token; then project, zone or region, and name. *)
Class GceAPI (X SSHKey : Type) := {
  credential_GCE : CredentialSpec → outcome (string * string);       (* project, service account *)
  credential_ServiceAccount : CredentialSpec → string;
  NewServices : string → outcome ();
  SSHKey_PublicKey : SSHKey → string;
  SSHKey_PrivateKey : SSHKey → string;
  InstanceGroups_List : string → string → string → GoM X ();
  Addresses_Get : string → string → string → string → GoM X string;  (* the address *)
  Addresses_Insert : string → string → string → string → GoM X string;
  Addresses_Delete : string → string → string → string → GoM X string;
  HttpHealthChecks_Get : string → string → string → GoM X ();
  HttpHealthChecks_Insert : string → string → string → Z → GoM X string;
  HttpHealthChecks_Delete : string → string → string → GoM X string;
  TargetPools_Get : string → string → string → string → GoM X ();
  TargetPools_Insert : string → string → string → TargetPool → GoM X string;
  TargetPools_Delete : string → string → string → string → GoM X string;
  ForwardingRules_Get : string → string → string → string → GoM X ();
  ForwardingRules_Insert : string → string → string → FwdRule → GoM X string;
  ForwardingRules_Delete : string → string → string → string → GoM X string;
  Instances_Get : string → string → string → string → GoM X ();
  Instances_Insert : string → string → string → Instance → GoM X string;
  Instances_Delete : string → string → string → string → GoM X string;
  GlobalOperations_Get : string → string → string → GoM X string;    (* its status *)
  RegionOperations_Get : string → string → string → string → GoM X string;
  ZoneOperations_Get : string → string → string → string → GoM X string;
  SetCommonInstanceMetadata : string → string → list (string * string) → GoM X string;
  Networks_Get : string → string → string → GoM X ();
  Networks_Insert : string → string → string → string → GoM X ();    (* range, name *)
  Firewalls_Get : string → string → string → GoM X ();
  Firewalls_Insert : string → string → Firewall → GoM X ();
  Firewalls_Delete : string → string → string → GoM X ();
  Disks_Get : string → string → string → string → GoM X ();
  Disks_Insert : string → string → string → NewDisk → GoM X string;
  Disks_Delete : string → string → string → string → GoM X ()
}.

(** The order in which goroutines started together run; what they do is of different
    instances and disks, and each is taken as run to its end. *)
Class Goroutines := go_order : ∀ {A : Type}, list A → list A.

(** ** namer.go *)
Definition NodePrefix (cluster : Cluster) : string := cluster_Name cluster +:+ "-node".
Definition MachineDiskName (machine : Machine) : string := machine_Name machine +:+ "-pd".
Definition AdminUsername : string := "pharmer".
Definition loadBalancerName (cluster : Cluster) : string := cluster_Name cluster +:+ "-apiserver".

Definition errAlreadyExists (err : error) : bool := Contains err "alreadyExists".
Definition errDeleted (err : error) : bool := Contains err "notFound".

(** ** Names of resources *)
Definition in_project (c : CloudSpec) (path : string) : string := "projects/" +:+ Project c +:+ "/" +:+ path.
Definition in_zone (c : CloudSpec) (path : string) : string := in_project c ("zones/" +:+ Zone c +:+ "/" +:+ path).
Definition googleapis : string := "https://www.googleapis.com/compute/v1/".
Definition network_of (c : CloudSpec) : string := in_project c ("global/networks/" +:+ defaultNetwork).

(** ** The rules of ensureFirewallRules *)
Definition ruleInternal (c : CloudSpec) : Firewall :=
  {| fw_Name := defaultNetwork +:+ "-allow-internal"; fw_Network := network_of c; fw_SourceRanges := ["10.128.0.0/9"];
     fw_Allowed := [("tcp", ["0-65535"]); ("udp", ["0-65535"]); ("icmp", [])]; fw_TargetTags := []; fw_SourceTags := [] |}.
Definition ruleClusterInternal (name : string) (c : CloudSpec) : Firewall :=
  {| fw_Name := name +:+ firewallRuleInternalSuffix; fw_Network := network_of c; fw_SourceRanges := [];
     fw_Allowed := [("tcp", [])]; fw_TargetTags := [name +:+ "-worker"]; fw_SourceTags := [name +:+ "-worker"] |}.
Definition ruleSSH (name : string) (c : CloudSpec) : Firewall :=
  {| fw_Name := name +:+ "-allow-ssh"; fw_Network := network_of c; fw_SourceRanges := ["0.0.0.0/0"];
     fw_Allowed := [("tcp", ["22"])]; fw_TargetTags := []; fw_SourceTags := [] |}.
Definition ruleApiPublic (name : string) (c : CloudSpec) : Firewall :=
  {| fw_Name := name +:+ firewallRuleAPISuffix; fw_Network := "global/networks/default"; fw_SourceRanges := ["0.0.0.0/0"];
     fw_Allowed := [("tcp", ["6443"]); ("tcp", ["443"])]; fw_TargetTags := ["https-server"]; fw_SourceTags := [] |}.

Definition with_annotation (c : Cluster) (k v : string) : Cluster :=
  let a := ClusterAPI (Spec c) in
  let m := capi_ObjectMeta a in
  set_capi c {| capi_TypeMeta := capi_TypeMeta a;
                capi_ObjectMeta := {| Name := Name m; Namespace := Namespace m; Api.UID := Api.UID m;
                  Generation := Generation m; CreationTimestamp := CreationTimestamp m;
                  DeletionTimestamp := DeletionTimestamp m; Labels := Labels m;
                  Annotations := <[k := v]> (Annotations m) |};
                capi_Spec := capi_Spec a; capi_Status := capi_Status a |}.

Definition with_gc_Project (s : gce.GCEClusterProviderSpec) (project : string) : gce.GCEClusterProviderSpec :=
  {| gce.gc_Meta := gce.gc_Meta s; gce.gc_Project := project; gce.CAKeyPair := gce.CAKeyPair s;
     gce.EtcdCAKeyPair := gce.EtcdCAKeyPair s; gce.FrontProxyCAKeyPair := gce.FrontProxyCAKeyPair s;
     gce.SAKeyPair := gce.SAKeyPair s; gce.AdminKubeconfig := gce.AdminKubeconfig s;
     gce.DiscoveryHashes := gce.DiscoveryHashes s; gce.gc_ClusterConfiguration := gce.gc_ClusterConfiguration s |}.

(** [Region = Zone[0 : len(Zone)-2]] *)
Definition region_of (zone : string) : outcome string :=
  if decide (String.length zone < 2) then Panic "slice bounds out of range"
  else Ok (String.substring 0 (String.length zone - 2) zone).

(** The cluster's cloud with the defaults of SetDefaultCluster, and with its region *)
Definition with_defaults (c : CloudSpec) (nodePrefix : string) : CloudSpec :=
  {| CloudProviderName := CloudProviderName c; Project := Project c; Region := Region c; Zone := Zone c;
     InstanceImage := "ubuntu-1604-xenial-v20170721"; OSName := "ubuntu-1604-lts";
     InstanceImageProject := "ubuntu-os-cloud"; NetworkProvider := NetworkProvider c; SSHKeyName := SSHKeyName c;
     spec_AWS := spec_AWS c;
     spec_GCE := Some {| gce_NetworkName := "default"; NodeTags := [nodePrefix]; NodeScopes := [] |};
     spec_Azure := spec_Azure c; spec_Linode := spec_Linode c; spec_GKE := spec_GKE c; spec_Dokube := spec_Dokube c |}.

Definition with_control_args (c : ClusterConfig) (apiserver controllers : gmap string string) : ClusterConfig :=
  {| MasterCount := MasterCount c; Cloud := Cloud c; KubernetesVersion := KubernetesVersion c;
     CredentialName := CredentialName c; SSHUserName := SSHUserName c; KubeletExtraArgs := KubeletExtraArgs c;
     APIServerExtraArgs := apiserver; ControllerManagerExtraArgs := controllers;
     SchedulerExtraArgs := SchedulerExtraArgs c; AuthorizationModes := AuthorizationModes c;
     APIServerCertSANs := APIServerCertSANs c |}.

Section provider.
Context {S Crt Key SSHKey X KC CC BC V : Type}.
Context `{!Crypto Crt Key SSHKey, !CertText Crt Key, !Clock, !Polling, !Kubernetes X KC CC BC}.
Context `{!StartupLib Crt V, !Environment, !gce.GceJson, !GceText, !GceAPI X SSHKey, !Goroutines, !Connector X}.
Context (sp : ResourceInterface S Crt Key) (customTemplate : string).
Notation env := (env (S := S) (Crt := Crt) (Key := Key) (SSHKey := SSHKey) (X := X) (KC := KC)).
Notation Interface := (Interface (S := S) (Crt := Crt) (Key := Key) (SSHKey := SSHKey) (X := X)
                                 (KC := KC)).

(** ** cloud.go *)

(** Calls with the project, region and zone of the cluster in the scope *)
Definition at_cloud {A} (f : string → CloudSpec → GoM X A) : GoM env A :=
  cluster ← the_cluster;
  call (λ t, f t (Cloud (Config (Spec cluster)))).

Definition IsUnauthorized (token project : string) : GoM env (option string) :=
  listed ← attempt (on_cloud (InstanceGroups_List token project "us-central1-b"));
  mret (match listed with inr _ => Some "Credential missing required authorization" | inl _ => None end).

(** The project, and the provider's configuration with it, are in the cluster before the
    authorisation is asked for. *)
Definition newconnector : GoM env string :=
  cluster ← the_cluster;
  let name := CredentialName (Config (Spec cluster)) in
  cred ← store (op_Get (st_Credentials sp) name);
  typed ← on_err (wrap ("credential " +:+ name +:+ " is invalid")) (lift (credential_GCE (cred_Spec cred)));
  let cluster := with_cluster_config cluster (λ c, with_Cloud c (with_Project (Cloud c) typed.1)) in
  _ ← set_Cluster cluster;
  _ ← on_err (wrap "") (lift (NewServices typed.2));
  let a := ClusterAPI (Spec cluster) in
  clusterConfig ← on_err (wrap "Error decoding cluster specs from provider config")
                    (lift (gce.ClusterConfigFromProviderSpec (ClusterProviderSpec (capi_Spec a))));
  rawSpec ← on_err (wrap "Failed to encode cluster spec")
              (lift (gce.EncodeClusterSpec (Some (with_gc_Project clusterConfig typed.1))));
  _ ← set_Cluster (set_capi cluster (with_provider_spec a rawSpec));
  msg ← IsUnauthorized typed.2 typed.1;
  match msg with
  | Some msg => throw ("Credential " +:+ name +:+ " does not have necessary authorization. Reason: " +:+ msg +:+ ".")
  | None => mret typed.2
  end.

(** An operation whose status cannot be had is nil: reading the status panics. *)
Definition waitForGlobalOperation (operation : string) : GoM env () :=
  PollImmediate retries (
    r1 ← attempt (at_cloud (λ t c, GlobalOperations_Get t (Project c) operation));
    match r1 with
    | inr err => if errDeleted err then mret false else nil_panic
    | inl status => mret (bool_decide (status = statusDone))
    end).

(** An operation that is not there any more is done. *)
Definition operation_done (get : GoM env string) : GoM env bool :=
  r1 ← attempt get;
  mret (match r1 with inr err => errDeleted err | inl status => bool_decide (status = statusDone) end).

Definition waitForRegionOperation (operation : string) : GoM env () :=
  PollImmediate retries (operation_done
    (at_cloud (λ t c, RegionOperations_Get t (Project c) (Region c) operation))).

Definition waitForZoneOperation (operation : string) : GoM env () :=
  PollImmediate retries (operation_done
    (at_cloud (λ t c, ZoneOperations_Get t (Project c) (Zone c) operation))).

Definition getLoadBalancer : GoM env string :=
  cluster ← the_cluster;
  let name := loadBalancerName cluster in
  address ← on_err (wrap "Error getting load balancer ip address")
              (at_cloud (λ t c, Addresses_Get t (Project c) (Region c) name));
  _ ← on_err (wrap "Error getting health check probes for load balancer")
        (at_cloud (λ t c, HttpHealthChecks_Get t (Project c) name));
  _ ← on_err (wrap "Error getting target pools for load balancer")
        (at_cloud (λ t c, TargetPools_Get t (Project c) (Region c) name));
  _ ← on_err (wrap "Error getting forwarding rules for load balancer")
        (at_cloud (λ t c, ForwardingRules_Get t (Project c) (Region c) name));
  mret address.

(** A resource that exists already is taken as it is; one that is made is waited for. *)
Definition insert_new (insert : GoM env string) (wait : string → GoM env ()) (creating waiting : string) : GoM env () :=
  op ← attempt insert;
  match op with
  | inl op => on_err (wrap waiting) (wait op)
  | inr err => if errAlreadyExists err then mret () else throw (wrap creating err)
  end.

Definition createLoadBalancer (leaderMachine : string) : GoM env string :=
  cluster ← the_cluster;
  let name := loadBalancerName cluster in
  _ ← insert_new (at_cloud (λ t c, Addresses_Insert t (Project c) (Region c) name)) waitForRegionOperation
        "Error creating ip address for load balancer" "Timed out waiting for load balancer ip to get ready";
  address ← on_err (wrap "Error getting load balancer ip")
              (at_cloud (λ t c, Addresses_Get t (Project c) (Region c) name));
  _ ← insert_new (at_cloud (λ t c, HttpHealthChecks_Insert t (Project c) name 6443)) (λ _, mret ())
        "Error creating healthcheck probes for load balancer" "";
  _ ← insert_new (at_cloud (λ t c, TargetPools_Insert t (Project c) (Region c)
          {| tp_Name := name;
             tp_HealthChecks := [googleapis +:+ in_project c ("global/httpHealthChecks/" +:+ name)];
             tp_Instances := [in_zone c ("instances/" +:+ leaderMachine)] |})) waitForRegionOperation
        "Error creating load balancer backend pools" "Timed out waiting for backend pools to be ready";
  _ ← insert_new (at_cloud (λ t c, ForwardingRules_Insert t (Project c) (Region c)
          {| fr_LoadBalancingScheme := "EXTERNAL"; fr_IPAddress := address; fr_Name := name; fr_IPProtocol := "TCP";
             fr_PortRange := "6443";
             fr_Target := googleapis +:+ in_project c ("regions/" +:+ Region c +:+ "/targetPools/" +:+ name) |}))
        waitForRegionOperation
        "Error creating load balancer forwarding rules" "Timed out waiting for load balancer forwarding rules to be ready";
  mret address.

(** What is not found is not deleted. *)
Definition delete_found {A} (get : GoM env A) (delete : GoM env ()) (getting : string) : GoM env () :=
  r ← attempt get;
  match r with
  | inl _ => delete
  | inr err => if errDeleted err then mret () else throw (wrap getting err)
  end.

Definition deleteLoadBalancer : GoM env () :=
  cluster ← the_cluster;
  let name := loadBalancerName cluster in
  _ ← delete_found (at_cloud (λ t c, Addresses_Get t (Project c) (Region c) name))
        (_ ← on_err (wrap "failed to delete ip of load balancre")
               (at_cloud (λ t c, Addresses_Delete t (Project c) (Region c) name)); mret ())
        "Error getting load balancer ip address";
  _ ← delete_found (at_cloud (λ t c, ForwardingRules_Get t (Project c) (Region c) name))
        (deleteOp ← on_err (wrap "failed to delete forwarding rules for load balancer")
                      (at_cloud (λ t c, ForwardingRules_Delete t (Project c) (Region c) name));
         on_err (wrap "timed out deleting lb forwarding rule") (waitForRegionOperation deleteOp))
        "Error getting forwarding rules for load balancer";
  _ ← delete_found (at_cloud (λ t c, TargetPools_Get t (Project c) (Region c) name))
        (deleteOp ← on_err (wrap "failed to delete load balancer target pool")
                      (at_cloud (λ t c, TargetPools_Delete t (Project c) (Region c) name));
         on_err (wrap "timed out deleting lb targte pool") (waitForRegionOperation deleteOp))
        "Error getting target pools for load balancer";
  delete_found (at_cloud (λ t c, HttpHealthChecks_Get t (Project c) name))
    (_ ← on_err (wrap "failed to delete load balancer health check probes")
           (at_cloud (λ t c, HttpHealthChecks_Delete t (Project c) name)); mret ())
    "Error getting health check probes for load balancer".

Definition deleteInstance (name : string) : GoM env () :=
  r ← on_err (wrap "") (at_cloud (λ t c, Instances_Delete t (Project c) (Zone c) name));
  waitForZoneOperation r.

Definition importPublicKey : GoM env () :=
  key ← conn_SSHKey;
  r1 ← on_err (wrap "") (at_cloud (λ t c, SetCommonInstanceMetadata t (Project c)
         [(SSHKeyName c, SSHKey_PublicKey key)]));
  on_err (wrap "") (waitForGlobalOperation r1).

Definition getNetworks : GoM env bool :=
  _ ← at_cloud (λ t c, Networks_Get t (Project c) defaultNetwork);
  mret true.

Definition ensureNetworks : GoM env () :=
  on_err (wrap "") (at_cloud (λ t c, Networks_Insert t (Project c) "10.240.0.0/16" defaultNetwork)).

Definition getFirewallRules : GoM env bool :=
  cluster ← the_cluster;
  let name := cluster_Name cluster in
  _ ← at_cloud (λ t c, Firewalls_Get t (Project c) (name +:+ firewallRuleInternalSuffix));
  _ ← at_cloud (λ t c, Firewalls_Get t (Project c) (name +:+ "-allow-ssh"));
  _ ← at_cloud (λ t c, Firewalls_Get t (Project c) (name +:+ firewallRuleAPISuffix));
  mret true.

(** Whatever looking for the rule fails with, it is made. *)
Definition ensure_rule (rule : Firewall) : GoM env () :=
  r ← attempt (at_cloud (λ t c, Firewalls_Get t (Project c) (fw_Name rule)));
  match r with
  | inl _ => mret ()
  | inr _ => on_err (wrap "") (at_cloud (λ t c, Firewalls_Insert t (Project c) rule))
  end.

(** [conn.Cluster, err = Update(cluster)]: a failure leaves it nil. *)
Definition update_cluster (cluster : Cluster) : GoM env () :=
  updated ← attempt (store (op_Update (st_Clusters sp) (Some cluster)));
  match updated with
  | inl c => set_Cluster c
  | inr e => _ ← clear_Cluster; throw e
  end.

(** The network of the rules is of the project the cluster has at first. *)
Definition conn_ensureFirewallRules : GoM env () :=
  cluster ← the_cluster;
  let name := cluster_Name cluster in
  let c0 := Cloud (Config (Spec cluster)) in
  _ ← ensure_rule (ruleInternal c0);
  _ ← ensure_rule (ruleClusterInternal name c0);
  let cluster := with_annotation cluster
        (firewallRuleAnnotationPrefix +:+ name +:+ firewallRuleInternalSuffix) "true" in
  _ ← update_cluster cluster;
  _ ← ensure_rule (ruleSSH name c0);
  _ ← ensure_rule (ruleApiPublic name c0);
  let cluster := with_annotation cluster
        (firewallRuleAnnotationPrefix +:+ name +:+ firewallRuleAPISuffix) "true" in
  update_cluster cluster.

Definition getMasterPDDisk (name : string) : GoM env bool :=
  _ ← at_cloud (λ t c, Disks_Get t (Project c) (Zone c) name);
  mret true.

Definition createDisk (name diskType : string) (sizeGb : Z) : GoM env string :=
  r1 ← on_err (wrap "") (at_cloud (λ t c, Disks_Insert t (Project c) (Zone c)
         {| dk_Name := name; dk_Zone := Zone c; dk_Type := in_zone c ("diskTypes/" +:+ diskType); dk_SizeGb := sizeGb |}));
  _ ← on_err (wrap "") (waitForZoneOperation r1);
  mret name.

Definition getMasterInstance (machine : Machine) : GoM env bool :=
  _ ← at_cloud (λ t c, Instances_Get t (Project c) (Zone c) (machine_Name machine));
  mret true.

(** The instance of a master, on the disk of the machine's name *)
Definition master_instance (cluster : Cluster) (machine : Machine) (machineType pubKey script : string) : Instance :=
  let c := Cloud (Config (Spec cluster)) in {|
    in_Name := machine_Name machine; in_Zone := in_project c ("zones/" +:+ Zone c);
    in_MachineType := in_zone c ("machineTypes/" +:+ machineType);
    in_Tags := ["https-server"; cluster_Name cluster +:+ "-master"]; in_Network := network_of c;
    in_AccessConfigs := [("Master External IP", "ONE_TO_ONE_NAT")];
    in_ServiceAccounts := [(["https://www.googleapis.com/auth/compute";
      "https://www.googleapis.com/auth/devstorage.read_only"; "https://www.googleapis.com/auth/logging.write"], "default")];
    in_CanIpForward := true;
    in_Metadata := [("startup-script", script);
                    ("ssh-keys", AdminUsername +:+ ":" +:+ pubKey +:+ " " +:+ AdminUsername)];
    in_Disks := [
      {| ad_DeviceName := "";
         ad_SourceImage := Some ("projects/" +:+ InstanceImageProject c +:+ "/global/images/" +:+ InstanceImage c);
         ad_Mode := "READ_WRITE"; ad_Boot := true; ad_AutoDelete := true; ad_Source := "" |};
      {| ad_DeviceName := "master-pd"; ad_SourceImage := None; ad_Mode := "READ_WRITE"; ad_Boot := false;
         ad_AutoDelete := false; ad_Source := in_zone c ("disks/" +:+ MachineDiskName machine) |}] |}.

Definition createMasterIntance (machine : Machine) (script : string) : GoM env string :=
  found ← attempt (getMasterPDDisk (MachineDiskName machine));
  _ ← match found with
      | inl _ => mret ()
      | inr _ => _ ← on_err (wrap "failed to create disk for master machine")
                       (createDisk (MachineDiskName machine) "pd-standard" 30); mret ()
      end;
  providerSpec ← on_err (wrap "Error decoding machine provider spec from machine spec")
    (lift (gce.MachineConfigFromProviderSpec (MachineProviderSpec (machine_Spec machine))));
  cluster ← the_cluster;
  key ← conn_SSHKey;
  on_err (wrap "") (at_cloud (λ t c, Instances_Insert t (Project c) (Zone c)
    (master_instance cluster machine (gce.gm_MachineType providerSpec) (SSHKey_PublicKey key) script))).

(** [wg.Wait()], and the errors the goroutines have sent *)
Fixpoint errors_of {A} (f : A → GoM env ()) (l : list A) : GoM env (list error) :=
  match l with
  | [] => mret []
  | a :: l =>
      r ← attempt (f a);
      es ← errors_of f l;
      mret (match r with inl _ => es | inr e => e :: es end)
  end.

(** [allerr]: the errors, the last first *)
Definition join_errors (es : list error) : option error :=
  match es with
  | [] => None
  | _ => Some (fold_left (λ allerr e, wrap e allerr) es "failed to delete master machines")
  end.

Definition deleteMaster (machines : list Machine) : GoM env () :=
  es ← errors_of (λ machine,
         instance ← on_err (wrap ("failed to delete machine " +:+ machine_Name machine))
                      (at_cloud (λ t c, Instances_Delete t (Project c) (Zone c) (machine_Name machine)));
         on_err (wrap ("timed out waiting for deleting machine " +:+ machine_Name machine))
                (waitForZoneOperation instance)) (go_order machines);
  match join_errors es with
  | None => mret ()
  | Some allerr => throw (wrap "failed to delete master machines" allerr)
  end.

Definition deleteDisk (nodeDiskNames : list string) : GoM env () :=
  cluster ← the_cluster;
  let c := Cloud (Config (Spec cluster)) in
  es ← errors_of (λ name,
         r ← attempt (call (λ t, Disks_Delete t (Project c) (Zone c) name));
         match r with
         | inl _ => mret ()
         | inr err => if errDeleted err then mret () else throw err
         end) (go_order nodeDiskNames);
  match join_errors es with
  | None => mret ()
  | Some allerr => throw allerr
  end.

(** Errors are only logged. *)
Definition deleteFirewalls : GoM env () :=
  cluster ← the_cluster;
  let name := cluster_Name cluster in
  _ ← ignore_err (at_cloud (λ t c, Firewalls_Delete t (Project c) (name +:+ firewallRuleInternalSuffix)));
  _ ← ignore_err (at_cloud (λ t c, Firewalls_Delete t (Project c) (name +:+ "-allow-ssh")));
  ignore_err (at_cloud (λ t c, Firewalls_Delete t (Project c) (name +:+ firewallRuleAPISuffix))).

(** ** apply.go *)
Definition ensureNetwork : GoM env () :=
  found ← attempt getNetworks;
  match found with inl _ => mret () | inr _ => ensureNetworks end.

Definition ensureFirewallRules : GoM env () :=
  found ← attempt getFirewallRules;
  match found with inl _ => mret () | inr _ => conn_ensureFirewallRules end.

(** [errors.Wrap(err, "load balancer can't be empty")] of the error that is nil by then
    is nil: an empty address is no error. *)
Definition ensureLoadBalancer : GoM env () :=
  got ← attempt getLoadBalancer;
  loadBalancerIP ← match got with
    | inl ip => mret ip
    | inr _ =>
        cluster ← the_cluster;
        on_err (wrap "Error creating load balancer") (createLoadBalancer (MasterMachineName cluster 0))
    end;
  cluster ← the_cluster;
  let cluster := with_LoadBalancer cluster
        {| lb_DNS := ""; lb_IP := loadBalancerIP; lb_Port := DefaultKubernetesBindPort |} in
  _ ← set_Cluster cluster;
  if decide (loadBalancerIP = "") then mret () else
  cluster ← on_err (wrap "Error setting controlplane endpoints")
              (lift (SetClusterAPIEndpoints cluster [{| addr_Type := NodeExternalIP; Address := loadBalancerIP |}]));
  set_Cluster cluster.

Definition PrepareCloud : GoM env () :=
  _ ← importPublicKey;
  _ ← on_err (wrap "failed to ensure network") ensureNetwork;
  _ ← on_err (wrap "failed to ensure firewall rules") ensureFirewallRules;
  on_err (wrap "failed to ensure load balancer") ensureLoadBalancer.

Definition GetMasterSKU (totalNodes : Z) : string :=
  if decide (totalNodes > 500)%Z then "n1-standard-32"
  else if decide (totalNodes > 250)%Z then "n1-standard-16"
  else if decide (totalNodes > 100)%Z then "n1-standard-8"
  else if decide (totalNodes > 10)%Z then "n1-standard-4"
  else "n1-standard-2".

(** ** startupscript.go *)
Definition td_with_CloudConfig (td : TemplateData) (cfg : string) : TemplateData :=
  {| td_ClusterName := td_ClusterName td; td_KubernetesVersion := td_KubernetesVersion td;
     td_KubeadmToken := td_KubeadmToken td; td_CAHash := td_CAHash td; td_CAKey := td_CAKey td;
     td_FrontProxyKey := td_FrontProxyKey td; td_SAKey := td_SAKey td; td_ETCDCAKey := td_ETCDCAKey td;
     td_APIServerAddress := td_APIServerAddress td; td_NetworkProvider := td_NetworkProvider td;
     td_CloudConfig := cfg; td_Provider := td_Provider td; td_NodeName := td_NodeName td;
     td_ExternalProvider := td_ExternalProvider td; td_InitConfiguration := td_InitConfiguration td;
     td_ClusterConfiguration := td_ClusterConfiguration td; td_JoinConfiguration := td_JoinConfiguration td;
     td_KubeletExtraArgs := td_KubeletExtraArgs td; td_ControlPlaneJoin := td_ControlPlaneJoin td;
     td_shared := td_shared td |}.

Definition hostPath : string * string * string := ("cloud-config", "/etc/kubernetes/ccm", "/etc/kubernetes/ccm").

Definition gce_hooks : TemplateHooks (S := S) (Crt := Crt) (Key := Key) (SSHKey := SSHKey) (X := X) (KC := KC) := {|
  hook_NewNodeTemplateData machine token td :=
    let td := td_with_external td false in
    cluster ← the_cluster;
    match spec_GCE (Cloud (Config (Spec cluster))) with
    | None => nil_panic
    | Some g =>
        match ini_global {| TokenURL := ""; TokenBody := ""; cfg_ProjectID := Project (Cloud (Config (Spec cluster)));
                            cfg_NetworkName := gce_NetworkName g; cfg_NodeTags := NodeTags g;
                            cfg_NodeInstancePrefix := NodePrefix cluster; cfg_Multizone := false |} with
        | Ok cfg => mret (td_with_CloudConfig td cfg)
        | Err e => panic e
        | Panic w => panic w
        end
    end;
  hook_NewMasterTemplateData machine token td :=
    cluster ← the_cluster;
    cfg ← lift (GetDefaultKubeadmClusterConfig cluster (Some hostPath));
    mret (td_with_configs td (td_InitConfiguration td) (Some cfg));
  hook_customTemplate := customTemplate
|}.

Definition EnsureMaster (leaderMachine : Machine) : GoM env () :=
  found ← attempt (getMasterInstance leaderMachine);
  match found with
  | inl _ => mret ()
  | inr _ =>
      script ← RenderStartupScript (V := V) gce_hooks leaderMachine "";
      op1 ← createMasterIntance leaderMachine script;
      waitForZoneOperation op1
  end.

(** A machine that is no master is deleted by the name in its Spec. *)
Definition delete_node (machine : Machine) : GoM env () :=
  let name := SpecName (machine_Spec machine) in
  _ ← ignore_err (deleteInstance name);
  cluster ← the_cluster;
  _ ← store (op_Delete (st_Machines sp (cluster_Name cluster)) name);
  store (op_Delete (st_MachineSets sp (cluster_Name cluster)) (machine_Name machine)).

Definition ApplyDelete : GoM env () :=
  cluster ← the_cluster;
  machines ← store (op_List (st_Machines sp (cluster_Name cluster)));
  _ ← for_each delete_node (List.filter (λ m, negb (IsControlPlaneMachine m)) machines);
  _ ← ignore_err (deleteMaster (List.filter IsControlPlaneMachine machines));
  _ ← deleteFirewalls;
  _ ← ignore_err (deleteDisk (MachineDiskName <$> machines));
  _ ← ignore_err deleteLoadBalancer;
  _ ← set_Phase ClusterDeleted;
  cluster ← the_cluster;
  _ ← store (op_Update (st_Clusters sp) (Some cluster));
  mret ().

(** ** create.go *)

(** The name of the ssh user goes to a copy of the configuration. *)
Definition GetDefaultMachineProviderSpec (sku : string) (role : MachineRole) : GoM env (option RawExtension) :=
  cluster ← the_cluster;
  let config := Config (Spec cluster) in
  raw ← on_err (wrap "Error encoding provider spec for gce cluster") (lift (gce.EncodeMachineSpec (Some
    {| gce.gm_Meta := ({| APIVersion := gce.GCEProviderGroupName +:+ "/" +:+ gce.GCEProviderAPIVersion;
                          Kind := gce.GCEMachineProviderKind |}, named "");
       gce.gm_Roles := [role]; gce.gm_Zone := Zone (Cloud config); gce.gm_MachineType := sku;
       gce.gm_OS := InstanceImage (Cloud config);
       gce.gm_Disks := [{| gce.InitializeParams := {| gce.DiskSizeGb := 30; gce.DiskType := "pd-standard" |} |}] |})));
  mret (Some raw).

Definition default_gce_cluster (cluster : Cluster) : outcome Cluster :=
  let config := Config (Spec cluster) in
  let cloud := Cloud config in
  match KubeletExtraArgs config with
  | None => Panic "assignment to entry in nil map"
  | Some args =>
      match region_of (Zone cloud) with
      | Err e => Err e
      | Panic w => Panic w
      | Ok region =>
          let cluster := with_KubeletExtraArgs cluster (<["cloud-provider" := CloudProviderName cloud]> args) in
          let cloud := with_defaults (with_region_image cloud region "" (spec_Linode cloud)) (NodePrefix cluster) in
          Ok (with_cluster_config cluster (λ c,
                with_control_args (with_Cloud c cloud)
                  {[ "cloud-provider" := CloudProviderName cloud ]}
                  (<["cloud-config" := "/etc/kubernetes/ccm/cloud-config"]>
                     {[ "cloud-provider" := CloudProviderName cloud ]})))
      end
  end.

Definition SetDefaultCluster : GoM env () :=
  cluster ← the_cluster;
  cluster ← lift (default_gce_cluster cluster);
  _ ← set_Cluster cluster;
  certs ← gets (λ e, sc_Certs (e_scope e));
  match certs with
  | None => nil_panic
  | Some certs =>
      a ← lift (gce.SetGCEclusterProviderConfig (ClusterAPI (Spec cluster)) (Project (Cloud (Config (Spec cluster)))) certs);
      set_Cluster (set_capi cluster a)
  end.

Definition GetKubeConfig : GoM env KubeConfig :=
  cluster ← the_cluster;
  ca ← GetCaCertPair;
  store_rand (GetAdminConfig sp cluster ca).

(** ** clusterapi.go *)
Definition getMachineSetupConfig (config : ClusterConfig) : outcome string :=
  text ← machineSetupConfig_text
    {| setup_OS := InstanceImage (Cloud config); OSFamily := OSName (Cloud config);
       setup_KubernetesVersion := TrimPrefix (KubernetesVersion config) "v";
       ControlPlaneStartupScript := ""; NodeStartupScript := "" |};
  yaml_string text.

Definition GetClusterAPIComponents : GoM env string :=
  cluster ← the_cluster;
  let config := Config (Spec cluster) in
  cred ← store (op_Get (st_Credentials sp) (CredentialName config));
  machineSetupConfig ← lift (getMachineSetupConfig config);
  key ← conn_SSHKey;
  lift (ControllerManager_text
    {| MachineConfig := machineSetupConfig;
       ServiceAccount := base64_encode (credential_ServiceAccount (cred_Spec cred));
       SSHPrivateKey := base64_encode (SSHKey_PrivateKey key); SSHPublicKey := base64_encode (SSHKey_PublicKey key);
       SSHUser := base64_encode "clusterapi"; ControllerImage := MachineControllerImage |}).

Definition ClusterManager : Interface := {|
  cm_SetDefaultCluster := SetDefaultCluster;
  cm_GetDefaultMachineProviderSpec := GetDefaultMachineProviderSpec;
  cm_SetCloudConnector := connect newconnector;
  cm_PrepareCloud := PrepareCloud;
  cm_EnsureMaster := EnsureMaster;
  cm_GetMasterSKU := GetMasterSKU;
  cm_ApplyScale := panic "implement me";
  cm_ApplyDelete := ApplyDelete;
  cm_GetAdminClient := GetAdminClient (CC := CC) (BC := BC) sp;
  cm_CreateCredentials _ := mret ();
  cm_GetClusterAPIComponents := GetClusterAPIComponents
|}.
End provider.
End Gce.
