(* ===== verification/Dokube.v ===== *)
(** * DigitalOcean's managed Kubernetes (cloud/providers/dokube, apis/v1alpha1/dokube)

    The cluster manager as a record [Interface] of Cloud.v, over the class [DokubeAPI]
    of calls on the state of the cloud. *)
From stdpp Require Import base list gmap strings pretty fin_maps.
From S2P Require Import Prelude GoStrings Api StoreSpec Provider Certs Kube Cloud Apply Startup ProviderParts Managed.

Module Dokube.

Definition UID : string := "dokube".

(** ** github.com/digitalocean/godo, the fields that are used *)
Record KubernetesCluster := { kl_ID : string; kl_Endpoint : string; kl_State : string }.
Record KubernetesNodePool := { np_ID : string; np_Name : string }.
Record NodePoolRequest := { npr_Name : string; npr_Size : string; npr_Count : Z }.
Record KubernetesClusterCreateRequest := {
  kcr_Name : string; kcr_RegionSlug : string; kcr_VersionSlug : string; kcr_NodePools : list NodePoolRequest
}.

(** ** apis/v1alpha1/dokube *)
Record DokubeMachineProviderConfig := { dk_TypeMeta : TypeMeta; Size : string }.
Definition DokubeProviderGroupName : string := "dokubeproviderconfig".
Definition DokubeProviderKind : string := "DokubeClusterProviderConfig".
Definition DokubeProviderAPIVersion : string := "v1alpha1".

Class DokubeText := {
  json_Config : DokubeMachineProviderConfig → outcome RawExtension;
  DokubeProviderConfig : RawExtension → outcome DokubeMachineProviderConfig;   (* yaml *)
  url_Host : string → outcome string;                                         (* url.Parse *)
  clientcmd_Load : string → outcome ClientConfig
}.

Section json.
Context `{!DokubeText}.

Definition SetLDokubeClusterProviderConfig (cluster : CapiCluster) : outcome CapiCluster :=
  bytes ← json_Config {| dk_TypeMeta := {| APIVersion := DokubeProviderGroupName +:+ "/" +:+ DokubeProviderAPIVersion;
                                           Kind := DokubeProviderKind |}; Size := "" |};
  Ok (with_provider_spec cluster bytes).

(** [DokubeProviderConfig(ng...ProviderSpec.Value.Raw)] *)
Definition config_of (ng : MachineSet) : outcome DokubeMachineProviderConfig :=
  match node_spec ng with
  | None => Panic "invalid memory address or nil pointer dereference"
  | Some raw => DokubeProviderConfig raw
  end.

Definition pool_request (ng : MachineSet) : outcome NodePoolRequest :=
  config ← config_of ng;
  n ← the_replicas ng;
  Ok {| npr_Name := machineset_Name ng; npr_Size := Size config; npr_Count := n |}.
End json.

Class DokubeAPI (X : Type) := {
  credential_Token : CredentialSpec → outcome string;
  Tags_Create : string → string → GoM X ();
  Tags_Delete : string → string → GoM X ();
  Kubernetes_Create : string → KubernetesClusterCreateRequest → GoM X KubernetesCluster;
  Kubernetes_Get : string → string → GoM X KubernetesCluster;
  Kubernetes_Delete : string → string → GoM X ();
  Kubernetes_GetKubeConfig : string → string → GoM X string;
  Kubernetes_ListNodePools : string → string → GoM X (list KubernetesNodePool);
  Kubernetes_GetNodePool : string → string → string → GoM X (option KubernetesNodePool);
  Kubernetes_CreateNodePool : string → string → NodePoolRequest → GoM X ();
  Kubernetes_DeleteNodePool : string → string → string → GoM X ();
  Kubernetes_UpdateNodePool : string → string → string → string → Z → GoM X ()   (* ID, name, count *)
}.

Section provider.
Context {S Crt Key SSHKey X KC CC BC : Type}.
Context `{!Crypto Crt Key SSHKey, !CertText Crt Key, !Clock, !Polling, !Kubernetes X KC CC BC}.
Context `{!PemText Crt Key, !CertDelete S, !DokubeText, !DokubeAPI X, !Connector X}.
Context (sp : ResourceInterface S Crt Key).
Notation env := (env (S := S) (Crt := Crt) (Key := Key) (SSHKey := SSHKey) (X := X) (KC := KC)).
Notation Interface := (Interface (S := S) (Crt := Crt) (Key := Key) (SSHKey := SSHKey) (X := X)
                                 (KC := KC)).

(** ** cloud.go *)

(** [Cloud.Dokube.ClusterID] *)
Definition cluster_id : GoM env string :=
  cluster ← the_cluster;
  match spec_Dokube (Cloud (Config (Spec cluster))) with
  | None => nil_panic
  | Some d => mret (ClusterID d)
  end.

Definition set_cluster_id (id : string) : GoM env () :=
  cluster ← the_cluster;
  match spec_Dokube (Cloud (Config (Spec cluster))) with
  | None => nil_panic
  | Some _ => set_Cluster (with_cluster_config cluster (λ config, with_Cloud config
      (with_managed (Cloud config) (InstanceImage (Cloud config)) (spec_GKE (Cloud config)) (Some {| ClusterID := id |}))))
  end.

(** The answer is the reason why not. *)
Definition IsUnauthorized (token : string) : GoM env (option string) :=
  now ← Now;
  let name := "check-write-access:" +:+ pretty (now / 1000000000)%Z in
  created ← attempt (on_cloud (Tags_Create token name));
  match created with
  | inr _ => mret (Some "Credential missing WRITE scope")
  | inl _ =>
      deleted ← attempt (on_cloud (Tags_Delete token name));
      mret (match deleted with inr _ => Some "Unable to delete tag" | inl _ => None end)
  end.

Definition newconnector : GoM env string :=
  cluster ← the_cluster;
  let name := CredentialName (Config (Spec cluster)) in
  cred ← store (op_Get (st_Credentials sp) name);
  token ← lift (credential_Token (cred_Spec cred));
  msg ← IsUnauthorized token;
  match msg with
  | Some msg => throw ("credential `" +:+ name +:+ "` does not have necessary authorization. Reason: " +:+ msg)
  | None => mret token
  end.

(** Errors of the call are dropped: its answer is then nil. *)
Definition waitForClusterCreation (cluster : KubernetesCluster) : GoM env () :=
  PollImmediate retries (
    r ← attempt (call (λ t, Kubernetes_Get t (kl_ID cluster)));
    match r with
    | inr _ => nil_panic
    | inl c => mret (negb (bool_decide (kl_State c = "provisioning")))
    end).

Definition getCluster (clusterID : string) : GoM env KubernetesCluster := call (λ t, Kubernetes_Get t clusterID).

Fixpoint pool_requests (nodeGroups : list MachineSet) : outcome (list NodePoolRequest) :=
  match nodeGroups with
  | [] => Ok []
  | ng :: nodeGroups => r ← pool_request ng; rs ← pool_requests nodeGroups; Ok (r :: rs)
  end.

(** The reason is kept in memory only.  After a failing [getCluster] the log line
    reads the ID of a nil cluster. *)
Definition createCluster (cluster : Cluster) : GoM env KubernetesCluster :=
  nodeGroups ← store (op_List (st_MachineSets sp (cluster_Name cluster)));
  nodePools ← lift (pool_requests nodeGroups);
  kubeCluster ← call (λ t, Kubernetes_Create t
    {| kcr_Name := cluster_Name cluster; kcr_RegionSlug := Zone (Cloud (Config (Spec cluster)));
       kcr_VersionSlug := KubernetesVersion (Config (Spec cluster)); kcr_NodePools := nodePools |});
  waited ← attempt (waitForClusterCreation kubeCluster);
  match waited with
  | inr e => c ← the_cluster; _ ← set_Cluster (with_Reason c e); throw e
  | inl _ =>
      got ← attempt (getCluster (kl_ID kubeCluster));
      match got with
      | inr _ => nil_panic
      | inl c => mret c
      end
  end.

Definition getNodePoolIDFromName (name : string) : GoM env string :=
  id ← cluster_id;
  knps ← call (λ t, Kubernetes_ListNodePools t id);
  match List.find (λ knp, bool_decide (np_Name knp = name)) knps with
  | Some knp => mret (np_ID knp)
  | None => throw ("NodePool with name " +:+ name +:+ " not found!")
  end.

Definition getNodePool (ng : MachineSet) : GoM env (option KubernetesNodePool) :=
  npID ← getNodePoolIDFromName (machineset_Name ng);
  id ← cluster_id;
  call (λ t, Kubernetes_GetNodePool t id npID).

Definition addNodePool (ng : MachineSet) : GoM env () :=
  req ← lift (pool_request ng);
  id ← cluster_id;
  call (λ t, Kubernetes_CreateNodePool t id req).

Definition deleteNodePool (ng : MachineSet) : GoM env () :=
  npID ← getNodePoolIDFromName (machineset_Name ng);
  id ← cluster_id;
  call (λ t, Kubernetes_DeleteNodePool t id npID).

Definition adjustNodePool (ng : MachineSet) : GoM env () :=
  npID ← getNodePoolIDFromName (machineset_Name ng);
  count ← lift (the_replicas ng);
  id ← cluster_id;
  call (λ t, Kubernetes_UpdateNodePool t id npID (machineset_Name ng) count).

(** ** ngm.go *)
Definition ng_Apply (ng : MachineSet) : GoM env () :=
  np ← getNodePool ng;
  _ ← match np with
      | None => addNodePool ng
      | Some _ =>
          del ← lift (to_delete ng);
          if del : bool then
            _ ← deleteNodePool ng;
            delete_machineset sp ng
          else adjustNodePool ng
      end;
  record_replicas sp ng.

(** ** wrapper.go *)
Definition retrieveClusterStatus (cluster : KubernetesCluster) : GoM env () :=
  host ← lift (url_Host (kl_Endpoint cluster));
  c ← the_cluster;
  set_Cluster (add_endpoint c host 0).

(** [kc.Clusters[currentContext]], [kc.AuthInfos[kc.Contexts[currentContext].AuthInfo]] *)
Definition current_cluster (kc : ClientConfig) : outcome ClientCluster :=
  match Clusters kc !! CurrentContext kc with
  | None => Panic "invalid memory address or nil pointer dereference"
  | Some c => Ok c
  end.
Definition current_auth (kc : ClientConfig) : outcome ClientAuthInfo :=
  match Contexts kc !! CurrentContext kc ≫= λ x, AuthInfos kc !! cx_AuthInfo x with
  | None => Panic "invalid memory address or nil pointer dereference"
  | Some a => Ok a
  end.

Definition StoreCertificate : GoM env () :=
  id ← cluster_id;
  yaml ← call (λ t, Kubernetes_GetKubeConfig t id);
  kc ← lift (clientcmd_Load yaml);
  _ ← replace_ca sp (Key := Key) (lift (c ← current_cluster kc; ParseCertsPEM (Key := Key) (cc_CertificateAuthorityData c)));
  auth ← lift (current_auth kc);
  adminCrt ← lift (ParseCertsPEM (Key := Key) (ca_ClientCertificateData auth));
  adminKey ← lift (ParsePrivateKeyPEM (Crt := Crt) (ca_ClientKeyData auth));
  store_admin sp adminCrt adminKey.

(** ** apply.go *)
Definition PrepareCloud : GoM env () :=
  id ← cluster_id;
  if decide (id ≠ "") then mret () else
  cluster ← the_cluster;
  created ← createCluster cluster;
  _ ← set_cluster_id (kl_ID created);
  _ ← retrieveClusterStatus created;
  _ ← StoreCertificate;
  cluster ← the_cluster;
  certs ← store_rand (GetPharmerCerts sp (cluster_Name cluster));
  _ ← set_Certs certs;
  _ ← store (op_Update (st_Clusters sp) (Some cluster));
  mret ().

Definition ApplyScale : GoM env () := scale_all sp ng_Apply.

Definition ApplyDelete : GoM env () :=
  cluster ← the_cluster;
  _ ← (if decide (Phase (Status cluster) = ClusterReady) then set_Phase ClusterDeleting else mret ());
  _ ← UpdateStatus sp;
  id ← cluster_id;
  _ ← call (λ t, Kubernetes_Delete t id);
  _ ← set_Phase ClusterDeleted;
  cluster ← the_cluster;
  _ ← store (op_Update (st_Clusters sp) (Some cluster));
  mret ().

(** ** create.go *)
Definition GetDefaultMachineProviderSpec (sku : string) (role : MachineRole) : GoM env (option RawExtension) :=
  raw ← lift (json_Config {| dk_TypeMeta := zero_TypeMeta; Size := sku |});
  mret (Some raw).

Definition SetDefaultCluster : GoM env () :=
  cluster ← the_cluster;
  let cluster := with_cluster_config cluster (λ config, with_SSHUserName (with_Cloud config
      (with_managed (Cloud config) "ubuntu-16-04-x64" (spec_GKE (Cloud config)) (Some {| ClusterID := "" |}))) "root") in
  _ ← set_Cluster cluster;
  a ← lift (SetLDokubeClusterProviderConfig (ClusterAPI (Spec cluster)));
  set_Cluster (set_capi cluster a).

(** ** context.go *)
Definition GetKubeConfig : GoM env KubeConfig :=
  cluster ← the_cluster;
  admin ← store (ri_cert_Get sp (cluster_Name cluster) "admin");
  ca ← GetCaCertPair;
  mret (pharmer_kubeconfig cluster (APIServerURL cluster) (cert_text (Cert ca))
          (cert_user (cert_text admin.1) (key_text admin.2))).

Definition NewDokubeAdminClient : GoM env KC :=
  cluster ← the_cluster;
  admin ← store_rand (GetAdminCertificate sp (cluster_Name cluster));
  let host := APIServerURL cluster in
  if decide (host = "") then throw ("failed to detect api server url for cluster " +:+ cluster_Name cluster) else
  ca ← GetCaCertPair;
  lift (kubernetes_NewForConfig {| rc_Host := host; rc_CAData := cert_text (Cert ca); rc_CertData := cert_text admin.1;
                                   rc_KeyData := key_text admin.2; rc_BearerToken := ""; rc_Username := "";
                                   rc_Password := "" |}).

Definition ClusterManager : Interface := {|
  cm_SetDefaultCluster := SetDefaultCluster;
  cm_GetDefaultMachineProviderSpec := GetDefaultMachineProviderSpec;
  cm_SetCloudConnector := connect newconnector;
  cm_PrepareCloud := PrepareCloud;
  cm_EnsureMaster _ := mret ();
  cm_GetMasterSKU _ := "";
  cm_ApplyScale := ApplyScale;
  cm_ApplyDelete := ApplyDelete;
  cm_GetAdminClient := NewDokubeAdminClient;
  cm_CreateCredentials _ := mret ();
  cm_GetClusterAPIComponents := mret ""
|}.
End provider.
End Dokube.
