(* ===== verification/Gke.v ===== *)
(** * Google's managed Kubernetes (cloud/providers/gke)

    The cluster manager as a record [Interface] of Cloud.v, over the class [GkeAPI] of
    calls on the state of the cloud.  The connector keeps the service account. *)
From stdpp Require Import base list gmap strings pretty fin_maps.
From S2P Require Import Prelude GoStrings Api StoreSpec Provider Certs Kube Cloud Apply Startup ProviderParts Managed.
From S2P Require Import CloudApi.

Module Gke.

Definition UID : string := "gke".
Definition defaultNetwork : string := "default".

(** ** google.golang.org/api/container/v1, the fields that are used *)
Record NodeConfig := { nc_MachineType : string; nc_DiskSizeGb : Z; nc_ImageType : string }.
Record NodePool := { np_Config : NodeConfig; InitialNodeCount : Z; np_Name : string }.

(** A new cluster; the master issues client certificates and network policies are on. *)
Record NewCluster := {
  nk_ClusterIpv4Cidr : string; nk_Name : string; nk_InitialClusterVersion : string; nk_Username : string;
  nk_Password : string; nk_Network : string; nk_NetworkPolicy : string; nk_NodePools : list NodePool
}.
Record ContainerCluster := {
  cc_Endpoint : string; ClusterCaCertificate : string; ClientCertificate : string; ClientKey : string
}.

Class GkeAPI (X : Type) := {
  credential_GCE : CredentialSpec → outcome (string * string);       (* project, service account *)
  NewServices : string → outcome ();
  gke_GeneratePassword : nat → string;
  Clusters_List : string → string → string → GoM X ();               (* project, zone *)
  Clusters_Get : string → string → string → string → GoM X ContainerCluster;
  Clusters_Create : string → string → string → NewCluster → GoM X string;
  Clusters_Delete : string → string → string → string → GoM X string;
  Operations_Get : string → string → string → string → GoM X string; (* its status *)
  Networks_Get : string → string → string → GoM X string;            (* its range *)
  Networks_Insert : string → string → string → string → GoM X ();
  NodePools_Get : string → string → string → string → string → GoM X ();
  NodePools_Create : string → string → string → string → NodePool → GoM X string;
  NodePools_Delete : string → string → string → string → string → GoM X string;
  NodePools_SetSize : string → string → string → string → string → Z → GoM X string
}.

(** ** namer.go *)
Definition AdminUsername : string := "pharmer".

Section provider.
Context {S Crt Key SSHKey X KC CC BC : Type}.
Context `{!Crypto Crt Key SSHKey, !CertText Crt Key, !Clock, !Polling, !Kubernetes X KC CC BC}.
Context `{!PemText Crt Key, !CertDelete S, !gce.GceJson, !GkeAPI X, !Connector X}.
Context (sp : ResourceInterface S Crt Key).
Notation env := (env (S := S) (Crt := Crt) (Key := Key) (SSHKey := SSHKey) (X := X) (KC := KC)).
Notation Interface := (Interface (S := S) (Crt := Crt) (Key := Key) (SSHKey := SSHKey) (X := X)
                                 (KC := KC)).

(** ** cloud.go *)

(** Calls with the project and the zone of the cluster in the scope *)
Definition in_zone {A} (f : string → string → string → GoM X A) : GoM env A :=
  cluster ← the_cluster;
  let cloud := Cloud (Config (Spec cluster)) in
  call (λ t, f t (Project cloud) (Zone cloud)).

Definition IsUnauthorized (token project : string) : GoM env (option string) :=
  listed ← attempt (on_cloud (Clusters_List token project "us-central1-b"));
  mret (match listed with inr _ => Some "Credential missing required authorization" | inl _ => None end).

Definition newconnector : GoM env string :=
  cluster ← the_cluster;
  cred ← store (op_Get (st_Credentials sp) (CredentialName (Config (Spec cluster))));
  typed ← lift (credential_GCE (cred_Spec cred));
  _ ← set_Cluster (with_cluster_config cluster (λ c, with_Cloud c (with_Project (Cloud c) typed.1)));
  _ ← lift (NewServices typed.2);
  msg ← IsUnauthorized typed.2 typed.1;
  match msg with
  | Some msg => throw msg
  | None => mret typed.2
  end.

(** Errors of the call are no answer yet. *)
Definition waitForZoneOperation (operation : string) : GoM env () :=
  PollImmediate retries (
    r ← attempt (in_zone (λ t project zone, Operations_Get t project zone operation));
    mret (match r with inr _ => false | inl status => bool_decide (status = "DONE") end)).

Definition ensureNetworks : GoM env () :=
  cluster ← the_cluster;
  block ← lift (first_block (PodsCIDRBlocks (ClusterNetwork (capi_Spec (ClusterAPI (Spec cluster))))));
  in_zone (λ t project _, Networks_Insert t project block defaultNetwork).

Definition getNetworks : GoM env bool :=
  range ← in_zone (λ t project _, Networks_Get t project defaultNetwork);
  cluster ← the_cluster;
  _ ← set_Cluster (with_PodsCIDRBlocks cluster [range]);
  mret true.

Definition createCluster (cluster : NewCluster) : GoM env string :=
  in_zone (λ t project zone, Clusters_Create t project zone cluster).

Definition deleteCluster : GoM env string :=
  cluster ← the_cluster;
  in_zone (λ t project zone, Clusters_Delete t project zone (cluster_Name cluster)).

(** [providerSpec.Disks[0].InitializeParams.DiskSizeGb] *)
Definition node_pool (ng : MachineSet) : outcome NodePool :=
  providerSpec ← gce.MachineConfigFromProviderSpec (node_spec ng);
  match gce.gm_Disks providerSpec with
  | [] => Panic "index out of range [0] with length 0"
  | disk :: _ =>
      n ← the_replicas ng;
      Ok {| np_Config := {| nc_MachineType := gce.gm_MachineType providerSpec;
                            nc_DiskSizeGb := gce.DiskSizeGb (gce.InitializeParams disk);
                            nc_ImageType := gce.gm_OS providerSpec |};
            InitialNodeCount := n; np_Name := machineset_Name ng |}
  end.

Definition addNodePool (ng : MachineSet) : GoM env string :=
  np ← lift (node_pool ng);
  cluster ← the_cluster;
  in_zone (λ t project zone, NodePools_Create t project zone (cluster_Name cluster) np).

Definition deleteNoodPool (ng : MachineSet) : GoM env string :=
  cluster ← the_cluster;
  in_zone (λ t project zone, NodePools_Delete t project zone (cluster_Name cluster) (machineset_Name ng)).

Definition adjustNodePool (ng : MachineSet) : GoM env string :=
  cluster ← the_cluster;
  n ← lift (the_replicas ng);
  in_zone (λ t project zone, NodePools_SetSize t project zone (cluster_Name cluster) (machineset_Name ng) n).

(** ** wrapper.go *)
Fixpoint node_pools (nodeGroups : list MachineSet) : outcome (list NodePool) :=
  match nodeGroups with
  | [] => Ok []
  | ng :: nodeGroups => np ← node_pool ng; nps ← node_pools nodeGroups; Ok (np :: nps)
  end.

(** [config.Cloud.GKE]: nil panics. *)
Definition the_gke (cluster : Cluster) : outcome GKESpec :=
  match spec_GKE (Cloud (Config (Spec cluster))) with
  | None => Panic "invalid memory address or nil pointer dereference"
  | Some g => Ok g
  end.

Definition encodeCluster (cluster : Cluster) : GoM env NewCluster :=
  nodeGroups ← store (op_List (st_MachineSets sp (cluster_Name cluster)));
  nodePools ← lift (node_pools nodeGroups);
  block ← lift (first_block (PodsCIDRBlocks (ClusterNetwork (capi_Spec (ClusterAPI (Spec cluster))))));
  gke ← lift (the_gke cluster);
  let config := Config (Spec cluster) in
  mret {| nk_ClusterIpv4Cidr := block; nk_Name := cluster_Name cluster;
          nk_InitialClusterVersion := KubernetesVersion config; nk_Username := UserName gke;
          nk_Password := Password gke; nk_Network := gke_NetworkName gke;
          nk_NetworkPolicy := NetworkProvider (Cloud config); nk_NodePools := nodePools |}.

Definition retrieveClusterStatus (cluster : ContainerCluster) : GoM env () :=
  c ← the_cluster;
  set_Cluster (add_endpoint c (cc_Endpoint cluster) 0).

Definition StoreCertificate (cluster : ContainerCluster) : GoM env () :=
  crt ← replace_ca sp (Key := Key) (lift (caCert ← base64_decode (Crt := Crt) (Key := Key) (ClusterCaCertificate cluster);
                                          ParseCertsPEM (Key := Key) caCert));
  _ ← set_scope_ca crt;
  adminCert ← lift (base64_decode (Crt := Crt) (Key := Key) (ClientCertificate cluster));
  adminKey ← lift (base64_decode (Crt := Crt) (Key := Key) (ClientKey cluster));
  aCrt ← lift (ParseCertsPEM (Key := Key) adminCert);
  aKey ← lift (ParsePrivateKeyPEM (Crt := Crt) adminKey);
  store_admin sp aCrt aKey.

(** ** ngm.go *)

(** The pool is [nil] for any error of the call. *)
Definition ng_Apply (ng : MachineSet) : GoM env () :=
  cluster ← the_cluster;
  np ← attempt (in_zone (λ t project zone, NodePools_Get t project zone (cluster_Name cluster) (machineset_Name ng)));
  match np with
  | inr _ =>
      op ← addNodePool ng;
      _ ← waitForZoneOperation op;
      record_replicas sp ng
  | inl _ =>
      del ← lift (to_delete ng);
      if del : bool then
        op ← deleteNoodPool ng;
        _ ← waitForZoneOperation op;
        delete_machineset sp ng
      else
        op ← adjustNodePool ng;
        _ ← waitForZoneOperation op;
        record_replicas sp ng
  end.

(** ** context.go *)
Definition SetCloudConnector : GoM env () :=
  conn ← gets (λ e, conn_token (e_cloud e));
  match conn with
  | Some _ => mret ()
  | None => connect newconnector
  end.

(** ** apply.go *)
Definition Clusters_Get_named (name : string) : GoM env ContainerCluster :=
  in_zone (λ t project zone, Clusters_Get t project zone name).

Definition PrepareCloud : GoM env () :=
  _ ← SetCloudConnector;
  found ← attempt getNetworks;
  _ ← match found with inl _ => mret () | inr _ => ensureNetworks end;
  cluster ← the_cluster;
  got ← attempt (Clusters_Get_named (cluster_Name cluster));
  kube ← match got with
         | inl k => mret k
         | inr _ =>
             new ← encodeCluster cluster;
             op ← createCluster new;
             _ ← waitForZoneOperation op;
             k ← Clusters_Get_named (cluster_Name cluster);
             _ ← StoreCertificate k;
             mret k
         end;
  retrieveClusterStatus kube.

Definition ApplyScale : GoM env () := scale_all sp ng_Apply.

Definition ApplyDelete : GoM env () :=
  _ ← UpdateStatus sp;
  op ← deleteCluster;
  waited ← attempt (waitForZoneOperation op);
  match waited with
  | inl _ => mret ()
  | inr e => c ← the_cluster; _ ← set_Cluster (with_Reason c e); throw e
  end.

(** ** create.go *)
Definition GetDefaultMachineProviderSpec (sku : string) (role : MachineRole) : GoM env (option RawExtension) :=
  cluster ← the_cluster;
  raw ← lift (gce.json_MachineSpec
    {| gce.gm_Meta := (zero_TypeMeta, named ""); gce.gm_Roles := [role]; gce.gm_Zone := Zone (Cloud (Config (Spec cluster)));
       gce.gm_MachineType := sku; gce.gm_OS := "";
       gce.gm_Disks := [{| gce.InitializeParams := {| gce.DiskSizeGb := 100; gce.DiskType := "pd-standard" |} |}] |});
  mret (Some raw).

Definition SetDefaultCluster : GoM env () :=
  cluster ← the_cluster;
  password ← draw_env (λ n, Ok (gke_GeneratePassword (X := X) n));
  set_Cluster (with_cluster_config cluster (λ config, with_SSHUserName (with_Cloud config
    (with_managed (Cloud config) "Ubuntu"
       (Some {| UserName := AdminUsername; Password := password; gke_NetworkName := "default" |})
       (spec_Dokube (Cloud config)))) AdminUsername)).

(** ** context.go *)
Definition NewGKEAdminClient : GoM env KC :=
  cluster ← the_cluster;
  admin ← store_rand (GetAdminCertificate sp (cluster_Name cluster));
  let host := APIServerURL cluster in
  if decide (host = "") then throw ("failed to detect api server url for cluster " +:+ cluster_Name cluster) else
  gke ← lift (the_gke cluster);
  ca ← GetCaCertPair;
  lift (kubernetes_NewForConfig
    {| rc_Host := host; rc_CAData := cert_text (Cert ca); rc_CertData := cert_text admin.1;
       rc_KeyData := key_text admin.2; rc_BearerToken := ""; rc_Username := UserName gke;
       rc_Password := Password gke |}).

Definition GetKubeConfig : GoM env KubeConfig :=
  cluster ← the_cluster;
  ca ← GetCaCertPair;
  gke ← lift (the_gke cluster);
  mret (pharmer_kubeconfig cluster (APIServerURL cluster) (cert_text (Cert ca)) (λ userName,
    {| na_Name := userName; na_ClientCertificateData := ""; na_ClientKeyData := ""; na_Token := "";
       na_Username := UserName gke; na_Password := Password gke; na_Exec := None |})).

Definition ClusterManager : Interface := {|
  cm_SetDefaultCluster := SetDefaultCluster;
  cm_GetDefaultMachineProviderSpec := GetDefaultMachineProviderSpec;
  cm_SetCloudConnector := SetCloudConnector;
  cm_PrepareCloud := PrepareCloud;
  cm_EnsureMaster _ := mret ();
  cm_GetMasterSKU _ := "";
  cm_ApplyScale := ApplyScale;
  cm_ApplyDelete := ApplyDelete;
  cm_GetAdminClient := NewGKEAdminClient;
  cm_CreateCredentials _ := mret ();
  cm_GetClusterAPIComponents := mret ""
|}.
End provider.
End Gke.
