(* ===== verification/AwsApi.v ===== *)
(** * The objects of Amazon's clouds (apis/v1alpha1/aws)

    The provider's part of clusters and machines with their encodings, the tags of
    resources, subnets and the rules of security groups.  encoding/json is the class
    [AwsJson], tagging a resource the class [EC2Tags].  A slice of pointers is a list of
    values: what a function sorts in place is returned with the answer. *)
From stdpp Require Import base list gmap strings pretty fin_maps sorting.
From Stdlib Require Import Ascii.
From S2P Require Import Prelude GoStrings GoPath Api StoreSpec Provider Certs Kube Cloud Apply Startup ProviderParts.

Module aws.

(** ** tags.go *)
Abbreviation Map := (gmap string string) (only parsing).

Definition NameKubernetesClusterPrefix : string := "kubernetes.io/cluster/".
Definition NameAWSProviderPrefix : string := "sigs.k8s.io/cluster-api-provider-aws/".
Definition NameAWSProviderManaged : string := NameAWSProviderPrefix +:+ "managed".
Definition NameAWSClusterAPIRole : string := NameAWSProviderPrefix +:+ "role".
Definition ResourceLifecycleOwned : string := "owned".
Definition ResourceLifecycleShared : string := "shared".
Definition ValueAPIServerRole : string := "apiserver".
Definition ValueBastionRole : string := "bastion".
Definition ValueCommonRole : string := "common".
Definition ValuePublicRole : string := "public".
Definition ValuePrivateRole : string := "private".

(** [reflect.DeepEqual]: a nil map is no empty one. *)
Definition Equals (m other : option Map) : bool := bool_decide (m = other).

Definition HasOwned (m : Map) (cluster : string) : bool :=
  match m !! PathJoin [NameKubernetesClusterPrefix; cluster] with
  | Some value => bool_decide (value = ResourceLifecycleOwned)
  | None => false
  end.

Definition HasManaged (m : Map) : bool :=
  match m !! NameAWSProviderManaged with Some value => bool_decide (value = "true") | None => false end.

Definition GetRole (m : Map) : string := default "" (m !! NameAWSClusterAPIRole).

Definition Difference (m other : Map) : Map :=
  map_fold (λ key value res, if decide (other !! key = Some value) then res else <[key := value]> res) ∅ m.

Record BuildParams := {
  Lifecycle : string; ClusterName : string; ResourceID : string; bp_Name : option string; bp_Role : option string;
  Additional : Map
}.

Definition ClusterKey (name : string) : string := NameKubernetesClusterPrefix +:+ name.

Definition Build (params : BuildParams) : Map :=
  let tags := map_fold (λ k v tags, <[k := v]> tags) ∅ (Additional params) in
  let tags := <[ClusterKey (ClusterName params) := Lifecycle params]> tags in
  let tags := if decide (Lifecycle params = ResourceLifecycleOwned) then <[NameAWSProviderManaged := "true"]> tags
              else tags in
  let tags := match bp_Role params with Some role => <[NameAWSClusterAPIRole := role]> tags | None => tags end in
  match bp_Name params with Some name => <["Name" := name]> tags | None => tags end.

Class EC2Tags (X : Type) := CreateTags : list string → Map → GoM X ().

(** [%q] of a printable text *)
Fixpoint escaped (s : string) : string :=
  match s with
  | "" => ""
  | String c s =>
      if decide (c = "034"%char ∨ c = "\"%char) then String "\"%char (String c (escaped s)) else String c (escaped s)
  end.
Definition quoted (s : string) : string := String "034"%char (escaped s +:+ String "034"%char "").

Section tagging.
Context {X : Type} `{!EC2Tags X}.

(** aws.Apply, with the client of [ApplyParams] *)
Definition Apply (params : BuildParams) : GoM X () :=
  on_err (wrap ("failed to tag resource " +:+ quoted (ResourceID params) +:+ " in cluster " +:+
                quoted (ClusterName params)))
         (CreateTags [ResourceID params] (Build params)).

Definition Ensure (current : option Map) (params : BuildParams) : GoM X () :=
  if Equals current (Some (Build params)) then mret () else Apply params.
End tagging.

(** ** types.go *)
Record Filter := { flt_Name : string; flt_Values : list string }.
Record AWSResourceReference := { ref_ID : option string; ref_ARN : option string; ref_Filters : list Filter }.
Record AWSMachineProviderCondition := {
  mc_Type : string; mc_Status : string; mc_LastProbeTime : Time; mc_LastTransitionTime : Time;
  mc_Reason : string; mc_Message : string
}.
Record ClassicELBListener := {
  l_Protocol : string; l_Port : Z; l_InstanceProtocol : string; l_InstancePort : Z
}.
Record ClassicELBHealthCheck := {
  hc_Target : string; hc_Interval : Z; hc_Timeout : Z; hc_HealthyThreshold : Z; hc_UnhealthyThreshold : Z
}.
Record ClassicELB := {
  elb_Name : string; elb_DNSName : string; elb_Scheme : string; elb_SubnetIDs : list string;
  elb_SecurityGroupIDs : list string; elb_Listeners : list ClassicELBListener;
  elb_HealthCheck : option ClassicELBHealthCheck; elb_IdleTimeout : Z; elb_Tags : Map
}.

(** Subnets *)
Record SubnetSpec := {
  sn_ID : string; sn_CidrBlock : string; sn_AvailabilityZone : string; IsPublic : bool;
  sn_RouteTableID : option string; sn_NatGatewayID : option string; sn_Tags : Map
}.

(** Later subnets of the same ID win, earlier ones are found. *)
Definition ToMap (s : list SubnetSpec) : gmap string SubnetSpec := foldl (λ res x, <[sn_ID x := x]> res) ∅ s.
Definition FindByID (s : list SubnetSpec) (id : string) : option SubnetSpec :=
  List.find (λ x, bool_decide (sn_ID x = id)) s.
Definition FilterPrivate (s : list SubnetSpec) : list SubnetSpec := List.filter (λ x, negb (IsPublic x)) s.
Definition FilterPublic (s : list SubnetSpec) : list SubnetSpec := List.filter IsPublic s.

(** Rules of security groups *)
Record IngressRule := {
  ir_Description : string; ir_Protocol : string; FromPort : Z; ToPort : Z;
  CidrBlocks : list string; SourceSecurityGroupIDs : list string
}.
Definition with_blocks (i : IngressRule) (l : list string) : IngressRule :=
  {| ir_Description := ir_Description i; ir_Protocol := ir_Protocol i; FromPort := FromPort i; ToPort := ToPort i;
     CidrBlocks := l; SourceSecurityGroupIDs := SourceSecurityGroupIDs i |}.
Definition with_groups (i : IngressRule) (l : list string) : IngressRule :=
  {| ir_Description := ir_Description i; ir_Protocol := ir_Protocol i; FromPort := FromPort i; ToPort := ToPort i;
     CidrBlocks := CidrBlocks i; SourceSecurityGroupIDs := l |}.
Definition sorted (l : list string) : list string := merge_sort String.le l.

(** The comparison of two lists by index: what the loop over the first answers. *)
Fixpoint same_items (l l' : list string) : bool :=
  match l, l' with
  | v :: l, v' :: l' => bool_decide (v = v') && same_items l l'
  | _, _ => true
  end.

(** [i.Equals(o)]: the rules are left with sorted lists, as far as it comes. *)
Definition rule_Equals (i o : IngressRule) : bool * IngressRule * IngressRule :=
  if decide (length (CidrBlocks i) ≠ length (CidrBlocks o)) then (false, i, o) else
  let i := with_blocks i (sorted (CidrBlocks i)) in
  let o := with_blocks o (sorted (CidrBlocks o)) in
  if negb (same_items (CidrBlocks i) (CidrBlocks o)) then (false, i, o) else
  if decide (length (SourceSecurityGroupIDs i) ≠ length (SourceSecurityGroupIDs o)) then (false, i, o) else
  let i := with_groups i (sorted (SourceSecurityGroupIDs i)) in
  let o := with_groups o (sorted (SourceSecurityGroupIDs o)) in
  if negb (same_items (SourceSecurityGroupIDs i) (SourceSecurityGroupIDs o)) then (false, i, o) else
  (bool_decide (ir_Description i = ir_Description o) && bool_decide (FromPort i = FromPort o) &&
   bool_decide (ToPort i = ToPort o) && bool_decide (ir_Protocol i = ir_Protocol o), i, o).

(** One turn of the outer loop of [Difference]: is [x] equal to a rule of [o]? *)
Fixpoint find_rule (x : IngressRule) (o : list IngressRule) : bool * IngressRule * list IngressRule :=
  match o with
  | [] => (false, x, [])
  | y :: o =>
      let '(eq, x, y) := rule_Equals x y in
      if eq : bool then (true, x, y :: o)
      else let '(found, x, o) := find_rule x o in (found, x, y :: o)
  end.

(** [i.Difference(o)]: the rules of [i] not among [o]; with what is left of [i] and [o]. *)
Fixpoint rules_Difference (i o : list IngressRule) : list IngressRule * list IngressRule * list IngressRule :=
  match i with
  | [] => ([], [], o)
  | x :: i =>
      let '(found, x, o) := find_rule x o in
      let '(out, i, o) := rules_Difference i o in
      ((if found : bool then out else x :: out), x :: i, o)
  end.

Record SecurityGroup := {
  sg_ID : string; sg_Name : string; sg_IngressRules : list IngressRule; sg_Tags : Map
}.
Definition group_String (s : SecurityGroup) : string := "id=" +:+ sg_ID s +:+ "/name=" +:+ sg_Name s.
Definition rule_String (i : IngressRule) : string :=
  "protocol=" +:+ ir_Protocol i +:+ "/range=[" +:+ pretty (FromPort i) +:+ "-" +:+ pretty (ToPort i) +:+
  "]/description=" +:+ ir_Description i.

Record Network := { net_SecurityGroups : gmap string (option SecurityGroup); net_APIServerELB : ClassicELB }.
Record Instance := {
  inst_ID : string; inst_State : string; inst_Type : string; inst_SubnetID : string; inst_ImageID : string;
  inst_KeyName : option string; inst_SecurityGroupIDs : list string; inst_UserData : option string;
  inst_IAMProfile : string; inst_PrivateIP : option string; inst_PublicIP : option string;
  inst_ENASupport : option bool; inst_EBSOptimized : option bool; inst_Tags : Map
}.

(** ** clusterproviderconfig.go, clusterproviderstatus.go *)
Record KeyPair := { kp_Cert : string; kp_Key : string }.
Definition HasCertAndKey (kp : KeyPair) : bool :=
  negb (bool_decide (kp_Cert kp = "")) && negb (bool_decide (kp_Key kp = "")).
Record VPCSpec := { vpc_ID : string; vpc_CidrBlock : string; vpc_InternetGatewayID : option string; vpc_Tags : Map }.
Definition vpc_String (v : VPCSpec) : string := "id=" +:+ vpc_ID v.
Definition IsProvided (v : VPCSpec) : bool := negb (bool_decide (vpc_ID v = "")) && negb (HasManaged (vpc_Tags v)).
Definition subnet_String (s : SubnetSpec) : string :=
  "id=" +:+ sn_ID s +:+ "/az=" +:+ sn_AvailabilityZone s +:+ "/public=" +:+ (if IsPublic s then "true" else "false").
Record NetworkSpec := { ns_VPC : VPCSpec; ns_Subnets : list SubnetSpec }.
Record AWSClusterProviderSpec := {
  cs_Meta : TypeMeta * ObjectMeta; cs_NetworkSpec : NetworkSpec; cs_Region : string; cs_SSHKeyName : string;
  cs_CAKeyPair : KeyPair; cs_EtcdCAKeyPair : KeyPair; cs_FrontProxyCAKeyPair : KeyPair; cs_SAKeyPair : KeyPair;
  cs_ClusterConfiguration : option ClusterConfiguration      (* [None] is the zero value, here and below *)
}.
Record AWSClusterProviderStatus := { cst_Meta : TypeMeta * ObjectMeta; cst_Network : Network; cst_Bastion : Instance }.

(** ** machineproviderconfig.go, machineproviderstatus.go *)
Record KubeadmConfiguration := { kub_Join : option JoinConfiguration; kub_Init : option InitConfiguration }.
Record AWSMachineProviderSpec := {
  ms_Meta : TypeMeta * ObjectMeta; ms_AMI : AWSResourceReference; ms_ImageLookupOrg : string; ms_InstanceType : string;
  ms_AdditionalTags : Map; ms_IAMInstanceProfile : string; ms_PublicIP : option bool;
  ms_AdditionalSecurityGroups : list AWSResourceReference; ms_Subnet : option AWSResourceReference;
  ms_KeyName : string; ms_RootDeviceSize : Z; ms_KubeadmConfiguration : KubeadmConfiguration
}.
Record AWSMachineProviderStatus := {
  mst_Meta : TypeMeta * ObjectMeta; mst_InstanceID : option string; mst_InstanceState : option string;
  mst_Conditions : list AWSMachineProviderCondition
}.

(** ** Zero values *)
Definition zero_Meta : TypeMeta * ObjectMeta := (zero_TypeMeta, named "").
Definition zero_Reference : AWSResourceReference := {| ref_ID := None; ref_ARN := None; ref_Filters := [] |}.
Definition zero_KeyPair : KeyPair := {| kp_Cert := ""; kp_Key := "" |}.
Definition zero_MachineSpec : AWSMachineProviderSpec :=
  {| ms_Meta := zero_Meta; ms_AMI := zero_Reference; ms_ImageLookupOrg := ""; ms_InstanceType := "";
     ms_AdditionalTags := ∅; ms_IAMInstanceProfile := ""; ms_PublicIP := None; ms_AdditionalSecurityGroups := [];
     ms_Subnet := None; ms_KeyName := ""; ms_RootDeviceSize := 0;
     ms_KubeadmConfiguration := {| kub_Join := None; kub_Init := None |} |}.
Definition zero_MachineStatus : AWSMachineProviderStatus :=
  {| mst_Meta := zero_Meta; mst_InstanceID := None; mst_InstanceState := None; mst_Conditions := [] |}.
Definition zero_ClusterSpec : AWSClusterProviderSpec :=
  {| cs_Meta := zero_Meta;
     cs_NetworkSpec := {| ns_VPC := {| vpc_ID := ""; vpc_CidrBlock := ""; vpc_InternetGatewayID := None; vpc_Tags := ∅ |};
                          ns_Subnets := [] |};
     cs_Region := ""; cs_SSHKeyName := ""; cs_CAKeyPair := zero_KeyPair; cs_EtcdCAKeyPair := zero_KeyPair;
     cs_FrontProxyCAKeyPair := zero_KeyPair; cs_SAKeyPair := zero_KeyPair; cs_ClusterConfiguration := None |}.
Definition zero_ClusterStatus : AWSClusterProviderStatus :=
  {| cst_Meta := zero_Meta;
     cst_Network := {| net_SecurityGroups := ∅;
                       net_APIServerELB := {| elb_Name := ""; elb_DNSName := ""; elb_Scheme := ""; elb_SubnetIDs := [];
                                              elb_SecurityGroupIDs := []; elb_Listeners := []; elb_HealthCheck := None;
                                              elb_IdleTimeout := 0; elb_Tags := ∅ |} |};
     cst_Bastion := {| inst_ID := ""; inst_State := ""; inst_Type := ""; inst_SubnetID := ""; inst_ImageID := "";
                       inst_KeyName := None; inst_SecurityGroupIDs := []; inst_UserData := None; inst_IAMProfile := "";
                       inst_PrivateIP := None; inst_PublicIP := None; inst_ENASupport := None;
                       inst_EBSOptimized := None; inst_Tags := ∅ |} |}.

Class AwsJson := {
  json_MachineSpec : AWSMachineProviderSpec → outcome RawExtension;
  unjson_MachineSpec : RawExtension → outcome AWSMachineProviderSpec;
  json_MachineStatus : AWSMachineProviderStatus → outcome RawExtension;
  unjson_MachineStatus : RawExtension → outcome AWSMachineProviderStatus;
  json_ClusterSpec : AWSClusterProviderSpec → outcome RawExtension;
  unjson_ClusterSpec : RawExtension → outcome AWSClusterProviderSpec;
  json_ClusterStatus : AWSClusterProviderStatus → outcome RawExtension;
  unjson_ClusterStatus : RawExtension → outcome AWSClusterProviderStatus
}.

(** ** util.go *)
Section util.
Context `{!AwsJson}.

Definition ClusterConfigFromProviderSpec := decode zero_ClusterSpec unjson_ClusterSpec.
Definition ClusterStatusFromProviderStatus := decode zero_ClusterStatus unjson_ClusterStatus.
Definition MachineConfigFromProviderSpec := decode zero_MachineSpec unjson_MachineSpec.
Definition MachineStatusFromProviderStatus := decode zero_MachineStatus unjson_MachineStatus.

Definition EncodeMachineStatus := encode json_MachineStatus.
Definition EncodeMachineSpec := encode json_MachineSpec.
Definition EncodeClusterStatus := encode json_ClusterStatus.
Definition EncodeClusterSpec := encode json_ClusterSpec.
End util.
End aws.
