(* ===== verification/AwsApiProofs.v ===== *)
(** * Tags and rules of Amazon's resources

    What [Build] writes, the readers of tags read back ([build_tags_read]); the
    difference of two lists of rules is what it says, up to the order of the lists in
    the rules ([rules_difference_spec]). *)
From stdpp Require Import base list gmap strings pretty fin_maps sorting.
From Stdlib Require Import Ascii.
From S2P Require Import Prelude GoStrings GoPath Api StoreSpec Provider Certs Kube Cloud Apply Startup ProviderParts AwsApi.

Import aws.

(** ** Tags *)
Lemma tags_copied (m : Map) : map_fold (λ k v tags, <[k := v]> tags) ∅ m = m.
Proof.
  apply (map_fold_weak_ind (λ r (m : Map), r = m)); [done|]. intros k v m' r Hk ->. done.
Qed.

Lemma Difference_lookup (m other : Map) k v :
  Difference m other !! k = Some v ↔ m !! k = Some v ∧ other !! k ≠ Some v.
Proof.
  unfold Difference. revert k v.
  apply (map_fold_weak_ind (λ r (m : Map), ∀ k v, r !! k = Some v ↔ m !! k = Some v ∧ other !! k ≠ Some v)).
  - intros k v. rewrite lookup_empty. naive_solver.
  - intros k v m' r Hk IH k' v'. destruct (decide (k' = k)) as [->|Hne].
    + rewrite lookup_insert_eq. case_decide as Ho.
      * rewrite IH, Hk. naive_solver.
      * rewrite lookup_insert_eq. naive_solver.
    + rewrite (lookup_insert_ne m') by done. case_decide; [apply IH|]. rewrite lookup_insert_ne by done. apply IH.
Qed.

(** Two maps of tags with no difference either way are equal. *)
Lemma Difference_none (m other : Map) :
  Difference m other = ∅ → Difference other m = ∅ → m = other.
Proof.
  intros H1 H2. apply map_eq. intros k. apply option_eq. intros v.
  pose proof (Difference_lookup m other k v) as D1. pose proof (Difference_lookup other m k v) as D2.
  rewrite H1, lookup_empty in D1. rewrite H2, lookup_empty in D2.
  destruct (decide (other !! k = Some v)), (decide (m !! k = Some v)); naive_solver.
Qed.

Lemma owner_key (cluster : string) : plain cluster → PathJoin [NameKubernetesClusterPrefix; cluster] = ClusterKey cluster.
Proof.
  intros Hc. pose proof Hc as (_ & _ & _ & Hs).
  change (PathJoin [NameKubernetesClusterPrefix; cluster]) with (Clean ("kubernetes.io" +:+ String slash ("cluster" +:+ String slash ("" +:+ String slash cluster)))).
  assert (Clean ("kubernetes.io" +:+ String slash ("cluster" +:+ String slash ("" +:+ String slash cluster))) =
    Clean (Join "/" ["kubernetes.io"; "cluster"; cluster])) as ->.
  { assert (∀ cs, Split slash (Join "/" (["kubernetes.io"; "cluster"; cluster] : list string)) = cs → cs = ["kubernetes.io"; "cluster"; cluster]) as E.
    { intros cs <-. change (Join "/" ["kubernetes.io"; "cluster"; cluster]) with
        ("kubernetes.io" +:+ String slash ("cluster" +:+ String slash cluster)).
      by rewrite !Split_app, (Split_no_sep _ cluster) by done. }
    unfold Clean. rewrite (E _ eq_refl), !Split_app, (Split_no_sep _ cluster) by done.
    reflexivity. }
  rewrite Clean_plain; [done|done|]. repeat apply Forall_cons_2; [by apply plain_long; [|cbn; lia]..|done|constructor].
Qed.

Lemma cluster_key_neq cluster : ClusterKey cluster ≠ NameAWSProviderManaged ∧ ClusterKey cluster ≠ NameAWSClusterAPIRole ∧
  ClusterKey cluster ≠ "Name".
Proof. by split_and!. Qed.

(** The tags of a resource of a cluster say whose it is, whether it is managed and its
    role, whatever tags are added to them; those are kept as well, unless they are
    called as one of the others.  A resource that has its tags is left alone. *)
Theorem build_tags_read {X} `{!EC2Tags X} (p : BuildParams) :
  (plain (ClusterName p) → HasOwned (Build p) (ClusterName p) = bool_decide (Lifecycle p = ResourceLifecycleOwned)) ∧
  (Lifecycle p = ResourceLifecycleOwned → HasManaged (Build p) = true) ∧
  (Lifecycle p ≠ ResourceLifecycleOwned → HasManaged (Build p) = HasManaged (Additional p)) ∧
  GetRole (Build p) = default (GetRole (Additional p)) (bp_Role p) ∧
  (∀ k, k ∉ [ClusterKey (ClusterName p); NameAWSProviderManaged; NameAWSClusterAPIRole; "Name"] →
     Build p !! k = Additional p !! k) ∧
  Ensure (X := X) (Some (Build p)) p = mret ().
Proof.
  destruct (cluster_key_neq (ClusterName p)) as (H1 & H2 & H3).
  assert (∀ k, Build p !! k =
    if decide (k = "Name" ∧ is_Some (bp_Name p)) then bp_Name p
    else if decide (k = NameAWSClusterAPIRole ∧ is_Some (bp_Role p)) then bp_Role p
    else if decide (k = NameAWSProviderManaged ∧ Lifecycle p = ResourceLifecycleOwned) then Some "true"
    else if decide (k = ClusterKey (ClusterName p)) then Some (Lifecycle p) else Additional p !! k) as Hl.
  { intros k. unfold Build. rewrite tags_copied.
    destruct (bp_Name p) as [n|], (bp_Role p) as [r|]; case_decide as Hlc;
      repeat (rewrite lookup_insert || (case_decide; try done)); unfold is_Some in *; naive_solver. }
  split_and!.
  - intros Hp. unfold HasOwned. rewrite owner_key by done. rewrite Hl.
    rewrite !decide_False by naive_solver. by rewrite decide_True by done.
  - intros Ho. unfold HasManaged. rewrite Hl. rewrite !decide_False by naive_solver. by rewrite decide_True.
  - intros Ho. unfold HasManaged. rewrite Hl. by rewrite !decide_False by naive_solver.
  - unfold GetRole. rewrite Hl. rewrite decide_False by naive_solver. destruct (bp_Role p) as [r|].
    + by rewrite decide_True by eauto.
    + rewrite !decide_False; [done|naive_solver..|]. unfold is_Some. naive_solver.
  - intros k Hk. rewrite !not_elem_of_cons in Hk. rewrite Hl. by rewrite !decide_False by naive_solver.
  - unfold Ensure, Equals. by rewrite bool_decide_eq_true_2.
Qed.

(** ** Rules *)

(** The lists of a rule have no order. *)
Definition rule_same (x y : IngressRule) : Prop :=
  CidrBlocks x ≡ₚ CidrBlocks y ∧ SourceSecurityGroupIDs x ≡ₚ SourceSecurityGroupIDs y ∧
  ir_Description x = ir_Description y ∧ ir_Protocol x = ir_Protocol y ∧ FromPort x = FromPort y ∧ ToPort x = ToPort y.

#[export] Instance rule_same_equivalence : Equivalence rule_same.
Proof.
  unfold rule_same. split; [by intros x|..].
  - intros x y (? & ? & ? & ? & ? & ?). by split_and!.
  - intros x y z (Ha & Hb & ? & ? & ? & ?) (Ha' & Hb' & ? & ? & ? & ?). split_and!; try congruence; by etrans.
Qed.

Lemma sorted_perm l : sorted l ≡ₚ l.
Proof. apply merge_sort_Permutation. Qed.

Lemma sorted_eq l l' : sorted l = sorted l' ↔ l ≡ₚ l'.
Proof.
  split; [intros E; by rewrite <-(sorted_perm l), E, sorted_perm|]. intros Hp.
  apply (Sorted_unique String.le).
  - apply Sorted_merge_sort; apply _.
  - apply Sorted_merge_sort; apply _.
  - by rewrite !sorted_perm.
Qed.

Lemma same_items_eq l l' : length l = length l' → same_items l l' = bool_decide (l = l').
Proof.
  revert l'. induction l as [|v l IH]; intros [|v' l'] Hl; try done. cbn. rewrite IH by (cbn in Hl; lia).
  destruct (decide (v = v')) as [->|Hne].
  - rewrite (bool_decide_eq_true_2 (v' = v')) by done. apply bool_decide_ext. naive_solver.
  - rewrite (bool_decide_eq_false_2 (v = v')) by done. symmetry. apply bool_decide_eq_false. naive_solver.
Qed.

Lemma same_blocks x l : CidrBlocks x ≡ₚ l → rule_same x (with_blocks x l).
Proof. by repeat split. Qed.
Lemma same_groups x l : SourceSecurityGroupIDs x ≡ₚ l → rule_same x (with_groups x l).
Proof. by repeat split. Qed.

Lemma rule_Equals_spec i o :
  let '(eq, i', o') := rule_Equals i o in
  rule_same i i' ∧ rule_same o o' ∧ (eq = true ↔ rule_same i o).
Proof.
  unfold rule_Equals. case_decide as Hc.
  { split; [reflexivity|split; [reflexivity|]]. split; [done|]. intros (Hp & _). by apply Permutation_length in Hp. }
  cbn [CidrBlocks SourceSecurityGroupIDs with_blocks].
  rewrite same_items_eq by (by rewrite !(Permutation_length (sorted_perm _))).
  assert (∀ r, rule_same r (with_blocks r (sorted (CidrBlocks r)))) as Hb.
  { intros r. apply same_blocks. by rewrite sorted_perm. }
  destruct (bool_decide (sorted _ = _)) eqn:Eb; cbn [negb].
  2:{ split_and!; [apply Hb..|]. split; [done|]. intros (Hp & _). apply sorted_eq in Hp. by apply bool_decide_eq_false in Eb. }
  apply bool_decide_eq_true, sorted_eq in Eb. case_decide as Hg.
  { split_and!; [apply Hb..|]. split; [done|]. intros (_ & Hp & _). by apply Permutation_length in Hp. }
  cbn [SourceSecurityGroupIDs with_groups].
  rewrite same_items_eq by (by rewrite !(Permutation_length (sorted_perm _))).
  assert (∀ r, rule_same r (with_groups (with_blocks r (sorted (CidrBlocks r))) (sorted (SourceSecurityGroupIDs r)))) as Hbg.
  { intros r. etrans; [apply Hb|]. apply (same_groups (with_blocks r _)). cbn. by rewrite sorted_perm. }
  destruct (bool_decide (sorted _ = _)) eqn:Eg; cbn [negb].
  2:{ split_and!; [apply Hbg..|]. split; [done|]. intros (_ & Hp & _). apply sorted_eq in Hp. by apply bool_decide_eq_false in Eg. }
  apply bool_decide_eq_true, sorted_eq in Eg. split_and!; [apply Hbg..|]. cbn.
  rewrite !andb_true_iff, !bool_decide_eq_true. unfold rule_same. naive_solver.
Qed.

Lemma find_rule_spec x o :
  let '(found, x', o') := find_rule x o in
  rule_same x x' ∧ Forall2 rule_same o o' ∧ (found = true ↔ ∃ y, y ∈ o ∧ rule_same x y).
Proof.
  revert x. induction o as [|y o IH]; intros x; cbn [find_rule].
  { split; [reflexivity|split; [constructor|]]. split; [done|]. intros (y & Hy & _). by apply not_elem_of_nil in Hy. }
  pose proof (rule_Equals_spec x y) as He. destruct (rule_Equals x y) as [[eq x1] y1].
  destruct He as (Hx & Hy & He). destruct eq.
  { split_and!; [done|constructor; [done|]; by apply reflexivity|]. split; [intros _|done]. exists y.
    split; [left|by apply He]. }
  specialize (IH x1). destruct (find_rule x1 o) as [[found x2] o']. destruct IH as (Hx2 & Ho & Hf).
  split_and!; [by etrans|by constructor|]. rewrite Hf. split.
  - intros (z & Hz & Hs). exists z. split; [by right|]. by etrans.
  - intros (z & [->|Hz]%elem_of_cons & Hs); [by apply He in Hs|]. exists z. split; [done|].
    etrans; [|done]. by symmetry.
Qed.

Lemma Forall2_in o o' y : Forall2 rule_same o o' → y ∈ o → ∃ y', y' ∈ o' ∧ rule_same y y'.
Proof.
  induction 1 as [|a a' o o' Ha Ho IH]; [by intros ?%not_elem_of_nil|].
  intros [->|Hy]%elem_of_cons; [exists a'; split; [left|done]|].
  destruct (IH Hy) as (y' & ? & ?). exists y'. split; [by right|done].
Qed.

Lemma Forall2_same_sub o o' x :
  Forall2 rule_same o o' → (∃ y, y ∈ o ∧ rule_same x y) → ∃ y, y ∈ o' ∧ rule_same x y.
Proof. intros Ho (y & Hy & Hs). destruct (Forall2_in _ _ _ Ho Hy) as (y' & ? & ?). exists y'. split; [done|by etrans]. Qed.

Lemma Forall2_same_elem o o' x :
  Forall2 rule_same o o' → (∃ y, y ∈ o ∧ rule_same x y) ↔ (∃ y, y ∈ o' ∧ rule_same x y).
Proof. intros Ho. split; apply Forall2_same_sub; [done|by symmetry]. Qed.

(** [C40] The difference of two lists of rules: its rules are rules of the first list, in
    their order, and exactly those that equal no rule of the second one, the order of
    their blocks and groups aside.  Both lists are left as they were but for that order. *)
Theorem rules_difference_spec i o :
  let '(out, i', o') := rules_Difference i o in
  out `sublist_of` i' ∧ Forall2 rule_same i i' ∧ Forall2 rule_same o o' ∧
  (∀ x, x ∈ i' → ((∃ z, z ∈ out ∧ rule_same x z) ↔ ¬ ∃ y, y ∈ o ∧ rule_same x y)).
Proof.
  revert o. induction i as [|x i IH]; intros o; cbn [rules_Difference].
  { split_and!; [constructor..| |]; [by apply reflexivity|]. intros x Hx. by apply not_elem_of_nil in Hx. }
  pose proof (find_rule_spec x o) as Hfi. destruct (find_rule x o) as [[found x1] o1].
  destruct Hfi as (Hx & Ho1 & Hfi). specialize (IH o1). destruct (rules_Difference i o1) as [[out i'] o2].
  destruct IH as (Hsub & Hi & Ho2 & Hout).
  split_and!; [|by constructor|by etrans|].
  { destruct found; by constructor. }
  assert (∀ z, z ∈ out → ¬ ∃ y, y ∈ o ∧ rule_same z y) as Hnot.
  { intros z Hz. rewrite (Forall2_same_elem _ _ _ Ho1). apply Hout; [by eapply elem_of_sublist|]. by exists z. }
  intros z [->|Hz]%elem_of_cons.
  - assert (found = true ↔ ∃ y, y ∈ o ∧ rule_same x1 y) as Hf1.
    { rewrite Hfi. split; intros (y & Hy & Hs); exists y; (split; [done|]); [etrans; [by symmetry|done]|by etrans]. }
    destruct found.
    + split; [|intros Hn; destruct Hn; by apply Hf1]. intros (z & Hz & Hs) Hex. apply (Hnot z Hz).
      destruct Hex as (y & Hy & Hs'). exists y. split; [done|]. etrans; [by symmetry|done].
    + split; [|intros _; exists x1; split; [left|done]]. intros _ Hex. by apply Hf1 in Hex.
  - rewrite (Forall2_same_elem _ _ z Ho1). rewrite <-(Hout z Hz). destruct found; [done|]. split.
    + intros (w & [->|Hw]%elem_of_cons & Hs); [|by exists w]. apply Hout; [done|].
      intros Hex. apply (Forall2_same_elem _ _ z Ho1) in Hex as (y & Hy & Hs').
      enough (false = true) by done. apply Hfi. exists y. split; [done|].
      etrans; [exact Hx|]. etrans; [|exact Hs']. by symmetry.
    + intros (w & Hw & Hs). exists w. split; [by right|done].
Qed.
