(* ===== verification/AwsCloud.v ===== *)
(** * The connector of Amazon's clouds (cloud/providers/aws/cloud.go)

    The calls of github.com/aws/aws-sdk-go on EC2, ELB, IAM and STS are the class
    [AwsSDK], functions of the session the connector was opened with.  An answer of
    the SDK is empty where there is an error.  Resources are known by their IDs. *)
From stdpp Require Import base list gmap strings pretty fin_maps.
From Stdlib Require Import Ascii.
From S2P Require Import Prelude GoStrings Api StoreSpec Provider Certs Kube Cloud Apply Startup ProviderParts.
From S2P Require Import AwsApi.

Module AwsCloud.
Import aws.

Definition bastion : string := "bastion".

(** ** The objects of the SDK, the fields that are used *)
Record IpPermission := {
  ip_Protocol : string; ip_FromPort : Z; ip_ToPort : Z;
  ip_Ranges : list (string * string);                 (* description, CIDR *)
  ip_UserIdGroupPairs : list (string * string)        (* description, group ID *)
}.
Record SecurityGroupDesc := { sgd_GroupId : string; sgd_Ingress : list IpPermission; sgd_Egress : list IpPermission }.
Record RouteTable := { rt_ID : string; rt_Associations : list (bool * string) }.    (* main, its ID *)

Record Ec2Instance := {
  i_InstanceId : string; i_State : string; i_RootDeviceName : string;
  i_BlockDevices : list (string * string)             (* device name, volume ID *)
}.
Record Reservation := { res_Instances : list Ec2Instance; res_GoString : string }.

(** One instance *)
Record RunInstancesInput := {
  ri_InstanceType : string; ri_SubnetId : string; ri_ImageId : string; ri_IamInstanceProfile : option string;
  ri_KeyName : string; ri_UserData : string; ri_SecurityGroupIds : list string; ri_Tags : Map
}.

Record Listener := { ls_Protocol : string; ls_LoadBalancerPort : Z; ls_InstanceProtocol : string; ls_InstancePort : Z }.
Record CreateLoadBalancerInput := {
  cl_Name : string; cl_Subnets : list string; cl_SecurityGroups : list string; cl_Scheme : string;
  cl_Listeners : list Listener; cl_Tags : Map
}.
Record ElbHealthCheck := {
  eh_Target : string; eh_Interval : Z; eh_Timeout : Z; eh_HealthyThreshold : Z; eh_UnhealthyThreshold : Z
}.
Record PolicyPage := { pp_Names : list string; pp_IsTruncated : bool; pp_Marker : option string }.

Class AwsSDK (X SSHKey : Type) := {
  credential_AWS : CredentialSpec → outcome (string * string);     (* access key, secret *)
  NewSession : string → string * string → outcome string;
  SharedSession : outcome string;                                  (* of the machine's own configuration *)
  SSHKey_PublicKey : SSHKey → string;
  base64_Std : string → string;
  bastion_userdata : outcome string;                               (* NewBastion of an empty input *)
  ListPolicies : string → option string → GoM X PolicyPage;
  GetInstanceProfile : string → string → GoM X bool;
  CreateRole : string → string → string → GoM X ();                (* name, document *)
  PutRolePolicy : string → string → string → string → GoM X ();    (* role, policy, document *)
  CreateInstanceProfile : string → string → GoM X ();
  AddRoleToInstanceProfile : string → string → string → GoM X ();
  RemoveRoleFromInstanceProfile : string → string → string → GoM X ();
  DeleteRolePolicy : string → string → string → GoM X ();          (* policy, role *)
  DeleteRole : string → string → GoM X ();
  DeleteInstanceProfile : string → string → GoM X ();
  GetCallerIdentity : string → GoM X string;                       (* the account *)
  DescribeVolumes : string → string → GoM X (list (option Z));     (* their sizes *)
  DescribeImages : string → list string → list Filter → GoM X (list string);
  DescribeKeyPairs : string → list string → GoM X (list string);
  ImportKeyPair : string → string → string → GoM X ();
  DeleteKeyPair : string → string → GoM X ();
  ec2_CreateTags : string → list string → Map → GoM X ();
  DescribeVpcs : string → list Filter → GoM X (list string);
  CreateVpc : string → string → GoM X string;
  WaitUntilVpcAvailable : string → string → GoM X ();
  DeleteVpc : string → string → GoM X ();
  DescribeSubnets : string → list Filter → GoM X (list string);
  CreateSubnet : string → string → string → string → GoM X string; (* CIDR, vpc, zone *)
  WaitUntilSubnetAvailable : string → string → GoM X ();
  MapPublicIpOnLaunch : string → string → GoM X ();                (* ModifySubnetAttribute *)
  DeleteSubnet : string → string → GoM X ();
  DescribeInternetGateways : string → list Filter → GoM X (list string);
  CreateInternetGateway : string → GoM X string;
  AttachInternetGateway : string → string → string → GoM X ();
  DetachInternetGateway : string → string → string → GoM X ();
  DeleteInternetGateway : string → string → GoM X ();
  DescribeNatGateways : string → list Filter → GoM X (list string);
  DescribeNatGateway : string → string → GoM X (list string);      (* of an ID: their states *)
  CreateNatGateway : string → string → string → GoM X string;      (* allocation, subnet *)
  WaitUntilNatGatewayAvailable : string → string → GoM X ();
  DeleteNatGateway : string → string → GoM X ();
  DescribeRouteTables : string → list Filter → GoM X (list RouteTable);
  CreateRouteTable : string → string → GoM X string;
  CreateRoute : string → string → string → string → GoM X ();      (* table, CIDR, gateway *)
  AssociateRouteTable : string → string → string → GoM X ();
  DisassociateRouteTable : string → string → GoM X ();
  DeleteRouteTable : string → string → GoM X ();
  DescribeSecurityGroups : string → list Filter → GoM X (list SecurityGroupDesc);
  CreateSecurityGroup : string → string → string → string → GoM X string;   (* name, description, vpc *)
  AuthorizeSecurityGroupIngress : string → string → list IpPermission → GoM X ();
  RevokeSecurityGroupIngress : string → string → list IpPermission → GoM X ();
  RevokeSecurityGroupEgress : string → string → list IpPermission → GoM X ();
  DeleteSecurityGroup : string → string → GoM X ();
  DescribeInstances : string → list Filter → GoM X (list Reservation);
  DescribeInstancesByID : string → list string → GoM X (list Reservation);
  RunInstances : string → RunInstancesInput → GoM X Reservation;
  TerminateInstances : string → list string → GoM X ();
  WaitUntilInstanceTerminated : string → list string → GoM X ();
  AllocateAddress : string → GoM X (string * string);              (* allocation ID, public IP *)
  DescribeAddresses : string → list Filter → GoM X (list string);
  ReleaseAddress : string → string → GoM X ();
  DescribeLoadBalancers : string → list string → GoM X (list string);       (* their DNS names *)
  CreateLoadBalancer : string → CreateLoadBalancerInput → GoM X string;
  ConfigureHealthCheck : string → string → ElbHealthCheck → GoM X ();
  DeleteLoadBalancer : string → string → GoM X ();
  RegisterInstances : string → string → list string → GoM X ()     (* balancer, instances *)
}.

(** The texts of policies and roles (iam.go, startupscript.go) *)
Class AwsTexts := {
  IAMMasterRole : string; IAMNodeRole : string; IAMMasterPolicy : string; IAMControllerPolicy : string;
  IAMNodePolicy : string
}.

(** How often a loop without a bound is gone through before the process is stopped. *)
Class Patience := patience : nat.

(** ** strings.Replace, of the first occurrence, and of all *)
Fixpoint Replace1 (s old new : string) : string :=
  if HasPrefix s old then new +:+ String.substring (String.length old) (String.length s - String.length old) s else
  match s with "" => "" | String c s => String c (Replace1 s old new) end.

(** [skip] bytes belong to an occurrence that has been replaced. *)
Fixpoint replace_from (skip : nat) (s old new : string) : string :=
  match s with
  | "" => ""
  | String c s' =>
      match skip with
      | Datatypes.S skip => replace_from skip s' old new
      | O => if HasPrefix s old then new +:+ replace_from (String.length old - 1) s' old new
             else String c (replace_from 0 s' old new)
      end
  end.
Definition ReplaceAll : string → string → string → string := replace_from 0.

(** ** namer.go *)
Definition ControlPlanePolicyName (c : Cluster) : string := "controller." +:+ cluster_Name c +:+ ".pharmer".
Definition BastionName (c : Cluster) : string := cluster_Name c +:+ "-bastion".
Definition VPCName (c : Cluster) : string := cluster_Name c +:+ "-vpc".
Definition GenMasterSGName (c : Cluster) : string := cluster_Name c +:+ "-controlplane".
Definition GenNodeSGName (c : Cluster) : string := cluster_Name c +:+ "-node".
Definition GenBastionSGName (c : Cluster) : string := cluster_Name c +:+ "-bastion".
Definition balancer_name (c : Cluster) : string := cluster_Name c +:+ "-apiserver".

(** ** Filters and tags *)
Definition filter (name : string) (values : list string) : Filter := {| flt_Name := name; flt_Values := values |}.
Definition cluster_key (c : Cluster) : string := NameKubernetesClusterPrefix +:+ cluster_Name c.
Definition of_cluster (c : Cluster) : Filter := filter "tag-key" [cluster_key c].
Definition in_vpc (vpcID : string) : Filter := filter "vpc-id" [vpcID].
Definition owned (c : Cluster) (name : string) : Map :=
  <["Name" := name]> (<[cluster_key c := "owned"]> {[ NameAWSProviderManaged := "true" ]}).
Definition with_role (tags : Map) (role : string) : Map := <[NameAWSClusterAPIRole := role]> tags.

Definition getBastionAMI (region : string) : string :=
  default "unknown region" ((list_to_map [
    ("ap-northeast-1", "ami-d39a02b5"); ("ap-northeast-2", "ami-67973709"); ("ap-south-1", "ami-5d055232");
    ("ap-southeast-1", "ami-325d2e4e"); ("ap-southeast-2", "ami-37df2255"); ("ca-central-1", "ami-f0870294");
    ("eu-central-1", "ami-af79ebc0"); ("eu-west-1", "ami-4d46d534"); ("eu-west-2", "ami-d7aab2b3");
    ("eu-west-3", "ami-5e0eb923"); ("sa-east-1", "ami-1157157d"); ("us-east-1", "ami-41e0b93b");
    ("us-east-2", "ami-2581aa40"); ("us-west-1", "ami-79aeae19"); ("us-west-2", "ami-1ee65166")
  ] : gmap string string) !! region).

(** ** Ingress rules of the security groups, by role *)
Definition tcp (from to : Z) (ranges groups : list (string * string)) : IpPermission :=
  {| ip_Protocol := "tcp"; ip_FromPort := from; ip_ToPort := to; ip_Ranges := ranges; ip_UserIdGroupPairs := groups |}.

Definition getIngressRules (s : AWSStatus) (role : string) : outcome (list IpPermission) :=
  let calico := tcp 179 179 [] [("bgp (calico)", MasterSGId s); ("bgp (calico)", NodeSGId s)] in
  if decide (role = bastion) then Ok [tcp 22 22 [("SSH", "0.0.0.0/0")] []]
  else if decide (role = "controlplane") then
    Ok [tcp 22 22 [] [("SSH", BastionSGId s)]; tcp 6443 6443 [("Kubernetes API", "0.0.0.0/0")] [];
        tcp 2379 2379 [] [("etcd", MasterSGId s)]; tcp 2380 2380 [] [("etcd peer", MasterSGId s)]; calico]
  else if decide (role = "node") then
    Ok [tcp 22 22 [] [("SSH", BastionSGId s)]; tcp 30000 32767 [("Node Port Services", "0.0.0.0/0")] [];
        tcp 10250 10250 [] [("Kubelet API", MasterSGId s)]; calico]
  else Err ("Cannot determine ingress rules for unknown security group role " +:+ quoted role).

Definition getGroupID (s : AWSStatus) (role : string) : outcome string :=
  if decide (role = bastion) then Ok (BastionSGId s)
  else if decide (role = "controlplane") then Ok (MasterSGId s)
  else if decide (role = "node") then Ok (NodeSGId s)
  else Err "error".

(** ** Updates of a cluster *)
Definition with_AWSStatus (c : Cluster) (s : AWSStatus) : Cluster :=
  with_cloud_status c (λ cs,
    {| SSHKeyExternalID := SSHKeyExternalID cs; status_AWS := Some s; status_EKS := status_EKS cs;
       status_LoadBalancer := status_LoadBalancer cs |}).

Definition set_MasterSGId (s : AWSStatus) (id : string) : AWSStatus :=
  {| MasterSGId := id; NodeSGId := NodeSGId s; BastionSGId := BastionSGId s |}.
Definition set_NodeSGId (s : AWSStatus) (id : string) : AWSStatus :=
  {| MasterSGId := MasterSGId s; NodeSGId := id; BastionSGId := BastionSGId s |}.
Definition set_BastionSGId (s : AWSStatus) (id : string) : AWSStatus :=
  {| MasterSGId := MasterSGId s; NodeSGId := NodeSGId s; BastionSGId := id |}.

Definition with_OS_image (c : CloudSpec) (os image : string) : CloudSpec :=
  {| CloudProviderName := CloudProviderName c; Project := Project c; Region := Region c; Zone := Zone c;
     InstanceImage := image; OSName := os; InstanceImageProject := InstanceImageProject c;
     NetworkProvider := NetworkProvider c; SSHKeyName := SSHKeyName c; spec_AWS := spec_AWS c;
     spec_GCE := spec_GCE c; spec_Azure := spec_Azure c; spec_Linode := spec_Linode c; spec_GKE := spec_GKE c;
     spec_Dokube := spec_Dokube c |}.

Section connector.
Context {S Crt Key SSHKey X KC CC BC : Type}.
Context `{!Crypto Crt Key SSHKey, !CertText Crt Key, !Clock, !Polling, !Patience}.
Context `{!aws.AwsJson, !AwsTexts, !AwsSDK X SSHKey, !Connector X}.
Context (sp : ResourceInterface S Crt Key).
Notation env := (env (S := S) (Crt := Crt) (Key := Key) (SSHKey := SSHKey) (X := X) (KC := KC)).

(** [cluster.Spec.Config.Cloud.AWS] and [cluster.Status.Cloud.AWS]: nil panics. *)
Definition the_aws : GoM env AWSSpec :=
  cluster ← the_cluster;
  match spec_AWS (Cloud (Config (Spec cluster))) with None => nil_panic | Some a => mret a end.

Definition the_status : GoM env AWSStatus :=
  cluster ← the_cluster;
  match status_AWS (status_Cloud (Status cluster)) with None => nil_panic | Some s => mret s end.

Definition set_status (f : AWSStatus → AWSStatus) : GoM env () :=
  s ← the_status;
  cluster ← the_cluster;
  set_Cluster (with_AWSStatus cluster (f s)).

(** [l[0]] *)
Definition first {A} (l : list A) : GoM env A :=
  match l with [] => panic "index out of range [0] with length 0" | a :: _ => mret a end.

(** ** Credentials *)

(** An error ends the pages as the last one does. *)
Fixpoint list_policies (turns : nat) (token : string) (marker : option string) : GoM env (list string) :=
  match turns with
  | O => panic "signal: killed"
  | Datatypes.S turns =>
      resp ← attempt (on_cloud (ListPolicies token marker));
      match resp with
      | inr _ => mret []
      | inl p => rest ← (if pp_IsTruncated p then list_policies turns token (pp_Marker p) else mret []);
                 mret (pp_Names p ++ rest)
      end
  end.

Definition required_policies : list string :=
  ["IAMFullAccess"; "AmazonEC2FullAccess"; "AmazonEC2ContainerRegistryFullAccess"; "AmazonS3FullAccess";
   "AmazonRoute53FullAccess"].

Definition missing_policies (policies : list string) : list string :=
  List.filter (λ name, negb (bool_decide (name ∈ policies))) required_policies.

Definition IsUnauthorized (token : string) : GoM env (option string) :=
  policies ← list_policies patience token None;
  mret (match missing_policies policies with
        | [] => None
        | missing => Some ("Credential missing required authorization: " +:+ Join ", " missing)
        end).

Definition newconnector : GoM env string :=
  cluster ← the_cluster;
  let name := CredentialName (Config (Spec cluster)) in
  cred ← store (op_Get (st_Credentials sp) name);
  typed ← on_err (λ err, "credential " +:+ name +:+ " is invalid. Reason: " +:+ err)
                 (lift (credential_AWS (cred_Spec cred)));
  token ← lift (NewSession (Region (Cloud (Config (Spec cluster)))) typed);
  msg ← IsUnauthorized token;
  match msg with
  | Some msg => throw ("credential " +:+ name +:+ " does not have necessary authorization. Reason: " +:+ msg)
  | None => mret token
  end.

(** ** Images, keys, tags *)

(** nil when no device of the instance is its root device *)
Definition getInstanceRootDeviceSize (instance : Ec2Instance) : GoM env (option Z) :=
  match List.find (λ bdm, bool_decide (bdm.1 = i_RootDeviceName instance)) (i_BlockDevices instance) with
  | None => mret None
  | Some bdm =>
      volumes ← call (λ t, DescribeVolumes t bdm.2);
      match volumes with
      | [] => throw ("no volumes found for id " +:+ quoted bdm.2)
      | size :: _ => mret size
      end
  end.

Definition set_os_image (f : CloudSpec → CloudSpec) : GoM env () :=
  cluster ← the_cluster;
  set_Cluster (with_cluster_config cluster (λ config, with_Cloud config (f (Cloud config)))).

Definition detectUbuntuImage : GoM env () :=
  _ ← set_os_image (λ c, with_OS_image c "ubuntu" (InstanceImage c));
  images ← call (λ t, DescribeImages t ["099720109477"]
                   [filter "name" ["ubuntu/images/hvm-ssd/ubuntu-xenial-16.04-amd64-server-20170619.1"]]);
  image ← first images;
  set_os_image (λ c, with_image c image).

Definition getPublicKey : GoM env bool :=
  cluster ← the_cluster;
  keys ← call (λ t, DescribeKeyPairs t [SSHKeyName (Cloud (Config (Spec cluster)))]);
  mret (match keys with [] => false | _ => true end).

Definition importPublicKey : GoM env () :=
  cluster ← the_cluster;
  key ← conn_SSHKey;
  call (λ t, ImportKeyPair t (SSHKeyName (Cloud (Config (Spec cluster)))) (SSHKey_PublicKey key)).

Definition deleteSSHKey : GoM env () :=
  cluster ← the_cluster;
  call (λ t, DeleteKeyPair t (SSHKeyName (Cloud (Config (Spec cluster))))).

Definition addTag (id key value : string) : GoM env () :=
  on_err (wrap ("failed to add tag " +:+ key +:+ ":" +:+ value +:+ " to id   " +:+ id))
         (call (λ t, ec2_CreateTags t [id] {[ key := value ]})).

Definition addTags (id : string) (tags : Map) : GoM env () :=
  for_each (λ kv, addTag id kv.1 kv.2) (map_to_list tags).

(** ** IAM profiles *)

(** An error is "not found". *)
Definition has_profile (name : string) : GoM env bool :=
  r ← attempt (call (λ t, GetInstanceProfile t name));
  mret (match r with inl found => found | inr _ => false end).

Definition getIAMProfile : GoM env bool :=
  aws ← the_aws;
  master ← has_profile (IAMProfileMaster aws);
  if master : bool then has_profile (IAMProfileNode aws) else mret false.

(** An error of the session is printed, and nothing is made. *)
Definition createIAMProfile (role key : string) : GoM env () :=
  match SharedSession with
  | Err _ => mret ()
  | Panic w => panic w
  | Ok sess =>
      accountID ← on_cloud (GetCallerIdentity sess);
      let master := bool_decide (role = RoleMaster) in
      _ ← call (λ t, CreateRole t key (TrimSpace (if master then IAMMasterRole else IAMNodeRole)));
      _ ← (if master then
             _ ← call (λ t, PutRolePolicy t key key (TrimSpace IAMMasterPolicy));
             _ ← call (λ t, PutRolePolicy t key (Replace1 key "master" "controller")
                              (TrimSpace (ReplaceAll IAMControllerPolicy "ACCOUNT_ID" accountID)));
             call (λ t, PutRolePolicy t key (Replace1 key "master" "node") (TrimSpace IAMNodePolicy))
           else call (λ t, PutRolePolicy t key key (TrimSpace IAMNodePolicy)));
      _ ← call (λ t, CreateInstanceProfile t key);
      call (λ t, AddRoleToInstanceProfile t key key)
  end.

(** A profile that is not there, by an answer or by the error NoSuchEntity, is made. *)
Definition ensure_profile (role name : string) : GoM env () :=
  r ← attempt (call (λ t, GetInstanceProfile t name));
  match r with
  | inl true => mret ()
  | inl false => createIAMProfile role name
  | inr err => if Contains err "NoSuchEntity" then createIAMProfile role name else throw err
  end.

Definition ensureIAMProfile : GoM env () :=
  aws ← the_aws;
  _ ← ensure_profile RoleMaster (IAMProfileMaster aws);
  ensure_profile RoleNode (IAMProfileNode aws).

(** Errors are only logged. *)
Definition deleteRolePolicy (role : string) : GoM env () :=
  _ ← ignore_err (call (λ t, RemoveRoleFromInstanceProfile t role role));
  _ ← ignore_err (call (λ t, DeleteRolePolicy t role role));
  cluster ← the_cluster;
  aws ← the_aws;
  _ ← (if decide (role = IAMProfileMaster aws) then
         _ ← ignore_err (call (λ t, DeleteRolePolicy t (IAMProfileNode aws) role));
         ignore_err (call (λ t, DeleteRolePolicy t (ControlPlanePolicyName cluster) role))
       else mret ());
  _ ← ignore_err (call (λ t, DeleteRole t role));
  ignore_err (call (λ t, DeleteInstanceProfile t role)).

Definition deleteIAMProfile : GoM env () :=
  aws ← the_aws;
  _ ← deleteRolePolicy (IAMProfileMaster aws);
  deleteRolePolicy (IAMProfileNode aws).

(** ** The network: VPC, subnets, gateways *)

(** An error of the call is dropped: the VPC is not found. *)
Definition getVpc : GoM env string :=
  cluster ← the_cluster;
  vpcs ← attempt (call (λ t, DescribeVpcs t [filter "tag:Name" [VPCName cluster]; of_cluster cluster]));
  match vpcs with
  | inl (vpc :: _) => mret vpc
  | _ => throw "VPC not found"
  end.

Definition setupVpc : GoM env string :=
  aws ← the_aws;
  vpc ← call (λ t, CreateVpc t (VpcCIDR aws));
  _ ← on_err (wrap ("failed to wait for vpc " +:+ quoted vpc)) (call (λ t, WaitUntilVpcAvailable t vpc));
  cluster ← the_cluster;
  _ ← addTags vpc (owned cluster (VPCName cluster));
  mret vpc.

Definition getSubnet (vpcID privacy : string) : GoM env string :=
  cluster ← the_cluster;
  subnets ← call (λ t, DescribeSubnets t
    [filter "availabilityZone" [Zone (Cloud (Config (Spec cluster)))]; in_vpc vpcID;
     filter "tag:Name" [cluster_Name cluster +:+ "-subnet-" +:+ privacy]]);
  match subnets with
  | [] => throw ("No " +:+ privacy +:+ " subnet found")
  | subnet :: _ => mret subnet
  end.

Definition setupPrivateSubnet (vpcID : string) : GoM env string :=
  aws ← the_aws;
  cluster ← the_cluster;
  id ← call (λ t, CreateSubnet t (PrivateSubnetCIDR aws) vpcID (Zone (Cloud (Config (Spec cluster)))));
  _ ← addTags id (with_role (owned cluster (cluster_Name cluster +:+ "-subnet-private")) "common");
  mret id.

Definition setupPublicSubnet (vpcID : string) : GoM env string :=
  aws ← the_aws;
  cluster ← the_cluster;
  id ← call (λ t, CreateSubnet t (PublicSubnetCIDR aws) vpcID (Zone (Cloud (Config (Spec cluster)))));
  _ ← on_err (wrap ("failed to wait for subnet " +:+ quoted id)) (call (λ t, WaitUntilSubnetAvailable t id));
  _ ← call (λ t, MapPublicIpOnLaunch t id);
  _ ← addTags id (with_role (owned cluster (cluster_Name cluster +:+ "-subnet-public")) bastion);
  mret id.

Definition getInternetGateway (vpcID : string) : GoM env string :=
  igws ← call (λ t, DescribeInternetGateways t [filter "attachment.vpc-id" [vpcID]]);
  match igws with [] => throw "IGW not found" | igw :: _ => mret igw end.

Definition setupInternetGateway (vpcID : string) : GoM env string :=
  id ← call CreateInternetGateway;
  _ ← call (λ t, AttachInternetGateway t id vpcID);
  cluster ← the_cluster;
  _ ← addTags id (with_role (owned cluster (cluster_Name cluster +:+ "-igw")) "common");
  mret id.

Definition getNatGateway (vpcID : string) : GoM env string :=
  nats ← call (λ t, DescribeNatGateways t [in_vpc vpcID; filter "state" ["available"; "pending"]]);
  match nats with [] => throw "NAT not found" | nat :: _ => mret nat end.

Definition allocateElasticIP : GoM env (string * string) :=
  r1 ← call AllocateAddress;
  cluster ← the_cluster;
  _ ← addTags r1.1 (with_role (owned cluster (cluster_Name cluster +:+ "-eip-apiserver")) "apiserver");
  mret r1.

(** The gateway is read before the error: nil panics. *)
Definition setupNatGateway (publicSubnetID : string) : GoM env string :=
  ip ← allocateElasticIP;
  out ← attempt (call (λ t, CreateNatGateway t ip.1 publicSubnetID));
  match out with
  | inr _ => nil_panic
  | inl nat =>
      _ ← on_err (wrap ("failed to wait for nat gateway " +:+ quoted nat +:+ " in subnet " +:+ quoted publicSubnetID))
                 (call (λ t, WaitUntilNatGatewayAvailable t nat));
      cluster ← the_cluster;
      _ ← addTags nat (with_role (owned cluster (cluster_Name cluster +:+ "-nat")) "common");
      mret nat
  end.

Definition route_table_name (cluster : Cluster) (privacy : string) : string := cluster_Name cluster +:+ "-rt-" +:+ privacy.

Definition getRouteTable (privacy vpcID : string) : GoM env string :=
  cluster ← the_cluster;
  tables ← call (λ t, DescribeRouteTables t
    [in_vpc vpcID; of_cluster cluster; filter "tag:Name" [route_table_name cluster privacy]]);
  match tables with [] => throw "Route table not found" | rt :: _ => mret (rt_ID rt) end.

(** An error of the tags is dropped, and there is no ID. *)
Definition setupRouteTable (privacy vpcID igwID natID publicSubnetID privateSubnetID : string) : GoM env string :=
  id ← call (λ t, CreateRouteTable t vpcID);
  cluster ← the_cluster;
  let public := bool_decide (privacy = "public") in
  tagged ← attempt (addTags id (with_role (owned cluster (route_table_name cluster privacy))
                                  (if public then bastion else "common")));
  match tagged with
  | inr _ => mret ""
  | inl _ =>
      _ ← (if public then
             _ ← on_err (wrap "failed to create public route") (call (λ t, CreateRoute t id "0.0.0.0/0" igwID));
             on_err (wrap "failed to associate route table to subnet")
                    (call (λ t, AssociateRouteTable t id publicSubnetID))
           else
             _ ← on_err (wrap "failed to create private route") (call (λ t, CreateRoute t id "0.0.0.0/0" natID));
             on_err (wrap ("failed to associate route table to subnet " +:+ quoted privateSubnetID))
                    (call (λ t, AssociateRouteTable t id privateSubnetID)));
      mret id
  end.

(** ** Security groups *)
Definition getSecurityGroupID (vpcID groupName : string) : GoM env (option string) :=
  groups ← call (λ t, DescribeSecurityGroups t [in_vpc vpcID; filter "group-name" [groupName]]);
  mret (match groups with [] => None | sg :: _ => Some (sgd_GroupId sg) end).

Definition createSecurityGroup (vpcID groupName instanceType : string) : GoM env () :=
  id ← call (λ t, CreateSecurityGroup t groupName ("kubernetes security group for " +:+ instanceType) vpcID);
  cluster ← the_cluster;
  addTags id (with_role (owned cluster (cluster_Name cluster +:+ "-" +:+ instanceType)) instanceType).

(** [status.SGId, ok, err = conn.getSecurityGroupID(vpcID, name)]: the ID is assigned
    whatever the answer is. *)
Definition assign_group (set : AWSStatus → string → AWSStatus) (vpcID name : string) : GoM env (option string + error) :=
  r ← attempt (getSecurityGroupID vpcID name);
  _ ← set_status (λ s, set s (match r with inl (Some id) => id | _ => "" end));
  mret r.

Definition ensure_group (set : AWSStatus → string → AWSStatus) (vpcID name instanceType : string) : GoM env () :=
  r ← assign_group set vpcID name;
  match r with
  | inl (Some _) => mret ()
  | inr err => throw err
  | inl None => createSecurityGroup vpcID name instanceType
  end.

Definition detect_group (get : AWSStatus → string) (set : AWSStatus → string → AWSStatus) (vpcID name what : string) :
    GoM env () :=
  s ← the_status;
  if decide (get s = "") then
    r ← assign_group set vpcID name;
    match r with
    | inl (Some _) => mret ()
    | _ => throw ("[] could not detect Kubernetes " +:+ what +:+
                  " security group.  Make sure you've launched a cluster with appctl")
    end
  else mret ().

Definition detectSecurityGroups (vpcID : string) : GoM env () :=
  aws ← the_aws;
  _ ← detect_group MasterSGId set_MasterSGId vpcID (MasterSGName aws) "master";
  _ ← detect_group NodeSGId set_NodeSGId vpcID (NodeSGName aws) "node";
  detect_group BastionSGId set_BastionSGId vpcID (BastionSGName aws) "bastion".

Definition authorize (role : string) : GoM env () :=
  s ← the_status;
  rules ← lift (getIngressRules s role);
  groupID ← lift (getGroupID s role);
  call (λ t, AuthorizeSecurityGroupIngress t groupID rules).

Definition setupSecurityGroups (vpcID : string) : GoM env () :=
  aws ← the_aws;
  _ ← ensure_group set_MasterSGId vpcID (MasterSGName aws) "controlplane";
  _ ← ensure_group set_NodeSGId vpcID (NodeSGName aws) "node";
  _ ← ensure_group set_BastionSGId vpcID (BastionSGName aws) bastion;
  _ ← detectSecurityGroups vpcID;
  for_each authorize [bastion; "controlplane"; "node"].

(** ** Instances *)
Definition roled (role : string) : Filter := filter ("tag:" +:+ NameAWSClusterAPIRole) [role].

Definition getBastion : GoM env bool :=
  cluster ← the_cluster;
  reservations ← on_err (wrap "failed to describe bastion host") (call (λ t, DescribeInstances t
    [filter "tag:Name" [BastionName cluster]; roled bastion; filter "instance-state-name" ["running"]]));
  if existsb (λ i, negb (bool_decide (i_State i = "terminated"))) (concat (res_Instances <$> reservations))
  then mret true else throw "bastion host not found".

Definition instance_tags (cluster : Cluster) (name role : string) : Map := with_role (owned cluster name) role.

(** [out.Instances[0]] *)
Definition run_instance (input : RunInstancesInput) : GoM env Ec2Instance :=
  out ← on_err (wrap "failed to run instance") (call (λ t, RunInstances t input));
  match res_Instances out with
  | [] => throw ("no instance returned for reservation " +:+ res_GoString out)
  | i :: _ => mret i
  end.

Definition setupBastion (publicSubnetID : string) : GoM env () :=
  cluster ← the_cluster;
  userData ← lift bastion_userdata;
  s ← the_status;
  let cloud := Cloud (Config (Spec cluster)) in
  _ ← run_instance
    {| ri_InstanceType := "t2.micro"; ri_SubnetId := publicSubnetID; ri_ImageId := getBastionAMI (Region cloud);
       ri_IamInstanceProfile := None; ri_KeyName := SSHKeyName cloud; ri_UserData := base64_Std userData;
       ri_SecurityGroupIds := [BastionSGId s]; ri_Tags := instance_tags cluster (BastionName cluster) bastion |};
  mret ().

Definition getMaster (name : string) : GoM env bool :=
  reservations ← call (λ t, DescribeInstances t
    [filter "tag:Name" [name]; roled "controlplane"; filter "instance-state-name" ["running"]]);
  mret (match reservations with [] => false | _ => true end).

(** [r.Reservations[0].Instances[0]] *)
Definition describe_instance (instanceID : string) : GoM env Ec2Instance :=
  reservations ← call (λ t, DescribeInstancesByID t [instanceID]);
  r ← first reservations;
  first (res_Instances r).

Fixpoint wait_state (turns : nat) (instanceID state : string) : GoM env () :=
  match turns with
  | O => panic "signal: killed"
  | Datatypes.S turns =>
      i ← describe_instance instanceID;
      if decide (i_State i = state) then mret () else wait_state turns instanceID state
  end.

Definition waitForInstanceState (instanceID state : string) : GoM env () := wait_state patience instanceID state.

Definition startMaster (machine : Machine) (privateSubnetID script : string) : GoM env Ec2Instance :=
  _ ← detectUbuntuImage;
  providerSpec ← lift (MachineConfigFromProviderSpec (MachineProviderSpec (machine_Spec machine)));
  cluster ← the_cluster;
  aws ← the_aws;
  s ← the_status;
  let cloud := Cloud (Config (Spec cluster)) in
  masterInstance ← run_instance
    {| ri_InstanceType := ms_InstanceType providerSpec; ri_SubnetId := privateSubnetID; ri_ImageId := InstanceImage cloud;
       ri_IamInstanceProfile := Some (IAMProfileMaster aws); ri_KeyName := SSHKeyName cloud;
       ri_UserData := base64_Std script; ri_SecurityGroupIds := [MasterSGId s];
       ri_Tags := instance_tags cluster (machine_Name machine)
                    (default "" (Labels (machine_ObjectMeta machine) !! "set")) |};
  _ ← waitForInstanceState (i_InstanceId masterInstance) "running";
  _ ← call (λ t, RegisterInstances t (balancer_name cluster) [i_InstanceId masterInstance]);
  describe_instance (i_InstanceId masterInstance).

Definition deleteInstance (role : string) : GoM env () :=
  cluster ← the_cluster;
  reservations ← call (λ t, DescribeInstances t [roled role; of_cluster cluster]);
  match i_InstanceId <$> concat (res_Instances <$> reservations) with
  | [] => mret ()
  | instances =>
      _ ← call (λ t, TerminateInstances t instances);
      call (λ t, WaitUntilInstanceTerminated t instances)
  end.

(** ** The load balancer *)
Definition getLoadBalancer : GoM env string :=
  cluster ← the_cluster;
  balancers ← call (λ t, DescribeLoadBalancers t [balancer_name cluster]);
  mret (match balancers with [] => "" | dns :: _ => dns end).

(** [err.Error()] of no error panics: a balancer that is still there does. *)
Definition deleteLoadBalancer : GoM env () :=
  cluster ← the_cluster;
  _ ← call (λ t, DeleteLoadBalancer t (balancer_name cluster));
  PollImmediate retries (
    r ← attempt getLoadBalancer;
    match r with
    | inl _ => nil_panic
    | inr err => mret (Contains err "LoadBalancerNotFound")
    end).

Definition setupLoadBalancer (publicSubnetID : string) : GoM env string :=
  cluster ← the_cluster;
  s ← the_status;
  dns ← call (λ t, CreateLoadBalancer t
    {| cl_Name := balancer_name cluster; cl_Subnets := [publicSubnetID]; cl_SecurityGroups := [MasterSGId s];
       cl_Scheme := "Internet-facing";
       cl_Listeners := [{| ls_Protocol := "TCP"; ls_LoadBalancerPort := 6443; ls_InstanceProtocol := "TCP";
                           ls_InstancePort := 6443 |}];
       cl_Tags := <[NameAWSClusterAPIRole := "apiserver"]> (<[cluster_key cluster := "owned"]>
                    {[ NameAWSProviderManaged := "true" ]}) |});
  _ ← call (λ t, ConfigureHealthCheck t (balancer_name cluster)
        {| eh_Target := "TCP:6443"; eh_Interval := 10; eh_Timeout := 5; eh_HealthyThreshold := 5;
           eh_UnhealthyThreshold := 3 |});
  mret dns.

(** ** Taking the network down *)
Definition findElasticIP : GoM env (list string) :=
  cluster ← the_cluster;
  call (λ t, DescribeAddresses t [filter "tag:Name" [cluster_Name cluster +:+ "-eip-apiserver"]; of_cluster cluster]).

Definition releaseReservedIP : GoM env () :=
  ips ← findElasticIP;
  match ips with
  | [] => mret ()
  | ip :: _ =>
      _ ← call (λ t, ReleaseAddress t ip);
      PollImmediate retries (unless_err findElasticIP (λ ips, mret (match ips with [] => true | _ => false end)))
  end.

(** Errors of a round are "not yet". *)
Definition revoke_all (sg : SecurityGroupDesc) : GoM env () :=
  _ ← match sgd_Ingress sg with
      | [] => mret ()
      | permissions => call (λ t, RevokeSecurityGroupIngress t (sgd_GroupId sg) permissions)
      end;
  match sgd_Egress sg with
  | [] => mret ()
  | permissions => call (λ t, RevokeSecurityGroupEgress t (sgd_GroupId sg) permissions)
  end.

Definition deleteSecurityGroup (vpcID : string) : GoM env () :=
  if decide (vpcID = "") then mret () else
  PollImmediate retries (
    cluster ← the_cluster;
    unless_err (groups ← call (λ t, DescribeSecurityGroups t [in_vpc vpcID; of_cluster cluster]);
                _ ← for_each revoke_all groups;
                for_each (λ sg, call (λ t, DeleteSecurityGroup t (sgd_GroupId sg))) groups)
               (λ _, mret true)).

Definition deleteSubnetID (vpcID : string) : GoM env () :=
  cluster ← the_cluster;
  subnets ← call (λ t, DescribeSubnets t [in_vpc vpcID; of_cluster cluster]);
  for_each (λ subnet, call (λ t, DeleteSubnet t subnet)) subnets.

Definition deleteInternetGateway (vpcID : string) : GoM env () :=
  igws ← call (λ t, DescribeInternetGateways t [filter "attachment.vpc-id" [vpcID]]);
  for_each (λ igw, _ ← call (λ t, DetachInternetGateway t igw vpcID);
                   call (λ t, DeleteInternetGateway t igw)) igws.

(** The main table is left, without its other associations. *)
Definition delete_table (rt : RouteTable) : GoM env () :=
  _ ← for_each (λ assoc, if assoc.1 : bool then mret () else call (λ t, DisassociateRouteTable t assoc.2))
               (rt_Associations rt);
  if existsb fst (rt_Associations rt) then mret () else call (λ t, DeleteRouteTable t (rt_ID rt)).

Definition deleteRouteTable (vpcID : string) : GoM env () :=
  cluster ← the_cluster;
  tables ← call (λ t, DescribeRouteTables t [in_vpc vpcID; of_cluster cluster]);
  for_each delete_table tables.

Definition deleteNatGateway (natID : string) : GoM env () :=
  if decide (natID = "") then mret () else
  _ ← call (λ t, DeleteNatGateway t natID);
  PollImmediate retries (unless_err (call (λ t, DescribeNatGateway t natID))
    (λ states, mret (match states with [] => true | state :: _ => bool_decide (state = "deleted") end))).

Definition deleteVpc (vpcID : string) : GoM env () := call (λ t, DeleteVpc t vpcID).
End connector.
End AwsCloud.
