(* ===== verification/Aws.v ===== *)
(** * The provider of Amazon's clouds (cloud/providers/aws)

    The cluster manager as a record [Interface] of Cloud.v, over the connector of
    AwsCloud.v. *)
From stdpp Require Import base list gmap strings pretty fin_maps.
From Stdlib Require Import Ascii.
From S2P Require Import Prelude GoStrings Api StoreSpec Provider Certs Kube Cloud Apply Startup ProviderParts.
From S2P Require Import AwsApi AwsCloud.

Module Aws.
Import aws AwsCloud.

Definition UID : string := "aws".
Definition AWSProviderGroupName : string := "awsprovider".
Definition AWSProviderApiVersion : string := "v1alpha1".
Definition AWSClusterProviderKind : string := "AWSClusterProviderSpec".
Definition AWSMachineProviderKind : string := "AWSMachineProviderSpec".

Definition with_aws (c : CloudSpec) (a : AWSSpec) : CloudSpec :=
  {| CloudProviderName := CloudProviderName c; Project := Project c; Region := Region c; Zone := Zone c;
     InstanceImage := InstanceImage c; OSName := OSName c; InstanceImageProject := InstanceImageProject c;
     NetworkProvider := NetworkProvider c; SSHKeyName := SSHKeyName c; spec_AWS := Some a;
     spec_GCE := spec_GCE c; spec_Azure := spec_Azure c; spec_Linode := spec_Linode c; spec_GKE := spec_GKE c;
     spec_Dokube := spec_Dokube c |}.

Definition with_APIServerExtraArgs (c : ClusterConfig) (args : gmap string string) : ClusterConfig :=
  with_ExtraArgs c args (KubeletExtraArgs c).

Definition with_failure (c : Cluster) (reason : string) : Cluster :=
  with_Status c {| Phase := Phase (Status c); Reason := reason; status_Cloud := status_Cloud (Status c) |}.

Definition with_NetworkSpec (s : AWSClusterProviderSpec) (n : NetworkSpec) : AWSClusterProviderSpec :=
  {| cs_Meta := cs_Meta s; cs_NetworkSpec := n; cs_Region := cs_Region s; cs_SSHKeyName := cs_SSHKeyName s;
     cs_CAKeyPair := cs_CAKeyPair s; cs_EtcdCAKeyPair := cs_EtcdCAKeyPair s;
     cs_FrontProxyCAKeyPair := cs_FrontProxyCAKeyPair s; cs_SAKeyPair := cs_SAKeyPair s;
     cs_ClusterConfiguration := cs_ClusterConfiguration s |}.

Definition with_AMI (s : AWSMachineProviderSpec) (image : string) (size : Z) : AWSMachineProviderSpec :=
  {| ms_Meta := ms_Meta s; ms_AMI := {| ref_ID := Some image; ref_ARN := None; ref_Filters := [] |};
     ms_ImageLookupOrg := ms_ImageLookupOrg s; ms_InstanceType := ms_InstanceType s;
     ms_AdditionalTags := ms_AdditionalTags s; ms_IAMInstanceProfile := ms_IAMInstanceProfile s;
     ms_PublicIP := ms_PublicIP s; ms_AdditionalSecurityGroups := ms_AdditionalSecurityGroups s;
     ms_Subnet := ms_Subnet s; ms_KeyName := ms_KeyName s; ms_RootDeviceSize := size;
     ms_KubeadmConfiguration := ms_KubeadmConfiguration s |}.

Section provider.
Context {S Crt Key SSHKey X KC CC BC V : Type}.
Context `{!Crypto Crt Key SSHKey, !CertText Crt Key, !Clock, !Polling, !Patience, !Kubernetes X KC CC BC}.
Context `{!StartupLib Crt V, !aws.AwsJson, !AwsTexts, !AwsSDK X SSHKey, !Connector X}.
Context (sp : ResourceInterface S Crt Key) (ControllerManager customTemplate : string).
Notation env := (env (S := S) (Crt := Crt) (Key := Key) (SSHKey := SSHKey) (X := X) (KC := KC)).
Notation Interface := (Interface (S := S) (Crt := Crt) (Key := Key) (SSHKey := SSHKey) (X := X)
                                 (KC := KC)).

(** ** apply.go *)

(** What is looked for and not found, for whatever reason, is made. *)
Definition found_or {A} (get setup : GoM env A) : GoM env A :=
  r ← attempt get;
  match r with inl a => mret a | inr _ => setup end.

(** The failure is written into the status of the cluster. *)
Definition noting_failure {A} (m : GoM env A) : GoM env A :=
  r ← attempt m;
  match r with
  | inl a => mret a
  | inr err => cluster ← the_cluster; _ ← set_Cluster (with_failure cluster err); throw (wrap "" err)
  end.

Definition apply_ensureIAMProfile : GoM env () :=
  found ← getIAMProfile;
  if found : bool then mret () else ensureIAMProfile.

Definition apply_importPublicKey : GoM env () :=
  found ← attempt getPublicKey;
  match found with inl true => mret () | _ => importPublicKey end.

Definition ensureVPC : GoM env string := found_or getVpc setupVpc.

Definition ensureSubnet : GoM env (string * string) :=
  vpcID ← on_err (wrap "vpc not found") getVpc;
  publicSubnetID ← found_or (getSubnet vpcID "public") (setupPublicSubnet vpcID);
  privateSubnetID ← found_or (getSubnet vpcID "private") (setupPrivateSubnet vpcID);
  mret (publicSubnetID, privateSubnetID).

Definition ensureInternetGateway (vpcID : string) : GoM env string :=
  found_or (getInternetGateway vpcID) (setupInternetGateway vpcID).

Definition ensureNatGateway (vpcID publicSubnetID : string) : GoM env string :=
  found_or (getNatGateway vpcID) (setupNatGateway publicSubnetID).

Definition ensureRouteTable (vpcID gatewayID natID publicSubnetID privateSubnetID : string) : GoM env (string * string) :=
  public ← found_or (getRouteTable "public" vpcID)
             (setupRouteTable "public" vpcID gatewayID natID publicSubnetID privateSubnetID);
  private ← found_or (getRouteTable "private" vpcID)
              (setupRouteTable "private" vpcID gatewayID natID publicSubnetID privateSubnetID);
  mret (public, private).

(** The group of the masters stands for all. *)
Definition ensureSecurityGroup (vpcID : string) : GoM env () :=
  aws ← the_aws;
  found ← attempt (getSecurityGroupID vpcID (MasterSGName aws));
  match found with
  | inl (Some _) => detectSecurityGroups vpcID
  | _ => noting_failure (setupSecurityGroups vpcID)
  end.

Definition ensureBastion (publicSubnetID : string) : GoM env () :=
  found ← attempt getBastion;
  match found with
  | inl true => mret ()
  | _ => noting_failure (setupBastion publicSubnetID)
  end.

(** [found] is never set: the balancer is made whether it is there or not. *)
Definition ensureLoadBalancer (publicSubnetID : string) : GoM env () :=
  _ ← ignore_err getLoadBalancer;
  dns ← noting_failure (setupLoadBalancer publicSubnetID);
  if decide (dns = "") then throw "load balancer dns can't be empty" else
  cluster ← the_cluster;
  let cluster := with_LoadBalancer cluster {| lb_DNS := dns; lb_IP := ""; lb_Port := DefaultKubernetesBindPort |} in
  _ ← set_Cluster cluster;
  cluster ← on_err (wrap "Error setting controlplane endpoints")
              (lift (SetClusterAPIEndpoints cluster [{| addr_Type := NodeExternalIP; Address := dns |}]));
  set_Cluster cluster.

Definition network_spec (cluster : Cluster) (aws : AWSSpec) (vpcID gatewayID natID : string) (subnets tables : string * string) :
    NetworkSpec :=
  let zone := Zone (Cloud (Config (Spec cluster))) in
  {| ns_VPC := {| vpc_ID := vpcID; vpc_CidrBlock := VpcCIDR aws; vpc_InternetGatewayID := Some gatewayID;
                  vpc_Tags := {[ NameAWSProviderManaged := "true" ]} |};
     ns_Subnets := [
       {| sn_ID := subnets.1; sn_CidrBlock := PublicSubnetCIDR aws; sn_AvailabilityZone := zone; IsPublic := true;
          sn_RouteTableID := Some tables.1; sn_NatGatewayID := Some natID; sn_Tags := ∅ |};
       {| sn_ID := subnets.2; sn_CidrBlock := PrivateSubnetCIDR aws; sn_AvailabilityZone := zone; IsPublic := false;
          sn_RouteTableID := Some tables.2; sn_NatGatewayID := None; sn_Tags := ∅ |}] |}.

Definition PrepareCloud : GoM env () :=
  _ ← on_err (wrap "failed to ensure iam profile") apply_ensureIAMProfile;
  _ ← on_err (wrap "failed to import public key") apply_importPublicKey;
  vpcID ← on_err (wrap "failed to ensure vpc") ensureVPC;
  subnets ← on_err (wrap "failed to ensure subnets") ensureSubnet;
  gatewayID ← on_err (wrap "failed to ensure igw") (ensureInternetGateway vpcID);
  natID ← on_err (wrap "failed to ensure nat") (ensureNatGateway vpcID subnets.1);
  tables ← on_err (wrap "failed to ensure route table") (ensureRouteTable vpcID gatewayID natID subnets.1 subnets.2);
  _ ← on_err (wrap "failed to ensure security group") (ensureSecurityGroup vpcID);
  _ ← on_err (wrap "failed to ensure bastion") (ensureBastion subnets.1);
  _ ← on_err (wrap "failed to ensure load balancer") (ensureLoadBalancer subnets.1);
  cluster ← the_cluster;
  let a := ClusterAPI (Spec cluster) in
  clusterSpec ← on_err (wrap "failed to decode provider spec")
                  (lift (ClusterConfigFromProviderSpec (ClusterProviderSpec (capi_Spec a))));
  aws ← the_aws;
  rawClusterSpec ← lift (EncodeClusterSpec (Some (with_NetworkSpec clusterSpec
                     (network_spec cluster aws vpcID gatewayID natID subnets tables))));
  let cluster := set_capi cluster (with_provider_spec a rawClusterSpec) in
  _ ← set_Cluster cluster;
  _ ← store (op_Update (st_Clusters sp) (Some cluster));
  mret ().

Definition GetMasterSKU (totalNodes : Z) : string :=
  if decide (totalNodes > 500)%Z then "c4.8xlarge"
  else if decide (totalNodes > 250)%Z then "c4.4xlarge"
  else if decide (totalNodes > 100)%Z then "t2.2xlarge"
  else if decide (totalNodes > 10)%Z then "t2.xlarge"
  else "t2.large".

(** ** startupscript.go *)
Definition hostPath : string * string * string := ("cloud-config", "/etc/kubernetes/ccm", "/etc/kubernetes/ccm").

Definition with_ControllerArgs (cfg : ClusterConfiguration) (args : gmap string string) : ClusterConfiguration :=
  {| kc_ServiceSubnet := kc_ServiceSubnet cfg; kc_PodSubnet := kc_PodSubnet cfg; kc_DNSDomain := kc_DNSDomain cfg;
     kc_KubernetesVersion := kc_KubernetesVersion cfg; kc_APIServer_ExtraArgs := kc_APIServer_ExtraArgs cfg;
     kc_CertSANs := kc_CertSANs cfg; kc_ControllerManager_ExtraArgs := args;
     kc_Scheduler_ExtraArgs := kc_Scheduler_ExtraArgs cfg; kc_ClusterName := kc_ClusterName cfg;
     kc_ControlPlaneEndpoint := kc_ControlPlaneEndpoint cfg; kc_ExtraVolumes := kc_ExtraVolumes cfg |}.

Definition aws_hooks : TemplateHooks (S := S) (Crt := Crt) (Key := Key) (SSHKey := SSHKey) (X := X) (KC := KC) := {|
  hook_NewNodeTemplateData machine token td :=
    let td := td_with_external td false in
    cluster ← the_cluster;
    set_kubelet_arg td "cloud-provider" (CloudProvider cluster);
  hook_NewMasterTemplateData machine token td :=
    cluster ← the_cluster;
    cfg ← lift (GetDefaultKubeadmClusterConfig cluster (Some hostPath));
    mret (td_with_configs td (td_InitConfiguration td)
            (Some (with_ControllerArgs cfg {[ "cloud-provider" := CloudProvider cluster ]})));
  hook_customTemplate := customTemplate
|}.

(** The ID of a subnet that cannot be found is empty. *)
Definition or_empty (get : GoM env string) : GoM env string :=
  r ← attempt get;
  mret (match r with inl id => id | inr _ => "" end).

Definition EnsureMaster (leaderMachine : Machine) : GoM env () :=
  found ← attempt (getMaster (machine_Name leaderMachine));
  match found with
  | inl true => mret ()
  | _ =>
      script ← RenderStartupScript (V := V) aws_hooks leaderMachine "";
      vpcID ← or_empty getVpc;
      privateSubnetID ← or_empty (getSubnet vpcID "private");
      masterInstance ← noting_failure (startMaster leaderMachine privateSubnetID script);
      cluster ← the_cluster;
      _ ← store (op_Update (st_Clusters sp) (Some cluster));
      spec ← lift (MachineConfigFromProviderSpec (MachineProviderSpec (machine_Spec leaderMachine)));
      rootDeviceSize ← on_err (wrap "failed to get root device size for master instance")
                         (getInstanceRootDeviceSize masterInstance);
      match rootDeviceSize with
      | None => nil_panic
      | Some size =>
          rawSpec ← lift (EncodeMachineSpec (Some (with_AMI spec (InstanceImage (Cloud (Config (Spec cluster)))) size)));
          rawStatus ← lift (EncodeMachineStatus (Some
            {| mst_Meta := zero_Meta; mst_InstanceID := Some (i_InstanceId masterInstance); mst_InstanceState := None;
               mst_Conditions := [] |}));
          let machine := with_machine_ProviderStatus (with_ProviderSpec leaderMachine (Some rawSpec)) (Some rawStatus) in
          _ ← on_err (wrap "error updating master machine in pharmer storage")
                (store (op_Update (st_Machines sp (cluster_Name cluster)) (Some machine)));
          mret ()
      end
  end.

(** [Subnets[0].NatGatewayID], read whether it is nil or not *)
Definition nat_of (s : AWSClusterProviderSpec) : outcome string :=
  match ns_Subnets (cs_NetworkSpec s) with
  | [] => Ok ""
  | subnet :: _ =>
      match sn_NatGatewayID subnet with
      | None => Panic "invalid memory address or nil pointer dereference"
      | Some id => Ok id
      end
  end.

(** Nothing is stored. *)
Definition ApplyDelete : GoM env () :=
  _ ← ignore_err (deleteInstance "controlplane");
  _ ← ignore_err deleteSSHKey;
  _ ← deleteIAMProfile;
  _ ← on_err (wrap "error deleting load balancer") deleteLoadBalancer;
  _ ← on_err (wrap "error deleting bastion instance") (deleteInstance bastion);
  cluster ← the_cluster;
  clusterSpec ← lift (ClusterConfigFromProviderSpec (ClusterProviderSpec (capi_Spec (ClusterAPI (Spec cluster)))));
  found ← attempt getVpc;
  match found with
  | inr _ => mret ()
  | inl vpcID =>
      natID ← lift (nat_of clusterSpec);
      _ ← on_err (wrap "error deleting security group") (deleteSecurityGroup vpcID);
      _ ← on_err (wrap "error deleting route table") (deleteRouteTable vpcID);
      _ ← on_err (wrap "error deleting NAT") (deleteNatGateway natID);
      _ ← on_err (wrap "error deleting Elastic IP") releaseReservedIP;
      _ ← on_err (wrap "error deleting Interget Gateway") (deleteInternetGateway vpcID);
      _ ← on_err (wrap "error deleting Subnets") (deleteSubnetID vpcID);
      on_err (wrap "error deleting VPC") (deleteVpc vpcID)
  end.

(** ** create.go *)
Definition GetDefaultMachineProviderSpec (sku : string) (role : MachineRole) : GoM env (option RawExtension) :=
  cluster ← the_cluster;
  aws ← the_aws;
  raw ← lift (EncodeMachineSpec (Some
    {| ms_Meta := ({| APIVersion := AWSProviderGroupName +:+ "/" +:+ AWSProviderApiVersion;
                      Kind := AWSMachineProviderKind |}, named "");
       ms_AMI := zero_Reference; ms_ImageLookupOrg := ""; ms_InstanceType := sku; ms_AdditionalTags := ∅;
       ms_IAMInstanceProfile := match role with NodeMachineRole => IAMProfileNode aws | MasterMachineRole => IAMProfileMaster aws end;
       ms_PublicIP := None; ms_AdditionalSecurityGroups := []; ms_Subnet := None;
       ms_KeyName := SSHKeyName (Cloud (Config (Spec cluster))); ms_RootDeviceSize := 0;
       ms_KubeadmConfiguration := {| kub_Join := None; kub_Init := None |} |}));
  mret (Some raw).

Definition default_aws (cluster : Cluster) : AWSSpec :=
  {| IAMProfileMaster := "master." +:+ cluster_Name cluster +:+ ".pharmer";
     IAMProfileNode := "node." +:+ cluster_Name cluster +:+ ".pharmer";
     MasterSGName := GenMasterSGName cluster; NodeSGName := GenNodeSGName cluster;
     BastionSGName := GenBastionSGName cluster; VpcCIDR := "10.0.0.0/16"; VpcCIDRBase := "10.0";
     MasterIPSuffix := ".9"; PrivateSubnetCIDR := "10.0.0.0/24"; PublicSubnetCIDR := "10.0.1.0/24" |}.

Definition key_pair (c : CertKeyPair Crt Key) : aws.KeyPair :=
  {| aws.kp_Cert := cert_text (Cert c); aws.kp_Key := key_text (CKey c) |}.

Definition SetClusterProviderConfig : GoM env () :=
  cluster ← the_cluster;
  certs ← gets (λ e, sc_Certs (e_scope e));
  match certs with
  | None => nil_panic
  | Some certs =>
      rawSpec ← lift (EncodeClusterSpec (Some
        {| cs_Meta := ({| APIVersion := AWSProviderGroupName +:+ "/" +:+ AWSProviderApiVersion;
                          Kind := AWSClusterProviderKind |}, named (cluster_Name cluster));
           cs_NetworkSpec := cs_NetworkSpec zero_ClusterSpec; cs_Region := Region (Cloud (Config (Spec cluster)));
           cs_SSHKeyName := SSHKeyName (Cloud (Config (Spec cluster)));
           cs_CAKeyPair := key_pair (CACert certs); cs_EtcdCAKeyPair := key_pair (EtcdCACert certs);
           cs_FrontProxyCAKeyPair := key_pair (FrontProxyCACert certs); cs_SAKeyPair := key_pair (ServiceAccountCert certs);
           cs_ClusterConfiguration := None |}));
      set_Cluster (set_capi cluster (with_provider_spec (ClusterAPI (Spec cluster)) rawSpec))
  end.

Definition SetDefaultCluster : GoM env () :=
  cluster ← the_cluster;
  let cluster := with_cluster_config cluster (λ config,
    with_SSHUserName (with_APIServerExtraArgs (with_Cloud config (with_aws (Cloud config) (default_aws cluster)))
                        {[ "cloud-provider" := CloudProviderName (Cloud config) ]}) "ubuntu") in
  _ ← set_Cluster (with_Status cluster
        {| Phase := ClusterPending; Reason := "";
           status_Cloud := {| SSHKeyExternalID := ""; status_EKS := None; status_LoadBalancer := zero_LoadBalancer;
                              status_AWS := Some {| MasterSGId := ""; NodeSGId := ""; BastionSGId := "" |} |} |});
  SetClusterProviderConfig.

Definition GetKubeConfig : GoM env KubeConfig :=
  cluster ← the_cluster;
  ca ← GetCaCertPair;
  store_rand (GetAdminConfig sp cluster ca).

(** ** context.go *)
Definition nl : string := String (ascii_of_nat 10) "".

(** The template of the credentials *)
Definition aws_cred (accessKeyID secretAccessKey region : string) : string :=
  "[default]" +:+ nl +:+ "aws_access_key_id = " +:+ accessKeyID +:+ nl +:+
  "aws_secret_access_key = " +:+ secretAccessKey +:+ nl +:+ "region = " +:+ region +:+ nl.

Definition CreateCredentials (kc : KC) : GoM env () :=
  _ ← on_cloud (CreateNamespace kc "aws-provider-system");
  cluster ← the_cluster;
  cred ← store (op_Get (st_Credentials sp) (CredentialName (Config (Spec cluster))));
  let data := cred_Data (cred_Spec cred) in
  on_cloud (CreateSecret kc "aws-provider-manager-bootstrap-credentials" "aws-provider-system"
    {[ "credentials" := aws_cred (default "" (data !! "accessKeyID")) (default "" (data !! "secretAccessKey"))
                                 (Region (Cloud (Config (Spec cluster)))) ]}).

Definition ClusterManager : Interface := {|
  cm_SetDefaultCluster := SetDefaultCluster;
  cm_GetDefaultMachineProviderSpec := GetDefaultMachineProviderSpec;
  cm_SetCloudConnector := connect (newconnector sp);
  cm_PrepareCloud := PrepareCloud;
  cm_EnsureMaster := EnsureMaster;
  cm_GetMasterSKU := GetMasterSKU;
  cm_ApplyScale := panic "implement me";
  cm_ApplyDelete := ApplyDelete;
  cm_GetAdminClient := GetAdminClient (CC := CC) (BC := BC) sp;
  cm_CreateCredentials := CreateCredentials;
  cm_GetClusterAPIComponents := mret ControllerManager
|}.
End provider.
End Aws.
