(* ===== verification/AwsFrame.v ===== *)
(** * What the provider of Amazon's clouds keeps to

    The connector moves the cloud and the cluster in the scope, and nothing else
    ([Moves]); so the cluster manager keeps to whatever the operations of a store keep
    to ([aws_respects]), and taking a cluster down leaves the store as it is. *)
From stdpp Require Import base list gmap strings pretty fin_maps.
From S2P Require Import Prelude GoStrings Api StoreSpec Provider Certs Kube KubeProofs Cloud CloudProofs Apply.
From S2P Require Import StoreFrame Startup ProviderParts ProviderFrame AwsApi AwsCloud Aws.
Import aws AwsCloud Aws.

(** ** Relations that calls on the cloud keep, and updates of the cluster in the scope *)
Class Calls {S Crt Key SSHKey X KC} (P : relation (env (S := S) (Crt := Crt) (Key := Key) (SSHKey := SSHKey) (X := X) (KC := KC))) : Prop := {
  calls_preorder :: PreOrder P;
  on_cloud_moves {A} (f : GoM X A) : pres P (on_cloud f)
}.
Class Moves {S Crt Key SSHKey X KC} (P : relation (env (S := S) (Crt := Crt) (Key := Key) (SSHKey := SSHKey) (X := X) (KC := KC))) : Prop := {
  moves_calls :: Calls P;
  set_Cluster_moves c : pres P (set_Cluster c)
}.

Section moves.
Context {S Crt Key SSHKey X KC CC BC V : Type}.
Context `{!Crypto Crt Key SSHKey, !CertText Crt Key, !Clock, !Polling, !Patience, !Kubernetes X KC CC BC}.
Context `{!StartupLib Crt V, !aws.AwsJson, !AwsTexts, !AwsSDK X SSHKey, !Connector X}.
Notation env := (env (S := S) (Crt := Crt) (Key := Key) (SSHKey := SSHKey) (X := X) (KC := KC)).
Context (P : relation env).

(** *** Calls *)
Section calls.
Context `{!Calls P}.
Hint Resolve on_cloud_moves : pres.

Lemma nil_panic_moves {A} : pres P (nil_panic : GoM env A).
Proof. unfold nil_panic. pres_tac. Qed.
Lemma the_cluster_moves : pres P (the_cluster : GoM env _).
Proof. intros e. unfold the_cluster. destruct (sc_Cluster _); reflexivity. Qed.
Hint Resolve nil_panic_moves the_cluster_moves : pres.
Lemma call_moves {A} (f : string → GoM X A) : pres P (call f : GoM env A).
Proof. unfold call. pres_tac. Qed.
Lemma conn_SSHKey_moves : pres P (conn_SSHKey : GoM env SSHKey).
Proof. unfold conn_SSHKey. pres_tac. Qed.
Lemma ignore_err_moves {A} (f : GoM env A) : pres P f → pres P (ignore_err f).
Proof. intros Hf. unfold ignore_err. pres_tac. Qed.
Lemma poll_moves n (f : GoM env bool) : pres P f → pres P (PollImmediate n f).
Proof. intros Hf. by apply pres_PollImmediate; [exact _|]. Qed.
Lemma unless_err_moves {A} (f : GoM env A) k : pres P f → (∀ a, pres P (k a)) → pres P (unless_err f k).
Proof. intros Hf Hk. by apply pres_unless_err; [exact _| |]. Qed.
Hint Resolve call_moves conn_SSHKey_moves : pres.
Lemma the_aws_moves : pres P (the_aws : GoM env _).
Proof. unfold the_aws. pres_tac. Qed.
Lemma the_status_moves : pres P (the_status : GoM env _).
Proof. unfold the_status. pres_tac. Qed.
Hint Resolve the_aws_moves the_status_moves : pres.
Lemma first_moves {A} (l : list A) : pres P (first l : GoM env A).
Proof. unfold first. pres_tac. Qed.
Lemma addTags_moves id tags : pres P (addTags id tags : GoM env _).
Proof. unfold addTags, addTag. pres_tac. Qed.
Lemma describe_instance_moves id : pres P (describe_instance id : GoM env _).
Proof. unfold describe_instance, first. pres_tac. Qed.
Lemma has_profile_moves n : pres P (has_profile n : GoM env _).
Proof. unfold has_profile. pres_tac. Qed.
Lemma createIAMProfile_moves r k : pres P (createIAMProfile r k : GoM env _).
Proof. unfold createIAMProfile. pres_tac. Qed.
Hint Resolve first_moves addTags_moves describe_instance_moves has_profile_moves
  createIAMProfile_moves : pres.

Lemma list_policies_moves n t m : pres P (list_policies n t m : GoM env _).
Proof. revert m. induction n as [|n IH]; intros m; cbn [list_policies]; pres_tac. Qed.
Lemma getInstanceRootDeviceSize_moves i : pres P (getInstanceRootDeviceSize i : GoM env _).
Proof. unfold getInstanceRootDeviceSize. pres_tac. Qed.
Lemma ensure_profile_moves r n : pres P (ensure_profile r n : GoM env _).
Proof. unfold ensure_profile. pres_tac. Qed.
Lemma deleteRolePolicy_moves r : pres P (deleteRolePolicy r : GoM env _).
Proof. unfold deleteRolePolicy. repeat (apply ignore_err_moves || pres_step). Qed.
Lemma getVpc_moves : pres P (getVpc : GoM env _).
Proof. unfold getVpc. pres_tac. Qed.
Lemma getSubnet_moves v p : pres P (getSubnet v p : GoM env _).
Proof. unfold getSubnet. pres_tac. Qed.
Lemma allocateElasticIP_moves : pres P (allocateElasticIP : GoM env _).
Proof. unfold allocateElasticIP. pres_tac. Qed.
Lemma getSecurityGroupID_moves v n : pres P (getSecurityGroupID v n : GoM env _).
Proof. unfold getSecurityGroupID. pres_tac. Qed.
Hint Resolve list_policies_moves getInstanceRootDeviceSize_moves ensure_profile_moves deleteRolePolicy_moves getVpc_moves
  getSubnet_moves allocateElasticIP_moves getSecurityGroupID_moves : pres.
Lemma wait_state_moves n i s : pres P (wait_state n i s : GoM env _).
Proof. induction n as [|n IH]; cbn [wait_state]; pres_tac. Qed.
Lemma run_instance_moves i : pres P (run_instance i : GoM env _).
Proof. unfold run_instance. pres_tac. Qed.
Hint Resolve wait_state_moves run_instance_moves : pres.
Lemma deleteInstance_moves r : pres P (deleteInstance r : GoM env _).
Proof. unfold deleteInstance. pres_tac. Qed.
Lemma getLoadBalancer_moves : pres P (getLoadBalancer : GoM env _).
Proof. unfold getLoadBalancer. pres_tac. Qed.
Lemma findElasticIP_moves : pres P (findElasticIP : GoM env _).
Proof. unfold findElasticIP. pres_tac. Qed.
Hint Resolve deleteInstance_moves getLoadBalancer_moves findElasticIP_moves : pres.

Lemma found_or_moves {A} (get setup : GoM env A) : pres P get → pres P setup → pres P (found_or get setup).
Proof. intros Hg Hs. unfold found_or. pres_tac. Qed.

Ltac calls_tac := repeat first
  [ solve [auto 2 with pres] | apply found_or_moves | apply ignore_err_moves | apply poll_moves
  | apply unless_err_moves | pres_step ].

Lemma ensureNetwork_moves :
  pres P (ensureVPC : GoM env _) ∧ pres P (ensureSubnet : GoM env _) ∧ (∀ v, pres P (ensureInternetGateway v : GoM env _)) ∧
  (∀ v s, pres P (ensureNatGateway v s : GoM env _)) ∧ ∀ v g n a b, pres P (ensureRouteTable v g n a b : GoM env _).
Proof.
  split_and!; intros; unfold ensureVPC, setupVpc, ensureSubnet, setupPublicSubnet, setupPrivateSubnet, ensureInternetGateway,
    getInternetGateway, setupInternetGateway, ensureNatGateway, getNatGateway, setupNatGateway, ensureRouteTable,
    getRouteTable, setupRouteTable; calls_tac.
Qed.
Lemma ensureAccess_moves : pres P (apply_ensureIAMProfile : GoM env _) ∧ pres P (apply_importPublicKey : GoM env _).
Proof.
  split; unfold apply_ensureIAMProfile, apply_importPublicKey, getIAMProfile, ensureIAMProfile, getPublicKey, importPublicKey;
    calls_tac.
Qed.

(** Taking a cluster down moves nothing else. *)
Lemma ApplyDelete_moves : pres P (ApplyDelete : GoM env ()).
Proof.
  unfold ApplyDelete, deleteSSHKey, deleteIAMProfile, deleteLoadBalancer, deleteSecurityGroup, revoke_all, deleteRouteTable,
    delete_table, deleteNatGateway, releaseReservedIP, deleteInternetGateway, deleteSubnetID, deleteVpc. calls_tac.
Qed.
End calls.

(** *** Calls, and updates of the cluster *)
Context `{!Moves P}.
Hint Resolve moves_calls on_cloud_moves set_Cluster_moves nil_panic_moves the_cluster_moves call_moves conn_SSHKey_moves
  the_aws_moves the_status_moves first_moves addTags_moves describe_instance_moves getSecurityGroupID_moves wait_state_moves
  run_instance_moves getLoadBalancer_moves : pres.

Lemma set_status_moves f : pres P (set_status f : GoM env _).
Proof. unfold set_status. pres_tac. Qed.
Lemma set_os_image_moves f : pres P (set_os_image f : GoM env _).
Proof. unfold set_os_image. pres_tac. Qed.
Hint Resolve set_status_moves set_os_image_moves : pres.
Lemma assign_group_moves f v n : pres P (assign_group f v n : GoM env _).
Proof. unfold assign_group. pres_tac. Qed.
Hint Resolve assign_group_moves : pres.
Lemma ensure_group_moves f v n i : pres P (ensure_group f v n i : GoM env _).
Proof. unfold ensure_group, createSecurityGroup. pres_tac. Qed.
Lemma detect_group_moves g f v n w : pres P (detect_group g f v n w : GoM env _).
Proof. unfold detect_group. pres_tac. Qed.
Hint Resolve ensure_group_moves detect_group_moves : pres.
Lemma detectSecurityGroups_moves v : pres P (detectSecurityGroups v : GoM env _).
Proof. unfold detectSecurityGroups. pres_tac. Qed.
Hint Resolve detectSecurityGroups_moves : pres.
Lemma setupSecurityGroups_moves v : pres P (setupSecurityGroups v : GoM env _).
Proof. unfold setupSecurityGroups, authorize. pres_tac. Qed.
Hint Resolve setupSecurityGroups_moves : pres.
Lemma startMaster_moves m s t : pres P (startMaster m s t : GoM env _).
Proof. unfold startMaster, detectUbuntuImage, waitForInstanceState. pres_tac. Qed.
Lemma noting_failure_moves {A} (f : GoM env A) : pres P f → pres P (noting_failure f).
Proof. intros Hf. unfold noting_failure. pres_tac. Qed.

Ltac moves_tac := repeat first
  [ solve [auto 2 with pres] | apply found_or_moves | apply noting_failure_moves | apply ignore_err_moves | apply poll_moves
  | apply unless_err_moves | pres_step ].

Lemma ensureSecurityGroup_moves v : pres P (ensureSecurityGroup v : GoM env _).
Proof. unfold ensureSecurityGroup. moves_tac. Qed.
Lemma ensureBastion_moves s : pres P (ensureBastion s : GoM env _).
Proof. unfold ensureBastion, getBastion, setupBastion. moves_tac. Qed.
Lemma ensureLoadBalancer_moves s : pres P (ensureLoadBalancer s : GoM env _).
Proof. unfold ensureLoadBalancer, setupLoadBalancer. moves_tac. Qed.
End moves.

#[export] Hint Resolve moves_calls on_cloud_moves set_Cluster_moves the_cluster_moves call_moves conn_SSHKey_moves the_aws_moves
  the_status_moves list_policies_moves getInstanceRootDeviceSize_moves getVpc_moves getSubnet_moves startMaster_moves
  ensureSecurityGroup_moves ensureBastion_moves ensureLoadBalancer_moves ApplyDelete_moves : pres.

(** ** The store *)
Section frame.
Context {S Crt Key SSHKey X KC CC BC V : Type}.
Context `{!Crypto Crt Key SSHKey, !CertText Crt Key, !Clock, !Polling, !Patience, !Kubernetes X KC CC BC}.
Context `{!StartupLib Crt V, !aws.AwsJson, !AwsTexts, !AwsSDK X SSHKey, !Connector X}.
Context (sp : ResourceInterface S Crt Key) (ControllerManager customTemplate : string) (R : relation S).
Context `{!PreOrder R} `{!StoreRespects R sp}.
Notation env := (env (S := S) (Crt := Crt) (Key := Key) (SSHKey := SSHKey) (X := X) (KC := KC)).
Notation on_e := (on_e (Crt := Crt) (Key := Key) (SSHKey := SSHKey) (X := X) (KC := KC) R).

#[local] Instance store_moves : Moves on_e.
Proof. split; [split; [exact _|intros; apply on_cloud_frame; exact _]|intros; apply set_Cluster_frame; exact _]. Qed.

Hint Resolve store_moves store_frame store_rand_frame set_AdminClient_frame NewRestConfig_frame connect_frame : pres.

Lemma aws_script_frame m t : pres on_e (RenderStartupScript (V := V) (aws_hooks (KC := KC) customTemplate) m t : GoM env _).
Proof.
  apply render_frame; cbn [aws_hooks hook_NewNodeTemplateData hook_NewMasterTemplateData]; [exact _| |pres_tac].
  intros. unfold set_kubelet_arg. pres_tac.
Qed.
Hint Resolve aws_script_frame : pres.

Lemma aws_newconnector_frame : pres on_e (newconnector sp : GoM env _).
Proof. unfold newconnector, IsUnauthorized. pres_tac. Qed.
Lemma aws_EnsureMaster_frame m : pres on_e (EnsureMaster (V := V) sp customTemplate m : GoM env _).
Proof.
  unfold EnsureMaster, getMaster, or_empty. repeat (apply (noting_failure_moves on_e) || pres_step).
Qed.
Lemma aws_PrepareCloud_frame : pres on_e (PrepareCloud sp : GoM env _).
Proof.
  destruct (ensureNetwork_moves (Key := Key) (KC := KC) (SSHKey := SSHKey) on_e) as (Hn1 & Hn2 & Hn3 & Hn4 & Hn5).
  destruct (ensureAccess_moves (Key := Key) (KC := KC) (SSHKey := SSHKey) on_e) as [Ha1 Ha2].
  unfold PrepareCloud. pres_tac.
Qed.
Hint Resolve aws_newconnector_frame aws_EnsureMaster_frame aws_PrepareCloud_frame : pres.

Lemma aws_respects : ProviderRespects R (ClusterManager (SSHKey := SSHKey) (X := X) (KC := KC) (CC := CC) (BC := BC) (V := V)
                                           sp ControllerManager customTemplate).
Proof.
  split; intros; cbn [ClusterManager cm_SetDefaultCluster cm_GetDefaultMachineProviderSpec cm_SetCloudConnector
    cm_PrepareCloud cm_EnsureMaster cm_ApplyScale cm_ApplyDelete cm_GetAdminClient cm_CreateCredentials
    cm_GetClusterAPIComponents];
    unfold SetDefaultCluster, SetClusterProviderConfig, GetDefaultMachineProviderSpec, GetAdminClient, NewAdminClient,
    CreateCredentials, nil_panic; repeat (apply store_rand_frame || pres_step).
Qed.
End frame.
