(* ===== verification/Aks.v ===== *)
(** * Azure's managed Kubernetes (cloud/providers/aks)

    The cluster manager as a record [Interface] of Cloud.v, over the class [AksAPI] of
    calls on the state of the cloud, by the token of the connector. *)
From stdpp Require Import base list gmap strings pretty fin_maps.
From Stdlib Require Import Ascii.
From S2P Require Import Prelude GoStrings Api StoreSpec Provider Certs Kube Cloud Apply Startup ProviderParts Managed.
From S2P Require Import CloudApi.

Module Aks.

Definition UID : string := "aks".
Definition RoleClusterUser : string := "clusterUser".

(** ** The SDK, the fields that are used *)
Record AzureCredential := { TenantID : string; SubscriptionID : string; ClientID : string; ClientSecret : string }.
Record AgentPoolProfile := { ap_Name : option string; ap_Count : option Z; ap_VMSize : string; ap_OsType : string }.
Record NewManagedCluster := {
  nm_Name : string; nm_Location : string; nm_DNSPrefix : string; nm_KubernetesVersion : string;
  nm_ClientID : string; nm_Secret : string; nm_AgentPools : list AgentPoolProfile;
  nm_AdminUsername : string; nm_SSHKey : string
}.
(** Pointers of an answer, nil for [None] *)
Record ManagedCluster := {
  mc_Name : option string; mc_ProvisioningState : option string; mc_AgentPools : option (list AgentPoolProfile)
}.
(** k8s.io/client-go/tools/clientcmd/api/v1.Config: servers with their authorities, users with certificates and keys *)
Record Konfig := { kf_Clusters : list (string * string); kf_AuthInfos : list (string * string) }.

Class AksAPI (X SSHKey : Type) := {
  credential_Azure : CredentialSpec → outcome AzureCredential;
  NewClients : AzureCredential → outcome string;
  SSHKey_PublicKey : SSHKey → string;
  SSHKey_PrivateKey : SSHKey → string;
  aks_GeneratePassword : nat → string;
  WithUniqSuffix : string → nat → string;
  YAMLToJSON : string → outcome string;
  unjson_Konfig : string → outcome Konfig;
  Groups_Get : string → string → GoM X ();
  Groups_CreateOrUpdate : string → string → string → string → GoM X ();   (* group, location, cluster *)
  Groups_Delete : string → string → GoM X ();
  Managed_CreateOrUpdate : string → string → string → NewManagedCluster → GoM X ();
  Managed_Get : string → string → string → GoM X ManagedCluster;
  Managed_Delete : string → string → string → GoM X ();
  Managed_GetAccessProfile : string → string → string → string → GoM X (option string)
}.

(** [*p] *)
Definition deref {A} (p : option A) : outcome A :=
  match p with None => Panic "invalid memory address or nil pointer dereference" | Some a => Ok a end.

(** [l[0]] *)
Definition first {A} (l : list A) : outcome A :=
  match l with [] => Panic "index out of range [0] with length 0" | a :: _ => Ok a end.

(** ** namer.go *)

(** [strings.Replace(s, old, new, -1)] for an [old] that is not empty; [skip] bytes
    of the occurrence found last are left to drop. *)
Fixpoint replace_all (old new : string) (skip : nat) (s : string) : string :=
  match s with
  | "" => ""
  | String c s' =>
      match skip with
      | Datatypes.S k => replace_all old new k s'
      | O => if HasPrefix s old then new +:+ replace_all old new (String.length old - 1) s'
             else String c (replace_all old new 0 s')
      end
  end.

Definition ResourceGroupName (c : Cluster) : string := cluster_Name c.
Definition VirtualNetworkName (c : Cluster) : string := cluster_Name c +:+ "-vnet".
Definition NetworkSecurityGroupName (c : Cluster) : string := cluster_Name c +:+ "-nsg".
Definition SubnetName (c : Cluster) : string := cluster_Name c +:+ "-subnet".
Definition RouteTableName (c : Cluster) : string := cluster_Name c +:+ "-rt".
Definition AdminUsername : string := "kube".
Definition GetNodeGroupName (ng : string) : string :=
  let name := ToLower ng in
  let name := replace_all "standard" "s" 0 name in
  let name := replace_all "pool" "p" 0 name in
  replace_all "-" "" 0 name.

Section provider.
Context {S Crt Key SSHKey X KC CC BC : Type}.
Context `{!Crypto Crt Key SSHKey, !CertText Crt Key, !Clock, !Polling, !Kubernetes X KC CC BC}.
Context `{!azure.AzureJson, !AksAPI X SSHKey, !Connector X}.
Context (sp : ResourceInterface S Crt Key).
Notation env := (env (S := S) (Crt := Crt) (Key := Key) (SSHKey := SSHKey) (X := X) (KC := KC)).
Notation Interface := (Interface (S := S) (Crt := Crt) (Key := Key) (SSHKey := SSHKey) (X := X)
                                 (KC := KC)).

Definition GenStorageAccountName (c : Cluster) : GoM env string :=
  suffixed ← draw_env (λ n, Ok (WithUniqSuffix (X := X) (SSHKey := SSHKey) (cluster_Name c) n));
  mret (replace_all "-" "" 0 ("k8s-" +:+ suffixed)).

(** ** cloud.go *)

(** The credential of the cluster, checked *)
Definition the_credential : GoM env AzureCredential :=
  cluster ← the_cluster;
  let name := CredentialName (Config (Spec cluster)) in
  cred ← store (op_Get (st_Credentials sp) name);
  on_err (wrap ("credential " +:+ name +:+ " is invalid"))
         (lift (credential_Azure (X := X) (SSHKey := SSHKey) (cred_Spec cred))).

Definition newconnector : GoM env string :=
  typed ← the_credential;
  lift (NewClients (X := X) (SSHKey := SSHKey) typed).

Definition getResourceGroup : GoM env () :=
  cluster ← the_cluster;
  call (λ t, Groups_Get t (ResourceGroupName cluster)).

Definition ensureResourceGroup : GoM env () :=
  cluster ← the_cluster;
  call (λ t, Groups_CreateOrUpdate t (ResourceGroupName cluster) (Zone (Cloud (Config (Spec cluster)))) (cluster_Name cluster)).

Definition deleteResourceGroup : GoM env () :=
  cluster ← the_cluster;
  call (λ t, Groups_Delete t (ResourceGroupName cluster)).

(** Errors of the call are no answer yet; the log line reads the name. *)
Definition WaitForClusterOperation : GoM env () :=
  cluster ← the_cluster;
  PollImmediate retries (
    r ← attempt (call (λ t, Managed_Get t (ResourceGroupName cluster) (cluster_Name cluster)));
    match r with
    | inr _ => mret false
    | inl r =>
        _ ← lift (deref (mc_Name r));
        state ← lift (deref (mc_ProvisioningState r));
        mret (bool_decide (state = "Succeeded"))
    end).

Definition upsertAKS (agentPools : list AgentPoolProfile) : GoM env () :=
  typed ← the_credential;
  cluster ← the_cluster;
  key ← conn_SSHKey;
  let n := cluster_Name cluster in
  _ ← call (λ t, Managed_CreateOrUpdate t (ResourceGroupName cluster) n
    {| nm_Name := n; nm_Location := Zone (Cloud (Config (Spec cluster))); nm_DNSPrefix := n;
       nm_KubernetesVersion := KubernetesVersion (Config (Spec cluster)); nm_ClientID := ClientID typed;
       nm_Secret := ClientSecret typed; nm_AgentPools := agentPools; nm_AdminUsername := AdminUsername;
       nm_SSHKey := SSHKey_PublicKey (X := X) key |});
  WaitForClusterOperation.

Definition deleteAKS : GoM env () :=
  cluster ← the_cluster;
  call (λ t, Managed_Delete t (ResourceGroupName cluster) (cluster_Name cluster)).

(** ** apply.go *)
Fixpoint agent_pools (nodeGroups : list MachineSet) : outcome (list AgentPoolProfile) :=
  match nodeGroups with
  | [] => Ok []
  | ng :: nodeGroups =>
      providerspec ← azure.MachineSpecFromProviderSpec (node_spec ng);
      pools ← agent_pools nodeGroups;
      Ok ({| ap_Name := Some (GetNodeGroupName (machineset_Name ng)); ap_Count := Replicas (machineset_Spec ng);
             ap_VMSize := azure.am_VMSize providerspec;
             ap_OsType := azure.OSType (azure.am_OSDisk providerspec) |} :: pools)
  end.

Definition PrepareCloud : GoM env () :=
  _ ← connect newconnector;
  found ← attempt getResourceGroup;
  _ ← match found with inl _ => mret () | inr _ => ensureResourceGroup end;
  cluster ← the_cluster;
  nodeGroups ← store (op_List (st_MachineSets sp (cluster_Name cluster)));
  if decide (1 < length nodeGroups) then throw "mutiple agent pool not supported yet" else
  agentPools ← lift (agent_pools nodeGroups);
  upsertAKS agentPools.

(** Is there a pool of the name with as many nodes?  Pointers are followed as far as
    the search goes. *)
Fixpoint pool_found (pools : list AgentPoolProfile) (name : string) (replicas : option Z) : outcome bool :=
  match pools with
  | [] => Ok false
  | a :: pools =>
      n ← deref (ap_Name a);
      if decide (n = name) then
        count ← deref (ap_Count a);
        want ← deref replicas;
        if decide (count = want) then Ok true else pool_found pools name replicas
      else pool_found pools name replicas
  end.

Fixpoint pools_to_change (pools : option (list AgentPoolProfile)) (nodeGroups : list MachineSet) :
    outcome (list AgentPoolProfile) :=
  match nodeGroups with
  | [] => Ok []
  | ng :: nodeGroups =>
      providerspec ← azure.MachineSpecFromProviderSpec (node_spec ng);
      let name := GetNodeGroupName (machineset_Name ng) in
      there ← deref pools;
      found ← pool_found there name (Replicas (machineset_Spec ng));
      rest ← pools_to_change pools nodeGroups;
      Ok (if found : bool then rest
          else {| ap_Name := Some name; ap_Count := Replicas (machineset_Spec ng);
                  ap_VMSize := azure.am_VMSize providerspec; ap_OsType := "Linux" |} :: rest)
  end.

Definition ApplyScale : GoM env () :=
  cluster ← the_cluster;
  nodeGroups ← store (op_List (st_MachineSets sp (cluster_Name cluster)));
  managed ← call (λ t, Managed_Get t (ResourceGroupName cluster) (cluster_Name cluster));
  agentPools ← lift (pools_to_change (mc_AgentPools managed) nodeGroups);
  match agentPools with
  | [] => mret ()
  | _ => upsertAKS agentPools
  end.

Definition ApplyDelete : GoM env () :=
  _ ← deleteAKS;
  deleteResourceGroup.

(** ** create.go *)
Definition GetDefaultMachineProviderSpec (sku : string) (role : MachineRole) : GoM env (option RawExtension) :=
  cluster ← the_cluster;
  key ← conn_SSHKey;
  raw ← lift (azure.json_MachineSpec
    {| azure.am_Meta := azure.zero_Meta; azure.am_Roles := [role_text role];
       azure.am_Location := Zone (Cloud (Config (Spec cluster)));
       azure.am_VMSize := if decide (sku = "") then "Standard_D2_v2" else sku;
       azure.am_Image := {| azure.Publisher := "Canonical"; azure.Offer := "UbuntuServer"; azure.SKU := "16.04-LTS";
                            azure.img_Version := "latest" |};
       azure.am_OSDisk := {| azure.OSType := "Linux"; azure.DiskSizeGB := 30;
                             azure.disk_ManagedDisk := {| azure.StorageAccountType := "Premium_LRS" |} |};
       azure.am_SSHPublicKey := SSHKey_PublicKey (X := X) key;
       azure.am_SSHPrivateKey := SSHKey_PrivateKey (X := X) key |});
  mret (Some raw).

Definition with_azure (c : CloudSpec) (spec : AzureSpec) : CloudSpec :=
  {| CloudProviderName := CloudProviderName c; Project := Project c; Region := Region c; Zone := Zone c;
     InstanceImage := InstanceImage c; OSName := OSName c; InstanceImageProject := InstanceImageProject c;
     NetworkProvider := NetworkProvider c; SSHKeyName := SSHKeyName c; spec_AWS := spec_AWS c;
     spec_GCE := spec_GCE c; spec_Azure := Some spec; spec_Linode := spec_Linode c;
     spec_GKE := spec_GKE c; spec_Dokube := spec_Dokube c |}.

Definition SetDefaultCluster : GoM env () :=
  cluster ← the_cluster;
  account ← GenStorageAccountName cluster;
  password ← draw_env (λ n, Ok (aks_GeneratePassword (X := X) (SSHKey := SSHKey) n));
  set_Cluster (with_cluster_config cluster (λ config, with_SSHUserName (with_Cloud config (with_azure (Cloud config)
    {| InstanceImageVersion := ""; azure_RootPassword := password; VPCCIDR := ""; ControlPlaneSubnetCIDR := "";
       NodeSubnetCIDR := ""; InternalLBIPAddress := ""; AzureDNSZone := ""; SubnetCIDR := "10.240.0.0/16";
       ResourceGroup := ResourceGroupName cluster; Api.SubnetName := SubnetName cluster;
       SecurityGroupName := NetworkSecurityGroupName cluster; VnetName := VirtualNetworkName cluster;
       Api.RouteTableName := RouteTableName cluster; StorageAccountName := account; Api.SubscriptionID := "" |})) "ubuntu")).

(** ** context.go *)

(** The access profile, read from YAML *)
Definition access_profile : GoM env Konfig :=
  cluster ← the_cluster;
  resp ← call (λ t, Managed_GetAccessProfile t (ResourceGroupName cluster) (cluster_Name cluster) RoleClusterUser);
  kubeconfig ← lift (deref resp);
  json ← lift (YAMLToJSON (X := X) (SSHKey := SSHKey) kubeconfig);
  lift (unjson_Konfig (X := X) (SSHKey := SSHKey) json).

Definition GetAKSAdminClient : GoM env KC :=
  konfig ← access_profile;
  c ← lift (first (kf_Clusters konfig));
  u ← lift (first (kf_AuthInfos konfig));
  lift (kubernetes_NewForConfig
    {| rc_Host := c.1; rc_CAData := c.2; rc_CertData := u.1; rc_KeyData := u.2; rc_BearerToken := "";
       rc_Username := ""; rc_Password := "" |}).

(** The client is kept in the scope. *)
Definition GetAdminClient : GoM env KC :=
  cached ← gets (λ e, sc_AdminClient (e_scope e));
  match cached with
  | Some kc => mret kc
  | None => kc ← GetAKSAdminClient; _ ← set_AdminClient kc; mret kc
  end.

Definition GetKubeConfig : GoM env KubeConfig :=
  cluster ← the_cluster;
  _ ← connect newconnector;
  konfig ← access_profile;
  c ← lift (first (kf_Clusters konfig));
  u ← lift (first (kf_AuthInfos konfig));
  mret (pharmer_kubeconfig cluster c.1 c.2 (cert_user u.1 u.2)).

Definition ClusterManager : Interface := {|
  cm_SetDefaultCluster := SetDefaultCluster;
  cm_GetDefaultMachineProviderSpec := GetDefaultMachineProviderSpec;
  cm_SetCloudConnector := connect newconnector;
  cm_PrepareCloud := PrepareCloud;
  cm_EnsureMaster _ := mret ();
  cm_GetMasterSKU _ := "";
  cm_ApplyScale := ApplyScale;
  cm_ApplyDelete := ApplyDelete;
  cm_GetAdminClient := GetAdminClient;
  cm_CreateCredentials _ := mret ();
  cm_GetClusterAPIComponents := panic "implement me"
|}.
End provider.
End Aks.
