(* ===== verification/Eks.v ===== *)
(** * Amazon's managed Kubernetes (cloud/providers/eks)

    The cluster manager as a record [Interface] of Cloud.v, over the class [EksAPI] of
    calls on the state of the cloud, by the token of the connector.  Roles, networks
    and node groups are stacks of CloudFormation. *)
From stdpp Require Import base list gmap strings pretty fin_maps.
From Stdlib Require Import Ascii.
From S2P Require Import Prelude GoStrings Api StoreSpec Provider Certs Kube Cloud Apply Startup ProviderParts Managed.
From S2P Require Import Edit AwsApi.

Module Eks.

Definition UID : string := "eks".
Definition v1Prefix : string := "k8s-aws-v1.".
Definition EKSNodeConfigMap : string := "aws-auth".
Definition EKSConfigMapRoles : string := "mapRoles".
Definition EKSVPCUrl : string := "https://amazon-eks.s3-us-west-2.amazonaws.com/cloudformation/2019-01-09/amazon-eks-vpc-sample.yaml".
Definition ServiceRoleURL : string := "https://amazon-eks.s3-us-west-2.amazonaws.com/cloudformation/2019-01-09/amazon-eks-service-role.yaml".
Definition NodeGroupURL : string := "https://amazon-eks.s3-us-west-2.amazonaws.com/cloudformation/2019-01-09/amazon-eks-nodegroup.yaml".

(** ** The SDK, the fields that are used; pointers are options *)
Record Output := { OutputKey : option string; OutputValue : option string }.
Record Stack := { StackStatus : option string; Outputs : list Output }.
Record StackInput := {
  si_Name : string; si_ClusterTag : string; si_TemplateURL : option string;   (* [None]: the previous template *)
  si_IAM : bool; si_Parameters : gmap string string
}.
Record EksCluster := { ek_Status : option string; ek_Endpoint : option string; ek_CertificateData : option string }.
Record ControlPlaneInput := {
  cp_Name : string; cp_RoleArn : string; cp_SubnetIds : list string; cp_SecurityGroupIds : list string; cp_Version : string
}.

Class EksAPI (X KC SSHKey : Type) := {
  credential_AWS : CredentialSpec → outcome (string * string);    (* access key, secret *)
  NewSession : string → string * string → outcome string;         (* by the region *)
  SSHKey_PublicKey : SSHKey → string;
  DescribeStacks : string → string → GoM X (list Stack);
  CreateStack : string → StackInput → GoM X ();
  UpdateStack : string → StackInput → GoM X ();
  DeleteStack : string → string → GoM X ();
  DescribeCluster : string → string → GoM X (option EksCluster);
  CreateCluster : string → ControlPlaneInput → GoM X ();
  DeleteCluster : string → string → GoM X ();
  DescribeKeyPairs : string → string → GoM X nat;
  ImportKeyPair : string → string → string → GoM X ();
  DeleteKeyPair : string → string → GoM X ();
  (* a presigned request for the caller's identity, naming the cluster *)
  PresignIdentity : string → string → GoM X string;
  base64_RawURL : string → string;
  std_base64_Decode : string → outcome string;
  (* the configuration map of the nodes: its data, where there is one *)
  ConfigMaps_Get : KC → string → GoM X (gmap string string);
  ConfigMaps_CreateOrPatch : KC → string → (gmap string string → gmap string string) → GoM X ();
  (* github.com/ghodss/yaml over lists of roles, by what the variable held before; nil is [None] *)
  yaml_Unmarshal : string → list (option json) → outcome (list (option json));
  yaml_Marshal : list (option json) → outcome string
}.

(** gomodules.xyz/version: [Equal] *)
Class VersionEqual (V : Type) := ver_Equal : V → V → bool.

(** ** namer.go *)
Definition GetStackServiceRole (c : Cluster) : string := "EKS-" +:+ cluster_Name c +:+ "-ServiceRole".
Definition GetClusterVPC (c : Cluster) : string := "EKS-" +:+ cluster_Name c +:+ "-VPC".

(** [*p] *)
Definition deref {A} (p : option A) : outcome A :=
  match p with None => Panic "invalid memory address or nil pointer dereference" | Some a => Ok a end.

Definition getOutput (stack : Stack) (key : string) : outcome (option string) :=
  (fix go l := match l with
               | [] => Ok None
               | x :: l => k ← deref (OutputKey x); if decide (k = key) then Ok (OutputValue x) else go l
               end) (Outputs stack).

Section provider.
Context {S Crt Key SSHKey X KC CC BC V : Type}.
Context `{!Crypto Crt Key SSHKey, !CertText Crt Key, !Clock, !Polling, !Kubernetes X KC CC BC}.
Context `{!StartupLib Crt V, !VersionEqual V, !aws.AwsJson, !EksAPI X KC SSHKey, !Connector X}.
Context (sp : ResourceInterface S Crt Key).
Notation env := (env (S := S) (Crt := Crt) (Key := Key) (SSHKey := SSHKey) (X := X) (KC := KC)).
Notation Interface := (Interface (S := S) (Crt := Crt) (Key := Key) (SSHKey := SSHKey) (X := X)
                                 (KC := KC)).

(** ** cloud.go *)
Definition newconnector : GoM env string :=
  cluster ← the_cluster;
  cred ← store (op_Get (st_Credentials sp) (CredentialName (Config (Spec cluster))));
  typed ← lift (credential_AWS (X := X) (KC := KC) (SSHKey := SSHKey) (cred_Spec cred));
  lift (NewSession (X := X) (KC := KC) (SSHKey := SSHKey) (Region (Cloud (Config (Spec cluster)))) typed).

(** Other regions have no image. *)
Definition regionalAMIS (v10 : bool) : gmap string string :=
  if v10 then {[ "us-west-2" := "ami-0e36fae01a5fa0d76"; "us-east-1" := "ami-0de0b13514617a168" ]}
  else {[ "us-west-2" := "ami-081099ec932b99961"; "us-east-1" := "ami-0c5b63ec54dd3fc38" ]}.

Definition DetectInstanceImage : GoM env string :=
  v10 ← lift (parse_version (Crt := Crt) (V := V) "1.10");
  cluster ← the_cluster;
  cv ← lift (parse_version (Crt := Crt) (V := V) (KubernetesVersion (Config (Spec cluster))));
  mret (default "" (regionalAMIS (ver_Equal cv v10) !! Region (Cloud (Config (Spec cluster))))).

(** Errors of the call are no answer yet. *)
Definition WaitForStackOperation (name expectedStatus : string) : GoM env () :=
  PollImmediate retries (
    r ← attempt (call (λ t, DescribeStacks t name));
    match r with
    | inr _ => mret false
    | inl [] => panic "index out of range [0] with length 0"
    | inl (s :: _) => status ← lift (deref (StackStatus s)); mret (bool_decide (status = expectedStatus))
    end).

Definition WaitForControlPlaneOperation (name : string) : GoM env () :=
  PollImmediate retries (
    r ← attempt (call (λ t, DescribeCluster t name));
    match r with
    | inr _ => mret false
    | inl c => c ← lift (deref c); status ← lift (deref (ek_Status c)); mret (bool_decide (status = "ACTIVE"))
    end).

Definition getStack (name : string) : GoM env Stack :=
  stacks ← call (λ t, DescribeStacks t name);
  match stacks with
  | [s] => mret s
  | _ => throw ("stack " +:+ name +:+ " not exists")
  end.

Definition isStackExists (name : string) : GoM env bool :=
  r ← attempt (call (λ t, DescribeStacks t name));
  mret (match r with inl (_ :: _) => true | _ => false end).

Definition isControlPlaneExists (name : string) : GoM env bool :=
  r ← attempt (call (λ t, DescribeCluster t name));
  mret (match r with inl (Some _) => true | _ => false end).

Definition createStack (name url : string) (params : gmap string string) (withIAM : bool) : GoM env () :=
  cluster ← the_cluster;
  _ ← call (λ t, CreateStack t {| si_Name := name; si_ClusterTag := cluster_Name cluster; si_TemplateURL := Some url;
                                  si_IAM := withIAM; si_Parameters := params |});
  WaitForStackOperation name "CREATE_COMPLETE".

(** An error of the call is logged only. *)
Definition deleteStack (name : string) : GoM env () := ignore_err (call (λ t, DeleteStack t name)).

Definition updateStack (name : string) (params : gmap string string) (withIAM : bool) : GoM env () :=
  cluster ← the_cluster;
  r ← attempt (call (λ t, UpdateStack t {| si_Name := name; si_ClusterTag := cluster_Name cluster;
                                           si_TemplateURL := None; si_IAM := withIAM; si_Parameters := params |}));
  match r with
  | inr _ => mret ()
  | inl _ => WaitForStackOperation name "UPDATE_COMPLETE"
  end.

(** [Status.Cloud.EKS] *)
Definition the_eks : GoM env EKSStatus :=
  cluster ← the_cluster;
  lift (deref (status_EKS (status_Cloud (Status cluster)))).

Definition update_eks (f : EKSStatus → EKSStatus) : GoM env () :=
  eks ← the_eks;
  cluster ← the_cluster;
  set_Cluster (with_cloud_status cluster (λ cs,
    {| SSHKeyExternalID := SSHKeyExternalID cs; status_AWS := status_AWS cs; status_EKS := Some (f eks);
       status_LoadBalancer := status_LoadBalancer cs |})).

(** The output of a stack, which has to be there *)
Definition output_of (stack : Stack) (key missing : string) : GoM env string :=
  v ← lift (getOutput stack key);
  match v with
  | None => throw (missing +:+ " is nil")
  | Some v => mret v
  end.

Definition ensureStackServiceRole : GoM env () :=
  cluster ← the_cluster;
  let serviceRoleName := GetStackServiceRole cluster in
  found ← isStackExists serviceRoleName;
  _ ← (if found : bool then mret () else createStack serviceRoleName ServiceRoleURL ∅ true);
  serviceRole ← getStack serviceRoleName;
  roleArn ← output_of serviceRole "RoleArn" "RoleArn";
  update_eks (λ e, {| SecurityGroup := SecurityGroup e; VpcID := VpcID e; SubnetID := SubnetID e; RoleArn := roleArn |}).

Definition ensureClusterVPC : GoM env () :=
  cluster ← the_cluster;
  let vpcName := GetClusterVPC cluster in
  found ← isStackExists vpcName;
  _ ← (if found : bool then mret () else createStack vpcName EKSVPCUrl ∅ false);
  vpc ← getStack vpcName;
  securityGroup ← output_of vpc "SecurityGroups" "SecurityGroups";
  _ ← update_eks (λ e, {| SecurityGroup := securityGroup; VpcID := VpcID e; SubnetID := SubnetID e; RoleArn := RoleArn e |});
  subnetIds ← output_of vpc "SubnetIds" "SubnetIds";
  _ ← update_eks (λ e, {| SecurityGroup := SecurityGroup e; VpcID := VpcID e; SubnetID := subnetIds; RoleArn := RoleArn e |});
  vpcID ← output_of vpc "VpcId" "VpcID";
  update_eks (λ e, {| SecurityGroup := SecurityGroup e; VpcID := vpcID; SubnetID := SubnetID e; RoleArn := RoleArn e |}).

Definition createControlPlane : GoM env () :=
  cluster ← the_cluster;
  eks ← the_eks;
  _ ← call (λ t, CreateCluster t
    {| cp_Name := cluster_Name cluster; cp_RoleArn := RoleArn eks; cp_SubnetIds := Split ","%char (SubnetID eks);
       cp_SecurityGroupIds := [SecurityGroup eks]; cp_Version := KubernetesVersion (Config (Spec cluster)) |});
  WaitForControlPlaneOperation (cluster_Name cluster).

Definition deleteControlPlane : GoM env () :=
  cluster ← the_cluster;
  call (λ t, DeleteCluster t (cluster_Name cluster)).

Definition getPublicKey : GoM env bool :=
  cluster ← the_cluster;
  n ← call (λ t, DescribeKeyPairs t (SSHKeyName (Cloud (Config (Spec cluster)))));
  mret (bool_decide (0 < n)).

Definition importPublicKey : GoM env () :=
  cluster ← the_cluster;
  key ← conn_SSHKey;
  call (λ t, ImportKeyPair t (SSHKeyName (Cloud (Config (Spec cluster))))
                             (SSHKey_PublicKey (X := X) (KC := KC) key)).

Definition deleteSSHKey : GoM env () :=
  cluster ← the_cluster;
  call (λ t, DeleteKeyPair t (SSHKeyName (Cloud (Config (Spec cluster))))).

Definition getAuthenticationToken : GoM env string :=
  cluster ← the_cluster;
  presignedURLString ← call (λ t, PresignIdentity t (cluster_Name cluster));
  mret (v1Prefix +:+ base64_RawURL (X := X) (KC := KC) (SSHKey := SSHKey) presignedURLString).

(** ** context.go *)

(** The endpoint and the authority of the control plane *)
Definition described : GoM env EksCluster :=
  cluster ← the_cluster;
  c ← call (λ t, DescribeCluster t (cluster_Name cluster));
  lift (deref c).

Definition ca_of (c : EksCluster) : outcome string :=
  data ← deref (ek_CertificateData c);
  std_base64_Decode (X := X) (KC := KC) (SSHKey := SSHKey) data.

(** [resp] is followed after the token has been obtained. *)
Definition GetEKSAdminClient : GoM env KC :=
  cluster ← the_cluster;
  resp ← call (λ t, DescribeCluster t (cluster_Name cluster));
  token ← getAuthenticationToken;
  c ← lift (deref resp);
  caData ← lift (ca_of c);
  lift (kubernetes_NewForConfig
    {| rc_Host := default "" (ek_Endpoint c); rc_CAData := caData; rc_CertData := ""; rc_KeyData := "";
       rc_BearerToken := token; rc_Username := ""; rc_Password := "" |}).

Definition GetKubeConfig : GoM env KubeConfig :=
  cluster ← the_cluster;
  _ ← connect newconnector;
  c ← described;
  caData ← lift (ca_of c);
  mret (pharmer_kubeconfig cluster (default "" (ek_Endpoint c)) caData (λ userName,
    {| na_Name := userName; na_ClientCertificateData := ""; na_ClientKeyData := ""; na_Token := "";
       na_Username := userName; na_Password := "";
       na_Exec := Some {| ex_Command := "guard"; ex_Args := ["login"; "-k"; cluster_Name cluster; "-p"; "eks"];
                          ex_Env := []; ex_APIVersion := "client.authentication.k8s.io/v1alpha1" |} |})).

(** ** ngm.go *)
Definition buildstackParams (ng : MachineSet) (name : string) : GoM env (gmap string string) :=
  providerSpec ← lift (aws.MachineConfigFromProviderSpec (node_spec ng));
  cluster ← the_cluster;
  n ← lift (the_replicas ng);
  eks ← the_eks;
  let cloud := Cloud (Config (Spec cluster)) in
  mret (list_to_map [
    ("ClusterName", cluster_Name cluster); ("NodeGroupName", name); ("KeyName", SSHKeyName cloud);
    ("NodeImageId", InstanceImage cloud); ("NodeInstanceType", aws.ms_InstanceType providerSpec);
    ("NodeAutoScalingGroupDesiredCapacity", pretty n); ("NodeAutoScalingGroupMinSize", pretty n);
    ("NodeAutoScalingGroupMaxSize", pretty n); ("ClusterControlPlaneSecurityGroup", SecurityGroup eks);
    ("Subnets", SubnetID eks); ("VpcId", VpcID eks) ]).

Definition node_role (arn : option string) : json :=
  JObj [("rolearn", match arn with Some a => JStr a | None => JNull end);
        ("username", JStr "system:node:{{EC2PrivateDNSName}}");
        ("groups", JArr [JStr "system:bootstrappers"; JStr "system:nodes"])].

(** [mapRoles] begins with one nil role. *)
Definition newNodeAuthConfigMap (kc : option KC) (arn : option string) : GoM env () :=
  kc ← lift (deref kc);
  configmaps ← attempt (on_cloud (ConfigMaps_Get kc EKSNodeConfigMap));
  mapRoles ← match configmaps with
             | inl data => lift (yaml_Unmarshal (X := X) (KC := KC) (SSHKey := SSHKey)
                                   (default "" (data !! EKSConfigMapRoles)) [None])
             | inr _ => mret [None]
             end;
  bytes ← lift (yaml_Marshal (X := X) (KC := KC) (SSHKey := SSHKey) (mapRoles ++ [Some (node_role arn)]));
  on_cloud (ConfigMaps_CreateOrPatch kc EKSNodeConfigMap (insert EKSConfigMapRoles bytes)).

(** The stack is named as the machine set, without dots. *)
Definition stack_name (ng : MachineSet) : string := ReplaceByte (machineset_Name ng) "."%char "-"%char.

Definition ng_Apply (kc : option KC) (ng : MachineSet) : GoM env () :=
  let name := stack_name ng in
  found ← isStackExists name;
  if negb found then
    params ← buildstackParams ng name;
    _ ← createStack name NodeGroupURL params true;
    ngInfo ← getStack name;
    arn ← lift (getOutput ngInfo "NodeInstanceRole");
    _ ← newNodeAuthConfigMap kc arn;
    record_replicas sp ng
  else
    del ← lift (to_delete ng);
    if del : bool then
      _ ← deleteStack name;
      delete_machineset sp ng
    else
      params ← buildstackParams ng name;
      _ ← ignore_err (updateStack name params true);
      record_replicas sp ng.

(** ** create.go *)
Definition GetDefaultMachineProviderSpec (sku : string) (role : MachineRole) : GoM env (option RawExtension) :=
  let z := aws.zero_MachineSpec in
  raw ← lift (aws.json_MachineSpec
    {| aws.ms_Meta := aws.ms_Meta z; aws.ms_AMI := aws.ms_AMI z; aws.ms_ImageLookupOrg := ""; aws.ms_InstanceType := sku;
       aws.ms_AdditionalTags := ∅; aws.ms_IAMInstanceProfile := ""; aws.ms_PublicIP := None;
       aws.ms_AdditionalSecurityGroups := []; aws.ms_Subnet := None; aws.ms_KeyName := ""; aws.ms_RootDeviceSize := 0;
       aws.ms_KubeadmConfiguration := aws.ms_KubeadmConfiguration z |});
  mret (Some raw).

Definition SetDefaultCluster : GoM env () :=
  cluster ← the_cluster;
  let cluster := with_cluster_config cluster (λ config, with_SSHUserName config "ubuntu") in
  set_Cluster (with_cloud_status cluster (λ _,
    {| SSHKeyExternalID := ""; status_AWS := None;
       status_EKS := Some {| SecurityGroup := ""; VpcID := ""; SubnetID := ""; RoleArn := "" |};
       status_LoadBalancer := zero_LoadBalancer |})).

(** ** apply.go *)

(** [x, err = f()]: what [f] answers is written either way. *)
Definition assign {A} (f : GoM env A) (zero : A) (write : Cluster → A → Cluster) : GoM env () :=
  r ← attempt f;
  cluster ← the_cluster;
  match r with
  | inl a => set_Cluster (write cluster a)
  | inr e => _ ← set_Cluster (write cluster zero); throw e
  end.

Definition with_ClusterProviderSpec (c : Cluster) (raw : option RawExtension) : Cluster :=
  let a := ClusterAPI (Spec c) in
  set_capi c (with_capi_Spec a {| ClusterNetwork := ClusterNetwork (capi_Spec a); ClusterProviderSpec := raw |}).

Definition with_InstanceImage (c : Cluster) (image : string) : Cluster :=
  with_cluster_config c (λ config, with_Cloud config (with_image (Cloud config) image)).

(** The role is the empty text in the code; a provider spec does not depend on it. *)
Definition PrepareCloud : GoM env () :=
  _ ← assign (GetDefaultMachineProviderSpec "" NodeMachineRole) None with_ClusterProviderSpec;
  _ ← assign DetectInstanceImage "" with_InstanceImage;
  _ ← ensureStackServiceRole;
  found ← attempt getPublicKey;
  _ ← match found with inl true => mret () | _ => importPublicKey end;
  _ ← ensureClusterVPC;
  cluster ← the_cluster;
  found ← isControlPlaneExists (cluster_Name cluster);
  _ ← (if found : bool then mret () else createControlPlane);
  cluster ← the_cluster;
  _ ← store (op_Update (st_Clusters sp) (Some cluster));
  mret ().

Definition ApplyScale : GoM env () :=
  cluster ← the_cluster;
  nodeGroups ← store (op_List (st_MachineSets sp (cluster_Name cluster)));
  kc ← (if decide (Phase (Status cluster) = ClusterDeleted) then mret None
        else kc ← GetEKSAdminClient; mret (Some kc));
  _ ← for_each (ng_Apply kc) nodeGroups;
  cluster ← the_cluster;
  _ ← store (op_Update (st_Clusters sp) (Some cluster));
  mret ().

(** [if found { … }], errors are logged only *)
Definition delete_found (found : bool) (delete : GoM env ()) : GoM env () :=
  if found then ignore_err delete else mret ().

Definition ApplyDelete : GoM env () :=
  _ ← ignore_err ApplyScale;
  cluster ← the_cluster;
  found ← isControlPlaneExists (cluster_Name cluster);
  _ ← delete_found found deleteControlPlane;
  found ← isStackExists (GetStackServiceRole cluster);
  _ ← delete_found found (deleteStack (GetStackServiceRole cluster));
  found ← isStackExists (GetClusterVPC cluster);
  _ ← delete_found found (deleteStack (GetClusterVPC cluster));
  found ← attempt getPublicKey;
  _ ← delete_found (match found with inl b => b | inr _ => false end) deleteSSHKey;
  _ ← set_Phase ClusterDeleted;
  cluster ← the_cluster;
  _ ← store (op_Update (st_Clusters sp) (Some cluster));
  mret ().

Definition ClusterManager : Interface := {|
  cm_SetDefaultCluster := SetDefaultCluster;
  cm_GetDefaultMachineProviderSpec := GetDefaultMachineProviderSpec;
  cm_SetCloudConnector := connect newconnector;
  cm_PrepareCloud := PrepareCloud;
  cm_EnsureMaster _ := mret ();
  cm_GetMasterSKU _ := "";
  cm_ApplyScale := ApplyScale;
  cm_ApplyDelete := ApplyDelete;
  cm_GetAdminClient := GetEKSAdminClient;
  cm_CreateCredentials _ := mret ();
  cm_GetClusterAPIComponents := mret ""
|}.
End provider.
End Eks.
