(* ===== verification/Azure.v ===== *)
(** * The provider of Azure's machines (cloud/providers/azure)

    The cluster manager as a record [Interface] of Cloud.v, over the class [AzureSDK] of
    calls on the state of the cloud, by the token of the connector.  A creation answers
    with a future, which is waited for and then asked for its result.  Resources that
    are only handed on to other calls are their IDs. *)
From stdpp Require Import base list gmap strings pretty fin_maps.
From Stdlib Require Import Ascii.
From S2P Require Import Prelude GoStrings Api StoreSpec Provider Certs Kube Cloud Apply Startup ProviderParts.
From S2P Require Import Upgrade CloudApi AwsApi Aks.

Module Azure.

Definition UID : string := "azure".
Definition AzureProviderGroupName : string := "azureprovider".
Definition AzureProviderMachineKind : string := "AzureMachineProviderSpec".
Definition AzureProviderClusterKind : string := "AzureClusterProviderSpec".
Definition AzureProviderApiVersion : string := "v1alpha1".

(** ** hash/fnv and the verb %x *)
Definition fnv_prime32 : Z := 16777619.
Definition fnv_offset32 : Z := 2166136261.

(** FNV-1a of the bytes *)
Fixpoint fnv32a_from (h : Z) (s : string) : Z :=
  match s with
  | "" => h
  | String c s => fnv32a_from (uint32 (Z.lxor h (Z.of_nat (nat_of_ascii c)) * fnv_prime32)) s
  end.
Definition fnv32a : string → Z := fnv32a_from fnv_offset32.

Definition hex_digit (d : Z) : ascii :=
  ascii_of_nat (Z.to_nat (if decide (d < 10)%Z then 48 + d else 87 + d)%Z).

(** The digits of a number that is not zero, the last first; a uint32 has eight. *)
Fixpoint hex_digits (fuel : nat) (n : Z) (acc : string) : string :=
  match fuel with
  | O => acc
  | Datatypes.S fuel =>
      if decide (n = 0)%Z then acc
      else hex_digits fuel (n / 16)%Z (String (hex_digit (n `mod` 16)%Z) acc)
  end.
Definition hex32 (n : Z) : string := if decide (n = 0)%Z then "0" else hex_digits 8 n "".

(** ** The SDK, the fields that are used *)
Record Group := { rg_Name : string; rg_Location : string; rg_Tags : gmap string string }.
Record VirtualNetwork := { vn_Name : string; vn_Location : string; vn_AddressPrefixes : list string; vn_Tags : gmap string string }.
Record SecurityRule := {
  sr_Name : string; sr_Protocol : string; sr_Source : string; sr_SourcePort : string; sr_Destination : string;
  sr_DestinationPort : string; sr_Access : string; sr_Direction : string; sr_Priority : Z
}.
Record NewSecurityGroup := { ns_Location : string; ns_Rules : list SecurityRule; ns_Tags : gmap string string }.
Record NewRouteTable := { rt_Location : string; rt_Tags : gmap string string }.
(** The security group and the route table of a subnet, and its range *)
Record NewSubnet := { nsub_Name : string; nsub_RouteTable : option string; nsub_SecurityGroup : option string; nsub_AddressPrefix : string }.
Record Subnet := { subnet_ID : option string }.
Record Probe := { pr_Name : string; pr_Protocol : string; pr_Port : Z; pr_Interval : Z; pr_Number : Z }.
Record LBRule := {
  lr_Name : string; lr_Protocol : string; lr_FrontendPort : Z; lr_BackendPort : Z; lr_IdleTimeout : Z; lr_Frontend : string;
  lr_BackendPool : string; lr_Probe : string
}.
Record NatRule := { nat_Name : string; nat_FrontendPort : Z; nat_BackendPort : Z; nat_IdleTimeout : Z; nat_Frontend : string }.
(** The one front end: an address of a subnet, or a public one *)
Inductive Frontend :=
  | PrivateFrontend (subnet : Subnet) (address : string)
  | PublicFrontend (address : option string).
Record NewLoadBalancer := {
  nlb_Sku : string; nlb_Location : string; nlb_FrontendName : string; nlb_Frontend : Frontend; nlb_Pools : list string;
  nlb_Probes : list Probe; nlb_Rules : list LBRule; nlb_NatRules : list NatRule
}.
(** Pointers of answers, nil for [None]; a pointer to a list of pools with their IDs *)
Record LoadBalancer := { alb_Pools : option (list (option string)) }.
Record PublicIPAddress := { pip_ID : option string; pip_Name : option string; pip_Fqdn : option string; pip_Address : option string }.
Record NewPublicIP := {
  np_Sku : string; np_Name : string; np_Location : string; np_Version : string; np_Allocation : string; np_Label : string; np_Fqdn : string
}.
Record NewInterface := { ni_Location : string; ni_ConfigName : string; ni_SubnetID : option string; ni_Pools : list (option string) }.
Record NetworkInterface := { nic_ID : option string }.
Record NewVM := {
  nv_Name : string; nv_Location : string; nv_NIC : option string; nv_Password : string; nv_Username : string; nv_CustomData : string;
  nv_SSHKey : string; nv_SSHPath : string; nv_Image : azure.Image; nv_DiskName : string; nv_Disk : azure.OSDisk; nv_Size : string;
  nv_Tags : gmap string string
}.
Record Extension := { ex_Name : string; ex_Location : string; ex_Script : string; ex_Tags : gmap string string }.
Record VirtualMachine := { machine_ID : option string }.

(** apis/v1alpha1/cluster.go; a float32 as a fraction *)
Record AzureCloudConfig := {
  acf_Cloud : string; acf_TenantID : string; acf_SubscriptionID : string; acf_AadClientID : string; acf_AadClientSecret : string;
  acf_ResourceGroup : string; acf_Location : string; acf_VMType : string; acf_SubnetName : string; acf_SecurityGroupName : string;
  acf_VnetName : string; acf_RouteTableName : string; acf_PrimaryAvailabilitySetName : string; acf_PrimaryScaleSetName : string;
  acf_CloudProviderBackoff : bool; acf_CloudProviderBackoffRetries : Z; acf_CloudProviderBackoffExponent : Z * Z;
  acf_CloudProviderBackoffDuration : Z; acf_CloudProviderBackoffJitter : Z * Z; acf_CloudProviderRatelimit : bool;
  acf_CloudProviderRateLimitQPS : Z * Z; acf_CloudProviderRateLimitBucket : Z; acf_UseManagedIdentityExtension : bool;
  acf_UserAssignedIdentityID : string; acf_UseInstanceMetadata : bool; acf_LoadBalancerSku : string;
  acf_ExcludeMasterFromStandardLB : bool; acf_ProviderVaultName : string; acf_MaximumLoadBalancerRuleCount : Z;
  acf_ProviderKeyName : string; acf_ProviderKeyVersion : string
}.

(** The calls, of a token; then the group and the name of the resource.  A creation
    answers with a future. *)
Class AzureSDK (X SSHKey : Type) := {
  credential_Azure : CredentialSpec → outcome Aks.AzureCredential;
  NewClients : Aks.AzureCredential → outcome string;
  SSHKey_PublicKey : SSHKey → string;
  SSHKey_PrivateKey : SSHKey → string;
  base64_Std : string → string;
  GeneratePassword : nat → string;
  WithUniqSuffix : string → nat → string;
  json_CloudConfig : AzureCloudConfig → outcome string;
  clientcmd_Write : ClientConfig → outcome string;
  WaitForCompletion : string → string → GoM X ();
  Groups_Get : string → string → GoM X ();
  Groups_CreateOrUpdate : string → string → Group → GoM X ();
  Groups_Delete : string → string → GoM X ();
  VirtualNetworks_Get : string → string → string → GoM X ();
  VirtualNetworks_CreateOrUpdate : string → string → string → VirtualNetwork → GoM X string;
  VirtualNetworks_Result : string → string → GoM X ();
  SecurityGroups_Get : string → string → string → GoM X string;           (* its ID *)
  SecurityGroups_CreateOrUpdate : string → string → string → NewSecurityGroup → GoM X string;
  SecurityGroups_Result : string → string → GoM X string;
  RouteTables_Get : string → string → string → GoM X string;
  RouteTables_CreateOrUpdate : string → string → string → NewRouteTable → GoM X string;
  RouteTables_Result : string → string → GoM X string;
  Subnets_Get : string → string → string → string → GoM X Subnet;         (* group, network, name *)
  Subnets_CreateOrUpdate : string → string → string → string → NewSubnet → GoM X string;
  Subnets_Result : string → string → GoM X Subnet;
  LoadBalancers_Get : string → string → string → GoM X LoadBalancer;
  LoadBalancers_CreateOrUpdate : string → string → string → NewLoadBalancer → GoM X string;
  LoadBalancers_Result : string → string → GoM X LoadBalancer;
  PublicIPs_Get : string → string → string → GoM X PublicIPAddress;
  PublicIPs_CreateOrUpdate : string → string → string → NewPublicIP → GoM X string;
  PublicIPs_Result : string → string → GoM X PublicIPAddress;
  Interfaces_Get : string → string → string → GoM X NetworkInterface;
  Interfaces_CreateOrUpdate : string → string → string → NewInterface → GoM X string;
  Interfaces_Result : string → string → GoM X NetworkInterface;
  VMs_Get : string → string → string → GoM X VirtualMachine;
  VMs_CreateOrUpdate : string → string → string → NewVM → GoM X string;
  VMExtensions_CreateOrUpdate : string → string → string → string → Extension → GoM X ()
}.

(** ** namer.go *)
Definition DefaultUserName : string := "capi".
Definition DefaultVnetCIDR : string := "10.0.0.0/8".
Definition DefaultControlPlaneSubnetCIDR : string := "10.0.0.0/16".
Definition DefaultNodeSubnetCIDR : string := "10.1.0.0/16".
Definition DefaultInternalLBIPAddress : string := "10.0.0.100".
Definition DefaultAzureDNSZone : string := "cloudapp.azure.com".

Definition GenerateVnetName (c : Cluster) : string := cluster_Name c +:+ "-vnet".
Definition GenerateControlPlaneSecurityGroupName (c : Cluster) : string := cluster_Name c +:+ "-controlplane-nsg".
Definition GenerateNodeSecurityGroupName (c : Cluster) : string := cluster_Name c +:+ "-node-nsg".
Definition GenerateNodeRouteTableName (c : Cluster) : string := cluster_Name c +:+ "-node-routetable".
Definition GenerateControlPlaneSubnetName (c : Cluster) : string := cluster_Name c +:+ "-controlplane-subnet".
Definition GenerateNodeSubnetName (c : Cluster) : string := cluster_Name c +:+ "-node-subnet".
Definition GenerateInternalLBName (c : Cluster) : string := cluster_Name c +:+ "-internal-lb".
Definition GeneratePublicLBName (c : Cluster) : string := cluster_Name c +:+ "-public-lb".
Definition ResourceGroupName (c : Cluster) : string := cluster_Name c.
Definition VirtualNetworkName (c : Cluster) : string := cluster_Name c +:+ "-vnet".
Definition RouteTableName (c : Cluster) : string := cluster_Name c +:+ "-rt".
Definition NetworkInterfaceName (instanceName : string) : string := instanceName +:+ "-nic".
Definition AdminUsername : string := DefaultUserName.

(** Writing to a hash does not fail. *)
Definition GeneratePublicIPName (c : Cluster) (azure : AzureSpec) : string :=
  cluster_Name c +:+ "-" +:+
  hex32 (fnv32a (Api.SubscriptionID azure +:+ "/" +:+ ResourceGroupName c +:+ "/" +:+ cluster_Name c)).

Definition GenerateFQDN (publicIPName location : string) : string :=
  publicIPName +:+ "." +:+ location +:+ "." +:+ DefaultAzureDNSZone.

Definition cluster_tags (c : Cluster) : gmap string string := {[ "KubernetesCluster" := cluster_Name c ]}.

(** [*p] *)
Definition deref {A} (p : option A) : outcome A :=
  match p with None => Panic "invalid memory address or nil pointer dereference" | Some a => Ok a end.

Definition with_failure (c : Cluster) (reason : string) : Cluster :=
  with_Status c {| Phase := Phase (Status c); Reason := reason; status_Cloud := status_Cloud (Status c) |}.

Section provider.
Context {S Crt Key SSHKey X KC CC BC V : Type}.
Context `{!Crypto Crt Key SSHKey, !CertText Crt Key, !Clock, !Polling, !Kubernetes X KC CC BC}.
Context `{!StartupLib Crt V, !azure.AzureJson, !AzureSDK X SSHKey, !Connector X}.
Context (sp : ResourceInterface S Crt Key) (ClusterAPIComponents customTemplate : string).
Notation env := (env (S := S) (Crt := Crt) (Key := Key) (SSHKey := SSHKey) (X := X) (KC := KC)).
Notation Interface := (Interface (S := S) (Crt := Crt) (Key := Key) (SSHKey := SSHKey) (X := X)
                                 (KC := KC)).

(** [cluster.Spec.Config.Cloud.Azure]: nil panics. *)
Definition the_azure : GoM env AzureSpec :=
  cluster ← the_cluster;
  match spec_Azure (Cloud (Config (Spec cluster))) with None => nil_panic | Some a => mret a end.

Definition the_config : GoM env azure.AzureClusterProviderSpec :=
  cluster ← the_cluster;
  lift (azure.ClusterConfigFromProviderSpec (ClusterProviderSpec (capi_Spec (ClusterAPI (Spec cluster))))).

(** A call in the resource group of the cluster *)
Definition in_group {A} (f : string → string → GoM X A) : GoM env A :=
  cluster ← the_cluster;
  call (λ t, f t (ResourceGroupName cluster)).

(** A creation: the call, the wait for its future, and the result, with what is said of
    the error of each *)
Definition created {A} (creating waiting reading : error → error) (create : GoM env string) (result : string → string → GoM X A) :
    GoM env A :=
  f ← on_err creating create;
  _ ← on_err waiting (call (λ t, WaitForCompletion t f));
  on_err reading (call (λ t, result t f)).

(** ** cloud.go *)
Definition GetCredential : GoM env Credential :=
  cluster ← the_cluster;
  store (op_Get (st_Credentials sp) (CredentialName (Config (Spec cluster)))).

Definition newconnector : GoM env string :=
  cred ← GetCredential;
  cluster ← the_cluster;
  typed ← on_err (wrap ("credential " +:+ CredentialName (Config (Spec cluster)) +:+ " is invalid"))
            (lift (credential_Azure (X := X) (SSHKey := SSHKey) (cred_Spec cred)));
  lift (NewClients (X := X) (SSHKey := SSHKey) typed).

Definition getResourceGroup : GoM env () :=
  config ← the_config;
  call (λ t, Groups_Get t (azure.ac_ResourceGroup config)).

Definition ensureResourceGroup : GoM env () :=
  config ← the_config;
  cluster ← the_cluster;
  call (λ t, Groups_CreateOrUpdate t (ResourceGroupName cluster)
    {| rg_Name := azure.ac_ResourceGroup config; rg_Location := azure.ac_Location config; rg_Tags := cluster_tags cluster |}).

Definition getVirtualNetwork : GoM env () :=
  cluster ← the_cluster;
  in_group (λ t g, VirtualNetworks_Get t g (VirtualNetworkName cluster)).

Definition ensureVirtualNetwork : GoM env () :=
  config ← the_config;
  cluster ← the_cluster;
  azure ← the_azure;
  let name := GenerateVnetName cluster in
  created id id id
    (call (λ t, VirtualNetworks_CreateOrUpdate t (azure.ac_ResourceGroup config) name
       {| vn_Name := name; vn_Location := azure.ac_Location config; vn_AddressPrefixes := [VPCCIDR azure];
          vn_Tags := cluster_tags cluster |}))
    VirtualNetworks_Result.

Definition getNetworkSecurityGroup (name : string) : GoM env string := in_group (λ t g, SecurityGroups_Get t g name).

Definition allow_6443 : SecurityRule :=
  {| sr_Name := "allow_6443"; sr_Protocol := "Tcp"; sr_Source := "*"; sr_SourcePort := "*"; sr_Destination := "*";
     sr_DestinationPort := "6443"; sr_Access := "Allow"; sr_Direction := "Inbound"; sr_Priority := 100 |}.

Definition createNetworkSecurityGroup (isControlPlane : bool) : GoM env string :=
  config ← the_config;
  cluster ← the_cluster;
  let name := if isControlPlane then GenerateControlPlaneSecurityGroupName cluster else GenerateNodeSecurityGroupName cluster in
  let g := ResourceGroupName cluster in
  created (wrap ("failed to create security group " +:+ name +:+ " in resource group " +:+ g))
    (wrap "cannot create, future response") (wrap "result error")
    (call (λ t, SecurityGroups_CreateOrUpdate t g name
       {| ns_Location := azure.ac_Location config; ns_Rules := if isControlPlane then [allow_6443] else [];
          ns_Tags := cluster_tags cluster |}))
    SecurityGroups_Result.

Definition getSubnetID (name : string) : GoM env Subnet :=
  cluster ← the_cluster;
  in_group (λ t g, Subnets_Get t g (GenerateVnetName cluster) name).

(** The subnet without a route table is that of the control plane. *)
Definition createSubnetID (name : string) (sg rt : option string) : GoM env Subnet :=
  azure ← the_azure;
  cluster ← the_cluster;
  let g := ResourceGroupName cluster in
  created (wrap ("failed to create subnet " +:+ name +:+ " in resource group " +:+ g))
    (wrap "cannot create, future response") (wrap "result error")
    (call (λ t, Subnets_CreateOrUpdate t g (GenerateVnetName cluster) name
       {| nsub_Name := name; nsub_RouteTable := rt; nsub_SecurityGroup := sg;
          nsub_AddressPrefix := match rt with None => ControlPlaneSubnetCIDR azure | Some _ => NodeSubnetCIDR azure end |}))
    Subnets_Result.

Definition findLoadBalancer (name : string) : GoM env LoadBalancer := in_group (λ t g, LoadBalancers_Get t g name).

Definition tcp_probe : Probe :=
  {| pr_Name := "tcpHTTPSProbe"; pr_Protocol := "Tcp"; pr_Port := 6443; pr_Interval := 15; pr_Number := 4 |}.

(** The parts of a load balancer have the IDs of their names in it. *)
Definition lb_rule (idPrefix lbName frontend pool : string) : LBRule :=
  let part kind name := "/" +:+ idPrefix +:+ "/" +:+ lbName +:+ "/" +:+ kind +:+ "/" +:+ name in
  {| lr_Name := "LBRuleHTTPS"; lr_Protocol := "Tcp"; lr_FrontendPort := 6443; lr_BackendPort := 6443; lr_IdleTimeout := 4;
     lr_Frontend := part "frontendIPConfigurations" frontend; lr_BackendPool := part "backendAddressPools" pool;
     lr_Probe := part "probes" "tcpHTTPSProbe" |}.

Definition nat_rule (idPrefix lbName frontend : string) (i port : Z) : NatRule :=
  {| nat_Name := "natRule" +:+ pretty i; nat_FrontendPort := port; nat_BackendPort := 22; nat_IdleTimeout := 4;
     nat_Frontend := "/" +:+ idPrefix +:+ "/" +:+ lbName +:+ "/frontendIPConfigurations/" +:+ frontend |}.

Definition lb_prefix (subscription group : string) : string :=
  "/subscriptions/" +:+ subscription +:+ "/resourceGroups/" +:+ group +:+ "/providers/Microsoft.Network/loadBalancers".

Definition createInternalLoadBalancer (lbName : string) (subnet : Subnet) : GoM env LoadBalancer :=
  config ← the_config;
  azure ← the_azure;
  cluster ← the_cluster;
  let frontend := "controlplane-internal-lbFrontEnd" in
  let pool := "controlplane-internal-backEndPool" in
  let idPrefix := lb_prefix (Api.SubscriptionID azure) (ResourceGroupName cluster) in
  created (wrap "cannot create load balancer") (wrap "cannot get internal load balancer create or update future response") id
    (call (λ t, LoadBalancers_CreateOrUpdate t (azure.ac_ResourceGroup config) lbName
       {| nlb_Sku := "Standard"; nlb_Location := azure.ac_Location config; nlb_FrontendName := frontend;
          nlb_Frontend := PrivateFrontend subnet (InternalLBIPAddress azure); nlb_Pools := [pool]; nlb_Probes := [tcp_probe];
          nlb_Rules := [lb_rule idPrefix lbName frontend pool]; nlb_NatRules := [] |}))
    LoadBalancers_Result.

Definition createPublicLoadBalancer (pip : PublicIPAddress) : GoM env LoadBalancer :=
  config ← the_config;
  azure ← the_azure;
  cluster ← the_cluster;
  let frontend := "controlplane-lbFrontEnd" in
  let pool := "controlplane-backEndPool" in
  let idPrefix := lb_prefix (Api.SubscriptionID azure) (azure.ac_ResourceGroup config) in
  let lbName := GeneratePublicLBName cluster in
  created (wrap "cannot create public load balancer") (wrap "cannot get public load balancer create or update future response") id
    (call (λ t, LoadBalancers_CreateOrUpdate t (azure.ac_ResourceGroup config) lbName
       {| nlb_Sku := "Standard"; nlb_Location := azure.ac_Location config; nlb_FrontendName := frontend;
          nlb_Frontend := PublicFrontend (pip_ID pip); nlb_Pools := [pool]; nlb_Probes := [tcp_probe];
          nlb_Rules := [lb_rule idPrefix lbName frontend pool];
          nlb_NatRules := [nat_rule idPrefix lbName frontend 1 22; nat_rule idPrefix lbName frontend 2 2201;
                           nat_rule idPrefix lbName frontend 3 2202] |}))
    LoadBalancers_Result.

Definition getRouteTable : GoM env string :=
  cluster ← the_cluster;
  in_group (λ t g, RouteTables_Get t g (GenerateNodeRouteTableName cluster)).

Definition createRouteTable : GoM env string :=
  config ← the_config;
  cluster ← the_cluster;
  let name := GenerateNodeRouteTableName cluster in
  let g := ResourceGroupName cluster in
  created (wrap ("failed to create route table " +:+ name +:+ " in resource group " +:+ g))
    (wrap "cannot create, future response") (wrap "result error")
    (call (λ t, RouteTables_CreateOrUpdate t g name
       {| rt_Location := azure.ac_Location config; rt_Tags := cluster_tags cluster |}))
    RouteTables_Result.

(** The zone stands where a location is asked for.  The log line reads the name. *)
Definition createPublicIP (ipName : string) : GoM env PublicIPAddress :=
  config ← the_config;
  publicIP ← created (wrap "cannot create public ip") (wrap "cannot create, future response") (wrap "result error")
    (call (λ t, PublicIPs_CreateOrUpdate t (azure.ac_ResourceGroup config) ipName
       {| np_Sku := "Standard"; np_Name := ipName; np_Location := azure.ac_Location config; np_Version := "IPv4";
          np_Allocation := "Static"; np_Label := ToLower ipName; np_Fqdn := GenerateFQDN ipName DefaultAzureDNSZone |}))
    PublicIPs_Result;
  _ ← lift (deref (pip_Name publicIP));
  mret publicIP.

Definition getPublicIP (name : string) : GoM env PublicIPAddress := in_group (λ t g, PublicIPs_Get t g name).
Definition getNetworkInterface (name : string) : GoM env NetworkInterface := in_group (λ t g, Interfaces_Get t g name).

(** [( *lb.BackendAddressPools)[0].ID] *)
Definition first_pool (lb : LoadBalancer) : outcome (option string) :=
  pools ← deref (alb_Pools lb);
  match pools with [] => Panic "index out of range [0] with length 0" | p :: _ => Ok p end.

Definition createNetworkInterface (name : string) (subnet : Subnet) (publicLB internalLB : LoadBalancer) : GoM env NetworkInterface :=
  config ← the_config;
  p1 ← lift (first_pool publicLB);
  p2 ← lift (first_pool internalLB);
  created (wrap ("failed to create network interface " +:+ name +:+ " in resource group " +:+ azure.ac_ResourceGroup config))
    (wrap "cannot create, future response") id
    (call (λ t, Interfaces_CreateOrUpdate t (azure.ac_ResourceGroup config) name
       {| ni_Location := azure.ac_Location config; ni_ConfigName := "pipConfig"; ni_SubnetID := subnet_ID subnet;
          ni_Pools := [p1; p2] |}))
    Interfaces_Result.

Definition getVirtualMachine (name : string) : GoM env VirtualMachine := in_group (λ t g, VMs_Get t g name).

(** Neither the machine nor its extension is waited for. *)
Definition createVirtualMachine (nicID : option string) (vmName data : string) (machine : Machine) : GoM env VirtualMachine :=
  conf ← lift (azure.MachineSpecFromProviderSpec (MachineProviderSpec (machine_Spec machine)));
  azure ← the_azure;
  cluster ← the_cluster;
  key ← conn_SSHKey;
  _ ← on_err (wrap "failed to create vm") (in_group (λ t g, VMs_CreateOrUpdate t g vmName
    {| nv_Name := vmName; nv_Location := azure.am_Location conf; nv_NIC := nicID; nv_Password := azure_RootPassword azure;
       nv_Username := AdminUsername; nv_CustomData := base64_Std (X := X) (SSHKey := SSHKey) data;
       nv_SSHKey := SSHKey_PublicKey (X := X) key; nv_SSHPath := "/home/" +:+ AdminUsername +:+ "/.ssh/authorized_keys";
       nv_Image := azure.am_Image conf; nv_DiskName := vmName +:+ "_OSDisk"; nv_Disk := azure.am_OSDisk conf;
       nv_Size := azure.am_VMSize conf; nv_Tags := cluster_tags cluster |}));
  _ ← in_group (λ t g, VMExtensions_CreateOrUpdate t g vmName "startupScript"
    {| ex_Name := "startupScript"; ex_Location := azure.am_Location conf; ex_Script := base64_Std (X := X) (SSHKey := SSHKey) data;
       ex_Tags := cluster_tags cluster |});
  in_group (λ t g, VMs_Get t g vmName).

Definition deleteResourceGroup : GoM env () := in_group (λ t g, Groups_Delete t g).

(** ** apply.go: what is not found is made, and an error is "not found". *)
Definition found_or {A} (get make : GoM env A) : GoM env A :=
  r ← attempt get;
  match r with inl a => mret a | inr _ => make end.

Definition apply_ensureResourceGroup : GoM env () := found_or getResourceGroup ensureResourceGroup.
Definition apply_ensureVirtualNetwork : GoM env () := found_or getVirtualNetwork ensureVirtualNetwork.

Definition ensureSecurityGroup : GoM env (string * string) :=
  cluster ← the_cluster;
  controlplaneSG ← found_or (getNetworkSecurityGroup (GenerateControlPlaneSecurityGroupName cluster))
                     (createNetworkSecurityGroup true);
  nodeSG ← found_or (getNetworkSecurityGroup (GenerateNodeSecurityGroupName cluster)) (createNetworkSecurityGroup false);
  mret (controlplaneSG, nodeSG).

Definition ensureRouteTable : GoM env string := found_or getRouteTable createRouteTable.

Definition ensureSubnet (controlplaneSG nodeSG rt : string) : GoM env Subnet :=
  cluster ← the_cluster;
  controlPlaneSN ← found_or (getSubnetID (GenerateControlPlaneSubnetName cluster))
                     (createSubnetID (GenerateControlPlaneSubnetName cluster) (Some controlplaneSG) None);
  _ ← found_or (getSubnetID (GenerateNodeSubnetName cluster))
        (createSubnetID (GenerateNodeSubnetName cluster) (Some nodeSG) (Some rt));
  mret controlPlaneSN.

(** A failure to make the address is written into the status of the cluster. *)
Definition ensurePublicIP (name : string) : GoM env PublicIPAddress :=
  found_or (getPublicIP name)
    (r ← attempt (createPublicIP name);
     match r with
     | inl pip => mret pip
     | inr err => cluster ← the_cluster; _ ← set_Cluster (with_failure cluster err); throw err
     end).

Definition ensureLoadBalancer (controlPlaneSN : Subnet) : GoM env (LoadBalancer * LoadBalancer) :=
  cluster ← the_cluster;
  let name := GenerateInternalLBName cluster in
  internalLB ← found_or (findLoadBalancer name) (createInternalLoadBalancer name controlPlaneSN);
  azure ← the_azure;
  lbPIP ← ensurePublicIP (GeneratePublicIPName cluster azure);
  publicLB ← found_or (findLoadBalancer (GeneratePublicLBName cluster)) (createPublicLoadBalancer lbPIP);
  fqdn ← lift (deref (pip_Fqdn lbPIP));
  address ← lift (deref (pip_Address lbPIP));
  cluster ← the_cluster;
  let cluster := with_LoadBalancer cluster {| lb_DNS := fqdn; lb_IP := address; lb_Port := DefaultKubernetesBindPort |} in
  _ ← set_Cluster cluster;
  cluster ← lift (SetClusterAPIEndpoints cluster [{| addr_Type := NodeExternalDNS; Address := fqdn |}]);
  _ ← set_Cluster cluster;
  mret (publicLB, internalLB).

Definition ensureMasterNIC (machineName : string) (controlPlaneSN : Subnet) (publicLB internalLB : LoadBalancer) : GoM env () :=
  let name := NetworkInterfaceName machineName in
  _ ← found_or (getNetworkInterface name) (createNetworkInterface name controlPlaneSN publicLB internalLB);
  mret ().

Definition PrepareCloud : GoM env () :=
  _ ← on_err (wrap "failed to ensure resource group") apply_ensureResourceGroup;
  _ ← on_err (wrap "failed to ensure virtual network") apply_ensureVirtualNetwork;
  sgs ← on_err (wrap "failed to ensure security group") ensureSecurityGroup;
  routeTable ← on_err (wrap "failed to ensure route table") ensureRouteTable;
  controlPlaneSubnet ← on_err (wrap "failed to ensure subnets") (ensureSubnet sgs.1 sgs.2 routeTable);
  lbs ← on_err (wrap "failed to ensure load balancer") (ensureLoadBalancer controlPlaneSubnet);
  cluster ← the_cluster;
  ensureMasterNIC (MasterMachineName cluster 0) controlPlaneSubnet lbs.1 lbs.2.

Definition GetMasterSKU (totalNodes : Z) : string := "Standard_B2ms".

(** ** startupscript.go *)
Definition cloud_config (cluster : Cluster) (azure : AzureSpec) (typed : Aks.AzureCredential) : AzureCloudConfig :=
  {| acf_Cloud := "AzurePublicCloud"; acf_TenantID := Aks.TenantID typed; acf_SubscriptionID := Aks.SubscriptionID typed;
     acf_AadClientID := Aks.ClientID typed; acf_AadClientSecret := Aks.ClientSecret typed;
     acf_ResourceGroup := Api.ResourceGroup azure; acf_Location := Zone (Cloud (Config (Spec cluster))); acf_VMType := "standard";
     acf_SubnetName := GenerateNodeSubnetName cluster; acf_SecurityGroupName := GenerateNodeSecurityGroupName cluster;
     acf_VnetName := VirtualNetworkName cluster; acf_RouteTableName := RouteTableName cluster;
     acf_PrimaryAvailabilitySetName := ""; acf_PrimaryScaleSetName := ""; acf_CloudProviderBackoff := true;
     acf_CloudProviderBackoffRetries := 6; acf_CloudProviderBackoffExponent := (3, 2)%Z; acf_CloudProviderBackoffDuration := 5;
     acf_CloudProviderBackoffJitter := (1, 1)%Z; acf_CloudProviderRatelimit := true; acf_CloudProviderRateLimitQPS := (3, 1)%Z;
     acf_CloudProviderRateLimitBucket := 10; acf_UseManagedIdentityExtension := false; acf_UserAssignedIdentityID := "";
     acf_UseInstanceMetadata := true; acf_LoadBalancerSku := "Standard"; acf_ExcludeMasterFromStandardLB := true;
     acf_ProviderVaultName := ""; acf_MaximumLoadBalancerRuleCount := 250; acf_ProviderKeyName := "k8s"; acf_ProviderKeyVersion := "" |}.

(** [if err != nil { panic(err) }] *)
Definition must {A} (m : GoM env A) : GoM env A :=
  r ← attempt m;
  match r with inl a => mret a | inr e => panic e end.

Definition td_with_CloudConfig (td : TemplateData) (cfg : string) : TemplateData :=
  {| td_ClusterName := td_ClusterName td; td_KubernetesVersion := td_KubernetesVersion td;
     td_KubeadmToken := td_KubeadmToken td; td_CAHash := td_CAHash td; td_CAKey := td_CAKey td;
     td_FrontProxyKey := td_FrontProxyKey td; td_SAKey := td_SAKey td; td_ETCDCAKey := td_ETCDCAKey td;
     td_APIServerAddress := td_APIServerAddress td; td_NetworkProvider := td_NetworkProvider td;
     td_CloudConfig := cfg; td_Provider := td_Provider td; td_NodeName := td_NodeName td;
     td_ExternalProvider := td_ExternalProvider td; td_InitConfiguration := td_InitConfiguration td;
     td_ClusterConfiguration := td_ClusterConfiguration td; td_JoinConfiguration := td_JoinConfiguration td;
     td_KubeletExtraArgs := td_KubeletExtraArgs td; td_ControlPlaneJoin := td_ControlPlaneJoin td;
     td_shared := td_shared td |}.

Definition hostPath : string * string * string := ("cloud-config", "/etc/kubernetes/azure.json", "/etc/kubernetes/azure.json").

Definition azure_hooks : TemplateHooks (S := S) (Crt := Crt) (Key := Key) (SSHKey := SSHKey) (X := X) (KC := KC) := {|
  hook_NewNodeTemplateData machine token td :=
    td ← set_kubelet_arg (td_with_external td false) "cloud-provider" "azure";
    cred ← must GetCredential;
    typed ← must (lift (credential_Azure (X := X) (SSHKey := SSHKey) (cred_Spec cred)));
    cluster ← the_cluster;
    azure ← the_azure;
    data ← must (lift (json_CloudConfig (X := X) (SSHKey := SSHKey) (cloud_config cluster azure typed)));
    set_kubelet_arg (td_with_CloudConfig td data) "cloud-config" "/etc/kubernetes/azure.json";
  hook_NewMasterTemplateData machine token td :=
    cluster ← the_cluster;
    cfg ← lift (GetDefaultKubeadmClusterConfig cluster (Some hostPath));
    mret (td_with_configs td (td_InitConfiguration td) (Some cfg));
  hook_customTemplate := customTemplate
|}.

(** The cluster's provider configuration with the kubeconfig and the hash of the authority *)
Definition with_admin (s : azure.AzureClusterProviderSpec) (kubeconfig hash : string) : azure.AzureClusterProviderSpec :=
  {| azure.ac_Meta := azure.ac_Meta s; azure.ac_NetworkSpec := azure.ac_NetworkSpec s;
     azure.ac_ResourceGroup := azure.ac_ResourceGroup s; azure.ac_Location := azure.ac_Location s;
     azure.ac_SSHPublicKey := azure.ac_SSHPublicKey s; azure.ac_SSHPrivateKey := azure.ac_SSHPrivateKey s;
     azure.ac_CAKeyPair := azure.ac_CAKeyPair s; azure.ac_EtcdCAKeyPair := azure.ac_EtcdCAKeyPair s;
     azure.ac_FrontProxyCAKeyPair := azure.ac_FrontProxyCAKeyPair s; azure.ac_SAKeyPair := azure.ac_SAKeyPair s;
     azure.ac_AdminKubeconfig := kubeconfig; azure.ac_DiscoveryHashes := azure.ac_DiscoveryHashes s ++ [hash];
     azure.ac_ClusterConfiguration := azure.ac_ClusterConfiguration s |}.

(** Making the virtual machine of the leader, and recording it *)
Definition make_master (nicID : option string) (leaderMachine : Machine) : GoM env () :=
  script ← RenderStartupScript (V := V) azure_hooks leaderMachine "";
  vm ← createVirtualMachine nicID (machine_Name leaderMachine) script leaderMachine;
  cluster ← the_cluster;
  _ ← store (op_Update (st_Clusters sp) (Some cluster));
  rawStatus ← lift (azure.EncodeMachineStatus (Some
    {| azure.ams_Meta := azure.zero_Meta; azure.ams_VMID := machine_ID vm; azure.ams_VMState := None; azure.ams_Conditions := [] |}));
  _ ← on_err (wrap "error updating master machine in pharmer storage")
        (store (op_Update (st_Machines sp (cluster_Name cluster)) (Some (with_machine_ProviderStatus leaderMachine (Some rawStatus)))));
  mret ().

Definition EnsureMaster (leaderMachine : Machine) : GoM env () :=
  masterNIC ← on_err (wrap "failed to get master nic") (getNetworkInterface (NetworkInterfaceName (machine_Name leaderMachine)));
  vm ← attempt (getVirtualMachine (machine_Name leaderMachine));
  _ ← match vm with inl _ => mret () | inr _ => make_master (nic_ID masterNIC) leaderMachine end;
  cluster ← the_cluster;
  ca ← GetCaCertPair;
  kubeConfig ← store_rand (GetAdminConfig sp cluster ca);
  data ← lift (clientcmd_Write (X := X) (SSHKey := SSHKey) (Convert_KubeConfig_To_Config kubeConfig));
  config ← the_config;
  certs ← gets (λ e, sc_Certs (e_scope e));
  match certs with
  | None => nil_panic
  | Some certs =>
      rawConfig ← lift (azure.EncodeClusterSpec (Some (with_admin config data (pubkeypin_Hash (V := V) (Cert (CACert certs))))));
      set_Cluster (set_capi cluster (with_provider_spec (ClusterAPI (Spec cluster)) rawConfig))
  end.

Definition ApplyDelete : GoM env () :=
  _ ← deleteResourceGroup;
  _ ← set_Phase ClusterDeleted;
  UpdateStatus sp.

(** ** create.go *)
Definition GetDefaultMachineProviderSpec (sku : string) (role : MachineRole) : GoM env (option RawExtension) :=
  cluster ← the_cluster;
  keys ← on_err (wrap "failed to get ssh keys") (store (ri_ssh_Get sp (cluster_Name cluster) (GenSSHKeyExternalID cluster)));
  raw ← on_err (wrap "failed to encode machine provider spec") (lift (azure.EncodeMachineSpec (Some
    {| azure.am_Meta := ({| Kind := AzureProviderMachineKind; APIVersion := AzureProviderGroupName +:+ "/" +:+ AzureProviderApiVersion |},
                         named "");
       azure.am_Roles := [role_text role]; azure.am_Location := Zone (Cloud (Config (Spec cluster))); azure.am_VMSize := sku;
       azure.am_Image := {| azure.Publisher := "Canonical"; azure.Offer := "UbuntuServer"; azure.SKU := "16.04-LTS";
                            azure.img_Version := "latest" |};
       azure.am_OSDisk := {| azure.OSType := "Linux"; azure.DiskSizeGB := 30;
                             azure.disk_ManagedDisk := {| azure.StorageAccountType := "Premium_LRS" |} |};
       azure.am_SSHPublicKey := base64_Std (X := X) (SSHKey := SSHKey) keys.1;
       azure.am_SSHPrivateKey := base64_Std (X := X) (SSHKey := SSHKey) keys.2 |})));
  mret (Some raw).

Definition GenStorageAccountName (c : Cluster) : GoM env string :=
  suffixed ← draw_env (λ n, Ok (WithUniqSuffix (X := X) (SSHKey := SSHKey) (cluster_Name c) n));
  mret (Aks.replace_all "-" "" 0 ("k8s-" +:+ suffixed)).

Definition key_pair (c : CertKeyPair Crt Key) : azure.KeyPair :=
  {| azure.kp_Cert := cert_text (Cert c); azure.kp_Key := key_text (CKey c) |}.

Definition SetClusterProviderConfig : GoM env () :=
  cluster ← the_cluster;
  certs ← gets (λ e, sc_Certs (e_scope e));
  match certs with
  | None => nil_panic
  | Some certs =>
      rawSpec ← lift (azure.EncodeClusterSpec (Some
        {| azure.ac_Meta := ({| APIVersion := AzureProviderGroupName +:+ "/" +:+ AzureProviderApiVersion;
                                Kind := AzureProviderClusterKind |}, named (cluster_Name cluster));
           azure.ac_NetworkSpec := azure.ac_NetworkSpec azure.zero_ClusterSpec;
           azure.ac_ResourceGroup := ResourceGroupName cluster; azure.ac_Location := Zone (Cloud (Config (Spec cluster)));
           azure.ac_SSHPublicKey := base64_Std (X := X) (SSHKey := SSHKey) (SSHKey_PublicKey (X := X) (SSHKey_ certs));
           azure.ac_SSHPrivateKey := base64_Std (X := X) (SSHKey := SSHKey) (SSHKey_PrivateKey (X := X) (SSHKey_ certs));
           azure.ac_CAKeyPair := key_pair (CACert certs); azure.ac_EtcdCAKeyPair := key_pair (EtcdCACert certs);
           azure.ac_FrontProxyCAKeyPair := key_pair (FrontProxyCACert certs);
           azure.ac_SAKeyPair := key_pair (ServiceAccountCert certs); azure.ac_AdminKubeconfig := "";
           azure.ac_DiscoveryHashes := []; azure.ac_ClusterConfiguration := None |}));
      set_Cluster (set_capi cluster (with_provider_spec (ClusterAPI (Spec cluster)) rawSpec))
  end.

Definition with_server_args (c : ClusterConfig) (args : gmap string string) (sans : list string) : ClusterConfig :=
  {| MasterCount := MasterCount c; Cloud := Cloud c; KubernetesVersion := KubernetesVersion c;
     CredentialName := CredentialName c; SSHUserName := SSHUserName c; KubeletExtraArgs := KubeletExtraArgs c;
     APIServerExtraArgs := args; ControllerManagerExtraArgs := ControllerManagerExtraArgs c;
     SchedulerExtraArgs := SchedulerExtraArgs c; AuthorizationModes := AuthorizationModes c; APIServerCertSANs := sans |}.

(** setDefaultCluster has made the map of the API server's arguments.  What is written
    before the credential is looked at stays. *)
Definition SetDefaultCluster : GoM env () :=
  cluster ← the_cluster;
  _ ← set_Cluster (with_cluster_config cluster (λ config,
        with_server_args config (<["cloud-config" := "/etc/kubernetes/azure.json"]> (APIServerExtraArgs config))
          (APIServerCertSANs config ++ [DefaultInternalLBIPAddress])));
  cred ← on_err (wrap ("failed to get credential " +:+ aws.quoted (CredentialName (Config (Spec cluster))))) GetCredential;
  typed ← lift (credential_Azure (X := X) (SSHKey := SSHKey) (cred_Spec cred));
  cluster ← the_cluster;
  let cluster := with_cluster_config cluster (λ config, with_SSHUserName config "capi") in
  _ ← set_Cluster cluster;
  account ← GenStorageAccountName cluster;
  password ← draw_env (λ n, Ok (GeneratePassword (X := X) (SSHKey := SSHKey) n));
  _ ← set_Cluster (with_cluster_config cluster (λ config, with_Cloud config (Aks.with_azure (Cloud config)
    {| InstanceImageVersion := ""; azure_RootPassword := password; VPCCIDR := DefaultVnetCIDR;
       ControlPlaneSubnetCIDR := DefaultControlPlaneSubnetCIDR; NodeSubnetCIDR := DefaultNodeSubnetCIDR;
       InternalLBIPAddress := DefaultInternalLBIPAddress; AzureDNSZone := DefaultAzureDNSZone; SubnetCIDR := "";
       ResourceGroup := ResourceGroupName cluster; SubnetName := ""; SecurityGroupName := ""; VnetName := "";
       Api.RouteTableName := ""; StorageAccountName := account; SubscriptionID := Aks.SubscriptionID typed |})));
  SetClusterProviderConfig.

(** ** context.go *)
Definition CreateCredentials (kc : KC) : GoM env () :=
  cred ← GetCredential;
  _ ← on_cloud (CreateNamespace kc "azure-provider-system");
  let data := cred_Data (cred_Spec cred) in
  on_cloud (CreateSecret kc "azure-provider-azure-controller-secrets" "azure-provider-system"
    {[ "client-id" := default "" (data !! "clientID"); "client-secret" := default "" (data !! "clientSecret");
       "subscription-id" := default "" (data !! "subscriptionID"); "tenant-id" := default "" (data !! "tenantID") ]}).

Definition GetKubeConfig : GoM env KubeConfig :=
  cluster ← the_cluster;
  ca ← GetCaCertPair;
  store_rand (GetAdminConfig sp cluster ca).

Definition ClusterManager : Interface := {|
  cm_SetDefaultCluster := SetDefaultCluster;
  cm_GetDefaultMachineProviderSpec := GetDefaultMachineProviderSpec;
  cm_SetCloudConnector := connect newconnector;
  cm_PrepareCloud := PrepareCloud;
  cm_EnsureMaster := EnsureMaster;
  cm_GetMasterSKU := GetMasterSKU;
  cm_ApplyScale := panic "implement me";
  cm_ApplyDelete := ApplyDelete;
  cm_GetAdminClient := GetAdminClient (CC := CC) (BC := BC) sp;
  cm_CreateCredentials := CreateCredentials;
  cm_GetClusterAPIComponents := mret ClusterAPIComponents
|}.
End provider.
End Azure.
