(* ===== verification/AwsProofs.v ===== *)
(** * The network of a cluster of Amazon's clouds

    Taking a cluster down stores nothing, and panics on a balancer that is still listed
    ([aws_delete]).  A VPC is made once, as long as listings answer ([aws_vpc]).  Security
    groups that were made in part stay so ([aws_groups]).  The patience the
    loops of the model have decides only whether they are stopped ([aws_loops]). *)
From stdpp Require Import base list gmap strings pretty fin_maps.
From S2P Require Import Prelude GoStrings Api StoreSpec Provider Certs Kube Cloud CloudProofs Apply.
From S2P Require Import StoreFrame Startup ProviderParts ProviderFrame AwsApi AwsCloud Aws AwsFrame.
Import aws AwsCloud Aws.

(** ** Calls *)
Section calls.
Context {S Crt Key SSHKey X KC : Type} `{!Connector X}.
Notation env := (env (S := S) (Crt := Crt) (Key := Key) (SSHKey := SSHKey) (X := X) (KC := KC)).
Implicit Types (e : env) (c : Cluster).

(** What a call on the cloud leaves as it is *)
Definition cloud_moves e e' : Prop := e_store e' = e_store e ∧ e_tick e' = e_tick e ∧ e_scope e' = e_scope e.

#[export] Instance cloud_moves_calls : Calls cloud_moves.
Proof.
  split.
  - split; [by intros e|]. intros a b d (? & ? & ?) (? & ? & ?). split_and!; congruence.
  - intros A f e. unfold on_cloud, zoom. by destruct (f _).
Qed.

(** A quantity of the cloud that every call of a kind keeps *)
Lemma aws_call_kept {A B} (q : X → B) (f : string → GoM X A) e :
  (∀ t x, q (f t x).2 = q x) → q (e_cloud (call f e).2) = q (e_cloud e).
Proof.
  intros Hq. unfold call, mbind, gom_bind, gets. destruct (conn_token _) as [t|]; [|done].
  unfold on_cloud, zoom. specialize (Hq t (e_cloud e)). by destruct (f t _).
Qed.
End calls.

(** ** Loops without a bound *)
Section loops.
Context {S Crt Key SSHKey X KC : Type} `{!Connector X, !AwsSDK X SSHKey}.
Notation env := (env (S := S) (Crt := Crt) (Key := Key) (SSHKey := SSHKey) (X := X) (KC := KC)).
Implicit Types (e : env).

Definition killed {A} (r : outcome A) : Prop := r = Panic "signal: killed".

(** The loop of waitForInstanceState, without a bound *)
Inductive waits (id state : string) : env → outcome () → env → Prop :=
| waits_done e i e' : describe_instance id e = (Ok i, e') → i_State i = state → waits id state e (Ok ()) e'
| waits_again e i e1 r e' :
    describe_instance id e = (Ok i, e1) → i_State i ≠ state → waits id state e1 r e' → waits id state e r e'
| waits_err e err e' : describe_instance id e = (Err err, e') → waits id state e (Err err) e'
| waits_panic e w e' : describe_instance id e = (Panic w, e') → waits id state e (Panic w) e'.

Lemma wait_state_waits n id state e r e' : wait_state n id state e = (r, e') → ¬ killed r → waits id state e r e'.
Proof.
  revert e. induction n as [|n IH]; intros e E Hr; [injection E as <- <-; by destruct Hr|].
  cbn [wait_state] in E. unfold mbind, gom_bind in E.
  destruct (describe_instance id e) as [[i|err|w] e1] eqn:Ed.
  - case_decide as Hi; [injection E as <- <-; by eapply waits_done|]. by eapply waits_again; [..|apply IH].
  - injection E as <- <-. by apply waits_err.
  - injection E as <- <-. by apply waits_panic.
Qed.

Lemma waits_wait_state id state e r e' :
  waits id state e r e' → ∃ n0, ∀ n, n0 ≤ n → wait_state n id state e = (r, e').
Proof.
  assert (∀ n0 e r e', (∀ n, n0 ≤ n → wait_state (Datatypes.S n) id state e = (r, e')) →
    ∃ n0, ∀ n, n0 ≤ n → wait_state n id state e = (r, e')) as Hstep.
  { intros n0 e0 r0 e1 H0. exists (Datatypes.S n0). intros [|n] Hn; [lia|]. apply H0. lia. }
  induction 1 as [e i e' Ed Hi|e i e1 r e' Ed Hi _ [n0 IH]|e err e' Ed|e w e' Ed]; [apply (Hstep 0)|apply (Hstep n0)|apply (Hstep 0)..];
    intros n Hn; cbn [wait_state]; unfold mbind, gom_bind; rewrite Ed; cbn beta iota; [by rewrite decide_True| |done..].
  rewrite decide_False by done. by apply IH.
Qed.

Lemma list_policies_more n m t marker e :
  n ≤ m → ¬ killed (list_policies n t marker e).1 → list_policies m t marker e = list_policies n t marker e.
Proof.
  revert m marker e. induction n as [|n IH]; intros m marker e Hm Hk; [by destruct Hk|].
  destruct m as [|m]; [lia|]. cbn [list_policies] in *. unfold mbind, gom_bind in *.
  destruct (attempt _ e) as [[[p|err]|?|?] e1]; [|done..].
  destruct (pp_IsTruncated p); [|done]. assert (¬ killed (list_policies n t (pp_Marker p) e1).1) as Hk1.
  { intros Hk1. apply Hk. destruct (list_policies n t (pp_Marker p) e1) as [r e2]. cbn in Hk1. by rewrite Hk1. }
  by rewrite (IH m (pp_Marker p) e1 ltac:(lia) Hk1).
Qed.

(** What the process's patience decides is only whether it is stopped: with enough of
    it, waiting for an instance ends exactly as the loop of the code does, which has
    no bound, and as long as it is not stopped more patience gives the same answer; so
    do the pages of policies. *)
Lemma aws_loops :
  (∀ id state e r e', ¬ killed r →
     (waits id state e r e' ↔ ∃ n0, ∀ n, n0 ≤ n → wait_state n id state e = (r, e'))) ∧
  (∀ n m t marker e, n ≤ m → ¬ killed (list_policies n t marker e).1 →
     list_policies m t marker e = list_policies n t marker e).
Proof.
  split; [|apply list_policies_more]. intros id state e r e' Hr. split; [apply waits_wait_state|].
  intros [n0 Hn]. by apply (wait_state_waits n0); [apply Hn|].
Qed.
End loops.

(** ** Taking a cluster down *)
Section delete.
Context {S Crt Key SSHKey X KC : Type}.
Context `{!Polling, !aws.AwsJson, !AwsTexts, !AwsSDK X SSHKey, !Connector X}.
Notation env := (env (S := S) (Crt := Crt) (Key := Key) (SSHKey := SSHKey) (X := X) (KC := KC)).
Implicit Types (e : env).

(** Taking a cluster of AWS down changes nothing but the cloud: not the store, not the
    cluster in memory, which so is never marked as deleted, however well it goes.  And
    it panics when the load balancer is still listed after the call that deletes it. *)
Theorem aws_delete e :
  cloud_moves e (ApplyDelete e).2 ∧
  ∀ c t dns x, sc_Cluster (e_scope e) = Some c → conn_token (e_cloud e) = Some t →
    let x1 := (DeleteLoadBalancer t (balancer_name c) (e_cloud e)).2 in
    (DeleteLoadBalancer t (balancer_name c) (e_cloud e)).1 = Ok () → conn_token x1 = Some t →
    DescribeLoadBalancers t [balancer_name c] x1 = (Ok dns, x) →
    ∃ w, (deleteLoadBalancer e).1 = Panic w.
Proof.
  split; [apply (ApplyDelete_moves cloud_moves)|].
  intros c t dns x Hc Ht x1 Hdel Ht1 Hl. unfold deleteLoadBalancer.
  rewrite (bind_ok _ _ _ _ _ (the_cluster_at e c Hc)).
  assert (call (λ t, DeleteLoadBalancer t (balancer_name c)) e = (Ok (), Env (e_store e) (e_tick e) x1 (e_scope e))) as E.
  { rewrite (call_at _ e t Ht). by rewrite Hdel. }
  rewrite (bind_ok _ _ _ _ _ E). set (e1 := Env _ _ x1 _).
  assert (∃ dns', getLoadBalancer e1 = (Ok dns', Env (e_store e) (e_tick e) x (e_scope e))) as [dns' Eg].
  { unfold getLoadBalancer. rewrite (bind_ok _ _ _ _ _ (the_cluster_at e1 c Hc)).
    assert (call (λ t, DescribeLoadBalancers t [balancer_name c]) e1 = (Ok dns, Env (e_store e) (e_tick e) x (e_scope e))) as Ec.
    { rewrite (call_at _ e1 t Ht1). cbn [e_cloud e1]. by rewrite Hl. }
    rewrite (bind_ok _ _ _ _ _ Ec). by eexists. }
  eexists. destruct retries; cbn [PollImmediate]; unfold mbind, gom_bind; rewrite (attempt_ok _ _ _ _ Eg); reflexivity.
Qed.
End delete.

(** ** The VPC

    What EC2 promises of VPCs, known by their tags: a listing that answers has those
    that match its filters; a new one has no tags; tagging adds to the tags of a
    resource, or does nothing. *)
Definition tag_matches (tags : gmap string string) (f : Filter) : bool :=
  if decide (flt_Name f = "tag-key") then existsb (λ k, bool_decide (is_Some (tags !! k))) (flt_Values f)
  else if decide (flt_Name f = "tag:Name") then existsb (λ v, bool_decide (tags !! "Name" = Some v)) (flt_Values f)
  else true.

Class VpcLaws {X SSHKey} `{!AwsSDK X SSHKey} (vpcs : X → gmap string (gmap string string)) : Prop := {
  vl_Describe t fs x : vpcs (DescribeVpcs t fs x).2 = vpcs x;
  vl_Describe_ok t fs x l : (DescribeVpcs t fs x).1 = Ok l →
    ∀ id, id ∈ l ↔ ∃ tags, vpcs x !! id = Some tags ∧ forallb (tag_matches tags) fs = true;
  vl_Create t cidr x :
    match (CreateVpc t cidr x).1 with
    | Ok id => vpcs x !! id = None ∧ vpcs (CreateVpc t cidr x).2 = <[id := ∅]> (vpcs x)
    | _ => vpcs (CreateVpc t cidr x).2 = vpcs x
    end;
  vl_Wait t id x : vpcs (WaitUntilVpcAvailable t id x).2 = vpcs x;
  vl_Tags t id k v x old : vpcs x !! id = Some old →
    vpcs (ec2_CreateTags t [id] {[ k := v ]} x).2 =
      match (ec2_CreateTags t [id] {[ k := v ]} x).1 with Ok _ => <[id := <[k := v]> old]> (vpcs x) | _ => vpcs x end
}.

Section vpc.
Context {S Crt Key SSHKey X KC : Type} `{!Connector X, !AwsSDK X SSHKey}.
Context (vpcs : X → gmap string (gmap string string)) `{!VpcLaws vpcs}.
Notation env := (env (S := S) (Crt := Crt) (Key := Key) (SSHKey := SSHKey) (X := X) (KC := KC)).
Implicit Types (e : env) (c : Cluster).

Definition there e : gmap string (gmap string string) := vpcs (e_cloud e).

(** The tags a cluster's VPC is looked for by *)
Definition its_tags c (tags : gmap string string) : Prop := tags !! "Name" = Some (VPCName c) ∧ is_Some (tags !! cluster_key c).
Definition its_vpc c (m : gmap string (gmap string string)) (id : string) : Prop := ∃ tags, m !! id = Some tags ∧ its_tags c tags.

Lemma its_filters c tags :
  forallb (tag_matches tags) [filter "tag:Name" [VPCName c]; of_cluster c] = true ↔ its_tags c tags.
Proof.
  unfold its_tags, of_cluster, filter, tag_matches. cbn [forallb existsb flt_Name flt_Values].
  rewrite (decide_False (P := "tag:Name" = "tag-key")), !decide_True by done.
  rewrite !orb_false_r, !andb_true_r, andb_true_iff, !bool_decide_eq_true. tauto.
Qed.

(** Tags that are added one by one *)
Definition add_all (tags : gmap string string) (l : list (string * string)) : gmap string string :=
  foldl (λ m kv, <[kv.1 := kv.2]> m) tags l.

Lemma add_all_union l m : NoDup l.*1 → add_all m l = list_to_map l ∪ m.
Proof.
  revert m. induction l as [|[k v] l IH]; intros m Hl; [symmetry; apply map_empty_union|].
  apply NoDup_cons in Hl as [Hk Hl]. cbn. unfold add_all in IH. rewrite IH by done.
  rewrite <-insert_union_l, insert_union_r; [done|]. by apply not_elem_of_list_to_map_1.
Qed.

Lemma add_all_map (m : gmap string string) : add_all ∅ (map_to_list m) = m.
Proof.
  rewrite add_all_union by apply NoDup_fst_map_to_list. rewrite list_to_map_to_list. apply map_union_empty.
Qed.

Lemma addTag_there id k v e old r e' :
  there e !! id = Some old → addTag id k v e = (r, e') →
  e_scope e' = e_scope e ∧ there e' = match r with Ok _ => <[id := <[k := v]> old]> (there e) | _ => there e end.
Proof.
  intros Hold E. unfold addTag, on_err in E. unfold call, mbind, gom_bind, gets in E.
  destruct (conn_token (e_cloud e)) as [t|]; [|by injection E as <- <-]. unfold on_cloud, zoom in E.
  pose proof (vl_Tags t id k v (e_cloud e) old Hold) as Ht.
  destruct (ec2_CreateTags t [id] {[k := v]} (e_cloud e)) as [[[]|?|?] x]; by injection E as <- <-.
Qed.

(** Whatever it ends with, only the tags of the resource change. *)
Lemma tags_there id l e old r e' :
  there e !! id = Some old → for_each (λ kv, addTag id kv.1 kv.2) l e = (r, e') →
  e_scope e' = e_scope e ∧
  ∃ tags, there e' = <[id := tags]> (there e) ∧ (r = Ok () → tags = add_all old l).
Proof.
  revert e old. induction l as [|[k v] l IH]; intros e old Hold E.
  { injection E as <- <-. split; [done|]. exists old. split; [by rewrite insert_id|done]. }
  cbn [for_each fst snd] in E. unfold mbind, gom_bind in E.
  destruct (addTag id k v e) as [r1 e1] eqn:E1.
  destruct (addTag_there _ _ _ _ _ _ _ Hold E1) as [Hs1 Ht1].
  destruct r1 as [[]|err|w].
  - apply (IH e1 (<[k := v]> old)) in E as (Hs & tags & Ht & Hall); [|by rewrite Ht1, lookup_insert_eq].
    split; [congruence|]. exists tags. rewrite Ht, Ht1, insert_insert_eq. done.
  - injection E as <- <-. split; [done|]. exists old. by rewrite Ht1, insert_id.
  - injection E as <- <-. split; [done|]. exists old. by rewrite Ht1, insert_id.
Qed.

(** A call that leaves the VPCs as they are *)
Lemma call_there {A} (f : string → GoM X A) e r e' :
  (∀ t x, vpcs (f t x).2 = vpcs x) → call f e = (r, e') → e_scope e' = e_scope e ∧ there e' = there e.
Proof.
  intros Hf E. pose proof (aws_call_kept vpcs f e Hf) as Hk. pose proof (call_moves cloud_moves f e) as (_ & _ & Hs).
  rewrite E in Hk, Hs. done.
Qed.

Lemma getVpc_there e c r e' :
  sc_Cluster (e_scope e) = Some c → getVpc e = (r, e') →
  e_scope e' = e_scope e ∧ there e' = there e ∧ ∀ id, r = Ok id → its_vpc c (there e) id.
Proof.
  intros Hc E. unfold getVpc in E. rewrite (bind_ok _ _ _ _ _ (the_cluster_at e c Hc)) in E.
  unfold mbind, gom_bind, attempt in E.
  destruct (call _ e) as [r1 e1] eqn:E1.
  destruct (call_there _ _ _ _ (λ t x, vl_Describe t _ x) E1) as [Hs Ht].
  destruct r1 as [l|err|w]; [|by injection E as <- <-..].
  destruct l as [|id l]; injection E as <- <-; [by split_and!|]. split_and!; [done..|]. intros ? [= <-].
  apply call_ok_inv in E1 as (t & _ & Ed & _).
  assert (id ∈ id :: l) as Hid by (left; done).
  pose proof (f_equal fst Ed) as Ed1. cbn in Ed1. apply (vl_Describe_ok _ _ _ _ Ed1) in Hid as (tags & Htags & Hm).
  exists tags. by rewrite its_filters in Hm.
Qed.

Lemma getVpc_found e c t l x :
  sc_Cluster (e_scope e) = Some c → conn_token (e_cloud e) = Some t →
  DescribeVpcs t [filter "tag:Name" [VPCName c]; of_cluster c] (e_cloud e) = (Ok l, x) →
  (∃ id, its_vpc c (there e) id) → ∃ id, (getVpc e).1 = Ok id.
Proof.
  intros Hc Ht El [id (tags & Hid & Htags)]. unfold getVpc. rewrite (bind_ok _ _ _ _ _ (the_cluster_at e c Hc)).
  unfold mbind, gom_bind, attempt. rewrite (call_at _ e t Ht), El. cbn.
  pose proof (f_equal fst El) as El1. cbn in El1.
  assert (id ∈ l) as Hl by (apply (vl_Describe_ok _ _ _ _ El1); exists tags; by rewrite its_filters).
  destruct l; [by apply elem_of_nil in Hl|]. by eexists.
Qed.

Lemma owned_its c : its_tags c (owned c (VPCName c)).
Proof.
  unfold its_tags, owned. rewrite lookup_insert_eq. split; [done|]. rewrite lookup_insert_ne by done.
  rewrite lookup_insert_eq. by eexists.
Qed.

(** What making a VPC does: at most one is added, with all of its tags when all went well. *)
Definition one_more c (m m' : gmap string (gmap string string)) (r : outcome string) : Prop :=
  ∃ id tags, m !! id = None ∧ m' = <[id := tags]> m ∧ ∀ id', r = Ok id' → id' = id ∧ tags = owned c (VPCName c).

Lemma setupVpc_there e c r e' :
  sc_Cluster (e_scope e) = Some c → setupVpc e = (r, e') →
  e_scope e' = e_scope e ∧
  ((there e' = there e ∧ ∀ id, r ≠ Ok id) ∨ one_more c (there e) (there e') r).
Proof.
  intros Hc E. unfold setupVpc, the_aws in E. rewrite bind_assoc, (bind_ok _ _ _ _ _ (the_cluster_at e c Hc)) in E.
  destruct (spec_AWS _) as [a|]; [|injection E as <- <-; auto].
  rewrite (bind_ok _ _ e e a eq_refl) in E. unfold mbind, gom_bind in E.
  destruct (call _ e) as [r1 e1] eqn:E1.
  assert (e_scope e1 = e_scope e ∧
    match r1 with Ok id => there e !! id = None ∧ there e1 = <[id := ∅]> (there e) | _ => there e1 = there e end) as [Hs1 Hm].
  { unfold call, mbind, gom_bind, gets in E1. destruct (conn_token (e_cloud e)) as [t|]; [|by injection E1 as <- <-].
    unfold on_cloud, zoom in E1. pose proof (vl_Create t (VpcCIDR a) (e_cloud e)) as Hv.
    destruct (CreateVpc t _ _) as [r2 x]. by injection E1 as <- <-. }
  destruct r1 as [id|err|w]; [|injection E as <- <-; auto..].
  destruct Hm as [Hnone Ht1].
  destruct (on_err _ _ e1) as [r2 e2] eqn:E2. unfold on_err in E2.
  destruct (call (λ t, WaitUntilVpcAvailable t id) e1) as [r3 e3] eqn:E3.
  destruct (call_there _ _ _ _ (λ t x, vl_Wait t id x) E3) as [Hs3 Ht3].
  assert (e2 = e3) as -> by (by destruct r3; injection E2 as <- <-).
  destruct r2 as [[]|err|w].
  2,3: injection E as <- <-; split; [by rewrite Hs3, Hs1|]; right; exists id, ∅; rewrite Ht3, Ht1; split_and!; [exact Hnone|reflexivity|discriminate].
  assert (sc_Cluster (e_scope e3) = Some c) as Hc3 by (by rewrite Hs3, Hs1).
  rewrite (the_cluster_at e3 c Hc3) in E. unfold addTags in E.
  destruct (for_each _ _ e3) as [r4 e4] eqn:E4.
  apply (tags_there id _ e3 ∅) in E4 as (Hs4 & tags & Ht4 & Hall); [|by rewrite Ht3, Ht1, lookup_insert_eq].
  assert (there e4 = <[id := tags]> (there e)) as Hm4 by (by rewrite Ht4, Ht3, Ht1, insert_insert_eq).
  destruct r4 as [[]|err|w]; injection E as <- <-; (split; [by rewrite Hs4, Hs3, Hs1|]); right; exists id, tags;
    (split_and!; [exact Hnone|exact Hm4|]); [|discriminate..].
  intros ? [= <-]. split; [reflexivity|]. etransitivity; [exact (Hall eq_refl)|apply add_all_map].
Qed.

(** [C31] What ensureVPC answers is a VPC of the cluster: one with its name and its tag.  One
    that is there is found, and nothing changes, when the listing answers; and whatever
    fails, at most one VPC is added, without some of its tags when it failed in between
    -- which the next run does not find. *)
Theorem aws_vpc e c r e' :
  sc_Cluster (e_scope e) = Some c → ensureVPC e = (r, e') →
  e_scope e' = e_scope e ∧
  (∀ id, r = Ok id → its_vpc c (there e') id) ∧
  (there e' = there e ∨ one_more c (there e) (there e') r) ∧
  ((∃ id, its_vpc c (there e) id) →
   ∀ t l x, conn_token (e_cloud e) = Some t →
     DescribeVpcs t [filter "tag:Name" [VPCName c]; of_cluster c] (e_cloud e) = (Ok l, x) →
     there e' = there e ∧ ∃ id, r = Ok id).
Proof.
  intros Hc E. unfold ensureVPC, found_or, mbind, gom_bind, attempt in E.
  destruct (getVpc e) as [r1 e1] eqn:E1. destruct (getVpc_there e c r1 e1 Hc E1) as (Hs1 & Ht1 & Hid1).
  assert ((∃ id, its_vpc c (there e) id) →
   ∀ t l x, conn_token (e_cloud e) = Some t →
     DescribeVpcs t [filter "tag:Name" [VPCName c]; of_cluster c] (e_cloud e) = (Ok l, x) → ∃ id, r1 = Ok id) as Hf.
  { intros Hv t l x Ht El. destruct (getVpc_found e c t l x Hc Ht El Hv) as [id Hid]. rewrite E1 in Hid. by exists id. }
  destruct r1 as [id|err|w].
  - injection E as <- <-. rewrite Ht1. split_and!; [done|by intros ? [= <-]; apply Hid1|by left|by intros; eauto].
  - apply (setupVpc_there e1 c) in E as [Hs Hm]; [|congruence]. rewrite Ht1 in Hm. split_and!; [congruence|..].
    + intros id ->. destruct Hm as [[_ Hn]|(id' & tags & _ & -> & Ho)]; [by destruct (Hn id)|].
      destruct (Ho id eq_refl) as [-> ->]. eexists. rewrite lookup_insert_eq. split; [done|apply owned_its].
    + destruct Hm as [[? _]|?]; auto.
    + intros Hv t l x Ht El. by destruct (Hf Hv t l x Ht El).
  - injection E as <- <-. split_and!; [done|done|by left|]. intros Hv t l x Ht El. by destruct (Hf Hv t l x Ht El).
Qed.
End vpc.

(** ** Security groups *)
Section groups.
Context {S Crt Key SSHKey X KC : Type} `{!Connector X, !AwsSDK X SSHKey}.
Notation env := (env (S := S) (Crt := Crt) (Key := Key) (SSHKey := SSHKey) (X := X) (KC := KC)).
Context (asked : relation X) `{!PreOrder asked}.
Hypothesis asked_groups : ∀ t fs x, asked x (DescribeSecurityGroups t fs x).2.
Implicit Types (e : env) (a : AWSSpec) (vpcID name : string).

Definition asks : relation env := λ e e', asked (e_cloud e) (e_cloud e').

#[local] Instance asks_preorder : PreOrder asks.
Proof. split; [intros e; unfold asks; reflexivity|]. intros e1 e2 e3. unfold asks. apply transitivity. Qed.

Lemma the_cluster_asks : pres asks (the_cluster : GoM env Cluster).
Proof. intros e. unfold the_cluster. destruct (sc_Cluster _); reflexivity. Qed.
Lemma set_Cluster_asks c : pres asks (set_Cluster c : GoM env ()).
Proof. intros e. unfold asks. reflexivity. Qed.
Hint Resolve the_cluster_asks set_Cluster_asks : pres.
Lemma nil_panic_asks {A} : pres asks (nil_panic : GoM env A).
Proof. unfold nil_panic. pres_tac. Qed.
Hint Resolve nil_panic_asks : pres.

Lemma getSecurityGroupID_asks vpcID name : pres asks (getSecurityGroupID vpcID name : GoM env _).
Proof.
  unfold getSecurityGroupID. apply pres_bind; [exact _| |intros l; pres_tac]. intros e.
  unfold call, mbind, gom_bind, gets. destruct (conn_token _) as [t|]; [|reflexivity].
  unfold on_cloud, zoom, asks. specialize (asked_groups t [in_vpc vpcID; filter "group-name" [name]] (e_cloud e)).
  by destruct (DescribeSecurityGroups t _ (e_cloud e)).
Qed.
Hint Resolve getSecurityGroupID_asks : pres.

Lemma assign_group_asks set vpcID name : pres asks (assign_group set vpcID name : GoM env _).
Proof. unfold assign_group, set_status, the_status. pres_tac. Qed.
Hint Resolve assign_group_asks : pres.
Lemma detect_group_asks get set vpcID name what : pres asks (detect_group get set vpcID name what : GoM env _).
Proof. unfold detect_group, the_status. pres_tac. Qed.
Hint Resolve detect_group_asks : pres.
Lemma detectSecurityGroups_asks vpcID : pres asks (detectSecurityGroups vpcID : GoM env _).
Proof. unfold detectSecurityGroups, the_aws. pres_tac. Qed.

Lemma getSecurityGroupID_scope vpcID name e : e_scope (getSecurityGroupID vpcID name e).2 = e_scope e.
Proof. by destruct (getSecurityGroupID_moves cloud_moves vpcID name e) as (_ & _ & ?). Qed.

(** The cluster of the scope, with no group known for its nodes *)
Definition node_unset a e : Prop :=
  ∃ c s, sc_Cluster (e_scope e) = Some c ∧ spec_AWS (Cloud (Config (Spec c))) = Some a ∧
         status_AWS (status_Cloud (Status c)) = Some s ∧ NodeSGId s = "".

(** No listing that is asked from there shows a group *)
Definition never_listed vpcID name e : Prop :=
  ∀ x t l x', asked (e_cloud e) x → DescribeSecurityGroups t [in_vpc vpcID; filter "group-name" [name]] x = (Ok l, x') → l = [].

Lemma the_aws_unset a e : node_unset a e → the_aws e = (Ok a, e).
Proof.
  intros (c & s & Hc & Ha & _). unfold the_aws. by rewrite (bind_ok _ _ _ _ _ (the_cluster_at e c Hc)), Ha.
Qed.

Lemma the_status_unset a e : node_unset a e → ∃ s, the_status e = (Ok s, e) ∧ NodeSGId s = "".
Proof.
  intros (c & s & Hc & _ & Hs & Hn). exists s. split; [|done]. unfold the_status.
  by rewrite (bind_ok _ _ _ _ _ (the_cluster_at e c Hc)), Hs.
Qed.

Lemma node_unset_scope a e e' : e_scope e' = e_scope e → node_unset a e → node_unset a e'.
Proof. unfold node_unset. by intros ->. Qed.

Lemma detect_master_unset a vpcID name what e u e' :
  node_unset a e → detect_group MasterSGId set_MasterSGId vpcID name what e = (Ok u, e') → node_unset a e'.
Proof.
  intros Hu E. unfold detect_group in E. destruct (the_status_unset a e Hu) as (s & Es & _).
  rewrite (bind_ok _ _ _ _ _ Es) in E. case_decide; [|by injection E as _ <-].
  apply bind_ok_inv in E as (r & e1 & Ea & E).
  assert (e1 = e') as -> by (by destruct r as [[?|]|?]; [injection E as _ <-|..]). clear E.
  unfold assign_group in Ea. apply bind_ok_inv in Ea as (r2 & e2 & Eg & Ea).
  assert (node_unset a e2) as Hu2.
  { eapply node_unset_scope; [|exact Hu]. rewrite <-(getSecurityGroupID_scope vpcID name e).
    unfold attempt in Eg. by destruct (getSecurityGroupID _ _ e) as [[?|?|?] ?]; injection Eg as _ <-. }
  destruct Hu2 as (c & s2 & Hc & Ha & Hs & Hn). unfold set_status, the_status in Ea.
  rewrite bind_assoc, bind_assoc, (bind_ok _ _ _ _ _ (the_cluster_at e2 c Hc)), Hs in Ea.
  rewrite (bind_ok _ _ e2 e2 s2 eq_refl), bind_assoc, (bind_ok _ _ _ _ _ (the_cluster_at e2 c Hc)) in Ea.
  injection Ea as _ <-. by eexists _, _.
Qed.

Lemma detect_node_fails a vpcID name what e :
  node_unset a e → never_listed vpcID name e →
  ∀ u, (detect_group NodeSGId set_NodeSGId vpcID name what e).1 ≠ Ok u.
Proof.
  intros Hu Hl u. unfold detect_group. destruct (the_status_unset a e Hu) as (s & Es & Hn).
  rewrite (bind_ok _ _ _ _ _ Es), decide_True by done. intros E.
  match type of E with ?m.1 = _ => destruct m as [r e'] eqn:Em end. cbn in E. subst r.
  apply bind_ok_inv in Em as (r & e1 & Ea & E). destruct r as [[id|]|err]; [|done..]. clear E.
  unfold assign_group in Ea. apply bind_ok_inv in Ea as (r2 & e2 & Eg & Ea).
  apply bind_ok_inv in Ea as ([] & e3 & _ & Er). injection Er as -> ->.
  unfold attempt in Eg. destruct (getSecurityGroupID vpcID name e) as [[o|?|?] e4] eqn:E4; [|done..].
  injection Eg as -> ->. unfold getSecurityGroupID in E4. apply bind_ok_inv in E4 as (l & e5 & Ec & E4).
  apply call_ok_inv in Ec as (t & _ & Ed & _). by rewrite (Hl _ _ _ _ (reflexivity _) Ed) in E4.
Qed.

(** [C32] The group of the masters stands for the three groups and for their rules: when
    it is listed, ensuring the groups only asks for listings -- no group is created, no
    rule authorised -- and, for a cluster whose status names no group of the nodes yet,
    it never succeeds while that group does not exist, so that groups that were made in
    part stay in part. *)
Theorem aws_groups a vpcID g e :
  node_unset a e → (getSecurityGroupID vpcID (MasterSGName a) e).1 = Ok (Some g) →
  asked (e_cloud e) (e_cloud (ensureSecurityGroup vpcID e).2) ∧
  (never_listed vpcID (NodeSGName a) e → ∀ u, (ensureSecurityGroup vpcID e).1 ≠ Ok u).
Proof.
  intros Hu Hg. unfold ensureSecurityGroup. rewrite (bind_ok _ _ _ _ _ (the_aws_unset a e Hu)).
  pose proof (getSecurityGroupID_asks vpcID (MasterSGName a) e) as H1.
  pose proof (getSecurityGroupID_scope vpcID (MasterSGName a) e) as Hs.
  destruct (getSecurityGroupID vpcID (MasterSGName a) e) as [r e1] eqn:Eg. cbn in Hg, H1, Hs. subst r.
  rewrite (bind_ok _ _ _ _ _ (attempt_ok _ _ _ _ Eg)). split.
  { etransitivity; [exact H1|]. apply (detectSecurityGroups_asks vpcID e1). }
  intros Hl u E. apply (node_unset_scope a e e1 Hs) in Hu.
  unfold detectSecurityGroups in E. rewrite (bind_ok _ _ _ _ _ (the_aws_unset a e1 Hu)) in E.
  match type of E with ?m.1 = _ => destruct m as [r e'] eqn:Em end. cbn in E. subst r.
  apply bind_ok_inv in Em as ([] & e2 & E1 & Em). apply bind_ok_inv in Em as ([] & e3 & E2 & _).
  pose proof (detect_group_asks MasterSGId set_MasterSGId vpcID (MasterSGName a) "master" e1) as H2.
  rewrite E1 in H2. apply (detect_master_unset a) in E1; [|done].
  refine (detect_node_fails a vpcID (NodeSGName a) "node" e2 E1 _ () (f_equal fst E2)).
  intros x t l x' Hx. apply Hl. etransitivity; [exact H1|]. etransitivity; [exact H2|exact Hx].
Qed.
End groups.
