(* ===== verification/GceProofs.v ===== *)
(** * Deleting a cluster of Google Compute Engine, its firewalls and its load balancer

    A cluster with a machine that is no master is never deleted, and nothing of it in the
    cloud; one of masters alone ends marked as deleted whatever the cloud refuses
    ([gce_delete]).  Ensuring the firewall rules leaves those of the cluster in place,
    overwrites none, and does nothing when they are there ([gce_firewalls]).  A load
    balancer without an address is no error ([gce_load_balancer]).

    Whatever the operations of a store keep to, the manager does ([gce_respects]). *)
From stdpp Require Import base list gmap strings pretty fin_maps.
From S2P Require Import Prelude GoStrings Api StoreSpec Provider Certs Kube KubeProofs Cloud CloudProofs Apply StoreFrame.
From S2P Require Import Startup ProviderParts ProviderFrame CloudApi Gce.

Import Gce.

(** ** Stores with the same contents *)
Record same_contents {Crt Key} (s s' : pharmer Crt Key) : Prop := {
  sc_credentials : ob_credentials (ph_objects s') = ob_credentials (ph_objects s);
  sc_clusters : ob_clusters (ph_objects s') = ob_clusters (ph_objects s);
  sc_machinesets cl : ob_machinesets (ph_objects s') cl = ob_machinesets (ph_objects s) cl;
  sc_machines cl : ob_machines (ph_objects s') cl = ob_machines (ph_objects s) cl;
  sc_certs : ph_certs s' = ph_certs s;
  sc_ssh : ph_ssh s' = ph_ssh s
}.

#[export] Instance same_contents_preorder {Crt Key} : PreOrder (@same_contents Crt Key).
Proof.
  split; [by split|]. intros a b c [] [].
  split; intros; repeat match goal with H : _ = _ |- _ => rewrite H | H : ∀ _, _ = _ |- _ => rewrite H end; reflexivity.
Qed.

(** ** What leaves the store and the scope, and moves the cloud as [Q] allows *)
Section idle.
Context {Crt Key SSHKey X KC : Type} `{!Polling, !Connector X}.
Context (Q : relation X) `{!PreOrder Q}.
Notation env := (env (S := pharmer Crt Key) (Crt := Crt) (Key := Key) (SSHKey := SSHKey) (X := X) (KC := KC)).

Definition idle (e e' : env) : Prop :=
  same_contents (e_store e) (e_store e') ∧ e_scope e' = e_scope e ∧ Q (e_cloud e) (e_cloud e').

#[export] Instance idle_preorder : PreOrder idle.
Proof.
  split; [intros e; split_and!; reflexivity|]. intros a b c (H1 & H2 & H3) (H4 & H5 & H6).
  split_and!; [by etrans|congruence|by etrans].
Qed.

Lemma on_cloud_idle {A} (f : GoM X A) : pres Q f → pres idle (on_cloud f : GoM env A).
Proof.
  intros Hf e. unfold on_cloud, zoom. specialize (Hf (e_cloud e)). destruct (f _) as [r x]. cbn in *.
  split_and!; [reflexivity|done|done].
Qed.
Lemma the_cluster_idle : pres idle (the_cluster : GoM env _).
Proof. intros e. unfold the_cluster. destruct (sc_Cluster _); reflexivity. Qed.
Hint Resolve on_cloud_idle the_cluster_idle : pres.
Lemma call_idle {A} (f : string → GoM X A) : (∀ t, pres Q (f t)) → pres idle (call f : GoM env A).
Proof. intros Hf. unfold call, nil_panic. pres_tac. Qed.
Lemma at_cloud_idle {A} (f : string → CloudSpec → GoM X A) :
  (∀ t c, pres Q (f t c)) → pres idle (at_cloud f : GoM env A).
Proof. intros Hf. unfold at_cloud. apply pres_bind; [exact _|apply the_cluster_idle|intros c]. by apply call_idle. Qed.
Lemma ignore_err_idle {A} (f : GoM env A) : pres idle f → pres idle (ignore_err f).
Proof. intros Hf. unfold ignore_err. pres_tac. Qed.
Lemma store_idle {A} (f : GoM (pharmer Crt Key) A) : pres same_contents f → pres idle (store f : GoM env A).
Proof.
  intros Hf e. unfold store, zoom. specialize (Hf (e_store e)). destruct (f _) as [r s]. cbn in *.
  split_and!; [done|done|reflexivity].
Qed.
Lemma errors_of_idle {A} (f : A → GoM env ()) l : (∀ a, pres idle (f a)) → pres idle (errors_of f l).
Proof. intros Hf. induction l as [|a l IH]; cbn [errors_of]; pres_tac. Qed.
Lemma delete_found_idle {A} (get : GoM env A) del a : pres idle get → pres idle del → pres idle (delete_found get del a).
Proof. intros Hg Hd. unfold delete_found. pres_tac. Qed.
Lemma done_idle (get : GoM env string) : pres idle get → pres idle (operation_done get).
Proof. intros Hg. unfold operation_done. pres_tac. Qed.
Lemma insert_new_idle (insert : GoM env string) wait a b :
  pres idle insert → (∀ op, pres idle (wait op)) → pres idle (insert_new insert wait a b).
Proof. intros Hi Hw. unfold insert_new. pres_tac. Qed.
Lemma poll_idle n (f : GoM env bool) : pres idle f → pres idle (PollImmediate n f).
Proof. intros Hf. by apply pres_PollImmediate; [exact _|]. Qed.
End idle.

(** Splits a program into its statements, down to the calls on the cloud. *)
Ltac idle_step := first
  [ apply at_cloud_idle; [exact _|intros] | apply call_idle; [exact _|intros] | apply the_cluster_idle; exact _
  | apply ignore_err_idle; [exact _|] | apply errors_of_idle; [exact _|intros] | apply delete_found_idle; [exact _| |]
  | apply done_idle; [exact _|] | apply insert_new_idle; [exact _| |intros] | apply poll_idle; [exact _|]
  | apply on_cloud_idle; [exact _|] | pres_step ].
Ltac idle_tac := repeat idle_step.

(** ** Deleting a cluster

    What is relied on of the SDK's calls: they answer or fail, and never panic, and the
    connection stays that it was. *)
Definition same_conn {X} `{!Connector X} : relation X := λ x x', conn_token x' = conn_token x.
Definition answers {X A} `{!Connector X} (f : GoM X A) : Prop := ∀ x, (∀ w, (f x).1 ≠ Panic w) ∧ same_conn x (f x).2.

Class DeleteCalls (X SSHKey : Type) `{!GceAPI X SSHKey, !Connector X} : Prop := {
  dc_Instances t p z n : answers (Instances_Delete t p z n);
  dc_ZoneOperations t p z op : answers (ZoneOperations_Get t p z op);
  dc_RegionOperations t p r op : answers (RegionOperations_Get t p r op);
  dc_Firewalls t p n : answers (Firewalls_Delete t p n);
  dc_Disks t p z n : answers (Disks_Delete t p z n);
  dc_Addresses_Get t p r n : answers (Addresses_Get t p r n);
  dc_Addresses_Delete t p r n : answers (Addresses_Delete t p r n);
  dc_ForwardingRules_Get t p r n : answers (ForwardingRules_Get t p r n);
  dc_ForwardingRules_Delete t p r n : answers (ForwardingRules_Delete t p r n);
  dc_TargetPools_Get t p r n : answers (TargetPools_Get t p r n);
  dc_TargetPools_Delete t p r n : answers (TargetPools_Delete t p r n);
  dc_HttpHealthChecks_Get t p n : answers (HttpHealthChecks_Get t p n);
  dc_HttpHealthChecks_Delete t p n : answers (HttpHealthChecks_Delete t p n)
}.

Create HintDb answers.
#[export] Hint Resolve dc_Instances dc_ZoneOperations dc_RegionOperations dc_Firewalls dc_Disks dc_Addresses_Get
  dc_Addresses_Delete dc_ForwardingRules_Get dc_ForwardingRules_Delete dc_TargetPools_Get dc_TargetPools_Delete
  dc_HttpHealthChecks_Get dc_HttpHealthChecks_Delete : answers.

Section delete.
Context {Crt Key SSHKey X KC : Type} `{!Polling, !Connector X, !GceAPI X SSHKey, !Goroutines, !DeleteCalls X SSHKey}.
Context (pC : Cluster → outcome Cluster) (pCr : Credential → outcome Credential).
Context (pMS : MachineSet → outcome MachineSet) (pM : Machine → outcome Machine).
Notation sp := (spec_provider (Crt := Crt) (Key := Key) pC pCr pMS pM).
Notation env := (env (S := pharmer Crt Key) (Crt := Crt) (Key := Key) (SSHKey := SSHKey) (X := X) (KC := KC)).
Implicit Types (e : env) (m : Machine) (c : Cluster).

Definition machines cl e : gmap string Machine := ob_machines (ph_objects (e_store e)) cl.
Definition clusters e : gmap string Cluster := ob_clusters (ph_objects (e_store e)).

(** Calls that delete the instance of no name, and only those. *)
Definition nameless (Q : relation X) : Prop :=
  (∀ t p z, pres Q (Instances_Delete t p z "")) ∧ (∀ t p z op, pres Q (ZoneOperations_Get t p z op)).

Lemma put_machines_same cl (s : pharmer Crt Key) :
  same_contents s (set_objects (put_machines cl (ob_machines (ph_objects s) cl) (ph_objects s)) s).
Proof. split; try reflexivity. intros cl'. cbn. destruct (decide (cl' = cl)) as [->|]; reflexivity. Qed.

Lemma list_machines cl e :
  ∃ s, store (op_List (st_Machines sp cl)) e = (Ok (map_to_list (machines cl e)).*2, Env s (e_tick e) (e_cloud e) (e_scope e)) ∧
       same_contents (e_store e) s.
Proof.
  eexists (set_objects (put_machines cl (machines cl e) (ph_objects (e_store e))) (e_store e)). split; [reflexivity|].
  apply put_machines_same.
Qed.

Lemma delete_nameless cl : pres same_contents (op_Delete (st_Machines sp cl) "").
Proof. intros s. apply put_machines_same. Qed.

(** The cluster as it is stored at the end *)
Definition as_deleted c : Cluster := with_Status c (with_Phase (Status c) ClusterDeleted).

(** ** What does not panic

    On a connected manager with a cluster in memory, it leaves the store, the scope and
    the connection. *)
#[export] Instance same_conn_preorder : PreOrder (same_conn (X := X)).
Proof. split; [done|]. intros a b d. unfold same_conn. congruence. Qed.

Definition connected e : Prop := is_Some (sc_Cluster (e_scope e)) ∧ is_Some (conn_token (e_cloud e)).
Definition safe {A} (f : GoM env A) : Prop :=
  ∀ e, connected e → (∀ w, (f e).1 ≠ Panic w) ∧ idle same_conn e (f e).2.

Lemma idle_connected e e' : idle same_conn e e' → connected e → connected e'.
Proof. intros (_ & Hs & Hc) [Hcl Ht]. unfold connected. by rewrite Hs, Hc. Qed.

Lemma safe_ret {A} (a : A) : safe (mret a).
Proof. intros e _. by split. Qed.
Lemma safe_throw {A} err : safe (throw err : GoM env A).
Proof. intros e _. by split. Qed.
Lemma safe_bind {A B} (f : GoM env A) (k : A → GoM env B) : safe f → (∀ a, safe (k a)) → safe (f ≫= k).
Proof.
  intros Hf Hk e He. destruct (Hf e He) as [Hp Hi]. unfold mbind, gom_bind.
  destruct (f e) as [[a|err|w] e1]; cbn in *; [|by split|by destruct (Hp w)].
  destruct (Hk a e1 (idle_connected _ _ Hi He)) as [Hp1 Hi1]. split; [done|by etrans].
Qed.
Lemma safe_attempt {A} (f : GoM env A) : safe f → safe (attempt f).
Proof.
  intros Hf e He. destruct (Hf e He) as [Hp Hi]. unfold attempt.
  destruct (f e) as [[a|err|w] e1]; cbn in *; [by split..|by destruct (Hp w)].
Qed.
Lemma safe_on_err {A} g (f : GoM env A) : safe f → safe (on_err g f).
Proof.
  intros Hf e He. destruct (Hf e He) as [Hp Hi]. unfold on_err.
  destruct (f e) as [[a|err|w] e1]; cbn in *; [by split..|by destruct (Hp w)].
Qed.
Lemma safe_cluster : safe the_cluster.
Proof. intros e [[c Hc] _]. unfold the_cluster. rewrite Hc. by split. Qed.
Lemma safe_call {A} (f : string → GoM X A) : (∀ t, answers (f t)) → safe (call f).
Proof.
  intros Hf e [_ [t Ht]]. rewrite (call_at f e t Ht). destruct (Hf t (e_cloud e)) as [Hp Hc].
  split; [done|]. by split_and!.
Qed.
Lemma safe_at_cloud {A} (f : string → CloudSpec → GoM X A) : (∀ t cl, answers (f t cl)) → safe (at_cloud f).
Proof. intros Hf. unfold at_cloud. apply safe_bind; [apply safe_cluster|intros c]. apply safe_call. intros t. apply Hf. Qed.
Lemma safe_poll n (f : GoM env bool) : safe f → safe (PollImmediate n f).
Proof.
  intros Hf. induction n; cbn [PollImmediate]; (apply safe_bind; [done|intros []; auto using safe_ret, safe_throw]).
Qed.
Lemma safe_errors_of {A} (f : A → GoM env ()) l : (∀ a, safe (f a)) → safe (errors_of f l).
Proof.
  intros Hf. induction l as [|a l IH]; cbn [errors_of]; [apply safe_ret|].
  apply safe_bind; [by apply safe_attempt|intros r]. apply safe_bind; [done|intros es]. apply safe_ret.
Qed.

Ltac safe_step := first
  [ progress intros | solve [auto with answers] | apply safe_ret | apply safe_throw | apply safe_cluster | apply safe_at_cloud | apply safe_call
  | apply safe_poll | apply safe_errors_of | apply safe_on_err | apply safe_attempt | apply safe_bind
  | match goal with
    | |- safe (if ?b then _ else _) => destruct b
    | |- safe (match ?x with _ => _ end) => destruct x
    end ].
Ltac safe_tac := repeat safe_step.

(** What ends well *)
Definition quiet (f : GoM env ()) : Prop := ∀ e, connected e → (f e).1 = Ok () ∧ idle same_conn e (f e).2.

Lemma ignore_err_quiet {A} (f : GoM env A) : safe f → quiet (ignore_err f).
Proof.
  intros Hf e He. destruct (Hf e He) as [Hp Hi]. unfold ignore_err, attempt, mbind, gom_bind.
  destruct (f e) as [[a|err|w] e1]; cbn in *; [by split..|by destruct (Hp w)].
Qed.

(** What comes after one that ends well *)
Lemma quiet_then {B} (f : GoM env ()) (k : () → GoM env B) (g : GoM env B) e :
  quiet f → connected e → (∀ e1, connected e1 → ∃ e2, idle same_conn e1 e2 ∧ k () e1 = g e2) →
  ∃ e2, idle same_conn e e2 ∧ (f ≫= k) e = g e2.
Proof.
  intros Hf He Hk. destruct (Hf e He) as [Ho Hi]. destruct (Hk (f e).2) as (e2 & Hi2 & E); [by eapply idle_connected|].
  exists e2. split; [by etrans|]. rewrite <-E. apply bind_ok. rewrite <-Ho. apply surjective_pairing.
Qed.

Lemma quiet_bind (f g : GoM env ()) : quiet f → quiet g → quiet (_ ← f; g).
Proof.
  intros Hf Hg e He. destruct (Hf e He) as [Ho Hi]. unfold mbind, gom_bind.
  destruct (f e) as [r e1]. cbn in *. subst r. destruct (Hg e1) as [Ho1 Hi1]; [by eapply idle_connected|].
  split; [done|by etrans].
Qed.

Lemma deleteInstance_quiet n : quiet (ignore_err (deleteInstance n)).
Proof. apply ignore_err_quiet. unfold deleteInstance, waitForZoneOperation, operation_done. safe_tac. Qed.
Lemma deleteMaster_quiet ms : quiet (ignore_err (deleteMaster ms)).
Proof. apply ignore_err_quiet. unfold deleteMaster, waitForZoneOperation, operation_done. safe_tac. Qed.
Lemma deleteDisk_quiet ns : quiet (ignore_err (deleteDisk ns)).
Proof. apply ignore_err_quiet. unfold deleteDisk. safe_tac. Qed.
Lemma deleteLoadBalancer_quiet : quiet (ignore_err deleteLoadBalancer).
Proof. apply ignore_err_quiet. unfold deleteLoadBalancer, waitForRegionOperation, operation_done, delete_found. safe_tac. Qed.
Lemma deleteFirewalls_quiet : quiet deleteFirewalls.
Proof.
  assert (∀ f g h : GoM env (), safe f → safe g → safe h →
    quiet (_ ← ignore_err f; _ ← ignore_err g; ignore_err h)) as Hq
    by (intros; repeat (apply quiet_bind || by apply ignore_err_quiet)).
  intros e He. pose proof He as [[c Hc] _]. unfold deleteFirewalls.
  rewrite (bind_ok _ _ _ _ _ (the_cluster_at e c Hc)). cbv zeta. apply Hq; [safe_tac..|done].
Qed.

(** A machine that is no master is not deleted when the name in its Spec is empty. *)
Lemma delete_node_fails m e :
  connected e → SpecName (machine_Spec m) = "" →
  ∃ e1, delete_node sp m e = (Err "missing name", e1) ∧ ∀ Q, PreOrder Q → nameless Q → idle Q e e1.
Proof.
  intros He Hn. unfold delete_node. rewrite Hn. cbv zeta.
  pose proof (deleteInstance_quiet "" e He) as [Ho Hi].
  assert (∀ Q, PreOrder Q → nameless Q → idle Q e (ignore_err (deleteInstance "") e).2) as HQ.
  { intros Q HQ [Hd Hz].
    assert (pres (idle Q) (ignore_err (deleteInstance "") : GoM env ())) as Hp.
    { unfold deleteInstance, waitForZoneOperation. idle_tac. }
    apply Hp. }
  destruct (ignore_err (deleteInstance "") e) as [r e1] eqn:E. cbn [fst snd] in *. subst r.
  rewrite (bind_ok _ _ _ _ _ E). destruct (idle_connected _ _ Hi He) as [[c Hc] _].
  rewrite (bind_ok _ _ _ _ _ (the_cluster_at e1 c Hc)).
  eexists. split; [reflexivity|]. intros Q HQ0 Hnl. etrans; [by apply HQ|].
  apply (store_idle Q (op_Delete (st_Machines sp (cluster_Name c)) "") (delete_nameless _) e1).
Qed.

Lemma store_update e c :
  (store (op_Update (st_Clusters sp) (Some c)) e).1 = (spec_Update pC (Some c) (clusters e)).1 ∧
  clusters (store (op_Update (st_Clusters sp) (Some c)) e).2 = (spec_Update pC (Some c) (clusters e)).2.
Proof.
  unfold store, zoom at 1 2.
  change (op_Update (st_Clusters sp) (Some c) (e_store e)) with (on_clusters (spec_Update pC (Some c)) (e_store e)).
  unfold on_clusters, zoom, clusters.
  destruct (spec_Update pC (Some c) (ob_clusters (ph_objects (e_store e)))) as [r s]. split; reflexivity.
Qed.

(** The last statements, after what has left the store and the scope *)
Lemma mark_deleted e e1 c :
  idle same_conn e e1 → sc_Cluster (e_scope e) = Some c →
  let r := (_ ← set_Phase ClusterDeleted; cluster ← the_cluster;
            _ ← store (op_Update (st_Clusters sp) (Some cluster)); mret ()) e1 in
  r.1 = (λ _, ()) <$> (spec_Update pC (Some (as_deleted c)) (clusters e)).1 ∧
  clusters r.2 = (spec_Update pC (Some (as_deleted c)) (clusters e)).2 ∧
  sc_Cluster (e_scope r.2) = Some (as_deleted c).
Proof.
  intros (Hst & Hsc & _) Hc. assert (sc_Cluster (e_scope e1) = Some c) as Hc1 by (by rewrite Hsc).
  unfold set_Phase. cbv zeta. rewrite bind_assoc. rewrite (bind_ok _ _ _ _ _ (the_cluster_at e1 c Hc1)).
  erewrite bind_ok by reflexivity. erewrite bind_ok by (apply the_cluster_at; reflexivity).
  fold (as_deleted c). set (e2 := Env _ _ _ _).
  assert (clusters e2 = clusters e) as Hcl by (unfold clusters; cbn; by rewrite (sc_clusters _ _ Hst)).
  destruct (store_update e2 (as_deleted c)) as [E1 E2]. rewrite Hcl in E1, E2. rewrite <-E1, <-E2.
  assert (e_scope (store (op_Update (st_Clusters sp) (Some (as_deleted c))) e2).2 = e_scope e2) as E3.
  { unfold store, zoom. by destruct (op_Update _ _ _). }
  unfold mbind, gom_bind. destruct (store _ e2) as [[?|?|?] e3]; cbn in *; by rewrite E3.
Qed.

(** The list of what is stored, and the masters in it *)
Lemma listed cl e m : In m (map_to_list (machines cl e)).*2 ↔ ∃ name, machines cl e !! name = Some m.
Proof.
  rewrite <-list_elem_of_In, list_elem_of_fmap. split.
  - intros ([name m'] & -> & Hm). exists name. by apply elem_of_map_to_list.
  - intros [name Hm]. exists (name, m). split; [done|]. by apply elem_of_map_to_list.
Qed.

(** A machine that is no master stops the deletion. *)
Lemma nodes_stop (l : list Machine) m e :
  connected e → In m l → IsControlPlaneMachine m = false →
  (∀ m, In m l → SpecName (machine_Spec m) = "") →
  ∃ e1, for_each (delete_node sp) (List.filter (λ m, negb (IsControlPlaneMachine m)) l) e =
          (Err "missing name", e1) ∧ ∀ Q, PreOrder Q → nameless Q → idle Q e e1.
Proof.
  intros He Hm Hcp Hnames.
  assert (In m (List.filter (λ m, negb (IsControlPlaneMachine m)) l)) as Hin by (apply List.filter_In; by rewrite Hcp).
  destruct (List.filter _ l) as [|m' rest] eqn:Ef; [done|].
  assert (In m' l) as Hm' by (eapply List.filter_In; rewrite Ef; by left).
  destruct (delete_node_fails m' e He (Hnames m' Hm')) as (e1 & E & HQ). exists e1. split; [|done].
  by apply bind_err.
Qed.

(** The last statements *)
Definition mark : GoM env () :=
  _ ← set_Phase ClusterDeleted; cluster ← the_cluster; _ ← store (op_Update (st_Clusters sp) (Some cluster)); mret ().

(** With masters alone, what follows the nodes ends well, down to the mark. *)
Lemma masters_gone ms ns e :
  connected e → ∃ e', idle same_conn e e' ∧
    (_ ← ignore_err (deleteMaster ms); _ ← deleteFirewalls; _ ← ignore_err (deleteDisk ns);
     _ ← ignore_err deleteLoadBalancer; mark) e = mark e'.
Proof.
  intros He. apply quiet_then; [apply deleteMaster_quiet|done|intros e1 He1].
  apply quiet_then; [apply deleteFirewalls_quiet|done|intros e2 He2].
  apply quiet_then; [apply deleteDisk_quiet|done|intros e3 He3].
  apply quiet_then; [apply deleteLoadBalancer_quiet|done|intros e4 _]. by exists e4.
Qed.

(** [C33] For a connected manager, and machines with no name in their Spec, as those are
    that the cloud package makes: a cluster with a machine that is no master cannot be
    deleted.  The name in the Spec is what its instance is deleted by, so an instance of
    no name is asked to be deleted, and then the store refuses to delete a machine of no
    name, with which the deletion ends; nothing else in the cloud is touched, no master,
    firewall, disk or load balancer.  A cluster of masters alone is marked as deleted in
    memory and updated so in the store, whose answer is the answer, whatever errors the
    cloud answers with.  The calls of the SDK are taken not to panic. *)
Theorem gce_delete e c t :
  sc_Cluster (e_scope e) = Some c → conn_token (e_cloud e) = Some t →
  (∀ name m, machines (cluster_Name c) e !! name = Some m → SpecName (machine_Spec m) = "") →
  let r := ApplyDelete sp e in
  (∀ name m, machines (cluster_Name c) e !! name = Some m → IsControlPlaneMachine m = false →
     r.1 = Err "missing name" ∧ ∀ Q, PreOrder Q → nameless Q → idle Q e r.2) ∧
  ((∀ name m, machines (cluster_Name c) e !! name = Some m → IsControlPlaneMachine m = true) →
     r.1 = (λ _, ()) <$> (spec_Update pC (Some (as_deleted c)) (clusters e)).1 ∧
     clusters r.2 = (spec_Update pC (Some (as_deleted c)) (clusters e)).2 ∧
     sc_Cluster (e_scope r.2) = Some (as_deleted c)).
Proof.
  intros Hc Ht Hnames r. destruct (list_machines (cluster_Name c) e) as (s & El & Hs).
  set (e0 := Env s (e_tick e) (e_cloud e) (e_scope e)) in El.
  assert (connected e0) as He0 by (by split; [exists c|exists t]).
  assert (clusters e0 = clusters e) as Hcl by (by destruct Hs).
  unfold r, ApplyDelete. rewrite (bind_ok _ _ _ _ _ (the_cluster_at e c Hc)). rewrite (bind_ok _ _ _ _ _ El).
  pose proof (listed (cluster_Name c) e) as Hl. set (l := (map_to_list _).*2) in *. split.
  - intros name m Hm Hcp.
    assert (∀ m, In m l → SpecName (machine_Spec m) = "") as Hn by (intros m' [? ?]%Hl; by eapply Hnames).
    destruct (nodes_stop l m e0 He0) as (e1 & E & HQ); [apply Hl; by exists name|done|done|].
    rewrite (bind_err _ _ _ _ _ E). split; [done|]. intros Q HQ0 Hnl. etrans; [|by apply HQ]. split_and!; [exact Hs|done|reflexivity].
  - intros Hcp. replace (List.filter (λ m, negb (IsControlPlaneMachine m)) l) with (@nil Machine).
    2:{ symmetry. destruct (List.filter _ l) as [|m rest] eqn:Ef; [done|].
        assert (In m (List.filter (λ m, negb (IsControlPlaneMachine m)) l)) as [Hm Hf]%List.filter_In by (rewrite Ef; by left).
        apply Hl in Hm as [name Hm]. by rewrite (Hcp _ _ Hm) in Hf. }
    cbn [for_each]. rewrite (bind_ok _ _ e0 e0 ()) by done. rewrite <-Hcl.
    match goal with |- context [ignore_err (deleteMaster ?ms)] =>
      destruct (masters_gone ms (MachineDiskName <$> l) e0 He0) as (e4 & Hi & E); unfold mark in E; rewrite E end.
    by apply mark_deleted.
Qed.
End delete.

(** ** Firewalls

    What the API promises of the rules of projects: reading changes none and answers
    only for a rule that is there; an insertion makes the rule it is asked for or
    changes nothing, never a rule that is there. *)
Definition adds {X} (rules : X → string → gmap string Firewall) (p : string) (l : list Firewall) (x x' : X) : Prop :=
  ∀ p' n, rules x' p' !! n = rules x p' !! n ∨
    (p' = p ∧ rules x p' !! n = None ∧ ∃ r, r ∈ l ∧ fw_Name r = n ∧ rules x' p' !! n = Some r).

Class FirewallLaws {X SSHKey} `{!GceAPI X SSHKey} (rules : X → string → gmap string Firewall) : Prop := {
  fl_Get t p n x : rules (Firewalls_Get t p n x).2 = rules x;
  fl_Get_ok t p n x : is_ok (Firewalls_Get t p n x).1 = true → is_Some (rules x p !! n);
  fl_Insert t p r x : adds rules p [r] x (Firewalls_Insert t p r x).2;
  fl_Insert_ok t p r x :
    is_ok (Firewalls_Insert t p r x).1 = true → is_Some (rules (Firewalls_Insert t p r x).2 p !! fw_Name r)
}.

Section firewalls.
Context {Crt Key SSHKey X KC : Type} `{!Polling, !Connector X, !GceAPI X SSHKey}.
Context (rules : X → string → gmap string Firewall) `{!FirewallLaws rules}.
Context (pC : Cluster → outcome Cluster) (pCr : Credential → outcome Credential).
Context (pMS : MachineSet → outcome MachineSet) (pM : Machine → outcome Machine).
Notation sp := (spec_provider (Crt := Crt) (Key := Key) pC pCr pMS pM).
Notation env := (env (S := pharmer Crt Key) (Crt := Crt) (Key := Key) (SSHKey := SSHKey) (X := X) (KC := KC)).
Implicit Types (e : env) (c : Cluster).

Notation adds := (adds rules).
Definition cloud_of c : CloudSpec := Cloud (Config (Spec c)).
Definition has_rule p n (x : X) : Prop := is_Some (rules x p !! n).

Lemma adds_refl p x : adds p [] x x.
Proof. by left. Qed.

Lemma adds_trans p l k x y z : adds p l x y → adds p k y z → adds p (l ++ k) x z.
Proof.
  intros H1 H2 p' n. destruct (H2 p' n) as [->|(-> & Hn & r & Hr & Hname & ->)].
  - destruct (H1 p' n) as [->|(-> & Hn & r & Hr & Hname & ->)]; [by left|]. right. split_and!; try done.
    exists r. rewrite elem_of_app. tauto.
  - destruct (H1 p n) as [E|(_ & _ & r' & _ & _ & E)]; [|congruence]. right. split_and!; [done|congruence|].
    exists r. rewrite elem_of_app. tauto.
Qed.

Lemma adds_has p l x y n p' : adds p l x y → has_rule p' n x → has_rule p' n y.
Proof. intros Ha [r Hr]. unfold has_rule. destruct (Ha p' n) as [->|(_ & Hn & _)]; [by exists r|congruence]. Qed.

(** A call with the cloud of the cluster in the scope, which answers *)
Lemma at_cloud_attempt {A} (f : string → CloudSpec → GoM X A) e c r e' :
  sc_Cluster (e_scope e) = Some c → attempt (at_cloud f) e = (Ok r, e') →
  ∃ t, e' = Env (e_store e) (e_tick e) (f t (cloud_of c) (e_cloud e)).2 (e_scope e) ∧
    is_ok (f t (cloud_of c) (e_cloud e)).1 = match r with inl _ => true | inr _ => false end.
Proof.
  intros Hc. unfold attempt, at_cloud. rewrite (bind_ok _ _ _ _ _ (the_cluster_at e c Hc)).
  unfold call, mbind, gom_bind, gets. destruct (conn_token (e_cloud e)) as [t|]; [|done].
  unfold on_cloud, zoom. exists t. fold (cloud_of c) in *.
  destruct (f t (cloud_of c) (e_cloud e)) as [[a|?|?] x]; by simplify_eq/=.
Qed.

Lemma at_cloud_ok {A} (f : string → CloudSpec → GoM X A) e c a e' :
  sc_Cluster (e_scope e) = Some c → at_cloud f e = (Ok a, e') →
  ∃ t, e' = Env (e_store e) (e_tick e) (f t (cloud_of c) (e_cloud e)).2 (e_scope e) ∧
    is_ok (f t (cloud_of c) (e_cloud e)).1 = true.
Proof. intros Hc E. by apply (at_cloud_attempt f e c (inl a) e' Hc), attempt_ok. Qed.

Lemma ensure_rule_ok r e c e' :
  sc_Cluster (e_scope e) = Some c → ensure_rule r e = (Ok (), e') →
  e_scope e' = e_scope e ∧ e_store e' = e_store e ∧
  adds (Project (cloud_of c)) [r] (e_cloud e) (e_cloud e') ∧ has_rule (Project (cloud_of c)) (fw_Name r) (e_cloud e').
Proof.
  intros Hc E. unfold ensure_rule in E. apply bind_ok_inv in E as (got & e1 & E1 & E).
  apply (at_cloud_attempt _ _ c) in E1 as (t & -> & Hgot); [|done]. cbn in E, Hgot.
  destruct got as [[]|err].
  - injection E as <-. cbn. split_and!; try done.
    + intros p' n. left. by rewrite fl_Get.
    + unfold has_rule. rewrite fl_Get. by eapply fl_Get_ok.
  - apply on_err_ok_inv in E. apply (at_cloud_ok _ _ c) in E as (t' & -> & Hok); [|done]. cbn in *.
    split_and!; try done; [|by apply fl_Insert_ok].
    intros p' n. pose proof (fl_Insert t' (Project (cloud_of c)) r (Firewalls_Get t (Project (cloud_of c)) (fw_Name r) (e_cloud e)).2 p' n) as Hins.
    by rewrite fl_Get in Hins.
Qed.

Lemma update_cluster_scope c e e' :
  update_cluster sp c e = (Ok (), e') →
  e_cloud e' = e_cloud e ∧ sc_Cluster (e_scope e') = Some (res_assign c).
Proof.
  intros E. unfold update_cluster in E. apply bind_ok_inv in E as (upd & e1 & E1 & E).
  destruct upd as [c'|err].
  2:{ apply bind_ok_inv in E as ([] & e2 & _ & E). done. }
  injection E as <-. unfold attempt, store, zoom in E1.
  change (op_Update (st_Clusters sp) (Some c) (e_store e)) with (on_clusters (spec_Update pC (Some c)) (e_store e)) in E1.
  unfold on_clusters, zoom in E1.
  destruct (spec_Update pC (Some c) _) as [[c1|?|?] s1] eqn:Eu; simplify_eq/=. split; [done|]. f_equal.
  unfold spec_Update in Eu. case_decide; [done|]. destruct (_ !! _); [|done].
  unfold spec_put in Eu. by destruct (pC _); simplify_eq/=.
Qed.

(** The rules of a cluster *)
Definition cluster_rules c : list Firewall :=
  let n := cluster_Name c in let cl := cloud_of c in
  [ruleInternal cl; ruleClusterInternal n cl; ruleSSH n cl; ruleApiPublic n cl].

(** Looking for the rules *)
Definition reads e e' : Prop := rules (e_cloud e') = rules (e_cloud e) ∧ e_store e' = e_store e ∧ e_scope e' = e_scope e.
#[local] Instance reads_preorder : PreOrder reads.
Proof. split; [done|]. intros a b d (? & ? & ?) (? & ? & ?). split_and!; congruence. Qed.

Lemma get_rule_reads n : pres reads (at_cloud (λ t cl, Firewalls_Get t (Project cl) n) : GoM env ()).
Proof.
  intros e. unfold at_cloud, the_cluster, call, mbind, gom_bind, gets.
  destruct (sc_Cluster (e_scope e)) as [c|]; [|done]. cbn [fst snd].
  destruct (conn_token (e_cloud e)) as [t|]; [|done]. unfold on_cloud, zoom.
  pose proof (fl_Get t (Project (cloud_of c)) n (e_cloud e)) as Hg. fold (cloud_of c).
  by destruct (Firewalls_Get _ _ _ _).
Qed.

Lemma the_cluster_reads : pres reads (the_cluster : GoM env _).
Proof. intros e. unfold the_cluster. by destruct (sc_Cluster _). Qed.

Lemma getFirewallRules_reads : pres reads (getFirewallRules : GoM env _).
Proof.
  unfold getFirewallRules. apply pres_bind; [exact _|apply the_cluster_reads|intros c].
  repeat (apply pres_bind; [exact _|apply get_rule_reads|intros ?]). apply pres_ret. exact _.
Qed.

Lemma getFirewallRules_ok e c b e' r :
  sc_Cluster (e_scope e) = Some c → getFirewallRules e = (Ok b, e') → r ∈ tail (cluster_rules c) →
  has_rule (Project (cloud_of c)) (fw_Name r) (e_cloud e).
Proof.
  intros Hc E. unfold getFirewallRules in E. rewrite (bind_ok _ _ _ _ _ (the_cluster_at e c Hc)) in E. cbv zeta in E.
  assert (∀ n e1 a e2, reads e e1 → at_cloud (λ t cl, Firewalls_Get t (Project cl) n) e1 = (Ok a, e2) →
    reads e e2 ∧ has_rule (Project (cloud_of c)) n (e_cloud e)) as Hone.
  { intros n e1 a e2 He1 E1. split; [etrans; [exact He1|]; pose proof (get_rule_reads n e1) as Hr; by rewrite E1 in Hr|].
    destruct He1 as (Hr & _ & Hsc). apply (at_cloud_ok _ _ c) in E1 as (t & _ & Hok); [|by rewrite Hsc].
    apply fl_Get_ok in Hok. by rewrite Hr in Hok. }
  apply bind_ok_inv in E as (? & e1 & E1 & E). apply (Hone _ e) in E1 as [H1 Hr1]; [|done].
  apply bind_ok_inv in E as (? & e2 & E2 & E). apply (Hone _ e1) in E2 as [H2 Hr2]; [|done].
  apply bind_ok_inv in E as (? & e3 & E3 & E). apply (Hone _ e2) in E3 as [H3 Hr3]; [|done].
  unfold cluster_rules. cbn [tail]. rewrite !elem_of_cons, elem_of_nil. by intros [->|[->|[->|[]]]].
Qed.

Lemma conn_ensureFirewallRules_ok e c e' :
  sc_Cluster (e_scope e) = Some c → conn_ensureFirewallRules sp e = (Ok (), e') →
  (∀ r, r ∈ tail (cluster_rules c) → has_rule (Project (cloud_of c)) (fw_Name r) (e_cloud e')) ∧
  adds (Project (cloud_of c)) (cluster_rules c) (e_cloud e) (e_cloud e').
Proof.
  intros Hc E. unfold conn_ensureFirewallRules in E. rewrite (bind_ok _ _ _ _ _ (the_cluster_at e c Hc)) in E. cbv zeta in E.
  fold (cloud_of c) in E.
  apply bind_ok_inv in E as ([] & e1 & E1 & E). apply (ensure_rule_ok _ _ c) in E1 as (Hsc1 & _ & A1 & _); [|done].
  rewrite <-Hsc1 in Hc.
  apply bind_ok_inv in E as ([] & e2 & E2 & E). apply (ensure_rule_ok _ _ c) in E2 as (Hsc2 & _ & A2 & R2); [|done].
  apply bind_ok_inv in E as ([] & e3 & E3 & E). apply update_cluster_scope in E3 as [H3 Hc3].
  apply bind_ok_inv in E as ([] & e4 & E4 & E). eapply ensure_rule_ok in E4 as (Hsc4 & _ & A4 & R4); [|exact Hc3].
  rewrite <-Hsc4 in Hc3.
  apply bind_ok_inv in E as ([] & e5 & E5 & E). eapply ensure_rule_ok in E5 as (Hsc5 & _ & A5 & R5); [|exact Hc3].
  apply update_cluster_scope in E as [H6 _].
  match type of A4 with GceProofs.adds _ ?p _ _ _ => change p with (Project (cloud_of c)) in A4, R4, A5, R5 end.
  rewrite H3 in A4. rewrite H6. split.
  - unfold cluster_rules. cbn [tail]. intros r. rewrite !elem_of_cons, elem_of_nil. intros [->|[->|[->|[]]]].
    + eapply adds_has; [exact A5|]. by eapply adds_has; [exact A4|].
    + by eapply adds_has; [exact A5|].
    + exact R5.
  - exact (adds_trans _ _ _ _ _ _ A1 (adds_trans _ _ _ _ _ _ A2 (adds_trans _ _ _ _ _ _ A4 A5))).
Qed.

(** [C30] Ensuring the firewall rules of a cluster, when it succeeds, leaves a rule of each
    of its three names; it makes no rule but those of the cluster and the one the
    network's machines share, in the cluster's project, and never replaces or takes away
    a rule that was there.  When the three can be read it does nothing at all. *)
Theorem gce_firewalls e c e' :
  sc_Cluster (e_scope e) = Some c → ensureFirewallRules sp e = (Ok (), e') →
  let p := Project (cloud_of c) in
  (∀ r, r ∈ tail (cluster_rules c) → has_rule p (fw_Name r) (e_cloud e')) ∧
  adds p (cluster_rules c) (e_cloud e) (e_cloud e') ∧
  (is_ok (getFirewallRules e).1 = true →
     rules (e_cloud e') = rules (e_cloud e) ∧ e_store e' = e_store e ∧ e_scope e' = e_scope e).
Proof.
  intros Hc E p. unfold ensureFirewallRules in E. apply bind_ok_inv in E as (got & e1 & E1 & E).
  pose proof (getFirewallRules_reads e) as Hreads. unfold attempt in E1.
  destruct (getFirewallRules e) as [[b|err|w] e2] eqn:Eg; [|clear Eg..]; simplify_eq/=; destruct Hreads as (Hr & Hst & Hsc).
  - injection E as <-. split_and!; [|intros p' n; left; by rewrite Hr|done].
    intros r Hin. unfold has_rule. rewrite Hr. by eapply getFirewallRules_ok.
  - apply (conn_ensureFirewallRules_ok _ c) in E as [Hthere Hadds]; [|by rewrite Hsc].
    split_and!; [done| |done]. intros p' n. specialize (Hadds p' n). by rewrite Hr in Hadds.
Qed.
End firewalls.

(** ** The load balancer *)
Section balancer.
Context {S Crt Key SSHKey X KC : Type} `{!Polling, !Connector X, !GceAPI X SSHKey}.
Notation env := (env (S := S) (Crt := Crt) (Key := Key) (SSHKey := SSHKey) (X := X) (KC := KC)).
Implicit Types (e : env) (c : Cluster).

Definition reads_scope e e' : Prop := e_scope e' = e_scope e.
#[local] Instance reads_scope_preorder : PreOrder reads_scope.
Proof. split; [done|]. intros a b d. unfold reads_scope. congruence. Qed.

Lemma at_cloud_scope {A} (f : string → CloudSpec → GoM X A) : pres reads_scope (at_cloud f : GoM env A).
Proof.
  intros e. unfold at_cloud, the_cluster, call, mbind, gom_bind, gets, reads_scope.
  destruct (sc_Cluster (e_scope e)); [|done]. cbn [fst snd]. destruct (conn_token _); [|done].
  unfold on_cloud, zoom. by destruct (f _ _ _).
Qed.
Hint Resolve at_cloud_scope : pres.
Lemma the_cluster_scope : pres reads_scope (the_cluster : GoM env _).
Proof. intros e. unfold the_cluster. by destruct (sc_Cluster _). Qed.
Hint Resolve the_cluster_scope : pres.
Lemma waitRegion_scope op : pres reads_scope (waitForRegionOperation op : GoM env ()).
Proof. unfold waitForRegionOperation, operation_done. apply pres_PollImmediate; [exact _|]. pres_tac. Qed.
Hint Resolve waitRegion_scope : pres.
Lemma insert_new_scope (insert : GoM env string) wait a b :
  pres reads_scope insert → (∀ op, pres reads_scope (wait op)) → pres reads_scope (insert_new insert wait a b).
Proof. intros Hi Hw. unfold insert_new. pres_tac. Qed.
Lemma getLoadBalancer_scope : pres reads_scope (getLoadBalancer : GoM env _).
Proof. unfold getLoadBalancer. pres_tac. Qed.
Lemma createLoadBalancer_scope m : pres reads_scope (createLoadBalancer m : GoM env _).
Proof. unfold createLoadBalancer. repeat (apply insert_new_scope || pres_step). Qed.

(** Ensuring the load balancer, when it succeeds, puts the address the cloud has for it
    in the status of the cluster and in the endpoints of its cluster API; but for an empty
    address it succeeds as well, and there is no endpoint. *)
Theorem gce_load_balancer e c e' :
  sc_Cluster (e_scope e) = Some c → ensureLoadBalancer e = (Ok (), e') →
  ∃ ip, (∃ e1, (getLoadBalancer e).1 = Ok ip ∨ (createLoadBalancer (MasterMachineName c 0) e1).1 = Ok ip) ∧
    let c1 := with_LoadBalancer c {| lb_DNS := ""; lb_IP := ip; lb_Port := DefaultKubernetesBindPort |} in
    sc_Cluster (e_scope e') = Some (if decide (ip = "") then c1 else append_endpoint c1 ip).
Proof.
  intros Hc E. unfold ensureLoadBalancer in E. apply bind_ok_inv in E as (got & e1 & E1 & E).
  apply bind_ok_inv in E as (ip & e2 & E2 & E). exists ip.
  assert (e_scope e1 = e_scope e) as Hs1.
  { pose proof (pres_attempt _ _ getLoadBalancer_scope e) as H1. by rewrite E1 in H1. }
  assert (e_scope e2 = e_scope e ∧
    ∃ e1, (getLoadBalancer e).1 = Ok ip ∨ (createLoadBalancer (MasterMachineName c 0) e1).1 = Ok ip) as [Hs2 Hip].
  { destruct got as [ip'|err].
    - injection E2 as <- <-. split; [done|]. exists e. left. unfold attempt in E1.
      by destruct (getLoadBalancer e) as [[?|?|?] ?]; simplify_eq/=.
    - rewrite <-Hs1 in Hc. rewrite (bind_ok _ _ _ _ _ (the_cluster_at e1 c Hc)) in E2. apply on_err_ok_inv in E2.
      pose proof (createLoadBalancer_scope (MasterMachineName c 0) e1) as H2. rewrite E2 in H2. split; [unfold reads_scope in H2; cbn in H2; congruence|].
      exists e1. right. by rewrite E2. }
  split; [exact Hip|]. rewrite <-Hs2 in Hc. rewrite (bind_ok _ _ _ _ _ (the_cluster_at e2 c Hc)) in E.
  cbv zeta in E |- *. erewrite bind_ok in E by reflexivity.
  destruct (decide (ip = "")); [by injection E as <-|].
  apply bind_ok_inv in E as (c' & e3 & E3 & E). apply on_err_ok_inv in E3. injection E as <-.
  unfold lift, SetClusterAPIEndpoints, address_map in E3. cbn [foldl addr_Type Address] in E3.
  rewrite lookup_insert_eq in E3. by destruct (decide (ip ≠ "")); simplify_eq/=.
Qed.
End balancer.

Section frame.
Import Gce.
Context {S Crt Key SSHKey X KC CC BC V : Type}.
Context `{!Crypto Crt Key SSHKey, !CertText Crt Key, !Clock, !Polling, !Kubernetes X KC CC BC}.
Context `{!StartupLib Crt V, !Environment, !gce.GceJson, !GceText, !GceAPI X SSHKey, !Goroutines, !Connector X}.
Context (sp : ResourceInterface S Crt Key) (customTemplate : string) (R : relation S) `{!PreOrder R} `{!StoreRespects R sp}.
Notation env := (env (S := S) (Crt := Crt) (Key := Key) (SSHKey := SSHKey) (X := X) (KC := KC)).
Notation on_e := (on_e (Crt := Crt) (Key := Key) (SSHKey := SSHKey) (X := X) (KC := KC) R).

Hint Resolve store_frame store_rand_frame on_store_frame on_cloud_frame draw_env_frame Now_frame set_Cluster_frame
  the_cluster_frame set_AdminClient_frame NewRestConfig_frame call_frame conn_SSHKey_frame ignore_err_frame
  connect_frame clear_Cluster_frame : pres.

Lemma gc_at_cloud_frame {A} (f : string → CloudSpec → GoM X A) : pres on_e (at_cloud f : GoM env A).
Proof. unfold at_cloud. provider_tac. Qed.
Hint Resolve gc_at_cloud_frame : pres.
Lemma gc_waitGlobal_frame op : pres on_e (waitForGlobalOperation op : GoM env ()).
Proof. unfold waitForGlobalOperation, nil_panic. provider_tac. Qed.
Lemma gc_done_frame (get : GoM env string) : pres on_e get → pres on_e (operation_done get).
Proof. intros Hg. unfold operation_done. provider_tac. Qed.
Lemma gc_waitRegion_frame op : pres on_e (waitForRegionOperation op : GoM env ()).
Proof. unfold waitForRegionOperation. apply pres_PollImmediate; [exact _|]. apply gc_done_frame. provider_tac. Qed.
Lemma gc_waitZone_frame op : pres on_e (waitForZoneOperation op : GoM env ()).
Proof. unfold waitForZoneOperation. apply pres_PollImmediate; [exact _|]. apply gc_done_frame. provider_tac. Qed.
Hint Resolve gc_waitGlobal_frame gc_waitRegion_frame gc_waitZone_frame : pres.
Lemma gc_insert_new_frame (insert : GoM env string) wait a b :
  pres on_e insert → (∀ op, pres on_e (wait op)) → pres on_e (insert_new insert wait a b).
Proof. intros Hi Hw. unfold insert_new. provider_tac. Qed.
Lemma gc_delete_found_frame {A} (get : GoM env A) del a :
  pres on_e get → pres on_e del → pres on_e (delete_found get del a).
Proof. intros Hg Hd. unfold delete_found. provider_tac. Qed.
Lemma gc_errors_of_frame {A} (f : A → GoM env ()) l : (∀ a, pres on_e (f a)) → pres on_e (errors_of f l).
Proof. intros Hf. induction l as [|a l IH]; cbn [errors_of]; provider_tac. Qed.
Lemma gc_getLoadBalancer_frame : pres on_e (getLoadBalancer : GoM env _).
Proof. unfold getLoadBalancer. provider_tac. Qed.
Lemma gc_ensure_rule_frame r : pres on_e (ensure_rule r : GoM env ()).
Proof. unfold ensure_rule. provider_tac. Qed.
Hint Resolve gc_getLoadBalancer_frame gc_ensure_rule_frame : pres.

Ltac gce_tac := repeat first
  [ solve [auto 2 with pres] | apply gc_insert_new_frame | apply gc_delete_found_frame | apply gc_errors_of_frame | provider_step ].

Lemma gc_createLoadBalancer_frame m : pres on_e (createLoadBalancer m : GoM env _).
Proof. unfold createLoadBalancer. gce_tac. Qed.
Lemma gc_deleteLoadBalancer_frame : pres on_e (deleteLoadBalancer : GoM env _).
Proof. unfold deleteLoadBalancer. gce_tac. Qed.
Lemma gc_deleteMaster_frame ms : pres on_e (deleteMaster ms : GoM env _).
Proof. unfold deleteMaster. gce_tac. Qed.
Lemma gc_deleteDisk_frame ns : pres on_e (deleteDisk ns : GoM env _).
Proof. unfold deleteDisk. gce_tac. Qed.
Lemma gc_update_cluster_frame c : pres on_e (update_cluster sp c : GoM env ()).
Proof. unfold update_cluster. gce_tac. Qed.
Hint Resolve gc_createLoadBalancer_frame gc_deleteLoadBalancer_frame gc_deleteMaster_frame gc_deleteDisk_frame
  gc_update_cluster_frame : pres.
Lemma gc_firewalls_frame : pres on_e (conn_ensureFirewallRules sp : GoM env ()).
Proof. unfold conn_ensureFirewallRules. gce_tac. Qed.
Lemma gc_script_frame m t : pres on_e (RenderStartupScript (V := V) (gce_hooks (KC := KC) customTemplate) m t : GoM env _).
Proof.
  apply render_frame; cbn [gce_hooks hook_NewNodeTemplateData hook_NewMasterTemplateData]; unfold nil_panic; gce_tac.
Qed.
Hint Resolve gc_firewalls_frame gc_script_frame : pres.

Ltac method := intros; cbn [ClusterManager cm_SetDefaultCluster cm_GetDefaultMachineProviderSpec cm_SetCloudConnector
    cm_PrepareCloud cm_EnsureMaster cm_ApplyScale cm_ApplyDelete cm_GetAdminClient cm_CreateCredentials
    cm_GetClusterAPIComponents].

Lemma gce_respects : ProviderRespects R
  (ClusterManager (SSHKey := SSHKey) (X := X) (KC := KC) (CC := CC) (BC := BC) (V := V) sp customTemplate).
Proof.
  split; method.
  - unfold SetDefaultCluster, nil_panic. gce_tac.
  - unfold GetDefaultMachineProviderSpec. gce_tac.
  - unfold newconnector, IsUnauthorized. gce_tac.
  - unfold PrepareCloud, importPublicKey. provider_step. gce_tac. 
    intros. provider_step.
    unfold ensureNetwork, getNetworks, ensureNetworks. gce_tac. 
    intros. provider_step.
    unfold ensureFirewallRules, getFirewallRules. gce_tac. 
    unfold ensureLoadBalancer. gce_tac.
  - unfold EnsureMaster, getMasterInstance, createMasterIntance, getMasterPDDisk, createDisk. gce_tac.
  - gce_tac.
  - unfold ApplyDelete, delete_node, deleteInstance, deleteFirewalls, set_Phase. gce_tac.
  - unfold GetAdminClient, NewAdminClient. gce_tac.
  - gce_tac.
  - unfold GetClusterAPIComponents. gce_tac.
Qed.
End frame.
