(* ===== verification/AzureProofs.v ===== *)
(** * The resources of a cluster of Azure's machines

    Preparing the cloud makes the eleven resources of the cluster, nothing else, and
    nothing that is there and found ([azure_prepare]): an argument on what each part makes
    ([makes]), composed as the parts are.  The name of the public address
    ([public_ip_name]).

    Preparing the cloud moves the cloud and the cluster in the scope, and nothing else
    ([azure_moves]); so the cluster manager keeps to whatever the operations of a store
    keep to ([azure_respects]). *)
From stdpp Require Import base list gmap strings pretty fin_maps.
From Stdlib Require Import Ascii.
From S2P Require Import Prelude GoStrings Api StoreSpec Provider Certs Kube KubeProofs Cloud CloudProofs Apply Upgrade.
From S2P Require Import StoreFrame Startup ProviderParts ProviderFrame CloudApi AwsFrame Azure AwsProofs.

Import Azure.

Section moves.
Context {S Crt Key SSHKey X KC : Type} `{!azure.AzureJson, !AzureSDK X SSHKey, !Connector X}.
Notation env := (env (S := S) (Crt := Crt) (Key := Key) (SSHKey := SSHKey) (X := X) (KC := KC)).
Context (P : relation env) `{!Moves P}.

Lemma azure_the_azure_moves : pres P (the_azure : GoM env _).
Proof. unfold the_azure, nil_panic. pres_tac. Qed.
Lemma azure_the_config_moves : pres P (the_config : GoM env _).
Proof. unfold the_config. pres_tac. Qed.
Lemma azure_in_group_moves {A} (f : string → string → GoM X A) : pres P (in_group f : GoM env A).
Proof. unfold in_group. pres_tac. Qed.
Lemma azure_created_moves {A} w1 w2 w3 (create : GoM env string) (result : string → string → GoM X A) :
  pres P create → pres P (created w1 w2 w3 create result).
Proof. intros Hc. unfold created. pres_tac. Qed.
Lemma azure_found_or_moves {A} (get make : GoM env A) : pres P get → pres P make → pres P (found_or get make).
Proof. intros Hg Hm. unfold found_or. pres_tac. Qed.
Hint Resolve azure_the_azure_moves azure_the_config_moves azure_in_group_moves azure_created_moves : pres.

Ltac azure_step := first [ solve [auto 2 with pres] | apply azure_found_or_moves | apply azure_created_moves | pres_step ].

Lemma azure_PrepareCloud_moves : pres P (PrepareCloud : GoM env ()).
Proof.
  unfold PrepareCloud, apply_ensureResourceGroup, getResourceGroup, ensureResourceGroup, apply_ensureVirtualNetwork,
    getVirtualNetwork, ensureVirtualNetwork, ensureSecurityGroup, getNetworkSecurityGroup, createNetworkSecurityGroup,
    ensureRouteTable, getRouteTable, createRouteTable, ensureSubnet, getSubnetID, createSubnetID, ensureLoadBalancer,
    findLoadBalancer, createInternalLoadBalancer, ensurePublicIP, getPublicIP, createPublicIP, createPublicLoadBalancer,
    ensureMasterNIC, getNetworkInterface, createNetworkInterface.
  repeat azure_step.
Qed.
Lemma azure_createVirtualMachine_moves n v d m : pres P (createVirtualMachine n v d m : GoM env _).
Proof. unfold createVirtualMachine. repeat azure_step. Qed.
End moves.

Section frame.
Context {S Crt Key SSHKey X KC CC BC V : Type}.
Context `{!Crypto Crt Key SSHKey, !CertText Crt Key, !Clock, !Polling, !Kubernetes X KC CC BC}.
Context `{!StartupLib Crt V, !azure.AzureJson, !AzureSDK X SSHKey, !Connector X}.
Context (sp : ResourceInterface S Crt Key) (ClusterAPIComponents customTemplate : string) (R : relation S).
Context `{!PreOrder R} `{!StoreRespects R sp}.
Notation env := (env (S := S) (Crt := Crt) (Key := Key) (SSHKey := SSHKey) (X := X) (KC := KC)).
Notation on_e := (on_e (Crt := Crt) (Key := Key) (SSHKey := SSHKey) (X := X) (KC := KC) R).

#[local] Instance azure_store_moves : Moves on_e.
Proof. split; [split; [exact _|intros; apply on_cloud_frame; exact _]|intros; apply set_Cluster_frame; exact _]. Qed.

Hint Resolve azure_store_moves store_frame store_rand_frame set_AdminClient_frame NewRestConfig_frame connect_frame
  draw_env_frame UpdateStatus_frame GetAdminConfig_frame azure_the_azure_moves azure_the_config_moves azure_in_group_moves azure_PrepareCloud_moves
  azure_createVirtualMachine_moves : pres.

Lemma azure_GetCredential_frame : pres on_e (GetCredential sp : GoM env _).
Proof. unfold GetCredential. pres_tac. Qed.
Lemma azure_must_frame {A} (m : GoM env A) : pres on_e m → pres on_e (must m).
Proof. intros Hm. unfold must. pres_tac. Qed.
Hint Resolve azure_GetCredential_frame azure_must_frame : pres.

Lemma azure_script_frame m t : pres on_e (RenderStartupScript (V := V) (azure_hooks (KC := KC) sp customTemplate) m t : GoM env _).
Proof.
  apply render_frame; cbn [azure_hooks hook_NewNodeTemplateData hook_NewMasterTemplateData]; [exact _| |pres_tac].
  intros. unfold set_kubelet_arg. repeat (apply azure_must_frame || pres_step).
Qed.
Hint Resolve azure_script_frame : pres.
Lemma azure_make_master_frame n m : pres on_e (make_master (V := V) sp customTemplate n m : GoM env _).
Proof. unfold make_master. pres_tac. Qed.
Hint Resolve azure_make_master_frame : pres.

Lemma azure_respects : ProviderRespects R (ClusterManager (SSHKey := SSHKey) (X := X) (KC := KC) (CC := CC) (BC := BC) (V := V)
                                           sp ClusterAPIComponents customTemplate).
Proof.
  split; intros; cbn [ClusterManager cm_SetDefaultCluster cm_GetDefaultMachineProviderSpec cm_SetCloudConnector
    cm_PrepareCloud cm_EnsureMaster cm_ApplyScale cm_ApplyDelete cm_GetAdminClient cm_CreateCredentials
    cm_GetClusterAPIComponents];
    unfold SetDefaultCluster, SetClusterProviderConfig, GetDefaultMachineProviderSpec, GetAdminClient, NewAdminClient,
    CreateCredentials, EnsureMaster, getNetworkInterface, getVirtualMachine, GetCaCertPair, GenStorageAccountName, newconnector,
    ApplyDelete, deleteResourceGroup, set_Phase, set_conn, nil_panic; repeat first [ solve [auto 2 with pres] | provider_step ].
Qed.
End frame.

Import Azure.

(** A resource: its kind, its group and its name *)
Definition resource : Type := string * string * string.

Section laws.
Context {X SSHKey : Type} `{!AzureSDK X SSHKey}.
Context (res : X → gset resource) (pending : X → string → option resource).

Definition grows (k : resource) (x x' : X) : Prop := res x ⊆ res x' ∧ res x' ⊆ {[ k ]} ∪ res x.

(** A lookup changes nothing, and finds what is there. *)
Definition asks {A} (k : resource) (m : GoM X A) : Prop := ∀ x, (m x).2 = x ∧ (is_ok (m x).1 = true → k ∈ res x).
Definition answers {A} (k : resource) (m : GoM X A) : Prop := ∀ x, k ∈ res x → is_ok (m x).1 = true.

(** A creation may make the resource, and its future is of that. *)
Definition starts (k : resource) (m : GoM X string) : Prop :=
  ∀ x, grows k x (m x).2 ∧ ∀ f, (m x).1 = Ok f → pending (m x).2 f = Some k.

Definition group_key (g : string) : resource := ("group", g, g).
Definition vnet_key (g n : string) : resource := ("vnet", g, n).
Definition nsg_key (g n : string) : resource := ("nsg", g, n).
Definition table_key (g n : string) : resource := ("routetable", g, n).
Definition subnet_key (g v n : string) : resource := ("subnet", g, v +:+ "/" +:+ n).
Definition lb_key (g n : string) : resource := ("lb", g, n).
Definition pip_key (g n : string) : resource := ("pip", g, n).
Definition nic_key (g n : string) : resource := ("nic", g, n).

Class AzureLaws := {
  al_wait t f k x : pending x f = Some k →
    grows k x (WaitForCompletion t f x).2 ∧
    (is_ok (WaitForCompletion t f x).1 = true → k ∈ res (WaitForCompletion t f x).2);
  al_group_get t g : asks (group_key g) (Groups_Get t g);
  al_group_put t g a x : grows (group_key g) x (Groups_CreateOrUpdate t g a x).2 ∧
    (is_ok (Groups_CreateOrUpdate t g a x).1 = true → group_key g ∈ res (Groups_CreateOrUpdate t g a x).2);
  al_vnet_get t g n : asks (vnet_key g n) (VirtualNetworks_Get t g n);
  al_vnet_put t g n a : starts (vnet_key g n) (VirtualNetworks_CreateOrUpdate t g n a);
  al_vnet_result t f x : (VirtualNetworks_Result t f x).2 = x;
  al_nsg_get t g n : asks (nsg_key g n) (SecurityGroups_Get t g n);
  al_nsg_put t g n a : starts (nsg_key g n) (SecurityGroups_CreateOrUpdate t g n a);
  al_nsg_result t f x : (SecurityGroups_Result t f x).2 = x;
  al_table_get t g n : asks (table_key g n) (RouteTables_Get t g n);
  al_table_put t g n a : starts (table_key g n) (RouteTables_CreateOrUpdate t g n a);
  al_table_result t f x : (RouteTables_Result t f x).2 = x;
  al_subnet_get t g v n : asks (subnet_key g v n) (Subnets_Get t g v n);
  al_subnet_put t g v n a : starts (subnet_key g v n) (Subnets_CreateOrUpdate t g v n a);
  al_subnet_result t f x : (Subnets_Result t f x).2 = x;
  al_lb_get t g n : asks (lb_key g n) (LoadBalancers_Get t g n);
  al_lb_put t g n a : starts (lb_key g n) (LoadBalancers_CreateOrUpdate t g n a);
  al_lb_result t f x : (LoadBalancers_Result t f x).2 = x;
  al_pip_get t g n : asks (pip_key g n) (PublicIPs_Get t g n);
  al_pip_put t g n a : starts (pip_key g n) (PublicIPs_CreateOrUpdate t g n a);
  al_pip_result t f x : (PublicIPs_Result t f x).2 = x;
  al_nic_get t g n : asks (nic_key g n) (Interfaces_Get t g n);
  al_nic_put t g n a : starts (nic_key g n) (Interfaces_CreateOrUpdate t g n a);
  al_nic_result t f x : (Interfaces_Result t f x).2 = x
}.

(** The cloud answers every lookup of what is there: no request is lost. *)
Record AzureAnswers : Prop := {
  aa_group t g : answers (group_key g) (Groups_Get t g);
  aa_vnet t g n : answers (vnet_key g n) (VirtualNetworks_Get t g n);
  aa_nsg t g n : answers (nsg_key g n) (SecurityGroups_Get t g n);
  aa_table t g n : answers (table_key g n) (RouteTables_Get t g n);
  aa_subnet t g v n : answers (subnet_key g v n) (Subnets_Get t g v n);
  aa_lb t g n : answers (lb_key g n) (LoadBalancers_Get t g n);
  aa_pip t g n : answers (pip_key g n) (PublicIPs_Get t g n);
  aa_nic t g n : answers (nic_key g n) (Interfaces_Get t g n)
}.
End laws.

(** The resources of a cluster of the name, of a subscription *)
Definition resources_of (n subscription : string) : gset resource :=
  let vnet := n +:+ "-vnet" in
  list_to_set
    [group_key n; vnet_key n vnet; nsg_key n (n +:+ "-controlplane-nsg"); nsg_key n (n +:+ "-node-nsg");
     table_key n (n +:+ "-node-routetable"); subnet_key n vnet (n +:+ "-controlplane-subnet");
     subnet_key n vnet (n +:+ "-node-subnet"); lb_key n (n +:+ "-internal-lb");
     pip_key n (n +:+ "-" +:+ hex32 (fnv32a (subscription +:+ "/" +:+ n +:+ "/" +:+ n)));
     lb_key n (n +:+ "-public-lb"); nic_key n (n +:+ "-master-0-nic")].

Section prepare.
Context {S Crt Key SSHKey X KC : Type} `{!azure.AzureJson, !AzureSDK X SSHKey, !Connector X}.
Context (res : X → gset resource) (pending : X → string → option resource) `{!AzureLaws res pending}.
Context (n : string) (spec : AzureSpec) (conf : azure.AzureClusterProviderSpec) (Hgroup : azure.ac_ResourceGroup conf = n).
Notation env := (env (S := S) (Crt := Crt) (Key := Key) (SSHKey := SSHKey) (X := X) (KC := KC)).
Implicit Types (e : env) (k : resource) (l : gset resource).

(** What the cluster in memory stays *)
Definition its_cluster (c : Cluster) : Prop :=
  cluster_Name c = n ∧ spec_Azure (Cloud (Config (Spec c))) = Some spec ∧
  azure.ClusterConfigFromProviderSpec (ClusterProviderSpec (capi_Spec (ClusterAPI (Spec c)))) = Ok conf.
Definition ready e : Prop := ∃ c, sc_Cluster (e_scope e) = Some c ∧ its_cluster c.
Notation there e := (res (e_cloud e)).

(** A part makes these, or some of them when it fails; it changes nothing when they are
    there and found. *)
Definition makes {A} l (m : GoM env A) : Prop := ∀ e, ready e →
  let e' := (m e).2 in
  ready e' ∧ there e ⊆ there e' ∧ there e' ⊆ l ∪ there e ∧ (is_ok (m e).1 = true → l ⊆ there e') ∧
  (AzureAnswers res → conn_token (e_cloud e) ≠ None → l ⊆ there e → e_cloud e' = e_cloud e).

Definition looks {A} k (m : GoM env A) : Prop := ∀ e, ready e →
  cloud_moves e (m e).2 ∧ e_cloud (m e).2 = e_cloud e ∧ (is_ok (m e).1 = true → k ∈ there e) ∧
  (AzureAnswers res → conn_token (e_cloud e) ≠ None → k ∈ there e → is_ok (m e).1 = true).

Definition creates {A} k (m : GoM env A) : Prop := ∀ e, ready e →
  let e' := (m e).2 in ready e' ∧ grows res k (e_cloud e) (e_cloud e') ∧ (is_ok (m e).1 = true → k ∈ there e').

Definition knows {A} (φ : A → Prop) (m : GoM env A) : Prop := ∀ e, ready e → ∃ a, φ a ∧ m e = (Ok a, e).

(** ** Composition *)
Lemma ready_scope e e' : e_scope e' = e_scope e → ready e → ready e'.
Proof. unfold ready. by intros ->. Qed.

Lemma holds_knows {A B} (Q : env → outcome B * env → Prop) (φ : A → Prop) (m : GoM env A) (f : A → GoM env B) :
  knows φ m → (∀ a, φ a → ∀ e, ready e → Q e (f a e)) → ∀ e, ready e → Q e ((m ≫= f) e).
Proof. intros Hm Hf e He. destruct (Hm e He) as (a & Ha & E). rewrite (bind_ok _ _ _ _ _ E). by apply Hf. Qed.

Lemma knows_cluster : knows its_cluster (the_cluster : GoM env Cluster).
Proof. intros e (c & Hc & Hi). exists c. split; [done|]. by apply the_cluster_at. Qed.
Lemma knows_azure : knows (eq spec) (the_azure : GoM env AzureSpec).
Proof.
  intros e (c & Hc & _ & Ha & _). exists spec. split; [done|]. unfold the_azure.
  rewrite (bind_ok _ _ _ _ _ (the_cluster_at e c Hc)). by rewrite Ha.
Qed.
Lemma knows_config : knows (eq conf) (the_config : GoM env _).
Proof.
  intros e (c & Hc & _ & _ & Hf). exists conf. split; [done|]. unfold the_config.
  rewrite (bind_ok _ _ _ _ _ (the_cluster_at e c Hc)). by rewrite Hf.
Qed.

Lemma makes_eq {A} l l' (m : GoM env A) : l = l' → makes l m → makes l' m.
Proof. by intros ->. Qed.

Lemma makes_bind {A B} l1 l2 (m : GoM env A) (f : A → GoM env B) :
  makes l1 m → (∀ a, makes l2 (f a)) → makes (l1 ∪ l2) (m ≫= f).
Proof.
  intros Hm Hf e He. destruct (Hm e He) as (Hr & Hsub & Hsup & Hok & Hsame). unfold mbind, gom_bind.
  assert (l1 ∪ l2 ⊆ there e → l1 ⊆ there e ∧ l2 ⊆ there e) as Hl by (intros Hl; split; clear -Hl; set_solver).
  destruct (m e) as [[a|err|w] e1]; cbn in Hr, Hsub, Hsup, Hok, Hsame |- *.
  2-3: split_and!; [done|done|clear -Hsup; set_solver|done|by intros ?? [? _]%Hl; apply Hsame].
  destruct (Hf a e1 Hr) as (Hr2 & Hsub2 & Hsup2 & Hok2 & Hsame2). destruct (f a e1) as [r e2].
  cbn in Hr2, Hsub2, Hsup2, Hok2, Hsame2 |- *. specialize (Hok eq_refl).
  split_and!; [done|by etrans|clear -Hsup Hsup2; set_solver| |].
  - intros Hr'%Hok2. clear -Hok Hr' Hsub2. set_solver.
  - intros Ha Ht [Hl1 Hl2]%Hl. assert (e_cloud e1 = e_cloud e) as E1 by by apply Hsame.
    rewrite Hsame2, E1; [done|done|by rewrite E1|by rewrite E1].
Qed.

Lemma makes_nothing {A} (m : GoM env A) : (∀ e, ready e → ready (m e).2 ∧ e_cloud (m e).2 = e_cloud e) → makes ∅ m.
Proof. intros Hm e He. destruct (Hm e He) as [Hr Hx]. cbn. rewrite Hx. split_and!; [done|done|clear; set_solver|clear; set_solver|done]. Qed.
Lemma makes_ret {A} (a : A) : makes ∅ (mret a : GoM env A).
Proof. by apply makes_nothing. Qed.
Lemma makes_throw {A} err : makes ∅ (throw err : GoM env A).
Proof. by apply makes_nothing. Qed.
Lemma makes_lift {A} (r : outcome A) : makes ∅ (lift r : GoM env A).
Proof. by apply makes_nothing. Qed.
Lemma makes_set_Cluster c : its_cluster c → makes ∅ (set_Cluster c : GoM env ()).
Proof. intros Hc. apply makes_nothing. intros e _. split; [by exists c|done]. Qed.

Lemma makes_on_err {A} l w (m : GoM env A) : makes l m → makes l (on_err w m).
Proof. intros Hm e He. specialize (Hm e He). unfold on_err. by destruct (m e) as [[a|err|w'] e']. Qed.
Lemma makes_lift_bind {A B} l (r : outcome A) (f : A → GoM env B) :
  (∀ a, r = Ok a → makes l (f a)) → makes l (lift r ≫= f).
Proof.
  intros Hf e He. unfold lift, mbind, gom_bind. destruct r as [a|err|w]; [by apply Hf|split_and!; cbn; [done|done|clear; set_solver|done|done]..].
Qed.

(** ** Lookups and creations *)
Lemma call_cases {A} (f : string → GoM X A) e :
  cloud_moves e (call f e).2 ∧
  ((∃ t, conn_token (e_cloud e) = Some t ∧ (call f e).1 = (f t (e_cloud e)).1 ∧ e_cloud (call f e).2 = (f t (e_cloud e)).2) ∨
   conn_token (e_cloud e) = None ∧ (∃ w, (call f e).1 = Panic w) ∧ e_cloud (call f e).2 = e_cloud e).
Proof.
  destruct (conn_token (e_cloud e)) as [t|] eqn:Ht.
  - rewrite (call_at f e t Ht). split; [done|]. left. by exists t.
  - unfold call, mbind, gom_bind, gets. rewrite Ht. split; [done|]. right. split_and!; [done|by eexists|done].
Qed.

Lemma looks_call {A} k (f : string → GoM X A) :
  (∀ t, asks res k (f t)) → (AzureAnswers res → ∀ t, answers res k (f t)) → looks k (call f).
Proof.
  intros Hf Ha e _. destruct (call_cases f e) as [Hm [(t & Ht & E1 & E2)|(Ht & [w E1] & E2)]]; rewrite E1, E2.
  - destruct (Hf t (e_cloud e)) as [Hx Hok]. split_and!; [done|done|done|]. intros Ha' _. by apply Ha.
  - split_and!; [done..|by rewrite Ht].
Qed.

Lemma ready_moves e e' : cloud_moves e e' → ready e → ready e'.
Proof. intros (_ & _ & Hs). by apply ready_scope. Qed.

Lemma grows_refl k x : grows res k x x.
Proof. split; [done|]. clear. set_solver. Qed.
Lemma grows_trans k x y z : grows res k x y → grows res k y z → grows res k x z.
Proof. intros [H1 H2] [H3 H4]. split; [by etrans|]. clear -H2 H4. set_solver. Qed.

Lemma creates_call {A} k (f : string → GoM X A) :
  (∀ t x, grows res k x (f t x).2 ∧ (is_ok (f t x).1 = true → k ∈ res (f t x).2)) → creates k (call f).
Proof.
  intros Hf e He. destruct (call_cases f e) as [Hm [(t & Ht & E1 & E2)|(Ht & [w E1] & E2)]]; cbn; rewrite E1, E2.
  - destruct (Hf t (e_cloud e)) as [Hg Hok]. by split; [eapply ready_moves|].
  - split_and!; [by eapply ready_moves|apply grows_refl|done].
Qed.

Lemma creates_on_err {A} k w (m : GoM env A) : creates k m → creates k (on_err w m).
Proof. intros Hm e He. specialize (Hm e He). unfold on_err. by destruct (m e) as [[a|err|w'] e']. Qed.

Lemma creates_then {A B} k (m : GoM env A) (f : A → GoM env B) :
  creates k m → (∀ a e, ready e → ready (f a e).2 ∧ e_cloud (f a e).2 = e_cloud e) → creates k (m ≫= f).
Proof.
  intros Hm Hf e He. specialize (Hm e He). unfold mbind, gom_bind. destruct (m e) as [[a|err|w] e1]; [|done..].
  destruct Hm as (Hr & Hg & Hok). cbn in Hr, Hg, Hok |- *. destruct (Hf a e1 Hr) as [Hr2 ->]. by specialize (Hok eq_refl).
Qed.

Lemma creates_lift_bind {A B} k (r : outcome A) (f : A → GoM env B) : (∀ a, creates k (f a)) → creates k (lift r ≫= f).
Proof.
  intros Hf e He. unfold lift, mbind, gom_bind. destruct r as [a|err|w]; [by apply Hf|split_and!; cbn; [done|apply grows_refl|done]..].
Qed.

Lemma creates_created {A} k w1 w2 w3 (put : string → GoM X string) (result : string → string → GoM X A) :
  (∀ t, starts res pending k (put t)) → (∀ t f x, (result t f x).2 = x) → creates k (created w1 w2 w3 (call put) result : GoM env A).
Proof.
  intros Hput Hres e He. unfold created, mbind, gom_bind, on_err.
  destruct (call_cases put e) as [Hm1 Hc1]. destruct (call put e) as [r1 e1]. cbn in Hm1, Hc1.
  assert (grows res k (e_cloud e) (e_cloud e1) ∧ ∀ f, r1 = Ok f → pending (e_cloud e1) f = Some k) as [Hg1 Hf].
  { destruct Hc1 as [(t & _ & -> & ->)|(_ & [w ->] & ->)]; [apply Hput|split; [apply grows_refl|done]]. }
  pose proof (ready_moves _ _ Hm1 He) as He1.
  destruct r1 as [f|err|w]; [|by split_and!..]. specialize (Hf f eq_refl).
  destruct (call_cases (λ t, WaitForCompletion t f) e1) as [Hm2 Hc2]. destruct (call _ e1) as [r2 e2]. cbn in Hm2, Hc2.
  assert (grows res k (e_cloud e1) (e_cloud e2) ∧ (is_ok r2 = true → k ∈ there e2)) as [Hg2 Hk].
  { destruct Hc2 as [(t & _ & -> & ->)|(_ & [w ->] & ->)]; [by apply (al_wait res pending)|split; [apply grows_refl|done]]. }
  pose proof (ready_moves _ _ Hm2 He1) as He2. pose proof (grows_trans _ _ _ _ Hg1 Hg2) as Hg.
  destruct r2 as [[]|err|w]; [|by split_and!..]. specialize (Hk eq_refl).
  destruct (call_cases (λ t, result t f) e2) as [Hm3 Hc3]. destruct (call _ e2) as [r3 e3]. cbn in Hm3, Hc3.
  assert (e_cloud e3 = e_cloud e2) as E3 by (destruct Hc3 as [(t & _ & _ & ->)|(_ & _ & ->)]; [apply Hres|done]).
  pose proof (ready_moves _ _ Hm3 He2) as He3. rewrite <- E3 in Hg, Hk. by destruct r3.
Qed.

Lemma makes_found {A} k (get make : GoM env A) : looks k get → creates k make → makes {[ k ]} (found_or get make).
Proof.
  intros Hget Hmake e He. destruct (Hget e He) as (Hm & Hx & Hok & Hsame). pose proof (ready_moves _ _ Hm He) as He1.
  unfold found_or, attempt, mbind, gom_bind. destruct (get e) as [[a|err|w] e1]; cbn in Hm, Hx, Hok, Hsame, He1 |- *; rewrite ?Hx.
  - specialize (Hok eq_refl). split_and!; [done|done|clear; set_solver|intros _; clear -Hok; set_solver|done].
  - specialize (Hmake e1 He1). destruct (make e1) as [r e2]. destruct Hmake as (Hr & [Hg1 Hg2] & Hok2). rewrite Hx in Hg1, Hg2.
    split_and!; [done|done|done|intros Hr'%Hok2; clear -Hr'; set_solver|].
    intros Ha Ht Hk. assert (k ∈ there e) as Hk' by (clear -Hk; set_solver). discriminate (Hsame Ha Ht Hk').
  - split_and!; [done|done|clear; set_solver|done|done].
Qed.

Lemma makes_knows {A B} φ l (m : GoM env A) (f : A → GoM env B) : knows φ m → (∀ a, φ a → makes l (f a)) → makes l (m ≫= f).
Proof.
  intros Hm Hf. exact (holds_knows (λ e x, ready x.2 ∧ there e ⊆ there x.2 ∧ there x.2 ⊆ l ∪ there e ∧ (is_ok x.1 = true → l ⊆ there x.2) ∧
    (AzureAnswers res → conn_token (e_cloud e) ≠ None → l ⊆ there e → e_cloud x.2 = e_cloud e)) φ m f Hm Hf).
Qed.
Lemma looks_knows {A B} φ k (m : GoM env A) (f : A → GoM env B) : knows φ m → (∀ a, φ a → looks k (f a)) → looks k (m ≫= f).
Proof.
  intros Hm Hf. exact (holds_knows (λ e x, cloud_moves e x.2 ∧ e_cloud x.2 = e_cloud e ∧ (is_ok x.1 = true → k ∈ there e) ∧
    (AzureAnswers res → conn_token (e_cloud e) ≠ None → k ∈ there e → is_ok x.1 = true)) φ m f Hm Hf).
Qed.
Lemma creates_knows {A B} φ k (m : GoM env A) (f : A → GoM env B) :
  knows φ m → (∀ a, φ a → creates k (f a)) → creates k (m ≫= f).
Proof.
  intros Hm Hf. exact (holds_knows (λ e x, ready x.2 ∧ grows res k (e_cloud e) (e_cloud x.2) ∧ (is_ok x.1 = true → k ∈ there x.2)) φ m f Hm Hf).
Qed.

(** ** The parts of PrepareCloud *)
Create HintDb made.
Hint Resolve knows_cluster knows_azure knows_config makes_ret makes_throw : made.

(** Past the reads of what the cluster stays *)
Ltac know := repeat
  lazymatch goal with
  | |- makes _ (_ ≫= _) => eapply makes_knows; [solve [auto with made]|]
  | |- looks _ (_ ≫= _) => eapply looks_knows; [solve [auto with made]|]
  | |- creates _ (_ ≫= _) => eapply creates_knows; [solve [auto with made]|]
  | |- ∀ c, its_cluster c → _ => intros ? [?Hn _]
  | |- ∀ c, eq _ c → _ => intros ? <-
  end.
Ltac names := unfold in_group, GenerateVnetName, VirtualNetworkName, GenerateControlPlaneSecurityGroupName,
  GenerateNodeSecurityGroupName, GenerateNodeRouteTableName, GenerateControlPlaneSubnetName, GenerateNodeSubnetName,
  GenerateInternalLBName, GeneratePublicLBName, ResourceGroupName in *; know; rewrite ?Hgroup;
  repeat match goal with E : cluster_Name _ = n |- _ => rewrite E end.
Ltac lookup get ans := names; apply looks_call; [intros; apply get|intros Haa ?; apply ans; exact Haa].
Ltac creation put result := names; apply creates_created; [intros; apply put|intros; by rewrite result].

Lemma makes_group : makes {[ group_key n ]} (apply_ensureResourceGroup : GoM env ()).
Proof.
  apply makes_found; unfold getResourceGroup, ensureResourceGroup.
  - lookup (al_group_get res pending) (aa_group res).
  - names. apply creates_call. intros. apply (al_group_put res pending).
Qed.
Lemma makes_network : makes {[ vnet_key n (n +:+ "-vnet") ]} (apply_ensureVirtualNetwork : GoM env ()).
Proof.
  apply makes_found; unfold getVirtualNetwork, ensureVirtualNetwork.
  - lookup (al_vnet_get res pending) (aa_vnet res).
  - creation (al_vnet_put res pending) (al_vnet_result res pending).
Qed.

Lemma makes_security_groups :
  makes ({[ nsg_key n (n +:+ "-controlplane-nsg") ]} ∪ {[ nsg_key n (n +:+ "-node-nsg") ]}) (ensureSecurityGroup : GoM env _).
Proof.
  unfold ensureSecurityGroup. names. apply makes_bind.
  - apply makes_found; unfold getNetworkSecurityGroup, createNetworkSecurityGroup.
    + lookup (al_nsg_get res pending) (aa_nsg res).
    + creation (al_nsg_put res pending) (al_nsg_result res pending).
  - intros sg. eapply makes_eq; [apply (right_id_L ∅ (∪))|]. apply makes_bind; [|intros; apply makes_ret].
    apply makes_found; unfold getNetworkSecurityGroup, createNetworkSecurityGroup.
    + lookup (al_nsg_get res pending) (aa_nsg res).
    + creation (al_nsg_put res pending) (al_nsg_result res pending).
Qed.

Lemma makes_route_table : makes {[ table_key n (n +:+ "-node-routetable") ]} (ensureRouteTable : GoM env _).
Proof.
  apply makes_found; unfold getRouteTable, createRouteTable.
  - lookup (al_table_get res pending) (aa_table res).
  - creation (al_table_put res pending) (al_table_result res pending).
Qed.

Lemma makes_subnet name sg rt :
  makes {[ subnet_key n (n +:+ "-vnet") name ]} (found_or (getSubnetID name) (createSubnetID name sg rt) : GoM env _).
Proof.
  apply makes_found; unfold getSubnetID, createSubnetID.
  - lookup (al_subnet_get res pending) (aa_subnet res).
  - creation (al_subnet_put res pending) (al_subnet_result res pending).
Qed.

Lemma makes_subnets sg1 sg2 rt :
  makes ({[ subnet_key n (n +:+ "-vnet") (n +:+ "-controlplane-subnet") ]} ∪
         {[ subnet_key n (n +:+ "-vnet") (n +:+ "-node-subnet") ]}) (ensureSubnet sg1 sg2 rt : GoM env _).
Proof.
  unfold ensureSubnet. names. apply makes_bind; [apply makes_subnet|]. intros sn.
  eapply makes_eq; [apply (right_id_L ∅ (∪))|]. apply makes_bind; [apply makes_subnet|intros; apply makes_ret].
Qed.

Lemma makes_internal_balancer name sn :
  makes {[ lb_key n name ]} (found_or (findLoadBalancer name) (createInternalLoadBalancer name sn) : GoM env _).
Proof.
  apply makes_found; unfold findLoadBalancer, createInternalLoadBalancer.
  - lookup (al_lb_get res pending) (aa_lb res).
  - creation (al_lb_put res pending) (al_lb_result res pending).
Qed.

Lemma makes_public_balancer pip :
  makes {[ lb_key n (n +:+ "-public-lb") ]} (found_or (findLoadBalancer (n +:+ "-public-lb")) (createPublicLoadBalancer pip) : GoM env _).
Proof.
  apply makes_found; unfold findLoadBalancer, createPublicLoadBalancer.
  - lookup (al_lb_get res pending) (aa_lb res).
  - creation (al_lb_put res pending) (al_lb_result res pending).
Qed.

Lemma makes_public_ip name : makes {[ pip_key n name ]} (ensurePublicIP name : GoM env _).
Proof.
  apply makes_found; unfold getPublicIP, createPublicIP.
  - lookup (al_pip_get res pending) (aa_pip res).
  - assert (creates (pip_key n name) (createPublicIP name : GoM env _)) as Hc.
    { unfold createPublicIP. names. apply creates_then; [creation (al_pip_put res pending) (al_pip_result res pending)|].
      intros pip e He. by destruct (pip_Name pip). }
    intros e He. specialize (Hc e He). fold (createPublicIP (S := S) (Crt := Crt) (Key := Key) (KC := KC) (X := X) name).
    unfold attempt, mbind, gom_bind. destruct (createPublicIP name e) as [[pip|err|w] e1]; [done| |done].
    destruct Hc as ((c & Hc & Hi) & Hg & _). cbn in Hc, Hg. unfold the_cluster. cbn. rewrite Hc. cbn.
    split_and!; [|exact Hg|done]. by exists (with_failure c err).
Qed.

Lemma makes_balancers sn :
  makes ({[ lb_key n (n +:+ "-internal-lb") ]} ∪
         ({[ pip_key n (n +:+ "-" +:+ hex32 (fnv32a (Api.SubscriptionID spec +:+ "/" +:+ n +:+ "/" +:+ n))) ]} ∪
          {[ lb_key n (n +:+ "-public-lb") ]})) (ensureLoadBalancer sn : GoM env _).
Proof.
  unfold ensureLoadBalancer. names. apply makes_bind; [apply makes_internal_balancer|]. intros ilb.
  eapply makes_knows; [apply knows_azure|]. intros ? <-. apply makes_bind.
  { unfold GeneratePublicIPName, ResourceGroupName. rewrite Hn. apply makes_public_ip. }
  intros pip. eapply makes_eq; [apply (right_id_L ∅ (∪))|]. apply makes_bind; [apply makes_public_balancer|].
  intros plb. do 2 (apply makes_lift_bind; intros ? _). eapply makes_knows; [apply knows_cluster|]. intros c Hc.
  eapply makes_eq; [apply (right_id_L ∅ (∪))|]. apply makes_bind; [by apply makes_set_Cluster|]. intros _.
  apply makes_lift_bind. intros c' Hc'.
  eapply makes_eq; [apply (right_id_L ∅ (∪))|]. apply makes_bind; [|intros; apply makes_ret].
  apply makes_set_Cluster. unfold SetClusterAPIEndpoints in Hc'.
  repeat (case_match; try discriminate Hc'); injection Hc' as <-; exact Hc.
Qed.

Lemma makes_nic m sn plb ilb : makes {[ nic_key n (m +:+ "-nic") ]} (ensureMasterNIC m sn plb ilb : GoM env ()).
Proof.
  unfold ensureMasterNIC. eapply makes_eq; [apply (right_id_L ∅ (∪))|]. apply makes_bind; [|intros; apply makes_ret].
  apply makes_found; unfold getNetworkInterface, createNetworkInterface.
  - lookup (al_nic_get res pending) (aa_nic res).
  - names. do 2 (apply creates_lift_bind; intros). creation (al_nic_put res pending) (al_nic_result res pending).
Qed.

Lemma makes_all : makes (resources_of n (Api.SubscriptionID spec)) (PrepareCloud : GoM env ()).
Proof.
  eapply makes_eq; [|unfold PrepareCloud; apply makes_bind; [apply makes_on_err, makes_group|intros _]].
  2: apply makes_bind; [apply makes_on_err, makes_network|intros _].
  2: apply makes_bind; [apply makes_on_err, makes_security_groups|intros sgs].
  2: apply makes_bind; [apply makes_on_err, makes_route_table|intros rt].
  2: apply makes_bind; [apply makes_on_err, makes_subnets|intros sn].
  2: apply makes_bind; [apply makes_on_err, makes_balancers|intros lbs].
  2: { eapply makes_knows; [apply knows_cluster|]. intros c [Hn _]. unfold MasterMachineName. rewrite Hn. apply makes_nic. }
  unfold resources_of. cbn [list_to_set]. change (pretty 0%Z) with "0".
  assert ((n +:+ "-master-" +:+ "0") +:+ "-nic" = n +:+ "-master-0-nic") as -> by (by rewrite !append_assoc).
  rewrite !(assoc_L (∪)), (right_id_L ∅ (∪)). reflexivity.
Qed.

(** What only the cloud and the scope move with *)
Definition kept_store e e' : Prop := e_store e' = e_store e.
#[local] Instance kept_store_moves : Moves kept_store.
Proof.
  split; [split; [split; [by intros e|intros a b d; unfold kept_store; congruence]|]|done].
  intros A f e. unfold kept_store, on_cloud, zoom. by destruct (f _).
Qed.

(** [C37] With a provider configuration of the group of the cluster, as SetDefaultCluster
    writes it, preparing the cloud of a cluster of Azure writes nothing to the store and
    only adds resources, none but the eleven of the cluster, however it ends; when it
    succeeds all eleven are there; and where they are there already and the lookups are
    answered, the cloud is left as it is. *)
Theorem azure_prepare e c :
  sc_Cluster (e_scope e) = Some c → its_cluster c →
  let e' := (PrepareCloud e).2 in
  let wanted := resources_of n (Api.SubscriptionID spec) in
  e_store e' = e_store e ∧ there e ⊆ there e' ∧ there e' ⊆ wanted ∪ there e ∧
  (is_ok (PrepareCloud e).1 = true → wanted ⊆ there e') ∧
  (AzureAnswers res → conn_token (e_cloud e) ≠ None → wanted ⊆ there e → e_cloud e' = e_cloud e).
Proof.
  intros Hc Hi. split; [exact (azure_PrepareCloud_moves kept_store e)|].
  exact (proj2 (makes_all e (ex_intro _ c (conj Hc Hi)))).
Qed.
End prepare.

(** ** The name of the public address *)
Definition unhex_digit (c : ascii) : Z := let n := Z.of_nat (nat_of_ascii c) in if decide (n < 58)%Z then n - 48 else n - 87.
Fixpoint unhex (acc : Z) (s : string) : Z :=
  match s with "" => acc | String c s => unhex (acc * 16 + unhex_digit c) s end.

Lemma fnv32a_from_range s h : (0 ≤ h < 2 ^ 32)%Z → (0 ≤ fnv32a_from h s < 2 ^ 32)%Z.
Proof.
  revert h. induction s as [|c s IH]; intros h Hh; [done|]. cbn [fnv32a_from]. apply IH. unfold uint32.
  apply Z.mod_pos_bound. lia.
Qed.

Lemma unhex_digit_of d : (0 ≤ d < 16)%Z → unhex_digit (hex_digit d) = d.
Proof.
  intros Hd. assert (Forall (λ d, unhex_digit (hex_digit d) = d) (seqZ 0 16)) as Hall by (cbn; repeat constructor).
  apply (proj1 (Forall_forall _ _) Hall). apply elem_of_seqZ. lia.
Qed.

Lemma unhex_acc s a b : unhex (a + b) s = (a * 16 ^ Z.of_nat (String.length s) + unhex b s)%Z.
Proof.
  revert a b. induction s as [|c s IH]; intros a b; [cbn; lia|]. cbn [unhex String.length].
  replace ((a + b) * 16 + unhex_digit c)%Z with (a * 16 + (b * 16 + unhex_digit c))%Z by ring.
  rewrite IH. rewrite Nat2Z.inj_succ, Z.pow_succ_r by lia. ring.
Qed.

Lemma unhex_from a s : unhex a s = (a * 16 ^ Z.of_nat (String.length s) + unhex 0 s)%Z.
Proof. rewrite <- (Z.add_0_r a) at 1. apply unhex_acc. Qed.

Lemma hex_digits_spec fuel m s :
  (0 ≤ m < 16 ^ Z.of_nat fuel)%Z →
  unhex 0 (hex_digits fuel m s) = (m * 16 ^ Z.of_nat (String.length s) + unhex 0 s)%Z ∧
  String.length (hex_digits fuel m s) ≤ fuel + String.length s.
Proof.
  revert m s. induction fuel as [|fuel IH]; intros m s Hm.
  { assert (m = 0)%Z as -> by (cbn in Hm; lia). cbn. split; [lia|done]. }
  cbn [hex_digits]. case_decide as H0; [subst m; split; [lia|lia]|].
  rewrite Nat2Z.inj_succ, Z.pow_succ_r in Hm by lia.
  destruct (IH (m / 16)%Z (String (hex_digit (m `mod` 16)) s)) as [E L].
  { split; [apply Z.div_pos; lia|apply Z.div_lt_upper_bound; lia]. }
  split; [|cbn [String.length] in L; lia]. rewrite E. cbn [unhex String.length].
  rewrite unhex_digit_of by (apply Z.mod_pos_bound; lia). rewrite Nat2Z.inj_succ, Z.pow_succ_r by lia.
  rewrite (unhex_from (0 * 16 + _) s). pose proof (Z.div_mod m 16 ltac:(lia)) as Hdm. rewrite Hdm at 3. ring.
Qed.

Lemma hex32_spec m : (0 ≤ m < 2 ^ 32)%Z → unhex 0 (hex32 m) = m ∧ String.length (hex32 m) ≤ 8.
Proof.
  intros Hm. unfold hex32. case_decide as H0; [subst m; split; [done|cbn; lia]|].
  destruct (hex_digits_spec 8 m "" Hm) as [-> L]. split; [cbn; lia|cbn in L |- *; lia].
Qed.

(** [C38] The name of the public address of a cluster is that of the cluster, a dash and the
    hexadecimal digits of a 32-bit hash, at most eight, so that it is at most nine bytes
    longer than the cluster's; the digits read back as the hash, so that clusters of one
    name have one address name exactly when their hashes are equal. *)
Theorem public_ip_name c a :
  let hash a := fnv32a (Api.SubscriptionID a +:+ "/" +:+ ResourceGroupName c +:+ "/" +:+ cluster_Name c) in
  (∃ digits, GeneratePublicIPName c a = cluster_Name c +:+ "-" +:+ digits ∧
     (0 ≤ hash a < 2 ^ 32)%Z ∧ unhex 0 digits = hash a ∧ String.length digits ≤ 8) ∧
  String.length (GeneratePublicIPName c a) ≤ String.length (cluster_Name c) + 9 ∧
  ∀ b, GeneratePublicIPName c a = GeneratePublicIPName c b ↔ hash a = hash b.
Proof.
  intros hash. assert (∀ b, (0 ≤ hash b < 2 ^ 32)%Z) as Hr by (intros b; apply fnv32a_from_range; done).
  assert (∀ b, GeneratePublicIPName c b = cluster_Name c +:+ "-" +:+ hex32 (hash b)) as E by done.
  split; [|split].
  - exists (hex32 (hash a)). destruct (hex32_spec (hash a) (Hr a)). split_and!; auto; apply Hr.
  - rewrite E, !append_length. destruct (hex32_spec (hash a) (Hr a)). cbn [String.length]. lia.
  - intros b. rewrite !E. split; [|by intros ->]. intros Heq%(inj (String.app (cluster_Name c))). injection Heq as Heq. change (hex32 (hash a) = hex32 (hash b)) in Heq.
    rewrite <- (proj1 (hex32_spec (hash a) (Hr a))), <- (proj1 (hex32_spec (hash b) (Hr b))). by rewrite Heq.
Qed.
