(* ===== verification/ManagedFrame.v ===== *)
(** * What the providers of managed clusters keep to

    They are providers as StoreFrame.v wants them ([ProviderRespects]): whatever the
    operations of a store keep to, the managers of Dokube, GKE, AKS and EKS do; those of
    Dokube and GKE delete certificates besides.  GceProofs.v, AwsFrame.v and AzureProofs.v
    have the same of the other managers. *)
From stdpp Require Import base list gmap strings pretty fin_maps.
From S2P Require Import Prelude GoStrings Api StoreSpec Provider Certs Kube Cloud CloudProofs Apply.
From S2P Require Import StoreFrame Startup ProviderParts ProviderFrame Managed Edit.
From S2P Require Import CloudApi AwsApi Gce GceProofs AwsCloud Aws AwsFrame Dokube Gke Aks Eks Azure AzureProofs.

(** ** The store *)
Section frame.
Context {S Crt Key SSHKey X KC CC BC V : Type}.
Context `{!Crypto Crt Key SSHKey, !CertText Crt Key, !Clock, !Polling, !Kubernetes X KC CC BC}.
Context `{!PemText Crt Key, !CertDelete S, !StartupLib Crt V, !Eks.VersionEqual V, !Connector X}.
Context `{!Dokube.DokubeText, !Dokube.DokubeAPI X, !gce.GceJson, !Gke.GkeAPI X}.
Context `{!azure.AzureJson, !Aks.AksAPI X SSHKey, !aws.AwsJson, !Eks.EksAPI X KC SSHKey}.
Context (sp : ResourceInterface S Crt Key) (R : relation S) `{!PreOrder R} `{!StoreRespects R sp}.
Notation env := (env (S := S) (Crt := Crt) (Key := Key) (SSHKey := SSHKey) (X := X) (KC := KC)).
Notation on_e := (on_e (Crt := Crt) (Key := Key) (SSHKey := SSHKey) (X := X) (KC := KC) R).

Hint Resolve store_frame store_rand_frame on_store_frame on_cloud_frame draw_env_frame Now_frame set_Cluster_frame
  set_Certs_frame set_AdminClient_frame the_cluster_frame call_frame conn_SSHKey_frame ignore_err_frame
  connect_frame UpdateStatus_frame GetPharmerCerts_frame : pres.

Lemma GetCaCertPair_frame : pres on_e (GetCaCertPair : GoM env _).
Proof. unfold GetCaCertPair, nil_panic. provider_tac. Qed.
Lemma GetAdminCertificate_frame cl : pres (on_s R) (GetAdminCertificate sp cl).
Proof. unfold GetAdminCertificate. pres_tac. Qed.
Lemma record_replicas_frame ng : pres on_e (record_replicas sp ng : GoM env ()).
Proof.
  unfold record_replicas, nil_panic. provider_step; [pres_tac|intros n]. provider_step; [pres_tac|intros c].
  destruct (op_UpdateStatus _) eqn:E; provider_tac. by eapply respects_UpdateStatus.
Qed.
Lemma delete_machineset_frame ng : pres on_e (delete_machineset sp ng : GoM env ()).
Proof. unfold delete_machineset. provider_tac. Qed.
Lemma scale_all_frame (apply : MachineSet → GoM env ()) :
  (∀ ng, pres on_e (apply ng)) → pres on_e (scale_all sp apply).
Proof. intros Ha. unfold scale_all. provider_tac. Qed.
Lemma create_admin_frame crt key : pres on_e (create_admin sp crt key : GoM env ()).
Proof. unfold create_admin. provider_tac. Qed.
Hint Resolve GetCaCertPair_frame GetAdminCertificate_frame record_replicas_frame delete_machineset_frame
  scale_all_frame create_admin_frame : pres.
Lemma store_admin_frame crts key : pres on_e (store_admin sp crts key : GoM env ()).
Proof. unfold store_admin. provider_tac. Qed.
Lemma set_scope_ca_frame crt : pres on_e (set_scope_ca (Key := Key) crt : GoM env ()).
Proof. unfold set_scope_ca, nil_panic. provider_tac. Qed.
Lemma replace_ca_frame (crts : GoM env (list Crt)) :
  (∀ cl n, pres R (ri_cert_Delete cl n)) → pres on_e crts → pres on_e (replace_ca sp crts).
Proof. intros Hd Hc. unfold replace_ca. provider_tac. Qed.
Hint Resolve store_admin_frame set_scope_ca_frame : pres.

Ltac manager_tac := split; cbn [Dokube.ClusterManager Gke.ClusterManager Aks.ClusterManager Eks.ClusterManager
  cm_SetDefaultCluster cm_GetDefaultMachineProviderSpec cm_SetCloudConnector cm_PrepareCloud cm_EnsureMaster
  cm_ApplyScale cm_ApplyDelete cm_GetAdminClient cm_CreateCredentials cm_GetClusterAPIComponents].

(** *** Dokube *)
Section dokube.
Import Dokube.
Context (Hdelete : ∀ cl n, pres R (ri_cert_Delete cl n)).

Lemma dk_cluster_id_frame : pres on_e (cluster_id : GoM env _).
Proof. unfold cluster_id, nil_panic. provider_tac. Qed.
Hint Resolve dk_cluster_id_frame : pres.
Lemma dk_pool_id_frame n : pres on_e (getNodePoolIDFromName n : GoM env _).
Proof. unfold getNodePoolIDFromName. provider_tac. Qed.
Hint Resolve dk_pool_id_frame : pres.
Lemma dk_ng_Apply_frame ng : pres on_e (ng_Apply sp ng : GoM env ()).
Proof. unfold ng_Apply, getNodePool, addNodePool, deleteNodePool, adjustNodePool. provider_tac. Qed.
Lemma dk_createCluster_frame c : pres on_e (createCluster sp c : GoM env _).
Proof. unfold createCluster, waitForClusterCreation, getCluster, nil_panic. provider_tac. Qed.
Lemma dk_StoreCertificate_frame : pres on_e (StoreCertificate sp : GoM env ()).
Proof. unfold StoreCertificate. repeat first [apply replace_ca_frame; [exact Hdelete|] | provider_step]. Qed.
Hint Resolve dk_ng_Apply_frame dk_createCluster_frame dk_StoreCertificate_frame : pres.

Lemma dokube_respects : ProviderRespects (SSHKey := SSHKey) (X := X) (KC := KC) R (ClusterManager (CC := CC) (BC := BC) sp).
Proof.
  manager_tac; intros; unfold SetDefaultCluster, GetDefaultMachineProviderSpec, newconnector, IsUnauthorized, PrepareCloud,
    set_cluster_id, retrieveClusterStatus, ApplyScale, ApplyDelete, set_Phase, NewDokubeAdminClient, nil_panic; provider_tac.
Qed.
End dokube.

(** *** GKE *)
Section gke.
Import Gke.
Context (Hdelete : ∀ cl n, pres R (ri_cert_Delete cl n)).

Lemma gk_in_zone_frame {A} (f : string → string → string → GoM X A) : pres on_e (in_zone f : GoM env A).
Proof. unfold in_zone. provider_tac. Qed.
Hint Resolve gk_in_zone_frame : pres.
Lemma gk_wait_frame op : pres on_e (waitForZoneOperation op : GoM env ()).
Proof. unfold waitForZoneOperation. provider_tac. Qed.
Hint Resolve gk_wait_frame : pres.
Lemma gk_ng_Apply_frame ng : pres on_e (ng_Apply sp ng : GoM env ()).
Proof. unfold ng_Apply, addNodePool, deleteNoodPool, adjustNodePool. provider_tac. Qed.
Lemma gk_encodeCluster_frame c : pres on_e (encodeCluster sp c : GoM env _).
Proof. unfold encodeCluster. provider_tac. Qed.
Lemma gk_StoreCertificate_frame k : pres on_e (StoreCertificate sp k : GoM env ()).
Proof. unfold StoreCertificate. repeat first [apply replace_ca_frame; [exact Hdelete|] | provider_step]. Qed.
Lemma gk_SetCloudConnector_frame : pres on_e (SetCloudConnector sp : GoM env ()).
Proof. unfold SetCloudConnector, newconnector, IsUnauthorized. provider_tac. Qed.
Hint Resolve gk_ng_Apply_frame gk_encodeCluster_frame gk_StoreCertificate_frame gk_SetCloudConnector_frame : pres.

Lemma gke_respects : ProviderRespects (SSHKey := SSHKey) (X := X) (KC := KC) R (ClusterManager (CC := CC) (BC := BC) sp).
Proof.
  manager_tac; intros; unfold SetDefaultCluster, GetDefaultMachineProviderSpec, PrepareCloud, getNetworks, ensureNetworks,
    createCluster, Clusters_Get_named, retrieveClusterStatus, ApplyScale, ApplyDelete, deleteCluster, NewGKEAdminClient;
    provider_tac.
Qed.
End gke.

(** *** AKS *)
Section aks.
Import Aks.

Lemma ak_the_credential_frame : pres on_e (the_credential sp : GoM env _).
Proof. unfold the_credential. provider_tac. Qed.
Hint Resolve ak_the_credential_frame : pres.
Lemma ak_upsertAKS_frame l : pres on_e (upsertAKS sp l : GoM env ()).
Proof. unfold upsertAKS, WaitForClusterOperation. provider_tac. Qed.
Hint Resolve ak_upsertAKS_frame : pres.

Lemma aks_respects : ProviderRespects (SSHKey := SSHKey) (X := X) (KC := KC) R (ClusterManager (CC := CC) (BC := BC) sp).
Proof.
  manager_tac; intros; unfold SetDefaultCluster, GenStorageAccountName, GetDefaultMachineProviderSpec, newconnector,
    PrepareCloud, getResourceGroup, ensureResourceGroup, deleteResourceGroup, deleteAKS, ApplyScale, ApplyDelete,
    GetAdminClient, GetAKSAdminClient, access_profile; provider_tac.
Qed.
End aks.

(** *** EKS *)
Section eks.
Import Eks.

Lemma ek_the_eks_frame : pres on_e (the_eks : GoM env _).
Proof. unfold the_eks. provider_tac. Qed.
Hint Resolve ek_the_eks_frame : pres.
Lemma ek_wait_frame n st : pres on_e (WaitForStackOperation n st : GoM env ()).
Proof. unfold WaitForStackOperation. provider_tac. Qed.
Lemma ek_isStackExists_frame n : pres on_e (isStackExists n : GoM env _).
Proof. unfold isStackExists. provider_tac. Qed.
Lemma ek_getStack_frame n : pres on_e (getStack n : GoM env _).
Proof. unfold getStack. provider_tac. Qed.
Lemma ek_isControlPlaneExists_frame n : pres on_e (isControlPlaneExists n : GoM env _).
Proof. unfold isControlPlaneExists. provider_tac. Qed.
Hint Resolve ek_wait_frame ek_isStackExists_frame ek_getStack_frame ek_isControlPlaneExists_frame : pres.
Lemma ek_createStack_frame n u ps i : pres on_e (createStack n u ps i : GoM env ()).
Proof. unfold createStack. provider_tac. Qed.
Lemma ek_output_of_frame st k missing : pres on_e (output_of st k missing : GoM env _).
Proof. unfold output_of. provider_tac. Qed.
Lemma ek_update_eks_frame f : pres on_e (update_eks f : GoM env ()).
Proof. unfold update_eks. provider_tac. Qed.
Lemma ek_getPublicKey_frame : pres on_e (getPublicKey : GoM env _).
Proof. unfold getPublicKey. provider_tac. Qed.
Hint Resolve ek_createStack_frame ek_output_of_frame ek_update_eks_frame ek_getPublicKey_frame : pres.
Lemma ek_ng_Apply_frame kc ng : pres on_e (ng_Apply sp kc ng : GoM env ()).
Proof. unfold ng_Apply, buildstackParams, newNodeAuthConfigMap, deleteStack, updateStack. provider_tac. Qed.
Lemma ek_assign_frame {A} (f : GoM env A) zero write : pres on_e f → pres on_e (assign f zero write).
Proof. intros Hf. unfold assign. provider_tac. Qed.
Lemma ek_admin_frame : pres on_e (GetEKSAdminClient : GoM env KC).
Proof. unfold GetEKSAdminClient, getAuthenticationToken. provider_tac. Qed.
Hint Resolve ek_ng_Apply_frame ek_admin_frame : pres.
Lemma ek_ApplyScale_frame : pres on_e (ApplyScale sp : GoM env ()).
Proof. unfold ApplyScale. provider_tac. Qed.
Hint Resolve ek_ApplyScale_frame : pres.

Lemma eks_respects : ProviderRespects (SSHKey := SSHKey) (X := X) (KC := KC) R (ClusterManager (V := V) (CC := CC) (BC := BC) sp).
Proof.
  manager_tac; intros; unfold SetDefaultCluster, GetDefaultMachineProviderSpec, newconnector, PrepareCloud,
    ensureStackServiceRole, ensureClusterVPC, createControlPlane, WaitForControlPlaneOperation, importPublicKey,
    ApplyDelete, delete_found, deleteStack, deleteControlPlane, deleteSSHKey, set_Phase;
    repeat first [apply ek_assign_frame; unfold GetDefaultMachineProviderSpec, DetectInstanceImage | provider_step].
Qed.
End eks.
End frame.
