(* ===== verification/ManagedProofs.v ===== *)
(** * Node groups and certificates of managed clusters

    A node group of GKE ends as it was asked for, its pool before its machine set
    ([gke_node_group]), one of Dokube can never be added ([dokube_node_groups]), one of
    EKS is forgotten with its stack still there ([eks_stack_left]), one of AKS is never
    taken away ([aks_scale_keeps_pools]); a certificate authority is replaced or lost
    ([ca_replaced_or_lost]). *)
From stdpp Require Import base list gmap strings pretty fin_maps.
From S2P Require Import Prelude GoStrings Api StoreSpec Provider Certs Kube Cloud CloudProofs Apply.
From S2P Require Import StoreFrame Startup ProviderParts ProviderFrame Managed Edit.
From S2P Require Import CloudApi AwsApi Dokube Gke Aks Eks.

(** ** What only calls the cloud *)
Section cloud_only.
Context {S Crt Key SSHKey X KC : Type} `{!Polling, !Connector X}.
Notation env := (env (S := S) (Crt := Crt) (Key := Key) (SSHKey := SSHKey) (X := X) (KC := KC)).

Definition cloud_only (e e' : env) : Prop := e_store e' = e_store e ∧ e_scope e' = e_scope e.

#[export] Instance cloud_only_preorder : PreOrder cloud_only.
Proof. split; [by intros e|]. intros a b c [Ha Ha'] [Hb Hb']. split; congruence. Qed.

Lemma on_cloud_only {A} (f : GoM X A) : pres cloud_only (on_cloud f : GoM env A).
Proof. intros e. unfold on_cloud, zoom. by destruct (f _). Qed.
Lemma the_cluster_only : pres cloud_only (the_cluster : GoM env _).
Proof. intros e. unfold the_cluster. by destruct (sc_Cluster _). Qed.
Hint Resolve on_cloud_only the_cluster_only : pres.
Lemma call_only {A} (f : string → GoM X A) : pres cloud_only (call f : GoM env A).
Proof. unfold call, nil_panic. pres_tac. Qed.
Hint Resolve call_only pres_PollImmediate : pres.

Lemma gk_in_zone_only {A} (f : string → string → string → GoM X A) : pres cloud_only (Gke.in_zone f : GoM env A).
Proof. unfold Gke.in_zone. pres_tac. Qed.
Hint Resolve gk_in_zone_only : pres.
Lemma gk_wait_only `{!Gke.GkeAPI X} op : pres cloud_only (Gke.waitForZoneOperation op : GoM env ()).
Proof. unfold Gke.waitForZoneOperation. apply pres_PollImmediate; [exact _|]. pres_tac. Qed.

(** A step that only calls the cloud, and succeeds. *)
Lemma cloud_only_step {A B} (m : GoM env A) (k : A → GoM env B) e b e' :
  pres cloud_only m → (m ≫= k) e = (Ok b, e') →
  ∃ a e1, m e = (Ok a, e1) ∧ cloud_only e e1 ∧ k a e1 = (Ok b, e').
Proof.
  intros Hm E. apply bind_ok_inv in E as (a & e1 & E1 & E). exists a, e1. split_and!; [done| |done].
  pose proof (Hm e) as He. by rewrite E1 in He.
Qed.
End cloud_only.

#[export] Hint Resolve on_cloud_only the_cluster_only call_only gk_in_zone_only gk_wait_only : pres.

(** ** Node groups over the abstract store *)
Section node_groups.
Context {Crt Key SSHKey X KC : Type} `{!Polling, !Connector X}.
Context (pC : Cluster → outcome Cluster) (pCr : Credential → outcome Credential).
Context (pMS : MachineSet → outcome MachineSet) (pM : Machine → outcome Machine).
Notation sp := (spec_provider (Crt := Crt) (Key := Key) pC pCr pMS pM).
Notation env := (env (S := pharmer Crt Key) (Crt := Crt) (Key := Key) (SSHKey := SSHKey) (X := X) (KC := KC)).
Implicit Types (e : env) (ng : MachineSet).

(** The machine sets of a cluster, and the store with others in their place *)
Definition sets cl e : gmap string MachineSet := ob_machinesets (ph_objects (e_store e)) cl.
Definition with_sets cl (l : gmap string MachineSet) (s : pharmer Crt Key) : pharmer Crt Key :=
  set_objects (put_machinesets cl l (ph_objects s)) s.

(** A stored machine set with [n] machines in its status *)
Definition counted (old ng : MachineSet) (n : Z) : MachineSet := res_set_status old (with_StatusReplicas ng n).

Lemma record_replicas_ok e ng c e' :
  sc_Cluster (e_scope e) = Some c →
  record_replicas sp ng e = (Ok (), e') →
  ∃ n old stored, Replicas (machineset_Spec ng) = Some n ∧ sets (cluster_Name c) e !! machineset_Name ng = Some old ∧
    pMS (counted old ng n) = Ok stored ∧
    e' = Env (with_sets (cluster_Name c) (<[machineset_Name ng := stored]> (sets (cluster_Name c) e)) (e_store e))
             (e_tick e) (e_cloud e) (e_scope e).
Proof.
  intros Hc E. unfold record_replicas in E. apply bind_ok_inv in E as (n & e1 & E1 & E).
  unfold lift, the_replicas in E1. destruct (Replicas (machineset_Spec ng)) as [n'|] eqn:Hr; [|done].
  injection E1 as <- <-. rewrite (bind_ok _ _ _ _ _ (the_cluster_at e c Hc)) in E. cbn in E.
  apply bind_ok_inv in E as (o & e1 & E1 & E). injection E as <-.
  unfold store, zoom in E1. cbn in E1. unfold on_machinesets, zoom, spec_UpdateStatus in E1.
  change (res_name (with_StatusReplicas ng n')) with (machineset_Name ng) in E1.
  destruct (decide (machineset_Name ng = "")); [done|].
  change (ob_machinesets (ph_objects (e_store e)) (cluster_Name c)) with (sets (cluster_Name c) e) in E1.
  destruct (sets (cluster_Name c) e !! machineset_Name ng) as [old|] eqn:Ho; [|done].
  match type of E1 with context [pMS ?x] => change x with (counted old ng n') in E1 end.
  destruct (pMS (counted old ng n')) as [stored|?|?] eqn:Hp; [|done..].
  injection E1 as <- <-. by exists n', old, stored.
Qed.

Lemma delete_machineset_ok e ng c e' :
  sc_Cluster (e_scope e) = Some c →
  delete_machineset sp ng e = (Ok (), e') →
  is_Some (sets (cluster_Name c) e !! machineset_Name ng) ∧
  e' = Env (with_sets (cluster_Name c) (delete (machineset_Name ng) (sets (cluster_Name c) e)) (e_store e))
           (e_tick e) (e_cloud e) (e_scope e).
Proof.
  intros Hc E. unfold delete_machineset in E. rewrite (bind_ok _ _ _ _ _ (the_cluster_at e c Hc)) in E.
  unfold store, zoom in E. cbn in E. unfold on_machinesets, zoom, spec_Delete in E.
  destruct (decide (machineset_Name ng = "")); [done|].
  change (ob_machinesets (ph_objects (e_store e)) (cluster_Name c)) with (sets (cluster_Name c) e) in E.
  destruct (sets (cluster_Name c) e !! machineset_Name ng) as [old|] eqn:Ho; [|done].
  injection E as <-. by split; [eexists|].
Qed.

(** *** GKE *)
Section gke.
Context `{!gce.GceJson, !Gke.GkeAPI X}.

(** What only calls the cloud, and what it calls last *)
Definition moved e e' : Prop := e_store e' = e_store e ∧ e_tick e' = e_tick e ∧ e_scope e' = e_scope e.

Lemma moved_trans e1 e2 e3 : moved e1 e2 → moved e2 e3 → moved e1 e3.
Proof. intros (?&?&?) (?&?&?). split_and!; congruence. Qed.
Lemma moved_at e e' : moved e e' → e' = Env (e_store e) (e_tick e) (e_cloud e') (e_scope e).
Proof. destruct e, e'. by intros (?&?&?); simplify_eq/=. Qed.

Lemma gk_in_zone_run {A} (f : string → string → string → GoM X A) e c t :
  sc_Cluster (e_scope e) = Some c → conn_token (e_cloud e) = Some t →
  let cloud := Cloud (Config (Spec c)) in
  Gke.in_zone f e = (let '(r, x) := f t (Project cloud) (Zone cloud) (e_cloud e) in
                     (r, Env (e_store e) (e_tick e) x (e_scope e))).
Proof.
  intros Hc Ht. cbv zeta. unfold Gke.in_zone. rewrite (bind_ok _ _ _ _ _ (the_cluster_at e c Hc)). cbv zeta.
  rewrite (call_at _ e t Ht). by destruct (f t _ _ _).
Qed.

Lemma gk_in_zone_inv {A} (f : string → string → string → GoM X A) e c a e' :
  sc_Cluster (e_scope e) = Some c → Gke.in_zone f e = (Ok a, e') →
  moved e e' ∧ ∃ t, conn_token (e_cloud e) = Some t ∧
    f t (Project (Cloud (Config (Spec c)))) (Zone (Cloud (Config (Spec c)))) (e_cloud e) = (Ok a, e_cloud e').
Proof.
  intros Hc. unfold Gke.in_zone. rewrite (bind_ok _ _ _ _ _ (the_cluster_at e c Hc)). cbv zeta.
  intros (t & Ht & E & Hm)%call_ok_inv. split; [by rewrite Hm|by exists t].
Qed.

(** The wait ends with an answer that the operation is done. *)
Definition done_op (op : string) e e' : Prop :=
  moved e e' ∧ ∀ c, sc_Cluster (e_scope e) = Some c →
    ∃ t x, Gke.Operations_Get t (Project (Cloud (Config (Spec c)))) (Zone (Cloud (Config (Spec c)))) op x =
             (Ok "DONE", e_cloud e').

Lemma gk_wait_done op e e' : Gke.waitForZoneOperation op e = (Ok (), e') → done_op op e e'.
Proof.
  unfold Gke.waitForZoneOperation. apply (poll_inv moved (done_op op)); clear e e'.
  - intros e e' (r & e1 & E1 & E)%bind_ok_inv. injection E as _ <-. unfold attempt, Gke.in_zone, call, mbind, gom_bind, gets, the_cluster in E1.
    destruct (sc_Cluster (e_scope e)); [|by injection E1 as _ <-]. destruct (conn_token (e_cloud e)) as [t|]; [|discriminate E1].
    unfold on_cloud, zoom in E1. destruct (Gke.Operations_Get _ _ _ _ _) as [[?|?|?] x]; by simplify_eq/=.
  - intros e e' (r & e1 & E1 & E)%bind_ok_inv. injection E as E <-. unfold attempt in E1.
    destruct (Gke.in_zone _ e) as [[s|?|?] e2] eqn:Ez; [|by simplify_eq..]. injection E1 as <- <-.
    apply bool_decide_eq_true in E as ->. split.
    + destruct (sc_Cluster (e_scope e)) as [c|] eqn:Hc; [exact (proj1 (gk_in_zone_inv _ _ c _ _ Hc Ez))|].
      unfold Gke.in_zone, mbind, gom_bind, the_cluster in Ez. by rewrite Hc in Ez.
    + intros c Hc. destruct (gk_in_zone_inv _ _ c _ _ Hc Ez) as [_ (t & _ & Et)]. by exists t, (e_cloud e).
  - intros e1 e2 e3 Hm [Hm' Hc]. split; [by eapply moved_trans|]. intros c Hc1. apply Hc. destruct Hm as (_ & _ & Hs). by rewrite Hs.
Qed.

(** The call that brings the pool of a node group to what it asks for: a pool the cloud
    knows is deleted or set to its size, and one it does not know is created. *)
Definition pool_call t c ng (known : bool) (x : X) (op : string) (x' : X) : Prop :=
  let cloud := Cloud (Config (Spec c)) in let n := cluster_Name c in let name := machineset_Name ng in
  if known then
    if bool_decide (to_delete ng = Ok true)
    then Gke.NodePools_Delete t (Project cloud) (Zone cloud) n name x = (Ok op, x')
    else ∃ k, Replicas (machineset_Spec ng) = Some k ∧
           Gke.NodePools_SetSize t (Project cloud) (Zone cloud) n name k x = (Ok op, x')
  else ∃ np, Gke.node_pool ng = Ok np ∧ Gke.np_Name np = name ∧
         Replicas (machineset_Spec ng) = Some (Gke.InitialNodeCount np) ∧
         Gke.NodePools_Create t (Project cloud) (Zone cloud) n np x = (Ok op, x').

(** The three ways of ng_Apply, by what the cloud knows *)
Definition pool_step ng (known : bool) : GoM env string :=
  if known then if bool_decide (to_delete ng = Ok true) then Gke.deleteNoodPool ng else Gke.adjustNodePool ng
  else Gke.addNodePool ng.
Definition store_step ng (known : bool) : GoM env () :=
  if known && bool_decide (to_delete ng = Ok true) then delete_machineset sp ng else record_replicas sp ng.

Lemma node_pool_named ng np :
  Gke.node_pool ng = Ok np →
  Gke.np_Name np = machineset_Name ng ∧ Replicas (machineset_Spec ng) = Some (Gke.InitialNodeCount np).
Proof.
  unfold Gke.node_pool, the_replicas. destruct (gce.MachineConfigFromProviderSpec _) as [m|?|?]; [|done..]. cbn.
  destruct (gce.gm_Disks m); [done|]. destruct (Replicas _); [|done]. by intros [= <-].
Qed.

Lemma pool_step_inv e c ng known op e' :
  sc_Cluster (e_scope e) = Some c → pool_step ng known e = (Ok op, e') →
  moved e e' ∧ ∃ t, conn_token (e_cloud e) = Some t ∧ pool_call t c ng known (e_cloud e) op (e_cloud e').
Proof.
  intros Hc E. unfold pool_step, pool_call in *. destruct known; [destruct (bool_decide _)|].
  - unfold Gke.deleteNoodPool in E. rewrite (bind_ok _ _ _ _ _ (the_cluster_at e c Hc)) in E.
    exact (gk_in_zone_inv _ e c op e' Hc E).
  - unfold Gke.adjustNodePool in E. rewrite (bind_ok _ _ _ _ _ (the_cluster_at e c Hc)) in E.
    apply bind_ok_inv in E as (k & e1 & Ek & E). unfold lift, the_replicas in Ek.
    destruct (Replicas (machineset_Spec ng)) as [k'|]; [|done]. injection Ek as <- <-.
    destruct (gk_in_zone_inv _ e c op e' Hc E) as [Hm (t & Ht & Et)]. split; [done|]. exists t. by eauto.
  - unfold Gke.addNodePool in E. apply bind_ok_inv in E as (np & e1 & En & E). unfold lift in En. injection En as En <-.
    rewrite (bind_ok _ _ _ _ _ (the_cluster_at e c Hc)) in E.
    destruct (gk_in_zone_inv _ e c op e' Hc E) as [Hm (t & Ht & Et)], (node_pool_named ng np En).
    split; [done|]. exists t. split; [done|]. by exists np.
Qed.

Lemma pool_step_run e c t ng known op x' :
  sc_Cluster (e_scope e) = Some c → conn_token (e_cloud e) = Some t → pool_call t c ng known (e_cloud e) op x' →
  pool_step ng known e = (Ok op, Env (e_store e) (e_tick e) x' (e_scope e)).
Proof.
  intros Hc Ht. unfold pool_step, pool_call. destruct known; [destruct (bool_decide _)|].
  - intros E. unfold Gke.deleteNoodPool. rewrite (bind_ok _ _ _ _ _ (the_cluster_at e c Hc)).
    rewrite (gk_in_zone_run _ e c t Hc Ht). by rewrite E.
  - intros (k & Hk & E). unfold Gke.adjustNodePool. rewrite (bind_ok _ _ _ _ _ (the_cluster_at e c Hc)).
    unfold the_replicas. rewrite Hk. rewrite (bind_ok (lift (Ok k)) _ e e k eq_refl).
    rewrite (gk_in_zone_run _ e c t Hc Ht). by rewrite E.
  - intros (np & Hnp & _ & _ & E). unfold Gke.addNodePool. rewrite Hnp, (bind_ok (lift (Ok np)) _ e e np eq_refl).
    rewrite (bind_ok _ _ _ _ _ (the_cluster_at e c Hc)). rewrite (gk_in_zone_run _ e c t Hc Ht). by rewrite E.
Qed.

(** The cluster in memory and all that is stored are as before. *)
Definition as_stored e e' : Prop :=
  e_scope e' = e_scope e ∧
  let o := ph_objects (e_store e) in let o' := ph_objects (e_store e') in
  ob_clusters o' = ob_clusters o ∧ ob_credentials o' = ob_credentials o ∧
  (∀ cl, ob_machinesets o' cl = ob_machinesets o cl) ∧ (∀ cl, ob_machines o' cl = ob_machines o cl) ∧
  ph_certs (e_store e') = ph_certs (e_store e) ∧ ph_ssh (e_store e') = ph_ssh (e_store e).

#[export] Instance as_stored_preorder : PreOrder as_stored.
Proof.
  split; [by intros e|]. intros a b c (?&?&?&Hs&Hm&?&?) (?&?&?&Hs'&Hm'&?&?). unfold as_stored. cbv zeta.
  split_and!; congruence.
Qed.
Lemma moved_as_stored e e' : cloud_only e e' → as_stored e e'.
Proof. intros [Hs Hsc]. unfold as_stored. by rewrite Hs, Hsc. Qed.

(** What does not succeed stores nothing. *)
Definition tidy {A} (m : GoM env A) : Prop := ∀ e, is_ok (m e).1 = false → as_stored e (m e).2.

Lemma tidy_only {A} (m : GoM env A) : pres cloud_only m → tidy m.
Proof. intros Hm e _. apply moved_as_stored, Hm. Qed.
Lemma tidy_bind {A B} (m : GoM env A) (k : A → GoM env B) : pres cloud_only m → (∀ a, tidy (k a)) → tidy (m ≫= k).
Proof.
  intros Hm Hk e. unfold mbind, gom_bind. specialize (Hm e). destruct (m e) as [[a|?|?] e1]; cbn in *.
  - intros Hf. etrans; [by apply moved_as_stored|by apply Hk].
  - intros _. by apply moved_as_stored.
  - intros _. by apply moved_as_stored.
Qed.

(** A change of the machine sets that fails changes none of them. *)
Lemma tidy_sets {A} n (m : GoM (gmap string MachineSet) A) :
  (∀ l, is_ok (m l).1 = false → (m l).2 = l) → tidy (store (on_machinesets n m)).
Proof.
  intros Hm e. unfold store, on_machinesets, zoom. specialize (Hm (ob_machinesets (ph_objects (e_store e)) n)).
  destruct (m _) as [r l]. cbn in *. intros Hr. rewrite Hm by done. unfold as_stored. cbv zeta. split_and!; try done.
  intros cl. cbn [e_store ph_objects set_objects put_machinesets ob_machinesets]. case_decide; by subst.
Qed.

Lemma store_step_tidy ng known : tidy (store_step ng known).
Proof.
  unfold store_step, delete_machineset, record_replicas. destruct (_ && _).
  - apply tidy_bind; [apply the_cluster_only|intros c]. apply tidy_sets. intros l. cbn [spec_store op_Delete]. unfold spec_Delete. repeat case_match; cbn; done.
  - apply tidy_bind; [apply pres_lift; exact _|intros k]. apply tidy_bind; [apply the_cluster_only|intros c]. cbn.
    assert (tidy (store (on_machinesets (cluster_Name c)
      (spec_UpdateStatus pMS res_set_status (Some (with_StatusReplicas ng k)))))) as Ht.
    { apply tidy_sets. intros l. unfold spec_UpdateStatus. repeat case_match; cbn; done. }
    intros e. unfold mbind, gom_bind. specialize (Ht e). destruct (store _ e) as [[a|?|?] e1]; [done|exact Ht..].
Qed.

Lemma ng_Apply_run e ng c t r x1 :
  sc_Cluster (e_scope e) = Some c → conn_token (e_cloud e) = Some t →
  Gke.NodePools_Get t (Project (Cloud (Config (Spec c)))) (Zone (Cloud (Config (Spec c)))) (cluster_Name c)
    (machineset_Name ng) (e_cloud e) = (r, x1) →
  let e1 := Env (e_store e) (e_tick e) x1 (e_scope e) in let known := is_ok r in
  ((∀ w, r ≠ Panic w) → (known = true → is_ok (to_delete ng) = true) →
     Gke.ng_Apply sp ng e = (op ← pool_step ng known; _ ← Gke.waitForZoneOperation op; store_step ng known) e1) ∧
  ((∃ w, r = Panic w) ∨ known = true ∧ is_ok (to_delete ng) = false →
     ∃ w, Gke.ng_Apply sp ng e = (w, e1) ∧ w ≠ Ok ()).
Proof.
  intros Hc Ht Er. cbv zeta. unfold Gke.ng_Apply. rewrite (bind_ok _ _ _ _ _ (the_cluster_at e c Hc)).
  pose proof (gk_in_zone_run (λ t project zone, Gke.NodePools_Get t project zone (cluster_Name c) (machineset_Name ng)) e c t Hc Ht) as Eg.
  cbv beta zeta in Eg. rewrite Er in Eg. set (e1 := Env _ _ x1 _) in *. unfold pool_step, store_step.
  destruct r as [[]|err|w]; cbn [is_ok andb].
  - rewrite (bind_ok _ _ _ _ _ (attempt_ok _ _ _ _ Eg)). unfold to_delete, the_replicas.
    destruct (Replicas (machineset_Spec ng)) as [k|]; cbn [is_ok mbind outcome_bind].
    + split; [intros _ _|by intros [[w ?]|[_ ?]]]. match goal with |- context [Ok (?b || ?b')] => destruct (b || b') eqn:Hb end;
        (rewrite (bind_ok (lift (Ok _)) _ e1 e1 _ eq_refl)); cbv iota.
      * by rewrite bool_decide_eq_true_2.
      * by rewrite bool_decide_eq_false_2.
    + split; [intros _ Hf; by specialize (Hf eq_refl)|intros _]. by eexists.
  - rewrite (bind_ok _ _ _ _ _ (attempt_err _ _ _ _ Eg)). split; [done|by intros [[w ?]|[? _]]].
  - split; [intros Hw; by destruct (Hw w)|intros _]. exists (Panic w). split; [|done]. unfold mbind, gom_bind, attempt. by rewrite Eg.
Qed.

Lemma not_ok (r : outcome ()) : r ≠ Ok () → is_ok r = false.
Proof. by destruct r as [[]|?|?]. Qed.

(** What the store has once the pool is as it should be, and whether it can *)
Definition stored_sets c ng (known : bool) e (s' : pharmer Crt Key) : Prop :=
  let n := cluster_Name c in let name := machineset_Name ng in
  ∃ old, sets n e !! name = Some old ∧
    if known && bool_decide (to_delete ng = Ok true)
    then s' = with_sets n (delete name (sets n e)) (e_store e)
    else ∃ k stored, Replicas (machineset_Spec ng) = Some k ∧ pMS (counted old ng k) = Ok stored ∧
           s' = with_sets n (<[name := stored]> (sets n e)) (e_store e).

Lemma store_step_inv e c ng known e' :
  sc_Cluster (e_scope e) = Some c → store_step ng known e = (Ok (), e') →
  stored_sets c ng known e (e_store e') ∧ e' = Env (e_store e') (e_tick e) (e_cloud e) (e_scope e).
Proof.
  intros Hc. unfold store_step, stored_sets. destruct (known && _).
  - intros [[old Hold] ->]%(delete_machineset_ok _ _ c); [|done]. split; [by exists old|done].
  - intros (k & old & stored & Hk & Hold & Hp & ->)%(record_replicas_ok _ _ c); [|done]. split; [|done].
    exists old. split; [done|]. by exists k, stored.
Qed.

Lemma store_step_run e c ng known s' :
  sc_Cluster (e_scope e) = Some c → machineset_Name ng ≠ "" → stored_sets c ng known e s' →
  (store_step ng known e).1 = Ok ().
Proof.
  intros Hc Hn (old & Hold & Hs). unfold sets in Hold. unfold store_step. destruct (known && _).
  - unfold delete_machineset. rewrite (bind_ok _ _ _ _ _ (the_cluster_at e c Hc)). cbn. unfold store, zoom. cbn.
    unfold on_machinesets, zoom, spec_Delete. rewrite decide_False by done. by rewrite Hold.
  - destruct Hs as (k & stored & Hk & Hp & _). unfold record_replicas, the_replicas. rewrite Hk.
    rewrite (bind_ok (lift (Ok k)) _ e e k eq_refl), (bind_ok _ _ _ _ _ (the_cluster_at e c Hc)). cbn.
    unfold mbind, gom_bind, store, zoom. cbn. unfold on_machinesets, zoom, spec_UpdateStatus.
    change (res_name (with_StatusReplicas ng k)) with (machineset_Name ng). rewrite decide_False by done.
    rewrite Hold. match goal with |- context [pMS ?x] => change x with (counted old ng k) end. by rewrite Hp.
Qed.

(** [C28] A node group of GKE is applied in three steps, in this order: the call that brings
    its pool to what it asks for -- a pool the cloud does not know is created, with its
    name and number of machines, one it knows is deleted when the node group is to be
    deleted and set to its size otherwise --, the wait until the cloud answers that the
    operation is done, and the change of the store -- the machine set of a deleted pool
    is deleted, any other is recorded with the number of its machines.  When all three
    can be done it succeeds; and when it does not succeed, the pool call or the wait
    having failed, nothing is stored. *)
Theorem gke_node_group e ng c t r x1 :
  let cloud := Cloud (Config (Spec c)) in let known := is_ok r in
  let at_ x := Env (e_store e) (e_tick e) x (e_scope e) in
  sc_Cluster (e_scope e) = Some c → conn_token (e_cloud e) = Some t →
  Gke.NodePools_Get t (Project cloud) (Zone cloud) (cluster_Name c) (machineset_Name ng) (e_cloud e) = (r, x1) →
  (∀ e', Gke.ng_Apply sp ng e = (Ok (), e') →
     ∃ t1 op x2 x3, conn_token x1 = Some t1 ∧ pool_call t1 c ng known x1 op x2 ∧
       Gke.waitForZoneOperation op (at_ x2) = (Ok (), at_ x3) ∧
       (∃ t2 x, Gke.Operations_Get t2 (Project cloud) (Zone cloud) op x = (Ok "DONE", x3)) ∧
       stored_sets c ng known e (e_store e') ∧ e' = Env (e_store e') (e_tick e) x3 (e_scope e)) ∧
  (∀ t1 op x2 x3 s', conn_token x1 = Some t1 → (∀ w, r ≠ Panic w) → machineset_Name ng ≠ "" →
     is_Some (Replicas (machineset_Spec ng)) → pool_call t1 c ng known x1 op x2 →
     Gke.waitForZoneOperation op (at_ x2) = (Ok (), at_ x3) → stored_sets c ng known e s' →
     (Gke.ng_Apply sp ng e).1 = Ok ()) ∧
  ((Gke.ng_Apply sp ng e).1 ≠ Ok () → as_stored e (Gke.ng_Apply sp ng e).2).
Proof.
  intros cloud known at_ Hc Ht Er. destruct (ng_Apply_run e ng c t r x1 Hc Ht Er) as [Hrun Hbad].
  fold known (at_ x1) in Hrun, Hbad.
  assert (Gke.ng_Apply sp ng e =
            (op ← pool_step ng known; _ ← Gke.waitForZoneOperation op; store_step ng known) (at_ x1) ∨
          ∃ w, Gke.ng_Apply sp ng e = (w, at_ x1) ∧ w ≠ Ok ()) as Hcases.
  { destruct r as [[]|err|w].
    - destruct (is_ok (to_delete ng)) eqn:Hd; [left; by apply Hrun|right; apply Hbad; by right].
    - left. by apply Hrun.
    - right. apply Hbad. left. by exists w. }
  split_and!.
  - intros e' E. destruct Hcases as [Ea|(w & Ea & Hw)]; [|by rewrite Ea in E; simplify_eq]. rewrite Ea in E.
    apply bind_ok_inv in E as (op & e2 & E1 & E). apply bind_ok_inv in E as ([] & e3 & E2 & E).
    apply (pool_step_inv _ c) in E1 as [Hm1 (t1 & Ht1 & Hp)]; [|done]. apply moved_at in Hm1 as Hm1'.
    destruct (gk_wait_done _ _ _ E2) as [Hm2 Hdone]. pose proof (moved_at _ _ (moved_trans _ _ _ Hm1 Hm2)) as Hm.
    rewrite Hm1' in E2. change (Gke.waitForZoneOperation op (at_ (e_cloud e2)) = (Ok (), e3)) in E2.
    change (e3 = at_ (e_cloud e3)) in Hm. assert (sc_Cluster (e_scope e2) = Some c) as Hc2 by (by rewrite Hm1').
    rewrite Hm in E, E2. apply (store_step_inv _ c) in E as [Hst He']; [|done].
    exists t1, op, (e_cloud e2), (e_cloud e3). split_and!; [done..|by apply Hdone|exact Hst|exact He'].
  - intros t1 op x2 x3 s' Ht1 Hpanic Hn [k Hk] Hp Hw Hst.
    rewrite Hrun; [|done|intros _; unfold to_delete, the_replicas; by rewrite Hk].
    rewrite (bind_ok _ _ _ _ _ (pool_step_run (at_ x1) c t1 ng known op x2 Hc Ht1 Hp)).
    rewrite (bind_ok _ _ _ _ _ Hw). by apply (store_step_run _ c ng known s').
  - assert (as_stored e (at_ x1)) as H1' by (by apply moved_as_stored).
    destruct Hcases as [Ea|(w & Ea & Hw)]; rewrite Ea; [|done]. intros Hf. etrans; [exact H1'|].
    assert (tidy (op ← pool_step ng known; _ ← Gke.waitForZoneOperation op; store_step ng known)) as Htidy.
    { apply tidy_bind; [|intros op; apply tidy_bind; [apply gk_wait_only|intros _; apply store_step_tidy]].
      unfold pool_step, Gke.deleteNoodPool, Gke.adjustNodePool, Gke.addNodePool. pres_tac. }
    by apply Htidy, not_ok.
Qed.
End gke.

(** *** Dokube *)
Section dokube.
Context `{!Dokube.DokubeText, !Dokube.DokubeAPI X}.

Lemma dk_cluster_id_only : pres cloud_only (Dokube.cluster_id : GoM env _).
Proof. unfold Dokube.cluster_id, nil_panic. pres_tac. Qed.
Hint Resolve dk_cluster_id_only : pres.
Lemma dk_pool_id_only n : pres cloud_only (Dokube.getNodePoolIDFromName n : GoM env _).
Proof. unfold Dokube.getNodePoolIDFromName. pres_tac. Qed.
Hint Resolve dk_pool_id_only : pres.
Lemma dk_getNodePool_only ng : pres cloud_only (Dokube.getNodePool ng : GoM env _).
Proof. unfold Dokube.getNodePool. pres_tac. Qed.
Lemma dk_deleteNodePool_only ng : pres cloud_only (Dokube.deleteNodePool ng : GoM env _).
Proof. unfold Dokube.deleteNodePool. pres_tac. Qed.

(** A node group of Dokube whose pool the cloud does not list is never added: applying
    it fails after the listing, with no other call.  And one that is to be deleted
    is never applied without an error, even when its pool and its machine set have
    been deleted: the status of the machine set that is gone is updated next. *)
Theorem dokube_node_groups e ng c id t :
  sc_Cluster (e_scope e) = Some c → spec_Dokube (Cloud (Config (Spec c))) = Some {| ClusterID := id |} →
  conn_token (e_cloud e) = Some t →
  (∀ pools x1, Dokube.Kubernetes_ListNodePools t id (e_cloud e) = (Ok pools, x1) →
     machineset_Name ng ∉ (Dokube.np_Name <$> pools) →
     Dokube.ng_Apply sp ng e = (Err ("NodePool with name " +:+ machineset_Name ng +:+ " not found!"),
                                Env (e_store e) (e_tick e) x1 (e_scope e))) ∧
  ((∀ t' id' np x, (Dokube.Kubernetes_GetNodePool t' id' np x).1 ≠ Ok None) →
   to_delete ng = Ok true → ∀ e', Dokube.ng_Apply sp ng e ≠ (Ok (), e')).
Proof.
  intros Hc Hid Ht. split.
  - intros pools x1 Hl Hn. unfold Dokube.ng_Apply.
    enough (Dokube.getNodePoolIDFromName (machineset_Name ng) e =
      (Err ("NodePool with name " +:+ machineset_Name ng +:+ " not found!"), Env (e_store e) (e_tick e) x1 (e_scope e))) as E.
    { apply bind_err. unfold Dokube.getNodePool. by apply bind_err. }
    unfold Dokube.getNodePoolIDFromName.
    assert (Dokube.cluster_id e = (Ok id, e)) as Ei.
    { unfold Dokube.cluster_id. rewrite (bind_ok _ _ _ _ _ (the_cluster_at e c Hc)). by rewrite Hid. }
    rewrite (bind_ok _ _ _ _ _ Ei). unfold call, mbind, gom_bind, gets. rewrite Ht. unfold on_cloud, zoom. rewrite Hl.
    destruct (List.find _ pools) as [knp|] eqn:Ef; [|done]. apply List.find_some in Ef as [Hin Hname].
    exfalso. apply Hn. apply bool_decide_eq_true in Hname. apply list_elem_of_fmap. exists knp.
    split; [done|]. by apply list_elem_of_In.
  - intros Hget Hd e' E. unfold Dokube.ng_Apply in E.
    apply cloud_only_step in E as (np & e1 & E1 & [Hs1 Hsc1] & E); [|apply dk_getNodePool_only].
    assert (np ≠ None) as Hnp.
    { intros ->. unfold Dokube.getNodePool in E1. apply bind_ok_inv in E1 as (npid & e2 & _ & E1).
      apply bind_ok_inv in E1 as (cid & e3 & _ & E1). unfold call, mbind, gom_bind, gets in E1.
      destruct (conn_token (e_cloud e3)) as [t'|]; [|done]. unfold on_cloud, zoom in E1.
      pose proof (Hget t' cid npid (e_cloud e3)) as Hg.
      destruct (Dokube.Kubernetes_GetNodePool _ _ _ _) as [[?|?|?] ?]; cbn in *; simplify_eq. }
    destruct np as [np|]; [|done]. apply bind_ok_inv in E as ([] & e2 & E2 & E).
    rewrite Hd in E2. rewrite (bind_ok (lift (Ok true)) _ e1 e1 true eq_refl) in E2.
    apply cloud_only_step in E2 as (u & e3 & _ & [Hs3 Hsc3] & E2); [|apply dk_deleteNodePool_only].
    apply (delete_machineset_ok e3 ng c) in E2 as (_ & ->); [|by rewrite Hsc3, Hsc1].
    apply (record_replicas_ok _ ng c) in E as (n & old & stored & _ & Hold & _); [|cbn; by rewrite Hsc3, Hsc1].
    unfold sets at 1 in Hold. cbn in Hold. rewrite decide_True in Hold by done. by rewrite lookup_delete_eq in Hold.
Qed.
End dokube.

(** *** EKS *)
Section eks.
Context `{!Eks.EksAPI X KC SSHKey, !aws.AwsJson}.

(** Taking a node group of EKS away when the deletion of its stack fails: the machine
    set is deleted and the call succeeds, so that nothing keeps track of the stack. *)
Theorem eks_stack_left e ng c t kc s stacks x1 err x2 old :
  let n := cluster_Name c in let name := Eks.stack_name ng in
  sc_Cluster (e_scope e) = Some c → conn_token (e_cloud e) = Some t → conn_token x1 = Some t →
  Eks.DescribeStacks t name (e_cloud e) = (Ok (s :: stacks), x1) →
  Eks.DeleteStack t name x1 = (Err err, x2) →
  to_delete ng = Ok true → machineset_Name ng ≠ "" → sets n e !! machineset_Name ng = Some old →
  Eks.ng_Apply sp kc ng e =
    (Ok (), Env (with_sets n (delete (machineset_Name ng) (sets n e)) (e_store e)) (e_tick e) x2 (e_scope e)).
Proof.
  intros n name Hc Ht Ht1 Hs Hd Hdel Hname Hold. unfold Eks.ng_Apply. fold name.
  assert (Eks.isStackExists name e = (Ok true, Env (e_store e) (e_tick e) x1 (e_scope e))) as E1.
  { unfold Eks.isStackExists, call, attempt, mbind, gom_bind, gets. rewrite Ht. unfold on_cloud, zoom. by rewrite Hs. }
  rewrite (bind_ok _ _ _ _ _ E1). cbn [negb]. rewrite Hdel.
  set (e1 := Env (e_store e) (e_tick e) x1 (e_scope e)).
  rewrite (bind_ok (lift (Ok true)) _ e1 e1 true eq_refl). cbv iota.
  assert (Eks.deleteStack name e1 = (Ok (), Env (e_store e) (e_tick e) x2 (e_scope e))) as E2.
  { unfold Eks.deleteStack, ignore_err, call, attempt, mbind, gom_bind, gets. cbn. rewrite Ht1.
    unfold on_cloud, zoom. cbn. by rewrite Hd. }
  rewrite (bind_ok _ _ _ _ _ E2). unfold delete_machineset.
  rewrite (bind_ok _ _ _ _ _ (the_cluster_at (Env (e_store e) (e_tick e) x2 (e_scope e)) c Hc)).
  unfold store, zoom. cbn. unfold on_machinesets, zoom, spec_Delete. rewrite decide_False by done.
  change (ob_machinesets (ph_objects (e_store e)) (cluster_Name c)) with (sets n e). by rewrite Hold.
Qed.
End eks.

(** *** AKS *)
Section aks.
Context `{!azure.AzureJson, !Aks.AksAPI X SSHKey, !Clock}.

Definition complete (p : Aks.AgentPoolProfile) : Prop := is_Some (Aks.ap_Name p) ∧ is_Some (Aks.ap_Count p).

(** The node group has a pool of its size. *)
Definition sized (pools : list Aks.AgentPoolProfile) (ng : MachineSet) : Prop :=
  is_ok (azure.MachineSpecFromProviderSpec (node_spec ng)) = true ∧
  ∃ p n, p ∈ pools ∧ Aks.ap_Name p = Some (Aks.GetNodeGroupName (machineset_Name ng)) ∧
         Aks.ap_Count p = Some n ∧ Replicas (machineset_Spec ng) = Some n.

Lemma pool_found_sized pools name n :
  Forall complete pools → (∃ p, p ∈ pools ∧ Aks.ap_Name p = Some name ∧ Aks.ap_Count p = Some n) →
  Aks.pool_found pools name (Some n) = Ok true.
Proof.
  induction 1 as [|q pools [[m Hm] [k Hk]] Hq IH]; intros (p & Hp & Hn & Hc); [by apply not_elem_of_nil in Hp|].
  cbn [Aks.pool_found]. rewrite Hm. cbn. apply elem_of_cons in Hp. destruct (decide (m = name)) as [->|Hne].
  - rewrite Hk. cbn. case_decide as Hkn; [done|]. apply IH. destruct Hp as [->|Hp]; [congruence|by exists p].
  - apply IH. destruct Hp as [->|Hp]; [congruence|by exists p].
Qed.

Lemma nothing_to_change pools nodeGroups :
  Forall complete pools → Forall (sized pools) nodeGroups → Aks.pools_to_change (Some pools) nodeGroups = Ok [].
Proof.
  intros Hp. induction 1 as [|ng nodeGroups [Hs (p & n & Hin & Hname & Hcount & Hr)] _ IH]; [done|].
  cbn [Aks.pools_to_change]. destruct (azure.MachineSpecFromProviderSpec _) as [spec|?|?]; try done. cbn. rewrite Hr.
  rewrite pool_found_sized by (done || by exists p). cbn. by rewrite IH.
Qed.

(** Scaling a cluster of AKS whose node groups all have pools of their size lists them,
    asks the cloud for the pools and does nothing else: node groups that are to be
    deleted keep their pools and stay in the store. *)
Theorem aks_scale_keeps_pools {S} (sp : ResourceInterface S Crt Key)
    (e : Cloud.env (S := S) (Crt := Crt) (Key := Key) (SSHKey := SSHKey) (X := X) (KC := KC))
    c t nodeGroups s1 managed pools x1 :
  let n := cluster_Name c in
  sc_Cluster (e_scope e) = Some c → conn_token (e_cloud e) = Some t →
  op_List (st_MachineSets sp n) (e_store e) = (Ok nodeGroups, s1) →
  Aks.Managed_Get t n n (e_cloud e) = (Ok managed, x1) → Aks.mc_AgentPools managed = Some pools →
  Forall complete pools → Forall (sized pools) nodeGroups →
  Aks.ApplyScale sp e = (Ok (), Env s1 (e_tick e) x1 (e_scope e)).
Proof.
  intros n Hc Ht El Hg Hp Hcomplete Hsized. unfold Aks.ApplyScale.
  rewrite (bind_ok _ _ _ _ _ (the_cluster_at e c Hc)). fold n.
  assert (store (op_List (st_MachineSets sp n)) e = (Ok nodeGroups, Env s1 (e_tick e) (e_cloud e) (e_scope e))) as E1.
  { unfold store, zoom. by rewrite El. }
  rewrite (bind_ok _ _ _ _ _ E1).
  unfold call, mbind at 1, gom_bind at 1. unfold mbind at 1, gom_bind at 1, gets. cbn [e_cloud]. rewrite Ht.
  unfold on_cloud, zoom. change (Aks.ResourceGroupName c) with n. cbn [e_cloud]. rewrite Hg, Hp.
  by rewrite nothing_to_change.
Qed.
End aks.

(** ** The certificate authority *)
Section authority.
Context `{!PemText Crt Key}.

(** The certificate store's Delete on the abstract store *)
#[export] Instance spec_cert_Delete : CertDelete (pharmer Crt Key) := λ cl name s,
  if decide (cl = "") then (Err "missing cluster name", s)
  else match ph_certs s !! (cl, name) with
       | None => (Err "does not exist", s)
       | Some _ => (Ok (), Pharmer (ph_objects s) (delete (cl, name) (ph_certs s)) (ph_ssh s))
       end.

(** The environment without the authority of the cluster [n] *)
Definition without_ca n e : env :=
  Env (Pharmer (ph_objects (e_store e)) (delete (n, CACertName) (ph_certs (e_store e))) (ph_ssh (e_store e)))
      (e_tick e) (e_cloud e) (e_scope e).

Lemma replace_ca_step (crts : GoM env (list Crt)) e c ca :
  let n := cluster_Name c in
  sc_Cluster (e_scope e) = Some c → n ≠ "" → ph_certs (e_store e) !! (n, CACertName) = Some ca →
  replace_ca sp crts e =
    (crts ← crts;
     match crts with
     | [] => panic "index out of range [0] with length 0"
     | crt :: _ => _ ← store (spec_cert_Create n CACertName (Some crt) (Some ca.2)); mret crt
     end) (without_ca n e).
Proof.
  intros n Hc Hn Hca. unfold replace_ca. rewrite (bind_ok _ _ _ _ _ (the_cluster_at e c Hc)). fold n.
  assert (attempt (store (ri_cert_Get sp n CACertName)) e = (Ok (inl ca), e)) as E1.
  { unfold attempt, store, zoom. cbn. unfold spec_pair_Get. rewrite !decide_False by done. rewrite Hca. by destruct e. }
  rewrite (bind_ok _ _ _ _ _ E1).
  assert (store (ri_cert_Delete n CACertName) e = (Ok (), without_ca n e)) as E2.
  { unfold store, zoom, ri_cert_Delete, spec_cert_Delete. rewrite decide_False by done. by rewrite Hca. }
  rewrite (bind_ok _ _ _ _ _ E2). done.
Qed.

(** [C29] Replacing the certificate authority of a cluster by the one a cloud answers with:
    with an answer the new certificate is stored with the old key; when the answer
    cannot be read, the authority has been deleted; and without one stored, no attempt
    ever succeeds again. *)
Theorem ca_replaced_or_lost (crts : GoM env (list Crt)) e c :
  let n := cluster_Name c in let certs e := ph_certs (e_store e) in
  sc_Cluster (e_scope e) = Some c → n ≠ "" → pres cloud_only crts →
  (∀ ca crt l e', certs e !! (n, CACertName) = Some ca → crts (without_ca n e) = (Ok (crt :: l), e') →
     (replace_ca sp crts e).1 = Ok crt ∧ certs (replace_ca sp crts e).2 = <[(n, CACertName) := (crt, ca.2)]> (certs e)) ∧
  (∀ ca err e', certs e !! (n, CACertName) = Some ca → crts (without_ca n e) = (Err err, e') →
     replace_ca sp crts e = (Err err, e') ∧ certs e' = delete (n, CACertName) (certs e)) ∧
  (certs e !! (n, CACertName) = None → ∀ crt e', replace_ca sp crts e ≠ (Ok crt, e')).
Proof.
  intros n certs Hc Hn Hcrts. split_and!.
  - intros ca crt l e' Hca E. rewrite (replace_ca_step crts e c ca Hc Hn Hca). fold n.
    rewrite (bind_ok _ _ _ _ _ E). pose proof (Hcrts (without_ca n e)) as Ho. rewrite E in Ho. cbn in Ho. destruct Ho as [Hs Hsc].
    unfold store, zoom, mbind, gom_bind, spec_cert_Create. rewrite decide_False by done. unfold certs. rewrite Hs. cbn.
    rewrite lookup_delete_eq. split; [done|]. cbn. by rewrite insert_delete_eq.
  - intros ca err e' Hca E. rewrite (replace_ca_step crts e c ca Hc Hn Hca). fold n.
    split; [by apply bind_err|]. pose proof (Hcrts (without_ca n e)) as Ho. rewrite E in Ho. cbn in Ho. destruct Ho as [Hs Hsc].
    unfold certs. by rewrite Hs.
  - intros Hca crt e' E. unfold replace_ca in E. rewrite (bind_ok _ _ _ _ _ (the_cluster_at e c Hc)) in E. fold n in E.
    assert (attempt (store (ri_cert_Get sp n CACertName)) e = (Ok (inr "does not exist"), e)) as E1.
    { unfold attempt, store, zoom. cbn. unfold spec_pair_Get. rewrite !decide_False by done.
      unfold certs in Hca. rewrite Hca. by destruct e. }
    rewrite (bind_ok _ _ _ _ _ E1) in E.
    apply bind_ok_inv in E as (u0 & e2 & E2 & E). injection E2 as <- <-. apply bind_ok_inv in E as (l & e2 & E2 & E).
    pose proof (Hcrts e) as Ho. rewrite E2 in Ho. cbn in Ho. destruct Ho as [Hs Hsc]. clear E2.
    destruct l as [|crt' l]; [done|]. apply bind_ok_inv in E as (u & e3 & E3 & _).
    unfold store, zoom in E3. cbn in E3. unfold spec_cert_Create in E3. by rewrite decide_False in E3.
Qed.
End authority.
End node_groups.
