(* ===== verification/CloudSamples.v ===== *)
(** * Concrete instances for the cloud package

    The parameters of Certs.v, Kube.v, Cloud.v and Apply.v at concrete values: a
    clock that counts, certificates and keys that are numbers, an API server
    that is always ready, a provider that keeps to [ProviderLaws]; and the
    witnesses of the theorems about them. *)
From stdpp Require Import base list gmap strings pretty fin_maps.
From S2P Require Import Prelude GoStrings GoPath Stow Api StoreSpec VfsStore Samples Provider Certs.
From S2P Require Import Kube KubeProofs Cloud CloudProofs Apply ApplyProofs Use UseProofs Upgrade UpgradeProofs.

#[export] Instance sample_crypto : Crypto Z Z Z := {|
  NewPrivateKey n := Ok (Z.of_nat n);
  NewSelfSignedCACert cn k := Ok k;
  NewSignedCert cn groups k caCert caKey := Ok k;
  NewSSHKeyPair n := Ok ("pub", "priv");
  ParseSSHKeyPair pub priv := Ok 0%Z
|}.

#[export] Instance sample_crypto_laws : CryptoLaws Z Z Z.
Proof.
  split; [by eexists..|]. intros n. exists "pub", "priv". split_and!; try done. by eexists.
Qed.

#[export] Instance sample_cert_text : CertText Z Z := {|
  cert_text n := "crt " +:+ pretty n; key_text n := "key " +:+ pretty n |}.

#[export] Instance sample_clock : Clock := {|
  time_now n := Z.of_nat n; new_uuid n := Ok ("uuid-" +:+ pretty n) |}.

Lemma sample_uuid n : ∃ u, new_uuid n = Ok u.
Proof. by eexists. Qed.

#[export] Instance sample_time : TimeText := {| parse_time s := 0%Z; format_time t := pretty t |}.
#[export] Instance sample_rand : Rand := {| Intn t n := t `mod` n |}.
#[export] Instance sample_rand_laws : RandLaws.
Proof. split. intros t n Hn. by apply Nat.mod_upper_bound. Qed.
#[export] Instance sample_polling : Polling := {| retries := 180 |}.

#[export] Instance sample_json : JsonText := {|
  json_credential c := Ok (cred_Name c); json_cluster c := Ok (cluster_Name c);
  json_machine m := Ok (machine_Name m); json_machineset m := Ok (machineset_Name m)
|}.

#[export] Instance sample_environment : Environment := {|
  getenv _ := ""; pharmer_version := "v1"; render_template t a := Ok t |}.

Definition sample_secret : Secret := {| sec_Name := "s"; sec_Type := ""; sec_Data := ∅ |}.

(** An API server with one machine and one machine set that never go away. *)
#[export] Instance sample_kubernetes {X : Type} : Kubernetes X () () () := {|
  kubernetes_NewForConfig _ := Ok ();
  clientset_NewForConfig _ := Ok ();
  client_from_kubeconfig _ := Ok ();
  Pods_List _ := mret ();
  ComponentStatuses_List _ := mret [[("Healthy", "True")]];
  MasterNodes_List _ := mret ["v1.13.5"];
  Namespaces_Get _ _ := mret "uid-1";
  Namespaces_Create _ _ _ := mret ();
  Secrets_Get _ _ _ := mret sample_secret;
  Secrets_Create _ _ _ := mret ();
  BootstrapTokens_List _ := mret [];
  ConfigMaps_Create _ _ _ _ := mret ();
  capi_Clusters_Get _ _ _ :=
    mret {| capi_TypeMeta := zero_TypeMeta; capi_ObjectMeta := named "c1";
            capi_Spec := zero_CapiClusterSpec;
            capi_Status := {| APIEndpoints := []; ClusterErrorMessage := "";
                              ClusterProviderStatus := Some "{}" |} |};
  capi_Clusters_UpdateStatus _ _ c := mret c;
  capi_Machines_List _ := mret [sample_machine "m1"];
  capi_Machines_Get _ _ n := mret (sample_machine n);
  capi_Machines_Create _ _ m := mret m;
  capi_Machines_UpdateStatus _ _ m := mret m;
  capi_Machines_Delete _ _ _ := mret ();
  capi_MachineSets_List _ := mret [sample_machineset "ng1"];
  capi_MachineSets_Delete _ _ _ := mret ();
  capi_MachineDeployments_List _ := mret [];
  capi_MachineDeployments_Delete _ _ _ := mret ();
  bc_Apply _ _ := mret ();
  bc_GetContextNamespace _ := "default";
  bc_EnsureNamespace _ _ := mret ();
  bc_CreateClusterObject _ _ := mret ()
|}.

Notation sstore := (pharmer Z Z).
Notation senv := (env (S := sstore) (Crt := Z) (Key := Z) (SSHKey := Z) (X := ()) (KC := ())).
Notation sprovider := (Interface (S := sstore) (Crt := Z) (Key := Z) (SSHKey := Z) (X := ()) (KC := ())).

Notation sp0 := (spec_provider (Crt := Z) (Key := Z) (Ok ∘ id) Ok (Ok ∘ id) (Ok ∘ id)).

Definition sample_provider : sprovider := {|
  cm_SetDefaultCluster := mret ();
  cm_GetDefaultMachineProviderSpec sku role := mret (Some "{}");
  cm_SetCloudConnector := mret ();
  cm_PrepareCloud := (c ← the_cluster; set_Cluster (append_endpoint c "10.0.0.1"));
  cm_EnsureMaster _ := mret ();
  cm_GetMasterSKU n := "2gb";
  cm_ApplyScale := mret ();
  cm_ApplyDelete := mret ();
  cm_GetAdminClient := GetAdminClient (SSHKey := Z) sp0;
  cm_CreateCredentials _ := mret ();
  cm_GetClusterAPIComponents := mret "components"
|}.

#[export] Instance sample_provider_laws : ProviderLaws has_ssh sample_provider.
Proof.
  split.
  - intros e c Hc. exists c, (e_tick e), (e_cloud e). split; [done|].
    destruct e as [s t x [cl ce cm ad]]. cbn in Hc. by subst.
  - intros sku role e c _ _. exists (Some "{}"), (e_tick e), (e_cloud e). by destruct e.
Qed.

Definition sample_providers (p : string) : option sprovider :=
  if decide (p = "digitalocean") then Some sample_provider else None.

(** A cluster as the command line makes it. *)
Definition new_cluster (masters : Z) : Cluster :=
  let c := sample_cluster "c1" in
  with_Spec c (with_Config (Spec c)
    {| MasterCount := masters;
       Cloud := {| CloudProviderName := "digitalocean"; Project := ""; Region := ""; Zone := "nyc1";
                   InstanceImage := ""; OSName := ""; InstanceImageProject := "";
                   NetworkProvider := "calico"; SSHKeyName := ""; spec_AWS := None; spec_GCE := None;
                   spec_Azure := None; spec_Linode := None; spec_GKE := None; spec_Dokube := None |};
       KubernetesVersion := "v1.13.5"; CredentialName := "do"; SSHUserName := "";
       KubeletExtraArgs := None; APIServerExtraArgs := ∅; ControllerManagerExtraArgs := ∅;
       SchedulerExtraArgs := ∅; AuthorizationModes := []; APIServerCertSANs := [] |}).

Definition credential_store : objects := put_credentials {[ "do" := sample_credential "do" "DigitalOcean" ]} no_objects.
Definition empty_store : sstore := Pharmer credential_store ∅ ∅.

(** The store and the scope after CreateCluster. *)
Definition created_env : senv :=
  (CreateCluster sp0 sample_providers (Env empty_store 0 () (NewScope (new_cluster 2)))).2.

Example created_machines :
  (λ n, bool_decide (is_Some (ob_machines (ph_objects (e_store created_env)) "c1" !! n))) <$>
    ["c1-master-0"; "c1-master-1"; "c1-master-2"; "c1-master"] = [true; true; false; false].
Proof. by vm_compute. Qed.

(** ** Witnesses: Certs.v *)
Lemma certs_roundtrip_witness :
  ∃ certs s' t',
    CreateCertsKeys sp0 "c1" (empty_store, 0) = (Ok certs, (s', t')) ∧
    ph_objects s' = ph_objects empty_store ∧
    (∀ n, n ∈ ca_names → is_Some (ph_certs s' !! ("c1", n))) ∧
    (∀ t2, GetPharmerCerts sp0 "c1" (s', t2) = (Ok certs, (s', t2))) ∧
    (∀ t2, ∃ e t3, CreateCertsKeys (SSHKey := Z) sp0 "c1" (s', t2) = (Err e, (s', t3))).
Proof.
  apply (certs_roundtrip (SSHKey := Z) (Ok ∘ id) Ok (Ok ∘ id) (Ok ∘ id) "c1" empty_store 0).
  - discriminate.
  - reflexivity.
  - reflexivity.
Defined.

(** ** Witnesses: Kube.v *)

(** A condition that is met at the third attempt. *)
Definition third_time : GoM nat bool := λ n, (Ok (bool_decide (2 ≤ n)), S n).

Lemma poll_outcome_witness :
  (2 ≤ 5 → ∀ s2, third_time 2 = (Ok true, s2) → PollImmediate 5 third_time 0 = (Ok (), s2)) ∧
  (2 ≤ 5 → ∀ s2 e, third_time 2 = (Err e, s2) → PollImmediate 5 third_time 0 = (Err e, s2)) ∧
  (2 = 6 → PollImmediate 5 third_time 0 = (Err "timed out waiting for the condition", 2)).
Proof. apply (poll_outcome third_time 5 2 0 2). repeat econstructor. Defined.


Definition sample_ca : CertKeyPair Z Z := {| Cert := 7%Z; CKey := 8%Z |}.
Definition certs_store : sstore :=
  Pharmer no_objects {[ ("c1", CACertName) := (7%Z, 8%Z) ]} ∅.

Lemma admin_configs_agree_witness :
  (let '(r, st) := GetAdminConfig (SSHKey := Z) sp0 (new_cluster 1) sample_ca (certs_store, 0) in
   (NewRestConfigFromKubeConfig <$> r, st)) =
    NewRestConfig (SSHKey := Z) sp0 "c1" (APIServerURL (new_cluster 1)) (certs_store, 0) ∧
  ∀ k st, GetAdminConfig (SSHKey := Z) sp0 (new_cluster 1) sample_ca (certs_store, 0) = (Ok k, st) →
    ∃ auth, current_entry (Convert_KubeConfig_To_Config k) =
        Some ({| cc_Server := APIServerURL (new_cluster 1);
                 cc_CertificateAuthorityData := cert_text (Cert sample_ca) |}, auth) ∧
      let rc := NewRestConfigFromKubeConfig k in
      ca_ClientCertificateData auth = rc_CertData rc ∧ ca_ClientKeyData auth = rc_KeyData rc ∧
      ca_Token auth = rc_BearerToken rc.
Proof. apply (admin_configs_agree sp0 (new_cluster 1) sample_ca 8%Z certs_store 0). reflexivity. Defined.

(** ** Witnesses: Cloud.v *)
Lemma create_cluster_fresh_witness :
  ∃ c' certs s' t' x',
    CreateCluster sp0 sample_providers (Env empty_store 0 () (NewScope (new_cluster 2))) =
      (Ok (), Env s' t' x' {| sc_Cluster := Some c'; sc_Certs := Some certs;
                              sc_CloudManager := Some "digitalocean"; sc_AdminClient := None |}) ∧
    cluster_Name c' = "c1" ∧ Phase (Status c') = ClusterPending ∧
    ob_clusters (ph_objects s') = <["c1" := id c']> ∅ ∧
    has_keys (Ok ∘ id) Ok (Ok ∘ id) (Ok ∘ id) "c1" certs s' ∧
    dom (ob_machines (ph_objects s') "c1") = list_to_set (master_names (new_cluster 2)) ∧
    (∀ cl, cl ≠ "c1" → ob_machines (ph_objects s') cl = ∅) ∧
    (∀ cl, ob_machinesets (ph_objects s') cl = ∅).
Proof.
  apply (create_cluster_fresh id Ok id id sample_providers empty_store 0 () (new_cluster 2) sample_provider).
  - discriminate.
  - discriminate.
  - discriminate.
  - apply sample_uuid.
  - reflexivity.
  - apply sample_provider_laws.
  - reflexivity.
  - reflexivity.
  - reflexivity.
  - reflexivity.
Defined.

Lemma create_cluster_retry_witness :
  ∃ err e',
    CreateCluster sp0 sample_providers (Env certs_store 0 () (NewScope (new_cluster 2))) = (Err err, e') ∧
    (∀ cl, ob_machines (ph_objects (e_store e')) cl = ∅) ∧
    ph_certs (e_store e') = {[ ("c1", CACertName) := (7%Z, 8%Z) ]}.
Proof.
  apply (create_cluster_retry id Ok id id sample_providers certs_store 0 () (new_cluster 2) (7%Z, 8%Z)).
  - discriminate.
  - discriminate.
  - discriminate.
  - apply sample_uuid.
  - reflexivity.
Defined.

Definition the_created : Cluster := default (new_cluster 2) (sc_Cluster (e_scope created_env)).

Lemma created_stored : ob_clusters (ph_objects (e_store created_env)) !! "c1" = Some the_created.
Proof. by vm_compute. Qed.

Lemma delete_marks_witness :
  ∃ c' t',
    let s := e_store created_env in
    Delete sp0 "c1" created_env =
      (Ok c', Env (set_objects (put_clusters (<["c1" := id c']> (ob_clusters (ph_objects s))) (ph_objects s)) s)
                  t' (e_cloud created_env) (e_scope created_env)) ∧
    Spec c' = Spec the_created ∧ Status c' = with_Phase (Status the_created) ClusterDeleting ∧
    cluster_ObjectMeta c' =
      with_DeletionTimestamp (cluster_ObjectMeta the_created) (Some (time_now (e_tick created_env))).
Proof.
  apply (delete_marks id Ok id id created_env "c1" the_created).
  - discriminate.
  - vm_compute. reflexivity.
  - apply created_stored.
Defined.

Definition created_certs : Certificates Z Z Z :=
  default {| CACert := sample_ca; FrontProxyCACert := sample_ca; ServiceAccountCert := sample_ca;
             EtcdCACert := sample_ca; SSHKey_ := 0%Z |} (sc_Certs (e_scope created_env)).

Lemma create_machinesets_ok_witness :
  ∃ s' t x sc,
    CreateMachineSets sp0 sample_providers "c1" [("2gb", 3%Z); ("4GB_cpu", 1%Z)] created_env =
      (Ok (), Env s' t x sc) ∧
    sets_added id "c1" [("2gb", 3%Z); ("4GB_cpu", 1%Z)] (e_store created_env) s'.
Proof.
  apply (create_machinesets_ok id Ok id id sample_providers created_env "c1" the_created
    sample_provider created_certs).
  - discriminate.
  - vm_compute. reflexivity.
  - apply created_stored.
  - split; [|intros t; vm_compute; reflexivity].
    apply Forall_forall. refine (bool_decide_eq_true_1 _ _). vm_compute. reflexivity.
  - vm_compute. reflexivity.
  - apply sample_provider_laws.
  - refine (bool_decide_eq_true_1 _ _). vm_compute. reflexivity.
  - apply Forall_forall. refine (bool_decide_eq_true_1 _ _). vm_compute. reflexivity.
Defined.

(** ** Witnesses: Use.v *)
Inductive kfile := KConfig (c : ClientConfig) | KOther.

#[export] Instance kfile_os : OS kfile := {|
  os_cwd := ["home"]; os_order l := l; os_order_perm l := Permutation_refl l
|}.
#[export] Instance kfile_codec : ConfigCodec kfile := {|
  config_load d := match d with KConfig c => Ok c | KOther => Err "couldn't get version/kind" end;
  config_write c := Ok (KConfig c)
|}.
#[export] Instance kfile_codec_laws : ConfigCodecLaws kfile.
Proof. split. by intros c d [= <-]. Qed.

Definition sample_konf : KubeConfig :=
  {| kc_TypeMeta := zero_TypeMeta; kc_Colors := true;
     kc_Cluster := {| nc_Name := "c1.pharmer"; nc_Server := "https://10.0.0.1:6443";
                      nc_CertificateAuthorityData := "ca" |};
     kc_AuthInfo := {| na_Name := "cluster-admin@c1.pharmer"; na_ClientCertificateData := "crt";
                       na_ClientKeyData := "key"; na_Token := ""; na_Username := "";
                       na_Password := ""; na_Exec := None |};
     kc_Context := {| nx_Name := "cluster-admin@c1.pharmer"; nx_Cluster := "c1.pharmer";
                      nx_AuthInfo := "cluster-admin@c1.pharmer" |} |}.

Definition use_c1 : ClusterUseConfig := {| use_ClusterName := "c1"; use_Overwrite := false |}.

(** A configuration for another cluster, which is in use. *)
Definition other_config : ClientConfig :=
  {| cf_Kind := "Config"; cf_APIVersion := "v1"; cf_Colors := true;
     Clusters := {[ "other" := {| cc_Server := "s"; cc_CertificateAuthorityData := "" |} ]};
     AuthInfos := {[ "me" := no_auth ]};
     Contexts := {[ "ctx" := {| cx_Cluster := "other"; cx_AuthInfo := "me" |} ]};
     CurrentContext := "ctx" |}.

Lemma merged_ok_witness :
  let c' := merged use_c1 sample_konf other_config in
  CurrentContext c' = "cluster-admin@c1.pharmer" ∧
  (Contexts other_config !! "cluster-admin@c1.pharmer" = None ∨ use_Overwrite use_c1 = true →
     current_entry c' = Some (toCluster (kc_Cluster sample_konf), toUser (kc_AuthInfo sample_konf))) ∧
  (is_Some (Contexts other_config !! "cluster-admin@c1.pharmer") → use_Overwrite use_c1 = false →
     current_entry c' = current_entry (with_CurrentContext other_config "cluster-admin@c1.pharmer")) ∧
  (∀ n, n ≠ "c1.pharmer" → Clusters c' !! n = Clusters other_config !! n) ∧
  (∀ n, n ≠ "cluster-admin@c1.pharmer" → AuthInfos c' !! n = AuthInfos other_config !! n) ∧
  (∀ n, n ≠ "cluster-admin@c1.pharmer" → Contexts c' !! n = Contexts other_config !! n).
Proof. apply (merged_ok use_c1 sample_konf other_config). by split_and!. Defined.

(** A home directory with that configuration in it. *)
Definition home_tree : fs kfile :=
  {[ [] := Dir; ["home"] := Dir; ["home"; ".kube"] := Dir;
     ["home"; ".kube"; "config"] := File (KConfig other_config) ]}.

Lemma home_tree_inv q n :
  home_tree !! q = Some n →
  (q, n) ∈ [([], Dir); (["home"], Dir); (["home"; ".kube"], Dir);
            (["home"; ".kube"; "config"], File (KConfig other_config))].
Proof.
  unfold home_tree. rewrite !lookup_insert_Some, lookup_singleton_Some, !elem_of_cons.
  naive_solver.
Qed.

Lemma home_tree_wf : wf_fs home_tree.
Proof.
  split; [done|..].
  - intros q n Hq%home_tree_inv. rewrite !elem_of_cons in Hq.
    destruct Hq as [[= -> ->]|[[= -> ->]|[[= -> ->]|[[= -> ->]|[]%not_elem_of_nil]]]]; plains.
  - intros q x n Hq%home_tree_inv. rewrite !elem_of_cons in Hq.
    destruct Hq as [[= E ->]|[[= E ->]|[[= E ->]|[[= E ->]|[]%not_elem_of_nil]]]].
    + by destruct q.
    + apply (app_inj_tail q []) in E as [-> _]. done.
    + apply (app_inj_tail q ["home"]) in E as [-> _]. done.
    + apply (app_inj_tail q ["home"; ".kube"]) in E as [-> _]. done.
Qed.

Lemma home_tree_no_file : no_file_on home_tree (kube_dir ["home"]).
Proof. by apply wf_dir_no_file_on; [apply home_tree_wf|]. Qed.

Lemma use_cluster_ok_witness :
  let c' := merged use_c1 sample_konf other_config in
  let m' := used ["home"] "2020-01-02T15-04" home_tree (KConfig c') in
  UseCluster (abs_path ["home"]) "2020-01-02T15-04" use_c1 sample_konf home_tree = (Ok Returned, m') ∧
  config_load (KConfig c') = Ok c' ∧
  m' !! kube_file ["home"] = Some (File (KConfig c')) ∧
  (∀ d, home_tree !! kube_file ["home"] = Some (File d) →
        m' !! backup_file ["home"] "2020-01-02T15-04" = Some (File d)) ∧
  (∀ p, p ≠ kube_file ["home"] → p ≠ backup_file ["home"] "2020-01-02T15-04" →
        ¬ p `prefix_of` kube_dir ["home"] → m' !! p = home_tree !! p).
Proof.
  apply (use_cluster_ok ["home"] ltac:(done) ltac:(plains) "2020-01-02T15-04" eq_refl home_tree use_c1
    sample_konf other_config (KConfig (merged use_c1 sample_konf other_config))).
  - apply home_tree_wf.
  - apply home_tree_no_file.
  - vm_compute. discriminate.
  - vm_compute. discriminate.
  - reflexivity.
  - right. discriminate.
  - reflexivity.
Defined.

(** ** Witnesses: Apply.v *)
Lemma nodeCount_ok_witness :
  let l := [sample_machineset "a"; sample_machineset "b"] in
  (∀ rs, mapM (λ m, Replicas (machineset_Spec m)) l = Some rs →
     nodeCount l = Ok (int32 (sum_Z rs)) ∧
     ((-2147483648 ≤ sum_Z rs < 2147483648)%Z → nodeCount l = Ok (sum_Z rs))) ∧
  (mapM (λ m, Replicas (machineset_Spec m)) l = None → ∃ w, nodeCount l = Panic w).
Proof. apply (nodeCount_ok [sample_machineset "a"; sample_machineset "b"]). Defined.

(** An environment for a cluster in some phase, its provider chosen. *)
Definition in_phase (p : ClusterPhase) : Cluster :=
  with_Status (new_cluster 1) (with_Phase zero_Status p).
Definition phase_env (p : ClusterPhase) : senv :=
  Env empty_store 0 () {| sc_Cluster := Some (in_phase p); sc_Certs := None;
                          sc_CloudManager := Some "digitalocean"; sc_AdminClient := None |}.

Lemma apply_gate_witness :
  (Phase (Status (in_phase ClusterUpgrading)) = "" ∨
   Phase (Status (in_phase ClusterUpgrading)) = ClusterUpgrading →
     ∃ err, Apply sp0 sample_providers (phase_env ClusterUpgrading) = (Err err, phase_env ClusterUpgrading)) ∧
  (Phase (Status (in_phase ClusterUpgrading)) = ClusterDeleted →
     Apply sp0 sample_providers (phase_env ClusterUpgrading) = (Ok (), phase_env ClusterUpgrading)).
Proof.
  apply (apply_gate id Ok id id sample_providers (phase_env ClusterUpgrading) (in_phase ClusterUpgrading)).
  reflexivity.
Defined.

Lemma apply_ready_only_connects_witness :
  Apply sp0 sample_providers (phase_env ClusterReady) = (Ok (), phase_env ClusterReady).
Proof.
  apply (apply_ready_only_connects id Ok id id sample_providers (phase_env ClusterReady)
    (phase_env ClusterReady) (in_phase ClusterReady) "digitalocean" sample_provider); reflexivity.
Defined.

(** The whole creation, from CreateCluster's environment on. *)
Notation applied := (Apply sp0 sample_providers created_env).
Notation created_applied := (ApplyCreate sp0 sample_providers created_env).

Lemma applied_fst : applied.1 = Ok ().
Proof. vm_compute. reflexivity. Qed.

Lemma applied_ok : applied = (Ok (), applied.2).
Proof. rewrite <-applied_fst. apply surjective_pairing. Qed.

Lemma created_applied_cluster :
  match sc_Cluster (e_scope created_applied.2) with
  | Some c => is_managed (CloudProvider c) = false ∧ DeletionTimestamp (cluster_ObjectMeta c) = None
  | None => True
  end.
Proof. vm_compute. by split. Qed.

Lemma apply_pending_ready_witness :
  ∃ c' c0, sc_Cluster (e_scope applied.2) = Some c' ∧ Phase (Status c') = ClusterReady ∧
    ob_clusters (ph_objects (e_store applied.2)) !! cluster_Name c' = Some (id c0) ∧ Status c0 = Status c'.
Proof.
  apply (apply_pending_ready id Ok id id sample_providers created_env applied.2 the_created
    sample_provider created_env the_created created_env).
  - vm_compute. reflexivity.
  - vm_compute. reflexivity.
  - vm_compute. reflexivity.
  - reflexivity.
  - vm_compute. reflexivity.
  - vm_compute. reflexivity.
  - intros c2 e3 Hc Hs. pose proof created_applied_cluster as Hk.
    rewrite Hc in Hk. cbn [snd] in Hk. rewrite Hs in Hk. exact Hk.
  - apply applied_ok.
Defined.

(** A cluster with a machine set, marked for deletion. *)
Definition sets_env : senv :=
  Env (Pharmer (put_machinesets "c1" {[ "ng1" := sample_machineset "ng1" ]} no_objects) ∅ ∅) 0 ()
      (NewScope (in_phase ClusterDeleting)).

Lemma sets_env_named : sets_named (sets sets_env "c1").
Proof.
  assert (E : sets sets_env "c1" = {[ "ng1" := sample_machineset "ng1" ]}) by reflexivity.
  rewrite E. intros k ms Hk. apply lookup_singleton_Some in Hk as [<- <-]. done.
Qed.

(** The same cluster, with the time it was marked, and its provider chosen. *)
Definition leaving : Cluster :=
  let c := in_phase ClusterDeleting in
  with_ObjectMeta c (with_DeletionTimestamp (cluster_ObjectMeta c) (Some 7%Z)).
Definition leaving_env : senv :=
  Env (e_store sets_env) 0 () {| sc_Cluster := Some leaving; sc_Certs := None;
                                 sc_CloudManager := Some "digitalocean"; sc_AdminClient := None |}.

Lemma apply_retires_first_witness :
  ∃ s' t', sets_retired id "c1" (e_store leaving_env) s' ∧
    Apply sp0 sample_providers leaving_env =
      ApplyDelete sp0 sample_providers (Env s' t' () (e_scope leaving_env)).
Proof.
  apply (apply_retires_first id Ok id id sample_providers leaving_env leaving sample_provider
    leaving_env leaving_env leaving 7%Z).
  - reflexivity.
  - refine (bool_decide_eq_true_1 _ _). vm_compute. reflexivity.
  - reflexivity.
  - reflexivity.
  - reflexivity.
  - refine (bool_decide_eq_true_1 _ _). vm_compute. reflexivity.
  - reflexivity.
  - apply sets_env_named.
Defined.

Lemma created_names name :
  is_Some (ob_machines (ph_objects (e_store created_env)) "c1" !! name) →
  ∃ i, name = MasterMachineName the_created i.
Proof.
  intros [m Hm].
  assert (Hall : map_Forall (λ n _, n ∈ ["c1-master-0"; "c1-master-1"])
                   (ob_machines (ph_objects (e_store created_env)) "c1")).
  { refine (bool_decide_eq_true_1 _ _). vm_compute. reflexivity. }
  specialize (Hall name m Hm). cbn in Hall. rewrite !elem_of_cons in Hall.
  destruct Hall as [-> | [-> | []%not_elem_of_nil]]; [exists 0%Z|exists 1%Z]; by vm_compute.
Qed.

Lemma apply_upgrade_fails_witness :
  is_ok (ApplyUpgrade (SSHKey := Z) sp0 (λ s, Some s) (λ a b, bool_decide (a = b)) created_env).1 = false.
Proof.
  destruct (ApplyUpgrade _ _ _ _) as [[[]|err|w] e'] eqn:Hr; [exfalso|done|done].
  revert Hr.
  apply (apply_upgrade_fails id Ok id id (λ s, Some s) (λ a b, bool_decide (a = b)) created_env the_created).
  - vm_compute. reflexivity.
  - apply created_names.
Defined.

Lemma deleteMachines_does_not_wait_witness :
  deleteMachines () (phase_env ClusterDeleting) = (Ok (), phase_env ClusterDeleting) ∧
  deleteMachineSets () (phase_env ClusterDeleting) =
    (Err "timed out waiting for the condition", phase_env ClusterDeleting).
Proof.
  apply (deleteMachines_does_not_wait () (phase_env ClusterDeleting) [sample_machine "m1"]
    [sample_machineset "ng1"]).
  - reflexivity.
  - reflexivity.
  - reflexivity.
  - reflexivity.
  - discriminate.
Defined.

(** ** Witnesses: Upgrade.v *)

(** Versions are numbers, minor times 100 plus patch. *)
Definition sample_versions : gmap string Z :=
  {[ "v1.13.5" := 1305%Z; "v1.13.9" := 1309%Z; "v1.15.0" := 1500%Z ]}.

Definition parse_sample (s : string) : outcome Z :=
  match sample_versions !! s with Some v => Ok v | None => Err "could not parse" end.

#[export] Instance sample_version_util : VersionUtil Z := {|
  ParseSemantic := parse_sample; ParseGeneric := parse_sample;
  LessThan := Z.ltb; Compare v s := Ok 0%Z; Major _ := 1%Z; Minor v := (v `div` 100)%Z
|}.

#[export] Instance sample_version_laws : VersionLaws Z.
Proof.
  split; cbn.
  - intros v w H. apply Z.ltb_lt in H. apply Z.ltb_ge. lia.
  - intros u v w H1 H2. apply Z.ltb_ge in H1. apply Z.ltb_lt in H2. apply Z.ltb_lt. lia.
Qed.

Definition sample_pages : gmap string string :=
  {[ "https://dl.k8s.io/release/stable.txt" := "v1.15.0 ";
     "https://dl.k8s.io/release/stable-1.13.txt" := "v1.13.9" ]}.

#[export] Instance sample_http : Http := {|
  http_get url := match sample_pages !! url with
                  | Some b => Ok (200%Z, "200 OK", Ok b)
                  | None => Ok (404%Z, "404 Not Found", Ok "")
                  end
|}.

#[export] Instance sample_version_api : VersionAPI () () := {|
  ServerVersion _ := mret "v1.13.5";
  Masters_List _ := mret [
    {| Name := "m"; Namespace := ""; UID := ""; Generation := 0%Z; CreationTimestamp := 0%Z;
       DeletionTimestamp := None; Labels := ∅;
       Annotations := {[ KubeadmVersionKey := "v1.13.5" ]} |}];
  Kubelets_List _ := mret ["v1.13.5"; "v1.13.5"];
  DNSDeployments_List _ := mret []
|}.

Lemma assign_kind_idempotent_witness :
  AssignTypeKind (OCluster (with_TypeMeta (sample_cluster "c1")
    {| Kind := "Cluster"; APIVersion := pharmerAPIversion |})) =
  Ok (OCluster (with_TypeMeta (sample_cluster "c1") {| Kind := "Cluster"; APIVersion := pharmerAPIversion |})).
Proof. apply (assign_kind_idempotent (OCluster (sample_cluster "c1"))). reflexivity. Defined.


Lemma sample_series : series_up_to_date (V := Z) 2 "v1.13.5" 1305%Z.
Proof.
  intros branch description p Hb Hp. vm_compute in Hb. injection Hb as <-.
  revert Hp. unfold VersionFromCILabel. replace (KubernetesReleaseVersion 2 ("stable-" +:+ "1.13"))
    with (Some (Ok "v1.13.9")) by (vm_compute; reflexivity).
  vm_compute. by intros [= <-].
Qed.

Definition offered : list Upgrade :=
  match (GetAvailableUpgrades (V := Z) 2 () ()).1 with Ok l => l | _ => [] end.

Example offered_versions : (λ u, KubeVersion (After u)) <$> offered = ["v1.13.9"; "v1.15.0"].
Proof. vm_compute. reflexivity. Qed.

Lemma available_upgrades_newer_witness :
  length offered ≤ 2 ∧ ∀ u, u ∈ offered → newer "v1.13.5" 1305%Z u.
Proof.
  apply (available_upgrades_newer 2 () () () () "v1.13.5" 1305%Z offered).
  - vm_compute. reflexivity.
  - apply sample_series.
  - vm_compute. reflexivity.
Defined.
