(* ===== verification/XormSamples.v ===== *)
(** * Concrete instances for the SQL store

    A planner that scans in the order of insertion, objects encoded by their names,
    certificates that are their own text, and a small database; the witnesses of
    the theorems of XormProofs.v and XormRest.v evaluate at these. *)
From stdpp Require Import base list gmap strings pretty fin_maps.
From S2P Require Import Prelude GoStrings Api StoreSpec VfsStore Samples KeyStores Sql.
From S2P Require Import Kube CloudSamples XormStore XormProofs XormRest.

#[export] Instance sample_planner : Planner := {| scan R l := l |}.
#[export] Instance sample_planner_laws : PlannerLaws.
Proof. by split. Qed.

#[export] Instance text_cluster : Json string Cluster := {|
  MarshalIndent c := Ok (cluster_Name c); Unmarshal n := Ok (sample_cluster n) |}.
#[export] Instance text_credential : Json string Credential := {|
  MarshalIndent c := Ok (cred_Name c); Unmarshal n := Ok (sample_credential n "DigitalOcean") |}.
#[export] Instance text_machine : Json string Machine := {|
  MarshalIndent m := Ok (machine_Name m); Unmarshal n := Ok (sample_machine n) |}.

#[export] Instance text_pem : PEM string string string string := {|
  EncodeCertPEM c := c; EncodePrivateKeyPEM k := k;
  ParseCertsPEM d := Ok [d]; ParsePrivateKeyPEM d := Ok d; as_rsa := Some |}.
#[export] Instance text_pem_laws : PEMLaws string string string string.
Proof. split; [done|]. intros k. by exists k. Qed.

(** Two owners, 7 and 8, with a cluster each; owner 7 has a machine and an operation. *)
Definition row7 : ClusterRow :=
  {| cl_ID := 1; cl_UUID := "u7"; cl_OwnerID := 7; cl_Name := "alpha"; cl_Data := "alpha"; cl_IsPrivate := false |}.
Definition row8 : ClusterRow :=
  {| cl_ID := 2; cl_UUID := "u8"; cl_OwnerID := 8; cl_Name := "beta"; cl_Data := "beta"; cl_IsPrivate := false |}.
Definition machine7 : MachineRow :=
  {| mc_ID := 1; mc_Name := "alpha-master-0"; mc_Data := "alpha-master-0"; mc_ClusterID := 1 |}.
Definition running : Operation :=
  {| op_ID := 1; op_UserID := 7; op_ClusterID := 1; op_Code := "op"; op_State := OperationRunning |}.

Definition sample_db : db :=
  Db (Table [row7; row8] 2) empty_table (Table [machine7] 1) empty_table empty_table
     (Table [running] 1) 0.

Lemma sample_clusters_ok : table_ok (db_clusters sample_db).
Proof. split; [done|]. cbn. intros r [->|[->|[]%not_elem_of_nil]%elem_of_cons]%elem_of_cons; cbn; lia. Qed.
Lemma sample_operations_ok : table_ok (db_operations sample_db).
Proof. split; [done|]. cbn. intros r ->%list_elem_of_singleton. cbn. lia. Qed.
Lemma sample_certificates_ok : table_ok (db_certificates sample_db).
Proof. split; [done|]. by intros r []%not_elem_of_nil. Qed.
Lemma running_proper : proper running.
Proof. by vm_compute. Qed.

(** What owner 8 asks for: it even updates and deletes a cluster with the name of the other's. *)
Definition intruder : list (Z * cluster_call) :=
  [(8%Z, CallRequest (RUpdate (Some (sample_cluster "beta"))));
   (8%Z, CallUpdateUUID (Some (sample_cluster "beta")) "u9");
   (8%Z, CallRequest (RDelete "alpha"))].

Lemma sql_clusters_isolated_witness :
  owned 7 (trace run_cluster_call intruder sample_db).2 = owned 7 sample_db ∧
  length (owned 7 sample_db) = 1 ∧
  owned 7 (ClusterXormStore.Delete (ClusterXormStore.Make 0) "alpha" sample_db).2 = [].
Proof.
  destruct (sql_clusters_isolated 7 intruder sample_db) as [Hk Hn];
    [done|done|apply sample_clusters_ok|by repeat constructor|].
  split_and!; [exact Hk|by vm_compute|]. exact (proj2 (proj2 (Hn "alpha" ltac:(done)))).
Defined.


Lemma operation_update_states_witness :
  ∃ d', OperationXormStore.Update (Some (with_op_State running OperationDone)) sample_db =
    (Ok (with_op_State running OperationDone), d') ∧ d' = sample_db.
Proof.
  destruct (operation_update_states sample_db running OperationDone) as (d' & H1 & _ & H3);
    [apply sample_operations_ok|left|apply running_proper|].
  exists d'. split; [exact H1|by apply H3].
Defined.

Lemma machines_cross_owners_witness :
  let other := XormStore.Owner XormStore.New 8 in
  MachineXormStore.Get (XormStore.Machine other "alpha") "alpha-master-0" sample_db =
    (Ok (sample_machine "alpha-master-0"), sample_db) ∧
  CertificateXormStore.Delete (XormStore.Certificates other "alpha") "ca" sample_db =
    (Err "cluster not exists", sample_db).
Proof.
  destruct (machines_cross_owners (Crt := string) (Key := string) (AnyKey := string)
    8 7 "alpha" row7 machine7 "alpha-master-0" (sample_machine "alpha-master-0") sample_db)
    as (Hget & _ & Hcert); try done.
  - left.
  - cbn. by intros r' [->|[->|[]%not_elem_of_nil]%elem_of_cons]%elem_of_cons.
  - left.
  - cbn. by intros r' ->%list_elem_of_singleton.
Defined.

Lemma sql_cert_lifecycle_witness :
  ∃ d1 : db,
    CertificateXormStore.Create (CertificateXormStore.Make "alpha" 7) "ca" (Some "crt") (Some "key") sample_db =
      (Ok (), d1) ∧
    CertificateXormStore.Get (CertificateXormStore.Make "alpha" 7) "ca" d1 = (Ok ("crt", "key"), d1).
Proof.
  destruct (sql_cert_lifecycle (Crt := string) (Key := string) (AnyKey := string)
    7 "alpha" "ca" row7) with (d := sample_db) (crt := "crt") (key := "key") (crt' := "x") (key' := "y")
    (uid := "uuid-0") as (d1 & d2 & H1 & H2 & _); try done.
  - apply sample_certificates_ok.
  - by intros x []%not_elem_of_nil.
  - by intros x []%not_elem_of_nil.
  - by exists d1.
Defined.
