(* ===== verification/ApiServerSamples.v ===== *)
(** * Concrete instances for the API server

    Messages that are the code of their operation, the operations table of the SQL
    store beside the abstract store, a provider that does nothing; the witnesses of
    the theorems of ApiServerProofs.v. *)
From stdpp Require Import base list gmap strings pretty fin_maps.
From S2P Require Import Prelude GoStrings Api StoreSpec VfsStore Samples Provider Certs Kube Cloud Apply.
From S2P Require Import CloudSamples StoreFrame ApiServer ApiServerProofs ApiServerSql.
From S2P Require Import Sql XormStore XormProofs XormRest XormSamples.
Import Apiserver.

#[export] Instance sample_messages : MessageCodec := {|
  unmarshal_operation d := if decide (d = "{") then Err "unexpected end of JSON input"
                           else Ok (Some {| OperationId := d |}) |}.

Notation apistore := (sstore * db)%type.
Notation api_env := (env (S := apistore) (Crt := Z) (Key := Z) (SSHKey := Z) (X := ()) (KC := ())).
Notation api_provider := (Interface (S := apistore) (Crt := Z) (Key := Z) (SSHKey := Z) (X := ()) (KC := ())).

Definition idle_provider {S} : Interface (S := S) (Crt := Z) (Key := Z) (SSHKey := Z) (X := ()) (KC := ()) := {|
  cm_SetDefaultCluster := mret ();
  cm_GetDefaultMachineProviderSpec sku role := mret None;
  cm_SetCloudConnector := mret ();
  cm_PrepareCloud := mret ();
  cm_EnsureMaster _ := mret ();
  cm_GetMasterSKU n := "2gb";
  cm_ApplyScale := mret ();
  cm_ApplyDelete := mret ();
  cm_GetAdminClient := mret ();
  cm_CreateCredentials _ := mret ();
  cm_GetClusterAPIComponents := mret "components"
|}.

Lemma idle_respects {S} (R : relation S) `{!PreOrder R} : ProviderRespects R (idle_provider (S := S)).
Proof. split; intros; cbn; apply pres_ret; exact _. Qed.

Definition idle_providers {S} (p : string) :
    option (Interface (S := S) (Crt := Z) (Key := Z) (SSHKey := Z) (X := ()) (KC := ())) :=
  if decide (p = "digitalocean") then Some idle_provider else None.

Lemma idle_providers_respect {S} (R : relation S) `{!PreOrder R} p cm :
  idle_providers p = Some cm → ProviderRespects R cm.
Proof. unfold idle_providers. case_decide; [|done]. intros [= <-]. by apply idle_respects. Qed.

(** ** The API server *)
Definition api_store : StoreInterface apistore Z Z := sql_interface (λ _, sp0).
Definition code_settled (id : string) (s : apistore) : Prop := id ≠ "" ∧ sql_settled id s.2.

#[export] Instance api_store_laws : OperationsLaws api_store code_settled.
Proof.
  apply sql_operations_laws. intros o n t. cbn. unfold on_clusters, zoom. cbn.
  unfold spec_Get. destruct t as [[]]. by repeat case_match; simplify_eq/=.
Qed.

Definition numbered_cluster : Cluster :=
  let c := new_cluster 1 in
  with_ObjectMeta c {| Name := "1"; Namespace := ""; UID := ""; Generation := 0%Z;
    CreationTimestamp := 0%Z; DeletionTimestamp := None; Labels := ∅; Annotations := ∅ |}.
Definition numbered_store : sstore :=
  Pharmer (put_clusters {[ "1" := numbered_cluster ]} no_objects) ∅ ∅.
Definition pending_db : db :=
  Db (db_clusters sample_db) empty_table (db_machines sample_db) empty_table empty_table
     (Table [with_op_State running OperationPending] 1) 0.

Definition api_env0 (d : db) : api_env := Env (numbered_store, d) 0 () (NewScope numbered_cluster).
Definition api_providers (owner : Z) : string → option api_provider := idle_providers.

Lemma api_providers_respect id o p cm :
  api_providers o p = Some cm → ProviderRespects (keeps_settled code_settled id) cm.
Proof. apply idle_providers_respect; exact _. Qed.

Lemma running_settled : code_settled "op" (numbered_store, sample_db).
Proof.
  split; [done|]. split; [exact sample_operations_ok|]. by intros r ->%list_elem_of_singleton.
Qed.

Definition create_op : subject * string := (Create_cluster, "op").

(** A delivery of the message of an operation that is running. *)
Lemma sample_delivery :
  deliver api_store api_providers false (Broker [create_op] (api_env0 sample_db))
    (Broker [create_op] (api_env0 sample_db)).
Proof.
  apply (Deliver api_store api_providers false [] Create_cluster "op" [] (Ok ())
           (api_env0 sample_db) (api_env0 sample_db) false).
  vm_compute. reflexivity.
Qed.

Lemma create_message_once_witness :
  create_op ∈ b_queue (Broker [create_op] (api_env0 sample_db)).
Proof.
  refine (proj1 (proj2 (create_message_once api_store code_settled api_providers api_providers_respect false
    (Broker [create_op] (api_env0 sample_db)) (Broker [create_op] (api_env0 sample_db)) "op" "op" _ _ _)) _).
  - reflexivity.
  - exact running_settled.
  - apply rtc_once, sample_delivery.
  - left.
Defined.

Lemma create_delivered_witness :
  w_acked (CreateCluster api_store api_providers false {| Data := "op"; Ack := Ok () |}
             (World (api_env0 pending_db) false)).2 = true.
Proof.
  refine (proj1 (proj2 (proj1 (create_delivered api_store code_settled api_providers api_providers_respect
    false "op" "op" (with_op_State running OperationPending) running numbered_cluster
    (api_env0 pending_db) (numbered_store, sample_db) _ _ _ _ _ _ _)))); try done.
  exact running_settled.
Defined.

Lemma brace_refused :
  (Init api_store {| Data := "{"; Ack := Ok () |} (World (api_env0 sample_db) false)).1 =
    Err "unexpected end of JSON input".
Proof. vm_compute. reflexivity. Qed.

Lemma refused_message_witness :
  is_ok (DeleteCluster api_store api_providers false {| Data := "{"; Ack := Ok () |}
           (World (api_env0 sample_db) false)).1 = true ∧
  is_ok (DeleteCluster api_store api_providers true {| Data := "{"; Ack := Ok () |}
           (World (api_env0 sample_db) false)).1 = false.
Proof.
  split.
  - assert (∀ x : outcome (), x = Ok () → is_ok x = true) as Hx by by intros ? ->.
    apply Hx.
    by refine (proj1 (proj2 (refused_message api_store code_settled api_providers Delete_cluster false {| Data := "{"; Ack := Ok () |}
      (World (api_env0 sample_db) false) _ brace_refused)) eq_refl).
  - destruct (proj2 (proj2 (refused_message api_store code_settled api_providers Delete_cluster true {| Data := "{"; Ack := Ok () |}
      (World (api_env0 sample_db) false) _ brace_refused)) eq_refl) as [why Hw].
    cbn [handler] in Hw. by rewrite Hw.
Defined.
