(* ===== verification/CmdsSamples.v ===== *)
(** * Concrete instances for the commands

    A text format in which a cluster is its name and its version, and the witnesses of
    the theorems of EditProofs.v and CmdsProofs.v. *)
From stdpp Require Import base list gmap strings pretty fin_maps.
From Stdlib Require Import Ascii FunctionalExtensionality.
From S2P Require Import Prelude GoStrings Api StoreSpec VfsStore Samples Provider Certs Kube Cloud Apply.
From S2P Require Import CloudSamples Options Edit EditProofs Printing Cmds PrintingProofs CmdsProofs.

#[export] Instance sample_marshalling : Marshalling := {|
  JSON_PrintObj _ := Ok "{}"; YAML_PrintObj _ _ := Ok "---" |}.
#[export] Instance sample_fields : PrintedFields := {|
  meta_ClusterName _ := ""; template_Name _ := ""; template_Namespace _ := ""; CommonSpec_String _ := "" |}.

(** The only patch with a text is that of a cluster's version. *)
Definition version_patch (v : string) : json_map :=
  [("spec", JObj [("config", JObj [("kubernetesVersion", JStr v)])])].

#[export] Instance sample_texts : Texts := {|
  ToJSON t := if decide (t = "{") then Err "unexpected end of JSON input" else Ok t;
  json_Marshal p := match p with
                    | [("spec", JObj [("config", JObj [("kubernetesVersion", JStr v)])])] => Ok v
                    | _ => Err "json: unsupported value"
                    end;
  json_Unmarshal v := Ok (version_patch v) |}.

Definition sample_codec {O} (text : O → string) (parse : string → outcome (option O)) : EditCodec O := {|
  yaml_Marshal o := Ok (match o with Some o => text o | None => "null" end);
  yaml_Unmarshal t := parse t;
  two_way_diff _ u := Ok (version_patch u) |}.

Definition cluster_text (c : Cluster) : string := cluster_Name c +:+ " " +:+ KubernetesVersion (Config (Spec c)).

#[export] Instance cluster_codec : EditCodec Cluster :=
  sample_codec cluster_text (λ t, if decide (t = "{") then Err "unexpected end of JSON input"
                                  else Ok (Some (sample_cluster t))).
#[export] Instance machineset_codec : EditCodec MachineSet :=
  sample_codec machineset_Name (λ t, Ok (Some (sample_machineset t))).
#[export] Instance credential_codec : EditCodec Credential :=
  sample_codec cred_Name (λ t, Ok (Some (sample_credential t "DigitalOcean"))).

Definition old_cluster : Cluster := sample_cluster "c1".
Definition edited_cluster : Cluster := versioned old_cluster "v1.14.0".

Lemma version_unblocked f v :
  f ∈ PreconditionSpecField ResourceKindCluster → ¬ blocked (Split "."%char f) (version_patch v).
Proof.
  unfold PreconditionSpecField. rewrite decide_True, !elem_of_cons by done.
  intros [->|[->|[->|[->|[->|[->|[]%not_elem_of_nil]]]]]]; vm_compute; tauto.
Qed.

Lemma check_edit_guards_witness :
  check_edit ResourceKindCluster (Some old_cluster) (Some edited_cluster) = Ok () ↔
  StripComments "c1 " ≠ StripComments "c1 v1.14.0" ∧
  (∀ k, k ∈ ["apiVersion"; "kind"; "status"] → at_key k (version_patch "c1 v1.14.0") = None) ∧
  (∀ f, f ∈ PreconditionSpecField ResourceKindCluster →
        json_at (Split "."%char f) (version_patch "c1 v1.14.0") = None).
Proof.
  apply (check_edit_guards ResourceKindCluster (Some old_cluster) (Some edited_cluster) "c1 " "c1 "
           "c1 v1.14.0" "c1 v1.14.0" (version_patch "c1 v1.14.0") "c1 v1.14.0"); try reflexivity.
  - left.
  - intros f Hf. by apply version_unblocked.
Defined.

(** A user who saves "{" and then gives the same text back. *)
Definition broken (buf : string) : outcome string := Ok "{".
Definition restored (buf : string) : outcome string := Ok "{".

Lemma edit_writes_once_witness :
  editFn (O := Cluster) (Ok "c1 ") (λ u n, (Ok (), S n)) [broken; restored] 0 =
    (Err "Edit cancelled, no valid changes were saved.", 0).
Proof.
  apply (proj2 (edit_writes_once (O := Cluster) (Ok "c1 ") (λ u n, (Ok (), S n)) [] "c1 " 0 eq_refl))
    with "{" "{" "unexpected end of JSON input"; try reflexivity.
  vm_compute. intros H. inversion H.
Defined.

Definition edit_store : sstore := Pharmer (put_clusters {[ "c1" := old_cluster ]} no_objects) ∅ ∅.

Definition version_flags : ClusterEditConfig.t := {|
  ClusterEditConfig.ClusterName := "c1"; ClusterEditConfig.File := "";
  ClusterEditConfig.KubernetesVersion := "v1.14.0"; ClusterEditConfig.Locked := false;
  ClusterEditConfig.Output := "yaml" |}.

Definition no_files (path : string) : outcome string := Err ("open " +:+ path +:+ ": no such file or directory").

Lemma edit_version_ok_witness :
  runUpdateCluster sp0 no_files version_flags [] (edit_store, 5) =
    (Ok (), (store_cluster (res_assign (next_generation edited_cluster 5%Z)) edit_store, 6)).
Proof.
  exact (proj1 (edit_version_ok (Crt := Z) (Key := Z) no_files (Ok ∘ id) Ok (Ok ∘ id) (Ok ∘ id) version_flags []
    "c1" "v1.14.0" old_cluster (res_assign (next_generation edited_cluster 5%Z)) edit_store 5
    eq_refl eq_refl eq_refl ltac:(done) ltac:(done) eq_refl eq_refl eq_refl eq_refl) eq_refl).
Defined.

Lemma spec_clusters_read n (s : sstore) : (op_Get (st_Clusters sp0) n s).2 = s.
Proof.
  destruct s as [o c k]. cbn. unfold on_clusters, zoom, spec_Get. case_decide; [by destruct o|].
  cbn. by destruct (_ !! n); destruct o.
Qed.

Lemma spec_machinesets_read cl n (s : sstore) : (op_Get (st_MachineSets sp0 cl) n s).2 = s.
Proof.
  assert (∀ r : outcome MachineSet,
    (zoom (λ s : sstore, ob_machinesets (ph_objects s) cl)
          (λ v s, set_objects (put_machinesets cl v (ph_objects s)) s) (λ m, (r, m)) s).2 = s) as Hz.
  { intros r. destruct s as [[a b d e] c k]. cbn. unfold set_objects, put_machinesets. cbn. f_equal. f_equal.
    apply functional_extensionality. intros x. by case_decide; subst. }
  cbn. unfold on_machinesets, spec_Get. cbn. case_decide; [apply (Hz (Err _))|].
  specialize (Hz (match ob_machinesets (ph_objects s) cl !! n with None => Err "does not exist" | Some o => Ok o end)).
  unfold zoom in *. cbn in *. by destruct (_ !! n).
Qed.

Lemma edit_flags_useless_witness :
  let locked := ClusterEditConfig.Make "c1" "" "" true "yaml" in
  is_ok (runUpdateCluster sp0 no_files locked [] (edit_store, 5)).1 = false ∧
  (runUpdateCluster sp0 no_files locked [] (edit_store, 5)).2 = (edit_store, 5).
Proof.
  exact (proj1 (proj2 (edit_flags_useless sp0 no_files spec_clusters_read spec_machinesets_read []))
           (ClusterEditConfig.Make "c1" "" "" true "yaml") (edit_store, 5) eq_refl eq_refl eq_refl).
Defined.

Lemma short_duration_units_witness :
  (1 ≤ 90 ≤ 8800)%Z ∧ ShortHumanDuration (90 * Hour) = "3d" ∧ ShortHumanDuration (8736 * Hour) = "0y".
Proof.
  split; [lia|]. split.
  - exact (proj1 (proj2 (proj2 (short_duration_units 90))) ltac:(lia)).
  - exact (proj2 (proj2 (proj2 (short_duration_units 8736))) ltac:(lia)).
Defined.

Definition get_store : sstore :=
  Pharmer (put_machinesets "c1" {[ "pool" := sample_machineset "pool" ]}
            (put_clusters {[ "c1" := old_cluster ]} no_objects)) ∅ ∅.

Lemma get_prints_table_witness :
  (runGetNodeGroup sp0 (NodeGroupGetConfig.Make "" "" []) (get_store, 0)).1 =
    Ok (table TMachineSet [OMachineSet (sample_machineset "pool")] 0).
Proof.
  destruct (map_each (λ cl, getMachineSetList sp0 cl []) ["c1"] get_store) as [r s'] eqn:E.
  assert (r = Ok [[sample_machineset "pool"]]) as -> by (transitivity (r, s').1; [done|by rewrite <-E]).
  by rewrite (proj1 (get_prints_table sp0 get_store s' 0) (NodeGroupGetConfig.Make "" "" []) [old_cluster]
                [[sample_machineset "pool"]] (or_introl eq_refl) eq_refl eq_refl E).
Defined.
