(* ===== verification/ProviderSamples.v ===== *)
(** * Concrete instances for the start-up scripts and the providers

    A cloud of droplets, of which a listing shows twenty, one of stack scripts and one
    of ssh keys, each with its connector; and the witnesses of the theorems of
    Startup.v, DigitalOceanProofs.v, LinodeProofs.v and PacketProofs.v. *)
From stdpp Require Import base list gmap strings pretty fin_maps.
From Stdlib Require Import Ascii.
From S2P Require Import Prelude GoStrings Api StoreSpec VfsStore Samples Provider Certs Kube Cloud CloudProofs Apply.
From S2P Require Import StoreFrame CloudSamples Startup ProviderParts ProviderFrame.
From S2P Require Import DigitalOcean DigitalOceanProofs Linode LinodeProofs Packet PacketProofs.
Import DigitalOcean.

(** Versions are numbers, minor times 100 plus patch. *)
Definition release_versions : gmap string Z :=
  {[ "1.11.0" := 1100%Z; "1.12.0" := 1200%Z; "v1.11.3" := 1103%Z; "v1.13.5" := 1305%Z ]}.

Definition minor_text (v : Z) : string := "1." +:+ pretty (v `div` 100)%Z.

#[export] Instance sample_startup : StartupLib Z Z := {|
  pubkeypin_Hash _ := "sha256:0"; yaml_init _ := Ok "init"; yaml_cluster _ := Ok "cluster";
  yaml_join j := Ok ("token: " +:+ join_Token j);
  parse_version s := match release_versions !! s with Some v => Ok v | None => Err "malformed version" end;
  Prerelease _ := "";
  patch_version v := minor_text v +:+ "." +:+ pretty (v `mod` 100)%Z;
  minor_version v := minor_text v +:+ ".0";
  LessThan := Z.ltb;
  template_Parse _ := Ok ();
  ExecuteTemplate _ role _ _ := Ok ("script of a " +:+ role) |}.

(** ** Versions *)
Definition data_of (version : string) : TemplateData :=
  {| td_ClusterName := "c1"; td_KubernetesVersion := version; td_KubeadmToken := ""; td_CAHash := "";
     td_CAKey := ""; td_FrontProxyKey := ""; td_SAKey := ""; td_ETCDCAKey := ""; td_APIServerAddress := "";
     td_NetworkProvider := "calico"; td_CloudConfig := ""; td_Provider := "digitalocean"; td_NodeName := "";
     td_ExternalProvider := false; td_InitConfiguration := None; td_ClusterConfiguration := None;
     td_JoinConfiguration := ""; td_KubeletExtraArgs := ∅; td_ControlPlaneJoin := false; td_shared := false |}.

(** A patch of 1.11 has its packages, but no pre-k. *)
Lemma startup_versions_witness :
  is_ok (PrekVersion Z Z (data_of "v1.13.5")) && is_ok (PackageList Z Z (data_of "v1.13.5")) = true ∧
  is_ok (PackageList Z Z (data_of "v1.11.3")) = true.
Proof.
  split.
  - apply (proj1 (startup_versions (data_of "v1.13.5") 1305%Z 1200%Z ltac:(by vm_compute) ltac:(by vm_compute))).
    split; [done|]. vm_compute. set_solver.
  - apply (proj2 (startup_versions (data_of "v1.11.3") 1103%Z 1200%Z ltac:(by vm_compute) ltac:(by vm_compute))).
    split; [done|]. right. vm_compute. by eexists.
Defined.

(** ** Clouds of any instances, with the connector in front *)
#[export] Instance sample_connector {A : Type} : Connector (option string * A) := {|
  conn_token := fst; with_conn c x := (c, x.2) |}.
#[export] Instance sample_controllers {X : Type} : Controllers X := {|
  Machine_Status_Update _ := mret (); CapiCluster_Status_Update _ := mret (); TokenCreate := mret "abc.def" |}.
#[export] Instance sample_nodes {X : Type} : Nodes X () := {|
  Nodes_List _ role := mret [("c1-master-0", "linode://0")]; Nodes_Delete _ _ := mret () |}.

(** ** DigitalOcean *)
Definition do_cloud : Type := option string * list Droplet.

(** A machine's description as a number in binary: its fields, encoded. *)
Definition spec_fields (s : DigitalOceanMachineProviderSpec) :=
  ((APIVersion (do_TypeMeta s), Kind (do_TypeMeta s), do_Region s, do_Size s, do_Image s),
   (do_Tags s, do_SSHPublicKeys s), (do_PrivateNetworking s, do_Backups s, do_IPv6 s, do_Monitoring s)).
Definition spec_of_fields '(((v, k, r, z, i), (tags, keys), (n, b, six, m)) :
    (string * string * string * string * string) * (list string * list string) * (bool * bool * bool * bool)) :
    DigitalOceanMachineProviderSpec :=
  {| do_TypeMeta := {| APIVersion := v; Kind := k |}; do_Region := r; do_Size := z; do_Image := i; do_Tags := tags;
     do_SSHPublicKeys := keys; do_PrivateNetworking := n; do_Backups := b; do_IPv6 := six; do_Monitoring := m |}.
Fixpoint bits (p : positive) : string :=
  match p with xH => "" | xO p => String "0"%char (bits p) | xI p => String "1"%char (bits p) end.
Fixpoint of_bits (s : string) : positive :=
  match s with
  | "" => xH
  | String c s => if decide (c = "1"%char) then xI (of_bits s) else xO (of_bits s)
  end.
Lemma bits_read p : of_bits (bits p) = p.
Proof. induction p as [p IH|p IH|]; cbn; by rewrite ?IH. Qed.

Definition spec_text (s : DigitalOceanMachineProviderSpec) : string := bits (countable.encode (spec_fields s)).
Definition spec_of_text (raw : string) : outcome DigitalOceanMachineProviderSpec :=
  match countable.decode (of_bits raw) with
  | Some f => Ok (spec_of_fields f)
  | None => Err "unexpected end of JSON input"
  end.

Lemma spec_text_read s : spec_of_text (spec_text s) = Ok s.
Proof.
  unfold spec_of_text, spec_text. rewrite bits_read, countable.decode_encode.
  by destruct s as [[] ? ? ? ? ? ? ? ? ?].
Qed.

#[export] Instance sample_do_json : DigitalOceanJson := {|
  json_MachineSpec s := Ok (spec_text s);
  unjson_MachineSpec raw := spec_of_text raw;
  json_MachineStatus s := Ok ("status " +:+ InstanceStatus s);
  unjson_MachineStatus raw := Err "unexpected end of JSON input";
  json_ClusterSpec _ := Ok "{}"; json_ClusterStatus _ := Ok "{}";
  unjson_ClusterStatus raw := Err "unexpected end of JSON input" |}.

#[export] Instance sample_do_json_laws : DigitalOceanJsonLaws.
Proof. split; [by eexists| |by eexists]. intros spec raw [= <-]. apply spec_text_read. Qed.

Definition new_droplet (req : DropletCreateRequest) (l : list Droplet) : Droplet :=
  {| drop_ID := Z.of_nat (length l); drop_Name := dcr_Name req; drop_Status := "active" |}.

Definition with_id (id : Z) (d : Droplet) : bool := bool_decide (drop_ID d = id).

Definition sample_balancer : doLoadBalancer :=
  {| do_lb_ID := "lb"; do_lb_Name := "c1-lb"; do_lb_IP := "10.0.0.1"; do_lb_Algorithm := "least_connections";
     do_lb_Status := "active"; do_lb_Created := ""; ForwardingRules := []; do_lb_HealthCheck := None;
     do_lb_StickySessions := None; do_lb_Region := Some "nyc1"; RedirectHttpToHttps := false |}.

#[export] Instance sample_do_api : DigitalOceanAPI do_cloud Z := {|
  credential_Token c := match cred_Data c !! "token" with Some t => Ok t | None => Err "token is missing" end;
  OpensshFingerprint k := "fp " +:+ pretty k; SSHKey_PublicKey k := "pub " +:+ pretty k;
  Tags_Create _ _ := mret (); Tags_Delete _ _ := mret (); Tags_Get _ _ := mret (Some 200%Z, inl ());
  Keys_GetByFingerprint _ _ := mret (Some StatusNotFound, inr "404"); Keys_Create _ _ := mret 1%Z;
  Keys_DeleteByFingerprint _ _ := mret ();
  Droplets_List _ x := (Ok (take 20 x.2), x);
  Droplets_Get _ id x := (match List.find (with_id id) x.2 with Some d => Ok d | None => Err "404" end, x);
  Droplets_Create _ req x := let d := new_droplet req x.2 in (Ok d, (x.1, x.2 ++ [d]));
  Droplets_Delete _ id x := (Ok (), (x.1, List.filter (λ d, negb (with_id id d)) x.2));
  Droplets_DeleteByTag _ _ := mret ();
  LoadBalancers_List _ := mret [sample_balancer]; LoadBalancers_Get _ _ := mret sample_balancer;
  LoadBalancers_Create _ _ := mret sample_balancer; LoadBalancers_Update _ _ _ := mret sample_balancer;
  LoadBalancers_Delete _ _ := mret () |}.

#[export] Instance sample_droplets : DropletLaws (X := do_cloud) snd 20.
Proof.
  split.
  - done.
  - intros t x l. cbn. by intros [= <-].
  - done.
  - intros t req x. right. by exists (new_droplet req x.2).
Qed.

Lemma droplet_id_roundtrip_witness :
  dropletIDFromProviderID ("digitalocean://" +:+ pretty 12345%Z) = Ok 12345%Z ∧
  ∃ p m d, Split "/"%char "digitalocean://7" = [p; m; d] ∧ drop_colon p = UID_digitalocean ∧ Atoi d = Ok 7%Z.
Proof.
  split.
  - apply (proj1 (droplet_id_roundtrip 12345)). lia.
  - apply (proj2 (droplet_id_roundtrip 0)). vm_compute. reflexivity.
Defined.

Notation denv := (env (S := sstore) (Crt := Z) (Key := Z) (SSHKey := Z) (X := do_cloud) (KC := ())).
Notation do_manager := (DigitalOcean.ClusterManager (X := do_cloud) (CC := ()) (BC := ()) (V := Z) sp0 "controllers" "").

(** ** A new cluster at DigitalOcean *)
Definition do_providers (p : string) : option Interface :=
  if decide (p = "digitalocean") then Some do_manager else None.

(** An account of keys, tags and balancers, all of which are active. *)
Definition do_account : Type := option string * account.

Definition active_lb (b : string * string) : doLoadBalancer :=
  {| do_lb_ID := b.1; do_lb_Name := b.2; do_lb_IP := "10.0.0.1"; do_lb_Algorithm := "least_connections";
     do_lb_Status := "active"; do_lb_Created := "";
     ForwardingRules := [{| EntryProtocol := "tcp"; EntryPort := 6443; TargetProtocol := "tcp"; TargetPort := 6443;
                            CertificateID := ""; TlsPassthrough := false |}];
     do_lb_HealthCheck := None; do_lb_StickySessions := None; do_lb_Region := Some "nyc1";
     RedirectHttpToHttps := false |}.

Definition answer {A} (found : bool) (a : A) : outcome (reply A) :=
  Ok (if found then (Some 200%Z, inl a) else (Some StatusNotFound, inr "404")).

#[export] Instance sample_account_api : DigitalOceanAPI do_account Z := {|
  credential_Token c := Ok "secret";
  OpensshFingerprint k := "fp " +:+ pretty k; SSHKey_PublicKey k := pretty k;
  Tags_Create _ n x := (Ok (), (x.1, Account (acc_keys x.2) (acc_tags x.2 ++ [n]) (acc_balancers x.2)));
  Tags_Delete _ _ := mret ();
  Tags_Get _ n x := (answer (bool_decide (n ∈ acc_tags x.2)) (), x);
  Keys_GetByFingerprint _ fp x := (answer (bool_decide (fp ∈ acc_keys x.2)) 7%Z, x);
  Keys_Create _ pub x :=
    (Ok 7%Z, (x.1, Account (acc_keys x.2 ++ ["fp " +:+ pub]) (acc_tags x.2) (acc_balancers x.2)));
  Keys_DeleteByFingerprint _ fp x :=
    (Ok (), (x.1, Account (base.filter (.≠ fp) (acc_keys x.2)) (acc_tags x.2) (acc_balancers x.2)));
  Droplets_List _ := mret []; Droplets_Get _ _ := throw "404";
  Droplets_Create _ _ := throw "422"; Droplets_Delete _ _ := mret (); Droplets_DeleteByTag _ _ := mret ();
  LoadBalancers_List _ x := (Ok (active_lb <$> take 20 (acc_balancers x.2)), x);
  LoadBalancers_Get _ id := mret (active_lb (id, "c1-lb"));
  LoadBalancers_Create _ req x :=
    let id := pretty (length (acc_balancers x.2)) in
    (Ok (active_lb (id, lbr_Name req)),
     (x.1, Account (acc_keys x.2) (acc_tags x.2) (acc_balancers x.2 ++ [(id, lbr_Name req)])));
  LoadBalancers_Update _ _ _ := throw "422";
  LoadBalancers_Delete _ id x :=
    (Ok (), (x.1, Account (acc_keys x.2) (acc_tags x.2) (base.filter (λ b, b.1 ≠ id) (acc_balancers x.2)))) |}.

Lemma answer_truthful {A} (P : Prop) `{Decision P} (a : A) r : answer (bool_decide P) a = Ok r → truthful r P.
Proof.
  intros [= <-]. case_bool_decide; split; cbn; try done.
Qed.

#[export] Instance sample_account : AccountLaws (X := do_account) (KC := ()) (SSHKey := Z) snd 20.
Proof.
  split; try done.
  - intros t fp x r. apply answer_truthful.
  - intros t n x r. apply answer_truthful.
  - intros t x l. cbn. intros [= <-]. rewrite <-list_fmap_compose. rewrite <-(list_fmap_id (take _ _)) at 2.
    apply list_fmap_ext. by intros i [].
  - intros t id x lb. cbn. by intros [= <-].
  - intros t req x lb. cbn. by intros [= <-].
Qed.

Notation account_env := (env (S := sstore) (Crt := Z) (Key := Z) (SSHKey := Z) (X := do_account) (KC := ())).

(** The cluster before and after its cloud is prepared; it is stored, and about to go *)
Definition leaving_cluster : Cluster := append_endpoint (in_phase ClusterDeleting) "10.0.0.9".
Definition new_account : account_env :=
  Env (set_objects (put_clusters {[ "c1" := leaving_cluster ]} (ph_objects empty_store)) empty_store) 0
      (Some "secret", Account [] [] [("9", "other-lb")])
      {| sc_Cluster := Some leaving_cluster; sc_Certs := Some created_certs;
         sc_CloudManager := None; sc_AdminClient := Some () |}.
Definition prepared_env : account_env := (PrepareCloud (SSHKey := Z) new_account).2.

Lemma prepared_ok : PrepareCloud (SSHKey := Z) new_account = (Ok (), prepared_env).
Proof.
  assert (is_ok (PrepareCloud (SSHKey := Z) new_account).1 = true) as Hok by (vm_compute; reflexivity).
  unfold prepared_env. by destruct (PrepareCloud _) as [[[]|?|?] ?].
Qed.

Notation account_deleted := (ApplyDelete (CC := ()) (BC := ()) sp0 new_account).
Lemma account_deleted_ok : account_deleted = (Ok (), account_deleted.2).
Proof.
  assert (is_ok account_deleted.1 = true) as Hok by (vm_compute; reflexivity).
  by destruct account_deleted as [[[]|?|?] ?].
Qed.

Lemma digitalocean_provider_witness :
  ProviderLaws has_ssh
    (DigitalOcean.ClusterManager (X := do_account) (KC := ()) (CC := ()) (BC := ()) (V := Z) sp0 "controllers" "") ∧
  (∃ lb, (e_cloud prepared_env).2 =
           prepared 20 (OpensshFingerprint (SSHKey_ created_certs)) leaving_cluster lb (Account [] [] [("9", "other-lb")])) ∧
  (e_cloud account_deleted.2).2 = Account [] [] [("9", "other-lb")].
Proof.
  destruct (digitalocean_provider (X := do_account) (KC := ()) (CC := ()) (BC := ()) (V := Z) snd 20 id Ok id id
              "controllers" "") as [Hlaws Hall].
  split; [exact Hlaws|]. destruct (Hall new_account leaving_cluster eq_refl) as (_ & _ & Hcerts).
  destruct (Hcerts created_certs eq_refl) as (Hprep & _ & Hdel). split.
  - destruct (Hprep _ prepared_ok) as (lb & _ & _ & _ & _ & _ & E & _). by exists lb.
  - rewrite (proj1 (Hdel _ account_deleted_ok)). vm_compute. reflexivity.
Defined.

(** The cluster with kubelet arguments of its own, its masters stored, connected. *)
Definition do_created : denv :=
  (CreateCluster sp0 do_providers
     (Env empty_store 0 (Some "secret", []) (NewScope (with_KubeletExtraArgs (new_cluster 2) {[ "v" := "4" ]})))).2.

Definition do_cluster : Cluster := default (new_cluster 2) (sc_Cluster (e_scope do_created)).
Definition do_master : Machine :=
  default (sample_machine "") (ob_machines (ph_objects (e_store do_created)) "c1" !! "c1-master-0").

Lemma do_cluster_here : sc_Cluster (e_scope do_created) = Some do_cluster.
Proof. vm_compute. reflexivity. Qed.

Notation do_master_hooks := (hooks (S := sstore) (Crt := Z) (Key := Z) (SSHKey := Z) (X := do_cloud) (KC := ()) (V := Z) "").

Notation masters_data := (NewMasterTemplateData (V := Z) do_master_hooks do_master "abc" do_created).

Definition data_in (r : outcome TemplateData) : TemplateData := match r with Ok td => td | _ => data_of "" end.

Lemma masters_data_ok : masters_data = (Ok (data_in masters_data.1), masters_data.2).
Proof.
  assert (is_ok masters_data.1 = true) as Hok by (vm_compute; reflexivity).
  by destruct masters_data as [[] ?].
Qed.

Lemma kubelet_args_shared_witness :
  ∃ c' args, sc_Cluster (e_scope masters_data.2) = Some c' ∧ KubeletExtraArgs (Config (Spec c')) = Some args ∧
             args !! "node-labels" = Some (master_labels do_master).
Proof.
  apply (proj2 (proj2 (kubelet_args_shared do_master_hooks do_master "abc" do_created (data_in masters_data.1)
           masters_data.2 do_cluster do_cluster_here))).
  - vm_compute. by eexists.
  - exact masters_data_ok.
Defined.

Lemma abc_not_empty : "abc" ≠ "".
Proof. done. Qed.

Lemma control_plane_join_no_token_witness :
  ∃ j, yaml_join (V := Z) j = Ok (td_JoinConfiguration (data_in masters_data.1)) ∧ join_Token j = "" ∧
       is_Some (join_ControlPlane j).
Proof.
  apply (control_plane_join_no_token do_master_hooks do_master "abc" do_created (data_in masters_data.1)
           masters_data.2 do_cluster do_cluster_here abc_not_empty masters_data_ok).
Defined.

(** The master is made once: ensured again, nothing is created. *)
Definition ensured : denv := (EnsureMaster (V := Z) sp0 "" do_master do_created).2.

Example made_once : drop_Name <$> (e_cloud ensured).2 = ["c1-master-0"].
Proof. vm_compute. reflexivity. Qed.

Lemma ensure_master_droplets_witness :
  one_more snd (machine_Name do_master) do_created ensured ∧
  (machine_Name do_master ∈ (drop_Name <$> take 20 (there snd ensured)) →
   there snd (EnsureMaster (V := Z) sp0 "" do_master ensured).2 = there snd ensured).
Proof.
  split.
  - apply (ensure_master_droplets snd 20 sp0 "" do_master do_created "secret"). vm_compute. reflexivity.
  - apply (ensure_master_droplets snd 20 sp0 "" do_master ensured "secret").
    + vm_compute. reflexivity.
    + intros d Hd. assert (there snd ensured = [new_droplet {| dcr_Name := "c1-master-0"; dcr_Region := "";
        dcr_Size := ""; dcr_Image := ""; dcr_SSHKeys := []; dcr_PrivateNetworking := true; dcr_IPv6 := false;
        dcr_UserData := ""; dcr_Tags := [] |} []]) as E by (vm_compute; reflexivity).
      rewrite E in Hd. apply list_elem_of_singleton in Hd as ->. vm_compute. reflexivity.
    + vm_compute. reflexivity.
    + vm_compute. reflexivity.
Defined.

(** ** Linode: stack scripts by their ID *)
Definition li_cloud : Type := option string * gmap Z Linode.Stackscript.

Definition numbered (ks : Z * Linode.Stackscript) : Linode.Stackscript :=
  {| Linode.ss_ID := ks.1; Linode.ss_Label := Linode.ss_Label ks.2; Linode.ss_Description := Linode.ss_Description ks.2;
     Linode.ss_Images := Linode.ss_Images ks.2; Linode.ss_Script := Linode.ss_Script ks.2 |}.
Definition li_scripts (x : li_cloud) : list Linode.Stackscript := numbered <$> map_to_list x.2.

Lemma li_scripts_elem x s : s ∈ li_scripts x ↔ ∃ s0, x.2 !! Linode.ss_ID s = Some s0 ∧ s = numbered (Linode.ss_ID s, s0).
Proof.
  unfold li_scripts. rewrite list_elem_of_fmap. split.
  - intros ([k s0] & -> & Hin). apply elem_of_map_to_list in Hin. by exists s0.
  - intros (s0 & Hs & E). exists (Linode.ss_ID s, s0). split; [done|]. by apply elem_of_map_to_list.
Qed.

Definition sample_balancer_li : Linode.NodeBalancer :=
  {| Linode.nb_ID := 1; Linode.nb_Label := Some "c1-lb"; Linode.nb_Region := "us-east"; Linode.nb_Hostname := None;
     Linode.nb_IPv4 := Some "10.0.0.2"; Linode.nb_IPv6 := None; Linode.nb_ClientConnThrottle := 20; Linode.nb_Tags := [] |}.
Definition sample_instance : Linode.Instance :=
  {| Linode.inst_ID := 0; Linode.inst_Label := "c1-master-0"; Linode.inst_Status := "running";
     Linode.inst_IPv4 := ["203.0.113.1"; "192.168.0.1"] |}.

Definition has_label (l : string) (s : Linode.Stackscript) : bool := bool_decide (Linode.ss_Label s = l).

#[export] Instance sample_li_json : Linode.LinodeJson := {|
  Linode.json_MachineSpec _ := Ok "{}"; Linode.unjson_MachineSpec _ := Err "no JSON";
  Linode.json_MachineStatus _ := Ok "{}"; Linode.unjson_MachineStatus _ := Err "no JSON";
  Linode.json_ClusterStatus _ := Ok "{}"; Linode.unjson_ClusterStatus _ := Err "no JSON" |}.
#[export] Instance sample_li_json_laws : LinodeJsonLaws.
Proof. split. by eexists. Qed.

#[export] Instance sample_li_api : Linode.LinodeAPI li_cloud Z := {|
  Linode.credential_APIToken c := match cred_Data c !! "token" with Some t => Ok t | None => Err "token is missing" end;
  Linode.GeneratePassword n := "password" +:+ pretty n; Linode.SSHKey_PublicKey k := "pub " +:+ pretty k;
  Linode.GetInstance _ _ := mret sample_instance; Linode.ListInstances _ := mret [];
  Linode.api_CreateInstance _ _ := mret sample_instance; Linode.DeleteInstance _ _ := mret ();
  Linode.ListStackscripts _ l x := (Ok (List.filter (has_label l) (li_scripts x)), x);
  Linode.CreateStackscript _ s x :=
    let id := Z.of_nat (size x.2) in (Ok (numbered (id, s)), (x.1, <[id := s]> x.2));
  Linode.UpdateStackscript _ id s x := (Ok (numbered (id, s)), (x.1, <[id := s]> x.2));
  Linode.DeleteStackscript _ id x := (Ok (), (x.1, delete id x.2));
  Linode.ListNodeBalancers _ := mret [sample_balancer_li]; Linode.GetNodeBalancer _ _ := mret (Some sample_balancer_li);
  Linode.CreateNodeBalancer _ _ _ _ := mret 1%Z; Linode.CreateNodeBalancerConfig _ _ _ := mret 1%Z;
  Linode.ListNodeBalancerConfigs _ _ := mret [1%Z]; Linode.CreateNodeBalancerNode _ _ _ _ := mret ();
  Linode.DeleteNodeBalancer _ _ := mret () |}.

#[export] Instance sample_scripts : ScriptLaws (X := li_cloud) (KC := ()) (SSHKey := Z) li_scripts.
Proof.
  split; try done.
  - intros x s s'. rewrite !li_scripts_elem. intros (a & Ha & ->) (b & Hb & ->) E. cbn in *. rewrite E in Ha |- *. congruence.
  - intros t l x ss s. cbn. intros [= <-]. rewrite list_elem_of_In, List.filter_In, <-list_elem_of_In.
    intros [Hin Hl]. split; [done|]. by apply bool_decide_eq_true in Hl.
  - intros t id x s. rewrite !li_scripts_elem. cbn. intros (a & Ha & E) Hne. exists a. by rewrite lookup_delete_ne.
  - intros t id x s. rewrite !li_scripts_elem. cbn. intros (a & [_ Ha]%lookup_delete_Some & E). by exists a.
Qed.

Notation li_env := (env (S := sstore) (Crt := Z) (Key := Z) (SSHKey := Z) (X := li_cloud) (KC := ())).

Lemma linode_provider_witness :
  ProviderLaws has_ssh (Linode.ClusterManager (X := li_cloud) (KC := ()) (SSHKey := Z) (CC := ()) (BC := ()) (V := Z)
                          sp0 "controllers" "").
Proof.
  exact (proj1 (linode_provider (X := li_cloud) (CC := ()) (BC := ()) (V := Z) (Ok ∘ id) Ok (Ok ∘ id) (Ok ∘ id)
                  "controllers" "")).
Defined.

(** The script of the first master, before the cluster is taken down. *)
Definition master_script : Linode.Stackscript :=
  {| Linode.ss_ID := 0; Linode.ss_Label := "c1-c1-master-0-Master"; Linode.ss_Description := "";
     Linode.ss_Images := []; Linode.ss_Script := "#!/bin/bash" |}.
Definition li_deleting : li_env :=
  Env empty_store 0 (Some "secret", {[ 0%Z := master_script ]}) (NewScope (in_phase ClusterDeleting)).

Lemma stack_scripts_left_witness :
  master_script ∈ li_scripts (e_cloud (Linode.ApplyDelete (CC := ()) (BC := ()) sp0 li_deleting).2).
Proof.
  apply (stack_scripts_left li_scripts sp0 li_deleting master_script).
  - apply li_scripts_elem. by exists master_script.
  - exists (in_phase ClusterDeleting), "c1-master-0", MasterMachineRole. vm_compute. reflexivity.
Defined.

(** ** Packet: a project that refuses new keys *)
Definition pa_cloud : Type := option string * ().

#[export] Instance sample_pa_json : Packet.PacketJson := {|
  Packet.json_MachineSpec _ := Ok "{}"; Packet.unjson_MachineSpec _ := Err "no JSON";
  Packet.unyaml_MachineSpec _ := Err "no YAML";
  Packet.json_MachineStatus _ := Ok "{}"; Packet.unjson_MachineStatus _ := Err "no JSON";
  Packet.json_ClusterStatus _ := Ok "{}"; Packet.json_CloudConfig _ := Ok "{}" |}.
#[export] Instance sample_pa_json_laws : PacketJsonLaws.
Proof. split. by eexists. Qed.

Definition sample_device : Packet.Device :=
  {| Packet.dev_ID := "d"; Packet.Hostname := "c1-master-0"; Packet.dev_State := "active"; Packet.Network := [] |}.

#[export] Instance sample_pa_api : Packet.PacketAPI pa_cloud Z := {|
  Packet.credential_Packet c := Ok ("project", "key"); Packet.SSHKey_PublicKey k := "pub " +:+ pretty k;
  Packet.Devices_List _ _ := mret []; Packet.Devices_Get _ _ := mret sample_device;
  Packet.Devices_Create _ _ := mret sample_device; Packet.Devices_Delete _ _ := mret ();
  Packet.SSHKeys_Get _ _ := mret (Some StatusNotFound, inr "404"); Packet.SSHKeys_ProjectList _ _ := mret [];
  Packet.SSHKeys_Create _ _ _ _ := throw "422 key is invalid" |}.

Lemma packet_provider_witness :
  ProviderLaws (λ _ _, True) (Packet.ClusterManager (X := pa_cloud) (KC := ()) (SSHKey := Z) (CC := ()) (BC := ()) (V := Z)
                          sp0 "controllers" "").
Proof.
  exact (proj1 (packet_provider (X := pa_cloud) (CC := ()) (BC := ()) (V := Z) "controllers" "" sstore sp0)).
Defined.

Definition pa_certs : Certificates Z Z Z :=
  {| CACert := sample_ca; FrontProxyCACert := sample_ca; ServiceAccountCert := sample_ca; EtcdCACert := sample_ca;
     SSHKey_ := 0%Z |}.

Definition pa_env : env (S := sstore) (Crt := Z) (Key := Z) (SSHKey := Z) (X := pa_cloud) (KC := ()) :=
  Env empty_store 0 (Some "secret", ())
      {| sc_Cluster := Some (new_cluster 1); sc_Certs := Some pa_certs; sc_CloudManager := None;
         sc_AdminClient := None |}.

Lemma packet_key_error_lost_witness :
  ∃ e', Packet.PrepareCloud pa_env = (Ok (), e') ∧ e_cloud e' = (Some "secret", ()) ∧
    sc_Cluster (e_scope e') = Some (with_SSHKeyExternalID (new_cluster 1) "").
Proof.
  exact (packet_key_error_lost pa_env (new_cluster 1) pa_certs "secret" [] (Some "secret", ()) "422 key is invalid"
           (Some "secret", ()) [] (Some "secret", ()) eq_refl eq_refl eq_refl eq_refl eq_refl eq_refl eq_refl eq_refl
           eq_refl eq_refl eq_refl).
Defined.
