(* ===== verification/ManagedSamples.v ===== *)
(** * Concrete instances for the providers of managed clusters

    One cloud of named node pools serves Dokube, GKE, AKS and EKS; and the witnesses of
    the theorems of ManagedProofs.v and AwsApiProofs.v. *)
From stdpp Require Import base list gmap strings pretty fin_maps.
From Stdlib Require Import Ascii.
From S2P Require Import Prelude GoStrings GoPath Api StoreSpec VfsStore Samples Provider Certs Kube Cloud CloudProofs Apply.
From S2P Require Import StoreFrame CloudSamples Startup ProviderParts ProviderFrame Edit ProviderSamples.
From S2P Require Import Managed CloudApi AwsApi AwsApiProofs Dokube Gke Aks Eks ManagedFrame ManagedProofs.

(** ** The cloud: a token, and the sizes of node pools by their names *)
Definition mcloud : Type := option string * gmap string Z.

#[export] Instance m_connector : Connector mcloud := sample_connector.

Definition put_pool (name : string) (n : Z) : GoM mcloud () := λ x, (Ok (), (x.1, <[name := n]> x.2)).
Definition drop_pool (name : string) : GoM mcloud () := λ x, (Ok (), (x.1, delete name x.2)).
Definition get_pool (name : string) : GoM mcloud Z := λ x,
  match x.2 !! name with Some n => (Ok n, x) | None => (Err "404 not found", x) end.

#[export] Instance sample_pem : PemText Z Z := {|
  ParseCertsPEM s := if decide (s = "") then Err "no certificates" else Ok [Z.of_nat (String.length s)];
  ParsePrivateKeyPEM _ := Ok (Some 5%Z);
  base64_decode s := Ok s |}.

#[export] Instance sample_dokube_text : Dokube.DokubeText := {|
  Dokube.json_Config _ := Ok "{}"; Dokube.DokubeProviderConfig _ := Ok {| Dokube.dk_TypeMeta := zero_TypeMeta; Dokube.Size := "" |};
  Dokube.url_Host s := Ok s;
  Dokube.clientcmd_Load _ := Err "no kubeconfig" |}.

#[export] Instance sample_dokube : Dokube.DokubeAPI mcloud := {|
  Dokube.credential_Token _ := Ok "secret"; Dokube.Tags_Create _ _ := mret (); Dokube.Tags_Delete _ _ := mret ();
  Dokube.Kubernetes_Create _ r := mret {| Dokube.kl_ID := "k"; Dokube.kl_Endpoint := ""; Dokube.kl_State := "running" |};
  Dokube.Kubernetes_Get _ id := mret {| Dokube.kl_ID := id; Dokube.kl_Endpoint := ""; Dokube.kl_State := "running" |};
  Dokube.Kubernetes_Delete _ _ := mret (); Dokube.Kubernetes_GetKubeConfig _ _ := mret "";
  Dokube.Kubernetes_ListNodePools _ _ x :=
    (Ok ((λ p, {| Dokube.np_ID := p.1; Dokube.np_Name := p.1 |}) <$> map_to_list x.2), x);
  Dokube.Kubernetes_GetNodePool _ _ id := _ ← get_pool id; mret (Some {| Dokube.np_ID := id; Dokube.np_Name := id |});
  Dokube.Kubernetes_CreateNodePool _ _ r := put_pool (Dokube.npr_Name r) (Dokube.npr_Count r);
  Dokube.Kubernetes_DeleteNodePool _ _ id := drop_pool id;
  Dokube.Kubernetes_UpdateNodePool _ _ id _ n := put_pool id n |}.

#[export] Instance sample_gce_json : gce.GceJson := {|
  gce.json_MachineSpec _ := Ok "{}"; gce.unjson_MachineSpec _ := Ok gce.zero_GCEMachineProviderSpec;
  gce.json_ClusterSpec _ := Ok "{}"; gce.unjson_ClusterSpec _ := Ok gce.zero_GCEClusterProviderSpec;
  gce.json_ClusterStatus _ := Ok "{}"; gce.unjson_ClusterStatus _ := Ok gce.zero_GCEClusterProviderStatus |}.

#[export] Instance sample_gke : Gke.GkeAPI mcloud := {|
  Gke.credential_GCE _ := Ok ("project", "account"); Gke.NewServices _ := Ok (); Gke.gke_GeneratePassword _ := "password";
  Gke.Clusters_List _ _ _ := mret (); Gke.Clusters_Get _ _ _ _ := throw "404 not found"; Gke.Clusters_Create _ _ _ _ := mret "op";
  Gke.Clusters_Delete _ _ _ _ := mret "op"; Gke.Operations_Get _ _ _ _ := mret "DONE"; Gke.Networks_Get _ _ _ := mret "10.0.0.0/8";
  Gke.Networks_Insert _ _ _ _ := mret ();
  Gke.NodePools_Get _ _ _ _ name := _ ← get_pool name; mret ();
  Gke.NodePools_Create _ _ _ _ np := _ ← put_pool (Gke.np_Name np) (Gke.InitialNodeCount np); mret "op";
  Gke.NodePools_Delete _ _ _ _ name := _ ← drop_pool name; mret "op";
  Gke.NodePools_SetSize _ _ _ _ name n := _ ← put_pool name n; mret "op" |}.

#[export] Instance sample_azure_json : azure.AzureJson := {|
  azure.json_MachineSpec _ := Ok "{}"; azure.unjson_MachineSpec _ := Ok azure.zero_MachineSpec;
  azure.json_MachineStatus _ := Ok "{}"; azure.unjson_MachineStatus _ := Ok azure.zero_MachineStatus;
  azure.json_ClusterSpec _ := Ok "{}"; azure.unjson_ClusterSpec _ := Ok azure.zero_ClusterSpec;
  azure.json_ClusterStatus _ := Ok "{}"; azure.unjson_ClusterStatus _ := Ok azure.zero_ClusterStatus |}.

Definition pool_profile (p : string * Z) : Aks.AgentPoolProfile :=
  {| Aks.ap_Name := Some p.1; Aks.ap_Count := Some p.2; Aks.ap_VMSize := ""; Aks.ap_OsType := "Linux" |}.

#[export] Instance sample_aks : Aks.AksAPI mcloud Z := {|
  Aks.credential_Azure _ := Err "no credential"; Aks.NewClients _ := Ok "secret"; Aks.SSHKey_PublicKey k := pretty k;
  Aks.SSHKey_PrivateKey k := pretty k; Aks.aks_GeneratePassword _ := "password"; Aks.WithUniqSuffix s n := s +:+ "-" +:+ pretty n;
  Aks.YAMLToJSON s := Ok s; Aks.unjson_Konfig _ := Err "no kubeconfig"; Aks.Groups_Get _ _ := mret ();
  Aks.Groups_CreateOrUpdate _ _ _ _ := mret (); Aks.Groups_Delete _ _ := mret ();
  Aks.Managed_CreateOrUpdate _ _ _ _ := mret ();
  Aks.Managed_Get _ _ name x :=
    (Ok {| Aks.mc_Name := Some name; Aks.mc_ProvisioningState := Some "Succeeded";
           Aks.mc_AgentPools := Some (pool_profile <$> map_to_list x.2) |}, x);
  Aks.Managed_Delete _ _ _ := mret (); Aks.Managed_GetAccessProfile _ _ _ _ := mret None |}.

#[export] Instance sample_aws_json : aws.AwsJson := {|
  aws.json_MachineSpec _ := Ok "{}"; aws.unjson_MachineSpec _ := Ok aws.zero_MachineSpec;
  aws.json_MachineStatus _ := Ok "{}"; aws.unjson_MachineStatus _ := Ok aws.zero_MachineStatus;
  aws.json_ClusterSpec _ := Ok "{}"; aws.unjson_ClusterSpec _ := Ok aws.zero_ClusterSpec;
  aws.json_ClusterStatus _ := Ok "{}"; aws.unjson_ClusterStatus _ := Ok aws.zero_ClusterStatus |}.

#[export] Instance sample_version_equal : Eks.VersionEqual Z := Z.eqb.

(** A cloud whose stacks are its pools, and which refuses to delete them. *)
#[export] Instance sample_eks : Eks.EksAPI mcloud () Z := {|
  Eks.credential_AWS _ := Ok ("id", "secret"); Eks.NewSession _ _ := Ok "secret"; Eks.SSHKey_PublicKey k := pretty k;
  Eks.DescribeStacks _ name x :=
    (Ok (match x.2 !! name with
         | Some _ => [{| Eks.StackStatus := Some "CREATE_COMPLETE"; Eks.Outputs := [] |}]
         | None => [] end), x);
  Eks.CreateStack _ i := put_pool (Eks.si_Name i) 1; Eks.UpdateStack _ _ := mret ();
  Eks.DeleteStack _ _ := throw "AccessDenied"; Eks.DescribeCluster _ _ := mret None; Eks.CreateCluster _ _ := mret ();
  Eks.DeleteCluster _ _ := mret (); Eks.DescribeKeyPairs _ _ := mret 0; Eks.ImportKeyPair _ _ _ := mret ();
  Eks.DeleteKeyPair _ _ := mret (); Eks.PresignIdentity _ _ := mret "url"; Eks.base64_RawURL s := s;
  Eks.std_base64_Decode s := Ok s; Eks.ConfigMaps_Get _ _ := throw "not found"; Eks.ConfigMaps_CreateOrPatch _ _ _ := mret ();
  Eks.yaml_Unmarshal _ l := Ok l; Eks.yaml_Marshal _ := Ok "" |}.

(** ** A cluster with node groups *)
Definition m_cluster : Cluster :=
  with_cluster_config (new_cluster 0) (λ config, with_Cloud config
    (with_managed (Cloud config) "" None (Some {| ClusterID := "k" |}))).

(** A machine set of the name, which is to be deleted when it asks for no machines. *)
Definition node_group (name : string) (n : Z) : MachineSet :=
  let ms := sample_machineset name in
  {| machineset_TypeMeta := machineset_TypeMeta ms; machineset_ObjectMeta := machineset_ObjectMeta ms;
     machineset_Spec := {| Replicas := Some n; MatchLabels := ∅; TemplateLabels := ∅; TemplateCreationTimestamp := 0%Z;
                           TemplateSpec := zero_MachineSpec |};
     machineset_Status := machineset_Status ms |}.

Definition with_groups (l : gmap string MachineSet) : sstore :=
  set_objects (put_machinesets "c1" l (ph_objects empty_store)) empty_store.

Definition m_env (groups : gmap string MachineSet) (pools : gmap string Z) :
    env (S := sstore) (Crt := Z) (Key := Z) (SSHKey := Z) (X := mcloud) (KC := ()) :=
  Env (with_groups groups) 0 (Some "secret", pools)
      {| sc_Cluster := Some m_cluster; sc_Certs := None; sc_CloudManager := None; sc_AdminClient := None |}.

Lemma m_connected groups pools : conn_token (e_cloud (m_env groups pools)) = Some "secret".
Proof. reflexivity. Qed.

Definition gone : gmap string MachineSet := {[ "pool-a" := node_group "pool-a" 0 ]}.
Definition kept : gmap string MachineSet := {[ "pool-a" := node_group "pool-a" 3 ]}.

(** GKE: the pool that is to be deleted goes, with its machine set. *)
Definition gke_scaled := Gke.ng_Apply sp0 (node_group "pool-a" 0) (m_env gone {[ "pool-a" := 2%Z ]}).

Lemma gke_scaled_ok : gke_scaled = (Ok (), gke_scaled.2).
Proof.
  assert (is_ok gke_scaled.1 = true) as Hok by (vm_compute; reflexivity).
  by destruct gke_scaled as [[[]|?|?] ?].
Qed.

Lemma gke_node_group_witness :
  e_store gke_scaled.2 = with_sets "c1" (delete "pool-a" (sets "c1" (m_env gone {[ "pool-a" := 2%Z ]}))) (with_groups gone) ∧
  ∃ op x, pool_call "secret" m_cluster (node_group "pool-a" 0) true (Some "secret", {[ "pool-a" := 2%Z ]}) op x.
Proof.
  destruct (gke_node_group (Ok ∘ id) Ok (Ok ∘ id) (Ok ∘ id) (m_env gone {[ "pool-a" := 2%Z ]}) (node_group "pool-a" 0) m_cluster
              "secret" (Ok ()) (Some "secret", {[ "pool-a" := 2%Z ]}) eq_refl (m_connected _ _)) as [Hok _]; [by vm_compute|].
  destruct (Hok _ gke_scaled_ok) as (t1 & op & x2 & x3 & [= <-] & Hp & _ & _ & (old & _ & Hs) & _). split.
  - rewrite Hs. reflexivity.
  - by exists op, x2.
Defined.

(** Dokube: a new node group is not added. *)
Lemma dokube_node_groups_witness :
  Dokube.ng_Apply sp0 (node_group "pool-b" 3) (m_env kept {[ "pool-a" := 2%Z ]}) =
    (Err "NodePool with name pool-b not found!", m_env kept {[ "pool-a" := 2%Z ]}) ∧
  ∀ e', Dokube.ng_Apply sp0 (node_group "pool-a" 0) (m_env gone {[ "pool-a" := 2%Z ]}) ≠ (Ok (), e').
Proof.
  split.
  - apply (proj1 (dokube_node_groups (Ok ∘ id) Ok (Ok ∘ id) (Ok ∘ id) (m_env kept {[ "pool-a" := 2%Z ]}) (node_group "pool-b" 3)
             m_cluster "k" "secret" eq_refl eq_refl (m_connected _ _)) [{| Dokube.np_ID := "pool-a"; Dokube.np_Name := "pool-a" |}]).
    + vm_compute. reflexivity.
    + apply not_elem_of_cons. split; [done|apply not_elem_of_nil].
  - apply (dokube_node_groups (Ok ∘ id) Ok (Ok ∘ id) (Ok ∘ id) (m_env gone {[ "pool-a" := 2%Z ]}) (node_group "pool-a" 0)
             m_cluster "k" "secret" eq_refl eq_refl (m_connected _ _)); [|reflexivity].
    intros t' id' np x. cbn. unfold get_pool, mbind, gom_bind. destruct (x.2 !! np); done.
Defined.

(** EKS: the stack is still there, the machine set is gone. *)
Lemma eks_stack_left_witness :
  Eks.ng_Apply sp0 None (node_group "pool-a" 0) (m_env gone {[ "pool-a" := 2%Z ]}) =
    (Ok (), Env (with_sets "c1" (delete "pool-a" (sets "c1" (m_env gone {[ "pool-a" := 2%Z ]}))) (with_groups gone)) 0
                (Some "secret", {[ "pool-a" := 2%Z ]}) (e_scope (m_env gone {[ "pool-a" := 2%Z ]}))).
Proof.
  apply (eks_stack_left (Ok ∘ id) Ok (Ok ∘ id) (Ok ∘ id) (m_env gone {[ "pool-a" := 2%Z ]}) (node_group "pool-a" 0) m_cluster "secret" None
           {| Eks.StackStatus := Some "CREATE_COMPLETE"; Eks.Outputs := [] |} [] (Some "secret", {[ "pool-a" := 2%Z ]})
           "AccessDenied" (Some "secret", {[ "pool-a" := 2%Z ]}) (node_group "pool-a" 0));
    try reflexivity; try (vm_compute; reflexivity). done.
Defined.

(** AKS: the pool of a node group that is marked for deletion has its size. *)
Definition doomed : MachineSet :=
  let ms := node_group "pool-a" 2 in
  {| machineset_TypeMeta := machineset_TypeMeta ms;
     machineset_ObjectMeta := with_DeletionTimestamp (machineset_ObjectMeta ms) (Some 5%Z);
     machineset_Spec := machineset_Spec ms; machineset_Status := machineset_Status ms |}.

Definition aks_env := m_env {[ "pool-a" := doomed ]} {[ "pa" := 2%Z ]}.

Lemma aks_scale_keeps_pools_witness :
  Aks.ApplyScale sp0 aks_env =
    (Ok (), Env (op_List (st_MachineSets sp0 "c1") (e_store aks_env)).2 0 (Some "secret", {[ "pa" := 2%Z ]}) (e_scope aks_env)).
Proof.
  apply (aks_scale_keeps_pools sp0 aks_env m_cluster "secret" [doomed] (op_List (st_MachineSets sp0 "c1") (e_store aks_env)).2
           {| Aks.mc_Name := Some "c1"; Aks.mc_ProvisioningState := Some "Succeeded";
              Aks.mc_AgentPools := Some [pool_profile ("pa", 2%Z)] |} [pool_profile ("pa", 2%Z)]
           (Some "secret", {[ "pa" := 2%Z ]})); try reflexivity.
  - repeat constructor; by eexists.
  - constructor; [|constructor]. split; [reflexivity|]. exists (pool_profile ("pa", 2%Z)), 2%Z.
    split_and!; [by apply list_elem_of_singleton|vm_compute; reflexivity|reflexivity|reflexivity].
Defined.

(** A cluster authority, and an answer that cannot be read. *)
Definition ca_env : env (S := sstore) (Crt := Z) (Key := Z) (SSHKey := Z) (X := mcloud) (KC := ()) :=
  Env (Pharmer (ph_objects empty_store) {[ ("c1", CACertName) := (7%Z, 8%Z) ]} ∅) 0 (Some "secret", ∅)
      (e_scope (m_env ∅ ∅)).

Lemma ca_replaced_or_lost_witness :
  replace_ca sp0 (lift (ParseCertsPEM (Key := Z) "") : GoM (env (SSHKey := Z) (X := mcloud) (KC := ())) (list Z)) ca_env =
    (Err "no certificates", without_ca "c1" ca_env) ∧
  (replace_ca sp0 (lift (ParseCertsPEM (Key := Z) "abc") : GoM (env (SSHKey := Z) (X := mcloud) (KC := ())) (list Z)) ca_env).1 =
    Ok 3%Z.
Proof.
  assert (∀ s, pres cloud_only (lift (ParseCertsPEM (Key := Z) s) :
            GoM (env (S := sstore) (Crt := Z) (Key := Z) (SSHKey := Z) (X := mcloud) (KC := ())) (list Z))) as Hl.
  { intros s. apply pres_lift. exact _. }
  split.
  - apply (proj1 (proj1 (proj2 (ca_replaced_or_lost (Ok ∘ id) Ok (Ok ∘ id) (Ok ∘ id) _ ca_env m_cluster eq_refl ltac:(done) (Hl "")))
             (7%Z, 8%Z) "no certificates" _ ltac:(by vm_compute) eq_refl)).
  - apply (proj1 (proj1 (ca_replaced_or_lost (Ok ∘ id) Ok (Ok ∘ id) (Ok ∘ id) _ ca_env m_cluster eq_refl ltac:(done) (Hl "abc"))
             (7%Z, 8%Z) 3%Z [] _ ltac:(by vm_compute) eq_refl)).
Defined.

(** ** Tags and rules *)
Definition tags_of_a_vpc : aws.BuildParams :=
  {| aws.Lifecycle := aws.ResourceLifecycleOwned; aws.ClusterName := "c1"; aws.ResourceID := "vpc-1"; aws.bp_Name := Some "c1-vpc";
     aws.bp_Role := Some aws.ValueCommonRole; aws.Additional := ∅ |}.

#[export] Instance sample_tags : aws.EC2Tags () := λ _ _, mret ().

Lemma build_tags_read_witness :
  aws.HasOwned (aws.Build tags_of_a_vpc) "c1" = true ∧ aws.HasManaged (aws.Build tags_of_a_vpc) = true.
Proof.
  split.
  - apply (proj1 (build_tags_read (X := ()) tags_of_a_vpc)). done.
  - apply (proj1 (proj2 (build_tags_read (X := ()) tags_of_a_vpc))). reflexivity.
Defined.

Definition a_rule (blocks : list string) : aws.IngressRule :=
  {| aws.ir_Description := "SSH"; aws.ir_Protocol := "tcp"; aws.FromPort := 22; aws.ToPort := 22; aws.CidrBlocks := blocks;
     aws.SourceSecurityGroupIDs := [] |}.

Lemma rules_difference_spec_witness :
  let '(out, _, _) := aws.rules_Difference [a_rule ["b"; "a"]; a_rule ["c"]] [a_rule ["a"; "b"]] in
  out = [a_rule ["c"]] ∧ out `sublist_of` [a_rule ["a"; "b"]; a_rule ["c"]].
Proof.
  split; [vm_compute; reflexivity|].
  exact (proj1 (rules_difference_spec [a_rule ["b"; "a"]; a_rule ["c"]] [a_rule ["a"; "b"]])).
Defined.
