(* ===== verification/MachineSamples.v ===== *)
(** * Concrete instances for the providers of Google's, Amazon's and Azure's machines

    A cloud of firewall rules, one of VPCs and one of named resources, which answer
    everything else with nothing; and the witnesses of the theorems of GceProofs.v,
    AwsProofs.v and AzureProofs.v. *)
From stdpp Require Import base list gmap strings pretty fin_maps.
From Stdlib Require Import Ascii.
From S2P Require Import Prelude GoStrings GoPath Api StoreSpec VfsStore Samples Provider Certs Kube Cloud CloudProofs Apply.
From S2P Require Import StoreFrame CloudSamples Startup ProviderParts ProviderFrame Edit ProviderSamples.
From S2P Require Import Managed CloudApi AwsApi Dokube Gke Aks Eks ManagedFrame ManagedProofs ManagedSamples.
From S2P Require Import Gce GceProofs AwsCloud Aws AwsFrame AwsProofs Azure AzureProofs.

(** ** Google's: the rules of projects *)
Definition gcloud : Type := option string * gmap string (gmap string Gce.Firewall).
#[export] Instance g_connector : Connector gcloud := sample_connector.

Definition rules_of (x : gcloud) (p : string) : gmap string Gce.Firewall := default ∅ (x.2 !! p).

Definition get_rule (p n : string) : GoM gcloud () := λ x,
  match rules_of x p !! n with Some _ => (Ok (), x) | None => (Err "404 notFound", x) end.
Definition add_rule (p : string) (r : Gce.Firewall) : GoM gcloud () := λ x,
  match rules_of x p !! Gce.fw_Name r with
  | Some _ => (Err "409 alreadyExists", x)
  | None => (Ok (), (x.1, <[p := <[Gce.fw_Name r := r]> (rules_of x p)]> x.2))
  end.

#[export] Instance sample_gce_text : Gce.GceText := {|
  Gce.ControllerManager_text _ := Ok ""; Gce.machineSetupConfig_text _ := Ok ""; Gce.yaml_string := Ok; Gce.base64_encode s := s;
  Gce.ini_global _ := Ok "" |}.
#[export] Instance sample_goroutines : Gce.Goroutines := λ A l, l.

#[export] Instance sample_gce : Gce.GceAPI gcloud Z := {|
  Gce.credential_GCE _ := Ok ("project", "account"); Gce.credential_ServiceAccount _ := "account"; Gce.NewServices _ := Ok ();
  Gce.SSHKey_PublicKey k := pretty k; Gce.SSHKey_PrivateKey k := pretty k; Gce.InstanceGroups_List _ _ _ := mret ();
  Gce.Addresses_Get _ _ _ _ := throw "404 notFound"; Gce.Addresses_Insert _ _ _ _ := mret "op"; Gce.Addresses_Delete _ _ _ _ := mret "op";
  Gce.HttpHealthChecks_Get _ _ _ := throw "404 notFound"; Gce.HttpHealthChecks_Insert _ _ _ _ := mret "op";
  Gce.HttpHealthChecks_Delete _ _ _ := mret "op"; Gce.TargetPools_Get _ _ _ _ := throw "404 notFound";
  Gce.TargetPools_Insert _ _ _ _ := mret "op"; Gce.TargetPools_Delete _ _ _ _ := mret "op";
  Gce.ForwardingRules_Get _ _ _ _ := throw "404 notFound"; Gce.ForwardingRules_Insert _ _ _ _ := mret "op";
  Gce.ForwardingRules_Delete _ _ _ _ := mret "op"; Gce.Instances_Get _ _ _ _ := throw "404 notFound";
  Gce.Instances_Insert _ _ _ _ := mret "op"; Gce.Instances_Delete _ _ _ _ := throw "invalid value for field instance";
  Gce.GlobalOperations_Get _ _ _ := mret "DONE"; Gce.RegionOperations_Get _ _ _ _ := mret "DONE";
  Gce.ZoneOperations_Get _ _ _ _ := mret "DONE"; Gce.SetCommonInstanceMetadata _ _ _ := mret "op";
  Gce.Networks_Get _ _ _ := mret (); Gce.Networks_Insert _ _ _ _ := mret ();
  Gce.Firewalls_Get _ p n := get_rule p n; Gce.Firewalls_Insert _ p r := add_rule p r; Gce.Firewalls_Delete _ _ _ := mret ();
  Gce.Disks_Get _ _ _ _ := throw "404 notFound"; Gce.Disks_Insert _ _ _ _ := mret "op"; Gce.Disks_Delete _ _ _ _ := mret () |}.

Lemma rules_of_insert x p m p' : rules_of (x.1, <[p := m]> x.2) p' = if decide (p' = p) then m else rules_of x p'.
Proof.
  unfold rules_of. cbn. case_decide as Hp; [by rewrite Hp, lookup_insert_eq|]. by rewrite lookup_insert_ne by done.
Qed.

#[export] Instance sample_firewalls : FirewallLaws rules_of.
Proof.
  split.
  - intros t p n x. cbn. unfold get_rule. by destruct (rules_of x p !! n).
  - intros t p n x. cbn. unfold get_rule. by destruct (rules_of x p !! n); [eexists|].
  - intros t p r x p' n. cbn. unfold add_rule. destruct (rules_of x p !! Gce.fw_Name r) eqn:Er; [by left|].
    cbn. rewrite rules_of_insert. case_decide as Hp; [|by left]. subst p'.
    destruct (decide (n = Gce.fw_Name r)) as [->|Hn]; [|left; by rewrite lookup_insert_ne by done].
    right. split_and!; [done..|]. exists r. rewrite lookup_insert_eq. by split; [apply list_elem_of_singleton|].
  - intros t p r x. cbn. unfold add_rule. destruct (rules_of x p !! Gce.fw_Name r) eqn:Er; [done|].
    intros _. cbn. rewrite rules_of_insert, decide_True by done. rewrite lookup_insert_eq. by eexists.
Qed.

Definition with_cluster (machines : gmap string Machine) : sstore :=
  set_objects (put_machines "c1" machines (put_clusters {[ "c1" := m_cluster ]} (ph_objects empty_store))) empty_store.

Definition g_env (machines : gmap string Machine) (x : gmap string (gmap string Gce.Firewall)) :
    env (S := sstore) (Crt := Z) (Key := Z) (SSHKey := Z) (X := gcloud) (KC := ()) :=
  Env (with_cluster machines) 0 (Some "token", x)
      {| sc_Cluster := Some m_cluster; sc_Certs := None; sc_CloudManager := None; sc_AdminClient := None |}.

(** A worker that cannot be deleted *)
Definition a_worker : gmap string Machine := {[ "c1-node" := sample_machine "c1-node" ]}.

Definition a_master : gmap string Machine :=
  let m := sample_machine "c1-master" in
  {[ "c1-master" :=
       {| machine_TypeMeta := machine_TypeMeta m; machine_ObjectMeta := machine_ObjectMeta m;
          machine_Spec := {| SpecName := ""; MachineProviderSpec := None;
                             Versions := {| Kubelet := "v1.13.5"; ControlPlane := "v1.13.5" |};
                             ProviderID := None |};
          machine_Status := machine_Status m |} ]}.

#[export] Instance sample_delete_calls : DeleteCalls gcloud Z.
Proof. by split. Qed.

Lemma gce_delete_witness :
  (Gce.ApplyDelete sp0 (g_env a_worker ∅)).1 = Err "missing name" ∧
  (Gce.ApplyDelete sp0 (g_env a_master ∅)).1 = Ok ().
Proof.
  split.
  - refine (proj1 (proj1 (gce_delete (Ok ∘ id) Ok (Ok ∘ id) (Ok ∘ id) (g_env a_worker ∅) m_cluster "token" eq_refl eq_refl _)
                         "c1-node" (sample_machine "c1-node") eq_refl eq_refl)).
    intros name m Hm. change (a_worker !! name = Some m) in Hm. unfold a_worker in Hm.
    apply lookup_singleton_Some in Hm as [_ <-]. reflexivity.
  - refine (eq_trans (proj1 (proj2 (gce_delete (Ok ∘ id) Ok (Ok ∘ id) (Ok ∘ id) (g_env a_master ∅) m_cluster "token"
                                      eq_refl eq_refl _) _)) _); [..|by vm_compute];
      intros name m Hm; change (a_master !! name = Some m) in Hm; unfold a_master in Hm;
      apply lookup_singleton_Some in Hm as [_ <-]; reflexivity.
Defined.

(** The rules are made where there are none. *)
Definition ensured := Gce.ensureFirewallRules sp0 (g_env ∅ ∅).

Lemma ensured_ok : ensured = (Ok (), ensured.2).
Proof.
  assert (is_ok ensured.1 = true) as Hok by (vm_compute; reflexivity).
  by destruct ensured as [[[]|?|?] ?].
Qed.

Lemma gce_firewalls_witness : is_Some (rules_of (e_cloud ensured.2) (Project (cloud_of m_cluster)) !! "c1-allow-ssh").
Proof.
  refine (proj1 (gce_firewalls rules_of (Ok ∘ id) Ok (Ok ∘ id) (Ok ∘ id) (g_env ∅ ∅) m_cluster ensured.2 eq_refl ensured_ok)
                (Gce.ruleSSH "c1" (cloud_of m_cluster)) _).
  right. left.
Defined.

(** ** Amazon's: VPCs and their tags, and the group of the masters *)
Definition acloud : Type := option string * gmap string (gmap string string).
#[export] Instance a_connector : Connector acloud := sample_connector.
#[export] Instance sample_patience : AwsCloud.Patience := 10.
#[export] Instance sample_aws_texts : AwsCloud.AwsTexts := {|
  AwsCloud.IAMMasterRole := "{}"; AwsCloud.IAMNodeRole := "{}"; AwsCloud.IAMMasterPolicy := "{}"; AwsCloud.IAMControllerPolicy := "{}";
  AwsCloud.IAMNodePolicy := "{}" |}.

Definition list_vpcs (fs : list aws.Filter) : GoM acloud (list string) := λ x,
  (Ok ((map_to_list (base.filter (λ v, forallb (tag_matches v.2) fs = true) x.2)).*1), x).
Definition new_vpc : GoM acloud string := λ x,
  let id := "vpc-" +:+ pretty (size x.2) in
  match x.2 !! id with Some _ => (Err "500", x) | None => (Ok id, (x.1, <[id := ∅]> x.2)) end.
Definition tag_vpcs (ids : list string) (tags : gmap string string) : GoM acloud () := λ x,
  match ids with
  | [id] => match x.2 !! id with
            | Some old => (Ok (), (x.1, <[id := tags ∪ old]> x.2))
            | None => (Err "InvalidID", x)
            end
  | _ => (Err "InvalidID", x)
  end.
Definition list_groups (fs : list aws.Filter) : GoM acloud (list AwsCloud.SecurityGroupDesc) :=
  mret (if existsb (λ f, bool_decide (aws.flt_Values f = ["c1-controlplane"])) fs
        then [{| AwsCloud.sgd_GroupId := "sg-1"; AwsCloud.sgd_Ingress := []; AwsCloud.sgd_Egress := [] |}] else []).

#[export] Instance sample_sdk : AwsCloud.AwsSDK acloud Z := {|
  AwsCloud.credential_AWS _ := Ok ("id", "secret"); AwsCloud.NewSession _ _ := Ok "session"; AwsCloud.SharedSession := Ok "session";
  AwsCloud.SSHKey_PublicKey k := pretty k; AwsCloud.base64_Std s := s; AwsCloud.bastion_userdata := Ok "";
  AwsCloud.ListPolicies _ _ := mret {| AwsCloud.pp_Names := []; AwsCloud.pp_IsTruncated := false; AwsCloud.pp_Marker := None |};
  AwsCloud.GetInstanceProfile _ _ := mret true; AwsCloud.CreateRole _ _ _ := mret (); AwsCloud.PutRolePolicy _ _ _ _ := mret ();
  AwsCloud.CreateInstanceProfile _ _ := mret (); AwsCloud.AddRoleToInstanceProfile _ _ _ := mret ();
  AwsCloud.RemoveRoleFromInstanceProfile _ _ _ := mret (); AwsCloud.DeleteRolePolicy _ _ _ := mret (); AwsCloud.DeleteRole _ _ := mret ();
  AwsCloud.DeleteInstanceProfile _ _ := mret (); AwsCloud.GetCallerIdentity _ := mret "account"; AwsCloud.DescribeVolumes _ _ := mret [];
  AwsCloud.DescribeImages _ _ _ := mret []; AwsCloud.DescribeKeyPairs _ _ := mret []; AwsCloud.ImportKeyPair _ _ _ := mret ();
  AwsCloud.DeleteKeyPair _ _ := mret (); AwsCloud.ec2_CreateTags _ := tag_vpcs; AwsCloud.DescribeVpcs _ := list_vpcs;
  AwsCloud.CreateVpc _ _ := new_vpc; AwsCloud.WaitUntilVpcAvailable _ _ := mret (); AwsCloud.DeleteVpc _ _ := mret ();
  AwsCloud.DescribeSubnets _ _ := mret []; AwsCloud.CreateSubnet _ _ _ _ := mret "subnet";
  AwsCloud.WaitUntilSubnetAvailable _ _ := mret (); AwsCloud.MapPublicIpOnLaunch _ _ := mret (); AwsCloud.DeleteSubnet _ _ := mret ();
  AwsCloud.DescribeInternetGateways _ _ := mret []; AwsCloud.CreateInternetGateway _ := mret "igw";
  AwsCloud.AttachInternetGateway _ _ _ := mret (); AwsCloud.DetachInternetGateway _ _ _ := mret ();
  AwsCloud.DeleteInternetGateway _ _ := mret (); AwsCloud.DescribeNatGateways _ _ := mret [];
  AwsCloud.DescribeNatGateway _ _ := mret ["deleted"]; AwsCloud.CreateNatGateway _ _ _ := mret "nat";
  AwsCloud.WaitUntilNatGatewayAvailable _ _ := mret (); AwsCloud.DeleteNatGateway _ _ := mret ();
  AwsCloud.DescribeRouteTables _ _ := mret []; AwsCloud.CreateRouteTable _ _ := mret "rtb"; AwsCloud.CreateRoute _ _ _ _ := mret ();
  AwsCloud.AssociateRouteTable _ _ _ := mret (); AwsCloud.DisassociateRouteTable _ _ := mret (); AwsCloud.DeleteRouteTable _ _ := mret ();
  AwsCloud.DescribeSecurityGroups _ := list_groups; AwsCloud.CreateSecurityGroup _ _ _ _ := mret "sg";
  AwsCloud.AuthorizeSecurityGroupIngress _ _ _ := mret (); AwsCloud.RevokeSecurityGroupIngress _ _ _ := mret ();
  AwsCloud.RevokeSecurityGroupEgress _ _ _ := mret (); AwsCloud.DeleteSecurityGroup _ _ := mret ();
  AwsCloud.DescribeInstances _ _ := mret []; AwsCloud.DescribeInstancesByID _ _ := mret [];
  AwsCloud.RunInstances _ _ := mret {| AwsCloud.res_Instances := []; AwsCloud.res_GoString := "" |};
  AwsCloud.TerminateInstances _ _ := mret (); AwsCloud.WaitUntilInstanceTerminated _ _ := mret ();
  AwsCloud.AllocateAddress _ := mret ("eip", "1.2.3.4"); AwsCloud.DescribeAddresses _ _ := mret []; AwsCloud.ReleaseAddress _ _ := mret ();
  AwsCloud.DescribeLoadBalancers _ _ := mret ["dns"]; AwsCloud.CreateLoadBalancer _ _ := mret "dns";
  AwsCloud.ConfigureHealthCheck _ _ _ := mret (); AwsCloud.DeleteLoadBalancer _ _ := mret ();
  AwsCloud.RegisterInstances _ _ _ := mret () |}.

#[export] Instance sample_vpcs : VpcLaws (SSHKey := Z) (snd : acloud → _).
Proof.
  split; [done| |intros t cidr x|done|intros t id k v x old Hold].
  - intros t fs x l [= <-] id. rewrite list_elem_of_fmap. split.
    + intros ([id' tags] & -> & Hin%elem_of_map_to_list). apply map_lookup_filter_Some in Hin as [Hin Hm]. by exists tags.
    + intros (tags & Hin & Hm). exists (id, tags). split; [done|]. apply elem_of_map_to_list, map_lookup_filter_Some. done.
  - cbn. unfold new_vpc. destruct (x.2 !! _) eqn:E; [done|]. by split.
  - change (AwsCloud.ec2_CreateTags t) with tag_vpcs.
    assert (tag_vpcs [id] {[ k := v ]} x = (Ok (), (x.1, <[id := <[k := v]> old]> x.2))) as ->; [|reflexivity].
    change (x.2 !! id = Some old) in Hold. unfold tag_vpcs. by rewrite (insert_union_singleton_l old), Hold.
Qed.

Definition a_cluster : Cluster :=
  AwsCloud.with_AWSStatus
    (with_cluster_config m_cluster (λ config, with_Cloud config (Aws.with_aws (Cloud config) (Aws.default_aws m_cluster))))
    {| MasterSGId := ""; NodeSGId := ""; BastionSGId := "" |}.

Definition a_env (x : gmap string (gmap string string)) :
    env (S := sstore) (Crt := Z) (Key := Z) (SSHKey := Z) (X := acloud) (KC := ()) :=
  Env empty_store 0 (Some "session", x)
      {| sc_Cluster := Some a_cluster; sc_Certs := None; sc_CloudManager := None; sc_AdminClient := None |}.

Lemma aws_vpc_witness : its_vpc a_cluster (Aws.ensureVPC (a_env ∅)).2.(e_cloud).2 "vpc-0".
Proof.
  refine (proj1 (proj2 (aws_vpc snd (a_env ∅) a_cluster (Aws.ensureVPC (a_env ∅)).1 (Aws.ensureVPC (a_env ∅)).2 eq_refl
            (surjective_pairing _))) "vpc-0" _).
  vm_compute. reflexivity.
Defined.

Lemma aws_groups_witness :
  (Aws.ensureSecurityGroup "vpc-0" (a_env ∅)).2.(e_cloud) = (Some "session", ∅) ∧
  (Aws.ensureSecurityGroup "vpc-0" (a_env ∅)).1 ≠ Ok ().
Proof.
  pose proof (aws_groups eq (λ t fs x, eq_refl) (Aws.default_aws m_cluster) "vpc-0" "sg-1" (a_env ∅)) as Hw.
  destruct Hw as [Hsame Hfails]; [by eexists _, _|vm_compute; reflexivity|].
  split; [symmetry; exact Hsame|]. apply Hfails. intros x t l x' <- [= <- _]. reflexivity.
Defined.

(** ** Azure's: the names of resources, and the one that is being made *)
Definition zcloud : Type := option string * (gset resource * option resource).
#[export] Instance z_connector : Connector zcloud := sample_connector.

Definition z_find {A} (k : resource) (a : A) : GoM zcloud A := λ x, (if decide (k ∈ x.2.1) then Ok a else Err "NotFound", x).
Definition z_put (k : resource) : GoM zcloud string := λ x, (Ok "op", (x.1, (x.2.1, Some k))).
Definition z_wait : GoM zcloud () := λ x,
  (Ok (), (x.1, (match x.2.2 with Some k => {[ k ]} ∪ x.2.1 | None => x.2.1 end, None))).
Definition z_pip : Azure.PublicIPAddress :=
  {| Azure.pip_ID := Some "ip"; Azure.pip_Name := Some "ip"; Azure.pip_Fqdn := Some "c1.example.com"; Azure.pip_Address := Some "1.2.3.4" |}.
Definition z_lb : Azure.LoadBalancer := {| Azure.alb_Pools := Some [Some "pool"] |}.

#[export] Instance sample_azure : Azure.AzureSDK zcloud Z := {|
  Azure.credential_Azure _ := Err "no credential"; Azure.NewClients _ := Ok "token"; Azure.SSHKey_PublicKey k := pretty k;
  Azure.SSHKey_PrivateKey k := pretty k; Azure.base64_Std s := s; Azure.GeneratePassword n := pretty n;
  Azure.WithUniqSuffix s n := s +:+ "-" +:+ pretty n; Azure.json_CloudConfig _ := Ok "{}"; Azure.clientcmd_Write _ := Ok "";
  Azure.WaitForCompletion _ f := if decide (f = "op") then z_wait else mret ();
  Azure.Groups_Get _ g := z_find (group_key g) (); Azure.Groups_CreateOrUpdate _ g _ := _ ← z_put (group_key g); z_wait;
  Azure.Groups_Delete _ _ := mret ();
  Azure.VirtualNetworks_Get _ g n := z_find (vnet_key g n) ();
  Azure.VirtualNetworks_CreateOrUpdate _ g n _ := z_put (vnet_key g n); Azure.VirtualNetworks_Result _ _ := mret ();
  Azure.SecurityGroups_Get _ g n := z_find (nsg_key g n) n;
  Azure.SecurityGroups_CreateOrUpdate _ g n _ := z_put (nsg_key g n); Azure.SecurityGroups_Result _ _ := mret "nsg";
  Azure.RouteTables_Get _ g n := z_find (table_key g n) n;
  Azure.RouteTables_CreateOrUpdate _ g n _ := z_put (table_key g n); Azure.RouteTables_Result _ _ := mret "rt";
  Azure.Subnets_Get _ g v n := z_find (subnet_key g v n) {| Azure.subnet_ID := Some n |};
  Azure.Subnets_CreateOrUpdate _ g v n _ := z_put (subnet_key g v n);
  Azure.Subnets_Result _ _ := mret {| Azure.subnet_ID := Some "subnet" |};
  Azure.LoadBalancers_Get _ g n := z_find (lb_key g n) z_lb;
  Azure.LoadBalancers_CreateOrUpdate _ g n _ := z_put (lb_key g n); Azure.LoadBalancers_Result _ _ := mret z_lb;
  Azure.PublicIPs_Get _ g n := z_find (pip_key g n) z_pip;
  Azure.PublicIPs_CreateOrUpdate _ g n _ := z_put (pip_key g n); Azure.PublicIPs_Result _ _ := mret z_pip;
  Azure.Interfaces_Get _ g n := z_find (nic_key g n) {| Azure.nic_ID := Some n |};
  Azure.Interfaces_CreateOrUpdate _ g n _ := z_put (nic_key g n);
  Azure.Interfaces_Result _ _ := mret {| Azure.nic_ID := Some "nic" |};
  Azure.VMs_Get _ _ n := mret {| Azure.machine_ID := Some n |}; Azure.VMs_CreateOrUpdate _ _ _ _ := mret "op";
  Azure.VMExtensions_CreateOrUpdate _ _ _ _ _ := mret () |}.

Definition z_res (x : zcloud) : gset resource := x.2.1.
Definition z_pending (x : zcloud) (f : string) : option resource := if decide (f = "op") then x.2.2 else None.

Lemma z_asks {A} k (a : A) : asks z_res k (z_find k a).
Proof. intros x. split; [done|]. unfold z_find. by case_decide. Qed.
Lemma z_starts k : starts z_res z_pending k (z_put k).
Proof. intros x. split; [|by intros f [= <-]]. unfold grows, z_res. cbn. split; [done|clear; set_solver]. Qed.
Lemma z_wait_grows k x : x.2.2 = Some k → grows z_res k x (z_wait x).2 ∧ k ∈ z_res (z_wait x).2.
Proof. intros E. unfold z_wait, grows, z_res. cbn. rewrite E. split_and!; clear; set_solver. Qed.

#[export] Instance sample_azure_laws : AzureLaws z_res z_pending.
Proof.
  split; intros; try apply z_asks; try apply z_starts; try reflexivity.
  - cbn in *. unfold z_pending in *. case_decide as Hf; [|done]. destruct (z_wait_grows k x) as [? Hin]; [done|]. by split.
  - cbn. destruct (z_wait_grows (group_key g) (z_put (group_key g) x).2 eq_refl) as [Hg Hin]. by split.
Qed.

Definition z_config : azure.AzureClusterProviderSpec :=
  {| azure.ac_Meta := azure.zero_Meta; azure.ac_NetworkSpec := azure.ac_NetworkSpec azure.zero_ClusterSpec;
     azure.ac_ResourceGroup := "c1"; azure.ac_Location := "eastus"; azure.ac_SSHPublicKey := ""; azure.ac_SSHPrivateKey := "";
     azure.ac_CAKeyPair := azure.zero_KeyPair; azure.ac_EtcdCAKeyPair := azure.zero_KeyPair;
     azure.ac_FrontProxyCAKeyPair := azure.zero_KeyPair; azure.ac_SAKeyPair := azure.zero_KeyPair; azure.ac_AdminKubeconfig := "";
     azure.ac_DiscoveryHashes := []; azure.ac_ClusterConfiguration := None |}.
Definition z_json : azure.AzureJson := {|
  azure.json_MachineSpec _ := Ok "{}"; azure.unjson_MachineSpec _ := Ok azure.zero_MachineSpec;
  azure.json_MachineStatus _ := Ok "{}"; azure.unjson_MachineStatus _ := Ok azure.zero_MachineStatus;
  azure.json_ClusterSpec _ := Ok "{}"; azure.unjson_ClusterSpec _ := Ok z_config;
  azure.json_ClusterStatus _ := Ok "{}"; azure.unjson_ClusterStatus _ := Ok azure.zero_ClusterStatus |}.

Definition z_azure : AzureSpec :=
  {| InstanceImageVersion := ""; azure_RootPassword := ""; VPCCIDR := "10.0.0.0/8"; ControlPlaneSubnetCIDR := "10.0.0.0/16";
     NodeSubnetCIDR := "10.1.0.0/16"; InternalLBIPAddress := "10.0.0.100"; AzureDNSZone := ""; SubnetCIDR := ""; ResourceGroup := "c1";
     SubnetName := ""; SecurityGroupName := ""; VnetName := ""; Api.RouteTableName := ""; StorageAccountName := "";
     SubscriptionID := "subscription" |}.
Definition z_cluster : Cluster :=
  let c := with_cluster_config m_cluster (λ config, with_Cloud config (Aks.with_azure (Cloud config) z_azure)) in
  set_capi c (with_provider_spec (ClusterAPI (Spec c)) "{}").
Definition z_env : env (S := sstore) (Crt := Z) (Key := Z) (SSHKey := Z) (X := zcloud) (KC := ()) :=
  Env empty_store 0 (Some "token", (∅, None))
      {| sc_Cluster := Some z_cluster; sc_Certs := None; sc_CloudManager := None; sc_AdminClient := None |}.

(** Preparing makes all of them where there are none, and succeeds. *)
Lemma azure_prepare_witness : resources_of "c1" "subscription" ⊆ z_res (e_cloud (@Azure.PrepareCloud _ _ _ _ _ _ z_json _ _ z_env).2).
Proof.
  refine (proj1 (proj2 (proj2 (proj2
    (@azure_prepare _ _ _ _ _ _ z_json _ _ z_res z_pending _ "c1" z_azure z_config eq_refl z_env z_cluster eq_refl _)))) _).
  - split_and!; vm_compute; reflexivity.
  - vm_compute. reflexivity.
Defined.
